(* ===== verification/_CoqProject ===== *)
-Q . S2P
Prelude.v
TcpSeq.v
Mbuf.v
Cksum.v
SockBuf.v
ByteQueue.v
Socket.v
SoQueue.v
TcpVar.v
Sample.v
InPcb.v
TcpHdr.v
TcpSubr.v
TcpReass.v
TcpOutput.v
TcpOutputOk.v
TcpAdv.v
TcpInput.v
TcpInputOk.v
TcpStream.v
TcpFsm.v
TcpReset.v
TcpPredict.v
TcpDeliver.v
TcpTimer.v
TcpTimerOk.v
TcpUsrreq.v
TcpOptions.v
TcpKernel.v
TcpKernelOk.v
TcpPath.v
IpHdr.v
IpReass.v
IpExpire.v
IpOutput.v
IpInput.v
IpFragOk.v
IpInputOk.v
IpForwardOk.v
Udp.v
UdpOk.v
Bpf.v
BpfOk.v
BpfDev.v
BpfDevOk.v
SlCompress.v
SlCompressOk.v
SlRound.v
Slip.v
SlipOk.v
SoCall.v
SoCallOk.v
SoTcp.v
SoTcpOk.v
Radix.v
RadixTree.v
RadixMatch.v
RadixMask.v
RadixOk.v
Routing.v
Icmp.v
IcmpOk.v
IcmpErrOk.v
Raw.v
RawOk.v
Ether.v
EtherInv.v
EtherOk.v
Scenario.v
