(* ===== verification/Prelude.v ===== *)
(** * A verification of the 4.4BSD-Lite2 TCP/IP stack

    The program is the network stack of 4.4BSD-Lite2, built to run in user mode
    (src/lib, src/tests): mbufs and sockets from src/sys/kern, the protocols from
    src/sys/netinet and src/sys/net.  This library models the parts that make TCP, UDP
    and IP work and proves what makes them correct.  The rest of src/sys (file systems, virtual
    memory, drivers, machine-dependent code) is not part of that build.

    ** The parts and how they interact

    A system call reaches TCP through sosend or soreceive and tcp_usrreq, a packet through tcp_input, the clock
    through tcp_slowtimo and tcp_fasttimo.  All of them work on a connection: a socket
    with two buffers, an internet control block (inpcb) and a TCP control block (tcpcb).
    tcp_input trims a segment to the receive window, processes its ACK (which drops
    acknowledged bytes from the send buffer), queues its text in the sequencing queue
    (tcp_reass), moves what is in order to the receive buffer and calls tcp_output.
    tcp_output copies bytes of the send buffer into a packet with m_copym, fills in the
    header from the template, checksums it and hands it to IP.  udp_output does the same
    for a datagram.  ip_output finds the route and fragments what does not fit the
    interface; ipintr checks a packet, processes its options, reassembles fragments and
    passes the whole to tcp_input or udp_input, or forwards it.  A SLIP interface compresses
    TCP headers and frames the packets for a terminal line, and slinput puts the packets of
    the other end on the input queue of IP; BPF copies packets to processes.  The
    radix tree finds the route with the longest matching mask.  On an Ethernet ether_output asks
    ARP for the address of the next hop, whose entry is a route too.

    ** Files

    - Prelude: machine words (u32, s32, u16, s16, u8 with their wrap-around), the flag
      words, record updates [r <| f := v |>], the outcome monad [Ret | Panic | OutOfFuel]
      with [let!], lists indexed by Z, tactics and hint databases.
    - TcpSeq: tcp_seq.h, comparison of sequence numbers.
    - Mbuf: uipc_mbuf.c and mbuf.h.  A chain is a list of mbufs, each with its offset,
      bytes, flags and cluster; [mpool] holds the cluster reference counts and a script
      of allocation failures.
    - Cksum: in_cksum.c, and the byte-wise reference [cksum_ref].
    - SockBuf, ByteQueue: the sb* routines of uipc_socket2.c, with the invariant [sb_inv]
      (counters equal to what is queued); the interface [ByteQueue] through which TCP
      uses a buffer, its instance and the refinement of a FIFO of bytes.
    - Socket, SoQueue: socket states and wakeups; the accept queues as links in a store
      of sockets (a [gmap]).
    - TcpVar, Sample, InPcb, TcpHdr, TcpSubr: the data of TCP; a concrete connection for
      the examples; in_pcb.c; the wire form of the header; tcp_subr.c with tcp_mss and
      tcp_xmit_timer.
    - TcpReass, TcpOutput, TcpInput, TcpTimer, TcpUsrreq: the routines of the same names.
      tcp_output is cut at its comments into steps composed by [output_turn] and the
      [again] loop; tcp_input is a sequence of stages [kst -> ilocals -> outcome ires],
      where [Next] falls through and [Goto] jumps to a label.
    - TcpKernel: all connections: the header part of tcp_input, findpcb with its cache,
      sonewconn1, the clock loops.
    - TcpOutputOk, TcpAdv, TcpInputOk, TcpFsm, TcpReset, TcpPredict, TcpTimerOk, TcpOptions,
      TcpKernelOk: the theorems about them (TcpAdv: the receive window that tcp_output offers).
    - TcpStream: delivery of a whole stream by the window, trimming and reassembly stages of
      tcp_input.  TcpDeliver: a data segment through all stages, from its arrival on the
      connection to the reply.  TcpPath: from the send buffer of one end through the whole of
      tcp_input, findpcb and the other connections included, to the receive buffer of the
      other.
    - IpHdr, IpReass, IpExpire, IpOutput, IpInput: the IP header; ip_reass and the timers
      of its queues; ip_output.c; ip_input.c with options, source routes and forwarding.
    - IpFragOk, IpInputOk, IpForwardOk: fragmentation, the way from ip_output through a
      network to the protocol, and forwarding.
    - Udp, UdpOk: udp_usrreq.c with in_pcbconnect, in_pcbdetach and in_pcbnotify of
      in_pcb.c; the way of a datagram from socket to socket.
    - Bpf, BpfOk: bpf_filter.c, the interpreter of packet filters and its validator; what
      validation guarantees.
    - BpfDev, BpfDevOk: bpf.c, the descriptors with their three buffer slots, and what a
      reading process gets.
    - SlCompress, SlCompressOk, SlRound: slcompress.c, compression of TCP/IP headers on serial
      lines; headers as records; the round trip between a sender and a receiver in step.
    - Slip, SlipOk: if_sl.c, the serial line interface; packets from the queues of one end,
      character by character over the line, to the IP input queue of the other.
    - SoCall, SoCallOk: sosend and soreceive of uipc_socket.c, with uiomove, sblock and
      sbwait, above a protocol given by the class [Proto]; what a call does to a stream.
    - SoTcp, SoTcpOk: TCP as that protocol; write(2) and read(2) on a connection.
    - Radix: radix.c, the tree that routing tables are kept in; RadixTree, RadixMatch,
      RadixMask, RadixOk: its invariant, for the trees of routes and of masks alike; lookups;
      the tree of masks; adding routes.  Routing: the theorems and a table of Internet routes.
    - Icmp: ip_icmp.c, messages received, reflected and raised; IcmpOk: an echo request and its
      reply between two hosts; IcmpErrOk: error messages.  Raw, RawOk: raw_ip.c, the sockets
      that get a packet, and a ping from process to process.
    - Ether: if_ether.c (ARP), ether_output and ether_input of if_ethersubr.c, and rtalloc1,
      rtfree and rtrequest of route.c as far as ARP calls them; EtherInv: the invariant of the
      routes, with their reference counts, under every operation; EtherOk: resolving an address
      between two stations, and giving up one that does not answer.
    - Scenario: two hosts, a connection from connect to close, evaluated.

    ** State

    [kst] is the state a routine works on: the connection's tcpcb, inpcb and socket, the
    globals of TCP, the mbuf pool, the packets handed to ip_output (last first), the
    results ip_output will return, and whether tcp_close has freed the control block.
    [kernel] holds all connections with the shared parts; [load] and [store] move between
    the two.  [ipost] is the state of IP output (the identification counter, the packets
    handed to interfaces, the results they return), [ipist] of IP input (the reassembly
    queues, the forwarding route, the packets passed up and the calls of icmp_error), [icst] of
    ICMP (above an [ipist]), [ets] of Ethernet and ARP (routes by identity, llinfo_arp, queues), and
    [ust] of UDP (its control blocks with their sockets, above an [ipist]).  A panic of the code is [Panic]; a wild read is a panic too.

    ** What the theorems show

    - Sending: tcp_output on a synchronised connection returns and sends only genuine
      parts of the stream inside the window, which the receiver's header stage accepts
      and reads back; so do retransmissions, of which the first starts at snd_una; responses
      and keep-alive probes are well formed.  The invariant [snd_ok] relates snd_una, snd_nxt and snd_max to unbounded
      stream positions.
    - Receiving: any sequence of segments of the stream, reordered, repeated and
      overlapping, is delivered exactly; the invariant [rcv_at] relates rcv_nxt and the
      queue to the peer's stream.
    - End to end: what tcp_output sends, lost, repeated or reordered by the network and run
      through tcp_input of the other host, arrives in the receive buffer of the right
      connection as the bytes of the send buffer.  This is for data packets in one direction:
      without FIN and urgent pointer, inside the offered window, with acknowledgements of
      nothing new and timestamps that do not go back (PAWS drops others).
    - The offered receive window is never taken back and never exceeds the buffer.
    - Acknowledgements move the send side exactly to the acknowledged position.
    - The state machine: tcp_input moves along the arrows of RFC 793; resets are never
      answered.
    - Header prediction computes what the general path computes, which then may reply at once
      where header prediction leaves the ACK to the timer.
    - Options, window scale, round-trip estimation and timers stay in their bounds.
    - Socket buffers are FIFO queues of bytes; accept queues keep order; mbuf routines
      keep data and cluster references; in_cksum is the Internet checksum.
    - IP: fragments, reordered and repeated by a network, give one packet with the bytes
      sent; overlapping fragments of one datagram reassemble; no cluster reference is
      lost; a gateway forwards with one less to live; a UDP datagram arrives at the right
      socket.
    - BPF: checked filter programs cannot go wrong on a contiguous packet, loads whose offset
      wraps around 0 apart (and which checks bpf_validate omits);
      under every interleaving of packets and reads a descriptor delivers what its filter
      accepts, in order, except what it counts as dropped.
    - SLIP: what slstart sends arrives, byte for byte and in order, through framing, header
      compression, slinput and header decompression, for packets that do not turn URG off in
      sequence; one run shows such a packet rebuilt with URG set.
    - System calls: a write puts bytes of the user in order at the end of the stream, and they
      arrive at the peer; a read returns the next bytes that arrived; urgent data and ends of
      records are excluded (one run shows MSG_EOR on a stream ending in a panic).
    - Routing: adding routes to the empty table refines a set of prefixes, and a lookup is a
      longest match.
    - ICMP: an echo request from a process is answered with its data, and the process gets the
      answer; an error message returns the packet it is
      about, is sent to its source and never raises another; a packet without time to live is
      answered by the gateway.
    - ARP: a packet for a neighbour is held while it is asked for, and leaves with the answer; a
      neighbour that does not answer five times is given up for 20 seconds; in every reachable
      state the counts of references are right, no freed entry is used and no panic is reached,
      for ARP frames that are not shorter than the 28 bytes in_arpinput reads.
    - Ports are exclusive, and each error of in_pcbbind has its condition; lookup finds the
      best match; the pcb cache is transparent.

    ** Fuel

    Loops that are not structural take fuel: tcp_output one turn per byte in the send
    buffer and two more (proved enough, [tcp_output_ok]); sbflush one per mbuf and one
    more (proved enough); tcp_dooptions its option length and one more (proved
    enough; without that it would be [OutOfFuel]); the port search 8000, more than the 3977 ports
    (proved enough when a port is free, and proved never to end when none is); the window scale 15 shifts
    (proved enough); the queue walks the size of the store (proved enough); a jump back
    to findpcb the number of connections and two; the loops over IP options and fragments
    the length of the options or of the packet (proved enough where the theorems say that
    the routine returns; ip_optcopy does not end on an option of length 0); the search for a
    header state the number of states, slstart one turn per packet and one more, the copy to
    the terminal one turn per byte (all proved enough); the loops of sosend and soreceive a
    given number of turns, enough for the calls of the theorems; the bit searches of the radix
    tree 8 and 9 turns, one more than a byte needs.

    ** Assumptions

    For TCP and IP the routing table, in_localaddr and the interface list are parameters ([net_env],
    [connenv], [ifenv], [ipenv], [inenv]), and so are the results of if_output; for TCP
    ip_output is a list with scripted results, and for IP input so is icmp_error, for ICMP the
    calls of rip_input, ctlinput and rtredirect.  The
    code of the parameters is not modelled and nothing is assumed of their answers beyond what a theorem
    says.  The character lists of tty_subr.c, whose bodies are not in the repository, are the
    class [Clist] with the laws [ClistLaws]; kmem_malloc is a function argument.  MALLOC for
    control blocks may fail as the caller says.  A process that sleeps in sosend or soreceive
    continues in the state that a function gives (a hypothesis says what it keeps); a fault of
    copyin or copyout is scripted in the uio.  In the radix tree a leaf is known by the address
    of its pair of nodes, and two masks are the same object when they are equal, which the
    tree of masks is there for.  Reference counts of routes do not overflow their short.  Addresses and ports are kept in host order;
    the header codec does the conversions.

    ** Not modelled

    Statistics and tracing (tcp_debug.c); interrupt levels (splnet, splx): the code runs to
    completion; IP options in tcp_input; TUBA; the TCP_COMPAT_42 and DIAGNOSTIC variants,
    which the build does not define.  In the socket layer socreate, soconnect2, the
    options and the passing of access rights are left out.  rn_delete and rn_walktree are not
    modelled: deleting moves internal nodes between the pairs of leaves, a sharing of storage
    that trees as values do not have.  Of route.c rtinit, rtredirect and the search for
    an interface address are left out; routing sockets, IGMP and interface lists too, and so are the
    multicast router, ip_ctloutput and the sysctl calls.  Of Ethernet the families NS, ISO and
    LLC, the drivers (the theorems say what they hand up) and the lists of multicast addresses
    are left out. *)
From Stdlib Require Export ZArith Lia.
From stdpp Require Export base numbers list strings tactics.
#[global] Open Scope Z_scope.
#[global] Set Default Goal Selector "!".

(** ** Machine integers

    The stack is built with [gcc -m32] for the i386: [int], [long] and pointers
    are 32 bits wide.  A C integer is a [Z] and every conversion to a width is
    written out with one of these functions. *)

Definition u32 (x : Z) : Z := x mod 4294967296.
Definition u16 (x : Z) : Z := x mod 65536.
Definition u8 (x : Z) : Z := x mod 256.
Definition s32 (x : Z) : Z := (x + 2147483648) mod 4294967296 - 2147483648.
Definition s16 (x : Z) : Z := (x + 32768) mod 65536 - 32768.

(** [imin] works on [int]; [min] and [max] of libkern.h work on [u_int]:
    both arguments are converted to unsigned first. *)
Definition imin (a b : Z) : Z := if s32 a <? s32 b then s32 a else s32 b.
Definition cmin (a b : Z) : Z := if u32 a <? u32 b then u32 a else u32 b.
Definition cmax (a b : Z) : Z := if u32 a >? u32 b then u32 a else u32 b.

(** Arithmetic modulo a power of two, by reduction to linear arithmetic. *)
Ltac wrap_lia :=
  unfold cmin, cmax, imin, u32, u16, u8, s32, s16 in *;
  repeat match goal with
    | |- context [if ?b then _ else _] => destruct b eqn:?
    | H : context [if ?b then _ else _] |- _ => destruct b eqn:?
    end;
  Z.to_euclidean_division_equations; lia.

Lemma u32_range x : 0 <= u32 x < 4294967296.
Proof. wrap_lia. Qed.
Lemma u16_range x : 0 <= u16 x < 65536.
Proof. wrap_lia. Qed.
Lemma s32_range x : -2147483648 <= s32 x < 2147483648.
Proof. wrap_lia. Qed.
Lemma s16_range x : -32768 <= s16 x < 32768.
Proof. wrap_lia. Qed.
Lemma u32_id x : 0 <= x < 4294967296 -> u32 x = x.
Proof. intros. by apply Z.mod_small. Qed.
Lemma u16_id x : 0 <= x < 65536 -> u16 x = x.
Proof. intros. by apply Z.mod_small. Qed.
Lemma u8_id x : 0 <= x < 256 -> u8 x = x.
Proof. intros. by apply Z.mod_small. Qed.
Lemma s32_id x : -2147483648 <= x < 2147483648 -> s32 x = x.
Proof. wrap_lia. Qed.
Lemma s16_id x : -32768 <= x < 32768 -> s16 x = x.
Proof. wrap_lia. Qed.
Lemma s32_u32 x : s32 (u32 x) = s32 x.
Proof. wrap_lia. Qed.
Lemma u32_s32 x : u32 (s32 x) = u32 x.
Proof. wrap_lia. Qed.
Lemma u32_u32 x : u32 (u32 x) = u32 x.
Proof. wrap_lia. Qed.
Lemma u32_add_l x y : u32 (u32 x + y) = u32 (x + y).
Proof. wrap_lia. Qed.
Lemma u32_add_r x y : u32 (x + u32 y) = u32 (x + y).
Proof. wrap_lia. Qed.
Lemma u32_sub_l x y : u32 (u32 x - y) = u32 (x - y).
Proof. wrap_lia. Qed.
Lemma u32_sub_r x y : u32 (x - u32 y) = u32 (x - y).
Proof. wrap_lia. Qed.
Lemma s32_add_l x y : s32 (u32 x + y) = s32 (x + y).
Proof. wrap_lia. Qed.
Lemma s32_sub_l x y : s32 (u32 x - y) = s32 (x - y).
Proof. wrap_lia. Qed.
Lemma s32_sub_r x y : s32 (x - u32 y) = s32 (x - y).
Proof. wrap_lia. Qed.

Create HintDb wrap discriminated.
Create Rewrite HintDb wrap.
#[export] Hint Rewrite s32_u32 u32_s32 u32_u32 u32_add_l u32_add_r u32_sub_l
  u32_sub_r s32_add_l s32_sub_l s32_sub_r : wrap.
#[export] Hint Resolve u32_range u16_range s32_range s16_range : wrap.

(** [min] of small non-negative arguments is the minimum. *)
Lemma cmin_spec a b :
  0 <= a < 4294967296 -> 0 <= b < 4294967296 -> cmin a b = Z.min a b.
Proof. wrap_lia. Qed.
Lemma cmax_spec a b :
  0 <= a < 4294967296 -> 0 <= b < 4294967296 -> cmax a b = Z.max a b.
Proof. wrap_lia. Qed.
Lemma imin_spec a b :
  -2147483648 <= a < 2147483648 -> -2147483648 <= b < 2147483648 ->
  imin a b = Z.min a b.
Proof. wrap_lia. Qed.

(** ** Flag words

    [hasf w b] is the C test [w & b]; [w |= b] is [setb w b] and [w &= ~b] is
    [clrb w b]. *)

Definition hasf (w b : Z) : bool := negb (Z.land w b =? 0).
Definition setb (w b : Z) : Z := Z.lor w b.
Definition clrb (w b : Z) : Z := Z.ldiff w b.

Lemma hasf_setb w b c : hasf (setb w b) c = hasf w c || hasf b c.
Proof.
  unfold hasf, setb. rewrite Z.land_lor_distr_l.
  destruct (Z.eqb_spec (Z.lor (Z.land w c) (Z.land b c)) 0) as [E|E].
  - apply Z.lor_eq_0_iff in E as [-> ->]. done.
  - destruct (Z.eqb_spec (Z.land w c) 0) as [E1|E1]; [|done].
    destruct (Z.eqb_spec (Z.land b c) 0) as [E2|E2]; [|done].
    rewrite E1, E2 in E. done.
Qed.

Lemma hasf_clrb w b c : hasf (clrb w b) c = hasf w (clrb c b).
Proof.
  unfold hasf, clrb. do 2 f_equal.
  apply Z.bits_inj'. intros n Hn.
  rewrite !Z.land_spec, !Z.ldiff_spec.
  by destruct (Z.testbit w n), (Z.testbit b n), (Z.testbit c n).
Qed.

Lemma hasf_0 w : hasf w 0 = false.
Proof. unfold hasf. by rewrite Z.land_0_r. Qed.

(** A mask of one bit tests that bit. *)
Lemma hasf_pow x j : 0 <= j -> hasf x (2 ^ j) = Z.testbit x j.
Proof.
  intros Hj. unfold hasf. assert (E : Z.land x (2 ^ j) = if Z.testbit x j then 2 ^ j else 0).
  { apply Z.bits_inj'. intros n Hn. rewrite Z.land_spec, Z.pow2_bits_eqb by lia. destruct (Z.eqb_spec j n) as [->|Hne].
    - rewrite andb_true_r. destruct (Z.testbit x n) eqn:E; [by rewrite Z.pow2_bits_true|by rewrite Z.bits_0].
    - rewrite andb_false_r. destruct (Z.testbit x j); [by rewrite Z.pow2_bits_false|by rewrite Z.bits_0]. }
  rewrite E. destruct (Z.testbit x j); [|done]. pose proof (Z.pow_pos_nonneg 2 j). destruct (Z.eqb_spec (2 ^ j) 0); [lia|done].
Qed.

(** A mask of two bits is set iff one of its bits is. *)
Lemma hasf_lor w b c : hasf w (Z.lor b c) = hasf w b || hasf w c.
Proof.
  pose proof (hasf_setb b c w) as H. unfold hasf, setb in *.
  by rewrite !(Z.land_comm w).
Qed.

Create HintDb flags discriminated.
Create Rewrite HintDb flags.
#[export] Hint Rewrite hasf_setb hasf_clrb hasf_0 : flags.

(** Decides tests of constant flags in words built with [setb] and [clrb]. *)
Ltac flags_simpl :=
  repeat (autorewrite with flags;
  repeat match goal with
    | |- context [hasf ?a ?b] =>
        let r := eval vm_compute in (hasf a b) in
        lazymatch r with true => idtac | false => idtac end;
        change (hasf a b) with r
    | |- context [clrb ?a ?b] =>
        let r := eval vm_compute in (clrb a b) in
        lazymatch r with Z0 => idtac | Zpos _ => idtac end;
        change (clrb a b) with r
    end; rewrite ?orb_false_r, ?orb_true_r).

(** ** Record update

    [r <| p := v |>] is [r] with the field [p] changed to [v].  Each field of a
    record has a [Setter] instance built by [mk_setter] from the record's
    eta-expansion. *)

Class Setter {R A : Type} (p : R -> A) := setf : A -> R -> R.
Arguments setf {R A} p {_} v r.

Declare Scope record_scope.
Notation "r <| p := v |>" := (setf p v r)
  (at level 1, left associativity, p at level 9, v at level 200) : record_scope.
#[global] Open Scope record_scope.

Ltac mk_setter eta :=
  match goal with
  | |- Setter ?p =>
      let v := fresh "v" in let r := fresh "r" in
      unfold Setter; intros v r;
      let t := eval cbv beta delta [eta] in (eta r) in
      let t' := eval pattern (p r) in t in
      match t' with ?f _ => let b := eval cbv beta in (f v) in exact b end
  end.

(** The update of a field by a function: the record occurs once in the term. *)
Definition updf {R A : Type} (p : R -> A) `{Setter R A p} (f : A -> A) (r : R) : R := setf p (f (p r)) r.

(** The equation that computes the projection [p] of an updated record, proved for
    a variable record so that checking it does not look into the record at hand. *)
Ltac proj_upd p R A q I f :=
  lazymatch p with
  | q => constr:((fun x : R => eq_refl) : forall x : R, p (@updf R A q I f x) = f (p x))
  | _ => constr:((fun x : R => eq_refl) : forall x : R, p (@updf R A q I f x) = p x)
  end.
Ltac proj_set p R A q I v :=
  lazymatch p with
  | q => constr:((fun x : R => eq_refl) : forall x : R, p (@setf R A q I v x) = v)
  | _ => constr:((fun x : R => eq_refl) : forall x : R, p (@setf R A q I v x) = p x)
  end.

(** Projections of updated records: the goal's, and a hypothesis's. *)
Ltac rec_simpl :=
  repeat match goal with
  | |- context [?p (@updf ?R ?A ?q ?I ?f ?r)] =>
      let H := proj_upd p R A q I f in rewrite (H r)
  | |- context [?p (@setf ?R ?A ?q ?I ?v ?r)] =>
      let H := proj_set p R A q I v in rewrite (H r)
  end.
Ltac rec_simpl_in H :=
  repeat match type of H with
  | context [?p (@updf ?R ?A ?q ?I ?f ?r)] =>
      let E := proj_upd p R A q I f in rewrite (E r) in H
  | context [?p (@setf ?R ?A ?q ?I ?v ?r)] =>
      let E := proj_set p R A q I v in rewrite (E r) in H
  end.

(** ** Outcomes of kernel code

    A routine returns a value, calls [panic], or, when its model carries fuel
    for a loop, runs out of it.  [OutOfFuel] is never a result of the code. *)

Inductive outcome (A : Type) : Type :=
| Ret (a : A)
| Panic (msg : string)
| OutOfFuel.
Arguments Ret {A} a.
Arguments Panic {A} msg.
Arguments OutOfFuel {A}.

Definition obind {A B : Type} (x : outcome A) (k : A -> outcome B) : outcome B :=
  match x with
  | Ret a => k a
  | Panic s => Panic s
  | OutOfFuel => OutOfFuel
  end.

Declare Scope outcome_scope.
Notation "'let!' x ':=' e 'in' k" := (obind e (fun x => k))
  (at level 10, x pattern, e at level 200, k at level 200) : outcome_scope.
#[global] Open Scope outcome_scope.

Lemma obind_Ret {A B} (x : outcome A) (k : A -> outcome B) b :
  obind x k = Ret b <-> exists a, x = Ret a /\ k a = Ret b.
Proof.
  split.
  - destruct x; simpl; intros; try done. eauto.
  - intros (a & -> & ?). done.
Qed.

Definition is_Ret {A} (x : outcome A) : bool :=
  match x with Ret _ => true | _ => false end.

(** ** Byte strings *)

Definition zlen {A} (l : list A) : Z := Z.of_nat (length l).
Definition ztake {A} (n : Z) (l : list A) : list A := take (Z.to_nat n) l.
Definition zdrop {A} (n : Z) (l : list A) : list A := drop (Z.to_nat n) l.

(** The bytes [off, off + len) of [l]. *)
Definition zsub {A} (off len : Z) (l : list A) : list A := ztake len (zdrop off l).

#[global] Arguments zlen : simpl never.
#[global] Arguments ztake : simpl never.
#[global] Arguments zdrop : simpl never.
#[global] Arguments zsub : simpl never.

Definition is_byte (b : Z) : Prop := 0 <= b < 256.

Section Zlists.
Context {A : Type}.
Implicit Types l k : list A.

Lemma zlen_nonneg l : 0 <= zlen l.
Proof. unfold zlen. lia. Qed.
Lemma zlen_nil : zlen (@nil A) = 0.
Proof. done. Qed.
Lemma zlen_cons (x : A) l : zlen (x :: l) = 1 + zlen l.
Proof. unfold zlen. simpl. lia. Qed.
Lemma zlen_app l k : zlen (l ++ k) = zlen l + zlen k.
Proof. unfold zlen. rewrite length_app. lia. Qed.
Lemma zlen_ztake n l : zlen (ztake n l) = Z.min (Z.max 0 n) (zlen l).
Proof. unfold zlen, ztake. rewrite length_take. lia. Qed.
Lemma zlen_zdrop n l : zlen (zdrop n l) = Z.max 0 (zlen l - Z.max 0 n).
Proof. unfold zlen, zdrop. rewrite length_drop. lia. Qed.
Lemma zlen_0 l : zlen l = 0 -> l = [].
Proof. destruct l; [done|]. rewrite zlen_cons. pose proof (zlen_nonneg l). lia. Qed.

Lemma ztake_nil n : ztake n (@nil A) = [].
Proof. apply take_nil. Qed.
Lemma zdrop_nil n : zdrop n (@nil A) = [].
Proof. apply drop_nil. Qed.
Lemma zsub_nil off len : zsub off len (@nil A) = [].
Proof. unfold zsub. by rewrite zdrop_nil, ztake_nil. Qed.
Lemma ztake_le0 n l : n <= 0 -> ztake n l = [].
Proof. intros. unfold ztake. by replace (Z.to_nat n) with 0%nat by lia. Qed.
Lemma zdrop_le0 n l : n <= 0 -> zdrop n l = l.
Proof. intros. unfold zdrop. by replace (Z.to_nat n) with 0%nat by lia. Qed.
Lemma zsub_nil_len off len l : len <= 0 -> zsub off len l = [].
Proof. intros. unfold zsub. by apply ztake_le0. Qed.
Lemma ztake_ge n l : zlen l <= n -> ztake n l = l.
Proof. intros. unfold ztake, zlen in *. apply take_ge. lia. Qed.
Lemma zdrop_ge n l : zlen l <= n -> zdrop n l = [].
Proof. intros. unfold zdrop, zlen in *. apply drop_ge. lia. Qed.
Lemma ztake_zdrop n l : ztake n l ++ zdrop n l = l.
Proof. apply take_drop. Qed.
Lemma zdrop_zdrop a b l : 0 <= a -> 0 <= b -> zdrop a (zdrop b l) = zdrop (b + a) l.
Proof. intros. unfold zdrop. rewrite drop_drop. f_equal. lia. Qed.
Lemma zdrop_app_le n l k : n <= zlen l -> zdrop n (l ++ k) = zdrop n l ++ k.
Proof. intros. unfold zdrop, zlen in *. apply drop_app_le. lia. Qed.
Lemma zdrop_app_ge n l k : zlen l <= n -> zdrop n (l ++ k) = zdrop (n - zlen l) k.
Proof.
  intros. unfold zdrop, zlen in *. rewrite drop_app_ge by lia. f_equal. lia.
Qed.
Lemma ztake_app_le n l k : n <= zlen l -> ztake n (l ++ k) = ztake n l.
Proof. intros. unfold ztake, zlen in *. apply take_app_le. lia. Qed.
Lemma ztake_app_ge n l k :
  zlen l <= n -> ztake n (l ++ k) = l ++ ztake (n - zlen l) k.
Proof.
  intros. unfold ztake, zlen in *. rewrite take_app_ge by lia. do 2 f_equal. lia.
Qed.
Lemma ztake_ztake a b l : ztake a (ztake b l) = ztake (Z.min a b) l.
Proof. unfold ztake. rewrite take_take. f_equal. lia. Qed.
Lemma zlen_zsub off len l :
  0 <= off -> 0 <= len -> off + len <= zlen l -> zlen (zsub off len l) = len.
Proof. intros. unfold zsub. rewrite zlen_ztake, zlen_zdrop. lia. Qed.
End Zlists.

Create HintDb zlist discriminated.
Create Rewrite HintDb zlist.
#[export] Hint Rewrite @zlen_nil @zlen_cons @zlen_app @zlen_ztake @zlen_zdrop : zlist.
#[export] Hint Resolve zlen_nonneg : zlist.

(** Length goals over byte strings. *)
Ltac zlen_pose :=
  repeat match goal with
    | |- context [zlen ?l] =>
        lazymatch goal with
        | _ : 0 <= zlen l |- _ => fail
        | _ => pose proof (zlen_nonneg l)
        end
    | _ : context [zlen ?l] |- _ =>
        lazymatch goal with
        | _ : 0 <= zlen l |- _ => fail
        | _ => pose proof (zlen_nonneg l)
        end
    end.
Ltac zlen_lia := autorewrite with zlist in *; zlen_pose; lia.
