(* ===== verification/TcpSeq.v ===== *)
(** TCP sequence numbers (src/sys/netinet/tcp_seq.h) and the RFC 1323 timestamp
    comparisons of tcp_input.c.

    A [tcp_seq] is an unsigned 32-bit number.  The macros compare two of them by
    the sign of their 32-bit difference; the theorems say when that is the order
    of the positions in an unbounded byte stream. *)
From S2P Require Import Prelude.

Module TcpSeq.

(** [#define SEQ_LT(a,b) ((int)((a)-(b)) < 0)] and its three siblings. *)
Definition SEQ_LT (a b : Z) : bool := s32 (u32 (a - b)) <? 0.
Definition SEQ_LEQ (a b : Z) : bool := s32 (u32 (a - b)) <=? 0.
Definition SEQ_GT (a b : Z) : bool := s32 (u32 (a - b)) >? 0.
Definition SEQ_GEQ (a b : Z) : bool := s32 (u32 (a - b)) >=? 0.

(** [TSTMP_LT], [TSTMP_GEQ]: modulo comparison of timestamps. *)
Definition TSTMP_LT (a b : Z) : bool := s32 (u32 (a - b)) <? 0.
Definition TSTMP_GEQ (a b : Z) : bool := s32 (u32 (a - b)) >=? 0.

(** The distance from [b] forward to [a], as the code computes it in an [int]. *)
Definition seq_diff (a b : Z) : Z := s32 (u32 (a - b)).

Ltac seq_lia := unfold SEQ_LT, SEQ_LEQ, SEQ_GT, SEQ_GEQ, seq_diff in *; wrap_lia.

Lemma SEQ_GT_LT a b : SEQ_GT a b = true <-> 0 < seq_diff a b.
Proof. unfold SEQ_GT, seq_diff. lia. Qed.
Lemma SEQ_LEQ_negb a b : SEQ_LEQ a b = negb (SEQ_GT a b).
Proof. unfold SEQ_LEQ, SEQ_GT. lia. Qed.
Lemma SEQ_GEQ_negb a b : SEQ_GEQ a b = negb (SEQ_LT a b).
Proof. unfold SEQ_GEQ, SEQ_LT. lia. Qed.

(** Two stream positions less than 2^31 apart have the signed difference of
    their positions as the 32-bit difference of their sequence numbers. *)
Lemma seq_diff_window x y :
  -2147483648 <= x - y < 2147483648 -> seq_diff (u32 x) (u32 y) = x - y.
Proof. seq_lia. Qed.

(** Sequence number comparison is the order of stream positions: for positions
    [x] and [y] of an unbounded stream that are less than 2^31 bytes apart, the
    macros applied to the sequence numbers [x mod 2^32] and [y mod 2^32] decide
    [x < y], [x <= y], [x > y] and [x >= y], however often the numbers wrapped. *)
Lemma seq_window_order x y :
  Z.abs (x - y) < 2147483648 ->
  SEQ_LT (u32 x) (u32 y) = (x <? y) /\
  SEQ_LEQ (u32 x) (u32 y) = (x <=? y) /\
  SEQ_GT (u32 x) (u32 y) = (x >? y) /\
  SEQ_GEQ (u32 x) (u32 y) = (x >=? y).
Proof.
  intros H. pose proof (seq_diff_window x y ltac:(lia)) as E.
  unfold seq_diff in E. unfold SEQ_LT, SEQ_LEQ, SEQ_GT, SEQ_GEQ.
  rewrite E. lia.
Qed.

(** The bound is sharp: exactly half the space apart, each of the two numbers is
    before the other. *)
Lemma seq_antipodal a :
  SEQ_LT (u32 a) (u32 (a + 2147483648)) = true /\
  SEQ_LT (u32 (a + 2147483648)) (u32 a) = true.
Proof. seq_lia. Qed.

(** Comparison is invariant under translation of both numbers. *)
Lemma seq_translate a b k : SEQ_LT (u32 (a + k)) (u32 (b + k)) = SEQ_LT a b.
Proof.
  unfold SEQ_LT. f_equal. autorewrite with wrap. f_equal. lia.
Qed.

(** Inside one half-space window starting at [w] the order is transitive. *)
Lemma seq_trans_window w x y z :
  0 <= x < 2147483648 -> 0 <= y < 2147483648 -> 0 <= z < 2147483648 ->
  SEQ_LT (u32 (w + x)) (u32 (w + y)) = true ->
  SEQ_LT (u32 (w + y)) (u32 (w + z)) = true ->
  SEQ_LT (u32 (w + x)) (u32 (w + z)) = true.
Proof.
  intros ??? H1 H2.
  destruct (seq_window_order (w + x) (w + y)) as [E1 _]; [lia|].
  destruct (seq_window_order (w + y) (w + z)) as [E2 _]; [lia|].
  destruct (seq_window_order (w + x) (w + z)) as [-> _]; [lia|].
  rewrite E1 in H1. rewrite E2 in H2. lia.
Qed.

(** the sequence number macros decide the order of stream positions: for two
    positions less than 2^31 bytes apart SEQ_LT, SEQ_LEQ, SEQ_GT and SEQ_GEQ of
    their sequence numbers (the positions modulo 2^32) are [<], [<=], [>] and
    [>=], however often the numbers wrapped; and the bound is sharp, since exactly
    2^31 apart each number is before the other. *)
Theorem seq_order_correct x y (H : Z.abs (x - y) < 2147483648) :
  (SEQ_LT (u32 x) (u32 y) = (x <? y) /\ SEQ_LEQ (u32 x) (u32 y) = (x <=? y) /\
   SEQ_GT (u32 x) (u32 y) = (x >? y) /\ SEQ_GEQ (u32 x) (u32 y) = (x >=? y)) /\
  SEQ_LT (u32 x) (u32 (x + 2147483648)) = true /\ SEQ_LT (u32 (x + 2147483648)) (u32 x) = true.
Proof. split; [by apply seq_window_order|apply seq_antipodal]. Qed.

Lemma seq_order_witness :
  SEQ_LT (u32 4294967290) (u32 4294967300) = (4294967290 <? 4294967300).
Proof. apply (seq_order_correct 4294967290 4294967300). reflexivity. Defined.

End TcpSeq.
