(* ===== verification/Mbuf.v ===== *)
(** Network memory buffers (src/sys/kern/uipc_mbuf.c, src/sys/sys/mbuf.h).

    An mbuf chain is the list of its mbufs in [m_next] order.  An mbuf holds the
    [m_len] bytes that start at [m_data]; [m_off] is the distance of [m_data]
    from the start of the storage, which is [m_dat] for internal data and
    [ext_buf] for a cluster.  The pool records the reference counts of the
    clusters and an oracle for the allocator: [mp_fail] lists, for the next
    calls of [MGET]/[MGETHDR], whether the allocation (and its retry) fails. *)
From S2P Require Import Prelude.

Module Mbuf.

(** i386/include/param.h and mbuf.h: sizes on the 32-bit target. *)
Definition MSIZE : Z := 128.
Definition MLEN : Z := 108.
Definition MHLEN : Z := 100.
Definition MCLBYTES : Z := 2048.
Definition sizeof_pkthdr : Z := 8.

Definition M_EXT : Z := 1.
Definition M_PKTHDR : Z := 2.
Definition M_EOR : Z := 4.
Definition M_BCAST : Z := 256.
Definition M_MCAST : Z := 512.
Definition M_COPYFLAGS : Z := 774.

Definition MT_DATA : Z := 1.
Definition MT_HEADER : Z := 2.
Definition MT_CONTROL : Z := 14.
Definition MT_OOBDATA : Z := 15.

Definition M_COPYALL : Z := 1000000000.

Record mbuf := mkMbuf {
  m_off : Z;
  m_bytes : list Z;
  m_type : Z;
  m_flags : Z;
  m_pktlen : Z;          (* m_pkthdr.len *)
  m_rcvif : Z;           (* m_pkthdr.rcvif, 0 for none *)
  ext_buf : Z;           (* cluster number, mtocl(m_ext.ext_buf) *)
  ext_size : Z
}.
Definition eta_mbuf (r : mbuf) : mbuf :=
  mkMbuf (m_off r) (m_bytes r) (m_type r) (m_flags r) (m_pktlen r) (m_rcvif r)
    (ext_buf r) (ext_size r).
#[global] Instance set_m_off : Setter m_off := ltac:(mk_setter eta_mbuf).
#[global] Instance set_m_bytes : Setter m_bytes := ltac:(mk_setter eta_mbuf).
#[global] Instance set_m_type : Setter m_type := ltac:(mk_setter eta_mbuf).
#[global] Instance set_m_flags : Setter m_flags := ltac:(mk_setter eta_mbuf).
#[global] Instance set_m_pktlen : Setter m_pktlen := ltac:(mk_setter eta_mbuf).
#[global] Instance set_m_rcvif : Setter m_rcvif := ltac:(mk_setter eta_mbuf).
#[global] Instance set_ext_buf : Setter ext_buf := ltac:(mk_setter eta_mbuf).
#[global] Instance set_ext_size : Setter ext_size := ltac:(mk_setter eta_mbuf).

Definition m_len (m : mbuf) : Z := zlen (m_bytes m).
Definition chain := list mbuf.

(** The data of a chain, and its length. *)
Definition chain_bytes (ms : chain) : list Z := ms ≫= m_bytes.
Definition chain_len (ms : chain) : Z := zlen (chain_bytes ms).
#[global] Arguments chain_bytes : simpl never.
#[global] Arguments chain_len : simpl never.

Record mpool := mkPool {
  mclrefcnt : Z -> Z;
  mclfree : list Z;
  mp_fail : list bool
}.
Definition eta_mpool (r : mpool) : mpool := mkPool (mclrefcnt r) (mclfree r) (mp_fail r).
#[global] Instance set_mclrefcnt : Setter mclrefcnt := ltac:(mk_setter eta_mpool).
#[global] Instance set_mclfree : Setter mclfree := ltac:(mk_setter eta_mpool).
#[global] Instance set_mp_fail : Setter mp_fail := ltac:(mk_setter eta_mpool).

Definition bump (f : Z -> Z) (c d : Z) : Z -> Z :=
  fun x => if x =? c then f x + d else f x.

(** ** Allocation *)

(** One call of the allocator: the next outcome of the oracle. *)
Definition pool_alloc (p : mpool) : bool * mpool :=
  match mp_fail p with
  | [] => (true, p)
  | f :: fs => (negb f, p <| mp_fail := fs |>)
  end.

(** [MGET]: an empty mbuf with internal data. *)
Definition m_get (p : mpool) (type : Z) : option mbuf * mpool :=
  let '(ok, p) := pool_alloc p in
  (if ok then Some (mkMbuf 0 [] type 0 0 0 0 0) else None, p).

(** [MGETHDR]: an empty mbuf with a packet header. *)
Definition m_gethdr (p : mpool) (type : Z) : option mbuf * mpool :=
  let '(ok, p) := pool_alloc p in
  (if ok then Some (mkMbuf sizeof_pkthdr [] type M_PKTHDR 0 0 0 0) else None, p).

(** [MCLFREE]: drop a reference to a cluster. *)
Definition MCLFREE (p : mpool) (c : Z) : mpool :=
  let p := p <| mclrefcnt := bump (mclrefcnt p) c (-1) |> in
  if mclrefcnt p c =? 0 then p <| mclfree := c :: mclfree p |> else p.

(** [m_clalloc]: [kmem_malloc] gives a page, which is two clusters. *)
Definition m_clalloc (kmem_malloc : mpool -> option Z) (p : mpool) : mpool :=
  match kmem_malloc p with None => p | Some c => p <| mclfree := c + 1 :: c :: mclfree p |> end.

Definition MCLALLOC (kmem_malloc : mpool -> option Z) (p : mpool) : option Z * mpool :=
  let p := match mclfree p with [] => m_clalloc kmem_malloc p | _ => p end in
  match mclfree p with
  | [] => (None, p)
  | c :: l => (Some c, p <| mclrefcnt := bump (mclrefcnt p) c 1 |> <| mclfree := l |>)
  end.

(** [MFREE]: free one mbuf. *)
Definition m_free (p : mpool) (m : mbuf) : mpool :=
  if hasf (m_flags m) M_EXT then MCLFREE p (ext_buf m) else p.

Definition m_freem (p : mpool) (ms : chain) : mpool := fold_left m_free ms p.

(** [M_COPY_PKTHDR(to, from)] *)
Definition M_COPY_PKTHDR (to from : mbuf) : mbuf :=
  to <| m_pktlen := m_pktlen from |> <| m_rcvif := m_rcvif from |>
     <| m_flags := Z.land (m_flags from) M_COPYFLAGS |> <| m_off := sizeof_pkthdr |>.

(** ** Copying *)

(** The loop that finds the mbuf holding offset [off]. *)
Fixpoint m_skip (who : string) (ms : chain) (off : Z) : outcome (chain * Z) :=
  if off >? 0 then
    match ms with
    | [] => Panic who
    | m :: ms' => if off <? m_len m then Ret (ms, off) else m_skip who ms' (off - m_len m)
    end
  else Ret (ms, off).

(** The copy of mbuf [m] made by one turn of m_copym's loop. *)
Definition m_copy1 (n m : mbuf) (off0 off len : Z) (copyhdr : bool) : mbuf :=
  let n := if copyhdr
           then M_COPY_PKTHDR n m
                  <| m_pktlen := if len =? M_COPYALL then m_pktlen m - off0 else len |>
           else n in
  let cnt := cmin len (m_len m - off) in
  let n := n <| m_bytes := zsub off cnt (m_bytes m) |> in
  if hasf (m_flags m) M_EXT
  then n <| m_off := m_off m + off |> <| ext_buf := ext_buf m |>
         <| ext_size := ext_size m |> <| m_flags := setb (m_flags n) M_EXT |>
  else n.

Fixpoint m_copym_loop (p : mpool) (ms : chain) (off0 off len : Z) (copyhdr : bool)
    (top : chain) : outcome (option chain * mpool) :=
  if len >? 0 then
    match ms with
    | [] => if len =? M_COPYALL then Ret (Some (rev top), p) else Panic "m_copym"
    | m :: ms' =>
        match m_get p (m_type m) with
        | (None, p) => Ret (None, m_freem p (rev top))
        | (Some n, p) =>
            let n := m_copy1 n m off0 off len copyhdr in
            let p := if hasf (m_flags m) M_EXT
                     then p <| mclrefcnt := bump (mclrefcnt p) (ext_buf m) 1 |> else p in
            let len := if len =? M_COPYALL then len else len - m_len n in
            m_copym_loop p ms' off0 0 len false (n :: top)
        end
    end
  else Ret (Some (rev top), p).

(** [m_copym]: [None] is the null pointer (no space, or nothing copied). *)
Definition m_copym (p : mpool) (ms : chain) (off0 len : Z)
    : outcome (option chain * mpool) :=
  if (off0 <? 0) || (len <? 0) then Panic "m_copym" else
  let! copyhdr := (if off0 =? 0 then
                     match ms with
                     | [] => Panic "m_copym: null mbuf"
                     | m :: _ => Ret (hasf (m_flags m) M_PKTHDR)
                     end
                   else Ret false) in
  let! (ms, off) := m_skip "m_copym" ms off0 in
  let! (r, p) := m_copym_loop p ms off0 off len copyhdr [] in
  Ret (match r with Some [] => None | _ => r end, p).

(** [m_copydata]: the bytes stored at [cp]; the result is their number. *)
Fixpoint m_copydata_loop (ms : chain) (off len : Z) : list Z :=
  if len >? 0 then
    match ms with
    | [] => []
    | m :: ms' =>
        let count := cmin (m_len m - off) len in
        zsub off count (m_bytes m) ++ m_copydata_loop ms' 0 (len - count)
    end
  else [].

Definition m_copydata (ms : chain) (off len : Z) : outcome (list Z) :=
  if (off <? 0) || (len <? 0) then Panic "m_copydata" else
  let! (ms, off) := m_skip "m_copydata" ms off in
  Ret (m_copydata_loop ms off len).

(** ** Concatenation, prepending *)

(** [m_cat]'s second loop, at the last mbuf [m] of the first chain. *)
Fixpoint m_cat_last (p : mpool) (m : mbuf) (n : chain) : chain * mpool :=
  match n with
  | [] => ([m], p)
  | n1 :: n' =>
      if hasf (m_flags m) M_EXT || (m_off m + m_len m + m_len n1 >=? MLEN)
      then (m :: n, p)
      else m_cat_last (m_free p n1) (m <| m_bytes := m_bytes m ++ m_bytes n1 |>) n'
  end.

Fixpoint m_cat (p : mpool) (m n : chain) : outcome (chain * mpool) :=
  match m with
  | [] => Panic "m_cat: null mbuf"
  | [m1] => Ret (m_cat_last p m1 n)
  | m1 :: m' => let! (c, p) := m_cat p m' n in Ret (m1 :: c, p)
  end.

(** [m_prepend]: the [len] new bytes are whatever the buffer held, [junk]. *)
Definition MH_ALIGN (m : mbuf) (len : Z) : mbuf :=
  m <| m_off := m_off m + clrb (MHLEN - len) 3 |>.

Definition m_prepend (p : mpool) (m : mbuf) (ms : chain) (len : Z) (junk : list Z)
    : option chain * mpool :=
  match m_get p (m_type m) with
  | (None, p) => (None, m_freem p (m :: ms))
  | (Some mn, p) =>
      let '(mn, m) := if hasf (m_flags m) M_PKTHDR
                      then (M_COPY_PKTHDR mn m, m <| m_flags := clrb (m_flags m) M_PKTHDR |>)
                      else (mn, m) in
      let mn := if len <? MHLEN then MH_ALIGN mn len else mn in
      (Some (mn <| m_bytes := junk |> :: m :: ms), p)
  end.

(** ** Trimming *)

Fixpoint m_adj_head (ms : chain) (len : Z) : chain * Z :=
  match ms with
  | [] => ([], len)
  | m :: ms' =>
      if len >? 0 then
        if m_len m <=? len
        then let '(r, l) := m_adj_head ms' (len - m_len m) in (m <| m_bytes := [] |> :: r, l)
        else (m <| m_off := m_off m + len |> <| m_bytes := zdrop len (m_bytes m) |> :: ms', 0)
      else (ms, len)
  end.

(** The last loops of [m_adj]: keep [count] bytes, empty the mbufs after them. *)
Fixpoint m_adj_trunc (ms : chain) (count : Z) : chain :=
  match ms with
  | [] => []
  | m :: ms' =>
      if m_len m >=? count
      then m <| m_bytes := ztake count (m_bytes m) |> :: map (fun m => m <| m_bytes := [] |>) ms'
      else m :: m_adj_trunc ms' (count - m_len m)
  end.

(** [m->m_len -= len] on the last mbuf of the chain. *)
Fixpoint m_adj_last (ms : chain) (len : Z) : chain :=
  match ms with
  | [] => []
  | [m] => [m <| m_bytes := ztake (m_len m - len) (m_bytes m) |>]
  | m :: ms' => m :: m_adj_last ms' len
  end.

Fixpoint m_last (ms : chain) : option mbuf :=
  match ms with
  | [] => None
  | [m] => Some m
  | _ :: ms' => m_last ms'
  end.

Definition set_pktlen (f : Z -> Z) (ms : chain) : chain :=
  match ms with
  | m :: ms' =>
      (if hasf (m_flags m) M_PKTHDR then m <| m_pktlen := f (m_pktlen m) |> else m) :: ms'
  | [] => []
  end.

Definition m_adj (mp : chain) (req_len : Z) : chain :=
  match mp with
  | [] => []
  | _ :: _ =>
      if req_len >=? 0 then
        let '(ms, len) := m_adj_head mp req_len in
        set_pktlen (fun l => l - (req_len - len)) ms
      else
        let len := - req_len in
        match m_last mp with
        | Some m =>
            if m_len m >=? len then set_pktlen (fun l => l - len) (m_adj_last mp len)
            else
              let count := chain_len mp - len in
              let count := if count <? 0 then 0 else count in
              m_adj_trunc (set_pktlen (fun _ => count) mp) count
        | None => mp
        end
  end.

(** ** Pull-up *)

(** The do-while loop of [m_pullup]: [m] collects bytes from the chain [n].
    When it ends, [len <= 0] or [n] is empty. *)
Fixpoint m_pullup_loop (p : mpool) (max_protohdr : Z) (m : mbuf) (n : chain)
    (len space : Z) : outcome (mbuf * chain * Z * mpool) :=
  match n with
  | [] => Panic "m_pullup: null mbuf"
  | n1 :: n' =>
      let count := cmin (cmin (cmax len max_protohdr) space) (m_len n1) in
      let m := m <| m_bytes := m_bytes m ++ ztake count (m_bytes n1) |> in
      let len := len - count in
      let space := space - count in
      let n1' := n1 <| m_bytes := zdrop count (m_bytes n1) |> in
      if m_len n1' =? 0 then
        let p := m_free p n1 in
        if (len >? 0) && negb (bool_decide (n' = [])) then
          m_pullup_loop p max_protohdr m n' len space
        else Ret (m, n', len, p)
      else
        let n1' := n1' <| m_off := m_off n1 + count |> in
        (* a further turn would find the same [n] and no space *)
        if len >? 0 then OutOfFuel else Ret (m, n1' :: n', len, p)
  end.

Definition m_pullup (p : mpool) (max_protohdr : Z) (n : chain) (len : Z)
    : outcome (option chain * mpool) :=
  match n with
  | [] => Panic "m_pullup: null mbuf"
  | n1 :: n' =>
      let run m n len p :=
        let space := MLEN - (m_off m + m_len m) in
        let! (m, n, len, p) := m_pullup_loop p max_protohdr m n len space in
        if len >? 0 then Ret (None, m_freem (m_free p m) n)
        else Ret (Some (m :: n), p) in
      if negb (hasf (m_flags n1) M_EXT) && (m_off n1 + len <? MLEN) &&
         negb (bool_decide (n' = [])) then
        if m_len n1 >=? len then Ret (Some n, p)
        else run n1 n' (len - m_len n1) p
      else if len >? MHLEN then Ret (None, m_freem p n)
      else
        match m_get p (m_type n1) with
        | (None, p) => Ret (None, m_freem p n)
        | (Some m, p) =>
            if hasf (m_flags n1) M_PKTHDR
            then run (M_COPY_PKTHDR m n1)
                     (n1 <| m_flags := clrb (m_flags n1) M_PKTHDR |> :: n') len p
            else run m n len p
        end
  end.

(** ** Data-level behaviour *)

(** The storage of an mbuf holds its data. *)
Definition m_wf (m : mbuf) : Prop :=
  0 <= m_off m /\
  if hasf (m_flags m) M_EXT then m_off m + m_len m <= ext_size m
  else m_off m + m_len m <= MLEN /\
       (hasf (m_flags m) M_PKTHDR = true -> sizeof_pkthdr <= m_off m).

Lemma m_len_nonneg m : 0 <= m_len m.
Proof. apply zlen_nonneg. Qed.

Lemma chain_bytes_nil : chain_bytes [] = [].
Proof. done. Qed.
Lemma chain_bytes_cons m ms : chain_bytes (m :: ms) = m_bytes m ++ chain_bytes ms.
Proof. done. Qed.
Lemma chain_bytes_app l k : chain_bytes (l ++ k) = chain_bytes l ++ chain_bytes k.
Proof. apply bind_app. Qed.
Lemma chain_bytes_one m : chain_bytes [m] = m_bytes m.
Proof. unfold chain_bytes. simpl. apply app_nil_r. Qed.
Lemma chain_len_cons m ms : chain_len (m :: ms) = m_len m + chain_len ms.
Proof. unfold chain_len, m_len. rewrite chain_bytes_cons, zlen_app. done. Qed.
Lemma chain_len_nonneg ms : 0 <= chain_len ms.
Proof. apply zlen_nonneg. Qed.
Lemma chain_len_nil : chain_len [] = 0.
Proof. done. Qed.

Create HintDb mbuf discriminated.
Create Rewrite HintDb mbuf.
#[export] Hint Rewrite chain_bytes_nil chain_bytes_cons chain_bytes_app chain_len_cons chain_len_nil : mbuf.
#[export] Hint Resolve m_len_nonneg chain_len_nonneg zlen_nonneg : mbuf.

(** The first [off] bytes of a chain end inside its first mbuf. *)
Definition in_head (ms : chain) (off : Z) : Prop :=
  0 <= off /\ match ms with [] => off = 0 | m :: _ => off <= m_len m end.

Lemma m_skip_spec who ms off :
  0 <= off <= chain_len ms ->
  exists ms' off', m_skip who ms off = Ret (ms', off') /\ in_head ms' off' /\
    zdrop off' (chain_bytes ms') = zdrop off (chain_bytes ms) /\
    chain_len ms' - off' = chain_len ms - off /\ chain_len ms' <= chain_len ms /\
    (off = 0 -> ms' = ms /\ off' = 0).
Proof.
  revert off. induction ms as [|m ms IH]; intros off Hoff; simpl.
  - rewrite chain_len_nil in Hoff. assert (off = 0) as -> by lia. simpl.
    eexists [], 0. rewrite chain_len_nil. repeat split; try done; lia.
  - destruct (Z.gtb_spec off 0) as [H0|H0].
    + destruct (Z.ltb_spec off (m_len m)).
      * eexists _, _. repeat split; try done; simpl; lia.
      * rewrite chain_len_cons in *.
        destruct (IH (off - m_len m)) as (ms' & off' & -> & Hh & Hd & Hl & Hle & _); [lia|].
        pose proof (m_len_nonneg m).
        eexists _, _. split; [done|]. split; [done|]. split; [|split; [lia|split; [lia|lia]]].
        rewrite Hd, chain_bytes_cons, zdrop_app_ge by (unfold m_len in *; lia). done.
    + assert (off = 0) as -> by lia.
      pose proof (m_len_nonneg m).
      eexists _, _. repeat split; try done; simpl; lia.
Qed.

(** One step of a copy loop: the part taken from the first mbuf, then the rest. *)
Lemma zsub_chain_step m ms off len :
  0 <= off <= m_len m -> 0 <= len ->
  zsub off len (chain_bytes (m :: ms)) =
  zsub off (Z.min len (m_len m - off)) (m_bytes m) ++
  zsub 0 (len - Z.min len (m_len m - off)) (chain_bytes ms).
Proof.
  intros Ho Hl. unfold zsub. rewrite chain_bytes_cons.
  unfold m_len in *. rewrite zdrop_app_le by lia. rewrite (zdrop_le0 0) by lia.
  destruct (Z.le_ge_cases len (zlen (m_bytes m) - off)).
  - rewrite Z.min_l by lia. rewrite ztake_app_le by zlen_lia.
    rewrite (ztake_le0 (len - len)) by lia. by rewrite app_nil_r.
  - rewrite Z.min_r by lia. rewrite ztake_app_ge by zlen_lia.
    rewrite (ztake_ge (_ - off)) by zlen_lia. do 2 f_equal. zlen_lia.
Qed.

Lemma m_copydata_loop_spec ms off len :
  in_head ms off -> 0 <= len < 2147483648 -> chain_len ms < 2147483648 ->
  m_copydata_loop ms off len = zsub off len (chain_bytes ms).
Proof.
  revert off len. induction ms as [|m ms IH]; intros off len [Ho Hh] Hl Hc; simpl in *.
  - rewrite chain_bytes_nil, zsub_nil. by destruct (len >? 0).
  - rewrite chain_len_cons in Hc. pose proof (chain_len_nonneg ms).
    destruct (Z.gtb_spec len 0).
    + rewrite zsub_chain_step, cmin_spec by lia. rewrite Z.min_comm.
      f_equal. apply IH; [|lia|lia]. destruct ms; split; simpl; eauto with mbuf lia.
    + by rewrite zsub_nil_len by lia.
Qed.

(** Behaviour of [m_copydata] on a range inside the chain: exactly the bytes
    [off, off+len) of the chain's data are copied, whatever the mbuf layout. *)
Lemma m_copydata_spec ms off len :
  0 <= off -> 0 <= len -> off + len <= chain_len ms -> chain_len ms < 2147483648 ->
  m_copydata ms off len = Ret (zsub off len (chain_bytes ms)).
Proof.
  intros. unfold m_copydata.
  destruct (Z.ltb_spec off 0), (Z.ltb_spec len 0); simpl; try lia.
  destruct (m_skip_spec "m_copydata" ms off) as (ms' & off' & -> & Hh & Hd & Hl & Hle & _); [lia|].
  simpl. rewrite m_copydata_loop_spec by (auto; lia). unfold zsub. by rewrite Hd.
Qed.

(** ** Cluster accounting *)

(** How many mbufs of a chain refer to cluster [c]. *)
Definition refs1 (c : Z) (m : mbuf) : Z :=
  if hasf (m_flags m) M_EXT && (ext_buf m =? c) then 1 else 0.
Definition refs (c : Z) (ms : chain) : Z := foldr (fun m n => refs1 c m + n) 0 ms.

Lemma refs_app c l k : refs c (l ++ k) = refs c l + refs c k.
Proof. induction l as [|m l IH]; simpl; [lia|]. rewrite IH. lia. Qed.
Lemma refs_rev c l : refs c (rev l) = refs c l.
Proof.
  induction l as [|m l IH]; simpl; [done|]. rewrite refs_app, IH. simpl. lia.
Qed.

Lemma MCLFREE_refcnt p c x : mclrefcnt (MCLFREE p c) x = mclrefcnt p x - (if c =? x then 1 else 0).
Proof.
  assert (mclrefcnt (MCLFREE p c) = bump (mclrefcnt p) c (-1)) as ->.
  { unfold MCLFREE. by case_match. }
  unfold bump. rewrite (Z.eqb_sym c x). case_match; lia.
Qed.
Lemma m_free_refcnt p m x : mclrefcnt (m_free p m) x = mclrefcnt p x - refs1 x m.
Proof.
  unfold m_free, refs1. destruct (hasf _ _); simpl; [|lia]. apply MCLFREE_refcnt.
Qed.
Lemma m_freem_refcnt p ms x : mclrefcnt (m_freem p ms) x = mclrefcnt p x - refs x ms.
Proof.
  unfold m_freem. revert p. induction ms as [|m ms IH]; intros p; simpl; [lia|].
  rewrite IH, m_free_refcnt. lia.
Qed.

Lemma m_get_refcnt p t r p' : m_get p t = (r, p') -> mclrefcnt p' = mclrefcnt p.
Proof.
  unfold m_get, pool_alloc. destruct (mp_fail p); intros E; by simplify_eq.
Qed.
Lemma m_get_Some p t n p' : m_get p t = (Some n, p') -> n = mkMbuf 0 [] t 0 0 0 0 0.
Proof. unfold m_get. destruct (pool_alloc p) as [[] ?]; intros; by simplify_eq. Qed.
Lemma m_get_nofail p t : mp_fail p = [] -> m_get p t = (Some (mkMbuf 0 [] t 0 0 0 0 0), p).
Proof. unfold m_get, pool_alloc. by intros ->. Qed.

Lemma hasf_copyflags_ext w : hasf (Z.land w M_COPYFLAGS) M_EXT = false.
Proof.
  unfold hasf. rewrite <- Z.land_assoc. change (Z.land M_COPYFLAGS M_EXT) with 0.
  by rewrite Z.land_0_r.
Qed.

Lemma m_copy1_refs t m off0 off len h x :
  refs1 x (m_copy1 (mkMbuf 0 [] t 0 0 0 0 0) m off0 off len h) = refs1 x m.
Proof.
  unfold refs1, m_copy1, M_COPY_PKTHDR.
  destruct (hasf (m_flags m) M_EXT) eqn:E; destruct h; rec_simpl; simpl;
    flags_simpl; try done; by rewrite ?hasf_copyflags_ext.
Qed.
Lemma m_copy1_bytes t m off0 off len h :
  m_bytes (m_copy1 (mkMbuf 0 [] t 0 0 0 0 0) m off0 off len h) =
  zsub off (cmin len (m_len m - off)) (m_bytes m).
Proof. unfold m_copy1. repeat case_match; by rec_simpl. Qed.

(** The copy loop: it stops with no mbuf leaked when an allocation fails, and
    otherwise holds the requested bytes, one reference counted per cluster. *)
Lemma m_copym_loop_spec p ms off0 off len h top :
  in_head ms off -> 0 <= len -> chain_len ms < M_COPYALL ->
  (len = M_COPYALL \/ off + len <= chain_len ms) ->
  exists r p', m_copym_loop p ms off0 off len h top = Ret (r, p') /\
    (mp_fail p = [] -> r <> None) /\
    match r with
    | None => forall x, mclrefcnt p' x = mclrefcnt p x - refs x top
    | Some c => chain_bytes c = chain_bytes (rev top) ++ zsub off len (chain_bytes ms) /\
                forall x, mclrefcnt p' x = mclrefcnt p x + refs x c - refs x top
    end.
Proof.
  revert p off len h top.
  induction ms as [|m ms IH]; intros p off len h top [Ho Hh] Hl Hc Hlen; simpl.
  - assert (off = 0) as -> by done. rewrite chain_len_nil in *.
    rewrite chain_bytes_nil, zsub_nil, app_nil_r.
    destruct (Z.gtb_spec len 0).
    + destruct (Z.eqb_spec len M_COPYALL); [|lia].
      eexists _, _. split; [done|]. split; [done|]. split; [done|].
      intros x. rewrite refs_rev. lia.
    + eexists _, _. split; [done|]. split; [done|]. split; [done|].
      intros x. rewrite refs_rev. lia.
  - rewrite chain_len_cons in *. pose proof (chain_len_nonneg ms).
    destruct (Z.gtb_spec len 0); [|eexists _, _; split; [done|]; split; [done|];
      rewrite zsub_nil_len, app_nil_r by lia; split; [done|];
      intros x; rewrite refs_rev; lia].
    destruct (m_get p (m_type m)) as [[n|] p1] eqn:Eg.
    + pose proof (m_get_Some _ _ _ _ Eg) as ->. pose proof (m_get_refcnt _ _ _ _ Eg) as Er.
      set (n := m_copy1 _ m off0 off len h).
      set (p2 := if hasf (m_flags m) M_EXT then _ else p1).
      assert (Hp2 : forall x, mclrefcnt p2 x = mclrefcnt p x + refs1 x n).
      { intros x. unfold n. rewrite m_copy1_refs. unfold p2, refs1, bump.
        rewrite (Z.eqb_sym (ext_buf m)).
        destruct (hasf _ _); simpl; [rec_simpl; unfold bump|]; rewrite Er; repeat case_match; lia. }
      assert (Hb : m_bytes n = zsub off (Z.min len (m_len m - off)) (m_bytes m)).
      { unfold n. rewrite m_copy1_bytes, cmin_spec; unfold M_COPYALL in *; [done|lia|lia]. }
      assert (Hn : m_len n = Z.min len (m_len m - off)).
      { unfold m_len. rewrite Hb, zlen_zsub; unfold m_len in *; lia. }
      set (len' := if len =? M_COPYALL then len else len - m_len n).
      destruct (IH p2 0 len' false (n :: top)) as (r & p' & E & Hf & Hr).
      * destruct ms; split; simpl; auto with mbuf lia.
      * unfold len'. case_match; lia.
      * lia.
      * unfold len'. case_match; [left; lia|right; lia].
      * eexists r, p'. split; [exact E|]. split.
        { intros Hnf. apply Hf. unfold p2. rewrite (m_get_nofail _ _ Hnf) in Eg.
          simplify_eq. by destruct (hasf _ _). }
        destruct r as [c|].
        -- destruct Hr as [Hb' Hr]. split.
           ++ rewrite Hb'. simpl. rewrite chain_bytes_app, chain_bytes_one, <- app_assoc. f_equal.
              rewrite zsub_chain_step, Hb by lia. f_equal.
              unfold len'. rewrite Hn. destruct (Z.eqb_spec len M_COPYALL) as [->|]; [|done].
              unfold zsub. rewrite !(zdrop_le0 0) by lia.
              rewrite !ztake_ge; [done| |]; unfold chain_len in *; lia.
           ++ intros x. rewrite Hr, Hp2. simpl. lia.
        -- intros x. rewrite Hr, Hp2. simpl. lia.
    + eexists _, _. split; [done|]. split.
      { intros Hnf. rewrite (m_get_nofail _ _ Hnf) in Eg. done. }
      intros x. rewrite m_freem_refcnt, refs_rev, (m_get_refcnt _ _ _ _ Eg). lia.
Qed.

(** [m_copym] of a non-empty range inside the chain never panics; if it returns
    a chain, that chain holds exactly the bytes [off, off+len) and each cluster it
    refers to is counted; if it returns NULL, every reference count is as before;
    with no allocation failure it does return a chain. *)
Lemma m_copym_spec p ms off len :
  0 <= off -> 0 < len -> off + len <= chain_len ms -> chain_len ms < M_COPYALL ->
  exists r p', m_copym p ms off len = Ret (r, p') /\
    (mp_fail p = [] -> r <> None) /\
    match r with
    | None => forall x, mclrefcnt p' x = mclrefcnt p x
    | Some c => chain_bytes c = zsub off len (chain_bytes ms) /\
                forall x, mclrefcnt p' x = mclrefcnt p x + refs x c
    end.
Proof.
  intros Ho Hl Hol Hc. unfold m_copym.
  destruct (Z.ltb_spec off 0), (Z.ltb_spec len 0); simpl; try lia.
  set (hd := if off =? 0 then _ else Ret false).
  assert (exists h, hd = Ret h) as [h ->].
  { unfold hd. case_match; [|eauto]. destruct ms; [|eauto].
    rewrite chain_len_nil in *. lia. }
  simpl. destruct (m_skip_spec "m_copym" ms off) as (ms' & off' & -> & Hh & Hd & Hle & Hle' & _); [lia|].
  simpl.
  destruct (m_copym_loop_spec p ms' off off' len h []) as (r & p' & -> & Hf & Hr);
    [done|lia|lia|right; lia|].
  simpl. destruct r as [c|].
  - destruct Hr as [Hb Hr]. simpl in Hb, Hr.
    assert (chain_bytes c = zsub off len (chain_bytes ms)) as Hb'.
    { rewrite Hb. unfold zsub. by rewrite Hd. }
    assert (c <> []) as Hne.
    { intros ->. apply (f_equal zlen) in Hb'. rewrite zlen_zsub in Hb'; unfold chain_len in *; [|lia..].
      rewrite chain_bytes_nil, zlen_nil in Hb'. lia. }
    eexists (Some c), p'. split; [by destruct c|]. split; [done|]. split; [done|].
    intros x. rewrite Hr. lia.
  - eexists None, p'. split; [done|]. split; [done|]. intros x. rewrite Hr. simpl. lia.
Qed.

(** Without failures ahead a copy leaves none. *)
Lemma m_copym_loop_nofail p ms off0 off len h top r p' :
  mp_fail p = [] -> m_copym_loop p ms off0 off len h top = Ret (r, p') -> mp_fail p' = [].
Proof.
  revert p off len h top. induction ms as [|m ms IH]; intros p off len h top Hp; simpl.
  - destruct (_ >? _); [destruct (_ =? _)|]; by intros [= <- <-].
  - destruct (_ >? _); [|by intros [= <- <-]]. rewrite (m_get_nofail _ _ Hp). apply IH. by destruct (hasf _ _).
Qed.
Lemma m_copym_nofail p ms off len r p' : mp_fail p = [] -> m_copym p ms off len = Ret (r, p') -> mp_fail p' = [].
Proof.
  intros Hp. unfold m_copym. destruct (_ || _); [done|].
  intros (c & _ & E)%obind_Ret. apply obind_Ret in E as ([ms' o] & _ & E). apply obind_Ret in E as ([r' q] & E & [= _ <-]).
  by eapply m_copym_loop_nofail.
Qed.

(** ** Trimming *)

Lemma chain_bytes_set_pktlen f ms : chain_bytes (set_pktlen f ms) = chain_bytes ms.
Proof. destruct ms as [|m ms]; simpl; [done|]. rewrite !chain_bytes_cons. by case_match. Qed.

Lemma m_adj_head_spec ms len ms' l :
  0 <= len -> m_adj_head ms len = (ms', l) ->
  chain_bytes ms' = zdrop len (chain_bytes ms) /\ length ms' = length ms.
Proof.
  revert len ms' l. induction ms as [|m ms IH]; intros len ms' l Hl E; simpl in E.
  - simplify_eq. rewrite chain_bytes_nil. by rewrite zdrop_nil.
  - destruct (Z.gtb_spec len 0).
    + destruct (Z.leb_spec (m_len m) len).
      * destruct (m_adj_head ms (len - m_len m)) as [r l'] eqn:E'. simplify_eq.
        apply IH in E' as [Hb Hn]; [|lia]. rewrite !chain_bytes_cons. rec_simpl.
        rewrite zdrop_app_ge by (unfold m_len in *; lia). simpl. by rewrite Hb, Hn.
      * simplify_eq. rewrite !chain_bytes_cons. rec_simpl.
        rewrite zdrop_app_le by (unfold m_len in *; lia). done.
    + simplify_eq. rewrite zdrop_le0 by lia. done.
Qed.

Lemma m_adj_head_wf ms len ms' l :
  0 <= len -> m_adj_head ms len = (ms', l) -> Forall m_wf ms -> Forall m_wf ms'.
Proof.
  revert len ms' l. induction ms as [|m ms IH]; intros len ms' l Hl E Hw; simpl in E; [by simplify_eq|].
  pose proof Hw as Hw0. apply Forall_cons_iff in Hw0 as [(Ho & Hm) Hw'].
  destruct (Z.gtb_spec len 0); [|by simplify_eq].
  destruct (Z.leb_spec (m_len m) len).
  - destruct (m_adj_head ms (len - m_len m)) as [r l'] eqn:E'. simplify_eq.
    apply Forall_cons_iff. split; [|eapply IH; [|exact E'|done]; lia].
    unfold m_wf, m_len in *. rec_simpl. rewrite (@zlen_nil Z). zlen_pose.
    split; [done|]. case_match; [lia|]. split; [lia|tauto].
  - simplify_eq. apply Forall_cons_iff. split; [|done].
    unfold m_wf, m_len in *. rec_simpl. rewrite zlen_zdrop. split; [lia|].
    case_match; [lia|]. split; [lia|]. intros. destruct Hm as [? Hm]. specialize (Hm ltac:(done)). lia.
Qed.

Lemma chain_bytes_emptied ms : chain_bytes (map (fun m => m <| m_bytes := [] |>) ms) = [].
Proof. induction ms as [|m ms IH]; simpl; [done|]. by rewrite chain_bytes_cons, IH. Qed.

Lemma m_adj_trunc_spec ms count :
  0 <= count <= chain_len ms -> chain_bytes (m_adj_trunc ms count) = ztake count (chain_bytes ms).
Proof.
  revert count. induction ms as [|m ms IH]; intros count Hc; simpl.
  - by rewrite chain_bytes_nil, ztake_nil.
  - rewrite chain_len_cons in Hc. rewrite (chain_bytes_cons m ms).
    destruct (Z.geb_spec (m_len m) count).
    + rewrite chain_bytes_cons, chain_bytes_emptied, app_nil_r. rec_simpl.
      rewrite ztake_app_le by (unfold m_len in *; lia). done.
    + rewrite chain_bytes_cons, ztake_app_ge by (unfold m_len in *; lia).
      f_equal. apply IH. unfold m_len in *. lia.
Qed.

Lemma m_adj_last_spec ms m len :
  m_last ms = Some m -> 0 <= len <= m_len m ->
  chain_bytes (m_adj_last ms len) = ztake (chain_len ms - len) (chain_bytes ms).
Proof.
  induction ms as [|m1 ms IH]; intros Hm Hl; [done|].
  destruct ms as [|m2 ms].
  - simpl in Hm. simplify_eq. simpl. rewrite !chain_bytes_one, chain_len_cons, chain_len_nil.
    rec_simpl. f_equal. lia.
  - change (m_adj_last (m1 :: m2 :: ms) len) with (m1 :: m_adj_last (m2 :: ms) len).
    change (m_last (m1 :: m2 :: ms)) with (m_last (m2 :: ms)) in Hm.
    rewrite chain_bytes_cons, IH by done. rewrite (chain_bytes_cons m1), (chain_len_cons m1).
    assert (m_len m <= chain_len (m2 :: ms)).
    { clear -Hm. revert Hm. generalize (m2 :: ms) as l. induction l as [|a l IH]; [done|].
      destruct l as [|b l].
      - simpl. intros. simplify_eq. rewrite chain_len_cons, chain_len_nil. lia.
      - intros Hm. specialize (IH Hm). rewrite chain_len_cons. pose proof (m_len_nonneg a). lia. }
    pose proof (m_len_nonneg m1).
    rewrite ztake_app_ge by (unfold m_len, chain_len in *; lia). do 2 f_equal. unfold m_len. lia.
Qed.

(** [m_adj mp n] drops the first [n] bytes of the chain's data when [n >= 0] and
    the last [-n] bytes when [n < 0] (everything, if there are fewer). *)
Lemma m_adj_bytes mp n :
  chain_bytes (m_adj mp n) =
  if n >=? 0 then zdrop n (chain_bytes mp) else ztake (chain_len mp + n) (chain_bytes mp).
Proof.
  unfold m_adj. destruct mp as [|m0 ms0] eqn:Emp.
  { rewrite chain_bytes_nil. rewrite zdrop_nil, ztake_nil. by case_match. }
  rewrite <- Emp. destruct (Z.geb_spec n 0) as [Hn|Hn].
  - destruct (m_adj_head mp n) as [ms l] eqn:E. apply m_adj_head_spec in E as [Hb _]; [|lia].
    by rewrite chain_bytes_set_pktlen.
  - assert (exists m, m_last mp = Some m) as [m Hm].
    { subst. clear. revert m0. induction ms0 as [|m1 ms IH]; intros m0; [eauto|]. apply IH. }
    rewrite Hm. destruct (Z.geb_spec (m_len m) (- n)).
    + rewrite chain_bytes_set_pktlen, (m_adj_last_spec _ m) by (done || lia). f_equal. lia.
    + replace (chain_len mp - - n) with (chain_len mp + n) by lia.
      pose proof (chain_len_nonneg mp).
      rewrite m_adj_trunc_spec.
      * rewrite chain_bytes_set_pktlen. case_match; [|done].
        rewrite !ztake_le0; [done|lia|lia].
      * unfold chain_len. rewrite chain_bytes_set_pktlen. unfold chain_len in *. case_match; lia.
Qed.

Lemma m_adj_pos_wf mp n : 0 <= n -> Forall m_wf mp -> Forall m_wf (m_adj mp n).
Proof.
  intros Hn Hw. unfold m_adj. destruct mp as [|m0 ms0] eqn:Emp; [done|]. rewrite <- Emp in *.
  destruct (Z.geb_spec n 0); [|lia]. destruct (m_adj_head mp n) as [ms l] eqn:E.
  apply m_adj_head_wf in E; [|done|done]. destruct ms as [|m ms]; [done|].
  apply Forall_cons_iff in E as [? ?]. simpl. apply Forall_cons_iff. split; [|done]. by case_match.
Qed.

(** An mbuf whose data becomes shorter in place stays well-formed. *)
Lemma m_wf_shrink m b : m_wf m -> zlen b <= m_len m -> m_wf (m <| m_bytes := b |>).
Proof.
  unfold m_wf, m_len. rec_simpl. intros [Ho H] Hb. split; [done|]. case_match; [lia|]. split; [lia|tauto].
Qed.
Lemma set_pktlen_wf f ms : Forall m_wf ms -> Forall m_wf (set_pktlen f ms).
Proof.
  destruct ms as [|m ms]; [done|]. intros [? ?]%Forall_cons_iff. simpl. apply Forall_cons_iff.
  split; [|done]. by case_match.
Qed.
Lemma m_adj_trunc_wf ms count : Forall m_wf ms -> Forall m_wf (m_adj_trunc ms count).
Proof.
  revert count. induction ms as [|m ms IH]; intros count H; simpl; [done|].
  apply Forall_cons_iff in H as [Hm H]. case_match; apply Forall_cons_iff; (split; [|auto]); [| |done].
  - apply m_wf_shrink; [done|]. rewrite zlen_ztake. unfold m_len. lia.
  - apply Forall_map. revert H. apply Forall_impl. intros x Hx. apply m_wf_shrink; [done|].
    rewrite (@zlen_nil Z). apply m_len_nonneg.
Qed.
Lemma m_adj_last_wf ms len : Forall m_wf ms -> Forall m_wf (m_adj_last ms len).
Proof.
  induction ms as [|m ms IH]; intros H; [done|]. apply Forall_cons_iff in H as [Hm H].
  destruct ms as [|m2 ms].
  - simpl. apply Forall_cons_iff. split; [|done]. apply m_wf_shrink; [done|]. rewrite zlen_ztake. unfold m_len. lia.
  - change (m_adj_last (m :: m2 :: ms) len) with (m :: m_adj_last (m2 :: ms) len). apply Forall_cons_iff. auto.
Qed.
Lemma m_adj_wf mp n : Forall m_wf mp -> Forall m_wf (m_adj mp n).
Proof.
  intros Hw. destruct (Z.leb_spec 0 n); [by apply m_adj_pos_wf|].
  unfold m_adj. destruct mp as [|m0 ms0] eqn:Emp; [done|]. rewrite <- Emp in *.
  destruct (Z.geb_spec n 0); [lia|]. destruct (m_last mp); [|done].
  case_match; auto using set_pktlen_wf, m_adj_trunc_wf, m_adj_last_wf.
Qed.

(** Trimming at the end leaves the first mbuf what is left of it. *)
Lemma m_adj_neg_head m1 ms n :
  0 < n -> n <= chain_len (m1 :: ms) ->
  exists m1' ms', m_adj (m1 :: ms) (- n) = m1' :: ms' /\ m_len m1' = Z.min (m_len m1) (chain_len (m1 :: ms) - n) /\
    m_off m1' = m_off m1 /\ m_flags m1' = m_flags m1 /\ m_rcvif m1' = m_rcvif m1 /\
    (hasf (m_flags m1) M_PKTHDR = true -> m_pktlen m1 = chain_len (m1 :: ms) -> m_pktlen m1' = chain_len (m1 :: ms) - n).
Proof.
  intros Hn Hc. unfold m_adj. destruct (Z.geb_spec (- n) 0); [lia|]. rewrite Z.opp_involutive.
  destruct (m_last (m1 :: ms)) as [ml|] eqn:El.
  2: { exfalso. clear -El. revert m1 El. induction ms as [|m2 ms IH]; intros m1; [done|]. apply IH. }
  destruct (Z.geb_spec (m_len ml) n).
  - destruct ms as [|m2 ms].
    + simpl in El. simplify_eq. rewrite chain_len_cons, chain_len_nil in *. simpl.
      destruct (hasf (m_flags ml) M_PKTHDR) eqn:Ef; eexists _, _; (split; [reflexivity|]);
        unfold m_len in *; rec_simpl; rewrite zlen_ztake; split_and!; try done; lia.
    + assert (Hle : m_len ml <= chain_len (m2 :: ms)).
      { change (m_last (m1 :: m2 :: ms)) with (m_last (m2 :: ms)) in El. clear -El. revert m2 El.
        induction ms as [|m3 ms IH]; intros m2 El.
        - simpl in El. simplify_eq. rewrite chain_len_cons, chain_len_nil. lia.
        - apply IH in El. rewrite chain_len_cons. pose proof (m_len_nonneg m2). lia. }
      change (m_adj_last (m1 :: m2 :: ms) n) with (m1 :: m_adj_last (m2 :: ms) n). rewrite (chain_len_cons m1) in *.
      simpl. destruct (hasf (m_flags m1) M_PKTHDR) eqn:Ef; eexists _, _; (split; [reflexivity|]); unfold m_len in *; rec_simpl;
        split_and!; try done; lia.
  - destruct (Z.ltb_spec (chain_len (m1 :: ms) - n) 0); [lia|].
    assert (E : forall f m, m_len (if hasf (m_flags m) M_PKTHDR then m <| m_pktlen := f m |> else m) = m_len m) by (intros; by case_match).
    cbn [set_pktlen m_adj_trunc]. rewrite (E (fun _ => chain_len (m1 :: ms) - n) m1).
    destruct (Z.geb_spec (m_len m1) (chain_len (m1 :: ms) - n)); eexists _, _; (split; [reflexivity|]).
    + unfold m_len in *. rec_simpl. rewrite zlen_ztake.
      destruct (hasf (m_flags m1) M_PKTHDR) eqn:Ef; rec_simpl; split_and!; try done; lia.
    + rewrite (E (fun _ => chain_len (m1 :: ms) - n) m1). destruct (hasf (m_flags m1) M_PKTHDR) eqn:Ef; rec_simpl; split_and!; try done; lia.
Qed.

(** ** Concatenation and pull-up *)

Lemma m_cat_last_spec p m n c p' :
  m_cat_last p m n = (c, p') ->
  chain_bytes c = m_bytes m ++ chain_bytes n /\
  (forall x, mclrefcnt p' x - refs x c = mclrefcnt p x - refs1 x m - refs x n) /\
  (m_wf m -> Forall m_wf n -> Forall m_wf c).
Proof.
  revert p m. induction n as [|n1 n IH]; intros p m E; simpl in E.
  - simplify_eq. rewrite chain_bytes_one, chain_bytes_nil, app_nil_r.
    split; [done|]. split; [simpl; lia|]. intros. constructor; [done|constructor].
  - destruct (hasf (m_flags m) M_EXT) eqn:Ee; simpl in E.
    { simplify_eq. split; [done|]. split; [simpl; lia|]. intros. by constructor. }
    destruct (Z.geb_spec (m_off m + m_len m + m_len n1) MLEN).
    { simplify_eq. split; [done|]. split; [simpl; lia|]. intros. by constructor. }
    apply IH in E as (Hb & Hr & Hw). rec_simpl_in Hb. split; [|split].
    + by rewrite Hb, chain_bytes_cons, app_assoc.
    + intros x. rewrite Hr, m_free_refcnt. simpl.
      change (refs1 x (m <| m_bytes := m_bytes m ++ m_bytes n1 |>)) with (refs1 x m). lia.
    + intros (? & Hwf) Hn. apply Forall_cons_iff in Hn as [? ?]. apply Hw; [|done].
      unfold m_wf, m_len in *. rec_simpl. rewrite Ee in *. rewrite zlen_app. split; [lia|].
      split; [lia|tauto].
Qed.

(** Moving the data pointer of an mbuf forward inside its data. *)
Lemma drop_wf m n : m_wf m -> 0 <= n <= m_len m ->
  m_wf (m <| m_off := m_off m + n |> <| m_bytes := zdrop n (m_bytes m) |>).
Proof.
  intros [Ho Hw] Hn. unfold m_wf, m_len in *. rec_simpl. rewrite zlen_zdrop.
  split; [lia|]. destruct (hasf (m_flags m) M_EXT); [lia|]. destruct Hw as [Hw Hp]. split; [lia|]. intros Hh. specialize (Hp Hh). lia.
Qed.

Lemma m_freem_fail p ms : mp_fail (m_freem p ms) = mp_fail p.
Proof.
  unfold m_freem. revert p. induction ms as [|m ms IH]; intros p; simpl; [done|]. rewrite IH.
  unfold m_free, MCLFREE. destruct (hasf _ _); [case_match|]; by rec_simpl.
Qed.

Lemma m_pullup_loop_spec p mp m n len space :
  n <> [] -> 0 <= len <= space -> space = MLEN - (m_off m + m_len m) ->
  0 <= m_off m -> 0 <= mp < 2147483648 -> chain_len n < 2147483648 ->
  exists m' n' len' p', m_pullup_loop p mp m n len space = Ret (m', n', len', p') /\
    m_bytes m' ++ chain_bytes n' = m_bytes m ++ chain_bytes n /\
    m_len m' = m_len m + (len - len') /\ (len' > 0 -> n' = []) /\
    m_off m' = m_off m /\ m_flags m' = m_flags m /\ m_off m' + m_len m' <= MLEN /\
    m_pktlen m' = m_pktlen m /\ m_rcvif m' = m_rcvif m /\ mp_fail p' = mp_fail p /\ (Forall m_wf n -> Forall m_wf n').
Proof.
  revert p m len space.
  induction n as [|n1 n IH]; intros p m len space Hn Hl Hs Ho Hmp Hc; [done|]. simpl.
  rewrite chain_len_cons in Hc. pose proof (chain_len_nonneg n). pose proof (m_len_nonneg m).
  pose proof (m_len_nonneg n1).
  set (count := cmin _ _).
  assert (Hcount : count = Z.min (Z.min (Z.max len mp) space) (m_len n1)).
  { unfold count, MLEN in *. rewrite (cmax_spec len mp) by lia.
    rewrite (cmin_spec (Z.max len mp) space) by lia. apply cmin_spec; lia. }
  assert (Hm : m_len (m <| m_bytes := m_bytes m ++ ztake count (m_bytes n1) |>) = m_len m + count).
  { unfold m_len in *. rec_simpl. rewrite zlen_app, zlen_ztake. lia. }
  assert (Hn1 : m_len (n1 <| m_bytes := zdrop count (m_bytes n1) |>) = m_len n1 - count).
  { unfold m_len in *. rec_simpl. rewrite zlen_zdrop. lia. }
  rewrite Hn1. pose proof (m_freem_fail p [n1]) as Hpf. change (m_freem p [n1]) with (m_free p n1) in Hpf.
  destruct (Z.eqb_spec (m_len n1 - count) 0) as [E0|E0].
  - assert (ztake count (m_bytes n1) = m_bytes n1) as Ht by (apply ztake_ge; unfold m_len in *; lia).
    destruct (Z.gtb_spec (len - count) 0) as [Hgt|Hgt]; simpl.
    + destruct (decide (n = [])) as [->|Hne].
      * eexists _, _, _, _. split; [done|]. rec_simpl. rewrite Ht, chain_bytes_one, chain_bytes_nil, app_nil_r.
        rewrite Ht in Hm. split_and!; try done; [rec_simpl; lia|rewrite Hm; lia].
      * rewrite bool_decide_eq_false_2 by done. simpl.
        destruct (IH (m_free p n1) (m <| m_bytes := m_bytes m ++ ztake count (m_bytes n1) |>)
          (len - count) (space - count)) as (m' & n' & len' & p' & -> & Hb & Hl' & Hnil & Hoff & Hfl & Hfit & Hpk & Hrc & Hpf' & Hwf);
          [done|lia|rewrite Hm; rec_simpl; lia|done|done|lia|].
        eexists _, _, _, _. split; [done|]. rec_simpl_in Hb. rec_simpl_in Hoff. rec_simpl_in Hfl.
        rewrite Hb, Ht, (chain_bytes_cons n1), app_assoc.
        split_and!; try done; try lia; try congruence. intros [_ ?]%Forall_cons_iff. auto.
    + eexists _, _, _, _. split; [done|]. rec_simpl. rewrite Ht, (chain_bytes_cons n1), app_assoc.
      rewrite Ht in Hm. split_and!; try done; try lia; try (rewrite Hm; lia); try (by intros [_ ?]%Forall_cons_iff).
  - destruct (Z.gtb_spec (len - count) 0) as [Hgt|Hgt]; [lia|].
    eexists _, _, _, _. split; [done|]. rec_simpl.
    rewrite (chain_bytes_cons n1), chain_bytes_cons. rec_simpl.
    rewrite <- app_assoc, (app_assoc (ztake _ _)), ztake_zdrop.
    split_and!; try done; try lia; try (rewrite Hm; lia). intros [Hw1 Hw]%Forall_cons_iff. constructor; [|done].
    apply (drop_wf n1 count Hw1). lia.
Qed.

(** What [m_pullup] promises of its result. *)
Definition pulled_up (n : chain) (len : Z) (r : option chain) : Prop :=
  match r with
  | Some c => chain_bytes c = chain_bytes n /\
              exists m ms, c = m :: ms /\ len <= m_len m
  | None => True
  end.

Lemma m_pullup_run p mp m n len orig olen :
  n <> [] -> 0 <= len -> m_off m + m_len m + len <= MLEN -> 0 <= m_off m ->
  0 <= mp < 2147483648 -> chain_len n < 2147483648 ->
  m_bytes m ++ chain_bytes n = chain_bytes orig -> olen <= m_len m + len ->
  exists r p',
    (let! (m, n, len, p) := m_pullup_loop p mp m n len (MLEN - (m_off m + m_len m)) in
     if len >? 0 then Ret (None, m_freem (m_free p m) n) else Ret (Some (m :: n), p)) = Ret (r, p') /\
    pulled_up orig olen r /\ (olen = m_len m + len -> olen <= chain_len orig -> r <> None).
Proof.
  intros Hn Hl Hf Ho Hmp Hc Hb Hol.
  destruct (m_pullup_loop_spec p mp m n len (MLEN - (m_off m + m_len m)))
    as (m' & n' & len' & p' & -> & Hb' & Hl' & Hnil & _); [done|lia|done|done|done|done|].
  simpl. destruct (Z.gtb_spec len' 0).
  - eexists None, _. split; [done|]. split; [done|]. intros Ho' Hle.
    rewrite Hnil, chain_bytes_nil, app_nil_r in Hb' by lia.
    exfalso. unfold chain_len, m_len in *. rewrite <- Hb, <- Hb' in Hle. lia.
  - eexists (Some _), _. split; [done|]. split; [|done].
    simpl. rewrite chain_bytes_cons, Hb', Hb. split; [done|]. eexists _, _. split; [done|]. lia.
Qed.

(** The loop of m_pullup from an mbuf [m] with a packet header and no cluster. *)
Lemma m_pullup_run_pkt p mp m n len :
  n <> [] -> 0 <= len -> m_off m + m_len m + len <= MLEN -> 0 <= mp < 2147483648 ->
  m_wf m -> Forall m_wf n -> hasf (m_flags m) M_EXT = false -> hasf (m_flags m) M_PKTHDR = true ->
  m_len m + len <= m_len m + chain_len n -> chain_len n < 2147483648 ->
  exists m' n' p',
    (let! (m, n, len, p) := m_pullup_loop p mp m n len (MLEN - (m_off m + m_len m)) in
     if len >? 0 then Ret (None, m_freem (m_free p m) n) else Ret (Some (m :: n), p)) = Ret (Some (m' :: n'), p') /\
    mp_fail p' = mp_fail p /\ chain_bytes (m' :: n') = m_bytes m ++ chain_bytes n /\ m_len m + len <= m_len m' /\
    Forall m_wf (m' :: n') /\ m_flags m' = m_flags m /\ m_rcvif m' = m_rcvif m /\ m_pktlen m' = m_pktlen m.
Proof.
  intros Hn Hl Hfit Hmp Hw Hwn He Hp Hc Hc2. pose proof Hw as [Ho Hw2]. rewrite He in Hw2. destruct Hw2 as [Hm Hoff]. specialize (Hoff Hp).
  destruct (m_pullup_loop_spec p mp m n len (MLEN - (m_off m + m_len m)))
    as (m' & n' & len' & p' & -> & Hb & Hlen & Hnil & Ho' & Hfl & Hfit' & Hpk & Hrc & Hpf & Hwf); try done; [lia|]. cbn [obind].
  assert (Hle : len' <= 0).
  { destruct (Z.gtb_spec len' 0) as [Hgt|]; [|lia]. rewrite Hnil, chain_bytes_nil, app_nil_r in Hb by lia.
    apply (f_equal zlen) in Hb. rewrite zlen_app in Hb. unfold chain_len, m_len in *. lia. }
  destruct (Z.gtb_spec len' 0); [lia|]. exists m', n', p'. split; [done|].
  rewrite chain_bytes_cons. split_and!; try done; [lia|]. constructor; [|auto].
  unfold m_wf. rewrite Hfl, He, Ho'. split; [done|]. split; [lia|done].
Qed.

(** Pulling up a packet whose front is in a cluster or in more than one mbuf gives a first
    mbuf without a cluster that has the front and the packet header. *)
Lemma m_pullup_pkt p mp n1 n len :
  (hasf (m_flags n1) M_EXT = true \/ m_len n1 < len) -> hasf (m_flags n1) M_PKTHDR = true -> Forall m_wf (n1 :: n) ->
  0 <= len <= MHLEN -> len <= chain_len (n1 :: n) < 2147483648 -> mp_fail p = [] -> 0 <= mp < 2147483648 ->
  exists m' n' p', m_pullup p mp (n1 :: n) len = Ret (Some (m' :: n'), p') /\ mp_fail p' = [] /\
    chain_bytes (m' :: n') = chain_bytes (n1 :: n) /\ len <= m_len m' /\ Forall m_wf (m' :: n') /\
    hasf (m_flags m') M_EXT = false /\ hasf (m_flags m') M_PKTHDR = true /\ m_rcvif m' = m_rcvif n1 /\ m_pktlen m' = m_pktlen n1.
Proof.
  intros He Hp Hw Hl Hc Hf Hmp. cbv beta iota zeta delta [m_pullup]. rewrite chain_len_cons in Hc.
  pose proof (m_len_nonneg n1). pose proof (chain_len_nonneg n). apply Forall_cons_iff in Hw as [Hw1 Hw].
  match goal with |- context [if ?b then _ else _] => destruct b eqn:Ecase end.
  - apply andb_true_iff in Ecase as [Ecase Hn%negb_true_iff%bool_decide_eq_false].
    apply andb_true_iff in Ecase as [He1%negb_true_iff Hfit%Z.ltb_lt].
    destruct He as [?|He]; [congruence|]. destruct (Z.geb_spec (m_len n1) len); [lia|].
    destruct (m_pullup_run_pkt p mp n1 n (len - m_len n1)) as (m' & n' & p' & E & A1 & A2 & A3 & A4 & A5 & A6 & A7); try done; try lia.
    exists m', n', p'. rewrite A5. split_and!; try done; [congruence|lia].
  - destruct (Z.gtb_spec len MHLEN); [lia|]. rewrite (m_get_nofail _ _ Hf), Hp. set (m0 := M_COPY_PKTHDR _ n1).
    assert (E : m_bytes m0 = [] /\ m_off m0 = 8 /\ m_flags m0 = Z.land (m_flags n1) M_COPYFLAGS /\ m_rcvif m0 = m_rcvif n1 /\
      m_pktlen m0 = m_pktlen n1) by done.
    destruct E as (E1 & E2 & E3 & E4 & E6). assert (E5 : m_len m0 = 0) by (unfold m_len; by rewrite E1). clearbody m0.
    assert (F1 : hasf (m_flags m0) M_EXT = false) by (rewrite E3; apply hasf_copyflags_ext).
    assert (F2 : hasf (m_flags m0) M_PKTHDR = true).
    { rewrite E3. unfold hasf in *. rewrite <- Z.land_assoc. exact Hp. }
    set (n1' := n1 <| m_flags := _ |>). assert (Ec : chain_bytes (n1' :: n) = chain_bytes (n1 :: n)) by done.
    assert (Hw' : m_wf n1').
    { destruct Hw1 as [W1 W2]. unfold m_wf, n1', m_len in *. rec_simpl. rewrite !hasf_clrb. split; [done|].
      change (clrb M_EXT M_PKTHDR) with M_EXT. change (clrb M_PKTHDR M_PKTHDR) with 0.
      destruct (hasf (m_flags n1) M_EXT); [done|]. split; [apply W2|]. unfold hasf. by rewrite Z.land_0_r. }
    assert (Ecl : chain_len (n1' :: n) = m_len n1 + chain_len n) by (unfold chain_len; rewrite Ec; apply chain_len_cons).
    clearbody n1'. unfold MHLEN in *.
    destruct (m_pullup_run_pkt p mp m0 (n1' :: n) len) as (m' & n' & p' & E & A1 & A2 & A3 & A4 & A5 & A6 & A7);
      try done; try lia; [unfold MLEN; lia|unfold m_wf; rewrite F1, E2; unfold MLEN, sizeof_pkthdr; lia|by constructor|].
    exists m', n', p'. rewrite A5. split_and!; try done; try congruence; [|lia]. by rewrite A2, E1, Ec.
Qed.

(** C37: m_copym of a range inside a chain returns, and when the allocator does not
    fail it returns a copy: the copy holds exactly the bytes of the range, every
    cluster it shares has its reference count raised by the number of mbufs that
    refer to it, and releasing the copy with m_freem restores every count; when
    the allocator fails, no count is changed. *)
Theorem m_copym_correct p ms off len :
  0 <= off -> 0 < len -> off + len <= chain_len ms -> chain_len ms < M_COPYALL ->
  exists r p', m_copym p ms off len = Ret (r, p') /\ (mp_fail p = [] -> r <> None) /\
    match r with
    | None => forall x, mclrefcnt p' x = mclrefcnt p x
    | Some c => chain_bytes c = zsub off len (chain_bytes ms) /\
        (forall x, mclrefcnt p' x = mclrefcnt p x + refs x c) /\
        (forall x, mclrefcnt (m_freem p' c) x = mclrefcnt p x)
    end.
Proof.
  intros H1 H2 H3 H4. destruct (m_copym_spec p ms off len H1 H2 H3 H4) as (r & p' & E & Hs & H).
  exists r, p'. split_and!; [done..|]. destruct r as [c|]; [|done]. destruct H as [Hb Hr].
  split_and!; [done..|]. intros x. rewrite m_freem_refcnt, Hr. lia.
Qed.

(** A chain of a cluster mbuf and a plain one, for the examples. *)
Definition sample_chain : chain :=
  [mkMbuf 0 [1; 2; 3; 4] MT_DATA M_EXT 0 0 7 MCLBYTES; mkMbuf 8 [5; 6] MT_DATA 0 0 0 0 0].
Definition sample_pool : mpool := mkPool (fun c => if c =? 7 then 1 else 0) [] [].

Lemma sample_chain_wf : Forall m_wf sample_chain.
Proof. repeat constructor; vm_compute; intuition congruence. Qed.

Lemma m_copym_witness :
  exists r p', m_copym sample_pool sample_chain 2 3 = Ret (r, p') /\ (mp_fail sample_pool = [] -> r <> None) /\
    match r with
    | None => forall x, mclrefcnt p' x = mclrefcnt sample_pool x
    | Some c => chain_bytes c = [3; 4; 5] /\
        (forall x, mclrefcnt p' x = mclrefcnt sample_pool x + refs x c) /\
        (forall x, mclrefcnt (m_freem p' c) x = mclrefcnt sample_pool x)
    end.
Proof. apply (m_copym_correct sample_pool sample_chain 2 3); vm_compute; congruence. Defined.

(** m_adj removes bytes: with a count that is not negative that many from the
    front of the chain (all of them when the chain is shorter), with a negative
    count that many from its end; the mbufs keep holding their data. *)
Theorem m_adj_correct mp n (H : Forall m_wf mp) :
  chain_bytes (m_adj mp n) =
    (if n >=? 0 then zdrop n (chain_bytes mp) else ztake (chain_len mp + n) (chain_bytes mp)) /\
  Forall m_wf (m_adj mp n).
Proof. split; [apply m_adj_bytes|by apply m_adj_wf]. Qed.

Lemma m_adj_witness : chain_bytes (m_adj sample_chain (-3)) = [1; 2; 3] /\ Forall m_wf (m_adj sample_chain (-3)).
Proof. apply (m_adj_correct sample_chain (-3) sample_chain_wf). Defined.

(** M_pullup returns; a chain it returns holds the same bytes and its first mbuf
    holds at least the first [len] of them; and it returns one, rather than freeing
    the chain, whenever [len] fits in an mbuf with a packet header, the chain is
    long enough and the allocator does not fail. *)
Theorem m_pullup_correct p mp n len :
  n <> [] -> Forall m_wf n -> 0 <= len -> 0 <= mp < 2147483648 -> chain_len n < 2147483648 ->
  exists r p', m_pullup p mp n len = Ret (r, p') /\ pulled_up n len r /\
    (mp_fail p = [] -> len <= MHLEN -> len <= chain_len n -> r <> None).
Proof.
  intros Hne Hwf Hl Hmp Hc. destruct n as [|n1 n]; [done|].
  cbv beta iota zeta delta [m_pullup].
  apply Forall_cons_iff in Hwf as [[Hoff Hw1] Hwf].
  pose proof (m_len_nonneg n1). rewrite chain_len_cons in Hc. pose proof (chain_len_nonneg n).
  match goal with |- context [if ?b then _ else _] => destruct b eqn:Ecase end.
  - apply andb_true_iff in Ecase as [Ecase Hn%negb_true_iff%bool_decide_eq_false].
    apply andb_true_iff in Ecase as [He%negb_true_iff Hfit].
    destruct (Z.geb_spec (m_len n1) len).
    + eexists (Some _), _. split; [done|]. split; [|done]. split; [done|]. eauto with lia.
    + destruct (m_pullup_run p mp n1 n (len - m_len n1) (n1 :: n) len)
        as (r & p' & -> & Hr & Hs); [done|lia|lia|done|done|lia|done|lia|].
      eexists _, _. split; [done|]. split; [done|]. intros. apply Hs; lia.
  - destruct (Z.gtb_spec len MHLEN).
    { eexists None, _. split; [done|]. split; [done|]. lia. }
    destruct (m_get p (m_type n1)) as [[m|] p1] eqn:Eg.
    + apply m_get_Some in Eg as ->.
      destruct (hasf (m_flags n1) M_PKTHDR);
      match goal with
      | |- context [m_pullup_loop ?q ?mp ?m ?k ?l _] =>
          destruct (m_pullup_run q mp m k l (n1 :: n) len) as (r & p' & E & Hr & Hs);
          [done|done|unfold m_len, MLEN, MHLEN in *; simpl; rewrite ?(@zlen_nil Z);
             unfold sizeof_pkthdr; lia|simpl; unfold sizeof_pkthdr; lia|done|
           rewrite ?chain_len_cons; unfold m_len in *; simpl; lia|done|
           unfold m_len; simpl; rewrite ?(@zlen_nil Z); lia|]
      end;
      (eexists _, _; split; [exact E|]; split; [done|]; intros; apply Hs;
        [unfold m_len; simpl; rewrite ?(@zlen_nil Z); lia|rewrite ?chain_len_cons in *; lia]).
    + eexists None, _. split; [done|]. split; [done|]. intros Hf.
      by rewrite (m_get_nofail _ _ Hf) in Eg.
Qed.

Lemma m_pullup_witness :
  exists r p', m_pullup sample_pool 40 sample_chain 5 = Ret (r, p') /\ pulled_up sample_chain 5 r /\
    (mp_fail sample_pool = [] -> 5 <= MHLEN -> 5 <= chain_len sample_chain -> r <> None).
Proof.
  apply (m_pullup_correct sample_pool 40 sample_chain 5);
    [discriminate|apply sample_chain_wf|lia|lia|vm_compute; congruence].
Defined.

(** m_cat appends the second chain, linking it or copying small mbufs into the last one;
    the first mbuf stays where it is, and every cluster reference that an mbuf freed on
    the way held is released and no other. *)
Lemma m_cat_last_head p m n c p' :
  m_cat_last p m n = (c, p') ->
  exists m' t, c = m' :: t /\ m_off m' = m_off m /\ m_flags m' = m_flags m /\ ext_size m' = ext_size m.
Proof.
  revert p m. induction n as [|n1 n IH]; intros p m E; simpl in E; [simplify_eq; by eexists _, _|].
  destruct (_ || _); [simplify_eq; by eexists _, _|]. by apply IH in E.
Qed.

Lemma m_cat_ok p m1 m n :
  exists m1' c p', m_cat p (m1 :: m) n = Ret (m1' :: c, p') /\
    chain_bytes (m1' :: c) = chain_bytes (m1 :: m) ++ chain_bytes n /\
    (forall x, mclrefcnt p' x - refs x (m1' :: c) = mclrefcnt p x - refs x (m1 :: m) - refs x n) /\
    (Forall m_wf (m1 :: m) -> Forall m_wf n -> Forall m_wf (m1' :: c)) /\
    m_off m1' = m_off m1 /\ m_flags m1' = m_flags m1 /\ ext_size m1' = ext_size m1.
Proof.
  revert m1. induction m as [|m2 m IH]; intros m1.
  - simpl. destruct (m_cat_last p m1 n) as [c p'] eqn:E. pose proof E as Eh.
    apply m_cat_last_spec in E as (Hb & Hr & Hw). apply m_cat_last_head in Eh as (m' & t & -> & H1 & H2 & H3).
    eexists _, _, _. split; [done|]. rewrite chain_bytes_one. split; [done|].
    split; [intros x; rewrite Hr; simpl; lia|]. split; [|done].
    intros Hf ?. apply Forall_cons_iff in Hf as [? _]. auto.
  - destruct (IH m2) as (m2' & c & p' & E & Hb & Hr & Hw & _).
    change (m_cat p (m1 :: m2 :: m) n) with
      (let! (c, p) := m_cat p (m2 :: m) n in Ret (m1 :: c, p)).
    rewrite E. cbn [obind]. eexists _, _, _. split; [done|].
    rewrite (chain_bytes_cons m1 (m2' :: c)), (chain_bytes_cons m1), Hb, app_assoc. split; [done|].
    split; [intros x; specialize (Hr x); simpl in *; lia|]. split; [|done].
    intros Hf ?. apply Forall_cons_iff in Hf as [? ?]. constructor; auto.
Qed.

End Mbuf.
