(* ===== verification/Cksum.v ===== *)
(** The Internet checksum routine (src/sys/netinet/in_cksum.c).

    [in_cksum] walks an mbuf chain with an unrolled inner loop, an accumulator
    that is folded only now and then, a byte-swapped mode for data at odd
    addresses, and a pending byte when a 16-bit word straddles two mbufs.  The
    model keeps all of these; [cksum_ref] is the one's complement sum of RFC 1071
    on the flat byte string. *)
From S2P Require Import Prelude Mbuf.
Import Mbuf.

Module Cksum.

(** The 16-bit word at [w], little endian (the union [s_util] and [*w]). *)
Definition word_at (w : list Z) : Z :=
  match w with
  | b0 :: b1 :: _ => b0 + 256 * b1
  | [b0] => b0
  | [] => 0
  end.

(** [l_util.l = sum; sum = l_util.s[0] + l_util.s[1]; ADDCARRY(sum);] *)
Definition REDUCE (sum : Z) : Z :=
  let l := u32 sum in
  let s := l mod 65536 + l / 65536 in
  if s >? 65535 then s - 65535 else s.

(** [sum += w[0]; sum += w[1]; ...] for [k] words. *)
Fixpoint add_words (k : nat) (w : list Z) (sum : Z) : Z :=
  match k with
  | O => sum
  | S k => add_words k (drop 2 w) (s32 (sum + word_at w))
  end.

(** [while ((mlen -= 2 * k) >= 0) { k words; w += k; }], then the final
    [mlen += 2 * k].  Every turn takes at least one byte. *)
Fixpoint loop_words (fuel : nat) (k : nat) (sum mlen : Z) (w : list Z) : Z * Z * list Z :=
  match fuel with
  | O => (sum, mlen, w)
  | S fuel =>
      let chunk := 2 * Z.of_nat k in
      if mlen - chunk >=? 0
      then loop_words fuel k (add_words k w sum) (mlen - chunk) (zdrop chunk w)
      else (sum, mlen, w)
  end.

(** The variables that survive from one mbuf to the next. *)
Record ckst := mkCk {
  ck_sum : Z;
  ck_mlen : Z;
  ck_len : Z;
  ck_c0 : Z              (* s_util.c[0] *)
}.

(** From the alignment test to the end of the loop body. *)
Definition cksum_body (odd : bool) (w : list Z) (sum mlen len c0 : Z) : ckst :=
  let '(sum, w, mlen, c0, byte_swapped) :=
    if odd && (mlen >? 0)
    then (s32 (Z.shiftl (REDUCE sum) 8), drop 1 w, mlen - 1, nth 0 w 0, true)
    else (sum, w, mlen, c0, false) in
  let '(sum, mlen, w) := loop_words (Z.to_nat mlen) 16 sum mlen w in
  let '(sum, mlen, w) := loop_words (Z.to_nat mlen) 4 sum mlen w in
  if (mlen =? 0) && negb byte_swapped then mkCk sum mlen len c0
  else
    let sum := REDUCE sum in
    let '(sum, mlen, w) := loop_words (Z.to_nat mlen) 1 sum mlen w in
    let mlen := mlen - 2 in
    if byte_swapped then
      let sum := s32 (Z.shiftl (REDUCE sum) 8) in
      if mlen =? -1
      then mkCk (s32 (sum + (c0 + 256 * nth 0 w 0))) 0 len c0
      else mkCk sum (-1) len c0
    else if mlen =? -1 then mkCk sum mlen len (nth 0 w 0)
    else mkCk sum mlen len c0.

(** One turn of the outer loop on mbuf [m]. *)
Definition cksum_mbuf (m : mbuf) (st : ckst) : ckst :=
  let '(mkCk sum mlen len c0) := st in
  if m_len m =? 0 then st
  else
    let w := m_bytes m in
    let odd := Z.odd (m_off m) in
    let '(sum, w, odd, mlen, len) :=
      if mlen =? -1
      then (s32 (sum + (c0 + 256 * nth 0 w 0)), drop 1 w, negb odd, m_len m - 1, len - 1)
      else (sum, w, odd, m_len m, len) in
    let mlen := if len <? mlen then len else mlen in
    cksum_body odd w sum mlen (len - mlen) c0.

Fixpoint cksum_loop (ms : chain) (st : ckst) : ckst :=
  match ms with
  | [] => st
  | m :: ms' => if ck_len st =? 0 then st else cksum_loop ms' (cksum_mbuf m st)
  end.

Definition in_cksum (ms : chain) (len : Z) : Z :=
  let '(mkCk sum mlen _ c0) := cksum_loop ms (mkCk 0 0 len 0) in
  let sum := if mlen =? -1 then s32 (sum + c0) else sum in
  Z.land (Z.lnot (REDUCE sum)) 65535.

(** ** Reference *)

(** The sum of 16-bit little-endian words: a byte at an even position has weight
    1, a byte at an odd position weight 256 ([o] is the parity of the first). *)
Fixpoint ws (o : bool) (l : list Z) : Z :=
  match l with
  | [] => 0
  | b :: r => (if o then 256 * b else b) + ws (negb o) r
  end.

(** The one's complement representative of a non-negative sum. *)
Definition oc_norm (s : Z) : Z :=
  if s =? 0 then 0 else if s mod 65535 =? 0 then 65535 else s mod 65535.

Definition cksum_ref (l : list Z) : Z := 65535 - oc_norm (ws false l).

(** Equal one's complement values. *)
Definition oceq (a b : Z) : Prop :=
  0 <= a /\ 0 <= b /\ a mod 65535 = b mod 65535 /\ (a = 0 <-> b = 0).

Lemma oceq_norm a b : oceq a b -> oc_norm a = oc_norm b.
Proof.
  intros (? & ? & E & Hz). unfold oc_norm. rewrite E.
  destruct (Z.eqb_spec a 0), (Z.eqb_spec b 0); tauto || lia.
Qed.

Lemma oceq_refl a : 0 <= a -> oceq a a.
Proof. unfold oceq. tauto. Qed.
Lemma oceq_trans a b c : oceq a b -> oceq b c -> oceq a c.
Proof. unfold oceq. intros (? & ? & ? & ?) (? & ? & ? & ?). repeat split; lia. Qed.
Lemma oceq_add a b c d : oceq a b -> oceq c d -> oceq (a + c) (b + d).
Proof.
  intros (? & ? & E1 & ?) (? & ? & E2 & ?). split; [lia|]. split; [lia|]. split; [|lia].
  rewrite (Z.add_mod a), (Z.add_mod b), E1, E2 by lia. done.
Qed.
Lemma oceq_256 a b : oceq a b -> oceq (256 * a) (256 * b).
Proof.
  intros (? & ? & E1 & ?). split; [lia|]. split; [lia|]. split; [|lia].
  rewrite (Z.mul_mod 256 a), (Z.mul_mod 256 b), E1 by lia. done.
Qed.
Lemma oceq_65536 a : 0 <= a -> oceq (256 * (256 * a)) a.
Proof.
  intros. split; [lia|]. split; [lia|]. split; [|lia].
  replace (256 * (256 * a)) with (a + a * 65535) by lia. apply Z_mod_plus_full.
Qed.

Lemma REDUCE_spec s :
  oceq (REDUCE s) (u32 s) /\ 0 <= REDUCE s <= 65535 /\ REDUCE s <= u32 s.
Proof.
  unfold REDUCE, oceq. pose proof (u32_range s). generalize dependent (u32 s). intros l Hl.
  destruct (Z.gtb_spec (l mod 65536 + l / 65536) 65535);
  (split; [split; [|split; [|split]]|]); Z.to_euclidean_division_equations; lia.
Qed.

Lemma u32_REDUCE s : u32 (REDUCE s) = REDUCE s.
Proof. apply u32_id. pose proof (REDUCE_spec s). lia. Qed.

(** ** Weighted sums *)

Lemma zodd_succ n : Z.odd (1 + n) = negb (Z.odd n).
Proof. rewrite Z.odd_add. by destruct (Z.odd n). Qed.

Lemma ws_app o P Q : ws o (P ++ Q) = ws o P + ws (xorb o (Z.odd (zlen P))) Q.
Proof.
  revert o. induction P as [|b P IH]; intros o.
  - simpl. by rewrite xorb_false_r.
  - cbn [app ws]. rewrite IH, zlen_cons, zodd_succ. by destruct o, (Z.odd (zlen P)); simpl; lia.
Qed.

Lemma ws_nonneg o l : Forall is_byte l -> 0 <= ws o l.
Proof.
  intros H. revert o. induction H as [|b l Hb Hl IH]; intros o; simpl; [done|].
  unfold is_byte in Hb. specialize (IH (negb o)). destruct o; lia.
Qed.

(** Swapping the bytes of every word is multiplication by 256. *)
Lemma ws_swap l :
  Forall is_byte l -> oceq (ws true l) (256 * ws false l) /\ oceq (ws false l) (256 * ws true l).
Proof.
  induction 1 as [|b l Hb Hl [IH1 IH2]]; [split; by apply oceq_refl|].
  unfold is_byte in Hb. simpl. rewrite !Z.mul_add_distr_l. split; apply oceq_add; try done.
  - apply oceq_refl. lia.
  - pose proof (oceq_65536 b). unfold oceq in *. lia.
Qed.

Lemma Forall_zdrop {A} (P : A -> Prop) n l : Forall P l -> Forall P (zdrop n l).
Proof. apply Forall_drop. Qed.
Lemma Forall_ztake {A} (P : A -> Prop) n l : Forall P l -> Forall P (ztake n l).
Proof. apply Forall_take. Qed.

Lemma word_at_spec w :
  Forall is_byte w -> (2 <= length w)%nat ->
  word_at w = ws false (take 2 w) /\ 0 <= word_at w <= 65535.
Proof.
  intros H Hl. destruct w as [|a [|b w]]; simpl in *; [lia|lia|].
  apply Forall_cons_iff in H as [Ha H]. apply Forall_cons_iff in H as [Hb _].
  unfold is_byte in *. lia.
Qed.

Lemma add_words_spec k w sum :
  Forall is_byte w -> (2 * k <= length w)%nat -> u32 sum + 65535 * Z.of_nat k < 4294967296 ->
  u32 (add_words k w sum) = u32 sum + ws false (take (2 * k) w) /\
  u32 (add_words k w sum) <= u32 sum + 65535 * Z.of_nat k.
Proof.
  revert w sum. induction k as [|k IH]; intros w sum Hb Hl Hs.
  - simpl. lia.
  - destruct (word_at_spec w) as [Hw Hw']; [done|lia|].
    pose proof (u32_range sum).
    assert (Hs' : u32 (s32 (sum + word_at w)) = u32 sum + word_at w).
    { autorewrite with wrap. rewrite <- u32_add_l. apply u32_id. lia. }
    destruct (IH (drop 2 w) (s32 (sum + word_at w))) as [E1 E2].
    + by apply Forall_drop.
    + rewrite length_drop. lia.
    + rewrite Hs'. lia.
    + simpl add_words. rewrite Hs' in E1, E2. split; [|lia]. rewrite E1.
      replace (2 * S k)%nat with (2 + 2 * k)%nat by lia.
      rewrite <- take_take_drop, ws_app, Hw.
      assert (Z.odd (zlen (take 2 w)) = false) as ->.
      { unfold zlen. rewrite length_take. by replace (2 `min` length w)%nat with 2%nat by lia. }
      simpl. lia.
Qed.

Lemma loop_words_spec fuel k sum mlen w :
  (0 < k)%nat -> Forall is_byte w -> 0 <= mlen <= zlen w -> mlen <= Z.of_nat fuel ->
  u32 sum + 32768 * mlen < 4294967296 ->
  exists sum' mlen' w', loop_words fuel k sum mlen w = (sum', mlen', w') /\
    mlen' = mlen mod (2 * Z.of_nat k) /\ w' = zdrop (mlen - mlen') w /\
    u32 sum' = u32 sum + ws false (ztake (mlen - mlen') w) /\
    u32 sum' <= u32 sum + 32768 * (mlen - mlen').
Proof.
  intros Hk. revert sum mlen w. induction fuel as [|fuel IH]; intros sum mlen w Hb Hm Hf Hs.
  - assert (mlen = 0) as -> by lia. simpl. eexists _, _, _. split; [done|].
    rewrite Z.mod_0_l by lia. rewrite zdrop_le0, ztake_le0 by lia. simpl. repeat split; lia || done.
  - cbn [loop_words]. set (chunk := 2 * Z.of_nat k). assert (Hch : chunk = 2 * Z.of_nat k) by done.
    destruct (Z.geb_spec (mlen - chunk) 0).
    + destruct (add_words_spec k w sum) as [E1 E2]; [done|unfold zlen in *; lia|lia|].
      destruct (IH (add_words k w sum) (mlen - chunk) (zdrop chunk w))
        as (sum' & mlen' & w' & -> & Hm' & Hw' & Hs' & Hs'').
      * by apply Forall_zdrop.
      * rewrite zlen_zdrop. lia.
      * lia.
      * lia.
      * assert (mlen' = mlen mod chunk) as Em.
        { rewrite Hm'. fold chunk. replace (mlen - chunk) with (mlen + (-1) * chunk) by lia.
          apply Z_mod_plus_full. }
        assert (0 <= mlen' <= mlen - chunk).
        { split; [rewrite Hm'; apply Z.mod_pos_bound; lia|].
          rewrite Hm'. apply Z.mod_le; lia. }
        eexists _, _, _. split; [done|]. split; [done|].
        split; [rewrite Hw', zdrop_zdrop by lia; f_equal; lia|]. split; [|lia].
        rewrite Hs', E1, <- Z.add_assoc. f_equal.
        replace (mlen - mlen') with (chunk + (mlen - chunk - mlen')) by lia.
        assert (ztake (chunk + (mlen - chunk - mlen')) w =
          take (2 * k) w ++ ztake (mlen - chunk - mlen') (zdrop chunk w)) as ->.
        { unfold ztake, zdrop. replace (Z.to_nat chunk) with (2 * k)%nat by lia.
          rewrite take_take_drop. f_equal. lia. }
        rewrite ws_app. f_equal. f_equal.
        unfold zlen in *. rewrite length_take, Nat.min_l by lia.
        replace (Z.of_nat (2 * k)) with (2 * Z.of_nat k) by lia. by rewrite Z.odd_mul.
    + eexists _, _, _. split; [done|]. rewrite Z.mod_small by lia.
      rewrite zdrop_le0, ztake_le0 by lia. simpl. repeat split; lia || done.
Qed.

Lemma ztake_split {A} a b (w : list A) :
  0 <= a -> 0 <= b -> ztake (a + b) w = ztake a w ++ ztake b (zdrop a w).
Proof.
  intros. unfold ztake, zdrop. rewrite take_take_drop. f_equal. lia.
Qed.

Lemma ws_split a b w :
  0 <= a <= zlen w -> 0 <= b -> Z.odd a = false ->
  ws false (ztake (a + b) w) = ws false (ztake a w) + ws false (ztake b (zdrop a w)).
Proof.
  intros Ha Hb Ho. rewrite ztake_split, ws_app by lia. do 2 f_equal.
  rewrite zlen_ztake. replace (Z.min _ _) with a by lia. by rewrite Ho.
Qed.

Lemma odd_mod_even n d : Z.odd (n - n mod (2 * d)) = false.
Proof.
  destruct (Z.eq_dec d 0) as [->|Hd].
  - rewrite Z.mul_0_r, Z.mod_0_r. by replace (n - n) with 0 by lia.
  - rewrite Z.mod_eq by lia. replace (n - (n - 2 * d * (n / (2 * d)))) with (2 * (d * (n / (2 * d)))) by lia.
    by rewrite Z.odd_mul.
Qed.

(** Two word loops in a row are one with the smaller chunk. *)
Lemma loop_words_2 sum mlen w :
  Forall is_byte w -> 0 <= mlen <= zlen w -> u32 sum + 32768 * mlen < 4294967296 ->
  exists sum' mlen' w',
    (let '(sum, mlen, w) := loop_words (Z.to_nat mlen) 16 sum mlen w in
     loop_words (Z.to_nat mlen) 4 sum mlen w) = (sum', mlen', w') /\
    mlen' = mlen mod 8 /\ w' = zdrop (mlen - mlen') w /\
    u32 sum' = u32 sum + ws false (ztake (mlen - mlen') w) /\
    u32 sum' <= u32 sum + 32768 * (mlen - mlen').
Proof.
  intros Hb Hm Hs.
  destruct (loop_words_spec (Z.to_nat mlen) 16 sum mlen w)
    as (s1 & m1 & w1 & -> & Hm1 & Hw1 & Hs1 & Hl1); [lia|done|done|lia|done|].
  assert (0 <= m1 <= mlen) by (rewrite Hm1; split; [apply Z.mod_pos_bound|apply Z.mod_le]; lia).
  destruct (loop_words_spec (Z.to_nat m1) 4 s1 m1 w1)
    as (s2 & m2 & w2 & E2 & Hm2 & Hw2 & Hs2 & Hl2);
    [lia|subst w1; by apply Forall_zdrop|subst w1; rewrite zlen_zdrop; lia|lia|lia|].
  assert (0 <= m2 <= m1) by (rewrite Hm2; split; [apply Z.mod_pos_bound|apply Z.mod_le]; lia).
  eexists _, _, _. split; [exact E2|]. split.
  { rewrite Hm2, Hm1. change (2 * Z.of_nat 16) with 32. change (2 * Z.of_nat 4) with 8.
    Z.to_euclidean_division_equations. lia. }
  split; [rewrite Hw2, Hw1, zdrop_zdrop by lia; f_equal; lia|]. split; [|lia].
  rewrite Hs2, Hs1, Hw1. replace (mlen - m2) with ((mlen - m1) + (m1 - m2)) by lia.
  rewrite ws_split; [lia|lia|lia|]. rewrite Hm1. apply (odd_mod_even mlen 16).
Qed.

(** All the words of a buffer, folded. *)
Lemma all_words sum mlen w :
  Forall is_byte w -> 0 <= mlen <= zlen w -> u32 sum + 32768 * mlen < 4294967296 ->
  exists s1 m1 w1 s2 w2,
    (let '(sum, mlen, w) := loop_words (Z.to_nat mlen) 16 sum mlen w in
     loop_words (Z.to_nat mlen) 4 sum mlen w) = (s1, m1, w1) /\
    loop_words (Z.to_nat m1) 1 (REDUCE s1) m1 w1 = (s2, mlen mod 2, w2) /\
    m1 = mlen mod 8 /\ w2 = zdrop (mlen - mlen mod 2) w /\
    u32 s1 = u32 sum + ws false (ztake (mlen - m1) w) /\
    u32 s1 <= u32 sum + 32768 * (mlen - m1) /\
    oceq (u32 s2) (u32 sum + ws false (ztake (mlen - mlen mod 2) w)) /\
    u32 s2 <= u32 sum + 32768 * (mlen - mlen mod 2).
Proof.
  intros Hb Hm Hs.
  destruct (loop_words_2 sum mlen w) as (s1 & m1 & w1 & E1 & Hm1 & Hw1 & Hs1 & Hl1); [done..|].
  assert (0 <= m1 <= mlen) by (rewrite Hm1; split; [apply Z.mod_pos_bound|apply Z.mod_le]; lia).
  destruct (REDUCE_spec s1) as (Ho & Hr & Hrle).
  destruct (loop_words_spec (Z.to_nat m1) 1 (REDUCE s1) m1 w1)
    as (s2 & m2 & w2 & E2 & Hm2 & Hw2 & Hs2 & Hl2);
    [lia|subst w1; by apply Forall_zdrop|subst w1; rewrite zlen_zdrop; lia|lia|
     rewrite u32_REDUCE; lia|].
  rewrite u32_REDUCE in Hs2, Hl2.
  assert (m2 = mlen mod 2) as ->.
  { rewrite Hm2, Hm1. change (2 * Z.of_nat 1) with 2. Z.to_euclidean_division_equations. lia. }
  assert (0 <= mlen mod 2 <= m1) by (rewrite Hm2; split; [apply Z.mod_pos_bound|apply Z.mod_le]; lia).
  eexists _, _, _, _, _. split; [exact E1|]. split; [exact E2|]. split; [done|].
  split; [rewrite Hw2, Hw1, zdrop_zdrop by lia; f_equal; lia|].
  split; [done|]. split; [done|]. split; [|lia].
  replace (mlen - mlen mod 2) with ((mlen - m1) + (m1 - mlen mod 2)) by lia.
  rewrite ws_split; [|lia|lia|rewrite Hm1; apply (odd_mod_even mlen 4)].
  rewrite Hs2, Hw1, Z.add_assoc, <- Hs1. apply oceq_add; [done|]. apply oceq_refl, ws_nonneg.
  by apply Forall_ztake, Forall_zdrop.
Qed.

Lemma oceq_sym a b : oceq a b -> oceq b a.
Proof. unfold oceq. intuition. Qed.

(** Leaving byte-swapped mode. *)
Lemma swap_fold s2 r t Y :
  Forall is_byte Y -> oceq s2 (256 * r + ws false Y) -> oceq r t ->
  oceq (256 * REDUCE s2) (t + ws true Y) \/ u32 s2 <> s2.
Proof.
  intros HY Hs Hr. destruct (Z.eq_dec (u32 s2) s2) as [E|]; [left|by right].
  apply (oceq_trans _ (256 * s2)).
  { apply oceq_256. rewrite <- E at 2. apply REDUCE_spec. }
  apply (oceq_trans _ (256 * (256 * r + ws false Y))); [by apply oceq_256|].
  rewrite Z.mul_add_distr_l. apply oceq_add.
  - apply (oceq_trans _ r); [|done]. apply oceq_65536. by destruct Hr.
  - apply oceq_sym, ws_swap, HY.
Qed.

Lemma u32_shl8 s : u32 (s32 (Z.shiftl (REDUCE s) 8)) = 256 * REDUCE s.
Proof.
  destruct (REDUCE_spec s) as (_ & H & _). rewrite u32_s32, Z.shiftl_mul_pow2 by lia.
  change (2 ^ 8) with 256. rewrite Z.mul_comm. apply u32_id. lia.
Qed.

(** The last byte of an odd-length prefix. *)
Lemma ztake_last n (w : list Z) :
  0 < n <= zlen w -> ztake n w = ztake (n - 1) w ++ [nth 0 (zdrop (n - 1) w) 0].
Proof.
  intros Hn. replace n with ((n - 1) + 1) at 1 by lia. rewrite ztake_split by lia. f_equal.
  assert (zlen (zdrop (n - 1) w) = zlen w - (n - 1)) as Hl by (rewrite zlen_zdrop; lia).
  destruct (zdrop (n - 1) w) as [|b r]; [rewrite zlen_nil in Hl; lia|].
  done.
Qed.

Lemma ws_last o n w :
  0 < n <= zlen w ->
  ws o (ztake n w) = ws o (ztake (n - 1) w) +
    (if xorb o (Z.odd (n - 1)) then 256 else 1) * nth 0 (zdrop (n - 1) w) 0.
Proof.
  intros Hn. rewrite (ztake_last n w) at 1 by done. rewrite ws_app. f_equal.
  rewrite zlen_ztake. replace (Z.min _ _) with (n - 1) by lia.
  generalize (nth 0 (zdrop (n - 1) w) 0). intros z.
  destruct (xorb o (Z.odd (n - 1))); cbn [ws]; lia.
Qed.

Lemma nth_byte (w : list Z) : Forall is_byte w -> is_byte (nth 0 w 0).
Proof. destruct 1; unfold is_byte in *; simpl; lia. Qed.

Definition body_ok (st : ckst) (sum mlen len : Z) (w : list Z) : Prop :=
  ck_len st = len /\ is_byte (ck_c0 st) /\ (ck_mlen st = -1 <-> Z.odd mlen = true) /\
  oceq (u32 (ck_sum st) + (if Z.odd mlen then ck_c0 st else 0)) (u32 sum + ws false (ztake mlen w)) /\
  u32 (ck_sum st) <= Z.max (u32 sum) 16776960 + 32768 * (mlen - mlen mod 2).

Lemma mod2_odd n : n mod 2 = if Z.odd n then 1 else 0.
Proof. apply Zmod_odd. Qed.

Lemma cksum_body_aligned odd w sum mlen len c0 :
  Forall is_byte w -> 0 <= mlen <= zlen w -> is_byte c0 -> odd && (mlen >? 0) = false ->
  u32 sum + 32768 * mlen < 4294967296 ->
  body_ok (cksum_body odd w sum mlen len c0) sum mlen len w.
Proof.
  intros Hb Hm Hc Ho Hs. unfold cksum_body. rewrite Ho.
  destruct (all_words sum mlen w) as (s1 & m1 & w1 & s2 & w2 & E1 & E2 & Hm1 & Hw2 & Hs1 & Hl1 & Hs2 & Hl2);
    [done..|].
  destruct (loop_words (Z.to_nat mlen) 16 sum mlen w) as [[s0 m0] w0]. rewrite E1.
  pose proof (mod2_odd mlen) as Hpar.
  pose proof (ws_nonneg false (ztake mlen w) (Forall_ztake _ _ _ Hb)).
  pose proof (u32_range sum).
  destruct (Z.eqb_spec m1 0) as [Hz|Hz]; simpl.
  - assert (Z.odd mlen = false) as Hev.
    { destruct (Z.odd mlen) eqn:Eo; [|done]. exfalso.
      assert (mlen mod 8 = 0) by lia. assert (mlen mod 2 = 0) by (Z.to_euclidean_division_equations; lia). lia. }
    rewrite Hz in Hs1, Hl1. rewrite Z.sub_0_r in Hs1, Hl1. unfold body_ok. rewrite Hev. simpl.
    rewrite Hs1, Z.add_0_r, Hpar, Hev.
    split; [done|]. split; [done|]. split; [split; [lia|done]|].
    split; [apply oceq_refl; lia|lia].
  - rewrite E2. unfold body_ok. rewrite Hpar.
    destruct (Z.odd mlen) eqn:Eo.
    + change (1 - 2 =? -1) with true. simpl. rewrite Hpar in Hs2, Hl2, Hw2.
      split; [done|]. split; [subst w2; by apply nth_byte, Forall_zdrop|].
      split; [done|]. split; [|lia].
      assert (0 < mlen) by (destruct (Z.eq_dec mlen 0) as [->|]; [done|lia]).
      rewrite (ws_last false mlen w) by lia.
      rewrite Z.odd_sub, Eo. simpl xorb. rewrite Hw2, Z.add_assoc, Z.mul_1_l.
      apply oceq_add; [done|]. apply oceq_refl.
      pose proof (nth_byte (zdrop (mlen - 1) w) (Forall_zdrop _ _ _ Hb)). unfold is_byte in *. lia.
    + change (0 - 2 =? -1) with false. simpl. rewrite Hpar in Hs2, Hl2.
      rewrite Z.sub_0_r in Hs2, Hl2. rewrite Z.add_0_r, Z.sub_0_r.
      split; [done|]. split; [done|]. split; [split; [lia|done]|]. split; [done|lia].
Qed.

Lemma cksum_body_swapped w sum mlen len c0 :
  Forall is_byte w -> 0 < mlen <= zlen w -> mlen <= 65535 ->
  body_ok (cksum_body true w sum mlen len c0) sum mlen len w.
Proof.
  intros Hb Hm Hmax. unfold cksum_body.
  assert ((mlen >? 0) = true) as -> by lia. simpl andb. cbv iota.
  destruct w as [|b0 w]; [unfold zlen in Hm; simpl in Hm; lia|]. change (drop 1 (_ :: w)) with w. simpl nth.
  rewrite zlen_cons in Hm. apply Forall_cons_iff in Hb as [Hb0 Hb].
  destruct (REDUCE_spec sum) as (Hro & Hr & Hrle).
  pose proof (u32_shl8 sum) as E0. set (sum0 := s32 _) in *. set (n := mlen - 1).
  assert (Hn : mlen = n + 1) by (unfold n; lia).
  destruct (all_words sum0 n w) as (s1 & m1 & w1 & s2 & w2 & E1 & E2 & Hm1 & Hw2 & Hs1 & Hl1 & Hs2 & Hl2);
    [done|lia|rewrite E0; lia|].
  destruct (loop_words (Z.to_nat n) 16 sum0 n w) as [[s0 m0] w0]. rewrite E1.
  rewrite andb_false_r, E2.
  destruct (REDUCE_spec s2) as (_ & Hr2 & _). pose proof (mod2_odd n) as Hpar. rewrite E0 in Hs2.
  assert (HY : oceq (256 * REDUCE s2) (u32 sum + ws true (ztake (n - n mod 2) w))).
  { destruct (swap_fold (u32 s2) (REDUCE sum) (u32 sum) (ztake (n - n mod 2) w)) as [H|H];
      [by apply Forall_ztake|done|done| |rewrite u32_u32 in H; done].
    unfold REDUCE in H. rewrite u32_u32 in H. exact H. }
  assert (Hodd : Z.odd mlen = negb (Z.odd n)) by (rewrite Hn, Z.add_comm; apply zodd_succ).
  assert (Hws : ws false (ztake mlen (b0 :: w)) = b0 + ws true (ztake n w)).
  { rewrite Hn, Z.add_comm. unfold ztake. by replace (Z.to_nat (1 + n)) with (S (Z.to_nat n)) by lia. }
  unfold is_byte in Hb0. unfold body_ok. rewrite Hws, Hodd.
  pose proof (nth_byte w2) as Hlast.
  destruct (Z.odd n) eqn:Eo; rewrite Hpar in *; cbn [negb].
  - change (1 - 2 =? -1) with true. cbv iota. cbn [ck_sum ck_mlen ck_len ck_c0].
    assert (is_byte (nth 0 w2 0)) as Hb2 by (apply Hlast; subst w2; by apply Forall_zdrop).
    unfold is_byte in Hb2.
    assert (u32 (s32 (s32 (Z.shiftl (REDUCE s2) 8) + (b0 + 256 * nth 0 w2 0))) =
            256 * REDUCE s2 + (b0 + 256 * nth 0 w2 0)) as ->.
    { rewrite u32_s32, <- u32_add_l, u32_shl8. apply u32_id. lia. }
    split; [done|]. split; [exact Hb0|]. split; [split; [lia|done]|].
    assert (0 < n) by (destruct (Z.eq_dec n 0) as [E|]; [rewrite E in Eo; done|lia]).
    split.
    + rewrite (ws_last true n w) by lia. rewrite Z.odd_sub, Eo. change (xorb true (xorb true (Z.odd 1))) with true. cbv iota.
      rewrite <- Hw2, Z.add_0_r.
      replace (u32 sum + (b0 + (ws true (ztake (n - 1) w) + 256 * nth 0 w2 0)))
        with ((u32 sum + ws true (ztake (n - 1) w)) + (b0 + 256 * nth 0 w2 0)) by lia.
      apply oceq_add; [done|]. apply oceq_refl. lia.
    + rewrite Hn, <- Z.add_mod_idemp_l, Hpar by lia. change ((1 + 1) mod 2) with 0. lia.
  - change (0 - 2 =? -1) with false. cbv iota. cbn [ck_sum ck_mlen ck_len ck_c0].
    rewrite u32_shl8. rewrite Z.sub_0_r in HY.
    split; [done|]. split; [exact Hb0|]. split; [done|]. split.
    + replace (u32 sum + (b0 + ws true (ztake n w))) with (u32 sum + ws true (ztake n w) + b0) by lia.
      apply oceq_add; [done|]. apply oceq_refl. lia.
    + rewrite Hn, <- Z.add_mod_idemp_l, Hpar by lia. change ((0 + 1) mod 2) with 1. lia.
Qed.

Lemma cksum_body_ok odd w sum mlen len c0 :
  Forall is_byte w -> 0 <= mlen <= zlen w -> mlen <= 65535 -> is_byte c0 ->
  u32 sum + 32768 * mlen < 4294967296 ->
  body_ok (cksum_body odd w sum mlen len c0) sum mlen len w.
Proof.
  intros. destruct (odd && (mlen >? 0)) eqn:E.
  - apply andb_true_iff in E as [-> ?]. apply cksum_body_swapped; [done|lia|lia].
  - by apply cksum_body_aligned.
Qed.

(** The state after the bytes [P] have been summed, [left] bytes remaining. *)
Definition ck_inv (st : ckst) (P : list Z) (left : Z) : Prop :=
  ck_len st = left /\ is_byte (ck_c0 st) /\
  (ck_mlen st = -1 <-> Z.odd (zlen P) = true) /\
  oceq (u32 (ck_sum st) + (if Z.odd (zlen P) then ck_c0 st else 0)) (ws false P) /\
  u32 (ck_sum st) <= 16776960 + 32768 * (zlen P - zlen P mod 2).

Lemma cksum_mbuf_ok m st P left :
  Forall is_byte (m_bytes m) -> ck_inv st P left -> 0 < left ->
  zlen P + left <= 65535 ->
  ck_inv (cksum_mbuf m st) (P ++ ztake left (m_bytes m)) (left - Z.min left (m_len m)).
Proof.
  intros Hb (Hl & Hc & Hmlen & Ho & Hbd) Hleft Hmax. destruct st as [sum mlen len c0].
  cbn [ck_sum ck_mlen ck_len ck_c0] in *. subst len.
  unfold cksum_mbuf. pose proof (m_len_nonneg m). pose proof (zlen_nonneg P).
  destruct (Z.eqb_spec (m_len m) 0) as [E0|E0].
  { apply zlen_0 in E0 as E1. unfold m_len in *. rewrite E1, ztake_nil, app_nil_r, zlen_nil.
    split; [cbn; lia|]. done. }
  pose proof (mod2_odd (zlen P)) as Hpar.
  destruct (m_bytes m) as [|b w] eqn:Em; [by unfold m_len in E0; rewrite Em in E0|].
  assert (Hml : m_len m = 1 + zlen w) by (unfold m_len; rewrite Em; apply zlen_cons).
  apply Forall_cons_iff in Hb as [Hb0 Hb]. unfold is_byte in Hb0, Hc.
  destruct (Z.odd (zlen P)) eqn:Eo.
  - destruct (Z.eqb_spec mlen (-1)); [|tauto]. change (drop 1 (_ :: w)) with w. simpl nth.
    set (n := if left - 1 <? m_len m - 1 then left - 1 else m_len m - 1).
    assert (Hn : n = Z.min left (m_len m) - 1) by (unfold n; case_match; lia).
    assert (Hs : u32 (s32 (sum + (c0 + 256 * b))) = u32 sum + (c0 + 256 * b)).
    { rewrite u32_s32, <- u32_add_l. apply u32_id. pose proof (u32_range sum). lia. }
    destruct (cksum_body_ok (negb (Z.odd (m_off m))) w (s32 (sum + (c0 + 256 * b))) n (left - 1 - n) c0)
      as (Hl' & Hc' & Hm' & Ho' & Hb'); [done|lia|lia|done|rewrite Hs; lia|].
    assert (HP : P ++ ztake left (b :: w) = (P ++ [b]) ++ ztake n w).
    { rewrite <- app_assoc. f_equal. unfold ztake.
      replace (Z.to_nat left) with (S (Z.to_nat (left - 1))) by lia. simpl. f_equal.
      fold (ztake (left - 1) w). fold (ztake n w).
      destruct (Z.le_ge_cases left (m_len m)); [f_equal; lia|]. rewrite !ztake_ge by lia. done. }
    assert (HzP : zlen (P ++ ztake left (b :: w)) = zlen P + 1 + n).
    { rewrite HP, !zlen_app, zlen_ztake, zlen_cons, zlen_nil. lia. }
    assert (Hzo : Z.odd (zlen P + 1 + n) = Z.odd n) by (rewrite !Z.odd_add, Eo; by destruct (Z.odd n)).
    unfold ck_inv. rewrite HzP, Hzo. split; [lia|]. split; [done|]. split; [done|]. split.
    + rewrite HP, ws_app, zlen_app, Z.odd_add, Eo. simpl xorb.
      apply (oceq_trans _ _ _ Ho'). rewrite Hs. apply oceq_add; [|apply oceq_refl, ws_nonneg; by apply Forall_ztake].
      rewrite ws_app, Eo. simpl xorb. cbn [ws]. rewrite Z.add_assoc, Z.add_0_r.
      apply oceq_add; [done|]. apply oceq_refl. lia.
    + rewrite Hs in Hb'. rewrite (mod2_odd (zlen P + 1 + n)), Hzo. rewrite (mod2_odd n) in Hb'. lia.
  - destruct (Z.eqb_spec mlen (-1)) as [Heq|Hne]; [exfalso; destruct Hmlen as [Hmlen _]; specialize (Hmlen ltac:(done)); done|].
    set (n := if left <? m_len m then left else m_len m).
    assert (Hn : n = Z.min left (m_len m)) by (unfold n; case_match; lia).
    assert (Hbw : Forall is_byte (b :: w)) by (by constructor).
    destruct (cksum_body_ok (Z.odd (m_off m)) (b :: w) sum n (left - n) c0)
      as (Hl' & Hc' & Hm' & Ho' & Hb'); [done|rewrite zlen_cons; lia|lia|done|lia|].
    assert (HP : ztake left (b :: w) = ztake n (b :: w)).
    { destruct (Z.le_ge_cases left (m_len m)); [f_equal; lia|]. rewrite !ztake_ge; [done| |]; rewrite zlen_cons; lia. }
    assert (HzP : zlen (P ++ ztake left (b :: w)) = zlen P + n).
    { rewrite HP, zlen_app, zlen_ztake, zlen_cons. lia. }
    assert (Hzo : Z.odd (zlen P + n) = Z.odd n) by (rewrite !Z.odd_add, Eo; by destruct (Z.odd n)).
    unfold ck_inv. rewrite HzP, Hzo. split; [lia|]. split; [done|]. split; [done|]. split.
    + rewrite HP, ws_app, Eo. simpl xorb.
      apply (oceq_trans _ _ _ Ho'). apply oceq_add; [|apply oceq_refl, ws_nonneg; by apply Forall_ztake].
      by rewrite Z.add_0_r in Ho.
    + rewrite (mod2_odd (zlen P + n)), Hzo. rewrite (mod2_odd n) in Hb'. lia.
Qed.

Lemma ck_inv_init len : ck_inv (mkCk 0 0 len 0) [] len.
Proof.
  unfold ck_inv. change (zlen []) with 0. simpl. split; [done|]. split; [done|].
  split; [split; [lia|done]|]. split; [by apply oceq_refl|].
  vm_compute. discriminate.
Qed.

Lemma cksum_loop_ok ms st P left :
  Forall is_byte (chain_bytes ms) -> ck_inv st P left -> 0 <= left -> zlen P + left <= 65535 ->
  exists left', ck_inv (cksum_loop ms st) (P ++ ztake left (chain_bytes ms)) left'.
Proof.
  revert st P left. induction ms as [|m ms IH]; intros st P left Hb Hi Hl Hmax.
  - exists left. rewrite chain_bytes_nil, ztake_nil, app_nil_r. done.
  - assert (ck_len st = left) as Hlen by (by destruct Hi). simpl. rewrite Hlen.
    destruct (Z.eqb_spec left 0) as [->|Hne].
    { exists 0. rewrite ztake_le0, app_nil_r by lia. done. }
    rewrite chain_bytes_cons in Hb. apply Forall_app in Hb as [Hb1 Hb2].
    pose proof (m_len_nonneg m).
    destruct (IH (cksum_mbuf m st) (P ++ ztake left (m_bytes m)) (left - Z.min left (m_len m)))
      as [left' Hi'].
    + done.
    + apply cksum_mbuf_ok; [done|done|lia|done].
    + lia.
    + rewrite zlen_app, zlen_ztake. unfold m_len in *. lia.
    + exists left'. rewrite chain_bytes_cons. rewrite <- app_assoc in Hi'.
      destruct (Z.le_ge_cases left (m_len m)).
      * rewrite ztake_app_le by done.
        rewrite (ztake_le0 (left - _)), app_nil_r in Hi' by lia. done.
      * rewrite ztake_app_ge by (unfold m_len in *; lia).
        rewrite (ztake_ge left) in Hi' by (unfold m_len in *; lia).
        replace (left - Z.min left (m_len m)) with (left - zlen (m_bytes m)) in Hi'
          by (unfold m_len in *; lia). done.
Qed.

Lemma REDUCE_norm s : REDUCE s = oc_norm (u32 s).
Proof.
  destruct (REDUCE_spec s) as (Ho & Hr & _). rewrite <- (oceq_norm _ _ Ho).
  unfold oc_norm. destruct (Z.eqb_spec (REDUCE s) 0) as [->|]; [done|].
  destruct (Z.eq_dec (REDUCE s) 65535) as [->|]; [done|].
  rewrite Z.mod_small by lia. destruct (Z.eqb_spec (REDUCE s) 0); [done|done].
Qed.

Lemma oc_norm_range s : 0 <= oc_norm s <= 65535.
Proof.
  unfold oc_norm. pose proof (Z.mod_pos_bound s 65535). repeat case_match; lia.
Qed.

Lemma lnot16 r : 0 <= r <= 65535 -> Z.land (Z.lnot r) 65535 = 65535 - r.
Proof.
  intros. change 65535 with (Z.ones 16) at 1. rewrite Z.land_ones by lia.
  unfold Z.lnot. change (2 ^ 16) with 65536. Z.to_euclidean_division_equations. lia.
Qed.

(** The checksum of a chain is the RFC 1071 checksum of its first [len] bytes. *)
Lemma in_cksum_spec ms len :
  Forall is_byte (chain_bytes ms) -> 0 <= len <= 65535 ->
  in_cksum ms len = cksum_ref (ztake len (chain_bytes ms)).
Proof.
  intros Hb Hl. unfold in_cksum, cksum_ref.
  destruct (cksum_loop_ok ms (mkCk 0 0 len 0) [] len Hb (ck_inv_init len)) as [left (_ & Hc & Hm & Ho & Hbd)];
    [lia|rewrite zlen_nil; lia|].
  destruct (cksum_loop ms (mkCk 0 0 len 0)) as [sum mlen l c0]. cbn [app ck_sum ck_mlen ck_len ck_c0] in *.
  set (P := ztake len (chain_bytes ms)) in *.
  assert (zlen P <= 65535) by (unfold P; rewrite zlen_ztake; pose proof (zlen_nonneg (chain_bytes ms)); lia).
  pose proof (Z.mod_pos_bound (zlen P) 2 ltac:(lia)). pose proof (u32_range sum). unfold is_byte in Hc.
  rewrite lnot16 by (pose proof (REDUCE_spec (if mlen =? -1 then s32 (sum + c0) else sum)); lia).
  f_equal. rewrite REDUCE_norm. apply oceq_norm.
  destruct (Z.odd (zlen P)), (Z.eqb_spec mlen (-1)) as [Heq|Hne]; try (exfalso; tauto).
  - rewrite u32_s32, <- u32_add_l, u32_id by lia. done.
  - exfalso. destruct Hm as [Hm _]. by specialize (Hm Heq).
  - by rewrite Z.add_0_r in Ho.
Qed.

(** ** Properties of the reference *)

Lemma cksum_ref_range l : 0 <= cksum_ref l < 65536.
Proof. unfold cksum_ref. pose proof (oc_norm_range (ws false l)). lia. Qed.

(** A checksum stored in a zeroed even-aligned field makes the sum verify. *)
Lemma cksum_ref_verifies P Q :
  Forall is_byte P -> Forall is_byte Q -> Z.odd (zlen P) = false ->
  let c := cksum_ref (P ++ [0; 0] ++ Q) in
  cksum_ref (P ++ [c mod 256; c / 256] ++ Q) = 0.
Proof.
  intros HP HQ Ho c.
  pose proof (ws_nonneg false P HP). pose proof (ws_nonneg false Q HQ).
  assert (E : forall a b, ws false (P ++ [a; b] ++ Q) = ws false P + (a + 256 * b) + ws false Q).
  { intros a b. rewrite ws_app, Ho. simpl. lia. }
  set (S := ws false P + (0 + 256 * 0) + ws false Q) in *.
  assert (Hc : c = 65535 - oc_norm S) by (unfold c, cksum_ref; by rewrite E).
  clearbody c. unfold cksum_ref. rewrite E.
  pose proof (oc_norm_range S). pose proof (Z.div_mod c 256).
  replace (ws false P + (c mod 256 + 256 * (c / 256)) + ws false Q) with (S + c) by (unfold S; lia).
  assert (S + c <> 0 /\ (S + c) mod 65535 = 0) as [Hnz Hz].
  { rewrite Hc. unfold oc_norm. assert (0 <= S) by (unfold S; lia).
    destruct (Z.eqb_spec S 0) as [->|]; [done|].
    destruct (Z.eqb_spec (S mod 65535) 0); split; Z.to_euclidean_division_equations; lia. }
  unfold oc_norm. destruct (Z.eqb_spec (S + c) 0); [done|]. rewrite Hz. done.
Qed.

(** Any change of a single byte of a verifying packet is detected. *)
Lemma cksum_ref_detects P b b' Q :
  Forall is_byte P -> Forall is_byte Q -> is_byte b -> is_byte b' -> b <> b' ->
  cksum_ref (P ++ b :: Q) = 0 -> cksum_ref (P ++ b' :: Q) <> 0.
Proof.
  unfold is_byte, cksum_ref. intros HP HQ Hb Hb' Hne H0 H1.
  rewrite ws_app in H0, H1. cbn [ws] in *.
  pose proof (ws_nonneg false P HP). set (o := xorb _ _) in *.
  pose proof (ws_nonneg (negb o) Q HQ).
  generalize dependent (ws false P). generalize dependent (ws (negb o) Q). intros.
  unfold oc_norm in *.
  destruct o; repeat case_match; Z.to_euclidean_division_equations; lia.
Qed.

(** C30: the unrolled in_cksum is the Internet checksum: on a chain whose bytes are
    laid out over mbufs in any way, odd lengths included, it returns the one's
    complement of the one's complement sum of the first [len] bytes, read as 16-bit
    words (RFC 1071), which [cksum_ref] computes byte by byte. *)
Theorem in_cksum_correct ms len :
  Forall is_byte (chain_bytes ms) -> 0 <= len <= 65535 ->
  in_cksum ms len = cksum_ref (ztake len (chain_bytes ms)).
Proof. apply in_cksum_spec. Qed.

Lemma in_cksum_witness :
  in_cksum [mkMbuf 0 [69; 0; 1] MT_DATA 0 0 0 0 0; mkMbuf 0 [2; 3] MT_DATA 0 0 0 0 0] 5 = cksum_ref [69; 0; 1; 2; 3].
Proof.
  apply (in_cksum_correct [mkMbuf 0 [69; 0; 1] MT_DATA 0 0 0 0 0; mkMbuf 0 [2; 3] MT_DATA 0 0 0 0 0] 5);
    [repeat constructor; vm_compute; congruence|lia].
Defined.

(** C33: a change of one byte of a packet that verifies is detected: when in_cksum of
    a chain is 0, in_cksum of any chain, however laid out, whose data differs in
    exactly one byte is not 0. *)
Theorem in_cksum_detects ms ms' P b b' Q :
  chain_bytes ms = P ++ b :: Q -> chain_bytes ms' = P ++ b' :: Q -> b <> b' ->
  Forall is_byte (chain_bytes ms) -> is_byte b' -> chain_len ms <= 65535 ->
  in_cksum ms (chain_len ms) = 0 -> in_cksum ms' (chain_len ms') <> 0.
Proof.
  intros E E' Hne Hb Hb' Hl. unfold chain_len in *. rewrite E in *. apply Forall_app in Hb as HPQ.
  destruct HPQ as [HP [Hbb HQ]%Forall_cons_iff].
  assert (Hf' : Forall is_byte (chain_bytes ms')) by (rewrite E'; apply Forall_app; split; [|constructor]; done).
  assert (Hn : zlen (chain_bytes ms') = zlen (P ++ b :: Q)) by (rewrite E', !zlen_app, !zlen_cons; done).
  rewrite !in_cksum_spec by (rewrite ?E, ?Hn; try done; zlen_pose; lia).
  rewrite E, E', !ztake_ge by lia. by apply cksum_ref_detects.
Qed.

Lemma in_cksum_detects_witness :
  in_cksum [mkMbuf 0 [0; 1; 255; 250] MT_DATA 0 0 0 0 0] 4 <> 0.
Proof.
  apply (in_cksum_detects [mkMbuf 0 [0; 1; 255; 254] MT_DATA 0 0 0 0 0]
           [mkMbuf 0 [0; 1; 255; 250] MT_DATA 0 0 0 0 0] [0; 1; 255] 254 250 []);
    try done; repeat constructor; vm_compute; congruence.
Defined.

End Cksum.
