(* ===== verification/SockBuf.v ===== *)
(** Socket buffers (src/sys/kern/uipc_socket2.c, the sockbuf routines, and the
    sockbuf macros of src/sys/sys/socketvar.h).

    [sb_mb] is the list of records linked by [m_nextpkt]; each record is an mbuf
    chain.  The counters [sb_cc] and [sb_mbcnt] are kept as the code keeps them,
    as 32-bit words updated mbuf by mbuf; [sb_inv] says that they agree with the
    queue. *)
From S2P Require Import Prelude Mbuf.
Import Mbuf.

Module SockBuf.

Definition SB_LOCK : Z := 1.
Definition SB_WANT : Z := 2.
Definition SB_WAIT : Z := 4.
Definition SB_SEL : Z := 8.
Definition SB_NOTIFY : Z := 28.     (* SB_WAIT|SB_SEL|SB_ASYNC *)

Record sockbuf := mkSb {
  sb_cc : Z;
  sb_hiwat : Z;
  sb_mbcnt : Z;
  sb_mbmax : Z;
  sb_lowat : Z;
  sb_mb : list chain;
  sb_flags : Z
}.
Definition eta_sockbuf (r : sockbuf) : sockbuf :=
  mkSb (sb_cc r) (sb_hiwat r) (sb_mbcnt r) (sb_mbmax r) (sb_lowat r) (sb_mb r) (sb_flags r).
#[global] Instance set_sb_cc : Setter sb_cc := ltac:(mk_setter eta_sockbuf).
#[global] Instance set_sb_hiwat : Setter sb_hiwat := ltac:(mk_setter eta_sockbuf).
#[global] Instance set_sb_mbcnt : Setter sb_mbcnt := ltac:(mk_setter eta_sockbuf).
#[global] Instance set_sb_mbmax : Setter sb_mbmax := ltac:(mk_setter eta_sockbuf).
#[global] Instance set_sb_lowat : Setter sb_lowat := ltac:(mk_setter eta_sockbuf).
#[global] Instance set_sb_mb : Setter sb_mb := ltac:(mk_setter eta_sockbuf).
#[global] Instance set_sb_flags : Setter sb_flags := ltac:(mk_setter eta_sockbuf).

(** [sbspace]: [imin] of the two signed differences. *)
Definition sbspace (sb : sockbuf) : Z :=
  imin (s32 (sb_hiwat sb - sb_cc sb)) (s32 (sb_mbmax sb - sb_mbcnt sb)).

Definition mbuf_space (m : mbuf) : Z :=
  MSIZE + (if hasf (m_flags m) M_EXT then ext_size m else 0).

(** [sballoc], [sbfree] *)
Definition sballoc (sb : sockbuf) (m : mbuf) : sockbuf :=
  sb <| sb_cc := u32 (sb_cc sb + m_len m) |>
     <| sb_mbcnt := u32 (sb_mbcnt sb + mbuf_space m) |>.
Definition sbfree (sb : sockbuf) (m : mbuf) : sockbuf :=
  sb <| sb_cc := u32 (sb_cc sb - m_len m) |>
     <| sb_mbcnt := u32 (sb_mbcnt sb - mbuf_space m) |>.

(** ** Limits *)

(** [sbreserve]: the result is the new buffer and the C return value. *)
Definition sbreserve (sb_max : Z) (sb : sockbuf) (cc : Z) : sockbuf * bool :=
  if cc >? u32 (sb_max * MCLBYTES) / (MSIZE + MCLBYTES) then (sb, false)
  else
    let sb := sb <| sb_hiwat := cc |> in
    let sb := sb <| sb_mbmax := cmin (u32 (cc * 2)) sb_max |> in
    (if u32 (sb_lowat sb) >? sb_hiwat sb then sb <| sb_lowat := s32 (sb_hiwat sb) |> else sb, true).

(** ** Appending *)

(** [sbcompress]'s loop.  [racc] is the record reversed, so that its head is the
    mbuf [n] that data may be copied into; [eor] accumulates [M_EOR]. *)
Fixpoint sbcompress_loop (p : mpool) (sb : sockbuf) (racc m : chain) (eor : Z)
    : mpool * sockbuf * chain * Z :=
  match m with
  | [] => (p, sb, racc, eor)
  | m1 :: m' =>
      let eor := Z.lor eor (Z.land (m_flags m1) M_EOR) in
      let o := match m' with o :: _ => Some o | [] => head racc end in
      if (m_len m1 =? 0) &&
         ((eor =? 0) || match o with Some o => m_type o =? m_type m1 | None => false end)
      then sbcompress_loop (m_free p m1) sb racc m' eor
      else
        let copy := match racc with
                    | n :: _ => negb (hasf (m_flags n) (Z.lor M_EXT M_EOR)) &&
                                (m_off n + m_len n + m_len m1 <? MLEN) &&
                                (m_type n =? m_type m1)
                    | [] => false
                    end in
        match racc, copy with
        | n :: r, true =>
            sbcompress_loop (m_free p m1) (sb <| sb_cc := u32 (sb_cc sb + m_len m1) |>)
              (n <| m_bytes := m_bytes n ++ m_bytes m1 |> :: r) m' eor
        | _, _ =>
            sbcompress_loop p (sballoc sb m1)
              (m1 <| m_flags := clrb (m_flags m1) M_EOR |> :: racc) m' eor
        end
  end.

(** The record after compression, with the end-of-record mark set again. *)
Definition sbcompress (p : mpool) (sb : sockbuf) (rec m : chain)
    : mpool * sockbuf * chain :=
  let '(p, sb, racc, eor) := sbcompress_loop p sb (rev rec) m 0 in
  let racc := match racc with
              | n :: r => if eor =? 0 then racc else n <| m_flags := setb (m_flags n) eor |> :: r
              | [] => []
              end in
  (p, sb, rev racc).

(** Move the end-of-record mark from the first mbuf to the second. *)
Definition move_eor (m0 : mbuf) (m : chain) : mbuf * chain :=
  match m with
  | m1 :: m' => if hasf (m_flags m0) M_EOR
                then (m0 <| m_flags := clrb (m_flags m0) M_EOR |>,
                      m1 <| m_flags := setb (m_flags m1) M_EOR |> :: m')
                else (m0, m)
  | [] => (m0, m)
  end.

Definition sbappendrecord (p : mpool) (sb : sockbuf) (m0 : chain) : mpool * sockbuf :=
  match m0 with
  | [] => (p, sb)
  | m0 :: m =>
      let sb := sballoc sb m0 in
      let '(m0, m) := move_eor m0 m in
      let '(p, sb, rec) := sbcompress p sb [m0] m in
      (p, sb <| sb_mb := sb_mb sb ++ [rec] |>)
  end.

(** Split a record list into the records before the last and the last. *)
Fixpoint split_last (l : list chain) : list chain * chain :=
  match l with
  | [] => ([], [])
  | [r] => ([], r)
  | r :: l' => let '(a, b) := split_last l' in (r :: a, b)
  end.

Definition sbappend (p : mpool) (sb : sockbuf) (m : chain) : mpool * sockbuf :=
  match m with
  | [] => (p, sb)
  | _ :: _ =>
      let '(recs, rec) := split_last (sb_mb sb) in
      if existsb (fun n => hasf (m_flags n) M_EOR) rec
      then sbappendrecord p sb m
      else
        let '(p, sb, rec') := sbcompress p sb rec m in
        (p, sb <| sb_mb := match rec' with [] => recs | _ => recs ++ [rec'] end |>)
  end.

(** ** Dropping *)

(** The rest of the current record and the records after it, as [sbdrop] leaves
    them: [while (m && m->m_len == 0) free], then [sb->sb_mb = ...]. *)
Fixpoint sbdrop_finish (p : mpool) (sb : sockbuf) (m : chain) (next : list chain)
    : mpool * sockbuf :=
  match m with
  | m1 :: m' => if m_len m1 =? 0 then sbdrop_finish (m_free p m1) (sbfree sb m1) m' next
                else (p, sb <| sb_mb := m :: next |>)
  | [] => (p, sb <| sb_mb := next |>)
  end.

(** The first loop on the current record: either it stops inside the record (the
    result is final) or it empties the record with [len] bytes still to drop. *)
Fixpoint sbdrop_rec (p : mpool) (sb : sockbuf) (m : chain) (next : list chain) (len : Z)
    : (mpool * sockbuf) + (mpool * sockbuf * Z) :=
  if len >? 0 then
    match m with
    | [] => inr (p, sb, len)
    | m1 :: m' =>
        if m_len m1 >? len then
          inl (sbdrop_finish p (sb <| sb_cc := u32 (sb_cc sb - len) |>)
                 (m1 <| m_off := m_off m1 + len |> <| m_bytes := zdrop len (m_bytes m1) |> :: m') next)
        else sbdrop_rec (m_free p m1) (sbfree sb m1) m' next (len - m_len m1)
    end
  else inl (sbdrop_finish p sb m next).

Fixpoint sbdrop_loop (p : mpool) (sb : sockbuf) (m : chain) (next : list chain) (len : Z)
    {struct next} : outcome (mpool * sockbuf) :=
  match sbdrop_rec p sb m next len with
  | inl r => Ret r
  | inr (p, sb, len) =>
      match next with
      | [] => Panic "sbdrop"
      | m :: next => sbdrop_loop p sb m next len
      end
  end.

Definition sbdrop (p : mpool) (sb : sockbuf) (len : Z) : outcome (mpool * sockbuf) :=
  match sb_mb sb with
  | [] => sbdrop_loop p sb [] [] len
  | m :: next => sbdrop_loop p sb m next len
  end.

(** [while (sb->sb_mbcnt) sbdrop(sb, sb->sb_cc)]: each turn frees an mbuf. *)
Fixpoint sbflush_loop (fuel : nat) (p : mpool) (sb : sockbuf) : outcome (mpool * sockbuf) :=
  match fuel with
  | O => OutOfFuel
  | S fuel =>
      if sb_mbcnt sb =? 0 then Ret (p, sb)
      else let! (p, sb) := sbdrop p sb (s32 (sb_cc sb)) in sbflush_loop fuel p sb
  end.

Definition sbflush (p : mpool) (sb : sockbuf) : outcome (mpool * sockbuf) :=
  if hasf (sb_flags sb) SB_LOCK then Panic "sbflush"
  else
    let! (p, sb) := sbflush_loop (S (length (concat (sb_mb sb)))) p sb in
    if negb (sb_cc sb =? 0) || negb (bool_decide (sb_mb sb = []))
    then Panic "sbflush 2" else Ret (p, sb).

(** [sbrelease] *)
Definition sbrelease (p : mpool) (sb : sockbuf) : outcome (mpool * sockbuf) :=
  let! (p, sb) := sbflush p sb in
  Ret (p, sb <| sb_hiwat := 0 |> <| sb_mbmax := 0 |>).

Definition sbdroprecord (p : mpool) (sb : sockbuf) : mpool * sockbuf :=
  match sb_mb sb with
  | [] => (p, sb)
  | m :: next =>
      let sb := sb <| sb_mb := next |> in
      (m_freem p m, fold_left sbfree m sb)
  end.

(** ** Out-of-band and ancillary data *)

(** The train [m] is passed over: its first mbuf that is not [MT_CONTROL] is
    [MT_OOBDATA]. *)
Fixpoint oob_train (m : chain) : bool :=
  match m with
  | [] => false
  | m1 :: m' => if m_type m1 =? MT_OOBDATA then true
                else if m_type m1 =? MT_CONTROL then oob_train m' else false
  end.

Fixpoint oob_split (l : list chain) : list chain * list chain :=
  match l with
  | [] => ([], [])
  | r :: l' => if oob_train r then let '(a, b) := oob_split l' in (r :: a, b) else ([], l)
  end.

Definition sbinsertoob (p : mpool) (sb : sockbuf) (m0 : chain) : mpool * sockbuf :=
  match m0 with
  | [] => (p, sb)
  | m0 :: m =>
      let '(before, after) := oob_split (sb_mb sb) in
      let sb := sballoc sb m0 in
      let '(m0, m) := move_eor m0 m in
      let '(p, sb, rec) := sbcompress p sb [m0] m in
      (p, sb <| sb_mb := before ++ rec :: after |>)
  end.

(** [sbappendaddr]: [None] is the C result 0 (nothing queued). *)
Definition sbappendaddr (p : mpool) (sb : sockbuf) (asa : list Z) (m0 control : chain)
    : outcome (option sockbuf * mpool) :=
  let! plen := match m0 with
               | [] => Ret 0
               | m :: _ => if hasf (m_flags m) M_PKTHDR then Ret (m_pktlen m)
                           else Panic "sbappendaddr"
               end in
  let space := zlen asa + plen + chain_len control in
  if space >? sbspace sb then Ret (None, p)
  else if zlen asa >? MLEN then Ret (None, p)
  else
    match m_get p 8 (* MT_SONAME *) with
    | (None, p) => Ret (None, p)
    | (Some m, p) =>
        let rec := m <| m_bytes := asa |> :: control ++ m0 in
        let sb := fold_left sballoc rec sb in
        Ret (Some (sb <| sb_mb := sb_mb sb ++ [rec] |>), p)
    end.

Definition sbappendcontrol (sb : sockbuf) (m0 control : chain) : outcome (option sockbuf) :=
  match control with
  | [] => Panic "sbappendcontrol"
  | _ :: _ =>
      let space := chain_len control + chain_len m0 in
      if space >? sbspace sb then Ret None
      else
        let rec := control ++ m0 in
        let sb := fold_left sballoc rec sb in
        Ret (Some (sb <| sb_mb := sb_mb sb ++ [rec] |>))
  end.

(** ** The invariant *)

Definition sb_chain (sb : sockbuf) : chain := concat (sb_mb sb).
Definition sb_bytes (sb : sockbuf) : list Z := chain_bytes (sb_chain sb).
Definition chain_space (ms : chain) : Z := foldr (fun m n => mbuf_space m + n) 0 ms.

(** The counters are the data and the storage queued, modulo the word size,
    every record has an mbuf, and every mbuf holds its data. *)
Record sb_inv (sb : sockbuf) : Prop := {
  inv_cc : sb_cc sb = u32 (zlen (sb_bytes sb));
  inv_mbcnt : sb_mbcnt sb = u32 (chain_space (sb_chain sb));
  inv_rec : Forall (fun r => r <> []) (sb_mb sb);
  inv_wf : Forall m_wf (sb_chain sb)
}.

(** Everything but the queue and its counters. *)
Definition sb_limits (sb : sockbuf) : Z * Z * Z * Z :=
  (sb_hiwat sb, sb_mbmax sb, sb_lowat sb, sb_flags sb).

Lemma chain_space_app l k : chain_space (l ++ k) = chain_space l + chain_space k.
Proof. induction l as [|m l IH]; simpl; [lia|]. rewrite IH. lia. Qed.
Lemma chain_space_rev l : chain_space (rev l) = chain_space l.
Proof. induction l as [|m l IH]; simpl; [done|]. rewrite chain_space_app, IH. simpl. lia. Qed.
Lemma mbuf_space_noeor m : mbuf_space (m <| m_flags := clrb (m_flags m) M_EOR |>) = mbuf_space m.
Proof. unfold mbuf_space. rec_simpl. by flags_simpl. Qed.
Lemma mbuf_space_eor m e :
  hasf e M_EXT = false -> mbuf_space (m <| m_flags := setb (m_flags m) e |>) = mbuf_space m.
Proof. intros He. unfold mbuf_space. rec_simpl. by rewrite hasf_setb, He, orb_false_r. Qed.
Lemma refs1_noeor x m : refs1 x (m <| m_flags := clrb (m_flags m) M_EOR |>) = refs1 x m.
Proof. unfold refs1. rec_simpl. by flags_simpl. Qed.
Lemma m_wf_noeor m : m_wf m -> m_wf (m <| m_flags := clrb (m_flags m) M_EOR |>).
Proof. unfold m_wf, m_len. rec_simpl. by flags_simpl. Qed.
Lemma m_wf_eor m e :
  hasf e M_EXT = false -> hasf e M_PKTHDR = false ->
  m_wf m -> m_wf (m <| m_flags := setb (m_flags m) e |>).
Proof. intros H1 H2. unfold m_wf, m_len. rec_simpl. by rewrite !hasf_setb, H1, H2, !orb_false_r. Qed.
Lemma eor_mask w c : Z.land M_EOR c = 0 -> hasf (Z.land w M_EOR) c = false.
Proof. intros E. unfold hasf. by rewrite <- Z.land_assoc, E, Z.land_0_r. Qed.
Lemma eor_acc_mask e w c :
  Z.land M_EOR c = 0 -> hasf e c = false -> hasf (Z.lor e (Z.land w M_EOR)) c = false.
Proof. intros Hc He. change (Z.lor ?a ?b) with (setb a b). by rewrite hasf_setb, He, eor_mask. Qed.

(** The effect of queueing [m] on a record: what [sbcompress] guarantees. *)
Record compressed (p : mpool) (sb : sockbuf) (rec m : chain)
    (p' : mpool) (sb' : sockbuf) (rec' : chain) : Prop := {
  cp_bytes : chain_bytes rec' = chain_bytes rec ++ chain_bytes m;
  cp_cc : u32 (sb_cc sb') = u32 (sb_cc sb + chain_len m);
  cp_mbcnt : u32 (sb_mbcnt sb') = u32 (sb_mbcnt sb + chain_space rec' - chain_space rec);
  cp_range : u32 (sb_cc sb) = sb_cc sb -> u32 (sb_mbcnt sb) = sb_mbcnt sb ->
    u32 (sb_cc sb') = sb_cc sb' /\ u32 (sb_mbcnt sb') = sb_mbcnt sb';
  cp_mb : sb_mb sb' = sb_mb sb;
  cp_limits : sb_limits sb' = sb_limits sb;
  cp_refs : forall x, mclrefcnt p' x - refs x rec' = mclrefcnt p x - refs x rec - refs x m;
  cp_wf : Forall m_wf rec -> Forall m_wf m -> Forall m_wf rec'
}.

Lemma compressed_nil p sb rec : compressed p sb rec [] p sb rec.
Proof.
  split; try done; autorewrite with mbuf; rewrite ?app_nil_r; try done.
  - f_equal. lia.
  - f_equal. lia.
  - intros x. simpl. lia.
Qed.

Lemma compressed_trans p sb rec m1 p1 sb1 rec1 m' p' sb' rec' :
  compressed p sb rec [m1] p1 sb1 rec1 -> compressed p1 sb1 rec1 m' p' sb' rec' ->
  compressed p sb rec (m1 :: m') p' sb' rec'.
Proof.
  intros [B1 C1 M1 R1 Q1 L1 F1 W1] [B2 C2 M2 R2 Q2 L2 F2 W2]. split.
  - by rewrite B2, B1, chain_bytes_one, (chain_bytes_cons m1), app_assoc.
  - rewrite C2, <- u32_add_l, C1. autorewrite with wrap mbuf. f_equal. lia.
  - rewrite M2. rewrite <- Z.add_sub_assoc, <- u32_add_l, M1. autorewrite with wrap. f_equal. lia.
  - intros H1 H2. destruct (R1 H1 H2). by apply R2.
  - congruence.
  - congruence.
  - intros x. rewrite F2. specialize (F1 x). simpl in *. lia.
  - intros Hr Hm. apply Forall_cons_iff in Hm as [? ?]. apply W2; [|done]. apply W1; [done|].
    by apply Forall_singleton.
Qed.

(** An empty mbuf is freed. *)
Lemma compressed_skip p sb rec m1 :
  m_len m1 = 0 -> compressed p sb rec [m1] (m_free p m1) sb rec.
Proof.
  intros Hl. apply zlen_0 in Hl. split; rewrite ?chain_bytes_one; try done.
  - by rewrite Hl, app_nil_r.
  - rewrite chain_len_cons, chain_len_nil. unfold m_len. rewrite Hl, (@zlen_nil Z). f_equal. lia.
  - f_equal. lia.
  - intros x. rewrite m_free_refcnt. simpl. lia.
Qed.

(** The data of a small mbuf is copied into the last mbuf of the record. *)
Lemma compressed_copy p sb rec n m1 :
  hasf (m_flags n) (Z.lor M_EXT M_EOR) = false -> m_off n + m_len n + m_len m1 < MLEN ->
  compressed p sb (rec ++ [n]) [m1] (m_free p m1) (sb <| sb_cc := u32 (sb_cc sb + m_len m1) |>)
    (rec ++ [n <| m_bytes := m_bytes n ++ m_bytes m1 |>]).
Proof.
  rewrite hasf_lor. intros [He _]%orb_false_iff Hfit.
  split; rewrite ?chain_bytes_app, ?chain_bytes_one; try done.
  - by rewrite <- app_assoc.
  - rec_simpl. rewrite u32_u32, chain_len_cons, chain_len_nil. f_equal. lia.
  - rewrite !chain_space_app. rec_simpl. f_equal. unfold chain_space, mbuf_space. simpl. lia.
  - intros _ ?. rec_simpl. by rewrite u32_u32.
  - intros x. rewrite m_free_refcnt, !refs_app. simpl.
    change (refs1 x (n <| m_bytes := _ |>)) with (refs1 x n). lia.
  - rewrite !Forall_app, !Forall_singleton. intros [? Hn] _. split; [done|].
    unfold m_wf, m_len in *. rec_simpl. rewrite He in *. rewrite zlen_app.
    destruct Hn as (? & ? & ?). split; [done|]. split; [lia|done].
Qed.

(** The mbuf itself is linked at the end of the record. *)
Lemma compressed_link p sb rec m1 :
  compressed p sb rec [m1] p (sballoc sb m1)
    (rec ++ [m1 <| m_flags := clrb (m_flags m1) M_EOR |>]).
Proof.
  split; rewrite ?chain_bytes_app, ?chain_bytes_one; try done.
  - unfold sballoc. rec_simpl. rewrite u32_u32, chain_len_cons, chain_len_nil. f_equal. lia.
  - unfold sballoc. rec_simpl. rewrite u32_u32, chain_space_app. simpl.
    rewrite mbuf_space_noeor. f_equal. lia.
  - unfold sballoc. rec_simpl. by rewrite !u32_u32.
  - intros x. rewrite refs_app. simpl. rewrite refs1_noeor. lia.
  - rewrite Forall_app, !Forall_singleton. intros ??. split; [done|]. by apply m_wf_noeor.
Qed.

Lemma sbcompress_loop_ok p sb racc m eor p' sb' racc' eor' :
  sbcompress_loop p sb racc m eor = (p', sb', racc', eor') ->
  compressed p sb (rev racc) m p' sb' (rev racc').
Proof.
  revert p sb racc eor. induction m as [|m1 m IH]; intros p sb racc eor E; cbn [sbcompress_loop] in E.
  { simplify_eq. apply compressed_nil. }
  match type of E with (if ?b then _ else _) = _ => destruct b eqn:Ez end.
  { apply andb_true_iff in Ez as [Ez%Z.eqb_eq _].
    eapply compressed_trans; [by apply compressed_skip|eauto]. }
  destruct racc as [|n r].
  { eapply compressed_trans; [apply compressed_link|]. by apply IH in E. }
  match type of E with (if ?b then _ else _) = _ => destruct b eqn:Ec end.
  - apply andb_true_iff in Ec as [[Hf%negb_true_iff Hl%Z.ltb_lt]%andb_true_iff _].
    eapply compressed_trans; [apply (compressed_copy p sb (rev r) n m1); done|].
    by apply IH in E.
  - eapply compressed_trans; [apply compressed_link|]. by apply IH in E.
Qed.

(** [eor] has no bit but [M_EOR]. *)
Lemma sbcompress_loop_eor c p sb racc m eor p' sb' racc' eor' :
  sbcompress_loop p sb racc m eor = (p', sb', racc', eor') ->
  Z.land M_EOR c = 0 -> hasf eor c = false -> hasf eor' c = false.
Proof.
  revert p sb racc eor. induction m as [|m1 m IH]; intros p sb racc eor E Hc He;
    cbn [sbcompress_loop] in E; [by simplify_eq|].
  repeat case_match; (eapply IH; [exact E|done|by apply eor_acc_mask]).
Qed.

Lemma sbcompress_ok p sb rec m p' sb' rec' :
  sbcompress p sb rec m = (p', sb', rec') -> compressed p sb rec m p' sb' rec'.
Proof.
  unfold sbcompress. destruct (sbcompress_loop _ _ _ _ _) as [[[p1 sb1] racc] eor] eqn:E.
  intros E'. simplify_eq.
  pose proof (sbcompress_loop_eor M_EXT _ _ _ _ _ _ _ _ _ E eq_refl eq_refl) as He.
  pose proof (sbcompress_loop_eor M_PKTHDR _ _ _ _ _ _ _ _ _ E eq_refl eq_refl) as Hp.
  apply sbcompress_loop_ok in E. rewrite rev_involutive in E.
  destruct racc as [|n r]; [done|]. destruct (eor =? 0); [done|].
  destruct E as [B C M R Q L F W]. simpl in *.
  rewrite chain_bytes_app, chain_bytes_one in B. rewrite chain_space_app in M. simpl in M.
  split; rewrite ?chain_bytes_app, ?chain_bytes_one, ?chain_space_app; try done.
  - simpl. by rewrite mbuf_space_eor.
  - intros x. specialize (F x). rewrite refs_app in *. simpl in *.
    unfold refs1 in *. rec_simpl. by rewrite hasf_setb, He, orb_false_r.
  - intros H1 H2. specialize (W H1 H2). rewrite Forall_app, Forall_singleton in *.
    destruct W. split; [done|]. by apply m_wf_eor.
Qed.

(** ** Appending keeps the invariant *)

(** The result of queueing the chain [m]: the invariant holds, the data is the old
    data with [m]'s inserted after [pre], and no cluster reference is lost. *)
Record queued (p : mpool) (sb : sockbuf) (m : chain) (pre post : list Z)
    (p' : mpool) (sb' : sockbuf) : Prop := {
  q_inv : sb_inv sb';
  q_bytes : sb_bytes sb' = pre ++ chain_bytes m ++ post;
  q_limits : sb_limits sb' = sb_limits sb;
  q_refs : forall x, mclrefcnt p' x - refs x (sb_chain sb') =
                     mclrefcnt p x - refs x (sb_chain sb) - refs x m
}.

Lemma move_eor_ok m0 m m0' m' :
  move_eor m0 m = (m0', m') ->
  m_bytes m0' = m_bytes m0 /\ mbuf_space m0' = mbuf_space m0 /\
  chain_bytes m' = chain_bytes m /\ chain_space m' = chain_space m /\
  (forall x, refs1 x m0' = refs1 x m0 /\ refs x m' = refs x m) /\
  (m_wf m0 -> m_wf m0') /\ (Forall m_wf m -> Forall m_wf m').
Proof.
  unfold move_eor. destruct m as [|m1 m]; [intros; by simplify_eq|].
  destruct (hasf (m_flags m0) M_EOR); intros; simplify_eq; [|done].
  rewrite mbuf_space_noeor. simpl. rewrite mbuf_space_eor by done.
  rewrite !chain_bytes_cons. rec_simpl. split_and!; try done.
  - intros x. split; [apply refs1_noeor|].
    simpl. f_equal. unfold refs1. rec_simpl. by flags_simpl.
  - apply m_wf_noeor.
  - rewrite !Forall_cons_iff. intros [? ?]. split; [by apply m_wf_eor|done].
Qed.

(** Linking a compressed record [rec'] between [before] and [after] where the
    record [rec] (empty if there was none) stood. *)
Lemma queued_link p sb rec m p' sb' rec' before after :
  sb_inv sb -> sb_chain sb = concat before ++ rec ++ concat after ->
  compressed p sb rec m p' sb' rec' -> Forall m_wf m ->
  Forall (fun r => r <> []) before -> Forall (fun r => r <> []) after -> rec' <> [] ->
  queued p sb m (chain_bytes (concat before ++ rec)) (chain_bytes (concat after))
    p' (sb' <| sb_mb := before ++ rec' :: after |>).
Proof.
  intros [Hcc Hmc Hr Hw] Hch [B C M R Q L F W] Hm Hb Ha Hne.
  rewrite Hch in Hw. rewrite !Forall_app in Hw. destruct Hw as (Hwb & Hwr & Hwa).
  destruct R as [R1 R2]; [by rewrite Hcc, u32_u32|by rewrite Hmc, u32_u32|].
  unfold sb_bytes in Hcc. rewrite Hch in Hcc, Hmc.
  assert (Hc' : sb_chain (sb' <| sb_mb := before ++ rec' :: after |>) =
                concat before ++ rec' ++ concat after).
  { unfold sb_chain. rec_simpl. by rewrite concat_app. }
  split; [split| | |].
  - unfold sb_bytes. rewrite Hc'. rec_simpl. rewrite <- R1, C, Hcc.
    rewrite !chain_bytes_app, B. unfold chain_len. rewrite !zlen_app, u32_add_l. f_equal. lia.
  - rewrite Hc'. rec_simpl. rewrite <- R2, M, Hmc.
    rewrite !chain_space_app. rewrite <- Z.add_sub_assoc, u32_add_l. f_equal. lia.
  - rec_simpl. by rewrite Forall_app, Forall_cons_iff.
  - rewrite Hc', !Forall_app. auto.
  - unfold sb_bytes. by rewrite Hc', !chain_bytes_app, B, !app_assoc.
  - exact L.
  - intros x. rewrite Hc', Hch, !refs_app. specialize (F x). lia.
Qed.

(** All mbufs of [m] were empty and freed, and the buffer was empty. *)
Lemma queued_nothing p sb m p' sb' :
  sb_inv sb -> sb_mb sb = [] -> compressed p sb [] m p' sb' [] ->
  queued p sb m (sb_bytes sb) [] p' (sb' <| sb_mb := [] |>).
Proof.
  intros [Hcc Hmc Hr Hw] Hn [B C M R Q L F W]. unfold sb_bytes, sb_chain in *. rewrite Hn in *.
  destruct R as [R1 R2]; [by rewrite Hcc|by rewrite Hmc|].
  simpl in *. unfold chain_len in C. rewrite <- B, Hcc in C. rewrite Hmc in M.
  split; [split| | |]; try done; rec_simpl.
  - rewrite <- R1, C. done.
  - rewrite <- R2, M. done.
  - unfold sb_bytes, sb_chain. rec_simpl. simpl. by rewrite <- B.
  - intros x. unfold sb_chain. rec_simpl. rewrite Hn. specialize (F x). simpl in *. lia.
Qed.

(** [sbcompress] only adds mbufs to the record it is given. *)
Lemma sbcompress_loop_ne p sb racc m eor p' sb' racc' eor' :
  sbcompress_loop p sb racc m eor = (p', sb', racc', eor') -> racc <> [] -> racc' <> [].
Proof.
  revert p sb racc eor. induction m as [|m1 m IH]; intros p sb racc eor E Hr;
    cbn [sbcompress_loop] in E; [by simplify_eq|].
  repeat case_match; (eapply IH; [exact E|done]).
Qed.
Lemma sbcompress_ne p sb rec m p' sb' rec' :
  sbcompress p sb rec m = (p', sb', rec') -> rec <> [] -> rec' <> [].
Proof.
  unfold sbcompress. destruct (sbcompress_loop _ _ _ _ _) as [[[p1 sb1] racc] eor] eqn:E.
  intros E' Hr. simplify_eq. apply sbcompress_loop_ne in E.
  - destruct racc; [done|]. case_match; intros Hl%(f_equal (@length _)); simpl in Hl;
      rewrite length_app in Hl; simpl in Hl; lia.
  - intros H%(f_equal (@rev _)). by rewrite rev_involutive in H.
Qed.

Lemma compressed_first p sb m0 m m0' m' p' sb' rec' :
  move_eor m0 m = (m0', m') ->
  compressed p (sballoc sb m0) [m0'] m' p' sb' rec' ->
  compressed p sb [] (m0 :: m) p' sb' rec'.
Proof.
  intros (E1 & E2 & E3 & E4 & E5 & E6 & E7)%move_eor_ok [B C M R Q L F W].
  unfold sballoc in *. rec_simpl_in C. rec_simpl_in M. rec_simpl_in R. split; try done.
  - rewrite B, E3, chain_bytes_one, E1. done.
  - rewrite C, u32_add_l, chain_len_cons. unfold chain_len. rewrite E3. f_equal. lia.
  - rewrite M. rewrite <- Z.add_sub_assoc, u32_add_l. simpl. rewrite E2. f_equal. lia.
  - intros _ _. apply R; by rewrite u32_u32.
  - intros x. rewrite F. destruct (E5 x) as [E8 ->]. simpl. rewrite E8. lia.
  - rewrite Forall_cons_iff. intros _ [? ?]. apply W; [apply Forall_singleton|]; auto.
Qed.

Lemma sbappendrecord_ok p sb m p' sb' :
  sb_inv sb -> Forall m_wf m -> m <> [] -> sbappendrecord p sb m = (p', sb') ->
  queued p sb m (sb_bytes sb) [] p' sb'.
Proof.
  intros Hi Hw Hne E. destruct m as [|m0 m]; [done|]. simpl in E.
  destruct (move_eor m0 m) as [m0' m'] eqn:Ee.
  destruct (sbcompress p (sballoc sb m0) [m0'] m') as [[p1 sb1] rec] eqn:Ec. simplify_eq.
  pose proof (sbcompress_ne _ _ _ _ _ _ _ Ec) as Hn. apply sbcompress_ok in Ec.
  pose proof (cp_mb _ _ _ _ _ _ _ Ec) as Hmb.
  eapply compressed_first in Ec; [|done].
  replace (sb_mb sb1) with (sb_mb sb).
  replace (sb_bytes sb) with (chain_bytes (concat (sb_mb sb) ++ [])) by by rewrite app_nil_r.
  eapply (queued_link _ _ [] _ _ _ _ (sb_mb sb) []); try done.
  - unfold sb_chain. simpl. by rewrite app_nil_r.
  - apply Hi.
  - by apply Hn.
Qed.

Lemma oob_split_app l a b : oob_split l = (a, b) -> l = a ++ b.
Proof.
  revert a b. induction l as [|r l IH]; intros a b E; simpl in E; [by simplify_eq|].
  destruct (oob_train r); [|by simplify_eq].
  destruct (oob_split l) as [a' b'] eqn:E'. simplify_eq. simpl. f_equal. by apply IH.
Qed.

Lemma split_last_spec l recs rec :
  split_last l = (recs, rec) -> (l = [] /\ recs = [] /\ rec = []) \/ l = recs ++ [rec].
Proof.
  revert recs rec. induction l as [|r l IH]; intros recs rec E; [simpl in E; simplify_eq; by left|].
  right. destruct l as [|r2 l]; [simpl in E; by simplify_eq|].
  change (split_last (r :: r2 :: l)) with
    (let '(a, b) := split_last (r2 :: l) in (r :: a, b)) in E.
  destruct (split_last (r2 :: l)) as [a b]. simplify_eq.
  destruct (IH _ _ eq_refl) as [[? _]| ->]; done.
Qed.

(** Queueing a chain with [sbappend]: its data goes to the end. *)
Lemma sbappend_ok p sb m p' sb' :
  sb_inv sb -> Forall m_wf m -> sbappend p sb m = (p', sb') ->
  queued p sb m (sb_bytes sb) [] p' sb'.
Proof.
  intros Hi Hw E. unfold sbappend in E. destruct m as [|m0 m].
  { simplify_eq. split; try done; [by rewrite chain_bytes_nil, app_nil_r|]. intros x. simpl. lia. }
  destruct (split_last (sb_mb sb)) as [recs rec] eqn:Es.
  case_match; [by apply sbappendrecord_ok|].
  destruct (sbcompress p sb rec (m0 :: m)) as [[p1 sb1] rec'] eqn:Ec.
  pose proof (sbcompress_ne _ _ _ _ _ _ _ Ec) as Hne.
  apply sbcompress_ok in Ec. pose proof (inv_rec _ Hi) as Hr.
  assert (sb_chain sb = concat recs ++ rec /\ Forall (fun r => r <> []) recs /\
          (rec = [] -> recs = [] /\ sb_mb sb = [])) as (Hc & Hf & Hn).
  { unfold sb_chain. destruct (split_last_spec _ _ _ Es) as [(-> & -> & ->)|Hl]; [done|].
    rewrite Hl, concat_app in *. simpl. rewrite app_nil_r. apply Forall_app in Hr as [? Hr].
    apply Forall_cons_iff in Hr as [Hr _]. split; [done|]. split; [done|]. by intros ->. }
  destruct rec' as [|r1 rec'].
  - destruct (decide (rec = [])) as [->|Hrec]; [|exfalso; by apply Hne].
    destruct (Hn eq_refl) as [-> Hmb]. simplify_eq. by apply queued_nothing.
  - simplify_eq. unfold sb_bytes. rewrite Hc.
    eapply (queued_link _ _ _ _ _ _ _ _ []); try done.
    simpl. by rewrite app_nil_r.
Qed.

(** ** Dropping keeps the invariant *)

(** The counters of [sb] stand for the mbufs [m] of the current record and the
    records [next] after it. *)
Record holds (sb : sockbuf) (m : chain) (next : list chain) : Prop := {
  h_cc : sb_cc sb = u32 (chain_len (m ++ concat next));
  h_mbcnt : sb_mbcnt sb = u32 (chain_space (m ++ concat next));
  h_rec : Forall (fun r => r <> []) next;
  h_wf : Forall m_wf (m ++ concat next)
}.

Record dropped (p : mpool) (sb : sockbuf) (ms : chain) (n : Z)
    (p' : mpool) (sb' : sockbuf) : Prop := {
  d_inv : sb_inv sb';
  d_bytes : sb_bytes sb' = zdrop n (chain_bytes ms);
  d_limits : sb_limits sb' = sb_limits sb;
  d_refs : forall x, mclrefcnt p' x - refs x (sb_chain sb') = mclrefcnt p x - refs x ms;
  d_len : (length (sb_chain sb') <= length ms)%nat;
  d_space : chain_space (sb_chain sb') <= chain_space ms
}.

Lemma mbuf_space_pos m : m_wf m -> MSIZE <= mbuf_space m.
Proof.
  intros [? Hw]. unfold mbuf_space. pose proof (m_len_nonneg m). case_match; lia.
Qed.

Lemma holds_sbfree sb m1 m next : holds sb (m1 :: m) next -> holds (sbfree sb m1) m next.
Proof.
  intros [C M R W]. simpl in W. apply Forall_cons_iff in W as [_ W].
  split; unfold sbfree; rec_simpl; try done.
  - rewrite C. simpl. rewrite chain_len_cons, u32_sub_l. f_equal. lia.
  - rewrite M. simpl. rewrite u32_sub_l. f_equal. lia.
Qed.

Lemma dropped_free p sb m1 ms n p' sb' :
  m_wf m1 -> m_len m1 <= n -> dropped (m_free p m1) (sbfree sb m1) ms (n - m_len m1) p' sb' ->
  dropped p sb (m1 :: ms) n p' sb'.
Proof.
  intros Hw Hl [I B L F N S]. pose proof (m_len_nonneg m1). split; try done.
  - rewrite B, chain_bytes_cons. unfold m_len in *. by rewrite zdrop_app_ge.
  - intros x. rewrite F, m_free_refcnt. simpl. lia.
  - simpl. lia.
  - simpl. pose proof (mbuf_space_pos m1 Hw). unfold MSIZE in *. lia.
Qed.

Lemma holds_head sb m1 m next : holds sb (m1 :: m) next -> m_wf m1.
Proof. intros [_ _ _ W]. simpl in W. by apply Forall_cons_iff in W as [? _]. Qed.
#[local] Hint Resolve holds_head : core.

Lemma holds_inv sb r next :
  holds sb r next -> r <> [] -> sb_inv (sb <| sb_mb := r :: next |>).
Proof. intros [C M R W] Hne. split; try done. rec_simpl. by apply Forall_cons_iff. Qed.

Lemma sbdrop_finish_ok p sb m next p' sb' :
  holds sb m next -> sbdrop_finish p sb m next = (p', sb') ->
  dropped p sb (m ++ concat next) 0 p' sb'.
Proof.
  revert p sb. induction m as [|m1 m IH]; intros p sb Hh E; simpl in E.
  - simplify_eq. destruct Hh as [C M R W]. split; try done.
  - destruct (Z.eqb_spec (m_len m1) 0) as [El|El].
    + simpl. apply dropped_free; [by eauto|lia|].
      replace (0 - m_len m1) with 0 by lia. apply IH; [by apply holds_sbfree|done].
    + simplify_eq. split; try done. by apply holds_inv.
Qed.

(** Part of the first mbuf is dropped. *)
Lemma holds_trim sb m1 m next len :
  holds sb (m1 :: m) next -> 0 <= len < m_len m1 ->
  holds (sb <| sb_cc := u32 (sb_cc sb - len) |>)
    (m1 <| m_off := m_off m1 + len |> <| m_bytes := zdrop len (m_bytes m1) |> :: m) next.
Proof.
  intros [C M R W] Hl. unfold m_len in Hl. split; rec_simpl; simpl in *; try done.
  - rewrite C, !chain_len_cons, u32_sub_l. unfold m_len. rec_simpl. rewrite zlen_zdrop.
    f_equal. lia.
  - apply Forall_cons_iff in W as [(Ho & Hw) W]. apply Forall_cons_iff. split; [|done].
    unfold m_wf, m_len in *. rec_simpl. rewrite zlen_zdrop. split; [lia|].
    case_match; [lia|]. split; [lia|]. intros. destruct Hw as [? Hw]. specialize (Hw ltac:(done)). lia.
Qed.

Lemma sbdrop_rec_ok p sb m next len :
  holds sb m next -> 0 <= len <= chain_len (m ++ concat next) ->
  match sbdrop_rec p sb m next len with
  | inl (p', sb') => dropped p sb (m ++ concat next) len p' sb'
  | inr (p1, sb1, len1) =>
      holds sb1 [] next /\ 0 < len1 <= chain_len (concat next) /\
      forall p' sb', dropped p1 sb1 (concat next) len1 p' sb' ->
                     dropped p sb (m ++ concat next) len p' sb'
  end.
Proof.
  revert p sb len. induction m as [|m1 m IH]; intros p sb len Hh Hl; cbn [sbdrop_rec].
  - simpl in Hl. destruct (Z.gtb_spec len 0); [split_and!; try done; lia|].
    assert (len = 0) as -> by lia.
    by apply (sbdrop_finish_ok p sb [] next).
  - destruct (Z.gtb_spec len 0).
    + destruct (Z.gtb_spec (m_len m1) len).
      * match goal with |- context [sbdrop_finish ?a ?b ?c ?d] =>
          destruct (sbdrop_finish a b c d) as [p' sb'] eqn:E end.
        apply sbdrop_finish_ok in E as [I B L F N S]; [|apply holds_trim; [done|lia]]. split; try done.
        -- rewrite B. simpl. rewrite !chain_bytes_cons. rec_simpl. rewrite zdrop_le0 by lia.
           rewrite zdrop_app_le; [done|]. unfold m_len in *. lia.
      * simpl in Hl. rewrite chain_len_cons in Hl.
        specialize (IH (m_free p m1) (sbfree sb m1) (len - m_len m1) (holds_sbfree _ _ _ _ Hh) ltac:(lia)).
        destruct (sbdrop_rec _ _ _ _ _) as [[p' sb']|[[p1 sb1] len1]].
        -- apply dropped_free; [by eauto|lia|done].
        -- destruct IH as (? & ? & IH). split_and!; try done; try lia.
           intros p' sb' ?. apply dropped_free; [by eauto|lia|auto].
    + assert (len = 0) as -> by lia.
      destruct (sbdrop_finish p sb (m1 :: m) next) as [p' sb'] eqn:E. by apply sbdrop_finish_ok in E.
Qed.

Lemma sbdrop_loop_ok p sb m next len :
  holds sb m next -> 0 <= len <= chain_len (m ++ concat next) ->
  exists p' sb', sbdrop_loop p sb m next len = Ret (p', sb') /\
    dropped p sb (m ++ concat next) len p' sb'.
Proof.
  revert p sb m len. induction next as [|r next IH]; intros p sb m len Hh Hl;
    pose proof (sbdrop_rec_ok p sb m _ len Hh Hl) as Hr; cbn [sbdrop_loop];
    (destruct (sbdrop_rec _ _ _ _ _) as [[p' sb']|[[p1 sb1] len1]]; [eauto|]);
    destruct Hr as (Hh1 & Hl1 & Hd).
  - exfalso. unfold concat in Hl1. rewrite chain_len_nil in Hl1. lia.
  - destruct Hh1 as [C M R W]. apply Forall_cons_iff in R as [_ R].
    destruct (IH p1 sb1 r len1) as (p' & sb' & -> & ?); [by split|simpl in Hl1; lia|]. eauto.
Qed.

Lemma inv_holds sb : sb_inv sb ->
  match sb_mb sb with [] => holds sb [] [] | m :: next => holds sb m next end.
Proof.
  intros [C M R W]. unfold sb_bytes, sb_chain in *.
  destruct (sb_mb sb) as [|m next]; [by split|]. apply Forall_cons_iff in R as [_ R]. by split.
Qed.

(** [sbdrop] of at most the queued data: no panic, and the first [len] bytes go. *)
Lemma sbdrop_ok p sb len :
  sb_inv sb -> 0 <= len <= zlen (sb_bytes sb) ->
  exists p' sb', sbdrop p sb len = Ret (p', sb') /\ dropped p sb (sb_chain sb) len p' sb'.
Proof.
  intros Hi Hl. pose proof (inv_holds _ Hi) as Hh. unfold sbdrop, sb_bytes, sb_chain in *.
  destruct (sb_mb sb) as [|m next].
  - by apply (sbdrop_loop_ok p sb [] []).
  - by apply sbdrop_loop_ok.
Qed.

(** [sbdrop] adds no record. *)
Lemma sbdrop_finish_records p sb m next p' sb' :
  sbdrop_finish p sb m next = (p', sb') -> (length (sb_mb sb') <= S (length next))%nat.
Proof.
  revert p sb. induction m as [|m1 m IH]; intros p sb E; simpl in E; [|case_match; [by eapply IH|]];
    simplify_eq; rec_simpl; simpl; lia.
Qed.
Lemma sbdrop_rec_records m : forall p sb next len p' sb',
  sbdrop_rec p sb m next len = inl (p', sb') -> (length (sb_mb sb') <= S (length next))%nat.
Proof.
  induction m as [|m1 m IH]; intros p sb next len p' sb' E; simpl in E; repeat case_match; simplify_eq;
    eauto using sbdrop_finish_records.
Qed.
Lemma sbdrop_records p sb len p' sb' :
  sbdrop p sb len = Ret (p', sb') -> (length (sb_mb sb') <= Nat.max 1 (length (sb_mb sb)))%nat.
Proof.
  assert (H : forall next p sb m len, sbdrop_loop p sb m next len = Ret (p', sb') ->
    (length (sb_mb sb') <= S (length next))%nat).
  { clear. induction next as [|r next IH]; intros p sb m len E; cbn [sbdrop_loop] in E;
      (destruct (sbdrop_rec _ _ _ _ _) as [[? ?]|[[? ?] ?]] eqn:Er;
       [simplify_eq; by eapply sbdrop_rec_records|]); [done|]. apply IH in E. simpl. lia. }
  unfold sbdrop. destruct (sb_mb sb) as [|m next]; intros E; apply H in E; simpl in *; lia.
Qed.

(** [sbdrop] of more than that panics. *)
Lemma sbdrop_rec_over p sb m next len :
  chain_len m < len -> exists p' sb',
  sbdrop_rec p sb m next len = inr (p', sb', len - chain_len m).
Proof.
  revert p sb len. induction m as [|m1 m IH]; intros p sb len Hl; simpl.
  - rewrite chain_len_nil in *. destruct (Z.gtb_spec len 0); [|lia]. rewrite Z.sub_0_r. eauto.
  - rewrite chain_len_cons in *. pose proof (chain_len_nonneg m). pose proof (m_len_nonneg m1).
    destruct (Z.gtb_spec len 0); [|lia]. destruct (Z.gtb_spec (m_len m1) len); [lia|].
    destruct (IH (m_free p m1) (sbfree sb m1) (len - m_len m1)) as (p' & sb' & ->); [lia|].
    eexists _, _. do 2 f_equal. lia.
Qed.
Lemma sbdrop_over p sb len : zlen (sb_bytes sb) < len -> sbdrop p sb len = Panic "sbdrop".
Proof.
  intros Hl. assert (forall next p sb m len, chain_len (m ++ concat next) < len ->
    sbdrop_loop p sb m next len = Panic "sbdrop") as H.
  { clear. induction next as [|r next IH]; intros p sb m len Hl; cbn [sbdrop_loop];
    unfold chain_len in Hl; rewrite chain_bytes_app, zlen_app in Hl;
    match goal with |- context [sbdrop_rec p sb m ?n len] =>
      destruct (sbdrop_rec_over p sb m n len) as (p' & sb' & ->); [unfold chain_len; zlen_pose; lia|] end;
    [done|]. apply IH. unfold chain_len. simpl in Hl. lia. }
  unfold sbdrop, sb_bytes, sb_chain in *. destruct (sb_mb sb); apply H; done.
Qed.

Lemma sbdrop_all_first p sb m1 m next len :
  len = chain_len (m1 :: m ++ concat next) ->
  sbdrop_loop p sb (m1 :: m) next len =
  sbdrop_loop (m_free p m1) (sbfree sb m1) m next (len - m_len m1).
Proof.
  intros E. rewrite chain_len_cons in E. pose proof (chain_len_nonneg (m ++ concat next)).
  pose proof (m_len_nonneg m1).
  assert (sbdrop_rec p sb (m1 :: m) next len =
          sbdrop_rec (m_free p m1) (sbfree sb m1) m next (len - m_len m1)) as Er.
  { cbn [sbdrop_rec]. destruct (Z.gtb_spec len 0).
    - destruct (Z.gtb_spec (m_len m1) len); [lia|done].
    - replace (len - m_len m1) with 0 by lia. simpl. destruct (Z.eqb_spec (m_len m1) 0); [|lia].
      by destruct m. }
  destruct next; cbn [sbdrop_loop]; by rewrite Er.
Qed.

(** [sbdrop] of all the data frees at least one mbuf. *)
Lemma sbdrop_all p sb :
  sb_inv sb -> sb_mb sb <> [] ->
  exists p' sb', sbdrop p sb (zlen (sb_bytes sb)) = Ret (p', sb') /\
    dropped p sb (sb_chain sb) (zlen (sb_bytes sb)) p' sb' /\
    (length (sb_chain sb') < length (sb_chain sb))%nat.
Proof.
  intros Hi Hne. pose proof (inv_holds _ Hi) as Hh. pose proof (inv_rec _ Hi) as Hr.
  unfold sbdrop, sb_bytes, sb_chain in *. destruct (sb_mb sb) as [|m next]; [done|].
  apply Forall_cons_iff in Hr as [Hm _]. destruct m as [|m1 m]; [done|]. simpl concat.
  rewrite sbdrop_all_first by done.
  rewrite (chain_bytes_cons m1). rewrite zlen_app.
  replace (zlen (m_bytes m1) + _ - m_len m1) with (chain_len (m ++ concat next))
    by (unfold chain_len, m_len; lia).
  destruct (sbdrop_loop_ok (m_free p m1) (sbfree sb m1) m next (chain_len (m ++ concat next)))
    as (p' & sb' & -> & Hd); [by apply holds_sbfree|pose proof (chain_len_nonneg (m ++ concat next)); lia|].
  eexists _, _. split; [done|]. split.
  - apply dropped_free; [by eauto|unfold m_len; zlen_pose; lia|].
    replace (_ - m_len m1) with (chain_len (m ++ concat next)) by (unfold chain_len, m_len; lia). done.
  - pose proof (d_len _ _ _ _ _ _ Hd). unfold sb_chain in *. simpl. lia.
Qed.

Lemma chain_space_pos ms : Forall m_wf ms -> MSIZE * Z.of_nat (length ms) <= chain_space ms.
Proof.
  induction ms as [|m ms IH]; intros Hw; simpl; [unfold MSIZE; lia|].
  apply Forall_cons_iff in Hw as [Hm Hw]. apply mbuf_space_pos in Hm. specialize (IH Hw).
  unfold MSIZE in *. lia.
Qed.
Lemma chain_space_0 sb : sb_inv sb -> chain_space (sb_chain sb) = 0 -> sb_mb sb = [].
Proof.
  intros [_ _ R W] E. pose proof (chain_space_pos _ W) as Hp. unfold MSIZE in Hp.
  unfold sb_chain in *. destruct (sb_mb sb) as [|[|m r] l]; [done| |rewrite E in Hp; cbn [concat app length] in Hp; lia].
  by apply Forall_cons_iff in R as [? _].
Qed.

(** What [sbflush] leaves: nothing queued, every cluster reference released. *)
Record emptied (p : mpool) (sb : sockbuf) (p' : mpool) (sb' : sockbuf) : Prop := {
  e_mb : sb_mb sb' = [];
  e_cc : sb_cc sb' = 0;
  e_mbcnt : sb_mbcnt sb' = 0;
  e_limits : sb_limits sb' = sb_limits sb;
  e_refs : forall x, mclrefcnt p' x = mclrefcnt p x - refs x (sb_chain sb)
}.

Lemma sbflush_loop_ok fuel p sb :
  sb_inv sb -> (length (sb_chain sb) < fuel)%nat -> zlen (sb_bytes sb) < 2147483648 ->
  chain_space (sb_chain sb) < 4294967296 ->
  exists p' sb', sbflush_loop fuel p sb = Ret (p', sb') /\ emptied p sb p' sb'.
Proof.
  revert p sb. induction fuel as [|fuel IH]; intros p sb Hi Hf Hb Hs; [lia|]. simpl.
  pose proof (chain_space_pos _ (inv_wf _ Hi)) as Hp. unfold MSIZE in Hp.
  pose proof (inv_mbcnt _ Hi) as Hm. rewrite u32_id in Hm by lia. rewrite Hm.
  pose proof (inv_cc _ Hi) as Hc. rewrite u32_id in Hc by (zlen_pose; lia).
  destruct (Z.eqb_spec (chain_space (sb_chain sb)) 0) as [E|E].
  - apply chain_space_0 in E; [|done]. eexists _, _. split; [done|].
    unfold sb_bytes, sb_chain in *. rewrite E in *. simpl in Hc, Hm.
    split; try done. intros x. unfold sb_chain. rewrite E. simpl. lia.
  - rewrite Hc, s32_id by (zlen_pose; lia).
    destruct (sbdrop_all p sb) as (p1 & sb1 & -> & [I B L F _ S] & Hlt); [done|intros Hn|].
    { unfold sb_chain in E. by rewrite Hn in E. }
    simpl. rewrite zdrop_ge in B by (unfold sb_bytes; lia).
    destruct (IH p1 sb1) as (p' & sb' & -> & [E1 E2 E3 E4 E5]);
      [done|lia|rewrite B; done|lia|].
    eexists _, _. split; [done|]. split; try done; [congruence|].
    intros x. rewrite E5. specialize (F x). lia.
Qed.

(** ** Space *)

Lemma sbreserve_ok sb_max sb cc sb' :
  0 <= sb_max < 1048576 -> 0 <= cc -> -2147483648 <= sb_lowat sb < 2147483648 ->
  sbreserve sb_max sb cc = (sb', true) ->
  sb_hiwat sb' = cc /\ cc <= sb_max /\ sb_mbmax sb' = Z.min (2 * cc) sb_max /\
  sb_lowat sb' <= cc /\ sb_mb sb' = sb_mb sb /\ sb_cc sb' = sb_cc sb /\ sb_mbcnt sb' = sb_mbcnt sb.
Proof.
  intros Hm Hc Hlo. unfold sbreserve, MCLBYTES, MSIZE.
  rewrite u32_id by lia. destruct (Z.gtb_spec cc (sb_max * 2048 / (128 + 2048))); [done|].
  assert (cc <= sb_max) by (Z.to_euclidean_division_equations; lia).
  rec_simpl. rewrite s32_id, (u32_id (cc * 2)), cmin_spec by lia.
  destruct (Z.gtb_spec (u32 (sb_lowat sb)) cc); intros E; simplify_eq; rec_simpl;
    split_and!; try done; try lia.
  wrap_lia.
Qed.

(** [sbspace] on a buffer within its limits: what can be added before either
    limit is reached. *)
Lemma sbspace_spec sb :
  sb_inv sb -> 0 <= sb_hiwat sb < 1073741824 -> 0 <= sb_mbmax sb < 1073741824 ->
  zlen (sb_bytes sb) < 1073741824 -> chain_space (sb_chain sb) < 1073741824 ->
  sbspace sb = Z.min (sb_hiwat sb - zlen (sb_bytes sb)) (sb_mbmax sb - chain_space (sb_chain sb)).
Proof.
  intros Hi ? ? ? ?. pose proof (chain_space_pos _ (inv_wf _ Hi)) as Hp. unfold MSIZE in Hp.
  unfold sbspace. rewrite (inv_cc _ Hi), (inv_mbcnt _ Hi), !u32_id by (zlen_pose; lia).
  zlen_pose. rewrite !s32_id by lia. apply imin_spec; lia.
Qed.

(** A buffer with two records, the first of expedited data, for the examples. *)
Definition sample_sb : sockbuf :=
  mkSb 3 8192 256 16384 1 [[mkMbuf 0 [9] MT_OOBDATA 0 0 0 0 0]; [mkMbuf 0 [1; 2] MT_DATA 0 0 0 0 0]] 0.

Lemma sample_sb_inv : sb_inv sample_sb.
Proof. split; try done; repeat constructor; vm_compute; intuition congruence. Qed.

(** Sbinsertoob queues a record of out-of-band data after the expedited records
    at the front and before the first record of ordinary data, keeping the order of
    everything else, the counters and the cluster references. *)
Theorem sbinsertoob_correct p sb m p' sb' before after :
  sb_inv sb -> Forall m_wf m -> m <> [] -> oob_split (sb_mb sb) = (before, after) ->
  sbinsertoob p sb m = (p', sb') ->
  queued p sb m (chain_bytes (concat before)) (chain_bytes (concat after)) p' sb'.
Proof.
  intros Hi Hw Hne Es E. destruct m as [|m0 m]; [done|]. simpl in E. rewrite Es in E.
  destruct (move_eor m0 m) as [m0' m'] eqn:Ee.
  destruct (sbcompress p (sballoc sb m0) [m0'] m') as [[p1 sb1] rec] eqn:Ec. simplify_eq.
  pose proof (sbcompress_ne _ _ _ _ _ _ _ Ec) as Hn. apply sbcompress_ok in Ec.
  eapply compressed_first in Ec; [|done]. apply oob_split_app in Es.
  pose proof (inv_rec _ Hi) as Hr. rewrite Es, Forall_app in Hr. destruct Hr as [Hrb Hra].
  replace (chain_bytes (concat before)) with (chain_bytes (concat before ++ [])) by by rewrite app_nil_r.
  eapply (queued_link _ _ []); try done.
  - unfold sb_chain. by rewrite Es, concat_app.
  - by apply Hn.
Qed.

Lemma sbinsertoob_witness :
  queued sample_pool sample_sb sample_chain [9] [1; 2]
    (sbinsertoob sample_pool sample_sb sample_chain).1 (sbinsertoob sample_pool sample_sb sample_chain).2.
Proof.
  apply (sbinsertoob_correct sample_pool sample_sb sample_chain _ _
    [[mkMbuf 0 [9] MT_OOBDATA 0 0 0 0 0]] [[mkMbuf 0 [1; 2] MT_DATA 0 0 0 0 0]]);
    [apply sample_sb_inv|apply sample_chain_wf|discriminate|reflexivity|reflexivity].
Defined.

(** sbflush of an unlocked buffer terminates, without the panics the code
    guards against, and leaves nothing: no record, both counters 0, the limits as
    they were and every cluster reference of the queued mbufs released. *)
Theorem sbflush_correct p sb :
  sb_inv sb -> hasf (sb_flags sb) SB_LOCK = false -> zlen (sb_bytes sb) < 2147483648 ->
  chain_space (sb_chain sb) < 4294967296 ->
  exists p' sb', sbflush p sb = Ret (p', sb') /\ emptied p sb p' sb'.
Proof.
  intros Hi Hl Hb Hs. unfold sbflush. rewrite Hl.
  destruct (sbflush_loop_ok (S (length (sb_chain sb))) p sb) as (p' & sb' & E & He);
    [done|lia|done|done|].
  unfold sb_chain in E. rewrite E. simpl. destruct He as [E1 E2 E3 E4 E5].
  rewrite E1, E2. simpl. eexists _, _. split; [done|]. by split.
Qed.

Lemma sbflush_witness : exists p' sb', sbflush sample_pool sample_sb = Ret (p', sb') /\ emptied sample_pool sample_sb p' sb'.
Proof. apply (sbflush_correct sample_pool sample_sb sample_sb_inv); reflexivity. Defined.

(** sbreserve and sbspace bound a buffer: a reservation that succeeds sets the
    high water mark to the amount asked for, at most sb_max, bounds the storage by
    twice that, lowers the low water mark under it and leaves the data alone; and
    then sbspace is what can still be added before either bound is reached. *)
Theorem sbreserve_space sb_max sb cc sb' :
  0 <= sb_max < 1048576 -> 0 <= cc -> -2147483648 <= sb_lowat sb < 2147483648 -> sb_inv sb ->
  zlen (sb_bytes sb) < 1073741824 -> chain_space (sb_chain sb) < 1073741824 ->
  sbreserve sb_max sb cc = (sb', true) ->
  sb_hiwat sb' = cc /\ cc <= sb_max /\ sb_mbmax sb' = Z.min (2 * cc) sb_max /\ sb_lowat sb' <= cc /\
  sb_mb sb' = sb_mb sb /\ sb_inv sb' /\
  sbspace sb' = Z.min (cc - zlen (sb_bytes sb)) (Z.min (2 * cc) sb_max - chain_space (sb_chain sb)).
Proof.
  intros H1 H2 H3 Hi H4 H5 E. apply sbreserve_ok in E as (E1 & E2 & E3 & E4 & E5 & E6 & E7); [|done..].
  assert (Hi' : sb_inv sb').
  { destruct Hi. split; unfold sb_bytes, sb_chain in *; rewrite ?E5, ?E6, ?E7; done. }
  split_and!; try done. unfold sb_bytes, sb_chain in *. rewrite <- E5 in *.
  rewrite (sbspace_spec sb' Hi'), E1, E3; unfold sb_bytes, sb_chain; lia.
Qed.

Lemma sbreserve_space_witness :
  sbspace (sbreserve 262144 sample_sb 4096).1 = 4093.
Proof. apply (sbreserve_space 262144 sample_sb 4096); try apply sample_sb_inv; vm_compute; intuition congruence. Defined.

End SockBuf.
