(* ===== verification/ByteQueue.v ===== *)
(** The interface TCP uses a socket buffer through, and its implementation.

    [ByteQueue] states what a buffer promises its clients: appending a chain adds
    its bytes at the end, dropping removes bytes from the front, dropping more than
    is there is a panic, and the references to clusters are neither lost nor
    duplicated.  [sockbuf_queue] discharges it for sbappend and sbdrop.  The client
    theorem, that any sequence of the operations behaves as the sequence on a plain
    list of bytes, is proved against the interface. *)
From S2P Require Import Prelude Mbuf SockBuf.
Import Mbuf SockBuf.

Module ByteQueue.

(** [bq_free q x] is the number of references to cluster [x] that the queue does
    not hold. *)
Class ByteQueue (Q : Type) : Type := {
  bq_ok : Q -> Prop;
  bq_bytes : Q -> list Z;
  bq_free : Q -> Z -> Z;
  bq_push : Q -> chain -> Q;
  bq_pop : Q -> Z -> outcome Q;
  bq_push_ok : forall q m, bq_ok q -> Forall m_wf m ->
    bq_ok (bq_push q m) /\ bq_bytes (bq_push q m) = bq_bytes q ++ chain_bytes m /\
    forall x, bq_free (bq_push q m) x = bq_free q x - refs x m;
  bq_pop_ok : forall q n, bq_ok q -> 0 <= n <= zlen (bq_bytes q) ->
    exists q', bq_pop q n = Ret q' /\ bq_ok q' /\ bq_bytes q' = zdrop n (bq_bytes q) /\
      forall x, bq_free q' x = bq_free q x;
  bq_pop_over : forall q n, bq_ok q -> zlen (bq_bytes q) < n -> exists s, bq_pop q n = Panic s
}.

(** The operations a client performs. *)
Inductive qop := Push (m : chain) | Pop (n : Z).

Definition op_ok (o : qop) : Prop :=
  match o with Push m => Forall m_wf m | Pop n => 0 <= n end.

(** The abstract queue: a list of bytes; [None] when more is removed than there is. *)
Fixpoint fifo (l : list Z) (ops : list qop) : option (list Z) :=
  match ops with
  | [] => Some l
  | Push m :: ops => fifo (l ++ chain_bytes m) ops
  | Pop n :: ops => if n <=? zlen l then fifo (zdrop n l) ops else None
  end.

(** The references to cluster [x] that the pushed chains bring. *)
Definition pushed (x : Z) (ops : list qop) : Z :=
  foldr (fun o n => match o with Push m => refs x m + n | Pop _ => n end) 0 ops.

Section Client.
Context {Q : Type} `{ByteQueue Q}.

Fixpoint run (q : Q) (ops : list qop) : outcome Q :=
  match ops with
  | [] => Ret q
  | Push m :: ops => run (bq_push q m) ops
  | Pop n :: ops => let! q := bq_pop q n in run q ops
  end.

(** Every implementation of the interface refines the abstract queue. *)
Lemma run_refines ops : forall q, bq_ok q -> Forall op_ok ops ->
  match fifo (bq_bytes q) ops with
  | Some l => exists q', run q ops = Ret q' /\ bq_ok q' /\ bq_bytes q' = l /\
                forall x, bq_free q' x = bq_free q x - pushed x ops
  | None => exists s, run q ops = Panic s
  end.
Proof.
  induction ops as [|[m|n] ops IH]; intros q Hq Hops; simpl.
  { exists q. split_and!; try done. intros x. lia. }
  all: apply Forall_cons_iff in Hops as [Ho Hops]; simpl in Ho.
  - destruct (bq_push_ok q m Hq Ho) as (H1 & H2 & H3). specialize (IH _ H1 Hops). rewrite H2 in IH.
    destruct (fifo _ _) as [l|]; [|done]. destruct IH as (q' & E & I1 & I2 & I3).
    exists q'. split_and!; try done. intros x. rewrite I3, H3. lia.
  - destruct (Z.leb_spec n (zlen (bq_bytes q))) as [Hn|Hn].
    + destruct (bq_pop_ok q n Hq ltac:(lia)) as (q1 & -> & H1 & H2 & H3). simpl.
      specialize (IH _ H1 Hops). rewrite H2 in IH. destruct (fifo _ _) as [l|]; [|done].
      destruct IH as (q' & E & I1 & I2 & I3). exists q'. split_and!; try done. intros x. by rewrite I3, H3.
    + destruct (bq_pop_over q n Hq Hn) as [s ->]. by exists s.
Qed.

End Client.

(** ** The socket buffer *)

Lemma sb_push_ok (q : mpool * sockbuf) m :
  sb_inv q.2 -> Forall m_wf m ->
  let q' := sbappend q.1 q.2 m in
  sb_inv q'.2 /\ sb_bytes q'.2 = sb_bytes q.2 ++ chain_bytes m /\
  forall x, mclrefcnt q'.1 x - refs x (sb_chain q'.2) = mclrefcnt q.1 x - refs x (sb_chain q.2) - refs x m.
Proof.
  intros Hi Hw. destruct q as [p sb], (sbappend p sb m) as [p' sb'] eqn:E. simpl in *.
  rewrite E. apply sbappend_ok in E as [I B _ F]; [|done..]. rewrite app_nil_r in B. done.
Qed.

Lemma sb_pop_ok (q : mpool * sockbuf) n :
  sb_inv q.2 -> 0 <= n <= zlen (sb_bytes q.2) ->
  exists q', sbdrop q.1 q.2 n = Ret q' /\ sb_inv q'.2 /\ sb_bytes q'.2 = zdrop n (sb_bytes q.2) /\
    forall x, mclrefcnt q'.1 x - refs x (sb_chain q'.2) = mclrefcnt q.1 x - refs x (sb_chain q.2).
Proof.
  intros Hi Hn. destruct (sbdrop_ok q.1 q.2 n Hi Hn) as (p' & sb' & E & [I B _ F _ _]).
  by exists (p', sb').
Qed.

#[export] Instance sockbuf_queue : ByteQueue (mpool * sockbuf) := {
  bq_ok q := sb_inv q.2;
  bq_bytes q := sb_bytes q.2;
  bq_free q x := mclrefcnt q.1 x - refs x (sb_chain q.2);
  bq_push q m := sbappend q.1 q.2 m;
  bq_pop q n := sbdrop q.1 q.2 n;
  bq_push_ok := sb_push_ok;
  bq_pop_ok := sb_pop_ok;
  bq_pop_over q n _ H := ex_intro _ "sbdrop" (sbdrop_over q.1 q.2 n H)
}.

(** C32: a socket buffer is a FIFO of bytes: any sequence of sbappend and sbdrop calls
    on a buffer that satisfies the invariant ends with exactly the bytes that the
    same sequence leaves in a plain list (appended at the end, dropped from the
    front), keeps the counters sb_cc and sb_mbcnt right, and neither leaks nor
    duplicates a cluster reference; it panics exactly when some call drops more
    bytes than are queued. *)
Theorem sockbuf_refines_fifo p sb ops (Hsb : sb_inv sb) (Hops : Forall op_ok ops) :
  match fifo (sb_bytes sb) ops with
  | Some l => exists p' sb', run (p, sb) ops = Ret (p', sb') /\ sb_inv sb' /\ sb_bytes sb' = l /\
                forall x, mclrefcnt p' x - refs x (sb_chain sb') =
                          mclrefcnt p x - refs x (sb_chain sb) - pushed x ops
  | None => exists s, run (p, sb) ops = Panic s
  end.
Proof.
  pose proof (run_refines ops (p, sb) Hsb Hops) as H. simpl in H. destruct (fifo _ _); [|done].
  destruct H as ([p' sb'] & H). by exists p', sb'.
Qed.

Definition empty_sb : sockbuf := mkSb 0 8192 0 16384 1 [] 0.
Definition sample_ops : list qop := [Push sample_chain; Pop 3; Push sample_chain; Pop 5].

Lemma empty_sb_inv : sb_inv empty_sb.
Proof. by split. Qed.

Lemma sockbuf_refines_fifo_witness :
  exists p' sb', run (sample_pool, empty_sb) sample_ops = Ret (p', sb') /\ sb_inv sb' /\
    sb_bytes sb' = [3; 4; 5; 6] /\
    forall x, mclrefcnt p' x - refs x (sb_chain sb') =
              mclrefcnt sample_pool x - refs x (sb_chain empty_sb) - pushed x sample_ops.
Proof.
  apply (sockbuf_refines_fifo sample_pool empty_sb sample_ops empty_sb_inv).
  repeat constructor; vm_compute; intuition congruence.
Defined.

End ByteQueue.
