(* ===== verification/Socket.v ===== *)
(** Sockets (src/sys/kern/uipc_socket2.c, the state-change routines and the
    accept queues; struct socket of src/sys/sys/socketvar.h).

    [socket] is the part of struct socket that a protocol works on.  The sleep
    queues, select and SIGIO are outside the model: a routine that wakes the
    users of a buffer records the channel in [so_woken].  The accept queues link
    sockets with each other; [SoQueue] models them on a store of sockets and the
    connection-level routines keep in [so_inq] only which queue of its head the
    socket is on. *)

From S2P Require Import Prelude Mbuf SockBuf.
Import Mbuf SockBuf.
#[local] Open Scope Z_scope.

Module Socket.

Definition SS_NOFDREF : Z := 1.
Definition SS_ISCONNECTED : Z := 2.
Definition SS_ISCONNECTING : Z := 4.
Definition SS_ISDISCONNECTING : Z := 8.
Definition SS_CANTSENDMORE : Z := 16.
Definition SS_CANTRCVMORE : Z := 32.
Definition SS_RCVATMARK : Z := 64.
Definition SS_PRIV : Z := 128.
Definition SS_ASYNC : Z := 512.
Definition SS_ISCONFIRMING : Z := 1024.

Definition SO_DEBUG : Z := 1.
Definition SO_ACCEPTCONN : Z := 2.
Definition SO_REUSEADDR : Z := 4.
Definition SO_KEEPALIVE : Z := 8.
Definition SO_DONTROUTE : Z := 16.
Definition SO_BROADCAST : Z := 32.
Definition SO_LINGER : Z := 128.
Definition SO_OOBINLINE : Z := 256.
Definition SO_REUSEPORT : Z := 512.

Definition ENOBUFS : Z := 55.

(** Channels on which processes are woken. *)
Inductive wchan := W_rcv | W_snd | W_timeo | W_head | W_oob.
#[global] Instance wchan_eq_dec : EqDecision wchan.
Proof. solve_decision. Defined.

(** The queue of its head that a socket is on. *)
Inductive inq := Q_none | Q_incomplete | Q_complete.
#[global] Instance inq_eq_dec : EqDecision inq.
Proof. solve_decision. Defined.

Record socket := mkSocket {
  so_options : Z;
  so_linger : Z;
  so_state : Z;
  so_error : Z;
  so_oobmark : Z;
  so_rcv : sockbuf;
  so_snd : sockbuf;
  so_inq : inq;
  so_woken : list wchan
}.
Definition eta_socket (r : socket) : socket :=
  mkSocket (so_options r) (so_linger r) (so_state r) (so_error r) (so_oobmark r)
    (so_rcv r) (so_snd r) (so_inq r) (so_woken r).
#[global] Instance set_so_options : Setter so_options := ltac:(mk_setter eta_socket).
#[global] Instance set_so_linger : Setter so_linger := ltac:(mk_setter eta_socket).
#[global] Instance set_so_state : Setter so_state := ltac:(mk_setter eta_socket).
#[global] Instance set_so_error : Setter so_error := ltac:(mk_setter eta_socket).
#[global] Instance set_so_oobmark : Setter so_oobmark := ltac:(mk_setter eta_socket).
#[global] Instance set_so_rcv : Setter so_rcv := ltac:(mk_setter eta_socket).
#[global] Instance set_so_snd : Setter so_snd := ltac:(mk_setter eta_socket).
#[global] Instance set_so_inq : Setter so_inq := ltac:(mk_setter eta_socket).
#[global] Instance set_so_woken : Setter so_woken := ltac:(mk_setter eta_socket).

Definition wake (w : wchan) (so : socket) : socket := so <| so_woken := w :: so_woken so |>.

(** [sowakeup] clears the wait and select marks of the buffer. *)
Definition sowakeup (sb : sockbuf) : sockbuf :=
  let sb := sb <| sb_flags := clrb (sb_flags sb) SB_SEL |> in
  if hasf (sb_flags sb) SB_WAIT then sb <| sb_flags := clrb (sb_flags sb) SB_WAIT |> else sb.
Definition sorwakeup (so : socket) : socket := wake W_rcv (so <| so_rcv := sowakeup (so_rcv so) |>).
Definition sowwakeup (so : socket) : socket := wake W_snd (so <| so_snd := sowakeup (so_snd so) |>).

Definition soisconnecting (so : socket) : socket :=
  let so := so <| so_state := clrb (so_state so) (Z.lor SS_ISCONNECTED SS_ISDISCONNECTING) |> in
  so <| so_state := setb (so_state so) SS_ISCONNECTING |>.

(** [soisconnected]: a socket on its head's queue of incomplete connections moves
    to the queue of complete ones, and the head is woken instead of the socket. *)
Definition soisconnected (so : socket) : socket :=
  let so := so <| so_state := clrb (so_state so)
                 (Z.lor SS_ISCONNECTING (Z.lor SS_ISDISCONNECTING SS_ISCONFIRMING)) |> in
  let so := so <| so_state := setb (so_state so) SS_ISCONNECTED |> in
  if decide (so_inq so = Q_incomplete) then wake W_head (so <| so_inq := Q_complete |>)
  else sowwakeup (sorwakeup (wake W_timeo so)).

Definition soisdisconnecting (so : socket) : socket :=
  let so := so <| so_state := clrb (so_state so) SS_ISCONNECTING |> in
  let so := so <| so_state := setb (so_state so)
                 (Z.lor SS_ISDISCONNECTING (Z.lor SS_CANTRCVMORE SS_CANTSENDMORE)) |> in
  sorwakeup (sowwakeup (wake W_timeo so)).

Definition soisdisconnected (so : socket) : socket :=
  let so := so <| so_state := clrb (so_state so)
                 (Z.lor SS_ISCONNECTING (Z.lor SS_ISCONNECTED SS_ISDISCONNECTING)) |> in
  let so := so <| so_state := setb (so_state so) (Z.lor SS_CANTRCVMORE SS_CANTSENDMORE) |> in
  sorwakeup (sowwakeup (wake W_timeo so)).

Definition socantsendmore (so : socket) : socket :=
  sowwakeup (so <| so_state := setb (so_state so) SS_CANTSENDMORE |>).
Definition socantrcvmore (so : socket) : socket :=
  sorwakeup (so <| so_state := setb (so_state so) SS_CANTRCVMORE |>).

(** [soreserve]: the C result is 0 or ENOBUFS. *)
Definition soreserve (sb_max : Z) (p : mpool) (so : socket) (sndcc rcvcc : Z)
    : outcome (mpool * socket * Z) :=
  match sbreserve sb_max (so_snd so) sndcc with
  | (_, false) => Ret (p, so, ENOBUFS)
  | (snd, true) =>
      let so := so <| so_snd := snd |> in
      match sbreserve sb_max (so_rcv so) rcvcc with
      | (_, false) =>
          let! (p, snd) := sbrelease p (so_snd so) in
          Ret (p, so <| so_snd := snd |>, ENOBUFS)
      | (rcv, true) =>
          let rcv := if sb_lowat rcv =? 0 then rcv <| sb_lowat := 1 |> else rcv in
          let snd := so_snd so in
          let snd := if sb_lowat snd =? 0 then snd <| sb_lowat := MCLBYTES |> else snd in
          let snd := if u32 (sb_lowat snd) >? sb_hiwat snd
                     then snd <| sb_lowat := s32 (sb_hiwat snd) |> else snd in
          Ret (p, so <| so_rcv := rcv |> <| so_snd := snd |>, 0)
      end
  end.

(** ** What the routines keep *)

(** The parts of a buffer that a wakeup does not touch. *)
Definition sb_queue (sb : sockbuf) : Z * Z * Z * Z * Z * list chain :=
  (sb_cc sb, sb_hiwat sb, sb_mbcnt sb, sb_mbmax sb, sb_lowat sb, sb_mb sb).

Lemma sowakeup_queue sb : sb_queue (sowakeup sb) = sb_queue sb.
Proof. unfold sowakeup. by case_match. Qed.
Lemma sb_inv_queue sb sb' : sb_queue sb = sb_queue sb' -> sb_inv sb -> sb_inv sb'.
Proof.
  destruct sb, sb'. unfold sb_queue. simpl. intros E. simplify_eq. intros [C M R W]. by split.
Qed.

(** After a wakeup nobody is recorded as waiting on or selecting the buffer. *)
Lemma sowakeup_flags sb : hasf (sb_flags (sowakeup sb)) (Z.lor SB_WAIT SB_SEL) = false.
Proof.
  unfold sowakeup. rec_simpl. rewrite hasf_lor.
  destruct (hasf (clrb (sb_flags sb) SB_SEL) SB_WAIT) eqn:E; rec_simpl; rewrite ?E; by flags_simpl.
Qed.

(** The connection states of a socket exclude each other: each routine leaves the
    bits of the other states clear. *)
Definition so_conn_bits (so : socket) : bool * bool * bool :=
  (hasf (so_state so) SS_ISCONNECTING, hasf (so_state so) SS_ISCONNECTED,
   hasf (so_state so) SS_ISDISCONNECTING).

Lemma soisconnecting_bits so : so_conn_bits (soisconnecting so) = (true, false, false).
Proof. unfold so_conn_bits, soisconnecting. rec_simpl. by flags_simpl. Qed.
Lemma soisconnected_bits so : so_conn_bits (soisconnected so) = (false, true, false).
Proof.
  unfold so_conn_bits, soisconnected. case_decide; unfold sowwakeup, sorwakeup, wake;
    rec_simpl; by flags_simpl.
Qed.
Lemma soisdisconnected_bits so : so_conn_bits (soisdisconnected so) = (false, false, false).
Proof.
  unfold so_conn_bits, soisdisconnected, sowwakeup, sorwakeup, wake. rec_simpl. by flags_simpl.
Qed.

End Socket.
