(* ===== verification/SoQueue.v ===== *)
(** The accept queues of a listening socket (soqinsque, soqremque and the queue
    part of soisconnected and sonewconn1 in src/sys/kern/uipc_socket2.c).

    The queues are singly linked through the sockets themselves: [so_q0] of the
    head is the first incomplete connection and [so_q0] of a queued socket is the
    next one; [so_q] likewise for the complete connections.  The model is a store
    of sockets addressed by number, 0 being the null pointer.  The abstract view
    of a head is a pair of lists; the theorems say that each routine implements
    the list operation on one queue and does not disturb the other. *)
From stdpp Require Import list gmap.
From S2P Require Import Prelude.
#[local] Open Scope Z_scope.

Module SoQueue.

Record qsock := mkQ {
  so_head : Z;
  so_q0 : Z;
  so_q : Z;
  so_q0len : Z;
  so_qlen : Z;
  so_qlimit : Z
}.
Definition eta_qsock (r : qsock) : qsock :=
  mkQ (so_head r) (so_q0 r) (so_q r) (so_q0len r) (so_qlen r) (so_qlimit r).
#[global] Instance set_so_head : Setter so_head := ltac:(mk_setter eta_qsock).
#[global] Instance set_so_q0 : Setter so_q0 := ltac:(mk_setter eta_qsock).
#[global] Instance set_so_q : Setter so_q := ltac:(mk_setter eta_qsock).
#[global] Instance set_so_q0len : Setter so_q0len := ltac:(mk_setter eta_qsock).
#[global] Instance set_so_qlen : Setter so_qlen := ltac:(mk_setter eta_qsock).

Abbreviation store := (gmap Z qsock).

(** The link of queue [q]: [true] is [so_q], [false] is [so_q0]. *)
Definition link (q : bool) (r : qsock) : Z := if q then so_q r else so_q0 r.
Definition set_link (q : bool) (v : Z) (r : qsock) : qsock :=
  if q then r <| so_q := v |> else r <| so_q0 := v |>.
Definition qlen (q : bool) (r : qsock) : Z := if q then so_qlen r else so_q0len r.
Definition add_qlen (q : bool) (d : Z) (r : qsock) : qsock :=
  if q then r <| so_qlen := s16 (so_qlen r + d) |> else r <| so_q0len := s16 (so_q0len r + d) |>.

(** The loop that walks the links to the end of the queue: the socket whose
    link is null.  A link to a socket that is not in the store is a wild pointer. *)
Fixpoint find_tail (fuel : nat) (st : store) (q : bool) (prev : Z) : outcome Z :=
  match fuel with
  | O => OutOfFuel
  | S fuel =>
      match st !! prev with
      | None => Panic "bad pointer"
      | Some r => if link q r =? 0 then Ret prev else find_tail fuel st q (link q r)
      end
  end.

Definition soqinsque (st : store) (head so : Z) (q : bool) : outcome store :=
  let st := alter (setf so_head head) so st in
  let st := alter (add_qlen q 1) head st in
  let st := alter (set_link q 0) so st in
  let! prev := find_tail (size st) st q head in
  Ret (alter (set_link q so) prev st).

(** The loop of [soqremque]: the predecessor of [so], if [so] is on the queue. *)
Fixpoint find_prev (fuel : nat) (st : store) (q : bool) (so prev : Z) : outcome (option Z) :=
  match fuel with
  | O => OutOfFuel
  | S fuel =>
      match st !! prev with
      | None => Panic "bad pointer"
      | Some r =>
          if link q r =? so then Ret (Some prev)
          else if link q r =? 0 then Ret None
          else find_prev fuel st q so (link q r)
      end
  end.

Definition soqremque (st : store) (so : Z) (q : bool) : outcome (bool * store) :=
  match st !! so with
  | None => Panic "bad pointer"
  | Some r =>
      let head := so_head r in
      let! o := find_prev (size st) st q so head in
      match o with
      | None => Ret (false, st)
      | Some prev =>
          let st := alter (set_link q (link q r)) prev st in
          let st := alter (add_qlen q (-1)) head st in
          let st := alter (fun r => r <| so_q := 0 |> <| so_q0 := 0 |> <| so_head := 0 |>) so st in
          Ret (true, st)
      end
  end.

(** The queue part of [soisconnected]. *)
Definition soisconnected_queue (st : store) (so : Z) : outcome store :=
  match st !! so with
  | None => Panic "bad pointer"
  | Some r =>
      if so_head r =? 0 then Ret st
      else
        let! (b, st') := soqremque st so false in
        if b then soqinsque st' (so_head r) so true else Ret st'
  end.

(** The limit check of [sonewconn1]. *)
Definition sonewconn_full (r : qsock) : bool :=
  so_qlen r + so_q0len r >? Z.quot (3 * so_qlimit r) 2.

(** ** The abstract view *)

Definition next (st : store) (q : bool) (p : Z) : option Z := link q <$> st !! p.

(** The links of queue [q] from [p] on lead through [l] and end. *)
Fixpoint linked (st : store) (q : bool) (p : Z) (l : list Z) : Prop :=
  match l with
  | [] => next st q p = Some 0
  | x :: l' => next st q p = Some x /\ x <> 0 /\ linked st q x l'
  end.

(** Queue [q] of socket [head] is the list [l]. *)
Record is_queue (st : store) (q : bool) (head : Z) (l : list Z) : Prop := {
  iq_linked : linked st q head l;
  iq_nodup : NoDup (head :: l);
  iq_len : (qlen q <$> st !! head) = Some (zlen l)
}.

Fixpoint lastp (p : Z) (l : list Z) : Z :=
  match l with [] => p | x :: l' => lastp x l' end.

Lemma lastp_in p l : lastp p l ∈ p :: l.
Proof.
  revert p. induction l as [|x l IH]; intros p; [by left|]. simpl. right. apply IH.
Qed.
Lemma linked_dom st q p l : linked st q p l -> forall y, y ∈ p :: l -> is_Some (st !! y).
Proof.
  revert p. induction l as [|x l IH]; intros p Hl y Hy.
  - apply list_elem_of_singleton in Hy as ->. simpl in Hl. unfold next in Hl.
    destruct (st !! p); [eauto|done].
  - destruct Hl as (Hp & _ & Hl). apply elem_of_cons in Hy as [->|Hy]; [|by eapply IH].
    unfold next in Hp. destruct (st !! p); [eauto|done].
Qed.

(** The length of a queue is less than the number of sockets, so the loops have
    the fuel they need. *)
Lemma queue_size st q p l : linked st q p l -> NoDup (p :: l) -> (length l < size st)%nat.
Proof.
  intros Hl Hn. pose proof (linked_dom _ _ _ _ Hl) as Hd.
  assert ((list_to_set (p :: l) : gset Z) ⊆ dom st) as Hs.
  { intros y Hy. apply elem_of_list_to_set in Hy. apply elem_of_dom. auto. }
  apply subseteq_size in Hs. rewrite size_list_to_set in Hs by done. rewrite size_dom in Hs. simpl in Hs. lia.
Qed.

Lemma linked_frame st st' q p l :
  (forall y, y ∈ p :: l -> next st' q y = next st q y) -> linked st q p l -> linked st' q p l.
Proof.
  revert p. induction l as [|x l IH]; intros p Hf Hl; simpl in *.
  - rewrite Hf; [done|by left].
  - destruct Hl as (Hp & Hx & Hl). rewrite Hf by by left. split_and!; try done.
    apply IH; [|done]. intros y Hy. apply Hf. by right.
Qed.

Lemma find_tail_ok fuel st q p l :
  linked st q p l -> (length l < fuel)%nat -> find_tail fuel st q p = Ret (lastp p l).
Proof.
  revert fuel p. induction l as [|x l IH]; intros fuel p Hl Hf; (destruct fuel as [|fuel]; [simpl in Hf; lia|]);
    simpl in *; unfold next in Hl.
  - destruct (st !! p) as [r|]; simpl in Hl; simplify_eq. rewrite Hl. done.
  - destruct Hl as (Hp & Hx & Hl). destruct (st !! p) as [r|]; simpl in Hp; simplify_eq.
    destruct (Z.eqb_spec (link q r) 0); [done|]. apply IH; [done|lia].
Qed.

Lemma find_prev_in fuel st q so p l1 l2 :
  linked st q p (l1 ++ so :: l2) -> so ∉ l1 -> (length l1 < fuel)%nat ->
  find_prev fuel st q so p = Ret (Some (lastp p l1)).
Proof.
  revert fuel p. induction l1 as [|x l IH]; intros fuel p Hl Hn Hf; (destruct fuel as [|fuel]; [simpl in Hf; lia|]);
    simpl in *; unfold next in Hl; destruct Hl as (Hp & Hx & Hl);
    destruct (st !! p) as [r|]; simpl in Hp; simplify_eq.
  - by rewrite Z.eqb_refl.
  - apply not_elem_of_cons in Hn as [Hn1 Hn].
    destruct (Z.eqb_spec (link q r) so); [congruence|].
    destruct (Z.eqb_spec (link q r) 0); [done|]. apply IH; [done|done|lia].
Qed.
Lemma find_prev_out fuel st q so p l :
  linked st q p l -> so ∉ l -> so <> 0 -> (length l < fuel)%nat ->
  find_prev fuel st q so p = Ret None.
Proof.
  revert fuel p. induction l as [|x l IH]; intros fuel p Hl Hn H0 Hf; (destruct fuel as [|fuel]; [simpl in Hf; lia|]);
    simpl in *; unfold next in Hl.
  - destruct (st !! p) as [r|]; simpl in Hl; simplify_eq. rewrite Hl.
    destruct (Z.eqb_spec 0 so); [congruence|done].
  - destruct Hl as (Hp & Hx & Hl). destruct (st !! p) as [r|]; simpl in Hp; simplify_eq.
    apply not_elem_of_cons in Hn as [Hn1 Hn].
    destruct (Z.eqb_spec (link q r) so); [congruence|].
    destruct (Z.eqb_spec (link q r) 0); [done|]. apply IH; [done|done|done|lia].
Qed.

(** Appending [so]: only the link of the last socket and of [so] change. *)
Lemma linked_snoc st st' q p l so :
  linked st q p l -> NoDup (p :: l) -> so <> 0 ->
  next st' q so = Some 0 -> next st' q (lastp p l) = Some so ->
  (forall y, y ∈ p :: l -> y <> lastp p l -> next st' q y = next st q y) ->
  linked st' q p (l ++ [so]).
Proof.
  revert p. induction l as [|x l IH]; intros p Hl Hn H0 Hso Hlast Hf; simpl in *; [done|].
  destruct Hl as (Hp & Hx & Hl). apply list.NoDup_cons in Hn as [Hpn Hn].
  split_and!; [|done|].
  - rewrite Hf; [done|by left|]. intros ->. apply Hpn. apply lastp_in.
  - apply IH; try done. intros y Hy. apply Hf. by right.
Qed.

(** Unlinking [so]: the link of its predecessor becomes the link of [so]. *)
Lemma linked_remove st st' q p l1 so l2 :
  linked st q p (l1 ++ so :: l2) -> NoDup (p :: l1 ++ so :: l2) ->
  next st' q (lastp p l1) = next st q so ->
  (forall y, y ∈ p :: l1 ++ l2 -> y <> lastp p l1 -> next st' q y = next st q y) ->
  linked st' q p (l1 ++ l2).
Proof.
  revert p. induction l1 as [|x l IH]; intros p Hl Hn Hlast Hf; simpl in *.
  - destruct Hl as (Hp & Hx & Hl). apply list.NoDup_cons in Hn as [Hpn Hn].
    destruct l2 as [|y l2]; simpl in *; [congruence|].
    destruct Hl as (Hs & Hy & Hl). split_and!; [congruence|done|].
    apply (linked_frame st); [|done]. intros z Hz. apply Hf; [by right|]. intros ->. apply Hpn.
    by right.
  - destruct Hl as (Hp & Hx & Hl). apply list.NoDup_cons in Hn as [Hpn Hn]. split_and!; [|done|].
    + rewrite Hf; [done|by left|]. intros ->. apply Hpn. pose proof (lastp_in x l) as Hin.
      rewrite !elem_of_cons, !elem_of_app in *. tauto.
    + apply IH; try done. intros y Hy. apply Hf. by right.
Qed.

(** ** Links after an update of the store *)

Lemma next_same f i st q y : (forall r, link q (f r) = link q r) -> next (alter f i st) q y = next st q y.
Proof.
  intros Hf. unfold next. destruct (decide (y = i)) as [->|Hne].
  - rewrite lookup_alter_eq. destruct (st !! i); simpl; [by rewrite Hf|done].
  - by rewrite lookup_alter_ne by done.
Qed.
Lemma next_ne f i st q y : y <> i -> next (alter f i st) q y = next st q y.
Proof. intros. unfold next. by rewrite lookup_alter_ne by done. Qed.
Lemma next_eq f i st q : is_Some (st !! i) -> 
  exists r, st !! i = Some r /\ next (alter f i st) q i = Some (link q (f r)).
Proof. intros [r Hr]. exists r. unfold next. by rewrite lookup_alter_eq, Hr. Qed.

Lemma head_same {A} (g : qsock -> A) f i (st : store) (y : Z) :
  (forall r, g (f r) = g r) -> g <$> alter f i st !! y = g <$> st !! y.
Proof.
  intros Hf. destruct (decide (y = i)) as [->|Hne].
  - rewrite lookup_alter_eq. destruct (st !! i); simpl; [by rewrite Hf|done].
  - by rewrite lookup_alter_ne by done.
Qed.
Lemma head_ne {A} (g : qsock -> A) f i (st : store) (y : Z) : y <> i -> g <$> alter f i st !! y = g <$> st !! y.
Proof. intros. by rewrite lookup_alter_ne by done. Qed.

Lemma link_set_link q v r : link q (set_link q v r) = v.
Proof. by destruct q. Qed.
Lemma link_set_other q v r : link (negb q) (set_link q v r) = link (negb q) r.
Proof. by destruct q. Qed.
Lemma link_add_qlen q q' d r : link q (add_qlen q' d r) = link q r.
Proof. by destruct q, q'. Qed.
Lemma qlen_set_link q q' v r : qlen q (set_link q' v r) = qlen q r.
Proof. by destruct q, q'. Qed.
Lemma qlen_add_qlen q d r : qlen q (add_qlen q d r) = s16 (qlen q r + d).
Proof. by destruct q. Qed.
Lemma qlen_add_other q d r : qlen (negb q) (add_qlen q d r) = qlen (negb q) r.
Proof. by destruct q. Qed.
Lemma link_so_head q v r : link q (r <| so_head := v |>) = link q r.
Proof. by destruct q. Qed.

Lemma is_queue_frame st st' q head l :
  (forall y, y ∈ head :: l -> next st' q y = next st q y) ->
  (qlen q <$> st' !! head) = (qlen q <$> st !! head) ->
  is_queue st q head l -> is_queue st' q head l.
Proof.
  intros Hf Hl [L N E]. split; [by eapply linked_frame|done|by rewrite Hl].
Qed.

(** [soqinsque] appends the socket to the queue and leaves the other queue of
    every head as it was. *)
Lemma soqinsque_ok st head so q l :
  is_queue st q head l -> so ∉ head :: l -> so <> 0 -> is_Some (st !! so) -> zlen l < 32767 ->
  exists st', soqinsque st head so q = Ret st' /\ is_queue st' q head (l ++ [so]) /\
    (so_head <$> st' !! so) = Some head /\ is_Some (st' !! so) /\
    (forall h k, is_queue st (negb q) h k -> is_queue st' (negb q) h k).
Proof.
  intros [L N E] Hso H0 Hs Hl. unfold soqinsque.
  set (st1 := alter (set_link q 0) so _).
  assert (Hne : forall y, y ∈ head :: l -> y <> so) by (intros y Hy ->; done).
  assert (Hn1 : forall y, y ∈ head :: l -> next st1 q y = next st q y).
  { intros y Hy. unfold st1. rewrite next_ne by auto. rewrite !next_same; [done| |];
      intros; [apply link_so_head|apply link_add_qlen]. }
  assert (L1 : linked st1 q head l) by (by apply (linked_frame st)).
  rewrite (find_tail_ok _ _ _ _ _ L1) by (by eapply queue_size). simpl.
  eexists. split; [done|].
  assert (Hlast : lastp head l <> so) by (apply Hne, lastp_in).
  assert (Hlen : (qlen q <$> st1 !! head) = Some (zlen l + 1)).
  { unfold st1. rewrite head_ne by (intros ->; apply Hso; by left).
    rewrite lookup_alter_eq, lookup_alter_ne by (intros ->; apply Hso; by left).
    destruct (st !! head); simpl in *; simplify_eq. rewrite qlen_add_qlen, E, s16_id; [done|zlen_pose; lia]. }
  split_and!; [split| | |].
  - apply (linked_snoc st1); try done.
    + rewrite next_ne by done. unfold st1.
      destruct (next_eq (set_link q 0) so (alter (add_qlen q 1) head (alter (setf so_head head) so st)) q)
        as (r & _ & ->); [|by rewrite link_set_link].
      by rewrite !lookup_alter_is_Some.
    + destruct (next_eq (set_link q so) (lastp head l) st1 q) as (r & _ & ->); [|by rewrite link_set_link].
      eapply linked_dom; [done|apply lastp_in].
    + intros y Hy Hyl. by rewrite next_ne.
  - rewrite app_comm_cons. apply list.NoDup_app. split_and!; [done| |apply NoDup_singleton].
    intros y Hy ->%list_elem_of_singleton. done.
  - rewrite head_same by (intros; apply qlen_set_link). rewrite Hlen. f_equal. zlen_lia.
  - rewrite head_ne by done. unfold st1.
    rewrite lookup_alter_eq, lookup_alter_ne by (intros ->; apply Hso; by left).
    rewrite lookup_alter_eq. destruct Hs as [r ->]. by destruct q.
  - unfold st1. by rewrite !lookup_alter_is_Some.
  - intros h k. apply is_queue_frame; unfold st1.
    + intros y _. rewrite !next_same; auto using link_so_head, link_add_qlen, link_set_other.
    + rewrite !head_same; auto using qlen_set_link, qlen_add_other.
Qed.

(** [soqremque] of a socket on the queue: it is unlinked, the order of the others
    is kept, and queues of the other kind that do not hold it are unchanged. *)
Lemma soqremque_in st head so q l1 l2 :
  is_queue st q head (l1 ++ so :: l2) -> (so_head <$> st !! so) = Some head ->
  zlen (l1 ++ so :: l2) <= 32767 ->
  exists st', soqremque st so q = Ret (true, st') /\ is_queue st' q head (l1 ++ l2) /\
    is_Some (st' !! so) /\
    (forall h k, so ∉ h :: k -> is_queue st (negb q) h k -> is_queue st' (negb q) h k).
Proof.
  intros [L N E] Hh Hl. unfold soqremque.
  destruct (st !! so) as [r|] eqn:Er; simpl in Hh; simplify_eq. set (head := so_head r) in *.
  apply list.NoDup_cons in N as [Nh N]. pose proof N as N'. apply list.NoDup_app in N' as (N1 & N12 & N2).
  apply list.NoDup_cons in N2 as [Ns N2]. rewrite not_elem_of_app, not_elem_of_cons in Nh.
  assert (Hs1 : so ∉ l1) by (intros Hs; apply (N12 _ Hs); by left).
  assert (Hlast : lastp head l1 <> so).
  { pose proof (lastp_in head l1) as Hi. intros Heq. rewrite Heq in Hi.
    apply elem_of_cons in Hi as [->|?]; [tauto|done]. }
  rewrite (find_prev_in _ _ _ _ _ _ _ L Hs1).
  2: { pose proof (queue_size _ _ _ _ L) as Hq. rewrite length_app in Hq.
       assert (NoDup (head :: l1 ++ so :: l2)) as Hnd by (by apply list.NoDup_cons; rewrite not_elem_of_app, not_elem_of_cons).
       specialize (Hq Hnd). lia. }
  simpl. eexists. split; [done|]. split_and!; [split| |].
  - eapply (linked_remove st); [done|apply list.NoDup_cons; by rewrite not_elem_of_app, not_elem_of_cons| |].
    + rewrite next_ne by done. rewrite next_same by (intros; apply link_add_qlen).
      destruct (next_eq (set_link q (link q r)) (lastp head l1) st q) as (r' & _ & ->).
      { eapply linked_dom; [done|]. pose proof (lastp_in head l1). rewrite app_comm_cons. apply elem_of_app. by left. }
      rewrite link_set_link. unfold next. by rewrite Er.
    + intros y Hy Hyl. assert (y <> so).
      { intros ->. rewrite app_comm_cons, elem_of_app, elem_of_cons in Hy. destruct Hy as [[Hy|?]|?]; [rewrite Hy in Nh; tauto|done|done]. }
      rewrite next_ne by done. rewrite next_same by (intros; apply link_add_qlen). by apply next_ne.
  - apply list.NoDup_cons. rewrite not_elem_of_app. split; [tauto|]. apply list.NoDup_app.
    split_and!; try done. intros y Hy Hy2. apply (N12 y Hy). by right.
  - rewrite head_ne by (intros ->; tauto). rewrite lookup_alter_eq.
    destruct (decide (lastp head l1 = head)) as [->|Hd];
      [rewrite lookup_alter_eq|rewrite lookup_alter_ne by done];
      destruct (st !! head) as [rh|]; simpl in *; simplify_eq;
      rewrite qlen_add_qlen, ?qlen_set_link, E; f_equal;
      rewrite s16_id; zlen_lia.
  - rewrite !lookup_alter_is_Some. by rewrite Er.
  - intros h k Hk. apply is_queue_frame.
    + intros y Hy. assert (y <> so) by (intros ->; done). rewrite next_ne by done.
      rewrite !next_same; auto using link_add_qlen, link_set_other.
    + rewrite !head_same; auto using qlen_set_link, qlen_add_other.
Qed.

Lemma soqremque_out st head so q l :
  is_queue st q head l -> (so_head <$> st !! so) = Some head -> so ∉ l -> so <> 0 ->
  soqremque st so q = Ret (false, st).
Proof.
  intros [L N E] Hh Hn H0. unfold soqremque. destruct (st !! so) as [r|]; simpl in Hh; simplify_eq.
  rewrite (find_prev_out _ _ _ _ _ _ L Hn H0); [done|by eapply queue_size].
Qed.

(** soqremque unlinks a socket from a queue of its head wherever it stands: it
    returns true, the queue is the old one without the socket, in the same order and
    with its length counter decremented, and every queue of the other kind that the
    socket is not on is untouched; for a socket that is not on the queue it returns
    false and changes nothing. *)
Theorem soqremque_correct st head so q l :
  is_queue st q head l -> (so_head <$> st !! so) = Some head -> so <> 0 -> zlen l <= 32767 ->
  (forall l1 l2, l = l1 ++ so :: l2 ->
    exists st', soqremque st so q = Ret (true, st') /\ is_queue st' q head (l1 ++ l2) /\
      forall h k, so ∉ h :: k -> is_queue st (negb q) h k -> is_queue st' (negb q) h k) /\
  (so ∉ l -> soqremque st so q = Ret (false, st)).
Proof.
  intros Hq Hh H0 Hl. split; [|intros; by eapply soqremque_out].
  intros l1 l2 ->. destruct (soqremque_in st head so q l1 l2) as (st' & E & H & _ & Hf); [done..|].
  by exists st'.
Qed.

(** A listening socket 1 with the incomplete queue 2, 3 and the complete queue 4. *)
Definition sample_store : store :=
  list_to_map [(1, mkQ 0 2 4 2 1 5); (2, mkQ 1 3 0 0 0 0); (3, mkQ 1 0 0 0 0 0); (4, mkQ 1 0 0 0 0 0)].

Lemma sample_q0 : is_queue sample_store false 1 [2; 3].
Proof. split; [vm_compute; intuition congruence|by apply (bool_decide_unpack _)|reflexivity]. Qed.
Lemma sample_q : is_queue sample_store true 1 [4].
Proof. split; [vm_compute; intuition congruence|by apply (bool_decide_unpack _)|reflexivity]. Qed.

Lemma soqremque_witness :
  exists st', soqremque sample_store 2 false = Ret (true, st') /\ is_queue st' false 1 [3] /\
    forall h k, 2 ∉ h :: k -> is_queue sample_store (negb false) h k -> is_queue st' (negb false) h k.
Proof.
  apply (soqremque_correct sample_store 1 2 false [2; 3] sample_q0) with (l1 := []); [reflexivity|lia|vm_compute; congruence|reflexivity].
Defined.

(** when a connection is established soisconnected moves its socket from the
    incomplete to the complete queue of the listening socket: both queues keep the
    order of the other sockets, the socket is the last of the complete queue, so
    accept takes connections in the order in which they completed, and the counters
    agree with the queues. *)
Theorem soisconnected_moves st head so l1 l2 l :
  is_queue st false head (l1 ++ so :: l2) -> is_queue st true head l ->
  (so_head <$> st !! so) = Some head -> so ∉ l -> head <> 0 -> so <> 0 ->
  zlen (l1 ++ so :: l2) <= 32767 -> zlen l < 32767 ->
  exists st', soisconnected_queue st so = Ret st' /\
    is_queue st' false head (l1 ++ l2) /\ is_queue st' true head (l ++ [so]) /\
    (so_head <$> st' !! so) = Some head.
Proof.
  intros H0 Hq Hh Hn Hhd Hso Hl0 Hl. unfold soisconnected_queue.
  destruct (soqremque_in _ _ _ _ _ _ H0 Hh Hl0) as (st1 & E1 & H1 & Hs1 & Ho1).
  destruct (st !! so) as [r|]; simpl in Hh; simplify_eq.
  assert (so ∉ so_head r :: l) as Hni.
  { apply not_elem_of_cons. split; [|done]. intros ->.
    pose proof (iq_nodup _ _ _ _ H0) as [Hd _]%list.NoDup_cons. apply Hd.
    apply elem_of_app. right. by left. }
  destruct (Z.eqb_spec (so_head r) 0); [done|]. rewrite E1. simpl.
  destruct (soqinsque_ok st1 (so_head r) so true l) as (st2 & -> & H2 & Hh2 & _ & Ho2);
    [by apply (Ho1 (so_head r) l)|done|done|done|done|].
  eexists. split_and!; try done. by apply (Ho2 _ _ H1).
Qed.

Lemma soisconnected_moves_witness :
  exists st', soisconnected_queue sample_store 2 = Ret st' /\
    is_queue st' false 1 [3] /\ is_queue st' true 1 [4; 2] /\ (so_head <$> st' !! 2) = Some 1.
Proof.
  apply (soisconnected_moves sample_store 1 2 [] [3] [4] sample_q0 sample_q);
    [reflexivity|by apply (bool_decide_unpack _)|lia|lia|vm_compute; congruence|vm_compute; congruence].
Defined.

End SoQueue.
