(* ===== verification/TcpVar.v ===== *)
(** The data of the TCP protocol: states, header fields, the control block and
    the state a connection works on (src/sys/netinet/tcp_var.h, tcp_fsm.h,
    tcp_timer.h, tcp.h, tcpip.h, ip_var.h, in_pcb.h).

    [kst] is what a TCP routine reads and writes for one connection: its control
    block [tp], its internet pcb [inp], its socket [so], the global variables of
    the protocol, the mbuf pool, and two ends that stand for code outside TCP:
    [sent] records the calls of ip_output and [ip_err] supplies their results.
    The statistics counters (tcpstat) and the debugging trace are not modelled. *)
From S2P Require Import Prelude TcpSeq Mbuf SockBuf Socket.
Import Mbuf SockBuf Socket.

Module TcpVar.

(** ** Constants *)

Definition TH_FIN : Z := 1.
Definition TH_SYN : Z := 2.
Definition TH_RST : Z := 4.
Definition TH_PUSH : Z := 8.
Definition TH_ACK : Z := 16.
Definition TH_URG : Z := 32.

Definition TF_ACKNOW : Z := 1.
Definition TF_DELACK : Z := 2.
Definition TF_NODELAY : Z := 4.
Definition TF_NOOPT : Z := 8.
Definition TF_SENTFIN : Z := 16.
Definition TF_REQ_SCALE : Z := 32.
Definition TF_RCVD_SCALE : Z := 64.
Definition TF_REQ_TSTMP : Z := 128.
Definition TF_RCVD_TSTMP : Z := 256.
Definition TF_SACK_PERMIT : Z := 512.

Definition TCPOOB_HAVEDATA : Z := 1.
Definition TCPOOB_HADDATA : Z := 2.

Definition PR_SLOWHZ : Z := 2.
Definition TCPTV_MSL : Z := 60.
Definition TCPTV_SRTTBASE : Z := 0.
Definition TCPTV_SRTTDFLT : Z := 6.
Definition TCPTV_PERSMIN : Z := 10.
Definition TCPTV_PERSMAX : Z := 120.
Definition TCPTV_KEEP_INIT : Z := 150.
Definition TCPTV_MIN : Z := 2.
Definition TCPTV_REXMTMAX : Z := 128.
Definition TCP_MAXRXTSHIFT : Z := 12.
Definition TCP_LINGERTIME : Z := 120.
Definition TCP_RTT_SHIFT : Z := 3.
Definition TCP_RTT_SCALE : Z := 8.
Definition TCP_RTTVAR_SHIFT : Z := 2.
Definition TCP_RTTVAR_SCALE : Z := 4.
Definition TCP_MAXWIN : Z := 65535.
Definition TCP_MAX_WINSHIFT : Z := 14.
Definition TCP_PAWS_IDLE : Z := 4147200.      (* 24 * 24 * 60 * 60 * PR_SLOWHZ *)

Definition TCPOPT_EOL : Z := 0.
Definition TCPOPT_NOP : Z := 1.
Definition TCPOPT_MAXSEG : Z := 2.
Definition TCPOPT_WINDOW : Z := 3.
Definition TCPOPT_TIMESTAMP : Z := 8.
Definition TCPOLEN_MAXSEG : Z := 4.
Definition TCPOLEN_WINDOW : Z := 3.
Definition TCPOLEN_TIMESTAMP : Z := 10.
Definition TCPOLEN_TSTAMP_APPA : Z := 12.
Definition TCPOPT_TSTAMP_HDR : Z := 16844810.

Definition sizeof_tcpiphdr : Z := 40.
Definition sizeof_tcphdr : Z := 20.
Definition sizeof_ip : Z := 20.

Definition EINVAL : Z := 22.
Definition ENETDOWN : Z := 50.
Definition ENETUNREACH : Z := 51.
Definition ECONNRESET : Z := 54.
Definition EISCONN : Z := 56.
Definition ETIMEDOUT : Z := 60.
Definition ECONNREFUSED : Z := 61.
Definition EHOSTDOWN : Z := 64.
Definition EHOSTUNREACH : Z := 65.

(** ** The finite state machine (tcp_fsm.h) *)

Inductive tcp_state :=
| TCPS_CLOSED | TCPS_LISTEN | TCPS_SYN_SENT | TCPS_SYN_RECEIVED | TCPS_ESTABLISHED
| TCPS_CLOSE_WAIT | TCPS_FIN_WAIT_1 | TCPS_CLOSING | TCPS_LAST_ACK | TCPS_FIN_WAIT_2
| TCPS_TIME_WAIT.
#[global] Instance tcp_state_eq_dec : EqDecision tcp_state.
Proof. solve_decision. Defined.

(** The number of a state: the code compares states by it. *)
Definition st (s : tcp_state) : Z :=
  match s with
  | TCPS_CLOSED => 0 | TCPS_LISTEN => 1 | TCPS_SYN_SENT => 2 | TCPS_SYN_RECEIVED => 3
  | TCPS_ESTABLISHED => 4 | TCPS_CLOSE_WAIT => 5 | TCPS_FIN_WAIT_1 => 6 | TCPS_CLOSING => 7
  | TCPS_LAST_ACK => 8 | TCPS_FIN_WAIT_2 => 9 | TCPS_TIME_WAIT => 10
  end.
Definition st_eqb (a b : tcp_state) : bool := bool_decide (a = b).

Definition TCPS_HAVERCVDSYN (s : tcp_state) : bool := st s >=? st TCPS_SYN_RECEIVED.
Definition TCPS_HAVERCVDFIN (s : tcp_state) : bool := st s >=? st TCPS_TIME_WAIT.

Definition tcp_outflags (s : tcp_state) : Z :=
  match s with
  | TCPS_CLOSED => Z.lor TH_RST TH_ACK
  | TCPS_LISTEN => 0
  | TCPS_SYN_SENT => TH_SYN
  | TCPS_SYN_RECEIVED => Z.lor TH_SYN TH_ACK
  | TCPS_ESTABLISHED | TCPS_CLOSE_WAIT => TH_ACK
  | TCPS_FIN_WAIT_1 | TCPS_CLOSING | TCPS_LAST_ACK => Z.lor TH_FIN TH_ACK
  | TCPS_FIN_WAIT_2 | TCPS_TIME_WAIT => TH_ACK
  end.

(** ** Headers and queued segments *)

(** struct tcpiphdr, in host byte order; [ti_next], [ti_prev], [ti_x1] and [ti_x2]
    are zero on every path that reads them and [ti_pr] is IPPROTO_TCP. *)
Record tcpiphdr := mkTi {
  ti_len : Z;   (* short *)
  ti_src : Z;
  ti_dst : Z;
  ti_sport : Z;
  ti_dport : Z;
  ti_seq : Z;
  ti_ack : Z;
  ti_off : Z;
  ti_flags : Z;
  ti_win : Z;
  ti_sum : Z;
  ti_urp : Z
}.
Definition eta_tcpiphdr (r : tcpiphdr) : tcpiphdr :=
  mkTi (ti_len r) (ti_src r) (ti_dst r) (ti_sport r) (ti_dport r) (ti_seq r) (ti_ack r)
    (ti_off r) (ti_flags r) (ti_win r) (ti_sum r) (ti_urp r).
#[global] Instance set_ti_len : Setter ti_len := ltac:(mk_setter eta_tcpiphdr).
#[global] Instance set_ti_src : Setter ti_src := ltac:(mk_setter eta_tcpiphdr).
#[global] Instance set_ti_dst : Setter ti_dst := ltac:(mk_setter eta_tcpiphdr).
#[global] Instance set_ti_sport : Setter ti_sport := ltac:(mk_setter eta_tcpiphdr).
#[global] Instance set_ti_dport : Setter ti_dport := ltac:(mk_setter eta_tcpiphdr).
#[global] Instance set_ti_seq : Setter ti_seq := ltac:(mk_setter eta_tcpiphdr).
#[global] Instance set_ti_ack : Setter ti_ack := ltac:(mk_setter eta_tcpiphdr).
#[global] Instance set_ti_off : Setter ti_off := ltac:(mk_setter eta_tcpiphdr).
#[global] Instance set_ti_flags : Setter ti_flags := ltac:(mk_setter eta_tcpiphdr).
#[global] Instance set_ti_win : Setter ti_win := ltac:(mk_setter eta_tcpiphdr).
#[global] Instance set_ti_sum : Setter ti_sum := ltac:(mk_setter eta_tcpiphdr).
#[global] Instance set_ti_urp : Setter ti_urp := ltac:(mk_setter eta_tcpiphdr).

(** A segment on the sequencing queue: its header and its mbuf chain
    (REASS_MBUF). *)
Record seg := mkSeg { sg_ti : tcpiphdr; sg_m : chain }.

(** A call of ip_output: the header as it was checksummed, the options and the
    data it was built from, the chain, the IP fields TCP sets and the arguments. *)
Record packet := mkPkt {
  pk_ti : tcpiphdr;
  pk_opt : list Z;
  pk_data : list Z;
  pk_m : chain;
  pk_iplen : Z;
  pk_ttl : Z;
  pk_tos : Z;
  pk_ipopts : list Z;
  pk_flags : Z
}.

(** ** Routes and protocol control blocks *)

Definition RTV_SSTHRESH : Z := 32.
Definition RTV_RTT : Z := 64.
Definition RTV_RTTVAR : Z := 128.
Definition RTM_RTTUNIT : Z := 1000000.
Definition INADDR_ANY : Z := 0.

(** The metrics of a cached route (struct rt_metrics) and what TCP reads of its
    interface and key. *)
Record rtentry := mkRt {
  rmx_locks : Z;
  rmx_mtu : Z;
  rmx_recvpipe : Z;
  rmx_sendpipe : Z;
  rmx_ssthresh : Z;
  rmx_rtt : Z;
  rmx_rttvar : Z;
  rt_ifmtu : Z;   (* rt_ifp->if_mtu *)
  rt_key : Z   (* the address of rt_key(rt) *)
}.
Definition eta_rtentry (r : rtentry) : rtentry :=
  mkRt (rmx_locks r) (rmx_mtu r) (rmx_recvpipe r) (rmx_sendpipe r) (rmx_ssthresh r) (rmx_rtt r)
    (rmx_rttvar r) (rt_ifmtu r) (rt_key r).
#[global] Instance set_rmx_locks : Setter rmx_locks := ltac:(mk_setter eta_rtentry).
#[global] Instance set_rmx_mtu : Setter rmx_mtu := ltac:(mk_setter eta_rtentry).
#[global] Instance set_rmx_recvpipe : Setter rmx_recvpipe := ltac:(mk_setter eta_rtentry).
#[global] Instance set_rmx_sendpipe : Setter rmx_sendpipe := ltac:(mk_setter eta_rtentry).
#[global] Instance set_rmx_ssthresh : Setter rmx_ssthresh := ltac:(mk_setter eta_rtentry).
#[global] Instance set_rmx_rtt : Setter rmx_rtt := ltac:(mk_setter eta_rtentry).
#[global] Instance set_rmx_rttvar : Setter rmx_rttvar := ltac:(mk_setter eta_rtentry).
#[global] Instance set_rt_ifmtu : Setter rt_ifmtu := ltac:(mk_setter eta_rtentry).
#[global] Instance set_rt_key : Setter rt_key := ltac:(mk_setter eta_rtentry).

Record inpcb := mkInp {
  inp_faddr : Z;
  inp_fport : Z;
  inp_laddr : Z;
  inp_lport : Z;
  inp_route : option rtentry;
  inp_options : list Z;
  inp_ttl : Z;   (* inp_ip.ip_ttl *)
  inp_tos : Z   (* inp_ip.ip_tos *)
}.
Definition eta_inpcb (r : inpcb) : inpcb :=
  mkInp (inp_faddr r) (inp_fport r) (inp_laddr r) (inp_lport r) (inp_route r) (inp_options r)
    (inp_ttl r) (inp_tos r).
#[global] Instance set_inp_faddr : Setter inp_faddr := ltac:(mk_setter eta_inpcb).
#[global] Instance set_inp_fport : Setter inp_fport := ltac:(mk_setter eta_inpcb).
#[global] Instance set_inp_laddr : Setter inp_laddr := ltac:(mk_setter eta_inpcb).
#[global] Instance set_inp_lport : Setter inp_lport := ltac:(mk_setter eta_inpcb).
#[global] Instance set_inp_route : Setter inp_route := ltac:(mk_setter eta_inpcb).
#[global] Instance set_inp_options : Setter inp_options := ltac:(mk_setter eta_inpcb).
#[global] Instance set_inp_ttl : Setter inp_ttl := ltac:(mk_setter eta_inpcb).
#[global] Instance set_inp_tos : Setter inp_tos := ltac:(mk_setter eta_inpcb).

Record tcpcb := mkTcpcb {
  seg_q : list seg;   (* the sequencing queue, seg_next .. seg_prev *)
  t_state : tcp_state;
  tm_rexmt : Z;   (* t_timer[TCPT_REXMT] *)
  tm_persist : Z;   (* t_timer[TCPT_PERSIST] *)
  tm_keep : Z;   (* t_timer[TCPT_KEEP] *)
  tm_2msl : Z;   (* t_timer[TCPT_2MSL] *)
  t_rxtshift : Z;
  t_rxtcur : Z;
  t_dupacks : Z;
  t_maxseg : Z;
  t_force : Z;
  t_flags : Z;
  t_template : option tcpiphdr;
  snd_una : Z;
  snd_nxt : Z;
  snd_up : Z;
  snd_wl1 : Z;
  snd_wl2 : Z;
  iss : Z;
  snd_wnd : Z;
  rcv_wnd : Z;
  rcv_nxt : Z;
  rcv_up : Z;
  irs : Z;
  rcv_adv : Z;
  snd_max : Z;
  snd_cwnd : Z;
  snd_ssthresh : Z;
  t_idle : Z;
  t_rtt : Z;
  t_rtseq : Z;
  t_srtt : Z;
  t_rttvar : Z;
  t_rttmin : Z;
  max_sndwnd : Z;
  t_oobflags : Z;
  t_iobc : Z;
  t_softerror : Z;
  snd_scale : Z;
  rcv_scale : Z;
  request_r_scale : Z;
  requested_s_scale : Z;
  ts_recent : Z;
  ts_recent_age : Z;
  last_ack_sent : Z
}.
Definition eta_tcpcb (r : tcpcb) : tcpcb :=
  mkTcpcb (seg_q r) (t_state r) (tm_rexmt r) (tm_persist r) (tm_keep r) (tm_2msl r)
    (t_rxtshift r) (t_rxtcur r) (t_dupacks r) (t_maxseg r) (t_force r) (t_flags r)
    (t_template r) (snd_una r) (snd_nxt r) (snd_up r) (snd_wl1 r) (snd_wl2 r) (iss r)
    (snd_wnd r) (rcv_wnd r) (rcv_nxt r) (rcv_up r) (irs r) (rcv_adv r) (snd_max r) (snd_cwnd r)
    (snd_ssthresh r) (t_idle r) (t_rtt r) (t_rtseq r) (t_srtt r) (t_rttvar r) (t_rttmin r)
    (max_sndwnd r) (t_oobflags r) (t_iobc r) (t_softerror r) (snd_scale r) (rcv_scale r)
    (request_r_scale r) (requested_s_scale r) (ts_recent r) (ts_recent_age r) (last_ack_sent r).
#[global] Instance set_seg_q : Setter seg_q := ltac:(mk_setter eta_tcpcb).
#[global] Instance set_t_state : Setter t_state := ltac:(mk_setter eta_tcpcb).
#[global] Instance set_tm_rexmt : Setter tm_rexmt := ltac:(mk_setter eta_tcpcb).
#[global] Instance set_tm_persist : Setter tm_persist := ltac:(mk_setter eta_tcpcb).
#[global] Instance set_tm_keep : Setter tm_keep := ltac:(mk_setter eta_tcpcb).
#[global] Instance set_tm_2msl : Setter tm_2msl := ltac:(mk_setter eta_tcpcb).
#[global] Instance set_t_rxtshift : Setter t_rxtshift := ltac:(mk_setter eta_tcpcb).
#[global] Instance set_t_rxtcur : Setter t_rxtcur := ltac:(mk_setter eta_tcpcb).
#[global] Instance set_t_dupacks : Setter t_dupacks := ltac:(mk_setter eta_tcpcb).
#[global] Instance set_t_maxseg : Setter t_maxseg := ltac:(mk_setter eta_tcpcb).
#[global] Instance set_t_force : Setter t_force := ltac:(mk_setter eta_tcpcb).
#[global] Instance set_t_flags : Setter t_flags := ltac:(mk_setter eta_tcpcb).
#[global] Instance set_t_template : Setter t_template := ltac:(mk_setter eta_tcpcb).
#[global] Instance set_snd_una : Setter snd_una := ltac:(mk_setter eta_tcpcb).
#[global] Instance set_snd_nxt : Setter snd_nxt := ltac:(mk_setter eta_tcpcb).
#[global] Instance set_snd_up : Setter snd_up := ltac:(mk_setter eta_tcpcb).
#[global] Instance set_snd_wl1 : Setter snd_wl1 := ltac:(mk_setter eta_tcpcb).
#[global] Instance set_snd_wl2 : Setter snd_wl2 := ltac:(mk_setter eta_tcpcb).
#[global] Instance set_iss : Setter iss := ltac:(mk_setter eta_tcpcb).
#[global] Instance set_snd_wnd : Setter snd_wnd := ltac:(mk_setter eta_tcpcb).
#[global] Instance set_rcv_wnd : Setter rcv_wnd := ltac:(mk_setter eta_tcpcb).
#[global] Instance set_rcv_nxt : Setter rcv_nxt := ltac:(mk_setter eta_tcpcb).
#[global] Instance set_rcv_up : Setter rcv_up := ltac:(mk_setter eta_tcpcb).
#[global] Instance set_irs : Setter irs := ltac:(mk_setter eta_tcpcb).
#[global] Instance set_rcv_adv : Setter rcv_adv := ltac:(mk_setter eta_tcpcb).
#[global] Instance set_snd_max : Setter snd_max := ltac:(mk_setter eta_tcpcb).
#[global] Instance set_snd_cwnd : Setter snd_cwnd := ltac:(mk_setter eta_tcpcb).
#[global] Instance set_snd_ssthresh : Setter snd_ssthresh := ltac:(mk_setter eta_tcpcb).
#[global] Instance set_t_idle : Setter t_idle := ltac:(mk_setter eta_tcpcb).
#[global] Instance set_t_rtt : Setter t_rtt := ltac:(mk_setter eta_tcpcb).
#[global] Instance set_t_rtseq : Setter t_rtseq := ltac:(mk_setter eta_tcpcb).
#[global] Instance set_t_srtt : Setter t_srtt := ltac:(mk_setter eta_tcpcb).
#[global] Instance set_t_rttvar : Setter t_rttvar := ltac:(mk_setter eta_tcpcb).
#[global] Instance set_t_rttmin : Setter t_rttmin := ltac:(mk_setter eta_tcpcb).
#[global] Instance set_max_sndwnd : Setter max_sndwnd := ltac:(mk_setter eta_tcpcb).
#[global] Instance set_t_oobflags : Setter t_oobflags := ltac:(mk_setter eta_tcpcb).
#[global] Instance set_t_iobc : Setter t_iobc := ltac:(mk_setter eta_tcpcb).
#[global] Instance set_t_softerror : Setter t_softerror := ltac:(mk_setter eta_tcpcb).
#[global] Instance set_snd_scale : Setter snd_scale := ltac:(mk_setter eta_tcpcb).
#[global] Instance set_rcv_scale : Setter rcv_scale := ltac:(mk_setter eta_tcpcb).
#[global] Instance set_request_r_scale : Setter request_r_scale := ltac:(mk_setter eta_tcpcb).
#[global] Instance set_requested_s_scale : Setter requested_s_scale := ltac:(mk_setter eta_tcpcb).
#[global] Instance set_ts_recent : Setter ts_recent := ltac:(mk_setter eta_tcpcb).
#[global] Instance set_ts_recent_age : Setter ts_recent_age := ltac:(mk_setter eta_tcpcb).
#[global] Instance set_last_ack_sent : Setter last_ack_sent := ltac:(mk_setter eta_tcpcb).

(** ** Globals and the state of a connection *)

Record tcp_globals := mkGlob {
  tcp_iss : Z;
  tcp_now : Z;
  tcp_maxidle : Z;
  tcp_keepidle : Z;
  tcp_keepintvl : Z;
  tcp_keepcnt : Z;
  tcp_maxpersistidle : Z;
  tcp_mssdflt : Z;
  tcp_rttdflt : Z;
  tcp_do_rfc1323 : bool;
  ip_defttl : Z;
  max_linkhdr : Z;
  sb_max : Z;
  tcp_sendspace : Z;
  tcp_recvspace : Z
}.
Definition eta_tcp_globals (r : tcp_globals) : tcp_globals :=
  mkGlob (tcp_iss r) (tcp_now r) (tcp_maxidle r) (tcp_keepidle r) (tcp_keepintvl r)
    (tcp_keepcnt r) (tcp_maxpersistidle r) (tcp_mssdflt r) (tcp_rttdflt r) (tcp_do_rfc1323 r)
    (ip_defttl r) (max_linkhdr r) (sb_max r) (tcp_sendspace r) (tcp_recvspace r).
#[global] Instance set_tcp_iss : Setter tcp_iss := ltac:(mk_setter eta_tcp_globals).
#[global] Instance set_tcp_now : Setter tcp_now := ltac:(mk_setter eta_tcp_globals).
#[global] Instance set_tcp_maxidle : Setter tcp_maxidle := ltac:(mk_setter eta_tcp_globals).
#[global] Instance set_tcp_keepidle : Setter tcp_keepidle := ltac:(mk_setter eta_tcp_globals).
#[global] Instance set_tcp_keepintvl : Setter tcp_keepintvl := ltac:(mk_setter eta_tcp_globals).
#[global] Instance set_tcp_keepcnt : Setter tcp_keepcnt := ltac:(mk_setter eta_tcp_globals).
#[global] Instance set_tcp_maxpersistidle : Setter tcp_maxpersistidle := ltac:(mk_setter eta_tcp_globals).
#[global] Instance set_tcp_mssdflt : Setter tcp_mssdflt := ltac:(mk_setter eta_tcp_globals).
#[global] Instance set_tcp_rttdflt : Setter tcp_rttdflt := ltac:(mk_setter eta_tcp_globals).
#[global] Instance set_tcp_do_rfc1323 : Setter tcp_do_rfc1323 := ltac:(mk_setter eta_tcp_globals).
#[global] Instance set_ip_defttl : Setter ip_defttl := ltac:(mk_setter eta_tcp_globals).
#[global] Instance set_max_linkhdr : Setter max_linkhdr := ltac:(mk_setter eta_tcp_globals).
#[global] Instance set_sb_max : Setter sb_max := ltac:(mk_setter eta_tcp_globals).
#[global] Instance set_tcp_sendspace : Setter tcp_sendspace := ltac:(mk_setter eta_tcp_globals).
#[global] Instance set_tcp_recvspace : Setter tcp_recvspace := ltac:(mk_setter eta_tcp_globals).

Record kst := mkKst {
  tp : tcpcb;
  inp : inpcb;
  so : socket;
  glob : tcp_globals;
  pool : mpool;
  sent : list packet;   (* calls of ip_output, the last one first *)
  ip_err : list Z;   (* results of the next calls of ip_output, then 0 *)
  gone : bool   (* the control block has been freed by tcp_close *)
}.
Definition eta_kst (r : kst) : kst :=
  mkKst (tp r) (inp r) (so r) (glob r) (pool r) (sent r) (ip_err r) (gone r).
#[global] Instance set_tp : Setter tp := ltac:(mk_setter eta_kst).
#[global] Instance set_inp : Setter inp := ltac:(mk_setter eta_kst).
#[global] Instance set_so : Setter so := ltac:(mk_setter eta_kst).
#[global] Instance set_glob : Setter glob := ltac:(mk_setter eta_kst).
#[global] Instance set_pool : Setter pool := ltac:(mk_setter eta_kst).
#[global] Instance set_sent : Setter sent := ltac:(mk_setter eta_kst).
#[global] Instance set_ip_err : Setter ip_err := ltac:(mk_setter eta_kst).
#[global] Instance set_gone : Setter gone := ltac:(mk_setter eta_kst).

(** The services of the routing code that TCP calls: the route found for an
    address, and whether an address is on a local network; [uninit] is the
    indeterminate value of an uninitialised local variable. *)
Record net_env := mkNet {
  rtalloc : Z -> option rtentry;
  in_localaddr : Z -> bool;
  uninit : Z
}.

Declare Scope tcp_scope.
(** [k <t| f := v |>]: the control block's field [f] becomes [v]; [<s|] is the
    socket's and [<i|] the pcb's. *)
Notation "k <t| p := v |>" := (updf tp (setf p v) k)
  (at level 1, left associativity, p at level 9, v at level 200) : tcp_scope.
Notation "k <s| p := v |>" := (updf so (setf p v) k)
  (at level 1, left associativity, p at level 9, v at level 200) : tcp_scope.
Notation "k <i| p := v |>" := (updf inp (setf p v) k)
  (at level 1, left associativity, p at level 9, v at level 200) : tcp_scope.
#[global] Open Scope tcp_scope.

(** [tp->t_flags |= f] and [tp->t_flags &= ~f] *)
Definition tf_set (f : Z) (k : kst) : kst := k <t| t_flags := setb (t_flags (tp k)) f |>.
Definition tf_clr (f : Z) (k : kst) : kst := k <t| t_flags := clrb (t_flags (tp k)) f |>.
Definition tf (k : kst) (f : Z) : bool := hasf (t_flags (tp k)) f.

(** [tcp_rcvseqinit], [tcp_sendseqinit] *)
Definition tcp_rcvseqinit (k : kst) : kst :=
  let k := k <t| rcv_nxt := u32 (irs (tp k) + 1) |> in
  k <t| rcv_adv := rcv_nxt (tp k) |>.
Definition tcp_sendseqinit (k : kst) : kst :=
  let i := iss (tp k) in
  k <t| snd_up := i |> <t| snd_max := i |> <t| snd_nxt := i |> <t| snd_una := i |>.

(** [TCPT_RANGESET] into a [short]: the value is converted before it is compared. *)
Definition TCPT_RANGESET (value tvmin tvmax : Z) : Z :=
  let tv := s16 value in
  if tv <? tvmin then s16 tvmin else if tv >? tvmax then s16 tvmax else tv.

Definition TCP_REXMTVAL (t : tcpcb) : Z :=
  Z.shiftr (t_srtt t) TCP_RTT_SHIFT + t_rttvar t.

Definition tcp_backoff (shift : Z) : Z :=
  nth (Z.to_nat shift) [1; 2; 4; 8; 16; 32; 64; 64; 64; 64; 64; 64; 64] 0.
Definition tcp_totbackoff : Z := 511.

(** An errno is stored in the [short] t_softerror and the [u_short] so_error. *)
Definition set_so_error_k (e : Z) (k : kst) : kst := k <s| so_error := u16 e |>.

(** ** Shared facts *)

Lemma rangeset_bounds v lo hi :
  -32768 <= lo <= hi -> hi < 32768 -> lo <= TCPT_RANGESET v lo hi <= hi.
Proof. intros. unfold TCPT_RANGESET. wrap_lia. Qed.
Lemma rangeset_exact v lo hi :
  -32768 <= v < 32768 -> lo <= v <= hi -> TCPT_RANGESET v lo hi = v.
Proof. intros. unfold TCPT_RANGESET. wrap_lia. Qed.

End TcpVar.
