(* ===== verification/Sample.v ===== *)
(** A concrete connection, used by the examples that instantiate the theorems.

    The connection is established: snd_una = snd_nxt = snd_max = 1000, the next byte
    expected is 5000, both buffers hold at most 8192 bytes.  The host has one route
    with an interface MTU of 1500. *)
From S2P Require Import Prelude TcpSeq Mbuf SockBuf Socket TcpVar.
Import TcpSeq Mbuf SockBuf Socket TcpVar.

Module Sample.

Definition g0 : tcp_globals := mkGlob 1000 0 600 14400 150 8 14400 512 3 true 64 16 262144 8192 8192.
Definition p0 : mpool := mkPool (fun _ => 0) [] [].
Definition rt0 : rtentry := mkRt 0 0 0 0 0 0 0 1500 1.
Definition net0 : net_env := mkNet (fun _ => Some rt0) (fun _ => true) 0.
Definition inp0 : inpcb := mkInp 20 80 10 1024 (Some rt0) [] 64 0.
Definition tmpl0 : tcpiphdr := mkTi 20 10 20 1024 80 0 0 5 0 0 0 0.

(** An mbuf with the bytes [d]. *)
Definition dmb (d : list Z) : mbuf := mkMbuf 0 d MT_DATA 0 0 0 0 0.

Definition sb_of (hiwat : Z) (d : list Z) : sockbuf :=
  match d with
  | [] => mkSb 0 hiwat 0 (2 * hiwat) 1 [] 0
  | _ => mkSb (zlen d) hiwat 128 (2 * hiwat) 1 [[dmb d]] 0
  end.
Definition so0 (d : list Z) : socket :=
  mkSocket 0 0 SS_ISCONNECTED 0 0 (sb_of 8192 []) (sb_of 8192 d) Q_none [].

Definition tp0 : tcpcb :=
  mkTcpcb [] TCPS_ESTABLISHED 0 0 14400 0 0 12 0 1460 0 0 (Some tmpl0)
    1000 1000 1000 4999 1000 999 8192 8192 5000 5000 4999 13192 1000 1460 65535
    0 0 0 0 24 2 8192 0 0 0 0 0 0 0 0 0 5000.

(** The connection with [d] in the send buffer. *)
Definition k0 (d : list Z) : kst := mkKst tp0 inp0 (so0 d) g0 p0 [] [] false.

Lemma sb_of_inv d : (length d <= 100)%nat -> sb_inv (sb_of 8192 d).
Proof.
  intros Hl. destruct d as [|b d]; [by split|]. unfold sb_of. remember (b :: d) as l eqn:El.
  assert (Hc : chain_bytes (concat [[dmb l]]) = l) by (unfold chain_bytes; simpl; by rewrite app_nil_r).
  assert (Hz : zlen l <= 100) by (unfold zlen; lia).
  split; unfold sb_bytes, sb_chain; cbn [sb_mb sb_cc sb_mbcnt].
  - rewrite Hc, u32_id; [done|]. zlen_pose. lia.
  - reflexivity.
  - by repeat constructor.
  - apply Forall_cons_iff. split; [|constructor]. cbv [m_wf m_len MLEN dmb m_off m_bytes m_flags]. simpl. split_and!; [lia|lia|done].
Qed.

End Sample.
