(* ===== verification/InPcb.v ===== *)
(** Internet protocol control blocks (src/sys/netinet/in_pcb.c).

    The list of pcbs is a list of any type with a projection to [inpcb], newest
    first as [in_pcballoc] links them, so that a protocol can keep its own data
    beside the pcb.  Port numbers are in host order: the code converts both sides
    of every comparison the same way.  The interface list and the routing table
    are represented by the answers they give ([ifenv]). *)
From S2P Require Import Prelude TcpVar Socket.
Import TcpVar Socket.

Module InPcb.

Definition EACCES : Z := 13.
Definition EADDRINUSE : Z := 48.
Definition EADDRNOTAVAIL : Z := 49.
Definition IPPORT_RESERVED : Z := 1024.
Definition IPPORT_USERRESERVED : Z := 5000.
Definition INADDR_BROADCAST : Z := 4294967295.

(** The number of wildcards in the match of a pcb, [None] when it does not match. *)
Definition pcb_wild (i : inpcb) (faddr fport laddr lport : Z) : option Z :=
  if negb (inp_lport i =? lport) then None
  else
    let local :=
      if negb (inp_laddr i =? INADDR_ANY)
      then if laddr =? INADDR_ANY then Some 1 else if negb (inp_laddr i =? laddr) then None else Some 0
      else if negb (laddr =? INADDR_ANY) then Some 1 else Some 0 in
    let foreign :=
      if negb (inp_faddr i =? INADDR_ANY)
      then if faddr =? INADDR_ANY then Some 1
           else if negb (inp_faddr i =? faddr) || negb (inp_fport i =? fport) then None else Some 0
      else if negb (faddr =? INADDR_ANY) then Some 1 else Some 0 in
    match local, foreign with Some a, Some b => Some (a + b) | _, _ => None end.

Section Lookup.
Context {A : Type} (pcb : A -> inpcb).

(** The loop of [in_pcblookup], with the best match so far. *)
Fixpoint lookup_loop (l : list A) (faddr fport laddr lport : Z) (wild : bool)
    (best : option A) (matchwild : Z) : option A :=
  match l with
  | [] => best
  | x :: l' =>
      match pcb_wild (pcb x) faddr fport laddr lport with
      | None => lookup_loop l' faddr fport laddr lport wild best matchwild
      | Some w =>
          if negb (w =? 0) && negb wild then lookup_loop l' faddr fport laddr lport wild best matchwild
          else if w <? matchwild
          then if w =? 0 then Some x else lookup_loop l' faddr fport laddr lport wild (Some x) w
          else lookup_loop l' faddr fport laddr lport wild best matchwild
      end
  end.
Definition in_pcblookup (l : list A) (faddr fport laddr lport : Z) (wild : bool) : option A :=
  lookup_loop l faddr fport laddr lport wild None 3.

(** ** Binding *)

(** [ifaces]: an interface has an address; [ifwithaddr]: an address is one of
    ours; [suser]: the process is privileged. *)
Record ifenv := mkIfenv {
  ifaces : bool;
  ifa_ifwithaddr : Z -> bool;
  suser : bool
}.

(** The loop that picks a port: [hp] is the head's counter. *)
Fixpoint pick_port (fuel : nat) (l : list A) (laddr hp : Z) (wild : bool) : outcome (Z * Z) :=
  match fuel with
  | O => OutOfFuel
  | S fuel =>
      let old := hp in
      let hp := u16 (hp + 1) in
      let hp := if (old <? IPPORT_RESERVED) || (hp >? IPPORT_USERRESERVED) then IPPORT_RESERVED else hp in
      match in_pcblookup l INADDR_ANY 0 laddr hp wild with
      | Some _ => pick_port fuel l laddr hp wild
      | None => Ret (hp, hp)
      end
  end.

Definition in_multicast (a : Z) : bool := Z.shiftr a 28 =? 14.

(** [in_pcbbind] for a protocol with PR_CONNREQUIRED: [nam] is the address and
    port asked for; [opts] the socket's options and [sopts] those of the socket of
    a pcb.  The result is an errno, or the pcb and the head's new port counter. *)
Definition in_pcbbind (e : ifenv) (sopts : A -> Z) (l : list A) (hp : Z) (i : inpcb) (opts : Z)
    (nam : option (Z * Z)) : outcome (Z + (inpcb * Z)) :=
  if negb (ifaces e) then Ret (inl EADDRNOTAVAIL)
  else if negb (inp_lport i =? 0) || negb (inp_laddr i =? INADDR_ANY) then Ret (inl EINVAL)
  else
    let wild := negb (hasf opts (Z.lor SO_REUSEADDR SO_REUSEPORT)) && negb (hasf opts SO_ACCEPTCONN) in
    let auto i :=
      let! (hp, lport) := pick_port (Z.to_nat 8000) l (inp_laddr i) hp wild in
      Ret (inr (i <| inp_lport := lport |>, hp)) in
    match nam with
    | None => auto i
    | Some (addr, lport) =>
        let reuseport := if in_multicast addr && hasf opts SO_REUSEADDR
                         then Z.lor SO_REUSEADDR SO_REUSEPORT else Z.land opts SO_REUSEPORT in
        if negb (in_multicast addr) && negb (addr =? INADDR_ANY) && negb (ifa_ifwithaddr e addr)
        then Ret (inl EADDRNOTAVAIL)
        else if lport =? 0 then auto (i <| inp_laddr := addr |>)
        else if (lport <? IPPORT_RESERVED) && negb (suser e) then Ret (inl EACCES)
        else
          match in_pcblookup l INADDR_ANY 0 addr lport wild with
          | Some t => if negb (hasf reuseport (sopts t)) then Ret (inl EADDRINUSE)
                      else Ret (inr (i <| inp_laddr := addr |> <| inp_lport := lport |>, hp))
          | None => Ret (inr (i <| inp_laddr := addr |> <| inp_lport := lport |>, hp))
          end
    end.

(** ** Connecting *)

(** The answers of the interface list and the routing table: the primary local
    address, the broadcast address of the primary interface if it has one, and
    the source address for a destination. *)
Record connenv := mkConnenv {
  in_ifaddr : option Z;
  in_broadaddr : option Z;
  src_for : Z -> option Z
}.

(** [in_pcbconnect] of a pcb that is bound or has a local address. *)
Definition pcbconnect (e : connenv) (l : list A) (i : inpcb) (addr port : Z) : Z + inpcb :=
  if port =? 0 then inl EADDRNOTAVAIL
  else
    let addr := match in_ifaddr e with
                | Some a => if addr =? INADDR_ANY then a
                            else if addr =? INADDR_BROADCAST
                            then match in_broadaddr e with Some b => b | None => addr end else addr
                | None => addr
                end in
    match (if inp_laddr i =? INADDR_ANY then src_for e addr else Some (inp_laddr i)) with
    | None => inl EADDRNOTAVAIL
    | Some laddr =>
        match in_pcblookup l addr port laddr (inp_lport i) false with
        | Some _ => inl EADDRINUSE
        | None => inr (i <| inp_laddr := laddr |> <| inp_faddr := addr |> <| inp_fport := port |>)
        end
    end.

(** ** Correctness of lookup *)

Definition matches (faddr fport laddr lport : Z) (wild : bool) (x : A) (w : Z) : Prop :=
  pcb_wild (pcb x) faddr fport laddr lport = Some w /\ (w = 0 \/ wild = true).

Lemma pcb_wild_range i fa fp la lp w : pcb_wild i fa fp la lp = Some w -> 0 <= w <= 2.
Proof. unfold pcb_wild. repeat case_match; intros; simplify_eq; lia. Qed.

(** The result of the loop: the first pcb with the fewest wildcards, if it beats
    the best so far. *)
Lemma lookup_loop_ok l fa fp la lp wild best mw :
  0 < mw ->
  match lookup_loop l fa fp la lp wild best mw with
  | r =>
      (r = best /\ forall y w, y ∈ l -> matches fa fp la lp wild y w -> mw <= w) \/
      exists x w l1 l2, r = Some x /\ l = l1 ++ x :: l2 /\ matches fa fp la lp wild x w /\ w < mw /\
        (forall y w', y ∈ l1 -> matches fa fp la lp wild y w' -> w < w') /\
        (forall y w', y ∈ l2 -> matches fa fp la lp wild y w' -> w <= w')
  end.
Proof.
  revert best mw. induction l as [|x l IH]; intros best mw Hmw; cbn [lookup_loop].
  { left. split; [done|]. intros y w Hy. by apply elem_of_nil in Hy. }
  assert (Hskip : (forall w, matches fa fp la lp wild x w -> mw <= w) ->
    match lookup_loop l fa fp la lp wild best mw with
    | r => (r = best /\ forall y w, y ∈ x :: l -> matches fa fp la lp wild y w -> mw <= w) \/
      exists x0 w l1 l2, r = Some x0 /\ x :: l = l1 ++ x0 :: l2 /\ matches fa fp la lp wild x0 w /\ w < mw /\
        (forall y w', y ∈ l1 -> matches fa fp la lp wild y w' -> w < w') /\
        (forall y w', y ∈ l2 -> matches fa fp la lp wild y w' -> w <= w')
    end).
  { intros Hx. destruct (IH best mw Hmw) as [[-> H]|(y & w & l1 & l2 & -> & -> & Hm & Hlt & H1 & H2)].
    - left. split; [done|]. intros y w [->|Hy]%elem_of_cons; eauto.
    - right. exists y, w, (x :: l1), l2. split_and!; try done.
      intros z w' [->|Hz]%elem_of_cons Hz'; [|eauto]. specialize (Hx _ Hz'). lia. }
  destruct (pcb_wild (pcb x) fa fp la lp) as [w|] eqn:Ew.
  2: { apply Hskip. intros w [E _]. congruence. }
  pose proof (pcb_wild_range _ _ _ _ _ _ Ew) as Hw.
  destruct (Z.eqb_spec w 0) as [->|Hn0]; simpl.
  { destruct (Z.ltb_spec 0 mw); [|lia]. right. exists x, 0, [], l. split_and!; try done.
    - split; [done|by left].
    - intros y w Hy. by apply elem_of_nil in Hy.
    - intros y w' _ [E _]. apply pcb_wild_range in E. lia. }
  destruct wild; simpl.
  2: { apply Hskip. intros w' [E [->|?]]; [|done]. simplify_eq. }
  destruct (Z.ltb_spec w mw).
  2: { apply Hskip. intros w' [E _]. simplify_eq. lia. }
  right. destruct (IH (Some x) w ltac:(lia)) as [[-> H']|(y & w' & l1 & l2 & -> & -> & Hm & Hlt & H1 & H2)].
  - exists x, w, [], l. split_and!; try done; [split; [done|by right]|].
    intros y w' Hy. by apply elem_of_nil in Hy.
  - exists y, w', (x :: l1), l2. split_and!; try done; [lia|].
    intros z w'' [->|Hz]%elem_of_cons [E Hz']; [simplify_eq; lia|]. eapply H1; [done|by split].
Qed.

(** [in_pcblookup] returns a matching pcb with the fewest wildcards, the first in
    the list of those, and null only when no pcb matches. *)
Lemma in_pcblookup_ok l fa fp la lp wild :
  match in_pcblookup l fa fp la lp wild with
  | None => forall y w, y ∈ l -> ~ matches fa fp la lp wild y w
  | Some x => exists w l1 l2, l = l1 ++ x :: l2 /\ matches fa fp la lp wild x w /\
      (forall y w', y ∈ l1 -> matches fa fp la lp wild y w' -> w < w') /\
      (forall y w', y ∈ l2 -> matches fa fp la lp wild y w' -> w <= w')
  end.
Proof.
  unfold in_pcblookup. pose proof (lookup_loop_ok l fa fp la lp wild None 3 ltac:(lia)) as H.
  simpl in H. destruct H as [[-> H]|(x & w & l1 & l2 & -> & -> & Hm & _ & H1 & H2)].
  - intros y w Hy Hm. specialize (H y w Hy Hm). destruct Hm as [E _]. apply pcb_wild_range in E. lia.
  - exists w, l1, l2. split_and!; done.
Qed.

(** The four addresses of a pcb that has no wildcard. *)
Definition exact4 (i : inpcb) (fa fp la lp : Z) : bool :=
  (inp_lport i =? lp) && (inp_fport i =? fp) && (inp_faddr i =? fa) && (inp_laddr i =? la).

(** An exact match is a match without wildcards. *)
Lemma exact4_wild i fa fp la lp : fa <> 0 -> exact4 i fa fp la lp = true <-> pcb_wild i fa fp la lp = Some 0.
Proof.
  intros Hs. unfold exact4, pcb_wild, INADDR_ANY.
  destruct (Z.eqb_spec (inp_lport i) lp), (Z.eqb_spec (inp_fport i) fp), (Z.eqb_spec (inp_faddr i) fa), (Z.eqb_spec (inp_laddr i) la),
    (Z.eqb_spec (inp_faddr i) 0), (Z.eqb_spec (inp_laddr i) 0), (Z.eqb_spec fa 0), (Z.eqb_spec la 0); simpl; split; intros; try done; congruence.
Qed.

(** The only exact match is what in_pcblookup finds. *)
Lemma lookup_exact4 l x fa fp la lp wild :
  fa <> 0 -> x ∈ l -> exact4 (pcb x) fa fp la lp = true ->
  (forall y, y ∈ l -> exact4 (pcb y) fa fp la lp = true -> y = x) -> in_pcblookup l fa fp la lp wild = Some x.
Proof.
  intros Hs Hx He Hu. pose proof (in_pcblookup_ok l fa fp la lp wild) as Hl. pose proof (proj1 (exact4_wild _ _ fp la lp Hs) He) as Hw.
  assert (Hcw : matches fa fp la lp wild x 0) by (split; auto).
  destruct (in_pcblookup l fa fp la lp wild) as [y|]; [|by destruct (Hl x 0 Hx)].
  destruct Hl as (w & l1 & l2 & E & [Hm Hm'] & H1 & H2). f_equal. apply Hu; [rewrite E; apply elem_of_app; right; by left|].
  apply exact4_wild; [done|]. pose proof (pcb_wild_range _ _ _ _ _ _ Hm).
  rewrite E, elem_of_app, elem_of_cons in Hx. destruct Hx as [Hx|[->|Hx]]; [|done|].
  - specialize (H1 _ _ Hx Hcw). lia.
  - specialize (H2 _ _ Hx Hcw). by replace 0 with w by lia.
Qed.

(** ** Automatic ports *)

(** The port after [hp] in the order the loop tries them. *)
Definition next_port (hp : Z) : Z :=
  if (hp <? IPPORT_RESERVED) || (u16 (hp + 1) >? IPPORT_USERRESERVED) then IPPORT_RESERVED else u16 (hp + 1).

(** How many steps lead from [hp] to port [q]. *)
Definition port_steps (hp q : Z) : Z :=
  if (hp <? 1024) || (5000 <=? hp) then q - 1023 else if q <=? hp then 3977 + q - hp else q - hp.

Lemma port_steps_next hp q :
  0 <= hp <= 5000 -> 1024 <= q <= 5000 -> next_port hp <> q ->
  port_steps (next_port hp) q = port_steps hp q - 1 /\ 1024 <= next_port hp <= 5000.
Proof.
  intros Hh Hq. unfold next_port, port_steps, IPPORT_RESERVED, IPPORT_USERRESERVED, u16. intros Hne.
  repeat match goal with
    | |- context [if ?b then _ else _] => destruct b eqn:?
    | H : context [if ?b then _ else _] |- _ => destruct b eqn:?
    end; Z.to_euclidean_division_equations; lia.
Qed.
Lemma port_steps_pos hp q : 0 <= hp <= 5000 -> 1024 <= q <= 5000 -> 1 <= port_steps hp q <= 3977.
Proof. intros. unfold port_steps. repeat case_match; lia. Qed.

(** The loop ends when one of the ports 1024 to 5000 is free, and with a free
    port of that range. *)
Lemma pick_port_ok fuel l la hp wild q :
  0 <= hp <= 5000 -> 1024 <= q <= 5000 -> in_pcblookup l INADDR_ANY 0 la q wild = None ->
  port_steps hp q <= Z.of_nat fuel ->
  exists p, pick_port fuel l la hp wild = Ret (p, p) /\ 1024 <= p <= 5000 /\
    in_pcblookup l INADDR_ANY 0 la p wild = None.
Proof.
  intros Hh Hq Hf. revert hp Hh. induction fuel as [|fuel IH]; intros hp Hh Hs;
    pose proof (port_steps_pos hp q Hh Hq); [lia|]. cbn [pick_port].
  fold (next_port hp). destruct (decide (next_port hp = q)) as [Eq|Hne].
  - rewrite Eq, Hf. eauto with lia.
  - destruct (port_steps_next hp q Hh Hq Hne) as [Es Hr].
    destruct (in_pcblookup l INADDR_ANY 0 la (next_port hp) wild) eqn:El; [|eauto with lia].
    apply IH; lia.
Qed.

(** A pcb of the list takes the port at the address: it has the port, and one of
    the two local addresses is a wildcard or they are equal. *)
Definition taken (l : list A) (laddr lport : Z) : Prop :=
  exists y, y ∈ l /\ inp_lport (pcb y) = lport /\
    (inp_laddr (pcb y) = laddr \/ inp_laddr (pcb y) = INADDR_ANY \/ laddr = INADDR_ANY).

Lemma matches_any la lp y : (exists w, matches INADDR_ANY 0 la lp true y w) <->
  inp_lport (pcb y) = lp /\ (inp_laddr (pcb y) = la \/ inp_laddr (pcb y) = INADDR_ANY \/ la = INADDR_ANY).
Proof.
  unfold matches, pcb_wild. destruct (Z.eqb_spec (inp_lport (pcb y)) lp) as [El|El]; cbn [negb].
  2: { split; [intros (w & [=] & _)|intros [? _]; done]. }
  destruct (Z.eqb_spec (inp_laddr (pcb y)) INADDR_ANY) as [E1|E1], (Z.eqb_spec la INADDR_ANY) as [E2|E2],
    (Z.eqb_spec (inp_laddr (pcb y)) la) as [E3|E3], (Z.eqb_spec (inp_faddr (pcb y)) INADDR_ANY) as [E4|E4]; cbn [negb];
    (split; [intros (w & Ew & _); first [discriminate|tauto]|intros [_ H]; first [by eexists; split; [reflexivity|right]|tauto]]).
Qed.
Lemma lookup_taken l la lp : in_pcblookup l INADDR_ANY 0 la lp true = None <-> ~ taken l la lp.
Proof.
  pose proof (in_pcblookup_ok l INADDR_ANY 0 la lp true) as H. destruct (in_pcblookup _ _ _ _ _ _) as [x|]; split; try done.
  - destruct H as (w & l1 & l2 & -> & Hm & _). intros []. exists x. split; [apply elem_of_app; right; by left|].
    apply matches_any. by exists w.
  - intros _ (y & Hy & Ht). apply matches_any in Ht as [w Hm]. by apply (H y w).
Qed.

(** The automatic choice of [in_pcbbind]: with a free port it ends, without one it does not. *)
Lemma pick_port_enough l la hp q :
  0 <= hp <= 5000 -> 1024 <= q <= 5000 -> ~ taken l la q ->
  exists p, pick_port (Z.to_nat 8000) l la hp true = Ret (p, p) /\ 1024 <= p <= 5000 /\ ~ taken l la p.
Proof.
  intros Hh Hq Hf%lookup_taken. destruct (pick_port_ok (Z.to_nat 8000) l la hp true q Hh Hq Hf) as (p & E & Hp & Hl).
  { pose proof (port_steps_pos hp q Hh Hq). lia. }
  exists p. split_and!; [done|lia..|by apply lookup_taken].
Qed.
Lemma pick_port_never l la : (forall q, 1024 <= q <= 5000 -> taken l la q) ->
  forall fuel hp, 0 <= hp <= 5000 -> pick_port fuel l la hp true = OutOfFuel.
Proof.
  intros Hall. induction fuel as [|fuel IH]; intros hp Hh; [done|]. cbn [pick_port]. fold (next_port hp).
  assert (Hn : 1024 <= next_port hp <= 5000).
  { unfold next_port, IPPORT_RESERVED, IPPORT_USERRESERVED, u16. destruct (_ || _) eqn:E; [lia|].
    apply orb_false_iff in E as [? ?]. Z.to_euclidean_division_equations; lia. }
  destruct (in_pcblookup _ _ _ _ _ _) eqn:El; [apply IH; lia|]. apply lookup_taken in El. by destruct El; apply Hall.
Qed.

(** The address asked for is not one of the host's. *)
Definition foreign (e : ifenv) (addr : Z) : Prop := addr <> INADDR_ANY /\ ifa_ifwithaddr e addr = false.

(** C34: in_pcbbind gives a socket that set neither SO_REUSEADDR nor SO_REUSEPORT and
    does not listen yet its port alone, and every error has its condition, in the order of the
    tests: EADDRNOTAVAIL without an interface, EINVAL when the socket is bound, EADDRNOTAVAIL
    for an address that is not the host's, EACCES for a port below 1024 without privilege,
    EADDRINUSE when a pcb of the list has the port at that address or with a wildcard on one
    side.  Otherwise the pcb gets the address and the port asked for; with no port asked for it
    gets a free one of 1024 to 5000, provided that there is one: when all of them are taken the
    loop never ends, whatever the fuel.  (A multicast address, which is not checked against the
    interfaces, is left out.) *)
Theorem in_pcbbind_exclusive e sopts l hp i opts addr lport :
  0 <= hp <= 5000 -> hasf opts (Z.lor SO_REUSEADDR SO_REUSEPORT) = false ->
  hasf opts SO_ACCEPTCONN = false -> in_multicast addr = false ->
  let r := in_pcbbind e sopts l hp i opts (Some (addr, lport)) in
  (ifaces e = false -> r = Ret (inl EADDRNOTAVAIL)) /\
  (ifaces e = true -> inp_lport i <> 0 \/ inp_laddr i <> INADDR_ANY -> r = Ret (inl EINVAL)) /\
  (ifaces e = true -> inp_lport i = 0 -> inp_laddr i = INADDR_ANY ->
    (foreign e addr -> r = Ret (inl EADDRNOTAVAIL)) /\
    (~ foreign e addr -> lport <> 0 ->
      (lport < 1024 -> suser e = false -> r = Ret (inl EACCES)) /\
      (1024 <= lport \/ suser e = true ->
        (taken l addr lport -> r = Ret (inl EADDRINUSE)) /\
        (~ taken l addr lport -> r = Ret (inr (i <| inp_laddr := addr |> <| inp_lport := lport |>, hp))))) /\
    (~ foreign e addr -> lport = 0 ->
      ((exists q, 1024 <= q <= 5000 /\ ~ taken l addr q) ->
        exists p, r = Ret (inr (i <| inp_laddr := addr |> <| inp_lport := p |>, p)) /\ 1024 <= p <= 5000 /\ ~ taken l addr p) /\
      ((forall q, 1024 <= q <= 5000 -> taken l addr q) -> forall fuel, pick_port fuel l addr hp true = OutOfFuel))).
Proof.
  intros Hh Ho Ha Hm r. unfold r, in_pcbbind. clear r. rewrite Ho, Ha, Hm. cbn [negb andb orb].
  assert (Hr : Z.land opts SO_REUSEPORT = 0).
  { unfold hasf in Ho. apply negb_false_iff, Z.eqb_eq in Ho. rewrite Z.land_lor_distr_r in Ho.
    by apply Z.lor_eq_0_iff in Ho as [_ ?]. }
  split; [by intros ->|]. split.
  { intros -> Hb. cbn [negb]. by destruct (Z.eqb_spec (inp_lport i) 0), (Z.eqb_spec (inp_laddr i) INADDR_ANY); [destruct Hb|..]. }
  intros -> -> ->. cbn [negb andb orb]. rewrite !Z.eqb_refl. cbn [negb andb orb].
  assert (Hf : negb (addr =? INADDR_ANY) && negb (ifa_ifwithaddr e addr) = true <-> foreign e addr).
  { unfold foreign. by rewrite andb_true_iff, !negb_true_iff, Z.eqb_neq. }
  split; [intros Hfo; by rewrite (proj2 Hf Hfo)|].
  split; intros Hnf Hl; destruct (negb (addr =? INADDR_ANY) && _); try (by destruct Hnf; apply Hf).
  - rewrite (proj2 (Z.eqb_neq _ _) Hl). unfold IPPORT_RESERVED. split; [by intros ->%Z.ltb_lt ->|]. intros Hp.
    assert ((lport <? 1024) && negb (suser e) = false) as -> by (destruct Hp as [?| ->]; [rewrite (proj2 (Z.ltb_ge _ _)) by lia|rewrite andb_false_r]; done).
    pose proof (lookup_taken l addr lport) as Ht. split; intros Htk.
    + destruct (in_pcblookup l INADDR_ANY 0 addr lport true); [by rewrite Hr|]. by destruct (proj1 Ht eq_refl).
    + by rewrite (proj2 Ht Htk).
  - subst lport. cbn [Z.eqb]. change (inp_laddr (i <| inp_laddr := addr |>)) with addr. split.
    + intros (q & Hq & Hfree). destruct (pick_port_enough l addr hp q Hh Hq Hfree) as (p & -> & Hp & Hu). exists p. by split.
    + intros Hall fuel. by apply pick_port_never.
Qed.

(** An address of a pcb against one that is asked for: equal, or a wildcard on one side. *)
Inductive addr_suits (a b : Z) : Z -> Prop :=
| suits_same : a = b -> addr_suits a b 0
| suits_any : a <> b -> a = INADDR_ANY \/ b = INADDR_ANY -> addr_suits a b 1.

(** The pcb suits the addresses and ports with [w] wildcards. *)
Definition suits (faddr fport laddr lport : Z) (wild : bool) (x : A) (w : Z) : Prop :=
  inp_lport (pcb x) = lport /\
  (exists w1 w2, w = w1 + w2 /\ addr_suits (inp_laddr (pcb x)) laddr w1 /\ addr_suits (inp_faddr (pcb x)) faddr w2) /\
  (inp_faddr (pcb x) <> INADDR_ANY -> faddr <> INADDR_ANY -> inp_fport (pcb x) = fport) /\
  (w = 0 \/ wild = true).

Lemma matches_suits fa fp la lp wild x w : matches fa fp la lp wild x w <-> suits fa fp la lp wild x w.
Proof.
  unfold matches, suits, pcb_wild, INADDR_ANY. cbv zeta. split.
  - intros [H Hw]. split_and!; try done; repeat case_match; simplify_eq; try lia.
    all: eexists _, _; split; [|split]; [|first [apply suits_same; lia|apply suits_any; unfold INADDR_ANY; lia]..]; lia.
  - intros (H1 & (w1 & w2 & -> & H2 & H3) & H4 & H5). split; [|done]. destruct H2, H3; unfold INADDR_ANY in *; repeat case_match; simplify_eq; try lia; try done; f_equal; lia.
Qed.

(** C36: in_pcblookup returns the best match: a pcb that suits the addresses and ports
    (each address equal or a wildcard on one side, the local port equal, the foreign port
    equal when both foreign addresses are given) with the fewest wildcards, the first of the
    list among equals, and no pcb only when none suits (without the wildcard flag: when none
    suits without wildcards). *)
Theorem in_pcblookup_correct l fa fp la lp wild :
  match in_pcblookup l fa fp la lp wild with
  | None => forall y w, y ∈ l -> ~ suits fa fp la lp wild y w
  | Some x => exists w l1 l2, l = l1 ++ x :: l2 /\ suits fa fp la lp wild x w /\
      (forall y w', y ∈ l1 -> suits fa fp la lp wild y w' -> w < w') /\
      (forall y w', y ∈ l2 -> suits fa fp la lp wild y w' -> w <= w')
  end.
Proof.
  pose proof (in_pcblookup_ok l fa fp la lp wild) as H. destruct (in_pcblookup l fa fp la lp wild) as [x|].
  - destruct H as (w & l1 & l2 & E & H1 & H2 & H3). exists w, l1, l2. split_and!; [done|by apply matches_suits|..].
    + intros y w' Hy Hs. apply (H2 y w' Hy). by apply matches_suits.
    + intros y w' Hy Hs. apply (H3 y w' Hy). by apply matches_suits.
  - intros y w Hy Hs. apply (H y w Hy). by apply matches_suits.
Qed.

End Lookup.

(** Port 1024 is taken by a socket without an address: binding to it fails, and the
    automatic choice finds 1025. *)
Lemma in_pcbbind_witness :
  in_pcbbind id (mkIfenv true (fun _ => true) false) (fun _ => 0) [mkInp 0 0 0 1024 None [] 64 0] 1023
    (mkInp 0 0 0 0 None [] 64 0) 0 (Some (10, 1024)) = Ret (inl EADDRINUSE) /\
  exists p, in_pcbbind id (mkIfenv true (fun _ => true) false) (fun _ => 0) [mkInp 0 0 0 1024 None [] 64 0] 1023
    (mkInp 0 0 0 0 None [] 64 0) 0 (Some (10, 0)) = Ret (inr (mkInp 0 0 10 p None [] 64 0, p)) /\ 1024 <= p <= 5000.
Proof.
  assert (Hnf : ~ foreign (mkIfenv true (fun _ => true) false) 10) by (intros [_ [=]]).
  split.
  - apply (in_pcbbind_exclusive id (mkIfenv true (fun _ => true) false) (fun _ => 0)
      [mkInp 0 0 0 1024 None [] 64 0] 1023 (mkInp 0 0 0 0 None [] 64 0) 0 10 1024); try done; [left; lia|].
    exists (mkInp 0 0 0 1024 None [] 64 0). split; [by left|]. split; [done|]. right; by left.
  - destruct (in_pcbbind_exclusive id (mkIfenv true (fun _ => true) false) (fun _ => 0)
      [mkInp 0 0 0 1024 None [] 64 0] 1023 (mkInp 0 0 0 0 None [] 64 0) 0 10 0) as (_ & _ & H); try done.
    destruct (H eq_refl eq_refl eq_refl) as (_ & _ & H2). destruct (proj1 (H2 Hnf eq_refl)) as (p & E & Hp & _); [|by exists p].
    exists 2000. split; [lia|]. intros (y & Hy & Ep & _). apply list_elem_of_singleton in Hy. subst y. discriminate.
Defined.

End InPcb.
