(* ===== verification/TcpHdr.v ===== *)
(** The wire form of the TCP/IP header overlay (struct tcpiphdr of
    src/sys/netinet/tcpip.h, ipovly of ip_var.h, tcphdr of tcp.h), as tcp_output
    and tcp_respond write it and tcp_input reads it.

    Addresses, ports and the numbers converted with htons and htonl are stored
    most significant byte first.  [ti_sum] is stored as in_cksum returns it, that
    is as a little-endian halfword of the i386. *)
From S2P Require Import Prelude Mbuf Cksum SockBuf Socket TcpVar.
Import Mbuf Cksum TcpVar.

Module TcpHdr.

Definition be16 (v : Z) : list Z := [(v / 256) mod 256; v mod 256].
Definition be32 (v : Z) : list Z :=
  [(v / 16777216) mod 256; (v / 65536) mod 256; (v / 256) mod 256; v mod 256].
Definition le16 (v : Z) : list Z := [v mod 256; (v / 256) mod 256].
Definition le32 (v : Z) : list Z := [v mod 256; (v / 256) mod 256; (v / 65536) mod 256; (v / 16777216) mod 256].

(** The part of the header before [ti_sum], [ti_sum] and [ti_urp]. *)
Definition hdr_front (t : tcpiphdr) : list Z :=
  [0; 0; 0; 0; 0; 0; 0; 0; 0; 6] ++ be16 (ti_len t) ++ be32 (ti_src t) ++ be32 (ti_dst t) ++
  be16 (ti_sport t) ++ be16 (ti_dport t) ++ be32 (ti_seq t) ++ be32 (ti_ack t) ++
  [ti_off t * 16 mod 256; ti_flags t mod 256] ++ be16 (ti_win t).
Definition encode_ti (t : tcpiphdr) : list Z := hdr_front t ++ le16 (ti_sum t) ++ be16 (ti_urp t).

Definition get (l : list Z) (i : nat) : Z := nth i l 0.
Definition rd16 (l : list Z) (i : nat) : Z := get l i * 256 + get l (i + 1).
Definition rd32 (l : list Z) (i : nat) : Z :=
  get l i * 16777216 + get l (i + 1) * 65536 + get l (i + 2) * 256 + get l (i + 3).

(** The header fields of a received segment. *)
Definition decode_ti (l : list Z) : tcpiphdr :=
  {| ti_len := s16 (rd16 l 10);
     ti_src := rd32 l 12; ti_dst := rd32 l 16;
     ti_sport := rd16 l 20; ti_dport := rd16 l 22;
     ti_seq := rd32 l 24; ti_ack := rd32 l 28;
     ti_off := get l 32 / 16; ti_flags := get l 33;
     ti_win := rd16 l 34; ti_sum := get l 36 + 256 * get l 37; ti_urp := rd16 l 38 |}.

(** The fields are in the ranges of their C types. *)
Record ti_wf (t : tcpiphdr) : Prop := {
  wf_len : -32768 <= ti_len t < 32768;
  wf_src : 0 <= ti_src t < 4294967296;
  wf_dst : 0 <= ti_dst t < 4294967296;
  wf_sport : 0 <= ti_sport t < 65536;
  wf_dport : 0 <= ti_dport t < 65536;
  wf_seq : 0 <= ti_seq t < 4294967296;
  wf_ack : 0 <= ti_ack t < 4294967296;
  wf_off : 0 <= ti_off t < 16;
  wf_flags : 0 <= ti_flags t < 256;
  wf_win : 0 <= ti_win t < 65536;
  wf_sum : 0 <= ti_sum t < 65536;
  wf_urp : 0 <= ti_urp t < 65536
}.

(** What tcp_input does to the first bytes of the packet before it checks the sum:
    the words of the IP header that are not part of the pseudo header are cleared
    and the TCP length is stored. *)
Definition overlay (tlen : Z) (l : list Z) : list Z :=
  [0; 0; 0; 0; 0; 0; 0; 0; 0; get l 9] ++ be16 tlen ++ drop 12 l.

(** ** Round trip *)

Lemma encode_len t : length (encode_ti t) = 40%nat.
Proof. done. Qed.

Lemma decode_app t l : decode_ti (encode_ti t ++ l) = decode_ti (encode_ti t).
Proof. done. Qed.

Lemma rd16_be v : 0 <= v < 65536 -> (v / 256) mod 256 * 256 + v mod 256 = v.
Proof. intros. Z.to_euclidean_division_equations. lia. Qed.
Lemma rd32_be v :
  0 <= v < 4294967296 ->
  (v / 16777216) mod 256 * 16777216 + (v / 65536) mod 256 * 65536 +
  (v / 256) mod 256 * 256 + v mod 256 = v.
Proof. intros. Z.to_euclidean_division_equations. lia. Qed.

Lemma decode_encode t : ti_wf t -> decode_ti (encode_ti t) = t.
Proof.
  intros []. destruct t.
  cbn [ti_len ti_src ti_dst ti_sport ti_dport ti_seq ti_ack ti_off ti_flags ti_win ti_sum ti_urp] in *.
  cbv -[Z.div Z.modulo Z.mul Z.add Z.sub s16].
  f_equal; try (by apply rd16_be); try (by apply rd32_be).
  - wrap_lia.
  - Z.to_euclidean_division_equations. lia.
  - by rewrite Z.mod_small.
  - Z.to_euclidean_division_equations. lia.
Qed.

Lemma encode_bytes t : Forall is_byte (encode_ti t).
Proof.
  unfold encode_ti, hdr_front, be16, be32, le16. simpl.
  repeat constructor; try lia; apply Z.mod_pos_bound; lia.
Qed.

Lemma hdr_front_even t : Z.odd (zlen (hdr_front t)) = false.
Proof. done. Qed.

(** A segment whose sum field is the checksum of the segment with a zero sum
    verifies: the test of tcp_input yields 0. *)
Lemma sum_verifies t rest :
  Forall is_byte rest -> 40 + zlen rest <= 65535 ->
  let c := cksum_ref (encode_ti (t <| ti_sum := 0 |>) ++ rest) in
  cksum_ref (encode_ti (t <| ti_sum := c |>) ++ rest) = 0.
Proof.
  intros Hr Hl c.
  assert (Hc : 0 <= c <= 65535).
  { unfold c, cksum_ref. pose proof (oc_norm_range (ws false (encode_ti (t <| ti_sum := 0 |>) ++ rest))). lia. }
  unfold encode_ti in *. rec_simpl. change (hdr_front (t <| ti_sum := ?v |>)) with (hdr_front t) in *.
  rewrite <- !app_assoc in *. unfold le16.
  replace ((c / 256) mod 256) with (c / 256) by (Z.to_euclidean_division_equations; lia).
  apply (cksum_ref_verifies (hdr_front t) (be16 (ti_urp t) ++ rest)).
  - unfold hdr_front, be16, be32. simpl. repeat constructor; try lia; apply Z.mod_pos_bound; lia.
  - apply Forall_app. split; [|done]. unfold be16. repeat constructor; apply Z.mod_pos_bound; lia.
  - done.
Qed.

(** The TCP/IP header survives the wire: for a header whose fields are in the
    ranges of their types and any data, storing the checksum of the segment taken with
    a zero sum field gives bytes that a receiver decodes to that same header, and its
    checksum test over the whole segment yields 0. *)
Theorem header_roundtrip t rest :
  ti_wf t -> Forall is_byte rest -> 40 + zlen rest <= 65535 ->
  let t' := t <| ti_sum := cksum_ref (encode_ti (t <| ti_sum := 0 |>) ++ rest) |> in
  decode_ti (encode_ti t' ++ rest) = t' /\ cksum_ref (encode_ti t' ++ rest) = 0.
Proof.
  intros Hwf Hr Hl. cbv zeta. split; [|by apply sum_verifies].
  pose proof (cksum_ref_range (encode_ti (t <| ti_sum := 0 |>) ++ rest)) as Hc.
  generalize dependent (cksum_ref (encode_ti (t <| ti_sum := 0 |>) ++ rest)). intros c Hc.
  rewrite decode_app. apply decode_encode. destruct Hwf. split; rec_simpl; done.
Qed.

Lemma header_roundtrip_witness :
  let t' := mkTi 23 10 20 1024 80 1000 5000 5 24 8192
    (cksum_ref (encode_ti (mkTi 23 10 20 1024 80 1000 5000 5 24 8192 0 0) ++ [1; 2; 3])) 0 in
  decode_ti (encode_ti t' ++ [1; 2; 3]) = t' /\ cksum_ref (encode_ti t' ++ [1; 2; 3]) = 0.
Proof.
  apply (header_roundtrip (mkTi 23 10 20 1024 80 1000 5000 5 24 8192 0 0) [1; 2; 3]);
    [split; vm_compute; intuition congruence|repeat constructor; vm_compute; congruence|vm_compute; congruence].
Defined.

End TcpHdr.
