(* ===== verification/TcpSubr.v ===== *)
(** TCP subroutines (src/sys/netinet/tcp_subr.c, tcp_mss and tcp_xmit_timer of
    tcp_input.c, tcp_setpersist of tcp_output.c, tcp_canceltimers of
    tcp_timer.c, and the parts of in_pcbdetach and sofree they reach). *)
From S2P Require Import Prelude TcpSeq Mbuf Cksum SockBuf Socket TcpVar Sample TcpHdr.
Import TcpSeq Mbuf Cksum SockBuf Socket TcpVar Sample TcpHdr.

Module TcpSubr.

(** ** The lower layer *)

(** A call of ip_output: the next result of [ip_err], 0 when it is exhausted. *)
Definition ip_output (k : kst) (p : packet) : Z * kst :=
  let k := k <| sent := p :: sent k |> in
  match ip_err k with
  | [] => (0, k)
  | e :: es => (e, k <| ip_err := es |>)
  end.

(** ** Templates and responses *)

Definition tcp_template (k : kst) : option tcpiphdr * kst :=
  let n := {| ti_len := sizeof_tcpiphdr - sizeof_ip;
              ti_src := inp_laddr (inp k); ti_dst := inp_faddr (inp k);
              ti_sport := inp_lport (inp k); ti_dport := inp_fport (inp k);
              ti_seq := 0; ti_ack := 0; ti_off := 5; ti_flags := 0; ti_win := 0;
              ti_sum := 0; ti_urp := 0 |} in
  match t_template (tp k) with
  | Some _ => (Some n, k)
  | None =>
      match m_get (pool k) MT_HEADER with
      | (None, p) => (None, k <| pool := p |>)
      | (Some _, p) => (Some n, k <| pool := p |>)
      end
  end.

(** The end of [tcp_respond]: fill in the header, checksum, send. *)
Definition respond_send (usetp : bool) (k : kst) (m : mbuf) (ti : tcpiphdr) (win ack seq flags : Z) : kst :=
  let ti := {| ti_len := s16 sizeof_tcphdr; ti_src := ti_src ti; ti_dst := ti_dst ti;
               ti_sport := ti_sport ti; ti_dport := ti_dport ti;
               ti_seq := u32 seq; ti_ack := u32 ack; ti_off := Z.shiftr sizeof_tcphdr 2; ti_flags := u8 flags;
               ti_win := if usetp then u16 (Z.shiftr win (rcv_scale (tp k))) else u16 win;
               ti_sum := 0; ti_urp := 0 |} in
  let m := m <| m_bytes := encode_ti ti |> <| m_pktlen := sizeof_tcpiphdr |> <| m_rcvif := 0 |> in
  let ti := ti <| ti_sum := in_cksum [m] sizeof_tcpiphdr |> in
  let m := m <| m_bytes := encode_ti ti |> in
  snd (ip_output k (mkPkt ti [] [] [m] sizeof_tcpiphdr (ip_defttl (glob k)) 0 [] 0)).

(** [tcp_respond]: [usetp] is whether [tp] is not null.  With [om = None] a header
    mbuf is allocated and the segment is an ACK; with [om = Some (m, rest)] the
    mbuf [m] that held [ti] is reused and [rest], the mbufs after it, freed. *)
Definition tcp_respond (usetp : bool) (k : kst) (ti : tcpiphdr) (om : option (mbuf * chain))
    (ack seq flags : Z) : kst :=
  let win := if usetp then sbspace (so_rcv (so k)) else 0 in
  match om with
  | None =>
      match m_gethdr (pool k) MT_HEADER with
      | (None, p) => k <| pool := p |>
      | (Some m, p) =>
          respond_send usetp (k <| pool := p |>) (m <| m_off := m_off m + max_linkhdr (glob k) |>)
            ti win ack seq TH_ACK
      end
  | Some (m, rest) =>
      let k := k <| pool := m_freem (pool k) rest |> in
      let ti := ti <| ti_dst := ti_src ti |> <| ti_src := ti_dst ti |>
                   <| ti_dport := ti_sport ti |> <| ti_sport := ti_dport ti |> in
      respond_send usetp k m ti win ack seq flags
  end.

(** ** Creating a control block *)

Definition tcp_newtcpcb (g : tcp_globals) : tcpcb :=
  {| seg_q := []; t_state := TCPS_CLOSED; tm_rexmt := 0; tm_persist := 0; tm_keep := 0; tm_2msl := 0;
     t_rxtshift := 0;
     t_rxtcur := TCPT_RANGESET (Z.shiftr (Z.shiftr TCPTV_SRTTBASE 2 + Z.shiftl TCPTV_SRTTDFLT 2) 1)
                   TCPTV_MIN TCPTV_REXMTMAX;
     t_dupacks := 0; t_maxseg := u16 (tcp_mssdflt g); t_force := 0;
     t_flags := if tcp_do_rfc1323 g then Z.lor TF_REQ_SCALE TF_REQ_TSTMP else 0;
     t_template := None;
     snd_una := 0; snd_nxt := 0; snd_up := 0; snd_wl1 := 0; snd_wl2 := 0; iss := 0;
     snd_wnd := 0; rcv_wnd := 0; rcv_nxt := 0; rcv_up := 0; irs := 0; rcv_adv := 0; snd_max := 0;
     snd_cwnd := Z.shiftl TCP_MAXWIN TCP_MAX_WINSHIFT;
     snd_ssthresh := Z.shiftl TCP_MAXWIN TCP_MAX_WINSHIFT;
     t_idle := 0; t_rtt := 0; t_rtseq := 0; t_srtt := TCPTV_SRTTBASE;
     t_rttvar := s16 (Z.shiftl (tcp_rttdflt g * PR_SLOWHZ) 2); t_rttmin := TCPTV_MIN;
     max_sndwnd := 0; t_oobflags := 0; t_iobc := 0; t_softerror := 0;
     snd_scale := 0; rcv_scale := 0; request_r_scale := 0; requested_s_scale := 0;
     ts_recent := 0; ts_recent_age := 0; last_ack_sent := 0 |}.

(** ** Timers *)

Definition tcp_canceltimers (k : kst) : kst :=
  k <t| tm_rexmt := 0 |> <t| tm_persist := 0 |> <t| tm_keep := 0 |> <t| tm_2msl := 0 |>.

(** [tcp_setpersist]: it panics when the retransmit timer runs. *)
Definition tcp_setpersist (k : kst) : outcome kst :=
  let t := Z.shiftr (Z.shiftr (t_srtt (tp k)) 2 + t_rttvar (tp k)) 1 in
  if negb (tm_rexmt (tp k) =? 0) then Panic "tcp_output REXMT"
  else
    let k := k <t| tm_persist := TCPT_RANGESET (t * tcp_backoff (t_rxtshift (tp k)))
                     TCPTV_PERSMIN TCPTV_PERSMAX |> in
    Ret (if t_rxtshift (tp k) <? TCP_MAXRXTSHIFT
         then k <t| t_rxtshift := t_rxtshift (tp k) + 1 |> else k).

(** The new value of the two estimators for a measured [rtt]. *)
Definition rtt_update (srtt rttvar rtt : Z) : Z * Z :=
  if negb (srtt =? 0) then
    let delta := s16 (rtt - 1 - Z.shiftr srtt TCP_RTT_SHIFT) in
    let srtt := s16 (srtt + delta) in
    let srtt := if srtt <=? 0 then 1 else srtt in
    let delta := if delta <? 0 then s16 (- delta) else delta in
    let delta := s16 (delta - Z.shiftr rttvar TCP_RTTVAR_SHIFT) in
    let rttvar := s16 (rttvar + delta) in
    (srtt, if rttvar <=? 0 then 1 else rttvar)
  else (s16 (Z.shiftl rtt TCP_RTT_SHIFT), s16 (Z.shiftl rtt (TCP_RTTVAR_SHIFT - 1))).

Definition tcp_xmit_timer (k : kst) (rtt : Z) : kst :=
  let '(srtt, rttvar) := rtt_update (t_srtt (tp k)) (t_rttvar (tp k)) (s16 rtt) in
  let k := k <t| t_srtt := srtt |> <t| t_rttvar := rttvar |> <t| t_rtt := 0 |> <t| t_rxtshift := 0 |> in
  let k := k <t| t_rxtcur := TCPT_RANGESET (TCP_REXMTVAL (tp k)) (t_rttmin (tp k)) TCPTV_REXMTMAX |> in
  k <t| t_softerror := 0 |>.

(** ** Errors from below *)

Definition tcp_quench (k : kst) : kst := k <t| snd_cwnd := t_maxseg (tp k) |>.

Definition tcp_notify (k : kst) (error : Z) : kst :=
  let s := t_state (tp k) in
  if st_eqb s TCPS_ESTABLISHED &&
     ((error =? EHOSTUNREACH) || (error =? ENETUNREACH) || (error =? EHOSTDOWN)) then k
  else
    let k := if (st s <? st TCPS_ESTABLISHED) && (t_rxtshift (tp k) >? 3) && negb (t_softerror (tp k) =? 0)
             then set_so_error_k error k else k <t| t_softerror := s16 error |> in
    k <| so := sowwakeup (sorwakeup (wake W_timeo (so k))) |>.

(** ** The maximum segment size *)

(** [tcp_mss]'s use of the round-trip metrics of the route. *)
Definition mss_rtt (k : kst) (rt : rtentry) : kst :=
  let rtt := s32 (rmx_rtt rt) in
  if (t_srtt (tp k) =? 0) && negb (rtt =? 0) then
    let k := if hasf (rmx_locks rt) RTV_RTT
             then k <t| t_rttmin := u16 (Z.quot rtt (RTM_RTTUNIT / PR_SLOWHZ)) |> else k in
    let k := k <t| t_srtt := s16 (Z.quot rtt (RTM_RTTUNIT / (PR_SLOWHZ * TCP_RTT_SCALE))) |> in
    let k := k <t| t_rttvar :=
      if negb (rmx_rttvar rt =? 0)
      then s16 (rmx_rttvar rt / (RTM_RTTUNIT / (PR_SLOWHZ * TCP_RTTVAR_SCALE)))
      else s16 (Z.quot (t_srtt (tp k) * TCP_RTTVAR_SCALE) TCP_RTT_SCALE) |> in
    k <t| t_rxtcur := TCPT_RANGESET (Z.shiftr (Z.shiftr (t_srtt (tp k)) 2 + t_rttvar (tp k)) 1)
                        (t_rttmin (tp k)) TCPTV_REXMTMAX |>
  else k.

(** The size for the path, before the peer's offer is considered. *)
Definition mss_path (net : net_env) (k : kst) (rt : rtentry) : Z :=
  if negb (rmx_mtu rt =? 0) then s32 (rmx_mtu rt - sizeof_tcpiphdr)
  else
    let mss := s32 (rt_ifmtu rt - sizeof_tcpiphdr) in
    let mss := if mss >? MCLBYTES then clrb mss (MCLBYTES - 1) else mss in
    if negb (in_localaddr net (inp_faddr (inp k))) then s32 (cmin mss (tcp_mssdflt (glob k))) else mss.

Definition roundup (x y : Z) : Z := u32 (u32 (x + (y - 1)) / y * y).

(** The socket buffers are made multiples of the segment size. *)
Definition mss_buffers (k : kst) (rt : rtentry) (mss : Z) : kst * Z :=
  let limit b := if b >? sb_max (glob k) then sb_max (glob k) else b in
  let bufsize := if rmx_sendpipe rt =? 0 then sb_hiwat (so_snd (so k)) else rmx_sendpipe rt in
  let '(k, mss) :=
    if bufsize <? u32 mss then (k, s32 bufsize)
    else (k <s| so_snd := fst (sbreserve (sb_max (glob k)) (so_snd (so k)) (limit (roundup bufsize (u32 mss)))) |>, mss) in
  let k := k <t| t_maxseg := u16 mss |> in
  let bufsize := if rmx_recvpipe rt =? 0 then sb_hiwat (so_rcv (so k)) else rmx_recvpipe rt in
  (if bufsize >? u32 mss
   then k <s| so_rcv := fst (sbreserve (sb_max (glob k)) (so_rcv (so k)) (limit (roundup bufsize (u32 mss)))) |>
   else k, mss).

Definition tcp_mss (net : net_env) (k : kst) (offer : Z) : Z * kst :=
  let k := match inp_route (inp k) with
           | Some _ => k
           | None => if negb (inp_faddr (inp k) =? INADDR_ANY)
                     then k <i| inp_route := rtalloc net (inp_faddr (inp k)) |> else k
           end in
  match inp_route (inp k) with
  | None => (tcp_mssdflt (glob k), k)
  | Some rt =>
      let k := mss_rtt k rt in
      let mss := mss_path net k rt in
      let mss := if negb (offer =? 0) then s32 (cmin mss offer) else mss in
      let mss := s32 (cmax mss 32) in
      let '(k, mss) := if (mss <? t_maxseg (tp k)) || negb (offer =? 0)
                       then mss_buffers k rt mss else (k, mss) in
      let k := k <t| snd_cwnd := u32 mss |> in
      let k := if negb (rmx_ssthresh rt =? 0)
               then k <t| snd_ssthresh := cmax (2 * mss) (rmx_ssthresh rt) |> else k in
      (mss, k)
  end.

(** ** Closing *)

(** The updates of the route's metrics in [tcp_close].  [i] is a local variable
    that the third test can read before it is assigned. *)
Definition close_metrics (net : net_env) (t : tcpcb) (rt : rtentry) : rtentry :=
  let i := uninit net in
  let '(rt, i) :=
    if negb (hasf (rmx_locks rt) RTV_RTT) then
      let i := u32 (t_srtt t * (RTM_RTTUNIT / (PR_SLOWHZ * TCP_RTT_SCALE))) in
      (rt <| rmx_rtt := if negb (rmx_rtt rt =? 0) && negb (i =? 0)
                        then u32 (rmx_rtt rt + i) / 2 else i |>, i)
    else (rt, i) in
  let '(rt, i) :=
    if negb (hasf (rmx_locks rt) RTV_RTTVAR) then
      let i := u32 (t_rttvar t * (RTM_RTTUNIT / (PR_SLOWHZ * TCP_RTTVAR_SCALE))) in
      (rt <| rmx_rttvar := if negb (rmx_rttvar rt =? 0) && negb (i =? 0)
                           then u32 (rmx_rttvar rt + i) / 2 else i |>, i)
    else (rt, i) in
  let '(c, i) := if negb (hasf (rmx_locks rt) RTV_SSTHRESH)
                 then (negb (snd_ssthresh t =? 0) && negb (rmx_ssthresh rt =? 0), snd_ssthresh t)
                 else (false, i) in
  if c || (i <? rmx_sendpipe rt / 2) then
    let i := u32 (i + t_maxseg t / 2) / t_maxseg t in
    let i := if i <? 2 then 2 else i in
    let i := u32 (i * (t_maxseg t + sizeof_tcpiphdr)) in
    rt <| rmx_ssthresh := if negb (rmx_ssthresh rt =? 0) then u32 (rmx_ssthresh rt + i) / 2 else i |>
  else rt.

(** [sofree] of a socket without a pcb: a socket that no file refers to leaves its
    head's queue and its buffers are released ([sorflush] empties the receive
    buffer; a locked buffer would make it sleep). *)
Definition sofree (p : mpool) (s : socket) : outcome (mpool * socket) :=
  if negb (hasf (so_state s) SS_NOFDREF) then Ret (p, s)
  else
    let s := s <| so_inq := Q_none |> in
    let! (p, snd) := sbrelease p (so_snd s) in
    let s := s <| so_snd := snd |> in
    if hasf (sb_flags (so_rcv s)) SB_LOCK then Panic "sorflush: sleep"
    else
      let s := socantrcvmore s in
      let! (p, _) := sbrelease p (so_rcv s) in
      Ret (p, s <| so_rcv := mkSb 0 0 0 0 0 [] 0 |>).

(** The mbufs of the sequencing queue. *)
Definition seg_mbufs (q : list seg) : chain := concat (map sg_m q).

Definition tcp_close (net : net_env) (k : kst) : outcome kst :=
  let t := tp k in
  let k := match inp_route (inp k) with
           | Some rt =>
               if SEQ_LT (u32 (iss t + sb_hiwat (so_snd (so k)) * 16)) (snd_max t) &&
                  negb (rt_key rt =? INADDR_ANY)
               then k <i| inp_route := Some (close_metrics net t rt) |> else k
           | None => k
           end in
  let k := k <| pool := m_freem (pool k) (seg_mbufs (seg_q t)) |> <t| seg_q := [] |> <t| t_template := None |> in
  let k := k <| so := soisdisconnected (so k) |> in
  let! (p, s) := sofree (pool k) (so k) in
  Ret (k <| pool := p |> <| so := s |> <| gone := true |>).

(** ** The round-trip estimators *)

(** The ranges in which the 16-bit estimators never overflow: srtt up to 8 times and
    rttvar up to 4 times the largest sample. *)
Definition est_ok (t : tcpcb) : Prop :=
  0 <= t_srtt t <= 32760 /\ 0 <= t_rttvar t <= 16380.

(** For samples of 1 to 4095 ticks the estimators follow the smoothing formulas
    exactly and stay in their ranges. *)
Lemma rtt_update_ok srtt rttvar rtt :
  0 <= srtt <= 32760 -> 0 <= rttvar <= 16380 -> 1 <= rtt <= 4095 ->
  let '(srtt', rttvar') := rtt_update srtt rttvar rtt in
  1 <= srtt' <= 32760 /\ 1 <= rttvar' <= 16380 /\
  if srtt =? 0 then srtt' = 8 * rtt /\ rttvar' = 2 * rtt
  else srtt' = Z.max 1 (srtt - srtt / 8 + (rtt - 1)) /\
       rttvar' = Z.max 1 (rttvar - rttvar / 4 + Z.abs (rtt - 1 - srtt / 8)).
Proof.
  intros Hs Hv Hr. unfold rtt_update, TCP_RTT_SHIFT, TCP_RTTVAR_SHIFT.
  destruct (Z.eqb_spec srtt 0) as [->|Hn]; simpl negb; cbn iota.
  - rewrite !Z.shiftl_mul_pow2 by lia. change (2 ^ 3) with 8. change (2 ^ (2 - 1)) with 2.
    rewrite !s16_id by lia. lia.
  - rewrite !Z.shiftr_div_pow2 by lia. change (2 ^ 3) with 8. change (2 ^ 2) with 4.
    assert (0 <= srtt / 8 <= 4095) by (Z.to_euclidean_division_equations; lia).
    assert (0 <= rttvar / 4 <= 4095) by (Z.to_euclidean_division_equations; lia).
    assert (srtt - srtt / 8 <= 28665) by (Z.to_euclidean_division_equations; lia).
    assert (rttvar - rttvar / 4 <= 12285) by (Z.to_euclidean_division_equations; lia).
    assert (0 <= srtt - srtt / 8) by (Z.to_euclidean_division_equations; lia).
    assert (0 <= rttvar - rttvar / 4) by (Z.to_euclidean_division_equations; lia).
    generalize dependent (srtt / 8). intros a Ha Ha1 Ha2.
    generalize dependent (rttvar / 4). intros b Hb Hb1 Hb2.
    remember (rtt - 1 - a) as d eqn:Ed. rewrite (s16_id d), (s16_id (srtt + d)) by lia.
    replace (srtt + d) with (srtt - a + (rtt - 1)) by lia.
    destruct (Z.ltb_spec d 0).
    + rewrite (s16_id (- d)), (s16_id (- d - b)), (s16_id (rttvar + (- d - b))) by lia.
      destruct (Z.leb_spec (srtt - a + (rtt - 1)) 0), (Z.leb_spec (rttvar + (- d - b)) 0); lia.
    + rewrite (s16_id (d - b)), (s16_id (rttvar + (d - b))) by lia.
      destruct (Z.leb_spec (srtt - a + (rtt - 1)) 0), (Z.leb_spec (rttvar + (d - b)) 0); lia.
Qed.

(** C39: tcp_xmit_timer takes a round-trip sample: it smooths srtt with gain 1/8 and
    the deviation with gain 1/4 (the first sample initialises them), keeps both 16-bit
    estimators in range without overflow, resets the backoff and the soft error, and
    sets the retransmission timeout to srtt + 4 * deviation clamped between the
    connection's minimum and TCPTV_REXMTMAX. *)
Theorem tcp_xmit_timer_ok k rtt :
  est_ok (tp k) -> 1 <= rtt <= 4095 -> 0 <= t_rttmin (tp k) <= TCPTV_REXMTMAX ->
  let k' := tcp_xmit_timer k rtt in
  est_ok (tp k') /\ t_rtt (tp k') = 0 /\ t_rxtshift (tp k') = 0 /\ t_softerror (tp k') = 0 /\
  t_rxtcur (tp k') = Z.max (t_rttmin (tp k)) (Z.min TCPTV_REXMTMAX (t_srtt (tp k') / 8 + t_rttvar (tp k'))) /\
  if t_srtt (tp k) =? 0 then t_srtt (tp k') = 8 * rtt /\ t_rttvar (tp k') = 2 * rtt
  else t_srtt (tp k') = Z.max 1 (t_srtt (tp k) - t_srtt (tp k) / 8 + (rtt - 1)) /\
       t_rttvar (tp k') =
         Z.max 1 (t_rttvar (tp k) - t_rttvar (tp k) / 4 + Z.abs (rtt - 1 - t_srtt (tp k) / 8)).
Proof.
  intros [Hs Hv] Hr Hm. unfold tcp_xmit_timer.
  rewrite (s16_id rtt) by lia. pose proof (rtt_update_ok _ _ rtt Hs Hv Hr) as H.
  destruct (rtt_update _ _ _) as [srtt' rttvar']. destruct H as (H1 & H2 & Hf).
  unfold est_ok, TCP_REXMTVAL, TCPTV_REXMTMAX, TCP_RTT_SHIFT in *. rec_simpl.
  rewrite Z.shiftr_div_pow2 by lia. change (2 ^ 3) with 8.
  assert (0 <= srtt' / 8 <= 4095) by (Z.to_euclidean_division_equations; lia).
  split_and!; try lia; [|exact Hf]. unfold TCPT_RANGESET. rewrite s16_id by lia.
  repeat case_match; rewrite ?s16_id by lia; lia.
Qed.

Lemma tcp_xmit_timer_witness :
  let k' := tcp_xmit_timer (k0 []) 5 in
  t_srtt (tp k') = 40 /\ t_rttvar (tp k') = 10 /\ t_rxtcur (tp k') = 15.
Proof.
  pose proof (tcp_xmit_timer_ok (k0 []) 5 ltac:(unfold est_ok; simpl; lia) ltac:(lia) ltac:(vm_compute; intuition congruence)) as H.
  split_and!; [apply H..|reflexivity].
Defined.

(** ** The persist timer *)

Lemma tcp_backoff_range n : 0 <= n <= 12 -> 1 <= tcp_backoff n <= 64.
Proof.
  intros. unfold tcp_backoff.
  assert (forall m, (m <= 12)%nat -> 1 <= nth m [1; 2; 4; 8; 16; 32; 64; 64; 64; 64; 64; 64; 64] 0 <= 64) as H'.
  { intros m Hm. do 13 (destruct m as [|m]; [simpl; lia|]). lia. }
  apply H'. lia.
Qed.

(** tcp_setpersist starts the persist timer with a value between TCPTV_PERSMIN
    and TCPTV_PERSMAX, whatever the estimators hold, backs off one step further up to
    TCP_MAXRXTSHIFT and changes nothing else; called while the retransmission timer
    runs it panics, so the two timers never run together. *)
Theorem tcp_setpersist_ok k :
  0 <= t_rxtshift (tp k) <= TCP_MAXRXTSHIFT ->
  (tm_rexmt (tp k) = 0 ->
   exists k', tcp_setpersist k = Ret k' /\ TCPTV_PERSMIN <= tm_persist (tp k') <= TCPTV_PERSMAX /\
    t_rxtshift (tp k') = Z.min TCP_MAXRXTSHIFT (t_rxtshift (tp k) + 1) /\
    k' = k <t| tm_persist := tm_persist (tp k') |> <t| t_rxtshift := t_rxtshift (tp k') |>) /\
  (tm_rexmt (tp k) <> 0 -> tcp_setpersist k = Panic "tcp_output REXMT").
Proof.
  intros Hs. unfold tcp_setpersist. split; [intros Hr; rewrite Hr|intros; by destruct (Z.eqb_spec (tm_rexmt (tp k)) 0)].
  cbn [Z.eqb negb]. cbn iota. eexists. split; [done|]. rec_simpl.
  assert (TCPTV_PERSMIN <= TCPT_RANGESET
    (Z.shiftr (Z.shiftr (t_srtt (tp k)) 2 + t_rttvar (tp k)) 1 * tcp_backoff (t_rxtshift (tp k)))
    TCPTV_PERSMIN TCPTV_PERSMAX <= TCPTV_PERSMAX) by (apply rangeset_bounds; unfold TCPTV_PERSMIN, TCPTV_PERSMAX; lia).
  unfold TCP_MAXRXTSHIFT in *. destruct (Z.ltb_spec (t_rxtshift (tp k)) 12); rec_simpl.
  - split_and!; try lia. done.
  - split_and!; try lia. by destruct k as [[] ? ? ? ? ? ? ?].
Qed.

Lemma tcp_setpersist_witness :
  exists k', tcp_setpersist (k0 []) = Ret k' /\ TCPTV_PERSMIN <= tm_persist (tp k') <= TCPTV_PERSMAX /\
    t_rxtshift (tp k') = Z.min TCP_MAXRXTSHIFT (t_rxtshift (tp (k0 [])) + 1) /\
    k' = (k0 []) <t| tm_persist := tm_persist (tp k') |> <t| t_rxtshift := t_rxtshift (tp k') |>.
Proof. apply (tcp_setpersist_ok (k0 [])); [vm_compute; intuition congruence|reflexivity]. Defined.

(** ** Responses *)

(** The bytes of a packet and what the receiver's checksum test computes. *)
Definition pkt_sum (p : packet) : Z := in_cksum (pk_m p) (chain_len (pk_m p)).

Lemma respond_send_ok usetp k m ti win ack seq flags :
  ti_wf ti -> 0 <= flags < 256 ->
  exists p, sent (respond_send usetp k m ti win ack seq flags) = p :: sent k /\
    pkt_sum p = 0 /\ chain_bytes (pk_m p) = encode_ti (pk_ti p) /\
    decode_ti (chain_bytes (pk_m p)) = pk_ti p /\
    ti_seq (pk_ti p) = u32 seq /\ ti_ack (pk_ti p) = u32 ack /\ ti_flags (pk_ti p) = flags /\
    ti_src (pk_ti p) = ti_src ti /\ ti_dst (pk_ti p) = ti_dst ti /\
    ti_sport (pk_ti p) = ti_sport ti /\ ti_dport (pk_ti p) = ti_dport ti.
Proof.
  intros Hwf Hfl. unfold respond_send.
  match goal with |- context [encode_ti ?t] => set (t0 := t) end.
  set (m0 := m <| m_bytes := encode_ti t0 |> <| m_pktlen := _ |> <| m_rcvif := 0 |>).
  assert (Hc : in_cksum [m0] sizeof_tcpiphdr = cksum_ref (encode_ti t0)).
  { unfold sizeof_tcpiphdr. rewrite in_cksum_spec; rewrite ?chain_bytes_one; unfold m0; rec_simpl.
    - rewrite ztake_ge; [done|by unfold zlen].
    - apply encode_bytes.
    - lia. }
  rewrite Hc. remember (cksum_ref (encode_ti t0)) as c eqn:Ec.
  assert (Hcr : 0 <= c < 65536) by (rewrite Ec; apply cksum_ref_range).
  set (t1 := t0 <| ti_sum := c |>).
  assert (Hwf1 : ti_wf t1).
  { clearbody m0. clear -Hwf Hfl Hcr. destruct Hwf. unfold t1, t0, setf, set_ti_sum.
    split; cbn [ti_len ti_src ti_dst ti_sport ti_dport ti_seq ti_ack ti_off ti_flags ti_win ti_sum ti_urp];
      auto using u32_range, u16_range; try done.
    - rewrite u8_id; lia.
    - destruct usetp; apply u16_range. }
  set (m1 := m0 <| m_bytes := encode_ti t1 |>).
  assert (Hb : chain_bytes [m1] = encode_ti t1) by (by rewrite chain_bytes_one).
  eexists (mkPkt t1 [] [] [m1] _ _ _ _ _).
  split; [unfold ip_output; destruct (ip_err _); reflexivity|].
  unfold pkt_sum. cbn [pk_ti pk_m]. rewrite Hb.
  split_and!; try done.
  - unfold chain_len. rewrite Hb. change (zlen (encode_ti t1)) with 40.
    rewrite in_cksum_spec by (rewrite ?Hb; auto using encode_bytes; lia). rewrite Hb, ztake_ge by done.
    pose proof (sum_verifies t0 [] ltac:(constructor) ltac:(done)) as Hv.
    rewrite !app_nil_r in Hv. unfold t1. rewrite Ec. exact Hv.
  - by apply decode_encode.
  - unfold t1, t0. rec_simpl. apply u8_id. lia.
Qed.

(** a segment that tcp_respond builds (a reset, a keep-alive probe or an
    acknowledgement) is a well-formed TCP segment: the packet is a TCP/IP header alone,
    it carries the sequence number, acknowledgement and flags asked for and the
    addresses and ports of the template, a receiver decodes exactly that header, and
    its checksum verifies. *)
Theorem respond_packet_ok usetp k m ti win ack seq flags :
  ti_wf ti -> 0 <= flags < 256 ->
  exists p, sent (respond_send usetp k m ti win ack seq flags) = p :: sent k /\
    pkt_sum p = 0 /\ chain_bytes (pk_m p) = encode_ti (pk_ti p) /\
    decode_ti (chain_bytes (pk_m p)) = pk_ti p /\
    ti_seq (pk_ti p) = u32 seq /\ ti_ack (pk_ti p) = u32 ack /\ ti_flags (pk_ti p) = flags /\
    ti_src (pk_ti p) = ti_src ti /\ ti_dst (pk_ti p) = ti_dst ti /\
    ti_sport (pk_ti p) = ti_sport ti /\ ti_dport (pk_ti p) = ti_dport ti.
Proof. apply respond_send_ok. Qed.

Lemma tmpl0_wf : ti_wf tmpl0.
Proof. split; vm_compute; intuition congruence. Qed.

Lemma respond_packet_witness :
  exists p, sent (respond_send false (k0 []) (dmb []) tmpl0 0 5000 999 TH_ACK) = [p] /\
    pkt_sum p = 0 /\ chain_bytes (pk_m p) = encode_ti (pk_ti p) /\
    decode_ti (chain_bytes (pk_m p)) = pk_ti p /\
    ti_seq (pk_ti p) = u32 999 /\ ti_ack (pk_ti p) = u32 5000 /\ ti_flags (pk_ti p) = TH_ACK /\
    ti_src (pk_ti p) = 10 /\ ti_dst (pk_ti p) = 20 /\ ti_sport (pk_ti p) = 1024 /\ ti_dport (pk_ti p) = 80.
Proof. apply (respond_packet_ok false (k0 []) (dmb []) tmpl0 0 5000 999 TH_ACK tmpl0_wf). vm_compute; intuition congruence. Defined.

(** ** Closing *)

(** The locks on the round-trip metrics. *)
Lemma close_metrics_rtt net t rt :
  (hasf (rmx_locks rt) RTV_RTT = true -> rmx_rtt (close_metrics net t rt) = rmx_rtt rt) /\
  (hasf (rmx_locks rt) RTV_RTTVAR = true -> rmx_rttvar (close_metrics net t rt) = rmx_rttvar rt).
Proof.
  unfold close_metrics.
  destruct (hasf (rmx_locks rt) RTV_RTT) eqn:E1; cbn [negb]; cbv beta iota zeta; rec_simpl;
    destruct (hasf (rmx_locks rt) RTV_RTTVAR) eqn:E2; cbn [negb]; cbv beta iota zeta; rec_simpl;
    destruct (hasf (rmx_locks rt) RTV_SSTHRESH); cbn [negb]; cbv beta iota zeta;
    case_match; rec_simpl; split; intros; done.
Qed.

(** C40: tcp_close saves what it learned in the route but honours the user's locks on the
    round-trip time and its variance: a locked metric keeps its value whatever the
    connection measured.  The lock on ssthresh is not honoured: the third test of the
    code falls through to a comparison that does not look at it, here with a value that
    was never assigned, and a route with every metric locked gets a new ssthresh. *)
Theorem close_metrics_locks net t rt :
  (hasf (rmx_locks rt) RTV_RTT = true -> rmx_rtt (close_metrics net t rt) = rmx_rtt rt) /\
  (hasf (rmx_locks rt) RTV_RTTVAR = true -> rmx_rttvar (close_metrics net t rt) = rmx_rttvar rt) /\
  let r := mkRt (Z.lor RTV_RTT (Z.lor RTV_RTTVAR RTV_SSTHRESH)) 0 0 65536 8192 0 0 1500 1 in
  rmx_ssthresh (close_metrics net0 tp0 r) <> rmx_ssthresh r.
Proof. destruct (close_metrics_rtt net t rt). split_and!; [done|done|vm_compute; congruence]. Qed.

End TcpSubr.
