(* ===== verification/TcpReass.v ===== *)
(** The sequencing queue (tcp_reass and the macro TCP_REASS of
    src/sys/netinet/tcp_input.c).

    The circular list between seg_next and seg_prev is the list [seg_q]; insque
    and remque are insertion in and deletion from it. *)
From S2P Require Import Prelude TcpSeq Mbuf SockBuf Socket TcpVar Sample.
Import TcpSeq Mbuf SockBuf Socket TcpVar.

Module TcpReass.

(** Find a segment which begins after this one does. *)
Fixpoint reass_split (q : list seg) (seq : Z) : list seg * list seg :=
  match q with
  | [] => ([], [])
  | x :: q' => if SEQ_GT (ti_seq (sg_ti x)) seq then ([], q)
               else let '(a, b) := reass_split q' seq in (x :: a, b)
  end.

(** [m_adj(m, i); ti_len -= i; ti_seq += i] *)
Definition seg_trim (x : seg) (i : Z) : seg :=
  mkSeg ((sg_ti x) <| ti_len := s16 (ti_len (sg_ti x) - i) |> <| ti_seq := u32 (ti_seq (sg_ti x) + i) |>)
        (m_adj (sg_m x) i).

Definition seg_end (x : seg) : Z := u32 (ti_seq (sg_ti x) + ti_len (sg_ti x)).

(** What the preceding segment leaves of the new one: [None] when it provides all
    of its data. *)
Definition reass_prev (prev : option seg) (x : seg) : option seg :=
  match prev with
  | None => Some x
  | Some q =>
      let i := s32 (seg_end q - ti_seq (sg_ti x)) in
      if i >? 0 then if i >=? ti_len (sg_ti x) then None else Some (seg_trim x i) else Some x
  end.

(** While we overlap succeeding segments trim them or, if they are completely
    covered, dequeue them. *)
Fixpoint reass_next (p : mpool) (x : seg) (q : list seg) : mpool * list seg :=
  match q with
  | [] => (p, [])
  | y :: q' =>
      let i := s32 (seg_end x - ti_seq (sg_ti y)) in
      if i <=? 0 then (p, q)
      else if i <? ti_len (sg_ti y) then (p, seg_trim y i :: q')
      else reass_next (m_freem p (sg_m y)) x q'
  end.

Fixpoint seg_last (q : list seg) : option seg :=
  match q with [] => None | [x] => Some x | _ :: q' => seg_last q' end.

(** Insertion of a segment: the new queue, or [None] when the segment is dropped. *)
Definition reass_insert (p : mpool) (q : list seg) (x : seg) : mpool * option (list seg) :=
  let '(before, after) := reass_split q (ti_seq (sg_ti x)) in
  match reass_prev (seg_last before) x with
  | None => (m_freem p (sg_m x), None)
  | Some x =>
      let '(p, after) := reass_next p x after in
      (p, Some (before ++ x :: after))
  end.

(** The do loop at [present]: deliver the segments that continue [nxt]. *)
Fixpoint reass_deliver (p : mpool) (s : socket) (nxt flags : Z) (q : list seg)
    : mpool * socket * Z * Z * list seg :=
  match q with
  | x :: q' =>
      if ti_seq (sg_ti x) =? nxt then
        let '(p, s) := if hasf (so_state s) SS_CANTRCVMORE then (m_freem p (sg_m x), s)
                       else let '(p, sb) := sbappend p (so_rcv s) (sg_m x) in (p, s <| so_rcv := sb |>) in
        reass_deliver p s (u32 (nxt + ti_len (sg_ti x))) (Z.land (ti_flags (sg_ti x)) TH_FIN) q'
      else (p, s, nxt, flags, q)
  | [] => (p, s, nxt, flags, [])
  end.

Definition reass_present (k : kst) : kst * Z :=
  let t := tp k in
  if negb (TCPS_HAVERCVDSYN (t_state t)) then (k, 0)
  else match seg_q t with
       | [] => (k, 0)
       | x :: _ =>
           if negb (ti_seq (sg_ti x) =? rcv_nxt t) then (k, 0)
           else if st_eqb (t_state t) TCPS_SYN_RECEIVED && negb (ti_len (sg_ti x) =? 0) then (k, 0)
           else
             let '(p, s, nxt, flags, q) := reass_deliver (pool k) (so k) (rcv_nxt t) 0 (seg_q t) in
             (k <| pool := p |> <| so := sorwakeup s |> <t| rcv_nxt := nxt |> <t| seg_q := q |>, flags)
       end.

(** [tcp_reass]: [None] is the call with a null [ti], which presents the data
    received before the connection was established. *)
Definition tcp_reass (k : kst) (o : option seg) : kst * Z :=
  match o with
  | None => reass_present k
  | Some x =>
      match reass_insert (pool k) (seg_q (tp k)) x with
      | (p, None) => (k <| pool := p |>, 0)
      | (p, Some q) => reass_present (k <| pool := p |> <t| seg_q := q |>)
      end
  end.

(** The macro [TCP_REASS]: the segment that is the next to be received on an
    established connection with an empty queue is not queued. *)
Definition TCP_REASS (k : kst) (ti : tcpiphdr) (m : chain) : kst * Z :=
  let t := tp k in
  if (ti_seq ti =? rcv_nxt t) && bool_decide (length (seg_q t) = 0%nat) &&
     st_eqb (t_state t) TCPS_ESTABLISHED then
    let k := tf_set TF_DELACK k in
    let k := k <t| rcv_nxt := u32 (rcv_nxt t + ti_len ti) |> in
    let '(p, sb) := sbappend (pool k) (so_rcv (so k)) m in
    let k := k <| pool := p |> <s| so_rcv := sb |> in
    (k <| so := sorwakeup (so k) |>, Z.land (ti_flags ti) TH_FIN)
  else
    let '(k, flags) := tcp_reass k (Some (mkSeg ti m)) in
    (tf_set TF_ACKNOW k, flags).

(** ** The stream a queue holds parts of

    The peer sends the bytes [str 0], [str 1], ... of a stream that ends at
    position [eos].  Position [a] of the stream has sequence number [u32 a]. *)
Section Stream.
Context (str : Z -> Z) (eos : Z).

Definition bytes_at (a n : Z) : list Z := str <$> seqZ a n.

(** Segment [x] holds the part of the stream that starts at [a], and a FIN only
    when it reaches the end. *)
Record genuine (a : Z) (x : seg) : Prop := {
  gn_seq : ti_seq (sg_ti x) = u32 a;
  gn_len : ti_len (sg_ti x) = chain_len (sg_m x);
  gn_short : ti_len (sg_ti x) < 32768;
  gn_data : chain_bytes (sg_m x) = bytes_at a (ti_len (sg_ti x));
  gn_end : a + ti_len (sg_ti x) <= eos;
  gn_fin : hasf (ti_flags (sg_ti x)) TH_FIN = true -> a + ti_len (sg_ti x) = eos;
  gn_wf : Forall m_wf (sg_m x)
}.

(** A queue with the positions of its segments: in stream order, without overlap,
    between [lo] and [hi]. *)
Fixpoint in_order (lo hi : Z) (q : list (Z * seg)) : Prop :=
  match q with
  | [] => lo <= hi
  | (a, x) :: q' => lo <= a /\ genuine a x /\ in_order (a + ti_len (sg_ti x)) hi q'
  end.

(** Position [z] is covered by a queued segment. *)
Definition covers (q : list (Z * seg)) (z : Z) : Prop :=
  Exists (fun '(a, x) => a <= z < a + ti_len (sg_ti x)) q.

Lemma bytes_at_len a n : 0 <= n -> zlen (bytes_at a n) = n.
Proof. intros. unfold bytes_at, zlen. rewrite length_fmap, length_seqZ. lia. Qed.
Lemma bytes_at_app a n m : 0 <= n -> 0 <= m -> bytes_at a (n + m) = bytes_at a n ++ bytes_at (a + n) m.
Proof. intros. unfold bytes_at. by rewrite seqZ_app, fmap_app by lia. Qed.
Lemma bytes_at_drop a n i : 0 <= i <= n -> zdrop i (bytes_at a n) = bytes_at (a + i) (n - i).
Proof.
  intros. replace n with (i + (n - i)) at 1 by lia. rewrite bytes_at_app by lia.
  rewrite zdrop_app_ge by (rewrite bytes_at_len; lia). rewrite bytes_at_len by lia.
  rewrite zdrop_le0; [done|lia].
Qed.
Lemma bytes_at_0 a : bytes_at a 0 = [].
Proof. done. Qed.

Lemma genuine_nonneg a x : genuine a x -> 0 <= ti_len (sg_ti x) < 32768.
Proof. intros []. rewrite gn_len0 in *. pose proof (chain_len_nonneg (sg_m x)). lia. Qed.

Lemma genuine_trim a x i :
  genuine a x -> 0 <= i <= ti_len (sg_ti x) ->
  genuine (a + i) (seg_trim x i) /\ ti_len (sg_ti (seg_trim x i)) = ti_len (sg_ti x) - i.
Proof.
  intros H Hi. pose proof (genuine_nonneg _ _ H) as Hn. destruct H as [Hs Hl Hsh Hd He Hf Hw].
  assert (El : ti_len (sg_ti (seg_trim x i)) = ti_len (sg_ti x) - i).
  { unfold seg_trim. simpl. rec_simpl. apply s16_id. lia. }
  assert (Eb : chain_bytes (sg_m (seg_trim x i)) = zdrop i (chain_bytes (sg_m x))).
  { unfold seg_trim. simpl. rewrite m_adj_bytes. destruct (Z.geb_spec i 0); [done|lia]. }
  split; [|done]. split; rewrite ?El.
  - unfold seg_trim. simpl. rec_simpl. by rewrite Hs, u32_add_l.
  - unfold chain_len. rewrite Eb, zlen_zdrop. unfold chain_len in Hl. lia.
  - lia.
  - by rewrite Eb, Hd, bytes_at_drop.
  - lia.
  - unfold seg_trim. simpl. intros Hfin. rewrite <- (Hf Hfin). lia.
  - simpl. apply m_adj_pos_wf; [lia|done].
Qed.

Lemma in_order_le lo hi q : in_order lo hi q -> lo <= hi.
Proof.
  revert lo. induction q as [|[a x] q IH]; intros lo H; simpl in H; [done|].
  destruct H as (Hlo & Hg & Hr). apply IH in Hr. pose proof (genuine_nonneg _ _ Hg). lia.
Qed.
Lemma in_order_weaken lo lo' hi q : in_order lo hi q -> lo' <= lo -> in_order lo' hi q.
Proof. destruct q as [|[a x] q]; simpl; [lia|]. intros (? & ? & ?) ?. split_and!; try done. lia. Qed.
Lemma covers_bounds lo hi q z : in_order lo hi q -> covers q z -> lo <= z < hi.
Proof.
  revert lo. induction q as [|[a x] q IH]; intros lo H Hc; [by apply Exists_nil in Hc|].
  destruct H as (Hlo & Hg & Hr). pose proof (in_order_le _ _ _ Hr).
  apply Exists_cons in Hc as [Hc|Hc]; [lia|]. apply (IH _ Hr) in Hc.
  pose proof (genuine_nonneg _ _ Hg). lia.
Qed.

(** Where a queue that starts at [lo] ends. *)
Fixpoint qend (lo : Z) (q : list (Z * seg)) : Z :=
  match q with [] => lo | (a, x) :: q' => qend (a + ti_len (sg_ti x)) q' end.

Lemma in_order_app lo hi q1 q2 :
  in_order lo hi (q1 ++ q2) <-> in_order lo (qend lo q1) q1 /\ in_order (qend lo q1) hi q2.
Proof.
  revert lo. induction q1 as [|[a x] q1 IH]; intros lo; simpl; [split; [intros; split; [lia|done]|tauto]|].
  rewrite IH. tauto.
Qed.
Lemma covers_app q1 q2 z : covers (q1 ++ q2) z <-> covers q1 z \/ covers q2 z.
Proof. apply Exists_app. Qed.
Lemma covers_cons a x q z : covers ((a, x) :: q) z <-> a <= z < a + ti_len (sg_ti x) \/ covers q z.
Proof. apply Exists_cons. Qed.

(** The split separates the segments that start at or before [a]. *)
Lemma reass_split_ok lo hi q a :
  in_order lo hi q -> lo <= a <= hi -> hi - lo < 2147483648 ->
  exists q1 q2, q = q1 ++ q2 /\ reass_split (q.*2) (u32 a) = (q1.*2, q2.*2) /\
    Forall (fun '(b, _) => b <= a) q1 /\ match q2 with [] => True | (b, _) :: _ => a < b end.
Proof.
  intros H Ha Hw. assert (exists lo0, lo0 <= lo /\ lo0 <= a <= hi /\ hi - lo0 < 2147483648) as (lo0 & H0 & H1 & H2)
    by (exists lo; lia). clear Ha Hw.
  revert lo H H0. induction q as [|[b x] q IH]; intros lo H H0; csimpl.
  { exists [], []. split_and!; done. }
  destruct H as (Hlo & Hg & Hr). pose proof (in_order_le _ _ _ Hr). pose proof (genuine_nonneg _ _ Hg).
  rewrite (gn_seq _ _ Hg). destruct (seq_window_order b a) as (_ & _ & -> & _); [lia|].
  destruct (Z.gtb_spec b a).
  - exists [], ((b, x) :: q). split_and!; done.
  - destruct (IH _ Hr) as (q1 & q2 & -> & -> & Hf & Hh); [lia|].
    exists ((b, x) :: q1), q2. split_and!; try done. by apply Forall_cons.
Qed.

Lemma seg_last_ok (q : list (Z * seg)) :
  match seg_last (q.*2) with
  | None => q = []
  | Some x => exists b q0, q = q0 ++ [(b, x)]
  end.
Proof.
  induction q as [|[a x] q IH]; [done|]. destruct q as [|[b y] q]; [by exists a, []|].
  change (seg_last (((a, x) :: (b, y) :: q).*2)) with (seg_last (((b, y) :: q).*2)).
  destruct (seg_last _) as [z|]; [|done]. destruct IH as (c & q0 & ->). by exists c, ((a, x) :: q0).
Qed.

Lemma seg_end_genuine a x : genuine a x -> seg_end x = u32 (a + ti_len (sg_ti x)).
Proof. intros H. unfold seg_end. by rewrite (gn_seq _ _ H), u32_add_l. Qed.
Lemma overlap_genuine a x b y :
  genuine a x -> genuine b y -> Z.abs (a - b) < 2147450880 ->
  s32 (seg_end x - ti_seq (sg_ti y)) = a + ti_len (sg_ti x) - b.
Proof.
  intros Hx Hy Hw. rewrite (seg_end_genuine _ _ Hx), (gn_seq _ _ Hy).
  pose proof (genuine_nonneg _ _ Hx). rewrite s32_sub_l, s32_sub_r. apply s32_id. lia.
Qed.

(** Trimming by the preceding segments. *)
Lemma reass_prev_ok lo hi q1 a x :
  in_order lo hi q1 -> Forall (fun '(b, _) => b <= a) q1 -> genuine a x -> lo <= a ->
  a - lo < 2147450880 ->
  match reass_prev (seg_last (q1.*2)) x with
  | None => forall z, a <= z < a + ti_len (sg_ti x) -> covers q1 z
  | Some x' => exists a', genuine a' x' /\ a <= a' /\ qend lo q1 <= a' /\
      (a' = a \/ a' = qend lo q1) /\
      a' + ti_len (sg_ti x') = a + ti_len (sg_ti x) /\
      forall z, a <= z < a' -> covers q1 z
  end.
Proof.
  intros Ho Hf Hg Ha Hw. pose proof (genuine_nonneg _ _ Hg).
  pose proof (seg_last_ok q1) as Hl. unfold reass_prev.
  destruct (seg_last (q1.*2)) as [y|].
  2: { subst q1. simpl. exists a. split_and!; try done; try lia. }
  destruct Hl as (b & q0 & ->). apply Forall_app in Hf as [_ Hb]. apply Forall_cons_iff in Hb as [Hb _].
  simpl in Hb. apply in_order_app in Ho as [Ho1 (Hbo & Hy & _)].
  assert (Eq : qend lo (q0 ++ [(b, y)]) = b + ti_len (sg_ti y)).
  { clear. revert lo. induction q0 as [|[c z] q0 IH]; intros lo; [done|]. apply IH. }
  rewrite Eq. pose proof (in_order_le _ _ _ Ho1). pose proof (genuine_nonneg _ _ Hy).
  rewrite (overlap_genuine _ _ _ _ Hy Hg) by lia.
  assert (Hc : forall z, b <= z < b + ti_len (sg_ti y) -> covers (q0 ++ [(b, y)]) z).
  { intros z Hz. apply covers_app. right. apply covers_cons. by left. }
  destruct (Z.gtb_spec (b + ti_len (sg_ti y) - a) 0).
  - destruct (Z.geb_spec (b + ti_len (sg_ti y) - a) (ti_len (sg_ti x))).
    + intros z Hz. apply Hc. lia.
    + destruct (genuine_trim a x (b + ti_len (sg_ti y) - a) Hg) as [Hg' El]; [lia|].
      exists (b + ti_len (sg_ti y)). replace (a + (b + _ - a)) with (b + ti_len (sg_ti y)) in Hg' by lia.
      rewrite El. split_and!; try done; try lia. intros z Hz. apply Hc. lia.
  - exists a. split_and!; try done; try lia.
Qed.

(** Trimming of the succeeding segments. *)
Lemma reass_next_ok p x a hi q :
  genuine a x -> in_order a hi q -> a + ti_len (sg_ti x) <= hi -> hi - a < 2147450880 ->
  exists q', snd (reass_next p x (q.*2)) = q'.*2 /\ in_order (a + ti_len (sg_ti x)) hi q' /\
    forall z, a <= z < a + ti_len (sg_ti x) \/ covers q' z <->
              a <= z < a + ti_len (sg_ti x) \/ covers q z.
Proof.
  intros Hg Ho He Hw. pose proof (genuine_nonneg _ _ Hg) as Hx.
  assert (forall lo, a <= lo -> in_order lo hi q -> exists q',
    snd (reass_next p x (q.*2)) = q'.*2 /\ in_order (a + ti_len (sg_ti x)) hi q' /\
    forall z, a <= z < a + ti_len (sg_ti x) \/ covers q' z <->
              a <= z < a + ti_len (sg_ti x) \/ covers q z) as H; [|by apply (H a)].
  clear Ho. revert p. induction q as [|[b y] q IH]; intros p lo Hlo Ho; [by exists []|].
  destruct Ho as (Hb & Hy & Hr). pose proof (in_order_le _ _ _ Hr). pose proof (genuine_nonneg _ _ Hy).
  csimpl. rewrite (overlap_genuine _ _ _ _ Hg Hy) by lia.
  destruct (Z.leb_spec (a + ti_len (sg_ti x) - b) 0).
  { exists ((b, y) :: q). split; [done|]. split; [|done]. simpl. split_and!; [lia|done|done]. }
  destruct (Z.ltb_spec (a + ti_len (sg_ti x) - b) (ti_len (sg_ti y))).
  - destruct (genuine_trim b y (a + ti_len (sg_ti x) - b) Hy) as [Hg' El]; [lia|].
    replace (b + (a + _ - b)) with (a + ti_len (sg_ti x)) in Hg' by lia.
    exists ((a + ti_len (sg_ti x), seg_trim y (a + ti_len (sg_ti x) - b)) :: q). split; [done|]. split.
    + simpl. split_and!; [lia|done|]. unfold seg_trim in El. simpl in El. rewrite El. by replace (a + ti_len (sg_ti x) + _) with (b + ti_len (sg_ti y)) by lia.
    + intros z. rewrite !covers_cons, El. intuition lia.
  - destruct (IH (m_freem p (sg_m y)) (b + ti_len (sg_ti y))) as (q' & Eq & Hq & Hc); [lia|done|].
    exists q'. split_and!; try done. intros z. rewrite Hc, covers_cons. intuition lia.
Qed.

(** Insertion: the queue stays in order, and covers what it covered and the new
    segment. *)
Lemma reass_insert_ok p lo hi q a x :
  in_order lo hi q -> genuine a x -> lo <= a -> a + ti_len (sg_ti x) <= hi ->
  hi - lo < 2147450880 ->
  match snd (reass_insert p (q.*2) x) with
  | None => forall z, a <= z < a + ti_len (sg_ti x) -> covers q z
  | Some q' => exists g, q' = g.*2 /\ in_order lo hi g /\
                 forall z, covers g z <-> covers q z \/ a <= z < a + ti_len (sg_ti x)
  end.
Proof.
  intros Ho Hg Ha He Hw. pose proof (genuine_nonneg _ _ Hg). unfold reass_insert.
  rewrite (gn_seq _ _ Hg).
  destruct (reass_split_ok lo hi q a Ho) as (q1 & q2 & -> & -> & Hf & Hh); [lia|lia|].
  apply in_order_app in Ho as [Ho1 Ho2].
  pose proof (reass_prev_ok lo _ q1 a x Ho1 Hf Hg Ha ltac:(lia)) as Hp.
  destruct (reass_prev (seg_last q1.*2) x) as [x'|]; simpl.
  2: { intros z Hz. apply covers_app. left. by apply Hp. }
  destruct Hp as (a' & Hg' & Haa & Hqe & Hor & Hend & Hc).
  assert (Ho2' : in_order a' hi q2).
  { destruct q2 as [|[b y] q2]; simpl in *; [lia|]. split_and!; try tauto. lia. }
  destruct (reass_next_ok p x' a' hi q2 Hg' Ho2') as (q2' & E2 & H2 & Hc2); [lia|lia|].
  destruct (reass_next p x' (q2.*2)) as [p' after]. simpl in E2. subst after. simpl.
  exists (q1 ++ (a', x') :: q2'). split_and!.
  - by rewrite fmap_app.
  - apply in_order_app. split; [done|]. simpl. split_and!; try done; lia.
  - intros z. rewrite !covers_app, covers_cons, Hc2, Hend. specialize (Hc z).
    assert (a <= z < a' \/ ~ (a <= z < a')) as [Hz|Hz] by lia; intuition lia.
Qed.

(** A socket after data was appended to its receive buffer. *)
Record received (s : socket) (d : list Z) (s' : socket) : Prop := {
  rc_inv : sb_inv (so_rcv s');
  rc_bytes : sb_bytes (so_rcv s') = sb_bytes (so_rcv s) ++ d;
  rc_state : so_state s' = so_state s;
  rc_snd : so_snd s' = so_snd s;
  rc_limits : sb_limits (so_rcv s') = sb_limits (so_rcv s)
}.

Lemma received_trans s d1 s1 d2 s2 : received s d1 s1 -> received s1 d2 s2 -> received s (d1 ++ d2) s2.
Proof. intros [] []. split; try congruence. rewrite rc_bytes1, rc_bytes0. by rewrite app_assoc. Qed.

Lemma received_append p s m p' sb :
  sb_inv (so_rcv s) -> Forall m_wf m -> sbappend p (so_rcv s) m = (p', sb) ->
  received s (chain_bytes m) (s <| so_rcv := sb |>).
Proof.
  intros Hi Hw E. apply sbappend_ok in E as [I B L _]; try done. rewrite app_nil_r in B. by split.
Qed.

(** What the delivery loop leaves when it starts at position [n] of the stream:
    it delivered the bytes up to [n'], all that the queue covers without a hole. *)
Record delivered (n hi flags : Z) (s : socket) (g : list (Z * seg))
    (s' : socket) (nxt flags' : Z) (q' : list seg) (n' : Z) (g' : list (Z * seg)) : Prop := {
  dl_nxt : nxt = u32 n';
  dl_le : n <= n';
  dl_q : q' = g'.*2;
  dl_order : in_order n' hi g';
  dl_hole : match g' with [] => True | (b, _) :: _ => n' < b end;
  dl_data : received s (bytes_at n (n' - n)) s';
  dl_covers : forall z, covers g z <-> n <= z < n' \/ covers g' z;
  dl_end : n <= eos -> n' <= eos;
  dl_fin : hasf flags' TH_FIN = true -> hasf flags TH_FIN = true \/ n' = eos
}.

Lemma reass_deliver_ok p s n hi flags g p' s' nxt flags' q' :
  in_order n hi g -> hi - n < 4294967296 -> sb_inv (so_rcv s) ->
  hasf (so_state s) SS_CANTRCVMORE = false ->
  reass_deliver p s (u32 n) flags (g.*2) = (p', s', nxt, flags', q') ->
  exists n' g', delivered n hi flags s g s' nxt flags' q' n' g'.
Proof.
  revert p s n flags. induction g as [|[a x] g IH]; intros p s n flags Ho Hw Hi Hc E; csimpl in *.
  { simplify_eq. exists n, []. split; try done; try lia; try tauto.
    - rewrite Z.sub_diag. split; try done. by rewrite app_nil_r.
    - intros z. split; [intros H; by apply Exists_nil in H|]. intros [?|H]; [lia|by apply Exists_nil in H]. }
  destruct Ho as (Ha & Hg & Hr). pose proof (genuine_nonneg _ _ Hg) as Hn.
  pose proof (in_order_le _ _ _ Hr) as Hle. rewrite (gn_seq _ _ Hg) in E.
  destruct (Z.eqb_spec (u32 a) (u32 n)) as [Ean|Ean].
  2: { simplify_eq. assert (n <> a) by (by intros ->). exists n, ((a, x) :: g).
       split; try done; try lia; try tauto.
       - rewrite Z.sub_diag. split; try done. by rewrite app_nil_r.
       - intros z. split; [by right|]. intros [?|?]; [lia|done]. }
  assert (a = n) as -> by wrap_lia. rewrite Hc in E.
  destruct (sbappend p (so_rcv s) (sg_m x)) as [p1 sb] eqn:Es.
  apply received_append in Es as Hrc; [|done|apply (gn_wf _ _ Hg)].
  rewrite u32_add_l in E.
  apply IH in E as (n' & g' & [D1 D2 D3 D4 D5 D6 D7 D9 D8]); [|done|lia|apply Hrc|done].
  exists n', g'. split; try done; try lia.
  - rewrite (gn_data _ _ Hg) in Hrc. pose proof (received_trans _ _ _ _ _ Hrc D6) as Ht.
    rewrite <- bytes_at_app in Ht by lia. by replace (_ + (n' - _)) with (n' - n) in Ht by lia.
  - intros z. rewrite covers_cons, D7. intuition lia.
  - pose proof (gn_end _ _ Hg). lia.
  - intros Hf. pose proof (gn_end _ _ Hg). apply D8 in Hf as [Hf|]; [|by right]. right.
    destruct (hasf (ti_flags (sg_ti x)) TH_FIN) eqn:Ef.
    + pose proof (gn_fin _ _ Hg Ef). lia.
    + unfold hasf in Hf, Ef. rewrite <- Z.land_assoc, Z.land_diag in Hf. congruence.
Qed.

(** The receiving side of a connection stands at position [n] of the stream with
    the segments [g] queued: none of them can be delivered. *)
Record rcv_at (k : kst) (n hi : Z) (g : list (Z * seg)) : Prop := {
  ra_nxt : rcv_nxt (tp k) = u32 n;
  ra_q : seg_q (tp k) = g.*2;
  ra_order : in_order n hi g;
  ra_hole : match g with [] => True | (b, _) :: _ => n < b end;
  ra_sb : sb_inv (so_rcv (so k))
}.

(** What taking in a segment leaves alone. *)
Definition rcv_same (k k' : kst) : Prop :=
  t_state (tp k') = t_state (tp k) /\ rcv_adv (tp k') = rcv_adv (tp k) /\
  so_state (so k') = so_state (so k) /\ sb_hiwat (so_rcv (so k')) = sb_hiwat (so_rcv (so k)).

(** The step from [k] to [k'] took in the segment at [a .. a+len) and delivered the
    bytes from [n] to [n']. *)
Record took (k : kst) (n hi : Z) (g : list (Z * seg)) (a len : Z) (k' : kst) (flags n' : Z)
    (g' : list (Z * seg)) : Prop := {
  tk_at : rcv_at k' n' hi g';
  tk_le : n <= n';
  tk_bytes : sb_bytes (so_rcv (so k')) = sb_bytes (so_rcv (so k)) ++ bytes_at n (n' - n);
  tk_covers : forall z, covers g z \/ a <= z < a + len <-> n <= z < n' \/ covers g' z;
  tk_fin : hasf flags TH_FIN = true -> n' = eos;
  tk_same : rcv_same k k'
}.

Lemma sorwakeup_rcv s : sb_queue (so_rcv (sorwakeup s)) = sb_queue (so_rcv s).
Proof. apply sowakeup_queue. Qed.
Lemma sorwakeup_same s : so_state (sorwakeup s) = so_state s /\ sb_hiwat (so_rcv (sorwakeup s)) = sb_hiwat (so_rcv s).
Proof.
  split; [done|]. pose proof (sorwakeup_rcv s) as E. unfold sb_queue in E. congruence.
Qed.
Lemma received_same s d s' : received s d s' ->
  so_state (sorwakeup s') = so_state s /\ sb_hiwat (so_rcv (sorwakeup s')) = sb_hiwat (so_rcv s).
Proof.
  intros [_ _ S _ L]. destruct (sorwakeup_same s') as [-> ->]. split; [done|]. unfold sb_limits in L. congruence.
Qed.
Lemma sb_bytes_queue sb sb' : sb_queue sb = sb_queue sb' -> sb_bytes sb = sb_bytes sb'.
Proof. destruct sb, sb'. unfold sb_queue, sb_bytes, sb_chain. simpl. intros. by simplify_eq. Qed.

(** Presenting a queue whose first segment may be deliverable. *)
Lemma reass_present_ok k n hi g k' flags :
  rcv_nxt (tp k) = u32 n -> seg_q (tp k) = g.*2 -> in_order n hi g -> sb_inv (so_rcv (so k)) ->
  st TCPS_ESTABLISHED <= st (t_state (tp k)) -> hasf (so_state (so k)) SS_CANTRCVMORE = false ->
  hi - n < 4294967296 -> reass_present k = (k', flags) ->
  exists n' g', rcv_at k' n' hi g' /\ n <= n' /\
    sb_bytes (so_rcv (so k')) = sb_bytes (so_rcv (so k)) ++ bytes_at n (n' - n) /\
    (forall z, covers g z <-> n <= z < n' \/ covers g' z) /\ (hasf flags TH_FIN = true -> n' = eos) /\ rcv_same k k'.
Proof.
  intros Hn Hq Ho Hi Hs Hc Hw E.
  assert (Hstay : match g with [] => True | (b, _) :: _ => n < b end -> k' = k -> flags = 0 ->
    exists n' g', rcv_at k' n' hi g' /\ n <= n' /\
      sb_bytes (so_rcv (so k')) = sb_bytes (so_rcv (so k)) ++ bytes_at n (n' - n) /\
      (forall z, covers g z <-> n <= z < n' \/ covers g' z) /\ (hasf flags TH_FIN = true -> n' = eos) /\ rcv_same k k').
  { intros Hh -> ->. exists n, g. rewrite Z.sub_diag, app_nil_r. split_and!; try done; try lia.
    intros z. split; [by right|]. intros [?|?]; [lia|done]. }
  unfold reass_present, TCPS_HAVERCVDSYN in E.
  destruct (reass_deliver _ _ _ _ _) as [[[[p s] nxt] fl] q] eqn:Ed. rewrite Hq, Hn in E, Ed.
  destruct (Z.geb_spec (st (t_state (tp k))) (st TCPS_SYN_RECEIVED)); [|simpl in *; lia]. simpl in E.
  destruct g as [|[a x] g]; csimpl in E; [simplify_eq; by apply Hstay|].
  pose proof Ho as (Ha & Hg & Hr). pose proof (in_order_le _ _ _ Hr). pose proof (genuine_nonneg _ _ Hg).
  rewrite (gn_seq _ _ Hg) in E. destruct (Z.eqb_spec (u32 a) (u32 n)) as [Ean|Ean]; simpl in E.
  2: { simplify_eq. apply Hstay; try done. assert (a <> n) by (by intros ->). lia. }
  assert (st_eqb (t_state (tp k)) TCPS_SYN_RECEIVED = false) as Hsr.
  { unfold st_eqb. apply bool_decide_eq_false_2. intros Hx. rewrite Hx in Hs. simpl in Hs. lia. }
  rewrite Hsr in E. simpl in E. simplify_eq.
  apply (reass_deliver_ok _ _ _ hi) in Ed as (n' & g' & [D1 D2 D3 D4 D5 D6 D7 _ D8]); try done.
  exists n', g'. rec_simpl. rewrite (sb_bytes_queue _ _ (sorwakeup_rcv s)). split_and!; try done.
  - split; try done. rec_simpl. eapply sb_inv_queue; [symmetry; apply sorwakeup_rcv|apply D6].
  - apply D6.
  - intros Hf. by apply D8 in Hf as [?|?].
  - destruct (received_same _ _ _ D6). unfold rcv_same. by rec_simpl.
Qed.

Lemma reass_insert_frame p q x :
  match snd (reass_insert p q x) with None => True | Some q' => q' <> [] end.
Proof.
  unfold reass_insert. destruct (reass_split _ _) as [b a]. destruct (reass_prev _ _); [|done].
  destruct (reass_next _ _ _). simpl. by destruct b.
Qed.

(** [tcp_reass] on a connection that is established or later. *)
Lemma tcp_reass_took k n hi g a x k' flags :
  rcv_at k n hi g -> st TCPS_ESTABLISHED <= st (t_state (tp k)) ->
  hasf (so_state (so k)) SS_CANTRCVMORE = false ->
  genuine a x -> n <= a -> a + ti_len (sg_ti x) <= hi -> hi - n < 2147450880 ->
  tcp_reass k (Some x) = (k', flags) ->
  exists n' g', took k n hi g a (ti_len (sg_ti x)) k' flags n' g'.
Proof.
  intros [Hn Hq Ho Hh Hi] Hs Hc Hg Ha He Hw E. unfold tcp_reass in E. rewrite Hq in E.
  pose proof (reass_insert_ok (pool k) n hi g a x Ho Hg Ha He Hw) as Hins.
  destruct (reass_insert (pool k) (g.*2) x) as [p [q|]]; simpl in Hins.
  - destruct Hins as (g1 & -> & Ho1 & Hc1).
    apply (reass_present_ok _ n hi g1) in E as (n' & g' & H1 & H2 & H3 & H4 & H5 & H6); try done; [|lia].
    exists n', g'. split; try done. intros z. by rewrite <- Hc1, H4.
  - simplify_eq. exists n, g. split; try done; try lia.
    + rewrite Z.sub_diag, app_nil_r. done.
    + intros z. specialize (Hins z). split; [|intros [?|?]; [lia|by left]].
      intros [?|?]; right; [done|auto].
Qed.

(** The same for the macro, whose fast path does not use the queue. *)
Lemma TCP_REASS_took k n hi g a ti m k' flags :
  rcv_at k n hi g -> st TCPS_ESTABLISHED <= st (t_state (tp k)) ->
  hasf (so_state (so k)) SS_CANTRCVMORE = false ->
  genuine a (mkSeg ti m) -> n <= a -> a + ti_len ti <= hi -> hi - n < 2147450880 ->
  TCP_REASS k ti m = (k', flags) ->
  exists n' g', took k n hi g a (ti_len ti) k' flags n' g'.
Proof.
  intros Hat Hs Hc Hg Ha He Hw E. unfold TCP_REASS in E.
  match type of E with (if ?b then _ else _) = _ => destruct b eqn:Eb end.
  - apply andb_true_iff in Eb as [[Eseq%Z.eqb_eq Eq%bool_decide_eq_true]%andb_true_iff _].
    destruct Hat as [Hn Hq Ho Hh Hi]. pose proof (gn_seq _ _ Hg) as Hseq.
    pose proof (genuine_nonneg _ _ Hg) as Hlen. simpl in Hseq, Hlen.
    assert (a = n) as -> by (rewrite Hseq, Hn in Eseq; wrap_lia).
    destruct g; [|by rewrite Hq in Eq].
    destruct (sbappend _ _ m) as [p sb] eqn:Es. simplify_eq.
    apply (received_append _ (so k)) in Es as Hrc; [|done|apply (gn_wf _ _ Hg)].
    exists (n + ti_len ti), []. unfold tf_set. split; rec_simpl.
    + split; rec_simpl; try done.
      * by rewrite Hn, u32_add_l.
      * eapply sb_inv_queue; [symmetry; apply sorwakeup_rcv|apply Hrc].
    + lia.
    + rewrite (sb_bytes_queue _ _ (sorwakeup_rcv _)). rewrite (rc_bytes _ _ _ Hrc).
      pose proof (gn_data _ _ Hg) as Hd. simpl in Hd. rewrite Hd.
      by replace (n + ti_len ti - n) with (ti_len ti) by lia.
    + intros z. split; intros [H|H]; try (by apply Exists_nil in H); auto.
    + intros Hf. apply (gn_fin _ _ Hg). simpl. unfold hasf in *.
      by rewrite <- Z.land_assoc, Z.land_diag in Hf.
    + destruct (received_same _ _ _ Hrc). unfold rcv_same. by rec_simpl.
  - destruct (tcp_reass k (Some (mkSeg ti m))) as [k1 fl] eqn:Er. simplify_eq.
    eapply tcp_reass_took in Er as (n' & g' & [T1 T2 T3 T4 T5 T6]); try done.
    exists n', g'. split; try done. destruct T1. by split.
Qed.

(** C7: reassembly delivers the stream: when a segment of the peer's stream inside the
    window arrives, in order or not, overlapping what is queued or not, TCP_REASS
    appends to the receive buffer exactly the stream's bytes from rcv_nxt up to the
    first hole, moves rcv_nxt there, and keeps queued exactly the positions beyond it
    that were queued or arrived, in order and without overlap; FIN is reported only
    when the stream's end was reached. *)
Theorem TCP_REASS_stream k n hi g a ti m k' flags :
  rcv_at k n hi g -> st TCPS_ESTABLISHED <= st (t_state (tp k)) ->
  hasf (so_state (so k)) SS_CANTRCVMORE = false ->
  genuine a (mkSeg ti m) -> n <= a -> a + ti_len ti <= hi -> hi - n < 2147450880 ->
  TCP_REASS k ti m = (k', flags) ->
  exists n' g', took k n hi g a (ti_len ti) k' flags n' g'.
Proof. apply TCP_REASS_took. Qed.

End Stream.

Import Sample.

(** A stream of 6000 bytes and a segment of it that arrives early. *)
Definition str0 (z : Z) : Z := z mod 256.
Definition early_ti : tcpiphdr := mkTi 3 20 10 80 1024 5004 1000 5 TH_ACK 8192 0 0.
Definition early_m : chain := [dmb (bytes_at str0 5004 3)].

Lemma rcv_at_k0 eos : rcv_at str0 eos (k0 []) 5000 13192 [].
Proof. by split. Qed.
Lemma early_genuine : genuine str0 11000 5004 (mkSeg early_ti early_m).
Proof. split; try done. repeat constructor; vm_compute; intuition congruence. Qed.

Lemma TCP_REASS_stream_witness :
  exists n' g', took str0 11000 (k0 []) 5000 13192 [] 5004 3
    (TCP_REASS (k0 []) early_ti early_m).1 (TCP_REASS (k0 []) early_ti early_m).2 n' g'.
Proof.
  apply (TCP_REASS_stream str0 11000 (k0 []) 5000 13192 [] 5004 early_ti early_m _ _ (rcv_at_k0 11000));
    [simpl; lia|reflexivity|apply early_genuine|lia|simpl; lia|lia|reflexivity].
Defined.

End TcpReass.
