(* ===== verification/TcpOutput.v ===== *)
(** tcp_output (src/sys/netinet/tcp_output.c).

    The routine is cut at its labels: [output_len] and [output_wanted] are the
    code from [again] to [send], [output_idle] the end of it when nothing is sent;
    [output_options], [output_packet], [output_header], [output_advance] and
    [output_result] are the code from [send] on.  [tcp_output] runs the loop that
    [sendalot] makes; its fuel bounds the number of segments of one call. *)
From S2P Require Import Prelude TcpSeq Mbuf Cksum SockBuf Socket TcpVar TcpHdr TcpSubr.
Import TcpSeq Mbuf Cksum SockBuf Socket TcpVar TcpHdr TcpSubr.

Module TcpOutput.

(** The locals of tcp_output that live from [again] to the end. *)
Record olocals := mkOl {
  o_off : Z;
  o_len : Z;
  o_flags : Z;
  o_win : Z;
  o_sendalot : bool
}.
Definition eta_olocals (r : olocals) : olocals :=
  mkOl (o_off r) (o_len r) (o_flags r) (o_win r) (o_sendalot r).
#[global] Instance set_o_off : Setter o_off := ltac:(mk_setter eta_olocals).
#[global] Instance set_o_len : Setter o_len := ltac:(mk_setter eta_olocals).
#[global] Instance set_o_flags : Setter o_flags := ltac:(mk_setter eta_olocals).
#[global] Instance set_o_win : Setter o_win := ltac:(mk_setter eta_olocals).
#[global] Instance set_o_sendalot : Setter o_sendalot := ltac:(mk_setter eta_olocals).

(** The slow start of an idle connection, before [again]. *)
Definition output_idlecheck (k : kst) : bool * kst :=
  let idle := snd_max (tp k) =? snd_una (tp k) in
  (idle, if idle && (t_idle (tp k) >=? t_rxtcur (tp k))
         then k <t| snd_cwnd := t_maxseg (tp k) |> else k).

(** In a persist timeout with a closed window one byte is sent; with an open
    window the persist state ends. *)
Definition output_force (k : kst) (off win flags : Z) : kst * Z * Z :=
  if negb (t_force (tp k) =? 0) then
    if win =? 0 then (k, 1, if u32 off <? sb_cc (so_snd (so k)) then clrb flags TH_FIN else flags)
    else (k <t| tm_persist := 0 |> <t| t_rxtshift := 0 |>, win, flags)
  else (k, win, flags).

(** From [again]: how much to send, and with which flags. *)
Definition output_len (k : kst) : kst * olocals :=
  let cc := sb_cc (so_snd (so k)) in
  let off := s32 (snd_nxt (tp k) - snd_una (tp k)) in
  let win := s32 (cmin (snd_wnd (tp k)) (snd_cwnd (tp k))) in
  let '(k, win, flags) := output_force k off win (tcp_outflags (t_state (tp k))) in
  let len := s32 (cmin cc win - off) in
  let k := if (len <? 0) && (win =? 0)
           then k <t| tm_rexmt := 0 |> <t| snd_nxt := snd_una (tp k) |> else k in
  let len := if len <? 0 then 0 else len in
  let sendalot := len >? t_maxseg (tp k) in
  let len := if len >? t_maxseg (tp k) then t_maxseg (tp k) else len in
  let flags := if SEQ_LT (u32 (snd_nxt (tp k) + len)) (u32 (snd_una (tp k) + cc))
               then clrb flags TH_FIN else flags in
  (k, mkOl off len flags (sbspace (so_rcv (so k))) sendalot).

(** The tests that lead to [send]. *)
Definition output_wanted (k : kst) (idle : bool) (l : olocals) : bool :=
  let cc := sb_cc (so_snd (so k)) in
  let len := o_len l in
  let t := tp k in
  (negb (len =? 0) &&
   ((len =? t_maxseg t) ||
    ((idle || tf k TF_NODELAY) && (u32 (len + o_off l) >=? cc)) ||
    negb (t_force t =? 0) ||
    (u32 len >=? max_sndwnd t / 2) ||
    SEQ_LT (snd_nxt t) (snd_max t))) ||
  ((o_win l >? 0) &&
   (let adv := s32 (cmin (o_win l) (Z.shiftl TCP_MAXWIN (rcv_scale t)) - u32 (rcv_adv t - rcv_nxt t)) in
    (adv >=? 2 * t_maxseg t) || (s32 (2 * adv) >=? s32 (sb_hiwat (so_rcv (so k)))))) ||
  tf k TF_ACKNOW ||
  hasf (o_flags l) (Z.lor TH_SYN TH_RST) ||
  SEQ_GT (snd_up t) (snd_una t) ||
  (hasf (o_flags l) TH_FIN && (negb (tf k TF_SENTFIN) || (snd_nxt t =? snd_una t))).

(** No segment to send: enter the persist state if data waits for window. *)
Definition output_idle (k : kst) : outcome kst :=
  if negb (sb_cc (so_snd (so k)) =? 0) && (tm_rexmt (tp k) =? 0) && (tm_persist (tp k) =? 0)
  then tcp_setpersist (k <t| t_rxtshift := 0 |>)
  else Ret k.

(** The options of the segment. *)
Definition output_synopts (net : net_env) (k : kst) (flags : Z) : kst * list Z :=
  if hasf flags TH_SYN then
    let k := k <t| snd_nxt := iss (tp k) |> in
    if negb (tf k TF_NOOPT) then
      let '(mss, k) := tcp_mss net k 0 in
      let opt := [TCPOPT_MAXSEG; 4] ++ be16 (u16 mss) in
      (k, if tf k TF_REQ_SCALE && (negb (hasf flags TH_ACK) || tf k TF_RCVD_SCALE)
          then opt ++ [TCPOPT_NOP; TCPOPT_WINDOW; TCPOLEN_WINDOW; u8 (request_r_scale (tp k))] else opt)
    else (k, [])
  else (k, []).
Definition output_options (net : net_env) (k : kst) (flags : Z) : kst * list Z :=
  let '(k, opt) := output_synopts net k flags in
  if tf k TF_REQ_TSTMP && negb (tf k TF_NOOPT) && negb (hasf flags TH_RST) &&
     ((hasf flags TH_SYN && negb (hasf flags TH_ACK)) || tf k TF_RCVD_TSTMP)
  then (k, opt ++ be32 TCPOPT_TSTAMP_HDR ++ be32 (tcp_now (glob k)) ++ be32 (ts_recent (tp k)))
  else (k, opt).

(** The length left for data beside the options.  The comparison is unsigned. *)
Definition output_clip (k : kst) (opt : list Z) (l : olocals) : olocals :=
  let room := u32 (t_maxseg (tp k) - zlen opt) in
  if u32 (o_len l) >? room
  then l <| o_len := s32 room |> <| o_sendalot := true |> <| o_flags := clrb (o_flags l) TH_FIN |>
  else l.

(** The mbufs: a header mbuf and the data, copied behind the header when it fits
    and shared with the socket buffer otherwise.  [inl] is ENOBUFS; [inr] gives
    the header mbuf, the data in it, and the chain after it. *)
Definition output_packet (k : kst) (hdrlen : Z) (l : olocals)
    : outcome (kst * option (mbuf * list Z * chain)) :=
  let sb := match sb_mb (so_snd (so k)) with r :: _ => r | [] => [] end in
  match m_gethdr (pool k) MT_HEADER with
  | (None, p) => Ret (k <| pool := p |>, None)
  | (Some m, p) =>
      let k := k <| pool := p |> in
      let m := m <| m_off := m_off m + max_linkhdr (glob k) |> in
      if o_len l =? 0 then Ret (k, Some (m, [], []))
      else if u32 (o_len l) <=? u32 (MHLEN - hdrlen - max_linkhdr (glob k)) then
        let! d := m_copydata sb (o_off l) (o_len l) in
        if zlen d =? o_len l then Ret (k, Some (m, d, [])) else Panic "no enough data"
      else
        let! (r, p) := m_copym (pool k) sb (o_off l) (o_len l) in
        match r with
        | None => Ret (k <| pool := m_free p m |>, None)
        | Some c => Ret (k <| pool := p |>, Some (m, [], c))
        end
  end.

(** The window to advertise. *)
Definition output_window (k : kst) (win : Z) : Z :=
  let t := tp k in
  let maxw := Z.shiftl TCP_MAXWIN (rcv_scale t) in
  let win := if (win <? s32 (sb_hiwat (so_rcv (so k)) / 4)) && (win <? t_maxseg t) then 0 else win in
  let win := if win >? maxw then maxw else win in
  let have := s32 (u32 (rcv_adv t - rcv_nxt t)) in
  if win <? have then have else win.

(** The header fields.  [flags] has PUSH set already. *)
Definition output_header (k : kst) (tmpl : tcpiphdr) (opt : list Z) (l : olocals) : kst * tcpiphdr :=
  let flags := o_flags l in
  let len := o_len l in
  let k := if hasf flags TH_FIN && tf k TF_SENTFIN && (snd_nxt (tp k) =? snd_max (tp k))
           then k <t| snd_nxt := u32 (snd_nxt (tp k) - 1) |> else k in
  let t := tp k in
  let ti := tmpl <| ti_seq := if negb (len =? 0) || hasf flags (Z.lor TH_SYN TH_FIN) || negb (tm_persist t =? 0)
                              then snd_nxt t else snd_max t |>
                 <| ti_ack := rcv_nxt t |> in
  let ti := if negb (zlen opt =? 0) then ti <| ti_off := Z.shiftr (sizeof_tcphdr + zlen opt) 2 |> else ti in
  let ti := ti <| ti_flags := flags |> <| ti_win := u16 (Z.shiftr (o_win l) (rcv_scale t)) |> in
  let '(k, ti) :=
    if SEQ_GT (snd_up t) (snd_nxt t)
    then (k, ti <| ti_urp := u16 (snd_up t - snd_nxt t) |> <| ti_flags := setb (ti_flags ti) TH_URG |>)
    else (k <t| snd_up := snd_una t |>, ti) in
  (k, if negb (u32 (len + zlen opt) =? 0)
      then ti <| ti_len := s16 (sizeof_tcphdr + zlen opt + len) |> else ti).

(** The sequence space of a segment that is transmitted. *)
Definition advance_seq (k : kst) (flags len : Z) : kst :=
  let k := if hasf flags TH_SYN then k <t| snd_nxt := u32 (snd_nxt (tp k) + 1) |> else k in
  let k := if hasf flags TH_FIN
           then tf_set TF_SENTFIN (k <t| snd_nxt := u32 (snd_nxt (tp k) + 1) |>) else k in
  k <t| snd_nxt := u32 (snd_nxt (tp k) + len) |>.
(** New data is timed when no other segment is. *)
Definition advance_max (k : kst) (startseq : Z) : kst :=
  if SEQ_GT (snd_nxt (tp k)) (snd_max (tp k)) then
    let k := k <t| snd_max := snd_nxt (tp k) |> in
    if t_rtt (tp k) =? 0 then k <t| t_rtt := 1 |> <t| t_rtseq := startseq |> else k
  else k.
(** The retransmit timer runs while data is outstanding. *)
Definition advance_rexmt (k : kst) : kst :=
  if (tm_rexmt (tp k) =? 0) && negb (snd_nxt (tp k) =? snd_una (tp k)) then
    let k := k <t| tm_rexmt := t_rxtcur (tp k) |> in
    if negb (tm_persist (tp k) =? 0) then k <t| tm_persist := 0 |> <t| t_rxtshift := 0 |> else k
  else k.
(** Sequence space and timers, in the transmit state and in the persist state. *)
Definition output_advance (k : kst) (l : olocals) : kst :=
  if (t_force (tp k) =? 0) || (tm_persist (tp k) =? 0) then
    advance_rexmt (advance_max (advance_seq k (o_flags l) (o_len l)) (snd_nxt (tp k)))
  else
    let e := u32 (snd_nxt (tp k) + o_len l) in
    if SEQ_GT e (snd_max (tp k)) then k <t| snd_max := e |> else k.

(** The code at [out]: the error seen by the caller. *)
Definition output_error (k : kst) (error : Z) : kst * Z :=
  if error =? ENOBUFS then (tcp_quench k, 0)
  else if ((error =? EHOSTUNREACH) || (error =? ENETDOWN)) && TCPS_HAVERCVDSYN (t_state (tp k))
  then (k <t| t_softerror := s16 error |>, 0)
  else (k, error).

(** The segment has been sent. *)
Definition output_sent (k : kst) (win : Z) : kst :=
  let k := if (win >? 0) && SEQ_GT (u32 (rcv_nxt (tp k) + win)) (rcv_adv (tp k))
           then k <t| rcv_adv := u32 (rcv_nxt (tp k) + win) |> else k in
  let k := k <t| last_ack_sent := rcv_nxt (tp k) |> in
  tf_clr (Z.lor TF_ACKNOW TF_DELACK) k.

(** Build the packet of the segment [l] from the header mbuf [m], the data [d]
    copied into it and the chain [c], checksum it and hand it to IP. *)
Definition output_ip (k : kst) (ti : tcpiphdr) (opt : list Z) (m : mbuf) (d : list Z) (c : chain)
    (l : olocals) : Z * kst :=
  let hdrlen := sizeof_tcpiphdr + zlen opt in
  let ti := ti <| ti_sum := in_cksum (m <| m_bytes := encode_ti ti ++ opt ++ d |> :: c) (hdrlen + o_len l) |> in
  let k := output_advance k l in
  let m := m <| m_bytes := encode_ti ti ++ opt ++ d |> <| m_pktlen := hdrlen + o_len l |> in
  ip_output k (mkPkt ti opt (d ++ chain_bytes c) (m :: c) (s16 (hdrlen + o_len l))
                 (inp_ttl (inp k)) (inp_tos (inp k)) (inp_options (inp k))
                 (Z.land (so_options (so k)) SO_DONTROUTE)).

(** The header is filled in, the packet sent, and the result examined.  The result
    is [inl error] for a return and [inr] for [goto again]. *)
Definition output_emit (k : kst) (tmpl : tcpiphdr) (opt : list Z) (m : mbuf) (d : list Z) (c : chain)
    (l : olocals) : kst * (Z + unit) :=
  let l := l <| o_win := output_window k (o_win l) |> in
  let '(k, ti) := output_header k tmpl opt l in
  let '(error, k) := output_ip k ti opt m d c l in
  if negb (error =? 0) then let '(k, e) := output_error k error in (k, inl e)
  else (output_sent k (o_win l), if o_sendalot l then inr tt else inl 0).

(** From [send] to the end of the turn. *)
Definition output_send (net : net_env) (k : kst) (l : olocals) : outcome (kst * (Z + unit)) :=
  let '(k, opt) := output_options net k (o_flags l) in
  let l := output_clip k opt l in
  let! (k, r) := output_packet k (sizeof_tcpiphdr + zlen opt) l in
  match r with
  | None => let '(k, e) := output_error k ENOBUFS in Ret (k, inl e)
  | Some (m, d, c) =>
      let l := if negb (o_len l =? 0) && (u32 (o_off l + o_len l) =? sb_cc (so_snd (so k)))
               then l <| o_flags := setb (o_flags l) TH_PUSH |> else l in
      match t_template (tp k) with
      | None => Panic "tcp_output"
      | Some tmpl => Ret (output_emit k tmpl opt m d c l)
      end
  end.

(** One turn from [again]. *)
Definition output_turn (net : net_env) (idle : bool) (k : kst) : outcome (kst * (Z + unit)) :=
  let '(k, l) := output_len k in
  if output_wanted k idle l then output_send net k l
  else let! k := output_idle k in Ret (k, inl 0).

Fixpoint output_loop (fuel : nat) (net : net_env) (idle : bool) (k : kst) : outcome (kst * Z) :=
  match fuel with
  | O => OutOfFuel
  | S fuel =>
      let! (k, r) := output_turn net idle k in
      match r with
      | inl error => Ret (k, error)
      | inr _ => output_loop fuel net idle k
      end
  end.

(** A call sends at most one segment per byte of the send buffer, and one more. *)
Definition tcp_output (net : net_env) (k : kst) : outcome (kst * Z) :=
  let '(idle, k) := output_idlecheck k in
  output_loop (2 + Z.to_nat (sb_cc (so_snd (so k)))) net idle k.

(** [tcp_drop]: a synchronised connection sends a RST from the closed state. *)
Definition tcp_drop (net : net_env) (k : kst) (errno : Z) : outcome kst :=
  let! k := (if TCPS_HAVERCVDSYN (t_state (tp k))
             then let! (k, _) := tcp_output net (k <t| t_state := TCPS_CLOSED |>) in Ret k
             else Ret k) in
  let errno := if (errno =? ETIMEDOUT) && negb (t_softerror (tp k) =? 0)
               then t_softerror (tp k) else errno in
  tcp_close net (set_so_error_k errno k).

End TcpOutput.
