(* ===== verification/TcpOutputOk.v ===== *)
(** Correctness of tcp_output on a synchronised connection.

    The send side of a connection stands at stream positions: [una], [nxt] and
    [mx] are the unbounded positions of snd_una, snd_nxt and snd_max, and the send
    buffer holds the bytes from [una] on.  [snd_ok] is the invariant; the theorems
    say that tcp_output returns, keeps it, and that every segment it hands to IP
    is a well-formed part of the stream ([seg_ok]). *)
From S2P Require Import Prelude TcpSeq Mbuf Cksum SockBuf Socket TcpVar Sample TcpHdr TcpSubr TcpOutput.
Import TcpSeq Mbuf Cksum SockBuf Socket TcpVar TcpHdr TcpSubr TcpOutput.

Module TcpOutputOk.

(** The states in which neither SYN nor RST is sent. *)
Definition synced (s : tcp_state) : Prop := st TCPS_ESTABLISHED <= st s.
Definition fin_state (s : tcp_state) : bool := hasf (tcp_outflags s) TH_FIN.

Definition cc (k : kst) : Z := zlen (sb_bytes (so_snd (so k))).

(** What a template holds. *)
Definition tmpl_ok (t : tcpiphdr) : Prop := ti_wf t /\ ti_sum t = 0 /\ ti_off t = 5 /\ ti_len t = 20.

Record snd_ok (k : kst) (una nxt mx : Z) : Prop := {
  sk_una : snd_una (tp k) = u32 una;
  sk_nxt : snd_nxt (tp k) = u32 nxt;
  sk_max : snd_max (tp k) = u32 mx;
  sk_order : una <= nxt <= mx;
  sk_end : mx <= una + cc k + 1;
  sk_nofin : tf k TF_SENTFIN = false -> mx <= una + cc k;
  sk_fin : tf k TF_SENTFIN = true -> fin_state (t_state (tp k)) = true -> mx = una + cc k + 1;
  sk_sb : sb_inv (so_snd (so k));
  sk_one : (length (sb_mb (so_snd (so k))) <= 1)%nat;
  sk_bytes : Forall is_byte (sb_bytes (so_snd (so k)));
  sk_small : cc k < 1000000000;
  sk_wnd : 0 <= snd_wnd (tp k) < 2147483648 /\ 0 <= snd_cwnd (tp k) < 2147483648;
  sk_mss : 12 < t_maxseg (tp k) <= 32000;
  sk_tmpl : exists t, t_template (tp k) = Some t /\ tmpl_ok t;
  sk_rcv : 0 <= rcv_nxt (tp k) < 4294967296;
  sk_link : 0 <= max_linkhdr (glob k) <= 16
}.

Lemma sk_cc k una nxt mx : snd_ok k una nxt mx -> sb_cc (so_snd (so k)) = cc k.
Proof.
  intros H. rewrite (inv_cc _ (sk_sb _ _ _ _ H)). pose proof (sk_small _ _ _ _ H). unfold cc in *.
  apply u32_id. zlen_pose. lia.
Qed.
Lemma cc_nonneg k : 0 <= cc k.
Proof. apply zlen_nonneg. Qed.

(** The window a turn of tcp_output may use: the smaller of the offered and the
    congestion window; a forced probe into a closed window may use one byte. *)
Definition usable (k : kst) : Z :=
  let w := Z.min (snd_wnd (tp k)) (snd_cwnd (tp k)) in
  if negb (t_force (tp k) =? 0) && (w =? 0) then 1 else w.

(** The fields the send side of a connection keeps while segments go out. *)
Definition same_peer (k k1 : kst) : Prop :=
  so k1 = so k /\ glob k1 = glob k /\ inp k1 = inp k /\ t_state (tp k1) = t_state (tp k) /\
  t_force (tp k1) = t_force (tp k) /\ usable k1 = usable k /\ rcv_nxt (tp k1) = rcv_nxt (tp k) /\
  t_maxseg (tp k1) = t_maxseg (tp k) /\ t_template (tp k1) = t_template (tp k).

(** The same state for the purpose of the decision what to send. *)
Definition same_send (k k1 : kst) : Prop :=
  same_peer k k1 /\ pool k1 = pool k /\ sent k1 = sent k /\ ip_err k1 = ip_err k /\
  t_flags (tp k1) = t_flags (tp k) /\ gone k1 = gone k.

(** ** How much is sent *)

(** What the code from [again] to [send] has decided. *)
Record decided (k : kst) (una nxt mx : Z) (k1 : kst) (l : olocals) (nxt1 : Z) : Prop := {
  dc_ok : snd_ok k1 una nxt1 mx;
  dc_nxt : nxt1 = nxt \/ nxt1 = una;
  dc_len : 0 <= o_len l <= t_maxseg (tp k1);
  dc_data : o_len l <> 0 -> nxt1 = nxt /\ o_off l = nxt - una /\ nxt - una + o_len l <= cc k /\
                            nxt - una + o_len l <= usable k;
  dc_fin : hasf (o_flags l) TH_FIN = true ->
           fin_state (t_state (tp k1)) = true /\ una + cc k <= nxt1 + o_len l;
  dc_ctl : hasf (o_flags l) (Z.lor TH_SYN TH_RST) = false;
  dc_range : 0 <= o_flags l < 64;
  dc_ack : hasf (o_flags l) TH_ACK = true;
  dc_alot : o_sendalot l = true -> o_len l = t_maxseg (tp k1) /\ (t_force (tp k1) = 0 \/ tm_persist (tp k1) = 0);
  dc_probe : t_force (tp k1) <> 0 -> tm_persist (tp k1) <> 0 -> o_len l <= 1;
  dc_frame : same_send k k1
}.

(** The flags of a synchronised state are ACK, or FIN and ACK. *)
Lemma outflags_synced s :
  synced s -> tcp_outflags s = TH_ACK \/ (tcp_outflags s = Z.lor TH_FIN TH_ACK /\ fin_state s = true).
Proof. unfold synced. destruct s; simpl; try lia; intros _; auto. Qed.

Lemma u32_win k una nxt mx :
  snd_ok k una nxt mx ->
  s32 (cmin (snd_wnd (tp k)) (snd_cwnd (tp k))) = Z.min (snd_wnd (tp k)) (snd_cwnd (tp k)).
Proof.
  intros H. destruct (sk_wnd _ _ _ _ H). rewrite cmin_spec by lia. apply s32_id. lia.
Qed.

(** The parts of a send buffer that the invariant reads. *)
Lemma queue_eq sb sb' :
  sb_queue sb' = sb_queue sb -> sb_mb sb' = sb_mb sb /\ sb_cc sb' = sb_cc sb /\ sb_bytes sb' = sb_bytes sb.
Proof. unfold sb_queue, sb_bytes, sb_chain. intros E. simplify_eq. split_and!; congruence. Qed.

Lemma snd_ok_ext k k' una nxt mx :
  snd_ok k una nxt mx -> sb_queue (so_snd (so k')) = sb_queue (so_snd (so k)) ->
  max_linkhdr (glob k') = max_linkhdr (glob k) ->
  snd_una (tp k') = snd_una (tp k) -> snd_nxt (tp k') = snd_nxt (tp k) -> snd_max (tp k') = snd_max (tp k) ->
  tf k' TF_SENTFIN = tf k TF_SENTFIN -> t_state (tp k') = t_state (tp k) ->
  snd_wnd (tp k') = snd_wnd (tp k) -> 0 <= snd_cwnd (tp k') < 2147483648 ->
  t_maxseg (tp k') = t_maxseg (tp k) -> t_template (tp k') = t_template (tp k) ->
  rcv_nxt (tp k') = rcv_nxt (tp k) -> snd_ok k' una nxt mx.
Proof.
  intros [] Es Eg E1 E2 E3 E4 E5 E6 E7 E8 E9 E10. destruct (queue_eq _ _ Es) as (Em & Ec & Eb).
  split; unfold cc in *; rewrite ?Em, ?Ec, ?Eb, ?Eg, ?E1, ?E2, ?E3, ?E4, ?E5, ?E6, ?E8, ?E9, ?E10; try done.
  - by eapply sb_inv_queue.
  - split; [apply sk_wnd0|done].
Qed.

Lemma usable_range k una nxt mx : snd_ok k una nxt mx -> 0 <= usable k < 2147483648.
Proof. intros H. destruct (sk_wnd _ _ _ _ H). unfold usable. cbv zeta. case_match; lia. Qed.

Lemma output_force_ok k una nxt mx off k1 win flags :
  snd_ok k una nxt mx -> synced (t_state (tp k)) ->
  output_force k off (Z.min (snd_wnd (tp k)) (snd_cwnd (tp k))) (tcp_outflags (t_state (tp k))) = (k1, win, flags) ->
  snd_ok k1 una nxt mx /\ same_send k k1 /\ win = usable k /\ tm_rexmt (tp k1) = tm_rexmt (tp k) /\
  (flags = TH_ACK \/ (flags = Z.lor TH_FIN TH_ACK /\ fin_state (t_state (tp k)) = true)) /\
  (t_force (tp k1) <> 0 -> tm_persist (tp k1) <> 0 -> win = 1).
Proof.
  intros Hk Hs. unfold output_force, same_send, same_peer, usable. pose proof (sk_wnd _ _ _ _ Hk) as [Hw Hc].
  set (w := Z.min _ _).
  destruct (Z.eqb_spec (t_force (tp k)) 0) as [E|E]; simpl negb; cbn iota.
  { intros; simplify_eq. split; [done|]. rewrite E. simpl.
    split_and!; try done. by apply outflags_synced. }
  destruct (Z.eqb_spec w 0) as [Ew|Ew].
  - intros; simplify_eq. rewrite Ew, (proj2 (Z.eqb_neq _ 0) E). simpl. split; [done|]. split_and!; try done.
    destruct (outflags_synced _ Hs) as [->|[-> ?]]; case_match; auto.
  - intros; simplify_eq. unfold tf in *. split.
    { eapply (snd_ok_ext k); unfold tf; rec_simpl; done. }
    rec_simpl. rewrite (proj2 (Z.eqb_neq _ 0) Ew), andb_false_r.
    split_and!; try done. by apply outflags_synced.
Qed.

Lemma if_max0 x : (if x <? 0 then 0 else x) = Z.max 0 x.
Proof. destruct (Z.ltb_spec x 0); lia. Qed.
Lemma if_min x m : (if x >? m then m else x) = Z.min x m.
Proof. destruct (Z.gtb_spec x m); lia. Qed.

Lemma output_len_ok k una nxt mx k1 l :
  snd_ok k una nxt mx -> synced (t_state (tp k)) -> output_len k = (k1, l) ->
  exists nxt1, decided k una nxt mx k1 l nxt1.
Proof.
  intros Hk Hs E. unfold output_len in E.
  pose proof (sk_cc _ _ _ _ Hk) as Hcc. rewrite Hcc, (u32_win _ _ _ _ Hk) in E.
  destruct (output_force _ _ _ _) as [[k0 win] flags] eqn:Ef.
  apply (output_force_ok _ una nxt mx) in Ef as (Hk0 & Hsame & Hwin & Hrx & Hfl & Hpr); [|done|done].
  pose proof Hk as [K1 K2 K3 K4 K5 _ _ _ _ _ K11 K12 _ _ _ _].
  assert (Hwr : 0 <= win < 2147483648) by (rewrite Hwin; eapply usable_range; done).
  rewrite K1, K2 in E. pose proof (cc_nonneg k) as Hcn.
  assert (Hoff : s32 (u32 nxt - u32 una) = nxt - una).
  { rewrite s32_sub_l, s32_sub_r. apply s32_id. lia. }
  rewrite Hoff in E. rewrite cmin_spec, s32_id in E by lia.
  pose proof (sk_mss _ _ _ _ Hk0) as Hmss.
  set (len0 := Z.min (cc k) win - (nxt - una)) in *.
  set (kk := if (len0 <? 0) && (win =? 0) then _ else k0) in *.
  assert (Hkk : exists nxt1, snd_ok kk una nxt1 mx /\ (nxt1 = nxt \/ nxt1 = una) /\ (0 <= len0 -> nxt1 = nxt)).
  { unfold kk. destruct (Z.ltb_spec len0 0); simpl; [|exists nxt; auto].
    destruct (win =? 0); [|exists nxt; split_and!; auto; lia].
    exists una. split_and!; auto; [|lia]. destruct Hk0 as []. split; unfold tf, cc in *; rec_simpl; try done. lia. }
  assert (Hskk : same_send k kk /\ tm_persist (tp kk) = tm_persist (tp k0) /\ t_maxseg (tp kk) = t_maxseg (tp k0)).
  { unfold kk, same_send, same_peer, usable in *. case_match; rec_simpl; done. }
  destruct Hskk as (Hskk & Htp & Htm). clearbody kk. rewrite Htm in E.
  destruct Hkk as (nxt1 & Hok1 & Hn1 & Hn2).
  rewrite if_max0, if_min in E. set (len := Z.min (Z.max 0 len0) (t_maxseg (tp k0))) in *.
  assert (Hlen : 0 <= len <= t_maxseg (tp k0) /\ (len <> 0 -> len <= len0)) by lia.
  rewrite (sk_nxt _ _ _ _ Hok1), (sk_una _ _ _ _ Hok1), !u32_add_l in E.
  pose proof (sk_order _ _ _ _ Hok1) as Hord. pose proof (sk_end _ _ _ _ Hok1) as Hend1.
  assert (Hcck : cc kk = cc k) by (unfold cc; by rewrite (proj1 (proj1 Hskk))). rewrite Hcck in Hend1.
  destruct (seq_window_order (nxt1 + len) (una + cc k)) as [Hlt _]; [lia|]. rewrite Hlt in E.
  pose proof Hskk as ((_ & _ & _ & S7 & S8 & _) & _).
  destruct Hsame as ((_ & _ & _ & R7 & R8 & _) & _).
  assert (Hprobe : t_force (tp k0) <> 0 -> tm_persist (tp k0) <> 0 -> len0 <= 1).
  { intros H1 H2. rewrite (Hpr H1 H2) in Hwin. unfold len0. lia. }
  simplify_eq. exists nxt1.
  split; rewrite ?Htm, ?Htp, ?S8; cbn [o_len o_off o_flags o_sendalot].
  - done.
  - done.
  - lia.
  - lia.
  - destruct (Z.ltb_spec (nxt1 + len) (una + cc k)); destruct Hfl as [->|[-> Hfs]]; try done.
    intros _. rewrite S7. split; [done|lia].
  - destruct (nxt1 + len <? una + cc k); by destruct Hfl as [->|[-> Hfs]].
  - destruct (nxt1 + len <? una + cc k); by destruct Hfl as [->|[-> Hfs]].
  - destruct (nxt1 + len <? una + cc k); by destruct Hfl as [->|[-> Hfs]].
  - intros Hgt. split; [lia|]. rewrite R8 in Hprobe.
    destruct (Z.eq_dec (t_force (tp k)) 0); [by left|].
    destruct (Z.eq_dec (tm_persist (tp k0)) 0); [by right|]. specialize (Hprobe ltac:(done) ltac:(done)). lia.
  - rewrite R8 in Hprobe. lia.
  - done.
Qed.

(** The length of the first segment from the start of the buffer. *)
Lemma output_len_first k una mx k1 l :
  snd_ok k una una mx -> synced (t_state (tp k)) -> output_len k = (k1, l) ->
  o_len l = Z.min (Z.min (cc k) (usable k)) (t_maxseg (tp k)).
Proof.
  intros Hk Hs E. unfold output_len in E. rewrite (sk_cc _ _ _ _ Hk), (u32_win _ _ _ _ Hk) in E.
  destruct (output_force _ _ _ _) as [[k0 win] flags] eqn:Ef.
  apply (output_force_ok _ una una mx) in Ef as (Hk0 & Hsame & Hwin & _); [|done|done].
  pose proof (usable_range _ _ _ _ Hk). pose proof (cc_nonneg k). pose proof (sk_small _ _ _ _ Hk). pose proof (sk_mss _ _ _ _ Hk).
  rewrite (sk_una _ _ _ _ Hk), (sk_nxt _ _ _ _ Hk), Z.sub_diag, (s32_id 0), Hwin, cmin_spec, Z.sub_0_r, s32_id in E by lia.
  destruct (Z.ltb_spec (Z.min (cc k) (usable k)) 0); [lia|]. cbn [andb] in E. rewrite if_min in E.
  destruct Hsame as ((_ & _ & _ & _ & _ & _ & _ & M & _) & _). rewrite M in E. by injection E as <- <-.
Qed.

(** ** Building the segment *)

(** The state after the options and the mbufs differ only in the pool. *)
Definition same_but_pool (k k1 : kst) : Prop := k1 = k <| pool := pool k1 |>.

Lemma be_bytes v : Forall is_byte (be32 v).
Proof. unfold be32. repeat constructor; apply Z.mod_pos_bound; lia. Qed.

(** No options, or a timestamp laid out as in appendix A of RFC 1323. *)
Definition plain_opt (opt : list Z) : Prop :=
  opt = [] \/ exists v w, opt = be32 TCPOPT_TSTAMP_HDR ++ be32 v ++ be32 w.

(** Without a SYN the options are a timestamp or nothing. *)
Lemma output_options_ok net k flags k1 opt :
  hasf flags (Z.lor TH_SYN TH_RST) = false -> output_options net k flags = (k1, opt) ->
  k1 = k /\ Forall is_byte opt /\ (zlen opt = 0 \/ zlen opt = 12) /\ plain_opt opt.
Proof.
  rewrite hasf_lor. intros [Hs Hr]%orb_false_iff E. unfold output_options, output_synopts in E.
  rewrite Hs in E. case_match; simplify_eq; [|by split_and!; auto; left].
  split; [done|]. split_and!; [|by right|right; by eexists _, _]. rewrite !Forall_app. auto using be_bytes.
Qed.

(** The data length after room was made for the options. *)
Lemma output_clip_ok k opt l :
  12 < t_maxseg (tp k) <= 32000 -> 0 <= o_len l <= t_maxseg (tp k) -> (zlen opt = 0 \/ zlen opt = 12) ->
  let l' := output_clip k opt l in
  o_off l' = o_off l /\ o_win l' = o_win l /\ 0 <= o_len l' <= o_len l /\ o_len l' <= t_maxseg (tp k) - zlen opt /\
  (o_len l' = 0 <-> o_len l = 0) /\
  (o_sendalot l' = true -> o_sendalot l = true \/ 1 < o_len l) /\
  (o_sendalot l' = true -> o_len l <> 0 -> 0 < o_len l') /\
  (l' = l \/ o_flags l' = clrb (o_flags l) TH_FIN) /\
  o_len l' = Z.min (o_len l) (t_maxseg (tp k) - zlen opt).
Proof.
  intros Hm Hl Ho. unfold output_clip. rewrite (u32_id (t_maxseg (tp k) - zlen opt)) by lia.
  rewrite (u32_id (o_len l)), s32_id by lia.
  destruct (Z.gtb_spec (o_len l) (t_maxseg (tp k) - zlen opt)); rec_simpl; split_and!; auto; lia.
Qed.

(** The mbufs hold the bytes of the send buffer from [off] on. *)
Lemma output_packet_ok k una nxt mx hdrlen l :
  snd_ok k una nxt mx -> 40 <= hdrlen <= 52 -> 0 <= o_len l ->
  (o_len l <> 0 -> 0 <= o_off l /\ o_off l + o_len l <= cc k) ->
  exists p' r, output_packet k hdrlen l = Ret (k <| pool := p' |>, r) /\
    match r with
    | None => mp_fail (pool k) <> []
    | Some (m, d, c) => d ++ chain_bytes c = zsub (o_off l) (o_len l) (sb_bytes (so_snd (so k))) /\
        zlen (d ++ chain_bytes c) = o_len l /\ (d = [] \/ c = []) /\ hasf (m_flags m) M_EXT = false
    end.
Proof.
  intros Hk Hh Hl Ho. unfold output_packet.
  destruct (m_gethdr (pool k) MT_HEADER) as [[m|] p] eqn:Eg.
  2: { eexists _, None. split; [done|]. unfold m_gethdr, pool_alloc in Eg. by destruct (mp_fail (pool k)). }
  assert (Hfp : mp_fail (pool k) = [] -> mp_fail p = []).
  { intros Hf. unfold m_gethdr, pool_alloc in Eg. rewrite Hf in Eg. by injection Eg as _ <-. }
  assert (Hm : hasf (m_flags m) M_EXT = false).
  { unfold m_gethdr in Eg. destruct (pool_alloc _) as [[] ?]; by simplify_eq. }
  destruct (Z.eqb_spec (o_len l) 0) as [E0|E0].
  { eexists p, (Some _). split; [done|]. rewrite E0. split_and!; auto. }
  destruct (Ho E0) as [Hoff Hend]. pose proof (sk_small _ _ _ _ Hk) as Hsm. unfold cc in *.
  set (sb := match sb_mb (so_snd (so k)) with r :: _ => r | [] => [] end).
  assert (Hsb : chain_bytes sb = sb_bytes (so_snd (so k))).
  { pose proof (sk_one _ _ _ _ Hk) as H1. unfold sb, sb_bytes, sb_chain.
    destruct (sb_mb (so_snd (so k))) as [|r [|]]; simpl in *; [done| |lia]. by rewrite app_nil_r. }
  assert (Hcl : chain_len sb = zlen (sb_bytes (so_snd (so k)))) by (unfold chain_len; by rewrite Hsb).
  assert (Hz : zlen (zsub (o_off l) (o_len l) (sb_bytes (so_snd (so k)))) = o_len l) by (apply zlen_zsub; lia).
  case_match.
  - rewrite m_copydata_spec by lia. cbn [obind]. rewrite Hsb, Hz, Z.eqb_refl.
    eexists p, (Some _). split; [reflexivity|]. cbv beta iota. rewrite app_nil_r. split_and!; auto.
  - rec_simpl. destruct (m_copym_spec p sb (o_off l) (o_len l)) as (r & p' & -> & Hnf & Hr);
      [lia|lia|lia|unfold M_COPYALL; lia|]. cbn [obind].
    destruct r as [c|].
    + destruct Hr as [Hb _]. eexists p', (Some _). split; [done|]. cbn [app].
      rewrite Hb, Hsb, Hz. split_and!; auto.
    + eexists _, None. split; [done|]. intros Hf. by destruct (Hnf (Hfp Hf)).
Qed.

Lemma setb_range a b : 0 <= a < 64 -> 0 <= b < 64 -> 0 <= setb a b < 64.
Proof.
  intros Ha Hb. unfold setb.
  assert (H : Z.shiftr (Z.lor a b) 6 = 0).
  { rewrite Z.shiftr_lor, !Z.shiftr_div_pow2 by lia. rewrite !Z.div_small by lia. done. }
  assert (0 <= Z.lor a b) by (apply Z.lor_nonneg; lia).
  rewrite Z.shiftr_div_pow2 in H by lia. change (2 ^ 6) with 64 in H.
  Z.to_euclidean_division_equations. lia.
Qed.

Lemma clrb_range a b : 0 <= a < 64 -> 0 <= clrb a b < 64.
Proof.
  intros Ha. unfold clrb.
  assert (H : Z.shiftr (Z.ldiff a b) 6 = 0).
  { rewrite Z.shiftr_ldiff, Z.shiftr_div_pow2, Z.div_small by lia. done. }
  assert (0 <= Z.ldiff a b) by (apply Z.ldiff_nonneg; lia).
  rewrite Z.shiftr_div_pow2 in H by lia. change (2 ^ 6) with 64 in H.
  Z.to_euclidean_division_equations. lia.
Qed.

(** ** The header *)

(** What the header of a segment at position [s] with data length [len] says. *)
Record hdr_ok (k : kst) (tmpl : tcpiphdr) (optlen len flags s : Z) (ti : tcpiphdr) : Prop := {
  ho_wf : ti_wf ti;
  ho_sum : ti_sum ti = 0;
  ho_seq : ti_seq ti = u32 s;
  ho_ack : ti_ack ti = rcv_nxt (tp k);
  ho_len : ti_len ti = 20 + optlen + len;
  ho_off : ti_off ti * 4 = 20 + optlen;
  ho_flags : ti_flags ti = flags \/ ti_flags ti = setb flags TH_URG;
  ho_addr : ti_src ti = ti_src tmpl /\ ti_dst ti = ti_dst tmpl /\ ti_sport ti = ti_sport tmpl /\ ti_dport ti = ti_dport tmpl
}.

(** A resent FIN goes back to the sequence number of the FIN. *)
Definition back_fin (k : kst) (flags : Z) : kst :=
  if hasf flags TH_FIN && tf k TF_SENTFIN && (snd_nxt (tp k) =? snd_max (tp k))
  then k <t| snd_nxt := u32 (snd_nxt (tp k) - 1) |> else k.

Lemma back_fin_ok k una nxt mx flags len :
  snd_ok k una nxt mx -> 0 <= len ->
  (hasf flags TH_FIN = true -> fin_state (t_state (tp k)) = true /\ una + cc k <= nxt + len) ->
  (len <> 0 -> nxt - una + len <= cc k) ->
  exists nxt', snd_ok (back_fin k flags) una nxt' mx /\
    (nxt' = nxt \/ (len = 0 /\ nxt' = una + cc k /\ hasf flags TH_FIN = true)) /\
    (hasf flags TH_FIN = true -> nxt' + len = una + cc k).
Proof.
  intros Hk Hl Hf Hd. unfold back_fin. pose proof (sk_order _ _ _ _ Hk). pose proof (sk_end _ _ _ _ Hk).
  pose proof (sk_small _ _ _ _ Hk). pose proof (cc_nonneg k).
  destruct (hasf flags TH_FIN); simpl; [|exists nxt; split_and!; auto; done]. destruct (Hf eq_refl) as [Hst Hge].
  destruct (tf k TF_SENTFIN) eqn:Es; simpl.
  2: { exists nxt. pose proof (sk_nofin _ _ _ _ Hk Es). split_and!; auto; lia. }
  pose proof (sk_fin _ _ _ _ Hk Es Hst) as Hmx.
  rewrite (sk_nxt _ _ _ _ Hk), (sk_max _ _ _ _ Hk).
  destruct (Z.eqb_spec (u32 nxt) (u32 mx)) as [E|E].
  - assert (nxt = mx) by wrap_lia. exists (una + cc k). split_and!; auto; try lia.
    destruct Hk. split; unfold cc, tf in *; rec_simpl; try done; [|lia].
    rewrite u32_sub_l. f_equal. lia.
  - assert (nxt <> mx) by congruence. exists nxt. split_and!; auto; lia.
Qed.

(** The header, once the sequence number is settled. *)
Definition fill_ti (k : kst) (tmpl : tcpiphdr) (opt : list Z) (l : olocals) (urg : bool) : tcpiphdr :=
  {| ti_len := 20 + zlen opt + o_len l;
     ti_src := ti_src tmpl; ti_dst := ti_dst tmpl; ti_sport := ti_sport tmpl; ti_dport := ti_dport tmpl;
     ti_seq := if negb (o_len l =? 0) || hasf (o_flags l) (Z.lor TH_SYN TH_FIN) || negb (tm_persist (tp k) =? 0)
               then snd_nxt (tp k) else snd_max (tp k);
     ti_ack := rcv_nxt (tp k);
     ti_off := 5 + zlen opt / 4;
     ti_flags := if urg then setb (o_flags l) TH_URG else o_flags l;
     ti_win := u16 (Z.shiftr (o_win l) (rcv_scale (tp k)));
     ti_sum := 0;
     ti_urp := if urg then u16 (snd_up (tp k) - snd_nxt (tp k)) else ti_urp tmpl |}.

Lemma output_header_eq k tmpl opt l :
  tmpl_ok tmpl -> (zlen opt = 0 \/ zlen opt = 12) -> 0 <= o_len l <= 32000 ->
  output_header k tmpl opt l =
  let k1 := back_fin k (o_flags l) in
  let urg := SEQ_GT (snd_up (tp k1)) (snd_nxt (tp k1)) in
  (if urg then k1 else k1 <t| snd_up := snd_una (tp k1) |>, fill_ti k1 tmpl opt l urg).
Proof.
  intros (Hwf & Hs & Ho & Hl) Hopt Hlen. unfold output_header. fold (back_fin k (o_flags l)).
  set (k1 := back_fin k (o_flags l)). clearbody k1. cbv zeta.
  assert (E1 : u32 (o_len l + zlen opt) = o_len l + zlen opt) by (apply u32_id; lia). rewrite E1.
  assert (E2 : s16 (sizeof_tcphdr + zlen opt + o_len l) = 20 + zlen opt + o_len l)
    by (apply s16_id; unfold sizeof_tcphdr; lia). rewrite E2.
  assert (E3 : Z.shiftr (sizeof_tcphdr + zlen opt) 2 = 5 + zlen opt / 4)
    by (by destruct Hopt as [->| ->]). rewrite E3. clear E1 E2 E3.
  unfold fill_ti. generalize (SEQ_GT (snd_up (tp k1)) (snd_nxt (tp k1))) as urg.
  generalize (if negb (o_len l =? 0) || hasf (o_flags l) (Z.lor TH_SYN TH_FIN) || negb (tm_persist (tp k1) =? 0)
              then snd_nxt (tp k1) else snd_max (tp k1)) as sq.
  generalize (u16 (snd_up (tp k1) - snd_nxt (tp k1))) (rcv_nxt (tp k1)) (u16 (Z.shiftr (o_win l) (rcv_scale (tp k1)))).
  generalize (k1 <t| snd_up := snd_una (tp k1) |>).
  destruct tmpl. cbn [ti_sum ti_off ti_len ti_src ti_dst ti_sport ti_dport ti_urp] in *. subst. clear Hwf.
  intros k2 z1 z2 z3 sq urg.
  destruct urg, (Z.eqb_spec (zlen opt) 0) as [E|E], (Z.eqb_spec (o_len l + zlen opt) 0) as [E'|E']; cbn [negb];
    try lia; apply pair_eq; (split; [done|]);
    cbv beta iota delta [setf set_ti_len set_ti_seq set_ti_ack set_ti_off set_ti_flags set_ti_win set_ti_urp
      ti_sum ti_off ti_len ti_src ti_dst ti_sport ti_dport ti_urp ti_seq ti_ack ti_flags ti_win];
    rewrite ?E; try (replace (o_len l) with 0 by lia); reflexivity.
Qed.

Lemma output_header_ok k una nxt mx tmpl opt l k' ti :
  snd_ok k una nxt mx -> tmpl_ok tmpl -> 0 <= o_flags l < 64 -> (zlen opt = 0 \/ zlen opt = 12) ->
  0 <= o_len l <= 32000 ->
  (hasf (o_flags l) TH_FIN = true -> fin_state (t_state (tp k)) = true /\ una + cc k <= nxt + o_len l) ->
  (o_len l <> 0 -> nxt - una + o_len l <= cc k) ->
  output_header k tmpl opt l = (k', ti) ->
  exists nxt' s, snd_ok k' una nxt' mx /\ hdr_ok k tmpl (zlen opt) (o_len l) (o_flags l) s ti /\
    (s = nxt' \/ (s = mx /\ o_len l = 0 /\ hasf (o_flags l) TH_FIN = false)) /\
    (nxt' = nxt \/ (o_len l = 0 /\ nxt' = una + cc k /\ hasf (o_flags l) TH_FIN = true)) /\
    (hasf (o_flags l) TH_FIN = true -> nxt' + o_len l = una + cc k) /\
    exists n u, k' = k <t| snd_nxt := n |> <t| snd_up := u |>.
Proof.
  intros Hk Ht Hfl Hopt Hlen Hfin Hdata E. rewrite output_header_eq in E by done.
  destruct (back_fin_ok k una nxt mx (o_flags l) (o_len l) Hk) as (nxt' & Hk' & Hn1 & Hn2); [lia|done|done|].
  assert (Hk1 : exists n, back_fin k (o_flags l) = k <t| snd_nxt := n |>).
  { unfold back_fin. case_match; [by eexists|]. exists (snd_nxt (tp k)). by destruct k as [[]]. }
  set (k1 := back_fin _ _) in *. clearbody k1. cbv zeta in E.
  destruct Hk1 as [n Hk1]. set (urg := SEQ_GT _ _) in *. clearbody urg. simplify_eq.
  pose proof Ht as (Hwf & Hs & Ho & Hl).
  assert (Hq : zlen opt / 4 * 4 = zlen opt) by (by destruct Hopt as [->| ->]).
  exists nxt'. exists (if negb (o_len l =? 0) || hasf (o_flags l) (Z.lor TH_SYN TH_FIN) ||
                 negb (tm_persist (tp (k <t| snd_nxt := n |>)) =? 0) then nxt' else mx).
  split_and!.
  - destruct urg; [done|]. eapply (snd_ok_ext (k <t| snd_nxt := n |>)); unfold tf; rec_simpl; try done.
    apply (sk_wnd _ _ _ _ Hk).
  - pose proof (sk_nxt _ _ _ _ Hk') as En. pose proof (sk_max _ _ _ _ Hk') as Em. rec_simpl_in En. rec_simpl_in Em.
    unfold fill_ti. rec_simpl. rewrite En, Em.
    split; cbn [ti_len ti_src ti_dst ti_sport ti_dport ti_seq ti_ack ti_off ti_flags ti_win ti_sum ti_urp]; try done.
    + destruct Hwf.
      split; cbn [ti_len ti_src ti_dst ti_sport ti_dport ti_seq ti_ack ti_off ti_flags ti_win ti_sum ti_urp];
        auto using u16_range; try lia.
      * case_match; apply u32_range.
      * apply (sk_rcv _ _ _ _ Hk).
      * destruct urg; [|lia]. pose proof (setb_range (o_flags l) TH_URG Hfl). unfold TH_URG in *. lia.
      * destruct urg; [apply u16_range|done].
    + by case_match.
    + lia.
    + destruct urg; auto.
  - rewrite hasf_lor. destruct (hasf (o_flags l) TH_FIN); rewrite ?orb_true_r; [by left|].
    destruct (Z.eqb_spec (o_len l) 0) as [E0|E0]; simpl; [|by left]. case_match; auto.
  - done.
  - done.
  - destruct urg; [|by eexists n, _]. exists n, (snd_up (tp k)). by destruct k as [[]].
Qed.

(** ** Sequence numbers after the segment *)

Definition probing (k : kst) : bool := negb (t_force (tp k) =? 0) && negb (tm_persist (tp k) =? 0).

Lemma advance_max_eq k q :
  snd_max (tp (advance_max k q)) = (if SEQ_GT (snd_nxt (tp k)) (snd_max (tp k)) then snd_nxt (tp k) else snd_max (tp k)) /\
  snd_nxt (tp (advance_max k q)) = snd_nxt (tp k) /\ snd_una (tp (advance_max k q)) = snd_una (tp k) /\
  tf (advance_max k q) TF_SENTFIN = tf k TF_SENTFIN /\ same_peer k (advance_max k q) /\
  pool (advance_max k q) = pool k /\ sent (advance_max k q) = sent k /\ ip_err (advance_max k q) = ip_err k /\
  snd_wnd (tp (advance_max k q)) = snd_wnd (tp k) /\ snd_cwnd (tp (advance_max k q)) = snd_cwnd (tp k).
Proof.
  unfold advance_max, same_peer, usable, tf. cbv zeta. destruct (SEQ_GT _ _); [destruct (_ =? 0)|]; rec_simpl; done.
Qed.
Lemma advance_rexmt_eq k :
  snd_max (tp (advance_rexmt k)) = snd_max (tp k) /\
  snd_nxt (tp (advance_rexmt k)) = snd_nxt (tp k) /\ snd_una (tp (advance_rexmt k)) = snd_una (tp k) /\
  tf (advance_rexmt k) TF_SENTFIN = tf k TF_SENTFIN /\ same_peer k (advance_rexmt k) /\
  pool (advance_rexmt k) = pool k /\ sent (advance_rexmt k) = sent k /\ ip_err (advance_rexmt k) = ip_err k /\
  snd_wnd (tp (advance_rexmt k)) = snd_wnd (tp k) /\ snd_cwnd (tp (advance_rexmt k)) = snd_cwnd (tp k).
Proof.
  unfold advance_rexmt, same_peer, usable, tf. cbv zeta. destruct (_ && _); [destruct (negb _)|]; rec_simpl; done.
Qed.

Lemma same_peer_trans k1 k2 k3 : same_peer k1 k2 -> same_peer k2 k3 -> same_peer k1 k3.
Proof. unfold same_peer. intros. destruct_and!. split_and!; congruence. Qed.

(** The positions of the sequence numbers move; the rest stays. *)
Lemma snd_ok_move k k' una nxt mx nxt' mx' :
  snd_ok k una nxt mx -> same_peer k k' ->
  snd_wnd (tp k') = snd_wnd (tp k) -> snd_cwnd (tp k') = snd_cwnd (tp k) ->
  snd_una (tp k') = u32 una -> snd_nxt (tp k') = u32 nxt' -> snd_max (tp k') = u32 mx' ->
  una <= nxt' <= mx' -> mx' <= una + cc k + 1 ->
  (tf k' TF_SENTFIN = false -> mx' <= una + cc k) ->
  (tf k' TF_SENTFIN = true -> fin_state (t_state (tp k)) = true -> mx' = una + cc k + 1) ->
  snd_ok k' una nxt' mx'.
Proof.
  intros Hk (S1 & S2 & S3 & S4 & S5 & S6 & S7 & S8 & S9) W C U N M O E F1 F2.
  destruct Hk. split; unfold cc in *; rewrite ?S1, ?S2, ?S4, ?S7, ?S8, ?S9, ?W, ?C; done.
Qed.

Lemma output_advance_ok k una nxt mx l k' :
  snd_ok k una nxt mx -> hasf (o_flags l) (Z.lor TH_SYN TH_RST) = false -> 0 <= o_len l ->
  (o_len l <> 0 -> nxt - una + o_len l <= cc k) ->
  (hasf (o_flags l) TH_FIN = true -> nxt + o_len l = una + cc k) ->
  output_advance k l = k' ->
  exists nxt' mx', snd_ok k' una nxt' mx' /\ mx <= mx' /\ same_peer k k' /\
    nxt + (if probing k then 0 else o_len l) <= nxt' /\
    pool k' = pool k /\ sent k' = sent k /\ ip_err k' = ip_err k.
Proof.
  intros Hk Hctl Hl Hd Hf E. unfold output_advance, probing in *.
  rewrite hasf_lor in Hctl. apply orb_false_iff in Hctl as [Hsyn _].
  pose proof (sk_order _ _ _ _ Hk) as Ho. pose proof (sk_end _ _ _ _ Hk) as He.
  pose proof (sk_small _ _ _ _ Hk) as Hs. pose proof (cc_nonneg k) as Hc.
  pose proof (sk_wnd _ _ _ _ Hk) as Hw.
  rewrite <- negb_orb in *. destruct ((t_force (tp k) =? 0) || _); simpl negb; cbn iota.
  - (* the transmit state *)
    set (k0 := advance_seq k (o_flags l) (o_len l)) in *.
    set (n0 := nxt + (if hasf (o_flags l) TH_FIN then 1 else 0) + o_len l).
    assert (E0 : snd_nxt (tp k0) = u32 n0 /\ snd_una (tp k0) = u32 una /\ snd_max (tp k0) = u32 mx /\
      tf k0 TF_SENTFIN = tf k TF_SENTFIN || hasf (o_flags l) TH_FIN /\ same_peer k k0 /\ pool k0 = pool k /\
      sent k0 = sent k /\ ip_err k0 = ip_err k /\ snd_wnd (tp k0) = snd_wnd (tp k) /\ snd_cwnd (tp k0) = snd_cwnd (tp k)).
    { destruct Hk. unfold k0, n0, advance_seq, same_peer, usable, tf, tf_set. rewrite Hsyn.
      destruct (hasf (o_flags l) TH_FIN); rec_simpl; split_and!; try done.
      - rewrite sk_nxt0, !u32_add_l, <- Z.add_assoc, ?u32_add_l. f_equal. lia.
      - flags_simpl. done.
      - rewrite sk_nxt0, !u32_add_l. f_equal. lia.
      - by rewrite orb_false_r. }
    clearbody k0. destruct E0 as (N0 & U0 & M0 & F0 & P0 & O0 & S0 & I0 & W0 & C0).
    pose proof (advance_max_eq k0 (snd_nxt (tp k))) as E1. set (k1 := advance_max k0 _) in *. clearbody k1.
    pose proof (advance_rexmt_eq k1) as E2. rewrite E in E2. clear E.
    set (m0 := Z.max n0 mx).
    assert (M1 : snd_max (tp k') = u32 m0).
    { destruct E2 as (-> & _). destruct E1 as (-> & _). rewrite N0, M0.
      destruct (seq_window_order n0 mx) as (_ & _ & -> & _); [unfold n0; case_match; lia|].
      unfold m0. destruct (Z.gtb_spec n0 mx); f_equal; lia. }
    destruct E1 as (_ & N1 & U1 & F1 & P1 & O1 & S1 & I1 & W1 & C1).
    destruct E2 as (_ & N2 & U2 & F2 & P2 & O2 & S2 & I2 & W2 & C2).
    rewrite N1, N0 in N2. rewrite U1, U0 in U2. rewrite F1, F0 in F2. rewrite W1, W0 in W2. rewrite C1, C0 in C2.
    assert (P3 : same_peer k k') by (eauto using same_peer_trans).
    exists n0, m0. split_and!; try congruence; try (unfold m0, n0; case_match; lia).
    eapply snd_ok_move; try done; unfold m0, n0; rewrite ?F2.
    + case_match; lia.
    + destruct (hasf _ TH_FIN); [specialize (Hf eq_refl); lia|]. destruct (Z.eq_dec (o_len l) 0); lia.
    + intros [Es ->]%orb_false_iff. pose proof (sk_nofin _ _ _ _ Hk Es). destruct (Z.eq_dec (o_len l) 0); lia.
    + intros Hfin Hst. destruct (hasf _ TH_FIN); [specialize (Hf eq_refl); lia|].
      rewrite orb_false_r in Hfin. pose proof (sk_fin _ _ _ _ Hk Hfin Hst). destruct (Z.eq_dec (o_len l) 0); lia.
  - (* a probe in the persist state *)
    pose proof (sk_nxt _ _ _ _ Hk) as N. pose proof (sk_max _ _ _ _ Hk) as M. rewrite N, M, u32_add_l in E.
    destruct (seq_window_order (nxt + o_len l) mx) as (_ & _ & Hgt & _); [lia|]. rewrite Hgt in E.
    exists nxt, (Z.max mx (nxt + o_len l)).
    destruct (Z.gtb_spec (nxt + o_len l) mx); subst k'.
    2: { replace (Z.max mx (nxt + o_len l)) with mx by lia. unfold same_peer. split_and!; try done; lia. }
    replace (Z.max mx (nxt + o_len l)) with (nxt + o_len l) by lia.
    assert (P : same_peer k (k <t| snd_max := u32 (nxt + o_len l) |>)) by (unfold same_peer, usable; by rec_simpl).
    split_and!; try done; try lia.
    eapply snd_ok_move; try done; try lia; unfold tf; rec_simpl.
    + apply (sk_una _ _ _ _ Hk).
    + intros Hst Hfs. pose proof (sk_fin _ _ _ _ Hk Hst Hfs). lia.
Qed.

(** ** The packet *)

(** A segment of the stream: [bytes] is what the send buffer holds from position
    [una] on, [w] the usable window, [mss] the maximum segment size, [ack] the
    position acknowledged and [tm] the connection's template. *)
Record seg_ok (bytes : list Z) (una w mss ack : Z) (tm : tcpiphdr) (p : packet) : Prop := {
  so_pos : exists s, ti_seq (pk_ti p) = u32 s /\ una <= s <= una + zlen bytes + 1 /\
    (pk_data p <> [] -> pk_data p = zsub (s - una) (zlen (pk_data p)) bytes /\
       s - una + zlen (pk_data p) <= zlen bytes /\ s - una + zlen (pk_data p) <= w) /\
    (hasf (ti_flags (pk_ti p)) TH_FIN = true -> s + zlen (pk_data p) = una + zlen bytes);
  so_mss : zlen (pk_opt p) + zlen (pk_data p) <= mss;
  so_ctl : hasf (ti_flags (pk_ti p)) (Z.lor TH_SYN TH_RST) = false;
  so_isack : hasf (ti_flags (pk_ti p)) TH_ACK = true;
  so_ackno : ti_ack (pk_ti p) = ack;
  so_len : ti_len (pk_ti p) = 20 + zlen (pk_opt p) + zlen (pk_data p) /\ pk_iplen p = 20 + ti_len (pk_ti p);
  so_off : ti_off (pk_ti p) * 4 = 20 + zlen (pk_opt p);
  so_addr : ti_src (pk_ti p) = ti_src tm /\ ti_dst (pk_ti p) = ti_dst tm /\
            ti_sport (pk_ti p) = ti_sport tm /\ ti_dport (pk_ti p) = ti_dport tm;
  so_wire : chain_bytes (pk_m p) = encode_ti (pk_ti p) ++ pk_opt p ++ pk_data p;
  so_decode : decode_ti (chain_bytes (pk_m p)) = pk_ti p;
  so_sum : pkt_sum p = 0;
  so_bytes : Forall is_byte (pk_opt p ++ pk_data p);
  so_opt : plain_opt (pk_opt p)
}.

(** A chain whose first mbuf holds the header with a zero sum field: storing the
    checksum makes the packet verify, and the header decodes. *)
Lemma stamp_ok ti rest (m : mbuf) (c : chain) n mlen :
  ti_wf ti -> ti_sum ti = 0 -> Forall is_byte (rest ++ chain_bytes c) ->
  n = 40 + zlen (rest ++ chain_bytes c) -> n <= 65535 ->
  let sum := in_cksum (m <| m_bytes := encode_ti ti ++ rest |> :: c) n in
  let ti' := ti <| ti_sum := sum |> in
  let ms := m <| m_bytes := encode_ti ti' ++ rest |> <| m_pktlen := mlen |> :: c in
  ti_wf ti' /\ chain_bytes ms = encode_ti ti' ++ rest ++ chain_bytes c /\
  decode_ti (chain_bytes ms) = ti' /\ in_cksum ms (chain_len ms) = 0.
Proof.
  intros Hwf Hz Hb Hn Hle sum ti' ms.
  assert (H0 : ti <| ti_sum := 0 |> = ti) by (destruct ti; cbn [ti_sum] in Hz; by subst).
  assert (Hsum : sum = cksum_ref (encode_ti (ti <| ti_sum := 0 |>) ++ (rest ++ chain_bytes c))).
  { unfold sum. rewrite in_cksum_spec, chain_bytes_cons; rec_simpl.
    - rewrite H0, <- app_assoc. f_equal. apply ztake_ge. rewrite zlen_app.
      change (zlen (encode_ti ti)) with 40. lia.
    - rewrite chain_bytes_cons. rec_simpl. rewrite <- app_assoc. apply Forall_app. split; [apply encode_bytes|done].
    - zlen_pose. lia. }
  clearbody sum.
  assert (Hms : chain_bytes ms = encode_ti ti' ++ rest ++ chain_bytes c).
  { unfold ms. rewrite chain_bytes_cons. rec_simpl. by rewrite <- app_assoc. }
  assert (Hwf' : ti_wf ti').
  { pose proof (cksum_ref_range (encode_ti (ti <| ti_sum := 0 |>) ++ (rest ++ chain_bytes c))) as Hr.
    rewrite <- Hsum in Hr. destruct Hwf. split; unfold ti'; rec_simpl; done. }
  split_and!; [done|done| |].
  - rewrite Hms, decode_app. by apply decode_encode.
  - assert (Hby : Forall is_byte (chain_bytes ms)).
    { rewrite Hms. apply Forall_app. split; [apply encode_bytes|done]. }
    assert (Hcl : chain_len ms = n).
    { unfold chain_len. rewrite Hms, zlen_app. change (zlen (encode_ti ti')) with 40. lia. }
    rewrite in_cksum_spec; [|done|zlen_pose; lia]. rewrite ztake_ge by (unfold chain_len; lia).
    rewrite Hms. unfold ti'. rewrite Hsum. apply sum_verifies; [done|lia].
Qed.

(** The state after ip_output. *)
Definition ip_next (k : kst) (p : packet) : kst := k <| sent := p :: sent k |> <| ip_err := tail (ip_err k) |>.
Lemma ip_output_eq k p : ip_output k p = (match ip_err k with [] => 0 | e :: _ => e end, ip_next k p).
Proof.
  unfold ip_output, ip_next. rec_simpl. destruct k as [? ? ? ? ? ? es ?]. by destruct es.
Qed.

Lemma snd_ok_ip k p una nxt mx : snd_ok k una nxt mx -> snd_ok (ip_next k p) una nxt mx.
Proof. intros H. eapply (snd_ok_ext k); try done. apply (sk_wnd _ _ _ _ H). Qed.

Lemma output_ip_ok k una nxt mx tmpl opt m d c l (s : Z) ti e k' :
  snd_ok k una nxt mx -> hdr_ok k tmpl (zlen opt) (o_len l) (o_flags l) s ti ->
  hasf (o_flags l) (Z.lor TH_SYN TH_RST) = false -> hasf (o_flags l) TH_ACK = true -> 0 <= o_len l ->
  Forall is_byte opt -> plain_opt opt -> zlen opt <= 12 -> zlen opt + o_len l <= t_maxseg (tp k) ->
  (o_len l <> 0 -> s = nxt /\ nxt - una + o_len l <= cc k /\ nxt - una + o_len l <= usable k /\
                   d ++ chain_bytes c = zsub (nxt - una) (o_len l) (sb_bytes (so_snd (so k)))) ->
  zlen (d ++ chain_bytes c) = o_len l ->
  (hasf (o_flags l) TH_FIN = true -> s = nxt /\ nxt + o_len l = una + cc k) -> una <= s <= una + cc k + 1 ->
  output_ip k ti opt m d c l = (e, k') ->
  exists p nxt' mx', seg_ok (sb_bytes (so_snd (so k))) una (usable k) (t_maxseg (tp k)) (rcv_nxt (tp k)) tmpl p /\
    sent k' = p :: sent k /\ snd_ok k' una nxt' mx' /\ mx <= mx' /\ same_peer k k' /\
    nxt + (if probing k then 0 else o_len l) <= nxt' /\
    ti_seq (pk_ti p) = u32 s /\ pk_data p = d ++ chain_bytes c /\ pk_opt p = opt.
Proof.
  intros Hk [] Hctl Hack Hl Hopt Hpl Hol Hmss Hdata Hdl Hfin Hs E.
  assert (Hbytes : Forall is_byte (d ++ chain_bytes c)).
  { destruct (Z.eq_dec (o_len l) 0) as [E0|E0].
    - rewrite E0 in Hdl. apply zlen_0 in Hdl. rewrite Hdl. constructor.
    - destruct (Hdata E0) as (_ & _ & _ & ->). unfold zsub, ztake, zdrop.
      apply Forall_take, Forall_drop, (sk_bytes _ _ _ _ Hk). }
  pose proof (sk_mss _ _ _ _ Hk) as Hm.
  destruct (stamp_ok ti (opt ++ d) m c (40 + zlen opt + o_len l) (40 + zlen opt + o_len l)) as (Hwf' & Hw & Hdec & Hck);
    [done|done|rewrite <- app_assoc; by apply Forall_app|rewrite <- app_assoc, zlen_app; lia|lia|].
  unfold output_ip in E. change sizeof_tcpiphdr with 40 in E.
  destruct (output_advance_ok k una nxt mx l (output_advance k l) Hk Hctl Hl) as (nxt' & mx' & Hok & Hmx & Hsame & Hn & Hpo & Hse & Hie);
    [intros H0; by apply Hdata|intros H0; by apply Hfin|reflexivity|].
  rewrite ip_output_eq in E. set (k1 := output_advance k l) in *. clearbody k1.
  set (sum := in_cksum (m <| m_bytes := encode_ti ti ++ opt ++ d |> :: c) (40 + zlen opt + o_len l)) in *. clearbody sum.
  set (ti' := ti <| ti_sum := sum |>) in *.
  assert (Ht : ti_seq ti' = ti_seq ti /\ ti_ack ti' = ti_ack ti /\ ti_len ti' = ti_len ti /\ ti_off ti' = ti_off ti /\
    ti_flags ti' = ti_flags ti /\ ti_src ti' = ti_src ti /\ ti_dst ti' = ti_dst ti /\ ti_sport ti' = ti_sport ti /\
    ti_dport ti' = ti_dport ti) by (unfold ti'; rec_simpl; done).
  clearbody ti'. destruct Ht as (T1 & T2 & T3 & T4 & T5 & T6 & T7 & T8 & T9).
  set (ms := m <| m_bytes := _ |> <| m_pktlen := _ |> :: c) in *. clearbody ms.
  injection E as <- <-. eexists _, nxt', mx'. split; [|split; [unfold ip_next; rec_simpl; by rewrite Hse|]].
  2: { split_and!; auto using snd_ok_ip. cbn [pk_ti]. by rewrite T1. }
  clear Hok Hsame Hn Hpo Hse Hie.
  split; unfold pkt_sum; cbn [pk_ti pk_opt pk_data pk_m pk_iplen]; rewrite ?T1, ?T2, ?T3, ?T4, ?T5, ?T6, ?T7, ?T8, ?T9.
  - exists s. split_and!; try done; try (unfold cc in *; lia).
    + intros Hne. assert (H0 : o_len l <> 0).
      { intros H0. rewrite H0 in Hdl. by apply zlen_0 in Hdl. }
      destruct (Hdata H0) as (-> & H1 & H2 & H3). rewrite Hdl. unfold cc in *. split_and!; [done|lia|lia].
    + rewrite Hdl. intros Hf. enough (s = nxt /\ nxt + o_len l = una + cc k) by (unfold cc in *; lia). apply Hfin.
      destruct ho_flags0 as [Ef|Ef]; rewrite Ef in Hf; [done|]. revert Hf. flags_simpl. by rewrite ?orb_false_r.
  - rewrite Hdl. lia.
  - destruct ho_flags0 as [Ef|Ef]; rewrite Ef; [done|]. rewrite hasf_setb, Hctl. done.
  - destruct ho_flags0 as [Ef|Ef]; rewrite Ef; [done|]. by rewrite hasf_setb, Hack.
  - done.
  - rewrite Hdl, ho_len0. split; [done|]. rewrite s16_id; zlen_pose; lia.
  - done.
  - done.
  - by rewrite Hw, <- !app_assoc.
  - done.
  - done.
  - by apply Forall_app.
  - done.
Qed.

(** ** A turn of the loop *)

(** What every turn leaves alone. *)
Definition same_base (k k1 : kst) : Prop :=
  so k1 = so k /\ glob k1 = glob k /\ inp k1 = inp k /\ t_state (tp k1) = t_state (tp k) /\
  t_force (tp k1) = t_force (tp k) /\ rcv_nxt (tp k1) = rcv_nxt (tp k) /\
  t_maxseg (tp k1) = t_maxseg (tp k) /\ t_template (tp k1) = t_template (tp k) /\
  usable k1 <= Z.max (usable k) (t_maxseg (tp k)).

Lemma same_peer_base k k1 : same_peer k k1 -> same_base k k1.
Proof. unfold same_peer, same_base. intros. destruct_and!. split_and!; try done. lia. Qed.

(** A segment as the connection's state describes it. *)
Definition seg_of (k : kst) (una : Z) (p : packet) : Prop :=
  forall tm, t_template (tp k) = Some tm ->
  seg_ok (sb_bytes (so_snd (so k))) una (usable k) (t_maxseg (tp k)) (rcv_nxt (tp k)) tm p.

Lemma seg_of_peer k k1 una p : same_peer k k1 -> seg_of k1 una p -> seg_of k una p.
Proof. intros (S1 & _ & _ & _ & _ & S6 & S7 & S8 & S9). unfold seg_of. by rewrite S1, S6, S7, S8, S9. Qed.

Record turn_ok (k : kst) (una nxt mx : Z) (k' : kst) (r : Z + unit) : Prop := {
  tn_ok : exists nxt' mx', snd_ok k' una nxt' mx' /\ mx <= mx' /\
          (r = inr tt -> same_peer k k' /\ nxt < nxt');
  tn_base : same_base k k';
  tn_sent : sent k' = sent k \/ exists p, sent k' = p :: sent k /\ seg_of k una p
}.

(** [output_error] after a failed call. *)
Lemma output_error_ok k una nxt mx e k' e' :
  snd_ok k una nxt mx -> output_error k e = (k', e') ->
  snd_ok k' una nxt mx /\ same_base k k' /\ sent k' = sent k.
Proof.
  intros Hk E. pose proof (sk_wnd _ _ _ _ Hk) as Hw. pose proof (sk_mss _ _ _ _ Hk) as Hm.
  unfold output_error, tcp_quench in E. unfold same_base, usable.
  destruct (e =? ENOBUFS); [|destruct (_ && _)]; simplify_eq; rec_simpl.
  - split; [|split_and!; try done; case_match; lia].
    eapply (snd_ok_ext k); unfold tf; rec_simpl; try done. lia.
  - split; [|split_and!; try done; case_match; lia].
    eapply (snd_ok_ext k); unfold tf; rec_simpl; try done. lia.
  - split; [done|]. split_and!; try done. case_match; lia.
Qed.

Lemma output_sent_ok k una nxt mx win :
  snd_ok k una nxt mx -> snd_ok (output_sent k win) una nxt mx /\ same_peer k (output_sent k win) /\
  sent (output_sent k win) = sent k.
Proof.
  intros Hk. pose proof (sk_wnd _ _ _ _ Hk) as Hw. unfold output_sent, tf_clr, same_peer, usable.
  destruct (_ && _); rec_simpl; (split; [|done]);
    eapply (snd_ok_ext k); unfold tf; rec_simpl; try done; try lia; by rewrite hasf_clrb.
Qed.

(** [output_idle] does not panic: it sets the persist timer only when the
    retransmit timer is off. *)
Lemma output_idle_ok k una nxt mx :
  snd_ok k una nxt mx ->
  exists k', output_idle k = Ret k' /\ snd_ok k' una nxt mx /\ same_base k k' /\ sent k' = sent k.
Proof.
  intros Hk. pose proof (sk_wnd _ _ _ _ Hk) as Hw. unfold output_idle.
  assert (H0 : same_base k k) by (unfold same_base; split_and!; try done; lia).
  destruct (Z.eqb_spec (tm_rexmt (tp k)) 0) as [E|E]; [|rewrite andb_false_r; by exists k].
  destruct (_ && _); [|by exists k]. unfold tcp_setpersist. rec_simpl. rewrite E. simpl negb. cbn iota.
  eexists. split; [reflexivity|]. unfold same_base, usable.
  destruct (_ <? _); rec_simpl; (split; [eapply (snd_ok_ext k); unfold tf; rec_simpl; try done; lia|]);
    split_and!; try done; lia.
Qed.

Lemma same_base_peer k k1 k2 : same_peer k k1 -> same_base k1 k2 -> same_base k k2.
Proof.
  intros (S1 & S2 & S3 & S4 & S5 & S6 & S7 & S8 & S9). unfold same_base.
  by rewrite S1, S2, S3, S4, S5, S6, S7, S8, S9.
Qed.

Lemma turn_ok_peer k k1 una nxt mx k' r :
  same_peer k k1 -> sent k1 = sent k -> turn_ok k1 una nxt mx k' r -> turn_ok k una nxt mx k' r.
Proof.
  intros Hp Hs [(nxt' & mx' & H1 & H2 & H3) Hb Hse].
  split.
  - exists nxt', mx'. split_and!; try done; intros E; destruct (H3 E); eauto using same_peer_trans.
  - eauto using same_base_peer.
  - rewrite Hs in Hse. destruct Hse as [|(p & ? & ?)]; eauto using seg_of_peer.
Qed.

Lemma output_emit_ok k una nxt mx tmpl opt m d c l k' r :
  snd_ok k una nxt mx -> t_template (tp k) = Some tmpl -> tmpl_ok tmpl ->
  0 <= o_flags l < 64 -> hasf (o_flags l) (Z.lor TH_SYN TH_RST) = false -> hasf (o_flags l) TH_ACK = true ->
  Forall is_byte opt -> plain_opt opt -> (zlen opt = 0 \/ zlen opt = 12) -> 0 <= o_len l -> zlen opt + o_len l <= t_maxseg (tp k) ->
  (o_len l <> 0 -> nxt - una + o_len l <= cc k /\ nxt - una + o_len l <= usable k /\
                   d ++ chain_bytes c = zsub (nxt - una) (o_len l) (sb_bytes (so_snd (so k)))) ->
  zlen (d ++ chain_bytes c) = o_len l ->
  (hasf (o_flags l) TH_FIN = true -> fin_state (t_state (tp k)) = true /\ una + cc k <= nxt + o_len l) ->
  (o_sendalot l = true -> 0 < o_len l /\ probing k = false) ->
  output_emit k tmpl opt m d c l = (k', r) -> turn_ok k una nxt mx k' r /\
  exists p, sent k' = p :: sent k /\ (o_len l <> 0 -> ti_seq (pk_ti p) = u32 nxt) /\ pk_data p = d ++ chain_bytes c /\ pk_opt p = opt.
Proof.
  intros Hk Et Htm Hfl Hctl Hack Hob Hpl Hol Hlen Hmss Hdata Hbl Hfin Halot E. unfold output_emit in E.
  set (l3 := l <| o_win := _ |>) in *.
  assert (Hl3 : o_len l3 = o_len l /\ o_flags l3 = o_flags l /\ o_sendalot l3 = o_sendalot l) by (unfold l3; by rec_simpl).
  clearbody l3. destruct Hl3 as (M1 & M2 & M3).
  rewrite <- M1, <- M2, <- M3 in *. clear M1 M2 M3.
  pose proof (sk_mss _ _ _ _ Hk) as Hm.
  pose proof (sk_order _ _ _ _ Hk) as Hord. pose proof (sk_end _ _ _ _ Hk) as Hend.
  destruct (output_header k tmpl opt l3) as [k1 ti] eqn:Eh.
  apply (output_header_ok k una nxt mx) in Eh as (nxt' & s & Hk1 & Hh & Hsp & Hn & Hfn & n & u & Ek1);
    [|done|done|done|done|lia|done|intros H0; apply Hdata; done].
  assert (Hp1 : same_peer k k1) by (rewrite Ek1; unfold same_peer, usable; by rec_simpl).
  assert (Hs1 : sent k1 = sent k) by (by rewrite Ek1).
  assert (Hpr1 : probing k1 = probing k) by (rewrite Ek1; unfold probing; by rec_simpl).
  clear Ek1. rewrite <- Hpr1 in Halot. pose proof Hp1 as Hp1'.
  destruct Hp1 as (S1 & S2 & S3 & S4 & S5 & S6 & S7 & S8 & S9).
  rewrite <- S8 in *. rewrite <- S9 in Et.
  assert (Hcc : cc k1 = cc k) by (unfold cc; by rewrite S1). rewrite <- Hcc, <- S1, <- S6 in *.
  assert (Hh1 : hdr_ok k1 tmpl (zlen opt) (o_len l3) (o_flags l3) s ti) by (destruct Hh; split; by rewrite ?S7).
  assert (Hn0 : o_len l3 <> 0 -> nxt' = nxt) by (destruct Hn; lia).
  destruct (output_ip k1 ti opt m d c l3) as [e k2] eqn:Ei.
  apply (output_ip_ok k1 una nxt' mx tmpl opt m d c l3 s) in Ei as (p & nxt2 & mx2 & Hseg & Hsent & Hk2 & Hmx & Hp2 & Hn2 & Hsq & Hpd & Hpo);
    [|done|done|done|done|done|done|done|lia|lia| |done| |].
  2: { intros H0. rewrite (Hn0 H0) in *. destruct (Hdata H0) as (? & ? & ?). split_and!; try done.
       destruct Hsp as [|(_ & ? & _)]; [done|lia]. }
  2: { intros H0. split; [|by apply Hfn]. destruct Hsp as [|(_ & _ & ?)]; [done|congruence]. }
  2: { pose proof (sk_order _ _ _ _ Hk1). pose proof (sk_end _ _ _ _ Hk1). lia. }
  assert (Hseg' : seg_of k1 una p).
  { intros tm Etm. assert (tm = tmpl) as -> by congruence. done. }
  assert (Hsq' : o_len l3 <> 0 -> ti_seq (pk_ti p) = u32 nxt).
  { intros H0. rewrite Hsq. destruct Hsp as [->|(_ & ? & _)]; [|lia]. by rewrite (Hn0 H0). }
  enough (turn_ok k1 una nxt mx k' r /\ sent k' = p :: sent k1) as [Ht Hse].
  { split; [by apply (turn_ok_peer k k1)|]. exists p. split_and!; try done. congruence. }
  clear Hsq' Hsq Hpd Hpo. destruct (negb (e =? 0)).
  - destruct (output_error k2 e) as [k3 e'] eqn:Ee. apply (output_error_ok _ una nxt2 mx2) in Ee as (H1 & H2 & H3); [|done].
    simplify_eq. split; [|congruence]. split; [by exists nxt2, mx2|eauto using same_base_peer|right; exists p; split; [congruence|done]].
  - destruct (output_sent_ok k2 una nxt2 mx2 (o_win l3) Hk2) as (H1 & H2 & H3). simplify_eq.
    split; [|congruence]. split.
    + exists nxt2, mx2. split_and!; try done. destruct (o_sendalot l3); [|done].
      destruct (Halot eq_refl) as [A1 A2]. rewrite A2 in Hn2. rewrite (Hn0 ltac:(lia)) in *.
      intros _. split; [eauto using same_peer_trans|lia].
    + eauto using same_base_peer, same_peer_base.
    + right. exists p. split; [congruence|done].
Qed.

Lemma output_emit_again k tmpl opt m d c l k' :
  output_emit k tmpl opt m d c l = (k', inr tt) -> o_sendalot l = true.
Proof.
  unfold output_emit. set (l3 := l <| o_win := _ |>). assert (E : o_sendalot l3 = o_sendalot l) by done.
  clearbody l3. rewrite <- E. destruct (output_header _ _ _ _) as [k1 ti]. destruct (output_ip _ _ _ _ _ _ _) as [e k2].
  destruct (negb _); [destruct (output_error _ _)|destruct (o_sendalot l3)]; naive_solver.
Qed.

(** The code from [send] on, for a segment that was decided on. *)
Lemma output_send_ok net k0 una nxt0 mx k l nxt :
  decided k0 una nxt0 mx k l nxt ->
  exists k' r, output_send net k l = Ret (k', r) /\ turn_ok k una nxt mx k' r /\ (r = inr tt -> nxt = nxt0) /\
    (mp_fail (pool k) = [] -> o_len l <> 0 -> exists p, sent k' = p :: sent k /\ ti_seq (pk_ti p) = u32 nxt /\
       pk_data p = zsub (nxt - una) (Z.min (o_len l) (t_maxseg (tp k) - zlen (pk_opt p))) (sb_bytes (so_snd (so k)))).
Proof.
  intros [Hk Hnx Hlen Hdata Hfin Hctl Hrng Hack Halot Hprobe Hsame].
  destruct Hsame as ((S1 & S2 & S3 & S4 & S5 & S6 & S7 & S8 & S9) & _).
  assert (Hcc : cc k0 = cc k) by (unfold cc; by rewrite S1). rewrite Hcc, <- S6 in *. clear Hcc S1 S2 S3 S4 S5 S6 S7 S8 S9.
  unfold output_send.
  destruct (output_options net k (o_flags l)) as [k1 opt] eqn:Eo.
  apply output_options_ok in Eo as (-> & Hob & Hol & Hpl); [|done].
  pose proof (sk_mss _ _ _ _ Hk) as Hm.
  pose proof (output_clip_ok k opt l Hm Hlen Hol) as Hclip. cbv zeta in Hclip.
  set (l1 := output_clip k opt l) in *. clearbody l1.
  destruct Hclip as (C1 & C2 & C3 & C4 & C5 & C6 & C7 & C8 & C9).
  assert (Hd1 : o_len l1 <> 0 -> nxt = nxt0 /\ o_off l1 = nxt - una /\ nxt - una + o_len l1 <= cc k /\
                 nxt - una + o_len l1 <= usable k).
  { intros H0. destruct Hdata as (-> & H1 & H2 & H3); [intros H; by apply H0, C5|]. rewrite C1. split_and!; try done; lia. }
  assert (Hf1 : hasf (o_flags l1) TH_FIN = true -> fin_state (t_state (tp k)) = true /\ una + cc k <= nxt + o_len l1).
  { destruct C8 as [->|Ef]; [done|]. rewrite Ef, hasf_clrb. change (clrb TH_FIN TH_FIN) with 0. by rewrite hasf_0. }
  assert (Hr1 : 0 <= o_flags l1 < 64).
  { destruct C8 as [->|Ef]; [done|]. rewrite Ef. by apply clrb_range. }
  assert (Hc1 : hasf (o_flags l1) (Z.lor TH_SYN TH_RST) = false).
  { destruct C8 as [->|Ef]; [done|]. rewrite Ef, hasf_clrb. done. }
  assert (Ha0 : hasf (o_flags l1) TH_ACK = true).
  { destruct C8 as [->|Ef]; [done|]. rewrite Ef, hasf_clrb. done. }
  pose proof (sk_order _ _ _ _ Hk) as Hord. pose proof (sk_end _ _ _ _ Hk) as Hend.
  destruct (output_packet_ok k una nxt mx (sizeof_tcpiphdr + zlen opt) l1 Hk) as (p' & pr & -> & Hpk);
    [unfold sizeof_tcpiphdr; lia|lia|intros H0; destruct (Hd1 H0) as (-> & -> & H1 & _); lia|].
  cbn [obind]. set (k2 := k <| pool := p' |>).
  assert (Hk2 : snd_ok k2 una nxt mx).
  { eapply (snd_ok_ext k); try done. apply (sk_wnd _ _ _ _ Hk). }
  assert (Hp2 : same_peer k k2) by (unfold same_peer, usable, k2; by rec_simpl).
  assert (Hs2 : sent k2 = sent k) by done. assert (Hpr2 : probing k2 = probing k) by done. clearbody k2.
  destruct pr as [[[m d] c]|].
  2: { destruct (output_error k2 ENOBUFS) as [k3 e] eqn:Ee. apply (output_error_ok _ una nxt mx) in Ee as (H1 & H2 & H3); [|done].
       eexists _, _. split; [done|]. split; [|split; [done|intros Hf; by destruct Hpk]]. split.
       - exists nxt, mx. split_and!; done.
       - eapply same_base_peer; done.
       - left. congruence. }
  destruct Hpk as (Hb & Hbl & _ & _).
  set (l2 := if negb (o_len l1 =? 0) && _ then _ else l1).
  assert (Hl2 : o_len l2 = o_len l1 /\ o_off l2 = o_off l1 /\ o_sendalot l2 = o_sendalot l1 /\ 0 <= o_flags l2 < 64 /\
    hasf (o_flags l2) TH_FIN = hasf (o_flags l1) TH_FIN /\ hasf (o_flags l2) (Z.lor TH_SYN TH_RST) = false /\
    hasf (o_flags l2) TH_ACK = true).
  { unfold l2. destruct (_ && _); [|done]. rec_simpl. split_and!; try done; try (by apply setb_range);
      rewrite hasf_setb; [by rewrite orb_false_r|by rewrite Hc1|by rewrite Ha0]. }
  clearbody l2. destruct Hl2 as (L1 & L2 & L3 & L4 & L5 & L6 & L7).
  destruct (sk_tmpl _ _ _ _ Hk2) as (tmpl & Et & Htm). rewrite Et.
  destruct (output_emit k2 tmpl opt m d c l2) as [k' r] eqn:Ee. exists k', r. split; [done|].
  assert (Ha1 : o_sendalot l1 = true -> o_len l <> 0 /\ probing k = false).
  { intros Ha. unfold probing. destruct (C6 Ha) as [Hs|Hs].
    - destruct (Halot Hs) as [H1 H2]. split; [lia|]. by destruct H2 as [-> | ->]; rewrite ?andb_false_r.
    - split; [lia|]. destruct (Z.eqb_spec (t_force (tp k)) 0), (Z.eqb_spec (tm_persist (tp k)) 0); try done.
      specialize (Hprobe ltac:(done) ltac:(done)). lia. }
  pose proof Hp2 as (S1 & _ & _ & S4 & S5 & S6 & _ & S8 & _).
  assert (Hcc2 : cc k2 = cc k) by (unfold cc; by rewrite S1).
  assert (Hag : r = inr tt -> nxt = nxt0).
  { intros ->. apply output_emit_again in Ee. rewrite L3 in Ee. apply Hd1. rewrite C5. by apply Ha1. }
  apply (output_emit_ok _ una nxt mx) in Ee as [Ht (p & P1 & P2 & P3 & P4)]; rewrite ?L1, ?L3, ?L5, ?S8, ?Hcc2, ?S6, ?S1, ?S4; try done; try lia.
  - split; [by apply (turn_ok_peer k k2)|]. split; [done|]. intros _ H0. exists p. split; [congruence|].
    assert (H1 : o_len l1 <> 0) by (by rewrite C5). split; [apply P2; by rewrite L1|].
    destruct (Hd1 H1) as (_ & Eo & _). by rewrite P3, P4, <- C9, <- Eo.
  - intros H0. destruct (Hd1 H0) as (_ & Eo & H1 & H2). rewrite Eo in Hb. done.
  - intros Ha. destruct (Ha1 Ha) as [H1 H2]. split; [by apply C7|]. by rewrite <- H2, <- Hpr2.
Qed.

(** ** tcp_output *)

Lemma output_turn_ok net idle k una nxt mx :
  snd_ok k una nxt mx -> synced (t_state (tp k)) ->
  exists k' r, output_turn net idle k = Ret (k', r) /\ turn_ok k una nxt mx k' r.
Proof.
  intros Hk Hs. unfold output_turn. destruct (output_len k) as [k1 l] eqn:El.
  destruct (output_len_ok k una nxt mx k1 l Hk Hs El) as (nxt1 & Hd).
  pose proof (dc_frame _ _ _ _ _ _ _ Hd) as (Hp & _ & Hsent & _).
  destruct (output_wanted k1 idle l).
  - destruct (output_send_ok net k una nxt mx k1 l nxt1 Hd) as (k' & r & -> & Ht & Hn & _).
    exists k', r. split; [done|]. apply (turn_ok_peer k k1); [done|done|].
    destruct Ht as [(nxt' & mx' & H1 & H2 & H3) Hb Hse]. split; [|done|done].
    exists nxt', mx'. split_and!; try done. intros Er. rewrite <- (Hn Er). by apply H3.
  - destruct (output_idle_ok k1 una nxt1 mx (dc_ok _ _ _ _ _ _ _ Hd)) as (k' & -> & H1 & H2 & H3).
    eexists k', (inl 0). split; [done|]. split.
    + by exists nxt1, mx.
    + eauto using same_base_peer.
    + left. congruence.
Qed.

(** The loop makes at most as many turns as there are positions left. *)
Lemma output_loop_ok net idle fuel : forall k una nxt mx,
  snd_ok k una nxt mx -> synced (t_state (tp k)) -> una + cc k + 1 - nxt < Z.of_nat fuel ->
  exists k' e nxt' mx' ps, output_loop fuel net idle k = Ret (k', e) /\
    snd_ok k' una nxt' mx' /\ mx <= mx' /\ same_base k k' /\
    sent k' = ps ++ sent k /\ Forall (seg_of k una) ps.
Proof.
  induction fuel as [|fuel IH]; intros k una nxt mx Hk Hs Hf.
  { pose proof (sk_order _ _ _ _ Hk). pose proof (sk_end _ _ _ _ Hk). lia. }
  cbn [output_loop]. destruct (output_turn_ok net idle k una nxt mx Hk Hs) as (k1 & r & -> & Ht).
  cbn [obind]. destruct Ht as [(nxt1 & mx1 & Hk1 & Hmx & Hag) Hb Hse].
  assert (Hps : exists ps, sent k1 = ps ++ sent k /\ Forall (seg_of k una) ps).
  { destruct Hse as [->|(p & -> & Hp)]; [by exists []|]. exists [p]. auto. }
  destruct Hps as (ps & Eps & Hps). destruct r as [e|[]].
  - exists k1, e, nxt1, mx1, ps. split_and!; done.
  - destruct (Hag eq_refl) as [Hp Hlt].
    assert (Hcc : cc k1 = cc k) by (unfold cc; by rewrite (proj1 Hp)).
    destruct (IH k1 una nxt1 mx1 Hk1) as (k' & e & nxt' & mx' & ps' & -> & H1 & H2 & H3 & H4 & H5).
    { by destruct Hp as (_ & _ & _ & -> & _). } { lia. }
    exists k', e, nxt', mx', (ps' ++ ps). split_and!; try done.
    + lia.
    + eauto using same_base_peer.
    + by rewrite H4, Eps, app_assoc.
    + apply Forall_app. split; [|done]. revert H5. apply Forall_impl. intros q. by apply seg_of_peer.
Qed.

(** The slow start of an idle connection only lowers the congestion window. *)
Lemma output_idlecheck_ok k una nxt mx :
  snd_ok k una nxt mx -> snd_ok (output_idlecheck k).2 una nxt mx /\ same_base k (output_idlecheck k).2 /\
  sent (output_idlecheck k).2 = sent k.
Proof.
  intros Hk. unfold output_idlecheck, same_base, usable. pose proof (sk_wnd _ _ _ _ Hk). pose proof (sk_mss _ _ _ _ Hk).
  destruct (_ && _); cbn [snd]; rec_simpl.
  - split; [|split_and!; try done; case_match; lia]. eapply (snd_ok_ext k); unfold tf; rec_simpl; try done. lia.
  - split; [done|]. split_and!; try done. lia.
Qed.

(** tcp_output returns, keeps the invariant, and everything it sends is a part of
    the stream inside the window. *)
Lemma tcp_output_ok net k una nxt mx :
  snd_ok k una nxt mx -> synced (t_state (tp k)) ->
  exists k' e nxt' mx' ps, tcp_output net k = Ret (k', e) /\
    snd_ok k' una nxt' mx' /\ mx <= mx' /\ same_base k k' /\
    sent k' = ps ++ sent k /\ Forall (seg_of (output_idlecheck k).2 una) ps.
Proof.
  intros Hk Hs. destruct (output_idlecheck_ok k una nxt mx Hk) as (H1 & H2 & H3). unfold tcp_output.
  destruct (output_idlecheck k) as [idle k1]. cbn [snd] in *.
  assert (Hcc : cc k1 = cc k) by (unfold cc; by rewrite (proj1 H2)).
  destruct (output_loop_ok net idle (2 + Z.to_nat (sb_cc (so_snd (so k1)))) k1 una nxt mx) as
    (k' & e & nxt' & mx' & ps & E & Hk' & Hmx & Hb & Hse & Hps).
  { done. } { by destruct H2 as (_ & _ & _ & -> & _). }
  { rewrite (sk_cc _ _ _ _ H1). pose proof (sk_order _ _ _ _ Hk). pose proof (cc_nonneg k1). lia. }
  exists k', e, nxt', mx', ps. rewrite <- H3. split_and!; try done.
  destruct H2 as (S1 & S2 & S3 & S4 & S5 & S6 & S7 & S8 & S9). unfold same_base in *.
  rewrite <- S1, <- S2, <- S3, <- S4, <- S5, <- S6, <- S7, <- S8. destruct_and!. split_and!; try done. lia.
Qed.

(** The first segment of a call that has bytes outstanding from the start of the buffer: it
    starts at [una] and holds as many bytes as the buffer, the window and the segment size allow. *)
Lemma tcp_output_first net k una mx :
  snd_ok k una una mx -> synced (t_state (tp k)) -> una < mx -> 0 < cc k -> 0 < usable (output_idlecheck k).2 -> mp_fail (pool k) = [] ->
  exists k' e ps p, tcp_output net k = Ret (k', e) /\ sent k' = ps ++ p :: sent k /\ ti_seq (pk_ti p) = u32 una /\
    pk_data p = ztake (Z.min (Z.min (cc k) (usable (output_idlecheck k).2)) (t_maxseg (tp k) - zlen (pk_opt p))) (sb_bytes (so_snd (so k))).
Proof.
  intros Hk Hs Hm Hc Hu Hf. destruct (output_idlecheck_ok k una una mx Hk) as (H1 & H2 & H3).
  assert (Hf1 : mp_fail (pool (output_idlecheck k).2) = []) by (unfold output_idlecheck; by destruct (_ && _)).
  unfold tcp_output. destruct (output_idlecheck k) as [idle k1]. cbn [snd] in *.
  destruct H2 as (S1 & S2 & S3 & S4 & S5 & S6 & S7 & S8 & _).
  assert (Hcc : cc k1 = cc k) by (unfold cc; by rewrite S1). rewrite <- S4 in Hs. rewrite <- S1, <- H3, <- S7, <- Hcc in *. clear S2 S3 S5 S6 S8 Hk.
  change (2 + Z.to_nat (sb_cc (so_snd (so k1))))%nat with (S (S (Z.to_nat (sb_cc (so_snd (so k1)))))).
  remember (S (Z.to_nat (sb_cc (so_snd (so k1))))) as fuel eqn:Ef. cbn [output_loop]. unfold output_turn. destruct (output_len k1) as [k2 l] eqn:El.
  destruct (output_len_ok k1 una una mx k2 l H1 Hs El) as (nxt1 & Hd).
  assert (Hl : o_len l = Z.min (Z.min (cc k1) (usable k1)) (t_maxseg (tp k1))) by (by apply (output_len_first k1 una mx k2 l)).
  pose proof (sk_mss _ _ _ _ H1) as Hmss. assert (H0 : o_len l <> 0) by lia.
  pose proof (dc_frame _ _ _ _ _ _ _ Hd) as (Hp & Hpool & Hsent & _). pose proof Hp as (P1 & _ & _ & P4 & _ & _ & _ & P8 & _).
  destruct (dc_data _ _ _ _ _ _ _ Hd H0) as (En & _). rewrite En in Hd. clear nxt1 En.
  pose proof (dc_ok _ _ _ _ _ _ _ Hd) as Hk2.
  assert (Hw : output_wanted k2 idle l = true).
  { unfold output_wanted. rewrite (proj2 (Z.eqb_neq _ _) H0), (sk_nxt _ _ _ _ Hk2), (sk_max _ _ _ _ Hk2).
    pose proof (sk_end _ _ _ _ Hk2). pose proof (sk_small _ _ _ _ Hk2).
    destruct (seq_window_order una mx) as [Hlt _]; [lia|]. rewrite Hlt, (proj2 (Z.ltb_lt _ _)) by lia. by rewrite !orb_true_r. }
  rewrite Hw. destruct (output_send_ok net k1 una una mx k2 l una Hd) as (k3 & r & -> & Ht & _ & Hfirst).
  rewrite Hpool in Hfirst. destruct (Hfirst Hf1 H0) as (p & E1 & E2 & E3). cbn [obind].
  rewrite P1, P8, Z.sub_diag, Hl in E3. rewrite Hsent in E1. destruct Ht as [(nxt' & mx' & Hk3 & Hmx & Hag) Hb _].
  assert (E3' : pk_data p = ztake (Z.min (Z.min (cc k1) (usable k1)) (t_maxseg (tp k1) - zlen (pk_opt p))) (sb_bytes (so_snd (so k1)))).
  { rewrite E3. unfold zsub. rewrite zdrop_le0 by lia. f_equal. zlen_pose. lia. }
  destruct r as [e|[]]; [by exists k3, e, [], p|]. destruct (Hag eq_refl) as [Hp3 Hlt].
  pose proof Hp3 as (T1 & _ & _ & T4 & _).
  assert (Hcc3 : cc k3 = cc k1) by (unfold cc; by rewrite T1, P1).
  destruct (output_loop_ok net idle fuel k3 una nxt' mx') as (k' & e & nxt2 & mx2 & ps & -> & _ & _ & _ & Hse & _);
    [done|by rewrite T4, P4|rewrite Ef, (sk_cc _ _ _ _ H1); pose proof (cc_nonneg k1); lia|].
  exists k', e, ps, p. split; [done|]. by rewrite Hse, E1.
Qed.

(** C1: tcp_output on a synchronised connection is total and sends only the truth: it
    returns, whatever the window, the buffer and the results of ip_output, keeps the
    invariant of the send side (una <= nxt <= max within the buffered data and FIN),
    never moves snd_una, and every segment it hands to IP carries the very bytes the
    send buffer holds at its sequence number, stays inside the smaller of the offered
    and the congestion window and the maximum segment size, has FIN only at the end of
    the data, never SYN or RST, acknowledges rcv_nxt with ACK set, has no options or one
    timestamp, decodes to the header it was built from and passes the receiver's checksum
    test. *)
Theorem tcp_output_correct net k una nxt mx :
  snd_ok k una nxt mx -> synced (t_state (tp k)) ->
  exists k' e nxt' mx' ps, tcp_output net k = Ret (k', e) /\
    snd_ok k' una nxt' mx' /\ mx <= mx' /\ same_base k k' /\
    sent k' = ps ++ sent k /\ Forall (seg_of (output_idlecheck k).2 una) ps.
Proof. apply tcp_output_ok. Qed.

Import Sample.

Lemma tmpl0_ok : tmpl_ok tmpl0.
Proof. split; [apply tmpl0_wf|done]. Qed.

(** The sample connection satisfies the invariant. *)
Lemma snd_ok_k0 d : (length d <= 100)%nat -> Forall is_byte d -> snd_ok (k0 d) 1000 1000 1000.
Proof.
  intros Hl Hd. pose proof (sb_of_inv d Hl) as Hi.
  assert (Hb : sb_bytes (sb_of 8192 d) = d).
  { destruct d; [done|]. unfold sb_bytes, sb_chain, sb_of, chain_bytes. simpl. by rewrite !app_nil_r. }
  assert (Hc : 0 <= cc (k0 d) <= 100) by (unfold cc; simpl; rewrite Hb; unfold zlen; lia).
  split; try done; try lia; simpl; rewrite ?Hb; try done.
  - destruct d; simpl; lia.
  - exists tmpl0. split; [done|apply tmpl0_ok].
Qed.

Lemma tcp_output_witness :
  exists k' e nxt' mx' ps, tcp_output net0 (k0 [7; 8; 9]) = Ret (k', e) /\
    snd_ok k' 1000 nxt' mx' /\ 1000 <= mx' /\ same_base (k0 [7; 8; 9]) k' /\
    sent k' = ps ++ [] /\ Forall (seg_of (output_idlecheck (k0 [7; 8; 9])).2 1000) ps.
Proof.
  apply (tcp_output_correct net0 (k0 [7; 8; 9]) 1000 1000 1000);
    [apply snd_ok_k0; [simpl; lia|repeat constructor; vm_compute; congruence]|vm_compute; congruence].
Defined.

End TcpOutputOk.
