(* ===== verification/TcpAdv.v ===== *)
(** The receive window that tcp_output offers: it is never taken back, and past what was
    offered before it never exceeds the free space of the receive buffer.  The fields of the
    receive side that tcp_output leaves alone are collected in [rside] and [advanced]. *)
From S2P Require Import Prelude TcpSeq Mbuf Cksum SockBuf Socket TcpVar Sample TcpHdr TcpSubr TcpReass TcpOutput TcpOutputOk.
Import TcpSeq Mbuf Cksum SockBuf Socket TcpVar TcpHdr TcpSubr TcpReass TcpOutput TcpOutputOk.

Module TcpAdv.

(** What the routines of tcp_output leave alone of the receive side. *)
Definition rside (k k' : kst) : Prop :=
  so k' = so k /\ rcv_nxt (tp k') = rcv_nxt (tp k) /\ rcv_adv (tp k') = rcv_adv (tp k) /\ seg_q (tp k') = seg_q (tp k) /\
  snd_scale (tp k') = snd_scale (tp k) /\ ts_recent (tp k') = ts_recent (tp k) /\ inp k' = inp k.

Lemma rside_refl k : rside k k.
Proof. done. Qed.
Lemma rside_trans k1 k2 k3 : rside k1 k2 -> rside k2 k3 -> rside k1 k3.
Proof. unfold rside. intros. destruct_and!. split_and!; congruence. Qed.

Ltac rside_cases :=
  repeat match goal with
  | |- context [if ?b then _ else _] => destruct b
  | |- context [let '(_, _) := ?x in _] => destruct x
  end; unfold rside; cbn [fst snd]; rec_simpl; done.

Lemma output_len_rside k : rside k (output_len k).1.
Proof.
  unfold output_len. cbv zeta.
  assert (H : forall off win flags, rside k (output_force k off win flags).1.1) by (intros; unfold output_force; rside_cases).
  specialize (H (s32 (snd_nxt (tp k) - snd_una (tp k))) (s32 (cmin (snd_wnd (tp k)) (snd_cwnd (tp k))))
                (tcp_outflags (t_state (tp k)))).
  destruct (output_force _ _ _ _) as [[k0 win] flags]. cbn [fst] in *. apply (rside_trans _ k0); [done|]. rside_cases.
Qed.
Lemma output_len_win k : o_win (output_len k).2 = sbspace (so_rcv (so k)).
Proof.
  assert (E : o_win (output_len k).2 = sbspace (so_rcv (so (output_len k).1))).
  { unfold output_len. destruct (output_force _ _ _ _) as [[k0 win] flags]. lazy zeta. reflexivity. }
  by rewrite E, (proj1 (output_len_rside k)).
Qed.
Lemma output_error_rside k e : rside k (output_error k e).1.
Proof. unfold output_error, tcp_quench. rside_cases. Qed.
Lemma advance_seq_rside k f n : rside k (advance_seq k f n).
Proof. unfold advance_seq, tf_set. rside_cases. Qed.
Lemma advance_max_rside k q : rside k (advance_max k q).
Proof. unfold advance_max. cbv zeta. rside_cases. Qed.
Lemma advance_rexmt_rside k : rside k (advance_rexmt k).
Proof. unfold advance_rexmt. cbv zeta. rside_cases. Qed.
Lemma output_advance_rside k l : rside k (output_advance k l).
Proof.
  unfold output_advance. cbv zeta. destruct (_ || _); [|rside_cases].
  eapply rside_trans; [apply advance_seq_rside|]. eapply rside_trans; [apply advance_max_rside|apply advance_rexmt_rside].
Qed.
Lemma output_idle_rside k k' : output_idle k = Ret k' -> rside k k'.
Proof.
  unfold output_idle, tcp_setpersist. destruct (_ && _); [|by intros [= <-]]. cbv zeta. destruct (negb _); [done|]. intros [= <-]. rside_cases.
Qed.

(** The connection stands at [n], has advertised up to [hi], and will not go past [top]. *)
Record window_at (k : kst) (n hi top : Z) : Prop := {
  wa_nxt : rcv_nxt (tp k) = u32 n;
  wa_adv : rcv_adv (tp k) = u32 hi;
  wa_order : n <= hi <= top;
  wa_space : sbspace (so_rcv (so k)) <= top - n;
  wa_small : top - n < 1073741824
}.
Lemma window_rside k k' n hi top : rside k k' -> window_at k n hi top -> window_at k' n hi top.
Proof. intros (S & N & A & _) []. split; congruence. Qed.

(** The window of a segment. *)
Lemma output_window_ok k n hi top win : window_at k n hi top -> win <= top - n -> output_window k win <= top - n.
Proof.
  intros [N A O S W] Hw. unfold output_window. rewrite N, A, u32_sub_l, u32_sub_r, s32_u32, (s32_id (hi - n)) by lia. cbv zeta.
  set (w1 := if _ && _ then 0 else win). assert (H1 : w1 <= top - n) by (unfold w1; destruct (_ && _); lia). clearbody w1.
  set (m := Z.shiftl _ _). destruct (Z.gtb_spec w1 m); [destruct (Z.ltb_spec m (hi - n))|destruct (Z.ltb_spec w1 (hi - n))]; lia.
Qed.
Lemma output_sent_window k n hi top win : window_at k n hi top -> win <= top - n ->
  exists hi', window_at (output_sent k win) n hi' top /\ hi <= hi' /\
    seg_q (tp (output_sent k win)) = seg_q (tp k) /\ snd_scale (tp (output_sent k win)) = snd_scale (tp k) /\
    ts_recent (tp (output_sent k win)) = ts_recent (tp k) /\ inp (output_sent k win) = inp k /\ so (output_sent k win) = so k.
Proof.
  intros Hk Hw. pose proof Hk as [N A O S W]. unfold output_sent, tf_clr. rewrite N, A, u32_add_l.
  destruct (Z.gtb_spec win 0) as [Hp|Hp]; cbn [andb].
  - destruct (seq_window_order (n + win) hi) as (_ & _ & -> & _); [lia|]. destruct (Z.gtb_spec (n + win) hi).
    + exists (n + win). rec_simpl. split_and!; try done; try lia. split; rec_simpl; try done; lia.
    + exists hi. rec_simpl. split_and!; try done; lia.
  - exists hi. rec_simpl. split_and!; try done; lia.
Qed.

(** The kept fields, and the advertised window. *)
Record advanced (k : kst) (n hi top : Z) (k' : kst) (hi' : Z) : Prop := {
  ad_at : window_at k' n hi' top;
  ad_le : hi <= hi';
  ad_q : seg_q (tp k') = seg_q (tp k);
  ad_scale : snd_scale (tp k') = snd_scale (tp k);
  ad_ts : ts_recent (tp k') = ts_recent (tp k);
  ad_inp : inp k' = inp k;
  ad_so : so k' = so k
}.
Lemma rside_advanced k k' n hi top : rside k k' -> window_at k n hi top -> advanced k n hi top k' hi.
Proof. intros Hr Hk. pose proof (window_rside _ _ _ _ _ Hr Hk). destruct Hr as (? & ? & ? & ? & ? & ? & ?). split; try done; lia. Qed.
Lemma advanced_trans k1 n hi1 top k2 hi2 k3 hi3 :
  advanced k1 n hi1 top k2 hi2 -> advanced k2 n hi2 top k3 hi3 -> advanced k1 n hi1 top k3 hi3.
Proof. intros [] []. split; try congruence; lia. Qed.

Lemma output_emit_window k n hi top tmpl opt m d c l k' r :
  window_at k n hi top -> o_win l <= top - n -> output_emit k tmpl opt m d c l = (k', r) ->
  exists hi', advanced k n hi top k' hi'.
Proof.
  intros Hk Hw E. unfold output_emit in E. pose proof (output_window_ok k n hi top (o_win l) Hk Hw) as Hw1.
  set (l1 := l <| o_win := _ |>) in *. assert (El : o_win l1 = output_window k (o_win l)) by (unfold l1; by rec_simpl). clearbody l1. rewrite <- El in Hw1.
  assert (H1 : rside k (output_header k tmpl opt l1).1) by (unfold output_header; cbv zeta; rside_cases).
  destruct (output_header _ _ _ _) as [k1 ti]. cbn [fst] in H1.
  assert (H2 : rside k1 (output_ip k1 ti opt m d c l1).2).
  { unfold output_ip. cbv zeta. apply (rside_trans _ (output_advance k1 l1)); [apply output_advance_rside|].
    rewrite ip_output_eq. unfold ip_next. cbn [snd]. unfold rside. by rec_simpl. }
  destruct (output_ip _ _ _ _ _ _ _) as [e k2]. cbn [snd] in H2. pose proof (rside_trans _ _ _ H1 H2) as H3.
  pose proof (rside_advanced _ _ _ _ _ H3 Hk) as H4. destruct (negb _).
  - pose proof (output_error_rside k2 e) as H5. destruct (output_error _ _) as [k3 e3]. injection E as <- <-. cbn [fst] in H5.
    exists hi. eapply advanced_trans; [exact H4|]. apply rside_advanced; [done|apply H4].
  - injection E as <- <-. destruct (output_sent_window k2 n hi top (o_win l1) (ad_at _ _ _ _ _ _ H4) Hw1) as (hi' & W & L & Q & S & T & I & O).
    exists hi'. eapply advanced_trans; [exact H4|]. by split.
Qed.

Lemma output_turn_window net idle k una nxt mx n hi top k' r :
  snd_ok k una nxt mx -> synced (t_state (tp k)) -> window_at k n hi top -> output_turn net idle k = Ret (k', r) ->
  exists hi', advanced k n hi top k' hi'.
Proof.
  intros Hk Hs Hw E. unfold output_turn in E. pose proof (output_len_rside k) as H1. pose proof (output_len_win k) as Hwin.
  destruct (output_len k) as [k1 l] eqn:El. cbn [fst snd] in *.
  destruct (output_len_ok k una nxt mx k1 l Hk Hs El) as (nxt1 & Hd). pose proof (rside_advanced _ _ _ _ _ H1 Hw) as A1.
  pose proof (wa_space _ _ _ _ Hw) as Hsp. rewrite <- Hwin in Hsp. destruct (output_wanted k1 idle l).
  - unfold output_send in E. destruct (output_options net k1 (o_flags l)) as [k2 opt] eqn:Eo.
    apply output_options_ok in Eo as (-> & _ & _); [|apply (dc_ctl _ _ _ _ _ _ _ Hd)].
    assert (Ec : o_win (output_clip k1 opt l) = o_win l) by (unfold output_clip; destruct (_ >? _); by rec_simpl).
    set (l1 := output_clip k1 opt l) in *. clearbody l1. apply obind_Ret in E as ([k2 pr] & Ep & E).
    assert (Hp : rside k1 k2).
    { clear -Ep. unfold output_packet in Ep. destruct (m_gethdr (pool k1) MT_HEADER) as [[m|] p]; [|by injection Ep as <- _].
      cbv zeta in Ep. destruct (o_len l1 =? 0); [by injection Ep as <- _|]. destruct (_ <=? _).
      - apply obind_Ret in Ep as (d & _ & E). destruct (zlen d =? o_len l1); [|discriminate E]. by injection E as <- _.
      - apply obind_Ret in Ep as ([r1 p1] & _ & E). destruct r1; by injection E as <- _. }
    pose proof (rside_advanced _ _ _ _ _ Hp (ad_at _ _ _ _ _ _ A1)) as A2. pose proof (advanced_trans _ _ _ _ _ _ _ _ A1 A2) as A3.
    destruct pr as [[[m d] c]|].
    + set (l2 := if negb (o_len l1 =? 0) && _ then _ else l1) in *.
      assert (E2 : o_win l2 = o_win l) by (unfold l2; destruct (_ && _); by rec_simpl). clearbody l2.
      destruct (t_template (tp k2)) as [tmpl|]; [|done]. destruct (output_emit k2 tmpl opt m d c l2) as [k3 r3] eqn:Ee.
      injection E as <- <-. destruct (output_emit_window k2 n hi top tmpl opt m d c l2 k3 r3 (ad_at _ _ _ _ _ _ A3) ltac:(lia) Ee) as (hi' & A4).
      exists hi'. by eapply advanced_trans.
    + pose proof (output_error_rside k2 ENOBUFS) as H5. destruct (output_error _ _) as [k3 e3]. injection E as <- <-. cbn [fst] in H5.
      exists hi. eapply advanced_trans; [exact A3|]. apply rside_advanced; [done|apply A3].
  - apply obind_Ret in E as (k2 & E2 & [= <- <-]). apply output_idle_rside in E2. exists hi. eapply advanced_trans; [exact A1|].
    apply rside_advanced; [done|apply A1].
Qed.

Lemma output_loop_window net idle fuel : forall k una nxt mx n hi top k' e,
  snd_ok k una nxt mx -> synced (t_state (tp k)) -> window_at k n hi top -> output_loop fuel net idle k = Ret (k', e) ->
  exists hi', advanced k n hi top k' hi'.
Proof.
  induction fuel as [|fuel IH]; intros k una nxt mx n hi top k' e Hk Hs Hw E; [done|]. cbn [output_loop] in E.
  apply obind_Ret in E as ([k1 r] & E1 & E). destruct (output_turn_window _ _ _ _ _ _ _ _ _ _ _ Hk Hs Hw E1) as (hi1 & A1).
  destruct (output_turn_ok net idle k una nxt mx Hk Hs) as (k2 & r2 & E2 & [(nxt' & mx' & Hk1 & _) Hb _]). rewrite E1 in E2. injection E2 as <- <-.
  destruct r as [err|]; [injection E as <- <-; by exists hi1|].
  destruct (IH k1 una nxt' mx' n hi1 top k' e Hk1) as (hi2 & A2); [by destruct Hb as (_ & _ & _ & -> & _)|apply A1|done|].
  exists hi2. by eapply advanced_trans.
Qed.

(** A call of tcp_output: the connection keeps its invariant and its receive side, and the
    window it offers grows at most up to the space of the receive buffer. *)
Lemma tcp_output_window net k una nxt mx n hi top :
  snd_ok k una nxt mx -> synced (t_state (tp k)) -> window_at k n hi top ->
  exists k' e nxt' mx' hi', tcp_output net k = Ret (k', e) /\ snd_ok k' una nxt' mx' /\ t_state (tp k') = t_state (tp k) /\
    advanced k n hi top k' hi'.
Proof.
  intros Hk Hs Hw. destruct (tcp_output_ok net k una nxt mx Hk Hs) as (k' & e & nxt' & mx' & ps & E & Hk' & _ & Hb & _).
  destruct (output_idlecheck_ok k una nxt mx Hk) as (H1 & H2 & _).
  assert (Hr : rside k (output_idlecheck k).2) by (unfold output_idlecheck; rside_cases).
  pose proof (rside_advanced _ _ _ _ _ Hr Hw) as A1. pose proof E as E0. unfold tcp_output in E0. destruct (output_idlecheck k) as [idle k1]. cbn [snd] in *.
  destruct (output_loop_window _ _ _ _ _ _ _ _ _ _ _ _ H1 ltac:(by destruct H2 as (_ & _ & _ & -> & _)) (ad_at _ _ _ _ _ _ A1) E0) as (hi' & A2).
  exists k', e, nxt', mx', hi'. split_and!; [done|done|by destruct Hb as (_ & _ & _ & -> & _)|by eapply advanced_trans].
Qed.


Import Sample.


End TcpAdv.
