(* ===== verification/TcpInput.v ===== *)
(** tcp_input (src/sys/netinet/tcp_input.c) for a segment whose connection has
    been found, with tcp_dooptions and tcp_pulloutofband.

    The routine is cut into stages at its comments.  A stage maps the connection
    [k] and the locals [l] to the next stage ([Next]) or to one of the labels the
    code jumps to ([Goto]).  [input_segment] is the sequence of stages from the
    arrival of the segment on the connection to the labels, and [input_end] the
    code at the labels. *)
From S2P Require Import Prelude TcpSeq Mbuf SockBuf Socket TcpVar Sample TcpHdr TcpSubr TcpReass TcpOutput.
Import TcpSeq Mbuf SockBuf Socket TcpVar TcpHdr TcpSubr TcpReass TcpOutput.

Module TcpInput.

Definition ECONNABORTED : Z := 53.
Definition tcprexmtthresh : Z := 3.

(** The locals of tcp_input. *)
Record ilocals := mkIl {
  i_ti : tcpiphdr;   (* the header, in host order *)
  i_m : chain;   (* m, from the data pointer of its first mbuf on *)
  i_off0 : Z;   (* offset of ti in the first mbuf *)
  i_off : Z;   (* off: the TCP header length *)
  i_optp : option (list Z);   (* optp: the bytes from the options on *)
  i_tiflags : Z;
  i_tiwin : Z;
  i_ts : option (Z * Z);   (* ts_present with ts_val and ts_ecr *)
  i_needoutput : bool;
  i_dropsocket : bool;
  i_iss : Z
}.
Definition eta_ilocals (r : ilocals) : ilocals :=
  mkIl (i_ti r) (i_m r) (i_off0 r) (i_off r) (i_optp r) (i_tiflags r) (i_tiwin r) (i_ts r)
    (i_needoutput r) (i_dropsocket r) (i_iss r).
#[global] Instance set_i_ti : Setter i_ti := ltac:(mk_setter eta_ilocals).
#[global] Instance set_i_m : Setter i_m := ltac:(mk_setter eta_ilocals).
#[global] Instance set_i_off0 : Setter i_off0 := ltac:(mk_setter eta_ilocals).
#[global] Instance set_i_off : Setter i_off := ltac:(mk_setter eta_ilocals).
#[global] Instance set_i_optp : Setter i_optp := ltac:(mk_setter eta_ilocals).
#[global] Instance set_i_tiflags : Setter i_tiflags := ltac:(mk_setter eta_ilocals).
#[global] Instance set_i_tiwin : Setter i_tiwin := ltac:(mk_setter eta_ilocals).
#[global] Instance set_i_ts : Setter i_ts := ltac:(mk_setter eta_ilocals).
#[global] Instance set_i_needoutput : Setter i_needoutput := ltac:(mk_setter eta_ilocals).
#[global] Instance set_i_dropsocket : Setter i_dropsocket := ltac:(mk_setter eta_ilocals).
#[global] Instance set_i_iss : Setter i_iss := ltac:(mk_setter eta_ilocals).

(** What tcp_input needs besides the connection: the routing services,
    in_pcbconnect on the connection's pcb (an error, or the connected pcb), and
    the value of TCP_ISSINCR. *)
Record ienv := mkIenv {
  ie_net : net_env;
  in_pcbconnect : inpcb -> Z -> Z -> Z + inpcb;
  TCP_ISSINCR : Z
}.

Inductive label := L_return | L_drop | L_dropafterack | L_dropwithreset | L_findpcb.
#[global] Instance label_eq_dec : EqDecision label.
Proof. solve_decision. Defined.

Inductive ires :=
| Next (k : kst) (l : ilocals)
| Goto (g : label) (k : kst) (l : ilocals).

Definition stage : Type := kst -> ilocals -> outcome ires.
Definition seq_stage (a b : stage) : stage := fun k l =>
  let! r := a k l in
  match r with Next k l => b k l | Goto g k l => Ret (Goto g k l) end.
Declare Scope stage_scope.
Notation "a ;;; b" := (seq_stage a b) (at level 100, right associativity) : stage_scope.
#[local] Open Scope stage_scope.

Definition fl (l : ilocals) (f : Z) : bool := hasf (i_tiflags l) f.
Definition clr_fl (f : Z) (l : ilocals) : ilocals := l <| i_tiflags := clrb (i_tiflags l) f |>.
Notation "l <h| p := v |>" := (updf i_ti (setf p v) l)
  (at level 1, left associativity, p at level 9, v at level 200) : stage_scope.

(** ** Options *)

(** [tcp_dooptions]: [cp] are the bytes from the options on, [cnt] the length of
    the options.  A byte past the end of the mbuf reads as 0.  A loop that does not
    end within the fuel is [OutOfFuel]. *)
Fixpoint dooptions_loop (fuel : nat) (net : net_env) (k : kst) (cp : list Z) (cnt : Z) (tiflags : Z)
    (ts : option (Z * Z)) : outcome (kst * option (Z * Z)) :=
  match fuel with
  | O => OutOfFuel
  | S fuel =>
      if cnt <=? 0 then Ret (k, ts)
      else
        let opt := get cp 0 in
        if opt =? TCPOPT_EOL then Ret (k, ts)
        else
          let optlen := if opt =? TCPOPT_NOP then 1 else get cp 1 in
          if optlen <=? 0 then Ret (k, ts)
          else
            let '(k, ts) :=
              if (opt =? TCPOPT_MAXSEG) && (optlen =? TCPOLEN_MAXSEG) && hasf tiflags TH_SYN
              then (snd (tcp_mss net k (rd16 cp 2)), ts)
              else if (opt =? TCPOPT_WINDOW) && (optlen =? TCPOLEN_WINDOW) && hasf tiflags TH_SYN
              then ((tf_set TF_RCVD_SCALE k) <t| requested_s_scale := cmin (get cp 2) TCP_MAX_WINSHIFT |>, ts)
              else if (opt =? TCPOPT_TIMESTAMP) && (optlen =? TCPOLEN_TIMESTAMP)
              then
                let k := if hasf tiflags TH_SYN
                         then (tf_set TF_RCVD_TSTMP k) <t| ts_recent := rd32 cp 2 |>
                                <t| ts_recent_age := tcp_now (glob k) |> else k in
                (k, Some (rd32 cp 2, rd32 cp 6))
              else (k, ts) in
            dooptions_loop fuel net k (zdrop optlen cp) (cnt - optlen) tiflags ts
  end.
Definition tcp_dooptions (net : net_env) (k : kst) (cp : list Z) (cnt : Z) (l : ilocals) : outcome (kst * ilocals) :=
  let! (k, ts) := dooptions_loop (S (Z.to_nat cnt)) net k cp cnt (ti_flags (i_ti l)) (i_ts l) in
  Ret (k, l <| i_ts := ts |>).

(** ** Arrival *)

(** Reset idle time and keep-alive timer, process the options. *)
Definition input_arrive (e : ienv) : stage := fun k l =>
  let k := k <t| t_idle := 0 |> <t| tm_keep := s16 (tcp_keepidle (glob k)) |> in
  match i_optp l with
  | Some cp =>
      if negb (st_eqb (t_state (tp k)) TCPS_LISTEN) then
        let! (k, l) := tcp_dooptions (ie_net e) k cp (i_off l - sizeof_tcphdr) l in Ret (Next k l)
      else Ret (Next k l)
  | None => Ret (Next k l)
  end.

(** The data pointer is moved past the headers; the length of an mbuf is never
    made negative here, an mbuf with fewer bytes is left empty. *)
Definition drop_headers (l : ilocals) : chain :=
  let n := sizeof_tcpiphdr + i_off l - sizeof_tcphdr in
  match i_m l with
  | [] => []
  | m :: ms => m <| m_off := m_off m + n |> <| m_bytes := zdrop n (m_bytes m) |> :: ms
  end.

(** Record the timestamp if the last ACK falls within [seq, edge). *)
Definition record_ts (k : kst) (l : ilocals) (edge : Z) : kst :=
  match i_ts l with
  | Some (ts_val, _) =>
      if SEQ_LEQ (ti_seq (i_ti l)) (last_ack_sent (tp k)) && SEQ_LT (last_ack_sent (tp k)) (u32 edge)
      then k <t| ts_recent_age := tcp_now (glob k) |> <t| ts_recent := ts_val |> else k
  | None => k
  end.

(** The round-trip time measured by an ACK. *)
Definition measure_rtt (k : kst) (l : ilocals) : kst :=
  match i_ts l with
  | Some (_, ts_ecr) => tcp_xmit_timer k (u32 (tcp_now (glob k) - ts_ecr + 1))
  | None => if negb (t_rtt (tp k) =? 0) && SEQ_GT (ti_ack (i_ti l)) (t_rtseq (tp k))
            then tcp_xmit_timer k (t_rtt (tp k)) else k
  end.

(** [if (so->so_snd.sb_flags & SB_NOTIFY) sowwakeup(so)] *)
Definition notify_snd (k : kst) : kst :=
  if hasf (sb_flags (so_snd (so k))) SB_NOTIFY then k <| so := sowwakeup (so k) |> else k.
Definition sbdrop_snd (k : kst) (len : Z) : outcome kst :=
  let! (p, sb) := sbdrop (pool k) (so_snd (so k)) len in
  Ret (k <| pool := p |> <s| so_snd := sb |>).

(** ** Header prediction *)

Definition predicted (k : kst) (l : ilocals) : bool :=
  let t := tp k in
  st_eqb (t_state t) TCPS_ESTABLISHED &&
  (Z.land (i_tiflags l) (Z.lor TH_SYN (Z.lor TH_FIN (Z.lor TH_RST (Z.lor TH_URG TH_ACK)))) =? TH_ACK) &&
  match i_ts l with Some (ts_val, _) => TSTMP_GEQ ts_val (ts_recent t) | None => true end &&
  (ti_seq (i_ti l) =? rcv_nxt t) && negb (i_tiwin l =? 0) && (i_tiwin l =? snd_wnd t) &&
  (snd_nxt t =? snd_max t).

(** A pure ACK for outstanding data. *)
Definition predict_ack (e : ienv) (k : kst) (l : ilocals) : outcome ires :=
  let k := measure_rtt k l in
  let acked := s32 (ti_ack (i_ti l) - snd_una (tp k)) in
  let! k := sbdrop_snd k acked in
  let k := k <t| snd_una := ti_ack (i_ti l) |> in
  let k := k <| pool := m_freem (pool k) (i_m l) |> in
  let k := if snd_una (tp k) =? snd_max (tp k) then k <t| tm_rexmt := 0 |>
           else if tm_persist (tp k) =? 0 then k <t| tm_rexmt := t_rxtcur (tp k) |> else k in
  let k := notify_snd k in
  let! k := (if negb (sb_cc (so_snd (so k)) =? 0)
             then let! (k, _) := tcp_output (ie_net e) k in Ret k else Ret k) in
  Ret (Goto L_return k l).

(** A pure, in-sequence data packet. *)
Definition predict_data (k : kst) (l : ilocals) : ires :=
  let k := k <t| rcv_nxt := u32 (rcv_nxt (tp k) + ti_len (i_ti l)) |> in
  let '(p, sb) := sbappend (pool k) (so_rcv (so k)) (drop_headers l) in
  let k := k <| pool := p |> <s| so_rcv := sb |> in
  let k := k <| so := sorwakeup (so k) |> in
  Goto L_return (tf_set TF_DELACK k) l.

Definition input_predict (e : ienv) : stage := fun k l =>
  if predicted k l then
    let ti := i_ti l in
    let k := record_ts k l (ti_seq ti + ti_len ti) in
    let t := tp k in
    if ti_len ti =? 0 then
      if SEQ_GT (ti_ack ti) (snd_una t) && SEQ_LEQ (ti_ack ti) (snd_max t) && (snd_cwnd t >=? snd_wnd t)
      then predict_ack e k l else Ret (Next k l)
    else if (ti_ack ti =? snd_una t) && bool_decide (length (seg_q t) = 0%nat) &&
            (ti_len ti <=? sbspace (so_rcv (so k)))
    then Ret (predict_data k l) else Ret (Next k l)
  else Ret (Next k l).

(** Drop the headers and compute the receive window.  [max] is the unsigned one. *)
Definition input_window : stage := fun k l =>
  let l := l <| i_m := drop_headers l |> in
  let win := sbspace (so_rcv (so k)) in
  let win := if win <? 0 then 0 else win in
  Ret (Next (k <t| rcv_wnd := cmax win (s32 (u32 (rcv_adv (tp k) - rcv_nxt (tp k)))) |>) l).

(** ** LISTEN and SYN_SENT *)

Definition in_multicast (a : Z) : bool := Z.shiftr a 28 =? 14.

(** The new connection's sequence numbers and state. *)
Definition listen_init (e : ienv) (k : kst) (l : ilocals) : kst :=
  let k := k <t| iss := if negb (i_iss l =? 0) then u32 (i_iss l) else tcp_iss (glob k) |> in
  let k := k <| glob := (glob k) <| tcp_iss := u32 (tcp_iss (glob k) + TCP_ISSINCR e / 4) |> |> in
  let k := k <t| irs := ti_seq (i_ti l) |> in
  let k := tcp_rcvseqinit (tcp_sendseqinit k) in
  let k := tf_set TF_ACKNOW k in
  k <t| t_state := TCPS_SYN_RECEIVED |> <t| tm_keep := TCPTV_KEEP_INIT |>.

Definition input_listen (e : ienv) : stage := fun k l =>
  let ti := i_ti l in
  if match i_m l with m :: _ => hasf (m_flags m) (Z.lor M_BCAST M_MCAST) | [] => false end ||
     in_multicast (ti_dst ti)
  then Ret (Goto L_drop k l)
  else
    match m_get (pool k) 8 (* MT_SONAME *) with
    | (None, p) => Ret (Goto L_drop (k <| pool := p |>) l)
    | (Some am, p) =>
        let k := k <| pool := p |> in
        let i := if inp_laddr (inp k) =? INADDR_ANY then (inp k) <| inp_laddr := ti_dst ti |> else inp k in
        match in_pcbconnect e i (ti_src ti) (ti_sport ti) with
        | inl _ => Ret (Goto L_drop (k <| pool := m_free (pool k) am |>) l)
        | inr i =>
            let k := k <| inp := i |> <| pool := m_free (pool k) am |> in
            let '(tmpl, k) := tcp_template k in
            let k := k <t| t_template := tmpl |> in
            match tmpl with
            | None =>
                let! k := tcp_drop (ie_net e) k ENOBUFS in
                Ret (Goto L_drop k (l <| i_dropsocket := false |>))
            | Some _ =>
                let! (k, l) := match i_optp l with
                               | Some cp => tcp_dooptions (ie_net e) k cp (i_off l - sizeof_tcphdr) l
                               | None => Ret (k, l)
                               end in
                let k := listen_init e k l in
                Ret (Next k (l <| i_dropsocket := false |>))
            end
        end
    end.

(** Do window scaling on this connection? *)
Definition start_scaling (k : kst) : kst :=
  if tf k TF_RCVD_SCALE && tf k TF_REQ_SCALE
  then k <t| snd_scale := requested_s_scale (tp k) |> <t| rcv_scale := request_r_scale (tp k) |> else k.

(** The connection is established: the data that came with the SYN is presented. *)
Definition become_established (k : kst) : kst :=
  let k := k <| so := soisconnected (so k) |> <t| t_state := TCPS_ESTABLISHED |> in
  fst (tcp_reass (start_scaling k) None).

(** Our SYN is acked. *)
Definition synsent_ack (k : kst) (l : ilocals) : kst :=
  if fl l TH_ACK then
    let k := k <t| snd_una := ti_ack (i_ti l) |> in
    if SEQ_LT (snd_nxt (tp k)) (snd_una (tp k)) then k <t| snd_nxt := snd_una (tp k) |> else k
  else k.
(** The peer's SYN is received. *)
Definition synsent_rcv (k : kst) (l : ilocals) : kst :=
  tf_set TF_ACKNOW (tcp_rcvseqinit (k <t| tm_rexmt := 0 |> <t| irs := ti_seq (i_ti l) |>)).

Definition input_synsent (e : ienv) : stage := fun k l =>
  let ti := i_ti l in
  if fl l TH_ACK && (SEQ_LEQ (ti_ack ti) (iss (tp k)) || SEQ_GT (ti_ack ti) (snd_max (tp k)))
  then Ret (Goto L_dropwithreset k l)
  else if fl l TH_RST then
    if fl l TH_ACK then let! k := tcp_drop (ie_net e) k ECONNREFUSED in Ret (Goto L_drop k l)
    else Ret (Goto L_drop k l)
  else if negb (fl l TH_SYN) then Ret (Goto L_drop k l)
  else
    let k := synsent_rcv (synsent_ack k l) l in
    if fl l TH_ACK && SEQ_GT (snd_una (tp k)) (iss (tp k)) then
      let k := become_established k in
      Ret (Next (if negb (t_rtt (tp k) =? 0) then tcp_xmit_timer k (t_rtt (tp k)) else k) l)
    else Ret (Next (k <t| t_state := TCPS_SYN_RECEIVED |>) l).

(** The label trimthenstep6. *)
Definition input_trim6 : stage := fun k l =>
  let l := l <h| ti_seq := u32 (ti_seq (i_ti l) + 1) |> in
  let l := if u32 (ti_len (i_ti l)) >? rcv_wnd (tp k) then
             let todrop := s32 (ti_len (i_ti l) - rcv_wnd (tp k)) in
             clr_fl TH_FIN (l <| i_m := m_adj (i_m l) (- todrop) |> <h| ti_len := s16 (rcv_wnd (tp k)) |>)
           else l in
  Ret (Next (k <t| snd_wl1 := u32 (ti_seq (i_ti l) - 1) |> <t| rcv_up := ti_seq (i_ti l) |>) l).

(** ** Acceptability of the segment *)

Definition input_paws : stage := fun k l =>
  match i_ts l with
  | Some (ts_val, _) =>
      if negb (fl l TH_RST) && negb (ts_recent (tp k) =? 0) && TSTMP_LT ts_val (ts_recent (tp k)) then
        if s32 (tcp_now (glob k) - ts_recent_age (tp k)) >? TCP_PAWS_IDLE
        then Ret (Next (k <t| ts_recent := 0 |>) l)
        else Ret (Goto L_dropafterack k l)
      else Ret (Next k l)
  | None => Ret (Next k l)
  end.

(** Drop the part of the segment before rcv_nxt: the SYN, then data. *)
Definition left_syn (l : ilocals) (todrop : Z) : ilocals * Z :=
  if fl l TH_SYN then
    let l := clr_fl TH_SYN l in
    let l := l <h| ti_seq := u32 (ti_seq (i_ti l) + 1) |> in
    (if ti_urp (i_ti l) >? 1 then l <h| ti_urp := ti_urp (i_ti l) - 1 |> else clr_fl TH_URG l, todrop - 1)
  else (l, todrop).
Definition left_trim (l : ilocals) (todrop : Z) : ilocals :=
  let l := l <| i_m := m_adj (i_m l) todrop |> <h| ti_seq := u32 (ti_seq (i_ti l) + todrop) |>
             <h| ti_len := s16 (ti_len (i_ti l) - todrop) |> in
  if ti_urp (i_ti l) >? todrop then l <h| ti_urp := ti_urp (i_ti l) - todrop |>
  else (clr_fl TH_URG l) <h| ti_urp := 0 |>.
Definition input_left : stage := fun k l =>
  let todrop := s32 (rcv_nxt (tp k) - ti_seq (i_ti l)) in
  if todrop >? 0 then
    let '(l, todrop) := left_syn l todrop in
    if todrop >=? ti_len (i_ti l) then
      if fl l TH_FIN && (todrop =? ti_len (i_ti l) + 1)
      then Ret (Next (tf_set TF_ACKNOW k) (left_trim (clr_fl TH_FIN l) (ti_len (i_ti l))))
      else if negb (todrop =? 0) || negb (fl l TH_ACK) then Ret (Goto L_dropafterack k l)
      else Ret (Next (tf_set TF_ACKNOW k) (left_trim l todrop))
    else Ret (Next k (left_trim l todrop))
  else Ret (Next k l).

(** New data for a socket whose user processes are gone. *)
Definition input_nofdref (e : ienv) : stage := fun k l =>
  if hasf (so_state (so k)) SS_NOFDREF && (st (t_state (tp k)) >? st TCPS_CLOSE_WAIT) &&
     negb (ti_len (i_ti l) =? 0)
  then let! k := tcp_close (ie_net e) k in Ret (Goto L_dropwithreset k l)
  else Ret (Next k l).

(** Drop the part of the segment after the window. *)
Definition right_trim (l : ilocals) (todrop : Z) : ilocals :=
  clr_fl (Z.lor TH_PUSH TH_FIN)
    (l <| i_m := m_adj (i_m l) (- todrop) |> <h| ti_len := s16 (ti_len (i_ti l) - todrop) |>).
Definition input_right (e : ienv) : stage := fun k l =>
  let t := tp k in
  let todrop := s32 (u32 (ti_seq (i_ti l) + ti_len (i_ti l)) - u32 (rcv_nxt t + rcv_wnd t)) in
  if todrop >? 0 then
    if todrop >=? ti_len (i_ti l) then
      if fl l TH_SYN && st_eqb (t_state t) TCPS_TIME_WAIT && SEQ_GT (ti_seq (i_ti l)) (rcv_nxt t) then
        let l := l <| i_iss := s32 (snd_nxt t + TCP_ISSINCR e) |> in
        let! k := tcp_close (ie_net e) k in Ret (Goto L_findpcb k l)
      else if (rcv_wnd t =? 0) && (ti_seq (i_ti l) =? rcv_nxt t)
      then Ret (Next (tf_set TF_ACKNOW k) (right_trim l todrop))
      else Ret (Goto L_dropafterack k l)
    else Ret (Next k (right_trim l todrop))
  else Ret (Next k l).

Definition input_ts : stage := fun k l =>
  let ti := i_ti l in
  Ret (Next (record_ts k l (ti_seq ti + ti_len ti + if fl l (Z.lor TH_SYN TH_FIN) then 1 else 0)) l).

(** ** RST, SYN and ACK bits *)

Definition input_rst (e : ienv) : stage := fun k l =>
  if fl l TH_RST then
    match t_state (tp k) with
    | TCPS_SYN_RECEIVED =>
        let k := (set_so_error_k ECONNREFUSED k) <t| t_state := TCPS_CLOSED |> in
        let! k := tcp_close (ie_net e) k in Ret (Goto L_drop k l)
    | TCPS_ESTABLISHED | TCPS_FIN_WAIT_1 | TCPS_FIN_WAIT_2 | TCPS_CLOSE_WAIT =>
        let k := (set_so_error_k ECONNRESET k) <t| t_state := TCPS_CLOSED |> in
        let! k := tcp_close (ie_net e) k in Ret (Goto L_drop k l)
    | TCPS_CLOSING | TCPS_LAST_ACK | TCPS_TIME_WAIT =>
        let! k := tcp_close (ie_net e) k in Ret (Goto L_drop k l)
    | TCPS_CLOSED | TCPS_LISTEN | TCPS_SYN_SENT => Ret (Next k l)
    end
  else Ret (Next k l).

Definition input_syn (e : ienv) : stage := fun k l =>
  if fl l TH_SYN
  then let! k := tcp_drop (ie_net e) k ECONNRESET in Ret (Goto L_dropwithreset k l)
  else if negb (fl l TH_ACK) then Ret (Goto L_drop k l)
  else Ret (Next k l).

(** ** ACK processing *)

Definition input_synrcvd : stage := fun k l =>
  if st_eqb (t_state (tp k)) TCPS_SYN_RECEIVED then
    if SEQ_GT (snd_una (tp k)) (ti_ack (i_ti l)) || SEQ_GT (ti_ack (i_ti l)) (snd_max (tp k))
    then Ret (Goto L_dropwithreset k l)
    else
      let k := become_established k in
      Ret (Next (k <t| snd_wl1 := u32 (ti_seq (i_ti l) - 1) |>) l)
  else Ret (Next k l).

(** Half the current window, in segments, at least two. *)
Definition half_window (t : tcpcb) : Z :=
  let win := cmin (snd_wnd t) (snd_cwnd t) / 2 / t_maxseg t in
  if win <? 2 then 2 else win.

(** An ACK that acknowledges nothing new; [true] when the ACK is finished with. *)
Definition dup_ack (e : ienv) (k : kst) (l : ilocals) : outcome (kst * bool) :=
  let ti := i_ti l in
  if (ti_len ti =? 0) && (i_tiwin l =? snd_wnd (tp k)) then
    if (tm_rexmt (tp k) =? 0) || negb (ti_ack ti =? snd_una (tp k))
    then Ret (k <t| t_dupacks := 0 |>, false)
    else
      let k := k <t| t_dupacks := s16 (t_dupacks (tp k) + 1) |> in
      if t_dupacks (tp k) =? tcprexmtthresh then
        let onxt := snd_nxt (tp k) in
        let k := k <t| snd_ssthresh := u32 (half_window (tp k) * t_maxseg (tp k)) |> in
        let k := k <t| tm_rexmt := 0 |> <t| t_rtt := 0 |> <t| snd_nxt := ti_ack ti |>
                   <t| snd_cwnd := t_maxseg (tp k) |> in
        let! (k, _) := tcp_output (ie_net e) k in
        let k := k <t| snd_cwnd := u32 (snd_ssthresh (tp k) + t_maxseg (tp k) * t_dupacks (tp k)) |> in
        Ret (if SEQ_GT onxt (snd_nxt (tp k)) then k <t| snd_nxt := onxt |> else k, true)
      else if t_dupacks (tp k) >? tcprexmtthresh then
        let k := k <t| snd_cwnd := u32 (snd_cwnd (tp k) + t_maxseg (tp k)) |> in
        let! (k, _) := tcp_output (ie_net e) k in Ret (k, true)
      else Ret (k, false)
  else Ret (k <t| t_dupacks := 0 |>, false).

(** When new data is acked, open the congestion window. *)
Definition open_cwnd (k : kst) : kst :=
  let cw := snd_cwnd (tp k) in
  let incr := t_maxseg (tp k) in
  let incr := if cw >? snd_ssthresh (tp k) then u32 (incr * incr) / cw else incr in
  k <t| snd_cwnd := cmin (u32 (cw + incr)) (Z.shiftl TCP_MAXWIN (snd_scale (tp k))) |>.

(** The acked data leaves the send buffer; the result is [ourfinisacked]. *)
Definition drop_acked (k : kst) (acked : Z) : outcome (kst * bool) :=
  let cc := sb_cc (so_snd (so k)) in
  if u32 acked >? cc then
    let k := k <t| snd_wnd := u32 (snd_wnd (tp k) - cc) |> in
    let! k := sbdrop_snd k (s32 cc) in Ret (k, true)
  else
    let! k := sbdrop_snd k acked in
    Ret (k <t| snd_wnd := u32 (snd_wnd (tp k) - acked) |>, false).

(** The state changes that an ACK of our FIN makes. *)
Definition ack_fin (e : ienv) (ourfinisacked : bool) : stage := fun k l =>
  match t_state (tp k) with
  | TCPS_FIN_WAIT_1 =>
      if ourfinisacked then
        let k := if hasf (so_state (so k)) SS_CANTRCVMORE
                 then k <| so := soisdisconnected (so k) |> <t| tm_2msl := s16 (tcp_maxidle (glob k)) |> else k in
        Ret (Next (k <t| t_state := TCPS_FIN_WAIT_2 |>) l)
      else Ret (Next k l)
  | TCPS_CLOSING =>
      if ourfinisacked then
        let k := tcp_canceltimers (k <t| t_state := TCPS_TIME_WAIT |>) in
        let k := k <t| tm_2msl := 2 * TCPTV_MSL |> in
        Ret (Next (k <| so := soisdisconnected (so k) |>) l)
      else Ret (Next k l)
  | TCPS_LAST_ACK =>
      if ourfinisacked then let! k := tcp_close (ie_net e) k in Ret (Goto L_drop k l) else Ret (Next k l)
  | TCPS_TIME_WAIT => Ret (Goto L_dropafterack (k <t| tm_2msl := 2 * TCPTV_MSL |>) l)
  | _ => Ret (Next k l)
  end.

(** An ACK of new data ends fast recovery. *)
Definition ack_recovery (k : kst) : kst :=
  let k := if (t_dupacks (tp k) >? tcprexmtthresh) && (snd_cwnd (tp k) >? snd_ssthresh (tp k))
           then k <t| snd_cwnd := snd_ssthresh (tp k) |> else k in
  k <t| t_dupacks := 0 |>.
(** All outstanding data acked: stop the retransmit timer, else restart it. *)
Definition ack_timer (k : kst) (l : ilocals) : kst * ilocals :=
  if ti_ack (i_ti l) =? snd_max (tp k)
  then (k <t| tm_rexmt := 0 |>, l <| i_needoutput := true |>)
  else (if tm_persist (tp k) =? 0 then k <t| tm_rexmt := t_rxtcur (tp k) |> else k, l).
(** [snd_una] moves to the acknowledged position. *)
Definition ack_advance (k : kst) (ack : Z) : kst :=
  let k := k <t| snd_una := ack |> in
  if SEQ_LT (snd_nxt (tp k)) (snd_una (tp k)) then k <t| snd_nxt := snd_una (tp k) |> else k.

(** An ACK of new data. *)
Definition new_ack (e : ienv) : stage := fun k l =>
  let ti := i_ti l in
  let k := ack_recovery k in
  if SEQ_GT (ti_ack ti) (snd_max (tp k)) then Ret (Goto L_dropafterack k l)
  else
    let acked := s32 (ti_ack ti - snd_una (tp k)) in
    let k := measure_rtt k l in
    let '(k, l) := ack_timer k l in
    let k := open_cwnd k in
    let! (k, ourfinisacked) := drop_acked k acked in
    ack_fin e ourfinisacked (ack_advance (notify_snd k) (ti_ack ti)) l.

Definition input_ack (e : ienv) : stage := fun k l =>
  if SEQ_LEQ (ti_ack (i_ti l)) (snd_una (tp k)) then
    let! (k, fin) := dup_ack e k l in Ret (if fin then Goto L_drop k l else Next k l)
  else new_ack e k l.

(** ** step6: window update, urgent data, text, FIN *)

Definition input_step6 : stage := fun k l =>
  let ti := i_ti l in
  let t := tp k in
  if fl l TH_ACK &&
     (SEQ_LT (snd_wl1 t) (ti_seq ti) ||
      ((snd_wl1 t =? ti_seq ti) &&
       (SEQ_LT (snd_wl2 t) (ti_ack ti) || ((snd_wl2 t =? ti_ack ti) && (i_tiwin l >? snd_wnd t))))) then
    let k := k <t| snd_wnd := i_tiwin l |> <t| snd_wl1 := ti_seq ti |> <t| snd_wl2 := ti_ack ti |> in
    let k := if snd_wnd (tp k) >? max_sndwnd (tp k) then k <t| max_sndwnd := snd_wnd (tp k) |> else k in
    Ret (Next k (l <| i_needoutput := true |>))
  else Ret (Next k l).

(** [tcp_pulloutofband]: the byte before the urgent pointer leaves the chain. *)
Fixpoint pulloutofband (m : chain) (cnt : Z) : option (Z * chain) :=
  match m with
  | [] => None
  | m1 :: m' =>
      if m_len m1 >? cnt
      then Some (get (m_bytes m1) (Z.to_nat cnt),
                 m1 <| m_bytes := ztake cnt (m_bytes m1) ++ zdrop (cnt + 1) (m_bytes m1) |> :: m')
      else match pulloutofband m' (cnt - m_len m1) with
           | Some (c, r) => Some (c, m1 :: r)
           | None => None
           end
  end.
Definition tcp_pulloutofband (k : kst) (l : ilocals) : outcome (kst * ilocals) :=
  match pulloutofband (i_m l) (ti_urp (i_ti l) - 1) with
  | Some (c, m) =>
      Ret (k <t| t_iobc := c |> <t| t_oobflags := setb (t_oobflags (tp k)) TCPOOB_HAVEDATA |>, l <| i_m := m |>)
  | None => Panic "tcp_pulloutofband"
  end.

(** Mark the data stream when the segment advances the urgent pointer. *)
Definition urg_mark (k : kst) (l : ilocals) : kst :=
  let up := u32 (ti_seq (i_ti l) + ti_urp (i_ti l)) in
  if SEQ_GT up (rcv_up (tp k)) then
    let k := k <t| rcv_up := up |> in
    let k := k <s| so_oobmark := u32 (sb_cc (so_rcv (so k)) + u32 (rcv_up (tp k) - rcv_nxt (tp k)) - 1) |> in
    let k := if so_oobmark (so k) =? 0 then k <s| so_state := setb (so_state (so k)) SS_RCVATMARK |> else k in
    let k := k <| so := wake W_oob (so k) |> in
    k <t| t_oobflags := clrb (t_oobflags (tp k)) (Z.lor TCPOOB_HAVEDATA TCPOOB_HADDATA) |>
  else k.

Definition input_urg : stage := fun k l =>
  let ti := i_ti l in
  if fl l TH_URG && negb (ti_urp ti =? 0) && negb (TCPS_HAVERCVDFIN (t_state (tp k))) then
    if u32 (ti_urp ti + sb_cc (so_rcv (so k))) >? sb_max (glob k)
    then Ret (Next k ((clr_fl TH_URG l) <h| ti_urp := 0 |>))
    else
      let k := urg_mark k l in
      if (ti_urp ti <=? ti_len ti) && negb (hasf (so_options (so k)) SO_OOBINLINE)
      then let! (k, l) := tcp_pulloutofband k l in Ret (Next k l)
      else Ret (Next k l)
  else
    Ret (Next (if SEQ_GT (rcv_nxt (tp k)) (rcv_up (tp k)) then k <t| rcv_up := rcv_nxt (tp k) |> else k) l).

Definition input_data : stage := fun k l =>
  let ti := i_ti l in
  if (negb (ti_len ti =? 0) || fl l TH_FIN) && negb (TCPS_HAVERCVDFIN (t_state (tp k))) then
    (* the queued header keeps the flags of the packet in ti_flags *)
    let '(k, flags) := TCP_REASS k ti (i_m l) in
    Ret (Next k (l <| i_tiflags := flags |>))
  else Ret (Next (k <| pool := m_freem (pool k) (i_m l) |>) (clr_fl TH_FIN l)).

(** ACK the FIN and let the user know that the connection is closing. *)
Definition input_fin : stage := fun k l =>
  if fl l TH_FIN then
    let k := if negb (TCPS_HAVERCVDFIN (t_state (tp k))) then
               let k := tf_set TF_ACKNOW (k <| so := socantrcvmore (so k) |>) in
               k <t| rcv_nxt := u32 (rcv_nxt (tp k) + 1) |>
             else k in
    match t_state (tp k) with
    | TCPS_SYN_RECEIVED | TCPS_ESTABLISHED => Ret (Next (k <t| t_state := TCPS_CLOSE_WAIT |>) l)
    | TCPS_FIN_WAIT_1 => Ret (Next (k <t| t_state := TCPS_CLOSING |>) l)
    | TCPS_FIN_WAIT_2 =>
        let k := tcp_canceltimers (k <t| t_state := TCPS_TIME_WAIT |>) in
        let k := k <t| tm_2msl := 2 * TCPTV_MSL |> in
        Ret (Next (k <| so := soisdisconnected (so k) |>) l)
    | TCPS_TIME_WAIT => Ret (Next (k <t| tm_2msl := 2 * TCPTV_MSL |>) l)
    | _ => Ret (Next k l)
    end
  else Ret (Next k l).

Definition input_reply (e : ienv) : stage := fun k l =>
  if i_needoutput l || tf k TF_ACKNOW
  then let! (k, _) := tcp_output (ie_net e) k in Ret (Goto L_return k l)
  else Ret (Goto L_return k l).

(** ** Composition *)

Definition after_step6 (e : ienv) : stage :=
  input_step6 ;;; input_urg ;;; input_data ;;; input_fin ;;; input_reply e.

(** The states other than LISTEN and SYN_SENT. *)
Definition input_checks (e : ienv) : stage :=
  input_paws ;;; input_left ;;; input_nofdref e ;;; input_right e ;;; input_ts ;;; input_rst e ;;;
  input_syn e.
Definition input_general (e : ienv) : stage :=
  input_checks e ;;; input_synrcvd ;;; input_ack e ;;; after_step6 e.

Definition input_state (e : ienv) : stage := fun k l =>
  match t_state (tp k) with
  | TCPS_LISTEN => (input_listen e ;;; input_trim6 ;;; after_step6 e) k l
  | TCPS_SYN_SENT => (input_synsent e ;;; input_trim6 ;;; after_step6 e) k l
  | _ => input_general e k l
  end.

Definition input_segment (e : ienv) : stage :=
  input_arrive e ;;; input_predict e ;;; input_window ;;; input_state e.

(** ** The labels *)

(** [dropsocket]: the temporary socket is aborted (soabort, PRU_ABORT). *)
Definition drop_socket (e : ienv) (k : kst) (l : ilocals) : outcome kst :=
  if i_dropsocket l then tcp_drop (ie_net e) k ECONNABORTED else Ret k.

Definition label_drop (e : ienv) (k : kst) (l : ilocals) : outcome kst :=
  drop_socket e (k <| pool := m_freem (pool k) (i_m l) |>) l.

Definition label_dropafterack (e : ienv) (k : kst) (l : ilocals) : outcome kst :=
  if fl l TH_RST then label_drop e k l
  else
    let k := tf_set TF_ACKNOW (k <| pool := m_freem (pool k) (i_m l) |>) in
    let! (k, _) := tcp_output (ie_net e) k in Ret k.

(** [usetp]: [tp] is not null. *)
Definition label_dropwithreset (e : ienv) (usetp : bool) (k : kst) (l : ilocals) : outcome kst :=
  let ti := i_ti l in
  match i_m l with
  | [] => Panic "tcp_input: null mbuf"
  | m :: rest =>
      if fl l TH_RST || hasf (m_flags m) (Z.lor M_BCAST M_MCAST) || in_multicast (ti_dst ti)
      then label_drop e k l
      else
        let om := Some (m <| m_off := i_off0 l |>, rest) in
        let k := if fl l TH_ACK then tcp_respond usetp k ti om 0 (ti_ack ti) TH_RST
                 else
                   let ti := if fl l TH_SYN then ti <| ti_len := s16 (ti_len ti + 1) |> else ti in
                   tcp_respond usetp k ti om (u32 (ti_seq ti + ti_len ti)) 0 (Z.lor TH_RST TH_ACK) in
        drop_socket e k l
  end.

(** The code at the labels; [inr] is [goto findpcb] with the new [iss]. *)
Definition input_end (e : ienv) (r : ires) : outcome (kst + (kst * ilocals)) :=
  match r with
  | Next k l => Ret (inl k)
  | Goto L_return k l => Ret (inl k)
  | Goto L_drop k l => let! k := label_drop e k l in Ret (inl k)
  | Goto L_dropafterack k l => let! k := label_dropafterack e k l in Ret (inl k)
  | Goto L_dropwithreset k l => let! k := label_dropwithreset e (negb (gone k)) k l in Ret (inl k)
  | Goto L_findpcb k l => Ret (inr (k, l))
  end.

(** ** A segment for the examples *)

Import Sample.

Definition ie0 : ienv := mkIenv net0 (fun i _ _ => inr i) 4000.

(** A segment from the peer of the sample connection, with its headers, as
    tcp_input holds it after it found the connection. *)
Definition seg_in (seq ack flags : Z) (d : list Z) : ilocals :=
  mkIl (mkTi (zlen d) 20 10 80 1024 (u32 seq) (u32 ack) 5 flags 8192 0 0)
    [mkMbuf 8 (repeat 0 40 ++ d) MT_DATA M_PKTHDR (40 + zlen d) 1 0 0] 8 20 None flags 8192 None false false 0.

End TcpInput.
