(* ===== verification/TcpInputOk.v ===== *)
(** Correctness of the stages of tcp_input.

    - The receive side: trimming keeps a segment of the peer's stream a segment of
      the stream and brings it into the window; the data path delivers it.
    - The send side: an acknowledgment of new data moves the send invariant of
      TcpOutputOk forward and takes the acknowledged bytes off the send buffer.
    - Header prediction: the fast path and the general path agree. *)
From S2P Require Import Prelude TcpSeq Mbuf SockBuf Socket TcpVar Sample TcpHdr TcpSubr TcpReass TcpOutput TcpOutputOk TcpInput.
Import TcpSeq Mbuf SockBuf Socket TcpVar TcpHdr TcpSubr TcpReass TcpOutput TcpOutputOk TcpInput.

Module TcpInputOk.
#[local] Open Scope stage_scope.

(** The segment as it would be queued. *)
Definition seg_of_l (l : ilocals) : seg := mkSeg (i_ti l) (i_m l).

(** ** The receive window *)

Section Receive.
Context (str : Z -> Z) (eos : Z).

Lemma bytes_at_take a n i : 0 <= i <= n -> ztake i (bytes_at str a n) = bytes_at str a i.
Proof.
  intros. replace n with (i + (n - i)) by lia. rewrite bytes_at_app by lia.
  rewrite ztake_app_le by (rewrite bytes_at_len; lia). apply ztake_ge. rewrite bytes_at_len; lia.
Qed.

(** Trimming [i] bytes at the left edge. *)
Lemma left_trim_ok a l i :
  genuine str eos a (seg_of_l l) -> 0 <= i <= ti_len (i_ti l) ->
  genuine str eos (a + i) (seg_of_l (left_trim l i)) /\ ti_len (i_ti (left_trim l i)) = ti_len (i_ti l) - i.
Proof.
  intros Hg Hi. pose proof (genuine_nonneg _ _ _ _ Hg) as Hn. cbn [seg_of_l sg_ti] in Hn.
  destruct (genuine_trim _ _ _ _ i Hg) as [H1 H2]; [done|]. cbn [seg_of_l sg_ti seg_trim sg_m] in H1, H2.
  assert (E : ti_len (i_ti (left_trim l i)) = s16 (ti_len (i_ti l) - i) /\
              ti_seq (i_ti (left_trim l i)) = u32 (ti_seq (i_ti l) + i) /\
              ti_flags (i_ti (left_trim l i)) = ti_flags (i_ti l) /\ i_m (left_trim l i) = m_adj (i_m l) i).
  { unfold left_trim, clr_fl. cbv zeta. destruct (_ >? i); rec_simpl; done. }
  destruct E as (E1 & E2 & E3 & E4). rec_simpl_in H2. split; [|by rewrite E1].
  destruct H1. split; unfold seg_of_l in *; cbn [sg_ti sg_m seg_trim] in *;
    rewrite ?E1, ?E2, ?E3, ?E4; rec_simpl_in gn_seq; rec_simpl_in gn_len; rec_simpl_in gn_short; 
    rec_simpl_in gn_data; rec_simpl_in gn_end; rec_simpl_in gn_fin; done.
Qed.

(** Trimming [i] bytes at the right edge.  The queued header keeps its FIN bit, so
    the segment stays genuine only when it has none. *)
Lemma right_trim_ok a l i :
  genuine str eos a (seg_of_l l) -> 0 <= i <= ti_len (i_ti l) ->
  hasf (ti_flags (i_ti l)) TH_FIN = false ->
  genuine str eos a (seg_of_l (right_trim l i)) /\ ti_len (i_ti (right_trim l i)) = ti_len (i_ti l) - i.
Proof.
  intros Hg Hi Hf. pose proof (genuine_nonneg _ _ _ _ Hg) as Hn. cbn [seg_of_l sg_ti] in Hn.
  assert (E1 : ti_len (i_ti (right_trim l i)) = ti_len (i_ti l) - i).
  { unfold right_trim, clr_fl. rec_simpl. apply s16_id. lia. }
  assert (E2 : ti_seq (i_ti (right_trim l i)) = ti_seq (i_ti l) /\ ti_flags (i_ti (right_trim l i)) = ti_flags (i_ti l) /\
               i_m (right_trim l i) = m_adj (i_m l) (- i)) by (unfold right_trim, clr_fl; rec_simpl; done).
  destruct E2 as (E2 & E3 & E4). split; [|done].
  destruct Hg as [G1 G2 G3 G4 G5 G6 G7]. unfold seg_of_l in *. cbn [sg_ti sg_m] in *.
  assert (Eb : chain_bytes (m_adj (i_m l) (- i)) = bytes_at str a (ti_len (i_ti l) - i)).
  { rewrite m_adj_bytes, <- G2, G4. destruct (Z.geb_spec (- i) 0).
    - replace i with 0 by lia. rewrite zdrop_le0 by lia. f_equal. lia.
    - apply bytes_at_take. lia. }
  split; cbn [sg_ti sg_m]; rewrite ?E1, ?E2, ?E3, ?E4; try done; try lia.
  - unfold chain_len. rewrite Eb, bytes_at_len; lia.
  - congruence.
  - by apply m_adj_wf.
Qed.

(** The left edge: what is left of the segment starts at or after rcv_nxt, and
    loses no new byte.  A segment without new data goes to dropafterack. *)
Lemma input_left_ok k l n a :
  rcv_nxt (tp k) = u32 n -> genuine str eos a (seg_of_l l) -> fl l TH_SYN = false -> Z.abs (n - a) < 1073741824 ->
  (exists l' k', input_left k l = Ret (Next k' l') /\ genuine str eos (Z.max n a) (seg_of_l l') /\
     Z.max n a + ti_len (i_ti l') = Z.max n (a + ti_len (i_ti l)) /\
     (k' = k \/ k' = tf_set TF_ACKNOW k) /\ ti_flags (i_ti l') = ti_flags (i_ti l) /\
     (fl l' TH_SYN = false /\ fl l' TH_FIN = fl l TH_FIN)) \/
  (exists l', input_left k l = Ret (Next (tf_set TF_ACKNOW k) l') /\ a + ti_len (i_ti l) + 1 = n /\
     ti_len (i_ti l') = 0 /\ fl l' TH_FIN = false /\ fl l' TH_SYN = false /\ ti_seq (i_ti l') = u32 (n - 1)) \/
  (input_left k l = Ret (Goto L_dropafterack k l) /\ a + ti_len (i_ti l) <= n).
Proof.
  intros Hn Hg Hs Hw. pose proof (genuine_nonneg _ _ _ _ Hg) as Hl. cbn [seg_of_l sg_ti] in Hl.
  unfold input_left, left_syn. rewrite Hs, Hn. pose proof (gn_seq _ _ _ _ Hg) as Hq. cbn [seg_of_l sg_ti] in Hq.
  rewrite Hq, s32_sub_l, s32_sub_r, s32_id by lia.
  assert (Hsyn : forall i l0, fl (left_trim l0 i) TH_SYN = fl l0 TH_SYN /\ fl (left_trim l0 i) TH_FIN = fl l0 TH_FIN).
  { intros i l0. unfold left_trim, fl, clr_fl in *. cbv zeta. destruct (_ >? i); rec_simpl; [done|]. by flags_simpl. }
  assert (Hflg : forall i l0, ti_flags (i_ti (left_trim l0 i)) = ti_flags (i_ti l0)).
  { intros i l0. unfold left_trim, clr_fl. cbv zeta. destruct (_ >? i); by rec_simpl. }
  destruct (Z.gtb_spec (n - a) 0); [|left; exists l, k; replace (Z.max n a) with a by lia; split_and!; auto; lia].
  destruct (Z.geb_spec (n - a) (ti_len (i_ti l))).
  - destruct (fl l TH_FIN && (n - a =? ti_len (i_ti l) + 1)) eqn:Ef.
    + right. left. apply andb_true_iff in Ef as [_ Ef%Z.eqb_eq].
      assert (Hg0 : genuine str eos a (seg_of_l (clr_fl TH_FIN l))) by done.
      destruct (left_trim_ok a _ (ti_len (i_ti l)) Hg0) as [H1 H2]; [change (i_ti (clr_fl TH_FIN l)) with (i_ti l); lia|].
      exists (left_trim (clr_fl TH_FIN l) (ti_len (i_ti l))).
      destruct (Hsyn (ti_len (i_ti l)) (clr_fl TH_FIN l)) as [-> ->]. rewrite H2.
      pose proof (gn_seq _ _ _ _ H1) as Hs1. cbn [seg_of_l sg_ti] in Hs1.
      split_and!; try done; try lia.
      * change (i_ti (clr_fl TH_FIN l)) with (i_ti l). lia.
      * unfold fl, clr_fl. rec_simpl. by flags_simpl.
      * unfold fl, clr_fl in *. rec_simpl. by flags_simpl.
      * rewrite Hs1. f_equal. lia.
    + destruct (negb _ || negb _) eqn:Ed; [right; right; split; [done|lia]|]. lia.
  - left. destruct (left_trim_ok a l (n - a) Hg) as [H1 H2]; [lia|].
    exists (left_trim l (n - a)), k. destruct (Hsyn (n - a) l) as [-> ->].
    split_and!; auto; [|lia]. by replace (Z.max n a) with (a + (n - a)) by lia.
Qed.

(** The right edge: what is left of the segment ends at or before the end of the
    receive window [n + w). *)
Lemma input_right_ok e k l n w a :
  rcv_nxt (tp k) = u32 n -> rcv_wnd (tp k) = w -> 0 <= w < 1073741824 ->
  genuine str eos a (seg_of_l l) -> fl l TH_SYN = false -> n <= a < n + 1073741824 ->
  (exists l' k', input_right e k l = Ret (Next k' l') /\
     (a + ti_len (i_ti l) <= n + w /\ l' = l /\ k' = k \/
      n + w < a + ti_len (i_ti l) /\ fl l' TH_FIN = false /\ ti_flags (i_ti l') = ti_flags (i_ti l) /\
      a + ti_len (i_ti l') = n + w /\
      (hasf (ti_flags (i_ti l)) TH_FIN = false -> genuine str eos a (seg_of_l l')) /\
      (k' = k \/ k' = tf_set TF_ACKNOW k))) \/
  (input_right e k l = Ret (Goto L_dropafterack k l) /\ n + w <= a /\ n + w < a + ti_len (i_ti l) /\ (w <> 0 \/ a <> n)).
Proof.
  intros Hn Hw Hwr Hg Hs Ha. pose proof (genuine_nonneg _ _ _ _ Hg) as Hl. cbn [seg_of_l sg_ti] in Hl.
  pose proof (gn_seq _ _ _ _ Hg) as Hq. cbn [seg_of_l sg_ti] in Hq.
  unfold input_right. rewrite Hn, Hw, Hq, Hs, !u32_add_l, s32_sub_l, s32_sub_r, s32_id by lia. simpl andb.
  assert (Hfin : forall i, fl (right_trim l i) TH_FIN = false).
  { intros i. unfold right_trim, fl, clr_fl. rec_simpl. by flags_simpl. }
  assert (Hflg : forall i, ti_flags (i_ti (right_trim l i)) = ti_flags (i_ti l)) by done.
  assert (Hlen : forall i, 0 <= i <= ti_len (i_ti l) -> ti_len (i_ti (right_trim l i)) = ti_len (i_ti l) - i).
  { intros i Hi. unfold right_trim, clr_fl. rec_simpl. apply s16_id. lia. }
  set (d := a + ti_len (i_ti l) - (n + w)).
  destruct (Z.gtb_spec d 0); [|left; exists l, k; split; [done|left; split_and!; auto; lia]].
  destruct (Z.geb_spec d (ti_len (i_ti l))).
  - destruct ((w =? 0) && (u32 a =? u32 n)) eqn:E0.
    2: { right. split_and!; auto; try lia. destruct (Z.eqb_spec w 0); [right; intros ->|by left].
         by rewrite Z.eqb_refl in E0. }
    apply andb_true_iff in E0 as [E0%Z.eqb_eq E1%Z.eqb_eq]. assert (a = n) by wrap_lia.
    assert (Hd : d = ti_len (i_ti l)) by lia. left. exists (right_trim l d), (tf_set TF_ACKNOW k). split; [done|].
    right. rewrite Hlen by lia. split_and!; auto; try lia. intros Hf. by apply right_trim_ok; [|lia|].
  - left. exists (right_trim l d), k. split; [done|]. right. rewrite Hlen by lia. split_and!; auto; try lia.
    intros Hf. by apply right_trim_ok; [|lia|].
Qed.

(** The text of a segment: it is queued or delivered, or freed when it is empty. *)
Lemma input_data_ok k l n hi g a :
  rcv_at str eos k n hi g -> st TCPS_ESTABLISHED <= st (t_state (tp k)) ->
  TCPS_HAVERCVDFIN (t_state (tp k)) = false -> hasf (so_state (so k)) SS_CANTRCVMORE = false ->
  hi - n < 2147450880 ->
  (ti_len (i_ti l) <> 0 \/ fl l TH_FIN = true ->
     genuine str eos a (seg_of_l l) /\ n <= a /\ a + ti_len (i_ti l) <= hi) ->
  0 <= ti_len (i_ti l) ->
  exists k' l' n' g', input_data k l = Ret (Next k' l') /\
    took str eos k n hi g a (ti_len (i_ti l)) k' (i_tiflags l') n' g'.
Proof.
  intros Hat Hst Hnf Hc Hhi Hg Hl. unfold input_data. rewrite Hnf.
  destruct (negb (ti_len (i_ti l) =? 0) || fl l TH_FIN) eqn:E; simpl andb; cbn iota.
  - apply orb_true_iff in E. destruct Hg as (Hg & Ha & He).
    { destruct E as [E|E]; [left|by right]. intros E0. by rewrite E0 in E. }
    destruct (TCP_REASS k (i_ti l) (i_m l)) as [k1 flags] eqn:Er.
    apply (TCP_REASS_took str eos k n hi g a) in Er as (n' & g' & Ht); try done.
    eexists k1, _, n', g'. split; [done|]. by rec_simpl.
  - apply orb_false_iff in E as [E _]. apply negb_false_iff, Z.eqb_eq in E.
    eexists _, (clr_fl TH_FIN l), n, g. split; [done|]. rewrite E. destruct Hat.
    split; try done; try lia.
    + by rewrite Z.sub_diag, app_nil_r.
    + intros z. split; [intros [?|?]; [by right|lia]|]. intros [?|?]; [lia|by left].
    + unfold clr_fl. rec_simpl. by flags_simpl.
Qed.

Lemma rcv_at_flag f k n hi g : rcv_at str eos k n hi g -> rcv_at str eos (tf_set f k) n hi g.
Proof. intros []. by split. Qed.
Lemma took_so k1 k n hi g a len k' fl n' g' :
  so k1 = so k -> t_state (tp k1) = t_state (tp k) -> rcv_adv (tp k1) = rcv_adv (tp k) ->
  took str eos k1 n hi g a len k' fl n' g' -> took str eos k n hi g a len k' fl n' g'.
Proof. intros E E1 E2 []. split; try done; [by rewrite <- E|]. unfold rcv_same in *. by rewrite <- E, <- E1, <- E2. Qed.

(** The three stages of the data path together: they take in exactly the bytes of
    the segment that are new and inside the receive window; the segment is dropped with
    an ACK only when it has no such byte. *)
Lemma receive_ok e k l n hi g a w :
  rcv_at str eos k n hi g -> st TCPS_ESTABLISHED <= st (t_state (tp k)) ->
  TCPS_HAVERCVDFIN (t_state (tp k)) = false -> hasf (so_state (so k)) SS_CANTRCVMORE = false ->
  rcv_wnd (tp k) = w -> 0 <= w < 1073741824 -> Z.min (a + ti_len (i_ti l)) (n + w) <= hi -> hi - n < 2147450880 ->
  genuine str eos a (seg_of_l l) -> fl l TH_SYN = false -> Z.abs (n - a) < 1073741824 ->
  (hasf (ti_flags (i_ti l)) TH_FIN = true -> a + ti_len (i_ti l) <= n + w) ->
  (fl l TH_FIN = true -> hasf (ti_flags (i_ti l)) TH_FIN = true) ->
  (exists k' l' n' g', (input_left ;;; input_right e ;;; input_data) k l = Ret (Next k' l') /\
     took str eos k n hi g (Z.max n a) (Z.max 0 (Z.min (a + ti_len (i_ti l)) (n + w) - Z.max n a)) k' (i_tiflags l') n' g') \/
  (exists k' l', (input_left ;;; input_right e ;;; input_data) k l = Ret (Goto L_dropafterack k' l') /\
     (k' = k \/ k' = tf_set TF_ACKNOW k) /\ (a + ti_len (i_ti l) <= n \/ n + w <= a)).
Proof.
  intros Hat Hst Hnf Hc Hw Hwr Hhi Hhn Hg Hs Hna Hf Hff. unfold seq_stage.
  pose proof (ra_nxt _ _ _ _ _ _ Hat) as Hn. pose proof (in_order_le _ _ _ _ _ (ra_order _ _ _ _ _ _ Hat)) as Hnh.
  destruct (input_left_ok k l n a Hn Hg Hs Hna) as
    [(l1 & k1 & -> & Hg1 & Hend & Hk1 & Hfl & Hs1 & Hf1)|[(l1 & -> & H1 & H2 & H3 & H4 & H5)|[-> H1]]]; cbn [obind].
  - assert (Hk : rcv_at str eos k1 n hi g /\ t_state (tp k1) = t_state (tp k) /\ so k1 = so k /\ rcv_wnd (tp k1) = w /\ rcv_adv (tp k1) = rcv_adv (tp k)).
    { destruct Hk1 as [-> | ->]; split_and!; auto using rcv_at_flag. }
    destruct Hk as (Hat1 & Hst1 & Hso1 & Hw1 & Had1). rewrite <- Hst1 in Hst, Hnf. rewrite <- Hso1 in Hc.
    pose proof (genuine_nonneg _ _ _ _ Hg1) as Hl1. cbn [seg_of_l sg_ti] in Hl1.
    destruct (input_right_ok e k1 l1 n w (Z.max n a)) as
      [(l2 & k2 & -> & [(H1 & -> & ->)|(H1 & H2 & H3 & H4 & H5 & H6)])|(-> & H1 & H2 & H3)];
      [apply Hat1|done|done|done|done|lia| | |]; cbn [obind].
    + destruct (input_data_ok k1 l1 n hi g (Z.max n a)) as (k3 & l3 & n' & g' & -> & Ht); try done; try lia.
      { intros _. split_and!; [done|lia|lia]. }
      left. exists k3, l3, n', g'. split; [done|]. apply (took_so k1); [done..|].
      replace (Z.max 0 _) with (ti_len (i_ti l1)) by lia. done.
    + assert (Hk2 : rcv_at str eos k2 n hi g /\ t_state (tp k2) = t_state (tp k1) /\ so k2 = so k1 /\ rcv_adv (tp k2) = rcv_adv (tp k1)).
      { destruct H6 as [-> | ->]; split_and!; auto using rcv_at_flag. }
      destruct Hk2 as (Hat2 & Hst2 & Hso2 & Had2).
      assert (Hnofin : hasf (ti_flags (i_ti l1)) TH_FIN = false).
      { rewrite Hfl. destruct (hasf (ti_flags (i_ti l)) TH_FIN); [|done]. specialize (Hf eq_refl). lia. }
      specialize (H5 Hnofin). pose proof (genuine_nonneg _ _ _ _ H5) as Hl2. cbn [seg_of_l sg_ti] in Hl2.
      destruct (input_data_ok k2 l2 n hi g (Z.max n a)) as (k3 & l3 & n' & g' & -> & Ht);
        rewrite ?Hst2, ?Hso2; try done; try lia.
      { intros _. split_and!; [done|lia|lia]. }
      left. exists k3, l3, n', g'. split; [done|]. apply (took_so k2); [congruence..|].
      replace (Z.max 0 _) with (ti_len (i_ti l2)) by lia. done.
    + right. exists k1, l1. split_and!; auto. lia.
  - assert (Hr : input_right e (tf_set TF_ACKNOW k) l1 = Ret (Next (tf_set TF_ACKNOW k) l1)).
    { unfold input_right. change (rcv_nxt (tp (tf_set TF_ACKNOW k))) with (rcv_nxt (tp k)).
      change (rcv_wnd (tp (tf_set TF_ACKNOW k))) with (rcv_wnd (tp k)).
      rewrite Hn, Hw, H2, H5, !u32_add_l, s32_sub_l, s32_sub_r, s32_id by lia.
      destruct (Z.gtb_spec (n - 1 + 0 - (n + w)) 0); [lia|done]. }
    rewrite Hr. cbn [obind].
    destruct (input_data_ok (tf_set TF_ACKNOW k) l1 n hi g (Z.max n a)) as (k3 & l3 & n' & g' & -> & Ht);
      auto using rcv_at_flag; [|lia|].
    { rewrite H2, H3. intros [?|?]; [lia|done]. }
    left. exists k3, l3, n', g'. split; [done|]. apply (took_so (tf_set TF_ACKNOW k)); [done..|].
    pose proof (genuine_nonneg _ _ _ _ Hg) as Hl. cbn [seg_of_l sg_ti] in Hl.
    replace (Z.max 0 _) with (ti_len (i_ti l1)) by lia. done.
  - right. exists k, l. split_and!; auto.
Qed.

End Receive.
(** ** Acknowledgments *)

(** States that agree on what the send invariant reads, the congestion window
    apart, and on the state of the connection. *)
Definition snd_same (k k' : kst) : Prop :=
  so k' = so k /\ glob k' = glob k /\ snd_una (tp k') = snd_una (tp k) /\ snd_nxt (tp k') = snd_nxt (tp k) /\
  snd_max (tp k') = snd_max (tp k) /\ t_flags (tp k') = t_flags (tp k) /\ t_state (tp k') = t_state (tp k) /\
  snd_wnd (tp k') = snd_wnd (tp k) /\ t_maxseg (tp k') = t_maxseg (tp k) /\
  t_template (tp k') = t_template (tp k) /\ rcv_nxt (tp k') = rcv_nxt (tp k) /\
  snd_scale (tp k') = snd_scale (tp k).

Lemma snd_same_trans k1 k2 k3 : snd_same k1 k2 -> snd_same k2 k3 -> snd_same k1 k3.
Proof. unfold snd_same. intros. destruct_and!. split_and!; congruence. Qed.

Lemma snd_same_ok k k' una nxt mx :
  snd_same k k' -> 0 <= snd_cwnd (tp k') < 2147483648 -> snd_ok k una nxt mx -> snd_ok k' una nxt mx.
Proof.
  intros (S1 & S2 & S3 & S4 & S5 & S6 & S7 & S8 & S9 & S10 & S11 & _) Hc H.
  eapply (snd_ok_ext k); try done; unfold tf; congruence.
Qed.

Lemma measure_rtt_same k l : snd_same k (measure_rtt k l) /\ snd_cwnd (tp (measure_rtt k l)) = snd_cwnd (tp k) /\
  snd_ssthresh (tp (measure_rtt k l)) = snd_ssthresh (tp k).
Proof.
  assert (H : forall r, snd_same k (tcp_xmit_timer k r) /\ snd_cwnd (tp (tcp_xmit_timer k r)) = snd_cwnd (tp k) /\
    snd_ssthresh (tp (tcp_xmit_timer k r)) = snd_ssthresh (tp k)).
  { intros r. unfold tcp_xmit_timer, snd_same. destruct (rtt_update _ _ _). cbv zeta. rec_simpl. done. }
  unfold measure_rtt. destruct (i_ts l) as [[? ?]|]; [done|]. destruct (_ && _); [done|]. unfold snd_same. done.
Qed.

(** Opening the congestion window: by at most a segment, up to the largest window
    the scale allows. *)
Lemma open_cwnd_ok k :
  0 <= snd_cwnd (tp k) < 2147483648 -> 0 < t_maxseg (tp k) <= 32000 -> 0 <= snd_ssthresh (tp k) ->
  0 <= snd_scale (tp k) <= 14 ->
  let c := snd_cwnd (tp k) in
  let c' := snd_cwnd (tp (open_cwnd k)) in
  let lim := TCP_MAXWIN * 2 ^ snd_scale (tp k) in
  snd_same k (open_cwnd k) /\ 0 <= c' < 2147483648 /\ c' <= lim /\
  c' = Z.min lim (c + if c >? snd_ssthresh (tp k) then t_maxseg (tp k) * t_maxseg (tp k) / c else t_maxseg (tp k)).
Proof.
  intros Hc Hm Hs Hsc c c' lim. subst c c' lim.
  assert (Hlim : 65535 <= TCP_MAXWIN * 2 ^ snd_scale (tp k) <= 1073725440).
  { unfold TCP_MAXWIN. assert (2 ^ 0 <= 2 ^ snd_scale (tp k) <= 2 ^ 14) by (split; apply Z.pow_le_mono_r; lia).
    change (2 ^ 0) with 1 in *. change (2 ^ 14) with 16384 in *. lia. }
  split; [unfold open_cwnd, snd_same; by rec_simpl|].
  unfold open_cwnd. rec_simpl. rewrite Z.shiftl_mul_pow2 by lia.
  set (lim := TCP_MAXWIN * _) in *. clearbody lim.
  rewrite (u32_id (t_maxseg (tp k) * t_maxseg (tp k))) by nia.
  set (inc := if snd_cwnd (tp k) >? _ then _ else _).
  assert (Hi : 0 <= inc <= 1024000000).
  { unfold inc. destruct (Z.gtb_spec (snd_cwnd (tp k)) (snd_ssthresh (tp k))); [|lia].
    split; [apply Z.div_pos; nia|]. apply Z.div_le_upper_bound; [lia|nia]. }
  clearbody inc. rewrite u32_id, cmin_spec by lia. lia.
Qed.

(** The acknowledged bytes leave the send buffer. *)
Lemma drop_acked_ok k una nxt mx a :
  snd_ok k una nxt mx -> una < a <= mx -> a - una <= snd_wnd (tp k) ->
  exists k', drop_acked k (a - una) = Ret (k', a =? una + cc k + 1) /\
    tp k' = (tp k) <| snd_wnd := snd_wnd (tp k) - (if a =? una + cc k + 1 then cc k else a - una) |> /\
    (exists sb, so k' = (so k) <| so_snd := sb |> /\ sb_inv sb /\ (length (sb_mb sb) <= 1)%nat /\
       sb_bytes sb = zdrop (a - una) (sb_bytes (so_snd (so k)))) /\
    glob k' = glob k /\ inp k' = inp k /\ gone k' = gone k /\ sent k' = sent k.
Proof.
  intros Hk Ha Hw. pose proof (sk_cc _ _ _ _ Hk) as Hcc. pose proof (sk_small _ _ _ _ Hk).
  pose proof (cc_nonneg k). pose proof (sk_end _ _ _ _ Hk). pose proof (sk_wnd _ _ _ _ Hk).
  unfold drop_acked. rewrite Hcc, u32_id by lia.
  assert (Hdr : forall (k1 : kst) n, so k1 = so k -> 0 <= n <= cc k -> exists p sb,
    sbdrop_snd k1 n = Ret (k1 <| pool := p |> <s| so_snd := sb |>) /\ sb_inv sb /\ (length (sb_mb sb) <= 1)%nat /\
       sb_bytes sb = zdrop n (sb_bytes (so_snd (so k)))).
  { intros k1 n E Hn. unfold sbdrop_snd. rewrite E.
    destruct (sbdrop_ok (pool k1) (so_snd (so k)) n (sk_sb _ _ _ _ Hk)) as (p & sb & Es & Hd); [done|].
    rewrite Es. exists p, sb. split; [done|]. split_and!; [apply Hd| |apply (d_bytes _ _ _ _ _ _ Hd)].
    apply sbdrop_records in Es. pose proof (sk_one _ _ _ _ Hk). lia. }
  destruct (Z.gtb_spec (a - una) (cc k)).
  - rewrite (proj2 (Z.eqb_eq a (una + cc k + 1))), s32_id by lia.
    destruct (Hdr (k <t| snd_wnd := u32 (snd_wnd (tp k) - cc k) |>) (cc k)) as (p & sb & -> & I & L & B); [done|lia|].
    cbn [obind]. eexists. split; [done|]. rec_simpl. split_and!; try done; [by rewrite u32_id by lia|].
    exists sb. split_and!; try done. rewrite B, !zdrop_ge; [done|unfold cc in *; lia..].
  - rewrite (proj2 (Z.eqb_neq a (una + cc k + 1))) by lia.
    destruct (Hdr k (a - una)) as (p & sb & -> & I & L & B); [done|lia|].
    cbn [obind]. eexists. split; [done|]. rec_simpl. split_and!; try done; [by rewrite u32_id by lia|].
    exists sb. split_and!; done.
Qed.

Lemma notify_snd_eq k :
  tp (notify_snd k) = tp k /\ glob (notify_snd k) = glob k /\
  sb_queue (so_snd (so (notify_snd k))) = sb_queue (so_snd (so k)).
Proof.
  unfold notify_snd. destruct (hasf _ _); rec_simpl; [|done]. split_and!; try done. apply sowakeup_queue.
Qed.

Lemma soisdisconnected_snd s : sb_queue (so_snd (soisdisconnected s)) = sb_queue (so_snd s).
Proof. unfold soisdisconnected, sorwakeup, sowwakeup, wake. rec_simpl. apply sowakeup_queue. Qed.

(** The send side after an acknowledgment up to position [a], in any state in which
    an acknowledged FIN is no longer to be sent. *)
Lemma acked_ok k k' una nxt mx a :
  snd_ok k una nxt mx -> una < a <= mx -> a - una <= snd_wnd (tp k) ->
  sb_inv (so_snd (so k')) -> (length (sb_mb (so_snd (so k'))) <= 1)%nat ->
  sb_bytes (so_snd (so k')) = zdrop (a - una) (sb_bytes (so_snd (so k))) ->
  glob k' = glob k -> t_flags (tp k') = t_flags (tp k) -> t_maxseg (tp k') = t_maxseg (tp k) ->
  t_template (tp k') = t_template (tp k) -> rcv_nxt (tp k') = rcv_nxt (tp k) ->
  snd_una (tp k') = u32 a -> snd_nxt (tp k') = u32 (Z.max nxt a) -> snd_max (tp k') = u32 mx ->
  0 <= snd_wnd (tp k') <= snd_wnd (tp k) -> 0 <= snd_cwnd (tp k') < 2147483648 ->
  (fin_state (t_state (tp k')) = true -> fin_state (t_state (tp k)) = true /\ a <= una + cc k) ->
  snd_ok k' a (Z.max nxt a) mx.
Proof.
  intros [] Ha Hw Hi Hl Hb Hg F1 F2 F3 F4 U N M W C Hfin.
  assert (Hcc : cc k' = Z.max 0 (cc k - (a - una))).
  { unfold cc in *. rewrite Hb, zlen_zdrop. lia. }
  split; rewrite ?Hg, ?F2, ?F3, ?F4; try done; try lia.
  - unfold tf in *. rewrite F1. intros E. specialize (sk_nofin0 E). lia.
  - unfold tf in *. rewrite F1. intros E Hf. destruct (Hfin Hf) as [Hf0 Hle]. specialize (sk_fin0 E Hf0). lia.
  - rewrite Hb. unfold zdrop. by apply Forall_drop.
Qed.

Lemma ack_recovery_same k :
  0 <= snd_cwnd (tp k) < 2147483648 -> 0 <= snd_ssthresh (tp k) < 2147483648 ->
  snd_same k (ack_recovery k) /\ 0 <= snd_cwnd (tp (ack_recovery k)) < 2147483648 /\
  snd_ssthresh (tp (ack_recovery k)) = snd_ssthresh (tp k).
Proof. intros. unfold ack_recovery, snd_same. destruct (_ && _); by rec_simpl. Qed.
Lemma ack_timer_same k l :
  snd_same k (ack_timer k l).1 /\ snd_cwnd (tp (ack_timer k l).1) = snd_cwnd (tp k) /\
  snd_ssthresh (tp (ack_timer k l).1) = snd_ssthresh (tp k) /\ i_ti (ack_timer k l).2 = i_ti l.
Proof. unfold ack_timer, snd_same. destruct (_ =? _); [|destruct (_ =? 0)]; cbn [fst snd]; by rec_simpl. Qed.

(** The state before [ack_fin]: everything has moved, except the state. *)
Record settled (k : kst) (una nxt mx a : Z) (k7 : kst) : Prop := {
  se_fin : forall k', sb_queue (so_snd (so k')) = sb_queue (so_snd (so k7)) -> glob k' = glob k7 ->
    t_flags (tp k') = t_flags (tp k7) -> t_maxseg (tp k') = t_maxseg (tp k7) -> t_template (tp k') = t_template (tp k7) ->
    rcv_nxt (tp k') = rcv_nxt (tp k7) -> snd_una (tp k') = snd_una (tp k7) -> snd_nxt (tp k') = snd_nxt (tp k7) ->
    snd_max (tp k') = snd_max (tp k7) -> snd_wnd (tp k') = snd_wnd (tp k7) -> snd_cwnd (tp k') = snd_cwnd (tp k7) ->
    (fin_state (t_state (tp k')) = true -> fin_state (t_state (tp k)) = true /\ a <= una + cc k) ->
    snd_ok k' a (Z.max nxt a) mx /\ sb_bytes (so_snd (so k')) = zdrop (a - una) (sb_bytes (so_snd (so k)));
  se_state : t_state (tp k7) = t_state (tp k)
}.

Lemma ack_settled k una nxt mx a k5 :
  snd_ok k una nxt mx -> una < a <= mx -> a - una <= snd_wnd (tp k) ->
  tp k5 = (tp k) <| snd_wnd := snd_wnd (tp k) - (if a =? una + cc k + 1 then cc k else a - una) |> ->
  (exists sb, so k5 = (so k) <| so_snd := sb |> /\ sb_inv sb /\ (length (sb_mb sb) <= 1)%nat /\
     sb_bytes sb = zdrop (a - una) (sb_bytes (so_snd (so k)))) -> glob k5 = glob k ->
  settled k una nxt mx a (ack_advance (notify_snd k5) (u32 a)).
Proof.
  intros Hk Ha Hw Ht (sb & Hso & Hi & Hl & Hb) Hg.
  pose proof (sk_end _ _ _ _ Hk) as He. pose proof (sk_small _ _ _ _ Hk) as Hsm. pose proof (sk_order _ _ _ _ Hk) as Hor.
  pose proof (cc_nonneg k) as Hc0.
  destruct (notify_snd_eq k5) as (N1 & N2 & N3). set (k6 := notify_snd k5) in *. clearbody k6.
  assert (H7 : so (ack_advance k6 (u32 a)) = so k6 /\ glob (ack_advance k6 (u32 a)) = glob k6 /\
    tp (ack_advance k6 (u32 a)) = (tp k6) <| snd_una := u32 a |> <| snd_nxt := u32 (Z.max nxt a) |>).
  { assert (Hn : snd_nxt (tp k6) = u32 nxt) by (rewrite N1, Ht; rec_simpl; apply (sk_nxt _ _ _ _ Hk)).
    unfold ack_advance. cbv zeta. rec_simpl. rewrite Hn.
    destruct (seq_window_order nxt a) as (-> & _); [lia|].
    destruct (Z.ltb_spec nxt a); rec_simpl.
    - by replace (Z.max nxt a) with a by lia.
    - replace (Z.max nxt a) with nxt by lia. rewrite <- Hn. by destruct k6 as [[]]. }
  destruct H7 as (S7 & G7 & T7). set (k7 := ack_advance _ _) in *. clearbody k7.
  rewrite N1, Ht in T7. rewrite <- S7, Hso in N3. rec_simpl_in N3. split.
  2: { by rewrite T7. }
  intros k' Q R1 R2 R3 R4 R5 R6 R7 R8 R9 R10 Hf. rewrite T7 in *. rec_simpl_in R2. rec_simpl_in R3. rec_simpl_in R4.
  rec_simpl_in R5. rec_simpl_in R6. rec_simpl_in R7. rec_simpl_in R8. rec_simpl_in R9. rec_simpl_in R10.
  rewrite N3 in Q. destruct (queue_eq _ _ Q) as (Qm & Qc & Qb).
  rewrite Qb, Hb. split; [|done].
  apply (acked_ok k k' una); rewrite ?Qm, ?Qb; try congruence; try done.
  - by eapply sb_inv_queue.
  - rewrite R8. apply (sk_max _ _ _ _ Hk).
  - rewrite R9. case_match; lia.
  - rewrite R10. apply (sk_wnd _ _ _ _ Hk).
Qed.

Lemma ack_fin_ok e k k7 l una nxt mx a b :
  settled k una nxt mx a k7 -> synced (t_state (tp k)) -> a <= una + cc k + 1 -> b = (a =? una + cc k + 1) ->
  (t_state (tp k) = TCPS_LAST_ACK -> a <= una + cc k) ->
  exists k' l', (ack_fin e b k7 l = Ret (Next k' l') \/
                 t_state (tp k) = TCPS_TIME_WAIT /\ ack_fin e b k7 l = Ret (Goto L_dropafterack k' l')) /\
    snd_ok k' a (Z.max nxt a) mx /\
    sb_bytes (so_snd (so k')) = zdrop (a - una) (sb_bytes (so_snd (so k))).
Proof.
  intros [Hfin St] Hsy He Eb Hla.
  assert (Hb : b = false -> a <= una + cc k) by (rewrite Eb; intros E%Z.eqb_neq; lia).
  assert (Hb1 : b = true -> a = una + cc k + 1) by (rewrite Eb; intros E%Z.eqb_eq; lia). clear Eb.
  unfold ack_fin, synced in *. rewrite St. destruct (t_state (tp k)) eqn:Es; simpl in Hsy; try lia.
  1, 2, 6: eexists _, _; split; [by left|]; apply Hfin; try done; rewrite St; done.
  - destruct b; [|eexists _, _; split; [by left|]; apply Hfin; try done; rewrite St; auto].
    destruct (hasf _ SS_CANTRCVMORE); (eexists _, _; split; [by left|]; apply Hfin; rec_simpl; try done).
    apply soisdisconnected_snd.
  - destruct b; (eexists _, _; split; [by left|]; apply Hfin; unfold tcp_canceltimers; rec_simpl; try done).
    + apply soisdisconnected_snd.
    + rewrite St. auto.
  - destruct b; [specialize (Hla eq_refl); specialize (Hb1 eq_refl); lia|].
    eexists _, _; split; [by left|]; apply Hfin; rec_simpl; try done. rewrite St. auto.
  - eexists _, _. split; [by right|]. apply Hfin; rec_simpl; try done. by rewrite St.
Qed.

(** C19: an acknowledgement of new data moves the send side exactly to the acknowledged
    position: whatever the state (recovery, timing, congestion window), processing an
    ACK for position [a], above snd_una and at most snd_max, ends normally, leaves the
    send invariant with snd_una at [a] and snd_nxt at least there, and removes exactly
    the acknowledged bytes from the send buffer, FIN not counted. *)
Theorem new_ack_correct e k l una nxt mx a :
  snd_ok k una nxt mx -> synced (t_state (tp k)) -> ti_ack (i_ti l) = u32 a -> una < a <= mx ->
  a - una <= snd_wnd (tp k) -> 0 <= snd_ssthresh (tp k) < 2147483648 -> 0 <= snd_scale (tp k) <= 14 ->
  (t_state (tp k) = TCPS_LAST_ACK -> a <= una + cc k) ->
  exists k' l', (new_ack e k l = Ret (Next k' l') \/
                 t_state (tp k) = TCPS_TIME_WAIT /\ new_ack e k l = Ret (Goto L_dropafterack k' l')) /\
    snd_ok k' a (Z.max nxt a) mx /\
    sb_bytes (so_snd (so k')) = zdrop (a - una) (sb_bytes (so_snd (so k))).
Proof.
  intros Hk Hsy Hack Ha Hwn Hss Hsc Hla. unfold new_ack. rewrite Hack.
  pose proof (sk_wnd _ _ _ _ Hk) as [Hw Hcw]. pose proof (sk_mss _ _ _ _ Hk) as Hm.
  pose proof (sk_end _ _ _ _ Hk) as He. pose proof (sk_small _ _ _ _ Hk) as Hsm.
  destruct (ack_recovery_same k Hcw Hss) as (S1 & C1 & T1). generalize dependent (ack_recovery k). intros k1 S1 C1 T1.
  pose proof S1 as (_ & _ & U1 & _ & M1 & _). rewrite U1, M1, (sk_una _ _ _ _ Hk), (sk_max _ _ _ _ Hk).
  destruct (seq_window_order a mx) as (_ & _ & -> & _); [lia|]. destruct (Z.gtb_spec a mx); [lia|].
  rewrite s32_sub_l, s32_sub_r, s32_id by lia.
  destruct (measure_rtt_same k1 l) as (S2 & C2 & T2). generalize dependent (measure_rtt k1 l). intros k2 S2 C2 T2.
  destruct (ack_timer_same k2 l) as (S3 & C3 & T3 & L3). destruct (ack_timer k2 l) as [k3 l3]. cbn [fst snd] in *.
  pose proof (snd_same_trans _ _ _ S1 (snd_same_trans _ _ _ S2 S3)) as S3'.
  pose proof S3' as (SO & _ & _ & _ & _ & _ & _ & _ & Sm & _ & _ & Ssc).
  destruct (open_cwnd_ok k3) as (S4 & C4 & _); [lia|rewrite Sm; lia|lia|lia|].
  generalize dependent (open_cwnd k3). intros k4 S4 C4. pose proof (snd_same_trans _ _ _ S3' S4) as S4'.
  pose proof (snd_same_ok _ _ _ _ _ S4' C4 Hk) as Hk4. clear S1 C1 T1 U1 M1 S2 C2 T2 S3 C3 T3 S3' S4 SO Sm Ssc.
  destruct S4' as (SO & _ & _ & _ & _ & _ & SS & SW & _).
  assert (Hcc : cc k4 = cc k) by (unfold cc; by rewrite SO).
  rewrite <- SS, <- Hcc in *. rewrite <- SO.
  destruct (drop_acked_ok k4 una nxt mx a Hk4) as (k5 & -> & Ht5 & Hso5 & G5 & _); [done|lia|].
  cbn [obind]. apply ack_fin_ok; try done; [|lia]. apply ack_settled; try done. lia.
Qed.

Import Sample.

(** The sample connection with three bytes in flight. *)
Definition k_flight : kst := (k0 [7; 8; 9]) <t| snd_nxt := 1003 |> <t| snd_max := 1003 |>.

Lemma snd_ok_flight : snd_ok k_flight 1000 1003 1003.
Proof.
  destruct (snd_ok_k0 [7; 8; 9]) as []; [simpl; lia|repeat constructor; vm_compute; congruence|].
  split; try done; vm_compute; intuition congruence.
Qed.

Lemma new_ack_witness :
  exists k' l', (new_ack ie0 k_flight (seg_in 5000 1002 TH_ACK []) = Ret (Next k' l') \/
                 t_state (tp k_flight) = TCPS_TIME_WAIT /\
                 new_ack ie0 k_flight (seg_in 5000 1002 TH_ACK []) = Ret (Goto L_dropafterack k' l')) /\
    snd_ok k' 1002 1003 1003 /\ sb_bytes (so_snd (so k')) = [9].
Proof.
  apply (new_ack_correct ie0 k_flight (seg_in 5000 1002 TH_ACK []) 1000 1003 1003 1002 snd_ok_flight);
    vm_compute; intuition congruence.
Defined.

End TcpInputOk.
