(* ===== verification/TcpStream.v ===== *)
(** Delivery of a stream: any number of segments, in any order, overlapping and
    repeated, run through the data path of tcp_input.

    The peer respects the window: its segments end at or before the position [hi] of
    rcv_adv.  [receive_all] feeds the segments one after the other; the receive buffer
    ends with the stream's bytes up to the first position that no segment brought. *)
From S2P Require Import Prelude TcpSeq Mbuf SockBuf Socket TcpVar Sample TcpHdr TcpSubr TcpReass TcpOutput TcpOutputOk TcpInput TcpInputOk.
Import TcpSeq Mbuf SockBuf Socket TcpVar TcpHdr TcpSubr TcpReass TcpOutput TcpOutputOk TcpInput TcpInputOk.

Module TcpStream.
#[local] Open Scope stage_scope.

(** The stages that take in the text of a segment. *)
Definition data_path (e : ienv) : stage := input_window ;;; input_left ;;; input_right e ;;; input_data.

(** The connection after a stage, wherever it jumps. *)
Definition after (r : outcome ires) : outcome kst :=
  match r with
  | Ret (Next k _) | Ret (Goto _ k _) => Ret k
  | Panic s => Panic s
  | OutOfFuel => OutOfFuel
  end.

Fixpoint receive_all (e : ienv) (k : kst) (ls : list ilocals) : outcome kst :=
  match ls with
  | [] => Ret k
  | l :: ls => let! k := after (data_path e k l) in receive_all e k ls
  end.

Section Stream.
Context (str : Z -> Z) (eos : Z).

(** The connection stands at [n] of the stream and has advertised the window up to
    [hi]; it can still receive. *)
Record receiving (k : kst) (n hi : Z) (g : list (Z * seg)) : Prop := {
  rv_at : rcv_at str eos k n hi g;
  rv_adv : rcv_adv (tp k) = u32 hi;
  rv_est : st TCPS_ESTABLISHED <= st (t_state (tp k));
  rv_nofin : TCPS_HAVERCVDFIN (t_state (tp k)) = false;
  rv_more : hasf (so_state (so k)) SS_CANTRCVMORE = false;
  rv_hiwat : 0 <= sb_hiwat (so_rcv (so k)) < 536870912
}.

(** A segment of the stream that starts at [a], without SYN and FIN, as it arrives
    with its headers. *)
Record arrives (hi a : Z) (l : ilocals) : Prop := {
  av_seg : genuine str eos a (seg_of_l (l <| i_m := drop_headers l |>));
  av_end : a + ti_len (i_ti l) <= hi;
  av_syn : fl l TH_SYN = false;
  av_fin : fl l TH_FIN = false /\ hasf (ti_flags (i_ti l)) TH_FIN = false
}.

(** The window stage: the window reaches at least to [hi]. *)
Lemma window_ok k n hi g l :
  receiving k n hi g -> hi - n < 536870912 -> zlen (sb_bytes (so_rcv (so k))) < 536870912 ->
  exists w, input_window k l = Ret (Next (k <t| rcv_wnd := w |>) (l <| i_m := drop_headers l |>)) /\
    hi - n <= w < 1073741824.
Proof.
  intros [Hat Hadv _ _ _ Hw] Hn Hb. eexists. split; [reflexivity|].
  pose proof (in_order_le _ _ _ _ _ (ra_order _ _ _ _ _ _ Hat)) as Hle.
  rewrite Hadv, (ra_nxt _ _ _ _ _ _ Hat), u32_sub_l, u32_sub_r, s32_u32, s32_id by lia.
  assert (Hs : sbspace (so_rcv (so k)) <= sb_hiwat (so_rcv (so k))).
  { unfold sbspace. rewrite (inv_cc _ (ra_sb _ _ _ _ _ _ Hat)), u32_id by (zlen_pose; lia).
    zlen_pose. rewrite (s32_id (_ - _)) by lia. unfold imin. rewrite (s32_id (_ - zlen _)) by lia.
    case_match; lia. }
  generalize dependent (sbspace (so_rcv (so k))). intros w Hs.
  destruct (Z.ltb_spec w 0); rewrite cmax_spec; lia.
Qed.

Lemma receiving_wnd k n hi g w : receiving k n hi g -> receiving (k <t| rcv_wnd := w |>) n hi g.
Proof. intros [[] ? ? ? ? ?]. unfold tf_set. split; [split|..]; by rec_simpl. Qed.

Lemma receiving_flag f k n hi g : receiving k n hi g -> receiving (tf_set f k) n hi g.
Proof. intros [[] ? ? ? ? ?]. unfold tf_set. split; [split|..]; by rec_simpl. Qed.

(** Position [z] is held: delivered since [n0], or queued. *)
Definition held (n0 n : Z) (g : list (Z * seg)) (z : Z) : Prop := n0 <= z < n \/ covers g z.

(** One segment. *)
Lemma data_path_ok e k n0 n hi g l a :
  receiving k n hi g -> n0 <= n -> hi - n0 < 536870912 -> n0 - 536870912 <= a ->
  zlen (sb_bytes (so_rcv (so k))) < 536870912 -> arrives hi a l ->
  exists k' n' g', after (data_path e k l) = Ret k' /\ receiving k' n' hi g' /\ n <= n' /\
    sb_bytes (so_rcv (so k')) = sb_bytes (so_rcv (so k)) ++ bytes_at str n (n' - n) /\
    (forall z, n0 <= z -> (held n0 n g z \/ a <= z < a + ti_len (i_ti l) <-> held n0 n' g' z)).
Proof.
  intros Hk Hn Hhi Ha Hb [Hg He Hs [Hf Hf']].
  pose proof (in_order_le _ _ _ _ _ (ra_order _ _ _ _ _ _ (rv_at _ _ _ _ Hk))) as Hle.
  pose proof (genuine_nonneg _ _ _ _ Hg) as Hlen. cbn [seg_of_l sg_ti] in Hlen. rec_simpl_in Hlen.
  destruct (window_ok k n hi g l Hk ltac:(lia) Hb) as (w & Ew & Hw).
  unfold data_path, seq_stage at 1. rewrite Ew. cbn [obind].
  pose proof (receiving_wnd _ _ _ _ w Hk) as Hk1. set (k1 := k <t| rcv_wnd := w |>) in *.
  assert (Hso : so k1 = so k /\ rcv_wnd (tp k1) = w) by (unfold k1; by rec_simpl). destruct Hso as [Hso Hwn].
  clearbody k1. set (l1 := l <| i_m := drop_headers l |>) in *.
  assert (Hl1 : i_ti l1 = i_ti l /\ i_tiflags l1 = i_tiflags l) by (unfold l1; by rec_simpl).
  destruct Hl1 as [Hti Htf]. clearbody l1. unfold fl in *. rewrite <- Htf in *. rewrite <- Hti in *.
  destruct Hk1 as [Hat Hadv Hest Hnf Hmore Hhw].
  pose proof (receive_ok str eos e k1 l1 n hi g a w Hat Hest Hnf Hmore Hwn ltac:(lia) ltac:(lia) ltac:(lia) Hg Hs
    ltac:(lia) ltac:(congruence) ltac:(unfold fl; congruence)) as Hrec.
  destruct Hrec as [(k' & l' & n' & g' & -> & Ht)|(k' & l' & -> & Hk' & Hd)]; cbn [after].
  - destruct Ht as [T1 T2 T3 T4 T5 (S1 & S2 & S3 & S4)]. exists k', n', g'. rewrite <- Hso.
    split_and!; try done; [split; congruence|]. intros z Hz. specialize (T4 z). unfold held.
    destruct (Z.lt_ge_cases z n) as [Hzn|Hzn]; [split; intros _; [left; lia|left; left; lia]|].
    assert (Hm : a <= z < a + ti_len (i_ti l1) <->
      Z.max n a <= z < Z.max n a + Z.max 0 (Z.min (a + ti_len (i_ti l1)) (n + w) - Z.max n a)) by lia.
    rewrite Hm. clear Hm. intuition lia.
  - exists k', n, g. assert (Hr : receiving k' n hi g /\ so k' = so k1).
    { assert (receiving k1 n hi g) by done. destruct Hk' as [-> | ->]; split; auto using receiving_flag. }
    destruct Hr as [Hr ->]. rewrite Hso, Z.sub_diag, app_nil_r. split_and!; try done.
    intros z Hz. unfold held. intuition lia.
Qed.

(** The positions that the segments bring. *)
Definition arrived (as_ls : list (Z * ilocals)) (z : Z) : Prop :=
  Exists (fun '(a, l) => a <= z < a + ti_len (i_ti l)) as_ls.

Lemma receive_all_ok e n0 hi (ls : list (Z * ilocals)) : forall k n g,
  receiving k n hi g -> n0 <= n -> hi - n0 < 268435456 ->
  zlen (sb_bytes (so_rcv (so k))) + (hi - n) < 536870912 ->
  Forall (fun '(a, l) => n0 - 268435456 <= a /\ arrives hi a l) ls ->
  exists k' n' g', receive_all e k ls.*2 = Ret k' /\ receiving k' n' hi g' /\ n <= n' /\
    sb_bytes (so_rcv (so k')) = sb_bytes (so_rcv (so k)) ++ bytes_at str n (n' - n) /\
    (forall z, n0 <= z -> (held n0 n g z \/ arrived ls z <-> held n0 n' g' z)).
Proof.
  induction ls as [|[a l] ls IH]; intros k n g Hk Hn Hhi Hb Hls; cbn [receive_all fmap list_fmap].
  { exists k, n, g. rewrite Z.sub_diag, app_nil_r. split_and!; try done. intros z _.
    unfold arrived. rewrite Exists_nil. tauto. }
  apply Forall_cons_iff in Hls as [[Ha Hl] Hls].
  pose proof (in_order_le _ _ _ _ _ (ra_order _ _ _ _ _ _ (rv_at _ _ _ _ Hk))).
  destruct (data_path_ok e k n0 n hi g l a) as (k1 & n1 & g1 & E1 & Hk1 & Hn1 & Hb1 & Hc1); try done; try lia.
  cbn [snd]. rewrite E1. cbn [obind].
  pose proof (in_order_le _ _ _ _ _ (ra_order _ _ _ _ _ _ (rv_at _ _ _ _ Hk1))).
  destruct (IH k1 n1 g1) as (k' & n' & g' & -> & Hk' & Hn' & Hb' & Hc'); try done; try lia.
  { rewrite Hb1, zlen_app, bytes_at_len by lia. lia. }
  exists k', n', g'. split_and!; try done; [lia| |].
  - rewrite Hb', Hb1, <- app_assoc. f_equal. replace (n' - n) with ((n1 - n) + (n' - n1)) by lia.
    rewrite bytes_at_app by lia. do 2 f_equal. lia.
  - intros z Hz. rewrite <- Hc', <- Hc1 by done. unfold arrived. rewrite Exists_cons. tauto.
Qed.

(** All segments: nothing is lost, and what is delivered came in a segment. *)
Lemma receive_all_upto e k n hi g (ls : list (Z * ilocals)) m :
  receiving k n hi g -> hi - n < 268435456 -> zlen (sb_bytes (so_rcv (so k))) < 268435456 ->
  Forall (fun '(a, l) => n - 268435456 <= a /\ arrives hi a l) ls ->
  (forall z, n <= z < m -> covers g z \/ arrived ls z) ->
  exists k' n' g', receive_all e k ls.*2 = Ret k' /\ receiving k' n' hi g' /\ m <= Z.max n n' /\ n <= n' /\
    sb_bytes (so_rcv (so k')) = sb_bytes (so_rcv (so k)) ++ bytes_at str n (n' - n) /\
    (forall z, n <= z < n' -> covers g z \/ arrived ls z).
Proof.
  intros Hk Hhi Hb Hls Hm.
  pose proof (in_order_le _ _ _ _ _ (ra_order _ _ _ _ _ _ (rv_at _ _ _ _ Hk))).
  destruct (receive_all_ok e n hi ls k n g) as (k' & n' & g' & E & Hk' & Hn' & Hb' & Hc'); try done; try lia.
  exists k', n', g'. split_and!; try done.
  2: { intros z Hz. destruct (proj2 (Hc' z ltac:(lia))) as [[?|?]|?]; [by left|lia|by left|by right]. }
  destruct (Z.lt_ge_cases n' m) as [Hlt|]; [|lia]. exfalso.
  assert (Hh : held n n' g' n').
  { apply Hc'; [done|]. unfold held. destruct (Hm n'); [lia|tauto|tauto]. }
  destruct Hh as [?|Hc]; [lia|]. destruct (rv_at _ _ _ _ Hk') as [_ _ Ho Hhole _].
  destruct g' as [|[b x] g']; [by apply Exists_nil in Hc|]. destruct Ho as (_ & Hx & Hr).
  pose proof (genuine_nonneg _ _ _ _ Hx). apply Exists_cons in Hc as [?|Hc]; [lia|].
  pose proof (covers_bounds _ _ _ _ _ _ Hr Hc). lia.
Qed.

(** C6: TCP delivers the stream whatever the network does to the segments: feed any list
    of segments of the peer's stream that lie in the advertised window, in any order,
    overlapping, repeated or old, through the window, trimming and reassembly stages of
    tcp_input.  No step panics; the receive buffer grows by exactly the stream's bytes
    from rcv_nxt on, each once and in order; and as soon as the segments together cover
    the stream up to position [m], all of it up to [m] is in the buffer. *)
Theorem stream_delivered e k n hi g (ls : list (Z * ilocals)) m :
  receiving k n hi g -> hi - n < 268435456 -> zlen (sb_bytes (so_rcv (so k))) < 268435456 ->
  Forall (fun '(a, l) => n - 268435456 <= a /\ arrives hi a l) ls ->
  (forall z, n <= z < m -> covers g z \/ arrived ls z) ->
  exists k' n' g', receive_all e k ls.*2 = Ret k' /\ receiving k' n' hi g' /\ m <= Z.max n n' /\ n <= n' /\
    sb_bytes (so_rcv (so k')) = sb_bytes (so_rcv (so k)) ++ bytes_at str n (n' - n).
Proof.
  intros Hk Hhi Hb Hls Hm. destruct (receive_all_upto e k n hi g ls m) as (k' & n' & g' & ? & ? & ? & ? & ? & _); try done.
  by exists k', n', g'.
Qed.

End Stream.

Import Sample.

(** Three segments that arrive in the wrong order and overlap. *)
Definition shuffled : list (Z * ilocals) :=
  [(5006, seg_in 5006 1000 TH_ACK (bytes_at str0 5006 4)); (4998, seg_in 4998 1000 TH_ACK (bytes_at str0 4998 5));
   (5002, seg_in 5002 1000 TH_ACK (bytes_at str0 5002 5))].

Lemma shuffled_arrive : Forall (fun '(a, l) => 5000 - 268435456 <= a /\ arrives str0 11000 13192 a l) shuffled.
Proof.
  repeat constructor; try done; try (by vm_compute; congruence);
    repeat constructor; vm_compute; intuition congruence.
Qed.

Lemma receiving_k0 : receiving str0 11000 (k0 []) 5000 13192 [].
Proof. by split. Qed.

Lemma stream_delivered_witness :
  exists k' n' g', receive_all ie0 (k0 []) shuffled.*2 = Ret k' /\ receiving str0 11000 k' n' 13192 g' /\
    5010 <= Z.max 5000 n' /\ 5000 <= n' /\
    sb_bytes (so_rcv (so k')) = [] ++ bytes_at str0 5000 (n' - 5000).
Proof.
  apply (stream_delivered str0 11000 ie0 (k0 []) 5000 13192 [] shuffled 5010 receiving_k0);
    [lia|vm_compute; congruence|apply shuffled_arrive|].
  intros z Hz. right. unfold arrived, shuffled. rewrite !Exists_cons.
  change (ti_len (i_ti (seg_in 5006 1000 TH_ACK (bytes_at str0 5006 4)))) with 4.
  change (ti_len (i_ti (seg_in 4998 1000 TH_ACK (bytes_at str0 4998 5)))) with 5.
  change (ti_len (i_ti (seg_in 5002 1000 TH_ACK (bytes_at str0 5002 5)))) with 5. lia.
Defined.

End TcpStream.
