(* ===== verification/TcpFsm.v ===== *)
(** The protocol's state diagram (RFC 793, tcp_fsm.h) and the transitions that
    tcp_input makes.

    [fsm] is the diagram for arriving segments.  [input_segment_moves] shows that
    every run of [input_segment] moves the connection along its arrows, or frees the
    control block. *)
From S2P Require Import Prelude TcpSeq Mbuf SockBuf Socket TcpVar Sample TcpHdr TcpSubr TcpReass TcpOutput TcpInput.
Import TcpSeq Mbuf SockBuf Socket TcpVar TcpHdr TcpSubr TcpReass TcpOutput TcpInput.

Module TcpFsm.
#[local] Open Scope stage_scope.

(** What a segment can bring. *)
Inductive event := RcvSyn | RcvSynAck | AckOfSyn | AckOfFin | RcvFin.

Inductive fsm : tcp_state -> event -> tcp_state -> Prop :=
| fsm_passive : fsm TCPS_LISTEN RcvSyn TCPS_SYN_RECEIVED
| fsm_simultaneous : fsm TCPS_SYN_SENT RcvSyn TCPS_SYN_RECEIVED
| fsm_active : fsm TCPS_SYN_SENT RcvSynAck TCPS_ESTABLISHED
| fsm_accept : fsm TCPS_SYN_RECEIVED AckOfSyn TCPS_ESTABLISHED
| fsm_fin_acked : fsm TCPS_FIN_WAIT_1 AckOfFin TCPS_FIN_WAIT_2
| fsm_closing_acked : fsm TCPS_CLOSING AckOfFin TCPS_TIME_WAIT
| fsm_fin_synrcvd : fsm TCPS_SYN_RECEIVED RcvFin TCPS_CLOSE_WAIT
| fsm_fin_estab : fsm TCPS_ESTABLISHED RcvFin TCPS_CLOSE_WAIT
| fsm_fin_fw1 : fsm TCPS_FIN_WAIT_1 RcvFin TCPS_CLOSING
| fsm_fin_fw2 : fsm TCPS_FIN_WAIT_2 RcvFin TCPS_TIME_WAIT.

(** A path of the diagram labelled with the events of one segment. *)
Inductive path : tcp_state -> list event -> tcp_state -> Prop :=
| path_nil s : path s [] s
| path_cons s ev s1 evs s2 : fsm s ev s1 -> path s1 evs s2 -> path s (ev :: evs) s2.

Lemma path_app s1 a s2 b s3 : path s1 a s2 -> path s2 b s3 -> path s1 (a ++ b) s3.
Proof. induction 1; [done|]. intros. econstructor; eauto. Qed.
Lemma path_one s ev s' : fsm s ev s' -> path s [ev] s'.
Proof. intros. econstructor; [done|constructor]. Qed.

(** ** Routines that keep the state *)

Definition keep (k k' : kst) : Prop := t_state (tp k') = t_state (tp k) /\ gone k' = gone k.

Lemma keep_refl k : keep k k.
Proof. done. Qed.
Lemma keep_trans k1 k2 k3 : keep k1 k2 -> keep k2 k3 -> keep k1 k3.
Proof. unfold keep. intros [? ?] [? ?]. split; congruence. Qed.
Create HintDb keep discriminated.
#[export] Hint Resolve keep_refl : keep.

(** Case analysis on the tests of a routine, then the projections of the updates. *)
Ltac keep_cases :=
  repeat match goal with
  | |- context [if ?b then _ else _] => destruct b
  | |- context [match ?x with Some _ => _ | None => _ end] => destruct x
  | |- context [let '(_, _) := ?x in _] => destruct x
  end; unfold keep; cbn [fst snd]; rec_simpl; done.

Lemma tf_set_keep f k : keep k (tf_set f k).
Proof. unfold tf_set. keep_cases. Qed.
Lemma tf_clr_keep f k : keep k (tf_clr f k).
Proof. unfold tf_clr. keep_cases. Qed.
Lemma mss_rtt_keep k rt : keep k (mss_rtt k rt).
Proof. unfold mss_rtt. cbv zeta. keep_cases. Qed.
Lemma mss_buffers_keep k rt m : keep k (mss_buffers k rt m).1.
Proof. unfold mss_buffers. cbv zeta. keep_cases. Qed.
Lemma tcp_mss_keep net k o : keep k (tcp_mss net k o).2.
Proof.
  unfold tcp_mss. cbv zeta. set (k0 := match inp_route (inp k) with Some _ => k | None => _ end).
  assert (H0 : keep k k0) by (unfold k0; destruct (inp_route (inp k)); [done|]; keep_cases). clearbody k0.
  destruct (inp_route (inp k0)) as [rt|]; [|done].
  pose proof (mss_rtt_keep k0 rt) as H1. set (k1 := mss_rtt k0 rt) in *. clearbody k1.
  generalize (s32 (cmax (if negb (o =? 0) then s32 (cmin (mss_path net k1 rt) o) else mss_path net k1 rt) 32)). intros m.
  set (km := if (_ <? _) || _ then _ else _).
  assert (H2 : keep k1 km.1) by (unfold km; destruct (_ || _); [apply mss_buffers_keep|done]).
  destruct km as [k2 m2]. cbn [fst] in H2. apply (keep_trans _ k0); [done|]. apply (keep_trans _ k1); [done|].
  apply (keep_trans _ k2); [done|]. keep_cases.
Qed.

(** tcp_output. *)
Lemma output_len_keep k : keep k (output_len k).1.
Proof.
  unfold output_len. cbv zeta.
  assert (H : forall off win flags, keep k (output_force k off win flags).1.1) by (intros; unfold output_force; keep_cases).
  specialize (H (s32 (snd_nxt (tp k) - snd_una (tp k))) (s32 (cmin (snd_wnd (tp k)) (snd_cwnd (tp k))))
                (tcp_outflags (t_state (tp k)))).
  destruct (output_force _ _ _ _) as [[k0 win] flags]. cbn [fst] in *. apply (keep_trans _ k0); [done|]. keep_cases.
Qed.
Lemma output_options_keep net k f : keep k (output_options net k f).1.
Proof.
  unfold output_options.
  assert (H : keep k (output_synopts net k f).1).
  { unfold output_synopts. destruct (hasf f TH_SYN); [|done]. cbv zeta. destruct (negb _); [|keep_cases].
    pose proof (tcp_mss_keep net (k <t| snd_nxt := iss (tp k) |>) 0) as H.
    destruct (tcp_mss _ _ _) as [m k1]. cbn [snd] in H. apply (keep_trans _ (k <t| snd_nxt := iss (tp k) |>)); [done|].
    apply (keep_trans _ k1); [done|]. keep_cases. }
  destruct (output_synopts net k f) as [k1 opt]. cbn [fst] in H. apply (keep_trans _ k1); [done|]. destruct (_ && _); done.
Qed.
Lemma pool_keep k p : keep k (k <| pool := p |>).
Proof. done. Qed.
Lemma output_packet_keep k h l k' r : output_packet k h l = Ret (k', r) -> keep k k'.
Proof.
  unfold output_packet. destruct (m_gethdr (pool k) MT_HEADER) as [[m|] p]; intros E.
  2: { injection E as <- _. apply pool_keep. }
  cbv zeta in E. destruct (o_len l =? 0); [injection E as <- _; apply pool_keep|]. destruct (_ <=? _).
  - apply obind_Ret in E as (d & _ & E). destruct (zlen d =? o_len l); [|discriminate E].
    injection E as <- _. apply pool_keep.
  - apply obind_Ret in E as ([r1 p1] & _ & E). destruct r1; injection E as <- _; apply (pool_keep k).
Qed.
Lemma output_error_keep k e : keep k (output_error k e).1.
Proof. unfold output_error, tcp_quench. keep_cases. Qed.
Lemma advance_seq_keep k f n : keep k (advance_seq k f n).
Proof. unfold advance_seq, tf_set. keep_cases. Qed.
Lemma advance_max_keep k q : keep k (advance_max k q).
Proof. unfold advance_max. cbv zeta. keep_cases. Qed.
Lemma advance_rexmt_keep k : keep k (advance_rexmt k).
Proof. unfold advance_rexmt. cbv zeta. keep_cases. Qed.
Lemma output_advance_keep k l : keep k (output_advance k l).
Proof.
  unfold output_advance. cbv zeta. destruct (_ || _).
  - eapply keep_trans; [apply advance_seq_keep|]. eapply keep_trans; [apply advance_max_keep|apply advance_rexmt_keep].
  - destruct (SEQ_GT _ _); [|apply keep_refl]. unfold keep. rec_simpl. done.
Qed.
Lemma ip_output_keep k p : keep k (ip_output k p).2.
Proof. unfold ip_output. destruct (ip_err _); done. Qed.
Lemma output_emit_keep k t opt m d c l : keep k (output_emit k t opt m d c l).1.
Proof.
  unfold output_emit. set (l1 := l <| o_win := _ |>).
  assert (H1 : keep k (output_header k t opt l1).1) by (unfold output_header; cbv zeta; keep_cases).
  destruct (output_header _ _ _ _) as [k1 ti]. cbn [fst] in H1. apply (keep_trans _ k1); [done|].
  assert (H2 : keep k1 (output_ip k1 ti opt m d c l1).2).
  { unfold output_ip. cbv zeta. apply (keep_trans _ (output_advance k1 l1)); [apply output_advance_keep|apply ip_output_keep]. }
  destruct (output_ip _ _ _ _ _ _ _) as [e k2]. cbn [snd] in H2. apply (keep_trans _ k2); [done|].
  destruct (negb _).
  - pose proof (output_error_keep k2 e) as H. by destruct (output_error _ _).
  - unfold output_sent, tf_clr. keep_cases.
Qed.
Lemma tcp_output_keep net k k' e : tcp_output net k = Ret (k', e) -> keep k k'.
Proof.
  unfold tcp_output. assert (H0 : keep k (output_idlecheck k).2) by (unfold output_idlecheck; keep_cases).
  destruct (output_idlecheck k) as [idle k0]. cbn [snd] in H0.
  enough (H : forall fuel k0, output_loop fuel net idle k0 = Ret (k', e) -> keep k0 k').
  { intros E. apply (keep_trans _ k0); [done|]. by eapply H. }
  clear k k0 H0. induction fuel as [|fuel IH]; intros k E; [done|]. cbn [output_loop] in E.
  apply obind_Ret in E as ([k1 r] & E1 & E). apply (keep_trans _ k1); [|destruct r; [by simplify_eq|by apply IH]].
  clear E IH. unfold output_turn in E1. pose proof (output_len_keep k) as H.
  destruct (output_len k) as [k2 l]. cbn [fst] in H. apply (keep_trans _ k2); [done|].
  destruct (output_wanted _ _ _).
  - unfold output_send in E1. pose proof (output_options_keep net k2 (o_flags l)) as H2.
    destruct (output_options _ _ _) as [k3 opt]. cbn [fst] in H2. apply (keep_trans _ k3); [done|].
    apply obind_Ret in E1 as ([k4 rr] & Ep & E1). apply output_packet_keep in Ep. apply (keep_trans _ k4); [done|].
    destruct rr as [[[m d] c]|].
    + destruct (t_template _) as [t|]; [|done]. injection E1 as E1.
      match type of E1 with output_emit ?a ?b ?c ?d ?e ?f ?g = _ => pose proof (output_emit_keep a b c d e f g) as H5 end.
      by rewrite E1 in H5.
    + pose proof (output_error_keep k4 ENOBUFS) as H5. destruct (output_error _ _). by simplify_eq.
  - apply obind_Ret in E1 as (k3 & Ei & E1). simplify_eq. unfold output_idle, tcp_setpersist in Ei.
    repeat case_match; simplify_eq; unfold keep; rec_simpl; done.
Qed.

(** ** tcp_close and tcp_drop free the control block *)

Lemma tcp_close_gone net k k' : tcp_close net k = Ret k' -> gone k' = true.
Proof. unfold tcp_close. intros ([p s] & _ & E)%obind_Ret. by simplify_eq. Qed.
Lemma tcp_drop_gone net k e k' : tcp_drop net k e = Ret k' -> gone k' = true.
Proof. unfold tcp_drop. intros (k1 & _ & E)%obind_Ret. by apply tcp_close_gone in E. Qed.

(** ** The stages *)

(** A stage moves along the diagram; only a jump to a label may have freed the
    control block. *)
Definition moves (k k' : kst) : Prop := gone k' = gone k /\ exists evs, path (t_state (tp k)) evs (t_state (tp k')).
Definition ends_ok (k : kst) (r : ires) : Prop :=
  match r with Next k' _ => moves k k' | Goto _ k' _ => gone k' = true \/ moves k k' end.
Definition stage_moves (a : stage) : Prop := forall k l r, a k l = Ret r -> ends_ok k r.

Lemma keep_moves k k' : keep k k' -> moves k k'.
Proof. intros [E1 E2]. split; [done|]. exists []. rewrite E1. constructor. Qed.
Lemma moves_trans k1 k2 k3 : moves k1 k2 -> moves k2 k3 -> moves k1 k3.
Proof. intros [E1 [p1 H1]] [E2 [p2 H2]]. split; [congruence|]. exists (p1 ++ p2). by eapply path_app. Qed.
Lemma moves_step k k1 k' ev :
  keep k k1 -> gone k' = gone k1 -> fsm (t_state (tp k1)) ev (t_state (tp k')) -> moves k k'.
Proof.
  intros Hk Eg Hf. apply (moves_trans _ k1); [by apply keep_moves|]. split; [done|]. exists [ev]. by apply path_one.
Qed.

Lemma seq_moves_at (a b : stage) k l r :
  (forall r1, a k l = Ret r1 -> ends_ok k r1) -> stage_moves b -> (a ;;; b) k l = Ret r -> ends_ok k r.
Proof.
  intros Ha Hb (r1 & E1 & E)%obind_Ret. apply Ha in E1. destruct r1 as [k1 l1|g k1 l1].
  - apply Hb in E. destruct r; [by eapply moves_trans|]. destruct E; [by left|right; by eapply moves_trans].
  - by simplify_eq.
Qed.
Lemma seq_moves a b : stage_moves a -> stage_moves b -> stage_moves (a ;;; b).
Proof. intros Ha Hb k l r E. eapply seq_moves_at; [apply Ha|exact Hb|exact E]. Qed.

Lemma dooptions_keep fuel net : forall k cp cnt f ts k' ts', dooptions_loop fuel net k cp cnt f ts = Ret (k', ts') -> keep k k'.
Proof.
  induction fuel as [|fuel IH]; intros k cp cnt f ts k' ts'; cbn [dooptions_loop]; [done|].
  destruct (cnt <=? 0); [intros [= <- <-]; apply keep_refl|]. cbv zeta.
  destruct (_ =? TCPOPT_EOL); [intros [= <- <-]; apply keep_refl|].
  destruct (_ <=? 0); [intros [= <- <-]; apply keep_refl|].
  match goal with |- (let '(_, _) := ?x in _) = _ -> _ => set (kt := x) end.
  assert (H : keep k kt.1).
  { unfold kt. destruct (_ && _); [apply tcp_mss_keep|]. destruct (_ && _); [unfold tf_set, keep; cbn [fst]; by rec_simpl|].
    destruct (_ && _); [|apply keep_refl]. destruct (hasf f TH_SYN); unfold tf_set, keep; cbn [fst]; by rec_simpl. }
  destruct kt as [k1 ts1]. cbn [fst] in H. intros E. eapply keep_trans; [exact H|]. by eapply IH.
Qed.
Lemma tcp_dooptions_keep net k cp cnt l k' l' : tcp_dooptions net k cp cnt l = Ret (k', l') -> keep k k'.
Proof.
  unfold tcp_dooptions. intros ([k1 ts] & E & [= <- <-])%obind_Ret. by eapply dooptions_keep.
Qed.
Lemma record_ts_keep k l e : keep k (record_ts k l e).
Proof. unfold record_ts. destruct (i_ts l) as [[v ?]|]; [|apply keep_refl]. keep_cases. Qed.
Lemma tcp_xmit_timer_keep k r : keep k (tcp_xmit_timer k r).
Proof. unfold tcp_xmit_timer. destruct (rtt_update _ _ _). cbv zeta. unfold keep. by rec_simpl. Qed.
Lemma measure_rtt_keep k l : keep k (measure_rtt k l).
Proof.
  unfold measure_rtt. destruct (i_ts l) as [[? ?]|]; [apply tcp_xmit_timer_keep|].
  destruct (_ && _); [apply tcp_xmit_timer_keep|apply keep_refl].
Qed.
Lemma sbdrop_snd_keep k n k' : sbdrop_snd k n = Ret k' -> keep k k'.
Proof. unfold sbdrop_snd. intros ([p sb] & _ & E)%obind_Ret. injection E as <-. unfold keep. by rec_simpl. Qed.
Lemma notify_snd_keep k : keep k (notify_snd k).
Proof. unfold notify_snd. keep_cases. Qed.

Lemma input_arrive_moves e : stage_moves (input_arrive e).
Proof.
  intros k l r E. unfold input_arrive in E. cbv zeta in E.
  set (k1 := k <t| t_idle := 0 |> <t| tm_keep := _ |>) in *.
  assert (H : keep k k1) by (unfold keep, k1; by rec_simpl). clearbody k1.
  destruct (i_optp l) as [cp|]; [|injection E as <-; by apply keep_moves].
  destruct (negb _); [|injection E as <-; by apply keep_moves].
  apply obind_Ret in E as ([k2 l2] & E1 & [= <-]). apply tcp_dooptions_keep in E1. apply keep_moves. by eapply keep_trans.
Qed.

Lemma input_predict_moves e : stage_moves (input_predict e).
Proof.
  intros k l r E. unfold input_predict in E. destruct (predicted k l); [|injection E as <-; apply keep_moves, keep_refl].
  cbv zeta in E. pose proof (record_ts_keep k l (ti_seq (i_ti l) + ti_len (i_ti l))) as H.
  set (k1 := record_ts k l _) in *. clearbody k1.
  destruct (_ =? 0).
  - destruct (_ && _); [|injection E as <-; by apply keep_moves]. unfold predict_ack in E. cbv zeta in E.
    pose proof (measure_rtt_keep k1 l) as H1. set (k2 := measure_rtt k1 l) in *. clearbody k2.
    apply obind_Ret in E as (k3 & H2 & E). apply sbdrop_snd_keep in H2.
    match type of E with context [notify_snd ?x] => set (k4 := x) in E end.
    assert (H3 : keep k3 k4) by (unfold k4; keep_cases). clearbody k4.
    pose proof (notify_snd_keep k4) as H4. set (k5 := notify_snd k4) in *. clearbody k5.
    apply obind_Ret in E as (k6 & H5 & E). injection E as <-. right. apply keep_moves.
    assert (keep k5 k6).
    { destruct (negb _); [|injection H5 as <-; apply keep_refl].
      apply obind_Ret in H5 as ([k7 err] & H5 & E). injection E as <-. by eapply tcp_output_keep. }
    eauto 8 using keep_trans.
  - destruct (_ && _); [|injection E as <-; by apply keep_moves]. injection E as <-. unfold predict_data.
    destruct (sbappend _ _ _) as [p sb]. right. apply keep_moves. apply (keep_trans _ k1); [done|].
    unfold tf_set, keep. by rec_simpl.
Qed.

(** Stages that only branch and update fields. *)
Ltac plain_stage :=
  intros k l r E; cbv zeta in E;
  repeat match type of E with
  | context [if ?b then _ else _] => destruct b
  | context [match i_ts ?l with Some _ => _ | None => _ end] => destruct (i_ts l) as [[? ?]|]
  end; injection E as <-; unfold tf_set; first [apply keep_moves|right; apply keep_moves]; unfold keep; rec_simpl; done.

Lemma input_window_moves : stage_moves input_window.
Proof. intros k l r E. unfold input_window in E. injection E as <-. apply keep_moves. unfold keep. by rec_simpl. Qed.
Lemma input_trim6_moves : stage_moves input_trim6.
Proof. intros k l r E. unfold input_trim6 in E. injection E as <-. apply keep_moves. unfold keep. by rec_simpl. Qed.
Lemma input_paws_moves : stage_moves input_paws.
Proof. unfold input_paws. plain_stage. Qed.
Lemma input_left_moves : stage_moves input_left.
Proof. unfold input_left. intros k l r E. destruct (left_syn _ _). revert k l r E. plain_stage. Qed.
Lemma input_nofdref_moves e : stage_moves (input_nofdref e).
Proof.
  intros k l r E. unfold input_nofdref in E. destruct (_ && _); [|injection E as <-; apply keep_moves, keep_refl].
  apply obind_Ret in E as (k1 & E1 & E). injection E as <-. left. by eapply tcp_close_gone.
Qed.
Lemma input_right_moves e : stage_moves (input_right e).
Proof.
  intros k l r E. unfold input_right in E. cbv zeta in E.
  destruct (_ >? 0); [|injection E as <-; apply keep_moves, keep_refl].
  destruct (_ >=? _); [|injection E as <-; apply keep_moves, keep_refl].
  destruct (_ && _).
  { apply obind_Ret in E as (k1 & E1 & E). injection E as <-. left. by eapply tcp_close_gone. }
  destruct (_ && _); injection E as <-; [apply keep_moves, tf_set_keep|right; apply keep_moves, keep_refl].
Qed.
Lemma input_ts_moves : stage_moves input_ts.
Proof. intros k l r E. unfold input_ts in E. injection E as <-. apply keep_moves, record_ts_keep. Qed.
Lemma input_rst_moves e : stage_moves (input_rst e).
Proof.
  intros k l r E. unfold input_rst in E. destruct (fl l TH_RST); [|injection E as <-; apply keep_moves, keep_refl].
  destruct (t_state (tp k)); try (injection E as <-; apply keep_moves, keep_refl);
    apply obind_Ret in E as (k1 & E1 & E); injection E as <-; left; by eapply tcp_close_gone.
Qed.
Lemma input_syn_moves e : stage_moves (input_syn e).
Proof.
  intros k l r E. unfold input_syn in E. destruct (fl l TH_SYN).
  { apply obind_Ret in E as (k1 & E1 & E). injection E as <-. left. by eapply tcp_drop_gone. }
  destruct (negb _); injection E as <-; [right|]; apply keep_moves, keep_refl.
Qed.
Lemma reass_present_keep k : keep k (reass_present k).1.
Proof.
  unfold reass_present. destruct (negb _); [apply keep_refl|]. destruct (seg_q (tp k)) as [|x q]; [apply keep_refl|].
  destruct (negb _); [apply keep_refl|]. destruct (_ && _); [apply keep_refl|].
  destruct (reass_deliver _ _ _ _ _) as [[[[p s] n] f] q']. cbn [fst]. unfold keep. by rec_simpl.
Qed.
Lemma tcp_reass_keep k o : keep k (tcp_reass k o).1.
Proof.
  unfold tcp_reass. destruct o as [x|]; [|apply reass_present_keep].
  destruct (reass_insert _ _ _) as [p [q|]]; [|apply pool_keep].
  eapply keep_trans; [|apply reass_present_keep]. unfold keep. by rec_simpl.
Qed.
Lemma start_scaling_keep k : keep k (start_scaling k).
Proof. unfold start_scaling. keep_cases. Qed.
Lemma become_established_state k :
  t_state (tp (become_established k)) = TCPS_ESTABLISHED /\ gone (become_established k) = gone k.
Proof.
  unfold become_established. set (k1 := k <| so := _ |> <t| t_state := _ |>).
  assert (H1 : t_state (tp k1) = TCPS_ESTABLISHED /\ gone k1 = gone k) by done. clearbody k1. cbv zeta.
  destruct (keep_trans _ _ _ (start_scaling_keep k1) (tcp_reass_keep (start_scaling k1) None)) as [-> ->]. done.
Qed.
Lemma input_synrcvd_moves : stage_moves input_synrcvd.
Proof.
  intros k l r E. unfold input_synrcvd in E. destruct (st_eqb _ _) eqn:Es; [|injection E as <-; apply keep_moves, keep_refl].
  apply bool_decide_eq_true in Es. destruct (_ || _); [injection E as <-; right; apply keep_moves, keep_refl|].
  destruct (become_established_state k) as [E1 E2]. cbv zeta in E.
  set (k1 := become_established k) in *. clearbody k1. injection E as <-.
  apply (moves_step k k _ AckOfSyn); [done|by rec_simpl|]. rec_simpl. rewrite Es, E1. constructor.
Qed.
Lemma dup_ack_keep e k l k' f : dup_ack e k l = Ret (k', f) -> keep k k'.
Proof.
  unfold dup_ack. cbv zeta. intros E.
  destruct (_ && _); [|injection E as <- _; unfold keep; by rec_simpl].
  destruct (_ || _); [injection E as <- _; unfold keep; by rec_simpl|].
  set (k1 := k <t| t_dupacks := _ |>) in *.
  assert (H1 : keep k k1) by (unfold keep, k1; by rec_simpl). clearbody k1.
  destruct (_ =? tcprexmtthresh).
  - apply obind_Ret in E as ([k2 err] & E2 & E). apply tcp_output_keep in E2. injection E as <- _.
    eapply keep_trans; [exact H1|]. eapply keep_trans; [|eapply keep_trans; [exact E2|]].
    + unfold keep. by rec_simpl.
    + keep_cases.
  - destruct (_ >? tcprexmtthresh); [|by injection E as <- _].
    apply obind_Ret in E as ([k2 err] & E2 & E). apply tcp_output_keep in E2. injection E as <- _.
    eapply keep_trans; [exact H1|]. eapply keep_trans; [|exact E2]. unfold keep. by rec_simpl.
Qed.

Lemma ack_fin_moves e b : stage_moves (ack_fin e b).
Proof.
  intros k l r E. unfold ack_fin in E. destruct (t_state (tp k)) eqn:Es;
    try (injection E as <-; apply keep_moves, keep_refl).
  - destruct b; [|injection E as <-; apply keep_moves, keep_refl]. injection E as <-.
    eapply (moves_step k k _ AckOfFin); [done| |rewrite Es; rec_simpl; constructor].
    destruct (hasf _ _); by rec_simpl.
  - destruct b; [|injection E as <-; apply keep_moves, keep_refl]. injection E as <-.
    eapply (moves_step k k _ AckOfFin); [done| |unfold tcp_canceltimers; rewrite Es; rec_simpl; constructor].
    unfold tcp_canceltimers. by rec_simpl.
  - destruct b; [|injection E as <-; apply keep_moves, keep_refl].
    apply obind_Ret in E as (k1 & E1 & E). injection E as <-. left. by eapply tcp_close_gone.
  - injection E as <-. right. apply keep_moves. unfold keep. by rec_simpl.
Qed.
Lemma drop_acked_keep k n k' b : drop_acked k n = Ret (k', b) -> keep k k'.
Proof.
  unfold drop_acked. cbv zeta. intros E. destruct (_ >? _); apply obind_Ret in E as (k1 & E1 & E);
    apply sbdrop_snd_keep in E1; injection E as <- _.
  - eapply keep_trans; [|exact E1]. unfold keep. by rec_simpl.
  - eapply keep_trans; [exact E1|]. unfold keep. by rec_simpl.
Qed.
Lemma new_ack_moves e : stage_moves (new_ack e).
Proof.
  intros k l r E. unfold new_ack in E. cbv zeta in E.
  assert (H1 : keep k (ack_recovery k)) by (unfold ack_recovery; cbv zeta; keep_cases).
  set (k1 := ack_recovery k) in *. clearbody k1.
  destruct (SEQ_GT _ _); [injection E as <-; right; by apply keep_moves|].
  pose proof (measure_rtt_keep k1 l) as H2. set (k2 := measure_rtt k1 l) in *. clearbody k2.
  assert (H3 : keep k2 (ack_timer k2 l).1) by (unfold ack_timer; keep_cases).
  destruct (ack_timer k2 l) as [k3 l3]. cbn [fst] in H3.
  assert (H4 : keep k3 (open_cwnd k3)) by (unfold open_cwnd; cbv zeta; unfold keep; by rec_simpl).
  set (k4 := open_cwnd k3) in *. clearbody k4.
  apply obind_Ret in E as ([k5 b] & E5 & E). apply drop_acked_keep in E5.
  pose proof (notify_snd_keep k5) as H6. set (k6 := notify_snd k5) in *. clearbody k6.
  assert (H7 : keep k6 (ack_advance k6 (ti_ack (i_ti l)))) by (unfold ack_advance; cbv zeta; keep_cases).
  set (k7 := ack_advance k6 _) in *. clearbody k7.
  assert (H : moves k k7) by (apply keep_moves; eauto 10 using keep_trans).
  apply ack_fin_moves in E. destruct r; [by eapply moves_trans|]. destruct E; [by left|right; by eapply moves_trans].
Qed.
Lemma input_ack_moves e : stage_moves (input_ack e).
Proof.
  intros k l r E. unfold input_ack in E. destruct (SEQ_LEQ _ _); [|by apply new_ack_moves in E].
  apply obind_Ret in E as ([k1 b] & E1 & E). apply dup_ack_keep in E1. injection E as <-.
  destruct b; [right|]; by apply keep_moves.
Qed.
Lemma input_step6_moves : stage_moves input_step6.
Proof.
  intros k l r E. unfold input_step6 in E. cbv zeta in E.
  destruct (_ && _); [|injection E as <-; apply keep_moves, keep_refl]. injection E as <-. apply keep_moves. keep_cases.
Qed.
Lemma input_urg_moves : stage_moves input_urg.
Proof.
  intros k l r E. unfold input_urg in E. cbv zeta in E. destruct (_ && _).
  - destruct (_ >? _); [injection E as <-; apply keep_moves, keep_refl|].
    assert (H : keep k (urg_mark k l)) by (unfold urg_mark; cbv zeta; keep_cases).
    set (k1 := urg_mark k l) in *. clearbody k1.
    destruct (_ && _); [|injection E as <-; by apply keep_moves].
    unfold tcp_pulloutofband in E. destruct (pulloutofband _ _) as [[c m]|]; [|discriminate E]. cbn [obind] in E.
    injection E as <-. apply keep_moves. eapply keep_trans; [exact H|]. unfold keep. by rec_simpl.
  - injection E as <-. apply keep_moves. keep_cases.
Qed.
Lemma TCP_REASS_keep k ti m : keep k (TCP_REASS k ti m).1.
Proof.
  unfold TCP_REASS. cbv zeta. destruct (_ && _).
  - destruct (sbappend _ _ _). cbn [fst]. unfold keep, tf_set. by rec_simpl.
  - pose proof (tcp_reass_keep k (Some (mkSeg ti m))) as H. destruct (tcp_reass _ _) as [k1 f]. cbn [fst] in *.
    eapply keep_trans; [exact H|apply tf_set_keep].
Qed.
Lemma input_data_moves : stage_moves input_data.
Proof.
  intros k l r E. unfold input_data in E. cbv zeta in E. destruct (_ && _).
  - pose proof (TCP_REASS_keep k (i_ti l) (i_m l)) as H. destruct (TCP_REASS _ _ _) as [k1 f].
    injection E as <-. by apply keep_moves.
  - injection E as <-. apply keep_moves, pool_keep.
Qed.
Lemma input_fin_moves : stage_moves input_fin.
Proof.
  intros k l r E. unfold input_fin in E. destruct (fl l TH_FIN); [|injection E as <-; apply keep_moves, keep_refl].
  cbv zeta in E. set (k1 := if negb _ then _ else k) in *.
  assert (H1 : keep k k1) by (unfold k1, tf_set; keep_cases). clearbody k1.
  destruct (t_state (tp k1)) eqn:Es; injection E as <-; try (by apply keep_moves).
  1, 2, 3: apply (moves_step k k1 _ RcvFin); [done|done|]; rewrite Es; rec_simpl; constructor.
  - apply (moves_step k k1 _ RcvFin); [done|unfold tcp_canceltimers; by rec_simpl|].
    rewrite Es. unfold tcp_canceltimers. rec_simpl. constructor.
Qed.
Lemma input_reply_moves e : stage_moves (input_reply e).
Proof.
  intros k l r E. unfold input_reply in E. destruct (_ || _); [|injection E as <-; right; apply keep_moves, keep_refl].
  apply obind_Ret in E as ([k1 err] & E1 & E). injection E as <-. right. apply keep_moves. by eapply tcp_output_keep.
Qed.
Lemma after_step6_moves e : stage_moves (after_step6 e).
Proof.
  unfold after_step6. repeat apply seq_moves; auto using input_step6_moves, input_urg_moves, input_data_moves,
    input_fin_moves, input_reply_moves.
Qed.

Lemma listen_init_state e k l : t_state (tp (listen_init e k l)) = TCPS_SYN_RECEIVED /\ gone (listen_init e k l) = gone k.
Proof. unfold listen_init, tf_set, tcp_rcvseqinit, tcp_sendseqinit. cbv zeta. rec_simpl. done. Qed.
Lemma input_listen_moves e k l r : input_listen e k l = Ret r -> t_state (tp k) = TCPS_LISTEN ->
  ends_ok k r.
Proof.
  intros E Es. unfold input_listen in E. cbv zeta in E.
  destruct (_ || _); [injection E as <-; right; apply keep_moves, keep_refl|].
  destruct (m_get (pool k) 8) as [[am|] p]; [|injection E as <-; right; apply keep_moves, pool_keep].
  destruct (in_pcbconnect _ _ _ _) as [err|i]; [injection E as <-; right; apply keep_moves; unfold keep; by rec_simpl|].
  match type of E with context [tcp_template ?x] => set (k1 := x) in E end.
  assert (H1 : keep k k1) by (unfold keep, k1; by rec_simpl). clearbody k1.
  assert (H2 : keep k1 (tcp_template k1).2).
  { unfold tcp_template. destruct (t_template _); [apply keep_refl|]. destruct (m_get _ _) as [[|] ?]; apply pool_keep. }
  destruct (tcp_template k1) as [tm k2]. cbn [snd] in H2. destruct tm as [tm|].
  2: { apply obind_Ret in E as (k3 & E3 & E). injection E as <-. left. by eapply tcp_drop_gone. }
  set (k3 := k2 <t| t_template := Some tm |>) in *.
  assert (H3 : keep k k3) by (apply (keep_trans _ k1); [done|]; apply (keep_trans _ k2); [done|]; unfold keep, k3; by rec_simpl).
  clearbody k3. apply obind_Ret in E as ([k4 l4] & E4 & [= <-]).
  assert (H4 : keep k3 k4) by (destruct (i_optp l); [by apply tcp_dooptions_keep in E4|injection E4 as <- _; apply keep_refl]).
  destruct (listen_init_state e k4 l4) as [Ei Eg]. pose proof (keep_trans _ _ _ H3 H4) as H5.
  apply (moves_step k k4 _ RcvSyn); [exact H5|exact Eg|]. rewrite Ei. destruct H5 as [-> _]. rewrite Es. constructor.
Qed.
Lemma synsent_ack_keep k l : keep k (synsent_ack k l).
Proof. unfold synsent_ack. cbv zeta. keep_cases. Qed.
Lemma synsent_rcv_keep k l : keep k (synsent_rcv k l).
Proof. unfold synsent_rcv, keep, tf_set, tcp_rcvseqinit. cbv zeta. rec_simpl. done. Qed.
Lemma synsent_open_moves k k1 :
  keep k k1 -> t_state (tp k) = TCPS_SYN_SENT ->
  moves k (if negb (t_rtt (tp (become_established k1)) =? 0)
           then tcp_xmit_timer (become_established k1) (t_rtt (tp (become_established k1))) else become_established k1).
Proof.
  intros H1 Es. destruct (become_established_state k1) as [E1 E2]. generalize dependent (become_established k1). intros k2 E1 E2.
  apply (moves_trans _ k2).
  - apply (moves_step k k1 k2 RcvSynAck); [exact H1|exact E2|]. destruct H1 as [-> _]. rewrite Es, E1. constructor.
  - apply keep_moves. destruct (negb _); [apply tcp_xmit_timer_keep|apply keep_refl].
Qed.
Lemma input_synsent_moves e k l r : input_synsent e k l = Ret r -> t_state (tp k) = TCPS_SYN_SENT ->
  ends_ok k r.
Proof.
  intros E Es. unfold input_synsent in E.
  destruct (_ && _); [injection E as <-; right; apply keep_moves, keep_refl|].
  destruct (fl l TH_RST).
  { destruct (fl l TH_ACK); [|injection E as <-; right; apply keep_moves, keep_refl].
    apply obind_Ret in E as (k1 & E1 & E). injection E as <-. left. by eapply tcp_drop_gone. }
  destruct (negb _); [injection E as <-; right; apply keep_moves, keep_refl|].
  pose proof (keep_trans _ _ _ (synsent_ack_keep k l) (synsent_rcv_keep (synsent_ack k l) l)) as H1.
  cbv zeta in E. generalize dependent (synsent_rcv (synsent_ack k l) l). intros k1 E H1. destruct (_ && _).
  - injection E as <-. by apply synsent_open_moves.
  - injection E as <-. apply (moves_step k k1 _ RcvSyn); [done|done|]. destruct H1 as [-> _]. rewrite Es. rec_simpl. constructor.
Qed.


Import Sample.


End TcpFsm.
