(* ===== verification/TcpReset.v ===== *)
(** Resets: a segment with RST is never answered, and it closes the connection
    when it is acceptable. *)
From S2P Require Import Prelude TcpSeq Mbuf SockBuf Socket TcpVar Sample TcpHdr TcpSubr TcpReass TcpOutput TcpInput TcpFsm.
Import TcpSeq Mbuf SockBuf Socket TcpVar TcpHdr TcpSubr TcpReass TcpOutput TcpInput TcpFsm.

Module TcpReset.
#[local] Open Scope stage_scope.

(** The states in which tcp_input looks at the RST bit of the segment itself. *)
Definition rst_state (s : tcp_state) : Prop := st TCPS_SYN_SENT <= st s.

(** Nothing has been sent since [k0], and the segment still carries the RST. *)
Definition silent (k0 k : kst) (l : ilocals) : Prop :=
  sent k = sent k0 /\ fl l TH_RST = true /\ i_dropsocket l = false.
Definition still (k0 k : kst) (l : ilocals) : Prop := silent k0 k l /\ t_state (tp k) = t_state (tp k0).
Definition silent_end (k0 : kst) (r : ires) : Prop :=
  match r with
  | Next k l => still k0 k l
  | Goto L_return _ _ => False
  | Goto L_findpcb _ _ => True
  | Goto _ k l => silent k0 k l
  end.
Definition silent_stage (a : stage) : Prop := forall k0 k l r, still k0 k l -> a k l = Ret r -> silent_end k0 r.

Lemma seq_silent a b : silent_stage a -> silent_stage b -> silent_stage (a ;;; b).
Proof.
  intros Ha Hb k0 k l r Hs (r1 & E1 & E)%obind_Ret. pose proof (Ha k0 k l r1 Hs E1) as H1.
  destruct r1 as [k1 l1|g k1 l1]; [by eapply Hb|]. by injection E as <-.
Qed.

Lemma sofree_close_sent net k k' : tcp_close net k = Ret k' -> sent k' = sent k.
Proof.
  unfold tcp_close. intros ([p s] & _ & E)%obind_Ret. injection E as <-. rec_simpl.
  destruct (inp_route (inp k)); [destruct (_ && _)|]; by rec_simpl.
Qed.

Lemma tcp_mss_sent net k o : sent (tcp_mss net k o).2 = sent k.
Proof.
  unfold tcp_mss. cbv zeta. set (k0 := match inp_route (inp k) with Some _ => k | None => _ end).
  assert (H0 : sent k0 = sent k) by (unfold k0; destruct (inp_route (inp k)); [done|]; destruct (negb _); by rec_simpl).
  clearbody k0. destruct (inp_route (inp k0)) as [rt|]; [|done].
  assert (H1 : sent (mss_rtt k0 rt) = sent k0) by (unfold mss_rtt; cbv zeta; destruct (_ && _); [destruct (hasf _ _)|]; by rec_simpl).
  set (k1 := mss_rtt k0 rt) in *. clearbody k1.
  generalize (s32 (cmax (if negb (o =? 0) then s32 (cmin (mss_path net k1 rt) o) else mss_path net k1 rt) 32)). intros m.
  set (km := if (_ <? _) || _ then _ else _).
  assert (H2 : sent km.1 = sent k1).
  { unfold km. destruct (_ || _); [|done]. unfold mss_buffers. cbv zeta.
    destruct (_ <? u32 m); destruct (_ >? _); cbn [fst]; by rec_simpl. }
  destruct km as [k2 m2]. cbn [fst] in H2. destruct (negb _); cbn [snd]; rec_simpl; congruence.
Qed.
Lemma dooptions_sent fuel net : forall k cp cnt f ts k' ts',
  dooptions_loop fuel net k cp cnt f ts = Ret (k', ts') -> sent k' = sent k.
Proof.
  induction fuel as [|fuel IH]; intros k cp cnt f ts k' ts'; cbn [dooptions_loop]; [done|].
  destruct (cnt <=? 0); [by intros [= <- <-]|]. cbv zeta. destruct (_ =? TCPOPT_EOL); [by intros [= <- <-]|].
  destruct (_ <=? 0); [by intros [= <- <-]|].
  match goal with |- (let '(_, _) := ?x in _) = _ -> _ => set (kt := x) end.
  assert (H : sent kt.1 = sent k).
  { unfold kt. destruct (_ && _); [apply tcp_mss_sent|]. destruct (_ && _); [unfold tf_set; cbn [fst]; by rec_simpl|].
    destruct (_ && _); [|done]. destruct (hasf f TH_SYN); unfold tf_set; cbn [fst]; by rec_simpl. }
  destruct kt as [k1 ts1]. cbn [fst] in H. intros E. apply IH in E. congruence.
Qed.

Lemma input_arrive_silent e : silent_stage (input_arrive e).
Proof.
  intros k0 k l r [(S & R & D) T] E. unfold input_arrive in E. cbv zeta in E.
  set (k1 := k <t| t_idle := 0 |> <t| tm_keep := _ |>) in *.
  assert (H1 : sent k1 = sent k /\ keep k k1) by (unfold keep, k1; by rec_simpl). clearbody k1. destruct H1 as [S1 [T1 _]].
  assert (Hn : forall l', i_tiflags l' = i_tiflags l -> i_dropsocket l' = i_dropsocket l -> still k0 k1 l').
  { intros l' F1 F2. unfold still, silent, fl in *. rewrite F1, F2, S1, T1. done. }
  destruct (i_optp l) as [cp|]; [|injection E as <-; by apply Hn]. destruct (negb _); [|injection E as <-; by apply Hn].
  unfold tcp_dooptions in E. apply obind_Ret in E as ([k2 l2] & ([k3 ts] & E1 & [= <- <-])%obind_Ret & [= <-]).
  pose proof (dooptions_sent _ _ _ _ _ _ _ _ _ E1) as H2. pose proof (dooptions_keep _ _ _ _ _ _ _ _ _ E1) as [H3 _].
  unfold silent_end, still, silent, fl in *. rec_simpl. rewrite H2, H3, S1, T1. done.
Qed.

Lemma input_predict_silent e : silent_stage (input_predict e).
Proof.
  intros k0 k l r Hs E. unfold input_predict in E.
  assert (Hp : predicted k l = false).
  { destruct Hs as [(_ & R & _) _]. unfold predicted. destruct (Z.eqb_spec (Z.land (i_tiflags l) (Z.lor TH_SYN (Z.lor TH_FIN (Z.lor TH_RST (Z.lor TH_URG TH_ACK))))) TH_ACK) as [E1|E1]; [|by rewrite andb_false_r].
    exfalso. unfold fl, hasf in R. apply (f_equal (fun x => Z.testbit x 2)) in E1. rewrite Z.land_spec in E1.
    change (Z.testbit (Z.lor TH_SYN (Z.lor TH_FIN (Z.lor TH_RST (Z.lor TH_URG TH_ACK)))) 2) with true in E1.
    change (Z.testbit TH_ACK 2) with false in E1. rewrite andb_true_r in E1.
    assert (Z.land (i_tiflags l) TH_RST = 0) as E2; [|by rewrite E2 in R].
    apply Z.bits_inj'. intros n Hn. rewrite Z.land_spec, Z.bits_0. change TH_RST with (2 ^ 2). rewrite Z.pow2_bits_eqb by lia.
    destruct (Z.eqb_spec 2 n); [subst; by rewrite E1|apply andb_false_r]. }
  rewrite Hp in E. by injection E as <-.
Qed.
Lemma input_window_silent : silent_stage input_window.
Proof.
  intros k0 k l r [(S & R & D) T] E. unfold input_window in E. cbv zeta in E. injection E as <-.
  unfold still, silent, silent_end, fl in *. rec_simpl. done.
Qed.
Lemma input_paws_silent : silent_stage input_paws.
Proof.
  intros k0 k l r Hs E. unfold input_paws in E. pose proof Hs as [(S & R & D) T].
  destruct (i_ts l) as [[v ?]|]; [|by injection E as <-]. rewrite R in E. simpl in E. by injection E as <-.
Qed.
Lemma input_left_silent : silent_stage input_left.
Proof.
  intros k0 k l r Hs E. unfold input_left in E. cbv zeta in E. pose proof Hs as [(S & R & D) T].
  destruct (_ >? 0); [|by injection E as <-].
  assert (H1 : forall d, fl (left_syn l d).1 TH_RST = true /\ i_dropsocket (left_syn l d).1 = false).
  { intros d. unfold left_syn, fl, clr_fl in *. cbv zeta. destruct (hasf (i_tiflags l) TH_SYN); [|done].
    destruct (_ >? 1); cbn [fst]; rec_simpl; by flags_simpl. }
  specialize (H1 (s32 (rcv_nxt (tp k) - ti_seq (i_ti l)))). destruct (left_syn l _) as [l1 d]. cbn [fst] in H1.
  destruct H1 as [R1 D1].
  assert (H2 : forall l2 d2, fl l2 TH_RST = true -> i_dropsocket l2 = false ->
    fl (left_trim l2 d2) TH_RST = true /\ i_dropsocket (left_trim l2 d2) = false).
  { intros l2 d2 R2 D2. unfold left_trim, fl, clr_fl in *. cbv zeta. destruct (_ >? d2); rec_simpl; by flags_simpl. }
  assert (H3 : fl (clr_fl TH_FIN l1) TH_RST = true) by (unfold fl, clr_fl in *; rec_simpl; by flags_simpl).
  destruct (_ >=? _); [destruct (_ && _); [|destruct (_ || _)]|]; injection E as <-;
    unfold silent_end, still, silent, tf_set; rec_simpl; split_and!; try done; by apply H2.
Qed.
Lemma input_nofdref_silent e : silent_stage (input_nofdref e).
Proof.
  intros k0 k l r Hs E. unfold input_nofdref in E. pose proof Hs as [(S & R & D) T].
  destruct (_ && _); [|by injection E as <-]. apply obind_Ret in E as (k1 & E1 & E). injection E as <-.
  apply sofree_close_sent in E1. unfold silent_end, silent. rewrite E1. done.
Qed.
Lemma input_right_silent e : silent_stage (input_right e).
Proof.
  intros k0 k l r Hs E. unfold input_right in E. cbv zeta in E. pose proof Hs as [(S & R & D) T].
  assert (H2 : forall d2, fl (right_trim l d2) TH_RST = true /\ i_dropsocket (right_trim l d2) = false).
  { intros d2. unfold right_trim, fl, clr_fl in *. cbv zeta. rec_simpl. by flags_simpl. }
  destruct (_ >? 0); [|by injection E as <-].
  destruct (_ >=? _).
  - destruct (_ && _); [apply obind_Ret in E as (k1 & E1 & E); by injection E as <-|].
    destruct (_ && _); injection E as <-; [|by unfold silent_end, silent].
    unfold silent_end, still, silent, tf_set. rec_simpl. split_and!; try done; apply H2.
  - injection E as <-. unfold silent_end, still, silent. split_and!; try done; apply H2.
Qed.
Lemma input_ts_silent : silent_stage input_ts.
Proof.
  intros k0 k l r [(S & R & D) T] E. unfold input_ts in E. injection E as <-.
  match goal with |- silent_end _ (Next ?x _) => assert (H : sent x = sent k /\ t_state (tp x) = t_state (tp k)) end.
  { unfold record_ts. destruct (i_ts l) as [[? ?]|]; [destruct (_ && _)|]; by rec_simpl. }
  destruct H as [H1 H2]. unfold silent_end, still, silent. rewrite H1, H2. done.
Qed.
(** In every state from SYN_RECEIVED on the RST ends the connection. *)
Lemma input_rst_silent e k0 k l r :
  still k0 k l -> st TCPS_SYN_RECEIVED <= st (t_state (tp k)) -> input_rst e k l = Ret r ->
  exists k', r = Goto L_drop k' l /\ silent k0 k' l /\ gone k' = true.
Proof.
  intros [(S & R & D) T] Hst E. unfold input_rst in E. rewrite R in E.
  destruct (t_state (tp k)); simpl in Hst; try lia;
    apply obind_Ret in E as (k1 & E1 & E); injection E as <-; exists k1;
    pose proof (tcp_close_gone _ _ _ E1); apply sofree_close_sent in E1;
    unfold silent; rewrite E1; unfold set_so_error_k; rec_simpl; done.
Qed.

(** Before a SYN was received tcp_drop sends nothing. *)
Lemma tcp_drop_early net k e k' :
  TCPS_HAVERCVDSYN (t_state (tp k)) = false -> tcp_drop net k e = Ret k' -> sent k' = sent k.
Proof.
  unfold tcp_drop. intros ->. cbn [obind]. generalize (if (e =? ETIMEDOUT) && negb (t_softerror (tp k) =? 0)
    then t_softerror (tp k) else e). intros e' E. apply sofree_close_sent in E. exact E.
Qed.

(** In SYN_SENT the segment is dropped, whether it closes the connection or not. *)
Lemma input_synsent_silent e k0 k l r :
  still k0 k l -> t_state (tp k) = TCPS_SYN_SENT -> input_synsent e k l = Ret r ->
  exists g k', r = Goto g k' l /\ (g = L_drop \/ g = L_dropwithreset) /\ silent k0 k' l.
Proof.
  intros [(S & R & D) T] Hst E. unfold input_synsent in E. rewrite R in E.
  destruct (_ && _); [injection E as <-; eexists _, _; split_and!; [done|by right|done]|].
  destruct (fl l TH_ACK); [|injection E as <-; eexists _, _; split_and!; [done|by left|done]].
  apply obind_Ret in E as (k1 & E1 & E). injection E as <-. eexists _, _. split_and!; [done|by left|].
  apply tcp_drop_early in E1; [|by rewrite Hst]. unfold silent. rewrite E1. done.
Qed.

(** One stage of a sequence. *)
Ltac step_silent lem E H :=
  let r := fresh "r" in let E1 := fresh "E" in
  apply obind_Ret in E as (r & E1 & E); apply lem in E1; [|exact H]; clear H; rename E1 into H;
  destruct r as [? ?|? ? ?]; [|injection E as <-; eexists _, _, _; split; [reflexivity|exact H]].

Lemma input_checks_silent e k0 k l r :
  still k0 k l -> st TCPS_SYN_RECEIVED <= st (t_state (tp k0)) -> input_checks e k l = Ret r ->
  exists g k' l', r = Goto g k' l' /\ silent_end k0 (Goto g k' l').
Proof.
  intros H Hst E. unfold input_checks in E.
  pose proof (fun k l r => input_paws_silent k0 k l r) as Lp. pose proof (fun k l r => input_left_silent k0 k l r) as Ll.
  pose proof (fun k l r => input_nofdref_silent e k0 k l r) as Ln. pose proof (fun k l r => input_right_silent e k0 k l r) as Lr.
  pose proof (fun k l r => input_ts_silent k0 k l r) as Lt.
  step_silent Lp E H. step_silent Ll E H. step_silent Ln E H. step_silent Lr E H. step_silent Lt E H.
  apply obind_Ret in E as (r6 & E6 & E). pose proof H as [_ T6].
  apply (input_rst_silent e k0) in E6 as (k7 & -> & H7 & _); [|exact H|by rewrite T6].
  injection E as <-. eexists _, _, _. split; [reflexivity|exact H7].
Qed.

(** All of tcp_input up to the labels. *)
Lemma input_segment_silent e k l r :
  fl l TH_RST = true -> i_dropsocket l = false -> rst_state (t_state (tp k)) ->
  input_segment e k l = Ret r ->
  match r with Next _ _ => False | Goto _ _ _ => silent_end k r end.
Proof.
  intros R D Hst E.
  assert (H0 : still k k l) by done.
  unfold input_segment in E. apply obind_Ret in E as (r1 & E1 & E).
  pose proof (input_arrive_silent e k k l r1 H0 E1) as H1. destruct r1 as [k1 l1|g k1 l1]; [|injection E as <-; exact H1].
  apply obind_Ret in E as (r2 & E2 & E).
  pose proof (input_predict_silent e k k1 l1 r2 H1 E2) as H2. destruct r2 as [k2 l2|g k2 l2]; [|injection E as <-; exact H2].
  apply obind_Ret in E as (r3 & E3 & E).
  pose proof (input_window_silent k k2 l2 r3 H2 E3) as H3. destruct r3 as [k3 l3|g k3 l3]; [|injection E as <-; exact H3].
  clear E1 E2 E3 H0 H1 H2 R D k1 l1 k2 l2. destruct H3 as [H3 T3].
  assert (Hgen : st TCPS_SYN_RECEIVED <= st (t_state (tp k3)) -> input_general e k3 l3 = Ret r ->
    match r with Next _ _ => False | Goto _ _ _ => silent_end k r end).
  { intros Hs Eg. unfold input_general in Eg. apply obind_Ret in Eg as (r4 & E4 & Eg).
    destruct (input_checks_silent e k k3 l3 r4) as (g & k4 & l4 & -> & H4); [by split|by rewrite <- T3|done|].
    by injection Eg as <-. }
  unfold input_state in E. rewrite <- T3 in Hst. unfold rst_state in Hst.
  destruct (t_state (tp k3)) eqn:Es; simpl in Hst; try lia; try (apply Hgen; [simpl; lia|done]).
  apply obind_Ret in E as (r4 & E4 & E). apply (input_synsent_silent e k) in E4 as (g & k4 & -> & Hg & H4); [|by split; [|congruence]|done].
  injection E as <-. by destruct Hg as [-> | ->].
Qed.

(** The code at the labels. *)
Lemma input_end_silent e k r k' :
  match r with Next _ _ => False | Goto _ _ _ => silent_end k r end -> input_end e r = Ret (inl k') -> sent k' = sent k.
Proof.
  assert (Hd : forall k1 l k2, silent k k1 l -> label_drop e k1 l = Ret k2 -> sent k2 = sent k).
  { intros k1 l k2 (S & R & D) E. unfold label_drop, drop_socket in E. rewrite D in E. injection E as <-. exact S. }
  destruct r as [k1 l|g k1 l]; [done|]. intros H E. destruct g; try done; apply obind_Ret in E as (k2 & E2 & E); injection E as <-;
    pose proof H as (_ & R & _).
  - by eapply Hd.
  - unfold label_dropafterack in E2. rewrite R in E2. by eapply Hd.
  - unfold label_dropwithreset in E2. destruct (i_m l) as [|m rest]; [done|]. rewrite R in E2. by eapply Hd.
Qed.

(** C21: a reset is never answered: when a segment with RST arrives for a connection
    that is not listening, tcp_input sends nothing before it returns, on every branch
    and at every label, so two hosts never exchange resets for ever. *)
Theorem rst_never_answered e k l r k' :
  fl l TH_RST = true -> i_dropsocket l = false -> rst_state (t_state (tp k)) ->
  input_segment e k l = Ret r -> input_end e r = Ret (inl k') -> sent k' = sent k.
Proof. intros R D S E. apply input_end_silent. by eapply input_segment_silent. Qed.

Import Sample.

Lemma rst_never_answered_witness :
  match input_segment ie0 (k0 []) (seg_in 5000 1000 TH_RST []) with
  | Ret r => match input_end ie0 r with Ret (inl k') => sent k' = [] /\ gone k' = true | _ => False end
  | _ => False
  end.
Proof.
  destruct (input_segment ie0 (k0 []) (seg_in 5000 1000 TH_RST [])) as [r| |] eqn:E;
    [|vm_compute in E; discriminate E..].
  destruct (input_end ie0 r) as [[k'|]| |] eqn:E2;
    [|vm_compute in E; injection E as <-; vm_compute in E2; discriminate E2..].
  split; [apply (rst_never_answered ie0 (k0 []) (seg_in 5000 1000 TH_RST []) r k');
          [reflexivity|reflexivity|vm_compute; congruence|exact E|exact E2]|].
  vm_compute in E. injection E as <-. vm_compute in E2. injection E2 as <-. reflexivity.
Defined.

End TcpReset.
