(* ===== verification/TcpPredict.v ===== *)
(** Header prediction is an optimisation: for the data segments it takes, the
    general path of tcp_input (input_window and input_state, with the reply) does the same,
    but for the time of the acknowledgement. *)
From S2P Require Import Prelude TcpSeq Mbuf SockBuf Socket TcpVar Sample TcpHdr TcpSubr TcpReass TcpOutput TcpInput.
Import TcpSeq Mbuf SockBuf Socket TcpVar TcpHdr TcpSubr TcpReass TcpOutput TcpInput.

Module TcpPredict.
#[local] Open Scope stage_scope.

(** A segment that header prediction takes for data, on a connection whose fields
    are in range. *)
Record data_segment (k : kst) (l : ilocals) : Prop := {
  ds_pred : predicted k l = true;
  ds_ack : ti_ack (i_ti l) = snd_una (tp k);
  ds_empty : seg_q (tp k) = [];
  ds_len : 0 < ti_len (i_ti l) < 32768;
  ds_space : ti_len (i_ti l) <= sbspace (so_rcv (so k));
  ds_flags : i_tiflags l = ti_flags (i_ti l);
  ds_nxt : 0 <= rcv_nxt (tp k) < 4294967296;
  ds_adv : 0 <= s32 (u32 (rcv_adv (tp k) - rcv_nxt (tp k)));
  ds_una : 0 <= snd_una (tp k) < 4294967296
}.

(** The flags a predicted segment has. *)
Lemma predicted_flags k l :
  predicted k l = true ->
  fl l TH_SYN = false /\ fl l TH_FIN = false /\ fl l TH_RST = false /\ fl l TH_URG = false /\ fl l TH_ACK = true.
Proof.
  intros H. unfold predicted in H. rewrite !andb_true_iff in H. destruct H as [[[[[[_ H] _] _] _] _] _].
  apply Z.eqb_eq in H. change (Z.lor TH_SYN _) with 55 in H. change TH_ACK with 16 in H.
  assert (Hb : forall n, 0 <= n -> Z.testbit (i_tiflags l) n && Z.testbit 55 n = Z.testbit 16 n).
  { intros n Hn. rewrite <- Z.land_spec. by rewrite H. }
  assert (Hf : forall n, 0 <= n -> hasf (i_tiflags l) (2 ^ n) = Z.testbit (i_tiflags l) n).
  { intros n Hn. unfold hasf. destruct (Z.testbit (i_tiflags l) n) eqn:En.
    - destruct (Z.eqb_spec (Z.land (i_tiflags l) (2 ^ n)) 0) as [E|E]; [|done]. exfalso.
      apply (f_equal (fun x => Z.testbit x n)) in E. rewrite Z.land_spec, En, Z.pow2_bits_true, Z.bits_0 in E by lia. done.
    - rewrite (proj2 (Z.eqb_eq _ 0)); [done|]. apply Z.bits_inj'. intros m Hm. rewrite Z.land_spec, Z.bits_0.
      rewrite Z.pow2_bits_eqb by lia. destruct (Z.eqb_spec n m); [subst; by rewrite En|apply andb_false_r]. }
  unfold fl. change TH_SYN with (2 ^ 1). change TH_FIN with (2 ^ 0). change TH_RST with (2 ^ 2). change TH_URG with (2 ^ 5).
  change TH_ACK with (2 ^ 4). rewrite !Hf by lia.
  pose proof (Hb 0) as H0. pose proof (Hb 1) as H1. pose proof (Hb 2) as H2. pose proof (Hb 4) as H4. pose proof (Hb 5) as H5.
  cbn in H0, H1, H2, H4, H5. rewrite andb_true_r in H0, H1, H2, H4, H5.
  split_and!; [apply H1|apply H0|apply H2|apply H5|apply H4]; lia.
Qed.

(** The fields that the general path may leave different. *)
Definition touch (w d x y z u : Z) (k : kst) : kst :=
  k <t| rcv_wnd := w |> <t| t_dupacks := d |> <t| snd_wl1 := x |> <t| snd_wl2 := y |> <t| max_sndwnd := z |> <t| rcv_up := u |>.

(** Equality of updated states, by evaluation on a state in constructor form. *)
Ltac kst_eq k := destruct k as [[] ? ? ? ? ? ? ?]; vm_compute; reflexivity.

Lemma touch_wnd k w :
  k <t| rcv_wnd := w |> = touch w (t_dupacks (tp k)) (snd_wl1 (tp k)) (snd_wl2 (tp k)) (max_sndwnd (tp k)) (rcv_up (tp k)) k.
Proof. kst_eq k. Qed.
Lemma touch_ts k w d x y z u a r :
  (touch w d x y z u k) <t| ts_recent_age := a |> <t| ts_recent := r |> =
  touch w d x y z u (k <t| ts_recent_age := a |> <t| ts_recent := r |>).
Proof. kst_eq k. Qed.
Lemma touch_dupacks k w d x y z u d' : (touch w d x y z u k) <t| t_dupacks := d' |> = touch w d' x y z u k.
Proof. kst_eq k. Qed.
Lemma touch_step6 k w d x y z u x' y' :
  (touch w d x y z u k) <t| snd_wnd := snd_wnd (tp k) |> <t| snd_wl1 := x' |> <t| snd_wl2 := y' |> = touch w d x' y' z u k.
Proof. kst_eq k. Qed.
Lemma touch_maxwnd k w d x y z u z' : (touch w d x y z u k) <t| max_sndwnd := z' |> = touch w d x y z' u k.
Proof. kst_eq k. Qed.
Lemma touch_up k w d x y z u u' : (touch w d x y z u k) <t| rcv_up := u' |> = touch w d x y z u' k.
Proof. kst_eq k. Qed.
Lemma touch_text k w d x y z u n p s :
  (tf_set TF_DELACK (touch w d x y z u k)) <t| rcv_nxt := n |> <| pool := p |> <| so := s |> =
  touch w d x y z u (tf_set TF_DELACK (k <t| rcv_nxt := n |> <| pool := p |> <| so := s |>)).
Proof. kst_eq k. Qed.
Lemma touch_so k p sb s : k <| pool := p |> <s| so_rcv := sb |> <| so := s |> = k <| pool := p |> <| so := s |>.
Proof. kst_eq k. Qed.
Lemma touch_proj k w d x y z u :
  let k' := touch w d x y z u k in
  t_state (tp k') = t_state (tp k) /\ snd_una (tp k') = snd_una (tp k) /\ snd_wnd (tp k') = snd_wnd (tp k) /\
  rcv_nxt (tp k') = rcv_nxt (tp k) /\ seg_q (tp k') = seg_q (tp k) /\ ts_recent (tp k') = ts_recent (tp k) /\
  last_ack_sent (tp k') = last_ack_sent (tp k) /\ glob k' = glob k /\ pool k' = pool k /\ so k' = so k.
Proof. cbv zeta. unfold touch. rec_simpl. done. Qed.

Lemma seq_next (a b : stage) k l k1 l1 : a k l = Ret (Next k1 l1) -> (a ;;; b) k l = b k1 l1.
Proof. intros E. unfold seq_stage. by rewrite E. Qed.
Lemma seq_assoc (a b c : stage) k l : (a ;;; (b ;;; c)) k l = ((a ;;; b) ;;; c) k l.
Proof. unfold seq_stage. by destruct (a k l) as [[|]| |]. Qed.
Lemma seq_assoc4 (a b c d f : stage) k l : (a ;;; b ;;; c ;;; d ;;; f) k l = ((a ;;; b ;;; c ;;; d) ;;; f) k l.
Proof.
  unfold seq_stage. destruct (a k l) as [[k1 l1|]| |]; try done. cbn [obind].
  destruct (b k1 l1) as [[k2 l2|]| |]; try done. cbn [obind]. by destruct (c k2 l2) as [[|]| |].
Qed.

Section Slow.
Context (e : ienv) (k : kst) (l : ilocals) (Hd : data_segment k l).

Lemma pred_state : t_state (tp k) = TCPS_ESTABLISHED.
Proof.
  pose proof (ds_pred _ _ Hd) as H. unfold predicted in H. rewrite !andb_true_iff in H.
  destruct H as [[[[[[H _] _] _] _] _] _]. by apply bool_decide_eq_true in H.
Qed.
Lemma pred_seq : ti_seq (i_ti l) = rcv_nxt (tp k).
Proof.
  pose proof (ds_pred _ _ Hd) as H. unfold predicted in H. rewrite !andb_true_iff in H.
  destruct H as [[[[_ H] _] _] _]. by apply Z.eqb_eq in H.
Qed.
Lemma pred_ts : match i_ts l with Some (v, _) => TSTMP_LT v (ts_recent (tp k)) = false | None => True end.
Proof.
  pose proof (ds_pred _ _ Hd) as H. unfold predicted in H. rewrite !andb_true_iff in H.
  destruct H as [[[[[_ H] _] _] _] _]. destruct (i_ts l) as [[v ?]|]; [|done].
  unfold TSTMP_GEQ, TSTMP_LT in *. lia.
Qed.
Lemma pred_win : i_tiwin l = snd_wnd (tp k).
Proof.
  pose proof (ds_pred _ _ Hd) as H. unfold predicted in H. rewrite !andb_true_iff in H.
  destruct H as [[_ H] _]. by apply Z.eqb_eq in H.
Qed.

(** The segment and the connection after the headers were dropped. *)
Definition nohdr : ilocals := l <| i_m := drop_headers l |>.
Definition windowed (w : Z) : kst := k <t| rcv_wnd := w |>.

Lemma slow_window : exists w, input_window k l = Ret (Next (windowed w) nohdr) /\ ti_len (i_ti l) <= w < 2147483648.
Proof.
  eexists. split; [reflexivity|]. pose proof (ds_space _ _ Hd) as Hs. pose proof (ds_len _ _ Hd) as Hl.
  pose proof (ds_adv _ _ Hd) as Ha. set (a := s32 (u32 _)) in *. assert (a < 2147483648) by (apply s32_range). clearbody a.
  assert (Hsp : sbspace (so_rcv (so k)) < 2147483648).
  { unfold sbspace, imin. case_match; apply s32_range. }
  destruct (Z.ltb_spec (sbspace (so_rcv (so k))) 0); [lia|]. rewrite cmax_spec by lia. lia.
Qed.

Lemma slow_checks w :
  ti_len (i_ti l) <= w < 2147483648 ->
  input_checks e (windowed w) nohdr = Ret (Next (record_ts (windowed w) nohdr (ti_seq (i_ti l) + ti_len (i_ti l))) nohdr).
Proof.
  intros Hw. destruct (predicted_flags _ _ (ds_pred _ _ Hd)) as (F1 & F2 & F3 & F4 & F5).
  unfold input_checks, seq_stage.
  assert (E1 : input_paws (windowed w) nohdr = Ret (Next (windowed w) nohdr)).
  { pose proof pred_ts as H. unfold input_paws, nohdr, windowed. rec_simpl. destruct (i_ts l) as [[v ?]|]; [|done].
    by rewrite H, !andb_false_r. }
  rewrite E1. cbn [obind].
  assert (E2 : input_left (windowed w) nohdr = Ret (Next (windowed w) nohdr)).
  { unfold input_left, nohdr, windowed. rec_simpl. rewrite pred_seq, Z.sub_diag. done. }
  rewrite E2. cbn [obind].
  assert (E3 : input_nofdref e (windowed w) nohdr = Ret (Next (windowed w) nohdr)).
  { unfold input_nofdref, nohdr, windowed. rec_simpl. rewrite pred_state. cbn [st Z.gtb Z.compare]. by rewrite andb_false_r. }
  rewrite E3. cbn [obind].
  assert (E4 : input_right e (windowed w) nohdr = Ret (Next (windowed w) nohdr)).
  { unfold input_right, nohdr, windowed. rec_simpl. rewrite pred_seq, s32_sub_l, s32_sub_r, s32_id by (pose proof (ds_len _ _ Hd); lia).
    destruct (Z.gtb_spec (rcv_nxt (tp k) + ti_len (i_ti l) - (rcv_nxt (tp k) + w)) 0); [lia|done]. }
  rewrite E4. cbn [obind].
  assert (E5 : input_ts (windowed w) nohdr = Ret (Next (record_ts (windowed w) nohdr (ti_seq (i_ti l) + ti_len (i_ti l))) nohdr)).
  { unfold input_ts. change (fl nohdr) with (fl l). unfold fl in *. rewrite hasf_lor, F1, F2. cbn [orb].
    by rewrite Z.add_0_r. }
  rewrite E5. cbn [obind]. generalize (record_ts (windowed w) nohdr (ti_seq (i_ti l) + ti_len (i_ti l))). intros k2.
  unfold input_rst. change (fl nohdr) with (fl l). rewrite F3. cbn [obind].
  unfold input_syn. change (fl nohdr) with (fl l). by rewrite F1, F5.
Qed.

Lemma record_ts_touch E w d x y z u l' :
  i_ts l' = i_ts l -> i_ti l' = i_ti l -> record_ts (touch w d x y z u k) l' E = touch w d x y z u (record_ts k l E).
Proof.
  intros E1 E2. unfold record_ts. rewrite E1, E2. destruct (touch_proj k w d x y z u) as (_ & _ & _ & _ & _ & _ & -> & -> & _).
  destruct (i_ts l) as [[v ?]|]; [|done]. destruct (_ && _); [|done]. apply touch_ts.
Qed.

(** [stamped] is [k] with the recent timestamp recorded. *)
Definition stamped : kst := record_ts k l (ti_seq (i_ti l) + ti_len (i_ti l)).
Lemma stamped_eq :
  t_state (tp stamped) = TCPS_ESTABLISHED /\ snd_una (tp stamped) = snd_una (tp k) /\ snd_wnd (tp stamped) = snd_wnd (tp k) /\
  rcv_nxt (tp stamped) = rcv_nxt (tp k) /\ seg_q (tp stamped) = [].
Proof.
  pose proof pred_state. pose proof (ds_empty _ _ Hd). unfold stamped, record_ts.
  destruct (i_ts l) as [[? ?]|]; [destruct (_ && _)|]; by rec_simpl.
Qed.

Lemma needoutput_id (l0 : ilocals) : l0 <| i_needoutput := i_needoutput l0 |> = l0.
Proof. by destruct l0. Qed.

(** The segment updates the send window, by the test of RFC 793: it is newer than the one
    that did last. *)
Definition updates : bool :=
  SEQ_LT (snd_wl1 (tp k)) (ti_seq (i_ti l)) || ((snd_wl1 (tp k) =? ti_seq (i_ti l)) && SEQ_LT (snd_wl2 (tp k)) (ti_ack (i_ti l))).
(** The general path replies at once: to a window update, or because an ACK is due. *)
Definition replies : bool := i_needoutput l || updates || tf k TF_ACKNOW.

Lemma step6_test kk x y : snd_wl1 (tp kk) = x -> snd_wl2 (tp kk) = y -> fl nohdr TH_ACK = true -> i_tiwin nohdr = snd_wnd (tp kk) ->
  fl nohdr TH_ACK && (SEQ_LT (snd_wl1 (tp kk)) (ti_seq (i_ti nohdr)) || ((snd_wl1 (tp kk) =? ti_seq (i_ti nohdr)) &&
    (SEQ_LT (snd_wl2 (tp kk)) (ti_ack (i_ti nohdr)) || ((snd_wl2 (tp kk) =? ti_ack (i_ti nohdr)) && (i_tiwin nohdr >? snd_wnd (tp kk)))))) =
  SEQ_LT x (ti_seq (i_ti l)) || ((x =? ti_seq (i_ti l)) && SEQ_LT y (ti_ack (i_ti l))).
Proof.
  intros -> -> -> ->. rewrite Z.gtb_ltb, Z.ltb_irrefl, andb_false_r, orb_false_r. done.
Qed.

(** ACK processing: no ACK of new data, and a window update at most. *)
Lemma slow_ack w d z u : exists x' y' z' u',
  (input_synrcvd ;;; input_ack e ;;; input_step6 ;;; input_urg) (touch w d (snd_wl1 (tp k)) (snd_wl2 (tp k)) z u stamped) nohdr =
  Ret (Next (touch w 0 x' y' z' u' stamped) (nohdr <| i_needoutput := i_needoutput l || updates |>)).
Proof.
  destruct stamped_eq as (St & Un & Wn & _). destruct (predicted_flags _ _ (ds_pred _ _ Hd)) as (F1 & F2 & F3 & F4 & F5).
  pose proof (ds_ack _ _ Hd) as Ha. pose proof (ds_len _ _ Hd) as Hl. pose proof pred_win as Hw. set (x := snd_wl1 (tp k)). set (y := snd_wl2 (tp k)).
  generalize dependent stamped. intros kk St Un Wn. unfold seq_stage.
  destruct (touch_proj kk w d x y z u) as (P1 & P2 & _).
  assert (E1 : input_synrcvd (touch w d x y z u kk) nohdr = Ret (Next (touch w d x y z u kk) nohdr)).
  { unfold input_synrcvd. by rewrite P1, St. }
  rewrite E1. cbn [obind].
  assert (E2 : input_ack e (touch w d x y z u kk) nohdr = Ret (Next (touch w 0 x y z u kk) nohdr)).
  { unfold input_ack, dup_ack. change (i_ti nohdr) with (i_ti l). rewrite P2, Ha, Un. unfold SEQ_LEQ. rewrite Z.sub_diag.
    destruct (Z.eqb_spec (ti_len (i_ti l)) 0); [lia|]. cbn [andb obind]. by rewrite touch_dupacks. }
  rewrite E2. cbn [obind].
  assert (E3 : exists x' y' z', input_step6 (touch w 0 x y z u kk) nohdr =
    Ret (Next (touch w 0 x' y' z' u kk) (nohdr <| i_needoutput := i_needoutput l || updates |>))).
  { unfold input_step6. destruct (touch_proj kk w 0 x y z u) as (_ & _ & P3 & _).
    rewrite (step6_test _ x y); [|done|done|done|rewrite P3, Wn; exact Hw].
    change (SEQ_LT x _ || _) with updates. destruct updates.
    - assert (El : i_tiwin nohdr = snd_wnd (tp kk)) by (rewrite Wn; exact Hw). rewrite El, touch_step6, orb_true_r.
      destruct (_ >? _); [rewrite touch_maxwnd|]; eexists _, _, _; reflexivity.
    - exists x, y, z. rewrite orb_false_r. change (i_needoutput l) with (i_needoutput nohdr). by rewrite needoutput_id. }
  destruct E3 as (x' & y' & z' & ->). cbn [obind]. unfold input_urg. set (b := i_needoutput l || updates).
  change (fl (nohdr <| i_needoutput := b |>)) with (fl l). rewrite F4. cbn [andb].
  exists x', y', z'. destruct (SEQ_GT _ _); [rewrite touch_up|]; eexists _; reflexivity.
Qed.

(** The text: TCP_REASS takes its short way, like the prediction. *)
Definition data_result : kst := match predict_data stamped l with Goto _ r _ | Next r _ => r end.

Lemma slow_text w x y z u b : exists l2, i_needoutput l2 = b /\
  (input_data ;;; input_fin) (touch w 0 x y z u stamped) (nohdr <| i_needoutput := b |>) =
  Ret (Next (touch w 0 x y z u data_result) l2).
Proof.
  destruct stamped_eq as (St & Un & Wn & Rn & Sq). destruct (predicted_flags _ _ (ds_pred _ _ Hd)) as (F1 & F2 & F3 & F4 & F5).
  pose proof (ds_len _ _ Hd) as Hl. pose proof pred_seq as Hs. pose proof (ds_flags _ _ Hd) as Hf.
  unfold data_result, predict_data. generalize dependent stamped. intros kk St Un Wn Rn Sq. unfold seq_stage, input_data.
  set (l2 := nohdr <| i_needoutput := b |>).
  change (i_ti l2) with (i_ti l). change (i_m l2) with (drop_headers l). change (fl l2) with (fl l).
  destruct (touch_proj kk w 0 x y z u) as (P1 & _ & _ & P4 & P5 & _ & _ & _ & P9 & P10).
  rewrite P1, St. destruct (Z.eqb_spec (ti_len (i_ti l)) 0); [lia|]. cbn [negb orb andb].
  change (TCPS_HAVERCVDFIN TCPS_ESTABLISHED) with false. cbn [negb]. unfold TCP_REASS.
  rewrite P1, P4, P5, St, Sq, Hs, Rn, Z.eqb_refl. change (bool_decide (length (@nil seg) = 0%nat)) with true.
  change (st_eqb TCPS_ESTABLISHED TCPS_ESTABLISHED) with true. cbn [andb].
  assert (Ep : forall f n k0, pool ((tf_set f k0) <t| rcv_nxt := n |>) = pool k0 /\ so ((tf_set f k0) <t| rcv_nxt := n |>) = so k0 /\
    pool (k0 <t| rcv_nxt := n |>) = pool k0 /\ so (k0 <t| rcv_nxt := n |>) = so k0) by (intros; unfold tf_set; by rec_simpl).
  set (n' := u32 (rcv_nxt (tp k) + ti_len (i_ti l))).
  destruct (Ep TF_DELACK n' (touch w 0 x y z u kk)) as (-> & -> & _). destruct (Ep 0 n' kk) as (_ & _ & -> & ->). rewrite P9, P10.
  destruct (sbappend (pool kk) (so_rcv (so kk)) (drop_headers l)) as [p sb]. cbn [obind].
  assert (Efin : fl (l2 <| i_tiflags := Z.land (ti_flags (i_ti l)) TH_FIN |>) TH_FIN = false).
  { unfold fl in *. rec_simpl. rewrite <- Hf. unfold hasf in *. by rewrite <- Z.land_assoc, Z.land_diag. }
  unfold input_fin. rewrite Efin. eexists. rewrite !touch_so.
  assert (Eso : forall f k0, so ((tf_set f k0) <t| rcv_nxt := n' |> <| pool := p |> <s| so_rcv := sb |>) = (so k0) <| so_rcv := sb |> /\
    so (k0 <t| rcv_nxt := n' |> <| pool := p |> <s| so_rcv := sb |>) = (so k0) <| so_rcv := sb |>) by (intros; unfold tf_set; by rec_simpl).
  destruct (Eso TF_DELACK (touch w 0 x y z u kk)) as [-> _]. destruct (Eso 0 kk) as [_ ->].
  rewrite touch_text, P10. split; [|reflexivity]. done.
Qed.

Lemma result_acknow w d x y z u : tf (touch w d x y z u data_result) TF_ACKNOW = tf k TF_ACKNOW.
Proof.
  unfold data_result, predict_data. destruct (sbappend _ _ _) as [p sb]. unfold touch, tf, tf_set. rec_simpl. rewrite hasf_setb.
  change (hasf TF_DELACK TF_ACKNOW) with false. rewrite orb_false_r. unfold stamped, record_ts.
  destruct (i_ts l) as [[? ?]|]; [destruct (_ && _)|]; by rec_simpl.
Qed.

Lemma result_delack : tf data_result TF_DELACK = true.
Proof.
  unfold data_result, predict_data. destruct (sbappend _ _ _) as [p sb]. unfold tf, tf_set. rec_simpl. rewrite hasf_setb.
  change (hasf TF_DELACK TF_DELACK) with true. apply orb_true_r.
Qed.

Lemma general_path : exists w x y z u l2, (input_window ;;; input_state e) k l =
  if replies then let! (k', _) := tcp_output (ie_net e) (touch w 0 x y z u data_result) in Ret (Goto L_return k' l2)
  else Ret (Goto L_return (touch w 0 x y z u data_result) l2).
Proof.
  destruct slow_window as (w & Ew & Hw).
  destruct (slow_ack w (t_dupacks (tp k)) (max_sndwnd (tp k)) (rcv_up (tp k))) as (x & y & z & u & Ea).
  destruct (slow_text w x y z u (i_needoutput l || updates)) as (l2 & Hn & Et). exists w, x, y, z, u, l2.
  rewrite (seq_next _ _ _ _ _ _ Ew). unfold input_state. change (t_state (tp (windowed w))) with (t_state (tp k)). rewrite pred_state.
  unfold input_general, after_step6. rewrite (seq_next _ _ _ _ _ _ (slow_checks w Hw)).
  unfold windowed. rewrite touch_wnd, record_ts_touch by done. fold stamped.
  rewrite (seq_assoc4 input_synrcvd (input_ack e) input_step6 input_urg (input_data ;;; input_fin ;;; input_reply e)).
  rewrite (seq_next _ _ _ _ _ _ Ea), seq_assoc, (seq_next _ _ _ _ _ _ Et). unfold input_reply. by rewrite Hn, result_acknow.
Qed.

Lemma fast_path_ok : input_predict e k l = Ret (Goto L_return data_result l).
Proof.
  destruct stamped_eq as (_ & Un & _ & _ & Sq). unfold input_predict. rewrite (ds_pred _ _ Hd). cbv zeta. fold stamped.
  assert (Eso : so stamped = so k).
  { unfold stamped, record_ts. destruct (i_ts l) as [[? ?]|]; [destruct (_ && _)|]; by rec_simpl. }
  pose proof (ds_len _ _ Hd). pose proof (ds_space _ _ Hd).
  destruct (Z.eqb_spec (ti_len (i_ti l)) 0); [lia|].
  rewrite Un, Sq, Eso, (ds_ack _ _ Hd), Z.eqb_refl, (proj2 (Z.leb_le _ _)) by lia. cbn [andb length].
  change (bool_decide (0%nat = 0%nat)) with true. cbn [andb]. unfold data_result, predict_data. by destruct (sbappend _ _ _).
Qed.

End Slow.

(** C22: header prediction is an optimisation.  For an in-order data segment that the fast
    path takes, let r be the connection it leaves (data appended, rcv_nxt and the recent timestamp
    moved, an ACK delayed, the reader woken) before it returns.  The general path of tcp_input on
    the same segment (window, trimming, ACK processing, window update, reassembly, FIN, reply)
    gets to the same connection, but for the bookkeeping fields rcv_wnd, t_dupacks, snd_wl1,
    snd_wl2, max_sndwnd and rcv_up, and then replies: it calls tcp_output on it when the segment
    is newer than the last window update, or when an ACK was due, and returns it as it is
    otherwise.  The two paths so differ in those fields and in the time of the reply,
    which header prediction leaves to the delayed ACK. *)
Theorem header_prediction_sound e k l (Hd : data_segment k l) :
  exists r w x y z u l', input_predict e k l = Ret (Goto L_return r l) /\
    tf r TF_DELACK = true /\
    (input_window ;;; input_state e) k l =
      (if i_needoutput l || updates k l || tf k TF_ACKNOW
       then let! (k', _) := tcp_output (ie_net e) (touch w 0 x y z u r) in Ret (Goto L_return k' l')
       else Ret (Goto L_return (touch w 0 x y z u r) l')).
Proof.
  destruct (general_path e k l Hd) as (w & x & y & z & u & l' & Hs).
  exists (data_result k l), w, x, y, z, u, l'. split; [by apply fast_path_ok|]. split; [apply result_delack|exact Hs].
Qed.

Import Sample.

(** The segment is newer than the last window update of the sample connection. *)
Definition seg3 : ilocals := seg_in 5000 1000 TH_ACK [1; 2; 3].

Lemma header_prediction_witness :
  updates (k0 []) seg3 = true /\
  exists r w x y z u l', input_predict ie0 (k0 []) seg3 = Ret (Goto L_return r seg3) /\ tf r TF_DELACK = true /\
    (input_window ;;; input_state ie0) (k0 []) seg3 =
      (if i_needoutput seg3 || updates (k0 []) seg3 || tf (k0 []) TF_ACKNOW
       then let! (k', _) := tcp_output (ie_net ie0) (touch w 0 x y z u r) in Ret (Goto L_return k' l')
       else Ret (Goto L_return (touch w 0 x y z u r) l')).
Proof.
  split; [reflexivity|]. apply (header_prediction_sound ie0 (k0 []) seg3). split; vm_compute; intuition congruence.
Defined.

End TcpPredict.
