(* ===== verification/TcpDeliver.v ===== *)
(** The whole of tcp_input on the data segments of a peer: from the arrival of a segment on
    an established connection through the options, header prediction or the general path,
    to the reply.

    [taking] is the state of a connection that takes in the stream [str] of its peer: what it
    has taken in is in the receive buffer or queued, up to the position [hi0] that it
    advertised at the start, while its own send side keeps the invariant of TcpOutputOk. *)
From S2P Require Import Prelude TcpSeq Mbuf SockBuf Socket TcpVar Sample TcpHdr TcpSubr TcpReass TcpOutput TcpOutputOk TcpAdv TcpInput TcpInputOk TcpStream TcpFsm TcpPredict.
Import TcpSeq Mbuf SockBuf Socket TcpVar TcpHdr TcpSubr TcpReass TcpOutput TcpOutputOk TcpAdv TcpInput TcpInputOk TcpStream TcpFsm TcpPredict.

Module TcpDeliver.
#[local] Open Scope stage_scope.

(** A segment on a connection, from its arrival to the end of tcp_input; [e'] is the
    environment at the labels. *)
Definition segment (e e' : ienv) (k : kst) (l : ilocals) : outcome (kst + (kst * ilocals)) :=
  let! r := input_segment e k l in input_end e' r.

Section Deliver.
Context (str : Z -> Z) (eos n0 hi0 hiwat una : Z) (inp0 : inpcb).
Context (Heos : hi0 < eos) (Hhi0 : hi0 - n0 < 268435456) (Hhiwat : 0 <= hiwat < 536870912).

(** The connection stands at [n] of the peer's stream, has queued [g] and has advertised
    the window up to [hi]; [rec] is its recent timestamp. *)
Record taking (k : kst) (n hi : Z) (g : list (Z * seg)) (nxt mx rec : Z) : Prop := {
  ta_at : rcv_at str eos k n hi0 g;
  ta_low : n0 <= n;
  ta_adv : rcv_adv (tp k) = u32 hi;
  ta_hi : hi0 <= hi <= hi0 + hiwat;
  ta_est : t_state (tp k) = TCPS_ESTABLISHED;
  ta_more : hasf (so_state (so k)) SS_CANTRCVMORE = false;
  ta_hiwat : sb_hiwat (so_rcv (so k)) = hiwat;
  ta_len : zlen (sb_bytes (so_rcv (so k))) + (hi0 - n) < 536870912;
  ta_snd : snd_ok k una nxt mx;
  ta_scale : 0 <= snd_scale (tp k) <= 14;
  ta_ts : ts_recent (tp k) = rec;
  ta_live : gone k = false;
  ta_inp : inp k = inp0;
  ta_opts : hasf (so_options (so k)) SO_ACCEPTCONN = false
}.

(** A data segment of the peer at position [a] of its stream: without SYN, FIN, RST and URG, with an
    ACK of nothing new, and with no options or a timestamp that is not older than [rec]. *)
Record incoming (a rec : Z) (l : ilocals) : Prop := {
  ic_seg : genuine str eos a (seg_of_l (l <| i_m := drop_headers l |>));
  ic_len : 0 < ti_len (i_ti l);
  ic_lo : n0 - 268435456 <= a;
  ic_hi : a + ti_len (i_ti l) <= hi0;
  ic_flags : i_tiflags l = ti_flags (i_ti l);
  ic_plain : fl l TH_SYN = false /\ fl l TH_FIN = false /\ fl l TH_RST = false /\ fl l TH_URG = false;
  ic_isack : fl l TH_ACK = true;
  ic_ack : SEQ_LEQ (ti_ack (i_ti l)) (u32 una) = true;
  ic_opt : i_optp l = None;
  ic_win : 0 <= i_tiwin l < 2147483648;
  ic_ts : match i_ts l with Some (v, _) => TSTMP_GEQ v rec = true | None => True end
}.

Lemma taking_le k n hi g nxt mx rec : taking k n hi g nxt mx rec -> n <= hi0.
Proof. intros H. exact (in_order_le _ _ _ _ _ (ra_order _ _ _ _ _ _ (ta_at _ _ _ _ _ _ _ H))). Qed.

Lemma taking_space k n hi g nxt mx rec : taking k n hi g nxt mx rec -> sbspace (so_rcv (so k)) <= hiwat.
Proof.
  intros H. pose proof (ta_len _ _ _ _ _ _ _ H). pose proof (taking_le _ _ _ _ _ _ _ H).
  unfold sbspace. rewrite (inv_cc _ (ra_sb _ _ _ _ _ _ (ta_at _ _ _ _ _ _ _ H))), (ta_hiwat _ _ _ _ _ _ _ H), u32_id by (zlen_pose; lia).
  zlen_pose. rewrite (s32_id (hiwat - _)) by lia. unfold imin. rewrite (s32_id (hiwat - zlen _)) by lia. case_match; lia.
Qed.

Lemma taking_window k n hi g nxt mx rec : taking k n hi g nxt mx rec -> window_at k n hi (hi0 + hiwat).
Proof.
  intros H. pose proof (taking_le _ _ _ _ _ _ _ H). pose proof (taking_space _ _ _ _ _ _ _ H). pose proof (ta_low _ _ _ _ _ _ _ H).
  pose proof (ta_hi _ _ _ _ _ _ _ H). split; [apply (ta_at _ _ _ _ _ _ _ H)|apply (ta_adv _ _ _ _ _ _ _ H)|lia..].
Qed.

(** ** Steps that leave alone what the invariant reads *)

Definition untouched (k k' : kst) : Prop :=
  so k' = so k /\ max_linkhdr (glob k') = max_linkhdr (glob k) /\ inp k' = inp k /\ gone k' = gone k /\ seg_q (tp k') = seg_q (tp k) /\
  rcv_nxt (tp k') = rcv_nxt (tp k) /\ rcv_adv (tp k') = rcv_adv (tp k) /\ t_state (tp k') = t_state (tp k) /\
  snd_una (tp k') = snd_una (tp k) /\ snd_nxt (tp k') = snd_nxt (tp k) /\ snd_max (tp k') = snd_max (tp k) /\
  snd_cwnd (tp k') = snd_cwnd (tp k) /\ t_maxseg (tp k') = t_maxseg (tp k) /\ t_template (tp k') = t_template (tp k) /\
  snd_scale (tp k') = snd_scale (tp k) /\ tf k' TF_SENTFIN = tf k TF_SENTFIN.

Lemma taking_untouched k k' n hi g nxt mx rec :
  taking k n hi g nxt mx rec -> untouched k k' -> 0 <= snd_wnd (tp k') < 2147483648 -> taking k' n hi g nxt mx (ts_recent (tp k')).
Proof.
  intros [[A1 A2 A3 A4 A5] H1 H2 H3 H4 H5 H6 H7 H8 H9 H10 H11 H12 H13] (U1 & U2 & U3 & U4 & U5 & U6 & U7 & U8 & U9 & U10 & U11 & U12 & U13 & U14 & U15 & U16) Hw.
  split; rewrite ?U1, ?U3, ?U4, ?U7, ?U8, ?U15; try done.
  - split; rewrite ?U1, ?U5, ?U6; done.
  - destruct H8. split; unfold cc in *; rewrite ?U1, ?U2, ?U6, ?U8, ?U9, ?U10, ?U11, ?U12, ?U13, ?U14, ?U16; try done. split; [done|apply sk_wnd0].
Qed.
Lemma taking_same k k' n hi g nxt mx rec :
  taking k n hi g nxt mx rec -> untouched k k' -> snd_wnd (tp k') = snd_wnd (tp k) -> ts_recent (tp k') = ts_recent (tp k) ->
  taking k' n hi g nxt mx rec.
Proof.
  intros Hk Hu Hw Ht. rewrite <- (ta_ts _ _ _ _ _ _ _ Hk), <- Ht. eapply taking_untouched; [exact Hk|done|]. rewrite Hw. apply (sk_wnd _ _ _ _ (ta_snd _ _ _ _ _ _ _ Hk)).
Qed.

Lemma taking_ack k n hi g nxt mx rec : taking k n hi g nxt mx rec -> taking (tf_set TF_ACKNOW k) n hi g nxt mx rec.
Proof.
  intros Hk. eapply taking_same; [exact Hk| |by unfold tf_set; rec_simpl..]. unfold untouched, tf_set, tf. rec_simpl. rewrite hasf_setb.
  change (hasf TF_ACKNOW TF_SENTFIN) with false. by rewrite orb_false_r.
Qed.
Lemma taking_pool k n hi g nxt mx rec p : taking k n hi g nxt mx rec -> taking (k <| pool := p |>) n hi g nxt mx rec.
Proof. intros Hk. by eapply taking_same. Qed.

(** The recorded timestamp is the old one or the segment's. *)
Lemma taking_record k n hi g nxt mx rec l edge : taking k n hi g nxt mx rec ->
  exists rec', taking (record_ts k l edge) n hi g nxt mx rec' /\ (rec' = rec \/ exists v w, i_ts l = Some (v, w) /\ rec' = v).
Proof.
  intros Hk. unfold record_ts. destruct (i_ts l) as [[v w]|]; [|by exists rec; auto]. destruct (_ && _); [|by exists rec; auto].
  exists v. split; [|right; by exists v, w]. replace v with (ts_recent (tp (k <t| ts_recent_age := tcp_now (glob k) |> <t| ts_recent := v |>))) at 2 by (by rec_simpl).
  eapply taking_untouched; [exact Hk|unfold untouched, tf; by rec_simpl|rec_simpl; apply (sk_wnd _ _ _ _ (ta_snd _ _ _ _ _ _ _ Hk))].
Qed.

(** ** The reply *)

Lemma taking_output net k n hi g nxt mx rec : taking k n hi g nxt mx rec ->
  exists k' err hi' nxt' mx', tcp_output net k = Ret (k', err) /\ taking k' n hi' g nxt' mx' rec /\ so k' = so k.
Proof.
  intros Hk. destruct (tcp_output_window net k una nxt mx n hi (hi0 + hiwat) (ta_snd _ _ _ _ _ _ _ Hk)) as (k' & err & nxt' & mx' & hi' & E & Hs & St & [W L Q S T I O]).
  { rewrite (ta_est _ _ _ _ _ _ _ Hk). by vm_compute. } { by eapply taking_window. }
  exists k', err, hi', nxt', mx'. split; [done|]. split; [|done]. pose proof (tcp_output_keep _ _ _ _ E) as [_ G].
  destruct Hk as [[A1 A2 A3 A4 A5] H1 H2 H3 H4 H5 H6 H7 H8 H9 H10 H11 H12 H13]. destruct W as [W1 W2 W3 _ _].
  split; rewrite ?O, ?S, ?T, ?I, ?G, ?St; try done; [|lia]. split; rewrite ?O, ?Q; done.
Qed.

(** ** The text *)

(** What the segment at [a .. a+len) does: the bytes from [n] to [n'] are delivered, and the positions
    held are those held before and those of the segment. *)
Definition delivered (k k' : kst) (n n' : Z) (g g' : list (Z * seg)) (a len : Z) : Prop :=
  n <= n' /\ sb_bytes (so_rcv (so k')) = sb_bytes (so_rcv (so k)) ++ bytes_at str n (n' - n) /\
  (forall z, n0 <= z -> (held n0 n g z \/ a <= z < a + len <-> held n0 n' g' z)).

Lemma delivered_nothing k k' n g a len : so k' = so k -> a + len <= n -> delivered k k' n n g g a len.
Proof.
  intros Hso Ha. unfold delivered. rewrite Hso, Z.sub_diag, app_nil_r. split_and!; try done; try lia. intros z Hz. unfold held. intuition lia.
Qed.

(** What TCP_REASS leaves alone of the send side. *)
Definition sside (k k' : kst) : Prop :=
  so_snd (so k') = so_snd (so k) /\ glob k' = glob k /\ inp k' = inp k /\ snd_una (tp k') = snd_una (tp k) /\ snd_nxt (tp k') = snd_nxt (tp k) /\
  snd_max (tp k') = snd_max (tp k) /\ snd_wnd (tp k') = snd_wnd (tp k) /\ snd_cwnd (tp k') = snd_cwnd (tp k) /\ t_maxseg (tp k') = t_maxseg (tp k) /\
  t_template (tp k') = t_template (tp k) /\ snd_scale (tp k') = snd_scale (tp k) /\ ts_recent (tp k') = ts_recent (tp k) /\
  tf k' TF_SENTFIN = tf k TF_SENTFIN /\ so_options (so k') = so_options (so k).

Lemma sside_trans k1 k2 k3 : sside k1 k2 -> sside k2 k3 -> sside k1 k3.
Proof.
  intros (A1 & A2 & A3 & A4 & A5 & A6 & A7 & A8 & A9 & A10 & A11 & A12 & A13 & A14) (B1 & B2 & B3 & B4 & B5 & B6 & B7 & B8 & B9 & B10 & B11 & B12 & B13 & B14).
  split; [by rewrite B1|]. split; [by rewrite B2|]. split; [by rewrite B3|]. split; [by rewrite B4|]. split; [by rewrite B5|]. split; [by rewrite B6|].
  split; [by rewrite B7|]. split; [by rewrite B8|]. split; [by rewrite B9|]. split; [by rewrite B10|]. split; [by rewrite B11|]. split; [by rewrite B12|]. split; [by rewrite B13|by rewrite B14].
Qed.
Lemma sside_flag f k : hasf f TF_SENTFIN = false -> sside k (tf_set f k).
Proof. intros Hf. unfold sside, tf_set, tf. rec_simpl. rewrite hasf_setb, Hf. by rewrite orb_false_r. Qed.

Lemma reass_deliver_snd q : forall p s n f,
  so_snd (reass_deliver p s n f q).1.1.1.2 = so_snd s /\ so_options (reass_deliver p s n f q).1.1.1.2 = so_options s.
Proof.
  induction q as [|x q IH]; intros p s n f; [done|]. cbn [reass_deliver]. destruct (_ =? n); [|done].
  destruct (hasf _ _); [apply IH|]. destruct (sbappend _ _ _) as [p' sb].
  destruct (IH p' (s <| so_rcv := sb |>) (u32 (n + ti_len (sg_ti x))) (Z.land (ti_flags (sg_ti x)) TH_FIN)) as [H1 H2]. rewrite H1, H2. by rec_simpl.
Qed.
Lemma reass_present_sside k : sside k (reass_present k).1.
Proof.
  unfold reass_present. destruct (negb _); [done|]. destruct (seg_q (tp k)) as [|x q]; [done|].
  destruct (negb _); [done|]. destruct (_ && _); [done|].
  pose proof (reass_deliver_snd (x :: q) (pool k) (so k) (rcv_nxt (tp k)) 0) as Hs.
  destruct (reass_deliver _ _ _ _ _) as [[[[p s] n] f] q']. cbn [fst snd] in *. destruct Hs as [Hs1 Hs2]. unfold sside, sorwakeup, wake, tf. by rec_simpl.
Qed.
Lemma TCP_REASS_sside k ti m : sside k (TCP_REASS k ti m).1.
Proof.
  unfold TCP_REASS. cbv zeta. destruct (_ && _).
  - destruct (sbappend _ _ _). cbn [fst]. unfold sside, tf_set, sorwakeup, wake, tf. rec_simpl. rewrite hasf_setb.
    change (hasf TF_DELACK TF_SENTFIN) with false. by rewrite orb_false_r.
  - assert (H : sside k (tcp_reass k (Some (mkSeg ti m))).1).
    { unfold tcp_reass. destruct (reass_insert _ _ _) as [p [q|]]; [|done].
      eapply sside_trans; [|apply reass_present_sside]. unfold sside, tf. by rec_simpl. }
    destruct (tcp_reass _ _) as [k1 f]. cbn [fst] in *. eapply sside_trans; [exact H|by apply sside_flag].
Qed.


Lemma snd_ok_sside k k' nxt mx : snd_ok k una nxt mx -> sside k k' -> t_state (tp k') = t_state (tp k) -> 0 <= rcv_nxt (tp k') < 4294967296 -> snd_ok k' una nxt mx.
Proof.
  intros [] (S1 & S2 & S3 & S4 & S5 & S6 & S7 & S8 & S9 & S10 & S11 & S12 & S13 & _) St Hr.
  split; unfold cc in *; rewrite ?S1, ?S2, ?S4, ?S5, ?S6, ?S7, ?S8, ?S9, ?S10, ?S13, ?St; done.
Qed.

Lemma taking_reass k n hi g nxt mx rec a ti m k' flags : taking k n hi g nxt mx rec ->
  genuine str eos a (mkSeg ti m) -> n <= a -> a + ti_len ti <= hi0 -> TCP_REASS k ti m = (k', flags) ->
  exists n' g', taking k' n' hi g' nxt mx rec /\ delivered k k' n n' g g' a (ti_len ti) /\ hasf flags TH_FIN = false.
Proof.
  intros Hk Hg Ha He E. pose proof (taking_le _ _ _ _ _ _ _ Hk) as Hle. pose proof (ta_low _ _ _ _ _ _ _ Hk) as Hlow.
  pose proof (TCP_REASS_sside k ti m) as Hs. pose proof (TCP_REASS_keep k ti m) as [_ Hgone]. rewrite E in Hs, Hgone. cbn [fst] in *.
  apply (TCP_REASS_took str eos k n hi0 g a) in E as (n' & g' & [T1 T2 T3 T4 T5 (S1 & S2 & S3 & S4)]); try done;
    [|apply Hk|by rewrite (ta_est _ _ _ _ _ _ _ Hk)|apply (ta_more _ _ _ _ _ _ _ Hk)|lia].
  pose proof (in_order_le _ _ _ _ _ (ra_order _ _ _ _ _ _ T1)) as Hn'. pose proof (ta_len _ _ _ _ _ _ _ Hk) as Hlen.
  exists n', g'. split_and!.
  - destruct Hk as [_ H1 H2 H3 H4 H5 H6 H7 H8 H9 H10 H11 H12 H13].
    split; rewrite ?S1, ?S2, ?S3, ?S4, ?Hgone; try done; try lia.
    + rewrite T3, zlen_app, bytes_at_len by lia. lia.
    + apply (snd_ok_sside k); try done. rewrite (ra_nxt _ _ _ _ _ _ T1). apply u32_range.
    + by destruct Hs as (_ & _ & _ & _ & _ & _ & _ & _ & _ & _ & -> & _).
    + by destruct Hs as (_ & _ & _ & _ & _ & _ & _ & _ & _ & _ & _ & -> & _).
    + by destruct Hs as (_ & _ & -> & _).
    + by destruct Hs as (_ & _ & _ & _ & _ & _ & _ & _ & _ & _ & _ & _ & _ & ->).
  - split_and!; try done. intros z Hz. specialize (T4 z). unfold held. destruct (Z.lt_ge_cases z n); [|intuition lia].
    split; intros _; left; lia.
  - destruct (hasf flags TH_FIN); [|done]. specialize (T5 eq_refl). lia.
Qed.

Lemma taking_data k n hi g nxt mx rec l a : taking k n hi g nxt mx rec ->
  genuine str eos a (seg_of_l l) -> n <= a -> a + ti_len (i_ti l) <= hi0 -> 0 < ti_len (i_ti l) ->
  exists k' l' n' g', input_data k l = Ret (Next k' l') /\ taking k' n' hi g' nxt mx rec /\ delivered k k' n n' g g' a (ti_len (i_ti l)) /\ fl l' TH_FIN = false.
Proof.
  intros Hk Hg Ha He Hl. unfold input_data. rewrite (ta_est _ _ _ _ _ _ _ Hk), (proj2 (Z.eqb_neq (ti_len (i_ti l)) 0)) by lia.
  change (TCPS_HAVERCVDFIN TCPS_ESTABLISHED) with false. cbn [negb orb andb].
  destruct (TCP_REASS k (i_ti l) (i_m l)) as [k' flags] eqn:E.
  destruct (taking_reass _ _ _ _ _ _ _ a _ _ _ _ Hk Hg Ha He E) as (n' & g' & H1 & H2 & H3).
  eexists k', _, n', g'. split; [reflexivity|]. by split_and!.
Qed.

(** ** Header prediction *)

(** The fast path does what TCP_REASS does. *)
Lemma predict_data_reass k l : ti_seq (i_ti l) = rcv_nxt (tp k) -> seg_q (tp k) = [] -> t_state (tp k) = TCPS_ESTABLISHED ->
  predict_data k l = Goto L_return (TCP_REASS k (i_ti l) (drop_headers l)).1 l.
Proof.
  intros Hs Hq He. unfold TCP_REASS, predict_data. rewrite Hs, Z.eqb_refl, Hq, He. change (bool_decide (length (@nil seg) = 0%nat)) with true.
  change (st_eqb TCPS_ESTABLISHED TCPS_ESTABLISHED) with true. cbn [andb].
  set (nn := u32 (rcv_nxt (tp k) + ti_len (i_ti l))).
  assert (E : pool ((tf_set TF_DELACK k) <t| rcv_nxt := nn |>) = pool k /\ so ((tf_set TF_DELACK k) <t| rcv_nxt := nn |>) = so k /\
    pool (k <t| rcv_nxt := nn |>) = pool k /\ so (k <t| rcv_nxt := nn |>) = so k) by (unfold tf_set; by rec_simpl).
  destruct E as (-> & -> & -> & ->). destruct (sbappend (pool k) (so_rcv (so k)) (drop_headers l)) as [p sb]. cbn [fst]. reflexivity.
Qed.

(** Header prediction takes the segment, or passes it on. *)
Lemma taking_predict e k n hi g nxt mx rec l a : taking k n hi g nxt mx rec -> incoming a rec l ->
  (exists k' n' g' rec', input_predict e k l = Ret (Goto L_return k' l) /\ taking k' n' hi g' nxt mx rec' /\ delivered k k' n n' g g' a (ti_len (i_ti l)) /\
     (rec' = rec \/ exists v w, i_ts l = Some (v, w) /\ rec' = v)) \/
  (exists k' rec', input_predict e k l = Ret (Next k' l) /\ taking k' n hi g nxt mx rec' /\ so k' = so k /\
     (rec' = rec \/ exists v w, i_ts l = Some (v, w) /\ rec' = v)).
Proof.
  intros Hk Hl. unfold input_predict. destruct (predicted k l) eqn:Ep; [|right; exists k, rec; by auto]. cbv zeta.
  destruct (taking_record k n hi g nxt mx rec l (ti_seq (i_ti l) + ti_len (i_ti l)) Hk) as (rec1 & Hk1 & Hr1).
  assert (Hso : so (record_ts k l (ti_seq (i_ti l) + ti_len (i_ti l))) = so k /\ rcv_nxt (tp (record_ts k l (ti_seq (i_ti l) + ti_len (i_ti l)))) = rcv_nxt (tp k)).
  { unfold record_ts. destruct (i_ts l) as [[? ?]|]; [destruct (_ && _)|]; by rec_simpl. }
  set (k1 := record_ts k l _) in *. clearbody k1. destruct Hso as [Hso Hnx]. pose proof (ic_len _ _ _ Hl) as Hlen. destruct (Z.eqb_spec (ti_len (i_ti l)) 0); [lia|].
  destruct (_ && _) eqn:Et; [|right; exists k1, rec1; by split_and!]. left.
  rewrite !andb_true_iff in Et. destruct Et as [[_ Eq%bool_decide_eq_true] _]. pose proof (ta_at _ _ _ _ _ _ _ Hk1) as Hat.
  assert (Eg : g = []) by (rewrite (ra_q _ _ _ _ _ _ Hat) in Eq; by destruct g).
  assert (Hseq : ti_seq (i_ti l) = rcv_nxt (tp k1)).
  { unfold predicted in Ep. rewrite !andb_true_iff in Ep. destruct Ep as [[[[_ H] _] _] _]. rewrite Hnx. by apply Z.eqb_eq in H. }
  rewrite predict_data_reass; [|done|by rewrite (ra_q _ _ _ _ _ _ Hat), Eg|apply (ta_est _ _ _ _ _ _ _ Hk1)].
  destruct (TCP_REASS k1 (i_ti l) (drop_headers l)) as [k' flags] eqn:E. cbn [fst].
  pose proof (gn_seq _ _ _ _ (ic_seg _ _ _ Hl)) as Hsq. cbn [seg_of_l sg_ti] in Hsq. rec_simpl_in Hsq.
  pose proof (taking_le _ _ _ _ _ _ _ Hk). pose proof (ta_low _ _ _ _ _ _ _ Hk). pose proof (ic_lo _ _ _ Hl). pose proof (ic_hi _ _ _ Hl).
  assert (Ea : a = n) by (rewrite Hsq, (ra_nxt _ _ _ _ _ _ Hat) in Hseq; wrap_lia).
  destruct (taking_reass _ _ _ _ _ _ _ a _ _ _ _ Hk1 (ic_seg _ _ _ Hl) ltac:(lia) (ic_hi _ _ _ Hl) E) as (n' & g' & D1 & (D2 & D3 & D4) & _).
  exists k', n', g', rec1. split_and!; try done. split_and!; [done|by rewrite <- Hso|done].
Qed.

(** ** The general path *)

(** The segment behind the left edge: it starts at [a], at or after rcv_nxt. *)
Record trimmed (n a rec : Z) (l : ilocals) : Prop := {
  tr_seg : genuine str eos a (seg_of_l l);
  tr_len : 0 < ti_len (i_ti l);
  tr_lo : n <= a;
  tr_hi : a + ti_len (i_ti l) <= hi0;
  tr_plain : fl l TH_SYN = false /\ fl l TH_FIN = false /\ fl l TH_RST = false /\ fl l TH_URG = false /\ fl l TH_ACK = true;
  tr_ack : SEQ_LEQ (ti_ack (i_ti l)) (u32 una) = true;
  tr_win : 0 <= i_tiwin l < 2147483648
}.

Lemma left_trim_fields l i : let l' := left_trim l i in
  ti_ack (i_ti l') = ti_ack (i_ti l) /\ i_tiwin l' = i_tiwin l /\ i_ts l' = i_ts l /\
  (forall f, hasf f TH_URG = false -> fl l' f = fl l f) /\ (fl l TH_URG = false -> fl l' TH_URG = false).
Proof.
  unfold left_trim, clr_fl, fl. cbv zeta. destruct (_ >? i); rec_simpl; [done|]. split_and!; try done.
  - intros f Hf. rewrite hasf_clrb. f_equal. unfold clrb. unfold hasf in Hf. apply negb_false_iff, Z.eqb_eq in Hf.
    pose proof (Z.lor_ldiff_and f TH_URG) as H. by rewrite Hf, Z.lor_0_r in H.
  - intros _. rewrite hasf_clrb. change (clrb TH_URG TH_URG) with 0. apply hasf_0.
Qed.

(** PAWS and the left edge: the new part of the segment goes on, a segment without any is
    dropped with an ACK. *)
Lemma taking_left k n hi g nxt mx rec l a : taking k n hi g nxt mx rec -> incoming a rec l ->
  let l1 := l <| i_m := drop_headers l |> in
  input_paws k l1 = Ret (Next k l1) /\
  ((a + ti_len (i_ti l) <= n /\ input_left k l1 = Ret (Goto L_dropafterack k l1)) \/
   (exists l2, n < a + ti_len (i_ti l) /\ input_left k l1 = Ret (Next k l2) /\ trimmed n (Z.max n a) rec l2 /\ i_ts l2 = i_ts l /\
      Z.max n a + ti_len (i_ti l2) = a + ti_len (i_ti l))).
Proof.
  intros Hk [Hg Hlen Hlo Hhi Hfl (F1 & F2 & F3 & F4) F5 Hack Hopt Hwin Hts] l1.
  assert (El : i_ti l1 = i_ti l /\ i_tiflags l1 = i_tiflags l /\ i_ts l1 = i_ts l /\ i_tiwin l1 = i_tiwin l) by (unfold l1; by rec_simpl).
  change (seg_of_l _) with (seg_of_l l1) in Hg. clearbody l1. destruct El as (L1 & L2 & L3 & L4).
  assert (Lf : forall f, fl l1 f = fl l f) by (intros f; unfold fl; by rewrite L2). rewrite <- L3 in *. rewrite <- L1 in *.
  rewrite <- (Lf TH_SYN) in F1. rewrite <- (Lf TH_FIN) in F2. rewrite <- (Lf TH_RST) in F3. rewrite <- (Lf TH_URG) in F4. rewrite <- (Lf TH_ACK) in F5. clear Lf.
  pose proof (taking_le _ _ _ _ _ _ _ Hk) as Hle. pose proof (ta_low _ _ _ _ _ _ _ Hk) as Hlow.
  split.
  { unfold input_paws. destruct (i_ts l1) as [[v w]|]; [|done]. rewrite (ta_ts _ _ _ _ _ _ _ Hk).
    assert (TSTMP_LT v rec = false) as -> by (unfold TSTMP_GEQ, TSTMP_LT in *; lia). by rewrite !andb_false_r. }
  pose proof (gn_seq _ _ _ _ Hg) as Hq. cbn [seg_of_l sg_ti] in Hq.
  unfold input_left, left_syn. rewrite F1, (ra_nxt _ _ _ _ _ _ (ta_at _ _ _ _ _ _ _ Hk)), Hq, s32_sub_l, s32_sub_r, s32_id by lia.
  destruct (Z.gtb_spec (n - a) 0).
  - destruct (Z.geb_spec (n - a) (ti_len (i_ti l1))).
    + left. split; [lia|]. rewrite F2. cbn [andb]. by rewrite (proj2 (Z.eqb_neq _ _)) by lia.
    + right. exists (left_trim l1 (n - a)). destruct (left_trim_ok str eos a l1 (n - a) Hg ltac:(lia)) as [Hg2 Hl2].
      destruct (left_trim_fields l1 (n - a)) as (T1 & T2 & T3 & T4 & T5). replace (Z.max n a) with (a + (n - a)) by lia.
      split_and!; try done; try lia. split; rewrite ?T1, ?T2, ?Hl2; try done; try lia.
      rewrite (T4 TH_SYN), (T4 TH_FIN), (T4 TH_RST), (T4 TH_ACK), (T5 F4) by done. by split_and!.
  - right. exists l1. replace (Z.max n a) with a by lia. split_and!; try done; try lia. split; try done; try lia.
Qed.

(** The right edge, the timestamp and the RST and SYN bits of a segment inside the window. *)
Lemma taking_middle e k n hi g nxt mx rec l a w : taking k n hi g nxt mx rec -> trimmed n a rec l -> rcv_wnd (tp k) = w -> hi - n <= w < 1073741824 ->
  (input_nofdref e ;;; input_right e ;;; input_ts ;;; input_rst e ;;; input_syn e) k l = Ret (Next (record_ts k l (ti_seq (i_ti l) + ti_len (i_ti l))) l).
Proof.
  intros Hk [Hg Hlen Hlo Hhi (F1 & F2 & F3 & F4 & F5) _ _] Hw Hwr. unfold seq_stage.
  pose proof (ta_hi _ _ _ _ _ _ _ Hk). pose proof (taking_le _ _ _ _ _ _ _ Hk).
  assert (E1 : input_nofdref e k l = Ret (Next k l)) by (unfold input_nofdref; rewrite (ta_est _ _ _ _ _ _ _ Hk); cbn [st Z.gtb Z.compare]; by rewrite andb_false_r).
  rewrite E1. cbn [obind].
  assert (E2 : input_right e k l = Ret (Next k l)).
  { pose proof (gn_seq _ _ _ _ Hg) as Hq. cbn [seg_of_l sg_ti] in Hq. pose proof (gn_short _ _ _ _ Hg) as Hsh. cbn [seg_of_l sg_ti] in Hsh. pose proof (ta_low _ _ _ _ _ _ _ Hk).
    unfold input_right. rewrite (ra_nxt _ _ _ _ _ _ (ta_at _ _ _ _ _ _ _ Hk)), Hw, Hq, !u32_add_l, s32_sub_l, s32_sub_r, s32_id by lia.
    by destruct (Z.gtb_spec (a + ti_len (i_ti l) - (n + w)) 0); [lia|]. }
  rewrite E2. cbn [obind].
  assert (E3 : input_ts k l = Ret (Next (record_ts k l (ti_seq (i_ti l) + ti_len (i_ti l))) l)).
  { unfold input_ts, fl in *. rewrite hasf_lor, F1, F2. cbn [orb]. by rewrite Z.add_0_r. }
  rewrite E3. cbn [obind]. unfold input_rst. rewrite F3. cbn [obind]. unfold input_syn. by rewrite F1, F5.
Qed.

(** The ACK, the window update and the urgent pointer. *)
Lemma taking_acked e k n hi g nxt mx rec l a : taking k n hi g nxt mx rec -> trimmed n a rec l ->
  exists k' b, (input_synrcvd ;;; input_ack e ;;; input_step6 ;;; input_urg) k l = Ret (Next k' (l <| i_needoutput := b |>)) /\
    taking k' n hi g nxt mx rec /\ so k' = so k.
Proof.
  intros Hk [Hg Hlen Hlo Hhi (F1 & F2 & F3 & F4 & F5) Hack Hwin]. unfold seq_stage.
  assert (E1 : input_synrcvd k l = Ret (Next k l)) by (unfold input_synrcvd; by rewrite (ta_est _ _ _ _ _ _ _ Hk)).
  rewrite E1. cbn [obind]. pose proof (ta_snd _ _ _ _ _ _ _ Hk) as Hs.
  assert (E2 : input_ack e k l = Ret (Next (k <t| t_dupacks := 0 |>) l)).
  { unfold input_ack, dup_ack. rewrite (sk_una _ _ _ _ Hs), Hack, (proj2 (Z.eqb_neq (ti_len (i_ti l)) 0)) by lia. done. }
  rewrite E2. cbn [obind]. assert (Hk1 : taking (k <t| t_dupacks := 0 |>) n hi g nxt mx rec).
  { eapply taking_same; [exact Hk|unfold untouched, tf|..]; by rec_simpl. }
  assert (Hso1 : so (k <t| t_dupacks := 0 |>) = so k) by done.
  set (k1 := k <t| t_dupacks := 0 |>) in *. clearbody k1. rewrite <- Hso1. clear Hk Hso1 E1 E2 Hs k.
  assert (E3 : exists k2 b, input_step6 k1 l = Ret (Next k2 (l <| i_needoutput := b |>)) /\ taking k2 n hi g nxt mx rec /\ so k2 = so k1).
  { unfold input_step6. destruct (_ && _); [|exists k1, (i_needoutput l); by rewrite needoutput_id].
    set (k2 := k1 <t| snd_wnd := _ |> <t| snd_wl1 := _ |> <t| snd_wl2 := _ |>).
    assert (Hk2 : taking k2 n hi g nxt mx rec).
    { rewrite <- (ta_ts _ _ _ _ _ _ _ Hk1). replace (ts_recent (tp k1)) with (ts_recent (tp k2)) by (unfold k2; by rec_simpl).
      eapply taking_untouched; [exact Hk1|unfold untouched, tf, k2; by rec_simpl|unfold k2; by rec_simpl]. }
    assert (Hso2 : so k2 = so k1) by done. clearbody k2. destruct (_ >? _); [|by exists k2, true].
    eexists _, true. split; [reflexivity|]. split; [|done]. eapply taking_same; [exact Hk2|unfold untouched, tf|..]; by rec_simpl. }
  destruct E3 as (k2 & b & -> & Hk2 & Hso2). cbn [obind]. unfold input_urg. change (fl (l <| i_needoutput := b |>)) with (fl l). rewrite F4. cbn [andb].
  eexists _, b. split; [reflexivity|]. rewrite <- Hso2. destruct (SEQ_GT _ _); [|done]. split; [|done].
  eapply taking_same; [exact Hk2|unfold untouched, tf|..]; by rec_simpl.
Qed.

(** The window is the one advertised, or more. *)
Lemma taking_wnd k n hi g nxt mx rec l : taking k n hi g nxt mx rec ->
  exists w, input_window k l = Ret (Next (k <t| rcv_wnd := w |>) (l <| i_m := drop_headers l |>)) /\ hi - n <= w < 1073741824 /\
    taking (k <t| rcv_wnd := w |>) n hi g nxt mx rec.
Proof.
  intros Hk. eexists. split; [reflexivity|]. split; [|by eapply taking_same].
  pose proof (taking_le _ _ _ _ _ _ _ Hk) as Hle. pose proof (ta_low _ _ _ _ _ _ _ Hk) as Hlow. pose proof (ta_hi _ _ _ _ _ _ _ Hk) as Hh.
  pose proof (taking_space _ _ _ _ _ _ _ Hk) as Hsp.
  rewrite (ta_adv _ _ _ _ _ _ _ Hk), (ra_nxt _ _ _ _ _ _ (ta_at _ _ _ _ _ _ _ Hk)), u32_sub_l, u32_sub_r, s32_u32, s32_id by lia.
  generalize dependent (sbspace (so_rcv (so k))). intros w Hs. destruct (Z.ltb_spec w 0); rewrite cmax_spec; lia.
Qed.

(** From the right edge to the reply. *)
Lemma taking_new e k n hi g nxt mx rec l a w : taking k n hi g nxt mx rec -> trimmed n a rec l -> rcv_wnd (tp k) = w -> hi - n <= w < 1073741824 ->
  exists k' l' n' hi' g' nxt' mx' rec',
    ((input_nofdref e ;;; input_right e ;;; input_ts ;;; input_rst e ;;; input_syn e) ;;; input_synrcvd ;;; input_ack e ;;; after_step6 e) k l = Ret (Goto L_return k' l') /\
    taking k' n' hi' g' nxt' mx' rec' /\ delivered k k' n n' g g' a (ti_len (i_ti l)) /\ (rec' = rec \/ exists v x, i_ts l = Some (v, x) /\ rec' = v).
Proof.
  intros Hk Hl Hw Hwr. rewrite (seq_next _ _ _ _ _ _ (taking_middle e _ _ _ _ _ _ _ _ _ _ Hk Hl Hw Hwr)).
  destruct (taking_record k n hi g nxt mx rec l (ti_seq (i_ti l) + ti_len (i_ti l)) Hk) as (rec1 & Hk1 & Hr1).
  assert (Hso : so (record_ts k l (ti_seq (i_ti l) + ti_len (i_ti l))) = so k).
  { unfold record_ts. destruct (i_ts l) as [[? ?]|]; [destruct (_ && _)|]; by rec_simpl. }
  set (k1 := record_ts k l _) in *. clearbody k1.
  assert (Hl1 : trimmed n a rec1 l) by (destruct Hl; by split).
  destruct (taking_acked e _ _ _ _ _ _ _ _ _ Hk1 Hl1) as (k2 & b & E2 & Hk2 & Hso2).
  unfold after_step6. rewrite seq_assoc4. rewrite (seq_next _ _ _ _ _ _ E2). clear E2.
  set (l2 := l <| i_needoutput := b |>).
  assert (El : i_ti l2 = i_ti l /\ seg_of_l l2 = seg_of_l l) by (unfold l2, seg_of_l; by rec_simpl). clearbody l2. destruct El as [El1 El2].
  destruct Hl as [Hg Hlen Hlo Hhi _ _ _].
  destruct (taking_data k2 n hi g nxt mx rec1 l2 a Hk2) as (k3 & l3 & n' & g' & E3 & Hk3 & Hd & Hf); rewrite ?El1, ?El2; try done.
  rewrite (seq_next _ _ _ _ _ _ E3). clear E3.
  assert (E4 : input_fin k3 l3 = Ret (Next k3 l3)) by (unfold input_fin; by rewrite Hf).
  rewrite (seq_next _ _ _ _ _ _ E4). clear E4. rewrite El1 in Hd.
  assert (Hd' : forall k', so k' = so k3 -> delivered k k' n n' g g' a (ti_len (i_ti l))).
  { intros k' E. destruct Hd as (D1 & D2 & D3). split_and!; try done. by rewrite E, D2, Hso2, Hso. }
  unfold input_reply. destruct (_ || _).
  - destruct (taking_output (ie_net e) _ _ _ _ _ _ _ Hk3) as (k4 & err & hi' & nxt' & mx' & E & Hk4 & Hso4). rewrite E. cbn [obind].
    exists k4, l3, n', hi', g', nxt', mx', rec1. split_and!; try done. by apply Hd'.
  - exists k3, l3, n', hi, g', nxt, mx, rec1. split_and!; try done. by apply Hd'.
Qed.

(** The label dropafterack. *)
Lemma taking_dropafterack e k n hi g nxt mx rec l : taking k n hi g nxt mx rec -> fl l TH_RST = false ->
  exists k' hi' nxt' mx', label_dropafterack e k l = Ret k' /\ taking k' n hi' g nxt' mx' rec /\ so k' = so k.
Proof.
  intros Hk Hf. unfold label_dropafterack. rewrite Hf.
  destruct (taking_output (ie_net e) _ _ _ _ _ _ _ (taking_ack _ _ _ _ _ _ _ (taking_pool _ _ _ _ _ _ _ (m_freem (pool k) (i_m l)) Hk)))
    as (k4 & err & hi' & nxt' & mx' & E & Hk4 & Hso4). rewrite E. cbn [obind].
  exists k4, hi', nxt', mx'. split_and!; try done.
Qed.

(** The general path, to the end of tcp_input. *)
Lemma taking_general e e' k n hi g nxt mx rec l a : taking k n hi g nxt mx rec -> incoming a rec l ->
  exists k' n' hi' g' nxt' mx' rec', (let! r := (input_window ;;; input_state e) k l in input_end e' r) = Ret (inl k') /\
    taking k' n' hi' g' nxt' mx' rec' /\ delivered k k' n n' g g' a (ti_len (i_ti l)) /\ (rec' = rec \/ exists v x, i_ts l = Some (v, x) /\ rec' = v).
Proof.
  intros Hk Hl. destruct (taking_wnd _ _ _ _ _ _ _ l Hk) as (w & Ew & Hw & Hk1). rewrite (seq_next _ _ _ _ _ _ Ew). clear Ew.
  assert (Hso : so (k <t| rcv_wnd := w |>) = so k /\ rcv_wnd (tp (k <t| rcv_wnd := w |>)) = w) by (by rec_simpl).
  set (k1 := k <t| rcv_wnd := w |>) in *. clearbody k1. destruct Hso as [Hso Hwn].
  unfold input_state. rewrite (ta_est _ _ _ _ _ _ _ Hk1). unfold input_general, input_checks.
  destruct (taking_left _ _ _ _ _ _ _ _ _ Hk1 Hl) as [Ep Hcase].
  assert (Hrst : fl (l <| i_m := drop_headers l |>) TH_RST = false) by (exact (proj1 (proj2 (proj2 (ic_plain _ _ _ Hl))))).
  set (l1 := l <| i_m := drop_headers l |>) in *. clearbody l1.
  rewrite <- seq_assoc, (seq_next _ _ _ _ _ _ Ep), <- seq_assoc. clear Ep.
  destruct Hcase as [[He El]|(l2 & He & El & Hl2 & Ets & Elen)].
  - unfold seq_stage at 1. rewrite El. cbn [obind input_end].
    destruct (taking_dropafterack e' _ _ _ _ _ _ _ _ Hk1 Hrst) as (k' & hi' & nxt' & mx' & -> & Hk' & Hs'). cbn [obind].
    exists k', n, hi', g, nxt', mx', rec. split_and!; try done; [|by left]. apply delivered_nothing; [by rewrite Hs'|done].
  - rewrite (seq_next _ _ _ _ _ _ El). clear El.
    destruct (taking_new e _ _ _ _ _ _ _ _ _ _ Hk1 Hl2 Hwn Hw) as (k' & l' & n' & hi' & g' & nxt' & mx' & rec' & E & Hk' & (D1 & D2 & D3) & Hr).
    rewrite E. cbn [obind input_end]. exists k', n', hi', g', nxt', mx', rec'. rewrite <- Ets. split_and!; try done.
    split_and!; [done|by rewrite <- Hso|]. intros z Hz. rewrite <- D3 by done. unfold held. rewrite Elen. intuition lia.
Qed.

(** One segment through the whole of tcp_input behind findpcb. *)
Lemma segment_ok e e' k n hi g nxt mx rec l a : taking k n hi g nxt mx rec -> incoming a rec l ->
  exists k' n' hi' g' nxt' mx' rec', segment e e' k l = Ret (inl k') /\
    taking k' n' hi' g' nxt' mx' rec' /\ delivered k k' n n' g g' a (ti_len (i_ti l)) /\ (rec' = rec \/ exists v x, i_ts l = Some (v, x) /\ rec' = v).
Proof.
  intros Hk Hl. unfold segment, input_segment.
  assert (Ea : input_arrive e k l = Ret (Next (k <t| t_idle := 0 |> <t| tm_keep := s16 (tcp_keepidle (glob k)) |>) l)).
  { unfold input_arrive. by rewrite (ic_opt _ _ _ Hl). }
  rewrite (seq_next _ _ _ _ _ _ Ea). clear Ea.
  set (k1 := k <t| t_idle := 0 |> <t| tm_keep := s16 (tcp_keepidle (glob k)) |>).
  assert (Hk1 : taking k1 n hi g nxt mx rec) by (by eapply taking_same). assert (Hso : so k1 = so k) by done. clearbody k1.
  destruct (taking_predict e _ _ _ _ _ _ _ _ _ Hk1 Hl) as [(k' & n' & g' & rec' & E & Hk' & (D1 & D2 & D3) & Hr)|(k2 & rec2 & E & Hk2 & Hso2 & Hr)].
  - unfold seq_stage at 1. rewrite E. cbn [obind input_end]. exists k', n', hi, g', nxt, mx, rec'. split_and!; try done. split_and!; try done. by rewrite <- Hso.
  - rewrite (seq_next _ _ _ _ _ _ E). clear E.
    assert (Hl2 : incoming a rec2 l).
    { destruct Hr as [->|(v & x & Ev & ->)]; [done|]. destruct Hl as [H1 H2 H3 H4 H5 H6 H7 H8 H9 H10 H11]. split; try done. rewrite Ev. unfold TSTMP_GEQ. by rewrite Z.sub_diag. }
    destruct (taking_general e e' _ _ _ _ _ _ _ _ _ Hk2 Hl2) as (k' & n' & hi' & g' & nxt' & mx' & rec' & E & Hk' & (D1 & D2 & D3) & Hr').
    exists k', n', hi', g', nxt', mx', rec'. split_and!; try done.
    + split_and!; try done. by rewrite <- Hso, <- Hso2.
    + destruct Hr' as [->|Hr']; [done|by right].
Qed.

End Deliver.
End TcpDeliver.
