(* ===== verification/TcpTimer.v ===== *)
(** TCP timers (src/sys/netinet/tcp_timer.c).

    [tcp_timers] is the whole routine; [slow_conn] and [fast_conn] are the bodies
    of the loops of tcp_slowtimo and tcp_fasttimo for one connection. *)
From S2P Require Import Prelude TcpSeq Mbuf SockBuf Socket TcpVar TcpHdr TcpSubr TcpOutput.
Import TcpSeq Mbuf SockBuf Socket TcpVar TcpHdr TcpSubr TcpOutput.

Module TcpTimer.

Inductive tcptimer := TCPT_REXMT | TCPT_PERSIST | TCPT_KEEP | TCPT_2MSL.

Definition t_timer (t : tcpcb) (i : tcptimer) : Z :=
  match i with
  | TCPT_REXMT => tm_rexmt t | TCPT_PERSIST => tm_persist t | TCPT_KEEP => tm_keep t | TCPT_2MSL => tm_2msl t
  end.
Definition set_timer (k : kst) (i : tcptimer) (v : Z) : kst :=
  match i with
  | TCPT_REXMT => k <t| tm_rexmt := v |> | TCPT_PERSIST => k <t| tm_persist := v |>
  | TCPT_KEEP => k <t| tm_keep := v |> | TCPT_2MSL => k <t| tm_2msl := v |>
  end.

(** [in_losing]: the cached route is given up. *)
Definition in_losing (k : kst) : kst := k <i| inp_route := None |>.

Definition timer_2msl (net : net_env) (k : kst) : outcome kst :=
  if negb (st_eqb (t_state (tp k)) TCPS_TIME_WAIT) && (t_idle (tp k) <=? tcp_maxidle (glob k))
  then Ret (k <t| tm_2msl := s16 (tcp_keepintvl (glob k)) |>)
  else tcp_close net k.

(** Back off the timer. *)
Definition rexmt_timer (k : kst) : kst :=
  let rexmt := TCP_REXMTVAL (tp k) * tcp_backoff (t_rxtshift (tp k)) in
  let k := k <t| t_rxtcur := TCPT_RANGESET rexmt (t_rttmin (tp k)) TCPTV_REXMTMAX |> in
  k <t| tm_rexmt := t_rxtcur (tp k) |>.
(** If losing, give up the route and the estimates. *)
Definition rexmt_losing (k : kst) : kst :=
  if t_rxtshift (tp k) >? TCP_MAXRXTSHIFT / 4 then
    let k := in_losing k in
    let k := k <t| t_rttvar := s16 (t_rttvar (tp k) + Z.shiftr (t_srtt (tp k)) TCP_RTT_SHIFT) |> in
    k <t| t_srtt := 0 |>
  else k.
(** Start again at the oldest byte with a window of one segment. *)
Definition rexmt_window (k : kst) : kst :=
  let k := k <t| snd_nxt := snd_una (tp k) |> <t| t_rtt := 0 |> in
  let win := cmin (snd_wnd (tp k)) (snd_cwnd (tp k)) / 2 / t_maxseg (tp k) in
  let win := if win <? 2 then 2 else win in
  k <t| snd_cwnd := t_maxseg (tp k) |> <t| snd_ssthresh := u32 (win * t_maxseg (tp k)) |>
    <t| t_dupacks := 0 |>.
(** Back off and retransmit one segment: the state before the call of tcp_output. *)
Definition rexmt_backoff (k : kst) : kst := rexmt_window (rexmt_losing (rexmt_timer k)).
Definition timer_rexmt (net : net_env) (k : kst) : outcome kst :=
  let k := k <t| t_rxtshift := s16 (t_rxtshift (tp k) + 1) |> in
  if t_rxtshift (tp k) >? TCP_MAXRXTSHIFT then
    let k := k <t| t_rxtshift := TCP_MAXRXTSHIFT |> in
    tcp_drop net k (if negb (t_softerror (tp k) =? 0) then t_softerror (tp k) else ETIMEDOUT)
  else
    let! (k, _) := tcp_output net (rexmt_backoff k) in Ret k.

Definition timer_persist (net : net_env) (k : kst) : outcome kst :=
  if (t_rxtshift (tp k) =? TCP_MAXRXTSHIFT) &&
     ((t_idle (tp k) >=? tcp_maxpersistidle (glob k)) ||
      (t_idle (tp k) >=? TCP_REXMTVAL (tp k) * tcp_totbackoff))
  then tcp_drop net k ETIMEDOUT
  else
    let! k := tcp_setpersist k in
    let! (k, _) := tcp_output net (k <t| t_force := 1 |>) in
    Ret (k <t| t_force := 0 |>).

Definition timer_keep (net : net_env) (k : kst) : outcome kst :=
  if st (t_state (tp k)) <? st TCPS_ESTABLISHED then tcp_drop net k ETIMEDOUT
  else if hasf (so_options (so k)) SO_KEEPALIVE && (st (t_state (tp k)) <=? st TCPS_CLOSE_WAIT) then
    if t_idle (tp k) >=? tcp_keepidle (glob k) + tcp_maxidle (glob k) then tcp_drop net k ETIMEDOUT
    else
      match t_template (tp k) with
      | None => Panic "tcp_respond: null template"
      | Some tmpl =>
          let k := tcp_respond true k tmpl None (rcv_nxt (tp k)) (u32 (snd_una (tp k) - 1)) 0 in
          Ret (k <t| tm_keep := s16 (tcp_keepintvl (glob k)) |>)
      end
  else Ret (k <t| tm_keep := s16 (tcp_keepidle (glob k)) |>).

Definition tcp_timers (net : net_env) (k : kst) (timer : tcptimer) : outcome kst :=
  match timer with
  | TCPT_2MSL => timer_2msl net k
  | TCPT_REXMT => timer_rexmt net k
  | TCPT_PERSIST => timer_persist net k
  | TCPT_KEEP => timer_keep net k
  end.

(** One turn of the timer loop of tcp_slowtimo. *)
Definition slow_timer (net : net_env) (k : kst) (i : tcptimer) : outcome kst :=
  if gone k then Ret k
  else if t_timer (tp k) i =? 0 then Ret k
  else
    let k := set_timer k i (s16 (t_timer (tp k) i - 1)) in
    if t_timer (tp k) i =? 0 then tcp_timers net k i else Ret k.
Definition slow_conn (net : net_env) (k : kst) : outcome kst :=
  if st_eqb (t_state (tp k)) TCPS_LISTEN then Ret k
  else
    let! k := slow_timer net k TCPT_REXMT in
    let! k := slow_timer net k TCPT_PERSIST in
    let! k := slow_timer net k TCPT_KEEP in
    let! k := slow_timer net k TCPT_2MSL in
    if gone k then Ret k
    else
      let k := k <t| t_idle := u16 (t_idle (tp k) + 1) |> in
      Ret (if negb (t_rtt (tp k) =? 0) then k <t| t_rtt := s16 (t_rtt (tp k) + 1) |> else k).

Definition fast_conn (net : net_env) (k : kst) : outcome kst :=
  if tf k TF_DELACK then
    let k := tf_set TF_ACKNOW (tf_clr TF_DELACK k) in
    let! (k, _) := tcp_output net k in Ret k
  else Ret k.

End TcpTimer.
