(* ===== verification/TcpTimerOk.v ===== *)
(** Correctness of the timers: backoff, retransmission and keep-alive probes. *)
From S2P Require Import Prelude TcpSeq Mbuf Cksum SockBuf Socket TcpVar Sample TcpHdr TcpSubr TcpOutput TcpOutputOk TcpTimer TcpFsm.
Import TcpSeq Mbuf Cksum SockBuf Socket TcpVar TcpHdr TcpSubr TcpOutput TcpOutputOk TcpTimer TcpFsm.

Module TcpTimerOk.

(** What the timer and the route do not touch. *)
Definition same_rexmt (k k' : kst) : Prop :=
  so k' = so k /\ glob k' = glob k /\ snd_wnd (tp k') = snd_wnd (tp k) /\ snd_cwnd (tp k') = snd_cwnd (tp k) /\
  snd_una (tp k') = snd_una (tp k) /\ snd_max (tp k') = snd_max (tp k) /\ t_maxseg (tp k') = t_maxseg (tp k) /\
  t_flags (tp k') = t_flags (tp k) /\ t_template (tp k') = t_template (tp k) /\ rcv_nxt (tp k') = rcv_nxt (tp k) /\
  t_state (tp k') = t_state (tp k) /\ t_force (tp k') = t_force (tp k) /\ pool k' = pool k.

(** A retransmission timeout: the timer backs off within its bounds, sending starts
    again at the oldest unacknowledged byte with one segment, and the slow start
    threshold is half the window, at least two segments. *)
Lemma rexmt_backoff_ok k una nxt mx :
  snd_ok k una nxt mx -> 0 <= t_rttmin (tp k) <= TCPTV_REXMTMAX ->
  let k' := rexmt_backoff k in
  snd_ok k' una una mx /\ t_state (tp k') = t_state (tp k) /\
  t_rttmin (tp k) <= t_rxtcur (tp k') <= TCPTV_REXMTMAX /\ tm_rexmt (tp k') = t_rxtcur (tp k') /\
  t_rxtcur (tp k') = TCPT_RANGESET (TCP_REXMTVAL (tp k) * tcp_backoff (t_rxtshift (tp k))) (t_rttmin (tp k)) TCPTV_REXMTMAX /\
  snd_cwnd (tp k') = t_maxseg (tp k) /\ snd_wnd (tp k') = snd_wnd (tp k) /\ t_maxseg (tp k') = t_maxseg (tp k) /\
  t_force (tp k') = t_force (tp k) /\ t_template (tp k') = t_template (tp k) /\ rcv_nxt (tp k') = rcv_nxt (tp k) /\
  so k' = so k /\ pool k' = pool k /\ snd_nxt (tp k') = snd_una (tp k) /\
  snd_ssthresh (tp k') = Z.max 2 (Z.min (snd_wnd (tp k)) (snd_cwnd (tp k)) / 2 / t_maxseg (tp k)) * t_maxseg (tp k) /\
  t_rtt (tp k') = 0 /\ t_dupacks (tp k') = 0.
Proof.
  intros Hk Hm. cbv zeta. pose proof (sk_mss _ _ _ _ Hk) as Hs. pose proof (sk_wnd _ _ _ _ Hk) as [Hw Hc].
  unfold rexmt_backoff.
  assert (H1 : tm_rexmt (tp (rexmt_timer k)) = t_rxtcur (tp (rexmt_timer k)) /\
    t_rttmin (tp k) <= t_rxtcur (tp (rexmt_timer k)) <= TCPTV_REXMTMAX /\
    t_rxtcur (tp (rexmt_timer k)) = TCPT_RANGESET (TCP_REXMTVAL (tp k) * tcp_backoff (t_rxtshift (tp k))) (t_rttmin (tp k)) TCPTV_REXMTMAX /\
    same_rexmt k (rexmt_timer k)).
  { unfold rexmt_timer, same_rexmt. cbv zeta. rec_simpl. split_and!; try done; apply rangeset_bounds; unfold TCPTV_REXMTMAX in *; lia. }
  generalize dependent (rexmt_timer k). intros k1 (T1 & T2 & T5 & S1).
  assert (H2 : tm_rexmt (tp (rexmt_losing k1)) = tm_rexmt (tp k1) /\ t_rxtcur (tp (rexmt_losing k1)) = t_rxtcur (tp k1) /\
    same_rexmt k1 (rexmt_losing k1)).
  { unfold rexmt_losing, same_rexmt, in_losing. cbv zeta. destruct (_ >? _); by rec_simpl. }
  generalize dependent (rexmt_losing k1). intros k2 (T3 & T4 & S2).
  unfold same_rexmt in S1, S2.
  destruct S1 as (A1 & A2 & A3 & A4 & A5 & A6 & A7 & A8 & A9 & A10 & A11 & A12 & A13).
  destruct S2 as (B1 & B2 & B3 & B4 & B5 & B6 & B7 & B8 & B9 & B10 & B11 & B12 & B13).
  assert (C3 : snd_wnd (tp k2) = snd_wnd (tp k)) by congruence. assert (C4 : snd_cwnd (tp k2) = snd_cwnd (tp k)) by congruence.
  assert (C5 : t_maxseg (tp k2) = t_maxseg (tp k)) by congruence.
  assert (Hwm : 0 <= Z.max 2 (Z.min (snd_wnd (tp k)) (snd_cwnd (tp k)) / 2 / t_maxseg (tp k)) * t_maxseg (tp k) < 4294967296).
  { set (q := Z.min (snd_wnd (tp k)) (snd_cwnd (tp k)) / 2).
    assert (0 <= q < 2147483648) by (unfold q; Z.to_euclidean_division_equations; lia).
    pose proof (Z.mul_div_le q (t_maxseg (tp k))). assert (0 <= q / t_maxseg (tp k)) by (apply Z.div_pos; lia). nia. }
  unfold rexmt_window. cbv zeta. rec_simpl. rewrite C3, C4, C5, T3, T4, cmin_spec by lia.
  assert (Ewin : forall q, (if q <? 2 then 2 else q) = Z.max 2 q) by (intros q; destruct (Z.ltb_spec q 2); lia).
  rewrite Ewin, (u32_id _ Hwm). clear Ewin Hwm. split_and!; try done; try lia; try congruence.
  destruct Hk. split; unfold tf, cc in *; rec_simpl; rewrite ?B1, ?B2, ?B5, ?B6, ?B7, ?B8, ?B9, ?B10, ?B11, ?C3, ?C5,
    ?A1, ?A2, ?A5, ?A6, ?A7, ?A8, ?A9, ?A10, ?A11; try done; lia.
Qed.

(** What the backoff leaves to be sent. *)
Lemma rexmt_backoff_frame k : gone (rexmt_backoff k) = gone k /\ sent (rexmt_backoff k) = sent k.
Proof.
  unfold rexmt_backoff. set (k0 := rexmt_timer k).
  assert (gone k0 = gone k /\ sent k0 = sent k) as [<- <-] by (unfold k0, rexmt_timer; cbv zeta; by rec_simpl). clearbody k0.
  set (k3 := rexmt_losing k0). assert (gone k3 = gone k0 /\ sent k3 = sent k0) as [<- <-].
  { unfold k3, rexmt_losing, in_losing. cbv zeta. destruct (_ >? _); by rec_simpl. }
  clearbody k3. unfold rexmt_window. cbv zeta. by rec_simpl.
Qed.

(** The state that a timeout hands to tcp_output. *)
Record restarted (k k2 : kst) (una mx : Z) : Prop := {
  re_ok : snd_ok k2 una una mx;
  re_state : t_state (tp k2) = t_state (tp k);
  re_bounds : t_rttmin (tp k) <= t_rxtcur (tp k2) <= TCPTV_REXMTMAX;
  re_timer : tm_rexmt (tp k2) = t_rxtcur (tp k2);
  re_cur : t_rxtcur (tp k2) = TCPT_RANGESET (TCP_REXMTVAL (tp k) * tcp_backoff (t_rxtshift (tp k) + 1)) (t_rttmin (tp k)) TCPTV_REXMTMAX;
  re_cwnd : snd_cwnd (tp k2) = t_maxseg (tp k);
  re_wnd : snd_wnd (tp k2) = snd_wnd (tp k);
  re_mss : t_maxseg (tp k2) = t_maxseg (tp k);
  re_force : t_force (tp k2) = t_force (tp k);
  re_tmpl : t_template (tp k2) = t_template (tp k);
  re_rcv : rcv_nxt (tp k2) = rcv_nxt (tp k);
  re_so : so k2 = so k;
  re_pool : pool k2 = pool k;
  re_nxt : snd_nxt (tp k2) = snd_una (tp k);
  re_ssthresh : snd_ssthresh (tp k2) = Z.max 2 (Z.min (snd_wnd (tp k)) (snd_cwnd (tp k)) / 2 / t_maxseg (tp k)) * t_maxseg (tp k);
  re_gone : gone k2 = gone k;
  re_sent : sent k2 = sent k
}.

(** Counting the timeout changes nothing else. *)
Lemma count_timeout k n : let k1 := k <t| t_rxtshift := n |> in
  t_rttmin (tp k1) = t_rttmin (tp k) /\ t_srtt (tp k1) = t_srtt (tp k) /\ t_rttvar (tp k1) = t_rttvar (tp k) /\ t_rxtshift (tp k1) = n /\
  t_state (tp k1) = t_state (tp k) /\ t_maxseg (tp k1) = t_maxseg (tp k) /\ snd_wnd (tp k1) = snd_wnd (tp k) /\ snd_cwnd (tp k1) = snd_cwnd (tp k) /\
  t_force (tp k1) = t_force (tp k) /\ t_template (tp k1) = t_template (tp k) /\ rcv_nxt (tp k1) = rcv_nxt (tp k) /\ snd_una (tp k1) = snd_una (tp k) /\
  so k1 = so k /\ pool k1 = pool k /\ gone k1 = gone k /\ sent k1 = sent k.
Proof. destruct k as [[] ? ? ? ? ? ? ?]. by split_and!. Qed.

Lemma timer_rexmt_restarts net k una nxt mx :
  snd_ok k una nxt mx -> 0 <= t_rttmin (tp k) <= TCPTV_REXMTMAX -> 0 <= t_rxtshift (tp k) < TCP_MAXRXTSHIFT ->
  exists k2, restarted k k2 una mx /\ timer_rexmt net k = let! (k, _) := tcp_output net k2 in Ret k.
Proof.
  intros Hk Hm Hx. unfold timer_rexmt, TCP_MAXRXTSHIFT in *. cbv zeta. rewrite s16_id by lia.
  set (k1 := k <t| t_rxtshift := t_rxtshift (tp k) + 1 |>).
  assert (Hk1 : snd_ok k1 una nxt mx).
  { eapply (snd_ok_ext k); unfold tf, k1; rec_simpl; try done. apply (sk_wnd _ _ _ _ Hk). }
  pose proof (count_timeout k (t_rxtshift (tp k) + 1)) as F. cbv zeta in F. fold k1 in F. clearbody k1.
  destruct F as (F1 & F21 & F22 & F3 & F4 & F5 & F6 & F7 & F8 & F9 & F10 & F11 & F12 & F13 & F14 & F15).
  assert (F2 : TCP_REXMTVAL (tp k1) = TCP_REXMTVAL (tp k)) by (unfold TCP_REXMTVAL; by rewrite F21, F22).
  rewrite F3. destruct (Z.gtb_spec (t_rxtshift (tp k) + 1) 12); [lia|].
  destruct (rexmt_backoff_ok k1 una nxt mx Hk1) as (H2 & S2 & B1 & B2 & B3 & B4 & B5 & B6 & B7 & B8 & B9 & B10 & B11 & B12 & B13 & _); [by rewrite F1|].
  destruct (rexmt_backoff_frame k1) as [G3 N3]. exists (rexmt_backoff k1). split; [|done].
  rewrite F1 in B1. rewrite F1, F2, F3 in B3. rewrite F4 in S2. rewrite F5 in B4, B6. rewrite F6 in B5. rewrite F5, F6, F7 in B13.
  rewrite F8 in B7. rewrite F9 in B8. rewrite F10 in B9. rewrite F11 in B12. rewrite F12 in B10. rewrite F13 in B11. rewrite F14 in G3. rewrite F15 in N3.
  split; [exact H2|exact S2|exact B1|exact B2|exact B3|exact B4|exact B5|exact B6|exact B7|exact B8|exact B9|exact B10|exact B11|exact B12|exact B13|exact G3|exact N3].
Qed.

(** C31: a retransmission timeout, while the backoff is not exhausted, retransmits.  The
    handler returns and keeps the connection and the send invariant.  It calls tcp_output with
    snd_nxt pulled back to snd_una, the congestion window at one segment, the slow start threshold
    at half the window (at least two segments) and the timer restarted with the next backoff,
    within its bounds.  Every segment that goes out is a part of the stream from snd_una on,
    inside that window, with a verifying checksum.  If something is outstanding, data is in the
    buffer, the peer's window is open and mbufs are free, a segment does go out: the first one starts
    at snd_una and holds the first bytes of the send buffer, as many as the window and the
    segment size allow. *)
Theorem timer_rexmt_ok net k una nxt mx tm :
  snd_ok k una nxt mx -> synced (t_state (tp k)) -> 0 <= t_rttmin (tp k) <= TCPTV_REXMTMAX ->
  0 <= t_rxtshift (tp k) < TCP_MAXRXTSHIFT -> t_force (tp k) = 0 -> t_template (tp k) = Some tm ->
  let w := Z.min (snd_wnd (tp k)) (t_maxseg (tp k)) in
  let bytes := sb_bytes (so_snd (so k)) in
  exists k2 k' e nxt' mx' ps, timer_rexmt net k = Ret k' /\ tcp_output net k2 = Ret (k', e) /\
    snd_nxt (tp k2) = snd_una (tp k) /\ snd_cwnd (tp k2) = t_maxseg (tp k) /\
    snd_ssthresh (tp k2) = Z.max 2 (Z.min (snd_wnd (tp k)) (snd_cwnd (tp k)) / 2 / t_maxseg (tp k)) * t_maxseg (tp k) /\
    t_rxtcur (tp k2) = TCPT_RANGESET (TCP_REXMTVAL (tp k) * tcp_backoff (t_rxtshift (tp k) + 1)) (t_rttmin (tp k)) TCPTV_REXMTMAX /\
    tm_rexmt (tp k2) = t_rxtcur (tp k2) /\ t_rttmin (tp k) <= t_rxtcur (tp k2) <= TCPTV_REXMTMAX /\
    snd_ok k' una nxt' mx' /\ mx <= mx' /\ gone k' = gone k /\ t_state (tp k') = t_state (tp k) /\
    sent k' = ps ++ sent k /\ Forall (seg_ok bytes una w (t_maxseg (tp k)) (rcv_nxt (tp k)) tm) ps /\
    (una < mx -> bytes <> [] -> 0 < snd_wnd (tp k) -> mp_fail (pool k) = [] ->
     exists qs p, ps = qs ++ [p] /\ ti_seq (pk_ti p) = snd_una (tp k) /\
       pk_data p = ztake (Z.min w (t_maxseg (tp k) - zlen (pk_opt p))) bytes).
Proof.
  intros Hk Hs Hm Hx Hf Htm w bytes.
  destruct (timer_rexmt_restarts net k una nxt mx Hk Hm Hx) as (k2 & [H2 S2 B1 B2 B3 B4 B5 B6 B7 B8 B9 B10 B11 B12 B13 G3 N3] & ->).
  assert (Hu : usable (output_idlecheck k2).2 = w).
  { unfold output_idlecheck. match goal with |- context [if ?b then _ else _] => destruct b end; cbn [snd]; unfold usable; rec_simpl;
      rewrite B7, Hf, B5, ?B4, ?B6; done. }
  destruct (tcp_output_ok net k2 una una mx H2) as (k' & e & nxt' & mx' & ps & E & Hk' & Hmx & Hb & Hse & Hps); [by rewrite S2|].
  exists k2, k', e, nxt', mx', ps. rewrite E. cbn [obind]. pose proof (tcp_output_keep _ _ _ _ E) as [St Gn].
  split_and!; try done; try congruence; try lia.
  - revert Hps. apply Forall_impl. intros p Hp. destruct (output_idlecheck_ok k2 una una mx H2) as (_ & (I1 & _ & _ & _ & _ & I6 & I7 & I8 & _) & _).
    specialize (Hp tm ltac:(by rewrite I8, B8)). rewrite Hu, I1, I6, I7, B10, B9, B6 in Hp. exact Hp.
  - intros Hlt Hne Hw Hmf. pose proof (sk_mss _ _ _ _ Hk). assert (Hcc : cc k2 = zlen bytes) by (unfold cc; by rewrite B10).
    assert (0 < zlen bytes) by (destruct bytes; [done|rewrite zlen_cons; zlen_pose; lia]).
    destruct (tcp_output_first net k2 una mx H2) as (k3 & e3 & qs & p & E3 & P1 & P2 & P3); [by rewrite S2|done|lia|lia|by rewrite B11|].
    rewrite E in E3. injection E3 as <- <-. exists qs, p. split.
    + rewrite Hse in P1. replace (qs ++ p :: sent k2) with ((qs ++ [p]) ++ sent k2) in P1 by (by rewrite <- app_assoc). by apply app_inv_tail in P1.
    + rewrite P2, P3, B6, B10, Hu, Hcc. split; [by rewrite (sk_una _ _ _ _ Hk)|]. fold bytes.
      destruct (Z.le_gt_cases (zlen bytes) (Z.min w (t_maxseg (tp k) - zlen (pk_opt p)))).
      * by rewrite (ztake_ge (Z.min w _)), ztake_ge by lia.
      * f_equal. lia.
Qed.

(** After TCP_MAXRXTSHIFT timeouts the connection is dropped. *)
Lemma timer_rexmt_drop net k k' :
  t_rxtshift (tp k) = TCP_MAXRXTSHIFT -> timer_rexmt net k = Ret k' -> gone k' = true.
Proof.
  intros Hx. unfold timer_rexmt. cbv zeta. rewrite Hx. rec_simpl. change (s16 (TCP_MAXRXTSHIFT + 1)) with 13.
  change (13 >? TCP_MAXRXTSHIFT) with true. cbn iota. apply tcp_drop_gone.
Qed.

(** The keep-alive timer of an established connection with SO_KEEPALIVE that has
    not been idle for too long sends one probe and restarts itself: the probe is a bare
    ACK with sequence number snd_una - 1, just before the window, so that the peer has
    to answer it, it acknowledges rcv_nxt, decodes to its header and passes the
    checksum test. *)
Theorem timer_keep_probe net k tm :
  st TCPS_ESTABLISHED <= st (t_state (tp k)) <= st TCPS_CLOSE_WAIT -> hasf (so_options (so k)) SO_KEEPALIVE = true ->
  t_idle (tp k) < tcp_keepidle (glob k) + tcp_maxidle (glob k) -> t_template (tp k) = Some tm -> ti_wf tm ->
  mp_fail (pool k) = [] ->
  exists k' p, timer_keep net k = Ret k' /\ sent k' = p :: sent k /\ pkt_sum p = 0 /\
    decode_ti (chain_bytes (pk_m p)) = pk_ti p /\
    ti_seq (pk_ti p) = u32 (snd_una (tp k) - 1) /\ ti_ack (pk_ti p) = u32 (rcv_nxt (tp k)) /\
    ti_flags (pk_ti p) = TH_ACK /\ tm_keep (tp k') = s16 (tcp_keepintvl (glob k)).
Proof.
  intros Hst Hka Hid Htm Hwf Hf. unfold timer_keep.
  destruct (Z.ltb_spec (st (t_state (tp k))) (st TCPS_ESTABLISHED)); [lia|].
  rewrite Hka, (proj2 (Z.leb_le _ _)) by lia. cbn [andb].
  destruct (Z.geb_spec (t_idle (tp k)) (tcp_keepidle (glob k) + tcp_maxidle (glob k))); [lia|]. rewrite Htm.
  unfold tcp_respond. assert (Hg : exists m p, m_gethdr (pool k) MT_HEADER = (Some m, p)).
  { unfold m_gethdr, pool_alloc. rewrite Hf. eauto. }
  destruct Hg as (m & p & ->). cbv zeta.
  match goal with |- context [respond_send ?a ?b ?c ?d ?e ?f ?g ?h] =>
    destruct (respond_send_ok a b c d e f g h) as (pk & R1 & R2 & R3 & R4 & R5 & R6 & R7 & _); [done|unfold TH_ACK; lia|];
    assert (Rg : glob (respond_send a b c d e f g h) = glob b);
    [unfold respond_send; rewrite ip_output_eq; unfold ip_next; by rec_simpl|];
    set (kr := respond_send a b c d e f g h) in * end.
  clearbody kr. eexists _, pk. split; [reflexivity|]. rec_simpl. rewrite R5, u32_u32, Rg. done.
Qed.

Import Sample.

(** Three bytes, two of them outstanding *)
Lemma timer_rexmt_witness :
  let k := (k0 [7; 8; 9]) <t| snd_nxt := 1002 |> <t| snd_max := 1002 |> in
  exists k' qs p, timer_rexmt net0 k = Ret k' /\ sent k' = qs ++ [p] /\ ti_seq (pk_ti p) = 1000 /\
    pk_data p = ztake (Z.min 1460 (1460 - zlen (pk_opt p))) [7; 8; 9].
Proof.
  cbv zeta. set (k := _ <t| snd_max := 1002 |>).
  assert (Hk : snd_ok k 1000 1002 1002).
  { pose proof (snd_ok_k0 [7; 8; 9] ltac:(simpl; lia) ltac:(repeat constructor; vm_compute; congruence)) as H. destruct H.
    split; try done; try lia; by vm_compute. }
  destruct (timer_rexmt_ok net0 k 1000 1002 1002 tmpl0 Hk) as (k2 & k' & e & nxt' & mx' & ps & E & _ & _ & _ & _ & _ & _ & _ & _ & _ & _ & _ & Hse & Hps & Hp);
    try (vm_compute; intuition congruence).
  destruct Hp as (qs & p & -> & Hseq & Hd); try (vm_compute; intuition congruence). exists k', qs, p.
  split; [exact E|]. split; [by rewrite Hse; cbn [sent]; rewrite app_nil_r|]. split; [exact Hseq|exact Hd].
Defined.

Lemma timer_keep_witness :
  exists k' p, timer_keep net0 ((k0 []) <s| so_options := SO_KEEPALIVE |>) = Ret k' /\ sent k' = [p] /\ pkt_sum p = 0 /\
    decode_ti (chain_bytes (pk_m p)) = pk_ti p /\
    ti_seq (pk_ti p) = u32 999 /\ ti_ack (pk_ti p) = u32 5000 /\
    ti_flags (pk_ti p) = TH_ACK /\ tm_keep (tp k') = s16 150.
Proof.
  destruct (timer_keep_probe net0 ((k0 []) <s| so_options := SO_KEEPALIVE |>) tmpl0) as (k' & p & H);
    [vm_compute; intuition congruence|reflexivity|reflexivity|reflexivity|apply tmpl0_wf|reflexivity|].
  exists k', p. exact H.
Defined.

End TcpTimerOk.
