(* ===== verification/TcpUsrreq.v ===== *)
(** TCP user requests (src/sys/netinet/tcp_usrreq.c).

    [tcp_usrreq] is the routine for a socket that has a pcb; each request of the
    switch that does more than copy an address is a definition of its own.
    Binding and connecting the pcb are the operations of [InPcb], given to the
    requests that need them. *)
From S2P Require Import Prelude TcpSeq Mbuf SockBuf Socket TcpVar InPcb TcpHdr TcpSubr TcpOutput TcpInput TcpTimer.
Import TcpSeq Mbuf SockBuf Socket TcpVar InPcb TcpHdr TcpSubr TcpOutput TcpInput TcpTimer.

Module TcpUsrreq.

Definition EWOULDBLOCK : Z := 35.
Definition ENOPROTOOPT : Z := 42.
Definition EOPNOTSUPP : Z := 45.
Definition TCP_NODELAY : Z := 1.
Definition TCP_MAXSEG : Z := 2.

(** [tcp_usrclosed] *)
Definition tcp_usrclosed (net : net_env) (k : kst) : outcome kst :=
  let! k := match t_state (tp k) with
            | TCPS_CLOSED | TCPS_LISTEN | TCPS_SYN_SENT => tcp_close net (k <t| t_state := TCPS_CLOSED |>)
            | TCPS_SYN_RECEIVED | TCPS_ESTABLISHED => Ret (k <t| t_state := TCPS_FIN_WAIT_1 |>)
            | TCPS_CLOSE_WAIT => Ret (k <t| t_state := TCPS_LAST_ACK |>)
            | _ => Ret k
            end in
  Ret (if negb (gone k) && (st (t_state (tp k)) >=? st TCPS_FIN_WAIT_2)
       then k <| so := soisdisconnected (so k) |> else k).

(** [if (tp) error = tcp_output(tp)] *)
Definition output_if (net : net_env) (k : kst) : outcome (kst * Z) :=
  if gone k then Ret (k, 0) else tcp_output net k.

Definition tcp_disconnect (net : net_env) (k : kst) : outcome kst :=
  if st (t_state (tp k)) <? st TCPS_ESTABLISHED then tcp_close net k
  else if hasf (so_options (so k)) SO_LINGER && (so_linger (so k) =? 0) then tcp_drop net k 0
  else
    let k := k <| so := soisdisconnecting (so k) |> in
    let! (p, sb) := sbflush (pool k) (so_rcv (so k)) in
    let k := k <| pool := p |> <s| so_rcv := sb |> in
    let! k := tcp_usrclosed net k in
    let! (k, _) := output_if net k in Ret k.

(** [tcp_attach]: [inpok] and [tpok] are whether the allocations of the pcb and of
    the control block succeed. *)
Definition tcp_attach (g : tcp_globals) (p : mpool) (s : socket) (inpok tpok : bool)
    : outcome (mpool * socket * (Z + (inpcb * tcpcb))) :=
  let! (p, s, error) :=
    (if (sb_hiwat (so_snd s) =? 0) || (sb_hiwat (so_rcv s) =? 0)
     then soreserve (sb_max g) p s (tcp_sendspace g) (tcp_recvspace g) else Ret (p, s, 0)) in
  if negb (error =? 0) then Ret (p, s, inl error)
  else if negb inpok then Ret (p, s, inl ENOBUFS)
  else if negb tpok then Ret (p, s, inl ENOBUFS)
  else
    Ret (p, s, inr (mkInp 0 0 0 0 None [] (ip_defttl g) 0, tcp_newtcpcb g)).

(** The window scaling to request: enough shifts for the receive buffer. *)
Fixpoint request_scale (fuel : nat) (hiwat s : Z) : Z :=
  match fuel with
  | O => s
  | S fuel => if (s <? TCP_MAX_WINSHIFT) && (Z.shiftl TCP_MAXWIN s <? hiwat)
              then request_scale fuel hiwat (s + 1) else s
  end.

(** What PRU_BIND, PRU_LISTEN and PRU_CONNECT need: the pcb operations, and the
    value of TCP_ISSINCR. *)
Record uenv := mkUenv {
  ue_net : net_env;
  ue_bind : inpcb -> option (Z * Z) -> outcome (Z + inpcb);
  ue_connect : inpcb -> Z -> Z -> Z + inpcb;
  ue_issincr : Z
}.

Definition pru_bind (e : uenv) (k : kst) (nam : option (Z * Z)) : outcome (kst * Z) :=
  let! r := ue_bind e (inp k) nam in
  Ret match r with inl error => (k, error) | inr i => (k <| inp := i |>, 0) end.

Definition pru_listen (e : uenv) (k : kst) : outcome (kst * Z) :=
  let! (k, error) := (if inp_lport (inp k) =? 0 then pru_bind e k None else Ret (k, 0)) in
  Ret (if error =? 0 then k <t| t_state := TCPS_LISTEN |> else k, error).

(** [in_pcbdisconnect]: a socket without a file also loses its pcb. *)
Definition in_pcbdisconnect (k : kst) : outcome kst :=
  let k := k <i| inp_faddr := INADDR_ANY |> <i| inp_fport := 0 |> in
  if hasf (so_state (so k)) SS_NOFDREF then
    let! (p, s) := sofree (pool k) (so k) in Ret (k <| pool := p |> <| so := s |> <| gone := true |>)
  else Ret k.

Definition pru_connect (e : uenv) (k : kst) (addr port : Z) : outcome (kst * Z) :=
  let! (k, error) := (if inp_lport (inp k) =? 0 then pru_bind e k None else Ret (k, 0)) in
  if negb (error =? 0) then Ret (k, error)
  else
    match ue_connect e (inp k) addr port with
    | inl error => Ret (k, error)
    | inr i =>
        let k := k <| inp := i |> in
        let '(tmpl, k) := tcp_template k in
        let k := k <t| t_template := tmpl |> in
        match tmpl with
        | None => let! k := in_pcbdisconnect k in Ret (k, ENOBUFS)
        | Some _ =>
            let k := k <t| request_r_scale :=
              request_scale 15 (sb_hiwat (so_rcv (so k))) (request_r_scale (tp k)) |> in
            let k := k <| so := soisconnecting (so k) |> <t| t_state := TCPS_SYN_SENT |>
                       <t| tm_keep := TCPTV_KEEP_INIT |> in
            let k := k <t| iss := tcp_iss (glob k) |> in
            let k := k <| glob := (glob k) <| tcp_iss := u32 (tcp_iss (glob k) + ue_issincr e / 4) |> |> in
            tcp_output (ue_net e) (tcp_sendseqinit k)
        end
    end.

Definition pru_shutdown (net : net_env) (k : kst) : outcome (kst * Z) :=
  let k := k <| so := socantsendmore (so k) |> in
  let! k := tcp_usrclosed net k in output_if net k.

(** The data [m] is appended to the send buffer. *)
Definition append_snd (k : kst) (m : chain) : kst :=
  let '(p, sb) := sbappend (pool k) (so_snd (so k)) m in k <| pool := p |> <s| so_snd := sb |>.

Definition pru_send (net : net_env) (k : kst) (m : chain) : outcome (kst * Z) :=
  tcp_output net (append_snd k m).

(** [PRU_RCVOOB]: the out-of-band byte, unless it has been read. *)
Definition pru_rcvoob (k : kst) (peek : bool) : kst * (Z + Z) :=
  if ((so_oobmark (so k) =? 0) && negb (hasf (so_state (so k)) SS_RCVATMARK)) ||
     hasf (so_options (so k)) SO_OOBINLINE || hasf (t_oobflags (tp k)) TCPOOB_HADDATA
  then (k, inl EINVAL)
  else if negb (hasf (t_oobflags (tp k)) TCPOOB_HAVEDATA) then (k, inl EWOULDBLOCK)
  else (if peek then k
        else k <t| t_oobflags := Z.lxor (t_oobflags (tp k)) (Z.lor TCPOOB_HAVEDATA TCPOOB_HADDATA) |>,
        inr (t_iobc (tp k))).

Definition pru_sendoob (net : net_env) (k : kst) (m : chain) : outcome (kst * Z) :=
  if sbspace (so_snd (so k)) <? -512 then Ret (k <| pool := m_freem (pool k) m |>, ENOBUFS)
  else
    let k := append_snd k m in
    let k := k <t| snd_up := u32 (snd_una (tp k) + sb_cc (so_snd (so k))) |> in
    let! (k, error) := tcp_output net (k <t| t_force := 1 |>) in
    Ret (k <t| t_force := 0 |>, error).

(** [tcp_ctloutput], the options of level IPPROTO_TCP: [None] is a request
    without a value, and a value shorter than an [int] for [TCP_NODELAY]. *)
Definition ctl_set (k : kst) (optname : Z) (v : option Z) : kst * Z :=
  if optname =? TCP_NODELAY then
    match v with
    | None => (k, EINVAL)
    | Some v => (if negb (v =? 0) then tf_set TF_NODELAY k else tf_clr TF_NODELAY k, 0)
    end
  else if optname =? TCP_MAXSEG then
    match v with
    | Some i => if (i >? 0) && (i <=? t_maxseg (tp k)) then (k <t| t_maxseg := i |>, 0) else (k, EINVAL)
    | None => (k, EINVAL)
    end
  else (k, ENOPROTOOPT).
Definition ctl_get (k : kst) (optname : Z) : Z + Z :=
  if optname =? TCP_NODELAY then inr (Z.land (t_flags (tp k)) TF_NODELAY)
  else if optname =? TCP_MAXSEG then inr (t_maxseg (tp k))
  else inl ENOPROTOOPT.

(** The requests of a user or of the clock. *)
Inductive pru :=
| PRU_DETACH
| PRU_BIND (nam : option (Z * Z))
| PRU_LISTEN
| PRU_CONNECT (addr port : Z)
| PRU_CONNECT2
| PRU_DISCONNECT
| PRU_SHUTDOWN
| PRU_RCVD
| PRU_SEND (m : chain)
| PRU_ABORT
| PRU_SENDOOB (m : chain)
| PRU_SLOWTIMO (timer : tcptimer).

Definition tcp_usrreq (e : uenv) (k : kst) (req : pru) : outcome (kst * Z) :=
  let net := ue_net e in
  let ok (r : outcome kst) : outcome (kst * Z) := let! k := r in Ret (k, 0) in
  match req with
  | PRU_DETACH => ok (if st (t_state (tp k)) >? st TCPS_LISTEN then tcp_disconnect net k else tcp_close net k)
  | PRU_BIND nam => pru_bind e k nam
  | PRU_LISTEN => pru_listen e k
  | PRU_CONNECT addr port => pru_connect e k addr port
  | PRU_CONNECT2 => Ret (k, EOPNOTSUPP)
  | PRU_DISCONNECT => ok (tcp_disconnect net k)
  | PRU_SHUTDOWN => pru_shutdown net k
  | PRU_RCVD => let! (k, _) := tcp_output net k in Ret (k, 0)
  | PRU_SEND m => pru_send net k m
  | PRU_ABORT => ok (tcp_drop net k ECONNABORTED)
  | PRU_SENDOOB m => pru_sendoob net k m
  | PRU_SLOWTIMO timer => ok (tcp_timers net k timer)
  end.

End TcpUsrreq.
