(* ===== verification/TcpOptions.v ===== *)
(** Options and the segment size: tcp_dooptions terminates within its fuel and
    bounds the window scale, tcp_mss settles the segment size between the peer's
    offer and the path, and the window scale that a connection requests is the
    smallest that covers its receive buffer. *)
From S2P Require Import Prelude TcpSeq Mbuf SockBuf Socket TcpVar Sample InPcb TcpHdr TcpSubr TcpOutput TcpInput TcpTimer TcpUsrreq.
Import TcpSeq Mbuf SockBuf Socket TcpVar TcpHdr TcpSubr TcpOutput TcpInput TcpUsrreq.

Module TcpOptions.

(** ** tcp_dooptions *)

(** Every turn consumes at least a byte: one turn more than the option length is
    enough fuel, and more fuel changes nothing. *)
Lemma dooptions_fuel net fuel : forall k cp cnt f ts,
  cnt <= Z.of_nat fuel -> exists r, forall extra, dooptions_loop (S fuel + extra) net k cp cnt f ts = Ret r.
Proof.
  induction fuel as [|fuel IH]; intros k cp cnt f ts Hc.
  - exists (k, ts). intros extra. cbn [Nat.add dooptions_loop]. by rewrite (proj2 (Z.leb_le cnt 0)) by lia.
  - remember (S fuel) as fuel1 eqn:Ef. cbn [Nat.add dooptions_loop]. cbv zeta.
    destruct (cnt <=? 0); [by eexists|]. destruct (_ =? TCPOPT_EOL); [by eexists|].
    match goal with |- context [?n <=? 0] => destruct (Z.leb_spec n 0); [by eexists|] end.
    match goal with |- context [let '(_, _) := ?x in _] => destruct x as [k1 ts1] end. subst fuel1. apply IH. lia.
Qed.

(** The scale a peer asks for is at most TCP_MAX_WINSHIFT. *)
Lemma tcp_mss_scale net k o : requested_s_scale (tp (tcp_mss net k o).2) = requested_s_scale (tp k).
Proof.
  unfold tcp_mss. cbv zeta. set (k0 := match inp_route (inp k) with Some _ => k | None => _ end).
  assert (H0 : requested_s_scale (tp k0) = requested_s_scale (tp k)) by (unfold k0; destruct (inp_route (inp k)); [done|]; destruct (negb _); by rec_simpl).
  clearbody k0. destruct (inp_route (inp k0)) as [rt|]; [|done].
  assert (H1 : requested_s_scale (tp (mss_rtt k0 rt)) = requested_s_scale (tp k0)) by (unfold mss_rtt; cbv zeta; destruct (_ && _); [destruct (hasf _ _)|]; by rec_simpl).
  set (k1 := mss_rtt k0 rt) in *. clearbody k1.
  generalize (s32 (cmax (if negb (o =? 0) then s32 (cmin (mss_path net k1 rt) o) else mss_path net k1 rt) 32)). intros m.
  set (km := if (_ <? _) || _ then _ else _).
  assert (H2 : requested_s_scale (tp km.1) = requested_s_scale (tp k1)).
  { unfold km. destruct (_ || _); [|done]. unfold mss_buffers. cbv zeta.
    destruct (_ <? u32 m); destruct (_ >? _); cbn [fst]; by rec_simpl. }
  destruct km as [k2 m2]. cbn [fst] in H2. destruct (negb _); cbn [snd]; rec_simpl; congruence.
Qed.

(** What the options leave unchanged: the scale stays in its range, and without a SYN nothing
    of the connection changes. *)
Lemma dooptions_scale net fuel : forall k cp cnt f ts k' ts',
  dooptions_loop fuel net k cp cnt f ts = Ret (k', ts') ->
  0 <= requested_s_scale (tp k) <= TCP_MAX_WINSHIFT -> 0 <= requested_s_scale (tp k') <= TCP_MAX_WINSHIFT.
Proof.
  induction fuel as [|fuel IH]; intros k cp cnt f ts k' ts'; cbn [dooptions_loop]; [done|].
  destruct (cnt <=? 0); [by intros [= <- <-]|]. cbv zeta. destruct (_ =? TCPOPT_EOL); [by intros [= <- <-]|].
  destruct (_ <=? 0); [by intros [= <- <-]|].
  match goal with |- (let '(_, _) := ?x in _) = _ -> _ => set (kt := x) end. intros E Hs.
  assert (H : 0 <= requested_s_scale (tp kt.1) <= TCP_MAX_WINSHIFT).
  { unfold kt. destruct (_ && _); [cbn [fst]; by rewrite tcp_mss_scale|].
    destruct (_ && _).
    - unfold tf_set. cbn [fst]. rec_simpl. unfold TCP_MAX_WINSHIFT, cmin.
      pose proof (u32_range (get cp 2)). change (u32 14) with 14. destruct (Z.ltb_spec (u32 (get cp 2)) 14); lia.
    - destruct (_ && _); [|done]. destruct (hasf f TH_SYN); unfold tf_set; cbn [fst]; by rec_simpl. }
  destruct kt as [k1 ts1]. cbn [fst] in H. by eapply IH.
Qed.
Lemma dooptions_nosyn net fuel : forall k cp cnt f ts k' ts',
  dooptions_loop fuel net k cp cnt f ts = Ret (k', ts') -> hasf f TH_SYN = false -> k' = k.
Proof.
  induction fuel as [|fuel IH]; intros k cp cnt f ts k' ts' E Hf; cbn [dooptions_loop] in E; [done|]. cbv zeta in E.
  rewrite Hf, !andb_false_r in E. destruct (cnt <=? 0); [by injection E as <- <-|].
  destruct (_ =? TCPOPT_EOL); [by injection E as <- <-|]. destruct (_ <=? 0); [by injection E as <- <-|].
  destruct (_ && _) in E; by eapply IH.
Qed.

(** ** tcp_mss *)

(** Tcp_mss settles the segment size: on a route whose path admits at least 32
    bytes, the size is the smaller of the path's and the peer's offer, at least 32 and at
    most what the send buffer (or the route's pipe size) can hold; the connection uses it
    and starts with a congestion window of one segment. *)
Theorem tcp_mss_ok net k offer rt :
  inp_route (inp k) = Some rt -> 32 <= mss_path net k rt <= 65495 -> 0 < offer <= 65535 ->
  0 <= rmx_sendpipe rt < 4294967296 -> 0 <= sb_hiwat (so_snd (so k)) < 4294967296 ->
  let b := if rmx_sendpipe rt =? 0 then sb_hiwat (so_snd (so k)) else rmx_sendpipe rt in
  let '(mss, k') := tcp_mss net k offer in
  mss = Z.min b (Z.max 32 (Z.min (mss_path net k rt) offer)) /\
  t_maxseg (tp k') = mss /\ snd_cwnd (tp k') = mss.
Proof.
  intros Hr Hp Ho Hsp Hhw b. unfold tcp_mss. rewrite Hr. cbv zeta. rewrite Hr.
  assert (H1 : so (mss_rtt k rt) = so k /\ inp (mss_rtt k rt) = inp k /\ glob (mss_rtt k rt) = glob k).
  { unfold mss_rtt. cbv zeta. destruct (_ && _); [destruct (hasf _ _)|]; by rec_simpl. }
  destruct H1 as (S1 & I1 & G1).
  assert (Hmp : mss_path net (mss_rtt k rt) rt = mss_path net k rt) by (unfold mss_path; by rewrite I1, G1).
  rewrite Hmp. set (k1 := mss_rtt k rt) in *. clearbody k1.
  destruct (Z.eqb_spec offer 0); [lia|]. cbn [negb]. rewrite orb_true_r.
  rewrite (cmin_spec (mss_path net k rt)), (s32_id (Z.min _ _)), cmax_spec, s32_id by lia.
  set (m := Z.max (Z.min (mss_path net k rt) offer) 32).
  assert (Hm : 32 <= m <= 65535) by (unfold m; lia).
  replace (Z.max 32 (Z.min (mss_path net k rt) offer)) with m by (unfold m; lia). clearbody m.
  unfold mss_buffers. rewrite S1. fold b. rewrite (u32_id m) by lia.
  assert (Hb : 0 <= b < 4294967296) by (unfold b; case_match; lia). clearbody b.
  destruct (Z.ltb_spec b m).
  - rewrite (s32_id b) by lia. cbv zeta.
    match goal with |- context [if ?c >? u32 b then _ else _] => destruct (c >? u32 b) end;
      destruct (negb (rmx_ssthresh rt =? 0)); rec_simpl; rewrite (u16_id b), (u32_id b) by lia; split_and!; try done; lia.
  - cbv zeta. match goal with |- context [if ?c >? u32 m then _ else _] => destruct (c >? u32 m) end;
      destruct (negb (rmx_ssthresh rt =? 0)); rec_simpl; rewrite (u16_id m), ?(u32_id m) by lia; split_and!; try done; lia.
Qed.

(** ** The window scale *)

(** The window scale that tcp_usrreq requests on a connect is the smallest that
    lets a 16-bit window cover the receive buffer: the loop ends at a shift of at most
    TCP_MAX_WINSHIFT that covers it unless it is the maximum, and no smaller one does. *)
Theorem request_scale_ok fuel : forall hiwat s,
  0 <= s <= TCP_MAX_WINSHIFT -> TCP_MAX_WINSHIFT - s <= Z.of_nat fuel ->
  let r := request_scale fuel hiwat s in
  s <= r <= TCP_MAX_WINSHIFT /\ (r < TCP_MAX_WINSHIFT -> hiwat <= TCP_MAXWIN * 2 ^ r) /\
  (s < r -> TCP_MAXWIN * 2 ^ (r - 1) < hiwat).
Proof.
  induction fuel as [|fuel IH]; intros hiwat s Hs Hf; cbn [request_scale].
  - cbv zeta. lia.
  - rewrite Z.shiftl_mul_pow2 by lia.
    destruct (Z.ltb_spec s TCP_MAX_WINSHIFT), (Z.ltb_spec (TCP_MAXWIN * 2 ^ s) hiwat); cbn [andb]; try (cbv zeta; lia).
    specialize (IH hiwat (s + 1) ltac:(lia) ltac:(lia)). cbv zeta in *. destruct IH as (H1 & H2 & H3).
    split_and!; try lia; try done. intros _. destruct (Z.eq_dec (request_scale fuel hiwat (s + 1)) (s + 1)) as [E|E].
    + rewrite E. by replace (s + 1 - 1) with s by lia.
    + apply H3. lia.
Qed.

Import Sample.

Lemma tcp_mss_witness :
  let '(mss, k') := tcp_mss net0 (k0 []) 1200 in
  mss = 1200 /\ t_maxseg (tp k') = mss /\ snd_cwnd (tp k') = mss.
Proof.
  apply (tcp_mss_ok net0 (k0 []) 1200 rt0); vm_compute; intuition congruence.
Defined.

Lemma request_scale_witness : request_scale 14 200000 0 = 2 /\ 200000 <= TCP_MAXWIN * 2 ^ 2.
Proof.
  split; [reflexivity|]. apply (request_scale_ok 14 200000 0); vm_compute; intuition congruence.
Defined.

(** C38: tcp_dooptions terminates on any option bytes and bounds what a peer can ask for.
    Each turn of the loop consumes at least one byte, so the loop ends within one turn more
    than the option length (a loop that did not would be [OutOfFuel]) and more turns change
    nothing; this rests on the zero-length test, an option of length 0 ending the loop.  A window
    scale that it records is at most TCP_MAX_WINSHIFT, however large the option says; and on a
    segment without SYN it changes nothing of the connection, whatever the options. *)
Theorem dooptions_total net k cp cnt l :
  0 <= requested_s_scale (tp k) <= TCP_MAX_WINSHIFT ->
  exists k' l', tcp_dooptions net k cp cnt l = Ret (k', l') /\
    (forall extra, dooptions_loop (S (Z.to_nat cnt) + extra) net k cp cnt (ti_flags (i_ti l)) (i_ts l) = Ret (k', i_ts l')) /\
    0 <= requested_s_scale (tp k') <= TCP_MAX_WINSHIFT /\
    (hasf (ti_flags (i_ti l)) TH_SYN = false -> k' = k).
Proof.
  intros Hs. destruct (dooptions_fuel net (Z.to_nat cnt) k cp cnt (ti_flags (i_ti l)) (i_ts l)) as [[k' ts] E]; [lia|].
  pose proof (E O) as E0. rewrite Nat.add_0_r in E0. exists k', (l <| i_ts := ts |>). unfold tcp_dooptions. rewrite E0. cbn [obind].
  split_and!; [done|by rec_simpl|by eapply dooptions_scale|by eapply dooptions_scale|by eapply dooptions_nosyn].
Qed.

(** A segment with four bytes of options, an option of length 0 among them. *)
Definition optseg : ilocals := mkIl (tmpl0 <| ti_flags := TH_ACK |>) [] 0 24 None TH_ACK 0 None false false 0.

Lemma dooptions_witness :
  exists k' l', tcp_dooptions net0 (k0 []) [TCPOPT_NOP; 77; 0; 99] 4 optseg = Ret (k', l') /\
    (forall extra, dooptions_loop (S (Z.to_nat 4) + extra) net0 (k0 []) [TCPOPT_NOP; 77; 0; 99] 4 (ti_flags (i_ti optseg)) (i_ts optseg)
       = Ret (k', i_ts l')) /\
    0 <= requested_s_scale (tp k') <= TCP_MAX_WINSHIFT /\
    (hasf (ti_flags (i_ti optseg)) TH_SYN = false -> k' = k0 []).
Proof. apply (dooptions_total net0 (k0 []) [TCPOPT_NOP; 77; 0; 99] 4 optseg). vm_compute; intuition congruence. Defined.

End TcpOptions.
