(* ===== verification/TcpKernel.v ===== *)
(** All connections together: the first part of tcp_input (checksum, header,
    options prediction, findpcb, the creation of a connection on a listening
    socket), and the loops of tcp_slowtimo and tcp_fasttimo
    (src/sys/netinet/tcp_input.c, tcp_timer.c, sonewconn1 of uipc_socket2.c).

    A connection's routines run on the [kst] that [load] takes out of the kernel
    state; [store] puts the result back, or removes the connection when its
    control block is gone. *)
From S2P Require Import Prelude TcpSeq Mbuf Cksum SockBuf Socket TcpVar InPcb TcpHdr TcpSubr TcpReass TcpOutput TcpInput TcpTimer TcpUsrreq.
Import TcpSeq Mbuf Cksum SockBuf Socket TcpVar InPcb TcpHdr TcpSubr TcpReass TcpOutput TcpInput TcpTimer TcpUsrreq.

Module TcpKernel.

Record conn := mkConn {
  c_id : Z;   (* the pcb's address *)
  c_tp : tcpcb;
  c_inp : inpcb;
  c_so : socket;
  c_head : Z;   (* so_head: the id of the listening socket, 0 for none *)
  c_qlimit : Z   (* so_qlimit *)
}.
Definition eta_conn (r : conn) : conn :=
  mkConn (c_id r) (c_tp r) (c_inp r) (c_so r) (c_head r) (c_qlimit r).
#[global] Instance set_c_id : Setter c_id := ltac:(mk_setter eta_conn).
#[global] Instance set_c_tp : Setter c_tp := ltac:(mk_setter eta_conn).
#[global] Instance set_c_inp : Setter c_inp := ltac:(mk_setter eta_conn).
#[global] Instance set_c_so : Setter c_so := ltac:(mk_setter eta_conn).
#[global] Instance set_c_head : Setter c_head := ltac:(mk_setter eta_conn).
#[global] Instance set_c_qlimit : Setter c_qlimit := ltac:(mk_setter eta_conn).

Record kernel := mkKernel {
  k_conns : list conn;   (* tcb, newest first *)
  k_glob : tcp_globals;
  k_pool : mpool;
  k_sent : list packet;
  k_ip_err : list Z;
  k_last : Z;   (* tcp_last_inpcb, 0 for the list head *)
  k_nextid : Z;   (* the next pcb address *)
  k_closed : list socket   (* sockets whose control block is gone *)
}.
Definition eta_kernel (r : kernel) : kernel :=
  mkKernel (k_conns r) (k_glob r) (k_pool r) (k_sent r) (k_ip_err r) (k_last r) (k_nextid r)
    (k_closed r).
#[global] Instance set_k_conns : Setter k_conns := ltac:(mk_setter eta_kernel).
#[global] Instance set_k_glob : Setter k_glob := ltac:(mk_setter eta_kernel).
#[global] Instance set_k_pool : Setter k_pool := ltac:(mk_setter eta_kernel).
#[global] Instance set_k_sent : Setter k_sent := ltac:(mk_setter eta_kernel).
#[global] Instance set_k_ip_err : Setter k_ip_err := ltac:(mk_setter eta_kernel).
#[global] Instance set_k_last : Setter k_last := ltac:(mk_setter eta_kernel).
#[global] Instance set_k_nextid : Setter k_nextid := ltac:(mk_setter eta_kernel).
#[global] Instance set_k_closed : Setter k_closed := ltac:(mk_setter eta_kernel).

Definition load (K : kernel) (c : conn) : kst :=
  mkKst (c_tp c) (c_inp c) (c_so c) (k_glob K) (k_pool K) (k_sent K) (k_ip_err K) false.

(** The shared parts of a connection's state go back to the kernel. *)
Definition store_shared (K : kernel) (k : kst) : kernel :=
  K <| k_glob := glob k |> <| k_pool := pool k |> <| k_sent := sent k |> <| k_ip_err := ip_err k |>.
Definition store (K : kernel) (id : Z) (k : kst) : kernel :=
  let K := store_shared K k in
  if gone k then
    K <| k_conns := filter (fun c => c_id c <> id) (k_conns K) |>
      <| k_last := if k_last K =? id then 0 else k_last K |>
      <| k_closed := so k :: k_closed K |>
  else
    K <| k_conns := map (fun c => if c_id c =? id
                                  then c <| c_tp := tp k |> <| c_inp := inp k |> <| c_so := so k |> else c)
                        (k_conns K) |>.

(** ** The packet header *)

(** The header stage ends the packet ([H_return], [H_drop]) or yields the locals. *)
Inductive hres :=
| H_return
| H_drop (m : chain)
| H_ok (l : ilocals).

(** [m_pullup] if the first mbuf is shorter than [len]. *)
Definition pull (p : mpool) (max_protohdr : Z) (m : chain) (len : Z) : outcome (option chain * mpool) :=
  match m with
  | [] => Panic "tcp_input: null mbuf"
  | m1 :: _ => if m_len m1 <? len then m_pullup p max_protohdr m len else Ret (Some m, p)
  end.

(** The option bytes, and the quick retrieval of a timestamp option formatted as in
    appendix A of RFC 1323. *)
Definition predict_options (optp : list Z) (optlen flags : Z) : option (list Z) * option (Z * Z) :=
  if ((optlen =? TCPOLEN_TSTAMP_APPA) ||
      ((optlen >? TCPOLEN_TSTAMP_APPA) && (get optp 12 =? TCPOPT_EOL))) &&
     (rd32 optp 0 =? TCPOPT_TSTAMP_HDR) && negb (hasf flags TH_SYN)
  then (None, Some (rd32 optp 4, rd32 optp 8)) else (Some optp, None).

(** The checksum: the overlay is written over the IP header and the extended
    header and data are summed. *)
Definition check_sum (m : chain) (tlen : Z) : chain * Z :=
  match m with
  | [] => ([], 0)
  | m1 :: ms =>
      let m := m1 <| m_bytes := overlay tlen (m_bytes m1) |> :: ms in
      (m, in_cksum m (sizeof_ip + tlen))
  end.

Definition input_header (p : mpool) (max_protohdr : Z) (m : chain) (tlen : Z) : outcome (mpool * hres) :=
  let! (r, p) := pull p max_protohdr m sizeof_tcpiphdr in
  match r with
  | None => Ret (p, H_return)
  | Some m =>
      let '(m, sum) := check_sum m tlen in
      if negb (sum =? 0) then Ret (p, H_drop m)
      else
        let off := 4 * ti_off (decode_ti (match m with m1 :: _ => m_bytes m1 | [] => [] end)) in
        if (off <? sizeof_tcphdr) || (off >? tlen) then Ret (p, H_drop m)
        else
          let! (r, p) := (if off >? sizeof_tcphdr then pull p max_protohdr m (sizeof_ip + off) else Ret (Some m, p)) in
          match r with
          | None | Some [] => Ret (p, H_return)
          | Some (m1 :: ms) =>
              let ti := (decode_ti (m_bytes m1)) <| ti_len := s16 (tlen - off) |> <| ti_sum := 0 |> in
              let '(optp, ts) := if off >? sizeof_tcphdr
                                 then predict_options (zdrop sizeof_tcpiphdr (m_bytes m1)) (off - sizeof_tcphdr) (ti_flags ti)
                                 else (None, None) in
              Ret (p, H_ok (mkIl ti (m1 :: ms) (m_off m1) off optp (ti_flags ti) 0 ts false false 0))
          end
  end.

(** ** Finding the connection *)

Definition exact (i : inpcb) (ti : tcpiphdr) : bool :=
  (inp_lport i =? ti_dport ti) && (inp_fport i =? ti_sport ti) &&
  (inp_faddr i =? ti_src ti) && (inp_laddr i =? ti_dst ti).

Definition conn_of (K : kernel) (id : Z) : option conn :=
  List.find (fun c => c_id c =? id) (k_conns K).

(** The label findpcb: the one-entry cache, then in_pcblookup. *)
Definition findpcb (K : kernel) (ti : tcpiphdr) : kernel * option conn :=
  let miss :=
    match in_pcblookup c_inp (k_conns K) (ti_src ti) (ti_sport ti) (ti_dst ti) (ti_dport ti) true with
    | Some c => (K <| k_last := c_id c |>, Some c)
    | None => (K, None)
    end in
  match conn_of K (k_last K) with
  | Some c => if exact (c_inp c) ti then (K, Some c) else miss
  | None => miss
  end.

(** ** New connections *)

(** The lengths of the queues of the listening socket [id]. *)
Definition queue_len (K : kernel) (id : Z) (q : inq) : Z :=
  zlen (filter (fun c => c_head c = id /\ so_inq (c_so c) = q) (k_conns K)).

(** [sonewconn1(head, 0)]: the new connection is the first of the list. *)
Definition sonewconn (K : kernel) (h : conn) (inpok tpok : bool) : outcome (kernel * option conn) :=
  if queue_len K (c_id h) Q_complete + queue_len K (c_id h) Q_incomplete >? Z.quot (3 * c_qlimit h) 2
  then Ret (K, None)
  else
    let hs := c_so h in
    let s := mkSocket (clrb (so_options hs) SO_ACCEPTCONN) (so_linger hs) (setb (so_state hs) SS_NOFDREF) 0 0
               (mkSb 0 0 0 0 0 [] 0) (mkSb 0 0 0 0 0 [] 0) Q_incomplete [] in
    let! (p, s, _) := soreserve (sb_max (k_glob K)) (k_pool K) s (sb_hiwat (so_snd hs)) (sb_hiwat (so_rcv hs)) in
    let! (p, s, r) := tcp_attach (k_glob K) p s inpok tpok in
    let K := K <| k_pool := p |> in
    match r with
    | inl _ => Ret (K, None)
    | inr (i, t) =>
        let s := if hasf (so_options s) SO_LINGER && (so_linger s =? 0)
                 then s <| so_linger := TCP_LINGERTIME |> else s in
        let c := mkConn (k_nextid K) t i s (c_id h) 0 in
        Ret (K <| k_conns := c :: k_conns K |> <| k_nextid := k_nextid K + 1 |>, Some c)
    end.

(** The setting up of the connection created for a SYN on a listening socket;
    [srcroute] is the source route of the packet (ip_srcroute). *)
Definition embryonic (k : kst) (ti : tcpiphdr) (srcroute : list Z) : kst :=
  let k := k <i| inp_laddr := ti_dst ti |> <i| inp_lport := ti_dport ti |> <i| inp_options := srcroute |> in
  k <t| t_state := TCPS_LISTEN |>
    <t| request_r_scale := request_scale 15 (sb_hiwat (so_rcv (so k))) (request_r_scale (tp k)) |>.

(** What tcp_input gets from its surroundings. *)
Record kenv := mkKenv {
  ke_net : net_env;
  ke_conn : connenv;
  ke_issincr : Z;
  ke_srcroute : list Z;
  ke_max_protohdr : Z;
  ke_inpok : bool;
  ke_tpok : bool
}.
Definition ienv_of (E : kenv) (K : kernel) : ienv :=
  mkIenv (ke_net E) (fun i a p => pcbconnect c_inp (ke_conn E) (k_conns K) i a p) (ke_issincr E).

(** A state for the labels when there is no connection. *)
Definition no_conn (K : kernel) : kst :=
  mkKst (tcp_newtcpcb (k_glob K)) (mkInp 0 0 0 0 None [] 0 0)
    (mkSocket 0 0 0 0 0 (mkSb 0 0 0 0 0 [] 0) (mkSb 0 0 0 0 0 [] 0) Q_none [])
    (k_glob K) (k_pool K) (k_sent K) (k_ip_err K) true.

(** Unscale the window into a 32-bit value. *)
Definition unscale (t : tcpcb) (l : ilocals) : ilocals :=
  l <| i_tiwin := if negb (fl l TH_SYN) then Z.shiftl (ti_win (i_ti l)) (snd_scale t) else ti_win (i_ti l) |>.

(** The other connections: a pcb without a foreign address does not match itself
    when in_pcbconnect looks for a conflict. *)
Definition others (K : kernel) (id : Z) : kernel :=
  K <| k_conns := filter (fun d => c_id d <> id) (k_conns K) |>.

(** One passage from findpcb to the end: [inr] is a jump back to findpcb. *)
Definition run_segment (E : kenv) (K : kernel) (l : ilocals) : outcome (kernel + (kernel * ilocals)) :=
  let '(K, oc) := findpcb K (i_ti l) in
  let e := ienv_of E K in
  match oc with
  | None => let! k := label_dropwithreset e false (no_conn K) l in Ret (inl (store_shared K k))
  | Some c =>
      let finish K id (r : ires) :=
        let! r := input_end e r in
        Ret match r with
            | inl k => inl (store K id k)
            | inr (k, l) => inr (store K id k, l)
            end in
      if st_eqb (t_state (c_tp c)) TCPS_CLOSED then finish K (c_id c) (Goto L_drop (load K c) l)
      else
        let l := unscale (c_tp c) l in
        if hasf (so_options (c_so c)) SO_ACCEPTCONN then
          if negb (Z.land (i_tiflags l) (Z.lor TH_RST (Z.lor TH_ACK TH_SYN)) =? TH_SYN) then
            finish K (c_id c) (Goto (if fl l TH_ACK then L_dropwithreset else L_drop) (load K c) l)
          else
            let! (K, oc) := sonewconn K c (ke_inpok E) (ke_tpok E) in
            match oc with
            | None => finish K (c_id c) (Goto L_drop (load K c) l)
            | Some c =>
                let k := embryonic (load K c) (i_ti l) (ke_srcroute E) in
                let! r := input_segment (ienv_of E (others K (c_id c)))
                            k (l <| i_dropsocket := true |>) in
                finish K (c_id c) r
            end
        else
          let! r := input_segment (ienv_of E (others K (c_id c)))
                      (load K c) l in
          finish K (c_id c) r
  end.

Fixpoint run_segments (fuel : nat) (E : kenv) (K : kernel) (l : ilocals) : outcome kernel :=
  match fuel with
  | O => OutOfFuel
  | S fuel =>
      let! r := run_segment E K l in
      match r with inl K => Ret K | inr (K, l) => run_segments fuel E K l end
  end.

(** [tcp_input] of a packet without IP options; each jump back to findpcb removes a
    connection. *)
Definition tcp_input (E : kenv) (K : kernel) (m : chain) (tlen : Z) : outcome kernel :=
  let! (p, h) := input_header (k_pool K) (ke_max_protohdr E) m tlen in
  let K := K <| k_pool := p |> in
  match h with
  | H_return => Ret K
  | H_drop m => Ret (K <| k_pool := m_freem (k_pool K) m |>)
  | H_ok l => run_segments (2 + length (k_conns K)) E K l
  end.

(** ** The clock *)

(** A loop over the connections, each run on the state the others left. *)
Fixpoint each_conn (f : kst -> outcome kst) (ids : list Z) (K : kernel) : outcome kernel :=
  match ids with
  | [] => Ret K
  | id :: ids =>
      match conn_of K id with
      | None => each_conn f ids K
      | Some c => let! k := f (load K c) in each_conn f ids (store K id k)
      end
  end.

Definition tcp_slowtimo (net : net_env) (issincr : Z) (K : kernel) : outcome kernel :=
  let K := K <| k_glob := (k_glob K) <| tcp_maxidle := s32 (tcp_keepcnt (k_glob K) * tcp_keepintvl (k_glob K)) |> |> in
  let! K := each_conn (slow_conn net) (map c_id (k_conns K)) K in
  let g := k_glob K in
  Ret (K <| k_glob := g <| tcp_iss := u32 (tcp_iss g + issincr / PR_SLOWHZ) |> <| tcp_now := u32 (tcp_now g + 1) |> |>).

Definition tcp_fasttimo (net : net_env) (K : kernel) : outcome kernel :=
  each_conn (fast_conn net) (map c_id (k_conns K)) K.

End TcpKernel.
