(* ===== verification/TcpKernelOk.v ===== *)
(** The first part of tcp_input: the header of a packet that the other side built
    is accepted and read back, and the one-entry cache of findpcb is transparent. *)
From S2P Require Import Prelude TcpSeq Mbuf Cksum SockBuf Socket TcpVar Sample InPcb TcpHdr TcpSubr TcpReass TcpOutput TcpOutputOk TcpInput TcpTimer TcpUsrreq TcpKernel.
Import TcpSeq Mbuf Cksum SockBuf Socket TcpVar InPcb TcpHdr TcpSubr TcpReass TcpOutput TcpOutputOk TcpInput TcpTimer TcpUsrreq TcpKernel.

Module TcpKernelOk.

(** ** The header *)

(** The bytes of a segment on the wire: IP has overwritten the first 12 bytes,
    the protocol number apart. *)
Definition wire (iph : list Z) (ti : tcpiphdr) (opt data : list Z) : list Z :=
  iph ++ drop 12 (encode_ti ti ++ opt ++ data).

Lemma overlay_wire tlen iph ti rest :
  length iph = 12%nat -> get iph 9 = 6 -> tlen = ti_len ti ->
  overlay tlen (iph ++ drop 12 (encode_ti ti ++ rest)) = encode_ti ti ++ rest.
Proof.
  intros Hl H9 ->. unfold overlay.
  assert (E9 : get (iph ++ drop 12 (encode_ti ti ++ rest)) 9 = 6).
  { unfold get in *. rewrite app_nth1; [done|lia]. }
  rewrite E9, drop_app_length' by done. reflexivity.
Qed.

(** A prefix of the wire bytes that covers the header. *)
Lemma overlay_prefix tlen iph ti opt data b rest :
  length iph = 12%nat -> get iph 9 = 6 -> tlen = ti_len ti -> 40 <= zlen b ->
  b ++ rest = wire iph ti opt data ->
  exists b', overlay tlen b = encode_ti ti ++ b' /\ b' ++ rest = opt ++ data /\ zlen (overlay tlen b) = zlen b.
Proof.
  intros Hl H9 Ht Hb E. unfold wire in E.
  assert (Hbl : (40 <= length b)%nat) by (unfold zlen in Hb; lia).
  rewrite drop_app_le, app_assoc in E by (rewrite encode_len; lia). set (H := iph ++ drop 12 (encode_ti ti)) in *.
  assert (HH : length H = 40%nat) by (unfold H; rewrite length_app, length_drop, encode_len; lia).
  assert (E1 : take 40 b = H).
  { apply (f_equal (take 40)) in E. by rewrite take_app_le, take_app_length' in E by lia. }
  assert (E2 : drop 40 b ++ rest = opt ++ data).
  { apply (f_equal (drop 40)) in E. by rewrite drop_app_le, drop_app_length' in E by lia. }
  exists (drop 40 b).
  assert (Eo : overlay tlen b = encode_ti ti ++ drop 40 b).
  { rewrite <- (take_drop 40 b) at 1. rewrite E1. unfold H. rewrite <- app_assoc.
    rewrite <- (drop_app_le (encode_ti ti)) by (rewrite encode_len; lia). by apply overlay_wire. }
  split_and!; [done|done|]. rewrite Eo. unfold zlen. rewrite length_app, length_drop, encode_len. lia.
Qed.

(** The header stage on a segment whose checksum verifies, with the first 12 bytes
    rewritten by IP, whatever the split over mbufs after the headers. *)
Lemma input_header_ok p mph m1 ms iph ti opt data :
  ti_wf ti -> Forall is_byte (opt ++ data) -> ti_len ti = 20 + zlen opt + zlen data -> ti_off ti * 4 = 20 + zlen opt ->
  cksum_ref (encode_ti ti ++ opt ++ data) = 0 ->
  length iph = 12%nat -> get iph 9 = 6 -> chain_bytes (m1 :: ms) = wire iph ti opt data -> 40 + zlen opt <= m_len m1 ->
  exists l, input_header p mph (m1 :: ms) (ti_len ti) = Ret (p, H_ok l) /\
    i_ti l = ti <| ti_len := zlen data |> <| ti_sum := 0 |> /\ i_tiflags l = ti_flags ti /\
    chain_bytes (drop_headers l) = data /\ i_off l = 20 + zlen opt /\
    (i_optp l, i_ts l) = (if zlen opt =? 0 then (None, None)
                          else predict_options (zdrop 40 (overlay (ti_len ti) (m_bytes m1))) (zlen opt) (ti_flags ti)) /\
    ztake (zlen opt) (zdrop 40 (overlay (ti_len ti) (m_bytes m1))) = opt /\
    (Forall m_wf (m1 :: ms) -> Forall m_wf (drop_headers l)).
Proof.
  intros Hwf Hby Hlen Hoff Hck Hil H9 Hb Hm1.
  rewrite chain_bytes_cons in Hb.
  destruct (overlay_prefix (ti_len ti) iph ti opt data (m_bytes m1) (chain_bytes ms)) as (b' & Eo & Eb & El); try done.
  { unfold m_len in Hm1. pose proof (zlen_nonneg opt). lia. }
  pose proof (zlen_nonneg opt) as Ho0. pose proof (zlen_nonneg data) as Hd0. pose proof (wf_len _ Hwf) as Hlw.
  unfold input_header, pull. change sizeof_tcpiphdr with 40.
  destruct (Z.ltb_spec (m_len m1) 40); [lia|]. cbn [obind check_sum].
  set (m1' := m1 <| m_bytes := overlay (ti_len ti) (m_bytes m1) |>).
  assert (Em : m_bytes m1' = encode_ti ti ++ b') by (unfold m1'; rec_simpl; done).
  assert (Eml : m_len m1' = m_len m1) by (unfold m_len, m1'; rec_simpl; done).
  assert (Eov : overlay (ti_len ti) (m_bytes m1) = m_bytes m1') by done. rewrite Eov.
  assert (Emo : m_off m1' = m_off m1) by done.
  assert (Ewf : m_wf m1 -> m_wf m1') by (unfold m_wf; by rewrite Eml, Emo). clearbody m1'.
  assert (Ech : chain_bytes (m1' :: ms) = encode_ti ti ++ opt ++ data).
  { rewrite chain_bytes_cons, Em, <- app_assoc, Eb. done. }
  change sizeof_ip with 20. rewrite in_cksum_spec.
  2: { rewrite Ech. apply Forall_app. split; [apply encode_bytes|done]. }
  2: { lia. }
  rewrite Ech, ztake_ge by (rewrite !zlen_app; change (zlen (encode_ti ti)) with 40; lia). rewrite Hck. cbn [Z.eqb negb].
  rewrite Em, decode_app, decode_encode by done.
  replace (4 * ti_off ti) with (20 + zlen opt) by lia. change sizeof_tcphdr with 20.
  destruct (Z.ltb_spec (20 + zlen opt) 20); [lia|]. destruct (Z.gtb_spec (20 + zlen opt) (ti_len ti)); [lia|]. cbn [orb].
  destruct (Z.ltb_spec (m_len m1') (20 + (20 + zlen opt))); [lia|].
  assert (Ep : forall (A : Type) (x : A), (if 20 + zlen opt >? 20 then x else x) = x) by (intros; by destruct (_ >? _)).
  rewrite Ep. cbn [obind]. rewrite Em, decode_app, decode_encode by done.
  rewrite (s16_id (ti_len ti - (20 + zlen opt))) by lia. replace (ti_len ti - (20 + zlen opt)) with (zlen data) by lia.
  replace (20 + zlen opt - 20) with (zlen opt) by lia. rec_simpl.
  assert (Ed : zdrop 40 (encode_ti ti ++ b') = b') by (rewrite zdrop_app_ge; [by rewrite zdrop_le0|done]).
  rewrite Ed. set (op := if 20 + zlen opt >? 20 then _ else _).
  assert (Eop : op = if zlen opt =? 0 then (None, None) else predict_options b' (zlen opt) (ti_flags ti)).
  { unfold op. destruct (Z.gtb_spec (20 + zlen opt) 20), (Z.eqb_spec (zlen opt) 0); try done; lia. }
  clearbody op. destruct op as [optp ts]. eexists. split; [reflexivity|]. cbn [i_ti i_tiflags i_off i_optp i_ts].
  assert (Hb' : zlen opt <= zlen b').
  { assert (zlen (m_bytes m1') = 40 + zlen b') by (rewrite Em, zlen_app; done). unfold m_len in *. lia. }
  split_and!; try done.
  - unfold drop_headers. cbn [i_off i_m]. change sizeof_tcpiphdr with 40. change sizeof_tcphdr with 20.
    replace (40 + (20 + zlen opt) - 20) with (40 + zlen opt) by lia. rewrite chain_bytes_cons. rec_simpl. rewrite Em.
    rewrite zdrop_app_ge by (change (zlen (encode_ti ti)) with 40; lia). change (zlen (encode_ti ti)) with 40.
    replace (40 + zlen opt - 40) with (zlen opt) by lia.
    apply (f_equal (zdrop (zlen opt))) in Eb. rewrite zdrop_app_le in Eb by done. rewrite Eb.
    rewrite zdrop_app_ge, Z.sub_diag by lia. by apply zdrop_le0.
  - apply (f_equal (ztake (zlen opt))) in Eb. rewrite ztake_app_le in Eb by done. rewrite Eb.
    rewrite ztake_app_le by lia. by apply ztake_ge.
  - intros [Hw1 Hws]%Forall_cons_iff. unfold drop_headers. cbn [i_off i_m]. apply Forall_cons_iff. split; [|done].
    apply drop_wf; [by apply Ewf|]. unfold sizeof_tcpiphdr, sizeof_tcphdr. rewrite Eml. lia.
Qed.

(** ** The connection *)

(** No two connections have the four addresses of the segment. *)
Definition unique_match (K : kernel) (ti : tcpiphdr) : Prop :=
  forall c d, c ∈ k_conns K -> d ∈ k_conns K -> exact (c_inp c) ti = true -> exact (c_inp d) ti = true -> c = d.

(** The one-entry cache of tcp_input is transparent: for a segment whose four
    addresses belong to at most one connection, the connection found through the cache
    is the one in_pcblookup finds, whatever the cache holds (a closed connection
    included). *)
Theorem findpcb_cached K ti :
  ti_src ti <> 0 -> unique_match K ti ->
  snd (findpcb K ti) = in_pcblookup c_inp (k_conns K) (ti_src ti) (ti_sport ti) (ti_dst ti) (ti_dport ti) true.
Proof.
  intros Hs Hu. unfold findpcb.
  destruct (conn_of K (k_last K)) as [c|] eqn:Ec; [destruct (exact (c_inp c) ti) eqn:Ex|]; cbn [snd].
  2, 3: by destruct (in_pcblookup _ _ _ _ _ _ _).
  apply List.find_some in Ec as [Hin%list_elem_of_In _]. symmetry.
  apply lookup_exact4; try done. intros y Hy Ey. by apply Hu.
Qed.

Import Sample.

(** A segment with three bytes of data, as it arrives. *)
Definition sum0 : Z := cksum_ref (encode_ti (mkTi 23 20 10 80 1024 5000 1000 5 TH_ACK 8192 0 0) ++ [1; 2; 3]).
Definition arriving : tcpiphdr := mkTi 23 20 10 80 1024 5000 1000 5 TH_ACK 8192 sum0 0.
Definition iph0 : list Z := [69; 0; 0; 43; 0; 1; 0; 0; 64; 6; 18; 52].
Definition arriving_m : mbuf := mkMbuf 8 (wire iph0 arriving [] [1; 2; 3]) MT_HEADER M_PKTHDR 43 1 0 0.

(** The sample segment is accepted. *)
Example input_header_sample :
  exists l, input_header p0 40 [arriving_m] 23 = Ret (p0, H_ok l) /\
    i_ti l = arriving <| ti_len := 3 |> <| ti_sum := 0 |> /\ i_tiflags l = TH_ACK /\
    chain_bytes (drop_headers l) = [1; 2; 3].
Proof.
  destruct (input_header_ok p0 40 arriving_m [] iph0 arriving [] [1; 2; 3]) as (l & H1 & H2 & H3 & H4 & _);
    [split; vm_compute; intuition congruence|repeat constructor; vm_compute; congruence|reflexivity..|vm_compute; congruence|].
  exists l. split_and!; [exact H1|exact H2|exact H3|exact H4].
Qed.

(** A kernel with the sample connection and a listening socket on its port. *)
Definition conns0 : list conn :=
  [mkConn 2 tp0 (mkInp 0 0 0 1024 None [] 64 0) (so0 []) 0 5; mkConn 1 tp0 inp0 (so0 []) 0 0].
Definition kernel0 : kernel := mkKernel conns0 g0 p0 [] [] 1 3 [].

Lemma unique_kernel0 : unique_match kernel0 arriving.
Proof.
  intros c d Hc Hd. apply list_elem_of_In in Hc, Hd. simpl in Hc, Hd.
  destruct Hc as [<-|[<-|[]]], Hd as [<-|[<-|[]]]; vm_compute; congruence.
Qed.

Lemma findpcb_witness :
  snd (findpcb kernel0 arriving) = in_pcblookup c_inp conns0 20 80 10 1024 true.
Proof. apply (findpcb_cached kernel0 arriving); [discriminate|apply unique_kernel0]. Defined.

End TcpKernelOk.
