(* ===== verification/TcpPath.v ===== *)
(** From one end to the other: the segments that tcp_output hands to IP on the sending
    side, run through tcp_input on the receiving side.

    The network may lose, repeat and reorder the packets; IP rewrites the first 12
    bytes of each (the IP header, the addresses apart) and the driver lays it out over
    mbufs anew.  The receiver is a kernel with any connections, one of which is the other
    end.  Its stream is the sender's send buffer. *)
From S2P Require Import Prelude TcpSeq Mbuf Cksum SockBuf Socket TcpVar Sample InPcb TcpHdr TcpSubr TcpReass TcpOutput TcpOutputOk TcpInput TcpInputOk TcpStream TcpFsm TcpDeliver TcpKernel TcpKernelOk.
Import TcpSeq Mbuf Cksum SockBuf Socket TcpVar InPcb TcpHdr TcpSubr TcpReass TcpOutput TcpOutputOk TcpInput TcpInputOk TcpStream TcpFsm TcpDeliver TcpKernel TcpKernelOk.

Module TcpPath.

(** A packet as ip_input passes it to tcp_input: the chain and the length it read from
    the IP header. *)
Definition arrival : Type := chain * Z.

(** The packets through tcp_input, one after the other. *)
Fixpoint input_all (E : kenv) (K : kernel) (xs : list arrival) : outcome kernel :=
  match xs with
  | [] => Ret K
  | x :: xs => let! K := tcp_input E K x.1 x.2 in input_all E K xs
  end.

(** ** The receiving connection among the others *)

Section Serve.
Context (str : Z -> Z) (eos n0 hi0 hiwat una : Z) (inp0 : inpcb).
Context (Heos : hi0 < eos) (Hhi0 : hi0 - n0 < 268435456) (Hhiwat : 0 <= hiwat < 536870912) (Hfa : inp_faddr inp0 <> 0).

(** Connection [id] of the kernel takes in the stream, and no other one has its addresses. *)
Record serving (K : kernel) (id : Z) (c : conn) (n hi : Z) (g : list (Z * seg)) (nxt mx rec : Z) : Prop := {
  sv_in : c ∈ k_conns K;
  sv_id : c_id c = id;
  sv_only : forall d ti, d ∈ k_conns K -> c_id d = id \/ (exact inp0 ti = true /\ exact (c_inp d) ti = true) -> d = c;
  sv_taking : taking str eos n0 hi0 hiwat una inp0 (load K c) n hi g nxt mx rec
}.

Lemma findpcb_serving K id c n hi g nxt mx rec ti : serving K id c n hi g nxt mx rec -> exact inp0 ti = true ->
  exists K1, findpcb K ti = (K1, Some c) /\ (K1 = K \/ K1 = K <| k_last := c_id c |>).
Proof.
  intros [Hin Hid Hu Ht] He. pose proof (ta_inp _ _ _ _ _ _ _ _ _ _ _ _ _ _ Ht) as Hi. change (c_inp c = inp0) in Hi.
  assert (Hc : exact (c_inp c) ti = true) by (by rewrite Hi).
  assert (Hs : ti_src ti <> 0).
  { unfold exact in He. rewrite !andb_true_iff in He. destruct He as [[_ He%Z.eqb_eq] _]. congruence. }
  assert (Hl : in_pcblookup c_inp (k_conns K) (ti_src ti) (ti_sport ti) (ti_dst ti) (ti_dport ti) true = Some c).
  { apply lookup_exact4; try done. intros y Hy Ey. apply (Hu y ti Hy). by right. }
  unfold findpcb. rewrite Hl. destruct (conn_of K (k_last K)) as [d|] eqn:Ed; [|by eauto].
  destruct (exact (c_inp d) ti) eqn:Ex; [|by eauto]. exists K. split; [|by left].
  apply List.find_some in Ed as [Hd%list_elem_of_In _]. do 2 f_equal. apply (Hu d ti Hd). by right.
Qed.

(** A header that is read as a segment at position [a] of the stream, with timestamp [stamp]. *)
Record fits (a : Z) (stamp : option Z) (l : ilocals) : Prop := {
  ft_to : exact inp0 (i_ti l) = true;
  ft_win : 0 <= ti_win (i_ti l) < 65536;
  ft_stamp : fst <$> i_ts l = stamp;
  ft_in : forall rec w, (forall v, stamp = Some v -> TSTMP_GEQ v rec = true) -> 0 <= w < 2147483648 ->
    incoming str eos n0 hi0 una a rec (l <| i_tiwin := w |>)
}.

Lemma unscale_fits t a stamp l rec : fits a stamp l -> 0 <= snd_scale t <= 14 -> (forall v, stamp = Some v -> TSTMP_GEQ v rec = true) ->
  incoming str eos n0 hi0 una a rec (unscale t l).
Proof.
  intros [_ Hw _ Hi] Hs Hv. unfold unscale. apply Hi; [done|].
  assert (0 <= Z.shiftl (ti_win (i_ti l)) (snd_scale t) < 2147483648); [|case_match; lia].
  rewrite Z.shiftl_mul_pow2 by lia. pose proof (Z.pow_le_mono_r 2 (snd_scale t) 14 ltac:(lia) ltac:(lia)). pose proof (Z.pow_pos_nonneg 2 (snd_scale t) ltac:(lia) ltac:(lia)).
  change (2 ^ 14) with 16384 in *. nia.
Qed.

(** The state of a connection put back among the others. *)
Lemma serving_store K id c n hi g nxt mx rec k n' hi' g' nxt' mx' rec' : serving K id c n hi g nxt mx rec ->
  taking str eos n0 hi0 hiwat una inp0 k n' hi' g' nxt' mx' rec' ->
  exists c', serving (store K id k) id c' n' hi' g' nxt' mx' rec' /\ load (store K id k) c' = k.
Proof.
  intros [Hin Hid Hu Ht] Hk. pose proof (ta_live _ _ _ _ _ _ _ _ _ _ _ _ _ _ Hk) as Hg. pose proof (ta_inp _ _ _ _ _ _ _ _ _ _ _ _ _ _ Hk) as Hi.
  set (up := fun d : conn => if c_id d =? id then d <| c_tp := tp k |> <| c_inp := inp k |> <| c_so := so k |> else d).
  assert (Ec : k_conns (store K id k) = map up (k_conns K)) by (unfold store; rewrite Hg; by unfold store_shared; rec_simpl).
  assert (El : load (store K id k) (up c) = k).
  { unfold up. rewrite Hid, Z.eqb_refl. unfold load, store. rewrite Hg. unfold store_shared. rec_simpl. destruct k. cbn [gone] in Hg. by rewrite Hg. }
  exists (up c). split; [|done]. assert (Eid : forall d, c_id (up d) = c_id d) by (intros d; unfold up; by destruct (_ =? _)).
  split; [|by rewrite Eid| |by rewrite El].
  - rewrite Ec. apply list_elem_of_In, in_map. by apply list_elem_of_In.
  - intros d ti Hd Hx. rewrite Ec in Hd. apply list_elem_of_In, in_map_iff in Hd as (d0 & <- & Hd0%list_elem_of_In). f_equal.
    rewrite Eid in Hx. destruct (Z.eq_dec (c_id d0) id) as [E|E]; [apply (Hu d0 ti); auto|]. destruct Hx as [?|[Hx1 Hx2]]; [done|].
    apply (Hu d0 ti Hd0). right. split; [done|]. revert Hx2. unfold up. by destruct (Z.eqb_spec (c_id d0) id).
Qed.

(** One packet through tcp_input. *)
Lemma serve_one E K id c n hi g nxt mx rec m tlen l a stamp : serving K id c n hi g nxt mx rec -> fits a stamp l ->
  (forall v, stamp = Some v -> TSTMP_GEQ v rec = true) ->
  input_header (k_pool K) (ke_max_protohdr E) m tlen = Ret (k_pool K, H_ok l) ->
  exists K' c' n' hi' g' nxt' mx' rec', tcp_input E K m tlen = Ret K' /\ serving K' id c' n' hi' g' nxt' mx' rec' /\
    delivered str n0 (load K c) (load K' c') n n' g g' a (ti_len (i_ti l)) /\ (rec' = rec \/ stamp = Some rec').
Proof.
  intros HK Hf Hv Eh. unfold tcp_input. rewrite Eh. cbn [obind]. assert (K <| k_pool := k_pool K |> = K) as -> by (by destruct K).
  cbn [Nat.add run_segments]. unfold run_segment. destruct (findpcb_serving _ _ _ _ _ _ _ _ _ _ HK (ft_to _ _ _ Hf)) as (K1 & -> & HK1).
  assert (HK1' : serving K1 id c n hi g nxt mx rec /\ load K1 c = load K c).
  { destruct HK1 as [->| ->]; [done|]. split; [|done]. destruct HK as [H1 H2 H3 H4]. by split. }
  clear HK HK1. destruct HK1' as [HK El]. pose proof (sv_taking _ _ _ _ _ _ _ _ _ HK) as Ht.
  assert (He : t_state (c_tp c) = TCPS_ESTABLISHED) by (exact (ta_est _ _ _ _ _ _ _ _ _ _ _ _ _ _ Ht)). rewrite He. cbn [st_eqb].
  assert (Ho : hasf (so_options (c_so c)) SO_ACCEPTCONN = false) by (exact (ta_opts _ _ _ _ _ _ _ _ _ _ _ _ _ _ Ht)). rewrite Ho.
  pose proof (unscale_fits (c_tp c) a stamp l rec Hf (ta_scale _ _ _ _ _ _ _ _ _ _ _ _ _ _ Ht) Hv) as Hi.
  destruct (segment_ok str eos n0 hi0 hiwat una inp0 Heos Hhi0 Hhiwat (ienv_of E (others K1 (c_id c))) (ienv_of E K1) _ _ _ _ _ _ _ _ _ Ht Hi)
    as (k' & n' & hi' & g' & nxt' & mx' & rec' & Es & Hk' & Hd & Hr).
  unfold segment in Es. destruct (input_segment _ _ _) as [r| |]; [|done|done]. cbn [obind] in Es |- *. rewrite Es. cbn [obind].
  rewrite (sv_id _ _ _ _ _ _ _ _ _ HK). destruct (serving_store _ _ _ _ _ _ _ _ _ _ _ _ _ _ _ _ HK Hk') as (c' & HK' & Ec').
  exists (store K1 id k'), c', n', hi', g', nxt', mx', rec'. split_and!; try done.
  - rewrite Ec', <- El. exact Hd.
  - destruct Hr as [Hr|(v & x & Ev & ->)]; [by left|right]. rewrite <- (ft_stamp _ _ _ Hf). change (i_ts (unscale (c_tp c) l)) with (i_ts l) in Ev. by rewrite Ev.
Qed.

End Serve.

(** ** The sender's buffer as a stream *)

Definition buf_str (una : Z) (bytes : list Z) (z : Z) : Z := nth (Z.to_nat (z - una)) bytes 0.

Lemma map_nth_sub (bytes : list Z) n : forall i, (i + n <= length bytes)%nat ->
  map (fun j => nth j bytes 0) (seq i n) = take n (drop i bytes).
Proof.
  induction n as [|n IH]; intros i Hi; [done|]. simpl. rewrite IH by lia.
  destruct (lookup_lt_is_Some_2 bytes i ltac:(lia)) as [x Hx].
  rewrite (nth_lookup_Some _ _ _ _ Hx), (drop_S _ _ _ Hx). done.
Qed.

Lemma bytes_at_buf una bytes s n :
  una <= s -> 0 <= n -> s - una + n <= zlen bytes -> bytes_at (buf_str una bytes) s n = zsub (s - una) n bytes.
Proof.
  intros Hs Hn He. unfold bytes_at, zsub, ztake, zdrop. unfold zlen in He.
  rewrite <- map_nth_sub by lia. unfold seqZ, buf_str.
  apply list_eq. intros i. rewrite list_lookup_fmap, list_lookup_fmap.
  change (map (fun j => nth j bytes 0)) with (fmap (M := list) (fun j => nth j bytes 0)). rewrite list_lookup_fmap.
  destruct (decide (i < Z.to_nat n)%nat).
  - rewrite !lookup_seq_lt by done. simpl. do 2 f_equal. lia.
  - rewrite !lookup_seq_ge by lia. done.
Qed.

Lemma decode_wf l : Forall is_byte l -> ti_wf (decode_ti l).
Proof.
  intros Hl.
  assert (Hg : forall i, 0 <= get l i < 256).
  { intros i. unfold get. destruct (nth_in_or_default i l 0) as [Hi|Hi]; [|rewrite Hi; lia].
    by apply (proj1 (List.Forall_forall _ _) Hl). }
  assert (H2 : forall i, 0 <= rd16 l i < 65536).
  { intros i. unfold rd16. pose proof (Hg i). pose proof (Hg (i + 1)%nat). lia. }
  assert (H4 : forall i, 0 <= rd32 l i < 4294967296).
  { intros i. unfold rd32. pose proof (Hg i). pose proof (Hg (i + 1)%nat). pose proof (Hg (i + 2)%nat).
    pose proof (Hg (i + 3)%nat). lia. }
  split; cbn [decode_ti ti_len ti_src ti_dst ti_sport ti_dport ti_seq ti_ack ti_off ti_flags ti_win ti_sum ti_urp]; auto using s16_range.
  - pose proof (Hg 32%nat). Z.to_euclidean_division_equations. lia.
  - pose proof (Hg 36%nat). pose proof (Hg 37%nat). lia.
Qed.

(** ** One packet *)

(** What arrives is packet [p] after the network. *)
Record delivers (p : packet) (x : arrival) : Prop := {
  dv_len : x.2 = ti_len (pk_ti p);
  dv_wire : exists iph, length iph = 12%nat /\ get iph 9 = 6 /\ chain_bytes x.1 = wire iph (pk_ti p) (pk_opt p) (pk_data p);
  dv_head : exists m1 ms, x.1 = m1 :: ms /\ 40 + zlen (pk_opt p) <= m_len m1;
  dv_wf : Forall m_wf x.1
}.

(** The timestamp that the packet carries. *)
Definition tstamp (p : packet) : option Z := match pk_opt p with [] => None | o => Some (rd32 o 4) end.

(** The packet [p] is a segment of the stream [w], whose first byte has number [base], as the
    stream was when the packet was sent. *)
Definition carries (base : Z) (w : list Z) (p : packet) : Prop :=
  exists j wnd mss ack tm, 0 <= j <= zlen w /\ mss <= 32000 /\ seg_ok (ztake j w) base wnd mss ack tm p.

(** The options of such a packet are read by the quick retrieval. *)
Lemma predict_plain opt X flags : plain_opt opt -> opt <> [] -> ztake (zlen opt) X = opt -> hasf flags TH_SYN = false ->
  exists v, predict_options X (zlen opt) flags = (None, Some (rd32 opt 4, v)).
Proof.
  intros [?|(v & w & ->)] Hne HX Hs; [done|]. change (zlen _) with 12 in *. rewrite <- (ztake_zdrop 12 X), HX. unfold predict_options.
  rewrite Hs. exists (rd32 (be32 TCPOPT_TSTAMP_HDR ++ be32 v ++ be32 w) 8). reflexivity.
Qed.

Section Read.
Context (base : Z) (w : list Z) (n hi una : Z) (i : inpcb) (Hw : zlen w < 1000000000) (Hn2 : n - base < 268435456).

(** A copy of a data packet of the stream: its position, the packet and what arrived.  The
    packet carries no FIN and no urgent pointer, lies in the window up to [hi], is addressed
    to the connection [i] and acknowledges nothing that is new there. *)
Record copies (ps : list packet) (y : Z * packet * arrival) : Prop := {
  cp_sent : y.1.2 ∈ ps;
  cp_seq : ti_seq (pk_ti y.1.2) = u32 y.1.1;
  cp_pos : base <= y.1.1 <= base + zlen w + 1;
  cp_data : pk_data y.1.2 <> [];
  cp_plain : hasf (ti_flags (pk_ti y.1.2)) (Z.lor TH_FIN TH_URG) = false;
  cp_hi : y.1.1 + zlen (pk_data y.1.2) <= hi;
  cp_to : exact i (pk_ti y.1.2) = true;
  cp_ack : SEQ_LEQ (ti_ack (pk_ti y.1.2)) (u32 una) = true;
  cp_del : delivers y.1.2 y.2
}.

(** The packet starts where it says. *)
Lemma carries_pos p a : carries base w p -> ti_seq (pk_ti p) = u32 a -> base <= a <= base + zlen w + 1 -> pk_data p <> [] ->
  pk_data p = zsub (a - base) (zlen (pk_data p)) w /\ a - base + zlen (pk_data p) <= zlen w.
Proof.
  intros (j & wnd & mss & ack & tm & Hj & Hm & Hs) Ha Hr Hd. destruct (so_pos _ _ _ _ _ _ _ Hs) as (s & Es & Hs1 & Hdata & _).
  assert (Ej : zlen (ztake j w) = j) by (rewrite zlen_ztake; lia). rewrite Ej in *.
  assert (s = a) as -> by (rewrite Ha in Es; wrap_lia). destruct (Hdata Hd) as (Ed & Hd1 & _). split; [|lia]. rewrite Ed at 1.
  unfold zsub. rewrite <- (ztake_zdrop j w) at 2. zlen_pose. rewrite zdrop_app_le by lia. by rewrite ztake_app_le by (rewrite zlen_zdrop; lia).
Qed.

(** The header stage accepts the copy, and what it passes on is a segment of the stream. *)
Lemma copy_fits ps y pl mph : Forall (carries base w) ps -> copies ps y ->
  y.1.1 + zlen (pk_data y.1.2) <= base + zlen w /\
  exists l, input_header pl mph y.2.1 y.2.2 = Ret (pl, H_ok l) /\ fits (buf_str base w) (hi + 1) n hi una i y.1.1 (tstamp y.1.2) l /\
    ti_len (i_ti l) = zlen (pk_data y.1.2).
Proof.
  destruct y as [[a p] x]. intros Hps [C1 C2 C3 C4 C5 C6 C7 C8 [Hx (iph & Hi & H9 & Hc) (m1 & ms & Hc1 & Hm1) Hwf]]. cbn [fst snd] in *.
  assert (Hseg : carries base w p) by (by apply (proj1 (List.Forall_forall _ _) Hps), list_elem_of_In).
  destruct (carries_pos p a Hseg C2 C3 C4) as [Ed Hd1]. split; [lia|].
  destruct Hseg as (j & wnd & mss & ack & tm & Hj & Hm & [_ Hmss Hctl Hack _ [Hlen _] Hoff _ Hwire Hdec Hsum Hby Hpl]).
  destruct x as [ch tlen]. cbn [fst snd] in *. subst ch tlen.
  assert (Hb : Forall is_byte (chain_bytes (pk_m p))) by (rewrite Hwire; apply Forall_app; split; [apply encode_bytes|done]).
  pose proof (decode_wf _ Hb) as Hwt. rewrite Hdec in Hwt.
  assert (Hl : zlen (encode_ti (pk_ti p) ++ pk_opt p ++ pk_data p) = 40 + zlen (pk_opt p) + zlen (pk_data p)).
  { rewrite !zlen_app. change (zlen (encode_ti (pk_ti p))) with 40. lia. }
  assert (Hck : cksum_ref (encode_ti (pk_ti p) ++ pk_opt p ++ pk_data p) = 0).
  { rewrite <- Hsum. unfold pkt_sum, chain_len. rewrite in_cksum_spec; [|done|rewrite Hwire; zlen_pose; lia].
    by rewrite ztake_ge, Hwire by lia. }
  destruct (input_header_ok pl mph m1 ms iph (pk_ti p) (pk_opt p) (pk_data p)) as (l & E & Hti & Hfl & Hb' & _ & Hop & Hot & Hw'); try done.
  exists l. split; [done|]. assert (Hln : ti_len (i_ti l) = zlen (pk_data p)) by (by rewrite Hti). split; [|done].
  rewrite hasf_lor in Hctl, C5. apply orb_false_iff in Hctl as [Hsyn Hrst], C5 as [Hfin Hurg].
  assert (Hopt : i_optp l = None /\ fst <$> i_ts l = tstamp p).
  { unfold tstamp. destruct (pk_opt p) as [|o os] eqn:Eo; [by injection Hop as -> ->|]. rewrite <- Eo in *. destruct (Z.eqb_spec (zlen (pk_opt p)) 0) as [E0|_]; [apply zlen_0 in E0; congruence|].
    destruct (predict_plain (pk_opt p) _ (ti_flags (pk_ti p)) Hpl ltac:(congruence) Hot Hsyn) as [v Ev]. rewrite Ev in Hop. by injection Hop as -> ->. }
  destruct Hopt as [Ho Hts]. zlen_pose.
  assert (Hne : 0 < zlen (pk_data p)) by (destruct (pk_data p) as [|b r] eqn:Er; [done|rewrite zlen_cons; zlen_pose; lia]).
  split; [by rewrite Hti|rewrite Hti; exact (wf_win _ Hwt)|done|]. intros rec win Hv Hwin.
  split; change (drop_headers (l <| i_tiwin := win |>)) with (drop_headers l); unfold fl; rec_simpl; rewrite ?Hln, ?Hfl; try done; try lia.
  - split; cbn [seg_of_l sg_ti sg_m]; rec_simpl; rewrite ?Hln; try done; try lia.
    + by rewrite Hti.
    + unfold chain_len. by rewrite Hb'.
    + rewrite Hb', bytes_at_buf; [done|lia|apply zlen_nonneg|lia].
    + rewrite Hti. change (ti_flags _) with (ti_flags (pk_ti p)). congruence.
    + by apply Hw'.
  - by rewrite Hti.
  - by rewrite Hti.
  - destruct (i_ts l) as [[v x]|]; [|done]. by apply Hv.
Qed.

End Read.

(** ** All packets *)

(** The timestamp of [p], if it has one, is not older than [v]. *)
Definition newer (v : Z) (p : packet) : Prop := forall v', tstamp p = Some v' -> TSTMP_GEQ v' v = true.
(** The timestamps of the packets do not go back, and start from [rec]. *)
Definition in_time (rec : Z) (ps : list packet) : Prop :=
  Forall (newer rec) ps /\ ForallOrdPairs (fun p q => forall v, tstamp p = Some v -> newer v q) ps.

Lemma in_time_tail rec p ps rec' : in_time rec (p :: ps) -> rec' = rec \/ tstamp p = Some rec' -> in_time rec' ps.
Proof.
  intros [H1 H2] H. apply Forall_cons_iff in H1 as [_ H1]. inversion H2 as [|? ? H3 H4]; subst. split; [|done].
  destruct H as [->|H]; [done|]. revert H3. apply Forall_impl. intros q Hq. by apply Hq.
Qed.

(** A position that one of the copies brings. *)
Definition brought (ys : list (Z * packet * arrival)) (z : Z) : Prop := Exists (fun y => y.1.1 <= z < y.1.1 + zlen (pk_data y.1.2)) ys.

(** The connection [c] of the kernel can take in a stream: it is established, its reassembly queue
    is empty, it stands at [n] and has offered the window up to [hi]; its own send side is in
    order, and no other connection has its number or its addresses. *)
Record ready (K : kernel) (c : conn) (n hi una nxt mx : Z) : Prop := {
  rd_in : c ∈ k_conns K;
  rd_only : forall d ti, d ∈ k_conns K -> c_id d = c_id c \/ (exact (c_inp c) ti = true /\ exact (c_inp d) ti = true) -> d = c;
  rd_peer : inp_faddr (c_inp c) <> 0;
  rd_est : t_state (c_tp c) = TCPS_ESTABLISHED;
  rd_nxt : rcv_nxt (c_tp c) = u32 n;
  rd_adv : rcv_adv (c_tp c) = u32 hi;
  rd_win : 0 <= hi - n < 268435456;
  rd_queue : seg_q (c_tp c) = [];
  rd_more : hasf (so_state (c_so c)) SS_CANTRCVMORE = false;
  rd_opts : hasf (so_options (c_so c)) SO_ACCEPTCONN = false;
  rd_sb : sb_inv (so_rcv (c_so c));
  rd_hiwat : 0 <= sb_hiwat (so_rcv (c_so c)) < 536870912;
  rd_room : zlen (sb_bytes (so_rcv (c_so c))) < 268435456;
  rd_snd : snd_ok (load K c) una nxt mx;
  rd_scale : 0 <= snd_scale (c_tp c) <= 14
}.

Section All.
Context (base : Z) (w : list Z) (n hi una hiwat : Z) (i : inpcb) (Hw : zlen w < 1000000000) (Hn : base <= n) (Hn2 : n - base < 268435456).
Context (Hhi : hi - n < 268435456) (Hhiwat : 0 <= hiwat < 536870912) (Hfa : inp_faddr i <> 0).

Lemma serve_all E ps ys id : Forall (carries base w) ps -> Forall (copies base w hi una i ps) ys ->
  forall K c n1 hi1 g nxt mx rec, serving (buf_str base w) (hi + 1) n hi hiwat una i K id c n1 hi1 g nxt mx rec -> in_time rec ys.*1.*2 ->
  exists K' c' n' hi' g' nxt' mx' rec', input_all E K ys.*2 = Ret K' /\
    serving (buf_str base w) (hi + 1) n hi hiwat una i K' id c' n' hi' g' nxt' mx' rec' /\ n1 <= n' /\
    sb_bytes (so_rcv (c_so c')) = sb_bytes (so_rcv (c_so c)) ++ bytes_at (buf_str base w) n1 (n' - n1) /\
    (forall z, n <= z -> (held n n1 g z \/ brought ys z <-> held n n' g' z)).
Proof.
  intros Hps. induction ys as [|y ys IH]; intros Hys K c n1 hi1 g nxt mx rec HK Ht; cbn [input_all fmap list_fmap].
  { exists K, c, n1, hi1, g, nxt, mx, rec. rewrite Z.sub_diag, app_nil_r. split_and!; try done. intros z _. unfold brought. rewrite Exists_nil. tauto. }
  apply Forall_cons_iff in Hys as [Hy Hys].
  destruct (copy_fits base w n hi una i Hw Hn2 ps y (k_pool K) (ke_max_protohdr E) Hps Hy) as (_ & l & Eh & Hf & Hl).
  assert (Hv : forall v, tstamp y.1.2 = Some v -> TSTMP_GEQ v rec = true) by (destruct Ht as [Ht _]; by apply Forall_cons_iff in Ht as [Ht _]).
  destruct (serve_one (buf_str base w) (hi + 1) n hi hiwat una i ltac:(lia) Hhi Hhiwat Hfa E K id c n1 hi1 g nxt mx rec _ _ l _ _ HK Hf Hv Eh)
    as (K1 & c1 & n2 & hi2 & g2 & nxt2 & mx2 & rec2 & E1 & HK1 & (D1 & D2 & D3) & Hr).
  rewrite E1. cbn [obind]. destruct (IH Hys K1 c1 n2 hi2 g2 nxt2 mx2 rec2 HK1) as (K' & c' & n' & hi' & g' & nxt' & mx' & rec' & -> & HK' & Hle & Hb & Hc).
  { exact (in_time_tail _ _ _ _ Ht Hr). }
  exists K', c', n', hi', g', nxt', mx', rec'. split_and!; try done; [lia| |].
  - change (so (load K1 c1)) with (c_so c1) in D2. change (so (load K c)) with (c_so c) in D2.
    rewrite Hb, D2, <- app_assoc. f_equal. replace (n' - n1) with ((n2 - n1) + (n' - n2)) by lia.
    rewrite bytes_at_app by lia. do 2 f_equal. lia.
  - intros z Hz. rewrite <- Hc, <- D3 by done. unfold brought. rewrite Exists_cons, Hl. tauto.
Qed.

(** The stream up to where the copies cover it. *)
Lemma serve_upto E ps ys K c nxt mx m : Forall (carries base w) ps -> Forall (copies base w hi una i ps) ys ->
  serving (buf_str base w) (hi + 1) n hi hiwat una i K (c_id c) c n hi [] nxt mx (ts_recent (c_tp c)) -> in_time (ts_recent (c_tp c)) ys.*1.*2 ->
  (forall z, n <= z < m -> brought ys z) ->
  exists K' c' n', input_all E K ys.*2 = Ret K' /\ conn_of K' (c_id c) = Some c' /\ c_inp c' = i /\ n <= n' /\ m <= Z.max n n' /\ n' <= Z.max n (base + zlen w) /\
    sb_bytes (so_rcv (c_so c')) = sb_bytes (so_rcv (c_so c)) ++ zsub (n - base) (n' - n) w.
Proof.
  intros Hps Hys HK Ht Hm. destruct (serve_all E ps ys (c_id c) Hps Hys _ _ _ _ _ _ _ _ HK Ht) as (K' & c' & n' & hi' & g' & nxt' & mx' & rec' & E' & HK' & Hle & Hb & Hc).
  exists K', c', n'. pose proof (sv_taking _ _ _ _ _ _ _ _ _ _ _ _ _ _ _ _ HK') as Hk. pose proof (ta_at _ _ _ _ _ _ _ _ _ _ _ _ _ _ Hk) as [_ _ Ho Hhole _].
  assert (Hend : n' <= Z.max n (base + zlen w)).
  { destruct (Z.le_gt_cases n' n); [lia|]. destruct (proj2 (Hc (n' - 1) ltac:(lia))) as [[?|Hz]|Hz]; [left; lia|lia|by apply Exists_nil in Hz|].
    apply List.Exists_exists in Hz as (y & Hin & Hz). apply (proj1 (List.Forall_forall _ _) Hys) in Hin.
    destruct (copy_fits base w n hi una i Hw Hn2 ps y (k_pool K) 0 Hps Hin) as [He _]. lia. }
  split_and!; try done.
  - destruct (conn_of K' (c_id c)) as [d|] eqn:Ed.
    + apply List.find_some in Ed as [Hd%list_elem_of_In Hid%Z.eqb_eq]. f_equal. by apply (sv_only _ _ _ _ _ _ _ _ _ _ _ _ _ _ _ _ HK' d (mkTi 0 0 0 0 0 0 0 0 0 0 0 0)); [|left].
    + pose proof (sv_in _ _ _ _ _ _ _ _ _ _ _ _ _ _ _ _ HK') as Hin%list_elem_of_In.
      apply (List.find_none _ _ Ed) in Hin. rewrite (sv_id _ _ _ _ _ _ _ _ _ _ _ _ _ _ _ _ HK'), Z.eqb_refl in Hin. done.
  - exact (ta_inp _ _ _ _ _ _ _ _ _ _ _ _ _ _ Hk).
  - destruct (Z.lt_ge_cases n' m) as [Hlt|]; [|lia]. exfalso. assert (Hh : held n n' g' n') by (apply Hc; [done|right; apply Hm; lia]).
    destruct Hh as [?|Hz]; [lia|]. destruct g' as [|[b x] g']; [by apply Exists_nil in Hz|]. destruct Ho as (_ & Hx & Hr).
    pose proof (genuine_nonneg _ _ _ _ Hx). apply Exists_cons in Hz as [?|Hz]; [lia|]. pose proof (covers_bounds _ _ _ _ _ _ Hr Hz). lia.
  - rewrite Hb. f_equal. destruct (Z.eq_dec n' n) as [->|]; [by rewrite Z.sub_diag|]. apply bytes_at_buf; lia.
Qed.

End All.

(** A connection that is ready takes in the stream. *)
Lemma ready_serving str K c n hi una nxt mx : ready K c n hi una nxt mx ->
  serving str (hi + 1) n hi (sb_hiwat (so_rcv (c_so c))) una (c_inp c) K (c_id c) c n hi [] nxt mx (ts_recent (c_tp c)).
Proof.
  intros [R1 R2 R3 R4 R5 R6 R7 R8 R9 R10 R11 R12 R13 R14 R15]. split; try done. split; try done; cbn [load so tp]; try lia. split; try done. cbn. lia.
Qed.

(** Copies of packets of the stream [w], through tcp_input. *)
Lemma stream_arrives base w ps E K c n hi una nxt mx ys m :
  Forall (carries base w) ps -> zlen w < 1000000000 -> ready K c n hi una nxt mx -> base <= n -> n - base < 268435456 ->
  Forall (copies base w hi una (c_inp c) ps) ys -> in_time (ts_recent (c_tp c)) ys.*1.*2 -> (forall z, n <= z < m -> brought ys z) ->
  exists K' c' n', input_all E K ys.*2 = Ret K' /\ conn_of K' (c_id c) = Some c' /\ c_inp c' = c_inp c /\ n <= n' /\ m <= Z.max n n' /\ n' <= Z.max n (base + zlen w) /\
    sb_bytes (so_rcv (c_so c')) = sb_bytes (so_rcv (c_so c)) ++ zsub (n - base) (n' - n) w.
Proof.
  intros Hps Hw HR Hn Hn2 Hys Ht Hm.
  apply (serve_upto base w n hi una (sb_hiwat (so_rcv (c_so c))) (c_inp c) Hw Hn Hn2 ltac:(apply HR) ltac:(apply HR) ltac:(apply HR) E ps ys K c nxt mx m); try done.
  by apply ready_serving.
Qed.

(** What tcp_output sends is a part of the buffer. *)
Lemma output_carries net k una nxt mx : snd_ok k una nxt mx -> synced (t_state (tp k)) ->
  exists k' err ps, tcp_output net k = Ret (k', err) /\ sent k' = ps ++ sent k /\ Forall (carries una (sb_bytes (so_snd (so k)))) ps.
Proof.
  intros Hk Hs. destruct (tcp_output_ok net k una nxt mx Hk Hs) as (k' & err & nxt' & mx' & ps & E & _ & _ & _ & Hse & Hps).
  exists k', err, ps. split_and!; try done. destruct (output_idlecheck_ok k una nxt mx Hk) as (_ & (S1 & _ & _ & _ & _ & _ & S7 & S8 & _) & _).
  destruct (sk_tmpl _ _ _ _ Hk) as (tm & Etm & _). pose proof (sk_mss _ _ _ _ Hk). revert Hps. apply Forall_impl. intros p Hp. specialize (Hp tm). rewrite S8, S1, S7 in Hp.
  set (b := sb_bytes (so_snd (so k))) in *. exists (zlen b), (usable (output_idlecheck k).2), (t_maxseg (tp k)), (rcv_nxt (tp (output_idlecheck k).2)), tm.
  zlen_pose. split_and!; [lia|lia|lia|]. rewrite (ztake_ge (zlen b) b) by lia. by apply Hp.
Qed.

(** C2: the stream goes from one end to the other: let tcp_output run on a synchronised
    connection, and let a network that may lose, repeat and reorder packets and lay them out
    over mbufs in any way that keeps the headers together bring copies of the data packets it
    sent to tcp_input of the other host, where an established connection among any others
    has the addresses of the packets and stands in that stream.  The packets have no FIN and
    no urgent pointer, lie in the window that the receiver offered, acknowledge nothing that
    is new to it, and do not go back in their timestamps.  Then no call of tcp_input panics
    or loops; each packet passes the header checks, findpcb, header prediction or the general
    path; the receive buffer of the connection grows by exactly the bytes that the sender's
    buffer holds at those positions, in order and each once; and as soon as the copies cover
    the buffer up to position [m], all of it has arrived. *)
Theorem end_to_end net k una nxt mx :
  snd_ok k una nxt mx -> synced (t_state (tp k)) ->
  exists k' err ps, tcp_output net k = Ret (k', err) /\ sent k' = ps ++ sent k /\
  forall E K c n hi runa rnxt rmx ys m,
    ready K c n hi runa rnxt rmx -> una <= n -> n - una < 268435456 ->
    Forall (copies una (sb_bytes (so_snd (so k))) hi runa (c_inp c) ps) ys -> in_time (ts_recent (c_tp c)) ys.*1.*2 ->
    (forall z, n <= z < m -> brought ys z) ->
    exists K' c' n', input_all E K ys.*2 = Ret K' /\ conn_of K' (c_id c) = Some c' /\ c_inp c' = c_inp c /\
      n <= n' /\ m <= Z.max n n' /\ n' <= Z.max n (una + cc k) /\
      sb_bytes (so_rcv (c_so c')) = sb_bytes (so_rcv (c_so c)) ++ zsub (n - una) (n' - n) (sb_bytes (so_snd (so k))).
Proof.
  intros Hk Hs. destruct (output_carries net k una nxt mx Hk Hs) as (k' & err & ps & E & Hse & Hps). exists k', err, ps. split_and!; try done.
  intros E' K c n hi runa rnxt rmx ys m HR Hn Hn2 Hys Ht Hm. pose proof (sk_small _ _ _ _ Hk).
  by apply (stream_arrives una _ ps E' K c n hi runa rnxt rmx).
Qed.

Import Sample.

(** The other end of the sample connection beside a listening socket on its port, and the packet
    with [7; 8; 9] as it arrives. *)
Definition peer_tp : tcpcb :=
  mkTcpcb [] TCPS_ESTABLISHED 0 0 14400 0 0 12 0 1460 0 0 (Some (mkTi 20 20 10 80 1024 0 0 5 0 0 0 0))
    5000 5000 5000 999 5000 4999 8192 8192 1000 1000 999 9192 5000 1460 65535
    0 0 0 0 24 2 8192 0 0 0 0 0 0 0 0 0 1000.
Definition peer_conn : conn := mkConn 1 peer_tp (mkInp 10 1024 20 80 (Some rt0) [] 64 0) (so0 []) 0 0.
Definition peer_listen : conn := mkConn 2 (peer_tp <| t_state := TCPS_LISTEN |>) (mkInp 0 0 0 80 None [] 64 0) ((so0 []) <| so_options := SO_ACCEPTCONN |>) 0 5.
Definition peer_kernel : kernel := mkKernel [peer_listen; peer_conn] g0 p0 [] [] 2 3 [].
Definition kenv0 : kenv := mkKenv net0 (mkConnenv (Some 10) None (fun _ => Some 10)) 4000 [] 40 true true.
Definition sent0 : packet :=
  match tcp_output net0 (k0 [7; 8; 9]) with Ret (k, _) => List.hd (mkPkt tmpl0 [] [] [] 0 0 0 [] 0) (sent k) | _ => mkPkt tmpl0 [] [] [] 0 0 0 [] 0 end.
Definition arr0 : arrival :=
  ([mkMbuf 8 (wire iph0 (pk_ti sent0) (pk_opt sent0) [7]) MT_HEADER M_PKTHDR 43 1 0 0; dmb [8; 9]], ti_len (pk_ti sent0)).

Lemma delivers0 : delivers sent0 arr0.
Proof.
  split; [reflexivity|exists iph0; repeat split; vm_compute; reflexivity| |].
  - eexists _, _. split; [reflexivity|vm_compute; congruence].
  - repeat constructor; vm_compute; intuition congruence.
Qed.

Lemma ready_peer : ready peer_kernel peer_conn 1000 9192 5000 5000 5000.
Proof.
  split; try done; try (vm_compute; intuition congruence).
  - right. left.
  - intros d ti Hd Hx. apply list_elem_of_In in Hd. destruct Hd as [<-|[<-|[]]]; [|done]. exfalso.
    destruct Hx as [Hx|[H1 H2]]; [done|]. unfold exact in H1, H2. rewrite !andb_true_iff in H1, H2.
    destruct H1 as [[_ H1%Z.eqb_eq] _], H2 as [[_ H2%Z.eqb_eq] _]. cbn in H1, H2. congruence.
  - destruct (snd_ok_k0 []) as []; [simpl; lia|by constructor|].
    split; try done; try (vm_compute; intuition congruence). eexists. split; [reflexivity|]. split; [split; vm_compute; intuition congruence|done].
Qed.

Lemma copies0 : copies 1000 [7; 8; 9] 9192 5000 (c_inp peer_conn) [sent0] (1000, sent0, arr0).
Proof.
  split; cbn [fst snd]; [by left|vm_compute; reflexivity|vm_compute; split; congruence|vm_compute; congruence|vm_compute; reflexivity|vm_compute; congruence|vm_compute; reflexivity|vm_compute; reflexivity|exact delivers0].
Qed.

Lemma in_time0 : in_time 0 [sent0; sent0].
Proof.
  assert (E : tstamp sent0 = None) by (vm_compute; reflexivity).
  assert (Hn : forall v, newer v sent0) by (intros v v' Hv; by rewrite E in Hv).
  split; repeat constructor; auto.
Qed.

Lemma end_to_end_witness :
  exists K' c' n', input_all kenv0 peer_kernel [arr0; arr0] = Ret K' /\ conn_of K' 1 = Some c' /\ c_inp c' = c_inp peer_conn /\
    1000 <= n' /\ 1003 <= Z.max 1000 n' /\ n' <= Z.max 1000 1003 /\ sb_bytes (so_rcv (c_so c')) = [] ++ zsub 0 (n' - 1000) [7; 8; 9].
Proof.
  destruct (end_to_end net0 (k0 [7; 8; 9]) 1000 1000 1000) as (k' & err & ps & E & Hs & H);
    [apply snd_ok_k0; [simpl; lia|repeat constructor; vm_compute; congruence]|vm_compute; congruence|].
  assert (Hp : ps = [sent0]).
  { assert (Hk : sent k' = [sent0]).
    { unfold sent0. rewrite E. rewrite Hs. vm_compute in E. injection E as <- <-. rewrite app_nil_r in Hs. subst ps. reflexivity. }
    rewrite Hk, app_nil_r in Hs. done. }
  subst ps. apply (H kenv0 peer_kernel peer_conn 1000 9192 5000 5000 5000 [(1000, sent0, arr0); (1000, sent0, arr0)] 1003 ready_peer);
    [lia|lia|repeat apply Forall_cons_2; [exact copies0..|apply Forall_nil_2]|exact in_time0|].
  intros z Hz. apply Exists_cons. left. change (zlen (pk_data (1000, sent0, arr0).1.2)) with 3. cbn [fst]. lia.
Defined.

End TcpPath.
