(* ===== verification/IpHdr.v ===== *)
(** The IP header (struct ip of src/sys/netinet/ip.h), on the wire and in memory.

    A header is a record whose fields are in host order; [ip_opts] are the bytes
    after the fixed part.  [encode_ip] gives the bytes on the wire, where the 16-bit
    fields are stored most significant byte first; [host_ip] the bytes in memory
    after NTOHS, little-endian on the i386.  Addresses are never swapped; the
    checksum is stored as in_cksum returns it. *)
From S2P Require Import Prelude Mbuf Cksum SockBuf Socket TcpVar TcpHdr.
Import Mbuf Cksum TcpHdr.

Module IpHdr.

Definition IPVERSION : Z := 4.
Definition IP_DF : Z := 16384.
Definition IP_MF : Z := 8192.
Definition IP_MAXPACKET : Z := 65535.
Definition sizeof_ip : Z := 20.

Record ip := mkIp {
  ip_v : Z;
  ip_hl : Z;
  ip_tos : Z;
  ip_len : Z;
  ip_id : Z;
  ip_off : Z;
  ip_ttl : Z;
  ip_p : Z;
  ip_sum : Z;
  ip_src : Z;
  ip_dst : Z;
  ip_opts : list Z
}.
Definition eta_ip (h : ip) : ip :=
  mkIp (ip_v h) (ip_hl h) (ip_tos h) (ip_len h) (ip_id h) (ip_off h) (ip_ttl h) (ip_p h) (ip_sum h)
    (ip_src h) (ip_dst h) (ip_opts h).
#[global] Instance set_ip_v : Setter ip_v := ltac:(mk_setter eta_ip).
#[global] Instance set_ip_hl : Setter ip_hl := ltac:(mk_setter eta_ip).
#[global] Instance set_ip_tos : Setter ip_tos := ltac:(mk_setter eta_ip).
#[global] Instance set_ip_len : Setter ip_len := ltac:(mk_setter eta_ip).
#[global] Instance set_ip_id : Setter ip_id := ltac:(mk_setter eta_ip).
#[global] Instance set_ip_off : Setter ip_off := ltac:(mk_setter eta_ip).
#[global] Instance set_ip_ttl : Setter ip_ttl := ltac:(mk_setter eta_ip).
#[global] Instance set_ip_p : Setter ip_p := ltac:(mk_setter eta_ip).
#[global] Instance set_ip_sum : Setter ip_sum := ltac:(mk_setter eta_ip).
#[global] Instance set_ip_src : Setter ip_src := ltac:(mk_setter eta_ip).
#[global] Instance set_ip_dst : Setter ip_dst := ltac:(mk_setter eta_ip).
#[global] Instance set_ip_opts : Setter ip_opts := ltac:(mk_setter eta_ip).

(** [ip->ip_hl << 2] *)
Definition hlen_of (h : ip) : Z := Z.shiftl (ip_hl h) 2.

(** The part of the header before [ip_sum], with the 16-bit fields stored by [s]. *)
Definition ip_front (s : Z -> list Z) (h : ip) : list Z :=
  [ip_v h * 16 + ip_hl h; ip_tos h] ++ s (ip_len h) ++ s (ip_id h) ++ s (ip_off h) ++ [ip_ttl h; ip_p h].
Definition ip_rest (h : ip) : list Z := be32 (ip_src h) ++ be32 (ip_dst h) ++ ip_opts h.

Definition encode_ip (h : ip) : list Z := ip_front be16 h ++ le16 (ip_sum h) ++ ip_rest h.
Definition host_ip (h : ip) : list Z := ip_front le16 h ++ le16 (ip_sum h) ++ ip_rest h.

(** The header of a received packet. *)
Definition decode_ip (l : list Z) : ip :=
  let hl := get l 0 mod 16 in
  {| ip_v := get l 0 / 16; ip_hl := hl; ip_tos := get l 1;
     ip_len := s16 (rd16 l 2); ip_id := rd16 l 4; ip_off := s16 (rd16 l 6);
     ip_ttl := get l 8; ip_p := get l 9; ip_sum := get l 10 + 256 * get l 11;
     ip_src := rd32 l 12; ip_dst := rd32 l 16;
     ip_opts := zsub sizeof_ip (Z.shiftl hl 2 - sizeof_ip) l |}.

(** The fields are in the ranges of their C types and the options fill the header. *)
Record ip_wf (h : ip) : Prop := {
  iw_v : 0 <= ip_v h < 16;
  iw_hl : 5 <= ip_hl h < 16;
  iw_tos : 0 <= ip_tos h < 256;
  iw_len : -32768 <= ip_len h < 32768;
  iw_id : 0 <= ip_id h < 65536;
  iw_off : -32768 <= ip_off h < 32768;
  iw_ttl : 0 <= ip_ttl h < 256;
  iw_p : 0 <= ip_p h < 256;
  iw_sum : 0 <= ip_sum h < 65536;
  iw_src : 0 <= ip_src h < 4294967296;
  iw_dst : 0 <= ip_dst h < 4294967296;
  iw_opts : zlen (ip_opts h) = hlen_of h - sizeof_ip;
  iw_bytes : Forall is_byte (ip_opts h)
}.

Lemma hlen_eq h : hlen_of h = 4 * ip_hl h.
Proof. unfold hlen_of. rewrite Z.shiftl_mul_pow2 by lia. change (2 ^ 2) with 4. lia. Qed.

Lemma encode_ip_len h : zlen (encode_ip h) = 20 + zlen (ip_opts h).
Proof. unfold encode_ip, ip_front, ip_rest, zlen. rewrite !length_app. simpl. lia. Qed.
Lemma host_ip_len h : zlen (host_ip h) = 20 + zlen (ip_opts h).
Proof. unfold host_ip, ip_front, ip_rest, zlen. rewrite !length_app. simpl. lia. Qed.
Lemma encode_ip_hlen h : ip_wf h -> zlen (encode_ip h) = hlen_of h.
Proof. intros H. rewrite encode_ip_len, (iw_opts _ H). unfold sizeof_ip. lia. Qed.
Lemma host_ip_hlen h : ip_wf h -> zlen (host_ip h) = hlen_of h.
Proof. intros H. rewrite host_ip_len, (iw_opts _ H). unfold sizeof_ip. lia. Qed.

Lemma encode_ip_bytes h : ip_wf h -> Forall is_byte (encode_ip h).
Proof.
  intros []. unfold encode_ip, ip_front, ip_rest, be16, be32, le16. rewrite !Forall_app.
  split_and!; try done; repeat constructor; try lia; apply Z.mod_pos_bound; lia.
Qed.

(** ** Round trip *)

Lemma decode_encode_ip h rest : ip_wf h -> decode_ip (encode_ip h ++ rest) = h.
Proof.
  intros []. unfold hlen_of, sizeof_ip in *. destruct h.
  cbn [ip_v ip_hl ip_tos ip_len ip_id ip_off ip_ttl ip_p ip_sum ip_src ip_dst ip_opts] in *.
  unfold decode_ip, encode_ip, ip_front, ip_rest.
  cbn [ip_v ip_hl ip_tos ip_len ip_id ip_off ip_ttl ip_p ip_sum ip_src ip_dst ip_opts].
  unfold rd16, rd32, get, be16, be32, le16. cbn [app nth Nat.add].
  assert (Eh : (ip_v0 * 16 + ip_hl0) mod 16 = ip_hl0) by (Z.to_euclidean_division_equations; lia).
  rewrite Eh. f_equal; try (by apply rd16_be); try (by apply rd32_be).
  - Z.to_euclidean_division_equations; lia.
  - wrap_lia.
  - wrap_lia.
  - Z.to_euclidean_division_equations; lia.
  - unfold zsub, sizeof_ip. rewrite <- iw_opts0. unfold zdrop, ztake, zlen. rewrite Nat2Z.id. change (Z.to_nat 20) with 20%nat. cbn [app drop].
    by rewrite drop_0, take_app_length.
Qed.

(** The checksum stored in a header makes the header verify. *)
Lemma ip_sum_verifies h :
  ip_wf h -> let c := cksum_ref (encode_ip (h <| ip_sum := 0 |>)) in
  ip_wf (h <| ip_sum := c |>) /\ cksum_ref (encode_ip (h <| ip_sum := c |>)) = 0.
Proof.
  intros H. cbv zeta. pose proof (cksum_ref_range (encode_ip (h <| ip_sum := 0 |>))) as Hc.
  pose proof (encode_ip_bytes h H) as Hb. unfold encode_ip in *. rec_simpl.
  assert (Ef : forall v, ip_front be16 (h <| ip_sum := v |>) = ip_front be16 h) by done.
  assert (Er : forall v, ip_rest (h <| ip_sum := v |>) = ip_rest h) by done.
  rewrite !Ef, !Er in *. set (c := cksum_ref _) in *.
  split.
  - destruct H. split; unfold hlen_of in *; rec_simpl; done.
  - rewrite !Forall_app in Hb. destruct Hb as (H1 & _ & H3). unfold le16.
    replace ((c / 256) mod 256) with (c / 256) by (Z.to_euclidean_division_equations; lia).
    by apply (cksum_ref_verifies (ip_front be16 h) (ip_rest h)).
Qed.

End IpHdr.
