(* ===== verification/IpReass.v ===== *)
(** Reassembly of IP datagrams (ip_reass, ip_freef, ip_enq, ip_deq, ip_slowtimo and
    ip_drain of src/sys/netinet/ip_input.c).

    The circular list of reassembly queues headed by [ipq] is a list, first queue
    first; so is the list of fragments of a queue, and insque, remque, ip_enq and ip_deq
    are insertion and deletion.  A fragment is its header, in memory at the front of its
    first mbuf but hidden from [m_data], and the chain of its data. *)
From S2P Require Import Prelude Mbuf Cksum SockBuf Socket TcpVar TcpHdr IpHdr.
Import Mbuf Cksum TcpHdr IpHdr.

Module IpReass.

Definition IPFRAGTTL : Z := 60.
Definition MT_FTABLE : Z := 11.

(** struct ipasfrag and the mbufs it heads: the header, with [ip_len] the length of the
    data, [ip_off] in bytes and the low bit of [ip_tos] (ipf_mff) set when more fragments
    follow; the bytes that m_adj has moved [m_data] over since the header was hidden. *)
Record ipasfrag := mkFrag { fr_ip : ip; fr_cut : list Z; fr_m : chain }.

Definition fr_off (f : ipasfrag) : Z := ip_off (fr_ip f).
Definition fr_len (f : ipasfrag) : Z := ip_len (fr_ip f).
Definition fr_mff (f : ipasfrag) : bool := hasf (ip_tos (fr_ip f)) 1.

Record ipq := mkIpq {
  ipq_ttl : Z;
  ipq_p : Z;
  ipq_id : Z;
  ipq_src : Z;
  ipq_dst : Z;
  ipq_frags : list ipasfrag
}.
Definition eta_ipq (r : ipq) : ipq :=
  mkIpq (ipq_ttl r) (ipq_p r) (ipq_id r) (ipq_src r) (ipq_dst r) (ipq_frags r).
#[global] Instance set_ipq_ttl : Setter ipq_ttl := ltac:(mk_setter eta_ipq).
#[global] Instance set_ipq_frags : Setter ipq_frags := ltac:(mk_setter eta_ipq).

(** The test of the loop that looks for the queue of a datagram. *)
Definition ipq_match (h : ip) (fp : ipq) : bool :=
  (ip_id h =? ipq_id fp) && (ip_src h =? ipq_src fp) && (ip_dst h =? ipq_dst fp) && (ip_p h =? ipq_p fp).

Fixpoint find_ipq (h : ip) (qs : list ipq) : option nat :=
  match qs with
  | [] => None
  | fp :: qs' => if ipq_match h fp then Some 0%nat else S <$> find_ipq h qs'
  end.

(** [m_data += hlen; m_len -= hlen] on the mbuf with the header. *)
Definition hide (hlen : Z) (m : chain) : outcome chain :=
  match m with
  | m1 :: ms => if m_len m1 <? hlen then Panic "ip_reass: negative m_len"
                else Ret (m1 <| m_off := m_off m1 + hlen |> <| m_bytes := zdrop hlen (m_bytes m1) |> :: ms)
  | [] => Panic "ip_reass: null mbuf"
  end.

(** Find a segment which begins after this one does. *)
Fixpoint frag_split (off : Z) (q : list ipasfrag) : list ipasfrag * list ipasfrag :=
  match q with
  | [] => ([], [])
  | f :: q' => if fr_off f >? off then ([], q)
               else let '(a, b) := frag_split off q' in (f :: a, b)
  end.

(** [m_adj(dtom(f), i)], [ip_off += i] and [ip_len -= i]; [m_data] of the first mbuf moves
    only when the mbuf is not emptied. *)
Definition frag_trim (f : ipasfrag) (i : Z) : ipasfrag :=
  mkFrag ((fr_ip f) <| ip_off := s16 (fr_off f + i) |> <| ip_len := s16 (fr_len f - i) |>)
    (fr_cut f ++ match fr_m f with
                 | m1 :: _ => if i <? m_len m1 then ztake i (m_bytes m1) else []
                 | [] => []
                 end)
    (m_adj (fr_m f) i).

(** If there is a preceding segment, it may provide some of our data already; [None] when
    it provides all of it. *)
Definition frag_prev (prev : option ipasfrag) (f : ipasfrag) : option ipasfrag :=
  match prev with
  | None => Some f
  | Some q =>
      let i := fr_off q + fr_len q - fr_off f in
      if i >? 0 then if i >=? fr_len f then None else Some (frag_trim f i) else Some f
  end.

(** While we overlap succeeding segments trim them or, if they are completely covered,
    dequeue them; [e] is the end of the new segment. *)
Fixpoint frag_succ (p : mpool) (e : Z) (q : list ipasfrag) : mpool * list ipasfrag :=
  match q with
  | [] => (p, [])
  | f :: q' =>
      if e >? fr_off f then
        let i := e - fr_off f in
        if i <? fr_len f then (p, frag_trim f i :: q')
        else frag_succ (m_freem p (fr_m f)) e q'
      else (p, q)
  end.

(** The check for complete reassembly: [None] at a hole, else where the data ends. *)
Fixpoint frags_end (next : Z) (q : list ipasfrag) : option Z :=
  match q with
  | [] => Some next
  | f :: q' => if fr_off f =? next then frags_end (next + fr_len f) q' else None
  end.

(** The loop that concatenates the fragments after the first. *)
Fixpoint frags_cat (p : mpool) (m : chain) (q : list ipasfrag) : outcome (chain * mpool) :=
  match q with
  | [] => Ret (m, p)
  | f :: q' => let! (m, p) := m_cat p m (fr_m f) in frags_cat p m q'
  end.

(** [m_len += hlen; m_data -= hlen]: the bytes that come into view are the header when
    m_adj has not moved [m_data] since. *)
Definition reveal (hlen : Z) (h : ip) (cut : list Z) (m : chain) : chain :=
  match m with
  | m1 :: ms =>
      let front := host_ip h ++ cut in
      m1 <| m_off := m_off m1 - hlen |> <| m_bytes := zdrop (zlen front - hlen) front ++ m_bytes m1 |> :: ms
  | [] => []
  end.

Definition fix_pktlen (m : chain) : chain :=
  match m with
  | m1 :: ms => (if hasf (m_flags m1) M_PKTHDR then m1 <| m_pktlen := chain_len m |> else m1) :: ms
  | [] => []
  end.

(** Reassembly is complete; concatenate fragments and create the header. *)
Definition reass_done (p : mpool) (fp : ipq) (next : Z) : outcome (mpool * (ip * chain)) :=
  match ipq_frags fp with
  | f :: q =>
      match fr_m f with
      | m1 :: t =>
          let! (m, p) := m_cat p [m1] t in
          let! (m, p) := frags_cat p m q in
          let h := (fr_ip f) <| ip_len := s16 next |> <| ip_tos := clrb (ip_tos (fr_ip f)) 1 |>
                     <| ip_src := ipq_src fp |> <| ip_dst := ipq_dst fp |> in
          Ret (p, (h, fix_pktlen (reveal (hlen_of h) h (fr_cut f) m)))
      | [] => Panic "ip_reass: null mbuf"
      end
  | [] => Panic "ip_reass: null mbuf"
  end.

(** The code from [insert] on, for the queue number [i] whose fragments are now [q]. *)
Definition reass_check (p : mpool) (qs : list ipq) (i : nat) (fp : ipq) (q : list ipasfrag)
    : outcome (mpool * list ipq * option (ip * chain)) :=
  let fp := fp <| ipq_frags := q |> in
  let wait := Ret (p, <[i := fp]> qs, None) in
  match frags_end 0 q, list.last q with
  | Some next, Some l =>
      if fr_mff l then wait
      else let! (p, r) := reass_done p fp next in Ret (p, delete i qs, Some r)
  | _, _ => wait
  end.

(** [ip_reass]: [o] is the queue of the datagram, if there is one.  The result is the
    reassembled datagram, or [None]. *)
Definition ip_reass (p : mpool) (qs : list ipq) (h : ip) (m : chain) (o : option nat)
    : outcome (mpool * list ipq * option (ip * chain)) :=
  let! m := hide (hlen_of h) m in
  let f := mkFrag h [] m in
  let drop p := Ret (m_freem p m, qs, None) in
  match o with
  | None =>
      match m_get p MT_FTABLE with
      | (None, p) => drop p
      | (Some _, p) =>
          let fp := mkIpq IPFRAGTTL (ip_p h) (ip_id h) (ip_src h) (ip_dst h) [] in
          reass_check p (fp :: qs) 0 fp [f]
      end
  | Some i =>
      match qs !! i with
      | None => Panic "ip_reass: no such queue"
      | Some fp =>
          let '(before, after) := frag_split (fr_off f) (ipq_frags fp) in
          match frag_prev (list.last before) f with
          | None => drop p
          | Some f =>
              let '(p, after) := frag_succ p (fr_off f + fr_len f) after in
              reass_check p qs i fp (before ++ f :: after)
          end
      end
  end.

(** ** Freeing *)

(** [ip_freef] frees the fragments; the caller takes the queue out of the list. *)
Definition ip_freef (p : mpool) (fp : ipq) : mpool :=
  fold_left (fun p f => m_freem p (fr_m f)) (ipq_frags fp) p.

Fixpoint ip_slowtimo (p : mpool) (qs : list ipq) : mpool * list ipq :=
  match qs with
  | [] => (p, [])
  | fp :: qs' =>
      let fp := fp <| ipq_ttl := u8 (ipq_ttl fp - 1) |> in
      if ipq_ttl fp =? 0 then ip_slowtimo (ip_freef p fp) qs'
      else let '(p, qs') := ip_slowtimo p qs' in (p, fp :: qs')
  end.

Definition ip_drain (p : mpool) (qs : list ipq) : mpool * list ipq :=
  (fold_left ip_freef qs p, []).

(** ** The parts of a datagram

    The datagram has the data [pay]; [hd] is its header (more fragments bit clear,
    [ip_len] the length of the data). *)
Section Datagram.
Context (hd : ip) (pay : list Z).
#[local] Abbreviation N := (zlen pay).

(** Fragment [f] holds the part of the data that starts at its offset; it says that more
    follow unless it reaches the end; the fragment at offset 0 has the header. *)
Record frag_ok (f : ipasfrag) : Prop := {
  fo_pos : 0 <= fr_off f;
  fo_len : 0 < fr_len f;
  fo_end : fr_off f + fr_len f <= N;
  fo_data : chain_bytes (fr_m f) = zsub (fr_off f) (fr_len f) pay;
  fo_mff : fr_mff f = (fr_off f + fr_len f <? N);
  fo_wf : Forall m_wf (fr_m f);
  fo_first : fr_off f = 0 -> fr_cut f = [] /\
    (fr_ip f) <| ip_len := N |> <| ip_tos := clrb (ip_tos (fr_ip f)) 1 |> = hd /\
    exists m1 t, fr_m f = m1 :: t /\ hlen_of hd + sizeof_pkthdr <= m_off m1 /\ hasf (m_flags m1) M_PKTHDR = true
}.

(** A queue in order, without overlap, from [lo] on. *)
Fixpoint in_ord (lo : Z) (q : list ipasfrag) : Prop :=
  match q with
  | [] => True
  | f :: q' => lo <= fr_off f /\ frag_ok f /\ in_ord (fr_off f + fr_len f) q'
  end.

Definition fcovers (q : list ipasfrag) (z : Z) : Prop :=
  Exists (fun f => fr_off f <= z < fr_off f + fr_len f) q.

Fixpoint fend (lo : Z) (q : list ipasfrag) : Z :=
  match q with [] => lo | f :: q' => fend (fr_off f + fr_len f) q' end.

Lemma fcovers_cons f q z : fcovers (f :: q) z <-> fr_off f <= z < fr_off f + fr_len f \/ fcovers q z.
Proof. apply Exists_cons. Qed.
Lemma fcovers_app q1 q2 z : fcovers (q1 ++ q2) z <-> fcovers q1 z \/ fcovers q2 z.
Proof. apply Exists_app. Qed.

Lemma in_ord_app lo q1 q2 : in_ord lo (q1 ++ q2) <-> in_ord lo q1 /\ in_ord (fend lo q1) q2.
Proof. revert lo. induction q1 as [|f q1 IH]; intros lo; simpl; [tauto|]. rewrite IH. tauto. Qed.
Lemma in_ord_weaken lo lo' q : in_ord lo q -> lo' <= lo -> in_ord lo' q.
Proof. destruct q; simpl; [done|]. intros (? & ? & ?) ?. split_and!; try done. lia. Qed.
Lemma fend_ge lo q : in_ord lo q -> lo <= fend lo q.
Proof.
  revert lo. induction q as [|f q IH]; intros lo; simpl; [lia|]. intros (H & Hf & Hq).
  apply IH in Hq. pose proof (fo_len _ Hf). lia.
Qed.
Lemma fcovers_bounds lo q z : in_ord lo q -> fcovers q z -> lo <= z < N.
Proof.
  revert lo. induction q as [|f q IH]; intros lo Hq Hc; [by apply Exists_nil in Hc|].
  destruct Hq as (H & Hf & Hq). pose proof (fo_len _ Hf). pose proof (fo_end _ Hf).
  apply fcovers_cons in Hc as [Hc|Hc]; [lia|]. apply (IH _ Hq) in Hc. lia.
Qed.

Lemma zdrop_zsub i a n (l : list Z) : 0 <= i <= n -> 0 <= a -> zdrop i (zsub a n l) = zsub (a + i) (n - i) l.
Proof.
  intros. unfold zsub, zdrop, ztake. rewrite skipn_firstn_comm, drop_drop. f_equal; [lia|]. f_equal. lia.
Qed.
Lemma zsub_app a n m (l : list Z) : 0 <= a -> 0 <= n -> 0 <= m -> zsub a (n + m) l = zsub a n l ++ zsub (a + n) m l.
Proof.
  intros. unfold zsub, zdrop, ztake. rewrite (Z2Nat.inj_add n m), (Z2Nat.inj_add a n) by lia.
  by rewrite <- drop_drop, take_take_drop.
Qed.

Lemma frag_trim_ok f i :
  frag_ok f -> 0 < i < fr_len f -> N <= 32767 ->
  frag_ok (frag_trim f i) /\ fr_off (frag_trim f i) = fr_off f + i /\ fr_len (frag_trim f i) = fr_len f - i.
Proof.
  intros [] Hi HN.
  assert (Eo : fr_off (frag_trim f i) = fr_off f + i).
  { unfold frag_trim, fr_off at 1. cbn [fr_ip]. rec_simpl. apply s16_id. lia. }
  assert (El : fr_len (frag_trim f i) = fr_len f - i).
  { unfold frag_trim, fr_len at 1. cbn [fr_ip]. rec_simpl. apply s16_id. lia. }
  split_and!; try done. split; rewrite ?Eo, ?El; try lia.
  - cbn [fr_m frag_trim]. rewrite m_adj_bytes. destruct (Z.geb_spec i 0); [|lia].
    rewrite fo_data0. apply zdrop_zsub; lia.
  - transitivity (fr_mff f); [done|]. rewrite fo_mff0. f_equal. lia.
  - cbn [fr_m frag_trim]. apply m_adj_wf. done.
Qed.

Lemma frag_split_ok lo q o :
  in_ord lo q -> exists q1 q2, q = q1 ++ q2 /\ frag_split o q = (q1, q2) /\
    Forall (fun f => fr_off f <= o) q1 /\ match q2 with [] => True | f :: _ => o < fr_off f end.
Proof.
  revert lo. induction q as [|f q IH]; intros lo H; simpl; [by exists [], []|].
  destruct H as (Hlo & Hf & Hq). destruct (Z.gtb_spec (fr_off f) o); [by exists [], (f :: q)|].
  destruct (IH _ Hq) as (q1 & q2 & -> & -> & H1 & H2). exists (f :: q1), q2. split_and!; try done. by constructor.
Qed.

Lemma fend_last lo q f : fend lo (q ++ [f]) = fr_off f + fr_len f.
Proof. revert lo. induction q as [|g q IH]; intros lo; [done|]. apply IH. Qed.

Lemma frag_prev_ok lo q1 f :
  in_ord lo q1 -> lo <= fr_off f -> Forall (fun g => fr_off g <= fr_off f) q1 -> frag_ok f -> N <= 32767 ->
  match frag_prev (list.last q1) f with
  | None => forall z, fr_off f <= z < fr_off f + fr_len f -> fcovers q1 z
  | Some f' => frag_ok f' /\ fend lo q1 <= fr_off f' /\ fr_off f <= fr_off f' /\
      fr_off f' + fr_len f' = fr_off f + fr_len f /\ (forall z, fr_off f <= z < fr_off f' -> fcovers q1 z)
  end.
Proof.
  intros Hq Hlo Hle Hf HN. destruct (list.last q1) as [g|] eqn:El; cbn [frag_prev].
  2: { apply last_None in El as ->. simpl. split_and!; try done; lia. }
  apply last_Some in El as [q0 ->]. rewrite fend_last.
  apply Forall_app in Hle as [_ Hg]. apply Forall_cons_iff in Hg as [Hg _].
  assert (Hc : forall z, fr_off g <= z < fr_off g + fr_len g -> fcovers (q0 ++ [g]) z).
  { intros z Hz. apply fcovers_app. right. apply fcovers_cons. by left. }
  destruct (Z.gtb_spec (fr_off g + fr_len g - fr_off f) 0).
  - destruct (Z.geb_spec (fr_off g + fr_len g - fr_off f) (fr_len f)).
    + intros z Hz. apply Hc. lia.
    + destruct (frag_trim_ok f (fr_off g + fr_len g - fr_off f)) as (H1 & -> & ->); [done|lia|done|].
      split_and!; try done; try lia. intros z Hz. apply Hc. lia.
  - split_and!; try done; try lia.
Qed.

Lemma frag_succ_ok p lo e q :
  in_ord lo q -> lo <= e <= N -> N <= 32767 ->
  in_ord e (frag_succ p e q).2 /\ forall z, e <= z -> (fcovers (frag_succ p e q).2 z <-> fcovers q z).
Proof.
  revert p lo. induction q as [|f q IH]; intros p lo Hq He HN; [done|]. destruct Hq as (Hlo & Hf & Hq).
  pose proof (fo_len _ Hf). pose proof (fo_end _ Hf). simpl.
  destruct (Z.gtb_spec e (fr_off f)).
  2: { split; [|done]. simpl. split_and!; done || lia. }
  destruct (Z.ltb_spec (e - fr_off f) (fr_len f)).
  - destruct (frag_trim_ok f (e - fr_off f)) as (T1 & T2 & T3); [done|lia|done|]. cbn [snd in_ord].
    rewrite T2, T3. replace (fr_off f + (e - fr_off f) + (fr_len f - (e - fr_off f))) with (fr_off f + fr_len f) by lia.
    split; [split_and!; done || lia|]. intros z Hz. rewrite !fcovers_cons, T2, T3. intuition lia.
  - destruct (IH (m_freem p (fr_m f)) _ Hq) as [T1 T2]; [lia|done|]. split; [done|].
    intros z Hz. rewrite T2, fcovers_cons by done. intuition lia.
Qed.


(** Contiguous from [lo] on. *)
Lemma frags_end_ok lo q :
  in_ord lo q ->
  match frags_end lo q with
  | Some e => e = fend lo q /\ (forall z, lo <= z < e -> fcovers q z)
  | None => exists z, lo <= z < N /\ ~ fcovers q z
  end.
Proof.
  revert lo. induction q as [|f q IH]; intros lo Hq; simpl; [split; [done|lia]|].
  destruct Hq as (Hlo & Hf & Hq). pose proof (fo_len _ Hf). pose proof (fo_end _ Hf).
  assert (Hb : forall z, fcovers q z -> fr_off f + fr_len f <= z) by (intros z Hz; destruct (fcovers_bounds _ _ _ Hq Hz); lia).
  destruct (Z.eqb_spec (fr_off f) lo) as [<-|].
  2: { exists lo. split; [lia|]. rewrite fcovers_cons. intros [?|Hc%Hb]; lia. }
  specialize (IH _ Hq). destruct (frags_end _ q) as [e|].
  - destruct IH as [-> H1]. split; [done|]. intros z Hz. rewrite fcovers_cons.
    destruct (Z.lt_ge_cases z (fr_off f + fr_len f)); [left; lia|right; apply H1; lia].
  - destruct IH as (z & Hz & Hn). exists z. split; [lia|]. rewrite fcovers_cons. intros [?|?]; [lia|done].
Qed.

(** The data of a contiguous queue. *)
Lemma frags_bytes lo q e :
  in_ord lo q -> 0 <= lo -> frags_end lo q = Some e -> concat (map (fun f => chain_bytes (fr_m f)) q) = zsub lo (e - lo) pay.
Proof.
  revert lo. induction q as [|f q IH]; intros lo Hq Hlo E; simpl in E.
  { simplify_eq. rewrite Z.sub_diag. symmetry. by apply zsub_nil_len. }
  destruct Hq as (Hl & Hf & Hq). destruct (Z.eqb_spec (fr_off f) lo) as [<-|]; [|done]. pose proof (fo_len _ Hf).
  pose proof (frags_end_ok _ _ Hq) as He. rewrite E in He. destruct He as [He _]. pose proof (fend_ge _ _ Hq).
  simpl. rewrite (IH _ Hq), (fo_data _ Hf) by (done || lia). rewrite <- zsub_app by lia. f_equal. lia.
Qed.

Lemma frags_cat_ok p m1 m q :
  exists m1' c p', frags_cat p (m1 :: m) q = Ret (m1' :: c, p') /\
    chain_bytes (m1' :: c) = chain_bytes (m1 :: m) ++ concat (map (fun f => chain_bytes (fr_m f)) q) /\
    (Forall m_wf (m1 :: m) -> Forall (fun f => Forall m_wf (fr_m f)) q -> Forall m_wf (m1' :: c)) /\
    m_off m1' = m_off m1 /\ m_flags m1' = m_flags m1 /\ ext_size m1' = ext_size m1.
Proof.
  revert p m1 m. induction q as [|f q IH]; intros p m1 m; cbn [frags_cat map concat].
  { exists m1, m, p. by rewrite app_nil_r. }
  destruct (m_cat_ok p m1 m (fr_m f)) as (m2 & c & p1 & -> & Hc & _ & Hw & H1 & H2 & H3). cbn [obind].
  destruct (IH p1 m2 c) as (m1' & c' & p' & -> & Hc' & Hw' & H1' & H2' & H3'). exists m1', c', p'.
  split_and!; try congruence; [by rewrite Hc', Hc, app_assoc|].
  intros HA [HB HC]%Forall_cons_iff. auto.
Qed.

Lemma in_ord_wf lo q : in_ord lo q -> Forall (fun f => Forall m_wf (fr_m f)) q.
Proof.
  revert lo. induction q as [|f q IH]; intros lo; [done|]. intros (_ & Hf & Hq). constructor; [apply (fo_wf _ Hf)|eauto].
Qed.

(** Making the header visible again. *)
Lemma reveal_ok m1 ms :
  zlen (host_ip hd) = hlen_of hd -> Forall m_wf (m1 :: ms) -> hlen_of hd + sizeof_pkthdr <= m_off m1 ->
  exists m1', fix_pktlen (reveal (hlen_of hd) hd [] (m1 :: ms)) = m1' :: ms /\ hlen_of hd <= m_len m1' /\
    chain_bytes (m1' :: ms) = host_ip hd ++ chain_bytes (m1 :: ms) /\ Forall m_wf (m1' :: ms) /\
    m_flags m1' = m_flags m1 /\ (hasf (m_flags m1) M_PKTHDR = true -> m_pktlen m1' = chain_len (m1' :: ms)).
Proof.
  intros Hh Hw Hr. unfold reveal. rewrite app_nil_r, Hh, Z.sub_diag, zdrop_le0 by done.
  set (m2 := m1 <| m_off := _ |> <| m_bytes := _ |>). cbn [fix_pktlen].
  apply Forall_cons_iff in Hw as [(Ho & Hm) Hw].
  assert (Hl : m_len m2 = hlen_of hd + m_len m1) by (unfold m_len, m2; rec_simpl; rewrite zlen_app; lia).
  assert (Hb : m_bytes m2 = host_ip hd ++ m_bytes m1) by (unfold m2; by rec_simpl).
  assert (Hf : m_flags m2 = m_flags m1 /\ m_off m2 = m_off m1 - hlen_of hd /\ ext_size m2 = ext_size m1) by (unfold m2; by rec_simpl).
  clearbody m2. destruct Hf as (Hf & Ho2 & He). rewrite Hf. pose proof (m_len_nonneg m1). unfold sizeof_pkthdr in *.
  assert (Hw2 : m_wf m2).
  { unfold m_wf. rewrite Hf, Ho2, He, Hl. split; [lia|]. destruct (hasf (m_flags m1) M_EXT); [lia|].
    destruct Hm as [Hm _]. unfold sizeof_pkthdr. split; [lia|]. lia. }
  destruct (hasf (m_flags m1) M_PKTHDR); eexists; (split; [reflexivity|]).
  - assert (E : forall v, m_len (m2 <| m_pktlen := v |>) = m_len m2) by done.
    rewrite E. assert (Ec : forall v, chain_bytes (m2 <| m_pktlen := v |> :: ms) = chain_bytes (m2 :: ms)) by done.
    rewrite !Ec, !chain_bytes_cons, Hb, app_assoc. split_and!; [lia|done|by constructor|done|].
    intros _. unfold chain_len. rewrite Ec. by rec_simpl.
  - rewrite !chain_bytes_cons, Hb, app_assoc. split_and!; [lia|done|by constructor|done|done].
Qed.

(** What the protocol gets. *)
Definition whole (c : chain) : Prop :=
  chain_bytes c = host_ip hd ++ pay /\ Forall m_wf c /\ 
  (exists m1 t, c = m1 :: t /\ hlen_of hd <= m_len m1 /\ hasf (m_flags m1) M_PKTHDR = true /\ m_pktlen m1 = chain_len c).

Lemma reass_done_ok p fp :
  zlen (host_ip hd) = hlen_of hd -> N <= 32767 -> in_ord 0 (ipq_frags fp) -> 0 < N -> frags_end 0 (ipq_frags fp) = Some N ->
  ipq_src fp = ip_src hd -> ipq_dst fp = ip_dst hd ->
  exists p' c, reass_done p fp N = Ret (p', (hd, c)) /\ whole c.
Proof.
  intros Hh HN Hq H0 He Hs Hd. unfold reass_done.
  pose proof (frags_bytes _ _ _ Hq ltac:(done) He) as Hb. pose proof (in_ord_wf _ _ Hq) as Hwf.
  destruct (ipq_frags fp) as [|f q]; [simpl in He; injection He; lia|].
  destruct Hq as (_ & Hf & Hq). simpl in He. destruct (Z.eqb_spec (fr_off f) 0) as [Ho|]; [|done].
  destruct (fo_first _ Hf Ho) as (Hc & Eh & m1 & t & Em & Hr & Hk). rewrite Em, Hc.
  apply Forall_cons_iff in Hwf as [Hw1 Hwq]. rewrite Em in Hw1.
  destruct (m_cat_ok p m1 [] t) as (m2 & c & p1 & -> & Hcb & _ & Hw & O1 & F1 & _). cbn [obind].
  destruct (frags_cat_ok p1 m2 c q) as (m3 & c' & p' & -> & Hcb' & Hw' & O2 & F2 & _). cbn [obind].
  assert (Ehd : (fr_ip f) <| ip_len := s16 N |> <| ip_tos := clrb (ip_tos (fr_ip f)) 1 |>
     <| ip_src := ipq_src fp |> <| ip_dst := ipq_dst fp |> = hd).
  { rewrite s16_id by (zlen_pose; lia). rewrite Hs, Hd, <- Eh. by destruct (fr_ip f). }
  rewrite Ehd. apply Forall_cons_iff in Hw1 as [Hm1 Ht].
  destruct (reveal_ok m3 c' Hh) as (m4 & -> & R1 & R2 & R3 & R4 & R5).
  { apply Hw'; [|done]. apply Hw; [by constructor|done]. }
  { lia. }
  exists p', (m4 :: c'). split; [done|]. assert (Hk3 : hasf (m_flags m3) M_PKTHDR = true) by congruence.
  split_and!; [|done|eexists _, _; split_and!; try done; [congruence|by apply R5]].
  rewrite R2, Hcb', Hcb. f_equal. rewrite chain_bytes_one, <- chain_bytes_cons, <- Em.
  simpl in Hb. rewrite Hb. unfold zsub. by rewrite zdrop_le0, Z.sub_0_r, ztake_ge.
Qed.
Lemma fcovers_end lo q z : in_ord lo q -> fcovers q z -> z < fend lo q.
Proof.
  revert lo. induction q as [|f q IH]; intros lo Hq Hc; [by apply Exists_nil in Hc|]. destruct Hq as (_ & Hf & Hq).
  pose proof (fend_ge _ _ Hq). apply fcovers_cons in Hc as [?|Hc]; simpl; [lia|eauto].
Qed.

(** The check for complete reassembly is right. *)
Lemma reass_check_ok p qs i fp q :
  zlen (host_ip hd) = hlen_of hd -> N <= 32767 -> 0 < N -> in_ord 0 q -> q <> [] ->
  ipq_src fp = ip_src hd -> ipq_dst fp = ip_dst hd ->
  (reass_check p qs i fp q = Ret (p, <[i := fp <| ipq_frags := q |>]> qs, None) /\ exists z, 0 <= z < N /\ ~ fcovers q z) \/
  (exists p' c, reass_check p qs i fp q = Ret (p', delete i qs, Some (hd, c)) /\ whole c /\ forall z, 0 <= z < N -> fcovers q z).
Proof.
  intros Hh HN H0 Hq Hne Hs Hd. unfold reass_check. pose proof (frags_end_ok _ _ Hq) as He.
  destruct (frags_end 0 q) as [e|] eqn:Ee; [|by left]. destruct He as [-> Hc].
  destruct (list.last q) as [l|] eqn:El; [|by apply last_None in El]. apply last_Some in El as [q0 ->].
  pose proof Hq as (_ & _ & Hl & _)%in_ord_app. rewrite fend_last in *. rewrite (fo_mff _ Hl).
  pose proof (fo_end _ Hl). destruct (Z.ltb_spec (fr_off l + fr_len l) N).
  - left. split; [done|]. exists (fr_off l + fr_len l). pose proof (fo_pos _ Hl). pose proof (fo_len _ Hl).
    split; [lia|]. intros Hz. apply (fcovers_end 0) in Hz; [|done]. rewrite fend_last in Hz. lia.
  - right. assert (Hn : fr_off l + fr_len l = N) by lia. rewrite Hn in *.
    destruct (reass_done_ok p (fp <| ipq_frags := q0 ++ [l] |>)) as (p' & c & E & Hw); try done.
    rewrite E. cbn [obind]. by exists p', c.
Qed.

(** ** The queue of the datagram among the queues *)

Definition same_dgram (h : ip) : Prop :=
  ip_id h = ip_id hd /\ ip_src h = ip_src hd /\ ip_dst h = ip_dst hd /\ ip_p h = ip_p hd.

Fixpoint queue_of (qs : list ipq) : list ipasfrag :=
  match qs with
  | [] => []
  | fp :: qs' => if ipq_match hd fp then ipq_frags fp else queue_of qs'
  end.

Lemma same_match h fp : same_dgram h -> ipq_match h fp = ipq_match hd fp.
Proof. intros (H1 & H2 & H3 & H4). unfold ipq_match. by rewrite H1, H2, H3, H4. Qed.
Lemma ipq_match_eq h fp :
  ipq_match h fp = true <-> ip_id h = ipq_id fp /\ ip_src h = ipq_src fp /\ ip_dst h = ipq_dst fp /\ ip_p h = ipq_p fp.
Proof. unfold ipq_match. rewrite !andb_true_iff, !Z.eqb_eq. tauto. Qed.

(** The queue found is the queue of the datagram. *)
Lemma find_ipq_own h qs :
  same_dgram h ->
  match find_ipq h qs with
  | None => queue_of qs = []
  | Some i => exists fp, qs !! i = Some fp /\ ipq_match hd fp = true /\ queue_of qs = ipq_frags fp /\
      forall q, queue_of (<[i := fp <| ipq_frags := q |>]> qs) = q
  end.
Proof.
  intros Hs. induction qs as [|fp qs IH]; [done|]. cbn [find_ipq queue_of]. rewrite (same_match _ _ Hs).
  destruct (ipq_match hd fp) eqn:Em.
  - exists fp. split_and!; try done. intros q. simpl.
    assert (E : ipq_match hd (fp <| ipq_frags := q |>) = ipq_match hd fp) by done. by rewrite E, Em.
  - destruct (find_ipq h qs) as [i|]; [|done]. destruct IH as (fp' & H1 & H2 & H3 & H4).
    exists fp'. split_and!; try done. intros q. simpl. by rewrite Em, H4.
Qed.

Lemma find_ipq_match h qs i : find_ipq h qs = Some i -> exists fp, qs !! i = Some fp /\ ipq_match h fp = true.
Proof.
  revert i. induction qs as [|fp qs IH]; intros i; [done|]. simpl. destruct (ipq_match h fp) eqn:Em.
  - intros; simplify_eq. by exists fp.
  - destruct (find_ipq h qs) as [j|]; [|done]. intros [= <-]. destruct (IH j eq_refl) as (fp' & ? & ?). exists fp'. done.
Qed.

Lemma queue_of_insert qs i fp fp' :
  qs !! i = Some fp -> ipq_match hd fp = false -> ipq_match hd fp' = false -> queue_of (<[i := fp']> qs) = queue_of qs.
Proof.
  revert i. induction qs as [|g qs IH]; intros i E H1 H2; [done|]. destruct i as [|i]; simpl in *.
  - simplify_eq. by rewrite H1, H2.
  - by rewrite (IH i).
Qed.
Lemma queue_of_delete qs i fp :
  qs !! i = Some fp -> ipq_match hd fp = false -> queue_of (delete i qs) = queue_of qs.
Proof.
  revert i. induction qs as [|g qs IH]; intros i E H1; [done|]. destruct i as [|i]; simpl in *.
  - simplify_eq. by rewrite H1.
  - by rewrite (IH i).
Qed.

(** A fragment of the datagram as ipintr passes it to ip_reass: its header is in the
    first mbuf. *)
Definition part (h : ip) (m : chain) : Prop :=
  same_dgram h /\ exists m', hide (hlen_of h) m = Ret m' /\ frag_ok (mkFrag h [] m').

(** The positions a fragment brings. *)
Definition brings (h : ip) (z : Z) : Prop := ip_off h <= z < ip_off h + ip_len h.

Definition incomplete (q : list ipasfrag) : Prop := exists z, 0 <= z < N /\ ~ fcovers q z.

(** Inserting a fragment in order. *)
Lemma insert_ok p q1 q2 f f' :
  in_ord 0 q1 -> in_ord (fend 0 q1) q2 -> match q2 with [] => True | g :: _ => fr_off f < fr_off g end ->
  frag_ok f' -> fend 0 q1 <= fr_off f' -> fr_off f <= fr_off f' -> fr_off f' + fr_len f' = fr_off f + fr_len f ->
  (forall z, fr_off f <= z < fr_off f' -> fcovers q1 z) -> N <= 32767 ->
  let q := q1 ++ f' :: (frag_succ p (fr_off f' + fr_len f') q2).2 in
  in_ord 0 q /\ forall z, fcovers q z <-> fcovers (q1 ++ q2) z \/ fr_off f <= z < fr_off f + fr_len f.
Proof.
  intros Hq1 Hq2 Hgt Hf' Hge Hoff Hend Hcov HN. cbv zeta. rewrite <- Hend. set (e := fr_off f' + fr_len f').
  pose proof (fo_len _ Hf'). pose proof (fo_end _ Hf').
  destruct (frag_succ_ok p _ e q2 Hq2) as [Ha Hc]; [unfold e; lia|done|].
  set (after := (frag_succ p e q2).2) in *. clearbody after. split.
  - apply in_ord_app. split; [done|]. cbn [in_ord]. split_and!; try done; lia.
  - intros z. rewrite !fcovers_app, fcovers_cons. fold e.
    assert (H2 : fcovers q2 z -> fr_off f < z).
    { destruct q2 as [|g q2]; [by intros ?%Exists_nil|]. destruct Hq2 as (G1 & G2 & G3).
      intros [?|Hz]%fcovers_cons; [lia|]. apply (fcovers_bounds _ _ _ G3) in Hz. pose proof (fo_len _ G2). lia. }
    assert (H3 : fcovers after z -> e <= z) by (intros Hz; destruct (fcovers_bounds _ _ _ Ha Hz); lia).
    specialize (Hc z). specialize (Hcov z).
    destruct (Z.lt_ge_cases z e), (Z.lt_ge_cases z (fr_off f')); intuition (try lia).
    left. apply H5; lia.
Qed.

(** A fragment of the datagram either completes it or joins its queue. *)
Lemma own_fragment p qs h m :
  zlen (host_ip hd) = hlen_of hd -> N <= 32767 -> mp_fail p = [] ->
  part h m -> in_ord 0 (queue_of qs) -> incomplete (queue_of qs) ->
  (exists p' qs', ip_reass p qs h m (find_ipq h qs) = Ret (p', qs', None) /\ in_ord 0 (queue_of qs') /\
     incomplete (queue_of qs') /\ forall z, fcovers (queue_of qs') z <-> fcovers (queue_of qs) z \/ brings h z) \/
  (exists p' qs' c, ip_reass p qs h m (find_ipq h qs) = Ret (p', qs', Some (hd, c)) /\ whole c /\
     forall z, 0 <= z < N -> fcovers (queue_of qs) z \/ brings h z).
Proof.
  intros Hh HN Hp (Hs & m' & Em & Hf) Hq (z0 & Hz0 & Hn0). unfold ip_reass. rewrite Em. cbn [obind].
  pose proof (find_ipq_own h qs Hs) as Hfind. set (f := mkFrag h [] m') in *.
  assert (Eb : forall z, brings h z <-> fr_off f <= z < fr_off f + fr_len f) by done.
  destruct (find_ipq h qs) as [i|].
  - destruct Hfind as (fp & Ei & Hm & Eq & Hins). rewrite Ei. rewrite Eq in *.
    apply ipq_match_eq in Hm as (_ & Hsrc & Hdst & _).
    destruct (frag_split_ok 0 (ipq_frags fp) (fr_off f) Hq) as (q1 & q2 & Eqq & -> & Hle & Hgt). rewrite Eqq in *.
    apply in_ord_app in Hq as [Hq1 Hq2].
    pose proof (frag_prev_ok 0 q1 f Hq1 (fo_pos _ Hf) Hle Hf HN) as Hp1.
    destruct (frag_prev (list.last q1) f) as [f'|].
    2: { left. eexists _, _. split; [reflexivity|]. rewrite Eq. split_and!.
         - by apply in_ord_app.
         - by exists z0.
         - intros z. rewrite Eb. split; [by left|]. intros [?|Hz%Hp1]; [done|]. apply fcovers_app. by left. }
    destruct Hp1 as (Hf' & Hge & Hoff & Hend & Hcov).
    destruct (insert_ok p q1 q2 f f') as [Ho Hc]; try done.
    destruct (frag_succ p (fr_off f' + fr_len f') q2) as [p1 after]. cbn [snd] in *.
    destruct (reass_check_ok p1 qs i fp (q1 ++ f' :: after)) as [[E Hz]|(p' & c & E & Hw & Hall)]; try done; try lia.
    { by destruct q1. }
    + left. rewrite E. eexists _, _. split; [reflexivity|]. by rewrite Hins.
    + right. rewrite E. eexists _, _, _. split; [reflexivity|]. split; [done|]. intros z Hz. by apply Hc, Hall.
  - rewrite (m_get_nofail _ _ Hp). rewrite Hfind in *. destruct Hs as (S1 & S2 & S3 & S4).
    set (fp := mkIpq _ _ _ _ _ _).
    assert (Hq1 : in_ord 0 [f]) by (simpl; split_and!; [apply (fo_pos _ Hf)|done|done]).
    destruct (reass_check_ok p (fp :: qs) 0 fp [f]) as [[E Hz]|(p' & c & E & Hw & Hall)]; try done; try lia.
    + left. rewrite E. eexists _, _. split; [reflexivity|].
      assert (Eo : queue_of (<[0%nat := fp <| ipq_frags := [f] |>]> (fp :: qs)) = [f]).
      { simpl. assert (ipq_match hd (fp <| ipq_frags := [f] |>) = true) as ->; [|done].
        apply ipq_match_eq. unfold fp. cbn [ipq_id ipq_src ipq_dst ipq_p setf set_ipq_frags]. done. }
      rewrite Eo. split_and!; try done. intros z. rewrite fcovers_cons, Eb. tauto.
    + right. rewrite E. eexists _, _, _. split; [reflexivity|]. split; [done|]. intros z Hz.
      apply Hall, fcovers_cons in Hz. rewrite Eb. tauto.
Qed.
(** ** Any traffic *)

(** ip_reass for the next fragment, as ipintr calls it. *)
Definition reass1 (p : mpool) (qs : list ipq) (x : ip * chain) : outcome (mpool * list ipq * option (ip * chain)) :=
  ip_reass p qs x.1 x.2 (find_ipq x.1 qs).

Fixpoint reass_all (p : mpool) (qs : list ipq) (xs : list (ip * chain))
    : outcome (mpool * list ipq * list (option (ip * chain))) :=
  match xs with
  | [] => Ret (p, qs, [])
  | x :: xs =>
      let! (p, qs, r) := reass1 p qs x in
      let! (p, qs, rs) := reass_all p qs xs in Ret (p, qs, r :: rs)
  end.

(** The first mbuf of a fragment holds its header. *)
Definition headed (x : ip * chain) : Prop := exists m1 t, x.2 = m1 :: t /\ hlen_of x.1 <= m_len m1.

(** Every queued fragment has an mbuf. *)
Definition solid (qs : list ipq) : Prop := Forall (fun fp => Forall (fun f => fr_m f <> []) (ipq_frags fp)) qs.

Lemma m_cat_last_fail p m n : mp_fail (m_cat_last p m n).2 = mp_fail p.
Proof.
  revert p m. induction n as [|n1 n IH]; intros p m; simpl; [done|]. destruct (_ || _); [done|]. rewrite IH.
  apply (m_freem_fail p [n1]).
Qed.
Lemma m_cat_fail p m n c p' : m_cat p m n = Ret (c, p') -> mp_fail p' = mp_fail p.
Proof.
  revert c. induction m as [|m1 m IH]; intros c; [done|]. destruct m as [|m2 m].
  - simpl. pose proof (m_cat_last_fail p m1 n). destruct (m_cat_last p m1 n). by intros [= <- <-].
  - change (m_cat p (m1 :: m2 :: m) n) with (let! (c, p) := m_cat p (m2 :: m) n in Ret (m1 :: c, p)).
    intros ([c' p1] & E & [= <- <-])%obind_Ret. eauto.
Qed.
Lemma frags_cat_fail p m q c p' : frags_cat p m q = Ret (c, p') -> mp_fail p' = mp_fail p.
Proof.
  revert p m. induction q as [|f q IH]; intros p m; cbn [frags_cat]; [by intros [= <- <-]|].
  intros ([c1 p1] & E1 & E2)%obind_Ret. apply IH in E2. apply m_cat_fail in E1. congruence.
Qed.

Lemma frag_trim_solid f i : fr_m f <> [] -> fr_m (frag_trim f i) <> [].
Proof.
  cbn [frag_trim fr_m]. intros H. unfold m_adj. destruct (fr_m f) as [|m1 ms] eqn:E; [done|].
  destruct (Z.geb_spec i 0).
  - destruct (m_adj_head (m1 :: ms) i) as [c l] eqn:Eh. apply m_adj_head_spec in Eh as [_ Hl]; [|lia].
    destruct c; [done|]. done.
  - destruct (m_last (m1 :: ms)); [|done]. case_match; [|by cbn [set_pktlen m_adj_trunc]; case_match].
    destruct ms; simpl; by case_match.
Qed.
Lemma frag_prev_solid o f f' : frag_prev o f = Some f' -> fr_m f <> [] -> fr_m f' <> [].
Proof.
  unfold frag_prev. destruct o; [|by intros; simplify_eq].
  destruct (_ >? _); [destruct (_ >=? _)|]; intros; simplify_eq; auto using frag_trim_solid.
Qed.
Lemma frag_succ_solid p e q :
  Forall (fun f => fr_m f <> []) q -> mp_fail (frag_succ p e q).1 = mp_fail p /\ Forall (fun f => fr_m f <> []) (frag_succ p e q).2.
Proof.
  revert p. induction q as [|f q IH]; intros p; simpl; [done|]. intros [H1 H2]%Forall_cons_iff.
  destruct (_ >? _); [|split; [done|by constructor]].
  destruct (_ <? _); cbn [fst snd]; [split; [done|constructor; auto using frag_trim_solid]|].
  rewrite <- (m_freem_fail p (fr_m f)). by apply IH.
Qed.
Lemma frag_split_app o q q1 q2 : frag_split o q = (q1, q2) -> q = q1 ++ q2.
Proof.
  revert q1. induction q as [|f q IH]; intros q1; simpl; [by intros [= <- <-]|].
  destruct (_ >? _); [by intros [= <- <-]|]. destruct (frag_split o q) as [a b]. intros [= <- <-]. simpl. f_equal. auto.
Qed.

Lemma reass_done_total p fp next :
  Forall (fun f => fr_m f <> []) (ipq_frags fp) -> ipq_frags fp <> [] ->
  exists p' r, reass_done p fp next = Ret (p', r) /\ mp_fail p' = mp_fail p.
Proof.
  intros Hq Hne. unfold reass_done. destruct (ipq_frags fp) as [|f q]; [done|].
  apply Forall_cons_iff in Hq as [Hf _]. destruct (fr_m f) as [|m1 t]; [done|].
  destruct (m_cat_ok p m1 [] t) as (m2 & c & p1 & E & _). rewrite E. apply m_cat_fail in E. cbn [obind].
  destruct (frags_cat_ok p1 m2 c q) as (m3 & c' & p' & E' & _). rewrite E'. apply frags_cat_fail in E'. cbn [obind].
  eexists _, _. split; [reflexivity|]. congruence.
Qed.

(** The check for complete reassembly does not panic, and touches one queue. *)
Lemma reass_check_total p qs i fp0 fp q :
  mp_fail p = [] -> solid qs -> Forall (fun f => fr_m f <> []) q -> qs !! i = Some fp0 ->
  exists p' qs' r, reass_check p qs i fp q = Ret (p', qs', r) /\ mp_fail p' = [] /\ solid qs' /\
    (ipq_match hd fp0 = false -> ipq_match hd fp = false -> queue_of qs' = queue_of qs).
Proof.
  intros Hp Hs Hq Hi. unfold reass_check. cbv zeta.
  assert (Hw : exists p' qs' r, Ret (p, <[i := fp <| ipq_frags := q |>]> qs, None) = @Ret (mpool * list ipq * option (ip * chain)) (p', qs', r) /\
    mp_fail p' = [] /\ solid qs' /\ (ipq_match hd fp0 = false -> ipq_match hd fp = false -> queue_of qs' = queue_of qs)).
  { eexists _, _, _. split; [reflexivity|]. split_and!; [done| |].
    - apply Forall_insert; [done|]. by rec_simpl.
    - intros H1 H2. by apply (queue_of_insert _ _ fp0). }
  destruct (frags_end 0 q) as [next|]; [|done]. destruct (list.last q) as [l|] eqn:El; [|done].
  destruct (fr_mff l); [done|].
  destruct (reass_done_total p (fp <| ipq_frags := q |>) next) as (p' & r & -> & Hp'); rec_simpl; [done|by destruct q|].
  cbn [obind]. eexists _, _, _. split; [reflexivity|]. split_and!; [congruence| |].
  - by apply Forall_delete.
  - intros H1 _. by apply (queue_of_delete _ _ fp0).
Qed.

(** ip_reass returns for every fragment with its header in the first mbuf, and a fragment
    of another datagram does not touch the queue. *)
Lemma ip_reass_total p qs x :
  mp_fail p = [] -> solid qs -> headed x ->
  exists p' qs' r, reass1 p qs x = Ret (p', qs', r) /\ mp_fail p' = [] /\ solid qs' /\
    (~ same_dgram x.1 -> queue_of qs' = queue_of qs).
Proof.
  destruct x as [h m]. intros Hp Hs (m1 & t & Em & Hl). cbn [fst snd] in *. subst m. unfold reass1, ip_reass. cbn [fst snd hide].
  destruct (Z.ltb_spec (m_len m1) (hlen_of h)); [lia|]. cbn [obind]. set (m := _ :: t).
  assert (Hm : m <> []) by done. clearbody m. set (f := mkFrag h [] m).
  assert (Hf : fr_m f <> []) by done.
  assert (Hd : forall pp, mp_fail pp = [] -> exists p' qs' r,
    Ret (m_freem pp m, qs, None) = @Ret (mpool * list ipq * option (ip * chain)) (p', qs', r) /\ mp_fail p' = [] /\ solid qs' /\
    (~ same_dgram h -> queue_of qs' = queue_of qs)).
  { intros pp Hpp. eexists _, _, _. split; [reflexivity|]. by rewrite m_freem_fail. }
  assert (Hk : forall fp, ipq_match h fp = true -> ~ same_dgram h -> ipq_match hd fp = false).
  { intros fp (M1 & M2 & M3 & M4)%ipq_match_eq Hns. apply not_true_iff_false. intros (N1 & N2 & N3 & N4)%ipq_match_eq.
    apply Hns. split_and!; congruence. }
  destruct (find_ipq h qs) as [i|] eqn:Ei.
  - apply find_ipq_match in Ei as (fp & Ei & Hmt). rewrite Ei.
    assert (Hfp : Forall (fun f => fr_m f <> []) (ipq_frags fp)) by (by apply (Forall_lookup_1 _ _ _ _ Hs Ei)).
    destruct (frag_split (fr_off f) (ipq_frags fp)) as [q1 q2] eqn:Es. apply frag_split_app in Es. rewrite Es in Hfp.
    apply Forall_app in Hfp as [H1 H2].
    destruct (frag_prev (list.last q1) f) as [f'|] eqn:Ef; [|by apply Hd].
    assert (Hf' : fr_m f' <> []) by (by eapply frag_prev_solid).
    destruct (frag_succ_solid p (fr_off f' + fr_len f') q2 H2) as [Hp1 H2'].
    destruct (frag_succ p _ q2) as [p1 after]. cbn [fst snd] in *.
    destruct (reass_check_total p1 qs i fp fp (q1 ++ f' :: after)) as (p' & qs' & r & -> & A1 & A2 & A3); try done.
    { congruence. } { apply Forall_app. split; [done|by constructor]. }
    exists p', qs', r. split_and!; eauto.
  - rewrite (m_get_nofail _ _ Hp). set (fp := mkIpq _ _ _ _ _ _).
    destruct (reass_check_total p (fp :: qs) 0 fp fp [f]) as (p' & qs' & r & -> & A1 & A2 & A3); try done.
    { by constructor. } { by constructor. }
    exists p', qs', r. split_and!; try done. intros Hns.
    assert (Hmf : ipq_match hd fp = false) by (apply Hk; [by apply ipq_match_eq|done]).
    rewrite A3 by done. simpl. by rewrite Hmf.
Qed.
#[global] Instance same_dgram_dec h : Decision (same_dgram h).
Proof. unfold same_dgram. apply _. Defined.

(** The positions that the fragments of the datagram among [xs] bring. *)
Definition brought (xs : list (ip * chain)) (z : Z) : Prop := Exists (fun x => same_dgram x.1 /\ brings x.1 z) xs.

(** What may arrive: fragments of this datagram, and any of others. *)
Definition traffic (x : ip * chain) : Prop := headed x /\ (same_dgram x.1 -> part x.1 x.2).

Lemma part_traffic x : part x.1 x.2 -> traffic x.
Proof.
  destruct x as [h m]. intros Hx. split; [|done]. destruct Hx as (_ & m' & E & _). cbn [fst snd] in E.
  destruct m as [|m1 t]; simpl in E; [done|]. destruct (Z.ltb_spec (m_len m1) (hlen_of h)); [done|]. by exists m1, t.
Qed.

(** While the datagram is incomplete its queue grows by what arrives. *)
Lemma reass_all_ok xs : forall p qs,
  zlen (host_ip hd) = hlen_of hd -> N <= 32767 -> mp_fail p = [] -> solid qs -> Forall traffic xs ->
  in_ord 0 (queue_of qs) -> (exists z, 0 <= z < N /\ ~ fcovers (queue_of qs) z /\ ~ brought xs z) ->
  exists p' qs' rs, reass_all p qs xs = Ret (p', qs', rs) /\ mp_fail p' = [] /\ solid qs' /\ in_ord 0 (queue_of qs') /\
    Forall2 (fun x r => same_dgram x.1 -> r = None) xs rs /\
    (forall z, fcovers (queue_of qs') z <-> fcovers (queue_of qs) z \/ brought xs z).
Proof.
  induction xs as [|x xs IH]; intros p qs Hh HN Hp Hs Hx Hq (z & Hz & Hnq & Hnx).
  { exists p, qs, []. split_and!; try done. intros w. unfold brought. rewrite Exists_nil. tauto. }
  apply Forall_cons_iff in Hx as [[Hhd Hpt] Hx]. unfold brought in Hnx. rewrite Exists_cons in Hnx.
  destruct (ip_reass_total p qs x Hp Hs Hhd) as (p1 & qs1 & r & E & Hp1 & Hs1 & Hother).
  assert (H1 : in_ord 0 (queue_of qs1) /\ (same_dgram x.1 -> r = None) /\
    forall z, fcovers (queue_of qs1) z <-> fcovers (queue_of qs) z \/ (same_dgram x.1 /\ brings x.1 z)).
  { destruct (decide (same_dgram x.1)) as [Hsm|Hsm].
    - destruct (own_fragment p qs x.1 x.2) as [(p2 & qs2 & E2 & A1 & A2 & A3)|(p2 & qs2 & c & E2 & A1 & A2)]; auto.
      { by exists z. }
      + change (reass1 p qs x = Ret (p2, qs2, None)) in E2. rewrite E in E2. simplify_eq.
        split_and!; try done. intros w. rewrite A3. tauto.
      + destruct (A2 z Hz); tauto.
    - rewrite Hother by done. split_and!; try done. intros w. tauto. }
  destruct H1 as (Hq1 & Hr & Hc1).
  destruct (IH p1 qs1) as (p' & qs' & rs & E' & B1 & B2 & B3 & B4 & B5); try done.
  { exists z. rewrite Hc1. unfold brought. tauto. }
  exists p', qs', (r :: rs). simpl. rewrite E. cbn [obind]. rewrite E'. cbn [obind]. split_and!; try done.
  - by constructor.
  - intros w. rewrite B5, Hc1. unfold brought. rewrite Exists_cons. tauto.
Qed.

(** C10: IP reassembly gives back the datagram: let fragments of a datagram arrive in any
    order, repeated and cut at different places so that they overlap, mixed with any
    fragments of other datagrams.  ip_reass returns for each of them, hands up nothing
    for the datagram while a byte of it is missing, and when the last missing piece
    arrives returns the datagram: its header with the whole length and its data, every
    byte once and in order, in a well-formed chain with the header in its first mbuf. *)
Theorem datagram_reassembled p qs xs x :
  zlen (host_ip hd) = hlen_of hd -> N <= 32767 -> mp_fail p = [] -> solid qs -> queue_of qs = [] ->
  Forall traffic xs -> part x.1 x.2 ->
  (exists z, 0 <= z < N /\ ~ brought xs z) -> (forall z, 0 <= z < N -> brought (xs ++ [x]) z) ->
  exists p' qs' rs c, reass_all p qs (xs ++ [x]) = Ret (p', qs', rs ++ [Some (hd, c)]) /\
    Forall2 (fun x r => same_dgram x.1 -> r = None) xs rs /\ whole c.
Proof.
  intros Hh HN Hp Hs Hq Hx Hl (z0 & Hz0 & Hn0) Hall.
  destruct (reass_all_ok xs p qs) as (p1 & qs1 & rs & E & Hp1 & Hs1 & Hq1 & Hrs & Hc); try done.
  { by rewrite Hq. }
  { exists z0. rewrite Hq. split; [done|split; [by intros ?%Exists_nil|done]]. }
  assert (Hfc : forall z, fcovers (queue_of qs1) z <-> brought xs z).
  { intros z. rewrite Hc, Hq. split; [intros [?%Exists_nil|?]; done|by right]. }
  assert (Eapp : reass_all p qs (xs ++ [x]) =
    let! (p, qs, rs) := reass_all p qs xs in let! (p, qs, r) := reass1 p qs x in Ret (p, qs, rs ++ [r])).
  { clear. revert p qs. induction xs as [|y xs IH]; intros p qs; simpl.
    - destruct (reass1 p qs x) as [[[p1 q1] r]| |]; done.
    - destruct (reass1 p qs y) as [[[p1 q1] r]| |]; cbn [obind]; [|done|done]. rewrite IH.
      destruct (reass_all p1 q1 xs) as [[[p2 q2] rs]| |]; cbn [obind]; [|done|done].
      destruct (reass1 p2 q2 x) as [[[p3 q3] r3]| |]; done. }
  rewrite Eapp, E. cbn [obind].
  destruct (own_fragment p1 qs1 x.1 x.2) as [(p2 & qs2 & E2 & A1 & A2 & A3)|(p2 & qs2 & c & E2 & A1 & A2)]; try done.
  { exists z0. by rewrite Hfc. }
  - exfalso. destruct A2 as (z & Hz & Hnz). apply Hnz, A3. rewrite Hfc. specialize (Hall z Hz). unfold brought in *.
    apply Exists_app in Hall as [?|Hb]; [by left|right]. apply Exists_cons in Hb as [[_ ?]|Hb]; [done|by apply Exists_nil in Hb].
  - change (reass1 p1 qs1 x = Ret (p2, qs2, Some (hd, c))) in E2. rewrite E2. cbn [obind]. eexists _, _, _, _. split_and!; done.
Qed.
End Datagram.

(** ** Two fragments that overlap, and one of another datagram in between *)

Definition up0 : ip := mkIp 4 5 0 24 77 0 64 17 0 167772161 167772162 [].
Definition up_data : list Z := seqZ 1 24.
Definition frag_in (h : ip) : ip * chain :=
  (h, [mkMbuf 20 (host_ip h ++ zsub (ip_off h) (ip_len h) up_data) MT_DATA M_PKTHDR (20 + ip_len h) 1 0 0]).
Definition frag_a : ip * chain := frag_in (up0 <| ip_tos := 1 |> <| ip_len := 16 |>).
Definition frag_b : ip * chain := frag_in (up0 <| ip_off := 8 |> <| ip_len := 16 |>).
Definition frag_c : ip * chain := frag_in (up0 <| ip_id := 78 |> <| ip_tos := 1 |> <| ip_len := 8 |>).
Definition pool0 : mpool := mkPool (fun _ => 0) [] [].

Lemma parts0 : part up0 up_data frag_a.1 frag_a.2 /\ part up0 up_data frag_b.1 frag_b.2.
Proof.
  split; (split; [by split_and!|]); (eexists; split; [reflexivity|]); split; try (vm_compute; congruence); try (by vm_compute);
    try (by repeat constructor; vm_compute; intuition congruence).
  intros _. split_and!; [done|done|]. eexists _, _. split; [reflexivity|]. split; vm_compute; congruence.
Qed.

Lemma datagram_reassembled_witness :
  exists p qs r c, reass_all pool0 [] [frag_b; frag_c; frag_a] = Ret (p, qs, r ++ [Some (up0, c)]) /\
    chain_bytes c = host_ip up0 ++ up_data.
Proof.
  destruct parts0 as [Ha Hb].
  destruct (datagram_reassembled up0 up_data pool0 [] [frag_b; frag_c] frag_a) as (p & qs & rs & c & E & _ & W & _);
    [reflexivity|vm_compute; congruence|reflexivity|constructor|reflexivity| |exact Ha| | |].
  - apply Forall_cons_2; [by apply (part_traffic up0 up_data frag_b)|]. apply Forall_cons_2; [split|apply Forall_nil_2].
    + eexists _, []. split; [reflexivity|vm_compute; congruence].
    + intros (H & _). vm_compute in H. discriminate H.
  - exists 3. split; [vm_compute; intuition congruence|]. unfold brought, brings, same_dgram. rewrite !Exists_cons, Exists_nil.
    cbn. lia.
  - intros z Hz. change (zlen up_data) with 24 in Hz. unfold brought, brings, same_dgram. cbn [app]. rewrite !Exists_cons, Exists_nil.
    cbn. lia.
  - by exists p, qs, rs, c.
Defined.

End IpReass.
