(* ===== verification/IpExpire.v ===== *)
(** The life of a reassembly queue: what ip_reass, ip_slowtimo and ip_drain of
    src/sys/netinet/ip_input.c do to the mbuf clusters that the fragments hold, over any
    sequence of arrivals, half-second timeouts and drains. *)
From S2P Require Import Prelude Mbuf Cksum SockBuf Socket TcpVar TcpHdr IpHdr IpReass.
Import Mbuf Cksum TcpHdr IpHdr IpReass.

Module IpExpire.

(** What happens to the reassembly queues. *)
Inductive ipev := Arrive (x : ip * chain) | Slowtimo | Drain.

Definition up_list (r : option (ip * chain)) : list (ip * chain) := match r with Some d => [d] | None => [] end.

Definition ev_step (p : mpool) (qs : list ipq) (ev : ipev) : outcome (mpool * list ipq * list (ip * chain)) :=
  match ev with
  | Arrive x => let! (p, qs, r) := reass1 p qs x in Ret (p, qs, up_list r)
  | Slowtimo => let '(p, qs) := ip_slowtimo p qs in Ret (p, qs, [])
  | Drain => let '(p, qs) := ip_drain p qs in Ret (p, qs, [])
  end.

(** The datagrams passed up, the first one first. *)
Fixpoint run (p : mpool) (qs : list ipq) (evs : list ipev) : outcome (mpool * list ipq * list (ip * chain)) :=
  match evs with
  | [] => Ret (p, qs, [])
  | ev :: evs =>
      let! (p, qs, u) := ev_step p qs ev in
      let! (p, qs, us) := run p qs evs in Ret (p, qs, u ++ us)
  end.

(** ** References held *)

Definition sum_of {A} (f : A -> Z) (l : list A) : Z := foldr (fun a n => f a + n) 0 l.

Lemma sum_of_app {A} (f : A -> Z) l k : sum_of f (l ++ k) = sum_of f l + sum_of f k.
Proof. induction l as [|a l IH]; simpl; [lia|]. rewrite IH. lia. Qed.
Lemma sum_of_delete {A} (f : A -> Z) l i a : l !! i = Some a -> sum_of f (delete i l) = sum_of f l - f a.
Proof.
  revert i. induction l as [|b l IH]; intros i E; [done|]. destruct i as [|i]; simpl in *; [simplify_eq; lia|].
  rewrite (IH i) by done. lia.
Qed.
Lemma sum_of_insert {A} (f : A -> Z) l i a b : l !! i = Some a -> sum_of f (<[i := b]> l) = sum_of f l - f a + f b.
Proof.
  revert i. induction l as [|c l IH]; intros i E; [done|]. destruct i as [|i]; simpl in *; [simplify_eq; lia|].
  rewrite (IH i) by done. lia.
Qed.

Section Cluster.
Context (c : Z).

Definition frags_refs (q : list ipasfrag) : Z := sum_of (fun f => refs c (fr_m f)) q.
Definition queues_refs (qs : list ipq) : Z := sum_of (fun fp => frags_refs (ipq_frags fp)) qs.
Definition dgrams_refs (ds : list (ip * chain)) : Z := sum_of (fun d => refs c d.2) ds.
Definition arrived (evs : list ipev) : list (ip * chain) :=
  evs ≫= fun ev => match ev with Arrive x => [x] | _ => [] end.

Lemma refs_ext (l k : chain) : map m_flags l = map m_flags k -> map ext_buf l = map ext_buf k -> refs c l = refs c k.
Proof.
  revert k. induction l as [|a l IH]; intros [|b k] H1 H2; try done. simpl in *. injection H1 as Ha H1. injection H2 as Hb H2.
  rewrite (IH k) by done. unfold refs1. by rewrite Ha, Hb.
Qed.
Lemma set_pktlen_refs f ms : refs c (set_pktlen f ms) = refs c ms.
Proof. destruct ms; simpl; [done|]. by case_match. Qed.
Lemma m_adj_head_refs ms n : refs c (m_adj_head ms n).1 = refs c ms.
Proof.
  revert n. induction ms as [|m ms IH]; intros n; simpl; [done|]. destruct (n >? 0); [|done].
  destruct (m_len m <=? n); [|done]. specialize (IH (n - m_len m)). destruct (m_adj_head ms _). simpl in *.
  rewrite IH. done.
Qed.
Lemma m_adj_refs ms n : 0 <= n -> refs c (m_adj ms n) = refs c ms.
Proof.
  intros Hn. unfold m_adj. destruct ms as [|m ms]; [done|]. destruct (Z.geb_spec n 0); [|lia].
  pose proof (m_adj_head_refs (m :: ms) n) as Hh. destruct (m_adj_head (m :: ms) n). by rewrite set_pktlen_refs.
Qed.

Lemma frag_prev_refs o f f' : frag_prev o f = Some f' -> refs c (fr_m f') = refs c (fr_m f).
Proof.
  destruct o as [q|]; simpl; [|by intros [= <-]]. destruct (Z.gtb_spec (fr_off q + fr_len q - fr_off f) 0); [|by intros [= <-]].
  destruct (_ >=? _); [done|]. intros [= <-]. apply m_adj_refs. lia.
Qed.
Lemma frag_succ_refs p e q :
  mclrefcnt (frag_succ p e q).1 c - frags_refs (frag_succ p e q).2 = mclrefcnt p c - frags_refs q.
Proof.
  revert p. induction q as [|f q IH]; intros p; simpl; [done|]. destruct (Z.gtb_spec e (fr_off f)); [|done].
  destruct (_ <? _); cbn [fst snd]; unfold frags_refs in *; simpl.
  - rewrite m_adj_refs by lia. done.
  - rewrite IH, m_freem_refcnt. lia.
Qed.
End Cluster.

Lemma frags_cat_refs p m1 m q : exists m' t p', frags_cat p (m1 :: m) q = Ret (m' :: t, p') /\
  forall c, mclrefcnt p' c - refs c (m' :: t) = mclrefcnt p c - refs c (m1 :: m) - frags_refs c q.
Proof.
  revert p m1 m. induction q as [|f q IH]; intros p m1 m; cbn [frags_cat].
  - eexists _, _, _. split; [done|]. intros c. unfold frags_refs. simpl. lia.
  - destruct (m_cat_ok p m1 m (fr_m f)) as (m2 & t & p1 & -> & _ & Hr & _). cbn [obind].
    destruct (IH p1 m2 t) as (m3 & t3 & p3 & E & H3). exists m3, t3, p3. split; [done|].
    intros c. rewrite H3, Hr. unfold frags_refs. simpl. lia.
Qed.

Lemma reass_done_refs p fp next :
  Forall (fun f => fr_m f <> []) (ipq_frags fp) -> ipq_frags fp <> [] ->
  exists p' r, reass_done p fp next = Ret (p', r) /\
    forall c, mclrefcnt p' c - refs c r.2 = mclrefcnt p c - frags_refs c (ipq_frags fp).
Proof.
  intros Hq Hne. unfold reass_done. destruct (ipq_frags fp) as [|f q]; [done|].
  apply Forall_cons_iff in Hq as [Hf _]. destruct (fr_m f) as [|m1 t] eqn:Em; [done|].
  destruct (m_cat_ok p m1 [] t) as (m2 & t2 & p1 & -> & _ & Hr & _). cbn [obind].
  destruct (frags_cat_refs p1 m2 t2 q) as (m3 & t3 & p3 & -> & H3). cbn [obind].
  eexists _, _. split; [reflexivity|]. intros c. specialize (H3 c). cbn [snd]. unfold frags_refs in *. simpl sum_of. rewrite Em.
  specialize (Hr c). change (refs c [m1]) with (refs1 c m1 + 0) in Hr. rewrite (refs_ext c _ (m3 :: t3)).
  - change (refs c (m1 :: t)) with (refs1 c m1 + refs c t). lia.
  - simpl. by case_match.
  - simpl. by case_match.
Qed.

(** A queue that is in the list: its fragments have mbufs and its time has not run out. *)
Definition live (fp : ipq) : Prop :=
  Forall (fun f => fr_m f <> []) (ipq_frags fp) /\ 1 <= ipq_ttl fp <= IPFRAGTTL.

(** From one state of the queues to the next: nothing is lost of what the queues held and
    of the [d] references that came. *)
Definition conserved (p : mpool) (qs : list ipq) (d : Z -> Z) (o : outcome (mpool * list ipq * list (ip * chain))) : Prop :=
  exists p' qs' us, o = Ret (p', qs', us) /\ Forall live qs' /\
    forall c, mclrefcnt p' c - queues_refs c qs' - dgrams_refs c us = mclrefcnt p c - queues_refs c qs - d c.

#[local] Abbreviation passed o := (let! (p, qs, r) := o in Ret (p, qs, up_list r)).

Lemma reass_check_refs p qs i fp0 fp q :
  Forall live qs -> live (fp <| ipq_frags := q |>) -> qs !! i = Some fp0 ->
  conserved p qs (fun c => frags_refs c q - frags_refs c (ipq_frags fp0)) (passed (reass_check p qs i fp q)).
Proof.
  intros Hs Hl Hi. unfold reass_check. cbv zeta.
  assert (Hw : conserved p qs (fun c => frags_refs c q - frags_refs c (ipq_frags fp0)) (Ret (p, <[i := fp <| ipq_frags := q |>]> qs, []))).
  { eexists _, _, _. split; [reflexivity|]. split; [by apply Forall_insert|]. intros c. unfold queues_refs, dgrams_refs.
    rewrite (sum_of_insert _ _ _ _ _ Hi). rec_simpl. simpl. lia. }
  destruct (frags_end 0 q) as [next|]; [|done]. destruct (list.last q) as [l|] eqn:El; [|done].
  destruct (fr_mff l); [done|]. destruct Hl as [Hq _].
  destruct (reass_done_refs p (fp <| ipq_frags := q |>) next) as (p' & r & -> & Hp'); [done|rec_simpl; by destruct q|].
  cbn [obind]. eexists _, _, _. split; [reflexivity|]. split; [by apply Forall_delete|]. intros c. unfold queues_refs, dgrams_refs.
  rewrite (sum_of_delete _ _ _ _ Hi). specialize (Hp' c). rec_simpl_in Hp'. simpl. lia.
Qed.

Lemma conserved_ext p qs d p0 qs0 d0 o :
  conserved p0 qs0 d0 o -> (forall c, mclrefcnt p0 c - queues_refs c qs0 - d0 c = mclrefcnt p c - queues_refs c qs - d c) ->
  conserved p qs d o.
Proof. intros (p' & qs' & us & E & Hl & Hc) H. exists p', qs', us. split_and!; try done. intros c. by rewrite Hc. Qed.

Lemma arrive_conserved p qs x :
  Forall live qs -> headed x -> conserved p qs (fun c => refs c x.2) (ev_step p qs (Arrive x)).
Proof.
  destruct x as [h m]. intros Hs (m1 & t & Em & Hl). cbn [fst snd] in *. subst m. unfold ev_step, reass1, ip_reass. cbn [fst snd hide].
  destruct (Z.ltb_spec (m_len m1) (hlen_of h)); [lia|]. cbn [obind].
  set (m := m1 <| m_off := _ |> <| m_bytes := _ |> :: t).
  assert (Hm : forall c, refs c (m1 :: t) = refs c m) by done. assert (Hne : m <> []) by done. clearbody m.
  assert (Hd : forall pp, mclrefcnt pp = mclrefcnt p -> conserved p qs (fun c => refs c (m1 :: t)) (Ret (m_freem pp m, qs, []))).
  { intros pp Epp. eexists _, _, _. split; [reflexivity|]. split; [done|]. intros c. rewrite m_freem_refcnt, Hm, Epp.
    unfold dgrams_refs. simpl. lia. }
  destruct (find_ipq h qs) as [i|] eqn:Ei.
  - apply find_ipq_match in Ei as (fp & Ei & _). rewrite Ei.
    pose proof (Forall_lookup_1 _ _ _ _ Hs Ei) as [Hq Ht].
    destruct (frag_split _ (ipq_frags fp)) as [q1 q2] eqn:Es. apply frag_split_app in Es. rewrite Es in Hq.
    apply Forall_app in Hq as [H1 H2]. destruct (frag_prev (list.last q1) _) as [f'|] eqn:Ef; [|by apply Hd].
    pose proof (fun c => frag_prev_refs c _ _ _ Ef) as Hr. cbn [fr_m] in Hr. apply frag_prev_solid in Ef; [|done].
    destruct (frag_succ_solid p (fr_off f' + fr_len f') q2 H2) as [_ H2'].
    pose proof (fun c => frag_succ_refs c p (fr_off f' + fr_len f') q2) as Hsu.
    destruct (frag_succ p _ q2) as [p1 q3]. cbn [fst snd] in *.
    eapply conserved_ext; [apply (reass_check_refs p1 qs i fp fp (q1 ++ f' :: q3) Hs); [split; [|done]|done]|].
    + rec_simpl. apply Forall_app. split; [done|by constructor].
    + intros c. rewrite Hm, <- Hr, Es. specialize (Hsu c). unfold frags_refs in *. rewrite !sum_of_app. simpl. lia.
  - destruct (m_get p MT_FTABLE) as [[n|] p1] eqn:Eg; apply m_get_refcnt in Eg; [|by apply Hd].
    eapply conserved_ext; [eapply (reass_check_refs p1 (mkIpq _ _ _ _ _ [] :: qs) 0); [|split|reflexivity]|].
    + constructor; [|done]. split; [constructor|]. cbn. unfold IPFRAGTTL. lia.
    + by repeat constructor.
    + cbn. unfold IPFRAGTTL. lia.
    + intros c. cbv beta. rewrite Eg, Hm. unfold queues_refs, frags_refs. simpl. lia.
Qed.

Lemma ip_freef_refs p fp c : mclrefcnt (ip_freef p fp) c = mclrefcnt p c - frags_refs c (ipq_frags fp).
Proof.
  unfold ip_freef, frags_refs. generalize (ipq_frags fp) as q. intros q. revert p.
  induction q as [|f q IH]; intros p; simpl; [lia|]. rewrite IH, m_freem_refcnt. lia.
Qed.

(** One half-second timeout; [n] bounds the time the queues have. *)
Lemma slowtimo_refs p qs n :
  Forall live qs -> Forall (fun fp => ipq_ttl fp <= n) qs ->
  exists p' qs', ip_slowtimo p qs = (p', qs') /\ Forall live qs' /\ Forall (fun fp => ipq_ttl fp <= n - 1) qs' /\
    forall c, mclrefcnt p' c - queues_refs c qs' = mclrefcnt p c - queues_refs c qs.
Proof.
  revert p. induction qs as [|fp qs IH]; intros p Hl Hn; cbn [ip_slowtimo]; [by eexists _, _|].
  apply Forall_cons_iff in Hl as [[Hm Ht] Hl]. apply Forall_cons_iff in Hn as [Hfn Hn].
  assert (Eu : u8 (ipq_ttl fp - 1) = ipq_ttl fp - 1) by (apply u8_id; unfold IPFRAGTTL in *; lia).
  cbv zeta. rewrite Eu. change (ipq_ttl (fp <| ipq_ttl := ipq_ttl fp - 1 |>)) with (ipq_ttl fp - 1).
  destruct (Z.eqb_spec (ipq_ttl fp - 1) 0).
  - destruct (IH (ip_freef p (fp <| ipq_ttl := ipq_ttl fp - 1 |>)) Hl Hn) as (p' & qs' & -> & A1 & A2 & A3).
    exists p', qs'. split_and!; try done. intros c. rewrite A3, ip_freef_refs. unfold queues_refs. simpl. lia.
  - destruct (IH p Hl Hn) as (p' & qs' & -> & A1 & A2 & A3). eexists _, _. split; [reflexivity|].
    split_and!; [constructor; [split; [done|]|done]|constructor; [|done]|]; rec_simpl; [lia|lia|].
    intros c. specialize (A3 c). unfold queues_refs in *. simpl. lia.
Qed.

Lemma drain_refs p qs c : mclrefcnt (fold_left ip_freef qs p) c = mclrefcnt p c - queues_refs c qs.
Proof.
  unfold queues_refs. revert p. induction qs as [|fp qs IH]; intros p; simpl; [lia|]. rewrite IH, ip_freef_refs. lia.
Qed.

Lemma step_conserved p qs ev :
  Forall live qs -> Forall headed (arrived [ev]) ->
  conserved p qs (fun c => dgrams_refs c (arrived [ev])) (ev_step p qs ev).
Proof.
  intros Hl Ha. destruct ev as [x| |].
  - apply Forall_cons_iff in Ha as [Hx _]. eapply conserved_ext; [by apply arrive_conserved|].
    intros c. unfold dgrams_refs. simpl. lia.
  - destruct (slowtimo_refs p qs IPFRAGTTL Hl) as (p' & qs' & E & A1 & _ & A3).
    { eapply Forall_impl; [|exact Hl]. intros fp [_ ?]. lia. }
    unfold ev_step. rewrite E. eexists _, _, _. split_and!; [reflexivity|done|].
    intros c. specialize (A3 c). unfold dgrams_refs. simpl. lia.
  - eexists _, _, _. split; [reflexivity|]. split; [constructor|]. intros c. rewrite drain_refs.
    unfold dgrams_refs, queues_refs. simpl. lia.
Qed.

Lemma run_conserved evs : forall p qs,
  Forall live qs -> Forall headed (arrived evs) ->
  conserved p qs (fun c => dgrams_refs c (arrived evs)) (run p qs evs).
Proof.
  induction evs as [|ev evs IH]; intros p qs Hl Ha.
  - eexists _, _, _. split_and!; [reflexivity|done|]. intros c. unfold dgrams_refs. simpl. lia.
  - assert (Ea : arrived (ev :: evs) = arrived [ev] ++ arrived evs) by (unfold arrived; simpl; by rewrite app_nil_r).
    rewrite Ea in *. apply Forall_app in Ha as [H1 H2]. cbn [run].
    destruct (step_conserved p qs ev Hl H1) as (p1 & qs1 & u & -> & Hl1 & Hc1). cbn [obind].
    destruct (IH p1 qs1 Hl1 H2) as (p2 & qs2 & us & -> & Hl2 & Hc2). cbn [obind].
    eexists _, _, _. split_and!; [reflexivity|done|]. intros c. specialize (Hc1 c). specialize (Hc2 c).
    unfold dgrams_refs in *. rewrite !sum_of_app. lia.
Qed.

Lemma run_app e1 e2 : forall p qs, run p qs (e1 ++ e2) =
  let! (p, qs, u) := run p qs e1 in let! (p, qs, us) := run p qs e2 in Ret (p, qs, u ++ us).
Proof.
  induction e1 as [|ev e1 IH]; intros p qs; cbn [run app].
  - cbn [obind]. by destruct (run p qs e2) as [[[? ?] ?]| |].
  - destruct (ev_step p qs ev) as [[[p1 qs1] u]| |]; cbn [obind]; [|done|done]. rewrite IH.
    destruct (run p1 qs1 e1) as [[[p2 qs2] us]| |]; cbn [obind]; [|done|done].
    destruct (run p2 qs2 e2) as [[[p3 qs3] us']| |]; cbn [obind]; [|done|done]. by rewrite app_assoc.
Qed.

(** After as many timeouts as the time the queues have, none is left. *)
Lemma slowtimo_all n : forall p qs,
  Forall live qs -> Forall (fun fp => ipq_ttl fp <= Z.of_nat n) qs ->
  exists p', run p qs (repeat Slowtimo n) = Ret (p', [], []).
Proof.
  induction n as [|n IH]; intros p qs Hl Hn.
  - destruct qs as [|fp qs]; [by eexists|]. apply Forall_cons_iff in Hl as [[_ ?] _]. apply Forall_cons_iff in Hn as [? _]. lia.
  - destruct (slowtimo_refs p qs _ Hl Hn) as (p1 & qs1 & E & A1 & A2 & _). cbn [repeat run ev_step]. rewrite E. cbn [obind].
    destruct (IH p1 qs1 A1) as (p2 & ->); [|by eexists]. eapply Forall_impl; [|exact A2]. cbv beta. lia.
Qed.

(** C11: reassembly neither leaks nor frees twice, and no fragment waits for ever: in every
    sequence of arriving fragments (of any datagrams, in any order, overlapping or not),
    slow timeouts and drains, with mbufs available or not, the operations return and each
    reference to a cluster that a fragment brought is afterwards held by a queue, held by
    a datagram that was passed up, or given back to the pool, exactly once; and when 60
    slow timeouts follow without an arrival all the queues are gone, so that only the
    datagrams passed up still hold references. *)
Theorem reass_no_leak p qs evs :
  Forall live qs -> Forall headed (arrived evs) ->
  exists p1 qs1 us p2, run p qs evs = Ret (p1, qs1, us) /\ Forall live qs1 /\
    (forall c, mclrefcnt p c + dgrams_refs c us + queues_refs c qs1 =
               mclrefcnt p1 c + dgrams_refs c (arrived evs) + queues_refs c qs) /\
    run p qs (evs ++ repeat Slowtimo 60) = Ret (p2, [], us) /\
    (forall c, mclrefcnt p c + dgrams_refs c us = mclrefcnt p2 c + dgrams_refs c (arrived evs) + queues_refs c qs).
Proof.
  intros Hl Ha. destruct (run_conserved evs p qs Hl Ha) as (p1 & qs1 & us & E & Hl1 & Hc).
  destruct (slowtimo_all 60 p1 qs1 Hl1) as (p2 & E2).
  { eapply Forall_impl; [|exact Hl1]. intros fp [_ ?]. unfold IPFRAGTTL in *. lia. }
  assert (E3 : run p qs (evs ++ repeat Slowtimo 60) = Ret (p2, [], us)).
  { rewrite run_app, E. cbn [obind]. rewrite E2. cbn [obind]. by rewrite app_nil_r. }
  assert (Ea : arrived (evs ++ repeat Slowtimo 60) = arrived evs).
  { unfold arrived. rewrite bind_app. by rewrite app_nil_r. }
  destruct (run_conserved (evs ++ repeat Slowtimo 60) p qs Hl) as (p3 & qs3 & us3 & E4 & _ & Hc4); [by rewrite Ea|].
  rewrite E3 in E4. injection E4 as <- <- <-.
  exists p1, qs1, us, p2. split_and!; try done; intros c; [specialize (Hc c); lia|].
  specialize (Hc4 c). rewrite Ea in Hc4. change (queues_refs c []) with 0 in Hc4. lia.
Qed.

(** A fragment in a cluster whose other parts never come. *)
Definition stray : ip * chain :=
  (up0 <| ip_tos := 1 |> <| ip_len := 8 |>, [mkMbuf 16 (repeat 0 28) MT_DATA (Z.lor M_PKTHDR M_EXT) 28 1 5 2048]).
Definition pool5 : mpool := mkPool (fun c => if c =? 5 then 1 else 0) [] [].

Lemma reass_no_leak_witness :
  exists p us, run pool5 [] ([Arrive stray] ++ repeat Slowtimo 60) = Ret (p, [], us) /\ mclrefcnt p 5 = dgrams_refs 5 us.
Proof.
  destruct (reass_no_leak pool5 [] [Arrive stray]) as (p1 & qs1 & us & p2 & _ & _ & _ & E & H).
  - constructor.
  - apply Forall_cons_2; [|apply Forall_nil_2]. eexists _, []. split; [reflexivity|vm_compute; congruence].
  - exists p2, us. split; [exact E|]. specialize (H 5). vm_compute (mclrefcnt pool5 5) in H.
    change (dgrams_refs 5 (arrived [Arrive stray])) with 1 in H. change (queues_refs 5 []) with 0 in H. lia.
Defined.

End IpExpire.
