(* ===== verification/IpOutput.v ===== *)
(** IP output (ip_output, ip_insertoptions, ip_optcopy and ip_mloopback of
    src/sys/netinet/ip_output.c).

    A packet is its header record and the chain of its mbufs, whose first mbuf begins with
    the room of the header; the header is written to that room when the packet goes to an
    interface.  The routing table, the interface lists and the results of if_output are
    parameters.  On an error the code frees the chain it was called with; a header mbuf that
    ip_insertoptions put before it holds no cluster, so the pool does not tell the two
    apart. *)
From S2P Require Import Prelude Mbuf Cksum SockBuf Socket TcpVar InPcb TcpHdr IpHdr.
Import Mbuf Cksum Socket TcpVar InPcb TcpHdr IpHdr.

Module IpOutput.

Definition EMSGSIZE : Z := 40.
Definition IP_FORWARDING : Z := 1.
Definition IP_RAWOUTPUT : Z := 2.
Definition IP_ROUTETOIF : Z := 16.
Definition IP_ALLOWBROADCAST : Z := 32.
Definition IP_DEFAULT_MULTICAST_TTL : Z := 1.
Definition RTF_UP : Z := 1.
Definition RTF_GATEWAY : Z := 2.
Definition IFF_BROADCAST : Z := 2.
Definition IFF_MULTICAST : Z := 32768.
Definition IPOPT_EOL : Z := 0.
Definition IPOPT_NOP : Z := 1.

(** What ip_output reads of a routing entry: flags, interface, the address of rt_ifa and
    the gateway. *)
Record iprt := mkIprt { rt_flags : Z; rt_ifp : Z; rt_ifa : Z; rt_gateway : Z }.
Record route := mkRoute { ro_rt : option iprt; ro_dst : Z }.
Record ipoption := mkIpoption { ipopt_dst : Z; ipopt_list : list Z }.
Record ip_moptions := mkImo { imo_multicast_ifp : option Z; imo_multicast_ttl : Z; imo_multicast_loop : bool }.

(** The rest of the kernel: the routing table, the lookups of interface addresses (an
    answer is the interface and its address), and per interface its MTU, flags, broadcast
    addresses, multicast groups and first address. *)
Record ipenv := mkIpenv {
  rtalloc : Z -> option iprt;
  ifa_ifwithdstaddr : Z -> option (Z * Z);
  ifa_ifwithnet : Z -> option (Z * Z);
  if_mtu : Z -> Z;
  if_flags : Z -> Z;
  in_broadcast : Z -> Z -> bool;
  in_lookup_multi : Z -> Z -> bool;
  ifp_to_ia : Z -> option Z;
  loif : Z;
  ip_max_linkhdr : Z;
  junk_len : Z            (* what the uninitialised [len] of ip_output holds *)
}.

(** A packet handed to an interface: the interface, the next hop, the mbufs. *)
Definition outpkt : Type := Z * Z * chain.

Record ipost := mkIpo {
  io_pool : mpool;
  io_id : Z;               (* ip_id *)
  io_out : list outpkt;    (* handed to if_output, last first *)
  io_err : list Z;         (* the results of the next calls of if_output *)
  io_loop : list outpkt    (* handed to looutput, last first *)
}.
Definition eta_ipo (r : ipost) : ipost := mkIpo (io_pool r) (io_id r) (io_out r) (io_err r) (io_loop r).
#[global] Instance set_io_pool : Setter io_pool := ltac:(mk_setter eta_ipo).
#[global] Instance set_io_id : Setter io_id := ltac:(mk_setter eta_ipo).
#[global] Instance set_io_out : Setter io_out := ltac:(mk_setter eta_ipo).
#[global] Instance set_io_err : Setter io_err := ltac:(mk_setter eta_ipo).
#[global] Instance set_io_loop : Setter io_loop := ltac:(mk_setter eta_ipo).

Definition if_output (s : ipost) (ifp dst : Z) (m : chain) : Z * ipost :=
  (match io_err s with [] => 0 | e :: _ => e end,
   s <| io_out := (ifp, dst, m) :: io_out s |> <| io_err := tail (io_err s) |>).

(** ** Headers *)

(** Write a header over the front of the first mbuf. *)
Definition put_hdr (h : ip) (m : chain) : chain :=
  match m with
  | m1 :: ms => m1 <| m_bytes := encode_ip h ++ zdrop (zlen (encode_ip h)) (m_bytes m1) |> :: ms
  | [] => []
  end.

(** [ip_sum = 0; ip_sum = in_cksum(m, hlen)], with the fields in network order. *)
Definition stamp (h : ip) (m : chain) (hlen : Z) : chain :=
  let sum := in_cksum (put_hdr (h <| ip_sum := 0 |>) m) hlen in
  put_hdr (h <| ip_sum := sum |>) m.

(** Insert IP options into a preformed packet.  [None] for the header length means that
    [*phlen] was not set. *)
Definition ip_insertoptions (e : ipenv) (p : mpool) (h : ip) (m : chain) (opt : ipoption)
    : mpool * ip * chain * option Z :=
  let optlen := zlen (ipopt_list opt) in
  if optlen + u16 (ip_len h) >? IP_MAXPACKET then (p, h, m, None)
  else
    let h := if negb (ipopt_dst opt =? 0) then h <| ip_dst := ipopt_dst opt |> else h in
    let done m := (h <| ip_opts := ipopt_list opt |> <| ip_len := s16 (ip_len h + optlen) |>, m, Some (sizeof_ip + optlen)) in
    match m with
    | [] => (p, h, m, None)
    | m1 :: ms =>
        if hasf (m_flags m1) M_EXT || (m_off m1 - optlen <? sizeof_pkthdr) then
          match m_gethdr p MT_HEADER with
          | (None, p) => (p, h, m, None)
          | (Some n, p) =>
              let m1' := m1 <| m_off := m_off m1 + sizeof_ip |> <| m_bytes := zdrop sizeof_ip (m_bytes m1) |> in
              let n := n <| m_pktlen := m_pktlen m1 + optlen |> <| m_off := m_off n + ip_max_linkhdr e |>
                         <| m_bytes := ztake sizeof_ip (m_bytes m1) ++ ipopt_list opt |> in
              let '(h, m, hl) := done (n :: m1' :: ms) in (p, h, m, hl)
          end
        else
          let m1' := m1 <| m_off := m_off m1 - optlen |> <| m_pktlen := m_pktlen m1 + optlen |>
                        <| m_bytes := ztake sizeof_ip (m_bytes m1) ++ ipopt_list opt ++ zdrop sizeof_ip (m_bytes m1) |> in
          let '(h, m, hl) := done (m1' :: ms) in (p, h, m, hl)
    end.

(** Copy options, omitting those not copied during fragmentation: the bytes stored at
    [dp]. *)
Fixpoint ip_optcopy_loop (fuel : nat) (cp : list Z) (cnt : Z) : outcome (list Z) :=
  match fuel with
  | O => OutOfFuel
  | S fuel =>
      if cnt >? 0 then
        let opt := get cp 0 in
        if opt =? IPOPT_EOL then Ret []
        else if opt =? IPOPT_NOP then
          let! dp := ip_optcopy_loop fuel (zdrop 1 cp) (cnt - 1) in Ret (IPOPT_NOP :: dp)
        else
          let optlen := get cp 1 in
          let optlen := if optlen >? cnt then cnt else optlen in
          let! dp := ip_optcopy_loop fuel (zdrop optlen cp) (cnt - optlen) in
          Ret (if hasf opt 128 then ztake optlen cp ++ dp else dp)
      else Ret []
  end.

Definition ip_optcopy (h : ip) : outcome (list Z) :=
  let cnt := hlen_of h - sizeof_ip in
  let! dp := ip_optcopy_loop (S (Z.to_nat cnt)) (ip_opts h) cnt in
  Ret (dp ++ repeat IPOPT_EOL (Z.to_nat ((- zlen dp) mod 4))).

(** ** Fragmentation *)

(** One new fragment: [off] is where its data starts in [m0], [len] the length of the
    data of a full fragment.  The result is the fragment, or [None] when no mbuf could be
    had. *)
Definition fragment1 (e : ipenv) (p : mpool) (h : ip) (m0 : chain) (hlen off len : Z)
    : outcome (mpool * option chain) :=
  match m_gethdr p MT_HEADER with
  | (None, p) => Ret (p, None)
  | (Some m, p) =>
      let! opts := (if hlen >? sizeof_ip then ip_optcopy h else Ret []) in
      let mhlen := zlen opts + sizeof_ip in
      let h' := h <| ip_opts := opts |> in
      let h' := if hlen >? sizeof_ip then h' <| ip_hl := Z.shiftr mhlen 2 mod 16 |> else h' in
      let o := s16 (Z.shiftr (off - hlen) 3 + clrb (ip_off h) IP_MF) in
      let o := if hasf (ip_off h) IP_MF then setb o IP_MF else o in
      let '(len, o) := if off + len >=? u16 (ip_len h) then (u16 (ip_len h) - off, o) else (len, setb o IP_MF) in
      let h' := h' <| ip_off := s16 o |> <| ip_len := s16 (len + mhlen) |> in
      let m := m <| m_off := m_off m + ip_max_linkhdr e |> <| m_bytes := repeat 0 (Z.to_nat mhlen) |> in
      let! (c, p) := m_copym p m0 off len in
      match c with
      | None => Ret (m_free p m, None)
      | Some c => Ret (p, Some (stamp h' (m <| m_pktlen := mhlen + len |> :: c) mhlen))
      end
  end.

(** The loop over the data after the first fragment; [false] when it ran out of mbufs. *)
Fixpoint fragment_loop (fuel : nat) (e : ipenv) (p : mpool) (h : ip) (m0 : chain) (hlen off len : Z)
    : outcome (mpool * list chain * bool) :=
  match fuel with
  | O => OutOfFuel
  | S fuel =>
      if off <? u16 (ip_len h) then
        let! (p, r) := fragment1 e p h m0 hlen off len in
        match r with
        | None => Ret (p, [], false)
        | Some m => let! (p, l, ok) := fragment_loop fuel e p h m0 hlen (off + len) len in Ret (p, m :: l, ok)
        end
      else Ret (p, [], true)
  end.

(** The first fragment: what is left of the packet. *)
Definition fragment0 (h : ip) (m0 : chain) (hlen len : Z) : chain :=
  let m := m_adj m0 (hlen + len - u16 (ip_len h)) in
  let m := match m with m1 :: ms => m1 <| m_pktlen := hlen + len |> :: ms | [] => [] end in
  stamp (h <| ip_len := s16 (hlen + len) |> <| ip_off := s16 (setb (ip_off h) IP_MF) |>) m hlen.

(** The label sendorfree: send the fragments in order until an error. *)
Fixpoint sendorfree (s : ipost) (ifp dst : Z) (error : Z) (ms : list chain) : Z * ipost :=
  match ms with
  | [] => (error, s)
  | m :: ms =>
      if error =? 0 then let '(error, s) := if_output s ifp dst m in sendorfree s ifp dst error ms
      else sendorfree (s <| io_pool := m_freem (io_pool s) m |>) ifp dst error ms
  end.

Definition fragment (e : ipenv) (s : ipost) (ifp dst : Z) (h : ip) (m : chain) (hlen len : Z) : outcome (Z * ipost) :=
  let! (p, l, ok) := fragment_loop (S (Z.to_nat (u16 (ip_len h)))) e (io_pool s) h m hlen (hlen + len) len in
  let s := s <| io_pool := p |> in
  Ret (if ok then sendorfree s ifp dst 0 (fragment0 h m hlen len :: l) else sendorfree s ifp dst ENOBUFS (m :: l)).

(** The label sendit. *)
Definition sendit (e : ipenv) (s : ipost) (ifp dst : Z) (h : ip) (m : chain) (hlen : Z) : outcome (Z * ipost) :=
  if u16 (ip_len h) <=? if_mtu e ifp then Ret (if_output s ifp dst (stamp h m hlen))
  else
    let bad := Ret (EMSGSIZE, s <| io_pool := m_freem (io_pool s) m |>) in
    if hasf (ip_off h) IP_DF then bad
    else
      let len := clrb (if_mtu e ifp - hlen) 7 in
      if len <? 8 then bad else fragment e s ifp dst h m hlen len.

(** ** Routing *)

(** The route: an error, or the interface, the address of [ia], the next hop, and the
    header with its time to live. *)
Definition ip_route (e : ipenv) (ro : route) (flags : Z) (h : ip) : route * (Z + (Z * Z * Z * ip)) :=
  let ro := match ro_rt ro with
            | Some rt => if negb (hasf (rt_flags rt) RTF_UP) || negb (ro_dst ro =? ip_dst h)
                         then mkRoute None (ro_dst ro) else ro
            | None => ro
            end in
  let ro := match ro_rt ro with None => mkRoute None (ip_dst h) | Some _ => ro end in
  if hasf flags IP_ROUTETOIF then
    match (match ifa_ifwithdstaddr e (ro_dst ro) with Some x => Some x | None => ifa_ifwithnet e (ro_dst ro) end) with
    | None => (ro, inl ENETUNREACH)
    | Some (ifp, ia) => (ro, inr (ifp, ia, ro_dst ro, h <| ip_ttl := 1 |>))
    end
  else
    let ro := match ro_rt ro with None => mkRoute (rtalloc e (ro_dst ro)) (ro_dst ro) | Some _ => ro end in
    match ro_rt ro with
    | None => (ro, inl EHOSTUNREACH)
    | Some rt => (ro, inr (rt_ifp rt, rt_ifa rt, if hasf (rt_flags rt) RTF_GATEWAY then rt_gateway rt else ro_dst ro, h))
    end.

Definition set_mflags (f : Z -> Z) (m : chain) : chain :=
  match m with m1 :: ms => m1 <| m_flags := f (m_flags m1) |> :: ms | [] => [] end.

(** Loop back a copy of a multicast packet. *)
Definition ip_mloopback (s : ipost) (ifp : Z) (h : ip) (m : chain) (dst : Z) : outcome ipost :=
  let! (c, p) := m_copym (io_pool s) m 0 M_COPYALL in
  let s := s <| io_pool := p |> in
  Ret (match c with
       | None => s
       | Some c => s <| io_loop := (ifp, dst, stamp h c (hlen_of h)) :: io_loop s |>
       end).

(** A multicast destination. *)
Definition output_mcast (e : ipenv) (s : ipost) (ifp : Z) (dst : Z) (imo : option ip_moptions) (h : ip) (m : chain) (hlen : Z)
    : outcome (Z * ipost) :=
  let m := set_mflags (fun f => setb f M_MCAST) m in
  let '(h, ifp) := match imo with
                   | Some i => (h <| ip_ttl := imo_multicast_ttl i |>,
                                match imo_multicast_ifp i with Some x => x | None => ifp end)
                   | None => (h <| ip_ttl := IP_DEFAULT_MULTICAST_TTL |>, ifp)
                   end in
  if negb (hasf (if_flags e ifp) IFF_MULTICAST) then Ret (ENETUNREACH, s <| io_pool := m_freem (io_pool s) m |>)
  else
    let h := if ip_src h =? INADDR_ANY
             then match ifp_to_ia e ifp with Some a => h <| ip_src := a |> | None => h end else h in
    let! s := (if in_lookup_multi e (ip_dst h) ifp && match imo with Some i => imo_multicast_loop i | None => true end
               then ip_mloopback s ifp h m dst else Ret s) in
    if (ip_ttl h =? 0) || (ifp =? loif e) then Ret (0, s <| io_pool := m_freem (io_pool s) m |>)
    else sendit e s ifp dst h m hlen.

(** Another destination: broadcasts are checked. *)
Definition output_ucast (e : ipenv) (s : ipost) (flags : Z) (ifp ia dst : Z) (h : ip) (m : chain) (hlen : Z)
    : outcome (Z * ipost) :=
  let h := if ip_src h =? INADDR_ANY then h <| ip_src := ia |> else h in
  let bad error := Ret (error, s <| io_pool := m_freem (io_pool s) m |>) in
  if in_broadcast e dst ifp then
    if negb (hasf (if_flags e ifp) IFF_BROADCAST) then bad EADDRNOTAVAIL
    else if negb (hasf flags IP_ALLOWBROADCAST) then bad EACCES
    else if u16 (ip_len h) >? if_mtu e ifp then bad EMSGSIZE
    else sendit e s ifp dst h (set_mflags (fun f => setb f M_BCAST) m) hlen
  else sendit e s ifp dst h (set_mflags (fun f => clrb f M_BCAST) m) hlen.

(** Fill in the IP header. *)
Definition fill_hdr (s : ipost) (flags : Z) (h : ip) (hlen : Z) : ipost * ip * Z :=
  if negb (hasf flags (Z.lor IP_FORWARDING IP_RAWOUTPUT)) then
    (s <| io_id := u16 (io_id s + 1) |>,
     h <| ip_v := IPVERSION |> <| ip_off := Z.land (ip_off h) IP_DF |> <| ip_id := io_id s |>
       <| ip_hl := Z.shiftr hlen 2 mod 16 |>, hlen)
  else (s, h, hlen_of h).

(** [ip_output]: the result is the error, the state and the caller's route. *)
Definition ip_output (e : ipenv) (s : ipost) (h : ip) (m0 : chain) (opt : option ipoption) (ro : option route)
    (flags : Z) (imo : option ip_moptions) : outcome (Z * ipost * route) :=
  let '(p, h, m, hlen) :=
    match opt with
    | Some o => let '(p, h, m, hl) := ip_insertoptions e (io_pool s) h m0 o in
                (p, h, m, match hl with Some l => l | None => junk_len e end)
    | None => (io_pool s, h, m0, sizeof_ip)
    end in
  let s := s <| io_pool := p |> in
  let '(s, h, hlen) := fill_hdr s flags h hlen in
  let '(ro, r) := ip_route e (match ro with Some r => r | None => mkRoute None 0 end) flags h in
  match r with
  | inl error => Ret (error, s <| io_pool := m_freem (io_pool s) m0 |>, ro)
  | inr (ifp, ia, dst, h) =>
      let! (error, s) := (if in_multicast (ip_dst h) then output_mcast e s ifp (ro_dst ro) imo h m hlen
                          else output_ucast e s flags ifp ia dst h m hlen) in
      Ret (error, s, ro)
  end.

End IpOutput.
