(* ===== verification/IpInput.v ===== *)
(** IP input (ipintr, ip_dooptions, ip_rtaddr, save_rte, ip_srcroute, ip_stripoptions and ip_forward of
    src/sys/netinet/ip_input.c, and in_canforward of in.c).

    [ip_input1] is the body of ipintr for one packet of the queue.  What leaves IP is
    recorded: packets passed to a protocol, errors passed to icmp_error, packets handed to
    ip_output.  The header is a record; where the code edits it byte by byte, in
    ip_dooptions, the model edits the bytes of the first mbuf. *)
From S2P Require Import Prelude Mbuf Cksum SockBuf Socket TcpVar InPcb TcpHdr IpHdr IpReass IpOutput.
Import Mbuf Cksum Socket TcpVar InPcb TcpHdr IpHdr IpReass IpOutput.

Module IpInput.

Definition ICMP_UNREACH : Z := 3.
Definition ICMP_SOURCEQUENCH : Z := 4.
Definition ICMP_REDIRECT : Z := 5.
Definition ICMP_TIMXCEED : Z := 11.
Definition ICMP_PARAMPROB : Z := 12.
Definition ICMP_UNREACH_HOST : Z := 1.
Definition ICMP_UNREACH_NEEDFRAG : Z := 4.
Definition ICMP_UNREACH_SRCFAIL : Z := 5.
Definition ICMP_REDIRECT_HOST : Z := 1.
Definition RTF_DYNAMIC : Z := 16.
Definition RTF_MODIFIED : Z := 32.
Definition IPOPT_RR : Z := 7.
Definition IPOPT_TS : Z := 68.
Definition IPOPT_LSRR : Z := 131.
Definition IPOPT_SSRR : Z := 137.
Definition IPOPT_MINOFF : Z := 4.
Definition MT_SOOPTS : Z := 10.

(** What ipintr reads of an interface address. *)
Record in_ifaddr := mkIa {
  ia_addr : Z; ia_ifp : Z; ia_broadaddr : Z; ia_netbroadcast : Z; ia_subnet : Z; ia_net : Z; ia_subnetmask : Z
}.

(** The rest of the kernel as IP input sees it: the interface addresses, their lookups,
    the destination a route is for (rt_key), the clock and the settings. *)
Record inenv := mkInenv {
  ie_out : ipenv;
  ie_ifaddr : list in_ifaddr;
  ifa_ifwithaddr : Z -> option Z;          (* the address, when it is ours *)
  ifaof_ifpforaddr : Z -> Z -> option Z;
  rt_ia : iprt -> option in_ifaddr;        (* rt_ifa as an internet address *)
  rt_key : iprt -> Z;
  iptime : Z;
  ipforwarding : bool;
  ipsendredirects : bool;
  ie_max_protohdr : Z
}.

(** A call of icmp_error: the packet, type, code, destination and interface. *)
Record icmp_call := mkIcmp { ic_h : ip; ic_m : chain; ic_type : Z; ic_code : Z; ic_dest : Z; ic_ifp : option Z }.

(** The saved source route: ip_nhops, the final destination and the bytes of the option
    ([srcopt] and [route]). *)
Record srcrt := mkSrcrt { sr_nhops : Z; sr_dst : Z; sr_opt : list Z }.

Record ipist := mkIpi {
  ii_out : ipost;
  ii_q : list ipq;
  ii_fwd : route;                   (* ipforward_rt *)
  ii_src : srcrt;
  ii_icmp : list icmp_call;         (* last first *)
  ii_up : list (ip * chain * Z)     (* passed to pr_input with hlen, last first *)
}.
Definition eta_ipi (r : ipist) : ipist := mkIpi (ii_out r) (ii_q r) (ii_fwd r) (ii_src r) (ii_icmp r) (ii_up r).
#[global] Instance set_ii_out : Setter ii_out := ltac:(mk_setter eta_ipi).
#[global] Instance set_ii_q : Setter ii_q := ltac:(mk_setter eta_ipi).
#[global] Instance set_ii_fwd : Setter ii_fwd := ltac:(mk_setter eta_ipi).
#[global] Instance set_ii_src : Setter ii_src := ltac:(mk_setter eta_ipi).
#[global] Instance set_ii_icmp : Setter ii_icmp := ltac:(mk_setter eta_ipi).
#[global] Instance set_ii_up : Setter ii_up := ltac:(mk_setter eta_ipi).

Definition ii_pool (s : ipist) : mpool := io_pool (ii_out s).
Definition with_pool (p : mpool) (s : ipist) : ipist := s <| ii_out := (ii_out s) <| io_pool := p |> |>.

Definition icmp_error (s : ipist) (h : ip) (m : chain) (type code dest : Z) (ifp : option Z) : ipist :=
  s <| ii_icmp := mkIcmp h m type code dest ifp :: ii_icmp s |>.

(** The packet with its header in host order, as the protocol sees it. *)
Definition put_host (h : ip) (m : chain) : chain :=
  match m with
  | m1 :: ms => m1 <| m_bytes := host_ip h ++ zdrop (zlen (host_ip h)) (m_bytes m1) |> :: ms
  | [] => []
  end.

(** HTONS of a halfword in memory. *)
Definition swap16 (v : Z) : Z := v mod 256 * 256 + v / 256 mod 256.

(** The header in memory after HTONS(ip->ip_id). *)
Definition net_id (h : ip) : ip := h <| ip_id := swap16 (ip_id h) |>.

(** ** Routes *)

(** The interface address for a next hop, through the route cache of forwarding. *)
Definition ip_rtaddr (e : inenv) (ro : route) (dst : Z) : route * option Z :=
  let ro := match ro_rt ro with
            | Some _ => if negb (dst =? ro_dst ro) then mkRoute (rtalloc (ie_out e) dst) dst else ro
            | None => mkRoute (rtalloc (ie_out e) dst) dst
            end in
  (ro, rt_ifa <$> ro_rt ro).

Definition in_canforward (a : Z) : bool :=
  if (Z.land a 4026531840 =? 4026531840) || in_multicast a then false
  else if Z.land a 2147483648 =? 0 then
    let net := Z.land a 4278190080 in negb ((net =? 0) || (net =? Z.shiftl 127 24))
  else true.

(** Forward a packet; [sr] when it is source routed. *)
Definition ip_forward (e : inenv) (s : ipist) (h : ip) (m : chain) (sr : bool) : outcome ipist :=
  let m1 := match m with m1 :: _ => m1 | [] => mkMbuf 0 [] 0 0 0 0 0 0 end in
  if hasf (m_flags m1) M_BCAST || negb (in_canforward (ip_dst h))
  then Ret (with_pool (m_freem (ii_pool s) m) s)
  else if ip_ttl h <=? 1 then Ret (icmp_error s (net_id h) m ICMP_TIMXCEED 0 0 None)
  else
    let h := h <| ip_ttl := ip_ttl h - 1 |> in
    let ro := match ro_rt (ii_fwd s) with
              | Some _ => if negb (ip_dst h =? ro_dst (ii_fwd s)) then mkRoute (rtalloc (ie_out e) (ip_dst h)) (ip_dst h)
                          else ii_fwd s
              | None => mkRoute (rtalloc (ie_out e) (ip_dst h)) (ip_dst h)
              end in
    let s := s <| ii_fwd := ro |> in
    match ro_rt ro with
    | None => Ret (icmp_error s (net_id h) m ICMP_UNREACH ICMP_UNREACH_HOST 0 None)
    | Some rt =>
        let! (mcopy, p) := m_copym (ii_pool s) (put_host (net_id h) m) 0 (imin (ip_len h) 64) in
        let s := with_pool p s in
        let redirect :=
          if (rt_ifp rt =? m_rcvif m1) && negb (hasf (rt_flags rt) (Z.lor RTF_DYNAMIC RTF_MODIFIED)) &&
             negb (rt_key e rt =? 0) && ipsendredirects e && negb sr
          then match rt_ia e rt with
               | Some ia => if Z.land (ip_src h) (ia_subnetmask ia) =? ia_subnet ia
                            then Some (if hasf (rt_flags rt) RTF_GATEWAY then rt_gateway rt else ip_dst h) else None
               | None => None
               end
          else None in
        let! (error, o, ro) := ip_output (ie_out e) (ii_out s) h m None (Some ro) IP_FORWARDING None in
        let s := s <| ii_out := o |> <| ii_fwd := ro |> in
        match mcopy with
        | None => Ret s
        | Some c =>
            let dest := match redirect with Some d => d | None => 0 end in
            if error =? 0 then
              match redirect with
              | None => Ret (with_pool (m_freem (ii_pool s) c) s)
              | Some _ => Ret (icmp_error s (net_id h) c ICMP_REDIRECT ICMP_REDIRECT_HOST dest None)
              end
            else if error =? EMSGSIZE then
              Ret (icmp_error s (net_id h) c ICMP_UNREACH ICMP_UNREACH_NEEDFRAG dest (rt_ifp <$> ro_rt ro))
            else if error =? ENOBUFS then Ret (icmp_error s (net_id h) c ICMP_SOURCEQUENCH 0 dest None)
            else Ret (icmp_error s (net_id h) c ICMP_UNREACH ICMP_UNREACH_HOST dest None)
        end
    end.

(** ** Options *)

(** Loads from and stores into the bytes of the first mbuf; past its data they are wild. *)
Definition poke (i : Z) (v : list Z) (b : list Z) : outcome (list Z) :=
  if (i <? 0) || (zlen b <? i + zlen v) then Panic "ip_dooptions: wild store"
  else Ret (ztake i b ++ v ++ zdrop (i + zlen v) b).

Definition peek (b : list Z) (i : Z) : Z := get b (Z.to_nat i).
Definition peek4 (b : list Z) (i : Z) : Z := rd32 b (Z.to_nat i).

Definition load (b : list Z) (i : Z) : outcome Z :=
  if (i <? 0) || (zlen b <=? i) then Panic "ip_dooptions: wild load" else Ret (peek b i).
Definition load4 (b : list Z) (i : Z) : outcome Z :=
  if (i <? 0) || (zlen b <? i + 4) then Panic "ip_dooptions: wild load" else Ret (peek4 b i).

(** [cp[IPOPT_OFFSET] += n] *)
Definition bump_ptr (c n : Z) (b : list Z) : outcome (list Z) := poke (c + 2) [u8 (peek b (c + 2) + n)] b.

(** Save the incoming source route of option [c] for replies. *)
Definition save_rte (b : list Z) (c : Z) (src : Z) (old : srcrt) : srcrt :=
  let olen := peek b (c + 1) in
  if olen >? 43 then old else mkSrcrt (u32 (olen - 3) / 4) src (zsub c olen b).

(** What processing one option yields: go on, or an error with its type and code. *)
Inductive optstep :=
| Opt_ok (b : list Z) (ro : route) (sr : srcrt) (forward : bool)
| Opt_bad (b : list Z) (ro : route) (type code : Z).

(** [off > optlen - sizeof(struct in_addr)] is an unsigned comparison. *)
Definition no_room (off optlen : Z) : bool := off >? u32 (optlen - 4).

Definition opt_srcroute (e : inenv) (b : list Z) (ro : route) (sr : srcrt) (fwd : bool) (c opt optlen : Z) : outcome optstep :=
  let! off := load b (c + 2) in
  if off <? IPOPT_MINOFF then Ret (Opt_bad b ro ICMP_PARAMPROB (c + 2))
  else
    match ifa_ifwithaddr e (peek4 b 16) with
    | None => if opt =? IPOPT_SSRR then Ret (Opt_bad b ro ICMP_UNREACH ICMP_UNREACH_SRCFAIL) else Ret (Opt_ok b ro sr fwd)
    | Some _ =>
        let off := off - 1 in
        if no_room off optlen then Ret (Opt_ok b ro (save_rte b c (peek4 b 12) sr) fwd)
        else
          let! hop := load4 b (c + off) in
          let '(ro, ia) :=
            if opt =? IPOPT_SSRR
            then (ro, match ifa_ifwithdstaddr (ie_out e) hop with Some (_, a) => Some a | None => snd <$> ifa_ifwithnet (ie_out e) hop end)
            else ip_rtaddr e ro hop in
          match ia with
          | None => Ret (Opt_bad b ro ICMP_UNREACH ICMP_UNREACH_SRCFAIL)
          | Some a =>
              let! b := poke 16 (be32 hop) b in
              let! b := poke (c + off) (be32 a) b in
              let! b := bump_ptr c 4 b in
              Ret (Opt_ok b ro sr (negb (in_multicast hop)))
          end
    end.

Definition opt_rr (e : inenv) (b : list Z) (ro : route) (sr : srcrt) (fwd : bool) (c optlen : Z) : outcome optstep :=
  let! off := load b (c + 2) in
  if off <? IPOPT_MINOFF then Ret (Opt_bad b ro ICMP_PARAMPROB (c + 2))
  else
    let off := off - 1 in
    if no_room off optlen then Ret (Opt_ok b ro sr fwd)
    else
      let dst := peek4 b 16 in
      let '(ro, ia) := match ifa_ifwithaddr e dst with Some a => (ro, Some a) | None => ip_rtaddr e ro dst end in
      match ia with
      | None => Ret (Opt_bad b ro ICMP_UNREACH ICMP_UNREACH_HOST)
      | Some a =>
          let! b := poke (c + off) (be32 a) b in
          let! b := bump_ptr c 4 b in
          Ret (Opt_ok b ro sr fwd)
      end.

(** Timestamps; [dst] is the destination before any source routing. *)
Definition opt_ts (e : inenv) (b : list Z) (ro : route) (sr : srcrt) (fwd : bool) (c dst rcvif : Z) : outcome optstep :=
  let bad b := Ret (Opt_bad b ro ICMP_PARAMPROB c) in
  let len := peek b (c + 1) in
  if len <? 5 then bad b else
  let! ptr := load b (c + 2) in
  let! fo := load b (c + 3) in
  let flg := fo mod 16 in
  let oflw := fo / 16 in
  let stamp b ptr :=
    let! b := poke (c + ptr - 1) (be32 (iptime e)) b in
    let! b := bump_ptr c 4 b in
    Ret (Opt_ok b ro sr fwd) in
  if ptr >? u32 (len - 4) then
    let oflw := (oflw + 1) mod 16 in
    let! b := poke (c + 3) [oflw * 16 + flg] b in
    if oflw =? 0 then bad b else Ret (Opt_ok b ro sr fwd)
  else if flg =? 0 then stamp b ptr
  else if (flg =? 1) || (flg =? 3) then
    if ptr + 4 + 4 >? len then bad b
    else if flg =? 1 then
      match ifaof_ifpforaddr e dst rcvif with
      | None => Ret (Opt_ok b ro sr fwd)
      | Some a =>
          let! b := poke (c + ptr - 1) (be32 a) b in
          let! b := bump_ptr c 4 b in
          stamp b (peek b (c + 2))
      end
    else
      let! a := load4 b (c + ptr - 1) in
      match ifa_ifwithaddr e a with
      | None => Ret (Opt_ok b ro sr fwd)
      | Some _ => let! b := bump_ptr c 4 b in stamp b (peek b (c + 2))
      end
  else bad b.

(** The loop over the options: [c] is the offset of the option from the header. *)
Fixpoint dooptions_loop (fuel : nat) (e : inenv) (dst rcvif : Z) (b : list Z) (ro : route) (sr : srcrt) (fwd : bool) (c cnt : Z)
    : outcome optstep :=
  match fuel with
  | O => OutOfFuel
  | S fuel =>
      if cnt >? 0 then
        let opt := peek b c in
        if opt =? IPOPT_EOL then Ret (Opt_ok b ro sr fwd)
        else
          let! optlen := (if opt =? IPOPT_NOP then Ret 1 else load b (c + 1)) in
          if (optlen <=? 0) || (optlen >? cnt) then Ret (Opt_bad b ro ICMP_PARAMPROB (c + 1))
          else
            let! r := (if (opt =? IPOPT_LSRR) || (opt =? IPOPT_SSRR) then opt_srcroute e b ro sr fwd c opt optlen
                       else if opt =? IPOPT_RR then opt_rr e b ro sr fwd c optlen
                       else if opt =? IPOPT_TS then opt_ts e b ro sr fwd c dst rcvif
                       else Ret (Opt_ok b ro sr fwd)) in
            match r with
            | Opt_ok b ro sr fwd => dooptions_loop fuel e dst rcvif b ro sr fwd (c + optlen) (cnt - optlen)
            | Opt_bad _ _ _ _ => Ret r
            end
      else Ret (Opt_ok b ro sr fwd)
  end.

(** The header record and the chain after the bytes of the first mbuf were edited. *)
Definition reread (h : ip) (b : list Z) : ip :=
  h <| ip_dst := rd32 b 16 |> <| ip_opts := zsub sizeof_ip (hlen_of h - sizeof_ip) b |>.

(** [ip_dooptions]: [None] when the packet was forwarded or answered with an error. *)
Definition ip_dooptions (e : inenv) (s : ipist) (h : ip) (m : chain) : outcome (ipist * option (ip * chain)) :=
  match m with
  | [] => Panic "ip_dooptions: null mbuf"
  | m1 :: ms =>
      let b := host_ip h ++ zdrop (zlen (host_ip h)) (m_bytes m1) in
      let cnt := hlen_of h - sizeof_ip in
      let! r := dooptions_loop (S (Z.to_nat cnt)) e (ip_dst h) (m_rcvif m1) b (ii_fwd s) (ii_src s) false sizeof_ip cnt in
      match r with
      | Opt_bad b ro type code =>
          let h := reread h b in
          let h := h <| ip_len := s16 (ip_len h - hlen_of h) |> in
          Ret (icmp_error (s <| ii_fwd := ro |>) h (m1 <| m_bytes := b |> :: ms) type code 0 None, None)
      | Opt_ok b ro sr fwd =>
          let s := s <| ii_fwd := ro |> <| ii_src := sr |> in
          let h := reread h b in
          let m := m1 <| m_bytes := b |> :: ms in
          if fwd then let! s := ip_forward e s h m true in Ret (s, None)
          else Ret (s, Some (h, m))
      end
  end.

(** [ip_srcroute]: the saved route reversed, as an option for replies. *)
Definition sr_hop (sr : srcrt) (i : Z) : Z := peek4 (sr_opt sr) (3 + 4 * i).

Fixpoint sr_back (sr : srcrt) (n : nat) : list Z :=
  match n with O => [] | S n => be32 (sr_hop sr (Z.of_nat n)) ++ sr_back sr n end.

Definition ip_srcroute (p : mpool) (sr : srcrt) : mpool * option mbuf :=
  if sr_nhops sr =? 0 then (p, None)
  else
    match m_get p MT_SOOPTS with
    | (None, p) => (p, None)
    | (Some m, p) =>
        let n := Z.to_nat (sr_nhops sr - 1) in
        (p, Some (m <| m_bytes := be32 (sr_hop sr (sr_nhops sr - 1)) ++
             [IPOPT_NOP; peek (sr_opt sr) 0; peek (sr_opt sr) 1; IPOPT_MINOFF] ++ sr_back sr n ++ be32 (sr_dst sr) |>))
    end.

(** [ip_stripoptions]: the bytes after the options move up over them. *)
Definition ip_stripoptions (h : ip) (m : chain) : ip * chain :=
  let olen := hlen_of h - sizeof_ip in
  (h <| ip_hl := 5 |> <| ip_opts := [] |>,
   match m with
   | m1 :: ms =>
       let m1 := m1 <| m_bytes := host_ip (h <| ip_hl := 5 |> <| ip_opts := [] |>) ++ zdrop (hlen_of h) (m_bytes m1) |> in
       (if hasf (m_flags m1) M_PKTHDR then m1 <| m_pktlen := m_pktlen m1 - olen |> else m1) :: ms
   | [] => []
   end).

(** ** The input routine *)

Definition pull_ip (e : inenv) (p : mpool) (m : chain) (n : Z) : outcome (option chain * mpool) :=
  match m with
  | m1 :: _ => if m_len m1 <? n then m_pullup p (ie_max_protohdr e) m n else Ret (Some m, p)
  | [] => Panic "ipintr: null mbuf"
  end.

(** The checks of the header: the header with its fields in host order and the chain cut
    to ip_len, or [None] when the packet is dropped. *)
Definition ip_check (e : inenv) (p : mpool) (m : chain) : outcome (mpool * option (ip * chain)) :=
  let! (r, p) := pull_ip e p m sizeof_ip in
  match r with
  | None => Ret (p, None)
  | Some m =>
      let first m := match m with m1 :: _ => m_bytes m1 | [] => [] end in
      let drop p (m : chain) := Ret (m_freem p m, None) in
      let h := decode_ip (first m) in
      let hlen := hlen_of h in
      if negb (ip_v h =? IPVERSION) then drop p m
      else if hlen <? sizeof_ip then drop p m
      else
        let! (r, p) := pull_ip e p m hlen in
        match r with
        | None | Some [] => Ret (p, None)
        | Some ((m1 :: ms) as m) =>
            let h := decode_ip (m_bytes m1) in
            let sum := in_cksum m hlen in
            if negb (sum =? 0) then drop p m
            else
              let h := h <| ip_sum := sum |> in
              if ip_len h <? hlen then drop p m
              else if m_pktlen m1 <? ip_len h then drop p m
              else
                let m := if m_pktlen m1 >? ip_len h then
                           if m_len m1 =? m_pktlen m1
                           then m1 <| m_bytes := ztake (ip_len h) (m_bytes m1) |> <| m_pktlen := ip_len h |> :: ms
                           else m_adj m (ip_len h - m_pktlen m1)
                         else m in
                Ret (p, Some (h, m))
        end
  end.

(** Is the packet for us? *)
Definition ia_ours (e : inenv) (dst : Z) (ia : in_ifaddr) : bool :=
  (ia_addr ia =? dst) ||
  (hasf (if_flags (ie_out e) (ia_ifp ia)) IFF_BROADCAST &&
   ((ia_broadaddr ia =? dst) || (dst =? ia_netbroadcast ia) || (dst =? ia_subnet ia) || (dst =? ia_net ia))).

Inductive place := Ours | Discard | Forward.

Definition ip_ours (e : inenv) (dst rcvif : Z) : place :=
  if existsb (ia_ours e dst) (ie_ifaddr e) then Ours
  else if in_multicast dst then if in_lookup_multi (ie_out e) dst rcvif then Ours else Discard
  else if (dst =? 4294967295) || (dst =? 0) then Ours
  else if ipforwarding e then Forward else Discard.

Definition deliver (s : ipist) (h : ip) (m : chain) (hlen : Z) : ipist := s <| ii_up := (h, m, hlen) :: ii_up s |>.

(** A fragment that starts in a cluster gets its header into an mbuf: dtom must work. *)
Definition own_storage (e : inenv) (p : mpool) (m : chain) : outcome (option chain * mpool) :=
  match m with
  | m1 :: _ => if hasf (m_flags m1) M_EXT then m_pullup p (ie_max_protohdr e) m sizeof_ip else Ret (Some m, p)
  | [] => Panic "ipintr: null mbuf"
  end.

(** The label ours: reassemble if the packet is a fragment, then pass it on. *)
Definition ip_local (e : inenv) (s : ipist) (h : ip) (m : chain) (hlen : Z) : outcome ipist :=
  if negb (clrb (ip_off h) IP_DF =? 0) then
    let! (r, p) := own_storage e (ii_pool s) m in
    let s := with_pool p s in
    match r with
    | None => Ret s
    | Some m =>
        let o := find_ipq h (ii_q s) in
        let h := h <| ip_len := s16 (ip_len h - hlen) |> <| ip_tos := clrb (ip_tos h) 1 |> in
        let h := if hasf (ip_off h) IP_MF then h <| ip_tos := setb (ip_tos h) 1 |> else h in
        let h := h <| ip_off := s16 (Z.shiftl (ip_off h) 3) |> in
        if hasf (ip_tos h) 1 || negb (ip_off h =? 0) then
          let! (p, qs, r) := ip_reass (ii_pool s) (ii_q s) h m o in
          let s := with_pool p s <| ii_q := qs |> in
          match r with
          | None => Ret s
          | Some (h, m) => Ret (deliver s h m hlen)
          end
        else
          let s := match o with
                   | Some i => match ii_q s !! i with
                               | Some fp => with_pool (ip_freef (ii_pool s) fp) s <| ii_q := delete i (ii_q s) |>
                               | None => s
                               end
                   | None => s
                   end in
          Ret (deliver s h (put_host h m) hlen)
    end
  else
    let h := h <| ip_len := s16 (ip_len h - hlen) |> in
    Ret (deliver s h (put_host h m) hlen).

(** The body of ipintr for one packet. *)
Definition ip_input1 (e : inenv) (s : ipist) (m : chain) : outcome ipist :=
  if bool_decide (length (ie_ifaddr e) = 0%nat) then Ret (with_pool (m_freem (ii_pool s) m) s)
  else
    let! (p, r) := ip_check e (ii_pool s) m in
    let s := with_pool p s in
    match r with
    | None => Ret s
    | Some (h, m) =>
        let hlen := hlen_of h in
        let s := s <| ii_src := mkSrcrt 0 (sr_dst (ii_src s)) (sr_opt (ii_src s)) |> in
        let! (s, r) := (if hlen >? sizeof_ip then ip_dooptions e s h m else Ret (s, Some (h, m))) in
        match r with
        | None => Ret s
        | Some (h, m) =>
            let rcvif := match m with m1 :: _ => m_rcvif m1 | [] => 0 end in
            match ip_ours e (ip_dst h) rcvif with
            | Ours => ip_local e s h m hlen
            | Discard => Ret (with_pool (m_freem (ii_pool s) m) s)
            | Forward => ip_forward e s h m false
            end
        end
    end.

(** [ipintr] empties its queue. *)
Fixpoint ipintr (e : inenv) (s : ipist) (ms : list chain) : outcome ipist :=
  match ms with
  | [] => Ret s
  | m :: ms => let! s := ip_input1 e s m in ipintr e s ms
  end.

End IpInput.
