(* ===== verification/IpFragOk.v ===== *)
(** Fragmentation: what ip_output hands to an interface for a packet that is too large.

    A packet is a part of a datagram with header [hd] and data [pay]: the whole of it, or,
    in a router, a fragment that is fragmented again.  [frame_of] says that some bytes are
    the wire form of the part of the data that starts at [a] and is [l] bytes long. *)
From S2P Require Import Prelude Mbuf Cksum SockBuf Socket TcpVar InPcb TcpHdr IpHdr IpReass IpOutput.
Import Mbuf Cksum Socket TcpVar InPcb TcpHdr IpHdr IpReass IpOutput.

Module IpFragOk.

(** The offset field: units of 8 bytes, and the more fragments bit. *)
Definition ipoff (o : Z) (mf : bool) : Z := o + if mf then 8192 else 0.

Lemma ipoff_range o mf : 0 <= o < 8192 -> -32768 <= ipoff o mf < 32768.
Proof. unfold ipoff. destruct mf; lia. Qed.

Lemma land_small o : 0 <= o < 8192 -> Z.land o 8192 = 0.
Proof.
  intros Ho. apply Z.bits_inj'. intros n Hn. rewrite Z.land_spec, Z.bits_0. change 8192 with (2 ^ 13).
  rewrite Z.pow2_bits_eqb by lia. destruct (Z.eqb_spec 13 n) as [<-|]; [|by rewrite andb_false_r].
  rewrite andb_true_r. apply Z.testbit_false; [lia|]. change (2 ^ 13) with 8192. by rewrite Z.div_small.
Qed.
Lemma lor_small o : 0 <= o < 8192 -> Z.lor o 8192 = o + 8192.
Proof. intros. by rewrite <- Z.lxor_lor, Z.add_nocarry_lxor by (by apply land_small). Qed.

Lemma setb_ipoff o mf : 0 <= o < 8192 -> setb (ipoff o mf) IP_MF = ipoff o true.
Proof.
  intros Ho. unfold setb, ipoff, IP_MF. destruct mf; [|by rewrite Z.add_0_r, lor_small].
  rewrite <- lor_small, <- Z.lor_assoc, Z.lor_diag; done.
Qed.
Lemma hasf_ipoff o mf : 0 <= o < 8192 -> hasf (ipoff o mf) IP_MF = mf.
Proof.
  intros Ho. unfold hasf, ipoff, IP_MF. destruct mf; [|by rewrite Z.add_0_r, land_small].
  rewrite <- lor_small, Z.land_lor_distr_l, land_small by done. done.
Qed.
Lemma clrb_ipoff o mf : 0 <= o < 8192 -> clrb (ipoff o mf) IP_MF = o.
Proof.
  intros Ho. unfold clrb, ipoff, IP_MF.
  assert (E : Z.ldiff o 8192 = o).
  { pose proof (Z.lor_ldiff_and o 8192) as E. by rewrite land_small, Z.lor_0_r in E. }
  destruct mf; [|by rewrite Z.add_0_r]. rewrite <- lor_small by done.
  rewrite Z.ldiff_land, Z.land_lor_distr_l, <- !Z.ldiff_land, E, Z.ldiff_diag. apply Z.lor_0_r.
Qed.

(** ** The checksum of a header *)

(** The header with its checksum. *)
Definition summed (h : ip) : ip := h <| ip_sum := cksum_ref (encode_ip (h <| ip_sum := 0 |>)) |>.

Lemma wf_sum h v : ip_wf h -> 0 <= v < 65536 -> ip_wf (h <| ip_sum := v |>).
Proof. intros [] Hv. split; unfold hlen_of in *; rec_simpl; done. Qed.

(** Stamping writes the header with its checksum over the room of the header. *)
Lemma stamp_hdr_ok h m1 ms :
  ip_wf h -> hlen_of h <= m_len m1 -> Forall is_byte (chain_bytes (m1 :: ms)) ->
  chain_bytes (stamp h (m1 :: ms) (hlen_of h)) = encode_ip (summed h) ++ zdrop (hlen_of h) (chain_bytes (m1 :: ms)) /\
  ip_wf (summed h) /\ cksum_ref (encode_ip (summed h)) = 0 /\
  exists m1', stamp h (m1 :: ms) (hlen_of h) = m1' :: ms /\ m_len m1' = m_len m1.
Proof.
  intros Hw Hl Hb. destruct (ip_sum_verifies h Hw) as [Hws Hck].
  assert (E : forall v, zlen (encode_ip (h <| ip_sum := v |>)) = hlen_of h) by (intros v; rewrite <- encode_ip_hlen by done; done).
  assert (Hput : forall v, put_hdr (h <| ip_sum := v |>) (m1 :: ms) =
    m1 <| m_bytes := encode_ip (h <| ip_sum := v |>) ++ zdrop (hlen_of h) (m_bytes m1) |> :: ms).
  { intros v. unfold put_hdr. by rewrite E. }
  rewrite chain_bytes_cons in *. apply Forall_app in Hb as [Hb1 Hb2].
  pose proof (iw_hl _ Hw). pose proof (hlen_eq h).
  assert (Hz : ip_wf (h <| ip_sum := 0 |>)) by (apply wf_sum; [done|lia]).
  assert (Hs : in_cksum (put_hdr (h <| ip_sum := 0 |>) (m1 :: ms)) (hlen_of h) = cksum_ref (encode_ip (h <| ip_sum := 0 |>))).
  { rewrite Hput, in_cksum_spec.
    - rewrite chain_bytes_cons. rec_simpl. rewrite <- app_assoc, ztake_app_le by (rewrite E; lia). by rewrite ztake_ge by (rewrite E; lia).
    - rewrite chain_bytes_cons. rec_simpl. rewrite !Forall_app. split_and!; [|by apply Forall_drop|done]. by apply encode_ip_bytes.
    - lia. }
  unfold stamp. rewrite Hs, Hput. fold (summed h).
  assert (Hm : m_len (m1 <| m_bytes := encode_ip (summed h) ++ zdrop (hlen_of h) (m_bytes m1) |>) = m_len m1).
  { unfold m_len in *. rec_simpl. unfold summed. rewrite zlen_app, E, zlen_zdrop. lia. }
  split_and!; try done; [|by eexists].
  rewrite !chain_bytes_cons. rec_simpl. rewrite <- app_assoc. f_equal. by rewrite zdrop_app_le.
Qed.

(** ** Frames *)

(** What a fragment keeps of the header of its datagram. *)
Definition base (h : ip) : ip := h <| ip_len := 0 |> <| ip_off := 0 |> <| ip_sum := 0 |>.

(** Packet header [h] is for the part of the data from [a] on, [l] bytes long. *)
Record piece (hd : ip) (n : Z) (h : ip) (a l : Z) : Prop := {
  pc_wf : ip_wf h;
  pc_v : ip_v h = IPVERSION;
  pc_len : ip_len h = hlen_of h + l;
  pc_off : ip_off h = ipoff (a / 8) (a + l <? n);
  pc_pos : 0 <= a /\ a mod 8 = 0 /\ 0 < l /\ a + l <= n /\ a < 65536;
  pc_key : same_dgram hd h;
  pc_hl : hlen_of h <= hlen_of hd;
  pc_first : a = 0 -> base h = base hd
}.

Record frame_of (hd : ip) (pay : list Z) (h : ip) (a l : Z) (b : list Z) : Prop := {
  fm_piece : piece hd (zlen pay) h a l;
  fm_bytes : b = encode_ip h ++ zsub a l pay;
  fm_sum : cksum_ref (encode_ip h) = 0
}.

(** ** Options *)

Lemma optcopy_loop_ok fuel cp cnt dp :
  Forall is_byte cp -> ip_optcopy_loop fuel cp cnt = Ret dp -> Forall is_byte dp /\ zlen dp <= Z.max 0 cnt.
Proof.
  revert cp cnt dp. induction fuel as [|fuel IH]; intros cp cnt dp Hc; [done|]. cbn [ip_optcopy_loop].
  assert (H0 : Forall is_byte [] /\ zlen ([] : list Z) <= Z.max 0 cnt) by (split; [constructor|rewrite zlen_nil; lia]).
  destruct (Z.gtb_spec cnt 0); [|by intros [= <-]]. destruct (get cp 0 =? IPOPT_EOL); [by intros [= <-]|].
  destruct (get cp 0 =? IPOPT_NOP).
  - intros (d & E & [= <-])%obind_Ret. apply IH in E as [E1 E2]; [|by apply Forall_drop].
    split; [constructor; [unfold is_byte, IPOPT_NOP; lia|done]|]. rewrite zlen_cons. lia.
  - set (ol := if get cp 1 >? cnt then cnt else get cp 1). intros (d & E & [= <-])%obind_Ret.
    assert (Ho : 0 <= ol <= cnt).
    { unfold ol, get. destruct (nth_in_or_default 1 cp 0) as [Hi|Hi]; [|rewrite Hi; simpl; destruct (Z.gtb_spec 0 cnt); lia].
      apply (proj1 (List.Forall_forall _ _) Hc) in Hi. unfold is_byte in Hi. destruct (Z.gtb_spec (nth 1 cp 0) cnt); lia. }
    apply IH in E as [E1 E2]; [|by apply Forall_drop]. destruct (hasf _ _); [|split; [done|lia]].
    split; [apply Forall_app; split; [by apply Forall_take|done]|]. rewrite zlen_app, zlen_ztake. lia.
Qed.

Lemma ip_optcopy_ok h o :
  ip_wf h -> ip_optcopy h = Ret o -> Forall is_byte o /\ zlen o mod 4 = 0 /\ zlen o <= zlen (ip_opts h).
Proof.
  intros Hw. unfold ip_optcopy. intros (d & E & [= <-])%obind_Ret.
  apply optcopy_loop_ok in E as [E1 E2]; [|apply (iw_bytes _ Hw)].
  pose proof (iw_opts _ Hw) as Ho. pose proof (hlen_eq h) as Hh. pose proof (iw_hl _ Hw). unfold sizeof_ip in *.
  assert (Hr : zlen (repeat IPOPT_EOL (Z.to_nat ((- zlen d) mod 4))) = (- zlen d) mod 4).
  { unfold zlen at 1. rewrite repeat_length, Z2Nat.id; [done|]. apply Z.mod_pos_bound. lia. }
  rewrite zlen_app, Hr. split_and!.
  - apply Forall_app. split; [done|]. apply List.Forall_forall. intros x Hx%repeat_spec. subst. unfold is_byte, IPOPT_EOL. lia.
  - zlen_pose. Z.to_euclidean_division_equations. lia.
  - zlen_pose. Z.to_euclidean_division_equations. lia.
Qed.

(** ** One fragment *)

Section Fragment.
Context (hd : ip) (pay : list Z) (e : ipenv) (h : ip) (m0 : chain) (a0 l0 : Z) (o : list Z).

(** The packet to be fragmented is a part of the datagram; its options can be copied. *)
Record packet_ok : Prop := {
  pk_piece : piece hd (zlen pay) h a0 l0;
  pk_data : zdrop (hlen_of h) (chain_bytes m0) = zsub a0 l0 pay;
  pk_len : chain_len m0 = hlen_of h + l0;
  pk_bytes : Forall is_byte (chain_bytes m0);
  pk_head : exists m1 ms, m0 = m1 :: ms /\ hlen_of h <= m_len m1;
  pk_opts : if hlen_of h >? sizeof_ip then ip_optcopy h = Ret o else o = [];
  pk_max : zlen pay <= 65535
}.

(** The header of a new fragment. *)
Definition frag_hdr (a l : Z) : ip :=
  let h' := h <| ip_opts := o |> in
  let h' := if hlen_of h >? sizeof_ip then h' <| ip_hl := Z.shiftr (zlen o + 20) 2 mod 16 |> else h' in
  h' <| ip_off := ipoff ((a0 + a) / 8) (a0 + a + l <? zlen pay) |> <| ip_len := l + (zlen o + 20) |>.

Lemma opts_fit : packet_ok -> Forall is_byte o /\ zlen o mod 4 = 0 /\ zlen o <= zlen (ip_opts h).
Proof.
  intros [[Hw _ _ _ _ _ _ _] _ _ _ _ Ho _]. destruct (Z.gtb_spec (hlen_of h) sizeof_ip).
  - by apply ip_optcopy_ok.
  - subst o. split_and!; [constructor|done|]. rewrite zlen_nil. zlen_pose. lia.
Qed.

Lemma frag_hdr_piece a l :
  packet_ok -> 0 < a -> a mod 8 = 0 -> 0 < l -> a + l <= l0 ->
  piece hd (zlen pay) (frag_hdr a l) (a0 + a) l /\ hlen_of (frag_hdr a l) = zlen o + 20 /\ zlen o + 20 <= hlen_of h.
Proof.
  intros Hp Ha Ha8 Hl Hal. destruct (opts_fit Hp) as (O1 & O2 & O3).
  destruct Hp as [[Hw Hv Hlen Hoff (P1 & P2 & P3 & P4 & P5) Hk Hhd _] _ _ _ _ Ho Hmax].
  pose proof (hlen_eq h) as Hh. pose proof (iw_hl _ Hw) as Hhl. pose proof (iw_opts _ Hw) as Hop. pose proof (iw_len _ Hw).
  unfold sizeof_ip in *. zlen_pose.
  assert (Hhl' : ip_hl (frag_hdr a l) = (zlen o + 20) / 4 /\ hlen_of (frag_hdr a l) = zlen o + 20).
  { assert (E : ip_hl (frag_hdr a l) = (zlen o + 20) / 4).
    { unfold frag_hdr, sizeof_ip. destruct (Z.gtb_spec (hlen_of h) 20); rec_simpl.
      - rewrite Z.shiftr_div_pow2 by lia. change (2 ^ 2) with 4. apply Z.mod_small.
        Z.to_euclidean_division_equations. lia.
      - subst o. rewrite zlen_nil. change ((0 + 20) / 4) with 5. lia. }
    split; [done|]. rewrite hlen_eq, E. Z.to_euclidean_division_equations. lia. }
  destruct Hhl' as [E1 E2]. split_and!; [|done|lia].
  assert (Eo : ip_opts (frag_hdr a l) = o) by (unfold frag_hdr; destruct (_ >? _); reflexivity).
  assert (El : ip_len (frag_hdr a l) = l + (zlen o + 20)) by (unfold frag_hdr; by rec_simpl).
  assert (Ef : ip_off (frag_hdr a l) = ipoff ((a0 + a) / 8) (a0 + a + l <? zlen pay)) by (unfold frag_hdr; by rec_simpl).
  assert (Ex : ip_v (frag_hdr a l) = ip_v h /\ ip_tos (frag_hdr a l) = ip_tos h /\ ip_id (frag_hdr a l) = ip_id h /\
    ip_ttl (frag_hdr a l) = ip_ttl h /\ ip_p (frag_hdr a l) = ip_p h /\ ip_sum (frag_hdr a l) = ip_sum h /\
    ip_src (frag_hdr a l) = ip_src h /\ ip_dst (frag_hdr a l) = ip_dst h) by (unfold frag_hdr; destruct (_ >? _); done).
  generalize dependent (frag_hdr a l). intros h' E1 E2 Eo El Ef (X1 & X2 & X3 & X4 & X5 & X6 & X7 & X8).
  assert (Hd : 0 <= (a0 + a) / 8 < 8192) by (Z.to_euclidean_division_equations; lia).
  split.
  - destruct Hw. split; rewrite ?Eo, ?El, ?Ef, ?X1, ?X2, ?X3, ?X4, ?X5, ?X6, ?X7, ?X8, ?E2; unfold sizeof_ip; try done; try lia.
    + rewrite E1. Z.to_euclidean_division_equations. lia.
    + by apply ipoff_range.
  - congruence.
  - rewrite El, E2. lia.
  - done.
  - split_and!; try lia. rewrite Z.add_mod, P2, Ha8 by lia. done.
  - destruct Hk as (K1 & K2 & K3 & K4). unfold same_dgram. rewrite X3, X5, X7, X8. done.
  - lia.
  - lia.
Qed.

Lemma zsub_zsub a l b n (x : list Z) : 0 <= a -> 0 <= b -> 0 <= l -> a + l <= n -> zsub a l (zsub b n x) = zsub (b + a) l x.
Proof.
  intros. unfold zsub. assert (E : zdrop a (ztake n (zdrop b x)) = ztake (n - a) (zdrop (b + a) x)).
  { change (ztake n (zdrop b x)) with (zsub b n x). apply zdrop_zsub; lia. }
  rewrite E, ztake_ztake. f_equal. lia.
Qed.

(** The part of the packet's data at [a] is part of the datagram's. *)
Lemma packet_sub a l :
  packet_ok -> 0 <= a -> 0 <= l -> a + l <= l0 -> zsub (hlen_of h + a) l (chain_bytes m0) = zsub (a0 + a) l pay.
Proof.
  intros [[Hw _ _ _ (P1 & _) _ _ _] Hd _ _ _ _ _] Ha Hl Hal. pose proof (hlen_eq h). pose proof (iw_hl _ Hw).
  unfold zsub at 1. rewrite <- (zdrop_zdrop a) by lia. rewrite Hd. by apply zsub_zsub.
Qed.

Lemma summed_piece n h' a l : piece hd n h' a l -> piece hd n (summed h') a l /\ hlen_of (summed h') = hlen_of h'.
Proof.
  intros [Hw Hv Hlen Hoff Hpos Hk Hhd Hf]. split; [|done]. destruct (ip_sum_verifies h' Hw) as [Hs _].
  split; done.
Qed.

(** A new fragment is a frame of the datagram. *)
Lemma fragment1_ok p a len :
  packet_ok -> 0 < a -> a mod 8 = 0 -> a < l0 -> 0 < len ->
  let l := Z.min len (l0 - a) in
  exists p' r, fragment1 e p h m0 (hlen_of h) (hlen_of h + a) len = Ret (p', r) /\
    (mp_fail p = [] -> mp_fail p' = [] /\ r <> None) /\
    match r with
    | Some c => exists h', frame_of hd pay h' (a0 + a) l (chain_bytes c) /\ hlen_of h' <= hlen_of h
    | None => True
    end.
Proof.
  intros Hp Ha Ha8 Hal Hlen l.
  destruct (frag_hdr_piece a l Hp) as (Hpc & Hhl & Hle); [done|done|lia|lia|].
  pose proof (packet_sub a l Hp) as Hsub. destruct (opts_fit Hp) as (O1 & O2 & O3).
  destruct Hp as [[Hw Hv Hlen0 Hoff (P1 & P2 & P3 & P4 & P5) Hk _ _] Hd Hcl Hby _ Ho Hmax].
  pose proof (iw_len _ Hw) as Hwl. pose proof (hlen_eq h) as Hh. pose proof (iw_hl _ Hw) as Hhl0.
  assert (Hu : u16 (ip_len h) = hlen_of h + l0) by (rewrite u16_id; lia).
  unfold fragment1. destruct (m_gethdr p MT_HEADER) as [[m|] p1] eqn:Eg.
  2: { eexists _, None. split; [done|]. split; [|done]. intros Hm. unfold m_gethdr, pool_alloc in Eg. by rewrite Hm in Eg. }
  assert (Hm : mp_fail p = [] -> mp_fail p1 = []).
  { intros Hm. unfold m_gethdr, pool_alloc in Eg. rewrite Hm in Eg. by simplify_eq. }
  assert (Eo : (if hlen_of h >? sizeof_ip then ip_optcopy h else Ret []) = Ret o) by (destruct (hlen_of h >? sizeof_ip); [done|by rewrite Ho]).
  rewrite Eo. cbn [obind]. rewrite Hu.
  assert (E1 : s16 (Z.shiftr (hlen_of h + a - hlen_of h) 3 + clrb (ip_off h) IP_MF) = (a0 + a) / 8).
  { rewrite Z.shiftr_div_pow2, Hoff, clrb_ipoff by (try lia; Z.to_euclidean_division_equations; lia).
    replace (hlen_of h + a - hlen_of h) with a by lia. change (2 ^ 3) with 8.
    rewrite s16_id; Z.to_euclidean_division_equations; lia. }
  rewrite E1, Hoff, hasf_ipoff by (Z.to_euclidean_division_equations; lia).
  assert (Hrng : 0 <= (a0 + a) / 8 < 8192) by (Z.to_euclidean_division_equations; lia).
  assert (E2 : (if a0 + l0 <? zlen pay then setb ((a0 + a) / 8) IP_MF else (a0 + a) / 8) = ipoff ((a0 + a) / 8) (a0 + l0 <? zlen pay)).
  { destruct (a0 + l0 <? zlen pay); [|unfold ipoff; lia]. rewrite <- (setb_ipoff _ false) by done. unfold ipoff. by rewrite Z.add_0_r. }
  rewrite E2. set (x := if hlen_of h + a + len >=? hlen_of h + l0 then _ else _).
  assert (Ex : x = (l, ipoff ((a0 + a) / 8) (a0 + a + l <? zlen pay))).
  { unfold x, l. destruct (Z.geb_spec (hlen_of h + a + len) (hlen_of h + l0)).
    - f_equal; [lia|]. do 2 f_equal. lia.
    - rewrite setb_ipoff by done. f_equal; [lia|]. destruct (Z.ltb_spec (a0 + a + Z.min len (l0 - a)) (zlen pay)); [done|lia]. }
  rewrite Ex. clear x Ex. assert (Hll : 0 < l <= l0 - a) by lia. clearbody l. pose proof (zlen_nonneg o). unfold sizeof_ip. rewrite (s16_id (ipoff _ _)) by (by apply ipoff_range).
  rewrite (s16_id (l + (zlen o + 20))) by lia. fold (frag_hdr a l).
  destruct (m_copym_spec p1 m0 (hlen_of h + a) l) as (r & p' & E & Hf & Hr); [lia|lia|lia|unfold M_COPYALL; lia|].
  assert (Hm' : mp_fail p = [] -> mp_fail p' = []) by (intros Hm0; exact (m_copym_nofail _ _ _ _ _ _ (Hm Hm0) E)). rewrite E. cbn [obind].
  destruct r as [c|]; [|eexists _, None; split; [done|]; split; [intros Hm0; by destruct (Hf (Hm Hm0))|done]].
  destruct Hr as [Hcb _].
  match goal with |- context [stamp _ (?x :: c) _] => set (mm := x) end.
  assert (Hmb : m_bytes mm = repeat 0 (Z.to_nat (zlen o + 20))) by done. clearbody mm.
  assert (Hml : m_len mm = zlen o + 20) by (unfold m_len; rewrite Hmb; unfold zlen at 1; rewrite repeat_length; lia).
  change (if hlen_of h >? 20 then _ else _) with (if hlen_of h >? sizeof_ip then h <| ip_opts := o |> <| ip_hl := Z.shiftr (zlen o + 20) 2 mod 16 |> else h <| ip_opts := o |>).
  fold (frag_hdr a l). rewrite <- Hhl. rewrite <- Hhl in Hml.
  destruct (stamp_hdr_ok (frag_hdr a l) mm c) as (S1 & S2 & S3 & _); [apply Hpc|lia| |].
  { rewrite chain_bytes_cons, Hmb, Hcb. apply Forall_app. split.
    - apply List.Forall_forall. intros x Hx%repeat_spec. subst x. unfold is_byte. lia.
    - by apply Forall_take, Forall_drop. }
  eexists _, (Some _). split; [reflexivity|]. split; [by auto|]. exists (summed (frag_hdr a l)).
  destruct (summed_piece _ _ _ _ Hpc) as [Hsp Hsl]. split; [|rewrite Hsl; lia].
  split; [done| |done]. rewrite S1. f_equal. rewrite chain_bytes_cons, zdrop_app_ge by (unfold m_len in Hml; lia).
  replace (hlen_of (frag_hdr a l) - zlen (m_bytes mm)) with 0 by (unfold m_len in Hml; lia).
  rewrite zdrop_le0 by done. rewrite Hcb. apply Hsub; lia.
Qed.

(** Consecutive frames from [a] to [b] of the datagram, each at most [mtu] bytes long. *)
Fixpoint frames (mtu a b : Z) (fs : list (list Z)) : Prop :=
  match fs with
  | [] => a = b
  | f :: fs => exists h' l, frame_of hd pay h' a l f /\ zlen f <= mtu /\ frames mtu (a + l) b fs
  end.

Lemma frame_len h' a l f : frame_of hd pay h' a l f -> zlen f = hlen_of h' + l.
Proof.
  intros [[Hw _ _ _ (P1 & _ & P3 & P4 & _) _ _ _] -> _]. rewrite zlen_app, encode_ip_hlen, zlen_zsub by (done || lia). done.
Qed.

Lemma fragment_loop_ok mtu len fuel : forall p a,
  packet_ok -> 0 < a -> a mod 8 = 0 -> 0 < len -> len mod 8 = 0 ->
  Z.max 0 (l0 - a) < Z.of_nat fuel -> hlen_of h + len <= mtu ->
  exists p' cs ok, fragment_loop fuel e p h m0 (hlen_of h) (hlen_of h + a) len = Ret (p', cs, ok) /\
    (mp_fail p = [] -> ok = true) /\
    (ok = true -> frames mtu (a0 + Z.min a l0) (a0 + l0) (chain_bytes <$> cs)).
Proof.
  induction fuel as [|fuel IH]; intros p a Hp Ha Ha8 Hl Hl8 Hf Hmtu; cbn [fragment_loop]; [lia|].
  assert (Hu : u16 (ip_len h) = hlen_of h + l0).
  { destruct Hp as [[Hw _ Hlen0 _ (_ & _ & ? & _) _ _ _] _ _ _ _ _ _]. pose proof (iw_len _ Hw). pose proof (hlen_eq h).
    pose proof (iw_hl _ Hw). rewrite u16_id; lia. }
  rewrite Hu. destruct (Z.ltb_spec (hlen_of h + a) (hlen_of h + l0)).
  - destruct (fragment1_ok p a len Hp) as (p1 & r & -> & Hm1 & Hr); [done|done|lia|done|]. cbn [obind].
    destruct r as [c|]; [|exists p1, [], false; split_and!; [done| |done]; intros Hm; by destruct (Hm1 Hm)].
    destruct Hr as (h' & Hfr & Hhl). replace (hlen_of h + a + len) with (hlen_of h + (a + len)) by lia.
    destruct (IH p1 (a + len)) as (p' & cs & ok & -> & Hok & Hfs); try done; try lia.
    { rewrite Z.add_mod, Ha8, Hl8 by lia. done. }
    cbn [obind]. exists p', (c :: cs), ok. split_and!; [done|intros Hm; by apply Hok, Hm1|]. intros ->. rewrite Z.min_l by lia.
    exists h', (Z.min len (l0 - a)). split_and!; [done| |].
    + rewrite (frame_len _ _ _ _ Hfr). lia.
    + replace (a0 + a + Z.min len (l0 - a)) with (a0 + Z.min (a + len) l0) by lia. by apply Hfs.
  - exists p, [], true. split_and!; try done. intros _. simpl. lia.
Qed.

(** The first fragment. *)
Lemma fragment0_ok len :
  packet_ok -> 0 < len -> len < l0 -> len mod 8 = 0 ->
  exists h', frame_of hd pay h' a0 len (chain_bytes (fragment0 h m0 (hlen_of h) len)) /\ hlen_of h' = hlen_of h.
Proof.
  intros Hp Hl Hll Hl8. pose proof (packet_sub 0 len Hp ltac:(lia) ltac:(lia) ltac:(lia)) as Hsub. rewrite !Z.add_0_r in Hsub.
  destruct Hp as [[Hw Hv Hlen0 Hoff (P1 & P2 & P3 & P4 & P5) Hk Hhd Hfst] Hd Hcl Hby (m1 & ms & -> & Hm1) Ho Hmax].
  pose proof (iw_len _ Hw) as Hwl. pose proof (hlen_eq h) as Hh. pose proof (iw_hl _ Hw) as Hhl0.
  assert (Hu : u16 (ip_len h) = hlen_of h + l0) by (rewrite u16_id; lia).
  assert (Hrng : 0 <= a0 / 8 < 8192) by (Z.to_euclidean_division_equations; lia).
  unfold fragment0. rewrite Hu. replace (hlen_of h + len - (hlen_of h + l0)) with (- (l0 - len)) by lia.
  pose proof (m_adj_bytes (m1 :: ms) (- (l0 - len))) as Hb.
  destruct (m_adj_neg_head m1 ms (l0 - len)) as (m1' & ms' & E & Hml & _); [lia|lia|].
  rewrite E in *. destruct (Z.geb_spec (- (l0 - len)) 0); [lia|]. rewrite Hcl in *.
  replace (hlen_of h + l0 + - (l0 - len)) with (hlen_of h + len) in Hb by lia.
  set (h1 := h <| ip_len := _ |> <| ip_off := _ |>).
  assert (Hpc : piece hd (zlen pay) h1 a0 len /\ hlen_of h1 = hlen_of h).
  { split; [|done]. unfold h1. rewrite (s16_id (hlen_of h + len)) by lia. rewrite Hoff, setb_ipoff, s16_id by (try done; by apply ipoff_range).
    split; unfold hlen_of in *; rec_simpl; try done.
    - destruct Hw. split; unfold hlen_of in *; rec_simpl; try done; [lia|by apply ipoff_range].
    - destruct (Z.ltb_spec (a0 + len) (zlen pay)); [done|lia].
    - split_and!; try lia; done. }
  destruct Hpc as [Hpc Eh1]. clearbody h1. rewrite <- Eh1 in *.
  set (m2 := m1' <| m_pktlen := _ |>).
  assert (Ec : chain_bytes (m2 :: ms') = chain_bytes (m1' :: ms') /\ m_len m2 = m_len m1') by done.
  clearbody m2. destruct Ec as [Ec Em].
  destruct (stamp_hdr_ok h1 m2 ms') as (S1 & S2 & S3 & _); [apply Hpc|lia|rewrite Ec, Hb; by apply Forall_take|].
  exists (summed h1). destruct (summed_piece _ _ _ _ Hpc) as [Hsp Hsl]. split; [|done]. split; [done| |done].
  rewrite S1, Ec, Hb. f_equal. rewrite <- Hsub. unfold zsub, ztake, zdrop. rewrite skipn_firstn_comm. f_equal. lia.
Qed.
End Fragment.

(** ** Sending *)

Lemma sendorfree_ok s ifp dst cs :
  io_err s = [] -> exists s', sendorfree s ifp dst 0 cs = (0, s') /\ io_out s' = rev (map (fun c => (ifp, dst, c)) cs) ++ io_out s.
Proof.
  revert s. induction cs as [|c cs IH]; intros s Hs; simpl; [by exists s|]. unfold if_output. rewrite Hs. cbn [tail].
  destruct (IH (s <| io_out := (ifp, dst, c) :: io_out s |> <| io_err := [] |>)) as (s' & -> & Ho); [done|].
  exists s'. split; [done|]. rewrite Ho. rec_simpl. by rewrite <- app_assoc.
Qed.
Lemma sendorfree_err s ifp dst error cs :
  error <> 0 -> exists s', sendorfree s ifp dst error cs = (error, s') /\ io_out s' = io_out s.
Proof.
  intros He. revert s. induction cs as [|c cs IH]; intros s; simpl; [by exists s|].
  rewrite (proj2 (Z.eqb_neq error 0) He). destruct (IH (s <| io_pool := m_freem (io_pool s) c |>)) as (s' & -> & Ho).
  exists s'. by rewrite Ho.
Qed.

Lemma land_7 x : clrb x 7 mod 8 = 0 /\ clrb x 7 <= x /\ x - 7 <= clrb x 7.
Proof.
  unfold clrb. assert (E : Z.ldiff x 7 = x - x mod 8).
  { change 7 with (Z.ones 3). rewrite Z.ldiff_ones_r by lia. rewrite Z.shiftl_mul_pow2, Z.shiftr_div_pow2 by lia.
    change (2 ^ 3) with 8. Z.to_euclidean_division_equations. lia. }
  rewrite E. Z.to_euclidean_division_equations. lia.
Qed.

Lemma df_clear o mf : 0 <= o < 8192 -> hasf (ipoff o mf) IP_DF = false.
Proof.
  intros Ho. unfold hasf. assert (E : Z.land (ipoff o mf) IP_DF = 0); [|by rewrite E].
  apply Z.bits_inj'. intros n Hn. rewrite Z.land_spec, Z.bits_0. change IP_DF with (2 ^ 14).
  rewrite Z.pow2_bits_eqb by lia. destruct (Z.eqb_spec 14 n) as [<-|]; [|by rewrite andb_false_r].
  rewrite andb_true_r. apply Z.testbit_false; [lia|]. change (2 ^ 14) with 16384.
  rewrite Z.div_small; [done|]. unfold ipoff. destruct mf; lia.
Qed.

(** Fragmentation of a packet too large for the interface. *)
Lemma sendit_frames e s ifp dst hd pay h m a0 l0 o :
  packet_ok hd pay h m a0 l0 o -> io_err s = [] -> if_mtu e ifp < ip_len h -> hlen_of h + 8 <= if_mtu e ifp ->
  exists err s', sendit e s ifp dst h m (hlen_of h) = Ret (err, s') /\ (mp_fail (io_pool s) = [] -> err = 0) /\
    ((err = ENOBUFS /\ io_out s' = io_out s) \/
     (err = 0 /\ exists cs, io_out s' = rev (map (fun c => (ifp, dst, c)) cs) ++ io_out s /\
        frames hd pay (if_mtu e ifp) a0 (a0 + l0) (chain_bytes <$> cs))).
Proof.
  intros Hp He Hbig Hmtu. pose proof (pk_piece _ _ _ _ _ _ _ Hp) as [Hw _ Hlen0 Hoff (P1 & P2 & P3 & P4 & P5) _ _ _].
  pose proof (iw_len _ Hw). pose proof (hlen_eq h). pose proof (iw_hl _ Hw).
  assert (Hu : u16 (ip_len h) = hlen_of h + l0) by (rewrite u16_id; lia).
  unfold sendit. rewrite Hu. destruct (Z.leb_spec (hlen_of h + l0) (if_mtu e ifp)); [lia|].
  rewrite Hoff, df_clear by (Z.to_euclidean_division_equations; lia).
  destruct (land_7 (if_mtu e ifp - hlen_of h)) as (L1 & L2 & L3). set (len := clrb _ 7) in *. clearbody len.
  assert (8 <= len) by (Z.to_euclidean_division_equations; lia).
  destruct (Z.ltb_spec len 8); [lia|]. unfold fragment. rewrite Hu.
  destruct (fragment_loop_ok hd pay e h m a0 l0 o (if_mtu e ifp) len (S (Z.to_nat (hlen_of h + l0))) (io_pool s) len Hp)
    as (p' & cs & ok & -> & Hok & Hfs); try lia. cbn [obind]. destruct ok.
  - destruct (fragment0_ok hd pay h m a0 l0 o len Hp) as (h' & Hf & Eh); [lia|lia|done|].
    destruct (sendorfree_ok (s <| io_pool := p' |>) ifp dst (fragment0 h m (hlen_of h) len :: cs)) as (s' & -> & Ho); [done|].
    exists 0, s'. split_and!; [done..|]. right. split; [done|]. eexists. split; [exact Ho|]. cbn [fmap list_fmap frames].
    exists h', len. split_and!; [done|rewrite (frame_len _ _ _ _ _ _ Hf); lia|]. rewrite <- (Z.min_l len l0) at 1 by lia. by apply Hfs.
  - destruct (sendorfree_err (s <| io_pool := p' |>) ifp dst ENOBUFS (m :: cs)) as (s' & -> & Ho); [done|].
    exists ENOBUFS, s'. split_and!; [done|intros Hm; by apply Hok in Hm|]. by left.
Qed.

End IpFragOk.
