(* ===== verification/IpInputOk.v ===== *)
(** From fragmentation to reassembly: the fragments that ip_output sends, received by
    ipintr, give the protocol the datagram that was sent. *)
From S2P Require Import Prelude Mbuf Cksum SockBuf Socket TcpVar InPcb TcpHdr IpHdr IpReass IpOutput IpInput IpFragOk.
Import Mbuf Cksum Socket TcpVar InPcb TcpHdr IpHdr IpReass IpOutput IpInput IpFragOk.

Module IpInputOk.

(** A frame as a driver hands it to IP: laid out over well-formed mbufs, perhaps with
    padding of the link, the header in the first mbuf. *)
Record received (hlen : Z) (b : list Z) (c : chain) : Prop := {
  rc_bytes : exists pad, chain_bytes c = b ++ pad /\ Forall is_byte pad;
  rc_wf : Forall m_wf c;
  rc_len : chain_len c < 65536;
  rc_head : exists m1 ms, c = m1 :: ms /\ hlen <= m_len m1 /\ hasf (m_flags m1) M_PKTHDR = true /\ m_pktlen m1 = chain_len c
}.

(** The chain cut to the length of the packet. *)
Lemma trim_ok m1 ms b pad hlen :
  chain_bytes (m1 :: ms) = b ++ pad -> Forall m_wf (m1 :: ms) -> m_pktlen m1 = chain_len (m1 :: ms) ->
  hlen <= m_len m1 -> hlen <= zlen b ->
  let c := if m_pktlen m1 >? zlen b then
             if m_len m1 =? m_pktlen m1
             then m1 <| m_bytes := ztake (zlen b) (m_bytes m1) |> <| m_pktlen := zlen b |> :: ms
             else m_adj (m1 :: ms) (zlen b - m_pktlen m1)
           else m1 :: ms in
  exists m1' ms', c = m1' :: ms' /\ chain_bytes c = b /\ Forall m_wf c /\ hlen <= m_len m1' /\
    m_off m1' = m_off m1 /\ m_flags m1' = m_flags m1 /\ m_rcvif m1' = m_rcvif m1 /\
    (hasf (m_flags m1) M_PKTHDR = true -> m_pktlen m1' = zlen b).
Proof.
  intros Hb Hw Hp Hm Hl. cbv zeta. rewrite Hp.
  assert (Hc : chain_len (m1 :: ms) = zlen b + zlen pad) by (unfold chain_len; by rewrite Hb, zlen_app).
  rewrite Hc. pose proof (zlen_nonneg pad). pose proof (zlen_nonneg b).
  assert (Ht : ztake (zlen b) (b ++ pad) = b) by (rewrite ztake_app_le, ztake_ge by lia; done).
  destruct (Z.gtb_spec (zlen b + zlen pad) (zlen b)).
  2: { assert (pad = []) as -> by (apply zlen_0; lia). rewrite app_nil_r in Hb. eexists _, _. split; [done|]. rewrite zlen_nil in Hc. rewrite Hb. split_and!; try done. intros _. lia. }
  destruct (Z.eqb_spec (m_len m1) (zlen b + zlen pad)) as [E|E].
  - assert (Hms : chain_bytes ms = []).
    { apply zlen_0. rewrite chain_len_cons in Hc. unfold chain_len in Hc. lia. }
    rewrite chain_bytes_cons, Hms, app_nil_r in Hb. eexists _, _. split; [reflexivity|].
    assert (Hz : zlen (ztake (zlen b) (m_bytes m1)) = zlen b) by (by rewrite Hb, Ht).
    rewrite chain_bytes_cons, Hms, app_nil_r. unfold m_len at 1. rec_simpl. rewrite Hb, Ht. split_and!; try done; try lia.
    apply Forall_cons_iff in Hw as [Hw1 Hw]. constructor; [|done]. pose proof (m_wf_shrink m1 b Hw1 ltac:(lia)) as Hs. exact Hs.
  - destruct (m_adj_neg_head m1 ms (zlen pad)) as (m1' & ms' & Ea & Hl' & Ho & Hf & Hr & Hpl); [lia|lia|].
    replace (zlen b - (zlen b + zlen pad)) with (- zlen pad) by lia.
    exists m1', ms'. split; [done|]. split_and!; try done.
    + rewrite m_adj_bytes. destruct (Z.geb_spec (- zlen pad) 0); [lia|]. rewrite Hc, Hb.
      replace (zlen b + zlen pad + - zlen pad) with (zlen b) by lia. done.
    + by apply m_adj_wf.
    + lia.
    + intros Hk. rewrite Hpl by done. lia.
Qed.

(** A packet on the wire: a header whose checksum is right, and the data. *)
Record wire_packet (h : ip) (data b : list Z) : Prop := {
  wp_wf : ip_wf h;
  wp_v : ip_v h = IPVERSION;
  wp_len : ip_len h = hlen_of h + zlen data;
  wp_data : Forall is_byte data;
  wp_bytes : b = encode_ip h ++ data;
  wp_sum : cksum_ref (encode_ip h) = 0
}.

(** The header is in the first mbuf. *)
Lemma first_mbuf m1 ms h r : chain_bytes (m1 :: ms) = encode_ip h ++ r -> ip_wf h -> hlen_of h <= m_len m1 ->
  m_bytes m1 = encode_ip h ++ zdrop (hlen_of h) (m_bytes m1).
Proof.
  intros Hcb Hw Hm1. rewrite chain_bytes_cons in Hcb. rewrite <- (ztake_zdrop (hlen_of h) (m_bytes m1)) at 1. f_equal.
  apply (f_equal (ztake (hlen_of h))) in Hcb. rewrite ztake_app_le in Hcb by (unfold m_len in Hm1; lia).
  rewrite Hcb, ztake_app_le, ztake_ge by (rewrite encode_ip_hlen by done; lia). done.
Qed.

(** The header checks accept it. *)
Lemma ip_check_wire_k k e p h data b c :
  wire_packet h data b -> hlen_of h <= k <= zlen b -> received k b c ->
  exists m1 ms, ip_check e p c = Ret (p, Some (h <| ip_sum := 0 |>, m1 :: ms)) /\ chain_bytes (m1 :: ms) = b /\
    Forall m_wf (m1 :: ms) /\ k <= m_len m1 /\ hasf (m_flags m1) M_PKTHDR = true /\
    (exists m0 t, c = m0 :: t /\ m_rcvif m1 = m_rcvif m0 /\ m_flags m1 = m_flags m0) /\ m_pktlen m1 = zlen b.
Proof.
  intros [Hw Hv Hlen Hdata Hb Hsum] Hk [(pad & Hcb & Hpad) Hwf Hcl (m1 & ms & -> & Hmk & Hpk & Hpl)].
  assert (Hm1 : hlen_of h <= m_len m1) by lia.
  pose proof (hlen_eq h) as Hh. pose proof (iw_hl _ Hw) as Hhl. pose proof (zlen_nonneg data) as Hdl.
  assert (Hzb : zlen b = ip_len h) by (rewrite Hb, zlen_app, encode_ip_hlen by done; lia).
  assert (Hd : m_bytes m1 = encode_ip h ++ zdrop (hlen_of h) (m_bytes m1)).
  { rewrite Hb, <- app_assoc in Hcb. by apply first_mbuf in Hcb. }
  assert (Hdec : decode_ip (m_bytes m1) = h) by (rewrite Hd; by apply decode_encode_ip).
  unfold ip_check, pull_ip. unfold sizeof_ip. destruct (Z.ltb_spec (m_len m1) 20); [lia|]. cbn [obind].
  rewrite Hdec, Hv. change (IPVERSION =? IPVERSION) with true. cbn [negb]. destruct (Z.ltb_spec (hlen_of h) 20); [lia|].
  destruct (Z.ltb_spec (m_len m1) (hlen_of h)); [lia|]. cbn [obind].
  assert (Hby : Forall is_byte (b ++ pad)).
  { apply Forall_app. split; [|done]. rewrite Hb. apply Forall_app. split; [by apply encode_ip_bytes|done]. }
  assert (Hck : in_cksum (m1 :: ms) (hlen_of h) = 0).
  { rewrite in_cksum_spec; [|by rewrite Hcb|lia]. rewrite Hcb, Hb, <- app_assoc, ztake_app_le, ztake_ge;
      rewrite ?encode_ip_hlen by done; [done|lia|lia]. }
  rewrite Hdec, Hck. cbn [Z.eqb negb]. rec_simpl. destruct (Z.ltb_spec (ip_len h) (hlen_of h)); [lia|].
  assert (Hcl2 : chain_len (m1 :: ms) = zlen b + zlen pad) by (unfold chain_len; by rewrite Hcb, zlen_app).
  destruct (Z.ltb_spec (m_pktlen m1) (ip_len h)); [zlen_pose; lia|].
  destruct (trim_ok m1 ms b pad k Hcb Hwf Hpl Hmk ltac:(lia)) as (m1' & ms' & E & T1 & T2 & T3 & T4 & T5 & T6 & T7).
  rewrite Hzb in E, T1, T2. rewrite E in *. exists m1', ms'. split; [done|]. split_and!; try done; [congruence|by exists m1, ms|by apply T7].
Qed.

Lemma ip_check_wire e p h data b c :
  wire_packet h data b -> received (hlen_of h) b c ->
  exists m1 ms, ip_check e p c = Ret (p, Some (h <| ip_sum := 0 |>, m1 :: ms)) /\ chain_bytes (m1 :: ms) = b /\
    Forall m_wf (m1 :: ms) /\ hlen_of h <= m_len m1 /\ hasf (m_flags m1) M_PKTHDR = true /\
    (exists m0 t, c = m0 :: t /\ m_rcvif m1 = m_rcvif m0 /\ m_flags m1 = m_flags m0) /\ m_pktlen m1 = zlen b.
Proof.
  intros Hp. apply (ip_check_wire_k (hlen_of h) e p h data b c Hp). destruct Hp as [Hw _ _ _ -> _].
  rewrite zlen_app, encode_ip_hlen by done. pose proof (zlen_nonneg data). lia.
Qed.

Lemma frame_wire hd pay h a l b :
  frame_of hd pay h a l b -> Forall is_byte pay -> wire_packet h (zsub a l pay) b.
Proof.
  intros [[Hw Hv Hlen Hoff (P1 & P2 & P3 & P4 & P5) _ _ _] Hb Hsum] Hpay. split; try done.
  - rewrite zlen_zsub by lia. done.
  - by apply Forall_take, Forall_drop.
Qed.

(** ** Fragments *)

(** The header of the reassembled datagram, and of a fragment in its queue. *)
Definition hd_up (hd : ip) (n : Z) : ip :=
  hd <| ip_len := n |> <| ip_off := 0 |> <| ip_sum := 0 |> <| ip_tos := clrb (ip_tos hd) 1 |>.
Definition queued (h : ip) (a l : Z) (mf : bool) : ip :=
  h <| ip_sum := 0 |> <| ip_len := l |>
    <| ip_tos := if mf then setb (clrb (ip_tos h) 1) 1 else clrb (ip_tos h) 1 |> <| ip_off := a |>.

Lemma mff_queued h a l mf : hasf (ip_tos (queued h a l mf)) 1 = mf.
Proof. unfold queued. rec_simpl. destruct mf; flags_simpl; done. Qed.

Lemma tos_clear t : clrb (setb (clrb t 1) 1) 1 = clrb t 1 /\ clrb (clrb t 1) 1 = clrb t 1.
Proof.
  unfold clrb, setb. split; apply Z.bits_inj'; intros n Hn; rewrite ?Z.ldiff_spec, ?Z.lor_spec, ?Z.ldiff_spec;
    by destruct (Z.testbit t n), (Z.testbit 1 n).
Qed.

Lemma hd_up_wf hd n : ip_wf hd -> 0 <= n < 32768 -> ip_wf (hd_up hd n) /\ hlen_of (hd_up hd n) = hlen_of hd.
Proof.
  intros [] Hn. split; [|done]. split; unfold hlen_of in *; unfold hd_up; rec_simpl; try done; try lia.
  unfold clrb. assert (E : Z.ldiff (ip_tos hd) 1 = ip_tos hd - ip_tos hd mod 2).
  { change 1 with (Z.ones 1). rewrite Z.ldiff_ones_r by lia. rewrite Z.shiftl_mul_pow2, Z.shiftr_div_pow2 by lia.
    change (2 ^ 1) with 2. Z.to_euclidean_division_equations. lia. }
  rewrite E. Z.to_euclidean_division_equations. lia.
Qed.

(** A frame whose first mbuf holds the header and no cluster is a fragment for ip_reass. *)
Lemma frame_part hd pay h a l b m1 ms :
  frame_of hd pay h a l b -> zlen pay < 32768 -> hlen_of h = hlen_of hd ->
  chain_bytes (m1 :: ms) = b -> Forall m_wf (m1 :: ms) -> hlen_of h <= m_len m1 ->
  hasf (m_flags m1) M_PKTHDR = true -> hasf (m_flags m1) M_EXT = false ->
  part (hd_up hd (zlen pay)) pay (queued h a l (a + l <? zlen pay)) (m1 :: ms).
Proof.
  intros [[Hw Hv Hlen Hoff (P1 & P2 & P3 & P4 & P5) Hk _ Hf] Hb _] HN Hhl Hcb Hwf Hm1 Hpk Hext.
  split; [done|]. apply Forall_cons_iff in Hwf as [Hw1 Hwf].
  assert (Eh : hlen_of (queued h a l (a + l <? zlen pay)) = hlen_of h) by done. rewrite Eh.
  pose proof (hlen_eq h) as Hh. pose proof (iw_hl _ Hw) as Hhr.
  cbn [hide]. destruct (Z.ltb_spec (m_len m1) (hlen_of h)); [lia|]. eexists. split; [reflexivity|].
  split; unfold fr_off, fr_len, fr_mff; cbn [fr_ip fr_m fr_cut].
  - done.
  - done.
  - done.
  - rewrite chain_bytes_cons. rec_simpl. unfold m_len in Hm1. rewrite <- zdrop_app_le by done. rewrite <- chain_bytes_cons, Hcb, Hb.
    rewrite zdrop_app_ge by (rewrite encode_ip_hlen by done; lia).
    rewrite encode_ip_hlen by done. rewrite Z.sub_diag. by rewrite zdrop_le0.
  - apply mff_queued.
  - constructor; [|done]. apply drop_wf; [done|lia].
  - intros H0. assert (H0' : a = 0) by exact H0. split; [done|]. split.
    + specialize (Hf H0'). destruct (tos_clear (ip_tos h)) as [T1 T2]. rewrite H0'. clear -Hf T1 T2.
      destruct h, hd. unfold base, queued, hd_up in *. destruct (0 + l <? zlen pay);
        cbv [setf set_ip_len set_ip_off set_ip_sum set_ip_tos ip_v ip_hl ip_tos ip_len ip_id ip_off ip_ttl ip_p ip_sum ip_src ip_dst ip_opts] in *;
        injection Hf as -> -> -> -> -> -> -> -> ->; by rewrite ?T1, ?T2.
    + eexists _, _. split; [reflexivity|]. rec_simpl. destruct Hw1 as [_ Hw1]. rewrite Hext in Hw1. destruct Hw1 as [_ Ho].
      specialize (Ho Hpk). change (hlen_of (hd_up hd (zlen pay))) with (hlen_of hd). split; [lia|done].
Qed.

(** Two headers of one datagram find the same queue. *)
Lemma find_ipq_ext h h' qs : (forall fp, ipq_match h fp = ipq_match h' fp) -> find_ipq h qs = find_ipq h' qs.
Proof. intros H. induction qs as [|fp qs IH]; simpl; [done|]. by rewrite H, IH. Qed.

(** The code at ours turns the header of a fragment into that of a queued fragment. *)
Lemma to_queued h a l n :
  ip_len h = hlen_of h + l -> 0 < l < 32768 -> ip_off h = ipoff (a / 8) (a + l <? n) -> 0 <= a < 32768 -> a mod 8 = 0 ->
  let h0 := h <| ip_sum := 0 |> in
  let h1 := h0 <| ip_len := s16 (ip_len h0 - hlen_of h) |> <| ip_tos := clrb (ip_tos h0) 1 |> in
  let h2 := if hasf (ip_off h1) IP_MF then h1 <| ip_tos := setb (ip_tos h1) 1 |> else h1 in
  h2 <| ip_off := s16 (Z.shiftl (ip_off h2) 3) |> = queued h a l (a + l <? n).
Proof.
  intros Hl Hlr Ho Ha Ha8. cbv zeta. rec_simpl. rewrite Hl. replace (hlen_of h + l - hlen_of h) with l by lia.
  rewrite (s16_id l) by lia. assert (Hr : 0 <= a / 8 < 8192) by (Z.to_euclidean_division_equations; lia).
  assert (Hs : s16 (Z.shiftl (ip_off h) 3) = a).
  { rewrite Ho, Z.shiftl_mul_pow2 by lia. change (2 ^ 3) with 8. unfold ipoff.
    assert (8 * (a / 8) = a) by (Z.to_euclidean_division_equations; lia). destruct (a + l <? n); wrap_lia. }
  assert (Hmf : hasf (ip_off h) IP_MF = (a + l <? n)) by (by rewrite Ho, hasf_ipoff).
  rewrite Hmf. unfold queued. destruct (a + l <? n); rec_simpl; by rewrite Hs.
Qed.

(** The chain a fragment is queued with has its header in an mbuf of its own storage. *)
Lemma own_storage_ok e p m1 ms b :
  chain_bytes (m1 :: ms) = b -> Forall m_wf (m1 :: ms) -> 20 <= m_len m1 -> hasf (m_flags m1) M_PKTHDR = true ->
  mp_fail p = [] -> 0 <= ie_max_protohdr e < 2147483648 -> zlen b < 65536 ->
  exists m1' ms' p', own_storage e p (m1 :: ms) = Ret (Some (m1' :: ms'), p') /\ mp_fail p' = [] /\ chain_bytes (m1' :: ms') = b /\ Forall m_wf (m1' :: ms') /\ 20 <= m_len m1' /\
    hasf (m_flags m1') M_PKTHDR = true /\ hasf (m_flags m1') M_EXT = false.
Proof.
  intros Hb Hw Hl Hp Hf Hm Hz. unfold own_storage. destruct (hasf (m_flags m1) M_EXT) eqn:He.
  - pose proof (chain_len_nonneg ms).
    destruct (m_pullup_pkt p (ie_max_protohdr e) m1 ms sizeof_ip) as (m' & n' & p' & E & A1 & A2 & A3 & A4 & A5 & A6 & _); try done.
    { by left. }
    { unfold chain_len. rewrite Hb. split; [|lia]. rewrite <- Hb. fold (chain_len (m1 :: ms)). rewrite chain_len_cons. unfold sizeof_ip. lia. }
    exists m', n', p'. split_and!; try done; congruence.
  - exists m1, ms, p. by split_and!.
Qed.

Section Roundtrip.
Context (e : inenv) (hd : ip) (pay : list Z).

(** What a receiver needs: the datagram has no options and is not too long, it is for this
    host, which has an address. *)
Record receiver_ok : Prop := {
  rk_wf : ip_wf hd;
  rk_hl : hlen_of hd = 20;
  rk_len : 0 < zlen pay < 32768;
  rk_bytes : Forall is_byte pay;
  rk_ours : forall rcvif, ip_ours e (ip_dst hd) rcvif = Ours;
  rk_addr : ie_ifaddr e <> [];
  rk_mph : 0 <= ie_max_protohdr e < 2147483648
}.

#[local] Abbreviation up := (hd_up hd (zlen pay)).

(** The state of IP input while the datagram is incomplete. *)
Record gathering (s : ipist) : Prop := {
  ga_pool : mp_fail (ii_pool s) = [];
  ga_solid : solid (ii_q s);
  ga_order : in_ord up pay 0 (queue_of up (ii_q s));
  ga_more : incomplete pay (queue_of up (ii_q s))
}.

(** The two ways a fragment ends. *)
Definition gathered (s s' : ipist) (a l : Z) : Prop :=
  (gathering s' /\ ii_up s' = ii_up s /\
   forall z, fcovers (queue_of up (ii_q s')) z <-> fcovers (queue_of up (ii_q s)) z \/ a <= z < a + l) \/
  (exists m, ii_up s' = (up, m, 20) :: ii_up s /\ whole up pay m /\
   forall z, 0 <= z < zlen pay -> fcovers (queue_of up (ii_q s)) z \/ a <= z < a + l).

Lemma local_fragment s h a l b m1 ms :
  receiver_ok -> gathering s -> frame_of hd pay h a l b -> l < zlen pay -> hlen_of h = 20 ->
  chain_bytes (m1 :: ms) = b -> Forall m_wf (m1 :: ms) -> 20 <= m_len m1 -> hasf (m_flags m1) M_PKTHDR = true ->
  exists s', ip_local e s (h <| ip_sum := 0 |>) (m1 :: ms) 20 = Ret s' /\ gathered s s' a l.
Proof.
  intros [Kw Khl Kl Kb Ko Ka Km] [Gp Gs Go Gm] Hf Hl Hh20 Hcb Hwf Hm1 Hpk.
  pose proof Hf as [[Hw Hv Hlen Hoff (P1 & P2 & P3 & P4 & P5) Hk _ _] Hb _]. pose proof (iw_len _ Hw) as Hil.
  assert (Hz : zlen b < 65536).
  { rewrite Hb, zlen_app, encode_ip_hlen, zlen_zsub by (done || lia). lia. }
  assert (Hd : negb (clrb (ip_off (h <| ip_sum := 0 |>)) IP_DF =? 0) = true).
  { rec_simpl. rewrite Hoff. pose proof (df_clear (a / 8) (a + l <? zlen pay)) as Hdf. unfold hasf in Hdf.
    assert (Hr : 0 <= a / 8 < 8192) by (Z.to_euclidean_division_equations; lia). specialize (Hdf Hr).
    apply negb_false_iff, Z.eqb_eq in Hdf. pose proof (Z.lor_ldiff_and (ipoff (a / 8) (a + l <? zlen pay)) IP_DF) as Hx.
    rewrite Hdf, Z.lor_0_r in Hx. unfold clrb. rewrite Hx. apply negb_true_iff, Z.eqb_neq. unfold ipoff.
    destruct (Z.ltb_spec (a + l) (zlen pay)); Z.to_euclidean_division_equations; lia. }
  unfold ip_local. rewrite Hd.
  destruct (own_storage_ok e (ii_pool s) m1 ms b) as (m1' & ms' & p' & -> & Gp' & Hcb' & Hwf' & Hm1' & Hpk' & He'); try done.
  cbn [obind]. change (ii_q (with_pool p' s)) with (ii_q s).
  rewrite <- Hh20. rewrite (to_queued h a l (zlen pay)) by (done || lia). rewrite Hh20.
  set (hq := queued h a l (a + l <? zlen pay)).
  assert (Hfrag : hasf (ip_tos hq) 1 || negb (ip_off hq =? 0) = true).
  { unfold hq. rewrite mff_queued. change (ip_off (queued h a l (a + l <? zlen pay))) with a.
    destruct (Z.ltb_spec (a + l) (zlen pay)); [done|]. destruct (Z.eqb_spec a 0); [lia|done]. }
  rewrite Hfrag. rewrite (find_ipq_ext (h <| ip_sum := 0 |>) hq) by done.
  change (ii_pool (with_pool p' s)) with p'.
  assert (Hpart : part up pay hq (m1' :: ms')).
  { apply (frame_part hd pay h a l b); try done; lia. }
  destruct (hd_up_wf hd (zlen pay) Kw ltac:(lia)) as [Uw Uh].
  destruct (ip_reass_total up p' (ii_q s) (hq, m1' :: ms') Gp' Gs) as (p2 & q2 & r & E & A1 & A2 & _).
  { by apply (part_traffic up pay (hq, m1' :: ms')). }
  unfold reass1 in E. cbn [fst snd] in E. rewrite E. cbn [obind].
  destruct (own_fragment up pay p' (ii_q s) hq (m1' :: ms')) as [(p3 & q3 & E3 & B1 & B2 & B3)|(p3 & q3 & m & E3 & B1 & B2)];
    try done; [by rewrite host_ip_hlen|lia|rewrite E in E3; simplify_eq..].
  - eexists. split; [reflexivity|]. left. split_and!; done.
  - eexists. split; [reflexivity|]. right. by exists m.
Qed.

(** A frame that arrives either joins the queue or completes the datagram. *)
Lemma input_fragment s h a l b c :
  receiver_ok -> gathering s -> frame_of hd pay h a l b -> l < zlen pay -> received 20 b c ->
  exists s', ip_input1 e s c = Ret s' /\ gathered s s' a l.
Proof.
  intros Hr [Gp Gs Go Gm] Hf Hl Hc. pose proof Hr as [Kw Khl Kl Kb Ko Ka Km].
  pose proof Hf as [[Hw Hv Hlen Hoff (P1 & P2 & P3 & P4 & P5) Hk Hhl _] Hb _].
  assert (Hh20 : hlen_of h = 20).
  { pose proof (hlen_eq h). pose proof (iw_hl _ Hw). lia. }
  unfold ip_input1. rewrite bool_decide_eq_false_2 by (by destruct (ie_ifaddr e)).
  rewrite <- Hh20 in Hc. destruct (ip_check_wire e (ii_pool s) h (zsub a l pay) b c (frame_wire _ _ _ _ _ _ Hf Kb) Hc) as (m1 & ms & -> & Hcb & Hwf & Hm1 & Hpk & _).
  cbn [obind]. change (hlen_of (h <| ip_sum := 0 |>)) with (hlen_of h). rewrite Hh20 in *. change (20 >? sizeof_ip) with false. cbn [obind].
  change (ip_dst (h <| ip_sum := 0 |>)) with (ip_dst h). assert (Hdst : ip_dst h = ip_dst hd) by apply Hk. rewrite Hdst, Ko.
  match goal with |- context [ip_local e ?x _ _ _] => set (s1 := x) end. assert (G1 : gathering s1) by done.
  destruct (local_fragment s1 h a l b m1 ms Hr G1 Hf Hl Hh20 Hcb Hwf Hm1 Hpk) as (s' & E & Hg). by exists s'.
Qed.

(** An arrival: the position and length of its part, and the frame as received. *)
Definition copy_of (frs : list (list Z)) (y : Z * Z * chain) : Prop :=
  exists b h, b ∈ frs /\ frame_of hd pay h y.1.1 y.1.2 b /\ y.1.2 < zlen pay /\ received 20 b y.2.

(** The positions that arrivals bring. *)
Definition came (ys : list (Z * Z * chain)) (z : Z) : Prop := Exists (fun y => y.1.1 <= z < y.1.1 + y.1.2) ys.

(** Until the datagram is complete the arrivals are gathered. *)
Lemma gather_all frs ys : forall s,
  receiver_ok -> gathering s -> Forall (copy_of frs) ys ->
  (exists z, 0 <= z < zlen pay /\ ~ fcovers (queue_of up (ii_q s)) z /\ ~ came ys z) ->
  exists s', ipintr e s ys.*2 = Ret s' /\ gathering s' /\ ii_up s' = ii_up s /\
    forall z, fcovers (queue_of up (ii_q s')) z <-> fcovers (queue_of up (ii_q s)) z \/ came ys z.
Proof.
  induction ys as [|y ys IH]; intros s Hr Hg Hys (z & Hz & Hnq & Hny).
  { exists s. split_and!; try done. intros w. unfold came. rewrite Exists_nil. tauto. }
  apply Forall_cons_iff in Hys as [(b & h & _ & Hf & Hl & Hc) Hys]. unfold came in Hny. rewrite Exists_cons in Hny.
  destruct (input_fragment s h y.1.1 y.1.2 b y.2 Hr Hg Hf Hl Hc) as (s1 & E & [(G1 & U1 & C1)|(m & _ & _ & C1)]).
  2: { destruct (C1 z Hz); tauto. }
  destruct (IH s1 Hr G1 Hys) as (s' & E' & G' & U' & C').
  { exists z. rewrite C1. unfold came. tauto. }
  exists s'. cbn [fmap list_fmap ipintr]. rewrite E. cbn [obind]. split_and!; try done; [congruence|].
  intros w. rewrite C', C1. unfold came. rewrite Exists_cons. tauto.
Qed.

Lemma ipintr_app s xs ys : ipintr e s (xs ++ ys) = let! s := ipintr e s xs in ipintr e s ys.
Proof.
  revert s. induction xs as [|x xs IH]; intros s; simpl; [done|]. destruct (ip_input1 e s x); simpl; [apply IH|done|done].
Qed.

(** The arrival that brings the last missing piece completes the datagram. *)
Lemma gather_complete frs ys y s :
  receiver_ok -> gathering s -> queue_of up (ii_q s) = [] -> Forall (copy_of frs) (ys ++ [y]) ->
  (exists z, 0 <= z < zlen pay /\ ~ came ys z) -> (forall z, 0 <= z < zlen pay -> came (ys ++ [y]) z) ->
  exists s0 s' m, ipintr e s ys.*2 = Ret s0 /\ ii_up s0 = ii_up s /\
    ipintr e s (ys ++ [y]).*2 = Ret s' /\ ii_up s' = (up, m, 20) :: ii_up s /\ whole up pay m.
Proof.
  intros Hr Hg Hq [Hys Hy]%Forall_app (z & Hz & Hnz) Hall. apply Forall_cons_iff in Hy as [(b & h & _ & Hf & Hl & Hc) _].
  destruct (gather_all frs ys s Hr Hg Hys) as (s1 & E & G1 & U1 & C1).
  { exists z. rewrite Hq. split; [done|]. split; [by intros ?%Exists_nil|done]. }
  assert (Hfc : forall w, fcovers (queue_of up (ii_q s1)) w <-> came ys w).
  { intros w. rewrite C1, Hq. split; [intros [?%Exists_nil|?]; done|by right]. }
  rewrite (fmap_app _ ys [y]), ipintr_app, E. cbn [obind fmap list_fmap ipintr].
  destruct (input_fragment s1 h y.1.1 y.1.2 b y.2 Hr G1 Hf Hl Hc) as (s2 & E2 & [(G2 & U2 & C2)|(m & U2 & W2 & _)]).
  - exfalso. destruct (ga_more _ G2) as (w & Hw & Hnw). apply Hnw, C2. rewrite Hfc. specialize (Hall w Hw).
    unfold came in *. apply Exists_app in Hall as [?|Hb]; [by left|right]. apply Exists_cons in Hb as [?|Hb]; [done|by apply Exists_nil in Hb].
  - exists s1, s2, m. rewrite E2. cbn [obind]. split_and!; [done|done|done|congruence|done].
Qed.
End Roundtrip.

(** ** The frames of a fragmented packet *)

Lemma frame_inj hd pay h a l h' a' l' b : frame_of hd pay h a l b -> frame_of hd pay h' a' l' b -> a = a' /\ l = l' /\ h = h'.
Proof.
  intros [[Hw _ Hl Ho (P1 & P2 & P3 & P4 & P5) _ _ _] Hb _] [[Hw' _ Hl' Ho' (P1' & P2' & P3' & P4' & P5') _ _ _] Hb' _].
  assert (h = h') as <- by (rewrite <- (decode_encode_ip h (zsub a l pay)), <- (decode_encode_ip h' (zsub a' l' pay)) by done; congruence).
  split_and!; [|lia|done]. rewrite Ho in Ho'. apply (f_equal (fun x => clrb x IP_MF)) in Ho'.
  rewrite !clrb_ipoff in Ho' by (Z.to_euclidean_division_equations; lia). Z.to_euclidean_division_equations. lia.
Qed.

Section Frames.
Context (hd : ip) (pay : list Z) (mtu : Z).

Lemma frames_in a b fs f : frames hd pay mtu a b fs -> f ∈ fs ->
  exists h a' l', frame_of hd pay h a' l' f /\ a <= a' /\ a' + l' <= b /\ hlen_of h + l' <= mtu.
Proof.
  revert a. induction fs as [|g fs IH]; intros a Hf Hin; [by apply not_elem_of_nil in Hin|].
  destruct Hf as (h & l & Hg & Hm & Hf). pose proof (frame_len _ _ _ _ _ _ Hg) as Hlen.
  assert (Hle : forall c fs, frames hd pay mtu c b fs -> c <= b).
  { clear. intros c fs. revert c. induction fs as [|g fs IH]; intros c; simpl; [lia|]. intros (h & l & Hg & _ & Hr).
    apply IH in Hr. destruct Hg as [[_ _ _ _ (_ & _ & ? & _) _ _ _] _ _]. lia. }
  apply elem_of_cons in Hin as [->|Hin].
  - exists h, a, l. apply Hle in Hf. split_and!; try done; lia.
  - destruct (IH _ Hf Hin) as (h' & a' & l' & H1 & H2 & H3 & H4). exists h', a', l'.
    destruct Hg as [[_ _ _ _ (_ & _ & ? & _) _ _ _] _ _]. split_and!; try done; lia.
Qed.

Lemma frames_cover a b fs z : frames hd pay mtu a b fs -> a <= z < b ->
  exists f h a' l', f ∈ fs /\ frame_of hd pay h a' l' f /\ a' <= z < a' + l'.
Proof.
  revert a. induction fs as [|g fs IH]; intros a Hf Hz; simpl in Hf; [lia|]. destruct Hf as (h & l & Hg & _ & Hf).
  destruct (Z.lt_ge_cases z (a + l)).
  - exists g, h, a, l. split_and!; try done; [by left|lia].
  - destruct (IH _ Hf ltac:(lia)) as (f & h' & a' & l' & H1 & H2). exists f, h', a', l'. split; [by right|done].
Qed.

Lemma frames_disjoint a b fs f g h1 a1 l1 h2 a2 l2 z :
  frames hd pay mtu a b fs -> f ∈ fs -> g ∈ fs -> frame_of hd pay h1 a1 l1 f -> frame_of hd pay h2 a2 l2 g ->
  a1 <= z < a1 + l1 -> a2 <= z < a2 + l2 -> f = g.
Proof.
  intros Hfs Hf Hg H1 H2 Hz1 Hz2. revert a Hfs Hf Hg. induction fs as [|x fs IH]; intros a Hfs Hf Hg; [by apply not_elem_of_nil in Hf|].
  destruct Hfs as (h & l & Hx & _ & Hr).
  assert (Hfar : forall y hy ay ly, y ∈ fs -> frame_of hd pay hy ay ly y -> a + l <= ay).
  { intros y hy ay ly Hy Hfy. destruct (frames_in _ _ _ _ Hr Hy) as (h' & a' & l' & F & ? & _).
    destruct (frame_inj _ _ _ _ _ _ _ _ _ F Hfy) as (-> & _). lia. }
  apply elem_of_cons in Hf as [->|Hf], Hg as [->|Hg]; [done| | |by apply (IH (a + l))].
  - destruct (frame_inj _ _ _ _ _ _ _ _ _ Hx H1) as (-> & -> & _). apply (Hfar g h2 a2 l2) in H2; [lia|done].
  - destruct (frame_inj _ _ _ _ _ _ _ _ _ Hx H2) as (-> & -> & _). apply (Hfar f h1 a1 l1) in H1; [lia|done].
Qed.
End Frames.

(** Arrivals with their positions. *)
Lemma placed hd pay mtu frs (ys : list (list Z * chain)) :
  frames hd pay mtu 0 (zlen pay) frs -> hlen_of hd = 20 -> mtu < zlen pay + 20 ->
  Forall (fun y => y.1 ∈ frs /\ received 20 y.1 y.2) ys ->
  exists xs, xs.*2 = ys.*2 /\ Forall (copy_of hd pay frs) xs /\
    forall z, came xs z <-> Exists (fun y => exists h a l, frame_of hd pay h a l y.1 /\ a <= z < a + l) ys.
Proof.
  intros Hfs Hhl Hm. induction ys as [|[b c] ys IH]; intros Hys.
  { exists []. split_and!; [done|constructor|]. intros z. unfold came. by rewrite !Exists_nil. }
  apply Forall_cons_iff in Hys as [[Hb Hc] Hys]. cbn [fst snd] in *. destruct (IH Hys) as (xs & E & Hx & Hcov).
  destruct (frames_in _ _ _ _ _ _ _ Hfs Hb) as (h & a & l & Hf & _ & _ & Hmt).
  assert (Hh : 20 <= hlen_of h).
  { pose proof (iw_hl _ (pc_wf _ _ _ _ _ (fm_piece _ _ _ _ _ _ Hf))). rewrite hlen_eq. lia. }
  exists ((a, l, c) :: xs). split_and!.
  - csimpl. by rewrite E.
  - constructor; [|done]. exists b, h. cbn [fst snd]. split_and!; try done. lia.
  - intros z. unfold came in *. rewrite !Exists_cons, Hcov. cbn [fst snd]. split; (intros [Hz|Hz]; [left|by right]).
    + by exists h, a, l.
    + destruct Hz as (h' & a' & l' & Hf' & Hz). destruct (frame_inj _ _ _ _ _ _ _ _ _ Hf Hf') as (-> & -> & _). done.
Qed.

(** Copies of all frames but for the last arrival's complete the datagram. *)
Lemma frames_complete e hd pay mtu frs s ys y :
  frames hd pay mtu 0 (zlen pay) frs -> mtu < zlen pay + 20 ->
  receiver_ok e hd pay -> gathering hd pay s -> queue_of (hd_up hd (zlen pay)) (ii_q s) = [] ->
  Forall (fun y => y.1 ∈ frs /\ received 20 y.1 y.2) (ys ++ [y]) ->
  (exists b, b ∈ frs /\ b ∉ ys.*1) -> (forall b, b ∈ frs -> b ∈ (ys ++ [y]).*1) ->
  exists s0 s' m, ipintr e s ys.*2 = Ret s0 /\ ii_up s0 = ii_up s /\
    ipintr e s (ys ++ [y]).*2 = Ret s' /\ ii_up s' = (hd_up hd (zlen pay), m, 20) :: ii_up s /\ whole (hd_up hd (zlen pay)) pay m.
Proof.
  intros Hfs Hm Hr Hg Hq Hys (b & Hb & Hnb) Hall. pose proof (rk_hl _ _ _ Hr) as Hhl.
  pose proof Hys as [Hys1 Hy1]%Forall_app.
  destruct (placed hd pay mtu frs ys Hfs Hhl Hm Hys1) as (xs & E1 & Hx & Hc1).
  destruct (placed hd pay mtu frs [y] Hfs Hhl Hm Hy1) as (xs2 & E2 & Hx2 & Hc2).
  destruct xs2 as [|x [|]]; try done.
  assert (Ea : (xs ++ [x]).*2 = (ys ++ [y]).*2) by (by rewrite !fmap_app, E1, E2).
  rewrite <- E1, <- Ea. apply (gather_complete e hd pay frs xs x s Hr Hg Hq).
  - apply Forall_app. done.
  - destruct (frames_in _ _ _ _ _ _ _ Hfs Hb) as (h & a & l & Hf & Ha & Hl & _).
    pose proof (fm_piece _ _ _ _ _ _ Hf) as [_ _ _ _ (P1 & P2 & P3 & P4 & P5) _ _ _].
    exists a. split; [lia|]. rewrite Hc1. intros (y' & Hy' & h' & a' & l' & Hf' & Hz)%List.Exists_exists.
    apply Hnb. assert (Hin : y'.1 ∈ frs) by (apply (proj1 (List.Forall_forall _ _) Hys1), Hy').
    rewrite (frames_disjoint hd pay mtu 0 (zlen pay) frs b y'.1 h a l h' a' l' a) by (done || lia).
    apply list_elem_of_fmap_2, list_elem_of_In, Hy'.
  - intros z Hz. destruct (frames_cover _ _ _ _ _ _ z Hfs) as (f & h & a & l & Hf & Hfr & Hzl); [lia|].
    specialize (Hall f Hf). rewrite fmap_app in Hall. unfold came in *. apply Exists_app.
    apply elem_of_app in Hall as [Hi|Hi]; apply list_elem_of_fmap in Hi as (y' & -> & Hi%list_elem_of_In); [left; apply Hc1|right; apply Hc2];
      apply List.Exists_exists; exists y'; (split; [done|]); by exists h, a, l.
Qed.

(** C9: fragmentation and reassembly are inverse: let ip_output fragment a datagram that is
    too large for the interface.  The fragments fit the interface and, with enough mbufs,
    all of them are sent.  Let a network bring copies of them to another host in any
    order, repeated, padded by the link and laid out over mbufs and clusters in any way.
    ipintr passes nothing up while a fragment is missing; the arrival of the last missing
    fragment passes exactly one packet to the protocol, whose header is the header sent
    (with the length of the data, and the bit of the type of service that reassembly uses
    cleared) and whose data are the bytes sent, in order. *)
Theorem fragments_roundtrip eo so ifp dst hd pay m o :
  packet_ok hd pay hd m 0 (zlen pay) o -> io_err so = [] -> mp_fail (io_pool so) = [] ->
  if_mtu eo ifp < ip_len hd -> hlen_of hd + 8 <= if_mtu eo ifp ->
  exists so' cs, sendit eo so ifp dst hd m (hlen_of hd) = Ret (0, so') /\
    io_out so' = rev (map (fun c => (ifp, dst, c)) cs) ++ io_out so /\
    Forall (fun c => chain_len c <= if_mtu eo ifp) cs /\
    forall e s ys y,
      receiver_ok e hd pay -> gathering hd pay s -> queue_of (hd_up hd (zlen pay)) (ii_q s) = [] ->
      Forall (fun y => y.1 ∈ chain_bytes <$> cs /\ received 20 y.1 y.2) (ys ++ [y]) ->
      (exists b, b ∈ chain_bytes <$> cs /\ b ∉ ys.*1) -> (forall b, b ∈ chain_bytes <$> cs -> b ∈ (ys ++ [y]).*1) ->
      exists s0 s' c, ipintr e s ys.*2 = Ret s0 /\ ii_up s0 = ii_up s /\
        ipintr e s (ys ++ [y]).*2 = Ret s' /\ ii_up s' = (hd_up hd (zlen pay), c, 20) :: ii_up s /\
        whole (hd_up hd (zlen pay)) pay c.
Proof.
  intros Hp He Hm Hbig Hmtu.
  destruct (sendit_frames eo so ifp dst hd pay hd m 0 (zlen pay) o Hp He Hbig Hmtu) as (err & so' & E & H0 & Hor).
  specialize (H0 Hm) as ->. destruct Hor as [[? _]|(_ & cs & Ho & Hfs)]; [done|].
  exists so', cs. split_and!; [done|done| |].
  - apply List.Forall_forall. intros c Hc%list_elem_of_In.
    destruct (frames_in _ _ _ _ _ _ (chain_bytes c) Hfs) as (h & a & l & Hf & _ & _ & Hl); [by apply list_elem_of_fmap_2|].
    unfold chain_len. by rewrite (frame_len _ _ _ _ _ _ Hf).
  - intros e s ys y Hr Hg Hq Hys Hex Hall. pose proof (rk_hl _ _ _ Hr) as Hhl.
    pose proof (pc_len _ _ _ _ _ (pk_piece _ _ _ _ _ _ _ Hp)) as Hlen.
    destruct (frames_complete e hd pay _ _ s ys y Hfs ltac:(lia) Hr Hg Hq Hys Hex Hall) as (s0 & s' & c & A1 & A2 & A3 & A4 & A5).
    by exists s0, s', c.
Qed.

(** ** A datagram of 40 bytes over an interface with an MTU of 44 *)

Definition pay0 : list Z := seqZ 1 40.
Definition hd0 : ip := mkIp 4 5 0 60 77 0 64 17 0 167772161 167772162 [].
Definition dgram0 : chain := [mkMbuf 20 (repeat 0 20 ++ pay0) MT_DATA M_PKTHDR 60 0 0 0].
Definition net_out : ipenv :=
  mkIpenv (fun _ => None) (fun _ => None) (fun _ => None) (fun _ => 44) (fun _ => 2) (fun _ _ => false) (fun _ _ => false)
    (fun _ => None) 0 16 0.
Definition out0 : ipost := mkIpo (mkPool (fun _ => 0) [] []) 1 [] [] [].
Definition in0 : inenv :=
  mkInenv net_out [mkIa 167772162 1 167772415 0 167772160 167772160 4294967040] (fun a => if a =? 167772162 then Some a else None)
    (fun _ _ => None) (fun _ => None) (fun _ => 0) 0 false false 40.
Definition inst0 : ipist := mkIpi out0 [] (mkRoute None 0) (mkSrcrt 0 0 []) [] [].

(** The frames, and the second as it arrives, padded and in a cluster. *)
Definition frame0 (i : nat) : list Z :=
  match sendit net_out out0 1 2 hd0 dgram0 20 with
  | Ret (_, s) => chain_bytes (nth i (map snd (rev (io_out s))) [])
  | _ => []
  end.
Definition arr0 : chain := [mkMbuf 8 (frame0 0) MT_DATA M_PKTHDR 44 1 0 0].
Definition arr1 : chain := [mkMbuf 16 (frame0 1 ++ [0; 0]) MT_DATA (Z.lor M_PKTHDR M_EXT) 38 1 5 2048].

Lemma packet0 : packet_ok hd0 pay0 hd0 dgram0 0 (zlen pay0) [].
Proof.
  assert (Hw : ip_wf hd0) by (split; vm_compute; intuition congruence || constructor).
  split; [split; try done; vm_compute; intuition congruence|reflexivity|reflexivity| |eexists _, _; split; [reflexivity|vm_compute; congruence]|reflexivity|vm_compute; congruence].
  apply (bool_decide_unpack (Forall (fun x => 0 <= x < 256) (chain_bytes dgram0))). vm_compute. exact I.
Qed.

Lemma receiver0 : receiver_ok in0 hd0 pay0.
Proof.
  split.
  - split; vm_compute; intuition congruence || constructor.
  - reflexivity.
  - split; reflexivity.
  - apply (bool_decide_unpack (Forall (fun x => 0 <= x < 256) pay0)). vm_compute. exact I.
  - done.
  - done.
  - split; [vm_compute; congruence|reflexivity].
Qed.

Lemma received0 : received 20 (frame0 0) arr0 /\ received 20 (frame0 1) arr1.
Proof.
  split; split.
  - exists []. split; [vm_compute; reflexivity|constructor].
  - repeat constructor; vm_compute; intuition congruence.
  - vm_compute. reflexivity.
  - eexists _, _. split; [reflexivity|]. split_and!; vm_compute; congruence.
  - exists [0; 0]. split; [vm_compute; reflexivity|repeat constructor; vm_compute; congruence].
  - repeat constructor; vm_compute; intuition congruence.
  - vm_compute. reflexivity.
  - eexists _, _. split; [reflexivity|]. split_and!; vm_compute; congruence.
Qed.

Lemma gathering0 : gathering hd0 pay0 inst0.
Proof. split; try done; [constructor|]. exists 0. split; [vm_compute; intuition congruence|]. by intros ?%Exists_nil. Qed.

Lemma fragments_roundtrip_witness :
  exists s' c, ipintr in0 inst0 [arr1; arr1; arr0] = Ret s' /\ ii_up s' = [(hd_up hd0 40, c, 20)] /\
    chain_bytes c = host_ip (hd_up hd0 40) ++ pay0.
Proof.
  destruct (fragments_roundtrip net_out out0 1 2 hd0 pay0 dgram0 []) as (so' & cs & E & Ho & _ & H);
    [exact packet0|reflexivity|reflexivity|vm_compute; reflexivity|vm_compute; congruence|].
  assert (Hcs : chain_bytes <$> cs = [frame0 0; frame0 1]).
  { assert (Hcs : cs = map snd (rev (io_out so'))).
    { rewrite Ho, app_nil_r, rev_involutive, map_map. simpl. symmetry. apply map_id. }
    rewrite Hcs. unfold frame0. change (hlen_of hd0) with 20 in E. rewrite E. vm_compute in E. injection E as <-. reflexivity. }
  rewrite Hcs in H. destruct received0 as [R0 R1].
  destruct (H in0 inst0 [(frame0 1, arr1); (frame0 1, arr1)] (frame0 0, arr0) receiver0 gathering0 eq_refl) as (s0 & s' & c & _ & _ & A1 & A2 & A3 & _ & _).
  - repeat (apply Forall_cons_2; [split; [cbn [fst]; rewrite !elem_of_cons; tauto|assumption]|]). apply Forall_nil_2.
  - exists (frame0 0). split; [by left|]. cbn [fmap list_fmap fst]. rewrite !elem_of_cons.
    intros [H0|[H0|H0]]; [vm_compute in H0; discriminate H0..|by apply not_elem_of_nil in H0].
  - intros b Hb. cbn [fmap list_fmap fst app]. rewrite !elem_of_cons in *. tauto.
  - exists s', c. split; [exact A1|]. split; [exact A2|exact A3].
Defined.

End IpInputOk.
