(* ===== verification/IpForwardOk.v ===== *)
(** Forwarding: what a gateway does with a packet that is not for it (ipintr and
    ip_forward of src/sys/netinet/ip_input.c, with ip_output.c). *)
From S2P Require Import Prelude Mbuf Cksum SockBuf Socket TcpVar InPcb TcpHdr IpHdr IpReass IpOutput IpInput IpFragOk IpInputOk.
Import Mbuf Cksum Socket TcpVar InPcb TcpHdr IpHdr IpReass IpOutput IpInput IpFragOk IpInputOk.

Module IpForwardOk.

(** The route cache of forwarding: empty, or with a route that rtalloc gave. *)
Definition cache_ok (e : inenv) (ro : route) : Prop := ro_rt ro = None \/ ro_rt ro = rtalloc (ie_out e) (ro_dst ro).

(** The route of a packet. *)
Lemma fwd_route e ro dst :
  cache_ok e ro ->
  match ro_rt ro with
  | Some _ => if negb (dst =? ro_dst ro) then mkRoute (rtalloc (ie_out e) dst) dst else ro
  | None => mkRoute (rtalloc (ie_out e) dst) dst
  end = mkRoute (rtalloc (ie_out e) dst) dst.
Proof.
  intros [H|H]; destruct ro as [[rt|] d]; cbn [ro_rt ro_dst] in *; try done.
  destruct (Z.eqb_spec dst d) as [->|]; simpl; [by rewrite <- H|done].
Qed.

(** The next hop of a route. *)
Definition next_hop (rt : iprt) (dst : Z) : Z := if hasf (rt_flags rt) RTF_GATEWAY then rt_gateway rt else dst.

(** A packet that fits is sent whole: the header is stamped. *)
Lemma output_forward e s h m rt :
  in_multicast (ip_dst h) = false -> hasf (rt_flags rt) RTF_UP = true -> ip_src h <> 0 ->
  in_broadcast e (next_hop rt (ip_dst h)) (rt_ifp rt) = false -> u16 (ip_len h) <= if_mtu e (rt_ifp rt) -> io_err s = [] ->
  exists s', ip_output e s h m None (Some (mkRoute (Some rt) (ip_dst h))) IP_FORWARDING None =
    Ret (0, s', mkRoute (Some rt) (ip_dst h)) /\ io_pool s' = io_pool s /\
    io_out s' = (rt_ifp rt, next_hop rt (ip_dst h), stamp h (set_mflags (fun f => clrb f M_BCAST) m) (hlen_of h)) :: io_out s.
Proof.
  intros Hmc Hup Hsrc Hbc Hmtu Herr. unfold ip_output, fill_hdr. change (hasf IP_FORWARDING (Z.lor IP_FORWARDING IP_RAWOUTPUT)) with true.
  cbn [negb]. unfold ip_route. cbn [ro_rt ro_dst]. rewrite Hup, Z.eqb_refl. cbn [negb orb ro_rt ro_dst].
  change (hasf IP_FORWARDING IP_ROUTETOIF) with false. cbn [ro_rt ro_dst]. rewrite Hmc. unfold output_ucast.
  fold (next_hop rt (ip_dst h)). rewrite Hbc. unfold INADDR_ANY. rewrite (proj2 (Z.eqb_neq _ _) Hsrc).
  unfold sendit. rewrite (proj2 (Z.leb_le _ _) Hmtu). cbn [obind]. eexists. split; [|split].
  - unfold if_output. rec_simpl. rewrite Herr. cbn [obind]. reflexivity.
  - done.
  - done.
Qed.

Lemma canforward_unicast a : in_canforward a = true -> in_multicast a = false.
Proof. unfold in_canforward. destruct (Z.land a _ =? _); [done|]. cbn [orb]. by destruct (in_multicast a). Qed.

Lemma summed_sum h v : summed (h <| ip_sum := v |>) = summed h.
Proof. by destruct h. Qed.

(** Stamping a header over a received packet gives a packet on the wire. *)
Lemma stamp_wire h h' data b m1 ms f :
  wire_packet h data b -> ip_wf h' -> ip_v h' = IPVERSION -> ip_len h' = ip_len h -> hlen_of h' = hlen_of h ->
  chain_bytes (m1 :: ms) = b -> hlen_of h <= m_len m1 ->
  wire_packet (summed h') data (chain_bytes (stamp h' (set_mflags f (m1 :: ms)) (hlen_of h'))).
Proof.
  intros [Hw Hv Hlen Hd Hb _] Hw' Hv' Hl' Hh' Hcb Hm1.
  assert (Hcb' : chain_bytes (set_mflags f (m1 :: ms)) = b) by done.
  cbn [set_mflags] in *. destruct (stamp_hdr_ok h' (m1 <| m_flags := f (m_flags m1) |>) ms Hw') as (E & Hs & Hc & _).
  - rewrite Hh'. exact Hm1.
  - rewrite Hcb', Hb. apply Forall_app. split; [by apply encode_ip_bytes|done].
  - split; try done. { change (ip_len h' = hlen_of h' + zlen data). lia. }
    rewrite E, Hcb', Hb, Hh'. f_equal. rewrite zdrop_app_ge by (rewrite encode_ip_hlen by done; lia).
    by rewrite encode_ip_hlen, Z.sub_diag, zdrop_le0.
Qed.

(** A gateway with a route for the packet, whose interface takes it whole. *)
Record gateway (e : inenv) (s : ipist) (h : ip) (rt : iprt) : Prop := {
  gw_addr : ie_ifaddr e <> [];
  gw_fwd : forall rcvif, ip_ours e (ip_dst h) rcvif = Forward;
  gw_can : in_canforward (ip_dst h) = true;
  gw_cache : cache_ok e (ii_fwd s);
  gw_route : rtalloc (ie_out e) (ip_dst h) = Some rt;
  gw_up : hasf (rt_flags rt) RTF_UP = true;
  gw_src : ip_src h <> 0;
  gw_hop : in_broadcast (ie_out e) (next_hop rt (ip_dst h)) (rt_ifp rt) = false;
  gw_mtu : ip_len h <= if_mtu (ie_out e) (rt_ifp rt);
  gw_err : io_err (ii_out s) = []
}.

Definition not_bcast (c : chain) : Prop := forall m1 ms, c = m1 :: ms -> hasf (m_flags m1) M_BCAST = false.

Lemma put_host_len h m1 ms : zlen (host_ip h) <= m_len m1 -> chain_len (put_host h (m1 :: ms)) = chain_len (m1 :: ms).
Proof.
  intros Hl. cbn [put_host]. rewrite !chain_len_cons. unfold m_len in *. rec_simpl. rewrite zlen_app, zlen_zdrop.
  zlen_pose. lia.
Qed.

(** The packet after the header checks. *)
Lemma forward_ok e s h data b m1 ms rt :
  gateway e s h rt -> wire_packet h data b -> 1 < ip_ttl h ->
  chain_bytes (m1 :: ms) = b -> hlen_of h <= m_len m1 -> hasf (m_flags m1) M_BCAST = false ->
  exists s' m, ip_forward e s (h <| ip_sum := 0 |>) (m1 :: ms) false = Ret s' /\ ii_up s' = ii_up s /\ ii_q s' = ii_q s /\
    io_out (ii_out s') = (rt_ifp rt, next_hop rt (ip_dst h), m) :: io_out (ii_out s) /\
    wire_packet (summed (h <| ip_ttl := ip_ttl h - 1 |>)) data (chain_bytes m).
Proof.
  intros [Ga Gf Gc Gh Gr Gu Gs Gb Gm Ge] Hwp Httl Hcb Hm1 Hnb. pose proof Hwp as [Hw Hv Hlen Hd Hb Hsum].
  pose proof (hlen_eq h) as Hh. pose proof (iw_hl _ Hw). pose proof (iw_len _ Hw). pose proof (zlen_nonneg data).
  unfold ip_forward. cbn [ip_dst]. rewrite Hnb. change (ip_dst (h <| ip_sum := 0 |>)) with (ip_dst h). rewrite Gc. cbn [negb orb].
  change (ip_ttl (h <| ip_sum := 0 |>)) with (ip_ttl h). destruct (Z.leb_spec (ip_ttl h) 1); [lia|].
  set (h' := (h <| ip_sum := 0 |>) <| ip_ttl := ip_ttl h - 1 |>). change (ip_dst h') with (ip_dst h).
  rewrite (fwd_route e (ii_fwd s) (ip_dst h) Gh). cbn [ro_rt]. rewrite Gr.
  assert (Hwh : ip_wf h').
  { destruct Hw. split; unfold hlen_of in *; unfold h'; rec_simpl; done || lia. }
  assert (Him : 0 < imin (ip_len h') 64 <= ip_len h) by (change (ip_len h') with (ip_len h); unfold imin; wrap_lia).
  assert (Hpl : chain_len (put_host (net_id h') (m1 :: ms)) = ip_len h).
  { rewrite put_host_len.
    - unfold chain_len. rewrite Hcb, Hb, zlen_app, encode_ip_hlen by done. lia.
    - rewrite host_ip_len. change (ip_opts (net_id h')) with (ip_opts h). rewrite (iw_opts _ Hw). unfold sizeof_ip. lia. }
  match goal with |- context [m_copym ?p0 ?c ?o ?l] => destruct (m_copym_spec p0 c o l) as (r & p & -> & _ & _) end.
  { lia. } { lia. } { rewrite Hpl. lia. } { rewrite Hpl. unfold M_COPYALL. lia. }
  cbn [obind]. set (s1 := with_pool p _).
  destruct (output_forward (ie_out e) (ii_out s1) h' (m1 :: ms) rt) as (o & E & _ & Ho); try done.
  { by apply canforward_unicast. } { change (u16 (ip_len h) <= if_mtu (ie_out e) (rt_ifp rt)). rewrite u16_id by lia. done. }
  change (ip_dst h') with (ip_dst h) in E, Ho. rewrite E. cbn [obind].
  assert (Hfin : wire_packet (summed (h <| ip_ttl := ip_ttl h - 1 |>)) data (chain_bytes (stamp h' (set_mflags (fun f => clrb f M_BCAST) (m1 :: ms)) (hlen_of h')))).
  { rewrite <- (summed_sum _ 0). by apply (stamp_wire h h' data b). }
  destruct r as [c|]; [|by eexists _, _; split_and!].
  change (0 =? 0) with true. cbv iota. match goal with |- context [match ?x with Some _ => _ | None => _ end] => destruct x end.
  - by eexists _, _; split_and!.
  - by eexists _, _; split_and!.
Qed.

(** A packet whose time to live has run out raises an error about it. *)
Lemma forward_expired k e s h data b c rt :
  gateway e s h rt -> wire_packet h data b -> hlen_of h = 20 -> 20 <= k <= zlen b -> received k b c -> not_bcast c -> ip_ttl h <= 1 ->
  exists s' m1 ms, ip_input1 e s c = Ret s' /\ ii_up s' = ii_up s /\ ii_q s' = ii_q s /\ ii_out s' = ii_out s /\
    ii_icmp s' = mkIcmp (net_id (h <| ip_sum := 0 |>)) (m1 :: ms) ICMP_TIMXCEED 0 0 None :: ii_icmp s /\
    chain_bytes (m1 :: ms) = b /\ k <= m_len m1 /\ exists m0 t, c = m0 :: t /\ m_rcvif m1 = m_rcvif m0 /\ m_flags m1 = m_flags m0.
Proof.
  intros Hg Hwp Hh20 Hk Hc Hnb Httl. unfold ip_input1.
  rewrite bool_decide_eq_false_2 by (pose proof (gw_addr _ _ _ _ Hg); by destruct (ie_ifaddr e)).
  destruct (ip_check_wire_k k e (ii_pool s) h data b c Hwp ltac:(lia) Hc) as (m1 & ms & -> & Hcb & Hwf & Hm1 & Hpk & (m0 & t & Ec & Er & Ef) & _).
  cbn [obind]. change (hlen_of (h <| ip_sum := 0 |>)) with (hlen_of h). rewrite Hh20. change (20 >? sizeof_ip) with false. cbn [obind].
  change (ip_dst (h <| ip_sum := 0 |>)) with (ip_dst h). rewrite (gw_fwd _ _ _ _ Hg).
  assert (Hb1 : hasf (m_flags m1) M_BCAST = false) by (rewrite Ef; by apply (Hnb m0 t)).
  unfold ip_forward. rewrite Hb1. change (ip_dst (h <| ip_sum := 0 |>)) with (ip_dst h). rewrite (gw_can _ _ _ _ Hg). cbn [negb orb].
  change (ip_ttl (h <| ip_sum := 0 |>)) with (ip_ttl h). destruct (Z.leb_spec (ip_ttl h) 1); [|lia].
  eexists _, m1, ms. split; [reflexivity|]. split_and!; try done; [by destruct s as [[] ? ? ? ? ?]|by exists m0, t].
Qed.

(** C12: a gateway forwards: let a packet without options that is for another host arrive
    in any layout of mbufs, perhaps padded.  ipintr passes nothing up and queues no
    fragment.  When the time to live allows a hop, exactly one packet goes to the
    interface and next hop of the route: the same header with the time to live one lower
    and a checksum that verifies, and the same data, without the padding.  Otherwise
    nothing is sent, and one ICMP time exceeded error is raised for the packet. *)
Theorem gateway_forwards e s h data b c rt :
  gateway e s h rt -> wire_packet h data b -> hlen_of h = 20 -> received 20 b c -> not_bcast c ->
  exists s' m, ip_input1 e s c = Ret s' /\ ii_up s' = ii_up s /\ ii_q s' = ii_q s /\
    if 1 <? ip_ttl h then
      io_out (ii_out s') = (rt_ifp rt, next_hop rt (ip_dst h), m) :: io_out (ii_out s) /\
      wire_packet (summed (h <| ip_ttl := ip_ttl h - 1 |>)) data (chain_bytes m)
    else io_out (ii_out s') = io_out (ii_out s) /\ chain_bytes m = b /\
      ii_icmp s' = mkIcmp (net_id (h <| ip_sum := 0 |>)) m ICMP_TIMXCEED 0 0 None :: ii_icmp s.
Proof.
  intros Hg Hwp Hh20 Hc Hnb. destruct (Z.ltb_spec 1 (ip_ttl h)).
  - unfold ip_input1. rewrite bool_decide_eq_false_2 by (pose proof (gw_addr _ _ _ _ Hg); by destruct (ie_ifaddr e)).
    rewrite <- Hh20 in Hc. destruct (ip_check_wire e (ii_pool s) h data b c Hwp Hc) as (m1 & ms & -> & Hcb & Hwf & Hm1 & Hpk & (m0 & t & Ec & Er & Ef) & _).
    cbn [obind]. change (hlen_of (h <| ip_sum := 0 |>)) with (hlen_of h). rewrite Hh20. change (20 >? sizeof_ip) with false. cbn [obind].
    change (ip_dst (h <| ip_sum := 0 |>)) with (ip_dst h). rewrite (gw_fwd _ _ _ _ Hg).
    match goal with |- context [ip_forward e ?x _ _ _] => set (s1 := x) end.
    destruct (forward_ok e s1 h data b m1 ms rt) as (s' & m & E & H1 & H2 & H3 & H4); try done.
    { destruct Hg. by split. } { rewrite Ef. by apply (Hnb m0 t). }
    exists s', m. by split_and!.
  - assert (Hk : 20 <= 20 <= zlen b) by (rewrite (wp_bytes _ _ _ Hwp), zlen_app, (encode_ip_hlen _ (wp_wf _ _ _ Hwp)); pose proof (zlen_nonneg data); lia).
    destruct (forward_expired 20 e s h data b c rt Hg Hwp Hh20 Hk Hc Hnb) as (s' & m1 & ms & E & E1 & E2 & E3 & E4 & E5 & _); [done|].
    exists s', (m1 :: ms). split_and!; try done. by rewrite E3.
Qed.

(** ** A gateway between 10/8 and 11/8 *)

Definition rt11 : iprt := mkIprt 3 2 184549377 184549378.
Definition gw_env : inenv :=
  mkInenv
    (mkIpenv (fun d => if Z.shiftr d 24 =? 11 then Some rt11 else None) (fun _ => None) (fun _ => None) (fun _ => 1500) (fun _ => 2)
       (fun _ _ => false) (fun _ _ => false) (fun _ => None) 0 16 0)
    [mkIa 167772162 1 184549375 0 167772160 167772160 4278190080] (fun _ => None) (fun _ _ => None) (fun _ => None) (fun _ => 184549376)
    0 true true 40.
Definition gw_hdr : ip := summed (mkIp 4 5 0 24 9 0 7 17 0 167772161 184549633 []).
Definition gw_in : chain := [mkMbuf 16 (encode_ip gw_hdr ++ [1; 2; 3; 4; 0; 0]) MT_DATA M_PKTHDR 26 1 0 0].

Lemma gw_wire : wire_packet gw_hdr [1; 2; 3; 4] (encode_ip gw_hdr ++ [1; 2; 3; 4]).
Proof.
  split.
  - split; vm_compute; intuition congruence || constructor.
  - reflexivity.
  - reflexivity.
  - repeat constructor; vm_compute; congruence.
  - reflexivity.
  - vm_compute. reflexivity.
Qed.

Lemma gw_ready : gateway gw_env inst0 gw_hdr rt11.
Proof. split; try done; try (by left); vm_compute; congruence. Qed.

Lemma gateway_forwards_witness :
  exists s m, ip_input1 gw_env inst0 gw_in = Ret s /\ io_out (ii_out s) = [(2, 184549378, m)] /\
    wire_packet (summed (gw_hdr <| ip_ttl := 6 |>)) [1; 2; 3; 4] (chain_bytes m).
Proof.
  destruct (gateway_forwards gw_env inst0 gw_hdr [1; 2; 3; 4] _ gw_in rt11 gw_ready gw_wire eq_refl) as (s & m & E & _ & _ & H1 & H2).
  - split.
    + exists [0; 0]. split; [reflexivity|repeat constructor; vm_compute; congruence].
    + repeat constructor; vm_compute; intuition congruence.
    + vm_compute. reflexivity.
    + eexists _, _. split; [reflexivity|]. split_and!; vm_compute; congruence.
  - intros m1 ms [= <- <-]. reflexivity.
  - exists s, m. split; [exact E|]. split; [exact H1|exact H2].
Defined.

End IpForwardOk.
