(* ===== verification/Udp.v ===== *)
(** UDP (src/sys/netinet/udp_usrreq.c, in_pcbconnect of in_pcb.c, M_PREPEND of mbuf.h).

    A control block carries its socket, route and options; [udb] is the list of control
    blocks, newest first, and [us_last] the identity of the one that [udp_last_inpcb]
    points to (0 for the head of the list).  The header of a packet is the record that IP
    passes; the UDP header is in the bytes of the first mbuf. *)
From S2P Require Import Prelude Mbuf Cksum SockBuf Socket TcpVar InPcb TcpHdr IpHdr TcpSubr IpReass IpOutput IpInput.
Import Mbuf Cksum SockBuf Socket TcpVar InPcb TcpHdr IpHdr IpReass IpOutput IpInput.

Module Udp.

Definition sizeof_udphdr : Z := 8.
Definition sizeof_udpiphdr : Z := 28.
Definition IPPROTO_UDP : Z := 17.
Definition ICMP_UNREACH_PORT : Z := 3.
Definition INP_CONTROLOPTS : Z := 7.
Definition INP_RECVDSTADDR : Z := 4.
Definition IP_RECVDSTADDR : Z := 7.
Definition IFF_LOOPBACK : Z := 8.
Definition EOPNOTSUPP : Z := 45.
Definition EISCONN : Z := 56.
Definition ENOTCONN : Z := 57.

Record udphdr := mkUdphdr { uh_sport : Z; uh_dport : Z; uh_ulen : Z; uh_sum : Z }.

(** The UDP header behind an IP header without options; the length as ntohs gives it. *)
Definition decode_uh (l : list Z) : udphdr :=
  mkUdphdr (rd16 l 20) (rd16 l 22) (rd16 l 24) (get l 26 + 256 * get l 27).
Definition encode_uh (u : udphdr) : list Z :=
  be16 (uh_sport u) ++ be16 (uh_dport u) ++ be16 (uh_ulen u) ++ le16 (uh_sum u).

(** A control block: identity, addresses, socket, inp_flags, IP options, route and
    multicast options. *)
Record udpcb := mkUdpcb {
  u_id : Z;
  u_inp : inpcb;
  u_so : socket;
  u_flags : Z;
  u_opt : option ipoption;
  u_ro : route;
  u_mopt : option ip_moptions
}.
Definition eta_udpcb (r : udpcb) : udpcb := mkUdpcb (u_id r) (u_inp r) (u_so r) (u_flags r) (u_opt r) (u_ro r) (u_mopt r).
#[global] Instance set_u_inp : Setter u_inp := ltac:(mk_setter eta_udpcb).
#[global] Instance set_u_so : Setter u_so := ltac:(mk_setter eta_udpcb).
#[global] Instance set_u_ro : Setter u_ro := ltac:(mk_setter eta_udpcb).

Record ust := mkUst {
  us_pcbs : list udpcb;       (* udb *)
  us_hp : Z;                  (* udb.inp_lport: the last port given out *)
  us_last : Z;                (* udp_last_inpcb *)
  us_next : Z;                (* the next identity *)
  us_gone : list socket;      (* sockets whose control block is gone *)
  us_ip : ipist
}.
Definition eta_ust (r : ust) : ust := mkUst (us_pcbs r) (us_hp r) (us_last r) (us_next r) (us_gone r) (us_ip r).
#[global] Instance set_us_next : Setter us_next := ltac:(mk_setter eta_ust).
#[global] Instance set_us_gone : Setter us_gone := ltac:(mk_setter eta_ust).
#[global] Instance set_us_pcbs : Setter us_pcbs := ltac:(mk_setter eta_ust).
#[global] Instance set_us_hp : Setter us_hp := ltac:(mk_setter eta_ust).
#[global] Instance set_us_last : Setter us_last := ltac:(mk_setter eta_ust).
#[global] Instance set_us_ip : Setter us_ip := ltac:(mk_setter eta_ust).

Definition us_pool (s : ust) : mpool := ii_pool (us_ip s).
Definition set_pool (p : mpool) (s : ust) : ust := s <| us_ip := with_pool p (us_ip s) |>.
Definition us_free (m : chain) (s : ust) : ust := set_pool (m_freem (us_pool s) m) s.

(** The control block with an identity, and a change to it. *)
Definition find_u (id : Z) (l : list udpcb) : option udpcb := List.find (fun u => u_id u =? id) l.
Definition upd_u (id : Z) (f : udpcb -> udpcb) (l : list udpcb) : list udpcb :=
  map (fun u => if u_id u =? id then f u else u) l.

(** struct sockaddr_in with an address and port. *)
Definition sockaddr_in (addr port : Z) : list Z := [16; 2] ++ be16 port ++ be32 addr ++ repeat 0 8.

(** ** Input *)

(** [((struct ipovly * )ip)->...] and the zero that in_cksum returned, in the first mbuf. *)
Definition zero_sum (l : list Z) : list Z := ztake 26 l ++ ztake (zlen l - 26) [0; 0] ++ zdrop 28 l.
Definition map_first (f : list Z -> list Z) (m : chain) : chain :=
  match m with m1 :: ms => m1 <| m_bytes := f (m_bytes m1) |> :: ms | [] => [] end.

Definition udp_cksum (p : mpool) (h : ip) (uh : udphdr) (m : chain) : mpool * option (ip * udphdr * chain) :=
  if negb (uh_sum uh =? 0) then
    let m := map_first (overlay (uh_ulen uh)) m in
    if negb (in_cksum m (uh_ulen uh + sizeof_ip) =? 0) then (m_freem p m, None)
    else (p, Some (h, uh, map_first zero_sum m))
  else (p, Some (h, uh, m)).

(** The first part of udp_input: options, the two headers in the first mbuf, the length
    and the checksum.  [None] when the packet is gone. *)
Definition udp_check (e : inenv) (p : mpool) (h : ip) (m : chain) (iphlen : Z)
    : outcome (mpool * option (ip * udphdr * chain)) :=
  let '(h, m) := if iphlen >? sizeof_ip then ip_stripoptions h m else (h, m) in
  let! (r, p) := pull_ip e p m sizeof_udpiphdr in
  match r with
  | None | Some [] => Ret (p, None)
  | Some ((m1 :: _) as m) =>
      let uh := decode_uh (m_bytes m1) in
      let len := uh_ulen uh in
      if negb (ip_len h =? len) then
        if len >? ip_len h then Ret (m_freem p m, None)
        else Ret (udp_cksum p h uh (m_adj m (len - ip_len h)))
      else Ret (udp_cksum p h uh m)
  end.

(** [m_len -= n; m_data += n] *)
Definition skip_hdr (n : Z) (m : chain) : outcome chain :=
  match m with
  | m1 :: ms => if m_len m1 <? n then Panic "udp_input: negative m_len"
                else Ret (m1 <| m_off := m_off m1 + n |> <| m_bytes := zdrop n (m_bytes m1) |> :: ms)
  | [] => Panic "udp_input: null mbuf"
  end.
Definition cut_pktlen (n : Z) (m : chain) : chain :=
  match m with m1 :: ms => m1 <| m_pktlen := m_pktlen m1 - n |> :: ms | [] => [] end.

(** sbappendaddr on the socket of a control block and the wakeup; [false] when the buffer
    did not take the datagram. *)
Definition deliver_to (p : mpool) (pcbs : list udpcb) (id : Z) (asa : list Z) (m opts : chain)
    : outcome (bool * mpool * list udpcb) :=
  match find_u id pcbs with
  | None => Panic "udp_input: null inpcb"
  | Some u =>
      let! (r, p) := sbappendaddr p (so_rcv (u_so u)) asa m opts in
      match r with
      | None => Ret (false, p, pcbs)
      | Some sb => Ret (true, p, upd_u id (fun u => u <| u_so := sorwakeup ((u_so u) <| so_rcv := sb |>) |>) pcbs)
      end
  end.

(** The test of the loop over the control blocks for a multicast or broadcast. *)
Definition mcast_match (h : ip) (uh : udphdr) (i : inpcb) : bool :=
  (inp_lport i =? uh_dport uh) &&
  ((inp_laddr i =? INADDR_ANY) || (inp_laddr i =? ip_dst h)) &&
  ((inp_faddr i =? INADDR_ANY) || ((inp_faddr i =? ip_src h) && (inp_fport i =? uh_sport uh))).

(** The loop: all but the last match get a copy. *)
Fixpoint mcast_loop (l : list udpcb) (p : mpool) (pcbs : list udpcb) (h : ip) (uh : udphdr) (asa : list Z) (m : chain)
    (last : option Z) : outcome (mpool * list udpcb * option Z) :=
  match l with
  | [] => Ret (p, pcbs, last)
  | u :: l =>
      if negb (mcast_match h uh (u_inp u)) then mcast_loop l p pcbs h uh asa m last
      else
        let! (p, pcbs) :=
          match last with
          | None => Ret (p, pcbs)
          | Some id =>
              let! (n, p) := m_copym p m 0 M_COPYALL in
              match n with
              | None => Ret (p, pcbs)
              | Some n =>
                  let! (ok, p, pcbs) := deliver_to p pcbs id asa n [] in
                  Ret (if ok : bool then p else m_freem p n, pcbs)
              end
          end in
        if negb (hasf (so_options (u_so u)) (Z.lor SO_REUSEPORT SO_REUSEADDR)) then Ret (p, pcbs, Some (u_id u))
        else mcast_loop l p pcbs h uh asa m (Some (u_id u))
  end.

Definition udp_mcast (s : ust) (h : ip) (uh : udphdr) (m : chain) : outcome ust :=
  let asa := sockaddr_in (ip_src h) (uh_sport uh) in
  let! m := skip_hdr sizeof_udpiphdr m in
  let! (p, pcbs, last) := mcast_loop (us_pcbs s) (us_pool s) (us_pcbs s) h uh asa m None in
  let s := set_pool p s <| us_pcbs := pcbs |> in
  match last with
  | None => Ret (us_free m s)
  | Some id =>
      let! (ok, p, pcbs) := deliver_to (us_pool s) (us_pcbs s) id asa m [] in
      let s := set_pool p s <| us_pcbs := pcbs |> in
      Ret (if ok : bool then s else us_free m s)
  end.

(** Locate the control block: the one-entry cache, then in_pcblookup. *)
Definition udp_exact (i : inpcb) (h : ip) (uh : udphdr) : bool :=
  (inp_lport i =? uh_dport uh) && (inp_fport i =? uh_sport uh) && (inp_faddr i =? ip_src h) && (inp_laddr i =? ip_dst h).

(** The list head, where the cache starts: its port counter is in inp_lport, in host order
    where a control block has network order, and its other addresses are zero. *)
Definition head_inp (s : ust) : inpcb := mkInp 0 0 0 (swap16 (us_hp s)) None [] 0 0.

Definition udp_findpcb (s : ust) (h : ip) (uh : udphdr) : outcome (ust * option udpcb) :=
  let look :=
    match in_pcblookup u_inp (us_pcbs s) (ip_src h) (uh_sport uh) (ip_dst h) (uh_dport uh) true with
    | Some u => Ret (s <| us_last := u_id u |>, Some u)
    | None => Ret (s, None)
    end in
  match find_u (us_last s) (us_pcbs s) with
  | Some u => if udp_exact (u_inp u) h uh then Ret (s, Some u) else look
  | None => if udp_exact (head_inp s) h uh then Panic "udp_input: null inp_socket" else look
  end.

(** Create a control mbuf with data [d]. *)
Definition udp_saveopt (p : mpool) (d : list Z) (type : Z) : option mbuf * mpool :=
  match m_get p MT_CONTROL with
  | (None, p) => (None, p)
  | (Some m, p) => (Some (m <| m_bytes := le32 (zlen d + 12) ++ le32 0 ++ le32 type ++ d |>), p)
  end.

(** A datagram for one control block. *)
Definition udp_ucast (s : ust) (h : ip) (uh : udphdr) (m : chain) : outcome ust :=
  let! (s, r) := udp_findpcb s h uh in
  match r with
  | None =>
      if hasf (match m with m1 :: _ => m_flags m1 | [] => 0 end) (Z.lor M_BCAST M_MCAST) then Ret (us_free m s)
      else
        let h := h <| ip_len := s16 (ip_len h + sizeof_ip) |> in
        Ret (s <| us_ip := icmp_error (us_ip s) h (put_host h m) ICMP_UNREACH ICMP_UNREACH_PORT 0 None |>)
  | Some u =>
      let '(opts, p) :=
        if hasf (u_flags u) INP_CONTROLOPTS && hasf (u_flags u) INP_RECVDSTADDR then
          match udp_saveopt (us_pool s) (be32 (ip_dst h)) IP_RECVDSTADDR with
          | (Some o, p) => ([o], p)
          | (None, p) => ([], p)
          end
        else ([], us_pool s) in
      let! m := skip_hdr sizeof_udpiphdr m in
      let m := cut_pktlen sizeof_udpiphdr m in
      let! (ok, p, pcbs) := deliver_to p (us_pcbs s) (u_id u) (sockaddr_in (ip_src h) (uh_sport uh)) m opts in
      let s := set_pool p s <| us_pcbs := pcbs |> in
      Ret (if ok : bool then s else us_free opts (us_free m s))
  end.

Definition udp_input (e : inenv) (s : ust) (h : ip) (m : chain) (iphlen : Z) : outcome ust :=
  let! (p, r) := udp_check e (us_pool s) h m iphlen in
  let s := set_pool p s in
  match r with
  | None => Ret s
  | Some (h, uh, m) =>
      let rcvif := match m with m1 :: _ => m_rcvif m1 | [] => 0 end in
      if in_multicast (ip_dst h) || in_broadcast (ie_out e) (ip_dst h) rcvif then udp_mcast s h uh m
      else udp_ucast s h uh m
  end.

(** ** Connecting *)

(** The source address for a destination: from the route, the interfaces, or the primary
    address.  The result is the route cache and the address. *)
Definition pcb_source (e : inenv) (u : udpcb) (addr : Z) : route * option Z :=
  let dontroute := hasf (so_options (u_so u)) SO_DONTROUTE in
  let ro := u_ro u in
  let ro := match ro_rt ro with
            | Some _ => if negb (ro_dst ro =? addr) || dontroute then mkRoute None (ro_dst ro) else ro
            | None => ro
            end in
  let ro := if negb dontroute then match ro_rt ro with None => mkRoute (rtalloc (ie_out e) addr) addr | Some _ => ro end
            else ro in
  let ia := match ro_rt ro with
            | Some rt => if negb (hasf (if_flags (ie_out e) (rt_ifp rt)) IFF_LOOPBACK) then Some (rt_ifa rt) else None
            | None => None
            end in
  let ia := match ia with
            | Some a => Some a
            | None =>
                match ifa_ifwithdstaddr (ie_out e) addr with
                | Some (_, a) => Some a
                | None => match ifa_ifwithnet (ie_out e) addr with
                          | Some (_, a) => Some a
                          | None => ia_addr <$> head (ie_ifaddr e)
                          end
                end
            end in
  (ro, match ia with
       | None => None
       | Some a =>
           match u_mopt u with
           | Some imo => if in_multicast addr
                         then match imo_multicast_ifp imo with Some ifp => ifp_to_ia (ie_out e) ifp | None => Some a end
                         else Some a
           | None => Some a
           end
       end).

(** [in_pcbconnect] for a socket address in the format of the family: the error, the port
    counter and the control block.  UDP does not require connections, so in_pcbbind does
    not look at SO_ACCEPTCONN. *)
Definition in_pcbconnect (e : inenv) (b : ifenv) (s : ust) (u : udpcb) (addr port : Z) : outcome (Z * Z * udpcb) :=
  if port =? 0 then Ret (EADDRNOTAVAIL, us_hp s, u)
  else
    let addr := match ie_ifaddr e with
                | ia :: _ => if addr =? INADDR_ANY then ia_addr ia
                             else if (addr =? INADDR_BROADCAST) && hasf (if_flags (ie_out e) (ia_ifp ia)) IFF_BROADCAST
                             then ia_broadaddr ia else addr
                | [] => addr
                end in
    let i := u_inp u in
    let any := inp_laddr i =? INADDR_ANY in
    let '(ro, src) := if any then pcb_source e u addr else (u_ro u, Some (inp_laddr i)) in
    let u := u <| u_ro := ro |> in
    match src with
    | None => Ret (EADDRNOTAVAIL, us_hp s, u)
    | Some src =>
        match in_pcblookup u_inp (us_pcbs s) addr port src (inp_lport i) false with
        | Some _ => Ret (EADDRINUSE, us_hp s, u)
        | None =>
            let! (i, hp) :=
              (if any && (inp_lport i =? 0) then
                 let! r := in_pcbbind u_inp b (fun v => so_options (u_so v)) (us_pcbs s) (us_hp s) i
                             (clrb (so_options (u_so u)) SO_ACCEPTCONN) None in
                 Ret match r with inl _ => (i, us_hp s) | inr (i, hp) => (i, hp) end
               else Ret (i, us_hp s)) in
            Ret (0, hp, u <| u_inp := i <| inp_laddr := src |> <| inp_faddr := addr |> <| inp_fport := port |> |>)
        end
    end.

(** [in_pcbdetach]: the socket loses its control block. *)
Definition in_pcbdetach (s : ust) (u : udpcb) : outcome ust :=
  let! (p, so) := TcpSubr.TcpSubr.sofree (us_pool s) (u_so u) in
  Ret (set_pool p s <| us_pcbs := filter (fun v => u_id v <> u_id u) (us_pcbs s) |> <| us_gone := so :: us_gone s |>).

Definition udp_detach (s : ust) (u : udpcb) : outcome ust :=
  in_pcbdetach (s <| us_last := if us_last s =? u_id u then 0 else us_last s |>) u.

Definition put_u (u : udpcb) (s : ust) : ust := s <| us_pcbs := upd_u (u_id u) (fun _ => u) (us_pcbs s) |>.

Definition in_pcbdisconnect (s : ust) (u : udpcb) : outcome ust :=
  let u := u <| u_inp := (u_inp u) <| inp_faddr := INADDR_ANY |> <| inp_fport := 0 |> |> in
  let s := put_u u s in
  if hasf (so_state (u_so u)) SS_NOFDREF then in_pcbdetach s u else Ret s.

(** ** Output *)

(** [M_PREPEND]; [junk] is what the new bytes hold. *)
Definition M_PREPEND (p : mpool) (m1 : mbuf) (ms : chain) (junk : list Z) : option chain * mpool :=
  let plen := zlen junk in
  let space := if hasf (m_flags m1) M_EXT then 0
               else if hasf (m_flags m1) M_PKTHDR then m_off m1 - sizeof_pkthdr else m_off m1 in
  let '(r, p) := if space >=? plen then (Some (m1 <| m_off := m_off m1 - plen |> <| m_bytes := junk ++ m_bytes m1 |> :: ms), p)
                 else m_prepend p m1 ms plen junk in
  (set_pktlen (fun l => l + plen) <$> r, p).

(** The bytes of struct udpiphdr; the checksum is of these and the data. *)
Definition encode_ui (src dst : Z) (uh : udphdr) : list Z :=
  repeat 0 9 ++ [IPPROTO_UDP] ++ be16 (uh_ulen uh) ++ be32 src ++ be32 dst ++ encode_uh uh.

(** The packet as udp_output hands it to ip_output: the header record and the mbufs. *)
Definition udp_packet (i : inpcb) (m : chain) (len : Z) (udpcksum : bool) : ip * chain :=
  let uh := mkUdphdr (inp_lport i) (inp_fport i) (u16 (u16 len + sizeof_udphdr)) 0 in
  let put sum := map_first (fun b => encode_ui (inp_laddr i) (inp_faddr i) (mkUdphdr (uh_sport uh) (uh_dport uh) (uh_ulen uh) sum) ++
                                     zdrop sizeof_udpiphdr b) m in
  let sum := if udpcksum then let c := in_cksum (put 0) (sizeof_udpiphdr + len) in if c =? 0 then 65535 else c else 0 in
  (mkIp 0 0 (inp_tos i) (s16 (sizeof_udpiphdr + len)) 0 0 (inp_ttl i) IPPROTO_UDP (swap16 (uh_ulen uh)) (inp_laddr i) (inp_faddr i) [],
   put sum).

(** [udp_output] of a datagram; [addr] is where it goes when the socket is not connected.
    The result is the error. *)
Definition udp_output (e : inenv) (b : ifenv) (udpcksum : bool) (s : ust) (u : udpcb) (m : chain) (addr : option (Z * Z)) (control : chain)
    : outcome (Z * ust) :=
  let s := us_free control s in
  let release error s := Ret (error, us_free m s) in
  let laddr := inp_laddr (u_inp u) in
  let connected := negb (inp_faddr (u_inp u) =? INADDR_ANY) in
  let! (error, s, u) :=
    match addr with
    | Some (a, port) =>
        if connected then Ret (EISCONN, s, u)
        else let! (error, hp, u) := in_pcbconnect e b s u a port in Ret (error, put_u u s <| us_hp := hp |>, u)
    | None => Ret (if connected then 0 else ENOTCONN, s, u)
    end in
  if negb (error =? 0) then release error s
  else
    match m with
    | [] => Panic "udp_output: null mbuf"
    | m1 :: ms =>
        let len := m_pktlen m1 in
        match M_PREPEND (us_pool s) m1 ms (repeat 0 (Z.to_nat sizeof_udpiphdr)) with
        | (None, p) => Ret (ENOBUFS, set_pool p s)
        | (Some m, p) =>
            let s := set_pool p s in
            let '(h, m) := udp_packet (u_inp u) m len udpcksum in
            let! (error, o, ro) := ip_output (ie_out e) (ii_out (us_ip s)) h m (u_opt u) (Some (u_ro u))
                                     (Z.land (so_options (u_so u)) (Z.lor SO_DONTROUTE SO_BROADCAST)) (u_mopt u) in
            let u := u <| u_ro := ro |> in
            let s := put_u u (s <| us_ip := (us_ip s) <| ii_out := o |> |>) in
            match addr with
            | None => Ret (error, s)
            | Some _ =>
                let! s := in_pcbdisconnect s u in
                Ret (error, s <| us_pcbs := upd_u (u_id u) (fun u => u <| u_inp := (u_inp u) <| inp_laddr := laddr |> |>) (us_pcbs s) |>)
            end
        end
    end.

(** ** Requests *)

Inductive ureq :=
| PRU_ATTACH (so : socket) (inpok : bool)     (* inpok: MALLOC of the control block succeeds *)
| PRU_DETACH
| PRU_BIND (nam : option (Z * Z))
| PRU_LISTEN
| PRU_CONNECT (addr port : Z)
| PRU_CONNECT2
| PRU_ACCEPT
| PRU_DISCONNECT
| PRU_SHUTDOWN
| PRU_SEND (m : chain) (addr : option (Z * Z)) (control : chain)
| PRU_ABORT
| PRU_SENSE
| PRU_SENDOOB (m : chain)
| PRU_RCVD
| PRU_RCVOOB.

(** What UDP gets from its surroundings. *)
Record udpenv := mkUdpenv {
  ud_in : inenv;
  ud_if : ifenv;
  udpcksum : bool;
  udp_sendspace : Z;
  udp_recvspace : Z;
  ud_sb_max : Z;
  ud_defttl : Z
}.

Definition udp_attach (e : udpenv) (s : ust) (so : socket) (inpok : bool) : outcome (Z * ust) :=
  if negb inpok then Ret (ENOBUFS, s)
  else
    let u := mkUdpcb (us_next s) (mkInp 0 0 0 0 None [] 0 0) so 0 None (mkRoute None 0) None in
    let s := s <| us_next := us_next s + 1 |> in
    let! (p, so, error) := soreserve (ud_sb_max e) (us_pool s) so (udp_sendspace e) (udp_recvspace e) in
    let u := u <| u_so := so |> in
    let u := if error =? 0 then u <| u_inp := (u_inp u) <| inp_ttl := ud_defttl e |> |> else u in
    Ret (error, set_pool p s <| us_pcbs := u :: us_pcbs s |>).

(** [udp_usrreq] for the control block [o] of the socket, the requests that only copy an
    address out left out.  The result is the error. *)
Definition udp_usrreq (e : udpenv) (s : ust) (o : option udpcb) (req : ureq) : outcome (Z * ust) :=
  let freed m error s := Ret (error, us_free m s) in
  match o with
  | None =>
      match req with
      | PRU_ATTACH so inpok => udp_attach e s so inpok
      | PRU_SEND m _ control => freed m EINVAL (us_free control s)
      | PRU_SENDOOB m => freed m EINVAL s
      | _ => Ret (EINVAL, s)
      end
  | Some u =>
      let i := u_inp u in
      match req with
      | PRU_ATTACH _ _ => Ret (EINVAL, s)
      | PRU_DETACH => let! s := udp_detach s u in Ret (0, s)
      | PRU_BIND nam =>
          let! r := in_pcbbind u_inp (ud_if e) (fun v => so_options (u_so v)) (us_pcbs s) (us_hp s) i
                      (clrb (so_options (u_so u)) SO_ACCEPTCONN) nam in
          Ret match r with
              | inl error => (error, s)
              | inr (i, hp) => (0, put_u (u <| u_inp := i |>) s <| us_hp := hp |>)
              end
      | PRU_LISTEN | PRU_CONNECT2 | PRU_ACCEPT => Ret (EOPNOTSUPP, s)
      | PRU_CONNECT addr port =>
          if negb (inp_faddr i =? INADDR_ANY) then Ret (EISCONN, s)
          else
            let! (error, hp, u) := in_pcbconnect (ud_in e) (ud_if e) s u addr port in
            let u := if error =? 0 then u <| u_so := soisconnected (u_so u) |> else u in
            Ret (error, put_u u s <| us_hp := hp |>)
      | PRU_DISCONNECT =>
          if inp_faddr i =? INADDR_ANY then Ret (ENOTCONN, s)
          else
            let! s := in_pcbdisconnect s u in
            Ret (0, s <| us_pcbs := upd_u (u_id u) (fun u =>
                       u <| u_inp := (u_inp u) <| inp_laddr := INADDR_ANY |> |>
                         <| u_so := (u_so u) <| so_state := clrb (so_state (u_so u)) SS_ISCONNECTED |> |>) (us_pcbs s) |>)
      | PRU_SHUTDOWN => Ret (0, put_u (u <| u_so := socantsendmore (u_so u) |>) s)
      | PRU_SEND m addr control => udp_output (ud_in e) (ud_if e) (udpcksum e) s u m addr control
      | PRU_ABORT =>
          let u := u <| u_so := soisdisconnected (u_so u) |> in
          let! s := udp_detach (put_u u s) u in Ret (0, s)
      | PRU_SENSE => Ret (0, s)
      | PRU_SENDOOB m => freed m EOPNOTSUPP s
      | PRU_RCVD | PRU_RCVOOB => Ret (EOPNOTSUPP, s)
      end
  end.

(** [udp_notify]: an asynchronous error. *)
Definition udp_notify (u : udpcb) (errno : Z) : udpcb :=
  u <| u_so := sowwakeup (sorwakeup ((u_so u) <| so_error := errno |>)) |>.

(** ** Control input *)

Definition PRC_HOSTDEAD : Z := 6.
Definition PRC_REDIRECT_NET : Z := 14.
Definition PRC_REDIRECT_TOSHOST : Z := 17.
Definition PRC_NCMDS : Z := 21.
Definition PRC_IS_REDIRECT (cmd : Z) : bool := (cmd >=? PRC_REDIRECT_NET) && (cmd <=? PRC_REDIRECT_TOSHOST).
Definition inetctlerrmap : list Z := [0; 0; 0; 0; 0; 40; 64; 65; 65; 65; 61; 61; 40; 65; 0; 0; 0; 0; 0; 0; 42].

Definition in_rtchange (u : udpcb) : udpcb :=
  match ro_rt (u_ro u) with Some _ => u <| u_ro := mkRoute None (ro_dst (u_ro u)) |> | None => u end.

(** [in_pcbnotify] with an internet address: the change to the list. *)
Definition in_pcbnotify (l : list udpcb) (faddr fport laddr lport cmd : Z) : list udpcb :=
  if (cmd <? 0) || (cmd >? PRC_NCMDS) || (faddr =? INADDR_ANY) then l
  else
    let all := PRC_IS_REDIRECT cmd || (cmd =? PRC_HOSTDEAD) in
    let '(fport, lport, laddr) := if all then (0, 0, 0) else (fport, lport, laddr) in
    let errno := get inetctlerrmap (Z.to_nat cmd) in
    let hit i := (inp_faddr i =? faddr) && ((lport =? 0) || (inp_lport i =? lport)) &&
                 ((laddr =? 0) || (inp_laddr i =? laddr)) && ((fport =? 0) || (inp_fport i =? fport)) in
    map (fun u => if hit (u_inp u)
                  then if all && negb (cmd =? PRC_HOSTDEAD) then in_rtchange u else udp_notify u errno
                  else u) l.

(** [udp_ctlinput] for the destination [sa]; [q] is the source address and the UDP header
    of the packet that the error quotes. *)
Definition udp_ctlinput (s : ust) (cmd sa : Z) (q : option (Z * udphdr)) : ust :=
  if negb (PRC_IS_REDIRECT cmd) && ((cmd <? 0) || (cmd >=? PRC_NCMDS) || (get inetctlerrmap (Z.to_nat cmd) =? 0)) then s
  else
    s <| us_pcbs := match q with
                    | Some (src, uh) => in_pcbnotify (us_pcbs s) sa (uh_dport uh) src (uh_sport uh) cmd
                    | None => in_pcbnotify (us_pcbs s) sa 0 0 0 cmd
                    end |>.

End Udp.
