(* ===== verification/UdpOk.v ===== *)
(** Correctness of UDP: what udp_output sends, what udp_input makes of it, and the two
    joined by IP. *)
From S2P Require Import Prelude Mbuf Cksum SockBuf Socket TcpVar Sample InPcb TcpHdr IpHdr IpReass IpOutput IpInput IpFragOk IpInputOk IpForwardOk Udp.
Import Mbuf Cksum SockBuf Socket TcpVar Sample InPcb TcpHdr IpHdr IpReass IpOutput IpInput IpFragOk IpInputOk IpForwardOk Udp.

Module UdpOk.

(** ** Headers *)

Record uh_wf (u : udphdr) : Prop := {
  uw_sport : 0 <= uh_sport u < 65536;
  uw_dport : 0 <= uh_dport u < 65536;
  uw_ulen : 0 <= uh_ulen u < 65536;
  uw_sum : 0 <= uh_sum u < 65536
}.

Definition with_sum (u : udphdr) (v : Z) : udphdr := mkUdphdr (uh_sport u) (uh_dport u) (uh_ulen u) v.

Lemma encode_uh_len u : zlen (encode_uh u) = 8.
Proof. done. Qed.

Lemma encode_uh_bytes u : Forall is_byte (encode_uh u).
Proof. unfold encode_uh, be16, le16. repeat constructor; apply Z.mod_pos_bound; lia. Qed.

Lemma encode_ui_bytes src dst u : Forall is_byte (encode_ui src dst u).
Proof.
  unfold encode_ui. rewrite !Forall_app. split_and!; try apply encode_uh_bytes; unfold be16, be32, IPPROTO_UDP;
    repeat constructor; try lia; apply Z.mod_pos_bound; lia.
Qed.

(** The UDP header follows 20 bytes. *)
Lemma decode_encode_uh u a rest : uh_wf u -> zlen a = 20 -> decode_uh (a ++ encode_uh u ++ rest) = u.
Proof.
  intros [] Ha. assert (E : exists x0 x1 x2 x3 x4 x5 x6 x7 x8 x9 x10 x11 x12 x13 x14 x15 x16 x17 x18 x19,
    a = [x0; x1; x2; x3; x4; x5; x6; x7; x8; x9; x10; x11; x12; x13; x14; x15; x16; x17; x18; x19]).
  { unfold zlen in Ha. do 20 (destruct a as [|? a]; [simpl in Ha; lia|]). destruct a; [|simpl in Ha; lia].
    by do 20 eexists. }
  destruct E as (? & ? & ? & ? & ? & ? & ? & ? & ? & ? & ? & ? & ? & ? & ? & ? & ? & ? & ? & ? & ->).
  destruct u as [sp dp ul sm]. cbn [uh_sport uh_dport uh_ulen uh_sum] in *.
  unfold decode_uh, encode_uh, rd16, get, be16, le16. cbn [app nth Nat.add uh_sport uh_dport uh_ulen uh_sum].
  f_equal; try (by apply rd16_be). Z.to_euclidean_division_equations. lia.
Qed.

(** The front of the extended header, before the sum. *)
Definition ui_front (src dst : Z) (u : udphdr) : list Z :=
  repeat 0 9 ++ [IPPROTO_UDP] ++ be16 (uh_ulen u) ++ be32 src ++ be32 dst ++ be16 (uh_sport u) ++ be16 (uh_dport u) ++ be16 (uh_ulen u).

Lemma encode_ui_split src dst u : encode_ui src dst u = ui_front src dst u ++ le16 (uh_sum u).
Proof. done. Qed.

Lemma ui_front_bytes src dst u : Forall is_byte (ui_front src dst u).
Proof. pose proof (encode_ui_bytes src dst u) as H. rewrite encode_ui_split, Forall_app in H. tauto. Qed.

(** The checksum of udp_output: zero is sent as its complement, and both verify. *)
Definition udp_sum (src dst : Z) (u : udphdr) (data : list Z) : Z :=
  let c := cksum_ref (encode_ui src dst (with_sum u 0) ++ data) in if c =? 0 then 65535 else c.

Lemma cksum_ones P Q :
  Forall is_byte P -> Forall is_byte Q -> Z.odd (zlen P) = false ->
  cksum_ref (P ++ [0; 0] ++ Q) = 0 -> cksum_ref (P ++ [255; 255] ++ Q) = 0.
Proof.
  intros HP HQ Ho. pose proof (ws_nonneg false P HP). pose proof (ws_nonneg false Q HQ).
  assert (E : forall a b, ws false (P ++ [a; b] ++ Q) = ws false P + (a + 256 * b) + ws false Q).
  { intros a b. rewrite ws_app, Ho. simpl. lia. }
  unfold cksum_ref. rewrite !E. replace (255 + 256 * 255) with 65535 by lia. unfold oc_norm. repeat case_match;
    Z.to_euclidean_division_equations; lia.
Qed.

Lemma udp_sum_ok src dst u data :
  Forall is_byte data ->
  0 < udp_sum src dst u data < 65536 /\ cksum_ref (encode_ui src dst (with_sum u (udp_sum src dst u data)) ++ data) = 0.
Proof.
  intros Hd. unfold udp_sum. rewrite !encode_ui_split. cbn [with_sum uh_sum].
  assert (Ef : forall v, ui_front src dst (with_sum u v) = ui_front src dst u) by done. rewrite !Ef, <- !app_assoc.
  change (le16 0) with [0; 0]. pose proof (cksum_ref_range (ui_front src dst u ++ [0; 0] ++ data)) as Hr.
  pose proof (cksum_ref_verifies (ui_front src dst u) data (ui_front_bytes _ _ _) Hd eq_refl) as Hv.
  pose proof (cksum_ones (ui_front src dst u) data (ui_front_bytes _ _ _) Hd eq_refl) as Hz.
  cbv zeta in Hv. set (c := cksum_ref (ui_front src dst u ++ [0; 0] ++ data)) in *.
  destruct (Z.eqb_spec c 0) as [E|E].
  - split; [lia|]. apply Hz, E.
  - split; [lia|]. unfold le16. replace ((c / 256) mod 256) with (c / 256) by (Z.to_euclidean_division_equations; lia). exact Hv.
Qed.

(** ** Input *)

(** A datagram with data [data] as IP passes it up. *)
Record udp_arrival (h : ip) (uh : udphdr) (data : list Z) (c : chain) : Prop := {
  ar_whole : whole h (encode_uh uh ++ data) c;
  ar_wf : ip_wf h;
  ar_hl : hlen_of h = 20;
  ar_len : ip_len h = 8 + zlen data;
  ar_p : ip_p h = IPPROTO_UDP;
  ar_uh : uh_wf uh;
  ar_ulen : uh_ulen uh = 8 + zlen data;
  ar_data : Forall is_byte data;
  ar_sum : uh_sum uh = 0 \/ cksum_ref (encode_ui (ip_src h) (ip_dst h) uh ++ data) = 0
}.

(** A packet after udp_input has looked at its headers: 28 bytes of them, then the data. *)
Record headed_dgram (data : list Z) (m1 : mbuf) (ms : chain) : Prop := {
  hg_head : 28 <= m_len m1;
  hg_data : zdrop 28 (chain_bytes (m1 :: ms)) = data;
  hg_wf : Forall m_wf (m1 :: ms);
  hg_pkt : hasf (m_flags m1) M_PKTHDR = true;
  hg_len : m_pktlen m1 = 28 + zlen data
}.

Lemma no_opts h : ip_wf h -> hlen_of h = 20 -> ip_opts h = [].
Proof. intros Hw Hh. apply zlen_0. rewrite (iw_opts _ Hw), Hh. done. Qed.

Lemma host_ip_20 h : ip_wf h -> hlen_of h = 20 -> zlen (host_ip h) = 20.
Proof. intros Hw Hh. by rewrite host_ip_hlen. Qed.

(** The pseudo header over the IP header. *)
Lemma overlay_host h uh r :
  ip_wf h -> hlen_of h = 20 -> ip_p h = IPPROTO_UDP ->
  overlay (uh_ulen uh) (host_ip h ++ encode_uh uh ++ r) = encode_ui (ip_src h) (ip_dst h) uh ++ r.
Proof.
  intros Hw Hh Hp. unfold host_ip, ip_rest. rewrite (no_opts h Hw Hh), app_nil_r. unfold encode_ui. rewrite <- Hp, <- !app_assoc. reflexivity.
Qed.

(** The first 28 bytes are in the first mbuf. *)
Lemma first_28 m1 ms x rest : chain_bytes (m1 :: ms) = x ++ rest -> zlen x = 28 -> 28 <= m_len m1 ->
  m_bytes m1 = x ++ zdrop 28 (m_bytes m1).
Proof.
  intros Hb Hx Hl. rewrite chain_bytes_cons in Hb. unfold m_len in Hl. rewrite <- (ztake_zdrop 28 (m_bytes m1)) at 1. f_equal.
  apply (f_equal (ztake 28)) in Hb. rewrite !ztake_app_le in Hb by lia. by rewrite Hb, ztake_ge by lia.
Qed.

(** A change of the first 28 bytes of the first mbuf. *)
Lemma map_first_ok f m1 ms x y rest :
  chain_bytes (m1 :: ms) = x ++ rest -> zlen x = 28 -> zlen y = 28 -> 28 <= m_len m1 ->
  (forall r, f (x ++ r) = y ++ r) ->
  exists m1', map_first f (m1 :: ms) = m1' :: ms /\ chain_bytes (m1' :: ms) = y ++ rest /\ m_len m1' = m_len m1 /\
    m_off m1' = m_off m1 /\ m_flags m1' = m_flags m1 /\ m_pktlen m1' = m_pktlen m1 /\ ext_size m1' = ext_size m1 /\ m_rcvif m1' = m_rcvif m1.
Proof.
  intros Hb Hx Hy Hl Hf. pose proof (first_28 _ _ _ _ Hb Hx Hl) as E. rewrite chain_bytes_cons in Hb.
  cbn [map_first]. eexists. split; [reflexivity|]. rewrite chain_bytes_cons. unfold m_len. rec_simpl. rewrite E, Hf.
  rewrite E in Hb. rewrite <- app_assoc in Hb. apply app_inj_1 in Hb as [_ Hb]; [|done].
  split_and!; try done; [by rewrite <- app_assoc, Hb|]. rewrite !zlen_app. lia.
Qed.

Lemma m_wf_same m m' :
  m_wf m -> m_len m' = m_len m -> m_off m' = m_off m -> m_flags m' = m_flags m -> ext_size m' = ext_size m -> m_wf m'.
Proof. unfold m_wf. intros H -> -> -> ->. exact H. Qed.

Lemma zero_sum_ok src dst uh r : zero_sum (encode_ui src dst uh ++ r) = encode_ui src dst (with_sum uh 0) ++ r.
Proof.
  unfold zero_sum. rewrite !encode_ui_split, <- !app_assoc. assert (Ef : zlen (ui_front src dst uh) = 26) by done.
  assert (El : forall v, zlen (le16 v) = 2) by done. rewrite ztake_app_le, ztake_ge by lia. f_equal.
  rewrite !zlen_app, El, Ef. pose proof (zlen_nonneg r). rewrite ztake_ge by (rewrite !zlen_cons, zlen_nil; lia). f_equal.
Qed.

(** The first part of udp_input accepts the datagram. *)
Lemma udp_check_ok e p h uh data c :
  udp_arrival h uh data c -> mp_fail p = [] -> 0 <= ie_max_protohdr e < 2147483648 ->
  exists m1 ms p', udp_check e p h c 20 = Ret (p', Some (h, uh, m1 :: ms)) /\ mp_fail p' = [] /\ headed_dgram data m1 ms.
Proof.
  intros [Hwh Hw Hh Hlen Hp Huh Hul Hd Hs] Hf Hmp. destruct Hwh as (Hcb & Hwf & n1 & ns & -> & Hn1 & Hpk & Hpl).
  pose proof (host_ip_20 h Hw Hh) as H20. pose proof (zlen_nonneg data) as Hdn. pose proof (iw_len _ Hw) as Hil.
  assert (Hcl : chain_len (n1 :: ns) = 28 + zlen data) by (unfold chain_len; rewrite Hcb, !zlen_app, encode_uh_len; lia).
  unfold udp_check. change (20 >? sizeof_ip) with false. cbv iota.
  assert (Hpull : exists m1 ms p', pull_ip e p (n1 :: ns) sizeof_udpiphdr = Ret (Some (m1 :: ms), p') /\ mp_fail p' = [] /\
    chain_bytes (m1 :: ms) = host_ip h ++ encode_uh uh ++ data /\ 28 <= m_len m1 /\ Forall m_wf (m1 :: ms) /\
    hasf (m_flags m1) M_PKTHDR = true /\ m_pktlen m1 = 28 + zlen data).
  { cbn [pull_ip]. unfold sizeof_udpiphdr. destruct (Z.ltb_spec (m_len n1) 28).
    - destruct (m_pullup_pkt p (ie_max_protohdr e) n1 ns 28) as (m' & n' & p' & E & A1 & A2 & A3 & A4 & _ & A6 & _ & A8); try done.
      { by right. } { lia. }
      exists m', n', p'. split_and!; try done; [by rewrite A2|congruence].
    - exists n1, ns, p. split_and!; try done. congruence. }
  destruct Hpull as (m1 & ms & p' & -> & Hf' & Hb & Hm1 & Hw1 & Hk & Hl1). cbn [obind].
  assert (Hx : zlen (host_ip h ++ encode_uh uh) = 28) by (rewrite zlen_app, encode_uh_len; lia).
  rewrite app_assoc in Hb. pose proof (first_28 _ _ _ _ Hb Hx Hm1) as E1.
  assert (Hdec : decode_uh (m_bytes m1) = uh) by (rewrite E1, <- app_assoc; by apply decode_encode_uh).
  rewrite Hdec, Hlen, Hul, Z.eqb_refl. cbn [negb]. unfold udp_cksum.
  assert (Hy : forall v, zlen (encode_ui (ip_src h) (ip_dst h) (with_sum uh v)) = 28) by done.
  destruct (Z.eqb_spec (uh_sum uh) 0) as [E0|E0]; cbn [negb].
  { exists m1, ms, p'. split_and!; try done. split; try done. rewrite Hb, zdrop_app_ge by lia. by rewrite Hx, zdrop_le0. }
  destruct Hs as [?|Hs]; [done|].
  destruct (map_first_ok (overlay (uh_ulen uh)) m1 ms _ (encode_ui (ip_src h) (ip_dst h) uh) data Hb Hx) as (m2 & -> & B2 & L2 & O2 & F2 & P2 & X2 & _); [done|done| |].
  { intros r. rewrite <- app_assoc. by apply overlay_host. }
  rewrite in_cksum_spec; [|rewrite B2; apply Forall_app; split; [apply encode_ui_bytes|done]|unfold sizeof_ip; lia].
  rewrite B2, ztake_ge, Hs by (rewrite zlen_app; change (zlen (encode_ui (ip_src h) (ip_dst h) uh)) with 28; unfold sizeof_ip; lia).
  cbn [Z.eqb negb].
  destruct (map_first_ok zero_sum m2 ms _ (encode_ui (ip_src h) (ip_dst h) (with_sum uh 0)) data B2 eq_refl) as (m3 & -> & B3 & L3 & O3 & F3 & P3 & X3 & _); [done|lia|apply zero_sum_ok|].
  exists m3, ms, p'. split_and!; try done. apply Forall_cons_iff in Hw1 as [Hwm Hwms]. split.
  - rewrite L3, L2. done.
  - by rewrite B3.
  - constructor; [|done]. apply (m_wf_same m1); congruence.
  - congruence.
  - congruence.
Qed.

(** ** Delivery *)

(** No two control blocks have the four addresses of the datagram. *)
Definition unique_dgram (l : list udpcb) (h : ip) (uh : udphdr) : Prop :=
  forall u v, u ∈ l -> v ∈ l -> udp_exact (u_inp u) h uh = true -> udp_exact (u_inp v) h uh = true -> u = v.

(** The one-entry cache is transparent. *)
Lemma udp_findpcb_ok s h uh :
  ip_src h <> 0 -> unique_dgram (us_pcbs s) h uh ->
  exists last, udp_findpcb s h uh =
    Ret (s <| us_last := last |>, in_pcblookup u_inp (us_pcbs s) (ip_src h) (uh_sport uh) (ip_dst h) (uh_dport uh) true).
Proof.
  intros Hs Hu. unfold udp_findpcb.
  assert (Hself : s = s <| us_last := us_last s |>) by (by destruct s).
  assert (Hlook : exists last,
    match in_pcblookup u_inp (us_pcbs s) (ip_src h) (uh_sport uh) (ip_dst h) (uh_dport uh) true with
    | Some u => Ret (s <| us_last := u_id u |>, Some u)
    | None => Ret (s, None)
    end = Ret (s <| us_last := last |>, in_pcblookup u_inp (us_pcbs s) (ip_src h) (uh_sport uh) (ip_dst h) (uh_dport uh) true)).
  { destruct (in_pcblookup _ _ _ _ _ _ _); [by eexists|]. exists (us_last s). by rewrite <- Hself. }
  destruct (find_u (us_last s) (us_pcbs s)) as [u|] eqn:Ef.
  - destruct (udp_exact (u_inp u) h uh) eqn:Ex; [|done].
    apply List.find_some in Ef as [Hin%list_elem_of_In _]. exists (us_last s). rewrite <- Hself.
    rewrite (lookup_exact4 u_inp (us_pcbs s) u (ip_src h) (uh_sport uh) (ip_dst h) (uh_dport uh) true Hs Hin Ex); [done|].
    intros y Hy Ey. by apply Hu.
  - assert (Ex : udp_exact (head_inp s) h uh = false).
    { unfold udp_exact, head_inp. cbn [inp_lport inp_fport inp_faddr inp_laddr]. destruct (Z.eqb_spec 0 (ip_src h)); [congruence|].
      by rewrite andb_false_r. }
    rewrite Ex. done.
Qed.

(** The control message that goes with a datagram. *)
Definition ctl_bytes (u : udpcb) (dst : Z) : list Z :=
  if hasf (u_flags u) INP_CONTROLOPTS && hasf (u_flags u) INP_RECVDSTADDR
  then le32 16 ++ le32 0 ++ le32 IP_RECVDSTADDR ++ be32 dst else [].

(** The receiving side is ready for the datagram, and control block [u] is to get it. *)
Record udp_ready (e : inenv) (s : ust) (h : ip) (uh : udphdr) (u : udpcb) (n : Z) : Prop := {
  ur_pool : mp_fail (us_pool s) = [];
  ur_mph : 0 <= ie_max_protohdr e < 2147483648;
  ur_mcast : in_multicast (ip_dst h) = false;
  ur_bcast : forall rcvif, in_broadcast (ie_out e) (ip_dst h) rcvif = false;
  ur_src : ip_src h <> 0;
  ur_unique : unique_dgram (us_pcbs s) h uh;
  ur_pcb : in_pcblookup u_inp (us_pcbs s) (ip_src h) (uh_sport uh) (ip_dst h) (uh_dport uh) true = Some u;
  ur_id : find_u (u_id u) (us_pcbs s) = Some u;
  ur_space : 16 + n + zlen (ctl_bytes u (ip_dst h)) <= sbspace (so_rcv (u_so u))
}.

(** The datagram is queued on the socket of [u], and nothing else changes there. *)
Definition queued_on (s s' : ust) (u : udpcb) (asa ctl data : list Z) : Prop :=
  exists sb a o m,
    us_pcbs s' = upd_u (u_id u) (fun v => v <| u_so := sorwakeup ((u_so v) <| so_rcv := sb |>) |>) (us_pcbs s) /\
    sb_mb sb = sb_mb (so_rcv (u_so u)) ++ [a :: o ++ m] /\
    m_bytes a = asa /\ chain_bytes o = ctl /\ chain_bytes m = data /\ Forall m_wf m /\
    ii_icmp (us_ip s') = ii_icmp (us_ip s) /\ ii_out (us_ip s') = (ii_out (us_ip s)) <| io_pool := us_pool s' |>.

Lemma skip_ok data m1 ms :
  headed_dgram data m1 ms ->
  exists m', skip_hdr sizeof_udpiphdr (m1 :: ms) = Ret m' /\ chain_bytes (cut_pktlen 28 m') = data /\ Forall m_wf (cut_pktlen 28 m') /\
    exists m2 ms2, cut_pktlen 28 m' = m2 :: ms2 /\ hasf (m_flags m2) M_PKTHDR = true /\ m_pktlen m2 = zlen data.
Proof.
  intros [Hh Hd Hw Hk Hl]. cbn [skip_hdr]. unfold sizeof_udpiphdr. destruct (Z.ltb_spec (m_len m1) 28); [lia|].
  eexists. split; [reflexivity|]. cbn [cut_pktlen]. rec_simpl. apply Forall_cons_iff in Hw as [Hw1 Hw].
  pose proof (drop_wf m1 28 Hw1 ltac:(lia)) as Hw2.
  split_and!.
  - rewrite chain_bytes_cons. rec_simpl. rewrite <- Hd, (chain_bytes_cons m1). by rewrite zdrop_app_le.
  - constructor; [exact Hw2|done].
  - eexists _, _. split; [reflexivity|]. rec_simpl. split; [done|lia].
Qed.

Lemma sbappendaddr_ok p sb asa m1 ms o :
  mp_fail p = [] -> hasf (m_flags m1) M_PKTHDR = true -> zlen asa <= MLEN ->
  zlen asa + m_pktlen m1 + chain_len o <= sbspace sb ->
  exists sb' a, sbappendaddr p sb asa (m1 :: ms) o = Ret (Some sb', p) /\ m_bytes a = asa /\
    sb_mb sb' = sb_mb sb ++ [a :: o ++ m1 :: ms].
Proof.
  intros Hf Hk Hl Hs. unfold sbappendaddr. rewrite Hk. cbn [obind].
  destruct (Z.gtb_spec (zlen asa + m_pktlen m1 + chain_len o) (sbspace sb)); [lia|].
  destruct (Z.gtb_spec (zlen asa) MLEN); [lia|]. rewrite (m_get_nofail _ _ Hf).
  eexists _, (_ <| m_bytes := asa |>). split; [reflexivity|]. split; [done|]. rec_simpl. f_equal.
  match goal with |- sb_mb (fold_left _ ?l _) = _ => generalize l end. intros l. clear. revert sb.
  induction l as [|m l IH]; intros sb; simpl; [done|]. by rewrite IH.
Qed.

(** udp_input queues the datagram on the right socket. *)
Lemma udp_input_ok e s h uh data c u :
  udp_arrival h uh data c -> udp_ready e s h uh u (zlen data) ->
  exists s', udp_input e s h c 20 = Ret s' /\
    queued_on s s' u (sockaddr_in (ip_src h) (uh_sport uh)) (ctl_bytes u (ip_dst h)) data.
Proof.
  intros Ha [Rp Rm Rmc Rb Rs Ru Rl Ri Rsp]. unfold udp_input.
  destruct (udp_check_ok e (us_pool s) h uh data c Ha Rp Rm) as (m1 & ms & p1 & -> & Hf1 & Hg). cbn [obind]. rewrite Rmc, Rb. cbn [orb].
  unfold udp_ucast. destruct (udp_findpcb_ok (set_pool p1 s) h uh Rs Ru) as (last & ->). cbn [obind].
  change (us_pcbs (set_pool p1 s)) with (us_pcbs s). rewrite Rl.
  destruct (skip_ok _ _ _ Hg) as (m' & Esk & Hcb & Hwf & m2 & ms2 & Em & Hk & Hpl). rewrite Esk. cbn [obind].
  change (cut_pktlen sizeof_udpiphdr m') with (cut_pktlen 28 m'). rewrite Em in *.
  set (s1 := (set_pool p1 s) <| us_last := last |>).
  assert (Hp1 : us_pool s1 = p1) by done.
  set (op := if hasf (u_flags u) INP_CONTROLOPTS && _ then _ else _).
  assert (Hop : exists o, op = (o, p1) /\ chain_bytes o = ctl_bytes u (ip_dst h)).
  { unfold op, ctl_bytes. destruct (_ && _); [|by exists []]. unfold udp_saveopt. rewrite Hp1, (m_get_nofail _ _ Hf1).
    eexists [_]. split; [reflexivity|]. rewrite chain_bytes_one. by rec_simpl. }
  destruct Hop as (o & -> & Ho).
  destruct (sbappendaddr_ok p1 (so_rcv (u_so u)) (sockaddr_in (ip_src h) (uh_sport uh)) m2 ms2 o Hf1 Hk) as (sb & a & Esb & Hba & Hmb).
  { vm_compute. congruence. } { unfold chain_len. rewrite Ho, Hpl. exact Rsp. }
  unfold deliver_to. change (us_pcbs s1) with (us_pcbs s). rewrite Ri, Esb. cbn [obind].
  eexists. split; [reflexivity|]. exists sb, a, o, (m2 :: ms2). split_and!; try done.
Qed.

(** ** A datagram in one packet *)

(** ipintr passes up a packet for this host that is not a fragment. *)
Lemma input_whole e s hd pay h b c :
  receiver_ok e hd pay -> frame_of hd pay h 0 (zlen pay) b -> received 20 b c ->
  exists s' m, ip_input1 e s c = Ret s' /\ ii_up s' = (h <| ip_sum := 0 |> <| ip_len := zlen pay |>, m, 20) :: ii_up s /\
    whole (h <| ip_sum := 0 |> <| ip_len := zlen pay |>) pay m /\ ii_out s' = ii_out s.
Proof.
  intros [Kw Khl Kl Kb Ko Ka Km] Hf Hc. pose proof Hf as [[Hw Hv Hlen Hoff _ Hk Hhl _] Hb _].
  assert (Hh20 : hlen_of h = 20) by (pose proof (hlen_eq h); pose proof (iw_hl _ Hw); lia).
  unfold ip_input1. rewrite bool_decide_eq_false_2 by (by destruct (ie_ifaddr e)).
  rewrite <- Hh20 in Hc. destruct (ip_check_wire e (ii_pool s) h (zsub 0 (zlen pay) pay) b c (frame_wire _ _ _ _ _ _ Hf Kb) Hc)
    as (m1 & ms & -> & Hcb & Hwf & Hm1 & Hpk & _ & Hpl).
  cbn [obind]. change (hlen_of (h <| ip_sum := 0 |>)) with (hlen_of h). rewrite Hh20 in *. change (20 >? sizeof_ip) with false. cbn [obind].
  change (ip_dst (h <| ip_sum := 0 |>)) with (ip_dst h). assert (Hdst : ip_dst h = ip_dst hd) by apply Hk. rewrite Hdst, Ko.
  unfold ip_local. change (ip_off (h <| ip_sum := 0 |>)) with (ip_off h). change (ip_len (h <| ip_sum := 0 |>)) with (ip_len h).
  rewrite Hoff, Z.ltb_irrefl, Hlen. change (clrb (ipoff (0 / 8) false) IP_DF =? 0) with true. cbn [negb].
  replace (20 + zlen pay - 20) with (zlen pay) by lia. rewrite (s16_id (zlen pay)) by lia. set (h' := _ <| ip_len := zlen pay |>).
  assert (Hw' : ip_wf h').
  { destruct Hw. split; unfold hlen_of in *; unfold h'; rec_simpl; done || lia. }
  assert (Hz : zlen (host_ip h') = 20) by (by apply host_ip_20).
  eexists _, _. split; [reflexivity|]. split; [reflexivity|]. cbn [put_host]. rewrite Hz. split; [|by destruct s as [[] ? ? ? ? ?]].
  assert (Hml : m_len (m1 <| m_bytes := host_ip h' ++ zdrop 20 (m_bytes m1) |>) = m_len m1).
  { unfold m_len in *. rec_simpl. rewrite zlen_app, zlen_zdrop. lia. }
  assert (Hcb' : chain_bytes (m1 <| m_bytes := host_ip h' ++ zdrop 20 (m_bytes m1) |> :: ms) = host_ip h' ++ pay).
  { rewrite chain_bytes_cons. rec_simpl. rewrite <- app_assoc. f_equal. rewrite <- zdrop_app_le by (unfold m_len in Hm1; lia).
    rewrite <- chain_bytes_cons, Hcb, Hb, zdrop_app_ge by (rewrite encode_ip_hlen by done; lia).
    rewrite encode_ip_hlen, Hh20 by done. unfold zsub. by rewrite !zdrop_le0, ztake_ge. }
  split; [exact Hcb'|]. split.
  - apply Forall_cons_iff in Hwf as [Hw1 Hwf]. constructor; [|done]. by apply (m_wf_same m1).
  - eexists _, _. split; [reflexivity|]. change (hlen_of h') with (hlen_of h). rewrite Hml, Hh20. split_and!; try done.
    unfold chain_len. rewrite Hcb', zlen_app, Hz. rec_simpl. rewrite Hpl, Hb, zlen_app, encode_ip_hlen, zlen_zsub by (done || lia). lia.
Qed.

(** ** Output *)

Lemma M_PREPEND_ok p m1 ms junk :
  mp_fail p = [] -> exists m2 ms2 p', M_PREPEND p m1 ms junk = (Some (m2 :: ms2), p') /\ mp_fail p' = [] /\
    chain_bytes (m2 :: ms2) = junk ++ chain_bytes (m1 :: ms) /\ zlen junk <= m_len m2.
Proof.
  intros Hf. unfold M_PREPEND.
  assert (Hs : forall f n1 ns, exists n2, set_pktlen f (n1 :: ns) = n2 :: ns /\ m_bytes n2 = m_bytes n1).
  { intros f n1 ns. simpl. eexists. split; [reflexivity|]. by case_match. }
  destruct (_ >=? zlen junk).
  - cbn [fmap option_fmap option_map]. match goal with |- context [set_pktlen ?f (?x :: ms)] => destruct (Hs f x ms) as (n2 & -> & Hb) end.
    exists n2, ms, p. rewrite !chain_bytes_cons. unfold m_len. rewrite Hb. rec_simpl. rewrite zlen_app, app_assoc.
    pose proof (zlen_nonneg (m_bytes m1)). split_and!; try done. lia.
  - unfold m_prepend. rewrite (m_get_nofail _ _ Hf).
    assert (Hb : forall m : mbuf, chain_bytes (m :: ms) = m_bytes m ++ chain_bytes ms) by (intros; apply chain_bytes_cons).
    destruct (hasf (m_flags m1) M_PKTHDR); cbn [fmap option_fmap option_map];
      match goal with |- context [set_pktlen ?f (?x :: ?l)] => destruct (Hs f x l) as (n2 & -> & Hb2) end;
      eexists _, _, _; (split; [reflexivity|]); rewrite !chain_bytes_cons; unfold m_len; rewrite Hb2; rec_simpl; split_and!; done.
Qed.

(** The UDP header that udp_output writes. *)
Definition sent_uh (ck : bool) (i : inpcb) (data : list Z) : udphdr :=
  let u := mkUdphdr (inp_lport i) (inp_fport i) (8 + zlen data) 0 in
  if ck then with_sum u (udp_sum (inp_laddr i) (inp_faddr i) u data) else u.

(** The addresses of a connected control block. *)
Record pcb_wf (i : inpcb) : Prop := {
  pw_faddr : 0 < inp_faddr i < 4294967296;
  pw_laddr : 0 < inp_laddr i < 4294967296;
  pw_fport : 0 <= inp_fport i < 65536;
  pw_lport : 0 <= inp_lport i < 65536;
  pw_ttl : 0 <= inp_ttl i < 256;
  pw_tos : 0 <= inp_tos i < 256
}.

Lemma sent_uh_ok ck i data :
  pcb_wf i -> Forall is_byte data -> zlen data < 32740 ->
  uh_wf (sent_uh ck i data) /\ uh_ulen (sent_uh ck i data) = 8 + zlen data /\ uh_sport (sent_uh ck i data) = inp_lport i /\
  uh_dport (sent_uh ck i data) = inp_fport i /\
  (uh_sum (sent_uh ck i data) = 0 \/ cksum_ref (encode_ui (inp_laddr i) (inp_faddr i) (sent_uh ck i data) ++ data) = 0).
Proof.
  intros [] Hd Hl. pose proof (zlen_nonneg data). unfold sent_uh.
  set (u := mkUdphdr (inp_lport i) (inp_fport i) (8 + zlen data) 0).
  destruct (udp_sum_ok (inp_laddr i) (inp_faddr i) u data Hd) as [Hs Hc].
  destruct ck; (split; [split; cbn; lia|]); split_and!; try done; [by right|by left].
Qed.

(** The packet before ip_output. *)
Lemma udp_packet_ok ck i m1 ms data junk :
  chain_bytes (m1 :: ms) = junk ++ data -> zlen junk = 28 -> 28 <= m_len m1 -> Forall is_byte data -> zlen data < 32740 ->
  exists m1' sum, udp_packet i (m1 :: ms) (zlen data) ck =
      (mkIp 0 0 (inp_tos i) (28 + zlen data) 0 0 (inp_ttl i) IPPROTO_UDP sum (inp_laddr i) (inp_faddr i) [], m1' :: ms) /\
    chain_bytes (m1' :: ms) = encode_ui (inp_laddr i) (inp_faddr i) (sent_uh ck i data) ++ data /\ 28 <= m_len m1' /\ 0 <= sum < 65536.
Proof.
  intros Hb Hj Hm Hd Hl. pose proof (zlen_nonneg data). unfold udp_packet.
  assert (Eu : u16 (u16 (zlen data) + sizeof_udphdr) = 8 + zlen data) by (unfold sizeof_udphdr; wrap_lia).
  rewrite Eu. cbn [uh_sport uh_dport uh_ulen]. unfold sizeof_udpiphdr. rewrite (s16_id (28 + zlen data)) by lia.
  pose (u := mkUdphdr (inp_lport i) (inp_fport i) (8 + zlen data) 0).
  assert (Hput : forall v, exists m', map_first (fun b => encode_ui (inp_laddr i) (inp_faddr i)
      (mkUdphdr (inp_lport i) (inp_fport i) (8 + zlen data) v) ++ zdrop 28 b) (m1 :: ms) = m' :: ms /\
    chain_bytes (m' :: ms) = encode_ui (inp_laddr i) (inp_faddr i) (with_sum u v) ++ data /\ m_len m' = m_len m1).
  { intros v. set (y := encode_ui (inp_laddr i) (inp_faddr i) (mkUdphdr (inp_lport i) (inp_fport i) (8 + zlen data) v)).
    destruct (map_first_ok (fun b => y ++ zdrop 28 b) m1 ms junk y data Hb Hj) as (m' & E & A1 & A2 & _); [done|done| |].
    { intros r. by rewrite zdrop_app_ge, Hj, zdrop_le0 by lia. }
    exists m'. by split_and!. }
  assert (Hck : forall m', chain_bytes (m' :: ms) = encode_ui (inp_laddr i) (inp_faddr i) (with_sum u 0) ++ data ->
    in_cksum (m' :: ms) (28 + zlen data) = cksum_ref (encode_ui (inp_laddr i) (inp_faddr i) (with_sum u 0) ++ data)).
  { intros m' E. rewrite in_cksum_spec; [|rewrite E; apply Forall_app; split; [apply encode_ui_bytes|done]|lia].
    rewrite E, ztake_ge; [done|]. rewrite zlen_app. change (zlen (encode_ui _ _ _)) with 28. lia. }
  destruct (Hput 0) as (m0 & E0 & B0 & _). rewrite E0, (Hck m0 B0).
  assert (Hsw : 0 <= swap16 (8 + zlen data) < 65536) by (unfold swap16; Z.to_euclidean_division_equations; lia).
  destruct ck.
  - destruct (Hput (udp_sum (inp_laddr i) (inp_faddr i) u data)) as (m' & E & B & L). unfold udp_sum in E at 1. rewrite E.
    eexists _, _. split; [reflexivity|]. split_and!; try done; try lia.
  - rewrite E0. eexists _, _. split; [reflexivity|]. destruct (Hput 0) as (m' & E & B & L). rewrite E0 in E. injection E as <-.
    split_and!; try done; try lia.
Qed.

(** The IP header of the datagram. *)
Definition sent_hdr (id : Z) (i : inpcb) (n : Z) : ip :=
  mkIp IPVERSION 5 (inp_tos i) (20 + n) id 0 (inp_ttl i) IPPROTO_UDP 0 (inp_laddr i) (inp_faddr i) [].

(** A connected socket with a route and a datagram to send. *)
Record udp_sender (e : inenv) (s : ust) (u : udpcb) (m : chain) (data : list Z) (rt : iprt) : Prop := {
  se_pcb : pcb_wf (u_inp u);
  se_m : exists m1 ms, m = m1 :: ms /\ chain_bytes m = data /\ m_pktlen m1 = zlen data;
  se_data : Forall is_byte data;
  se_len : zlen data < 32740;
  se_opt : u_opt u = None;
  se_uni : in_multicast (inp_faddr (u_inp u)) = false;
  se_route : hasf (so_options (u_so u)) SO_DONTROUTE = false;
  se_rt : rtalloc (ie_out e) (inp_faddr (u_inp u)) = Some rt;
  se_cache : forall r, ro_rt (u_ro u) = Some r -> ro_dst (u_ro u) = inp_faddr (u_inp u) -> hasf (rt_flags r) RTF_UP = true -> r = rt;
  se_hop : in_broadcast (ie_out e) (next_hop rt (inp_faddr (u_inp u))) (rt_ifp rt) = false;
  se_mtu : 28 <= if_mtu (ie_out e) (rt_ifp rt);
  se_pool : mp_fail (us_pool s) = [];
  se_err : io_err (ii_out (us_ip s)) = [];
  se_id : 0 <= io_id (ii_out (us_ip s)) < 65536
}.

(** The route of ip_output. *)
Lemma ip_route_ok e ro flags h rt :
  hasf flags IP_ROUTETOIF = false -> rtalloc e (ip_dst h) = Some rt ->
  (forall r, ro_rt ro = Some r -> ro_dst ro = ip_dst h -> hasf (rt_flags r) RTF_UP = true -> r = rt) ->
  ip_route e ro flags h = (mkRoute (Some rt) (ip_dst h), inr (rt_ifp rt, rt_ifa rt, next_hop rt (ip_dst h), h)).
Proof.
  intros Hf Hr Hc. unfold ip_route. rewrite Hf. destruct ro as [[r|] d]; cbn [ro_rt ro_dst] in *.
  - destruct (hasf (rt_flags r) RTF_UP) eqn:Eu, (Z.eqb_spec d (ip_dst h)) as [->|]; cbn [negb orb ro_rt ro_dst]; rewrite ?Hr; try done.
    by rewrite (Hc r).
  - by rewrite Hr.
Qed.

(** A packet that fits is one frame. *)
Lemma sendit_one e s ifp dst hd pay h m :
  packet_ok hd pay h m 0 (zlen pay) [] -> io_err s = [] -> ip_len h <= if_mtu e ifp ->
  exists s' c, sendit e s ifp dst h m (hlen_of h) = Ret (0, s') /\ io_out s' = (ifp, dst, c) :: io_out s /\
    frames hd pay (if_mtu e ifp) 0 (zlen pay) [chain_bytes c].
Proof.
  intros [Hpc Hd Hl Hb (m1 & ms & -> & Hm1) Ho Hmax] He Hmtu. pose proof (pc_wf _ _ _ _ _ Hpc) as Hw.
  pose proof (pc_len _ _ _ _ _ Hpc) as Hlen. pose proof (iw_len _ Hw). pose proof (hlen_eq h). pose proof (iw_hl _ Hw). zlen_pose.
  unfold sendit. rewrite u16_id by (pose proof (zlen_nonneg pay); lia). rewrite (proj2 (Z.leb_le _ _) Hmtu). unfold if_output. rewrite He.
  destruct (stamp_hdr_ok h m1 ms Hw Hm1 Hb) as (Eb & Hsw & Hck & _). destruct (summed_piece _ _ _ _ _ Hpc) as [Hsp Hsh].
  eexists _, _. split; [reflexivity|]. split; [reflexivity|]. cbn [frames]. exists (summed h), (zlen pay).
  assert (Hfr : frame_of hd pay (summed h) 0 (zlen pay) (chain_bytes (stamp h (m1 :: ms) (hlen_of h)))) by (split; [done|by rewrite Eb, Hd|done]).
  split_and!; try done. rewrite (frame_len _ _ _ _ _ _ Hfr), Hsh. lia.
Qed.

(** The options of a socket that ip_output takes as flags. *)
Lemma udp_flags o : hasf o SO_DONTROUTE = false ->
  hasf (Z.land o (Z.lor SO_DONTROUTE SO_BROADCAST)) (Z.lor IP_FORWARDING IP_RAWOUTPUT) = false /\
  hasf (Z.land o (Z.lor SO_DONTROUTE SO_BROADCAST)) IP_ROUTETOIF = false.
Proof.
  unfold hasf. intros H. rewrite <- !Z.land_assoc. change (Z.land (Z.lor SO_DONTROUTE SO_BROADCAST) (Z.lor IP_FORWARDING IP_RAWOUTPUT)) with 0.
  change (Z.land (Z.lor SO_DONTROUTE SO_BROADCAST) IP_ROUTETOIF) with SO_DONTROUTE. by rewrite Z.land_0_r.
Qed.

(** The packet that ip_output sends is the whole of the datagram. *)
Lemma udp_packet_whole i id sum m1 ms uh data :
  pcb_wf i -> 0 <= sum < 65536 -> 0 <= id < 65536 -> chain_bytes (m1 :: ms) = encode_ui (inp_laddr i) (inp_faddr i) uh ++ data ->
  28 <= m_len m1 -> Forall is_byte data -> zlen data < 32740 ->
  packet_ok (sent_hdr id i (8 + zlen data)) (encode_uh uh ++ data)
    (mkIp IPVERSION 5 (inp_tos i) (28 + zlen data) id 0 (inp_ttl i) IPPROTO_UDP sum (inp_laddr i) (inp_faddr i) [])
    (m1 :: ms) 0 (8 + zlen data) [].
Proof.
  intros [] Hsum Hid Hcb Hm1 Hd Hl. pose proof (zlen_nonneg data) as Hdn. set (h := mkIp _ _ _ _ _ _ _ _ _ _ _ _).
  assert (Hz : zlen (encode_uh uh ++ data) = 8 + zlen data) by (rewrite zlen_app, encode_uh_len; done).
  split.
  - rewrite Hz. split; try done.
    + split; unfold hlen_of; cbn; try lia; try done.
    + change (hlen_of h) with 20. cbn. lia.
    + cbn. rewrite Z.ltb_irrefl. done.
    + split_and!; try done; lia.
  - assert (E : zsub 0 (8 + zlen data) (encode_uh uh ++ data) = encode_uh uh ++ data).
    { unfold zsub. rewrite (zdrop_le0 0) by done. apply ztake_ge. lia. }
    rewrite E, Hcb. reflexivity.
  - unfold chain_len. rewrite Hcb, zlen_app. change (hlen_of h) with 20. change (zlen (encode_ui _ _ _)) with 28. lia.
  - rewrite Hcb. apply Forall_app. split; [apply encode_ui_bytes|done].
  - exists m1, ms. split; [done|]. change (hlen_of h) with 20. lia.
  - done.
  - lia.
Qed.

(** ip_output of a datagram to a host with a route: it is sent in frames that fit. *)
Lemma ip_output_frames e s ro flags imo rt i sum m1 ms uh data :
  pcb_wf i -> 0 <= sum < 65536 -> chain_bytes (m1 :: ms) = encode_ui (inp_laddr i) (inp_faddr i) uh ++ data -> 28 <= m_len m1 ->
  Forall is_byte data -> zlen data < 32740 -> in_multicast (inp_faddr i) = false ->
  hasf flags (Z.lor IP_FORWARDING IP_RAWOUTPUT) = false -> hasf flags IP_ROUTETOIF = false -> rtalloc e (inp_faddr i) = Some rt ->
  (forall r, ro_rt ro = Some r -> ro_dst ro = inp_faddr i -> hasf (rt_flags r) RTF_UP = true -> r = rt) ->
  in_broadcast e (next_hop rt (inp_faddr i)) (rt_ifp rt) = false -> 28 <= if_mtu e (rt_ifp rt) ->
  mp_fail (io_pool s) = [] -> io_err s = [] -> 0 <= io_id s < 65536 ->
  exists s' cs, ip_output e s (mkIp 0 0 (inp_tos i) (28 + zlen data) 0 0 (inp_ttl i) IPPROTO_UDP sum (inp_laddr i) (inp_faddr i) [])
      (m1 :: ms) None (Some ro) flags imo = Ret (0, s', mkRoute (Some rt) (inp_faddr i)) /\
    io_out s' = rev (map (fun c => (rt_ifp rt, next_hop rt (inp_faddr i), c)) cs) ++ io_out s /\
    frames (sent_hdr (io_id s) i (8 + zlen data)) (encode_uh uh ++ data) (if_mtu e (rt_ifp rt)) 0 (8 + zlen data) (chain_bytes <$> cs) /\
    (28 + zlen data <= if_mtu e (rt_ifp rt) -> length cs = 1%nat).
Proof.
  intros Hi Hsum Hcb Hm1 Hd Hl Hmc Hfl Hfr Hrt Hca Hbc Hmtu Hp He Hid. pose proof (zlen_nonneg data) as Hdn.
  set (h := mkIp IPVERSION 5 (inp_tos i) (28 + zlen data) (io_id s) 0 (inp_ttl i) IPPROTO_UDP sum (inp_laddr i) (inp_faddr i) []).
  assert (Efill : forall t, io_id t = io_id s -> fill_hdr t flags (mkIp 0 0 (inp_tos i) (28 + zlen data) 0 0 (inp_ttl i) IPPROTO_UDP sum
    (inp_laddr i) (inp_faddr i) []) sizeof_ip = (t <| io_id := u16 (io_id s + 1) |>, h, 20)).
  { intros t Et. unfold fill_hdr. rewrite Hfl, Et. reflexivity. }
  unfold ip_output. rewrite Efill by done.
  rewrite (ip_route_ok e ro flags h rt Hfr Hrt Hca). change (ip_dst h) with (inp_faddr i). rewrite Hmc. unfold output_ucast.
  rewrite Hbc. change (ip_src h) with (inp_laddr i). unfold INADDR_ANY.
  pose proof Hi as []. destruct (Z.eqb_spec (inp_laddr i) 0); [lia|]. cbn [set_mflags].
  set (s1 := s <| io_pool := _ |> <| io_id := _ |>). set (m1' := m1 <| m_flags := _ |>).
  assert (Hs1 : io_err s1 = [] /\ io_out s1 = io_out s /\ mp_fail (io_pool s1) = []) by (by split_and!). destruct Hs1 as (E1 & E2 & E3).
  assert (Hz : zlen (encode_uh uh ++ data) = 8 + zlen data) by (rewrite zlen_app, encode_uh_len; done).
  pose proof (udp_packet_whole i (io_id s) sum m1' ms uh data Hi Hsum Hid Hcb Hm1 Hd Hl) as Hpk. fold h in Hpk.
  change 20 with (hlen_of h). destruct (Z.le_gt_cases (28 + zlen data) (if_mtu e (rt_ifp rt))) as [Hle|Hgt].
  - rewrite <- Hz in Hpk. destruct (sendit_one e s1 (rt_ifp rt) (next_hop rt (inp_faddr i)) _ _ h (m1' :: ms) Hpk E1) as (s' & c & -> & Ho & Hf); [done|].
    cbn [obind]. exists s', [c]. rewrite Hz in Hf. rewrite Ho, E2. by split_and!.
  - destruct (sendit_frames e s1 (rt_ifp rt) (next_hop rt (inp_faddr i)) _ _ h (m1' :: ms) 0 _ [] Hpk E1) as (err & s' & -> & H0 & Hor); [cbn; lia|done|].
    specialize (H0 E3) as ->. destruct Hor as [[? _]|(_ & cs & Ho & Hf)]; [done|]. cbn [obind]. exists s', cs. rewrite Ho, E2.
    split_and!; try done. lia.
Qed.

Lemma us_free_nil s : us_free [] s = s.
Proof. by destruct s as [? ? ? ? ? [[] ? ? ? ? ?]]. Qed.

(** udp_output of a connected socket sends the datagram. *)
Lemma udp_output_ok e b ck s u m data rt :
  udp_sender e s u m data rt ->
  exists s' cs, udp_output e b ck s u m None [] = Ret (0, s') /\
    io_out (ii_out (us_ip s')) =
      rev (map (fun c => (rt_ifp rt, next_hop rt (inp_faddr (u_inp u)), c)) cs) ++ io_out (ii_out (us_ip s)) /\
    frames (sent_hdr (io_id (ii_out (us_ip s))) (u_inp u) (8 + zlen data)) (encode_uh (sent_uh ck (u_inp u) data) ++ data)
      (if_mtu (ie_out e) (rt_ifp rt)) 0 (8 + zlen data) (chain_bytes <$> cs) /\
    (28 + zlen data <= if_mtu (ie_out e) (rt_ifp rt) -> length cs = 1%nat).
Proof.
  intros [Sp (m1 & ms & -> & Sb & Sl) Sd Sn So Su Sr Srt Sc Sh Sm Spool Serr Sid]. unfold udp_output. rewrite us_free_nil.
  pose proof (pw_faddr _ Sp). unfold INADDR_ANY. destruct (Z.eqb_spec (inp_faddr (u_inp u)) 0); [lia|]. cbn [negb obind Z.eqb]. cbv iota.
  destruct (M_PREPEND_ok (us_pool s) m1 ms (repeat 0 (Z.to_nat sizeof_udpiphdr)) Spool) as (m2 & ms2 & p & -> & Hp & Hcb & Hm2).
  change (zlen (repeat 0 (Z.to_nat sizeof_udpiphdr))) with 28 in Hm2. rewrite Sb in Hcb. rewrite Sl.
  destruct (udp_packet_ok ck (u_inp u) m2 ms2 data _ Hcb eq_refl Hm2 Sd Sn) as (m3 & sum & -> & Hb3 & Hm3 & Hsum).
  destruct (udp_flags _ Sr) as [Hf1 Hf2]. rewrite So.
  destruct (ip_output_frames (ie_out e) (ii_out (us_ip (set_pool p s))) (u_ro u) _ (u_mopt u) rt (u_inp u) sum m3 ms2 _ data Sp Hsum Hb3 Hm3 Sd Sn Su
    Hf1 Hf2 Srt Sc Sh Sm Hp Serr Sid) as (o & cs & -> & Ho & Hfs & Hone).
  cbn [obind]. eexists _, cs. split; [reflexivity|]. by split_and!.
Qed.

(** ** From socket to socket *)

(** What IP passes up is a datagram for udp_input. *)
Lemma arrival_ok ck i data h c :
  pcb_wf i -> Forall is_byte data -> zlen data < 32740 -> ip_wf h -> hlen_of h = 20 -> ip_len h = 8 + zlen data ->
  ip_p h = IPPROTO_UDP -> ip_src h = inp_laddr i -> ip_dst h = inp_faddr i -> whole h (encode_uh (sent_uh ck i data) ++ data) c ->
  udp_arrival h (sent_uh ck i data) data c.
Proof.
  intros Hi Hd Hl Hw Hh Hlen Hp Hs Hdst Hc. destruct (sent_uh_ok ck i data Hi Hd Hl) as (U1 & U2 & _ & _ & U5).
  split; try done. by rewrite Hs, Hdst.
Qed.

(** The receiving host passes up one packet, when the last frame has come. *)
Lemma frames_up e s ck i id data mtu frs ys y :
  let pay := encode_uh (sent_uh ck i data) ++ data in
  let hd := sent_hdr id i (8 + zlen data) in
  pcb_wf i -> Forall is_byte data -> zlen data < 32740 -> frames hd pay mtu 0 (zlen pay) frs ->
  (28 + zlen data <= mtu -> length frs = 1%nat) ->
  receiver_ok e hd pay -> gathering hd pay s -> queue_of (hd_up hd (zlen pay)) (ii_q s) = [] ->
  Forall (fun y => y.1 ∈ frs /\ received 20 y.1 y.2) (ys ++ [y]) ->
  (exists b, b ∈ frs /\ b ∉ ys.*1) -> (forall b, b ∈ frs -> b ∈ (ys ++ [y]).*1) ->
  exists s0 s1 h c, ipintr e s ys.*2 = Ret s0 /\ ii_up s0 = ii_up s /\ ipintr e s (ys ++ [y]).*2 = Ret s1 /\
    ii_up s1 = (h, c, 20) :: ii_up s /\ ip_src h = inp_laddr i /\ ip_dst h = inp_faddr i /\ udp_arrival h (sent_uh ck i data) data c.
Proof.
  intros pay hd Hi Hd Hl Hfs Hone Hr Hg Hq Hys Hex Hall. pose proof (zlen_nonneg data) as Hdn.
  assert (Hz : zlen pay = 8 + zlen data) by (unfold pay; rewrite zlen_app, encode_uh_len; done).
  destruct (Z.le_gt_cases (28 + zlen data) mtu) as [Hle|Hgt].
  - destruct frs as [|f [|]]; try (by specialize (Hone Hle)). cbn [frames] in Hfs. destruct Hfs as (h & l & Hf & _ & El).
    replace l with (zlen pay) in Hf by lia. destruct Hex as (b0 & ->%list_elem_of_singleton & Hnb).
    assert (ys = []) as ->.
    { destruct ys as [|y1 ys]; [done|]. exfalso. apply Hnb. apply Forall_cons_iff in Hys as [[E%list_elem_of_singleton _] _]. cbn [fmap list_fmap]. rewrite E. by left. }
    apply Forall_cons_iff in Hys as [[E%list_elem_of_singleton Hrc] _]. rewrite E in Hrc.
    destruct (input_whole e s hd pay h f y.2 Hr Hf Hrc) as (s1 & c & Ei & Hu & Hw & _).
    pose proof Hf as [[Hwf Hv Hlen _ _ Hk Hhl Hb] _ _]. specialize (Hb eq_refl).
    eexists s, s1, _, c. split; [reflexivity|]. split; [done|]. cbn [fmap list_fmap app ipintr]. rewrite Ei. cbn [obind].
    split; [done|]. split; [exact Hu|].
    assert (Hsrc : ip_src h = inp_laddr i) by apply (f_equal ip_src Hb). assert (Hds : ip_dst h = inp_faddr i) by apply (f_equal ip_dst Hb).
    assert (Hpr : ip_p h = IPPROTO_UDP) by apply (f_equal ip_p Hb).
    assert (Hhl2 : hlen_of h = 20) by (change (hlen_of h) with (hlen_of (base h)); by rewrite Hb).
    split_and!; try done. apply arrival_ok; try done. destruct Hwf. split; unfold hlen_of in *; rec_simpl; done || lia.
  - destruct (frames_complete e hd pay mtu frs s ys y Hfs) as (s0 & s1 & c & E1 & E2 & E3 & E4 & Hw); try done.
    { lia. }
    exists s0, s1, (hd_up hd (zlen pay)), c. split_and!; try done.
    destruct (hd_up_wf hd (zlen pay) (rk_wf _ _ _ Hr)) as [Hwf Hh]; [lia|]. by apply arrival_ok.
Qed.

Lemma udp_ready_same e s h h' uh u n :
  ip_src h' = ip_src h -> ip_dst h' = ip_dst h -> udp_ready e s h uh u n -> udp_ready e s h' uh u n.
Proof. intros E1 E2 []. split; unfold unique_dgram, udp_exact in *; rewrite ?E1, ?E2; done. Qed.

(** C8: a datagram arrives as it was sent.  udp_output of at most 32739 bytes on a connected
    socket with a route and free mbufs succeeds and hands the interface frames that fit its
    MTU, one if the datagram fits and fragments if not.  Let a network bring copies of them to
    the other host in any order, padded by the link, laid out over mbufs in any way and repeated
    while a frame is still missing, up to the frame that completes the datagram: ipintr
    passes nothing up before that frame and exactly one packet with it.  (For a datagram in one
    frame this is its first copy; a copy that comes after the completing frame is a new datagram
    for the receiver.)  udp_input with free mbufs accepts the packet, with or without a
    checksum, and, when the socket whose control block matches best has room, queues one record
    on it: the address of the sender, the control message the socket has asked for, and the
    bytes of the datagram.  No other control block changes, and nothing is sent. *)
Theorem udp_end_to_end e b ck s u m data rt :
  udp_sender e s u m data rt ->
  let i := u_inp u in
  let uh := sent_uh ck i data in
  let hd := sent_hdr (io_id (ii_out (us_ip s))) i (8 + zlen data) in
  exists s' cs, udp_output e b ck s u m None [] = Ret (0, s') /\
    io_out (ii_out (us_ip s')) = rev (map (fun c => (rt_ifp rt, next_hop rt (inp_faddr i), c)) cs) ++ io_out (ii_out (us_ip s)) /\
    Forall (fun c => chain_len c <= if_mtu (ie_out e) (rt_ifp rt)) cs /\
    forall er r ys y,
      receiver_ok er hd (encode_uh uh ++ data) -> gathering hd (encode_uh uh ++ data) r ->
      queue_of (hd_up hd (8 + zlen data)) (ii_q r) = [] ->
      Forall (fun y => y.1 ∈ chain_bytes <$> cs /\ received 20 y.1 y.2) (ys ++ [y]) ->
      (exists f, f ∈ chain_bytes <$> cs /\ f ∉ ys.*1) -> (forall f, f ∈ chain_bytes <$> cs -> f ∈ (ys ++ [y]).*1) ->
      exists r0 r1 h c, ipintr er r ys.*2 = Ret r0 /\ ii_up r0 = ii_up r /\
        ipintr er r (ys ++ [y]).*2 = Ret r1 /\ ii_up r1 = (h, c, 20) :: ii_up r /\ ip_p h = IPPROTO_UDP /\
        forall us v, udp_ready er us hd uh v (zlen data) ->
          exists us', udp_input er us h c 20 = Ret us' /\
            queued_on us us' v (sockaddr_in (inp_laddr i) (inp_lport i)) (ctl_bytes v (inp_faddr i)) data.
Proof.
  intros Hs i uh hd. destruct (udp_output_ok e b ck s u m data rt Hs) as (s' & cs & E & Ho & Hfs & Hone). fold i uh hd in E, Ho, Hfs.
  exists s', cs. split; [done|]. split; [done|]. split.
  - apply List.Forall_forall. intros c Hc%list_elem_of_In.
    destruct (frames_in _ _ _ _ _ _ (chain_bytes c) Hfs) as (h & a & l & Hf & _ & _ & Hl); [by apply list_elem_of_fmap_2|].
    unfold chain_len. by rewrite (frame_len _ _ _ _ _ _ Hf).
  - assert (Hz : zlen (encode_uh uh ++ data) = 8 + zlen data) by (rewrite zlen_app, encode_uh_len; done).
    intros er r ys y Hr Hg Hq Hys Hex Hall. rewrite <- Hz in Hfs, Hq.
    destruct (frames_up er r ck i (io_id (ii_out (us_ip s))) data _ _ ys y (se_pcb _ _ _ _ _ _ Hs) (se_data _ _ _ _ _ _ Hs)
      (se_len _ _ _ _ _ _ Hs) Hfs) as (r0 & r1 & h & c & A1 & A2 & A3 & A4 & Es & Ed & Ha); try done.
    { intros Hle. rewrite length_fmap. by apply Hone. }
    exists r0, r1, h, c. split_and!; try done; [apply Ha|]. intros us v Hv.
    destruct (udp_input_ok er us h uh data c v Ha) as (us' & E' & Hq'); [by apply (udp_ready_same _ _ hd)|].
    exists us'. split; [done|]. rewrite Es, Ed in Hq'. replace (inp_lport i) with (uh_sport uh) by (unfold uh, sent_uh; by destruct ck). done.
Qed.

(** ** Forty bytes to port 53 of another host, over an interface with an MTU of 44 *)

Definition rt10 : iprt := mkIprt 1 1 167772161 0.
Definition snd_env : inenv :=
  mkInenv (mkIpenv (fun _ => Some rt10) (fun _ => None) (fun _ => None) (fun _ => 44) (fun _ => 2) (fun _ _ => false) (fun _ _ => false)
      (fun _ => None) 0 16 0)
    [] (fun _ => None) (fun _ _ => None) (fun _ => None) (fun _ => 0) 0 false false 40.
Definition if0 : ifenv := mkIfenv true (fun _ => true) false.
Definition u_snd : udpcb := mkUdpcb 1 (mkInp 167772162 53 167772161 1024 None [] 64 0) (so0 []) 0 None (mkRoute None 0) None.
Definition u_rcv : udpcb := mkUdpcb 1 (mkInp 0 0 0 53 None [] 64 0) (so0 []) INP_RECVDSTADDR None (mkRoute None 0) None.
Definition ust0 (u : udpcb) : ust := mkUst [u] 1024 0 2 [] inst0.
Definition data0 : chain := [mkMbuf 20 pay0 MT_DATA M_PKTHDR 40 0 0 0].
Definition uframe (j : nat) : list Z :=
  match udp_output snd_env if0 true (ust0 u_snd) u_snd data0 None [] with
  | Ret (_, s) => chain_bytes (nth j (map snd (rev (io_out (ii_out (us_ip s))))) [])
  | _ => []
  end.
Definition uarr (j : nat) : chain := [mkMbuf 8 (uframe j) MT_DATA M_PKTHDR (zlen (uframe j)) 1 0 0].

Lemma bytes_pay0 : Forall is_byte pay0.
Proof. apply (bool_decide_unpack (Forall (fun x => 0 <= x < 256) pay0)). vm_compute. exact I. Qed.

Lemma sender0 : udp_sender snd_env (ust0 u_snd) u_snd data0 pay0 rt10.
Proof.
  split; try done; try apply bytes_pay0.
  - eexists _, _. split; [reflexivity|]. by split.
Qed.

Lemma uarr_received j : (j < 2)%nat -> received 20 (uframe j) (uarr j).
Proof.
  intros Hj. destruct j as [|[|]]; [..|lia]; split.
  1,5: exists []; split; [vm_compute; reflexivity|constructor].
  1,4: repeat constructor; vm_compute; intuition congruence.
  1,3: vm_compute; reflexivity.
  all: eexists _, _; (split; [reflexivity|]); split_and!; vm_compute; congruence.
Qed.

Lemma udp_end_to_end_witness :
  exists r1 h c us', ipintr in0 inst0 [uarr 1; uarr 1; uarr 0] = Ret r1 /\ ii_up r1 = [(h, c, 20)] /\
    udp_input in0 (ust0 u_rcv) h c 20 = Ret us' /\
    queued_on (ust0 u_rcv) us' u_rcv (sockaddr_in 167772161 1024) (le32 16 ++ le32 0 ++ le32 IP_RECVDSTADDR ++ be32 167772162) pay0.
Proof.
  destruct (udp_end_to_end snd_env if0 true (ust0 u_snd) u_snd data0 pay0 rt10 sender0) as (s' & cs & E & Ho & _ & H).
  assert (Hcs : chain_bytes <$> cs = [uframe 0; uframe 1]).
  { assert (Hcs : cs = map snd (rev (io_out (ii_out (us_ip s'))))).
    { rewrite Ho, app_nil_r, rev_involutive, map_map. simpl. symmetry. apply map_id. }
    rewrite Hcs. unfold uframe. rewrite E. vm_compute in E. injection E as <-. reflexivity. }
  rewrite Hcs in H. pose proof (uarr_received 0 ltac:(lia)) as R0. pose proof (uarr_received 1 ltac:(lia)) as R1.
  destruct (H in0 inst0 [(uframe 1, uarr 1); (uframe 1, uarr 1)] (uframe 0, uarr 0)) as (r0 & r1 & h & c & _ & _ & A1 & A2 & _ & A3).
  - split; [split; vm_compute; intuition congruence || constructor|done..| |done|done|done].
    apply (bool_decide_unpack (Forall (fun x => 0 <= x < 256) _)). vm_compute. exact I.
  - split; try done; [constructor|]. exists 0. split; [vm_compute; intuition congruence|]. by intros ?%Exists_nil.
  - reflexivity.
  - repeat (apply Forall_cons_2; [split; [cbn [fst]; rewrite !elem_of_cons; tauto|assumption]|]). apply Forall_nil_2.
  - exists (uframe 0). split; [by left|]. cbn [fmap list_fmap fst]. rewrite !elem_of_cons.
    intros [H0|[H0|H0]]; [vm_compute in H0; discriminate H0..|by apply not_elem_of_nil in H0].
  - intros f Hf. cbn [fmap list_fmap fst app]. rewrite !elem_of_cons in *. tauto.
  - destruct (A3 (ust0 u_rcv) u_rcv) as (us' & B1 & B2).
    { split; [vm_compute; intuition congruence..| |vm_compute; congruence| |vm_compute; reflexivity|reflexivity|vm_compute; congruence];
        [intros; reflexivity|]. intros u v Hu%list_elem_of_singleton Hv%list_elem_of_singleton _ _. by rewrite Hu, Hv. }
    exists r1, h, c, us'. split; [exact A1|]. split; [exact A2|]. split; [exact B1|exact B2].
Defined.

End UdpOk.
