(* ===== verification/Bpf.v ===== *)
(** The packet filter of BPF (src/sys/net/bpf_filter.c, bpf.h): the interpreter
    bpf_filter, on a packet in one buffer or in a chain of mbufs, and bpf_validate, which
    the kernel relies on before it runs a program.

    A read or write outside the packet, the program or the scratch memory is a panic.
    The registers and the scratch memory start with what the stack holds. *)
From S2P Require Import Prelude Mbuf.
Import Mbuf.

Module Bpf.

(** ** Instructions *)

Definition BPF_LD : Z := 0.
Definition BPF_LDX : Z := 1.
Definition BPF_ST : Z := 2.
Definition BPF_STX : Z := 3.
Definition BPF_ALU : Z := 4.
Definition BPF_JMP : Z := 5.
Definition BPF_RET : Z := 6.
Definition BPF_MISC : Z := 7.
Definition BPF_W : Z := 0.
Definition BPF_H : Z := 8.
Definition BPF_B : Z := 16.
Definition BPF_IMM : Z := 0.
Definition BPF_ABS : Z := 32.
Definition BPF_IND : Z := 64.
Definition BPF_MEM : Z := 96.
Definition BPF_LEN : Z := 128.
Definition BPF_MSH : Z := 160.
Definition BPF_ADD : Z := 0.
Definition BPF_SUB : Z := 16.
Definition BPF_MUL : Z := 32.
Definition BPF_DIV : Z := 48.
Definition BPF_OR : Z := 64.
Definition BPF_AND : Z := 80.
Definition BPF_LSH : Z := 96.
Definition BPF_RSH : Z := 112.
Definition BPF_NEG : Z := 128.
Definition BPF_JA : Z := 0.
Definition BPF_JEQ : Z := 16.
Definition BPF_JGT : Z := 32.
Definition BPF_JGE : Z := 48.
Definition BPF_JSET : Z := 64.
Definition BPF_K : Z := 0.
Definition BPF_X : Z := 8.
Definition BPF_A : Z := 16.
Definition BPF_TAX : Z := 0.
Definition BPF_TXA : Z := 128.
Definition BPF_MEMWORDS : Z := 16.
Definition BPF_CLASS (code : Z) : Z := Z.land code 7.
Definition BPF_OP (code : Z) : Z := Z.land code 240.

Record bpf_insn := mkInsn { bi_code : Z; bi_jt : Z; bi_jf : Z; bi_k : Z }.

(** The cases of the switch in bpf_filter. *)
Inductive bsize := SzW | SzH | SzB.
Inductive bsrc := SrcK | SrcX.
Inductive jop := JGT | JGE | JEQ | JSET.
Inductive aop := AADD | ASUB | AMUL | ADIV | AAND | AOR | ALSH | ARSH.
Inductive bop :=
| RetK | RetA
| LdAbs (s : bsize) | LdInd (s : bsize) | LdLen | LdxLen | LdxMsh | LdImm | LdxImm | LdMem | LdxMem
| St | Stx
| Ja | Jmp (j : jop) (s : bsrc)
| Alu (a : aop) (s : bsrc) | Neg
| Tax | Txa.

Definition bits (l : list Z) : Z := fold_left Z.lor l 0.

(** The labels of the switch. *)
Definition opcodes : list (Z * bop) :=
  [(bits [BPF_RET; BPF_K], RetK); (bits [BPF_RET; BPF_A], RetA);
   (bits [BPF_LD; BPF_W; BPF_ABS], LdAbs SzW); (bits [BPF_LD; BPF_H; BPF_ABS], LdAbs SzH); (bits [BPF_LD; BPF_B; BPF_ABS], LdAbs SzB);
   (bits [BPF_LD; BPF_W; BPF_LEN], LdLen); (bits [BPF_LDX; BPF_W; BPF_LEN], LdxLen);
   (bits [BPF_LD; BPF_W; BPF_IND], LdInd SzW); (bits [BPF_LD; BPF_H; BPF_IND], LdInd SzH); (bits [BPF_LD; BPF_B; BPF_IND], LdInd SzB);
   (bits [BPF_LDX; BPF_MSH; BPF_B], LdxMsh); (bits [BPF_LD; BPF_IMM], LdImm); (bits [BPF_LDX; BPF_IMM], LdxImm);
   (bits [BPF_LD; BPF_MEM], LdMem); (bits [BPF_LDX; BPF_MEM], LdxMem); (BPF_ST, St); (BPF_STX, Stx);
   (bits [BPF_JMP; BPF_JA], Ja);
   (bits [BPF_JMP; BPF_JGT; BPF_K], Jmp JGT SrcK); (bits [BPF_JMP; BPF_JGE; BPF_K], Jmp JGE SrcK);
   (bits [BPF_JMP; BPF_JEQ; BPF_K], Jmp JEQ SrcK); (bits [BPF_JMP; BPF_JSET; BPF_K], Jmp JSET SrcK);
   (bits [BPF_JMP; BPF_JGT; BPF_X], Jmp JGT SrcX); (bits [BPF_JMP; BPF_JGE; BPF_X], Jmp JGE SrcX);
   (bits [BPF_JMP; BPF_JEQ; BPF_X], Jmp JEQ SrcX); (bits [BPF_JMP; BPF_JSET; BPF_X], Jmp JSET SrcX);
   (bits [BPF_ALU; BPF_ADD; BPF_X], Alu AADD SrcX); (bits [BPF_ALU; BPF_SUB; BPF_X], Alu ASUB SrcX);
   (bits [BPF_ALU; BPF_MUL; BPF_X], Alu AMUL SrcX); (bits [BPF_ALU; BPF_DIV; BPF_X], Alu ADIV SrcX);
   (bits [BPF_ALU; BPF_AND; BPF_X], Alu AAND SrcX); (bits [BPF_ALU; BPF_OR; BPF_X], Alu AOR SrcX);
   (bits [BPF_ALU; BPF_LSH; BPF_X], Alu ALSH SrcX); (bits [BPF_ALU; BPF_RSH; BPF_X], Alu ARSH SrcX);
   (bits [BPF_ALU; BPF_ADD; BPF_K], Alu AADD SrcK); (bits [BPF_ALU; BPF_SUB; BPF_K], Alu ASUB SrcK);
   (bits [BPF_ALU; BPF_MUL; BPF_K], Alu AMUL SrcK); (bits [BPF_ALU; BPF_DIV; BPF_K], Alu ADIV SrcK);
   (bits [BPF_ALU; BPF_AND; BPF_K], Alu AAND SrcK); (bits [BPF_ALU; BPF_OR; BPF_K], Alu AOR SrcK);
   (bits [BPF_ALU; BPF_LSH; BPF_K], Alu ALSH SrcK); (bits [BPF_ALU; BPF_RSH; BPF_K], Alu ARSH SrcK);
   (bits [BPF_ALU; BPF_NEG], Neg); (bits [BPF_MISC; BPF_TAX], Tax); (bits [BPF_MISC; BPF_TXA], Txa)].

Definition decode (code : Z) : option bop := snd <$> List.find (fun x => fst x =? code) opcodes.

(** ** Reading the packet *)

(** The packet: a buffer of [buflen] bytes, or a chain of mbufs, for which buflen is 0. *)
Inductive packet := PBuf (l : list Z) | PMbuf (m : chain).
Definition buflen (p : packet) : Z := match p with PBuf l => zlen l | PMbuf _ => 0 end.

Definition wild_packet : string := "bpf_filter: read outside the packet".
Definition wild_mbuf : string := "bpf_filter: read outside an mbuf".

(** [n] bytes from offset [k], most significant first: [EXTRACT_LONG], [EXTRACT_SHORT]. *)
Definition extract (msg : string) (l : list Z) (k n : Z) : outcome Z :=
  if (0 <=? k) && (k + n <=? zlen l) then Ret (fold_left (fun a b => a * 256 + b) (zsub k n l) 0) else Panic msg.

(** The loop of MINDEX, m_xword and m_xhalf: the mbuf with offset [k], and the offset in it. *)
Fixpoint MINDEX (m : chain) (k : Z) : option (mbuf * chain * Z) :=
  match m with
  | [] => None
  | m1 :: ms => if k >=? m_len m1 then MINDEX ms (k - m_len m1) else Some (m1, ms, k)
  end.

(** The pieces [cp\[j\]] of a value that crosses into the next mbuf; cp is already [k]
    bytes into the mbuf, and the code adds [k] again. *)
Definition cp_at (m1 : mbuf) (k j : Z) : outcome Z := extract wild_mbuf (m_bytes m1) (k + (k + j)) 1.

(** [None] is the error result. *)
Definition m_xword (m : chain) (k : Z) : outcome (option Z) :=
  match MINDEX m k with
  | None => Ret None
  | Some (m1, ms, k) =>
      let len := m_len m1 in
      if len - k >=? 4 then let! v := extract wild_mbuf (m_bytes m1) k 4 in Ret (Some v)
      else
        match ms with
        | [] => Ret None
        | m0 :: _ =>
            if m_len m0 + len - k <? 4 then Ret None
            else
              let np j := extract wild_mbuf (m_bytes m0) j 1 in
              let word a b c d := Ret (Some (Z.shiftl a 24 + Z.shiftl b 16 + Z.shiftl c 8 + d)) in
              if len - k =? 1 then
                let! a := cp_at m1 k 0 in let! b := np 0 in let! c := np 1 in let! d := np 2 in word a b c d
              else if len - k =? 2 then
                let! a := cp_at m1 k 0 in let! b := cp_at m1 k 1 in let! c := np 0 in let! d := np 1 in word a b c d
              else
                let! a := cp_at m1 k 0 in let! b := cp_at m1 k 1 in let! c := cp_at m1 k 2 in let! d := np 0 in word a b c d
        end
  end.

Definition m_xhalf (m : chain) (k : Z) : outcome (option Z) :=
  match MINDEX m k with
  | None => Ret None
  | Some (m1, ms, k) =>
      if m_len m1 - k >=? 2 then let! v := extract wild_mbuf (m_bytes m1) k 2 in Ret (Some v)
      else
        match ms with
        | [] => Ret None
        | m0 :: _ =>
            let! a := cp_at m1 k 0 in
            let! b := extract wild_mbuf (m_bytes m0) 0 1 in
            Ret (Some (Z.shiftl a 8 + b))
        end
  end.

Definition m_xbyte (m : chain) (k : Z) : outcome (option Z) :=
  match MINDEX m k with
  | None => Ret None
  | Some (m1, _, k) => let! v := extract wild_mbuf (m_bytes m1) k 1 in Ret (Some v)
  end.

(** A byte as a [char], which is signed. *)
Definition s8 (b : Z) : Z := (b + 128) mod 256 - 128.

(** A load of [n] bytes at [k], an [int]: [None] makes the filter return 0.  [k + n] and
    the comparison with buflen are unsigned. *)
Definition load (p : packet) (k n : Z) (xm : chain -> Z -> outcome (option Z)) : outcome (option Z) :=
  let past := if n =? 1 then u32 k >=? buflen p else u32 (k + n) >? buflen p in
  match p with
  | PBuf l =>
      if past then if negb (buflen p =? 0) then Ret None else Panic wild_packet
      else let! v := extract wild_packet l k n in Ret (Some v)
  | PMbuf m =>
      if past then if negb (buflen p =? 0) then Ret None else xm m k
      else Panic wild_packet
  end.
Definition load_sz (p : packet) (k : Z) (s : bsize) : outcome (option Z) :=
  match s with SzW => load p k 4 m_xword | SzH => load p k 2 m_xhalf | SzB => load p k 1 m_xbyte end.

(** ** The interpreter *)

Record bst := mkBst { b_pc : Z; b_A : Z; b_X : Z; b_mem : list Z }.

(** What an instruction does next: the filter returns, or goes on. *)
Inductive bnext := Stop (v : Z) | Go (s : bst).

Definition get_mem (mem : list Z) (k : Z) : outcome Z :=
  if (0 <=? k) && (k <? zlen mem) then Ret (nth (Z.to_nat k) mem 0) else Panic "bpf_filter: mem".
Definition set_mem (mem : list Z) (k v : Z) : outcome (list Z) :=
  if (0 <=? k) && (k <? zlen mem) then Ret (<[Z.to_nat k := v]> mem) else Panic "bpf_filter: mem".

Definition jtest (j : jop) (a v : Z) : bool :=
  match j with JGT => a >? v | JGE => a >=? v | JEQ => a =? v | JSET => hasf a v end.

(** [None] for a division by zero; a shift takes its count modulo 32, as the i386 does. *)
Definition alu (o : aop) (a v : Z) : option Z :=
  match o with
  | AADD => Some (u32 (a + v))
  | ASUB => Some (u32 (a - v))
  | AMUL => Some (u32 (a * v))
  | ADIV => if v =? 0 then None else Some (a / v)
  | AAND => Some (Z.land a v)
  | AOR => Some (Z.lor a v)
  | ALSH => Some (u32 (Z.shiftl a (v mod 32)))
  | ARSH => Some (Z.shiftr a (v mod 32))
  end.

Definition bpf_step (f : list bpf_insn) (p : packet) (wirelen : Z) (s : bst) : outcome bnext :=
  let '(mkBst pc A X mem) := s in
  match (if 0 <=? pc then f !! Z.to_nat pc else None) with
  | None => Panic "bpf_filter: pc outside the program"
  | Some i =>
      let k := bi_k i in
      let next A X mem := Ret (Go (mkBst (pc + 1) A X mem)) in
      let jump d := Ret (Go (mkBst (pc + d + 1) A X mem)) in
      let arg s := match s with SrcK => u32 k | SrcX => X end in
      match decode (bi_code i) with
      | None => Ret (Stop 0)
      | Some RetK => Ret (Stop (u32 k))
      | Some RetA => Ret (Stop A)
      | Some (LdAbs sz) =>
          let! r := load_sz p k sz in
          match r, sz, p with
          | Some v, _, _ => next (u32 v) X mem
          | None, SzH, PMbuf _ => next 0 X mem
          | None, _, _ => Ret (Stop 0)
          end
      | Some LdLen => next wirelen X mem
      | Some LdxLen => next A wirelen mem
      | Some (LdInd sz) =>
          let! r := load_sz p (s32 (X + k)) sz in
          match r, sz, p with
          | None, _, _ => Ret (Stop 0)
          | Some v, SzB, PMbuf _ => next (u32 (s8 v)) X mem
          | Some v, _, _ => next (u32 v) X mem
          end
      | Some LdxMsh =>
          let! r := load_sz p k SzB in
          match r with None => Ret (Stop 0) | Some v => next A (Z.shiftl (Z.land v 15) 2) mem end
      | Some LdImm => next (u32 k) X mem
      | Some LdxImm => next A (u32 k) mem
      | Some LdMem => let! v := get_mem mem k in next (u32 v) X mem
      | Some LdxMem => let! v := get_mem mem k in next A (u32 v) mem
      | Some St => let! mem := set_mem mem k (s32 A) in next A X mem
      | Some Stx => let! mem := set_mem mem k (s32 X) in next A X mem
      | Some Ja => jump k
      | Some (Jmp j s) => jump (if jtest j A (arg s) then bi_jt i else bi_jf i)
      | Some (Alu o s) =>
          match alu o A (arg s), s with
          | Some A, _ => next A X mem
          | None, SrcX => Ret (Stop 0)
          | None, SrcK => Panic "bpf_filter: division by zero"
          end
      | Some Neg => next (u32 (- A)) X mem
      | Some Tax => next A A mem
      | Some Txa => next X X mem
      end
  end.

Fixpoint bpf_run (fuel : nat) (f : list bpf_insn) (p : packet) (wirelen : Z) (s : bst) : outcome Z :=
  match fuel with
  | O => OutOfFuel
  | S fuel =>
      let! r := bpf_step f p wirelen s in
      match r with Stop v => Ret v | Go s => bpf_run fuel f p wirelen s end
  end.

(** [bpf_filter]; [A], [X] and [mem] are what is on the stack. *)
Definition bpf_filter (pc : option (list bpf_insn)) (p : packet) (wirelen A X : Z) (mem : list Z) : outcome Z :=
  match pc with
  | None => Ret 4294967295
  | Some f => bpf_run (length f) f p wirelen (mkBst 0 A X mem)
  end.

(** ** The validator *)

Definition validate_insn (len : Z) (i : Z) (p : bpf_insn) : bool :=
  let from := i + 1 in
  let k := bi_k p in
  negb ((BPF_CLASS (bi_code p) =? BPF_JMP) &&
        (if BPF_OP (bi_code p) =? BPF_JA then s32 (from + k) >=? len
         else (from + bi_jt p >=? len) || (from + bi_jf p >=? len))) &&
  negb (((BPF_CLASS (bi_code p) =? BPF_ST) || ((BPF_CLASS (bi_code p) =? BPF_LD) && (Z.land (bi_code p) 224 =? BPF_MEM))) &&
        ((k >=? BPF_MEMWORDS) || (k <? 0))) &&
  negb ((bi_code p =? bits [BPF_ALU; BPF_DIV; BPF_K]) && (k =? 0)).

Fixpoint validate_loop (len i : Z) (l : list bpf_insn) : bool :=
  match l with
  | [] => true
  | p :: l => validate_insn len i p && validate_loop len (i + 1) l
  end.

Definition bpf_validate (f : list bpf_insn) : outcome bool :=
  if validate_loop (zlen f) 0 f then
    match list.last f with
    | None => Panic "bpf_validate: f[-1]"
    | Some p => Ret (BPF_CLASS (bi_code p) =? BPF_RET)
    end
  else Ret false.

End Bpf.
