(* ===== verification/BpfOk.v ===== *)
(** What bpf_validate guarantees, and what it does not. *)
From S2P Require Import Prelude Mbuf Bpf.
Import Mbuf Bpf.

Module BpfOk.

(** ** Well-formed and checked programs *)

Definition BPF_MAXINSNS : Z := 512.

(** The fields of struct bpf_insn fit their types. *)
Record insn_wf (i : bpf_insn) : Prop := {
  iw_code : 0 <= bi_code i < 65536;
  iw_jt : 0 <= bi_jt i < 256;
  iw_jf : 0 <= bi_jf i < 256;
  iw_k : -2147483648 <= bi_k i < 2147483648
}.

(** What bpf_validate does not test: that [ja] goes forward, and the memory operands of
    [ldx] and [stx]. *)
Definition strict (len : Z) (i : bpf_insn) : bool :=
  match decode (bi_code i) with
  | Some Ja => (0 <=? bi_k i) && (bi_k i <? len)
  | Some LdxMem | Some Stx => (0 <=? bi_k i) && (bi_k i <? BPF_MEMWORDS)
  | _ => true
  end.

(** A load whose end can wrap around to the start of the address space. *)
Definition may_wrap (i : bpf_insn) : bool :=
  match decode (bi_code i) with
  | Some (LdAbs SzW) | Some (LdAbs SzH) => bi_k i <? 0
  | Some (LdInd SzW) | Some (LdInd SzH) => true
  | _ => false
  end.

Record program_ok (f : list bpf_insn) : Prop := {
  po_wf : Forall insn_wf f;
  po_len : zlen f <= BPF_MAXINSNS;
  po_valid : bpf_validate f = Ret true;
  po_strict : forallb (strict (zlen f)) f = true
}.

(** The typing of a state: [pc] is in the program, the registers are words and the scratch
    memory has its size. *)
Record state_ok (f : list bpf_insn) (s : bst) : Prop := {
  sk_pc : 0 <= b_pc s < zlen f;
  sk_A : 0 <= b_A s < 4294967296;
  sk_X : 0 <= b_X s < 4294967296;
  sk_mem : zlen (b_mem s) = BPF_MEMWORDS
}.

(** ** Lemmas *)

(** The class of an operation, and what else its code shows bpf_validate. *)
Definition op_class (o : bop) : Z :=
  match o with
  | RetK | RetA => BPF_RET
  | LdAbs _ | LdInd _ | LdLen | LdImm | LdMem => BPF_LD
  | LdxLen | LdxMsh | LdxImm | LdxMem => BPF_LDX
  | St => BPF_ST
  | Stx => BPF_STX
  | Ja | Jmp _ _ => BPF_JMP
  | Alu _ _ | Neg => BPF_ALU
  | Tax | Txa => BPF_MISC
  end.
Definition op_facts (c : Z) (o : bop) : bool :=
  (BPF_CLASS c =? op_class o) &&
  match o with
  | Ja => BPF_OP c =? BPF_JA
  | Jmp _ _ => negb (BPF_OP c =? BPF_JA)
  | LdMem => Z.land c 224 =? BPF_MEM
  | Alu ADIV SrcK => c =? bits [BPF_ALU; BPF_DIV; BPF_K]
  | LdAbs SzW => c =? 32
  | LdAbs SzH => c =? 40
  | LdInd SzW => c =? 64
  | LdInd SzH => c =? 72
  | _ => true
  end.

Lemma decode_facts c o : decode c = Some o -> op_facts c o = true.
Proof.
  unfold decode. intros ([c' o'] & Hf & ->)%fmap_Some. apply find_some in Hf as [Hin E%Z.eqb_eq]. cbn in E |- *. subst c'.
  assert (Ht : forallb (fun x => op_facts x.1 x.2) opcodes = true) by reflexivity.
  rewrite forallb_forall in Ht. exact (Ht _ Hin).
Qed.

Lemma decode_class c o : decode c = Some o -> BPF_CLASS c = op_class o.
Proof. intros H%decode_facts. unfold op_facts in H. apply andb_true_iff in H as [H%Z.eqb_eq _]. done. Qed.

Lemma validate_at len l : forall j n i, validate_loop len j l = true -> l !! n = Some i -> validate_insn len (j + Z.of_nat n) i = true.
Proof.
  induction l as [|p l IH]; [done|]. intros j n i [Hp Hl]%andb_true_iff Hn. destruct n as [|n].
  - injection Hn as <-. by rewrite Z.add_0_r.
  - replace (j + Z.of_nat (S n)) with (j + 1 + Z.of_nat n) by lia. by apply IH.
Qed.

Section Checked.
Context (f : list bpf_insn) (Hf : program_ok f).

Lemma checked_at pc i : 0 <= pc -> f !! Z.to_nat pc = Some i ->
  insn_wf i /\ validate_insn (zlen f) pc i = true /\ strict (zlen f) i = true /\ pc < zlen f.
Proof.
  intros Hp Hi. destruct Hf as [Hw _ Hv Hs]. split_and!.
  - eapply Forall_lookup_1; eauto.
  - unfold bpf_validate in Hv. destruct (validate_loop _ _ _) eqn:E; [|done].
    pose proof (validate_at _ _ _ _ _ E Hi) as H. by rewrite Z2Nat.id in H by lia.
  - rewrite forallb_forall in Hs. apply Hs, list_elem_of_In. by eapply list_elem_of_lookup_2.
  - apply lookup_lt_Some in Hi. unfold zlen. lia.
Qed.

(** An instruction that is not a return has one behind it. *)
Lemma falls_through pc i : 0 <= pc -> f !! Z.to_nat pc = Some i -> BPF_CLASS (bi_code i) <> BPF_RET -> pc + 1 < zlen f.
Proof.
  intros Hp Hi Hc. destruct (checked_at _ _ Hp Hi) as (_ & _ & _ & Hlt).
  destruct (Z.eq_dec (pc + 1) (zlen f)) as [E|]; [|lia]. exfalso. pose proof (po_valid _ Hf) as Hv. unfold bpf_validate in Hv.
  destruct (validate_loop _ _ _); [|done]. rewrite last_lookup in Hv. unfold zlen in E.
  replace (Init.Nat.pred (length f)) with (Z.to_nat pc) in Hv by lia. rewrite Hi in Hv. apply Hc. apply Z.eqb_eq. congruence.
Qed.

(** Where a jump goes. *)
Lemma jump_ok pc i o : 0 <= pc -> f !! Z.to_nat pc = Some i -> decode (bi_code i) = Some o ->
  (o = Ja -> 0 <= bi_k i /\ pc + bi_k i + 1 < zlen f) /\ (forall j s, o = Jmp j s -> pc + bi_jt i + 1 < zlen f /\ pc + bi_jf i + 1 < zlen f).
Proof.
  intros Hp Hi Ho. destruct (checked_at _ _ Hp Hi) as ([] & Hv & Hs & Hlt). pose proof (decode_facts _ _ Ho) as Hd.
  pose proof (decode_class _ _ Ho) as Hc. pose proof (po_len _ Hf) as Hl. unfold BPF_MAXINSNS in Hl.
  unfold validate_insn in Hv. rewrite Hc in Hv. unfold op_facts in Hd. apply andb_true_iff in Hd as [_ Hd].
  split.
  - intros ->. unfold strict in Hs. rewrite Ho in Hs. rewrite Hd in Hv. cbn in Hv.
    unfold s32 in Hv. split; [lia|]. rewrite Z.mod_small in Hv by lia. lia.
  - intros j s ->. apply negb_true_iff in Hd. rewrite Hd in Hv. cbn in Hv. lia.
Qed.

(** Where a memory operation goes. *)
Lemma mem_ok pc i o : 0 <= pc -> f !! Z.to_nat pc = Some i -> decode (bi_code i) = Some o ->
  o = LdMem \/ o = LdxMem \/ o = St \/ o = Stx -> 0 <= bi_k i < BPF_MEMWORDS.
Proof.
  intros Hp Hi Ho Hm. destruct (checked_at _ _ Hp Hi) as (_ & Hv & Hs & _). pose proof (decode_facts _ _ Ho) as Hd.
  pose proof (decode_class _ _ Ho) as Hc. unfold validate_insn in Hv. rewrite Hc in Hv. unfold op_facts in Hd.
  apply andb_true_iff in Hd as [_ Hd]. unfold strict in Hs. rewrite Ho in Hs. unfold BPF_MEMWORDS in *.
  destruct Hm as [-> | [-> | [-> | ->]]]; rewrite ?Hd in Hv; cbn in Hv; lia.
Qed.

Lemma div_ok pc i : 0 <= pc -> f !! Z.to_nat pc = Some i -> decode (bi_code i) = Some (Alu ADIV SrcK) -> u32 (bi_k i) <> 0.
Proof.
  intros Hp Hi Ho. destruct (checked_at _ _ Hp Hi) as ([] & Hv & _ & _). pose proof (decode_facts _ _ Ho) as Hd.
  unfold op_facts in Hd. apply andb_true_iff in Hd as [_ Hd]. unfold validate_insn in Hv. rewrite Hd in Hv.
  destruct (Z.eqb_spec (bi_k i) 0); [by rewrite andb_false_r in Hv|]. wrap_lia.
Qed.

End Checked.

(** ** Steps *)

Lemma lor_u32 a b : 0 <= a < 4294967296 -> 0 <= b < 4294967296 -> 0 <= Z.lor a b < 4294967296.
Proof.
  intros Ha Hb. split; [apply Z.lor_nonneg; lia|]. destruct (Z.eq_dec (Z.lor a b) 0) as [->|]; [lia|].
  apply (Z.log2_lt_pow2 _ 32); [pose proof (proj2 (Z.lor_nonneg a b)); lia|]. rewrite Z.log2_lor by lia.
  apply Z.max_lub_lt.
  - destruct (Z.eq_dec a 0) as [->|]; [done|]. apply (Z.log2_lt_pow2 _ 32); lia.
  - destruct (Z.eq_dec b 0) as [->|]; [done|]. apply (Z.log2_lt_pow2 _ 32); lia.
Qed.

Lemma land_le a b : 0 <= a -> 0 <= Z.land a b <= a.
Proof.
  intros Ha. split; [apply Z.land_nonneg; lia|]. assert (E : Z.ldiff (Z.land a b) a = 0).
  { apply Z.bits_inj'. intros n _. rewrite Z.ldiff_spec, Z.land_spec, Z.bits_0. by destruct (Z.testbit a n), (Z.testbit b n). }
  pose proof (Z.sub_nocarry_ldiff a (Z.land a b) E). assert (0 <= Z.ldiff a (Z.land a b)) by (apply Z.ldiff_nonneg; lia). lia.
Qed.

Lemma alu_u32 o a v r : 0 <= a < 4294967296 -> 0 <= v < 4294967296 -> alu o a v = Some r -> 0 <= r < 4294967296.
Proof.
  intros Ha Hv. destruct o; cbn; intros E; try (injection E as <-; apply u32_range).
  - destruct (Z.eqb_spec v 0); [done|]. injection E as <-. split; [apply Z.div_pos; lia|]. apply Z.div_lt_upper_bound; nia.
  - injection E as <-. pose proof (land_le a v). lia.
  - injection E as <-. by apply lor_u32.
  - injection E as <-. rewrite Z.shiftr_div_pow2 by (apply Z.mod_pos_bound; lia).
    pose proof (Z.mod_pos_bound v 32). assert (0 < 2 ^ (v mod 32)) by (apply Z.pow_pos_nonneg; lia).
    split; [apply Z.div_pos; lia|]. apply Z.div_lt_upper_bound; nia.
Qed.


(** The loads of four and two bytes, by their code: the size and the offset. *)
Definition wide_load (i : bpf_insn) (X n k : Z) : Prop :=
  (bi_code i = 32 /\ n = 4 /\ k = bi_k i) \/ (bi_code i = 40 /\ n = 2 /\ k = bi_k i) \/
  (bi_code i = 64 /\ n = 4 /\ k = s32 (X + bi_k i)) \/ (bi_code i = 72 /\ n = 2 /\ k = s32 (X + bi_k i)).

(** The instruction at hand is a load of two or four bytes that starts before the packet and
    whose end, as an unsigned number, is back in the packet. *)
Definition wraps (f : list bpf_insn) (l : list Z) (s : bst) : Prop :=
  exists i n k, 0 <= b_pc s /\ f !! Z.to_nat (b_pc s) = Some i /\ wide_load i (b_X s) n k /\ - n <= k < 0 /\ k + n <= zlen l.

(** A state that the run of a program gets to. *)
Inductive reaches (f : list bpf_insn) (p : packet) (wirelen : Z) : bst -> bst -> Prop :=
| reaches_here s : reaches f p wirelen s s
| reaches_step s s1 s2 : bpf_step f p wirelen s = Ret (Go s1) -> reaches f p wirelen s1 s2 -> reaches f p wirelen s s2.

Definition size_of (sz : bsize) : Z := match sz with SzW => 4 | SzH => 2 | SzB => 1 end.

(** A load from a buffer fails only where the end of the load wraps. *)
Lemma load_ok l k sz : 0 < zlen l < 2147483648 -> -2147483648 <= k < 2147483648 ->
  (exists r, load_sz (PBuf l) k sz = Ret r) \/
  (load_sz (PBuf l) k sz = Panic wild_packet /\ - size_of sz <= k < 0 /\ k + size_of sz <= zlen l /\ sz <> SzB).
Proof.
  intros Hl Hk. destruct sz; cbn [load_sz size_of]; unfold load; cbn [buflen Z.eqb Pos.eqb]; cbv iota zeta;
    (destruct (Z.eqb_spec (zlen l) 0); [lia|]); cbn [negb]; case_match eqn:E; try (left; eexists; reflexivity);
    unfold extract; destruct (_ && _) eqn:Er; try (left; eexists; reflexivity).
  - right. apply andb_false_iff in Er. split; [done|]. split; [wrap_lia|]. split; [wrap_lia|done].
  - right. apply andb_false_iff in Er. split; [done|]. split; [wrap_lia|]. split; [wrap_lia|done].
  - exfalso. apply andb_false_iff in Er. wrap_lia.
Qed.

Lemma get_mem_ok mem k : zlen mem = BPF_MEMWORDS -> 0 <= k < BPF_MEMWORDS -> get_mem mem k = Ret (nth (Z.to_nat k) mem 0).
Proof. intros HM Hr. unfold get_mem. rewrite HM. by rewrite (proj2 (Z.leb_le _ _)), (proj2 (Z.ltb_lt _ _)) by lia. Qed.
Lemma set_mem_ok mem k : zlen mem = BPF_MEMWORDS -> forall v, 0 <= k < BPF_MEMWORDS -> set_mem mem k v = Ret (<[Z.to_nat k := v]> mem).
Proof. intros HM v Hr. unfold set_mem. rewrite HM. by rewrite (proj2 (Z.leb_le _ _)), (proj2 (Z.ltb_lt _ _)) by lia. Qed.

Definition step_good (f : list bpf_insn) (l : list Z) (s : bst) (r : outcome bnext) : Prop :=
  match r with
  | Ret (Stop v) => 0 <= v < 4294967296
  | Ret (Go s') => state_ok f s' /\ b_pc s < b_pc s'
  | Panic msg => msg = wild_packet /\ wraps f l s
  | OutOfFuel => False
  end.

Lemma load_good f s l k sz i g :
  0 < zlen l < 2147483648 -> -2147483648 <= k < 2147483648 -> 0 <= b_pc s -> f !! Z.to_nat (b_pc s) = Some i ->
  (sz <> SzB -> wide_load i (b_X s) (size_of sz) k) ->
  (forall r, step_good f l s (g r)) -> step_good f l s (let! r := load_sz (PBuf l) k sz in g r).
Proof.
  intros Hl Hk Hpc Hi Hm Hg. destruct (load_ok l k sz Hl Hk) as [[r ->]|(-> & H1 & H2 & H3)]; [apply Hg|].
  split; [done|]. exists i, (size_of sz), k. split_and!; try done; [by apply Hm|lia..].
Qed.

(** Progress and preservation. *)
Lemma step_ok f l wirelen s : program_ok f -> 0 < zlen l < 2147483648 -> 0 <= wirelen < 4294967296 -> state_ok f s ->
  step_good f l s (bpf_step f (PBuf l) wirelen s).
Proof.
  intros Hf Hl Hw [Hp HA HX HM]. destruct s as [pc A X mem]. cbn [b_pc b_A b_X b_mem] in *. unfold bpf_step.
  rewrite (proj2 (Z.leb_le 0 pc)) by lia.
  destruct (f !! Z.to_nat pc) as [i|] eqn:Hi; [|apply lookup_ge_None in Hi; unfold zlen in Hp; lia].
  destruct (checked_at f Hf pc i) as (Hiw & _ & _ & _); [lia|done|]. pose proof (iw_k _ Hiw) as Hk. pose proof (iw_jt _ Hiw). pose proof (iw_jf _ Hiw).
  destruct (decode (bi_code i)) as [o|] eqn:Ho; [|cbn; lia].
  set (s0 := mkBst pc A X mem). pose proof (decode_facts _ _ Ho) as Hfacts. apply andb_true_iff in Hfacts as [_ Hfacts].
  assert (Hnext : op_class o <> BPF_RET -> forall A X mem, 0 <= A < 4294967296 -> 0 <= X < 4294967296 -> zlen mem = BPF_MEMWORDS ->
    step_good f l s0 (Ret (Go (mkBst (pc + 1) A X mem)))).
  { intros Hc A' X' mem' HA' HX' HM'. pose proof (decode_class _ _ Ho) as Hcl.
    pose proof (falls_through f Hf pc i ltac:(lia) Hi ltac:(congruence)). split; [split; cbn; lia|cbn; lia]. }
  assert (Hjump : forall d, 0 <= d -> pc + d + 1 < zlen f -> step_good f l s0 (Ret (Go (mkBst (pc + d + 1) A X mem)))).
  { intros d Hd Hlt. split; [split; cbn; lia|cbn; lia]. }
  assert (Hstop : step_good f l s0 (Ret (Stop 0))) by (cbn; lia).
  pose proof (mem_ok f Hf pc i o ltac:(lia) Hi Ho) as Hmem.
  destruct (jump_ok f Hf pc i o ltac:(lia) Hi Ho) as [Hja Hjmp].
  pose proof (get_mem_ok mem (bi_k i) HM) as Hget. pose proof (set_mem_ok mem (bi_k i) HM) as Hset.
  pose proof (u32_range (bi_k i)).
  destruct o as [| |sz|sz| | | | | | | | | | |j s|o s| | |]; try (apply Hnext; done || apply u32_range).
  - apply u32_range.
  - done.
  - apply (load_good _ _ _ _ _ i); unfold s0; cbn [b_pc b_X]; try done; [lia| |].
    { intros. unfold wide_load. destruct sz; try done; cbn [size_of] in *; apply Z.eqb_eq in Hfacts; tauto. }
    intros [v|]; [apply Hnext; try done; apply u32_range|by destruct sz].
  - apply (load_good _ _ _ _ _ i); unfold s0; cbn [b_pc b_X]; try done; [apply s32_range|lia| |].
    { intros. unfold wide_load. destruct sz; try done; cbn [size_of] in *; apply Z.eqb_eq in Hfacts; tauto. }
    intros [v|]; [|done]. destruct sz; apply Hnext; done || apply u32_range.
  - apply (load_good _ _ _ _ _ i); unfold s0; cbn [b_pc b_X]; try done; [lia|].
    intros [v|]; [|done]. apply Hnext; try done. pose proof (land_le 15 v). rewrite (Z.land_comm v), Z.shiftl_mul_pow2 by lia. lia.
  - rewrite Hget by (apply Hmem; tauto). apply Hnext; done || apply u32_range.
  - rewrite Hget by (apply Hmem; tauto). apply Hnext; done || apply u32_range.
  - rewrite Hset by (apply Hmem; tauto). apply Hnext; try done. unfold zlen. rewrite length_insert. done.
  - rewrite Hset by (apply Hmem; tauto). apply Hnext; try done. unfold zlen. rewrite length_insert. done.
  - destruct (Hja eq_refl). by apply Hjump.
  - destruct (Hjmp j s eq_refl). apply Hjump; destruct (jtest _ _ _); lia.
  - destruct (alu o A _) as [A'|] eqn:Ea; [apply Hnext; try done; eapply (alu_u32 o A); [done| |exact Ea]; by destruct s|].
    destruct s; [|done]. destruct o; try done. cbn in Ea. destruct (Z.eqb_spec (u32 (bi_k i)) 0); [|done].
    by destruct (div_ok f Hf pc i ltac:(lia) Hi Ho).
Qed.

(** Every run ends: the program counter goes forward. *)
Lemma run_ok f l wirelen : program_ok f -> 0 < zlen l < 2147483648 -> 0 <= wirelen < 4294967296 -> forall n s,
  state_ok f s -> zlen f - b_pc s <= Z.of_nat n ->
  (exists v, bpf_run n f (PBuf l) wirelen s = Ret v /\ 0 <= v < 4294967296) \/
  (bpf_run n f (PBuf l) wirelen s = Panic wild_packet /\ exists s', reaches f (PBuf l) wirelen s s' /\ wraps f l s').
Proof.
  intros Hf Hl Hw n. induction n as [|n IH]; intros s Hs Hn; [destruct Hs; lia|]. cbn [bpf_run].
  pose proof (step_ok f l wirelen s Hf Hl Hw Hs) as Hg. destruct (bpf_step _ _ _ _) as [[v|s']|msg|] eqn:Es; cbn [obind] in *.
  - left. eauto.
  - destruct Hg as [Hs' Hlt]. destruct (IH s' Hs' ltac:(lia)) as [?|[E (s'' & Hr & Hx)]]; [by left|]. right.
    split; [done|]. exists s''. split; [by eapply reaches_step|done].
  - destruct Hg as [-> Hx]. right. split; [done|]. exists s. split; [constructor|done].
  - done.
Qed.

Lemma bpf_filter_run f l wirelen A X mem :
  program_ok f -> 0 < zlen l < 2147483648 -> 0 <= wirelen < 4294967296 ->
  0 <= A < 4294967296 -> 0 <= X < 4294967296 -> zlen mem = BPF_MEMWORDS ->
  (exists v, bpf_filter (Some f) (PBuf l) wirelen A X mem = Ret v /\ 0 <= v < 4294967296) \/
  (bpf_filter (Some f) (PBuf l) wirelen A X mem = Panic wild_packet /\
   exists s, reaches f (PBuf l) wirelen (mkBst 0 A X mem) s /\ wraps f l s).
Proof.
  intros Hf Hl Hw HA HX HM. assert (0 < zlen f).
  { pose proof (po_valid _ Hf) as Hv. unfold bpf_validate in Hv. destruct f; [done|]. rewrite zlen_cons. pose proof (zlen_nonneg f). lia. }
  unfold bpf_filter. apply (run_ok f l wirelen Hf Hl Hw (length f) (mkBst 0 A X mem)); [by split|].
  cbn. unfold zlen. lia.
Qed.

(** A program without loads that may wrap never does. *)
Lemma no_wrap f l s : existsb may_wrap f = false -> ~ wraps f l s.
Proof.
  intros Hf (i & n & k & _ & Hi & Hw & Hk & _). assert (Hm : may_wrap i = true).
  { unfold may_wrap. destruct Hw as [(-> & _ & E)|[(-> & _ & E)|[(-> & _)|(-> & _)]]]; try done; cbn; apply Z.ltb_lt; lia. }
  apply list_elem_of_lookup_2, list_elem_of_In in Hi. rewrite <- not_true_iff_false in Hf. apply Hf, existsb_exists. by exists i.
Qed.

(** C28: type soundness of filter programs.  Take a program of at most BPF_MAXINSNS
    instructions that bpf_validate accepts, and that also passes the tests it omits (a
    [ja] goes forward, the operands of [ldx mem] and [stx] are in the scratch memory).
    On every packet in one buffer (not in mbufs), whatever the stack holds at the start,
    bpf_filter returns a word within as many steps as the program has instructions: it
    never leaves the program, the scratch memory or the packet and never divides by zero.
    The one exception is a run that gets to a load of two or four bytes at an offset before the
    packet (-4 to -1, -2 to -1) whose end is back in the packet, so that the unsigned test
    against buflen passes: the bytes before the packet are read.  A program with no
    negative offsets and no indexed loads of that size never gets there. *)
Theorem bpf_filter_sound f l wirelen A X mem :
  program_ok f -> 0 < zlen l < 2147483648 -> 0 <= wirelen < 4294967296 ->
  0 <= A < 4294967296 -> 0 <= X < 4294967296 -> zlen mem = BPF_MEMWORDS ->
  ((exists v, bpf_filter (Some f) (PBuf l) wirelen A X mem = Ret v /\ 0 <= v < 4294967296) \/
   (bpf_filter (Some f) (PBuf l) wirelen A X mem = Panic wild_packet /\
    exists s, reaches f (PBuf l) wirelen (mkBst 0 A X mem) s /\ wraps f l s)) /\
  (existsb may_wrap f = false -> forall s, ~ wraps f l s).
Proof. intros. split; [by apply bpf_filter_run|]. intros. by apply no_wrap. Qed.

(** ** What bpf_validate lets through *)

(** [ja -1] *)
Definition loops : list bpf_insn := [mkInsn 5 0 0 (-1); mkInsn 6 0 0 0].
(** [stx mem\[1000\]] *)
Definition pokes : list bpf_insn := [mkInsn 3 0 0 1000; mkInsn 6 0 0 0].
(** [ld \[-4\]] *)
Definition peeks : list bpf_insn := [mkInsn 32 0 0 (-4); mkInsn 22 0 0 0].

(** C29: the tests that bpf_validate omits matter.  It accepts a program that jumps back to
    itself, on which bpf_filter never returns for any packet; a program that writes
    outside the scratch memory; and a program that reads the four bytes in front of any
    packet, because the end of the load wraps to 0. *)
Theorem bpf_validate_gaps :
  (bpf_validate loops = Ret true /\ forall n p w A X mem, bpf_run n loops p w (mkBst 0 A X mem) = OutOfFuel) /\
  (bpf_validate pokes = Ret true /\ forall p w A X, bpf_filter (Some pokes) p w A X (repeat 0 16) = Panic "bpf_filter: mem") /\
  (bpf_validate peeks = Ret true /\ forall l w A X mem, bpf_filter (Some peeks) (PBuf l) w A X mem = Panic wild_packet).
Proof.
  split_and!; try reflexivity.
  - intros n p w A X mem. induction n as [|n IH]; [done|]. cbn [bpf_run]. exact IH.
  - intros l w A X mem. unfold bpf_filter. cbn [length peeks bpf_run].
    assert (El : load_sz (PBuf l) (-4) SzW = Panic wild_packet).
    { cbn [load_sz]. unfold load. change (u32 (-4 + 4)) with 0. cbn [buflen]. change (4 =? 1) with false. cbv iota zeta.
      rewrite Z.gtb_ltb, (proj2 (Z.ltb_ge _ _)) by apply zlen_nonneg. done. }
    unfold bpf_step. revert El. generalize (load_sz (PBuf l)). intros L HL. simpl. by rewrite HL.
Qed.

(** ** A filter for UDP packets to port 53 over Ethernet *)

Definition udp53 : list bpf_insn :=
  [mkInsn 40 0 0 12; mkInsn 21 0 6 2048; mkInsn 48 0 0 23; mkInsn 21 0 4 17; mkInsn 40 0 0 36; mkInsn 21 0 2 53;
   mkInsn 128 0 0 0; mkInsn 22 0 0 0; mkInsn 6 0 0 0].
Definition frame53 : list Z := repeat 0 12 ++ [8; 0] ++ repeat 0 9 ++ [17] ++ repeat 0 12 ++ [0; 53] ++ repeat 0 20.

Lemma bpf_filter_sound_witness :
  program_ok udp53 /\ existsb may_wrap udp53 = false /\
  exists v, bpf_filter (Some udp53) (PBuf frame53) 60 7 7 (repeat 9 16) = Ret v /\ v = 60.
Proof.
  assert (Hp : program_ok udp53).
  { split; try reflexivity; [|vm_compute; congruence]. repeat constructor; vm_compute; congruence. }
  split; [exact Hp|]. split; [reflexivity|].
  destruct (bpf_filter_sound udp53 frame53 60 7 7 (repeat 9 16) Hp) as [[(v & E & _)|[_ (s & _ & Hx)]] Hn];
    [split; reflexivity|lia..|reflexivity| |by destruct (Hn eq_refl s)].
  exists v. split; [exact E|]. vm_compute in E. injection E as <-. reflexivity.
Defined.

End BpfOk.
