(* ===== verification/BpfDev.v ===== *)
(** The BPF device (src/sys/net/bpf.c, bpfdesc.h): packets that pass the filter of a
    descriptor are appended to its store buffer; full buffers move to the hold slot, where
    bpfread finds them.

    [bpf_dtab] is a list; a pointer to a descriptor is its index plus one, and 0 is the
    null pointer.  A slot holds the bytes of its buffer.  bpfread is cut where it sleeps
    and where it copies to user space, since packets can arrive there; [reader] is where
    the reading process is. *)
From S2P Require Import Prelude Mbuf TcpVar TcpHdr Bpf.
Import Mbuf TcpHdr Bpf.

Module BpfDev.

Definition ENXIO : Z := 6.
Definition EBUSY : Z := 16.
Definition EINVAL : Z := 22.
Definition EIO : Z := 5.
Definition EINTR : Z := 4.
Definition ERESTART : Z := -1.
Definition EWOULDBLOCK : Z := 35.
Definition ENETDOWN : Z := 50.
Definition EMSGSIZE : Z := 40.
Definition ENOBUFS : Z := 55.
Definition IFF_UP : Z := 1.
Definition IFF_PROMISC : Z := 256.
Definition BPF_MAXBUFSIZE : Z := 32768.
Definition BPF_MINBUFSIZE : Z := 32.
Definition BPF_MAXINSNS : Z := 512.
Definition SIZEOF_BPF_HDR : Z := 18.
Definition BPF_WORDALIGN (x : Z) : Z := Z.land (u32 (x + 3)) (u32 (Z.lnot 3)).

(** ** Descriptors and interfaces *)

Record bpf_d := mkBpfd {
  bd_next : Z;
  bd_sbuf : option (list Z);
  bd_hbuf : option (list Z);
  bd_fbuf : option (list Z);
  bd_slen : Z;
  bd_hlen : Z;
  bd_bufsize : Z;
  bd_bif : option Z;                   (* index in the list of interfaces *)
  bd_rtout : Z;
  bd_filter : option (list bpf_insn);
  bd_rcount : Z;
  bd_dcount : Z;
  bd_promisc : bool;
  bd_immediate : bool;
  bd_wakeups : Z                       (* calls of bpf_wakeup *)
}.
Definition eta_bpf_d (r : bpf_d) : bpf_d :=
  mkBpfd (bd_next r) (bd_sbuf r) (bd_hbuf r) (bd_fbuf r) (bd_slen r) (bd_hlen r) (bd_bufsize r) (bd_bif r) (bd_rtout r)
    (bd_filter r) (bd_rcount r) (bd_dcount r) (bd_promisc r) (bd_immediate r) (bd_wakeups r).
#[global] Instance set_bd_next : Setter bd_next := ltac:(mk_setter eta_bpf_d).
#[global] Instance set_bd_sbuf : Setter bd_sbuf := ltac:(mk_setter eta_bpf_d).
#[global] Instance set_bd_hbuf : Setter bd_hbuf := ltac:(mk_setter eta_bpf_d).
#[global] Instance set_bd_fbuf : Setter bd_fbuf := ltac:(mk_setter eta_bpf_d).
#[global] Instance set_bd_slen : Setter bd_slen := ltac:(mk_setter eta_bpf_d).
#[global] Instance set_bd_hlen : Setter bd_hlen := ltac:(mk_setter eta_bpf_d).
#[global] Instance set_bd_bufsize : Setter bd_bufsize := ltac:(mk_setter eta_bpf_d).
#[global] Instance set_bd_bif : Setter bd_bif := ltac:(mk_setter eta_bpf_d).
#[global] Instance set_bd_rtout : Setter bd_rtout := ltac:(mk_setter eta_bpf_d).
#[global] Instance set_bd_filter : Setter bd_filter := ltac:(mk_setter eta_bpf_d).
#[global] Instance set_bd_rcount : Setter bd_rcount := ltac:(mk_setter eta_bpf_d).
#[global] Instance set_bd_dcount : Setter bd_dcount := ltac:(mk_setter eta_bpf_d).
#[global] Instance set_bd_promisc : Setter bd_promisc := ltac:(mk_setter eta_bpf_d).
#[global] Instance set_bd_immediate : Setter bd_immediate := ltac:(mk_setter eta_bpf_d).
#[global] Instance set_bd_wakeups : Setter bd_wakeups := ltac:(mk_setter eta_bpf_d).

(** An interface; [bif_driverp] is whether the driver has been told to divert packets. *)
Record bpf_if := mkBif {
  bif_dlist : Z;
  bif_driverp : bool;
  bif_dlt : Z;
  bif_hdrlen : Z;
  bif_name : list Z;
  bif_unit : Z;
  bif_flags : Z;       (* if_flags *)
  bif_pcount : Z       (* if_pcount *)
}.
Definition eta_bpf_if (r : bpf_if) : bpf_if :=
  mkBif (bif_dlist r) (bif_driverp r) (bif_dlt r) (bif_hdrlen r) (bif_name r) (bif_unit r) (bif_flags r) (bif_pcount r).
#[global] Instance set_bif_dlist : Setter bif_dlist := ltac:(mk_setter eta_bpf_if).
#[global] Instance set_bif_driverp : Setter bif_driverp := ltac:(mk_setter eta_bpf_if).
#[global] Instance set_bif_flags : Setter bif_flags := ltac:(mk_setter eta_bpf_if).
#[global] Instance set_bif_pcount : Setter bif_pcount := ltac:(mk_setter eta_bpf_if).

(** ** Buffers *)

(** [ROTATE_BUFFERS] *)
Definition ROTATE_BUFFERS (d : bpf_d) : bpf_d :=
  d <| bd_hbuf := bd_sbuf d |> <| bd_hlen := bd_slen d |> <| bd_sbuf := bd_fbuf d |> <| bd_slen := 0 |> <| bd_fbuf := None |>.

Definition bpf_wakeup (d : bpf_d) : bpf_d := d <| bd_wakeups := bd_wakeups d + 1 |>.

Definition poke (buf : list Z) (off : Z) (b : list Z) : outcome (list Z) :=
  if (0 <=? off) && (off + zlen b <=? zlen buf) then Ret (ztake off buf ++ b ++ zdrop (off + zlen b) buf)
  else Panic "bpf: write outside the buffer".

(** The two copy routines: [n] bytes of the packet. *)
Definition bcopy (l : list Z) (n : Z) : outcome (list Z) :=
  if n <=? zlen l then Ret (ztake n l) else Panic "bpf: read outside the packet".
Fixpoint bpf_mcopy (m : chain) (len : Z) : outcome (list Z) :=
  if len >? 0 then
    match m with
    | [] => Panic "bpf_mcopy"
    | m1 :: ms =>
        let count := cmin (m_len m1) len in
        let! rest := bpf_mcopy ms (len - count) in Ret (ztake count (m_bytes m1) ++ rest)
    end
  else Ret [].

(** The end of catchpacket: the header and the data at [curlen] of the store buffer. *)
Definition append_cap (d : bpf_d) (curlen totlen hdrlen : Z) (cpfn : Z -> outcome (list Z)) (pktlen : Z) (now : Z * Z) : outcome bpf_d :=
  match bd_sbuf d with
  | None => Panic "catchpacket: null bd_sbuf"
  | Some buf =>
      let! buf := poke buf curlen (le32 now.1 ++ le32 now.2) in
      let! buf := poke buf (curlen + 12) (le32 pktlen) in
      let! buf := poke buf (curlen + 16) (le16 hdrlen) in
      let caplen := u32 (totlen - hdrlen) in
      let! buf := poke buf (curlen + 8) (le32 caplen) in
      let! data := cpfn caplen in
      let! buf := poke buf (curlen + hdrlen) data in
      Ret (d <| bd_sbuf := Some buf |> <| bd_slen := curlen + totlen |>)
  end.

(** [catchpacket]; [hdrlen] is bif_hdrlen, [now] the time. *)
Definition catchpacket (d : bpf_d) (hdrlen : Z) (cpfn : Z -> outcome (list Z)) (pktlen snaplen : Z) (now : Z * Z) : outcome bpf_d :=
  let totlen := s32 (hdrlen + cmin snaplen pktlen) in
  let totlen := if totlen >? bd_bufsize d then bd_bufsize d else totlen in
  let curlen := s32 (BPF_WORDALIGN (bd_slen d)) in
  if curlen + totlen >? bd_bufsize d then
    match bd_fbuf d with
    | None => Ret (d <| bd_dcount := u32 (bd_dcount d + 1) |>)
    | Some _ => append_cap (bpf_wakeup (ROTATE_BUFFERS d)) 0 totlen hdrlen cpfn pktlen now
    end
  else append_cap (if bd_immediate d then bpf_wakeup d else d) curlen totlen hdrlen cpfn pktlen now.

(** One turn of the loops of bpf_tap and bpf_mtap.  [junk] is what the stack holds for
    bpf_filter. *)
Record stack := mkStack { st_A : Z; st_X : Z; st_mem : list Z }.
Definition tap1 (d : bpf_d) (hdrlen : Z) (p : packet) (cpfn : Z -> outcome (list Z)) (pktlen : Z) (now : Z * Z) (junk : stack)
    : outcome bpf_d :=
  let d := d <| bd_rcount := u32 (bd_rcount d + 1) |> in
  let! slen := bpf_filter (bd_filter d) p pktlen (st_A junk) (st_X junk) (st_mem junk) in
  if negb (slen =? 0) then catchpacket d hdrlen cpfn pktlen slen now else Ret d.

(** [reset_d] *)
Definition reset_d (d : bpf_d) : bpf_d :=
  let d := match bd_hbuf d with Some b => d <| bd_fbuf := Some b |> <| bd_hbuf := None |> | None => d end in
  d <| bd_slen := 0 |> <| bd_hlen := 0 |> <| bd_rcount := 0 |> <| bd_dcount := 0 |>.

(** ** Reading *)

(** Where the reading process is: not in bpfread, asleep in it, or copying the hold buffer to
    user space (with the bytes that uiomove was given). *)
Inductive reader := RIdle | RSleep | RMove (data : list Z).
Inductive rret := Pending | Returns (error : Z).

(** The hold slot is occupied: uiomove starts. *)
Definition moving (d : bpf_d) : bpf_d * reader :=
  (d, RMove (match bd_hbuf d with Some b => ztake (bd_hlen d) b | None => [] end)).

(** The loop of bpfread up to the point where it sleeps. *)
Definition read_check (d : bpf_d) : bpf_d * reader :=
  match bd_hbuf d with
  | Some _ => moving d
  | None => if bd_immediate d && negb (bd_slen d =? 0) then moving (ROTATE_BUFFERS d) else (d, RSleep)
  end.

Definition bpfread (d : bpf_d) (resid : Z) : bpf_d * reader * rret :=
  if negb (resid =? bd_bufsize d) then (d, RIdle, Returns EINVAL) else (read_check d, Pending).

(** The sleep has ended with [error]. *)
Definition read_wake (d : bpf_d) (error : Z) : bpf_d * reader * rret :=
  if (error =? EINTR) || (error =? ERESTART) then (d, RIdle, Returns error)
  else if error =? EWOULDBLOCK then
    match bd_hbuf d with
    | Some _ => (moving d, Pending)
    | None => if bd_slen d =? 0 then (d, RIdle, Returns 0) else (moving (ROTATE_BUFFERS d), Pending)
    end
  else (read_check d, Pending).

(** uiomove has returned: the hold buffer is free. *)
Definition read_done (d : bpf_d) (error : Z) : bpf_d * reader * rret :=
  (d <| bd_fbuf := bd_hbuf d |> <| bd_hbuf := None |> <| bd_hlen := 0 |>, RIdle, Returns error).

(** ** The table of descriptors *)

Definition NBPFILTER : Z := 16.

Record bpfst := mkBpfst { bs_dtab : list bpf_d; bs_ifs : list bpf_if }.

Definition get_d (s : bpfst) (n : Z) : outcome bpf_d :=
  if n <? 0 then Panic "bpf: wild descriptor"
  else match bs_dtab s !! Z.to_nat n with Some d => Ret d | None => Panic "bpf: wild descriptor" end.
Definition set_d (s : bpfst) (n : Z) (d : bpf_d) : bpfst := mkBpfst (<[Z.to_nat n := d]> (bs_dtab s)) (bs_ifs s).
Definition get_bif (s : bpfst) (n : Z) : outcome bpf_if :=
  match bs_ifs s !! Z.to_nat n with Some b => Ret b | None => Panic "bpf: wild interface" end.
Definition set_bif (s : bpfst) (n : Z) (b : bpf_if) : bpfst := mkBpfst (bs_dtab s) (<[Z.to_nat n := b]> (bs_ifs s)).

(** A descriptor is free when bd_next points to itself. *)
Definition D_ISFREE (n : Z) (d : bpf_d) : bool := bd_next d =? n + 1.
Definition D_MARKFREE (n : Z) (d : bpf_d) : bpf_d := d <| bd_next := n + 1 |>.

(** The loop over the descriptors of an interface, from the pointer [p]. *)
Fixpoint dlist_loop (fuel : nat) (s : bpfst) (p : Z) (f : bpf_d -> outcome bpf_d) : outcome bpfst :=
  if p =? 0 then Ret s
  else
    match fuel with
    | O => OutOfFuel
    | S fuel =>
        let! d := get_d s (p - 1) in
        let! d' := f d in
        dlist_loop fuel (set_d s (p - 1) d') (bd_next d') f
    end.

Definition bpf_tap (s : bpfst) (bp : Z) (pkt : list Z) (now : Z * Z) (junk : stack) : outcome bpfst :=
  let! b := get_bif s bp in
  dlist_loop (length (bs_dtab s)) s (bif_dlist b)
    (fun d => tap1 d (bif_hdrlen b) (PBuf pkt) (bcopy pkt) (zlen pkt) now junk).

Definition mtap_len (m : chain) : Z := fold_left (fun n m1 => u32 (n + m_len m1)) m 0.

Definition bpf_mtap (s : bpfst) (bp : Z) (m : chain) (now : Z * Z) (junk : stack) : outcome bpfst :=
  let! b := get_bif s bp in
  let pktlen := mtap_len m in
  dlist_loop (length (bs_dtab s)) s (bif_dlist b)
    (fun d => tap1 d (bif_hdrlen b) (PMbuf m) (bpf_mcopy m) pktlen now junk).

(** [bpf_attachd] *)
Definition bpf_attachd (s : bpfst) (n bp : Z) : outcome bpfst :=
  let! d := get_d s n in
  let! b := get_bif s bp in
  let s := set_d s n (d <| bd_bif := Some bp |> <| bd_next := bif_dlist b |>) in
  Ret (set_bif s bp (b <| bif_dlist := n + 1 |> <| bif_driverp := true |>)).

(** [ifpromisc]; [ioctl] is the result of the driver's if_ioctl. *)
Definition ifpromisc (b : bpf_if) (pswitch : bool) (ioctl : Z) : Z * bpf_if :=
  if negb (hasf (bif_flags b) IFF_UP) then (ENETDOWN, b)
  else if pswitch then
    let old := bif_pcount b in
    let b := b <| bif_pcount := old + 1 |> in
    if negb (old =? 0) then (0, b) else (ioctl, b <| bif_flags := setb (bif_flags b) IFF_PROMISC |>)
  else
    let b := b <| bif_pcount := bif_pcount b - 1 |> in
    if bif_pcount b >? 0 then (0, b) else (ioctl, b <| bif_flags := clrb (bif_flags b) IFF_PROMISC |>).

(** The walk of bpf_detachd: [p] is the descriptor whose link is looked at. *)
Fixpoint unlink (fuel : nat) (s : bpfst) (p target : Z) : outcome bpfst :=
  match fuel with
  | O => OutOfFuel
  | S fuel =>
      let! d := get_d s (p - 1) in
      if bd_next d =? 0 then Panic "bpf_detachd: descriptor not in list"
      else if bd_next d =? target then
        let! t := get_d s (target - 1) in
        Ret (set_d s (p - 1) (d <| bd_next := bd_next t |>))
      else unlink fuel s (bd_next d) target
  end.

Definition bpf_detachd (s : bpfst) (n ioctl : Z) : outcome bpfst :=
  let! d := get_d s n in
  match bd_bif d with
  | None => Panic "bpf_detachd: null bd_bif"
  | Some bp =>
      let! b := get_bif s bp in
      let! s :=
        (if bd_promisc d then
           let s := set_d s n (d <| bd_promisc := false |>) in
           let '(error, b) := ifpromisc b false ioctl in
           if negb (error =? 0) then Panic "bpf: ifpromisc failed" else Ret (set_bif s bp b)
         else Ret s) in
      let! b := get_bif s bp in
      let! s :=
        (if bif_dlist b =? n + 1 then
           let! d := get_d s n in Ret (set_bif s bp (b <| bif_dlist := bd_next d |>))
         else if bif_dlist b =? 0 then Panic "bpf_detachd: null bif_dlist"
         else unlink (length (bs_dtab s)) s (bif_dlist b) (n + 1)) in
      let! b := get_bif s bp in
      let s := if bif_dlist b =? 0 then set_bif s bp (b <| bif_driverp := false |>) else s in
      let! d := get_d s n in
      Ret (set_d s n (d <| bd_bif := None |>))
  end.

(** ** Opening, closing and control *)

(** [malloc] of a buffer may fail; [junk] is what it holds. *)
Definition bpf_allocbufs (d : bpf_d) (fbuf sbuf : option (list Z)) : Z * bpf_d :=
  match fbuf with
  | None => (ENOBUFS, d <| bd_fbuf := None |>)
  | Some _ =>
      match sbuf with
      | None => (ENOBUFS, d <| bd_fbuf := fbuf |> <| bd_sbuf := None |>)
      | Some _ => (0, d <| bd_fbuf := fbuf |> <| bd_sbuf := sbuf |> <| bd_slen := 0 |> <| bd_hlen := 0 |>)
      end
  end.

Definition bpfopen (s : bpfst) (n bpf_bufsize : Z) : outcome (Z * bpfst) :=
  if n >=? NBPFILTER then Ret (ENXIO, s)
  else
    let! d := get_d s n in
    if negb (D_ISFREE n d) then Ret (EBUSY, s)
    else Ret (0, set_d s n (mkBpfd 0 None None None 0 0 bpf_bufsize None 0 None 0 0 false false 0)).

(** [bpf_freed]: the freed buffers are forgotten by the next open only. *)
Definition bpf_freed (n : Z) (d : bpf_d) : bpf_d := D_MARKFREE n d.

Definition bpfclose (s : bpfst) (n ioctl : Z) : outcome bpfst :=
  let! d := get_d s n in
  let! s := (match bd_bif d with Some _ => bpf_detachd s n ioctl | None => Ret s end) in
  let! d := get_d s n in
  Ret (set_d s n (bpf_freed n d)).

(** [bpf_setf]; [copyin] is whether copyin succeeds. *)
Definition bpf_setf (d : bpf_d) (bf_insns : option (list bpf_insn)) (bf_len : Z) (copyin : bool) : outcome (Z * bpf_d) :=
  match bf_insns with
  | None => Ret (if negb (bf_len =? 0) then (EINVAL, d) else (0, reset_d (d <| bd_filter := None |>)))
  | Some fcode =>
      if bf_len >? BPF_MAXINSNS then Ret (EINVAL, d)
      else if negb copyin then Ret (EINVAL, d)
      else
        let! ok := bpf_validate fcode in
        Ret (if ok : bool then (0, reset_d (d <| bd_filter := Some fcode |>)) else (EINVAL, d))
  end.

(** The name in ifr_name: the part before the first digit, which is not looked for at the
    first character, and the number behind it. *)
Definition cstr (l : list Z) : list Z :=
  (fix go l := match l with [] => [] | c :: l => if c =? 0 then [] else c :: go l end) (take 15 l).
Fixpoint split_unit (l : list Z) : list Z * Z :=
  match l with
  | [] => ([], 0)
  | c :: l =>
      if (48 <=? c) && (c <=? 57) then ([], fold_left (fun u c => s32 (10 * u + c - 48)) l (c - 48))
      else let '(a, u) := split_unit l in (c :: a, u)
  end.
Definition split_name (l : list Z) : list Z * Z :=
  match cstr l with [] => ([], 0) | c :: l => let '(a, u) := split_unit l in (c :: a, u) end.

Definition same_if (name : list Z) (unit : Z) (b : bpf_if) : bool := (unit =? bif_unit b) && bool_decide (bif_name b = name).

(** The interface: the list starts with the one attached last. *)
Definition find_if (name : list Z) (unit : Z) (l : list bpf_if) : option (Z * bpf_if) :=
  List.find (fun x => same_if name unit x.2) (rev (imap (fun i b => (Z.of_nat i, b)) l)).

Definition bpf_setif (s : bpfst) (n : Z) (ifr_name : list Z) (fbuf sbuf : option (list Z)) (ioctl : Z) : outcome (Z * bpfst) :=
  let '(name, unit) := split_name ifr_name in
  let! d := get_d s n in
  match find_if name unit (bs_ifs s) with
  | None => Ret (ENXIO, s)
  | Some (bp, b) =>
      if negb (hasf (bif_flags b) IFF_UP) then Ret (ENETDOWN, s)
      else
        let '(error, d) := match bd_sbuf d with None => bpf_allocbufs d fbuf sbuf | Some _ => (0, d) end in
        let s := set_d s n d in
        if negb (error =? 0) then Ret (error, s)
        else
          let! s :=
            (if bool_decide (bd_bif d = Some bp) then Ret s
             else
               let! s := (match bd_bif d with Some _ => bpf_detachd s n ioctl | None => Ret s end) in
               bpf_attachd s n bp) in
          let! d := get_d s n in
          Ret (0, set_d s n (reset_d d))
  end.

(** [bpf_ifname]: the bytes written to ifr_name. *)
Definition bpf_ifname (b : bpf_if) : list Z := bif_name b ++ [0] ++ [u8 (bif_unit b + 48)] ++ [0].

(** The commands of bpfioctl with their arguments; [SIOCGIFADDR] passes the result of the
    driver on. *)
Inductive bioctl :=
| FIONREAD
| SIOCGIFADDR (ioctl : Z)
| BIOCGBLEN
| BIOCSBLEN (size : Z)
| BIOCSETF (insns : option (list bpf_insn)) (len : Z) (copyin : bool)
| BIOCFLUSH
| BIOCPROMISC (ioctl : Z)
| BIOCGDLT
| BIOCGETIF
| BIOCSETIF (name : list Z) (fbuf sbuf : option (list Z)) (ioctl : Z)
| BIOCSRTIMEOUT (sec usec : Z)
| BIOCGRTIMEOUT
| BIOCGSTATS
| BIOCIMMEDIATE (v : Z)
| BIOCVERSION
| BIOCother.

(** The result is the error, what is stored at [addr], and the state; [tick] is the length
    of a clock tick in microseconds. *)
Definition bpfioctl (s : bpfst) (n : Z) (cmd : bioctl) (tick : Z) : outcome (Z * list Z * bpfst) :=
  let! d := get_d s n in
  let ret error out d := Ret (error, out, set_d s n d) in
  let with_bif k := match bd_bif d with None => ret EINVAL [] d | Some bp => let! b := get_bif s bp in k bp b end in
  match cmd with
  | FIONREAD => ret 0 [match bd_hbuf d with Some _ => bd_slen d + bd_hlen d | None => bd_slen d end] d
  | SIOCGIFADDR e => with_bif (fun _ _ => ret e [] d)
  | BIOCGBLEN => ret 0 [bd_bufsize d] d
  | BIOCSBLEN size =>
      match bd_bif d with
      | Some _ => ret EINVAL [] d
      | None =>
          let size := if u32 size >? BPF_MAXBUFSIZE then BPF_MAXBUFSIZE
                      else if u32 size <? BPF_MINBUFSIZE then BPF_MINBUFSIZE else u32 size in
          ret 0 [size] (d <| bd_bufsize := size |>)
      end
  | BIOCSETF insns len copyin => let! (error, d) := bpf_setf d insns len copyin in ret error [] d
  | BIOCFLUSH => ret 0 [] (reset_d d)
  | BIOCPROMISC ioctl =>
      with_bif (fun bp b =>
        if bd_promisc d then ret 0 [] d
        else
          let '(error, b) := ifpromisc b true ioctl in
          Ret (error, [], set_bif (set_d s n (if error =? 0 then d <| bd_promisc := true |> else d)) bp b))
  | BIOCGDLT => with_bif (fun _ b => ret 0 [bif_dlt b] d)
  | BIOCGETIF => with_bif (fun _ b => ret 0 (bpf_ifname b) d)
  | BIOCSETIF name fbuf sbuf ioctl => let! (error, s) := bpf_setif s n name fbuf sbuf ioctl in Ret (error, [], s)
  | BIOCSRTIMEOUT sec usec =>
      if tick / 1000 =? 0 then Panic "bpfioctl: division by zero"
      else ret 0 [] (d <| bd_rtout := u32 (s32 (sec * 1000 + usec ÷ 1000)) / (tick / 1000) |>)
  | BIOCGRTIMEOUT => let msec := u32 (bd_rtout d * (tick / 1000)) in ret 0 [msec / 1000; msec mod 1000] d
  | BIOCGSTATS => ret 0 [bd_rcount d; bd_dcount d] d
  | BIOCIMMEDIATE v => ret 0 [] (d <| bd_immediate := negb (u8 v =? 0) |>)
  | BIOCVERSION => ret 0 [1; 1] d
  | BIOCother => ret EINVAL [] d
  end.

(** [bpfattach] of an interface with a link header of [hdrlen] bytes. *)
Definition bpfattach (s : bpfst) (dlt hdrlen : Z) (name : list Z) (unit flags : Z) : outcome bpfst :=
  let b := mkBif 0 false dlt (BPF_WORDALIGN (hdrlen + SIZEOF_BPF_HDR) - hdrlen) name unit flags 0 in
  let! d := get_d s 0 in
  let dtab := if negb (D_ISFREE 0 d) then imap (fun i d => D_MARKFREE (Z.of_nat i) d) (bs_dtab s) else bs_dtab s in
  Ret (mkBpfst dtab (bs_ifs s ++ [b])).

(** [bpf_select] for reading: whether there is data. *)
Definition bpf_select (d : bpf_d) : bool := negb (bd_hlen d =? 0) || (bd_immediate d && negb (bd_slen d =? 0)).

End BpfDev.
