(* ===== verification/BpfDevOk.v ===== *)
(** Correctness of the BPF device: what is captured, in which order, and what the reading
    process gets. *)
From S2P Require Import Prelude Mbuf TcpHdr Bpf BpfOk BpfDev.
Import Mbuf TcpHdr Bpf BpfOk BpfDev.

Module BpfDevOk.

(** ** What a buffer holds *)

(** A captured packet: the time, the length of the packet, the bytes. *)
Record cap := mkCap { cp_time : Z * Z; cp_datalen : Z; cp_data : list Z }.

Definition rdle16 (l : list Z) (i : nat) : Z := get l i + 256 * get l (i + 1).
Definition rdle32 (l : list Z) (i : nat) : Z := rdle16 l i + 65536 * rdle16 l (i + 2).

(** How a process reads a buffer: the header says where the data are and how many, and the
    next header starts at the next multiple of four. *)
Fixpoint parse_caps (fuel : nat) (l : list Z) : option (list cap) :=
  match l, fuel with
  | [], _ => Some []
  | _, O => None
  | _, S fuel =>
      let caplen := rdle32 l 8 in
      let hdrlen := rdle16 l 16 in
      let r := mkCap (rdle32 l 0, rdle32 l 4) (rdle32 l 12) (zsub hdrlen caplen l) in
      cons r <$> parse_caps fuel (zdrop (BPF_WORDALIGN (hdrlen + caplen)) l)
  end.
Definition parse (l : list Z) : option (list cap) := parse_caps (length l) l.

(** ** Alignment *)

Lemma wordalign_eq n : 0 <= n < 2147483648 -> BPF_WORDALIGN n = (n + 3) / 4 * 4.
Proof.
  intros Hn. unfold BPF_WORDALIGN, u32. rewrite (Z.mod_small (n + 3)) by lia.
  change (Z.lnot 3 mod 4294967296) with (Z.shiftl (Z.ones 30) 2).
  replace ((n + 3) / 4 * 4) with (Z.shiftl (Z.shiftr (n + 3) 2) 2) by (rewrite Z.shiftr_div_pow2, Z.shiftl_mul_pow2 by lia; done).
  apply Z.bits_inj'. intros i Hi. rewrite Z.land_spec, !Z.shiftl_spec by done. destruct (Z.lt_ge_cases i 2).
  - rewrite !(Z.testbit_neg_r _ (i - 2)) by lia. apply andb_false_r.
  - rewrite Z.shiftr_spec by lia. replace (i - 2 + 2) with i by lia. rewrite Z.testbit_ones_nonneg by lia.
    destruct (Z.ltb_spec (i - 2) 30); [apply andb_true_r|]. rewrite andb_false_r. symmetry.
    apply Z.bits_above_log2; [lia|]. destruct (Z.eq_dec (n + 3) 0) as [->|]; [cbn; lia|].
    apply Z.log2_lt_pow2; [lia|]. apply Z.lt_le_trans with (2 ^ 32); [lia|]. apply Z.pow_le_mono_r; lia.
Qed.

(** The aligned length, for the lengths that occur. *)
#[local] Abbreviation up4 n := ((n + 3) / 4 * 4).

(** ** The layout of a buffer *)

Section Layout.
Context (hdrlen : Z) (Hh : 18 <= hdrlen < 32).

Record cap_wf (r : cap) : Prop := {
  cw_sec : 0 <= r.(cp_time).1 < 4294967296;
  cw_usec : 0 <= r.(cp_time).2 < 4294967296;
  cw_datalen : 0 <= cp_datalen r < 4294967296;
  cw_data : zlen (cp_data r) < 65536
}.

Definition hdr_bytes (r : cap) : list Z :=
  le32 r.(cp_time).1 ++ le32 r.(cp_time).2 ++ le32 (zlen (cp_data r)) ++ le32 (cp_datalen r) ++ le16 hdrlen.

(** A record: the header, the space up to [hdrlen], and the data. *)
Inductive rec_bytes (r : cap) : list Z -> Prop :=
| rec_bytes_intro pad : cap_wf r -> zlen pad = hdrlen - 18 -> rec_bytes r (hdr_bytes r ++ pad ++ cp_data r).

(** Records one after the other, each starting at a multiple of four. *)
Inductive laid : list cap -> list Z -> Prop :=
| laid_nil : laid [] []
| laid_one r b : rec_bytes r b -> laid [r] b
| laid_cons r b pad rs bs : rec_bytes r b -> zlen b + zlen pad = up4 (zlen b) -> rs <> [] -> laid rs bs -> laid (r :: rs) (b ++ pad ++ bs).

Lemma rec_len r b : rec_bytes r b -> zlen b = hdrlen + zlen (cp_data r).
Proof. intros []. rewrite !zlen_app. change (zlen (hdr_bytes r)) with 18. lia. Qed.

Lemma laid_nonempty rs bs : laid rs bs -> rs <> [] -> 18 <= zlen bs.
Proof.
  intros [|r b Hb|r b pad rs' bs' Hb _ _ _] Hne; [done|..]; rewrite ?zlen_app, (rec_len _ _ Hb);
    pose proof (zlen_nonneg (cp_data r)); try (pose proof (zlen_nonneg pad); pose proof (zlen_nonneg bs')); lia.
Qed.

(** A record appended at the next multiple of four. *)
Lemma laid_snoc rs bs pad r b : laid rs bs -> zlen bs + zlen pad = up4 (zlen bs) -> rec_bytes r b -> laid (rs ++ [r]) (bs ++ pad ++ b).
Proof.
  intros Hl. revert pad. induction Hl as [|r0 b0 Hb0|r0 b0 pad0 rs bs Hb0 Hp0 Hne Hl IH]; intros pad Hp Hb.
  - change (zlen pad = 0) in Hp. rewrite (zlen_0 pad) by done. by apply laid_one.
  - by apply laid_cons; [..|apply laid_one].
  - rewrite <- !app_assoc. change ((r0 :: rs) ++ [r]) with (r0 :: (rs ++ [r])). apply laid_cons; [done|done|by destruct rs|].
    apply IH; [|done]. rewrite !zlen_app in Hp. assert (E : zlen b0 + zlen pad0 = 4 * ((zlen b0 + 3) / 4)) by lia.
    rewrite Z.add_assoc, E in Hp. replace (4 * ((zlen b0 + 3) / 4) + zlen bs + 3) with (zlen bs + 3 + (zlen b0 + 3) / 4 * 4) in Hp by lia.
    rewrite Z.div_add in Hp by done. lia.
Qed.

Lemma le32_val v : 0 <= v < 4294967296 ->
  v mod 256 + 256 * (v / 256 mod 256) + 65536 * (v / 65536 mod 256 + 256 * (v / 16777216 mod 256)) = v.
Proof. intros Hv. Z.to_euclidean_division_equations. lia. Qed.

Lemma read_hdr r b rest : rec_bytes r b ->
  let l := b ++ rest in
  (rdle32 l 0, rdle32 l 4) = cp_time r /\ rdle32 l 8 = zlen (cp_data r) /\ rdle32 l 12 = cp_datalen r /\ rdle16 l 16 = hdrlen.
Proof.
  intros [pad [H1 H2 H3 H4] Hp] l. unfold l, rdle32, rdle16, hdr_bytes, le32, le16. cbn [app get nth Nat.add]. pose proof (zlen_nonneg (cp_data r)).
  unfold get. cbn [nth app]. rewrite !le32_val by lia. split_and!; try done; [by destruct (cp_time r)|]. Z.to_euclidean_division_equations. lia.
Qed.

Lemma rec_data r b rest : rec_bytes r b -> zsub hdrlen (zlen (cp_data r)) (b ++ rest) = cp_data r.
Proof.
  intros [pad _ Hp]. assert (E : zlen (hdr_bytes r ++ pad) = hdrlen) by (rewrite zlen_app; change (zlen (hdr_bytes r)) with 18; lia).
  unfold zsub. rewrite app_assoc, <- app_assoc, zdrop_app_ge, E, Z.sub_diag, zdrop_le0, ztake_app_le, ztake_ge by (done || rewrite E; done). done.
Qed.

Lemma parse_step r b rest fuel : rec_bytes r b -> zlen (b ++ rest) < 65536 ->
  parse_caps (S fuel) (b ++ rest) = cons r <$> parse_caps fuel (zdrop (up4 (zlen b)) (b ++ rest)).
Proof.
  intros Hb Hz. pose proof (rec_len _ _ Hb) as Hlen. rewrite zlen_app in Hz. pose proof (zlen_nonneg rest). pose proof (zlen_nonneg (cp_data r)).
  destruct (read_hdr r b rest Hb) as (E1 & E2 & E3 & E4). pose proof (rec_data r b rest Hb) as Hd.
  destruct (b ++ rest) as [|x l] eqn:El; [apply app_eq_nil in El as [-> _]; change (zlen (@nil Z)) with 0 in Hlen; lia|].
  cbn [parse_caps]. rewrite E1, E2, E3, E4, Hd, Hlen, wordalign_eq by lia. by destruct r.
Qed.

(** A process reads back what is laid out. *)
Lemma parse_laid rs bs : laid rs bs -> forall fuel, zlen bs <= Z.of_nat fuel -> zlen bs < 65536 -> parse_caps fuel bs = Some rs.
Proof.
  induction 1 as [|r b Hb|r b pad rs bs Hb Hp Hne Hl IH]; intros fuel Hf Hz.
  - by destruct fuel.
  - pose proof (rec_len _ _ Hb) as Hlen. pose proof (zlen_nonneg (cp_data r)). destruct fuel as [|fuel]; [lia|].
    pose proof (parse_step r b [] fuel Hb) as Hs. rewrite app_nil_r in Hs. rewrite Hs by done.
    rewrite zdrop_ge by (Z.to_euclidean_division_equations; lia). by destruct fuel.
  - pose proof (rec_len _ _ Hb) as Hlen. pose proof (zlen_nonneg (cp_data r)). rewrite !zlen_app in Hf.
    pose proof (zlen_nonneg pad). pose proof (zlen_nonneg bs). destruct fuel as [|fuel]; [lia|].
    rewrite (parse_step r b _ fuel Hb Hz), <- Hp, app_assoc, zdrop_app_ge by (rewrite zlen_app; lia).
    rewrite zlen_app, Z.sub_diag, zdrop_le0 by done. rewrite !zlen_app in Hz. rewrite IH by lia. done.
Qed.

(** ** Appending a record *)

Lemma poke_mid (A B C X : list Z) off : off = zlen A -> zlen X = zlen B -> poke (A ++ B ++ C) off X = Ret (A ++ X ++ C).
Proof.
  intros -> Hx. unfold poke. rewrite !zlen_app. pose proof (zlen_nonneg A). pose proof (zlen_nonneg C).
  rewrite (proj2 (Z.leb_le _ _)), (proj2 (Z.leb_le _ _)) by lia. cbn [andb].
  rewrite ztake_app_le, ztake_ge by done. rewrite (app_assoc A B C), zdrop_app_ge, zlen_app by (rewrite zlen_app; lia).
  by rewrite Hx, Z.sub_diag, zdrop_le0.
Qed.

Lemma cut (n : Z) (l : list Z) : 0 <= n <= zlen l -> exists a b, l = a ++ b /\ zlen a = n /\ a = ztake n l.
Proof. intros Hn. exists (ztake n l), (zdrop n l). rewrite ztake_zdrop, zlen_ztake. split_and!; [done|lia|done]. Qed.

Lemma append_cap_ok d buf cur r cpfn :
  bd_sbuf d = Some buf -> 0 <= cur -> cur + hdrlen + zlen (cp_data r) <= zlen buf -> cap_wf r ->
  cpfn (zlen (cp_data r)) = Ret (cp_data r) ->
  exists buf' b, append_cap d cur (hdrlen + zlen (cp_data r)) hdrlen cpfn (cp_datalen r) (cp_time r) =
      Ret (d <| bd_sbuf := Some buf' |> <| bd_slen := cur + (hdrlen + zlen (cp_data r)) |>) /\
    rec_bytes r b /\ zlen buf' = zlen buf /\ ztake (cur + (hdrlen + zlen (cp_data r))) buf' = ztake cur buf ++ b.
Proof.
  intros Hb Hc Hlen Hw Hcp. pose proof (zlen_nonneg (cp_data r)) as Hd. pose proof (cw_data _ Hw).
  unfold append_cap. rewrite Hb. replace (u32 (hdrlen + zlen (cp_data r) - hdrlen)) with (zlen (cp_data r)) by wrap_lia.
  destruct (cut cur buf) as (A & l1 & E1 & L1 & ->); [lia|]. rewrite E1, zlen_app in Hlen.
  destruct (cut 8 l1) as (B1 & l2 & -> & L2 & _); [lia|]. rewrite zlen_app in Hlen.
  destruct (cut 4 l2) as (B2 & l3 & -> & L3 & _); [lia|]. rewrite zlen_app in Hlen.
  destruct (cut 4 l3) as (B3 & l4 & -> & L4 & _); [lia|]. rewrite zlen_app in Hlen.
  destruct (cut 2 l4) as (B4 & l5 & -> & L5 & _); [lia|]. rewrite zlen_app in Hlen.
  destruct (cut (hdrlen - 18) l5) as (P & l6 & -> & L6 & _); [lia|]. rewrite zlen_app in Hlen.
  destruct (cut (zlen (cp_data r)) l6) as (D & T & -> & L7 & _); [lia|].
  set (A := ztake cur buf) in *. rewrite E1. set (t := cp_time r).
  set (T1 := le32 t.1 ++ le32 t.2). set (T2 := le32 (zlen (cp_data r))). set (T3 := le32 (cp_datalen r)). set (T4 := le16 hdrlen).
  rewrite (poke_mid A B1 _ T1) by done. cbn [obind].
  replace (A ++ T1 ++ B2 ++ B3 ++ B4 ++ P ++ D ++ T) with ((A ++ T1 ++ B2) ++ B3 ++ (B4 ++ P ++ D ++ T)) by (by rewrite <- !app_assoc).
  assert (zlen T1 = 8 /\ zlen T2 = 4 /\ zlen T3 = 4 /\ zlen T4 = 2) as (Z1 & Z2 & Z3 & Z4) by done.
  rewrite (poke_mid _ B3 _ T3) by (rewrite ?zlen_app; lia). cbn [obind].
  replace ((A ++ T1 ++ B2) ++ T3 ++ B4 ++ P ++ D ++ T) with ((A ++ T1 ++ B2 ++ T3) ++ B4 ++ (P ++ D ++ T)) by (by rewrite <- !app_assoc).
  rewrite (poke_mid _ B4 _ T4) by (rewrite ?zlen_app; lia). cbn [obind].
  replace ((A ++ T1 ++ B2 ++ T3) ++ T4 ++ P ++ D ++ T) with ((A ++ T1) ++ B2 ++ (T3 ++ T4 ++ P ++ D ++ T)) by (by rewrite <- !app_assoc).
  rewrite (poke_mid _ B2 _ T2) by (rewrite ?zlen_app; lia). cbn [obind]. rewrite Hcp. cbn [obind].
  replace ((A ++ T1) ++ T2 ++ T3 ++ T4 ++ P ++ D ++ T) with ((A ++ T1 ++ T2 ++ T3 ++ T4 ++ P) ++ D ++ T) by (by rewrite <- !app_assoc).
  rewrite (poke_mid _ D _ (cp_data r)) by (rewrite ?zlen_app; lia). cbn [obind].
  eexists _, (hdr_bytes r ++ P ++ cp_data r). split; [reflexivity|]. split; [by constructor|]. split; [rewrite !zlen_app; lia|].
  replace ((A ++ T1 ++ T2 ++ T3 ++ T4 ++ P) ++ cp_data r ++ T) with ((A ++ hdr_bytes r ++ P ++ cp_data r) ++ T)
    by (unfold hdr_bytes; fold t T2 T3 T4; change (le32 t.1 ++ le32 t.2 ++ T2 ++ T3 ++ T4) with (T1 ++ T2 ++ T3 ++ T4); by rewrite <- !app_assoc).
  rewrite ztake_app_le, ztake_ge; rewrite ?zlen_app; change (zlen (hdr_bytes r)) with 18; lia || done.
Qed.

(** ** The state of a descriptor *)

(** The descriptor holds the records [hold] for the reader and [store] behind them; of its
    two buffers one is in the store slot and the other in the hold or the free slot. *)
Record dev_ok (d : bpf_d) (rd : reader) (hold : option (list cap)) (store : list cap) : Prop := {
  dk_size : 32 <= bd_bufsize d <= 32768;
  dk_store : exists sb, bd_sbuf d = Some sb /\ zlen sb = bd_bufsize d /\ 0 <= bd_slen d <= bd_bufsize d /\ laid store (ztake (bd_slen d) sb);
  dk_hold :
    match hold with
    | Some hs => bd_fbuf d = None /\
        exists hb, bd_hbuf d = Some hb /\ zlen hb = bd_bufsize d /\ 0 <= bd_hlen d <= bd_bufsize d /\ laid hs (ztake (bd_hlen d) hb)
    | None => bd_hbuf d = None /\ exists fb, bd_fbuf d = Some fb /\ zlen fb = bd_bufsize d
    end;
  dk_reader : forall data, rd = RMove data -> exists hb, bd_hbuf d = Some hb /\ data = ztake (bd_hlen d) hb
}.

(** What is kept of a packet. *)
Definition capture (bufsize : Z) (pkt : list Z) (snap : Z) (now : Z * Z) : cap :=
  mkCap now (zlen pkt) (ztake (Z.min (Z.min snap (zlen pkt)) (bufsize - hdrlen)) pkt).

(** A packet and a way to copy it. *)
Record pkt_ok (pkt : list Z) (now : Z * Z) (cpfn : Z -> outcome (list Z)) : Prop := {
  pk_len : 0 < zlen pkt < 2147483600;
  pk_sec : 0 <= now.1 < 4294967296;
  pk_usec : 0 <= now.2 < 4294967296;
  pk_copy : forall n, 0 <= n <= zlen pkt -> cpfn n = Ret (ztake n pkt)
}.

Lemma capture_wf d rd hold store pkt snap now cpfn : dev_ok d rd hold store -> pkt_ok pkt now cpfn -> 0 < snap ->
  let r := capture (bd_bufsize d) pkt snap now in
  cap_wf r /\ zlen (cp_data r) = Z.min (Z.min snap (zlen pkt)) (bd_bufsize d - hdrlen) /\ cpfn (zlen (cp_data r)) = Ret (cp_data r).
Proof.
  intros [Hs _ _ _] [Hl H1 H2 Hc] Hsnap r.
  assert (E : zlen (cp_data r) = Z.min (Z.min snap (zlen pkt)) (bd_bufsize d - hdrlen)) by (cbn; rewrite zlen_ztake; lia).
  split_and!; [|done|].
  - split; cbn [r capture cp_time cp_datalen]; try lia.
  - rewrite E. apply Hc. lia.
Qed.

(** Fields that the buffers do not depend on. *)
Definition same_buffers (d d' : bpf_d) : Prop :=
  bd_bufsize d' = bd_bufsize d /\ bd_sbuf d' = bd_sbuf d /\ bd_slen d' = bd_slen d /\ bd_hbuf d' = bd_hbuf d /\
  bd_hlen d' = bd_hlen d /\ bd_fbuf d' = bd_fbuf d.
Lemma dev_ok_same d d' rd hold store : same_buffers d d' -> dev_ok d rd hold store -> dev_ok d' rd hold store.
Proof. intros (E1 & E2 & E3 & E4 & E5 & E6) []. split; rewrite ?E1, ?E2, ?E3, ?E4, ?E5, ?E6; done. Qed.

Lemma rotate_ok d rd store : dev_ok d rd None store -> dev_ok (ROTATE_BUFFERS d) rd (Some store) [].
Proof.
  intros [Hs (sb & Es & Hl & Hr & Hlaid) (Eh & fb & Ef & Hfl) Hrd]. unfold ROTATE_BUFFERS. split; rec_simpl; try done.
  - exists fb. rewrite Ef. split_and!; try done; try lia. rewrite ztake_le0 by done. constructor.
  - split; [done|]. exists sb. by rewrite Es.
  - intros data ->. destruct (Hrd data eq_refl) as (hb & E & _). congruence.
Qed.

(** What stays when a packet is stored. *)
Definition kept (d d' : bpf_d) : Prop :=
  bd_bufsize d' = bd_bufsize d /\ bd_filter d' = bd_filter d /\ bd_rcount d' = bd_rcount d /\ bd_immediate d' = bd_immediate d.

Lemma store_ok d rd hold store r cpfn :
  dev_ok d rd hold store -> cap_wf r -> cpfn (zlen (cp_data r)) = Ret (cp_data r) ->
  up4 (bd_slen d) + (hdrlen + zlen (cp_data r)) <= bd_bufsize d ->
  exists d', append_cap d (up4 (bd_slen d)) (hdrlen + zlen (cp_data r)) hdrlen cpfn (cp_datalen r) (cp_time r) = Ret d' /\
    dev_ok d' rd hold (store ++ [r]) /\ kept d d' /\ bd_dcount d' = bd_dcount d.
Proof.
  intros [Hs (sb & Es & Hl & Hr & Hlaid) Hh' Hrd] Hw Hcp Hfit. pose proof (zlen_nonneg (cp_data r)).
  assert (Hup : bd_slen d <= up4 (bd_slen d)) by (Z.to_euclidean_division_equations; lia).
  destruct (append_cap_ok d sb (up4 (bd_slen d)) r cpfn Es) as (buf' & b & E & Hb & Hbl & Ht); [lia|lia|done|done|].
  eexists. split; [exact E|]. split; [|by split_and!]. split; rec_simpl; try done.
  exists buf'. split_and!; [done|lia|lia|lia|]. rewrite Ht.
  rewrite <- (ztake_zdrop (bd_slen d) (ztake (up4 (bd_slen d)) sb)), ztake_ztake, Z.min_l, <- app_assoc by lia.
  apply laid_snoc; [done| |done]. assert (El : zlen (ztake (bd_slen d) sb) = bd_slen d) by (rewrite zlen_ztake; lia).
  rewrite El, zlen_zdrop, zlen_ztake. lia.
Qed.

(** A packet that passed the filter is appended, appended after the buffers have been
    rotated, or counted as dropped when the reader still has the other buffer. *)
Lemma catch_ok d rd hold store pkt snap now cpfn :
  dev_ok d rd hold store -> pkt_ok pkt now cpfn -> 0 < snap < 4294967296 ->
  let r := capture (bd_bufsize d) pkt snap now in
  exists d', catchpacket d hdrlen cpfn (zlen pkt) snap now = Ret d' /\ kept d d' /\
    ((dev_ok d' rd hold (store ++ [r]) /\ bd_dcount d' = bd_dcount d) \/
     (hold = None /\ dev_ok d' rd (Some store) [r] /\ bd_dcount d' = bd_dcount d) \/
     (is_Some hold /\ dev_ok d' rd hold store /\ bd_dcount d' = u32 (bd_dcount d + 1))).
Proof.
  intros Hok Hp Hsnap r. destruct (capture_wf d rd hold store pkt snap now cpfn Hok Hp) as (Hw & Hlen & Hcp); [lia|]. fold r in Hw, Hlen, Hcp.
  pose proof Hok as [Hs (sb & Es & Hl & Hr & Hlaid) Hh' _]. pose proof (pk_len _ _ _ Hp) as Hpl.
  unfold catchpacket. replace (s32 (BPF_WORDALIGN (bd_slen d))) with (up4 (bd_slen d))
    by (rewrite wordalign_eq by lia; rewrite s32_id; [done|Z.to_euclidean_division_equations; lia]).
  replace (s32 (hdrlen + cmin snap (zlen pkt))) with (hdrlen + Z.min snap (zlen pkt)) by (unfold cmin; rewrite !u32_id by lia; wrap_lia).
  set (tot := if _ >? _ then bd_bufsize d else _). assert (Et : tot = hdrlen + zlen (cp_data r)).
  { unfold tot. rewrite Hlen. destruct (Z.gtb_spec (hdrlen + Z.min snap (zlen pkt)) (bd_bufsize d)); lia. }
  rewrite Et. destruct (Z.gtb_spec (up4 (bd_slen d) + (hdrlen + zlen (cp_data r))) (bd_bufsize d)) as [Hbig|Hfit].
  - destruct hold as [hs|].
    + destruct Hh' as [-> _]. eexists. split; [reflexivity|]. split; [by split_and!|]. right; right. split; [by eexists|]. split; [|done].
      eapply dev_ok_same; [|exact Hok]. by split_and!.
    + destruct Hh' as (_ & fb & -> & _). set (d1 := bpf_wakeup (ROTATE_BUFFERS d)).
      assert (Hok1 : dev_ok d1 rd (Some store) []) by (eapply dev_ok_same; [|apply rotate_ok, Hok]; by split_and!).
      destruct (store_ok d1 rd (Some store) [] r cpfn Hok1 Hw Hcp) as (d' & E & H1 & H2 & H3); [change (up4 (bd_slen d1)) with 0; change (bd_bufsize d1) with (bd_bufsize d); lia|].
      change (up4 (bd_slen d1)) with 0 in E. exists d'. split; [exact E|]. split; [exact H2|]. right; left. done.
  - set (d1 := if bd_immediate d then bpf_wakeup d else d).
    assert (Hsame : same_buffers d d1 /\ kept d d1 /\ bd_dcount d1 = bd_dcount d) by (unfold d1; by destruct (bd_immediate d)).
    destruct Hsame as (Hsb & (K1 & K2 & K3 & K4) & Hdc). pose proof (dev_ok_same _ _ _ _ _ Hsb Hok) as Hok1.
    assert (Esl : bd_slen d1 = bd_slen d) by apply Hsb.
    destruct (store_ok d1 rd hold store r cpfn Hok1 Hw Hcp) as (d' & E & H1 & (H2 & H3 & H4 & H5) & H6); [rewrite Esl, K1; lia|].
    rewrite Esl in E. exists d'. split; [exact E|]. split; [split_and!; congruence|]. left. split; [done|congruence].
Qed.

(** ** Packets and reads, interleaved *)

(** A packet arrives in a buffer or in mbufs; the process calls bpfread, its sleep ends, or
    uiomove returns. *)
Inductive bevent :=
| Packet (pkt : list Z) (now : Z * Z) (junk : stack)
| Mpacket (m : chain) (now : Z * Z) (junk : stack)
| Read (resid : Z)
| Wake (error : Z)
| Moved (error : Z).

(** The state: the descriptor, the reader, and the buffers that have gone to the process. *)
Definition dstate : Type := bpf_d * reader * list (list Z).

Definition dev_step (x : dstate) (ev : bevent) : outcome dstate :=
  let '(d, rd, out) := x in
  match ev, rd with
  | Packet pkt now junk, _ => let! d := tap1 d hdrlen (PBuf pkt) (bcopy pkt) (zlen pkt) now junk in Ret (d, rd, out)
  | Mpacket m now junk, _ => let! d := tap1 d hdrlen (PMbuf m) (bpf_mcopy m) (mtap_len m) now junk in Ret (d, rd, out)
  | Read resid, RIdle => Ret ((bpfread d resid).1, out)
  | Wake error, RSleep => Ret ((read_wake d error).1, out)
  | Moved error, RMove data => Ret ((read_done d error).1, out ++ [data])
  | _, _ => Ret x
  end.
Fixpoint dev_run (x : dstate) (evs : list bevent) : outcome dstate :=
  match evs with
  | [] => Ret x
  | ev :: evs => let! x := dev_step x ev in dev_run x evs
  end.

(** The packets that a filter [f] accepts are captured in buffers of size [bufsize]. *)
Definition accepted (f : option (list bpf_insn)) (bufsize : Z) (ev : bevent) : list cap :=
  let cap pkt snap now := match snap with Ret v => if v =? 0 then [] else [capture bufsize pkt v now] | _ => [] end in
  match ev with
  | Packet pkt now j => cap pkt (bpf_filter f (PBuf pkt) (zlen pkt) (st_A j) (st_X j) (st_mem j)) now
  | Mpacket m now j => cap (chain_bytes m) (bpf_filter f (PMbuf m) (mtap_len m) (st_A j) (st_X j) (st_mem j)) now
  | _ => []
  end.

(** A filter that the soundness theorem covers, or none; packets in mbufs only without a
    filter. *)
Definition filter_safe (f : option (list bpf_insn)) : Prop :=
  match f with None => True | Some p => program_ok p /\ existsb may_wrap p = false end.
Definition stack_ok (j : stack) : Prop :=
  0 <= st_A j < 4294967296 /\ 0 <= st_X j < 4294967296 /\ zlen (st_mem j) = BPF_MEMWORDS.
Definition time_ok (now : Z * Z) : Prop := 0 <= now.1 < 4294967296 /\ 0 <= now.2 < 4294967296.
Definition event_ok (f : option (list bpf_insn)) (ev : bevent) : Prop :=
  match ev with
  | Packet pkt now j => 0 < zlen pkt < 2147483600 /\ time_ok now /\ stack_ok j
  | Mpacket m now j => f = None /\ 0 < chain_len m < 2147483600 /\ time_ok now
  | _ => True
  end.

Lemma bcopy_ok pkt n : 0 <= n <= zlen pkt -> bcopy pkt n = Ret (ztake n pkt).
Proof. intros Hn. unfold bcopy. by rewrite (proj2 (Z.leb_le _ _)) by lia. Qed.

Lemma mcopy_ok m : chain_len m < 2147483648 -> forall n, 0 <= n <= chain_len m -> bpf_mcopy m n = Ret (ztake n (chain_bytes m)).
Proof.
  unfold chain_len. induction m as [|m1 ms IH]; intros Hl n Hn; cbn [bpf_mcopy]; destruct (Z.gtb_spec n 0) as [Hp|Hp].
  - change (zlen (chain_bytes [])) with 0 in Hn. lia.
  - by rewrite ztake_le0 by lia.
  - rewrite chain_bytes_cons in *. rewrite zlen_app in *. unfold m_len, cmin in *. pose proof (zlen_nonneg (m_bytes m1)).
    pose proof (zlen_nonneg (chain_bytes ms)). rewrite !u32_id by lia.
    destruct (Z.ltb_spec (zlen (m_bytes m1)) n) as [Hlt|Hge].
    + rewrite IH by lia. cbn [obind]. rewrite ztake_ge, ztake_app_ge by lia. done.
    + rewrite Z.sub_diag. replace (bpf_mcopy ms 0) with (@Ret (list Z) []) by (by destruct ms). cbn [obind].
      by rewrite ztake_app_le, app_nil_r by lia.
  - by rewrite ztake_le0 by lia.
Qed.

Lemma mtap_len_ok m : chain_len m < 4294967296 -> mtap_len m = chain_len m.
Proof.
  intros Hl. unfold mtap_len. enough (H : forall n, 0 <= n -> n + chain_len m < 4294967296 -> fold_left (fun n m1 => u32 (n + m_len m1)) m n = n + chain_len m)
    by (rewrite H; lia).
  clear Hl. induction m as [|m1 ms IH]; intros n Hn Hl; cbn [fold_left].
  - change (chain_len []) with 0. lia.
  - unfold chain_len in *. rewrite chain_bytes_cons, zlen_app in *. unfold m_len. pose proof (zlen_nonneg (m_bytes m1)).
    pose proof (zlen_nonneg (chain_bytes ms)). rewrite u32_id by lia. rewrite IH by lia. lia.
Qed.

Lemma filter_ok f pkt now j : filter_safe f -> event_ok f (Packet pkt now j) ->
  exists v, bpf_filter f (PBuf pkt) (zlen pkt) (st_A j) (st_X j) (st_mem j) = Ret v /\ 0 <= v < 4294967296.
Proof.
  intros Hf (Hl & _ & HA & HX & HM). destruct f as [p|]; [|by eexists]. destruct Hf as [Hp Hw].
  destruct (bpf_filter_run p pkt (zlen pkt) (st_A j) (st_X j) (st_mem j)) as [?|[_ (s' & _ & Hx)]]; try done; [lia..|by apply no_wrap in Hx].
Qed.

(** One packet, through the filter. *)
Lemma tap1_ok d rd hold store p pkt cpfn now j v :
  dev_ok d rd hold store -> pkt_ok pkt now cpfn ->
  bpf_filter (bd_filter d) p (zlen pkt) (st_A j) (st_X j) (st_mem j) = Ret v -> 0 <= v < 4294967296 ->
  exists d', tap1 d hdrlen p cpfn (zlen pkt) now j = Ret d' /\ bd_bufsize d' = bd_bufsize d /\ bd_filter d' = bd_filter d /\
    ((exists hold' store', dev_ok d' rd hold' store' /\ bd_dcount d' = bd_dcount d /\
        default [] hold' ++ store' = (default [] hold ++ store) ++ if v =? 0 then [] else [capture (bd_bufsize d) pkt v now]) \/
     (v <> 0 /\ is_Some hold /\ dev_ok d' rd hold store /\ bd_dcount d' = u32 (bd_dcount d + 1))).
Proof.
  intros Hok Hp Hv Hr. unfold tap1. set (d1 := d <| bd_rcount := _ |>).
  assert (Hok1 : dev_ok d1 rd hold store) by (eapply dev_ok_same; [|exact Hok]; by split_and!).
  change (bd_filter d1) with (bd_filter d). rewrite Hv. cbn [obind]. destruct (Z.eqb_spec v 0) as [->|Hnz]; cbn [negb].
  - exists d1. split_and!; try done. left. exists hold, store. by rewrite app_nil_r.
  - destruct (catch_ok d1 rd hold store pkt v now cpfn Hok1 Hp) as (d' & E & (K1 & K2 & _) & Hc); [lia|].
    exists d'. split; [exact E|]. split; [exact K1|]. split; [exact K2|].
    destruct Hc as [[H1 H2]|[(-> & H1 & H2)|(H1 & H2 & H3)]].
    + left. exists hold, (store ++ [capture (bd_bufsize d) pkt v now]). split_and!; try done. by rewrite app_assoc.
    + left. by exists (Some store), [capture (bd_bufsize d) pkt v now].
    + right. by split_and!.
Qed.

(** The descriptor and what has gone to the process, against the packets accepted so far. *)
Definition captured (d0 : bpf_d) (caps : list cap) (x : dstate) : Prop :=
  let '(d, rd, out) := x in
  bd_bufsize d = bd_bufsize d0 /\ bd_filter d = bd_filter d0 /\
  exists hold store outc dropped, dev_ok d rd hold store /\ Forall2 laid outc out /\ Forall (fun b => zlen b <= 32768) out /\
    sublist (concat outc ++ default [] hold ++ store) caps /\
    Z.of_nat (length caps) = Z.of_nat (length (concat outc ++ default [] hold ++ store)) + dropped /\ 0 <= dropped /\
    bd_dcount d = u32 (bd_dcount d0 + dropped).

Lemma captured_packet d0 caps d rd out p pkt cpfn now j v :
  captured d0 caps (d, rd, out) -> pkt_ok pkt now cpfn ->
  bpf_filter (bd_filter d0) p (zlen pkt) (st_A j) (st_X j) (st_mem j) = Ret v -> 0 <= v < 4294967296 ->
  exists d', tap1 d hdrlen p cpfn (zlen pkt) now j = Ret d' /\
    captured d0 (caps ++ if v =? 0 then [] else [capture (bd_bufsize d0) pkt v now]) (d', rd, out).
Proof.
  intros (Eb & Ef & hold & store & outc & dr & Hok & Ho & Hz & Hs & Hn & Hd & Hc) Hp Hv Hr. rewrite <- Ef in Hv.
  destruct (tap1_ok d rd hold store p pkt cpfn now j v Hok Hp Hv Hr) as (d' & E & Eb' & Ef' & Hcase). exists d'. split; [done|].
  split; [congruence|]. split; [congruence|]. rewrite <- Eb. destruct Hcase as [(h' & s' & Hok' & Hdc & Ea)|(Hnz & _ & Hok' & Hdc)].
  - exists h', s', outc, dr. rewrite Ea, Hdc, (app_assoc (concat outc)). split_and!; try done; [by apply sublist_app|].
    rewrite (length_app caps), (length_app (concat outc ++ _)). lia.
  - exists hold, store, outc, (dr + 1). rewrite (proj2 (Z.eqb_neq _ _) Hnz). rewrite Hdc, Hc. split_and!; try done.
    + by apply sublist_inserts_r.
    + rewrite length_app. cbn [length]. lia.
    + lia.
    + wrap_lia.
Qed.

(** The ways a step of bpfread can end. *)
Inductive read_result (d : bpf_d) : bpf_d * reader -> Prop :=
| rr_stay rd : (forall data, rd <> RMove data) -> read_result d (d, rd)
| rr_hold hb : bd_hbuf d = Some hb -> read_result d (moving d)
| rr_rotate : bd_hbuf d = None -> read_result d (moving (ROTATE_BUFFERS d)).

Lemma read_check_result d : read_result d (read_check d).
Proof.
  unfold read_check. destruct (bd_hbuf d) as [hb|] eqn:E; [by eapply rr_hold|]. case_match; [by apply rr_rotate|by apply rr_stay].
Qed.
Lemma bpfread_result d resid : read_result d (bpfread d resid).1.
Proof. unfold bpfread. case_match; [by apply rr_stay|apply read_check_result]. Qed.
Lemma read_wake_result d error : read_result d (read_wake d error).1.
Proof.
  unfold read_wake. case_match; [by apply rr_stay|]. case_match; [|apply read_check_result].
  destruct (bd_hbuf d) as [hb|] eqn:E; [by eapply rr_hold|]. case_match; [by apply rr_stay|by apply rr_rotate].
Qed.

Lemma dev_ok_reader d rd rd' hold store : dev_ok d rd hold store ->
  (forall data, rd' = RMove data -> exists hb, bd_hbuf d = Some hb /\ data = ztake (bd_hlen d) hb) -> dev_ok d rd' hold store.
Proof. intros [] H. by split. Qed.

Lemma captured_read d0 caps d rd x out : captured d0 caps (d, rd, out) -> (forall data, rd <> RMove data) ->
  read_result d x -> captured d0 caps (x, out).
Proof.
  intros (Eb & Ef & hold & store & outc & dr & Hok & Ho & Hz & Hs & Hn & Hd & Hc) Hrd Hx.
  destruct Hx as [rd' Hrd'|hb Ehb|Ehb]; (split; [done|]); (split; [done|]).
  - exists hold, store, outc, dr. split; [|done]. eapply dev_ok_reader; [exact Hok|]. intros data ->. by destruct (Hrd' data).
  - exists hold, store, outc, dr. split; [|done]. eapply dev_ok_reader; [exact Hok|]. intros data [= <-]. exists hb. by rewrite Ehb.
  - destruct hold as [hs|]; [destruct (dk_hold _ _ _ _ Hok) as (_ & ? & E & _); congruence|].
    exists (Some store), [], outc, dr. rewrite app_nil_r. split; [|done]. eapply dev_ok_reader; [apply rotate_ok, Hok|].
    intros data [= <-]. destruct (dk_store _ _ _ _ Hok) as (sb & Es & _). exists sb. rec_simpl. by rewrite Es.
Qed.

Lemma captured_moved d0 caps d data out error : captured d0 caps (d, RMove data, out) ->
  captured d0 caps ((read_done d error).1, out ++ [data]).
Proof.
  intros (Eb & Ef & hold & store & outc & dr & Hok & Ho & Hz & Hs & Hn & Hd & Hc). unfold read_done. cbn [fst].
  split; [done|]. split; [done|]. destruct (dk_reader _ _ _ _ Hok data eq_refl) as (hb & Ehb & ->).
  destruct hold as [hs|]; [|destruct (dk_hold _ _ _ _ Hok); congruence].
  destruct (dk_hold _ _ _ _ Hok) as (_ & hb' & E & Hbl & Hhl & Hlaid). rewrite Ehb in E. injection E as <-. pose proof (dk_size _ _ _ _ Hok).
  exists None, store, (outc ++ [hs]), dr. rewrite concat_app. cbn [concat default]. rewrite app_nil_r, <- app_assoc. split_and!; try done.
  - destruct Hok as [H1 H2 _ _]. split; rec_simpl; try done. split; [done|]. by exists hb.
  - apply Forall2_app; [done|]. by repeat constructor.
  - apply Forall_app. split; [done|]. constructor; [|done]. rewrite zlen_ztake. lia.
Qed.

(** One event. *)
Lemma captured_step d0 caps x ev : filter_safe (bd_filter d0) -> event_ok (bd_filter d0) ev -> captured d0 caps x ->
  exists x', dev_step x ev = Ret x' /\ captured d0 (caps ++ accepted (bd_filter d0) (bd_bufsize d0) ev) x'.
Proof.
  intros Hf Hev Hx. destruct x as [[d rd] out]. destruct ev as [pkt now j|m now j|resid|error|error]; cbn [dev_step accepted].
  - destruct (filter_ok _ _ _ _ Hf Hev) as (v & Ev & Hv). destruct Hev as (Hl & [Ht1 Ht2] & _).
    destruct (captured_packet d0 caps d rd out (PBuf pkt) pkt (bcopy pkt) now j v Hx) as (d' & -> & Hx'); try done.
    { split; try done. apply bcopy_ok. }
    rewrite Ev. by eexists.
  - destruct Hev as (Ef & Hl & [Ht1 Ht2]). rewrite Ef. cbn [bpf_filter]. rewrite mtap_len_ok by lia.
    destruct (captured_packet d0 caps d rd out (PMbuf m) (chain_bytes m) (bpf_mcopy m) now j 4294967295 Hx) as (d' & E & Hx'); try done.
    { split; try done. apply mcopy_ok. lia. } { by rewrite Ef. }
    unfold chain_len. rewrite E. by eexists.
  - rewrite app_nil_r. destruct rd; eexists; (split; [reflexivity|]); try done. eapply captured_read; [exact Hx|done|apply bpfread_result].
  - rewrite app_nil_r. destruct rd; eexists; (split; [reflexivity|]); try done. eapply captured_read; [exact Hx|done|apply read_wake_result].
  - rewrite app_nil_r. destruct rd; eexists; (split; [reflexivity|]); try done. by apply captured_moved.
Qed.

Lemma captured_run d0 evs : filter_safe (bd_filter d0) -> Forall (event_ok (bd_filter d0)) evs -> forall caps x, captured d0 caps x ->
  exists x', dev_run x evs = Ret x' /\ captured d0 (caps ++ concat (map (accepted (bd_filter d0) (bd_bufsize d0)) evs)) x'.
Proof.
  intros Hf. induction 1 as [|ev evs Hev _ IH]; intros caps x Hx; cbn [dev_run map concat].
  - rewrite app_nil_r. by eexists.
  - destruct (captured_step d0 caps x ev Hf Hev Hx) as (x1 & -> & Hx1). cbn [obind]. rewrite app_assoc. by apply IH.
Qed.

End Layout.

Lemma bif_hdrlen_ok link : 0 <= link < 65536 -> 18 <= BPF_WORDALIGN (link + SIZEOF_BPF_HDR) - link < 32.
Proof. intros Hl. rewrite wordalign_eq by (unfold SIZEOF_BPF_HDR; lia). unfold SIZEOF_BPF_HDR. Z.to_euclidean_division_equations. lia. Qed.

Lemma parse_ok hdrlen rs bs : 18 <= hdrlen < 32 -> laid hdrlen rs bs -> zlen bs <= 32768 -> parse bs = Some rs.
Proof. intros Hh Hl Hz. apply (parse_laid hdrlen Hh rs bs Hl); [done|lia]. Qed.

(** A descriptor as BIOCSETIF leaves it: its buffers are allocated and empty. *)
Record fresh (d : bpf_d) : Prop := {
  fr_size : BPF_MINBUFSIZE <= bd_bufsize d <= BPF_MAXBUFSIZE;
  fr_sbuf : exists b, bd_sbuf d = Some b /\ zlen b = bd_bufsize d;
  fr_fbuf : exists b, bd_fbuf d = Some b /\ zlen b = bd_bufsize d;
  fr_hbuf : bd_hbuf d = None;
  fr_slen : bd_slen d = 0;
  fr_dcount : bd_dcount d = 0
}.

(** What the process would still get from the two slots. *)
Definition pending (d : bpf_d) : option (list cap) :=
  match (match bd_hbuf d with Some b => parse (ztake (bd_hlen d) b) | None => Some [] end),
        (match bd_sbuf d with Some b => parse (ztake (bd_slen d) b) | None => Some [] end) with
  | Some h, Some s => Some (h ++ s)
  | _, _ => None
  end.

Lemma pending_ok hdrlen d rd hold store : 18 <= hdrlen < 32 -> dev_ok hdrlen d rd hold store -> pending d = Some (default [] hold ++ store).
Proof.
  intros Hh [Hs (sb & Es & Hl & Hr & Hlaid) Hhold _]. unfold pending. rewrite Es.
  rewrite (parse_ok hdrlen store) by (done || rewrite zlen_ztake; lia).
  destruct hold as [hs|]; [destruct Hhold as (_ & hb & -> & Hbl & Hhl & Hlh)|by destruct Hhold as [-> _]].
  by rewrite (parse_ok hdrlen hs) by (done || rewrite zlen_ztake; lia).
Qed.

(** C27: BPF delivers the packets it accepts, in order.  Take a descriptor with empty
    buffers and a filter that cannot fault, and any interleaving of arriving packets (in
    buffers or mbufs), calls of bpfread, timeouts and interrupts of its sleep, and ends of
    its copy to user space.  The kernel never writes outside a buffer.  Every buffer that
    goes to the process splits into records where the headers say; together with what is
    still in the slots these are the accepted packets in the order they came, each once
    with its time, its length and its first bytes, except for the packets that found no
    free buffer; the drop counter counts exactly those. *)
Theorem bpf_capture_fifo link d0 evs :
  0 <= link < 65536 -> fresh d0 -> filter_safe (bd_filter d0) -> Forall (event_ok (bd_filter d0)) evs ->
  let hdrlen := BPF_WORDALIGN (link + SIZEOF_BPF_HDR) - link in
  let all := concat (map (accepted hdrlen (bd_filter d0) (bd_bufsize d0)) evs) in
  exists d rd out outc pend dropped, dev_run hdrlen (d0, RIdle, []) evs = Ret (d, rd, out) /\
    Forall2 (fun rs b => parse b = Some rs) outc out /\ pending d = Some pend /\
    sublist (concat outc ++ pend) all /\ Z.of_nat (length all) = Z.of_nat (length (concat outc ++ pend)) + dropped /\
    bd_dcount d = u32 dropped.
Proof.
  intros Hlink [Fs (sb & Es & Hsb) (fb & Efb & Hfb) Fh Fl Fd] Hf Hev hdrlen all. pose proof (bif_hdrlen_ok link Hlink) as Hh. fold hdrlen in Hh.
  assert (H0 : captured hdrlen d0 [] (d0, RIdle, [])).
  { split; [done|]. split; [done|]. exists None, [], [], 0. split_and!; try done; [|by rewrite Fd].
    split; [exact Fs| |split; [done|by exists fb]|done]. exists sb. rewrite Fl. unfold BPF_MINBUFSIZE in Fs. split_and!; try done; [lia|].
    rewrite ztake_le0 by done. constructor. }
  destruct (captured_run hdrlen Hh d0 evs Hf Hev [] _ H0) as ([[d rd] out] & E & Hc). cbn [app] in Hc. fold all in Hc.
  destruct Hc as (_ & _ & hold & store & outc & dr & Hok & Ho & Hz & Hsub & Hn & Hd & Hdc).
  exists d, rd, out, outc, (default [] hold ++ store), dr. split; [done|]. split.
  - clear -Ho Hz Hh. induction Ho as [|rs b outc out Hl _ IH]; [constructor|]. apply Forall_cons_iff in Hz as [Hb Hz].
    constructor; [by apply (parse_ok hdrlen)|by apply IH].
  - split; [by eapply pending_ok|]. split_and!; try done. rewrite Hdc, Fd. done.
Qed.

(** Three packets, the last of which does not fit the small buffer: a read in between. *)
Definition d_small : bpf_d :=
  mkBpfd 0 (Some (repeat 7 64)) None (Some (repeat 9 64)) 0 0 64 (Some 0) 0 (Some udp53) 0 0 false false 0.
Definition stack0 : stack := mkStack 5 6 (repeat 1 16).
Definition evs0 : list bevent :=
  [Read 64; Packet frame53 (1, 2) stack0; Packet frame53 (3, 4) stack0; Packet frame53 (5, 6) stack0; Wake 0; Moved 0; Packet frame53 (7, 8) stack0].

Lemma bpf_capture_fifo_witness :
  exists d rd out outc pend dropped, dev_run 18 (d_small, RIdle, []) evs0 = Ret (d, rd, out) /\
    Forall2 (fun rs b => parse b = Some rs) outc out /\ pending d = Some pend /\
    concat outc ++ pend = [capture 18 64 frame53 60 (1, 2); capture 18 64 frame53 60 (3, 4); capture 18 64 frame53 60 (7, 8)] /\ dropped = 1 /\
    bd_dcount d = u32 dropped.
Proof.
  destruct (bpf_capture_fifo 14 d_small evs0) as (d & rd & out & outc & pend & dropped & E & H1 & H2 & H3 & H4 & H5).
  - split; [discriminate|reflexivity].
  - split; try reflexivity; [split; discriminate|eexists; split; reflexivity..].
  - split; [|reflexivity]. split; try reflexivity; [|vm_compute; congruence]. repeat constructor; vm_compute; congruence.
  - repeat constructor; vm_compute; congruence.
  - exists d, rd, out, outc, pend, dropped. vm_compute in E. injection E as <- <- <-. vm_compute in H2. injection H2 as <-.
    split; [vm_compute; reflexivity|]. split; [exact H1|]. split; [vm_compute; reflexivity|].
    inversion H1 as [|rs b os bs Hp Hr]; subst. inversion Hr; subst. vm_compute in Hp. injection Hp as <-.
    split; [vm_compute; reflexivity|]. split; [|exact H5]. change (4 = 3 + dropped) in H4. lia.
Defined.

End BpfDevOk.
