(* ===== verification/SlCompress.v ===== *)
(** Van Jacobson's compression of TCP/IP headers (src/sys/net/slcompress.c, slcompress.h).

    A header is kept as its bytes, as in the code; fields are read and written at their
    offsets, most significant byte first.  The states of the sender are linked by
    [cs_next], which holds indices in [tstate].  A packet that the receiver rebuilds is
    the memory from *bufp on; moving its data to a word boundary does not change it. *)
From S2P Require Import Prelude Mbuf Cksum TcpHdr.
Import Mbuf Cksum TcpHdr.

Module SlCompress.

Definition MAX_STATES : Z := 16.
Definition MAX_HDR : Z := MLEN.
Definition TYPE_IP : Z := 64.
Definition TYPE_UNCOMPRESSED_TCP : Z := 112.
Definition TYPE_COMPRESSED_TCP : Z := 128.
Definition NEW_C : Z := 64.
Definition NEW_I : Z := 32.
Definition NEW_S : Z := 8.
Definition NEW_A : Z := 4.
Definition NEW_W : Z := 2.
Definition NEW_U : Z := 1.
Definition SPECIAL_I : Z := 11.
Definition SPECIAL_D : Z := 15.
Definition SPECIALS_MASK : Z := 15.
Definition TCP_PUSH_BIT : Z := 16.
Definition SLF_TOSS : Z := 1.
Definition IPPROTO_TCP : Z := 6.
Definition TH_FIN : Z := 1.
Definition TH_SYN : Z := 2.
Definition TH_RST : Z := 4.
Definition TH_PUSH : Z := 8.
Definition TH_ACK : Z := 16.
Definition TH_URG : Z := 32.

(** ** Bytes *)

Definition gb (l : list Z) (i : Z) : Z := nth (Z.to_nat i) l 0.
Definition r16 (l : list Z) (i : Z) : Z := gb l i * 256 + gb l (i + 1).
Definition r32 (l : list Z) (i : Z) : Z := r16 l i * 65536 + r16 l (i + 2).
Definition put (l : list Z) (i : Z) (b : list Z) : list Z := ztake i l ++ b ++ zdrop (i + zlen b) l.

(** ** State *)

Record cstate := mkCs { cs_next : Z; cs_hlen : Z; cs_id : Z; cs_hdr : list Z }.
Definition eta_cstate (r : cstate) : cstate := mkCs (cs_next r) (cs_hlen r) (cs_id r) (cs_hdr r).
#[global] Instance set_cs_next : Setter cs_next := ltac:(mk_setter eta_cstate).
#[global] Instance set_cs_hlen : Setter cs_hlen := ltac:(mk_setter eta_cstate).
#[global] Instance set_cs_hdr : Setter cs_hdr := ltac:(mk_setter eta_cstate).

Record slcompress := mkSlc {
  last_cs : Z;
  last_recv : Z;
  last_xmit : Z;
  sl_flags : Z;
  tstate : list cstate;
  rstate : list cstate
}.
Definition eta_slcompress (r : slcompress) : slcompress :=
  mkSlc (last_cs r) (last_recv r) (last_xmit r) (sl_flags r) (tstate r) (rstate r).
#[global] Instance set_last_cs : Setter last_cs := ltac:(mk_setter eta_slcompress).
#[global] Instance set_last_recv : Setter last_recv := ltac:(mk_setter eta_slcompress).
#[global] Instance set_last_xmit : Setter last_xmit := ltac:(mk_setter eta_slcompress).
#[global] Instance set_sl_flags : Setter sl_flags := ltac:(mk_setter eta_slcompress).
#[global] Instance set_tstate : Setter tstate := ltac:(mk_setter eta_slcompress).
#[global] Instance set_rstate : Setter rstate := ltac:(mk_setter eta_slcompress).

Definition zero_hdr : list Z := repeat 0 (Z.to_nat MAX_HDR).

(** [sl_compress_init] *)
Definition sl_compress_init : slcompress :=
  mkSlc 0 255 255 SLF_TOSS
    (map (fun i => mkCs (if i =? 0 then MAX_STATES - 1 else i - 1) 0 i zero_hdr) (seqZ 0 MAX_STATES))
    (map (fun _ => mkCs 0 0 0 zero_hdr) (seqZ 0 MAX_STATES)).

Definition get_cs (ts : list cstate) (i : Z) : outcome cstate :=
  match ts !! Z.to_nat i with Some c => Ret c | None => Panic "slcompress: wild cstate" end.
Definition upd_cs (ts : list cstate) (i : Z) (f : cstate -> cstate) : list cstate := alter f (Z.to_nat i) ts.

(** ** Headers *)

Definition ip_hl (l : list Z) : Z := gb l 0 mod 16.
Definition th_at (l : list Z) : Z := 4 * ip_hl l.
Definition th_off (l : list Z) : Z := gb l (th_at l + 12) / 16.
Definition th_flags (l : list Z) : Z := gb l (th_at l + 13).

(** The addresses and ports, which name the conversation. *)
Definition same_conv (l : list Z) (c : cstate) : bool :=
  bool_decide (zsub 12 8 l = zsub 12 8 (cs_hdr c) /\ zsub (th_at l) 4 l = zsub (th_at (cs_hdr c)) 4 (cs_hdr c)).

(** ** Compression *)

(** [ENCODE] and [ENCODEZ]: what is appended to new_seq. *)
Definition long_form (n : Z) : list Z := [0; u8 (Z.shiftr n 8); u8 n].
Definition ENCODE (n : Z) : list Z := if u16 n >=? 256 then long_form n else [u8 n].
Definition ENCODEZ (n : Z) : list Z := if (u16 n >=? 256) || (u16 n =? 0) then long_form n else [u8 n].

(** The search from the second state on; the result is the state, the one before it in the
    list, and whether it was found. *)
Fixpoint cs_search (fuel : nat) (ts : list cstate) (l : list Z) (lastcs cs : Z) : outcome (Z * Z * bool) :=
  match fuel with
  | O => OutOfFuel
  | S fuel =>
      let lcs := cs in
      let! c := get_cs ts lcs in
      let cs := cs_next c in
      let! c := get_cs ts cs in
      if same_conv l c then Ret (cs, lcs, true)
      else if cs =? lastcs then Ret (cs, lcs, false) else cs_search fuel ts l lastcs cs
  end.

(** Locate the state: its index, whether it belongs to the conversation, and the list with
    it in front. *)
Definition find_cs (comp : slcompress) (l : list Z) : outcome (Z * bool * slcompress) :=
  let lastcs := last_cs comp in
  let! lc := get_cs (tstate comp) lastcs in
  let cs := cs_next lc in
  let! c := get_cs (tstate comp) cs in
  if same_conv l c then Ret (cs, true, comp)
  else
    let! (cs, lcs, found) := cs_search (length (tstate comp)) (tstate comp) l lastcs cs in
    if negb found then Ret (cs, false, comp <| last_cs := lcs |>)
    else if cs =? lastcs then Ret (cs, true, comp <| last_cs := lcs |>)
    else
      let! c := get_cs (tstate comp) cs in
      let ts := upd_cs (tstate comp) lcs (fun x => x <| cs_next := cs_next c |>) in
      let! lc := get_cs ts lastcs in
      let ts := upd_cs ts cs (fun x => x <| cs_next := cs_next lc |>) in
      let ts := upd_cs ts lastcs (fun x => x <| cs_next := cs |>) in
      Ret (cs, true, comp <| tstate := ts |>).

(** Something changed that the receiver could not know. *)
Definition unexpected (l o : list Z) : bool :=
  let hl := ip_hl l in
  negb (bool_decide (zsub 0 2 l = zsub 0 2 o)) || negb (bool_decide (zsub 6 2 l = zsub 6 2 o)) ||
  negb (bool_decide (zsub 8 2 l = zsub 8 2 o)) || negb (th_off l =? gb o (4 * hl + 12) / 16) ||
  ((hl >? 5) && negb (bool_decide (zsub 20 (4 * (hl - 5)) l = zsub 20 (4 * (hl - 5)) o))) ||
  ((th_off l >? 5) && negb (bool_decide (zsub (4 * hl + 20) (4 * (th_off l - 5)) l = zsub (4 * hl + 20) (4 * (th_off l - 5)) o))).

(** The changes and their encoding, the change of the sequence number and of the
    acknowledgement; [None] is [goto uncompressed].  [o] is the header saved. *)
Definition sl_changes (l o : list Z) : option (Z * list Z * Z * Z) :=
  let th := th_at l in
  let urg := hasf (th_flags l) TH_URG in
  if negb urg && negb (r16 l (th + 18) =? r16 o (th + 18)) then None
  else
    let '(changes, seq) := if urg then (NEW_U, ENCODEZ (r16 l (th + 18))) else (0, []) in
    let dW := u16 (r16 l (th + 14) - r16 o (th + 14)) in
    let '(changes, seq) := if negb (dW =? 0) then (setb changes NEW_W, seq ++ ENCODE dW) else (changes, seq) in
    let dA := u32 (r32 l (th + 8) - r32 o (th + 8)) in
    if dA >? 65535 then None
    else
      let '(changes, seq) := if negb (dA =? 0) then (setb changes NEW_A, seq ++ ENCODE dA) else (changes, seq) in
      let dS := u32 (r32 l (th + 4) - r32 o (th + 4)) in
      if dS >? 65535 then None
      else
        let '(changes, seq) := if negb (dS =? 0) then (setb changes NEW_S, seq ++ ENCODE dS) else (changes, seq) in
        Some (changes, seq, dS, dA).

(** The switch on the changes. *)
Definition sl_special (l o : list Z) (hlen : Z) (x : Z * list Z * Z * Z) : option (Z * list Z) :=
  let '(changes, seq, dS, dA) := x in
  let prev := u32 (r16 o 2 - hlen) in
  if changes =? 0 then if negb (r16 l 2 =? r16 o 2) && (r16 o 2 =? hlen) then Some (changes, seq) else None
  else if (changes =? SPECIAL_I) || (changes =? SPECIAL_D) then None
  else if changes =? setb NEW_S NEW_A then
    if (dS =? dA) && (dS =? prev) then Some (SPECIAL_I, []) else Some (changes, seq)
  else if changes =? NEW_S then
    if dS =? prev then Some (SPECIAL_D, []) else Some (changes, seq)
  else Some (changes, seq).

(** [sl_compress_tcp] for the first mbuf [m] of a packet.  All the paths behind the first
    tests copy the [hlen] bytes of the two headers. *)
Definition sl_compress_tcp (m : mbuf) (comp : slcompress) (compress_cid : bool) : outcome (Z * mbuf * slcompress) :=
  let l := m_bytes m in
  if negb (Z.land (r16 l 6) 16383 =? 0) || (m_len m <? 40) then Ret (TYPE_IP, m, comp)
  else if m_len m <? th_at l + 20 then Panic "sl_compress_tcp: header outside the mbuf"
  else if negb (Z.land (th_flags l) (TH_SYN + TH_FIN + TH_RST + TH_ACK) =? TH_ACK) then Ret (TYPE_IP, m, comp)
  else
    let hlen := 4 * (ip_hl l + th_off l) in
    if (m_len m <? hlen) || (MAX_HDR <? hlen) then Panic "sl_compress_tcp: BCOPY"
    else
      let! (cs, found, comp) := find_cs comp l in
      let! c := get_cs (tstate comp) cs in
      let o := cs_hdr c in
      let comp := comp <| tstate := upd_cs (tstate comp) cs (fun c => c <| cs_hdr := put (cs_hdr c) 0 (ztake hlen l) |>) |> in
      let r := if negb found || unexpected l o then None
               else match sl_changes l o with None => None | Some x => sl_special l o hlen x end in
      match r with
      | None => Ret (TYPE_UNCOMPRESSED_TCP, m <| m_bytes := put l 9 [cs_id c] |>, comp <| last_xmit := cs_id c |>)
      | Some (changes, seq) =>
          let dI := u32 (r16 l 4 - r16 o 4) in
          let '(changes, seq) := if negb (dI =? 1) then (setb changes NEW_I, seq ++ ENCODEZ dI) else (changes, seq) in
          let changes := if hasf (th_flags l) TH_PUSH then setb changes TCP_PUSH_BIT else changes in
          let sum := zsub (th_at l + 16) 2 l in
          let front := if negb compress_cid || negb (last_xmit comp =? cs_id c) then [setb changes NEW_C; cs_id c] else [changes] in
          let hdr := front ++ sum ++ seq in
          let drop := hlen - zlen hdr in
          if drop <? 0 then Panic "sl_compress_tcp: no room for the compressed header" else
          Ret (TYPE_COMPRESSED_TCP, m <| m_off := m_off m + drop |> <| m_bytes := hdr ++ zdrop hlen l |>,
               comp <| last_xmit := cs_id c |>)
      end.

(** ** Decompression *)

(** [DECODEL], [DECODES], [DECODEU]: the number at [cp], and the next position. *)
Definition decode_num (buf : list Z) (cp : Z) : Z * Z :=
  if gb buf cp =? 0 then (gb buf (cp + 1) * 256 + gb buf (cp + 2), cp + 3) else (gb buf cp, cp + 1).
Definition DECODEL (buf : list Z) (i : Z) (x : list Z * Z) : list Z * Z :=
  let '(h, cp) := x in let '(n, cp) := decode_num buf cp in (put h i (be32 (r32 h i + n)), cp).
Definition DECODES (buf : list Z) (i : Z) (x : list Z * Z) : list Z * Z :=
  let '(h, cp) := x in let '(n, cp) := decode_num buf cp in (put h i (be16 (r16 h i + n)), cp).
Definition DECODEU (buf : list Z) (i : Z) (x : list Z * Z) : list Z * Z :=
  let '(h, cp) := x in let '(n, cp) := decode_num buf cp in (put h i (be16 n), cp).

Definition set_flag (h : list Z) (i : Z) (on : bool) (f : Z) : list Z := put h i [if on then setb (gb h i) f else clrb (gb h i) f].

(** The switch on the special encodings; [i] is the amount of data in the last packet. *)
Definition sl_switch (buf : list Z) (changes i th : Z) (h : list Z) (cp : Z) : list Z * Z :=
  if Z.land changes SPECIALS_MASK =? SPECIAL_I then
    let h := put h (th + 8) (be32 (r32 h (th + 8) + i)) in (put h (th + 4) (be32 (r32 h (th + 4) + i)), cp)
  else if Z.land changes SPECIALS_MASK =? SPECIAL_D then (put h (th + 4) (be32 (r32 h (th + 4) + i)), cp)
  else
    let x := if hasf changes NEW_U then DECODEU buf (th + 18) (set_flag h (th + 13) true TH_URG, cp)
             else (set_flag h (th + 13) false TH_URG, cp) in
    let x := if hasf changes NEW_W then DECODES buf (th + 14) x else x in
    let x := if hasf changes NEW_A then DECODEL buf (th + 8) x else x in
    if hasf changes NEW_S then DECODEL buf (th + 4) x else x.

(** The changes applied to the saved header [h] of length [hlen]; [cp] is behind the
    checksum. *)
Definition sl_apply (buf : list Z) (changes hlen : Z) (h : list Z) (cp : Z) : list Z * Z :=
  let th := th_at h in
  let h := set_flag h (th + 13) (hasf changes TCP_PUSH_BIT) TH_PUSH in
  let x := sl_switch buf changes (r16 h 2 - hlen) th h cp in
  if hasf changes NEW_I then DECODES buf 4 x else let '(h, cp) := x in (put h 4 (be16 (r16 h 4 + 1)), cp).

(** The sum of the header at the end of sl_uncompress_tcp, stored in host order. *)
Fixpoint sum_words (l : list Z) : Z :=
  match l with a :: b :: l => a + 256 * b + sum_words l | _ => 0 end.
Definition fold16 (x : Z) : Z := Z.land x 65535 + Z.shiftr x 16.
Definition hdr_cksum (l : list Z) : Z := 65535 - u16 (fold16 (fold16 (sum_words l))).

(** [sl_uncompress_tcp] of the [len] bytes at [buf]; [buf] goes on with what else is in
    memory.  [None] is the result 0. *)
Definition sl_uncompress_tcp (buf : list Z) (len type : Z) (comp : slcompress) : outcome (option (list Z) * slcompress) :=
  let bad comp := Ret (None, comp <| sl_flags := setb (sl_flags comp) SLF_TOSS |>) in
  if type =? TYPE_UNCOMPRESSED_TCP then
    let id := gb buf 9 in
    if id >=? MAX_STATES then bad comp
    else
      let comp := comp <| last_recv := id |> <| sl_flags := clrb (sl_flags comp) SLF_TOSS |> in
      let buf := put buf 9 [IPPROTO_TCP] in
      let hlen := 4 * (ip_hl buf + th_off buf) in
      if MAX_HDR <? hlen then Panic "sl_uncompress_tcp: BCOPY"
      else
        let comp := comp <| rstate := upd_cs (rstate comp) id (fun c =>
          c <| cs_hdr := put (put (cs_hdr c) 0 (ztake hlen buf)) 10 [0; 0] |> <| cs_hlen := hlen |>) |> in
        Ret (Some (ztake len buf), comp)
  else if negb (type =? TYPE_COMPRESSED_TCP) then bad comp
  else
    let changes := gb buf 0 in
    let newc := hasf changes NEW_C in
    if newc && (gb buf 1 >=? MAX_STATES) then bad comp
    else if negb newc && hasf (sl_flags comp) SLF_TOSS then Ret (None, comp)
    else
      let '(comp, cp) :=
        if newc then (comp <| sl_flags := clrb (sl_flags comp) SLF_TOSS |> <| last_recv := gb buf 1 |>, 2) else (comp, 1) in
      let! c := get_cs (rstate comp) (last_recv comp) in
      let h := cs_hdr c in
      let hl := th_at h in
      let h := put h (hl + 16) [gb buf cp; gb buf (cp + 1)] in
      let '(h, cp) := sl_apply buf changes (cs_hlen c) h (cp + 2) in
      let store h := comp <| rstate := upd_cs (rstate comp) (last_recv comp) (fun c => c <| cs_hdr := h |>) |> in
      let len := len - cp in
      if len <? 0 then bad (store h)
      else
        let h := put h 2 (be16 (len + cs_hlen c)) in
        let pkt := ztake (cs_hlen c) h ++ zsub cp len buf in
        Ret (Some (put pkt 10 (le16 (hdr_cksum (ztake hl pkt)))), store h).

End SlCompress.
