(* ===== verification/SlCompressOk.v ===== *)
(** Correctness of header compression: what sl_uncompress_tcp makes of what sl_compress_tcp
    sends. *)
From S2P Require Import Prelude Mbuf Cksum TcpHdr SlCompress.
Import Mbuf Cksum TcpHdr SlCompress.

Module SlCompressOk.

(** ** Headers as records *)

(** The fields of an IP and a TCP header; of the TCP flags ACK is set and URG and PUSH are
    free. *)
Record vj := mkVj {
  v_hl : Z; v_tos : Z; v_len : Z; v_id : Z; v_ipoff : Z; v_ttl : Z; v_p : Z; v_sum : Z; v_src : Z; v_dst : Z; v_opt : list Z;
  v_ports : Z; v_seq : Z; v_ack : Z; v_off : Z; v_push : bool; v_urg : bool; v_win : Z; v_tsum : Z; v_urp : Z; v_topt : list Z
}.
Definition eta_vj (r : vj) : vj :=
  mkVj (v_hl r) (v_tos r) (v_len r) (v_id r) (v_ipoff r) (v_ttl r) (v_p r) (v_sum r) (v_src r) (v_dst r) (v_opt r)
    (v_ports r) (v_seq r) (v_ack r) (v_off r) (v_push r) (v_urg r) (v_win r) (v_tsum r) (v_urp r) (v_topt r).
#[global] Instance set_v_len : Setter v_len := ltac:(mk_setter eta_vj).
#[global] Instance set_v_id : Setter v_id := ltac:(mk_setter eta_vj).
#[global] Instance set_v_p : Setter v_p := ltac:(mk_setter eta_vj).
#[global] Instance set_v_sum : Setter v_sum := ltac:(mk_setter eta_vj).
#[global] Instance set_v_seq : Setter v_seq := ltac:(mk_setter eta_vj).
#[global] Instance set_v_ack : Setter v_ack := ltac:(mk_setter eta_vj).
#[global] Instance set_v_push : Setter v_push := ltac:(mk_setter eta_vj).
#[global] Instance set_v_urg : Setter v_urg := ltac:(mk_setter eta_vj).
#[global] Instance set_v_win : Setter v_win := ltac:(mk_setter eta_vj).
#[global] Instance set_v_tsum : Setter v_tsum := ltac:(mk_setter eta_vj).
#[global] Instance set_v_urp : Setter v_urp := ltac:(mk_setter eta_vj).

Definition flags_of (push urg : bool) : Z := 16 + (if push then 8 else 0) + (if urg then 32 else 0).
Definition enc_ip (v : vj) : list Z :=
  [64 + v_hl v; v_tos v] ++ be16 (v_len v) ++ be16 (v_id v) ++ be16 (v_ipoff v) ++ [v_ttl v; v_p v] ++ be16 (v_sum v) ++
  be32 (v_src v) ++ be32 (v_dst v) ++ v_opt v.
Definition enc_tcp (v : vj) : list Z :=
  be32 (v_ports v) ++ be32 (v_seq v) ++ be32 (v_ack v) ++ [16 * v_off v; flags_of (v_push v) (v_urg v)] ++
  be16 (v_win v) ++ be16 (v_tsum v) ++ be16 (v_urp v) ++ v_topt v.
Definition enc (v : vj) : list Z := enc_ip v ++ enc_tcp v.
Definition vj_hlen (v : vj) : Z := 4 * (v_hl v + v_off v).

Record vj_wf (v : vj) : Prop := {
  vw_hl : 5 <= v_hl v < 16; vw_tos : 0 <= v_tos v < 256; vw_len : 0 <= v_len v < 65536; vw_id : 0 <= v_id v < 65536;
  vw_ipoff : 0 <= v_ipoff v < 65536; vw_ttl : 0 <= v_ttl v < 256; vw_p : 0 <= v_p v < 256; vw_sum : 0 <= v_sum v < 65536;
  vw_src : 0 <= v_src v < 4294967296; vw_dst : 0 <= v_dst v < 4294967296; vw_opt : zlen (v_opt v) = 4 * v_hl v - 20;
  vw_ports : 0 <= v_ports v < 4294967296; vw_seq : 0 <= v_seq v < 4294967296; vw_ack : 0 <= v_ack v < 4294967296;
  vw_off : 5 <= v_off v < 16; vw_win : 0 <= v_win v < 65536; vw_tsum : 0 <= v_tsum v < 65536; vw_urp : 0 <= v_urp v < 65536;
  vw_topt : zlen (v_topt v) = 4 * v_off v - 20
}.

(** ** Reading and writing fields *)

Lemma gb_app_ge a b i : zlen a <= i -> gb (a ++ b) i = gb b (i - zlen a).
Proof. intros Hi. unfold gb, zlen in *. rewrite app_nth2 by lia. f_equal. lia. Qed.
Lemma gb_app_lt a b i : 0 <= i < zlen a -> gb (a ++ b) i = gb a i.
Proof. intros Hi. unfold gb, zlen in *. by rewrite app_nth1 by lia. Qed.

Lemma put_mid (A B C X : list Z) i : i = zlen A -> zlen X = zlen B -> put (A ++ B ++ C) i X = A ++ X ++ C.
Proof.
  intros -> Hx. unfold put. rewrite ztake_app_le, ztake_ge by done. rewrite (app_assoc A B C), zdrop_app_ge by (rewrite zlen_app; lia).
  by rewrite zlen_app, Hx, Z.sub_diag, zdrop_le0.
Qed.
Lemma put_app_ge a b i x : zlen a <= i -> put (a ++ b) i x = a ++ put b (i - zlen a) x.
Proof.
  intros Hi. unfold put. rewrite ztake_app_ge by done. rewrite <- app_assoc, zdrop_app_ge by (pose proof (zlen_nonneg x); lia).
  do 4 f_equal. lia.
Qed.
Lemma put_app_lt a b i x : 0 <= i -> i + zlen x <= zlen a -> put (a ++ b) i x = put a i x ++ b.
Proof.
  intros Hi Hx. pose proof (zlen_nonneg x). unfold put. rewrite ztake_app_le, zdrop_app_le by lia. by rewrite <- !app_assoc.
Qed.

Lemma zlen_enc_ip v : vj_wf v -> zlen (enc_ip v) = 4 * v_hl v.
Proof. intros Hw. pose proof (vw_opt _ Hw). unfold enc_ip, be16, be32. cbn [app]. rewrite !zlen_cons. lia. Qed.
Lemma zlen_enc_tcp v : vj_wf v -> zlen (enc_tcp v) = 4 * v_off v.
Proof. intros Hw. pose proof (vw_topt _ Hw). unfold enc_tcp, be16, be32. cbn [app]. rewrite !zlen_cons. lia. Qed.
Lemma zlen_enc v : vj_wf v -> zlen (enc v) = vj_hlen v.
Proof. intros Hw. unfold enc, vj_hlen. rewrite zlen_app, zlen_enc_ip, zlen_enc_tcp by done. lia. Qed.

Lemma be16_val v : 0 <= v < 65536 -> v / 256 mod 256 * 256 + v mod 256 = v.
Proof. intros Hv. Z.to_euclidean_division_equations. lia. Qed.
Lemma be32_val v : 0 <= v < 4294967296 ->
  (v / 16777216 mod 256 * 256 + v / 65536 mod 256) * 65536 + (v / 256 mod 256 * 256 + v mod 256) = v.
Proof. intros Hv. Z.to_euclidean_division_equations. lia. Qed.

(** Reads in the IP header. *)
Lemma read_ip v r : vj_wf v ->
  let l := enc v ++ r in
  ip_hl l = v_hl v /\ th_at l = 4 * v_hl v /\ r16 l 2 = v_len v /\ r16 l 4 = v_id v /\ r16 l 6 = v_ipoff v /\ gb l 9 = v_p v.
Proof.
  intros [] l. assert (E : ip_hl l = v_hl v) by (unfold ip_hl; change (gb l 0) with (64 + v_hl v); Z.to_euclidean_division_equations; lia).
  unfold th_at. rewrite E. split_and!; [done|done|by apply be16_val..|done].
Qed.

(** Reads in the TCP header. *)
Lemma th_gb v r k : vj_wf v -> 0 <= k -> gb (enc v ++ r) (4 * v_hl v + k) = gb (enc_tcp v ++ r) k.
Proof. intros Hw Hk. unfold enc. rewrite <- app_assoc, gb_app_ge, zlen_enc_ip by (done || rewrite zlen_enc_ip by done; lia). f_equal. lia. Qed.

Lemma read_tcp v r : vj_wf v ->
  let l := enc v ++ r in
  let th := 4 * v_hl v in
  r32 l (th + 4) = v_seq v /\ r32 l (th + 8) = v_ack v /\ gb l (th + 12) = 16 * v_off v /\ gb l (th + 13) = flags_of (v_push v) (v_urg v) /\
  r16 l (th + 14) = v_win v /\ r16 l (th + 18) = v_urp v.
Proof.
  intros Hw l th. unfold r32, r16. rewrite <- !Z.add_assoc. cbn [Z.add Pos.add Pos.succ]. unfold l, th.
  rewrite !th_gb by (done || lia). destruct Hw. split_and!; [by apply be32_val|by apply be32_val|done|done|by apply be16_val|by apply be16_val].
Qed.

(** Parts of the headers. *)
Lemma zsub_app_ge (a b : list Z) i n : zlen a <= i -> zsub i n (a ++ b) = zsub (i - zlen a) n b.
Proof. intros Hi. unfold zsub. by rewrite zdrop_app_ge. Qed.
Lemma zsub_here (a b : list Z) n : n = zlen a -> zsub 0 n (a ++ b) = a.
Proof. intros ->. unfold zsub. rewrite zdrop_le0, ztake_app_le, ztake_ge by done. done. Qed.

Lemma parts_ip v r : vj_wf v ->
  let l := enc v ++ r in
  zsub 0 2 l = [64 + v_hl v; v_tos v] /\ zsub 6 2 l = be16 (v_ipoff v) /\ zsub 8 2 l = [v_ttl v; v_p v] /\
  zsub 12 8 l = be32 (v_src v) ++ be32 (v_dst v) /\ zsub 20 (4 * (v_hl v - 5)) l = v_opt v.
Proof.
  intros Hw l. split_and!; try reflexivity. unfold l, enc. rewrite <- app_assoc.
  transitivity (zsub 0 (4 * (v_hl v - 5)) (v_opt v ++ enc_tcp v ++ r)); [reflexivity|]. apply zsub_here. pose proof (vw_opt _ Hw). lia.
Qed.

Lemma th_zsub v r k n : vj_wf v -> 0 <= k -> zsub (4 * v_hl v + k) n (enc v ++ r) = zsub k n (enc_tcp v ++ r).
Proof.
  intros Hw Hk. unfold enc. rewrite <- app_assoc, zsub_app_ge, zlen_enc_ip by (done || rewrite zlen_enc_ip by done; lia). f_equal. lia.
Qed.

Lemma parts_tcp v r : vj_wf v ->
  let l := enc v ++ r in
  zsub (4 * v_hl v) 4 l = be32 (v_ports v) /\ zsub (4 * v_hl v + 16) 2 l = be16 (v_tsum v) /\
  zsub (4 * v_hl v + 20) (4 * (v_off v - 5)) l = v_topt v.
Proof.
  intros Hw l. rewrite <- (Z.add_0_r (4 * v_hl v)) at 1. unfold l. rewrite !th_zsub by (done || lia). split_and!; [reflexivity|reflexivity|].
  unfold enc_tcp. transitivity (zsub 0 (4 * (v_off v - 5)) (v_topt v ++ r)); [reflexivity|]. apply zsub_here. pose proof (vw_topt _ Hw). lia.
Qed.

Lemma be16_inj a b : 0 <= a < 65536 -> 0 <= b < 65536 -> be16 a = be16 b -> a = b.
Proof. intros Ha Hb [= E1 E2]. rewrite <- (be16_val a), <- (be16_val b) by done. by rewrite E1, E2. Qed.
Lemma be32_inj a b : 0 <= a < 4294967296 -> 0 <= b < 4294967296 -> be32 a = be32 b -> a = b.
Proof. intros Ha Hb [= E1 E2 E3 E4]. rewrite <- (be32_val a), <- (be32_val b) by done. by rewrite E1, E2, E3, E4. Qed.

(** Writes. *)
Lemma be16_u16 x : be16 (u16 x) = be16 x.
Proof. unfold be16, u16. f_equal; [|f_equal]; Z.to_euclidean_division_equations; lia. Qed.
Lemma be32_u32 x : be32 (u32 x) = be32 x.
Proof.
  unfold be32, u32. f_equal; [|f_equal; [|f_equal; [|f_equal]]]; Z.to_euclidean_division_equations; lia.
Qed.

Lemma th_put v r k x : vj_wf v -> 0 <= k -> put (enc v ++ r) (4 * v_hl v + k) x = enc_ip v ++ put (enc_tcp v ++ r) k x.
Proof. intros Hw Hk. unfold enc. rewrite <- app_assoc, put_app_ge, zlen_enc_ip by (done || rewrite zlen_enc_ip by done; lia). do 2 f_equal. lia. Qed.

Lemma write_hdr v r x y : vj_wf v ->
  let l := enc v ++ r in
  let th := 4 * v_hl v in
  put l 2 (be16 x) = enc (v <| v_len := u16 x |>) ++ r /\ put l 4 (be16 x) = enc (v <| v_id := u16 x |>) ++ r /\
  put l 9 [y] = enc (v <| v_p := y |>) ++ r /\ put l 10 (be16 x) = enc (v <| v_sum := u16 x |>) ++ r /\
  put l (th + 4) (be32 x) = enc (v <| v_seq := u32 x |>) ++ r /\ put l (th + 8) (be32 x) = enc (v <| v_ack := u32 x |>) ++ r /\
  put l (th + 14) (be16 x) = enc (v <| v_win := u16 x |>) ++ r /\ put l (th + 16) (be16 x) = enc (v <| v_tsum := u16 x |>) ++ r /\
  put l (th + 18) (be16 x) = enc (v <| v_urp := u16 x |>) ++ r.
Proof.
  intros Hw l th. unfold l, th. rewrite !th_put by (done || lia). rewrite <- (be16_u16 x), <- (be32_u32 x).
  split_and!; first [reflexivity|unfold enc; rewrite <- app_assoc; reflexivity].
Qed.

Lemma write_flags v r b : vj_wf v ->
  let l := enc v ++ r in
  let th := 4 * v_hl v in
  set_flag l (th + 13) b TH_PUSH = enc (v <| v_push := b |>) ++ r /\ set_flag l (th + 13) b TH_URG = enc (v <| v_urg := b |>) ++ r.
Proof.
  intros Hw l th. unfold set_flag. destruct (read_tcp v r Hw) as (_ & _ & _ & E & _). fold l th in E. rewrite E. unfold l, th.
  rewrite !th_put by (done || lia). unfold enc. rewrite <- !app_assoc. destruct (v_push v) eqn:Ep, (v_urg v) eqn:Eu, b;
    split; unfold enc_tcp; rec_simpl; rewrite ?Ep, ?Eu; reflexivity.
Qed.

(** ** The coding of numbers *)

Lemma decode_at a x c n k : (forall t, decode_num (x ++ t) 0 = (n, k)) -> decode_num (a ++ x ++ c) (zlen a) = (n, zlen a + k).
Proof.
  intros H. specialize (H c). unfold decode_num in *. pose proof (zlen_nonneg a). rewrite (gb_app_ge a (x ++ c)), (gb_app_ge a (x ++ c) (zlen a + 1)), (gb_app_ge a (x ++ c) (zlen a + 2)) by lia.
  replace (zlen a - zlen a) with 0 by lia. replace (zlen a + 1 - zlen a) with (0 + 1) by lia. replace (zlen a + 2 - zlen a) with (0 + 2) by lia.
  destruct (gb (x ++ c) 0 =? 0); injection H as <- <-; f_equal; lia.
Qed.

Lemma decode_long n t : decode_num (long_form n ++ t) 0 = (u16 n, 3).
Proof.
  assert (E : u8 (Z.shiftr n 8) * 256 + u8 n = u16 n).
  { rewrite Z.shiftr_div_pow2 by done. change (2 ^ 8) with 256. unfold u8, u16. Z.to_euclidean_division_equations. lia. }
  rewrite <- E. reflexivity.
Qed.

Lemma decode_short n t : 0 < u16 n < 256 -> decode_num ([u8 n] ++ t) 0 = (u16 n, 1).
Proof.
  intros Hn. assert (E : u8 n = u16 n) by (unfold u8, u16 in *; Z.to_euclidean_division_equations; lia). rewrite E.
  unfold decode_num. change (gb ([u16 n] ++ t) 0) with (u16 n). destruct (Z.eqb_spec (u16 n) 0); [lia|done].
Qed.

Lemma decode_ENCODEZ a n c : decode_num (a ++ ENCODEZ n ++ c) (zlen a) = (u16 n, zlen a + zlen (ENCODEZ n)).
Proof.
  apply decode_at. intros t. unfold ENCODEZ. destruct (_ || _) eqn:E; [apply decode_long|].
  apply decode_short. pose proof (u16_range n). apply orb_false_iff in E. lia.
Qed.

Lemma decode_ENCODE a n c : u16 n <> 0 -> decode_num (a ++ ENCODE n ++ c) (zlen a) = (u16 n, zlen a + zlen (ENCODE n)).
Proof.
  intros Hn. apply decode_at. intros t. unfold ENCODE. destruct (u16 n >=? 256) eqn:E; [apply decode_long|].
  apply decode_short. pose proof (u16_range n). lia.
Qed.

(** ** The byte of changes *)

(** [c] is whether NEW_C is set, and the bit of TYPE_COMPRESSED_TCP. *)
Definition none : bool * bool := (false, false).
Definition chg (u w a s i p : bool) (c : bool * bool) : Z :=
  (if u then 1 else 0) + (if w then 2 else 0) + (if a then 4 else 0) + (if s then 8 else 0) +
  (if p then 16 else 0) + (if i then 32 else 0) + (if c.1 then 64 else 0) + (if c.2 then 128 else 0).

Lemma chg_bits u w a s i p c :
  let x := chg u w a s i p c in
  hasf x NEW_U = u /\ hasf x NEW_W = w /\ hasf x NEW_A = a /\ hasf x NEW_S = s /\ hasf x NEW_I = i /\ hasf x TCP_PUSH_BIT = p /\
  hasf x NEW_C = c.1 /\ Z.land x SPECIALS_MASK = chg u w a s false false none /\ 0 <= x < 256.
Proof. destruct u, w, a, s, i, p, c as [[] []]; vm_compute; intuition congruence. Qed.

(** What sl_changes finds for two headers of one conversation. *)
Definition seq_of (w v : vj) : list Z :=
  let dW := u16 (v_win w - v_win v) in
  let dA := u32 (v_ack w - v_ack v) in
  let dS := u32 (v_seq w - v_seq v) in
  (if v_urg w then ENCODEZ (v_urp w) else []) ++ (if dW =? 0 then [] else ENCODE dW) ++
  (if dA =? 0 then [] else ENCODE dA) ++ (if dS =? 0 then [] else ENCODE dS).

Definition chg_of (w v : vj) (i p : bool) (c : bool * bool) : Z :=
  chg (v_urg w) (negb (u16 (v_win w - v_win v) =? 0)) (negb (u32 (v_ack w - v_ack v) =? 0)) (negb (u32 (v_seq w - v_seq v) =? 0)) i p c.

Lemma flags_urg p u : hasf (flags_of p u) TH_URG = u /\ hasf (flags_of p u) TH_PUSH = p.
Proof. by destruct p, u. Qed.

Lemma sl_changes_ok w v d j x : vj_wf w -> vj_wf v -> v_hl w = v_hl v -> sl_changes (enc w ++ d) (enc v ++ j) = Some x ->
  (v_urg w = false -> v_urp w = v_urp v) /\ u32 (v_ack w - v_ack v) <= 65535 /\ u32 (v_seq w - v_seq v) <= 65535 /\
  x = (chg_of w v false false none, seq_of w v, u32 (v_seq w - v_seq v), u32 (v_ack w - v_ack v)).
Proof.
  intros Hw Hv Ehl. destruct (read_ip w d Hw) as (_ & Eth & _). destruct (read_tcp w d Hw) as (R1 & R2 & R3 & R4 & R5 & R6).
  destruct (read_tcp v j Hv) as (S1 & S2 & S3 & S4 & S5 & S6). unfold sl_changes, th_flags. rewrite Eth, R1, R2, R4, R5, R6, Ehl, S1, S2, S5, S6.
  destruct (flags_urg (v_push w) (v_urg w)) as [-> _]. unfold chg_of, seq_of.
  destruct (v_urg w); cbn [negb andb].
  - destruct (u16 _ =? 0); cbn [negb]; destruct (Z.gtb_spec (u32 (v_ack w - v_ack v)) 65535); try done;
      destruct (u32 (v_ack w - v_ack v) =? 0); cbn [negb]; destruct (Z.gtb_spec (u32 (v_seq w - v_seq v)) 65535); try done;
      destruct (u32 (v_seq w - v_seq v) =? 0); cbn [negb]; intros [= <-]; split_and!; try done; try lia;
      rewrite ?app_nil_r, <- ?app_assoc; reflexivity.
  - destruct (Z.eqb_spec (v_urp w) (v_urp v)); cbn [negb]; [|done].
    destruct (u16 _ =? 0); cbn [negb]; destruct (Z.gtb_spec (u32 (v_ack w - v_ack v)) 65535); try done;
      destruct (u32 (v_ack w - v_ack v) =? 0); cbn [negb]; destruct (Z.gtb_spec (u32 (v_seq w - v_seq v)) 65535); try done;
      destruct (u32 (v_seq w - v_seq v) =? 0); cbn [negb]; intros [= <-]; split_and!; try done; try lia;
      rewrite ?app_nil_r, <- ?app_assoc; reflexivity.
Qed.

(** ** The receiver applies the changes *)

Ltac wf_set := match goal with H : vj_wf _ |- vj_wf _ => destruct H; split; rec_simpl; done || lia end.

Section Stages.
Context (buf a c j : list Z) (x : vj) (Hx : vj_wf x).

Lemma stage_urp n : buf = a ++ ENCODEZ n ++ c -> 0 <= n < 65536 ->
  DECODEU buf (4 * v_hl x + 18) (enc x ++ j, zlen a) = (enc (x <| v_urp := n |>) ++ j, zlen (a ++ ENCODEZ n)).
Proof.
  intros -> Hn. unfold DECODEU. rewrite decode_ENCODEZ, zlen_app. destruct (write_hdr x j (u16 n) 0 Hx) as (_ & _ & _ & _ & _ & _ & _ & _ & ->).
  by rewrite !u16_id by (rewrite ?u16_id; lia).
Qed.

Lemma stage_win n y : buf = a ++ (if n =? 0 then [] else ENCODE n) ++ c -> 0 <= y < 65536 -> n = u16 (y - v_win x) ->
  (if negb (n =? 0) then DECODES buf (4 * v_hl x + 14) (enc x ++ j, zlen a) else (enc x ++ j, zlen a)) =
  (enc (x <| v_win := y |>) ++ j, zlen (a ++ if n =? 0 then [] else ENCODE n)).
Proof.
  intros -> Hy Hn. pose proof (u16_range (y - v_win x)). pose proof (vw_win _ Hx) as Hwin. destruct (Z.eqb_spec n 0) as [E|E]; cbn [negb].
  - rewrite app_nil_r. replace y with (v_win x) by (unfold u16 in Hn; Z.to_euclidean_division_equations; lia). by destruct x.
  - unfold DECODES. rewrite decode_ENCODE, zlen_app by (rewrite u16_id; lia). destruct (read_tcp x j Hx) as (_ & _ & _ & _ & -> & _).
    destruct (write_hdr x j (v_win x + u16 n) 0 Hx) as (_ & _ & _ & _ & _ & _ & -> & _). rewrite (u16_id n) by lia. do 3 f_equal.
    unfold u16 in *. f_equal. Z.to_euclidean_division_equations. lia.
Qed.

Lemma stage_ack n y : buf = a ++ (if n =? 0 then [] else ENCODE n) ++ c -> 0 <= y < 4294967296 -> n = u32 (y - v_ack x) -> n <= 65535 ->
  (if negb (n =? 0) then DECODEL buf (4 * v_hl x + 8) (enc x ++ j, zlen a) else (enc x ++ j, zlen a)) =
  (enc (x <| v_ack := y |>) ++ j, zlen (a ++ if n =? 0 then [] else ENCODE n)).
Proof.
  intros -> Hy Hn Hle. pose proof (u32_range (y - v_ack x)). pose proof (vw_ack _ Hx) as Hack. destruct (Z.eqb_spec n 0) as [E|E]; cbn [negb].
  - rewrite app_nil_r. replace y with (v_ack x) by (unfold u32 in Hn; Z.to_euclidean_division_equations; lia). by destruct x.
  - unfold DECODEL. rewrite decode_ENCODE, zlen_app by (rewrite u16_id; lia). destruct (read_tcp x j Hx) as (_ & -> & _).
    destruct (write_hdr x j (v_ack x + u16 n) 0 Hx) as (_ & _ & _ & _ & _ & -> & _). rewrite (u16_id n) by lia. do 3 f_equal.
    unfold u32 in *. f_equal. Z.to_euclidean_division_equations. lia.
Qed.

Lemma stage_seq n y : buf = a ++ (if n =? 0 then [] else ENCODE n) ++ c -> 0 <= y < 4294967296 -> n = u32 (y - v_seq x) -> n <= 65535 ->
  (if negb (n =? 0) then DECODEL buf (4 * v_hl x + 4) (enc x ++ j, zlen a) else (enc x ++ j, zlen a)) =
  (enc (x <| v_seq := y |>) ++ j, zlen (a ++ if n =? 0 then [] else ENCODE n)).
Proof.
  intros -> Hy Hn Hle. pose proof (u32_range (y - v_seq x)). pose proof (vw_seq _ Hx) as Hseq. destruct (Z.eqb_spec n 0) as [E|E]; cbn [negb].
  - rewrite app_nil_r. replace y with (v_seq x) by (unfold u32 in Hn; Z.to_euclidean_division_equations; lia). by destruct x.
  - unfold DECODEL. rewrite decode_ENCODE, zlen_app by (rewrite u16_id; lia). destruct (read_tcp x j Hx) as (-> & _).
    destruct (write_hdr x j (v_seq x + u16 n) 0 Hx) as (_ & _ & _ & _ & -> & _). rewrite (u16_id n) by lia. do 3 f_equal.
    unfold u32 in *. f_equal. Z.to_euclidean_division_equations. lia.
Qed.

Lemma stage_id n y : buf = a ++ (if n =? 1 then [] else ENCODEZ n) ++ c -> 0 <= y < 65536 -> n = u32 (y - v_id x) ->
  (if negb (n =? 1) then DECODES buf 4 (enc x ++ j, zlen a) else (put (enc x ++ j) 4 (be16 (r16 (enc x ++ j) 4 + 1)), zlen a)) =
  (enc (x <| v_id := y |>) ++ j, zlen (a ++ if n =? 1 then [] else ENCODEZ n)).
Proof.
  intros -> Hy Hn. pose proof (vw_id _ Hx) as Hid. destruct (read_ip x j Hx) as (_ & _ & _ & Ei & _).
  destruct (Z.eqb_spec n 1) as [E|E]; cbn [negb].
  - rewrite app_nil_r, Ei. destruct (write_hdr x j (v_id x + 1) 0 Hx) as (_ & -> & _). do 3 f_equal.
    unfold u16, u32 in *. f_equal. Z.to_euclidean_division_equations. lia.
  - unfold DECODES. rewrite decode_ENCODEZ, zlen_app, Ei. destruct (write_hdr x j (v_id x + u16 n) 0 Hx) as (_ & -> & _). do 3 f_equal.
    unfold u16, u32 in *. f_equal. Z.to_euclidean_division_equations. lia.
Qed.

End Stages.

(** The fields that a compressed packet carries, taken from [w]. *)
Definition moved (w x : vj) : vj :=
  x <| v_push := v_push w |> <| v_urg := v_urg w |> <| v_urp := v_urp w |> <| v_win := v_win w |> <| v_ack := v_ack w |>
    <| v_seq := v_seq w |> <| v_id := v_id w |>.
Definition id_of (w x : vj) : list Z := let n := u32 (v_id w - v_id x) in if n =? 1 then [] else ENCODEZ n.

Lemma chg_set u w a s (i p c t : bool) :
  let x := chg u w a s false false none in
  let y := if i then setb x NEW_I else x in
  let z := if p then setb y TCP_PUSH_BIT else y in
  let q := if c then setb z NEW_C else z in
  q = chg u w a s i p (c, false) /\ (if t then Z.lor q TYPE_COMPRESSED_TCP else q) = chg u w a s i p (c, t).
Proof. by destruct u, w, a, s, i, p, c, t. Qed.

(** The two special encodings: what they mean. *)
Record special (w v : vj) (hlen : Z) (d : bool) : Prop := {
  sp_urg : v_urg w = false;
  sp_win : v_win w = v_win v;
  sp_seq : v_seq w = u32 (v_seq v + (v_len v - hlen));
  sp_ack : v_ack w = if d then v_ack v else u32 (v_ack v + (v_len v - hlen))
}.

Lemma same_diff32 a b : 0 <= a < 4294967296 -> 0 <= b < 4294967296 -> u32 (a - b) = 0 -> a = b.
Proof. intros. wrap_lia. Qed.
Lemma same_diff16 a b : 0 <= a < 65536 -> 0 <= b < 65536 -> u16 (a - b) = 0 -> a = b.
Proof. intros. wrap_lia. Qed.
Lemma diff32 a b n : 0 <= a < 4294967296 -> u32 (a - b) = u32 n -> a = u32 (b + n).
Proof. intros. wrap_lia. Qed.

Lemma chg_inj u w a s u' w' a' s' : chg u w a s false false none = chg u' w' a' s' false false none -> u = u' /\ w = w' /\ a = a' /\ s = s'.
Proof. by destruct u, w, a, s, u', w', a', s'. Qed.

Lemma sl_special_ok w v d j hlen ch seq : vj_wf w -> vj_wf v ->
  sl_special (enc w ++ d) (enc v ++ j) hlen
    (chg_of w v false false none, seq_of w v, u32 (v_seq w - v_seq v), u32 (v_ack w - v_ack v)) = Some (ch, seq) ->
  (ch = chg_of w v false false none /\ seq = seq_of w v /\ ch <> SPECIAL_I /\ ch <> SPECIAL_D) \/
  (exists b : bool, special w v hlen b /\ seq = [] /\ ch = chg true true b true false false none).
Proof.
  intros Hw Hv. pose proof Hw as []. pose proof Hv as []. unfold sl_special. destruct (read_ip v j Hv) as (_ & _ & -> & _). destruct (read_ip w d Hw) as (_ & _ & -> & _).
  destruct (Z.eqb_spec (chg_of w v false false none) 0) as [E0|E0].
  { destruct (_ && _); [|done]. intros [= <- <-]. left. rewrite E0. done. }
  destruct (Z.eqb_spec (chg_of w v false false none) SPECIAL_I) as [E1|E1]; [done|].
  destruct (Z.eqb_spec (chg_of w v false false none) SPECIAL_D) as [E2|E2]; [done|]. cbn [orb].
  destruct (Z.eqb_spec (chg_of w v false false none) (setb NEW_S NEW_A)) as [E3|E3].
  { apply (chg_inj _ _ _ _ false false true true) in E3 as (Bu & Bw & Ba & Bs). apply negb_false_iff, Z.eqb_eq, same_diff16 in Bw; try done.
    destruct (Z.eqb_spec (u32 (v_seq w - v_seq v)) (u32 (v_ack w - v_ack v))) as [Ea|]; cbn [andb]; [|intros [= <- <-]; by left].
    destruct (Z.eqb_spec (u32 (v_seq w - v_seq v)) (u32 (v_len v - hlen))) as [El|]; intros [= <- <-]; [|by left].
    right. exists false. split_and!; try done. split; try done; apply diff32; try done; congruence. }
  destruct (Z.eqb_spec (chg_of w v false false none) NEW_S) as [E4|E4].
  { apply (chg_inj _ _ _ _ false false false true) in E4 as (Bu & Bw & Ba & Bs). apply negb_false_iff, Z.eqb_eq, same_diff16 in Bw; try done.
    apply negb_false_iff, Z.eqb_eq, same_diff32 in Ba; try done.
    destruct (Z.eqb_spec (u32 (v_seq w - v_seq v)) (u32 (v_len v - hlen))) as [El|]; intros [= <- <-]; [|by left].
    right. exists true. split_and!; try done. split; try done. apply diff32; done. }
  intros [= <- <-]. by left.
Qed.

Section Apply.
Context (j : list Z) (x w : vj) (Hx : vj_wf x) (Hw : vj_wf w).

(** The fields of the switch. *)
Definition switched : vj :=
  x <| v_urg := v_urg w |> <| v_urp := v_urp w |> <| v_win := v_win w |> <| v_ack := v_ack w |> <| v_seq := v_seq w |>.

Lemma switched_wf : vj_wf switched.
Proof. destruct Hw, Hx. split; unfold switched; rec_simpl; done. Qed.

Lemma switch_default buf pre rest i p c k :
  (v_urg w = false -> v_urp w = v_urp x) -> u32 (v_ack w - v_ack x) <= 65535 -> u32 (v_seq w - v_seq x) <= 65535 ->
  chg_of w x false false none <> SPECIAL_I -> chg_of w x false false none <> SPECIAL_D ->
  buf = pre ++ seq_of w x ++ rest ->
  sl_switch buf (chg_of w x i p c) k (4 * v_hl x) (enc x ++ j) (zlen pre) = (enc switched ++ j, zlen (pre ++ seq_of w x)).
Proof.
  intros Hurp HA HS Hn1 Hn2 Hbuf. unfold sl_switch.
  destruct (chg_bits (v_urg w) (negb (u16 (v_win w - v_win x) =? 0)) (negb (u32 (v_ack w - v_ack x) =? 0)) (negb (u32 (v_seq w - v_seq x) =? 0))
    i p c) as (B1 & B2 & B3 & B4 & _ & _ & _ & B8 & _).
  fold (chg_of w x i p c) in B1, B2, B3, B4, B8. rewrite B1, B2, B3, B4, B8.
  fold (chg_of w x false false none). rewrite (proj2 (Z.eqb_neq _ _) Hn1), (proj2 (Z.eqb_neq _ _) Hn2).
  unfold seq_of in *. set (U := if v_urg w then ENCODEZ (v_urp w) else []) in *. set (nW := u16 (v_win w - v_win x)) in *.
  set (nA := u32 (v_ack w - v_ack x)) in *. set (nS := u32 (v_seq w - v_seq x)) in *.
  rewrite <- !app_assoc in Hbuf. pose proof (vw_urp _ Hw). pose proof (vw_win _ Hw). pose proof (vw_ack _ Hw). pose proof (vw_seq _ Hw).
  set (x2 := x <| v_urg := v_urg w |> <| v_urp := v_urp w |>). assert (Hx2 : vj_wf x2) by wf_set.
  assert (E1 : (if v_urg w then DECODEU buf (4 * v_hl x + 18) (set_flag (enc x ++ j) (4 * v_hl x + 13) true TH_URG, zlen pre)
                else (set_flag (enc x ++ j) (4 * v_hl x + 13) false TH_URG, zlen pre)) = (enc x2 ++ j, zlen (pre ++ U))).
  { unfold U in *. destruct (v_urg w) eqn:Eu.
    - destruct (write_flags x j true Hx) as [_ ->]. assert (Hx' : vj_wf (x <| v_urg := true |>)) by wf_set.
      exact (stage_urp buf pre _ j _ Hx' (v_urp w) Hbuf ltac:(done)).
    - destruct (write_flags x j false Hx) as [_ ->]. rewrite app_nil_r. f_equal. unfold x2. rewrite Hurp by done. by destruct x. }
  rewrite E1. set (x3 := x2 <| v_win := v_win w |>). assert (Hx3 : vj_wf x3) by wf_set.
  rewrite (app_assoc pre) in Hbuf. pose proof (stage_win buf _ _ j x2 Hx2 nW (v_win w) Hbuf ltac:(done) eq_refl) as E2.
  change (v_hl x2) with (v_hl x) in E2. change (x2 <| v_win := v_win w |>) with x3 in E2. rewrite E2.
  rewrite (app_assoc (pre ++ U)) in Hbuf. set (x4 := x3 <| v_ack := v_ack w |>). assert (Hx4 : vj_wf x4) by wf_set.
  pose proof (stage_ack buf _ _ j x3 Hx3 nA (v_ack w) Hbuf ltac:(done) eq_refl HA) as E3.
  change (v_hl x3) with (v_hl x) in E3. change (x3 <| v_ack := v_ack w |>) with x4 in E3. rewrite E3. rewrite app_assoc in Hbuf.
  pose proof (stage_seq buf _ _ j x4 Hx4 nS (v_seq w) Hbuf ltac:(done) eq_refl HS) as E4.
  change (v_hl x4) with (v_hl x) in E4. rewrite E4. by rewrite !app_assoc.
Qed.

Lemma switch_special buf (pre : list Z) hlen b i p c :
  v_urg x = false -> v_urp w = v_urp x -> special w x hlen b ->
  sl_switch buf (chg true true b true i p c) (v_len x - hlen) (4 * v_hl x) (enc x ++ j) (zlen pre) = (enc switched ++ j, zlen pre).
Proof.
  intros Hu Hp [S1 S2 S3 S4]. unfold sl_switch.
  destruct (chg_bits true true b true i p c) as (_ & _ & _ & _ & _ & _ & _ & -> & _).
  destruct (read_tcp x j Hx) as (R1 & R2 & _). destruct (write_hdr x j (v_seq x + (v_len x - hlen)) 0 Hx) as (_ & _ & _ & _ & W1 & _).
  assert (Es : switched = x <| v_ack := v_ack w |> <| v_seq := v_seq w |>).
  { unfold switched. rewrite S1, Hp, S2, <- Hu. by destruct x. }
  rewrite Es, S3. destruct b.
  - change (chg true true true true false false none =? SPECIAL_I) with false. change (chg true true true true false false none =? SPECIAL_D) with true.
    cbv iota. rewrite R1, W1, S4. by destruct x.
  - change (chg true true false true false false none =? SPECIAL_I) with true. cbv iota zeta. rewrite R2.
    destruct (write_hdr x j (v_ack x + (v_len x - hlen)) 0 Hx) as (_ & _ & _ & _ & _ & -> & _). rewrite <- S4.
    assert (Hx3 : vj_wf (x <| v_ack := v_ack w |>)) by (pose proof (vw_ack _ Hw); wf_set).
    destruct (read_tcp _ j Hx3) as (R3 & _). destruct (write_hdr _ j (v_seq x + (v_len x - hlen)) 0 Hx3) as (_ & _ & _ & _ & W3 & _).
    change (v_hl (x <| v_ack := v_ack w |>)) with (v_hl x) in R3, W3. rewrite R3. exact (f_equal (fun l => (l, zlen pre)) W3).
Qed.

End Apply.

(** What follows the switch. *)
Lemma apply_ok buf pre seq data j x w hlen ch (u a b s : bool) c :
  vj_wf x -> vj_wf w -> ch = chg u a b s (negb (u32 (v_id w - v_id x) =? 1)) (v_push w) c ->
  (forall x1, x1 = x <| v_push := v_push w |> ->
     sl_switch buf ch (v_len x1 - hlen) (4 * v_hl x1) (enc x1 ++ j) (zlen pre) = (enc (switched x1 w) ++ j, zlen (pre ++ seq))) ->
  buf = pre ++ seq ++ id_of w x ++ data ->
  sl_apply buf ch hlen (enc x ++ j) (zlen pre) = (enc (moved w x) ++ j, zlen (pre ++ seq ++ id_of w x)).
Proof.
  intros Hx Hw Hch Hs Hbuf. unfold sl_apply.
  destruct (chg_bits u a b s (negb (u32 (v_id w - v_id x) =? 1)) (v_push w) c) as (_ & _ & _ & _ & B5 & B6 & _). rewrite <- Hch in B5, B6.
  rewrite B5, B6. destruct (read_ip x j Hx) as (_ & -> & _). destruct (write_flags x j (v_push w) Hx) as [-> _].
  set (x1 := x <| v_push := v_push w |>). assert (Hx1 : vj_wf x1) by wf_set. destruct (read_ip x1 j Hx1) as (_ & _ & -> & _).
  specialize (Hs x1 eq_refl). change (v_hl x1) with (v_hl x) in Hs. rewrite Hs. pose proof (switched_wf x1 w Hx1 Hw) as Hsw.
  rewrite app_assoc in Hbuf. pose proof (vw_id _ Hw).
  pose proof (stage_id buf _ _ j _ Hsw _ (v_id w) Hbuf ltac:(done) eq_refl) as E5. change (v_id (switched x1 w)) with (v_id x) in E5.
  rewrite E5. by rewrite (app_assoc pre).
Qed.

(** ** Comparing headers *)

(** What two headers have in common when the new one can be compressed. *)
Record alike (w v : vj) : Prop := {
  al_hl : v_hl w = v_hl v; al_tos : v_tos w = v_tos v; al_ipoff : v_ipoff w = v_ipoff v; al_ttl : v_ttl w = v_ttl v; al_p : v_p w = v_p v;
  al_off : v_off w = v_off v; al_opt : v_opt w = v_opt v; al_topt : v_topt w = v_topt v;
  al_src : v_src w = v_src v; al_dst : v_dst w = v_dst v; al_ports : v_ports w = v_ports v
}.

Lemma same_conv_ok w v d j c : vj_wf w -> vj_wf v -> cs_hdr c = enc v ++ j -> same_conv (enc w ++ d) c = true ->
  v_src w = v_src v /\ v_dst w = v_dst v /\ v_ports w = v_ports v.
Proof.
  intros Hw Hv Hc H. apply bool_decide_eq_true in H as [H1 H2]. rewrite Hc in H1, H2.
  destruct (read_ip w d Hw) as (_ & Ew & _). destruct (read_ip v j Hv) as (_ & Ev & _). rewrite Ew, Ev in H2.
  destruct (parts_ip w d Hw) as (_ & _ & _ & P1 & _). destruct (parts_ip v j Hv) as (_ & _ & _ & P2 & _). rewrite P1, P2 in H1.
  destruct (parts_tcp w d Hw) as (Q1 & _). destruct (parts_tcp v j Hv) as (Q2 & _). rewrite Q1, Q2 in H2.
  apply app_inj_1 in H1 as [H1 H3]; [|done]. destruct Hw, Hv. split_and!; by apply be32_inj.
Qed.

Lemma unexpected_ok w v d j : vj_wf w -> vj_wf v -> v_src w = v_src v -> v_dst w = v_dst v -> v_ports w = v_ports v ->
  unexpected (enc w ++ d) (enc v ++ j) = false -> alike w v.
Proof.
  intros Hw Hv Es Ed Ep. unfold unexpected, th_off. destruct (read_ip w d Hw) as (-> & -> & _).
  destruct (parts_ip w d Hw) as (-> & -> & -> & _ & P5). destruct (parts_ip v j Hv) as (-> & -> & -> & _ & P5').
  destruct (read_tcp w d Hw) as (_ & _ & -> & _). rewrite (Z.mul_comm 16), Z.div_mul by done.
  rewrite !orb_false_iff, !negb_false_iff, !bool_decide_eq_true. intros (((((H1 & H2) & H3) & H4) & H5) & H6).
  injection H1 as Eh Et. assert (Ehl : v_hl w = v_hl v) by lia. injection H3 as E1 E2.
  destruct (read_tcp v j Hv) as (_ & _ & R & _). rewrite Ehl, R, (Z.mul_comm 16), Z.div_mul in H4 by done. apply Z.eqb_eq in H4.
  destruct (parts_tcp w d Hw) as (_ & _ & Q). destruct (parts_tcp v j Hv) as (_ & _ & Q').
  pose proof (vw_opt _ Hw). pose proof (vw_opt _ Hv). pose proof (vw_topt _ Hw). pose proof (vw_topt _ Hv). pose proof (vw_hl _ Hw). pose proof (vw_off _ Hw).
  assert (Ei : v_ipoff w = v_ipoff v) by (destruct Hw, Hv; by apply be16_inj). split; try done.
  - apply andb_false_iff in H5 as [H5|H5]; [rewrite (zlen_0 (v_opt w)), (zlen_0 (v_opt v)) by lia; done|].
    apply negb_false_iff, bool_decide_eq_true in H5. rewrite P5, Ehl, P5' in H5. done.
  - apply andb_false_iff in H6 as [H6|H6]; [rewrite (zlen_0 (v_topt w)), (zlen_0 (v_topt v)) by lia; done|].
    apply negb_false_iff, bool_decide_eq_true in H6. rewrite Q, Ehl, H4, Q' in H6. done.
Qed.

(** The header that results has all the fields of the new one but for its length and
    checksum. *)
Lemma moved_alike w v : alike w v ->
  moved w (v <| v_sum := 0 |> <| v_tsum := v_tsum w |>) = w <| v_sum := 0 |> <| v_len := v_len v |>.
Proof. intros []. destruct v, w. unfold moved. rec_simpl. simpl in *. by subst. Qed.

(** ** The header checksum *)

Lemma sum_words_ws l : Z.Even (zlen l) -> sum_words l = ws false l.
Proof.
  remember (length l) as n eqn:En. revert l En. induction (lt_wf n) as [n _ IH]. intros l En [k Hk]. destruct l as [|a [|b l]].
  - done.
  - change (zlen [a]) with 1 in Hk. lia.
  - cbn [sum_words ws negb]. rewrite (IH (length l)); [lia|cbn in En; lia|done|]. exists (k - 1). rewrite !zlen_cons in Hk. lia.
Qed.

Lemma ws_bound l : Forall is_byte l -> forall o, 0 <= ws o l <= 65280 * zlen l.
Proof.
  induction 1 as [|b l Hb _ IH]; intros o; [by cbn|]. rewrite zlen_cons. cbn [ws]. specialize (IH (negb o)). unfold is_byte in Hb. destruct o; lia.
Qed.

Lemma fold16_norm s : 0 <= s < 4294967296 - 65536 -> u16 (fold16 (fold16 s)) = oc_norm s.
Proof.
  intros Hs. unfold fold16, oc_norm, u16. rewrite !Z.shiftr_div_pow2, !(Z.land_ones _ 16) by done. change (2 ^ 16) with 65536.
  destruct (Z.eqb_spec s 0) as [->|]; [done|]. destruct (Z.eqb_spec (s mod 65535) 0) as [E|E]; Z.to_euclidean_division_equations; lia.
Qed.

Lemma hdr_cksum_ok l : Forall is_byte l -> Z.Even (zlen l) -> zlen l <= 60 -> hdr_cksum l = cksum_ref l.
Proof.
  intros Hb He Hl. unfold hdr_cksum, cksum_ref. rewrite sum_words_ws by done. pose proof (ws_bound l Hb false). by rewrite fold16_norm by lia.
Qed.

(** ** The list of states *)

Definition nxt (ts : list cstate) (i : Z) : option Z := cs_next <$> ts !! Z.to_nat i.

(** Following [cs_next] from [a] passes through [l]. *)
Fixpoint path (ts : list cstate) (a : Z) (l : list Z) : Prop :=
  match l with [] => True | b :: l => nxt ts a = Some b /\ path ts b l end.
Definition fin (l : list Z) (a : Z) : Z := List.last l a.

Lemma fin_cons b l a : fin (b :: l) a = fin l b.
Proof. unfold fin. revert a b. induction l as [|c l IH]; intros a b; [done|]. change (List.last (b :: c :: l) a) with (List.last (c :: l) a). by rewrite !IH. Qed.
Lemma fin_app l1 l2 a : fin (l1 ++ l2) a = fin l2 (fin l1 a).
Proof. revert a. induction l1 as [|b l1 IH]; intros a; [done|]. rewrite <- app_comm_cons, !fin_cons. apply IH. Qed.
Lemma fin_in l a : fin l a ∈ a :: l.
Proof. revert a. induction l as [|b l IH]; intros a; [by left|]. rewrite fin_cons. right. apply IH. Qed.

Lemma links_app ts l1 l2 a : path ts a (l1 ++ l2) <-> path ts a l1 /\ path ts (fin l1 a) l2.
Proof.
  revert a. induction l1 as [|b l1 IH]; intros a; [by cbn; tauto|]. rewrite fin_cons. cbn [path app]. rewrite IH. tauto.
Qed.

Lemma links_ext ts ts' l a : path ts a l -> NoDup (a :: l) -> (forall x, x ∈ a :: l -> x <> fin l a -> nxt ts' x = nxt ts x) -> path ts' a l.
Proof.
  revert a. induction l as [|b l IH]; intros a Hp Hd He; [done|]. destruct Hp as [Hn Hp]. apply list.NoDup_cons in Hd as [Ha Hd].
  pose proof (fin_in l b) as Hin. rewrite fin_cons in He. split.
  - rewrite He; [done|by left|]. intros E. by rewrite <- E in Hin.
  - apply IH; [done|done|]. intros x Hx Hne. apply He; [by right|done].
Qed.

(** The states form a ring that ends with [last]. *)
Record ring_of (ts : list cstate) (last c0 : Z) (l : list Z) : Prop := {
  rg_path : path ts last (c0 :: l);
  rg_fin : fin l c0 = last;
  rg_nodup : NoDup (c0 :: l);
  rg_range : Forall (fun i => 0 <= i < Z.of_nat (length ts)) (c0 :: l);
  rg_len : (length l <= length ts)%nat;
  rg_more : l <> []
}.
Definition ring (ts : list cstate) (last : Z) : Prop := exists c0 l, ring_of ts last c0 l.

Lemma get_cs_in ts i : 0 <= i < Z.of_nat (length ts) -> exists c, ts !! Z.to_nat i = Some c /\ get_cs ts i = Ret c.
Proof. intros Hi. unfold get_cs. destruct (lookup_lt_is_Some_2 ts (Z.to_nat i)) as [c Hc]; [lia|]. exists c. by rewrite Hc. Qed.

Lemma search_ok ts l lastcs : forall rest fuel a,
  path ts a rest -> rest <> [] -> fin rest a = lastcs -> NoDup (a :: rest) ->
  Forall (fun i => 0 <= i < Z.of_nat (length ts)) (a :: rest) -> (length rest <= fuel)%nat ->
  exists l1 b l2 found, rest = l1 ++ b :: l2 /\ cs_search fuel ts l lastcs a = Ret (b, fin l1 a, found) /\
    (found = true -> exists c, ts !! Z.to_nat b = Some c /\ same_conv l c = true) /\ (found = false -> l2 = []).
Proof.
  intros rest. induction rest as [|b rest IH]; intros fuel a Hp Hne Hf Hd Hr Hl; [done|]. clear Hne. destruct Hp as [Hn Hp]. cbn in Hl.
  destruct fuel as [|fuel]; [lia|]. cbn [cs_search]. apply Forall_cons_iff in Hr as [Ha Hr]. destruct (get_cs_in ts a Ha) as (ca & Eca & ->).
  cbn [obind]. unfold nxt in Hn. rewrite Eca in Hn. injection Hn as Hn. rewrite Hn. pose proof Hr as [Hb _]%Forall_cons_iff.
  destruct (get_cs_in ts b Hb) as (cb & Ecb & ->). cbn [obind]. destruct (same_conv l cb) eqn:Es.
  { exists [], b, rest, true. split_and!; try done. intros _. by exists cb. }
  rewrite fin_cons in Hf. apply list.NoDup_cons in Hd as [_ Hd]. destruct (Z.eqb_spec b lastcs) as [->|Hb'].
  { exists [], lastcs, rest, false. split_and!; try done. intros _. destruct rest as [|b' rest]; [done|]. exfalso.
    apply list.NoDup_cons in Hd as [Hd _]. apply Hd. rewrite <- Hf at 1. rewrite fin_cons. apply fin_in. }
  destruct rest as [|b' rest]; [by destruct Hb'|].
  destruct (IH fuel b Hp ltac:(done) Hf Hd Hr ltac:(cbn in *; lia)) as (l1 & b1 & l2 & found & E & -> & H1 & H2).
  exists (b :: l1), b1, l2, found. rewrite fin_cons, E. by split_and!.
Qed.

(** Lists of states that differ in the links only. *)
Definition strip (c : cstate) : cstate := c <| cs_next := 0 |>.
Definition same_data (ts ts' : list cstate) : Prop := strip <$> ts' = strip <$> ts.

Lemma same_data_upd ts i n : same_data ts (upd_cs ts i (fun c => c <| cs_next := n |>)).
Proof.
  unfold same_data, upd_cs. apply list_eq. intros k. rewrite !list_lookup_fmap. destruct (decide (k = Z.to_nat i)) as [->|Hk].
  - rewrite list_lookup_alter_eq. by destruct (ts !! _).
  - by rewrite list_lookup_alter_ne.
Qed.
Lemma same_data_trans a b c : same_data a b -> same_data b c -> same_data a c.
Proof. unfold same_data. congruence. Qed.
Lemma same_data_length a b : same_data a b -> length b = length a.
Proof. intros H. apply (f_equal length) in H. by rewrite !length_fmap in H. Qed.
Lemma same_data_at a b i c : same_data a b -> a !! i = Some c -> exists c', b !! i = Some c' /\ strip c' = strip c.
Proof.
  intros H Hc. apply (f_equal (fun l => l !! i)) in H. rewrite !list_lookup_fmap, Hc in H. destruct (b !! i) as [c'|]; [|done].
  change (Some (strip c') = Some (strip c)) in H. apply (inj Some) in H. by exists c'.
Qed.

Lemma nxt_upd ts i n k : 0 <= i < Z.of_nat (length ts) -> 0 <= k ->
  nxt (upd_cs ts i (fun c => c <| cs_next := n |>)) k = if k =? i then Some n else nxt ts k.
Proof.
  intros Hi Hk. unfold nxt, upd_cs. destruct (Z.eqb_spec k i) as [->|Hne].
  - rewrite list_lookup_alter_eq. destruct (lookup_lt_is_Some_2 ts (Z.to_nat i)) as [c ->]; [lia|done].
  - rewrite list_lookup_alter_ne by lia. done.
Qed.

(** A state in the middle of the ring moves to the front. *)
Lemma move_front ts last c0 l1 b h l2 :
  ring_of ts last c0 (l1 ++ b :: h :: l2) ->
  let ts1 := upd_cs ts (fin l1 c0) (fun c => c <| cs_next := h |>) in
  let ts2 := upd_cs ts1 b (fun c => c <| cs_next := c0 |>) in
  let ts3 := upd_cs ts2 last (fun c => c <| cs_next := b |>) in
  nxt ts b = Some h /\ nxt ts1 last = Some c0 /\ ring_of ts3 last b (c0 :: l1 ++ h :: l2) /\ same_data ts ts3.
Proof.
  intros [[Hn0 Hp] Hf Hd Hr Hl _] ts1 ts2 ts3.
  assert (Hsd : same_data ts ts3) by (eapply same_data_trans; [eapply same_data_trans|]; apply same_data_upd).
  assert (L1 : length ts1 = length ts) by (apply length_alter). assert (L2 : length ts2 = length ts) by (unfold ts2, upd_cs; by rewrite length_alter).
  assert (L3 : length ts3 = length ts) by (by apply same_data_length).
  apply links_app in Hp as [Hp1 [Hnb [Hnh Hp2]]]. rewrite fin_app, !fin_cons in Hf.
  pose proof Hd as Hd'. rewrite app_comm_cons in Hd'. apply list.NoDup_app in Hd' as (D1 & D12 & D2).
  apply list.NoDup_cons in D2 as [Db D2]. pose proof (fin_in l1 c0) as Ilc. pose proof (fin_in l2 h) as Ila. rewrite Hf in Ila.
  rewrite app_comm_cons in Hr. pose proof Hr as [R1 R2]%Forall_app. apply Forall_cons_iff in R2 as [Rb R2].
  assert (P1 : forall x, x ∈ c0 :: l1 -> 0 <= x < Z.of_nat (length ts)) by (intros x Hx; by apply (proj1 (Forall_forall _ _) R1), list_elem_of_In).
  assert (P2 : forall x, x ∈ h :: l2 -> 0 <= x < Z.of_nat (length ts)) by (intros x Hx; by apply (proj1 (Forall_forall _ _) R2), list_elem_of_In).
  assert (Nlb : fin l1 c0 <> b) by (intros E; apply (D12 _ Ilc); rewrite E; by left).
  assert (Nla : fin l1 c0 <> last) by (intros E; apply (D12 _ Ilc); rewrite E; by right).
  assert (Nba : b <> last) by (intros E; apply Db; by rewrite E).
  pose proof (P1 _ Ilc) as Plc. pose proof (P2 _ Ila) as Pla.
  assert (N3 : forall k, 0 <= k -> nxt ts3 k = if k =? last then Some b else if k =? b then Some c0 else if k =? fin l1 c0 then Some h else nxt ts k).
  { intros k Hk. unfold ts3, ts2, ts1 in *. by rewrite !nxt_upd by (rewrite ?L2, ?L1; lia). }
  split_and!; [done| | |done].
  - unfold ts1. rewrite nxt_upd by lia. destruct (Z.eqb_spec last (fin l1 c0)); [congruence|done].
  - assert (Hx1 : forall x, x ∈ c0 :: l1 -> x <> b /\ x <> last).
    { intros x Hx. split; intros ->; apply (D12 _ Hx); [by left|by right]. }
    assert (Hx2 : forall x, x ∈ h :: l2 -> x <> b /\ x <> fin l1 c0).
    { intros x Hx. split; intros ->; [done|]. apply (D12 _ Ilc). by right. }
    split.
    + cbn [path]. rewrite !N3 by lia. rewrite Z.eqb_refl. split; [done|]. destruct (Z.eqb_spec b last); [done|]. rewrite Z.eqb_refl. split; [done|].
      apply links_app. split.
      * apply (links_ext ts); [done|done|]. intros x Hx Hne. destruct (Hx1 x Hx). rewrite N3 by (apply P1 in Hx; lia).
        by rewrite !(proj2 (Z.eqb_neq _ _)) by done.
      * cbn [path]. rewrite N3 by lia. rewrite (proj2 (Z.eqb_neq _ _) Nla), (proj2 (Z.eqb_neq _ _) Nlb), Z.eqb_refl. split; [done|].
        apply (links_ext ts); [done|done|]. intros x Hx Hne. destruct (Hx2 x Hx). rewrite N3 by (apply P2 in Hx; lia). rewrite Hf in Hne.
        by rewrite !(proj2 (Z.eqb_neq _ _)) by done.
    + rewrite fin_cons, fin_app, fin_cons. done.
    + apply list.NoDup_cons. split.
      * rewrite app_comm_cons, elem_of_app. intros [Hb|Hb]; [apply (D12 _ Hb); by left|done].
      * rewrite app_comm_cons. apply list.NoDup_app. split_and!; [done| |done]. intros x Hx Hx'. apply (D12 _ Hx). by right.
    + rewrite L3, app_comm_cons. constructor; [done|]. by apply Forall_app.
    + rewrite L3. revert Hl. cbn [length]. rewrite !length_app. cbn [length]. lia.
    + done.
Qed.

(** The last state of the ring becomes the first. *)
Lemma rotate_ring ts last c0 l1 b : ring_of ts last c0 (l1 ++ [b]) -> b = last /\ ring_of ts (fin l1 c0) b (c0 :: l1).
Proof.
  intros [[Hn Hp] Hf Hd Hr Hl _]. rewrite fin_app in Hf. cbn in Hf. apply links_app in Hp as [Hp1 [Hnb _]]. split; [done|]. subst b.
  rewrite app_comm_cons in Hd, Hr. apply list.NoDup_app in Hd as (D1 & D12 & _). apply Forall_app in Hr as [R1 [Rb _]%Forall_cons_iff]. split.
  - done.
  - by rewrite fin_cons.
  - apply list.NoDup_cons. split; [|done]. intros Hin. apply (D12 _ Hin). by left.
  - by constructor.
  - rewrite length_app in Hl. cbn in *. lia.
  - done.
Qed.

(** What find_cs does to the state. *)
Record found_at (comp : slcompress) (l : list Z) (cs : Z) (found : bool) (comp' : slcompress) : Prop := {
  fa_cs : 0 <= cs < Z.of_nat (length (tstate comp));
  fa_ring : ring (tstate comp') (last_cs comp');
  fa_data : same_data (tstate comp) (tstate comp');
  fa_xmit : last_xmit comp' = last_xmit comp;
  fa_conv : found = true -> exists c, tstate comp !! Z.to_nat cs = Some c /\ same_conv l c = true
}.

Lemma find_ok comp l : ring (tstate comp) (last_cs comp) -> exists cs found comp', find_cs comp l = Ret (cs, found, comp') /\ found_at comp l cs found comp'.
Proof.
  intros (c0 & rest & Hrg). pose proof Hrg as [[Hn Hp] Hf Hd Hr Hl Hm]. set (ts := tstate comp) in *. set (last := last_cs comp) in *.
  assert (Hrl : forall x, x ∈ c0 :: rest -> 0 <= x < Z.of_nat (length ts)) by (intros x Hx; by apply (proj1 (Forall_forall _ _) Hr), list_elem_of_In).
  assert (Hlast : 0 <= last < Z.of_nat (length ts)) by (apply Hrl; rewrite <- Hf; apply fin_in).
  assert (H0 : 0 <= c0 < Z.of_nat (length ts)) by (apply Hrl; by left).
  unfold find_cs. fold ts last. destruct (get_cs_in ts last Hlast) as (lc & Elc & ->). cbn [obind]. unfold nxt in Hn. rewrite Elc in Hn. injection Hn as ->.
  destruct (get_cs_in ts c0 H0) as (cc & Ecc & ->). cbn [obind]. destruct (same_conv l cc) eqn:Es.
  { exists c0, true, comp. split; [done|]. split; try done; [by exists c0, rest|by exists cc]. }
  destruct (search_ok ts l last rest (length ts) c0 Hp Hm Hf Hd Hr Hl) as (l1 & b & l2 & found & E & -> & Hfound & Hnot). cbn [obind].
  assert (Hb : 0 <= b < Z.of_nat (length ts)) by (apply Hrl; rewrite E; right; apply elem_of_app; right; by left).
  destruct l2 as [|h l2].
  - rewrite E in Hrg. destruct (rotate_ring _ _ _ _ _ Hrg) as [-> Hrg'].
    assert (Hres : found_at comp l last found (comp <| last_cs := fin l1 c0 |>)) by (split; rec_simpl; try done; by eexists _, _).
    destruct found; cbn [negb]; rewrite ?Z.eqb_refl; by eexists _, _, _.
  - destruct found; [|by specialize (Hnot eq_refl)]. cbn [negb]. rewrite E in Hrg. destruct (move_front _ _ _ _ _ _ _ Hrg) as (N1 & N2 & Hrg' & Hsd).
    destruct (Z.eqb_spec b last) as [->|Hbl].
    { exfalso. rewrite E, app_comm_cons in Hd. apply list.NoDup_app in Hd as (_ & _ & Hd). apply list.NoDup_cons in Hd as [Hd _]. apply Hd.
      rewrite E, fin_app, fin_cons, fin_cons in Hf. rewrite <- Hf at 1. apply fin_in. }
    destruct (get_cs_in ts b Hb) as (cb & Ecb & ->). cbn [obind]. unfold nxt in N1. rewrite Ecb in N1. injection N1 as ->.
    set (ts1 := upd_cs ts (fin l1 c0) _) in *. destruct (get_cs_in ts1 last) as (lc1 & Elc1 & ->); [unfold ts1, upd_cs; by rewrite length_alter|].
    cbn [obind]. unfold nxt in N2. rewrite Elc1 in N2. injection N2 as ->. eexists _, _, _. split; [reflexivity|]. split; rec_simpl; try done. by eexists _, _.
Qed.

(** ** Packets *)

(** A TCP packet with header [w] and data [d] that the sender may compress. *)
Record packet_of (w : vj) (d : list Z) : Prop := {
  pv_wf : vj_wf w;
  pv_len : v_len w = vj_hlen w + zlen d;
  pv_p : v_p w = IPPROTO_TCP;
  pv_hdr : vj_hlen w <= MAX_HDR;
  pv_opt : Forall is_byte (v_opt w);
  pv_off : Z.land (v_ipoff w) 16383 = 0;
  pv_sum : be16 (v_sum w) = le16 (cksum_ref (enc_ip (w <| v_sum := 0 |>)))
}.

Lemma be16_bytes x : Forall is_byte (be16 x).
Proof. unfold be16, is_byte. repeat constructor; Z.to_euclidean_division_equations; lia. Qed.
Lemma be32_bytes x : Forall is_byte (be32 x).
Proof. unfold be32, is_byte. repeat constructor; Z.to_euclidean_division_equations; lia. Qed.

Lemma enc_ip_bytes v : vj_wf v -> Forall is_byte (v_opt v) -> Forall is_byte (enc_ip v).
Proof.
  intros [] Ho. unfold enc_ip. rewrite !Forall_app. split_and!; try apply be16_bytes; try apply be32_bytes; try done;
    (constructor; [unfold is_byte; lia|constructor; [unfold is_byte; lia|constructor]]).
Qed.

Lemma zero_sum_wf w : vj_wf w -> vj_wf (w <| v_sum := 0 |>).
Proof. intros Hw. wf_set. Qed.

(** The checksum of the rebuilt header is the one that was sent. *)
Lemma cksum_restored w d : packet_of w d ->
  put (enc (w <| v_sum := 0 |>) ++ d) 10 (le16 (hdr_cksum (ztake (4 * v_hl w) (enc (w <| v_sum := 0 |>) ++ d)))) = enc w ++ d.
Proof.
  intros [Hw _ _ _ Ho _ Hs]. pose proof (zero_sum_wf w Hw) as H0. pose proof (zlen_enc_ip _ H0) as Hl. change (v_hl (w <| v_sum := 0 |>)) with (v_hl w) in Hl.
  assert (E : ztake (4 * v_hl w) (enc (w <| v_sum := 0 |>) ++ d) = enc_ip (w <| v_sum := 0 |>)).
  { unfold enc. rewrite <- app_assoc, ztake_app_le, ztake_ge by lia. done. }
  pose proof (vw_hl _ Hw). rewrite E, hdr_cksum_ok, <- Hs.
  - destruct (write_hdr (w <| v_sum := 0 |>) d (v_sum w) 0 H0) as (_ & _ & _ & -> & _). rewrite u16_id by apply (vw_sum _ Hw). by destruct w.
  - by apply enc_ip_bytes.
  - exists (2 * v_hl w). lia.
  - lia.
Qed.

(** ** The receiver *)

Lemma ztake_here (a b : list Z) : ztake (zlen a) (a ++ b) = a.
Proof. by rewrite ztake_app_le, ztake_ge. Qed.
Lemma zsub_there (a b c : list Z) : zsub (zlen a) (zlen b) (a ++ b ++ c) = b.
Proof. rewrite zsub_app_ge, Z.sub_diag by done. by apply zsub_here. Qed.

(** What a compressed packet consists of, and what the receiver makes of its changes. *)
Record compressed (w v : vj) (hlen : Z) (seq : list Z) (u a b s : bool) : Prop := {
  cd_alike : alike w v;
  cd_apply : forall j buf pre data c x, x = v <| v_sum := 0 |> <| v_tsum := v_tsum w |> -> buf = pre ++ seq ++ id_of w v ++ data ->
    sl_apply buf (chg u a b s (negb (u32 (v_id w - v_id v) =? 1)) (v_push w) c) hlen (enc x ++ j) (zlen pre) =
    (enc (moved w x) ++ j, zlen (pre ++ seq ++ id_of w v))
}.

Lemma rebuild w v d j seq u a b s c ch pre slack len :
  packet_of w d -> vj_wf v -> compressed w v (vj_hlen v) seq u a b s ->
  ch = chg u a b s (negb (u32 (v_id w - v_id v) =? 1)) (v_push w) c ->
  let buf := pre ++ be16 (v_tsum w) ++ seq ++ id_of w v ++ d ++ slack in
  len = zlen pre + 2 + zlen seq + zlen (id_of w v) + zlen d ->
  let h0 := put (enc (v <| v_sum := 0 |>) ++ j) (4 * v_hl v + 16) [gb buf (zlen pre); gb buf (zlen pre + 1)] in
  exists h cp, sl_apply buf ch (vj_hlen v) h0 (zlen pre + 2) = (h, cp) /\ len - cp = zlen d /\
    put h 2 (be16 (len - cp + vj_hlen v)) = enc (w <| v_sum := 0 |>) ++ j /\ zsub cp (len - cp) buf = d.
Proof.
  intros Hp Hv [Hal Hap] Hch buf Hlen h0. pose proof Hp as [Hw Hl _ Hm _ _ _]. pose proof (vw_tsum _ Hw) as Hts.
  assert (E0 : h0 = enc (v <| v_sum := 0 |> <| v_tsum := v_tsum w |>) ++ j).
  { assert (Eg : [gb buf (zlen pre); gb buf (zlen pre + 1)] = be16 (v_tsum w)).
    { unfold buf. rewrite (gb_app_ge pre), (gb_app_ge pre _ (zlen pre + 1)) by lia. rewrite Z.sub_diag.
      replace (zlen pre + 1 - zlen pre) with 1 by lia. reflexivity. }
    unfold h0. rewrite Eg.
    destruct (write_hdr _ j (v_tsum w) 0 (zero_sum_wf _ Hv)) as (_ & _ & _ & _ & _ & _ & _ & E & _).
    change (v_hl (v <| v_sum := 0 |>)) with (v_hl v) in E. rewrite E. by rewrite u16_id. }
  rewrite E0, Hch. pose proof (Hap j buf (pre ++ be16 (v_tsum w)) (d ++ slack) c _ eq_refl) as Ha.
  rewrite moved_alike in Ha by done. rewrite zlen_app in Ha. change (zlen (be16 (v_tsum w))) with 2 in Ha.
  rewrite Ha by (unfold buf; by rewrite <- !app_assoc). eexists _, _. split; [reflexivity|].
  assert (Ecp : zlen ((pre ++ be16 (v_tsum w)) ++ seq ++ id_of w v) = len - zlen d) by (rewrite !zlen_app; change (zlen (be16 (v_tsum w))) with 2; lia).
  rewrite Ecp. replace (len - (len - zlen d)) with (zlen d) by lia. split; [done|].
  assert (Hx : vj_wf (w <| v_sum := 0 |> <| v_len := v_len v |>)) by (pose proof (vw_len _ Hv); wf_set).
  destruct (write_hdr _ j (zlen d + vj_hlen v) 0 Hx) as (-> & _). split.
  - assert (Eh : vj_hlen v = vj_hlen w) by (unfold vj_hlen; destruct Hal; lia). rewrite Eh, Z.add_comm, <- Hl, u16_id by apply (vw_len _ Hw). by destruct w.
  - rewrite <- Ecp. unfold buf. replace (pre ++ be16 (v_tsum w) ++ seq ++ id_of w v ++ d ++ slack) with (((pre ++ be16 (v_tsum w)) ++ seq ++ id_of w v) ++ d ++ slack)
      by (by rewrite <- !app_assoc). apply zsub_there.
Qed.

(** The receiver leaves URG alone when it gets a special encoding: a packet without URG after
    one with it must not be one that is sent so. *)
Definition urg_kept (w v : vj) : Prop :=
  v_urg v = true -> v_urg w = false -> v_seq w <> u32 (v_seq v + (v_len v - vj_hlen v)).

(** The sender's decision to compress is right. *)
Lemma compress_right w v d j ch seq x :
  vj_wf w -> vj_wf v -> alike w v -> urg_kept w v ->
  sl_changes (enc w ++ d) (enc v ++ j) = Some x -> sl_special (enc w ++ d) (enc v ++ j) (vj_hlen v) x = Some (ch, seq) ->
  exists u a b s, ch = chg u a b s false false none /\ compressed w v (vj_hlen v) seq u a b s.
Proof.
  intros Hw Hv Hal Hurg Hc Hs. destruct (sl_changes_ok w v d j x Hw Hv (al_hl _ _ Hal) Hc) as (Hurp & HA & HS & ->).
  destruct (sl_special_ok w v d j (vj_hlen v) ch seq Hw Hv Hs) as [(Ech & -> & N1 & N2)|(b & Hsp & -> & ->)].
  - exists (v_urg w), (negb (u16 (v_win w - v_win v) =? 0)), (negb (u32 (v_ack w - v_ack v) =? 0)), (negb (u32 (v_seq w - v_seq v) =? 0)).
    split; [done|]. split; [done|]. intros j' buf pre data c x -> Hbuf.
    assert (Hx : vj_wf (v <| v_sum := 0 |> <| v_tsum := v_tsum w |>)) by (pose proof (vw_tsum _ Hw); wf_set).
    refine (apply_ok buf pre (seq_of w v) data j' (v <| v_sum := 0 |> <| v_tsum := v_tsum w |>) w (vj_hlen v) _ _ _ _ _ c Hx Hw eq_refl _ Hbuf). intros x1 ->.
    assert (Hx1 : vj_wf (v <| v_sum := 0 |> <| v_tsum := v_tsum w |> <| v_push := v_push w |>)) by (pose proof (vw_tsum _ Hw); wf_set).
    subst ch. exact (switch_default j' _ w Hx1 Hw buf pre _ (negb (u32 (v_id w - v_id v) =? 1)) (v_push w) c _ Hurp HA HS N1 N2 Hbuf).
  - exists true, true, b, true. split; [done|]. split; [done|]. intros j' buf pre data c x -> Hbuf.
    assert (Hx : vj_wf (v <| v_sum := 0 |> <| v_tsum := v_tsum w |>)) by (pose proof (vw_tsum _ Hw); wf_set).
    refine (apply_ok buf pre [] data j' (v <| v_sum := 0 |> <| v_tsum := v_tsum w |>) w (vj_hlen v) _ _ _ _ _ c Hx Hw eq_refl _ Hbuf). intros x1 ->.
    assert (Hx1 : vj_wf (v <| v_sum := 0 |> <| v_tsum := v_tsum w |> <| v_push := v_push w |>)) by (pose proof (vw_tsum _ Hw); wf_set).
    assert (Hu : v_urg v = false) by (destruct (v_urg v) eqn:Eu; [|done]; destruct Hsp as [S1 _ S3 _]; by destruct (Hurg Eu S1)).
    rewrite app_nil_r. destruct Hsp as [S1 S2 S3 S4].
    assert (Hsp : special w (v <| v_sum := 0 |> <| v_tsum := v_tsum w |> <| v_push := v_push w |>) (vj_hlen v) b) by (by split).
    exact (switch_special j' _ w Hx1 Hw buf pre (vj_hlen v) b _ _ c Hu (Hurp S1) Hsp).
Qed.

End SlCompressOk.
