(* ===== verification/SlRound.v ===== *)
(** Round trip of header compression: a receiver in step with the sender rebuilds every
    packet, and stays in step. *)
From S2P Require Import Prelude Mbuf Cksum TcpHdr SlCompress SlCompressOk.
Import Mbuf Cksum TcpHdr SlCompress SlCompressOk.

Module SlRound.

(** ** Sender and receiver in step *)

(** The states with index [i] of the sender and of the receiver. *)
Record slot (i : Z) (t r : cstate) : Prop := {
  sl_id : cs_id t = i;
  sl_tlen : zlen (cs_hdr t) = MAX_HDR;
  sl_rlen : zlen (cs_hdr r) = MAX_HDR;
  sl_hdr : cs_hdr t = zero_hdr \/
    exists v j j', vj_wf v /\ cs_hdr t = enc v ++ j /\ cs_hdr r = enc (v <| v_sum := 0 |>) ++ j' /\ cs_hlen r = vj_hlen v
}.

Record sync (tx rx : slcompress) : Prop := {
  sy_ring : ring (tstate tx) (last_cs tx);
  sy_t : Z.of_nat (length (tstate tx)) = MAX_STATES;
  sy_r : Z.of_nat (length (rstate rx)) = MAX_STATES;
  sy_slots : forall i t r, tstate tx !! Z.to_nat i = Some t -> rstate rx !! Z.to_nat i = Some r -> 0 <= i -> slot i t r;
  sy_last : last_xmit tx = 255 \/ (last_recv rx = last_xmit tx /\ hasf (sl_flags rx) SLF_TOSS = false)
}.

Lemma ring_ext ts ts' last : (forall i, nxt ts' i = nxt ts i) -> length ts' = length ts -> ring ts last -> ring ts' last.
Proof.
  intros He Hl (c0 & l & [Hp Hf Hd Hr Hn Hm]). exists c0, l. split; rewrite ?Hl; try done. clear -He Hp. revert Hp. generalize (c0 :: l) last. intros k.
  induction k as [|b k IH]; intros a; [done|]. intros [H1 H2]. split; [by rewrite He|by apply IH].
Qed.

Lemma sync_found tx rx l cs found tx' : sync tx rx -> found_at tx l cs found tx' -> sync tx' rx.
Proof.
  intros [Hr Ht Hrr Hs Hl] [Fc Fr Fd Fx _]. pose proof (same_data_length _ _ Fd) as El. split; rewrite ?El, ?Fx; try done.
  intros i t r Hi Hj Hn. destruct (same_data_at (tstate tx') (tstate tx) (Z.to_nat i) t) as (t0 & Et & Es); [by unfold same_data|done|].
  destruct (Hs i t0 r Et Hj Hn) as [I1 I2 I3 I4]. assert (E1 : cs_id t0 = cs_id t) by exact (f_equal cs_id Es).
  assert (E2 : cs_hdr t0 = cs_hdr t) by exact (f_equal cs_hdr Es). rewrite E1 in I1. rewrite E2 in I2, I4. by split.
Qed.

(** Both ends store the header of a packet. *)
Lemma sync_store tx rx i t r (f g : cstate -> cstate) fl :
  sync tx rx -> 0 <= i < MAX_STATES -> tstate tx !! Z.to_nat i = Some t -> rstate rx !! Z.to_nat i = Some r ->
  (forall c, cs_next (f c) = cs_next c) -> slot i (f t) (g r) -> hasf fl SLF_TOSS = false ->
  sync (tx <| tstate := upd_cs (tstate tx) i f |> <| last_xmit := i |>)
       (rx <| last_recv := i |> <| sl_flags := fl |> <| rstate := upd_cs (rstate rx) i g |>).
Proof.
  intros [Hr Ht Hrr Hs Hl] Hi Et Er Hf Hsl Hfl. unfold upd_cs. split; rec_simpl.
  - apply (ring_ext (tstate tx)); [|by rewrite length_alter|done]. intros k. unfold nxt. destruct (decide (Z.to_nat k = Z.to_nat i)) as [E|E].
    + rewrite E, list_lookup_alter_eq, Et. cbn. by rewrite Hf.
    + by rewrite list_lookup_alter_ne by done.
  - by rewrite length_alter.
  - by rewrite length_alter.
  - intros k t' r' Ht' Hr' Hk. destruct (decide (k = i)) as [->|E].
    + rewrite list_lookup_alter_eq, Et in Ht'. rewrite list_lookup_alter_eq, Er in Hr'. by injection Ht' as <-; injection Hr' as <-.
    + rewrite list_lookup_alter_ne in Ht' by lia. rewrite list_lookup_alter_ne in Hr' by lia. by apply Hs.
  - right. done.
Qed.

Lemma get_at ts i c : ts !! Z.to_nat i = Some c -> get_cs ts i = Ret c.
Proof. unfold get_cs. by intros ->. Qed.

Lemma put_front (h x : list Z) : put h 0 x = x ++ zdrop (zlen x) h.
Proof. reflexivity. Qed.

(** What both ends have after an uncompressed packet. *)
Lemma slot_fresh i t r w hl : slot i t r -> vj_wf w -> vj_hlen w <= MAX_HDR -> hl = vj_hlen w ->
  slot i (t <| cs_hdr := put (cs_hdr t) 0 (enc w) |>) (r <| cs_hdr := put (put (cs_hdr r) 0 (enc w)) 10 [0; 0] |> <| cs_hlen := hl |>).
Proof.
  intros [I1 I2 I3 _] Hw Hm ->. pose proof (zlen_enc _ Hw) as El. rewrite !put_front.
  destruct (write_hdr w (zdrop (zlen (enc w)) (cs_hdr r)) 0 0 Hw) as (_ & _ & _ & E & _). change (be16 0) with [0; 0] in E. rewrite E.
  pose proof (zlen_enc _ (zero_sum_wf _ Hw)) as El0. change (vj_hlen (w <| v_sum := 0 |>)) with (vj_hlen w) in El0.
  pose proof (zlen_nonneg (enc w)). split; rec_simpl; [done| | |].
  - rewrite zlen_app, zlen_zdrop by lia. lia.
  - rewrite zlen_app, zlen_zdrop by lia. change (u16 0) with 0. lia.
  - right. by eexists w, _, _.
Qed.

(** ... and after a compressed one. *)
Lemma slot_next i t r v w j j' : slot i t r -> vj_wf w -> vj_wf v -> vj_hlen w <= MAX_HDR -> vj_hlen w = vj_hlen v ->
  cs_hdr t = enc v ++ j -> cs_hdr r = enc (v <| v_sum := 0 |>) ++ j' -> cs_hlen r = vj_hlen v ->
  slot i (t <| cs_hdr := put (cs_hdr t) 0 (enc w) |>) (r <| cs_hdr := enc (w <| v_sum := 0 |>) ++ j' |>).
Proof.
  intros [I1 I2 I3 _] Hw Hv Hm Eh Et Er Ehl. pose proof (zlen_enc _ Hw) as El. rewrite !put_front.
  pose proof (zlen_enc _ (zero_sum_wf _ Hw)) as El0. change (vj_hlen (w <| v_sum := 0 |>)) with (vj_hlen w) in El0.
  pose proof (zlen_enc _ (zero_sum_wf _ Hv)) as Elv. change (vj_hlen (v <| v_sum := 0 |>)) with (vj_hlen v) in Elv.
  pose proof (zlen_nonneg (enc w)). rewrite Er, zlen_app in I3. split; rec_simpl; [done| | |].
  - rewrite zlen_app, zlen_zdrop by lia. lia.
  - rewrite zlen_app. lia.
  - right. eexists w, _, _. split_and!; try done. lia.
Qed.

(** ** The sender *)

(** A packet without URG that follows one with URG, and is where the last one ended. *)
Definition urg_safe (l : list Z) (c : cstate) : bool :=
  let o := cs_hdr c in
  negb (same_conv l c && hasf (th_flags o) TH_URG && negb (hasf (th_flags l) TH_URG) &&
        (r32 l (th_at l + 4) =? u32 (r32 o (th_at o + 4) + (r16 o 2 - 4 * (ip_hl o + th_off o))))).

Lemma read_off v r : vj_wf v -> th_off (enc v ++ r) = v_off v /\ th_flags (enc v ++ r) = flags_of (v_push v) (v_urg v).
Proof.
  intros Hv. unfold th_off, th_flags. destruct (read_ip v r Hv) as (_ & -> & _). destruct (read_tcp v r Hv) as (_ & _ & -> & -> & _).
  split; [|done]. by rewrite Z.mul_comm, Z.div_mul.
Qed.

Lemma urg_safe_kept w v d j c : vj_wf w -> vj_wf v -> cs_hdr c = enc v ++ j -> same_conv (enc w ++ d) c = true ->
  urg_safe (enc w ++ d) c = true -> urg_kept w v.
Proof.
  intros Hw Hv Hc Hs. unfold urg_safe. rewrite Hs, Hc. destruct (read_off v j Hv) as [-> ->]. destruct (read_off w d Hw) as [_ ->].
  destruct (read_ip v j Hv) as (-> & -> & -> & _). destruct (read_ip w d Hw) as (_ & -> & _).
  destruct (read_tcp v j Hv) as (-> & _). destruct (read_tcp w d Hw) as (-> & _).
  rewrite (proj1 (flags_urg _ _)), (proj1 (flags_urg _ _)). intros H Hu1 Hu2 E. rewrite Hu1, Hu2, E in H. fold (vj_hlen v) in H.
  by rewrite Z.eqb_refl in H.
Qed.

Lemma zlen_ENCODE n : zlen (ENCODE n) <= 3 /\ zlen (ENCODEZ n) <= 3.
Proof. unfold ENCODE, ENCODEZ. by destruct (_ >=? _), (u16 n =? 0). Qed.

Lemma zlen_seq_of w v : zlen (seq_of w v) <= 12.
Proof.
  unfold seq_of. rewrite !zlen_app. pose proof (proj2 (zlen_ENCODE (v_urp w))). pose proof (proj1 (zlen_ENCODE (u16 (v_win w - v_win v)))).
  pose proof (proj1 (zlen_ENCODE (u32 (v_ack w - v_ack v)))). pose proof (proj1 (zlen_ENCODE (u32 (v_seq w - v_seq v)))).
  destruct (v_urg w), (_ =? 0), (_ =? 0), (_ =? 0); change (zlen (@nil Z)) with 0; lia.
Qed.

Lemma u8_byte n : is_byte (u8 n).
Proof. unfold is_byte, u8. Z.to_euclidean_division_equations. lia. Qed.
Lemma ENCODE_bytes n : Forall is_byte (ENCODE n) /\ Forall is_byte (ENCODEZ n).
Proof.
  pose proof (u8_byte n). pose proof (u8_byte (Z.shiftr n 8)). assert (is_byte 0) by done.
  unfold ENCODE, ENCODEZ, long_form. destruct (_ >=? _), (u16 n =? 0); split; repeat first [apply List.Forall_nil|apply List.Forall_cons; [assumption|]].
Qed.
Lemma seq_of_bytes w v : Forall is_byte (seq_of w v).
Proof. unfold seq_of. rewrite !Forall_app. split_and!; case_match; try done; apply ENCODE_bytes. Qed.

(** The outcome of the comparison with the saved header. *)
Definition decision (found : bool) (l o : list Z) (hlen : Z) : option (Z * list Z) :=
  if negb found || unexpected l o then None
  else match sl_changes l o with None => None | Some x => sl_special l o hlen x end.

Lemma decision_seq w v d j hlen ch seq : vj_wf w -> vj_wf v -> v_hl w = v_hl v ->
  decision true (enc w ++ d) (enc v ++ j) hlen = Some (ch, seq) -> zlen seq <= 12 /\ Forall is_byte seq.
Proof.
  intros Hw Hv Eh. unfold decision. cbn [negb orb]. destruct (unexpected _ _); [done|]. destruct (sl_changes _ _) as [x|] eqn:Ec; [|done].
  destruct (sl_changes_ok _ _ _ _ _ Hw Hv Eh Ec) as (_ & _ & _ & ->). intros Hs.
  destruct (sl_special_ok w v d j hlen ch seq Hw Hv Hs) as [(_ & -> & _)|(b & _ & -> & _)]; [|done].
  split; [apply zlen_seq_of|apply seq_of_bytes].
Qed.

(** A packet is compressed only against a saved header that it resembles. *)
Lemma decision_right w d i t r found ch seq :
  vj_wf w -> slot i t r -> (found = true -> same_conv (enc w ++ d) t = true) -> urg_safe (enc w ++ d) t = true ->
  decision found (enc w ++ d) (cs_hdr t) (vj_hlen w) = Some (ch, seq) ->
  exists v j j' u a b s, vj_wf v /\ cs_hdr t = enc v ++ j /\ cs_hdr r = enc (v <| v_sum := 0 |>) ++ j' /\ cs_hlen r = vj_hlen v /\
    zlen seq <= 12 /\ Forall is_byte seq /\ vj_hlen w = vj_hlen v /\ ch = chg u a b s false false none /\ compressed w v (vj_hlen v) seq u a b s.
Proof.
  intros Hw [I1 I2 I3 I4] Hf Hsafe Hd. destruct found; [|done]. specialize (Hf eq_refl). destruct I4 as [E0|(v & j & j' & Hv & Et & Er & Eh)].
  - exfalso. unfold decision, unexpected in Hd. cbn [negb orb] in Hd. rewrite E0 in Hd. destruct (parts_ip w d Hw) as (P1 & _). rewrite P1 in Hd.
    rewrite bool_decide_eq_false_2 in Hd; [done|]. change (zsub 0 2 zero_hdr) with [0; 0]. intros [= E _]. destruct Hw. lia.
  - destruct (same_conv_ok w v d j t Hw Hv Et Hf) as (C1 & C2 & C3). pose proof (urg_safe_kept w v d j t Hw Hv Et Hf Hsafe) as Hk.
    rewrite Et in Hd. pose proof Hd as Hd'. unfold decision in Hd'. cbn [negb orb] in Hd'. destruct (unexpected _ _) eqn:Eu; [done|].
    pose proof (unexpected_ok w v d j Hw Hv C1 C2 C3 Eu) as Hal. pose proof (al_hl _ _ Hal) as Ehl. pose proof (al_off _ _ Hal) as Eof.
    pose proof (decision_seq _ _ _ _ _ _ _ Hw Hv Ehl Hd) as [Hlen Hby]. assert (El : vj_hlen w = vj_hlen v) by (unfold vj_hlen; lia).
    destruct (sl_changes _ _) as [x|] eqn:Ec; [|done]. rewrite El in Hd'.
    destruct (compress_right w v d j ch seq x Hw Hv Hal Hk Ec Hd') as (u & a & b & s & Ech & Hc). by exists v, j, j', u, a, b, s.
Qed.

(** ** The receiver *)

Lemma recv_uncompressed w d i slack rx : packet_of w d -> 0 <= i < MAX_STATES ->
  sl_uncompress_tcp ((enc (w <| v_p := i |>) ++ d) ++ slack) (zlen (enc w ++ d)) TYPE_UNCOMPRESSED_TCP rx =
  Ret (Some (enc w ++ d), rx <| last_recv := i |> <| sl_flags := clrb (sl_flags rx) SLF_TOSS |> <| rstate := upd_cs (rstate rx) i (fun c =>
         c <| cs_hdr := put (put (cs_hdr c) 0 (enc w)) 10 [0; 0] |> <| cs_hlen := vj_hlen w |>) |>).
Proof.
  intros [Hw Hl Hp Hm _ _ _] Hi. unfold sl_uncompress_tcp. rewrite Z.eqb_refl, <- app_assoc. cbv zeta.
  assert (Hx : vj_wf (w <| v_p := i |>)) by (unfold MAX_STATES in Hi; wf_set). destruct (read_ip _ (d ++ slack) Hx) as (_ & _ & _ & _ & _ & ->).
  change (v_p (w <| v_p := i |>)) with i. rewrite Z.geb_leb, (proj2 (Z.leb_gt _ _)) by lia.
  destruct (write_hdr _ (d ++ slack) 0 IPPROTO_TCP Hx) as (_ & _ & -> & _). replace (w <| v_p := i |> <| v_p := IPPROTO_TCP |>) with w by (rewrite <- Hp; by destruct w).
  destruct (read_ip w (d ++ slack) Hw) as (-> & _). destruct (read_off w (d ++ slack) Hw) as [-> _]. fold (vj_hlen w).
  rewrite (proj2 (Z.ltb_ge _ _)) by lia. replace (ztake (vj_hlen w) (enc w ++ d ++ slack)) with (enc w) by (by rewrite <- (zlen_enc w Hw), ztake_here). rewrite (app_assoc (enc w)), ztake_here. done.
Qed.

(** The bytes of a compressed packet in front of its checksum; [c] is whether it has an
    explicit connection number, [t] whether the byte of changes carries the packet type. *)
Definition front (ch : Z) (c : bool) (i : Z) : list Z := ch :: if c then [i] else [].

Lemma recv_compressed w v d i r j' seq u a b s c t slack rx :
  packet_of w d -> vj_wf v -> 0 <= i < MAX_STATES -> compressed w v (vj_hlen v) seq u a b s -> vj_hlen w = vj_hlen v ->
  rstate rx !! Z.to_nat i = Some r -> cs_hdr r = enc (v <| v_sum := 0 |>) ++ j' -> cs_hlen r = vj_hlen v ->
  (c = false -> last_recv rx = i /\ hasf (sl_flags rx) SLF_TOSS = false) ->
  let l := (front (chg u a b s (negb (u32 (v_id w - v_id v) =? 1)) (v_push w) (c, t)) c i ++ be16 (v_tsum w) ++ seq ++ id_of w v) ++ d in
  exists fl, hasf fl SLF_TOSS = false /\
  sl_uncompress_tcp (l ++ slack) (zlen l) TYPE_COMPRESSED_TCP rx =
  Ret (Some (enc w ++ d), rx <| last_recv := i |> <| sl_flags := fl |> <| rstate := upd_cs (rstate rx) i (fun c =>
         c <| cs_hdr := enc (w <| v_sum := 0 |>) ++ j' |>) |>).
Proof.
  intros Hp Hv Hi Hc Eh Er Ehdr Ehl Hrecv l. pose proof (pv_wf _ _ Hp) as Hw. set (ch := chg _ _ _ _ _ _ _) in l.
  destruct (chg_bits u a b s (negb (u32 (v_id w - v_id v) =? 1)) (v_push w) (c, t)) as (_ & _ & _ & _ & _ & _ & B & _). fold ch in B. cbn [fst] in B.
  set (pre := front ch c i). assert (El : l ++ slack = pre ++ be16 (v_tsum w) ++ seq ++ id_of w v ++ d ++ slack) by (unfold l; fold pre; by rewrite <- !app_assoc).
  assert (Ll : zlen l = zlen pre + 2 + zlen seq + zlen (id_of w v) + zlen d).
  { unfold l. fold pre. rewrite !zlen_app. change (zlen (be16 (v_tsum w))) with 2. lia. }
  destruct (rebuild w v d j' seq u a b s (c, t) ch pre slack (zlen l) Hp Hv Hc eq_refl Ll) as (h & cp & E1 & E2 & E3 & E4).
  rewrite <- El in E1, E4. set (buf := l ++ slack) in *.
  assert (Eb0 : gb buf 0 = ch) by reflexivity.
  set (fl := if c then clrb (sl_flags rx) SLF_TOSS else sl_flags rx). exists fl.
  assert (Hfl : hasf fl SLF_TOSS = false).
  { unfold fl. destruct c; [|by apply Hrecv]. by rewrite hasf_clrb, hasf_0. }
  split; [done|]. unfold sl_uncompress_tcp. change (TYPE_COMPRESSED_TCP =? TYPE_UNCOMPRESSED_TCP) with false. rewrite Z.eqb_refl. cbv iota zeta. cbn [negb].
  rewrite Eb0, B.
  set (rx1 := rx <| last_recv := i |> <| sl_flags := fl |>).
  assert (Hg1 : c && (gb buf 1 >=? MAX_STATES) = false).
  { unfold buf, l, front. destruct c; [|done]. change ((i >=? MAX_STATES) = false). rewrite Z.geb_leb. apply Z.leb_gt. lia. }
  assert (Hg2 : negb c && hasf (sl_flags rx) SLF_TOSS = false) by (destruct c; [done|by apply Hrecv]).
  assert (Eq : (if c then (rx <| sl_flags := clrb (sl_flags rx) SLF_TOSS |> <| last_recv := gb buf 1 |>, 2) else (rx, 1)) = (rx1, zlen pre)).
  { unfold rx1, fl, pre, buf, l, front. destruct c; [reflexivity|]. destruct Hrecv as [<- _]; [done|]. by destruct rx. }
  rewrite Hg1, Hg2, Eq. change (rstate rx1) with (rstate rx). change (last_recv rx1) with i. rewrite (get_at _ _ _ Er). cbn [obind].
  pose proof (zero_sum_wf _ Hv) as Hv0. rewrite Ehl, Ehdr. destruct (read_ip _ j' Hv0) as (_ & -> & _). change (v_hl (v <| v_sum := 0 |>)) with (v_hl v).
  rewrite E1, (proj2 (Z.ltb_ge _ _)) by (rewrite E2; apply zlen_nonneg). rewrite E3, E4.
  pose proof (zlen_enc _ (zero_sum_wf _ Hw)) as El0. change (vj_hlen (w <| v_sum := 0 |>)) with (vj_hlen w) in El0.
  rewrite <- Eh, <- El0, ztake_here. destruct Hc as [Hal _]. rewrite <- (al_hl _ _ Hal), (cksum_restored w d Hp). done.
Qed.

(** ** One packet *)

(** What slstart makes of the first byte of a compressed packet. *)
Definition tagged (t : bool) (type : Z) (l : list Z) : list Z :=
  if t && (type =? TYPE_COMPRESSED_TCP) then Z.lor (gb l 0) type :: zdrop 1 l else l.

Lemma compress_guards m w d1 : vj_wf w -> vj_hlen w <= MAX_HDR -> Z.land (v_ipoff w) 16383 = 0 -> m_bytes m = enc w ++ d1 ->
  forall tx cid, sl_compress_tcp m tx cid =
    let l := m_bytes m in
    let! (cs, found, comp) := find_cs tx l in
    let! c := get_cs (tstate comp) cs in
    let comp := comp <| tstate := upd_cs (tstate comp) cs (fun c => c <| cs_hdr := put (cs_hdr c) 0 (enc w) |>) |> in
    match decision found l (cs_hdr c) (vj_hlen w) with
    | None => Ret (TYPE_UNCOMPRESSED_TCP, m <| m_bytes := enc (w <| v_p := cs_id c |>) ++ d1 |>, comp <| last_xmit := cs_id c |>)
    | Some (changes, seq) =>
        let dI := u32 (v_id w - r16 (cs_hdr c) 4) in
        let '(changes, seq) := if negb (dI =? 1) then (setb changes NEW_I, seq ++ ENCODEZ dI) else (changes, seq) in
        let changes := if v_push w then setb changes TCP_PUSH_BIT else changes in
        let front := if negb cid || negb (last_xmit comp =? cs_id c) then [setb changes NEW_C; cs_id c] else [changes] in
        let hdr := front ++ be16 (v_tsum w) ++ seq in
        let drop := vj_hlen w - zlen hdr in
        if drop <? 0 then Panic "sl_compress_tcp: no room for the compressed header" else
        Ret (TYPE_COMPRESSED_TCP, m <| m_off := m_off m + drop |> <| m_bytes := hdr ++ d1 |>, comp <| last_xmit := cs_id c |>)
    end.
Proof.
  intros Hw Hm Ho E tx cid. unfold sl_compress_tcp, m_len. rewrite E. destruct (read_ip w d1 Hw) as (R1 & R2 & _ & R4 & R5 & _). rewrite R5, Ho, R1, R2, R4.
  destruct (read_off w d1 Hw) as [-> ->]. pose proof (zlen_enc w Hw) as El. rewrite zlen_app, El. pose proof (zlen_nonneg d1).
  pose proof (vw_hl _ Hw). pose proof (vw_off _ Hw). fold (vj_hlen w). assert (Eh : vj_hlen w = 4 * v_hl w + 4 * v_off w) by (unfold vj_hlen; lia).
  destruct (Z.ltb_spec (vj_hlen w + zlen d1) 40); [lia|]. destruct (Z.ltb_spec (vj_hlen w + zlen d1) (4 * v_hl w + 20)); [lia|].
  destruct (Z.ltb_spec (vj_hlen w + zlen d1) (vj_hlen w)); [lia|]. destruct (Z.ltb_spec MAX_HDR (vj_hlen w)); [lia|]. cbn [negb orb Z.eqb].
  replace (Z.land (flags_of (v_push w) (v_urg w)) (TH_SYN + TH_FIN + TH_RST + TH_ACK) =? TH_ACK) with true by (by destruct (v_push w), (v_urg w)).
  cbn [negb]. destruct (parts_tcp w d1 Hw) as (_ & -> & _).
  replace (ztake (vj_hlen w) (enc w ++ d1)) with (enc w) by (by rewrite <- El, ztake_here).
  replace (zdrop (vj_hlen w) (enc w ++ d1)) with d1 by (by rewrite <- El, zdrop_app_ge, Z.sub_diag, zdrop_le0).
  rewrite (proj2 (flags_urg _ _)). unfold decision. cbv zeta. destruct (find_cs tx (enc w ++ d1)) as [[[cs f] c]| | ]; cbn [obind]; try done.
Qed.

(** The bytes that leave the sender. *)
Record wire (type : Z) (l l' : list Z) : Prop := {
  wi_type : (type = TYPE_UNCOMPRESSED_TCP /\ 64 <= gb l' 0 < 80 /\ 40 <= zlen l') \/ (type = TYPE_COMPRESSED_TCP /\ 0 <= gb l' 0 < 128);
  wi_len : 3 <= zlen l' <= zlen l;
  wi_hdr : type = TYPE_COMPRESSED_TCP -> zlen l' <= 19 + (zlen l - 4 * (ip_hl l + th_off l));
  wi_bytes : Forall is_byte l -> Forall is_byte l'
}.

(** A sender that has not sent any packet. *)
Definition fresh (tx : slcompress) : Prop := forall i t, tstate tx !! i = Some t -> cs_hdr t = zero_hdr.

(** What the two ends do with a packet, when they are in step. *)
Definition carried (tx rx : slcompress) (m : mbuf) (cid : bool) (rest p : list Z) : Prop :=
  exists type m' tx', sl_compress_tcp m tx cid = Ret (type, m', tx') /\ wire type (m_bytes m) (m_bytes m') /\
    (fresh tx -> type = TYPE_UNCOMPRESSED_TCP) /\
    forall t slack, exists rx', sync tx' rx' /\
      sl_uncompress_tcp (tagged t type (m_bytes m' ++ rest) ++ slack) (zlen (m_bytes m' ++ rest)) type rx = Ret (Some p, rx').

Lemma put_bytes l i b : Forall is_byte l -> Forall is_byte b -> Forall is_byte (put l i b).
Proof. intros Hl Hb. unfold put. rewrite !Forall_app. split_and!; [by apply Forall_ztake|done|by apply Forall_zdrop]. Qed.

Lemma wire_uncompressed w d i : vj_wf w -> 0 <= i < MAX_STATES -> wire TYPE_UNCOMPRESSED_TCP (enc w ++ d) (enc (w <| v_p := i |>) ++ d).
Proof.
  intros Hw Hi. assert (Hx : vj_wf (w <| v_p := i |>)) by (unfold MAX_STATES in Hi; wf_set). pose proof (vw_hl _ Hw). pose proof (vw_off _ Hw).
  pose proof (zlen_nonneg d). split.
  - left. split; [done|]. change (gb _ 0) with (64 + v_hl w). rewrite zlen_app, zlen_enc by done. change (vj_hlen (w <| v_p := i |>)) with (vj_hlen w).
    unfold vj_hlen. lia.
  - rewrite !zlen_app, !zlen_enc by done. change (vj_hlen (w <| v_p := i |>)) with (vj_hlen w). unfold vj_hlen. lia.
  - done.
  - intros Hb. destruct (write_hdr w d 0 i Hw) as (_ & _ & <- & _). apply put_bytes; [done|]. repeat constructor; unfold MAX_STATES in Hi; lia.
Qed.

Lemma carried_uncompressed tx rx m cid w d1 rest i c cs found r tx1 :
  packet_of w (d1 ++ rest) -> m_bytes m = enc w ++ d1 -> sync tx1 rx -> find_cs tx (m_bytes m) = Ret (cs, found, tx1) ->
  tstate tx1 !! Z.to_nat cs = Some c -> rstate rx !! Z.to_nat cs = Some r -> 0 <= cs < MAX_STATES -> slot cs c r -> i = cs_id c ->
  decision found (m_bytes m) (cs_hdr c) (vj_hlen w) = None -> carried tx rx m cid rest (enc w ++ d1 ++ rest).
Proof.
  intros Hp Em Hsy Ef Ec Er Hcs Hsl -> Hd. pose proof Hp as [Hw _ _ Hm _ Ho _]. unfold carried. rewrite (compress_guards m w d1 Hw Hm Ho Em).
  cbv zeta. rewrite Ef. cbn [obind]. rewrite (get_at _ _ _ Ec). cbn [obind]. rewrite Hd. eexists _, _, _. split; [reflexivity|]. rec_simpl.
  rewrite (sl_id _ _ _ Hsl). assert (Hx : vj_wf (w <| v_p := cs |>)) by (unfold MAX_STATES in Hcs; wf_set).
  assert (El : zlen (enc (w <| v_p := cs |>)) = zlen (enc w)) by (by rewrite !zlen_enc). split; [rewrite Em; by apply wire_uncompressed|]. split; [done|]. intros t slack.
  exists (rx <| last_recv := cs |> <| sl_flags := clrb (sl_flags rx) SLF_TOSS |> <| rstate := upd_cs (rstate rx) cs (fun c =>
         c <| cs_hdr := put (put (cs_hdr c) 0 (enc w)) 10 [0; 0] |> <| cs_hlen := vj_hlen w |>) |>). split.
  - apply (sync_store tx1 rx cs c r); try done; [by apply slot_fresh|]. by rewrite hasf_clrb, hasf_0.
  - unfold tagged. change (TYPE_UNCOMPRESSED_TCP =? TYPE_COMPRESSED_TCP) with false. rewrite andb_false_r.
    pose proof (recv_uncompressed w (d1 ++ rest) cs slack rx Hp Hcs) as R. rewrite <- R. f_equal; [by rewrite <- !app_assoc|]. rewrite !zlen_app, El. lia.
Qed.

Lemma carried_compressed tx rx m cid w d1 rest c cs found r tx1 ch seq :
  packet_of w (d1 ++ rest) -> m_bytes m = enc w ++ d1 -> sync tx1 rx -> find_cs tx (m_bytes m) = Ret (cs, found, tx1) ->
  tstate tx1 !! Z.to_nat cs = Some c -> rstate rx !! Z.to_nat cs = Some r -> 0 <= cs < MAX_STATES -> slot cs c r ->
  (found = true -> same_conv (m_bytes m) c = true) -> urg_safe (m_bytes m) c = true -> (fresh tx -> cs_hdr c = zero_hdr) ->
  decision found (m_bytes m) (cs_hdr c) (vj_hlen w) = Some (ch, seq) -> carried tx rx m cid rest (enc w ++ d1 ++ rest).
Proof.
  intros Hp Em Hsy Ef Ec Er Hcs Hsl Hconv Hsafe Hfr Hd. pose proof Hp as [Hw _ _ Hm _ Ho _]. unfold carried. rewrite (compress_guards m w d1 Hw Hm Ho Em).
  cbv zeta. rewrite Ef. cbn [obind]. rewrite (get_at _ _ _ Ec). cbn [obind]. rewrite Hd. rewrite Em in Hd, Hconv, Hsafe.
  destruct (decision_right w d1 cs c r found ch seq Hw Hsl Hconv Hsafe Hd) as (v & j & j' & u & a & b & s & Hv & Et & Ehr & Ehl & Hseq & Hsb & Elen & -> & Hcomp).
  rewrite Et. destruct (read_ip v j Hv) as (_ & _ & _ & -> & _). rewrite (sl_id _ _ _ Hsl). rec_simpl.
  set (i := negb (u32 (v_id w - v_id v) =? 1)). set (c1 := negb cid || negb (last_xmit tx1 =? cs)).
  destruct (chg_set u a b s i (v_push w) c1 false) as [_ Hch]. cbv zeta iota in Hch.
  assert (Ex : (if i then (setb (chg u a b s false false none) NEW_I, seq ++ ENCODEZ (u32 (v_id w - v_id v))) else (chg u a b s false false none, seq)) =
    (if i then setb (chg u a b s false false none) NEW_I else chg u a b s false false none, seq ++ id_of w v)).
  { unfold i, id_of. destruct (_ =? 1); [by rewrite app_nil_r|done]. }
  rewrite Ex. set (q := if v_push w then _ else _) in *.
  assert (Ey : (if c1 then [setb q NEW_C; cs] else [q]) = front (chg u a b s i (v_push w) (c1, false)) c1 cs).
  { rewrite <- Hch. unfold front. by destruct c1. }
  rewrite Ey. set (hdr := front _ _ _ ++ _).
  assert (Hid : zlen (id_of w v) <= 3).
  { unfold id_of. pose proof (proj2 (zlen_ENCODE (u32 (v_id w - v_id v)))). destruct (_ =? 1); [done|lia]. }
  assert (Hhdr : zlen hdr <= 19).
  { unfold hdr, front. rewrite !zlen_app. change (zlen (be16 (v_tsum w))) with 2. destruct c1; rewrite !zlen_cons; change (zlen (@nil Z)) with 0; lia. }
  assert (Hmin : 40 <= vj_hlen w) by (pose proof (vw_hl _ Hw); pose proof (vw_off _ Hw); unfold vj_hlen; lia).
  destruct (Z.ltb_spec (vj_hlen w - zlen hdr) 0); [lia|]. eexists _, _, _. split; [reflexivity|]. rec_simpl. split.
  { split.
    - right. split; [done|]. unfold hdr, front. change (0 <= chg u a b s i (v_push w) (c1, false) < 128). destruct u, a, b, s, i, (v_push w), c1; done.
    - rewrite Em, !zlen_app, (zlen_enc w Hw). split; [|lia]. unfold hdr, front. pose proof (zlen_nonneg (seq ++ id_of w v)). pose proof (zlen_nonneg d1).
      rewrite !zlen_app, zlen_cons in *. change (zlen (be16 (v_tsum w))) with 2. pose proof (zlen_nonneg (if c1 then [cs] else [])). lia.
    - intros _. rewrite Em. destruct (read_ip w d1 Hw) as (-> & _). destruct (read_off w d1 Hw) as [-> _]. rewrite !zlen_app, (zlen_enc w Hw).
      unfold vj_hlen. lia.
    - rewrite Em, !Forall_app. intros [_ Hd1]. split; [|done]. unfold hdr, front. rewrite Forall_app, Forall_app, Forall_app, Forall_cons_iff.
      pose proof (chg_bits u a b s i (v_push w) (c1, false)) as (_ & _ & _ & _ & _ & _ & _ & _ & Hby). split_and!; [exact Hby| |apply be16_bytes|done|].
      + destruct c1; repeat constructor; unfold MAX_STATES in Hcs; lia.
      + unfold id_of. destruct (_ =? 1); [done|apply ENCODE_bytes]. }
  split; [intros F; exfalso; specialize (Hfr F); rewrite Et in Hfr; apply (f_equal (fun l => gb l 0)) in Hfr; change (64 + v_hl v = 0) in Hfr; destruct Hv; lia|].
  intros t slack.
  assert (Hrv : c1 = false -> last_recv rx = cs /\ hasf (sl_flags rx) SLF_TOSS = false).
  { unfold c1. intros [_ E]%orb_false_iff. apply negb_false_iff, Z.eqb_eq in E. destruct (sy_last _ _ Hsy) as [E1|[E1 E2]]; [unfold MAX_STATES in Hcs; lia|].
    split; [congruence|done]. }
  destruct (recv_compressed w v (d1 ++ rest) cs r j' seq u a b s c1 t slack rx Hp Hv Hcs Hcomp Elen Er Ehr Ehl Hrv) as (fl & Hfl & R). fold i in R.
  exists (rx <| last_recv := cs |> <| sl_flags := fl |> <| rstate := upd_cs (rstate rx) cs (fun c => c <| cs_hdr := enc (w <| v_sum := 0 |>) ++ j' |>) |>). split.
  - apply (sync_store tx1 rx cs c r); try done. by apply (slot_next cs c r v w j j').
  - assert (Et' : tagged t TYPE_COMPRESSED_TCP ((hdr ++ d1) ++ rest) =
      (front (chg u a b s i (v_push w) (c1, t)) c1 cs ++ be16 (v_tsum w) ++ seq ++ id_of w v) ++ d1 ++ rest).
    { unfold tagged, hdr, front. rewrite Z.eqb_refl, andb_true_r. destruct (chg_set u a b s i (v_push w) c1 t) as [E1 E2]. cbv zeta in E1, E2.
      rewrite E1 in E2. rewrite <- E2. destruct t; by rewrite <- !app_assoc. }
    rewrite Et', <- R. f_equal. rewrite <- Et'. unfold tagged, hdr, front. destruct (t && _); done.
Qed.

Lemma packet_carried tx rx m cid w d1 rest :
  sync tx rx -> packet_of w (d1 ++ rest) -> m_bytes m = enc w ++ d1 -> forallb (urg_safe (m_bytes m)) (tstate tx) = true ->
  carried tx rx m cid rest (enc w ++ d1 ++ rest).
Proof.
  intros Hsy Hp Em Hsafe. destruct (find_ok tx (m_bytes m) (sy_ring _ _ Hsy)) as (cs & found & tx1 & Ef & Hfa).
  pose proof (sync_found _ _ _ _ _ _ Hsy Hfa) as Hsy1. pose proof Hfa as [Hcs _ Hdt _ Hconv]. rewrite (sy_t _ _ Hsy) in Hcs.
  destruct (lookup_lt_is_Some_2 (tstate tx) (Z.to_nat cs)) as [c0 Ec0]; [pose proof (sy_t _ _ Hsy); lia|].
  destruct (lookup_lt_is_Some_2 (rstate rx) (Z.to_nat cs)) as [r Er]; [pose proof (sy_r _ _ Hsy); lia|].
  destruct (same_data_at _ _ _ _ Hdt Ec0) as (c & Ec & Estrip). assert (Eh : cs_hdr c = cs_hdr c0) by exact (f_equal cs_hdr Estrip).
  pose proof (sy_slots _ _ Hsy1 cs c r Ec Er ltac:(lia)) as Hsl.
  assert (Hcv : found = true -> same_conv (m_bytes m) c = true).
  { intros F. destruct (Hconv F) as (c' & Ec' & Hc'). rewrite Ec0 in Ec'. injection Ec' as <-. unfold same_conv in *. by rewrite Eh. }
  assert (Hu : urg_safe (m_bytes m) c = true).
  { rewrite forallb_forall in Hsafe. specialize (Hsafe c0). unfold urg_safe, same_conv in *. rewrite Eh. apply Hsafe.
    apply list_elem_of_In, list_elem_of_lookup. by exists (Z.to_nat cs). }
  destruct (decision found (m_bytes m) (cs_hdr c) (vj_hlen w)) as [[ch seq]|] eqn:Hd.
  - apply (carried_compressed tx rx m cid w d1 rest c cs found r tx1 ch seq); try done. intros F. rewrite Eh. by apply (F (Z.to_nat cs)).
  - by apply (carried_uncompressed tx rx m cid w d1 rest (cs_id c) c cs found r tx1).
Qed.

(** Both ends start in step. *)
Lemma sync_init : sync sl_compress_init sl_compress_init.
Proof.
  split; try done; [|intros i t r Ht Hr Hi|by left].
  - exists 15, [14; 13; 12; 11; 10; 9; 8; 7; 6; 5; 4; 3; 2; 1; 0]. split; [vm_compute; intuition congruence|done| | |by apply Nat.leb_le|done].
    + apply (bool_decide_unpack _). vm_compute. constructor.
    + repeat constructor; lia || (vm_compute; congruence).
  - assert (Hn : (Z.to_nat i < 16)%nat) by (apply lookup_lt_Some in Ht; exact Ht).
    cbn [tstate rstate sl_compress_init] in Ht, Hr. rewrite list_lookup_fmap in Ht, Hr.
    rewrite lookup_seqZ_lt in Ht, Hr by (unfold MAX_STATES; lia). injection Ht as <-. injection Hr as <-.
    split; cbn [cs_id cs_hdr]; [lia|done|done|by left].
Qed.

(** C26: header compression round trip.  When sender and receiver are in step, sl_compress_tcp
    on a TCP packet that is no fragment, with a correct IP header checksum and at most MAX_HDR
    bytes of headers, all in the first mbuf, from which [rest] follows, never fails and needs
    at most 19 bytes for a compressed header; sl_uncompress_tcp makes of what
    is sent, with or without the packet type in the first byte and whatever lies behind it in
    memory, the packet itself, header checksum included, and the two are in step again.  Two
    kinds of packets are excepted: one that turns URG off where a saved packet ended
    ([urg_safe]), and one with reserved bits set beside the flags ([packet_of] has none), since
    neither change is sent. *)
Theorem sl_roundtrip tx rx m cid w d rest :
  sync tx rx -> packet_of w (d ++ rest) -> m_bytes m = enc w ++ d -> forallb (urg_safe (m_bytes m)) (tstate tx) = true ->
  exists type m' tx', sl_compress_tcp m tx cid = Ret (type, m', tx') /\
    (type = TYPE_UNCOMPRESSED_TCP \/ type = TYPE_COMPRESSED_TCP /\ zlen (m_bytes m') <= 19 + zlen d) /\
    forall t slack, exists rx', sync tx' rx' /\
      sl_uncompress_tcp (tagged t type (m_bytes m' ++ rest) ++ slack) (zlen (m_bytes m' ++ rest)) type rx = Ret (Some (enc w ++ d ++ rest), rx').
Proof.
  intros Hs Hp Em Hsafe. destruct (packet_carried tx rx m cid w d rest Hs Hp Em Hsafe) as (type & m' & tx' & E & [Ht _ Hh _] & _ & Hun).
  exists type, m', tx'. split_and!; [done| |done]. destruct Ht as [[-> _]|[-> _]]; [by left|right]. split; [done|]. specialize (Hh eq_refl). rewrite Em in Hh.
  destruct (read_ip w d (pv_wf _ _ Hp)) as (R1 & _). destruct (read_off w d (pv_wf _ _ Hp)) as [R2 _]. rewrite R1, R2, zlen_app, (zlen_enc w (pv_wf _ _ Hp)) in Hh.
  unfold vj_hlen in Hh. lia.
Qed.

(** ** Sample packets *)

Definition sample_hdr (id seq ack win : Z) (urg : bool) (n : Z) : vj :=
  let w := mkVj 5 0 (40 + n) id 0 64 6 0 167772161 167772162 [] 67174423 seq ack 5 true urg win 4660 9 [] in
  let x := cksum_ref (enc_ip w) in
  w <| v_sum := x mod 256 * 256 + x / 256 |>.
Definition sample_mbuf (w : vj) (d : list Z) : mbuf := mkMbuf 8 (enc w ++ d) MT_DATA M_PKTHDR (vj_hlen w + zlen d) 0 0 0.

Lemma sample_packet id seq ack win urg d : 0 <= id < 65536 -> 0 <= seq < 4294967296 -> 0 <= ack < 4294967296 -> 0 <= win < 65536 -> zlen d < 1000 ->
  packet_of (sample_hdr id seq ack win urg (zlen d)) (d ++ []).
Proof.
  intros. pose proof (zlen_nonneg d). unfold sample_hdr. set (x := cksum_ref _). assert (Hx : 0 <= x < 65536) by apply cksum_ref_range.
  assert (Hv : 0 <= x mod 256 * 256 + x / 256 < 65536) by (Z.to_euclidean_division_equations; lia). rewrite app_nil_r.
  split; [split; first [done|change (0 <= 40 + zlen d < 65536); lia]|done|done|done|done|done|].
  change (be16 (x mod 256 * 256 + x / 256) = le16 x). unfold be16, le16. f_equal; [|f_equal]; Z.to_euclidean_division_equations; lia.
Qed.

Lemma sl_roundtrip_witness :
  let w := sample_hdr 7 1000 500 4096 true 3 in
  exists type m' tx', sl_compress_tcp (sample_mbuf w [1; 2; 3]) sl_compress_init true = Ret (type, m', tx') /\
    (type = TYPE_UNCOMPRESSED_TCP \/ type = TYPE_COMPRESSED_TCP /\ zlen (m_bytes m') <= 19 + zlen [1; 2; 3]) /\
    forall t slack, exists rx', sync tx' rx' /\
      sl_uncompress_tcp (tagged t type (m_bytes m' ++ []) ++ slack) (zlen (m_bytes m' ++ [])) type sl_compress_init =
      Ret (Some (enc w ++ [1; 2; 3] ++ []), rx').
Proof.
  intros w. apply (sl_roundtrip sl_compress_init sl_compress_init (sample_mbuf w [1; 2; 3]) true w [1; 2; 3] []); [exact sync_init|by apply (sample_packet 7 1000 500 4096 true [1; 2; 3])|done|by vm_compute].
Defined.

(** The packets of a conversation: the first with URG, the next, which begins where the first
    ends, without. *)
Definition urg_run : outcome (option (list Z)) :=
  let! (type, m, tx) := sl_compress_tcp (sample_mbuf (sample_hdr 7 1000 500 4096 true 3) [1; 2; 3]) sl_compress_init true in
  let! (_, rx) := sl_uncompress_tcp (m_bytes m) (m_len m) type sl_compress_init in
  let! (type, m, tx) := sl_compress_tcp (sample_mbuf (sample_hdr 8 1003 500 4096 false 2) [4; 5]) tx true in
  let! (p, rx) := sl_uncompress_tcp (m_bytes m) (m_len m) type rx in Ret p.

(** The exception is needed, on one run: after a packet with URG, the next packet in sequence,
    which has URG off and the same urgent pointer, is sent with the special encoding of
    unidirectional data; the receiver rebuilds it with URG still set. *)
Theorem urg_stays_set : urg_run = Ret (Some (enc (sample_hdr 8 1003 500 4096 true 2) ++ [4; 5])) /\
  enc (sample_hdr 8 1003 500 4096 true 2) <> enc (sample_hdr 8 1003 500 4096 false 2).
Proof. split; [vm_compute; reflexivity|]. vm_compute. congruence. Qed.

End SlRound.
