(* ===== verification/Slip.v ===== *)
(** The serial line interface (src/sys/net/if_sl.c, if_slvar.h), without BPF.

    One interface and its terminal are modelled, with the character lists of the terminal
    driver behind an interface, because the bodies of tty_subr.c are not in the repository.
    The input buffer is kept as the bytes between sc_buf and sc_mp; what lies behind them in
    the cluster is an argument of slinput.  Interrupts are blocked where the code calls
    splimp, so every function is one step. *)
From S2P Require Import Prelude Mbuf TcpHdr SlCompress.
Import Mbuf TcpHdr SlCompress.

(** ** Character lists *)

(** A [clist] together with the free list: its characters, the global [cfreecount], and the
    functions of tty_subr.c that SLIP calls.  putc and b_to_q return how many characters
    did not fit; t_oproc gives characters to the hardware. *)
Class Clist (Q : Type) := {
  q_bytes : Q -> list Z;
  cfreecount : Q -> Z;
  putc : Z -> Q -> Z * Q;
  b_to_q : list Z -> Q -> Z * Q;
  unputc : Q -> Q;
  t_oproc : Q -> list Z * Q
}.
Definition c_cc {Q} `{Clist Q} (q : Q) : Z := zlen (q_bytes q).

(** What slstart relies on: while there is room, characters are appended; cfreecount free
    characters are room; the hardware takes characters from the front. *)
Class ClistLaws (Q : Type) `{Clist Q} := {
  q_room : Q -> Z;
  putc_room c q : 0 < q_room q -> exists q', putc c q = (0, q') /\ q_bytes q' = q_bytes q ++ [c] /\ q_room q' = q_room q - 1;
  b_to_q_room l q : zlen l <= q_room q -> exists q', b_to_q l q = (0, q') /\ q_bytes q' = q_bytes q ++ l /\ q_room q' = q_room q - zlen l;
  free_room q : cfreecount q <= q_room q;
  oproc_front q : (t_oproc q).1 ++ q_bytes (t_oproc q).2 = q_bytes q
}.

Module Slip.

Definition IFF_UP : Z := 1.
Definition IFF_DEBUG : Z := 4.
Definition IFF_POINTOPOINT : Z := 16.
Definition IFF_MULTICAST : Z := 32768.
Definition SC_COMPRESS : Z := 4096.
Definition SC_NOICMP : Z := 8192.
Definition SC_AUTOCOMP : Z := 16384.
Definition SC_ERROR : Z := 1.
Definition BUFOFFSET : Z := 132.
Definition SLMAX : Z := MCLBYTES - BUFOFFSET.
Definition SLMTU : Z := 296.
Definition SLIP_HIWAT : Z := 52.
Definition CLISTRESERVE : Z := 1024.
Definition ABT_ESC : Z := 27.
Definition ABT_IDLE : Z := 1.
Definition ABT_COUNT : Z := 3.
Definition ABT_WINDOW : Z := ABT_COUNT * 2 + 2.
Definition FRAME_END : Z := 192.
Definition FRAME_ESCAPE : Z := 219.
Definition TRANS_FRAME_END : Z := 220.
Definition TRANS_FRAME_ESCAPE : Z := 221.
Definition TTY_CHARMASK : Z := 255.
Definition TTY_ERRORMASK : Z := 4278190080.
Definition TS_CARR_ON : Z := 8.
Definition TS_ISOPEN : Z := 32.
Definition TS_XCLUDE : Z := 1024.
Definition CLOCAL : Z := 32768.
Definition SLIPDISC : Z := 4.
Definition IPVERSION : Z := 4.
Definition IPTOS_LOWDELAY : Z := 16.
Definition IPPROTO_ICMP : Z := 1.
Definition AF_INET : Z := 2.
Definition EPERM : Z := 1.
Definition ENXIO : Z := 6.
Definition EINVAL : Z := 22.
Definition EAFNOSUPPORT : Z := 47.
Definition ENETDOWN : Z := 50.
Definition ENETRESET : Z := 52.
Definition ENOBUFS : Z := 55.
Definition EHOSTUNREACH : Z := 65.

(** ** State *)

Record ifqueue := mkIfq { ifq_q : list chain; ifq_maxlen : Z; ifq_drops : Z }.
Definition eta_ifqueue (r : ifqueue) : ifqueue := mkIfq (ifq_q r) (ifq_maxlen r) (ifq_drops r).
#[global] Instance set_ifq_q : Setter ifq_q := ltac:(mk_setter eta_ifqueue).
#[global] Instance set_ifq_maxlen : Setter ifq_maxlen := ltac:(mk_setter eta_ifqueue).
#[global] Instance set_ifq_drops : Setter ifq_drops := ltac:(mk_setter eta_ifqueue).

Definition IF_QFULL (q : ifqueue) : bool := zlen (ifq_q q) >=? ifq_maxlen q.
Definition IF_DROP (q : ifqueue) : ifqueue := q <| ifq_drops := ifq_drops q + 1 |>.
Definition IF_ENQUEUE (q : ifqueue) (m : chain) : ifqueue := q <| ifq_q := ifq_q q ++ [m] |>.
Definition IF_DEQUEUE (q : ifqueue) : option chain * ifqueue :=
  match ifq_q q with [] => (None, q) | m :: l => (Some m, q <| ifq_q := l |>) end.

(** The counters of an interface that SLIP changes. *)
Record if_data := mkIfd {
  if_ipackets : Z; if_ierrors : Z; if_opackets : Z; if_oerrors : Z; if_collisions : Z; if_ibytes : Z; if_obytes : Z;
  if_omcasts : Z; if_iqdrops : Z; if_noproto : Z; if_lastchange : Z
}.
Definition eta_if_data (r : if_data) : if_data :=
  mkIfd (if_ipackets r) (if_ierrors r) (if_opackets r) (if_oerrors r) (if_collisions r) (if_ibytes r) (if_obytes r)
    (if_omcasts r) (if_iqdrops r) (if_noproto r) (if_lastchange r).
#[global] Instance set_if_ipackets : Setter if_ipackets := ltac:(mk_setter eta_if_data).
#[global] Instance set_if_ierrors : Setter if_ierrors := ltac:(mk_setter eta_if_data).
#[global] Instance set_if_opackets : Setter if_opackets := ltac:(mk_setter eta_if_data).
#[global] Instance set_if_oerrors : Setter if_oerrors := ltac:(mk_setter eta_if_data).
#[global] Instance set_if_collisions : Setter if_collisions := ltac:(mk_setter eta_if_data).
#[global] Instance set_if_ibytes : Setter if_ibytes := ltac:(mk_setter eta_if_data).
#[global] Instance set_if_obytes : Setter if_obytes := ltac:(mk_setter eta_if_data).
#[global] Instance set_if_omcasts : Setter if_omcasts := ltac:(mk_setter eta_if_data).
#[global] Instance set_if_iqdrops : Setter if_iqdrops := ltac:(mk_setter eta_if_data).
#[global] Instance set_if_noproto : Setter if_noproto := ltac:(mk_setter eta_if_data).
#[global] Instance set_if_lastchange : Setter if_lastchange := ltac:(mk_setter eta_if_data).

Definition inc (x : Z) : Z := u32 (x + 1).

(** [sl_softc]; [sc_in] is the bytes from sc_buf to sc_mp, [sc_cl] the cluster below sc_ep
    (none when sc_ep is 0), and [sc_ttyp] the number of the terminal. *)
Record sl_softc := mkSc {
  if_unit : Z; if_mtu : Z; if_baudrate : Z; if_flags : Z; if_snd : ifqueue; if_stat : if_data;
  sc_fastq : ifqueue; sc_ttyp : option Z; sc_in : list Z; sc_cl : option Z; sc_flags : Z; sc_escape : bool;
  sc_lasttime : Z; sc_abortcount : Z; sc_starttime : Z; sc_comp : slcompress
}.
Definition eta_sl_softc (r : sl_softc) : sl_softc :=
  mkSc (if_unit r) (if_mtu r) (if_baudrate r) (if_flags r) (if_snd r) (if_stat r) (sc_fastq r) (sc_ttyp r) (sc_in r) (sc_cl r) (sc_flags r)
    (sc_escape r) (sc_lasttime r) (sc_abortcount r) (sc_starttime r) (sc_comp r).
#[global] Instance set_if_unit : Setter if_unit := ltac:(mk_setter eta_sl_softc).
#[global] Instance set_if_mtu : Setter if_mtu := ltac:(mk_setter eta_sl_softc).
#[global] Instance set_if_baudrate : Setter if_baudrate := ltac:(mk_setter eta_sl_softc).
#[global] Instance set_if_flags : Setter if_flags := ltac:(mk_setter eta_sl_softc).
#[global] Instance set_if_snd : Setter if_snd := ltac:(mk_setter eta_sl_softc).
#[global] Instance set_if_stat : Setter if_stat := ltac:(mk_setter eta_sl_softc).
#[global] Instance set_sc_fastq : Setter sc_fastq := ltac:(mk_setter eta_sl_softc).
#[global] Instance set_sc_ttyp : Setter sc_ttyp := ltac:(mk_setter eta_sl_softc).
#[global] Instance set_sc_in : Setter sc_in := ltac:(mk_setter eta_sl_softc).
#[global] Instance set_sc_cl : Setter sc_cl := ltac:(mk_setter eta_sl_softc).
#[global] Instance set_sc_flags : Setter sc_flags := ltac:(mk_setter eta_sl_softc).
#[global] Instance set_sc_escape : Setter sc_escape := ltac:(mk_setter eta_sl_softc).
#[global] Instance set_sc_lasttime : Setter sc_lasttime := ltac:(mk_setter eta_sl_softc).
#[global] Instance set_sc_abortcount : Setter sc_abortcount := ltac:(mk_setter eta_sl_softc).
#[global] Instance set_sc_starttime : Setter sc_starttime := ltac:(mk_setter eta_sl_softc).
#[global] Instance set_sc_comp : Setter sc_comp := ltac:(mk_setter eta_sl_softc).

Section Line.
Context {Q : Type} `{Clist Q}.

Record tty := mkTty { t_outq : Q; t_state : Z; t_cflag : Z; t_line : Z; t_ospeed : Z; t_sc : option Z; t_sent : list Z }.
Definition eta_tty (r : tty) : tty := mkTty (t_outq r) (t_state r) (t_cflag r) (t_line r) (t_ospeed r) (t_sc r) (t_sent r).
#[global] Instance set_t_outq : Setter t_outq := ltac:(mk_setter eta_tty).
#[global] Instance set_t_state : Setter t_state := ltac:(mk_setter eta_tty).
#[global] Instance set_t_line : Setter t_line := ltac:(mk_setter eta_tty).
#[global] Instance set_t_sc : Setter t_sc := ltac:(mk_setter eta_tty).
#[global] Instance set_t_sent : Setter t_sent := ltac:(mk_setter eta_tty).

(** The interface, its terminal and what they share with the rest of the kernel; [t_sent] is
    what went to the hardware. *)
Record sls := mkSls { sc : sl_softc; tp : tty; pool : mpool; ipintrq : ifqueue; netisr_ip : bool }.
Definition eta_sls (r : sls) : sls := mkSls (sc r) (tp r) (pool r) (ipintrq r) (netisr_ip r).
#[global] Instance set_sc : Setter sc := ltac:(mk_setter eta_sls).
#[global] Instance set_tp : Setter tp := ltac:(mk_setter eta_sls).
#[global] Instance set_pool : Setter pool := ltac:(mk_setter eta_sls).
#[global] Instance set_ipintrq : Setter ipintrq := ltac:(mk_setter eta_sls).
#[global] Instance set_netisr_ip : Setter netisr_ip := ltac:(mk_setter eta_sls).

(** What is not in the repository or not modelled: the page allocator, ttyflush and
    ttywflush. *)
Context (kmem_malloc : mpool -> option Z) (ttyflush ttywflush : tty -> tty).

(** ** Opening and closing *)

(** [slattach], for unit [i] *)
Definition slattach (i : Z) : sl_softc :=
  mkSc i SLMTU 0 (setb (setb IFF_POINTOPOINT SC_AUTOCOMP) IFF_MULTICAST) (mkIfq [] 50 0) (mkIfd 0 0 0 0 0 0 0 0 0 0 0)
    (mkIfq [] 32 0) None [] None 0 false 0 0 0 (mkSlc 0 0 0 0 (repeat (mkCs 0 0 0 zero_hdr) 16) (repeat (mkCs 0 0 0 zero_hdr) 16)).

(** [slinit] *)
Definition slinit (sc : sl_softc) (p : mpool) : bool * sl_softc * mpool :=
  let start sc := sc <| sc_in := [] |> <| sc_comp := sl_compress_init |> in
  match sc_cl sc with
  | Some _ => (true, start sc, p)
  | None =>
      match MCLALLOC kmem_malloc p with
      | (Some c, p) => (true, start (sc <| sc_cl := Some c |>), p)
      | (None, p) => (false, sc <| if_flags := clrb (if_flags sc) IFF_UP |>, p)
      end
  end.

(** [slopen] of terminal [n]; [suser] is the result of suser. *)
Fixpoint slopen_scan (n : Z) (scs : list sl_softc) (tp : tty) (p : mpool) : Z * list sl_softc * tty * mpool :=
  match scs with
  | [] => (ENXIO, [], tp, p)
  | sc :: scs =>
      match sc_ttyp sc with
      | Some _ => let '(e, scs, tp, p) := slopen_scan n scs tp p in (e, sc :: scs, tp, p)
      | None =>
          match slinit sc p with
          | (false, sc, p) => (ENOBUFS, sc :: scs, tp, p)
          | (true, sc, p) =>
              let tp := tp <| t_sc := Some (if_unit sc) |> in
              let sc := sc <| sc_ttyp := Some n |> <| if_baudrate := t_ospeed tp |> in
              let tp := tp <| t_state := setb (t_state tp) (setb TS_ISOPEN TS_XCLUDE) |> in
              (0, sc :: scs, ttyflush tp, p)
          end
      end
  end.
Definition slopen (suser n : Z) (scs : list sl_softc) (tp : tty) (p : mpool) : Z * list sl_softc * tty * mpool :=
  if negb (suser =? 0) then (suser, scs, tp, p)
  else if t_line tp =? SLIPDISC then (0, scs, tp, p)
  else slopen_scan n scs tp p.

(** [if_qflush] *)
Definition if_qflush (q : ifqueue) (p : mpool) : ifqueue * mpool := (q <| ifq_q := [] |>, fold_left m_freem (ifq_q q) p).

(** [if_down], but for the messages to the protocols and the routing socket *)
Definition if_down (sc : sl_softc) (p : mpool) : sl_softc * mpool :=
  let sc := sc <| if_flags := clrb (if_flags sc) IFF_UP |> in
  let '(q, p) := if_qflush (if_snd sc) p in (sc <| if_snd := q |>, p).

(** [slclose] *)
Definition slclose (s : sls) : sls :=
  let t := (ttywflush (tp s)) <| t_line := 0 |> <| t_state := 0 |> in
  match t_sc t with
  | None => s <| tp := t |>
  | Some _ =>
      let '(c, p) := if_down (sc s) (pool s) in
      let c := c <| sc_ttyp := None |> in
      let p := match sc_cl c with Some k => MCLFREE p k | None => p end in
      s <| sc := c <| sc_cl := None |> <| sc_in := [] |> |> <| tp := t <| t_sc := None |> |> <| pool := p |>
  end.

(** [sltioctl] for SLIOCGUNIT; any other command is -1. *)
Definition sltioctl (unit_cmd : bool) (s : sls) : Z * option Z := if unit_cmd then (0, Some (if_unit (sc s))) else (-1, None).

(** ** Output *)

(** Is the byte sent as it is? *)
Definition plain (c : Z) : bool := negb ((c =? FRAME_ESCAPE) || (c =? FRAME_END)).
Fixpoint plain_run (l : list Z) : list Z * list Z :=
  match l with
  | [] => ([], [])
  | c :: l' => if plain c then let '(a, b) := plain_run l' in (c :: a, b) else ([], l)
  end.

(** The bytes [l] of one mbuf go to the output queue; [n] counts the characters.  A full queue
    ends the loop. *)
Fixpoint sl_copy (fuel : nat) (l : list Z) (q : Q) (n : Z) : outcome (Q * Z) :=
  match l, fuel with
  | [], _ => Ret (q, n)
  | _, O => OutOfFuel
  | _, S fuel =>
      let '(a, b) := plain_run l in
      let '(k, q, n) :=
        if 0 <? zlen a then let '(k, q) := b_to_q a q in (k, q, if k =? 0 then u32 (n + zlen a) else n) else (0, q, n) in
      if negb (k =? 0) then Ret (q, n)
      else
        match b with
        | [] => Ret (q, n)
        | c :: b =>
            let '(r, q) := putc FRAME_ESCAPE q in
            if negb (r =? 0) then Ret (q, n)
            else
              let '(r, q) := putc (if c =? FRAME_ESCAPE then TRANS_FRAME_ESCAPE else TRANS_FRAME_END) q in
              if negb (r =? 0) then Ret (unputc q, n) else sl_copy fuel b q (u32 (n + 2))
        end
  end.

(** All mbufs of a packet; each is freed behind its bytes. *)
Fixpoint sl_copy_chain (ms : chain) (q : Q) (n : Z) (p : mpool) : outcome (Q * Z * mpool) :=
  match ms with
  | [] => Ret (q, n, p)
  | m :: ms => let! (q, n) := sl_copy (length (m_bytes m)) (m_bytes m) q n in sl_copy_chain ms q n (m_free p m)
  end.

(** The header is compressed and the type of the packet goes to its first byte. *)
Definition sl_tag (flags : Z) (m : chain) (comp : slcompress) : outcome (chain * slcompress) :=
  match m with
  | [] => Panic "slstart: no mbuf"
  | m0 :: ms =>
      if (gb (m_bytes m0) 9 =? IPPROTO_TCP) && hasf flags SC_COMPRESS then
        let! (type, m0, comp) := sl_compress_tcp m0 comp true in
        Ret (m0 <| m_bytes := put (m_bytes m0) 0 [Z.lor (gb (m_bytes m0) 0) type] |> :: ms, comp)
      else Ret (m0 :: ms, comp)
  end.

(** One packet goes to the terminal. *)
Definition sl_send (now : Z) (m : chain) (s : sls) : outcome sls :=
  let! (m, comp) := sl_tag (if_flags (sc s)) m (sc_comp (sc s)) in
  let d := (if_stat (sc s)) <| if_lastchange := now |> in
  let s := s <| sc := (sc s) <| sc_comp := comp |> |> in
  let q := t_outq (tp s) in
  if cfreecount q <? CLISTRESERVE + SLMTU then
    Ret (s <| pool := m_freem (pool s) m |> <| sc := (sc s) <| if_stat := d <| if_collisions := inc (if_collisions d) |> |> |>)
  else
    let '(q, n) := if c_cc q =? 0 then ((putc FRAME_END q).2, inc (if_obytes d)) else (q, if_obytes d) in
    let! (q, n, p) := sl_copy_chain m q n (pool s) in
    let '(r, q) := putc FRAME_END q in
    let d := d <| if_obytes := n |> in
    let '(q, d) :=
      if negb (r =? 0) then ((putc FRAME_END (unputc q)).2, d <| if_collisions := inc (if_collisions d) |>)
      else (q, d <| if_obytes := inc n |> <| if_opackets := inc (if_opackets d) |>) in
    Ret (s <| tp := (tp s) <| t_outq := q |> |> <| pool := p |> <| sc := (sc s) <| if_stat := d |> |>).

(** The next packet, from the fast queue first. *)
Definition sl_dequeue (c : sl_softc) : option chain * sl_softc :=
  match IF_DEQUEUE (sc_fastq c) with
  | (Some m, q) => (Some m, c <| sc_fastq := q |> <| if_stat := (if_stat c) <| if_omcasts := inc (if_omcasts (if_stat c)) |> |>)
  | (None, _) => let '(m, q) := IF_DEQUEUE (if_snd c) in (m, c <| if_snd := q |>)
  end.

(** [slstart] *)
Fixpoint slstart (fuel : nat) (now : Z) (s : sls) : outcome sls :=
  match fuel with
  | O => OutOfFuel
  | S fuel =>
      let '(s, full) :=
        if negb (c_cc (t_outq (tp s)) =? 0) then
          let '(out, q) := t_oproc (t_outq (tp s)) in
          (s <| tp := (tp s) <| t_outq := q |> <| t_sent := t_sent (tp s) ++ out |> |>, c_cc q >? SLIP_HIWAT)
        else (s, false) in
      if full then Ret s
      else
        match t_sc (tp s) with
        | None => Ret s
        | Some _ =>
            match sl_dequeue (sc s) with
            | (None, _) => Ret s
            | (Some m, c) => let! s := sl_send now m (s <| sc := c |>) in slstart fuel now s
            end
        end
  end.

(** [sloutput] *)
Definition sloutput (now family : Z) (m : chain) (s : sls) : outcome (Z * sls) :=
  let c := sc s in
  let drop (e : Z) (s : sls) := Ret (e, s <| pool := m_freem (pool s) m |>) in
  if negb (family =? AF_INET) then
    drop EAFNOSUPPORT (s <| sc := c <| if_stat := (if_stat c) <| if_noproto := inc (if_noproto (if_stat c)) |> |> |>)
  else
    match sc_ttyp c, m with
    | None, _ => drop ENETDOWN s
    | _, [] => Panic "sloutput: no mbuf"
    | Some _, m0 :: _ =>
        if negb (hasf (t_state (tp s)) TS_CARR_ON) && negb (hasf (t_cflag (tp s)) CLOCAL) then drop EHOSTUNREACH s
        else if hasf (if_flags c) SC_NOICMP && (gb (m_bytes m0) 9 =? IPPROTO_ICMP) then drop ENETRESET s
        else
          let fast := hasf (gb (m_bytes m0) 1) IPTOS_LOWDELAY in
          let q := if fast then sc_fastq c else if_snd c in
          let put q c := if fast then c <| sc_fastq := q |> else c <| if_snd := q |> in
          if IF_QFULL q then
            drop ENOBUFS (s <| sc := (put (IF_DROP q) c) <| if_stat := (if_stat c) <| if_oerrors := inc (if_oerrors (if_stat c)) |> |> |>)
          else
            let c := put (IF_ENQUEUE q m) c in
            let s := s <| sc := c <| if_stat := (if_stat c) <| if_lastchange := now |> |> |> in
            if c_cc (t_outq (tp s)) =? 0 then
              let! s := slstart (S (length (ifq_q (sc_fastq (sc s))) + length (ifq_q (if_snd (sc s))))) now s in Ret (0, s)
            else Ret (0, s)
    end.

(** [slioctl], for the commands that it knows; the family is that of the address. *)
Inductive sl_cmd := SIOCSIFADDR (family : Z) | SIOCSIFDSTADDR (family : Z) | SIOCMULTI (family : option Z) | SIOCother.
Definition slioctl (cmd : sl_cmd) (c : sl_softc) : Z * sl_softc :=
  match cmd with
  | SIOCSIFADDR f => if f =? AF_INET then (0, c <| if_flags := setb (if_flags c) IFF_UP |>) else (EAFNOSUPPORT, c)
  | SIOCSIFDSTADDR f => (if negb (f =? AF_INET) then EAFNOSUPPORT else 0, c)
  | SIOCMULTI None => (EAFNOSUPPORT, c)
  | SIOCMULTI (Some f) => (if f =? AF_INET then 0 else EAFNOSUPPORT, c)
  | SIOCother => (EINVAL, c)
  end.

(** ** Input *)

(** [sl_btom]: the packet [l], which starts at [off] in the input cluster. *)
Definition sl_btom (l : list Z) (off : Z) (c : sl_softc) (p : mpool) : option mbuf * sl_softc * mpool :=
  match m_gethdr p MT_DATA with
  | (None, p) => (None, c, p)
  | (Some m, p) =>
      let fin m := m <| m_bytes := l |> <| m_pktlen := zlen l |> <| m_rcvif := if_unit c + 1 |> in
      if zlen l >=? MHLEN then
        match MCLALLOC kmem_malloc p, sc_cl c with
        | (Some k, p), Some old =>
            (Some (fin (m <| m_flags := setb (m_flags m) M_EXT |> <| ext_size := MCLBYTES |> <| m_off := off |> <| ext_buf := old |>)),
             c <| sc_cl := Some k |>, p)
        | (_, p), _ => (None, c, m_free p m)
        end
      else (Some (fin m), c, p)
  end.

(** Where sl_uncompress_tcp leaves *bufp in the cluster: in front of the data, moved down to a
    word boundary, by the length of the header. *)
Definition bufp_off (type len len' : Z) (comp : slcompress) : Z :=
  if type =? TYPE_COMPRESSED_TCP then
    match rstate comp !! Z.to_nat (last_recv comp) with
    | Some r => clrb (BUFOFFSET + (len - (len' - cs_hlen r))) 3 - cs_hlen r
    | None => BUFOFFSET
    end
  else BUFOFFSET.

(** A complete frame [l]: the packet, where it is, and the interface; [None] is [goto error]. *)
Definition sl_frame (junk : list Z) (l : list Z) (c : sl_softc) : outcome (option (list Z * Z) * sl_softc) :=
  let t := Z.land (gb l 0) 240 in
  if t =? Z.shiftl IPVERSION 4 then Ret (Some (l, BUFOFFSET), c)
  else
    let '(t, l) :=
      if hasf t 128 then (TYPE_COMPRESSED_TCP, l)
      else if t =? TYPE_UNCOMPRESSED_TCP then (t, put l 0 [Z.land (gb l 0) 79]) else (t, l) in
    let on := hasf (if_flags c) SC_COMPRESS in
    if on || (hasf (if_flags c) SC_AUTOCOMP && (t =? TYPE_UNCOMPRESSED_TCP) && (zlen l >=? 40)) then
      let! (r, comp) := sl_uncompress_tcp (l ++ junk) (zlen l) t (sc_comp c) in
      let c := c <| sc_comp := comp |> in
      match r with
      | None => Ret (None, c)
      | Some pkt =>
          if zlen pkt <=? 0 then Ret (None, c)
          else Ret (Some (pkt, bufp_off t (zlen l) (zlen pkt) comp),
                    if on then c else c <| if_flags := setb (if_flags c) SC_COMPRESS |>)
      end
    else Ret (None, c).

(** [newpack] and [error] *)
Definition sl_newpack (s : sls) : sls := s <| sc := (sc s) <| sc_in := [] |> <| sc_escape := false |> |>.
Definition sl_error (s : sls) : sls :=
  sl_newpack (s <| sc := (sc s) <| if_stat := (if_stat (sc s)) <| if_ierrors := inc (if_ierrors (if_stat (sc s))) |> |> |>).

(** FRAME_END arrives. *)
Definition sl_end (now : Z) (junk : list Z) (s : sls) : outcome sls :=
  let c := sc s in
  if hasf (sc_flags c) SC_ERROR then Ret (sl_newpack (s <| sc := c <| sc_flags := clrb (sc_flags c) SC_ERROR |> |>))
  else if zlen (sc_in c) <? 3 then Ret (sl_newpack s)
  else
    let! (r, c) := sl_frame junk (sc_in c) c in
    match r with
    | None => Ret (sl_error (s <| sc := c |>))
    | Some (pkt, off) =>
        match sl_btom pkt off c (pool s) with
        | (None, c, p) => Ret (sl_error (s <| sc := c |> <| pool := p |>))
        | (Some m, c, p) =>
            let d := (if_stat c) <| if_ipackets := inc (if_ipackets (if_stat c)) |> <| if_lastchange := now |> in
            if IF_QFULL (ipintrq s) then
              Ret (sl_newpack (s <| sc := c <| if_stat := d <| if_ierrors := inc (if_ierrors d) |> <| if_iqdrops := inc (if_iqdrops d) |> |> |>
                                 <| ipintrq := IF_DROP (ipintrq s) |> <| pool := m_freem p [m] |>))
            else
              Ret (sl_newpack (s <| sc := c <| if_stat := d |> |> <| ipintrq := IF_ENQUEUE (ipintrq s) [m] |> <| netisr_ip := true |> <| pool := p |>))
        end
    end.

(** The escapes that end the connection; the result is whether it ends. *)
Definition sl_abort (now ch : Z) (c : sl_softc) : bool * sl_softc :=
  if negb (ch =? ABT_ESC) then (false, c <| sc_abortcount := 0 |> <| sc_lasttime := now |>)
  else
    let c := if negb (sc_abortcount c =? 0) && (sc_starttime c + ABT_WINDOW <=? now) then c <| sc_abortcount := 0 |> else c in
    if sc_lasttime c + ABT_IDLE <=? now then
      let c := c <| sc_abortcount := sc_abortcount c + 1 |> in
      let c := if sc_abortcount c =? 1 then c <| sc_starttime := now |> else c in
      if ABT_COUNT <=? sc_abortcount c then (true, c) else (false, c <| sc_lasttime := now |>)
    else (false, c <| sc_lasttime := now |>).

(** A character other than FRAME_ESCAPE and FRAME_END goes to the buffer. *)
Definition sl_store (ch : Z) (s : sls) : sls :=
  if zlen (sc_in (sc s)) <? SLMAX then s <| sc := (sc s) <| sc_in := sc_in (sc s) ++ [ch] |> <| sc_escape := false |> |>
  else sl_error (s <| sc := (sc s) <| sc_flags := setb (sc_flags (sc s)) SC_ERROR |> |>).

(** [slinput]; tk_nin is not modelled. *)
Definition slinput (now : Z) (junk : list Z) (ch : Z) (s : sls) : outcome sls :=
  match t_sc (tp s) with
  | None => Ret s
  | Some _ =>
      let c := sc s in
      if hasf ch TTY_ERRORMASK || (negb (hasf (t_state (tp s)) TS_CARR_ON) && negb (hasf (t_cflag (tp s)) CLOCAL)) then
        Ret (s <| sc := c <| sc_flags := setb (sc_flags c) SC_ERROR |> |>)
      else
        let ch := Z.land ch TTY_CHARMASK in
        let c := c <| if_stat := (if_stat c) <| if_ibytes := inc (if_ibytes (if_stat c)) |> |> in
        let '(quit, c) := if hasf (if_flags c) IFF_DEBUG then sl_abort now ch c else (false, c) in
        let s := s <| sc := c |> in
        if quit then Ret (slclose s)
        else if ch =? FRAME_ESCAPE then Ret (s <| sc := c <| sc_escape := true |> |>)
        else if ch =? FRAME_END then sl_end now junk s
        else if (ch =? TRANS_FRAME_ESCAPE) && sc_escape c then Ret (sl_store FRAME_ESCAPE s)
        else if (ch =? TRANS_FRAME_END) && sc_escape c then Ret (sl_store FRAME_END s)
        else Ret (sl_store ch s)
  end.

End Line.

End Slip.
