(* ===== verification/SlipOk.v ===== *)
(** Correctness of the serial line: the receiver delivers the packets that the sender put on
    the line, byte for byte and in order. *)
From S2P Require Import Prelude Mbuf Cksum TcpHdr SlCompress SlCompressOk SlRound Slip.
Import Mbuf Cksum TcpHdr SlCompress SlCompressOk SlRound Slip.

Module SlipOk.

(** ** Framing *)

Definition esc1 (c : Z) : list Z :=
  if c =? FRAME_ESCAPE then [FRAME_ESCAPE; TRANS_FRAME_ESCAPE] else if c =? FRAME_END then [FRAME_ESCAPE; TRANS_FRAME_END] else [c].
Definition esc (l : list Z) : list Z := l ≫= esc1.

Lemma esc_cons c l : esc (c :: l) = esc1 c ++ esc l.
Proof. done. Qed.
Lemma esc_app a b : esc (a ++ b) = esc a ++ esc b.
Proof. unfold esc. by rewrite bind_app. Qed.

Lemma zlen_esc l : zlen l <= zlen (esc l) <= 2 * zlen l.
Proof.
  induction l as [|c l IH]; [done|]. rewrite esc_cons, zlen_app, zlen_cons. unfold esc1.
  destruct (c =? FRAME_ESCAPE), (c =? FRAME_END); rewrite ?zlen_cons; change (zlen (@nil Z)) with 0; lia.
Qed.

Lemma plain_run_ok l : let '(a, b) := plain_run l in
  l = a ++ b /\ esc a = a /\ match b with [] => True | c :: _ => c = FRAME_ESCAPE \/ c = FRAME_END end.
Proof.
  induction l as [|c l IH]; [done|]. cbn [plain_run]. unfold plain at 1. destruct (plain_run l) as [a b]. destruct IH as (-> & Ea & Hb).
  destruct (Z.eqb_spec c FRAME_ESCAPE) as [->|N1]; cbn [orb negb]; [split_and!; auto|].
  destruct (Z.eqb_spec c FRAME_END) as [->|N2]; cbn [orb negb]; [split_and!; auto|]. split_and!; [done| |done].
  rewrite esc_cons, Ea. unfold esc1. by rewrite (proj2 (Z.eqb_neq _ _) N1), (proj2 (Z.eqb_neq _ _) N2).
Qed.

Section Sender.
Context {Q : Type} `{ClistLaws Q}.

(** Characters [l] went to the queue. *)
Definition appended (q q' : Q) (l : list Z) : Prop := q_bytes q' = q_bytes q ++ l /\ q_room q' = q_room q - zlen l.

Lemma appended_nil q : appended q q [].
Proof. split; [by rewrite app_nil_r|]. change (zlen (@nil Z)) with 0. lia. Qed.
Lemma appended_trans a b c x y : appended a b x -> appended b c y -> appended a c (x ++ y).
Proof. intros [E1 R1] [E2 R2]. split; [by rewrite E2, E1, app_assoc|]. rewrite zlen_app. lia. Qed.
Lemma putc_ok c q : 0 < q_room q -> exists q', putc c q = (0, q') /\ appended q q' [c].
Proof. intros Hr. destruct (putc_room c q Hr) as (q' & E & Eb & Er). exists q'. by split. Qed.

Lemma sl_copy_ok : forall fuel l q n, (length l <= fuel)%nat -> zlen (esc l) <= q_room q ->
  exists q' n', sl_copy fuel l q n = Ret (q', n') /\ appended q q' (esc l).
Proof.
  induction fuel as [|fuel IH]; intros l q n Hl Hr.
  { destruct l; [|cbn in Hl; lia]. eexists _, _. split; [reflexivity|apply appended_nil]. }
  destruct l as [|c0 l0]; [eexists _, _; split; [reflexivity|apply appended_nil]|]. cbn [sl_copy]. set (l := c0 :: l0) in *.
  pose proof (plain_run_ok l) as Hp. destruct (plain_run l) as [a b]. destruct Hp as (El & Ea & Hb). rewrite El, esc_app, Ea in Hr |- *.
  rewrite El, length_app in Hl. clearbody l. clear c0 l0. rewrite zlen_app in Hr. pose proof (zlen_esc b) as Heb. pose proof (zlen_nonneg b).
  assert (exists q1 n1, (if 0 <? zlen a then let '(k, q) := b_to_q a q in (k, q, if k =? 0 then u32 (n + zlen a) else n) else (0, q, n)) = (0, q1, n1)
    /\ appended q q1 a) as (q1 & n1 & E1 & A1).
  { destruct (Z.ltb_spec 0 (zlen a)) as [Hz|Hz].
    - assert (Hra : zlen a <= q_room q) by lia. destruct (b_to_q_room a q Hra) as (q1 & E & Eb & Er). rewrite E. eexists _, _. split; [reflexivity|]. by split.
    - rewrite (zlen_0 a) by (pose proof (zlen_nonneg a); lia). eexists _, _. split; [reflexivity|apply appended_nil]. }
  rewrite E1. cbn [negb Z.eqb]. destruct b as [|c b].
  { eexists _, _. split; [reflexivity|]. by rewrite app_nil_r. }
  destruct A1 as [Ab Ar]. rewrite esc_cons in Hr |- *.
  assert (E2 : esc1 c = [FRAME_ESCAPE; if c =? FRAME_ESCAPE then TRANS_FRAME_ESCAPE else TRANS_FRAME_END]) by (by destruct Hb as [->| ->]).
  rewrite E2 in Hr |- *. rewrite zlen_app, !zlen_cons in Hr. change (zlen (@nil Z)) with 0 in Hr. pose proof (zlen_nonneg (esc b)).
  destruct (putc_ok FRAME_ESCAPE q1 ltac:(lia)) as (q2 & -> & A2). cbn [negb Z.eqb]. destruct A2 as [A2 R2]. change (zlen [FRAME_ESCAPE]) with 1 in R2.
  destruct (putc_ok (if c =? FRAME_ESCAPE then TRANS_FRAME_ESCAPE else TRANS_FRAME_END) q2 ltac:(lia)) as (q3 & -> & A3). cbn [negb Z.eqb].
  destruct (IH b q3 (u32 (n1 + 2))) as (q4 & n4 & -> & A4).
  { cbn in Hl. lia. }
  { destruct A3 as [_ R3]. change (zlen [_]) with 1 in R3. lia. }
  eexists _, _. split; [reflexivity|]. apply (appended_trans _ q1); [by split|]. change (?x :: ?y :: esc b) with ([x] ++ [y] ++ esc b).
  exact (appended_trans _ q2 _ _ _ (conj A2 R2) (appended_trans _ _ _ _ _ A3 A4)).
Qed.

Lemma sl_copy_chain_ok ms : forall q n p, zlen (esc (chain_bytes ms)) <= q_room q ->
  exists q' n', sl_copy_chain ms q n p = Ret (q', n', m_freem p ms) /\ appended q q' (esc (chain_bytes ms)).
Proof.
  induction ms as [|m ms IH]; intros q n p Hr; [eexists _, _; split; [reflexivity|apply appended_nil]|].
  cbn [sl_copy_chain]. change (chain_bytes (m :: ms)) with (m_bytes m ++ chain_bytes ms) in *. rewrite esc_app, zlen_app in Hr. rewrite esc_app.
  pose proof (zlen_nonneg (esc (chain_bytes ms))).
  destruct (sl_copy_ok (length (m_bytes m)) (m_bytes m) q n ltac:(done) ltac:(lia)) as (q1 & n1 & -> & A1). cbn [obind].
  destruct (IH q1 n1 (m_free p m)) as (q2 & n2 & -> & A2); [destruct A1; lia|]. eexists _, _. split; [reflexivity|]. by apply (appended_trans _ q1).
Qed.

(** What sl_send puts on the line for the packet [l]. *)
Definition framed (idle : bool) (l : list Z) : list Z := (if idle then [FRAME_END] else []) ++ esc l ++ [FRAME_END].

Record sent (s s' : sls) (comp : slcompress) (l : list Z) : Prop := {
  se_q : q_bytes (t_outq (tp s')) = q_bytes (t_outq (tp s)) ++ framed (c_cc (t_outq (tp s)) =? 0) l;
  se_sent : t_sent (tp s') = t_sent (tp s);
  se_sc : t_sc (tp s') = t_sc (tp s);
  se_comp : sc_comp (sc s') = comp;
  se_flags : if_flags (sc s') = if_flags (sc s);
  se_fast : sc_fastq (sc s') = sc_fastq (sc s);
  se_snd : if_snd (sc s') = if_snd (sc s)
}.

Lemma sl_send_ok now m s m' comp :
  sl_tag (if_flags (sc s)) m (sc_comp (sc s)) = Ret (m', comp) -> zlen (chain_bytes m') <= SLMTU ->
  CLISTRESERVE + SLMTU <= cfreecount (t_outq (tp s)) ->
  exists s', sl_send now m s = Ret s' /\ sent s s' comp (chain_bytes m').
Proof.
  intros Et Hl Hc. unfold sl_send. rewrite Et. cbn [obind]. rec_simpl. set (q := t_outq (tp s)) in *.
  destruct (Z.ltb_spec (cfreecount q) (CLISTRESERVE + SLMTU)); [lia|]. pose proof (free_room q) as Hf. pose proof (zlen_esc (chain_bytes m')) as He.
  pose proof (zlen_nonneg (chain_bytes m')). unfold CLISTRESERVE, SLMTU in *.
  assert (exists q1 n1, (if c_cc q =? 0 then ((putc FRAME_END q).2, inc (if_obytes (if_stat (sc s)))) else (q, if_obytes (if_stat (sc s)))) = (q1, n1)
    /\ appended q q1 (if c_cc q =? 0 then [FRAME_END] else [])) as (q1 & n1 & E1 & A1).
  { destruct (c_cc q =? 0); [|eexists _, _; split; [reflexivity|apply appended_nil]].
    destruct (putc_ok FRAME_END q ltac:(lia)) as (q1 & -> & A). by eexists _, _. }
  rewrite E1. assert (Hr1 : q_room q - 1 <= q_room q1).
  { destruct A1 as [_ ->]. destruct (c_cc q =? 0); [change (zlen [FRAME_END]) with 1|change (zlen (@nil Z)) with 0]; lia. }
  destruct (sl_copy_chain_ok m' q1 n1 (pool s)) as (q2 & n2 & -> & A2); [lia|]. cbn [obind].
  destruct (putc_ok FRAME_END q2) as (q3 & -> & A3); [destruct A2; lia|]. cbn [negb Z.eqb]. eexists. split; [reflexivity|].
  split; rec_simpl; try done. unfold framed. fold q. pose proof (appended_trans _ _ _ _ _ A1 (appended_trans _ _ _ _ _ A2 A3)) as [E _]. exact E.
Qed.

End Sender.

Section Receiver.
Context {Q : Type} `{Clist Q} (kmem_malloc : mpool -> option Z) (ttywflush : tty (Q := Q) -> tty (Q := Q)).
#[local] Abbreviation input := (slinput kmem_malloc ttywflush).

(** Characters arrive one by one, each with the time and what else is in the buffer. *)
Fixpoint feed (l : list (Z * list Z * Z)) (s : sls (Q := Q)) : outcome (sls (Q := Q)) :=
  match l with
  | [] => Ret s
  | (now, junk, ch) :: l => let! s := input now junk ch s in feed l s
  end.

Lemma feed_app a b s : feed (a ++ b) s = let! s := feed a s in feed b s.
Proof. revert s. induction a as [|[[now junk] ch] a IH]; intros s; [done|]. cbn [feed app]. destruct (input now junk ch s); cbn [obind]; auto. Qed.

(** The receiver is working and has [l] in its buffer. *)
Record ready (s : sls (Q := Q)) (l : list Z) : Prop := {
  rd_sc : t_sc (tp s) <> None;
  rd_carrier : hasf (t_state (tp s)) TS_CARR_ON || hasf (t_cflag (tp s)) CLOCAL = true;
  rd_debug : hasf (if_flags (sc s)) IFF_DEBUG = false;
  rd_err : hasf (sc_flags (sc s)) SC_ERROR = false;
  rd_in : sc_in (sc s) = l
}.

(** What characters other than FRAME_END leave alone. *)
Record kept (s s' : sls (Q := Q)) : Prop := {
  kp_tp : tp s' = tp s; kp_pool : pool s' = pool s; kp_q : ipintrq s' = ipintrq s; kp_comp : sc_comp (sc s') = sc_comp (sc s);
  kp_flags : if_flags (sc s') = if_flags (sc s); kp_cl : sc_cl (sc s') = sc_cl (sc s)
}.
Lemma kept_trans a b c : kept a b -> kept b c -> kept a c.
Proof. intros [] []. split; congruence. Qed.

Lemma byte_char c : is_byte c -> hasf c TTY_ERRORMASK = false /\ Z.land c TTY_CHARMASK = c.
Proof.
  intros Hc. assert (E : Z.land c TTY_CHARMASK = c).
  { change TTY_CHARMASK with (Z.ones 8). rewrite Z.land_ones by lia. apply Z.mod_small. exact Hc. }
  split; [|done]. unfold hasf. rewrite <- E, <- Z.land_assoc. change (Z.land TTY_CHARMASK TTY_ERRORMASK) with 0. by rewrite Z.land_0_r.
Qed.

(** One character for a receiver that is ready, without the tests. *)
Definition input_ready (now : Z) (junk : list Z) (ch : Z) (s : sls (Q := Q)) : outcome (sls (Q := Q)) :=
  let c := (sc s) <| if_stat := (if_stat (sc s)) <| if_ibytes := inc (if_ibytes (if_stat (sc s))) |> |> in
  let s := s <| sc := c |> in
  if ch =? FRAME_ESCAPE then Ret (s <| sc := c <| sc_escape := true |> |>)
  else if ch =? FRAME_END then sl_end kmem_malloc now junk s
  else if (ch =? TRANS_FRAME_ESCAPE) && sc_escape c then Ret (sl_store FRAME_ESCAPE s)
  else if (ch =? TRANS_FRAME_END) && sc_escape c then Ret (sl_store FRAME_END s)
  else Ret (sl_store ch s).

Lemma input_ok now junk ch s l : ready s l -> is_byte ch -> input now junk ch s = input_ready now junk ch s.
Proof.
  intros [H1 H2 H3 H4 H5] Hb. destruct (byte_char ch Hb) as [E1 E2]. unfold slinput, input_ready. destruct (t_sc (tp s)); [|done].
  rewrite E1, E2. cbn [orb]. rewrite <- negb_orb, H2. cbn [negb]. rec_simpl. rewrite H3. done.
Qed.

Lemma sl_store_ok c s l d : ready s l -> zlen l < SLMAX ->
  let s' := sl_store c (s <| sc := (sc s) <| if_stat := d |> |>) in
  ready s' (l ++ [c]) /\ kept s s' /\ sc_escape (sc s') = false.
Proof.
  intros [H1 H2 H3 H4 H5] Hl. unfold sl_store. rec_simpl. rewrite H5. destruct (Z.ltb_spec (zlen l) SLMAX); [|lia].
  split_and!; [|by split|done]. by split; rec_simpl.
Qed.

Lemma feed_escape now junk s l : ready s l -> exists s', input now junk FRAME_ESCAPE s = Ret s' /\ ready s' l /\ kept s s' /\ sc_escape (sc s') = true.
Proof. intros Hr. rewrite (input_ok _ _ _ _ _ Hr) by done. eexists. split; [reflexivity|]. split_and!; [|by split|done]. destruct Hr. by split. Qed.

Lemma feed_trans now junk s l (b : bool) : ready s l -> sc_escape (sc s) = true -> zlen l < SLMAX ->
  exists s', input now junk (if b then TRANS_FRAME_ESCAPE else TRANS_FRAME_END) s = Ret s' /\
    ready s' (l ++ [if b then FRAME_ESCAPE else FRAME_END]) /\ kept s s' /\ sc_escape (sc s') = false.
Proof.
  intros Hr He Hl. rewrite (input_ok _ _ _ _ _ Hr) by (by destruct b). unfold input_ready. rec_simpl. rewrite He.
  destruct b; (eexists; split; [reflexivity|]; by apply sl_store_ok).
Qed.

(** A byte of a packet, in the form in which it is sent. *)
Lemma feed_esc1 c evs s l :
  ready s l -> sc_escape (sc s) = false -> is_byte c -> zlen l < SLMAX -> map snd evs = esc1 c ->
  exists s', feed evs s = Ret s' /\ ready s' (l ++ [c]) /\ kept s s' /\ sc_escape (sc s') = false.
Proof.
  intros Hr He Hb Hl Hev. unfold esc1 in Hev.
  assert (Hpair : forall b : bool, map snd evs = [FRAME_ESCAPE; if b then TRANS_FRAME_ESCAPE else TRANS_FRAME_END] -> c = (if b then FRAME_ESCAPE else FRAME_END) ->
    exists s', feed evs s = Ret s' /\ ready s' (l ++ [c]) /\ kept s s' /\ sc_escape (sc s') = false).
  { intros b E ->. destruct evs as [|[[n1 j1] c1] [|[[n2 j2] c2] [|]]]; try done. injection E as -> ->. cbn [feed].
    destruct (feed_escape n1 j1 s l Hr) as (s1 & -> & R1 & K1 & E1). cbn [obind].
    destruct (feed_trans n2 j2 s1 l b R1 E1 Hl) as (s2 & -> & R2 & K2 & E2). cbn [obind]. exists s2. split_and!; try done. by apply (kept_trans _ s1). }
  destruct (Z.eqb_spec c FRAME_ESCAPE) as [->|N1]; [by apply (Hpair true)|]. destruct (Z.eqb_spec c FRAME_END) as [->|N2]; [by apply (Hpair false)|].
  destruct evs as [|[[n1 j1] c1] [|]]; try done. injection Hev as ->. cbn [feed]. rewrite (input_ok _ _ _ _ _ Hr) by done. unfold input_ready. rec_simpl.
  rewrite He, !andb_false_r, (proj2 (Z.eqb_neq _ _) N1), (proj2 (Z.eqb_neq _ _) N2). cbn [obind]. eexists. split; [reflexivity|]. by apply sl_store_ok.
Qed.

Lemma map_app_inv {A B} (f : A -> B) evs x y : map f evs = x ++ y -> exists a b, evs = a ++ b /\ map f a = x /\ map f b = y.
Proof. intros E. apply map_eq_app in E as (a & b & -> & Ea & Eb). by exists a, b. Qed.

(** The bytes of a packet. *)
Lemma feed_esc p : forall evs s l, ready s l -> sc_escape (sc s) = false -> Forall is_byte p -> zlen l + zlen p <= SLMAX -> map snd evs = esc p ->
  exists s', feed evs s = Ret s' /\ ready s' (l ++ p) /\ kept s s' /\ sc_escape (sc s') = false.
Proof.
  induction p as [|c p IH]; intros evs s l Hr He Hb Hl Hev.
  { apply map_eq_nil in Hev as ->. exists s. rewrite app_nil_r. split_and!; try done. }
  rewrite zlen_cons in Hl. apply Forall_cons_iff in Hb as [Hb Hbs]. rewrite esc_cons in Hev. apply map_app_inv in Hev as (a & b & -> & Ea & Eb).
  pose proof (zlen_nonneg p). rewrite feed_app. destruct (feed_esc1 c a s l Hr He Hb ltac:(lia) Ea) as (s1 & -> & R1 & K1 & E1). cbn [obind].
  destruct (IH b s1 (l ++ [c]) R1 E1 Hbs) as (s2 & -> & R2 & K2 & E2); [rewrite zlen_app; change (zlen [c]) with 1; lia|done|].
  exists s2. rewrite <- app_assoc in R2. split_and!; try done. by apply (kept_trans _ s1).
Qed.

Context (Hkmem : forall p, kmem_malloc p <> None).

Lemma MCLALLOC_ok p : exists k p', MCLALLOC kmem_malloc p = (Some k, p') /\ mp_fail p' = mp_fail p.
Proof.
  unfold MCLALLOC, m_clalloc. destruct (mclfree p) as [|k l] eqn:E.
  - pose proof (Hkmem p). destruct (kmem_malloc p) as [k|]; [|done]. eexists _, _. by split.
  - rewrite E. eexists _, _. by split.
Qed.

(** A mbuf with the bytes of a packet. *)
Record holds (m : mbuf) (l : list Z) : Prop := { ho_bytes : m_bytes m = l; ho_len : m_pktlen m = zlen l; ho_hdr : hasf (m_flags m) M_PKTHDR = true }.

Lemma sl_btom_ok l off c p : mp_fail p = [] -> sc_cl c <> None ->
  exists m k p', sl_btom kmem_malloc l off c p = (Some m, c <| sc_cl := k |>, p') /\ holds m l /\ k <> None /\ mp_fail p' = [].
Proof.
  intros Hp Hc. unfold sl_btom, m_gethdr, pool_alloc. rewrite Hp. destruct (sc_cl c) as [old|] eqn:Ec; [|done]. clear Hc. destruct (_ >=? _).
  - destruct (MCLALLOC_ok p) as (k & p' & -> & E). eexists _, _, _. split; [reflexivity|]. split_and!; [by split|done|congruence].
  - exists (mkMbuf sizeof_pkthdr l MT_DATA M_PKTHDR (zlen l) (if_unit c + 1) 0 0), (Some old), p. split; [|by split_and!]. rewrite <- Ec. by destruct c.
Qed.

(** The receiver between two packets. *)
Record idle (s : sls (Q := Q)) : Prop := {
  id_ready : ready s [];
  id_escape : sc_escape (sc s) = false;
  id_fail : mp_fail (pool s) = [];
  id_cl : sc_cl (sc s) <> None
}.

(** The packets that wait for the protocol. *)
Definition delivered (s : sls (Q := Q)) (l : list (list Z)) (s' : sls (Q := Q)) : Prop :=
  exists ms, ifq_q (ipintrq s') = ifq_q (ipintrq s) ++ map (fun m => [m]) ms /\ Forall2 holds ms l /\
    ifq_maxlen (ipintrq s') = ifq_maxlen (ipintrq s).

Lemma delivered_nil s s' : ipintrq s' = ipintrq s -> delivered s [] s'.
Proof. intros E. exists []. rewrite E, app_nil_r. by split_and!. Qed.
Lemma delivered_trans a b c x y : delivered a x b -> delivered b y c -> delivered a (x ++ y) c.
Proof.
  intros (m1 & E1 & F1 & M1) (m2 & E2 & F2 & M2). exists (m1 ++ m2). split_and!; [by rewrite E2, E1, map_app, app_assoc|by apply Forall2_app|congruence].
Qed.

(** A complete frame. *)
Lemma sl_end_ok now junk s l pkt off comp fl :
  ready s l -> 3 <= zlen l -> mp_fail (pool s) = [] -> sc_cl (sc s) <> None -> hasf fl IFF_DEBUG = false ->
  sl_frame junk l (sc s) = Ret (Some (pkt, off), (sc s) <| sc_comp := comp |> <| if_flags := fl |>) -> IF_QFULL (ipintrq s) = false ->
  exists s', sl_end kmem_malloc now junk s = Ret s' /\ idle s' /\ delivered s [pkt] s' /\ sc_comp (sc s') = comp /\ if_flags (sc s') = fl.
Proof.
  intros [H1 H2 H3 H4 H5] Hl Hp Hc Hfl Hf Hq. unfold sl_end. rewrite H4, H5. destruct (Z.ltb_spec (zlen l) 3); [lia|]. rewrite Hf. cbn [obind].
  set (c := (sc s) <| sc_comp := comp |> <| if_flags := fl |>). assert (Hc' : sc_cl c <> None) by exact Hc.
  destruct (sl_btom_ok pkt off c (pool s) Hp Hc') as (m & k & p' & -> & Hm & Hk & Hp').
  rewrite Hq. eexists. split; [reflexivity|]. split_and!; [by split| |done|done].
  exists [m]. split_and!; [done|by apply List.Forall2_cons|done].
Qed.

Lemma feed_end now junk s l pkt comp fl :
  ready s l -> 3 <= zlen l -> mp_fail (pool s) = [] -> sc_cl (sc s) <> None -> hasf fl IFF_DEBUG = false ->
  (forall c, sc_comp c = sc_comp (sc s) -> if_flags c = if_flags (sc s) ->
     exists off, sl_frame junk l c = Ret (Some (pkt, off), c <| sc_comp := comp |> <| if_flags := fl |>)) -> IF_QFULL (ipintrq s) = false ->
  exists s', input now junk FRAME_END s = Ret s' /\ idle s' /\ delivered s [pkt] s' /\ sc_comp (sc s') = comp /\ if_flags (sc s') = fl.
Proof.
  intros Hr Hl Hp Hc Hfl Hf Hq. rewrite (input_ok _ _ _ _ _ Hr) by done. unfold input_ready.
  change (FRAME_END =? FRAME_ESCAPE) with false. change (FRAME_END =? FRAME_END) with true. cbv iota zeta.
  set (c := (sc s) <| if_stat := _ |>). destruct (Hf c eq_refl eq_refl) as (off & Ef). assert (Hr' : ready (s <| sc := c |>) l) by (destruct Hr; by split).
  exact (sl_end_ok now junk (s <| sc := c |>) l pkt off comp fl Hr' Hl Hp Hc Hfl Ef Hq).
Qed.

(** An empty frame is ignored. *)
Lemma feed_empty now junk s : idle s -> exists s', input now junk FRAME_END s = Ret s' /\ idle s' /\ kept s s'.
Proof.
  intros [Hr He Hp Hc]. rewrite (input_ok _ _ _ _ _ Hr) by done. destruct Hr as [H1 H2 H3 H4 H5].
  unfold input_ready. change (FRAME_END =? FRAME_ESCAPE) with false. change (FRAME_END =? FRAME_END) with true. cbv iota zeta.
  unfold sl_end. rec_simpl. rewrite H4, H5. change (zlen (@nil Z) <? 3) with true. cbv iota. eexists. split; [reflexivity|].
  split; [|by split]. by split.
Qed.

(** A frame as slstart sends it. *)
Lemma feed_framed (P : slcompress -> Z -> Prop) i l pkt evs s :
  idle s -> Forall is_byte l -> 3 <= zlen l <= SLMAX -> IF_QFULL (ipintrq s) = false ->
  (forall junk, exists comp fl, hasf fl IFF_DEBUG = false /\ P comp fl /\
     forall c, sc_comp c = sc_comp (sc s) -> if_flags c = if_flags (sc s) ->
       exists off, sl_frame junk l c = Ret (Some (pkt, off), c <| sc_comp := comp |> <| if_flags := fl |>)) ->
  map snd evs = framed i l ->
  exists s', feed evs s = Ret s' /\ idle s' /\ delivered s [pkt] s' /\ P (sc_comp (sc s')) (if_flags (sc s')).
Proof.
  intros Hid Hb Hl Hq Hf Hev. unfold framed in Hev. apply map_app_inv in Hev as (e0 & e12 & -> & E0 & E12).
  apply map_app_inv in E12 as (e1 & e2 & -> & E1 & E2).
  assert (exists s0, feed e0 s = Ret s0 /\ idle s0 /\ kept s s0) as (s0 & F0 & I0 & K0).
  { destruct i; [|apply map_eq_nil in E0 as ->; exists s; by split_and!]. destruct e0 as [|[[n j] c] [|]]; try done. injection E0 as ->. cbn [feed].
    destruct (feed_empty n j s Hid) as (s0 & -> & H1 & H2). by exists s0. }
  rewrite !feed_app, F0. cbn [obind]. destruct I0 as [R0 X0 P0 C0]. rewrite feed_app.
  destruct (feed_esc l e1 s0 [] R0 X0 Hb ltac:(change (zlen (@nil Z)) with 0; lia) E1) as (s1 & -> & R1 & K1 & X1). cbn [obind].
  pose proof (kept_trans _ _ _ K0 K1) as [T1 T2 T3 T4 T5 T6]. destruct e2 as [|[[n j] c] [|]]; try done. injection E2 as ->. cbn [feed].
  destruct (Hf j) as (comp & fl & Hfl & HP & Hfr).
  destruct (feed_end n j s1 l pkt comp fl R1 ltac:(lia)) as (s2 & -> & I2 & D2 & Q2 & Q3).
  - destruct Hid. congruence.
  - destruct Hid. congruence.
  - done.
  - intros c E1' E2'. apply Hfr; congruence.
  - by rewrite T3.
  - cbn [obind]. exists s2. rewrite Q2, Q3. split_and!; try done. unfold delivered in *. by rewrite <- T3.
Qed.

End Receiver.

(** ** Packets on the line *)

(** sl_compress_tcp is not called, or leaves the packet alone. *)
Definition passed (flags : Z) (m0 : mbuf) : bool :=
  let l := m_bytes m0 in
  negb (gb l 9 =? IPPROTO_TCP) || negb (hasf flags SC_COMPRESS) || negb (Z.land (r16 l 6) 16383 =? 0) || (m_len m0 <? 40) ||
  ((th_at l + 20 <=? m_len m0) && negb (Z.land (th_flags l) (TH_SYN + TH_FIN + TH_RST + TH_ACK) =? TH_ACK)).

(** A packet that the interface can send: an IP packet that is passed on as it is, or a TCP
    packet whose headers are in the first mbuf. *)
Inductive sendable (flags : Z) (comp : slcompress) : chain -> Prop :=
| send_plain m0 ms : Z.land (gb (m_bytes m0) 0) 240 = 64 -> passed flags m0 = true -> sendable flags comp (m0 :: ms)
| send_tcp m0 ms w d : hasf flags SC_COMPRESS = true -> m_bytes m0 = enc w ++ d -> packet_of w (d ++ chain_bytes ms) ->
    forallb (urg_safe (m_bytes m0)) (tstate comp) = true -> sendable flags comp (m0 :: ms).

Definition fits (m : chain) : Prop := Forall is_byte (chain_bytes m) /\ 3 <= chain_len m <= SLMTU.

Lemma lor_version b : Z.land b 240 = 64 -> Z.lor b 64 = b.
Proof. intros <-. apply Z.bits_inj'. intros n _. rewrite Z.lor_spec, Z.land_spec. by destruct (Z.testbit b n), (Z.testbit 240 n). Qed.

Lemma put_same l : l <> [] -> put l 0 [gb l 0] = l.
Proof. by destruct l. Qed.

Lemma tag_plain flags m0 ms comp : Z.land (gb (m_bytes m0) 0) 240 = 64 -> passed flags m0 = true -> sl_tag flags (m0 :: ms) comp = Ret (m0 :: ms, comp).
Proof.
  intros Hv Hp. unfold sl_tag, passed, sl_compress_tcp in *. destruct (gb (m_bytes m0) 9 =? IPPROTO_TCP); [|done]. cbn [negb orb andb] in Hp |- *.
  destruct (hasf flags SC_COMPRESS); [|done]. cbn [negb orb] in Hp.
  assert (Eq : m0 <| m_bytes := put (m_bytes m0) 0 [Z.lor (gb (m_bytes m0) 0) TYPE_IP] |> = m0).
  { change TYPE_IP with 64. rewrite lor_version, put_same by done || (intros E; by rewrite E in Hv). by destruct m0. }
  destruct (negb (Z.land _ _ =? 0)); cbn [orb obind] in *; [by rewrite Eq|]. destruct (m_len m0 <? 40); cbn [orb obind] in *; [by rewrite Eq|].
  apply andb_prop in Hp as [H1 H2]. rewrite H2. destruct (Z.ltb_spec (m_len m0) (th_at (m_bytes m0) + 20)); [lia|]. cbn [obind]. by rewrite Eq.
Qed.

Lemma version_byte x : 64 <= x < 80 -> Z.land (Z.lor x TYPE_UNCOMPRESSED_TCP) 240 = TYPE_UNCOMPRESSED_TCP /\
  Z.land (Z.lor x TYPE_UNCOMPRESSED_TCP) 79 = x.
Proof.
  intros Hx. assert (Hall : forallb (fun x => (Z.land (Z.lor x 112) 240 =? 112) && (Z.land (Z.lor x 112) 79 =? x)) (seqZ 64 16) = true) by done.
  rewrite forallb_forall in Hall. specialize (Hall x ltac:(apply list_elem_of_In, elem_of_seqZ; lia)).
  apply andb_prop in Hall as [H1 H2]. split; by apply Z.eqb_eq.
Qed.

Lemma lor112 x : 64 <= x < 80 -> is_byte (Z.lor x TYPE_UNCOMPRESSED_TCP).
Proof.
  intros Hx. assert (Hall : forallb (fun x => (0 <=? Z.lor x 112) && (Z.lor x 112 <? 256)) (seqZ 64 16) = true) by done.
  rewrite forallb_forall in Hall. specialize (Hall x ltac:(apply list_elem_of_In, elem_of_seqZ; lia)). unfold is_byte, TYPE_UNCOMPRESSED_TCP. lia.
Qed.
Lemma lor128 x : 0 <= x < 128 -> is_byte (Z.lor x TYPE_COMPRESSED_TCP).
Proof.
  intros Hx. assert (Hall : forallb (fun x => (0 <=? Z.lor x 128) && (Z.lor x 128 <? 256)) (seqZ 0 128) = true) by done.
  rewrite forallb_forall in Hall. specialize (Hall x ltac:(apply list_elem_of_In, elem_of_seqZ; lia)). unfold is_byte, TYPE_COMPRESSED_TCP. lia.
Qed.

Lemma compressed_byte x : Z.land (Z.lor x TYPE_COMPRESSED_TCP) 240 <> 64 /\ hasf (Z.land (Z.lor x TYPE_COMPRESSED_TCP) 240) 128 = true.
Proof.
  assert (E : hasf (Z.land (Z.lor x TYPE_COMPRESSED_TCP) 240) 128 = true).
  { unfold hasf. rewrite <- Z.land_assoc. change (Z.land 240 128) with 128. change (hasf (setb x 128) 128 = true). by rewrite hasf_setb, orb_true_r. }
  split; [|done]. intros E'. by rewrite E' in E.
Qed.

(** The receiver decompresses, or will with the first packet that it gets. *)
Definition mode (fl : Z) (tx : slcompress) : Prop := hasf fl SC_COMPRESS = true \/ (hasf fl SC_AUTOCOMP = true /\ fresh tx).
Definition compress_on (fl : Z) : Z := if hasf fl SC_COMPRESS then fl else setb fl SC_COMPRESS.

Lemma compress_on_ok fl tx : mode (compress_on fl) tx /\ (hasf fl IFF_DEBUG = false -> hasf (compress_on fl) IFF_DEBUG = false).
Proof.
  unfold compress_on, mode. destruct (hasf fl SC_COMPRESS) eqn:E; [by split; [left|]|]. split; [left|intros Hd]; rewrite hasf_setb.
  - by rewrite orb_true_r.
  - by rewrite Hd.
Qed.

(** The receiver turns the bytes of sl_tag into what sl_uncompress_tcp gets. *)
Lemma frame_tcp type l l' rest tx rx' pkt junk c :
  wire type l l' -> mode (if_flags c) tx -> (fresh tx -> type = TYPE_UNCOMPRESSED_TCP) -> 0 < zlen pkt ->
  sl_uncompress_tcp (tagged true type (l' ++ rest) ++ junk) (zlen (l' ++ rest)) type (sc_comp c) = Ret (Some pkt, rx') ->
  exists off, sl_frame junk (put l' 0 [Z.lor (gb l' 0) type] ++ rest) c =
    Ret (Some (pkt, off), c <| sc_comp := rx' |> <| if_flags := compress_on (if_flags c) |>).
Proof.
  intros [Ht [Hl _] _] Hm Hfr Hpkt Hun. pose proof (zlen_nonneg rest).
  assert (E0 : forall b, put l' 0 [b] ++ rest = b :: zdrop 1 (l' ++ rest)) by (intros b; rewrite put_front, zdrop_app_le by (change (zlen [b]) with 1; lia); done).
  assert (Ez : forall b, zlen (b :: zdrop 1 (l' ++ rest)) = zlen (l' ++ rest)) by (intros b; rewrite zlen_cons, zlen_zdrop, zlen_app by lia; lia).
  assert (Eg : gb (l' ++ rest) 0 = gb l' 0) by (apply gb_app_lt; lia). unfold sl_frame. rewrite E0.
  change (gb (?b :: _) 0) with b. change (Z.shiftl IPVERSION 4) with 64.
  assert (Hp0 : (zlen pkt <=? 0) = false) by (apply Z.leb_gt; lia).
  assert (Hon : forall len t, (t = TYPE_UNCOMPRESSED_TCP /\ 40 <= len) \/ (t = TYPE_COMPRESSED_TCP /\ hasf (if_flags c) SC_COMPRESS = true) ->
    hasf (if_flags c) SC_COMPRESS || (hasf (if_flags c) SC_AUTOCOMP && (t =? TYPE_UNCOMPRESSED_TCP) && (len >=? 40)) = true).
  { intros len t [[-> Hlen]|[-> ->]]; [|done]. destruct Hm as [->|[-> _]]; [done|]. rewrite Z.eqb_refl, Z.geb_leb, (proj2 (Z.leb_le _ _)) by lia. apply orb_true_r. }
  unfold compress_on. destruct Ht as [(-> & Hb & H40)|(-> & Hb)].
  - destruct (version_byte _ Hb) as [V1 V2]. rewrite V1. change (TYPE_UNCOMPRESSED_TCP =? 64) with false.
    change (hasf TYPE_UNCOMPRESSED_TCP 128) with false. rewrite Z.eqb_refl. cbv iota zeta. rewrite V2, put_front.
    change ([gb l' 0] ++ zdrop (zlen [gb l' 0]) (?x :: ?y)) with (gb l' 0 :: y). rewrite Ez, Hon by (left; rewrite zlen_app; split; [done|lia]).
    replace (gb l' 0 :: zdrop 1 (l' ++ rest)) with (tagged true TYPE_UNCOMPRESSED_TCP (l' ++ rest)).
    + rewrite Hun. cbn [obind]. rewrite Hp0. eexists. by destruct (hasf _ _), c.
    + unfold tagged. cbn [andb]. rewrite <- Eg. change (TYPE_UNCOMPRESSED_TCP =? TYPE_COMPRESSED_TCP) with false. cbv iota.
      rewrite <- (put_same (l' ++ rest)) at 1; [done|]. intros E. rewrite E in Eg. change (0 = gb l' 0) in Eg. lia.
  - destruct (compressed_byte (gb l' 0)) as [V1 V2]. rewrite (proj2 (Z.eqb_neq _ _) V1), V2. cbv iota zeta.
    destruct (hasf (if_flags c) SC_COMPRESS) eqn:Eon; [|destruct Hm as [Hm|[_ Hm]]; [congruence|by specialize (Hfr Hm)]].
    cbn [orb]. rewrite Ez. unfold tagged in Hun. rewrite Z.eqb_refl, Eg in Hun. cbn [andb] in Hun. rewrite Hun. cbn [obind]. rewrite Hp0. eexists. by destruct c.
Qed.

(** ** One packet *)

Section Link.
Context {Q : Type} `{ClistLaws Q} (kmem_malloc : mpool -> option Z) (ttywflush : tty (Q := Q) -> tty (Q := Q)).
Context (Hkmem : forall p, kmem_malloc p <> None).
#[local] Abbreviation feed := (feed kmem_malloc ttywflush).

(** The receiver [r] has got everything that a sender with state [comp] sent. *)
Record in_step (comp : slcompress) (r : sls (Q := Q)) : Prop := {
  is_idle : idle r;
  is_sync : sync comp (sc_comp (sc r));
  is_mode : mode (if_flags (sc r)) comp
}.

Lemma plain_ok flags comp r m0 ms :
  in_step comp r -> fits (m0 :: ms) -> Z.land (gb (m_bytes m0) 0) 240 = 64 -> passed flags m0 = true -> IF_QFULL (ipintrq r) = false ->
  forall i evs, map snd evs = framed i (chain_bytes (m0 :: ms)) ->
  exists r', feed evs r = Ret r' /\ in_step comp r' /\ delivered r [chain_bytes (m0 :: ms)] r'.
Proof.
  intros [Hi Hs Hm] [Hb Hl] Hv Hp Hq i evs Hev. pose proof Hi as [[_ _ Hd _ _] _ _ _]. unfold chain_len, SLMTU in Hl.
  destruct (feed_framed kmem_malloc ttywflush Hkmem (fun c f => c = sc_comp (sc r) /\ f = if_flags (sc r)) i (chain_bytes (m0 :: ms)) (chain_bytes (m0 :: ms)) evs r)
    as (r' & -> & I & D & E1 & E2); try done.
  - unfold SLMAX, MCLBYTES, BUFOFFSET. lia.
  - intros junk. exists (sc_comp (sc r)), (if_flags (sc r)). split_and!; try done. intros c Ec Ef. exists BUFOFFSET. unfold sl_frame.
    replace (gb (chain_bytes (m0 :: ms)) 0) with (gb (m_bytes m0) 0).
    + rewrite Hv. change (64 =? Z.shiftl IPVERSION 4) with true. cbv iota. rewrite <- Ec, <- Ef. by destruct c.
    + change (chain_bytes (m0 :: ms)) with (m_bytes m0 ++ chain_bytes ms). rewrite gb_app_lt; [done|]. destruct (m_bytes m0); [done|]. rewrite zlen_cons.
      pose proof (zlen_nonneg l). lia.
  - exists r'. split_and!; try done. by rewrite <- E1 in Hs; rewrite <- E2 in Hm.
Qed.

Definition tag_of (type : Z) (m1 : mbuf) : mbuf := m1 <| m_bytes := put (m_bytes m1) 0 [Z.lor (gb (m_bytes m1) 0) type] |>.

Lemma tag_tcp flags m0 ms comp w d type m1 comp' :
  hasf flags SC_COMPRESS = true -> m_bytes m0 = enc w ++ d -> packet_of w (d ++ chain_bytes ms) -> sl_compress_tcp m0 comp true = Ret (type, m1, comp') ->
  sl_tag flags (m0 :: ms) comp = Ret (tag_of type m1 :: ms, comp').
Proof.
  intros Hc Em Hp Ec. unfold sl_tag. rewrite Em. destruct (read_ip w d (pv_wf _ _ Hp)) as (_ & _ & _ & _ & _ & ->).
  rewrite (pv_p _ _ Hp), Z.eqb_refl, Hc. cbn [andb]. by rewrite Ec.
Qed.

Lemma tag_len type l m1 : wire type l (m_bytes m1) -> zlen (m_bytes (tag_of type m1)) = zlen (m_bytes m1).
Proof.
  intros [_ Hl _]. unfold tag_of. rec_simpl. rewrite put_front, zlen_app. change (zlen [_]) with 1. rewrite zlen_zdrop by lia. lia.
Qed.

(** The sender is in step with some receiver. *)
Definition sound (comp : slcompress) : Prop := exists rx, sync comp rx.

Lemma tag_ok flags comp m : sound comp -> sendable flags comp m -> fits m ->
  exists m' comp', sl_tag flags m comp = Ret (m', comp') /\ chain_len m' <= SLMTU /\ sound comp'.
Proof.
  intros [rx Hs] Hsend [Hb Hl]. destruct Hsend as [m0 ms Hv Hp|m0 ms w d Hc Em Hp Hsafe].
  - exists (m0 :: ms), comp. split_and!; [by apply tag_plain|lia|by exists rx].
  - destruct (packet_carried comp rx m0 true w d (chain_bytes ms) Hs Hp Em Hsafe) as (type & m1 & comp' & Ec & Hw & _ & Hun).
    exists (tag_of type m1 :: ms), comp'. split_and!; [by apply (tag_tcp _ _ _ _ w d)| |destruct (Hun true []) as (rx' & ? & _); by exists rx'].
    pose proof (tag_len _ _ _ Hw). destruct Hw as [_ Hwl _]. revert Hl. unfold chain_len.
    change (chain_bytes (?a :: ms)) with (m_bytes a ++ chain_bytes ms). rewrite !zlen_app. lia.
Qed.

Lemma tcp_ok flags comp r m0 ms w d :
  in_step comp r -> fits (m0 :: ms) -> hasf flags SC_COMPRESS = true -> m_bytes m0 = enc w ++ d -> packet_of w (d ++ chain_bytes ms) ->
  forallb (urg_safe (m_bytes m0)) (tstate comp) = true -> IF_QFULL (ipintrq r) = false ->
  forall m' comp', sl_tag flags (m0 :: ms) comp = Ret (m', comp') ->
  forall i evs, map snd evs = framed i (chain_bytes m') ->
  exists r', feed evs r = Ret r' /\ in_step comp' r' /\ delivered r [chain_bytes (m0 :: ms)] r'.
Proof.
  intros [Hi Hs Hm] [Hb Hl] Hc Em Hp Hsafe Hq. pose proof Hi as [[_ _ Hd _ _] _ _ _]. unfold chain_len, SLMTU in Hl.
  change (chain_bytes (m0 :: ms)) with (m_bytes m0 ++ chain_bytes ms) in *. apply Forall_app in Hb as [Hb0 Hbs]. rewrite zlen_app in Hl.
  destruct (packet_carried comp (sc_comp (sc r)) m0 true w d (chain_bytes ms) Hs Hp Em Hsafe) as (type & m1 & comp' & Ec & Hw & Hfr & Hun).
  pose proof Hw as [Hty Hwl _ Hwb]. pose proof (tag_len _ _ _ Hw) as El. intros m'' comp'' Et. rewrite (tag_tcp _ _ _ _ _ _ _ _ _ Hc Em Hp Ec) in Et.
  injection Et as <- <-. change (chain_bytes (tag_of type m1 :: ms)) with (m_bytes (tag_of type m1) ++ chain_bytes ms).
  set (l' := m_bytes (tag_of type m1)) in *.
  intros i evs Hev. pose proof (zlen_nonneg (chain_bytes ms)).
  destruct (feed_framed kmem_malloc ttywflush Hkmem (fun c f => sync comp' c /\ mode f comp') i (l' ++ chain_bytes ms) (m_bytes m0 ++ chain_bytes ms) evs r)
    as (r' & -> & I & D & E1 & E2); try done.
  - apply Forall_app. split; [|done]. specialize (Hwb Hb0). apply put_bytes; [done|]. constructor; [|constructor].
    destruct Hty as [(-> & Hg & _)|(-> & Hg)]; [by apply lor112|by apply lor128].
  - rewrite zlen_app, El. unfold SLMAX, MCLBYTES, BUFOFFSET. lia.
  - intros junk. destruct (Hun true junk) as (rx' & Hs' & E). exists rx', (compress_on (if_flags (sc r))).
    destruct (compress_on_ok (if_flags (sc r)) comp') as [M1 M2]. split_and!; [by apply M2|done|done|]. intros c Ecc Ef. rewrite <- Ef. rewrite Em, <- app_assoc.
    apply (frame_tcp type (m_bytes m0) (m_bytes m1) (chain_bytes ms) comp); [done|by rewrite Ef|done| |by rewrite Ecc].
    rewrite app_assoc, <- Em, zlen_app. lia.
  - by exists r'.
Qed.

Lemma packet_ok flags comp r m m' comp' :
  in_step comp r -> sendable flags comp m -> fits m -> IF_QFULL (ipintrq r) = false -> sl_tag flags m comp = Ret (m', comp') ->
  forall i evs, map snd evs = framed i (chain_bytes m') ->
  exists r', feed evs r = Ret r' /\ in_step comp' r' /\ delivered r [chain_bytes m] r'.
Proof.
  intros Hst Hsend Hf Hq Et i evs Hev. destruct Hsend as [m0 ms Hv Hp|m0 ms w d Hc Em Hp Hsafe].
  - rewrite tag_plain in Et by done. injection Et as <- <-. by apply (plain_ok flags comp r m0 ms Hst Hf Hv Hp Hq i).
  - by apply (tcp_ok flags comp r m0 ms w d Hst Hf Hc Em Hp Hsafe Hq m' comp' Et i).
Qed.

(** ** slstart *)

Definition queue (c : sl_softc) : list chain := ifq_q (sc_fastq c) ++ ifq_q (if_snd c).
(** Everything that was given to the terminal. *)
Definition stream (s : sls (Q := Q)) : list Z := t_sent (tp s) ++ q_bytes (t_outq (tp s)).

(** Packets that can be sent one after the other. *)
Fixpoint sendable_all (flags : Z) (comp : slcompress) (l : list chain) : Prop :=
  match l with
  | [] => True
  | m :: l => sendable flags comp m /\ fits m /\ forall m' comp', sl_tag flags m comp = Ret (m', comp') -> sendable_all flags comp' l
  end.

Lemma sl_dequeue_ok c : match queue c with
  | [] => (sl_dequeue c).1 = None
  | m :: l => exists c', sl_dequeue c = (Some m, c') /\ queue c' = l /\ sc_comp c' = sc_comp c /\ if_flags c' = if_flags c
  end.
Proof.
  unfold queue, sl_dequeue, IF_DEQUEUE. destruct (ifq_q (sc_fastq c)) as [|m l] eqn:E1; cbn [app].
  - destruct (ifq_q (if_snd c)) as [|m l] eqn:E2; [done|]. eexists. split; [reflexivity|]. rec_simpl. by rewrite E1.
  - eexists. split; [reflexivity|]. by rec_simpl.
Qed.

(** The result of sending the packets [done]: what the line carries, and what a receiver makes
    of it. *)
Record carries (s s' : sls (Q := Q)) (done : list chain) : Prop := {
  ca_queue : queue (sc s) = done ++ queue (sc s');
  ca_rest : queue (sc s') = [] \/ SLIP_HIWAT < c_cc (t_outq (tp s'));
  ca_up : t_sc (tp s') <> None;
  ca_flags : if_flags (sc s') = if_flags (sc s);
  ca_sendable : sendable_all (if_flags (sc s')) (sc_comp (sc s')) (queue (sc s'));
  ca_line : exists new, stream s' = stream s ++ new /\
    forall r evs, in_step (sc_comp (sc s)) r -> zlen (ifq_q (ipintrq r)) + zlen (queue (sc s)) <= ifq_maxlen (ipintrq r) -> map snd evs = new ->
    exists r', feed evs r = Ret r' /\ in_step (sc_comp (sc s')) r' /\ delivered r (map chain_bytes done) r'
}.

Context (Hres : forall q : Q, c_cc q <= SLIP_HIWAT -> CLISTRESERVE + SLMTU <= cfreecount q).

(** The loop stops. *)
Lemma carries_stop s s' : queue (sc s') = queue (sc s) -> sc_comp (sc s') = sc_comp (sc s) -> if_flags (sc s') = if_flags (sc s) -> stream s' = stream s ->
  t_sc (tp s') <> None -> (queue (sc s') = [] \/ SLIP_HIWAT < c_cc (t_outq (tp s'))) ->
  sendable_all (if_flags (sc s)) (sc_comp (sc s)) (queue (sc s)) -> carries s s' [].
Proof.
  intros E1 E2 E3 E4 Hup Hrest Hs. split; rewrite ?E1, ?E2, ?E3; try done; [by rewrite <- E1|]. exists []. rewrite app_nil_r. split; [done|].
  intros r evs Hst _ Hev. apply map_eq_nil in Hev as ->. exists r. split_and!; [done|done|by apply delivered_nil].
Qed.

(** One packet, then others. *)
Lemma carries_step s s1 s2 m rest m' comp' done :
  queue (sc s) = m :: rest -> sendable (if_flags (sc s)) (sc_comp (sc s)) m -> fits m ->
  sl_tag (if_flags (sc s)) m (sc_comp (sc s)) = Ret (m', comp') -> queue (sc s1) = rest -> sc_comp (sc s1) = comp' -> if_flags (sc s1) = if_flags (sc s) ->
  (exists i, stream s1 = stream s ++ framed i (chain_bytes m')) -> carries s1 s2 done -> carries s s2 (m :: done).
Proof.
  intros Eq Hsend Hf Et Eq1 Ec1 Ef1 [i Ei] [C1 C2 C3 C4 C5 (new & Enew & Hnew)]. split; try done.
  - rewrite Eq, <- Eq1, C1. done.
  - congruence.
  - exists (framed i (chain_bytes m') ++ new). split; [by rewrite Enew, Ei, app_assoc|]. intros r evs Hst Hroom Hev.
    apply map_app_inv in Hev as (e1 & e2 & -> & E1 & E2). rewrite Eq, zlen_cons in Hroom. pose proof (zlen_nonneg rest).
    assert (Hq : IF_QFULL (ipintrq r) = false) by (unfold IF_QFULL; rewrite Z.geb_leb; apply Z.leb_gt; lia).
    destruct (packet_ok _ _ r m m' comp' Hst Hsend Hf Hq Et i e1 E1) as (r1 & F1 & S1 & D1).
    assert (Hroom1 : zlen (ifq_q (ipintrq r1)) + zlen (queue (sc s1)) <= ifq_maxlen (ipintrq r1)).
    { destruct D1 as (ms & -> & F & ->). rewrite Eq1, zlen_app. apply Forall2_length in F. unfold zlen at 2. rewrite length_map, F. cbn [length]. lia. }
    rewrite <- Ec1 in S1. destruct (Hnew r1 e2 S1 Hroom1 E2) as (r2 & F2 & S2 & D2). exists r2. rewrite feed_app, F1. cbn [obind].
    split_and!; [done|done|]. exact (delivered_trans _ _ _ [_] _ D1 D2).
Qed.

Lemma slstart_ok : forall fuel now s, (length (queue (sc s)) < fuel)%nat -> sound (sc_comp (sc s)) -> t_sc (tp s) <> None ->
  sendable_all (if_flags (sc s)) (sc_comp (sc s)) (queue (sc s)) -> exists s' done, slstart fuel now s = Ret s' /\ carries s s' done.
Proof.
  induction fuel as [|fuel IH]; intros now s Hfuel Hsound Hup Hs; [lia|]. cbn [slstart].
  assert (exists s0 full, (if negb (c_cc (t_outq (tp s)) =? 0)
    then let '(out, q) := t_oproc (t_outq (tp s)) in
         (s <| tp := (tp s) <| t_outq := q |> <| t_sent := t_sent (tp s) ++ out |> |>, c_cc q >? SLIP_HIWAT) else (s, false)) = (s0, full) /\
    sc s0 = sc s /\ stream s0 = stream s /\ t_sc (tp s0) = t_sc (tp s) /\
    (full = true -> SLIP_HIWAT < c_cc (t_outq (tp s0))) /\ (full = false -> c_cc (t_outq (tp s0)) <= SLIP_HIWAT)) as (s0 & full & -> & E1 & E2 & E3 & E4 & E5).
  { destruct (Z.eqb_spec (c_cc (t_outq (tp s))) 0) as [Ez|Ez]; cbn [negb].
    - exists s, false. rewrite Ez. split_and!; done.
    - pose proof (oproc_front (t_outq (tp s))) as Ho. destruct (t_oproc (t_outq (tp s))) as [out q]. cbn [fst snd] in Ho. eexists _, _. split; [reflexivity|].
      rec_simpl. unfold stream. rec_simpl. rewrite <- app_assoc, Ho. split_and!; try done; intros F; [apply Z.gtb_lt in F|rewrite Z.gtb_ltb, Z.ltb_ge in F]; lia. }
  rewrite E3. destruct full.
  { exists s0, []. split; [done|]. apply carries_stop; rewrite ?E1, ?E3; auto. }
  destruct (t_sc (tp s)) as [u|] eqn:Esc; [|done]. pose proof (sl_dequeue_ok (sc s0)) as Hdq. rewrite E1 in Hdq |- *.
  destruct (queue (sc s)) as [|m rest] eqn:Eq.
  { destruct (sl_dequeue (sc s)) as [m c]. cbn [fst] in Hdq. subst m. exists s0, []. split; [done|]. apply carries_stop; rewrite ?E1, ?E3, ?Eq; auto. }
  destruct Hdq as (c' & -> & Eq' & Ec' & Ef'). destruct Hs as (Hsend & Hf & Hs). destruct (tag_ok _ _ m Hsound Hsend Hf) as (m' & comp' & Et & Hlen & Hsound').
  specialize (E5 eq_refl). destruct (sl_send_ok now m (s0 <| sc := c' |>) m' comp') as (s1 & -> & Hse).
  { rec_simpl. by rewrite Ec', Ef'. }
  { done. }
  { by apply Hres. }
  cbn [obind]. destruct Hse as [X1 X2 X3 X4 X5 X6 X7]. change (tp (s0 <| sc := c' |>)) with (tp s0) in *. change (sc (s0 <| sc := c' |>)) with c' in *.
  assert (Eq1 : queue (sc s1) = rest) by (unfold queue in *; by rewrite X6, X7). rewrite Ef' in X5.
  destruct (IH now s1) as (s2 & done & -> & Hca).
  { rewrite Eq1. cbn in Hfuel. lia. }
  { by rewrite X4. }
  { rewrite X3, E3. done. }
  { rewrite X5, X4, Eq1. by apply (Hs m'). }
  exists s2, (m :: done). split; [done|]. apply (carries_step s s1 s2 m rest m' comp'); try done.
  eexists. rewrite <- E2. unfold stream. rewrite X2, X1, app_assoc. reflexivity.
Qed.

(** C25: the serial line from end to end.  A call of slstart takes packets from the queues, the
    fast queue first, until they are empty or more than SLIP_HIWAT characters wait; a receiver
    in step with the sender, to which the new characters come one by one at any times,
    appends exactly these packets, byte for byte and in this order, to the input queue of IP
    and is in step again.  TCP headers are compressed on the way; a receiver with
    SC_AUTOCOMP turns compression on by itself.  The queued packets must be ones that the line can
    carry ([sendable_all]): they fit SLMTU, and a TCP packet that is compressed is no fragment, has
    a correct IP header checksum, its headers in the first mbuf and no reserved flag bits, and
    does not turn URG off where the previous packet of its connection ended, which would be
    rebuilt with URG set.  The character lists are assumed to keep the reserve that
    slstart tests for while at most SLIP_HIWAT characters are queued; the receiver has free
    mbufs and room for the packets in the input queue of IP. *)
Theorem slip_end_to_end fuel now s r :
  (length (queue (sc s)) < fuel)%nat -> t_sc (tp s) <> None -> in_step (sc_comp (sc s)) r ->
  sendable_all (if_flags (sc s)) (sc_comp (sc s)) (queue (sc s)) ->
  zlen (ifq_q (ipintrq r)) + zlen (queue (sc s)) <= ifq_maxlen (ipintrq r) ->
  exists s' done new, slstart fuel now s = Ret s' /\ stream s' = stream s ++ new /\ queue (sc s) = done ++ queue (sc s') /\
    (queue (sc s') = [] \/ SLIP_HIWAT < c_cc (t_outq (tp s'))) /\
    sendable_all (if_flags (sc s')) (sc_comp (sc s')) (queue (sc s')) /\
    forall evs, map snd evs = new -> exists r', feed evs r = Ret r' /\ in_step (sc_comp (sc s')) r' /\ delivered r (map chain_bytes done) r'.
Proof.
  intros Hf Hup Hst Hs Hroom. assert (Hsound : sound (sc_comp (sc s))) by (eexists; apply Hst).
  destruct (slstart_ok fuel now s Hf Hsound Hup Hs) as (s' & done & E & [C1 C2 C3 C4 C5 (new & Enew & Hnew)]).
  exists s', done, new. split_and!; try done. intros evs Hev. by apply Hnew.
Qed.

End Link.

(** ** A line with a bounded character list *)

Definition clist_size : Z := 2000.
#[global] Instance bounded_clist : Clist (list Z) := {|
  q_bytes q := q;
  cfreecount q := clist_size - zlen q;
  putc c q := if zlen q <? clist_size then (0, q ++ [c]) else (-1, q);
  b_to_q l q := let n := Z.min (zlen l) (clist_size - zlen q) in (zlen l - n, q ++ ztake n l);
  unputc q := removelast q;
  t_oproc q := (ztake 40 q, zdrop 40 q)
|}.
#[global] Instance bounded_laws : ClistLaws (list Z).
Proof.
  refine {| q_room := fun q : list Z => clist_size - zlen q |}.
  - intros c q Hr. exists (q ++ [c]). unfold putc, bounded_clist. rewrite (proj2 (Z.ltb_lt _ _)) by lia. split_and!; [done|done|]. rewrite zlen_app. change (zlen [c]) with 1. lia.
  - intros l q Hr. exists (q ++ l). unfold b_to_q, bounded_clist. rewrite Z.min_l by lia. rewrite Z.sub_diag, ztake_ge by lia. split_and!; [done|done|]. rewrite zlen_app. lia.
  - done.
  - intros q. apply ztake_zdrop.
Qed.

Definition sample_p1 : chain := [sample_mbuf (sample_hdr 7 1000 500 4096 false 3) [192; 219; 65]].
Definition sample_p2 : chain := [sample_mbuf (sample_hdr 8 1003 700 4000 false 2) [219; 192]].
Definition sample_unit (flags : Z) : sl_softc :=
  mkSc 0 SLMTU 0 flags (mkIfq [sample_p1; sample_p2] 50 0) (mkIfd 0 0 0 0 0 0 0 0 0 0 0) (mkIfq [] 32 0) (Some 0) [] (Some 3) 0 false 0 0 0 sl_compress_init.
Definition sample_line (flags : Z) (sending : bool) : sls (Q := list Z) :=
  mkSls (if sending then sample_unit flags else (sample_unit flags) <| if_snd := mkIfq [] 50 0 |>) (mkTty [] TS_CARR_ON 0 SLIPDISC 0 (Some 0) [])
    (mkPool (fun _ => 0) [] []) (mkIfq [] 50 0) false.

Lemma slip_end_to_end_witness :
  exists s' done new, slstart 3 0 (sample_line (setb IFF_UP SC_COMPRESS) true) = Ret s' /\
    stream s' = stream (sample_line (setb IFF_UP SC_COMPRESS) true) ++ new /\ [sample_p1; sample_p2] = done ++ queue (sc s') /\
    (queue (sc s') = [] \/ SLIP_HIWAT < c_cc (t_outq (tp s'))) /\
    sendable_all (if_flags (sc s')) (sc_comp (sc s')) (queue (sc s')) /\
    forall evs, map snd evs = new -> exists r', feed (fun _ => Some 10) (fun t => t) evs (sample_line SC_AUTOCOMP false) = Ret r' /\
      in_step (sc_comp (sc s')) r' /\ delivered (sample_line SC_AUTOCOMP false) (map chain_bytes done) r'.
Proof.
  apply (slip_end_to_end (fun _ => Some 10) (fun t => t)).
  - done.
  - intros q Hq. unfold c_cc, q_bytes, cfreecount, bounded_clist in *. unfold clist_size, CLISTRESERVE, SLMTU, SLIP_HIWAT in *. lia.
  - cbn. lia.
  - done.
  - split; [|exact sync_init|].
    + split; done.
    + right. split; [done|]. intros i t Hi. cbn [sc_comp sample_line sample_unit sc tstate sl_compress_init] in Hi.
      apply list_elem_of_lookup_2, list_elem_of_fmap in Hi as (k & -> & _). done.
  - split_and!.
    + apply (send_tcp _ _ _ _ (sample_hdr 7 1000 500 4096 false 3) [192; 219; 65]); [done|done|by apply (sample_packet 7 1000 500 4096 false [192; 219; 65])|by vm_compute].
    + split; [|vm_compute; intuition congruence]. vm_compute. repeat constructor; congruence.
    + intros m' comp' E. vm_compute in E. injection E as <- <-. split_and!; [|split; [|vm_compute; intuition congruence]|done].
      * apply (send_tcp _ _ _ _ (sample_hdr 8 1003 700 4000 false 2) [219; 192]); [done|done|by apply (sample_packet 8 1003 700 4000 false [219; 192])|by vm_compute].
      * vm_compute. repeat constructor; congruence.
  - done.
Defined.

End SlipOk.
