(* ===== verification/SoCall.v ===== *)
(** The socket layer (src/sys/kern/uipc_socket.c; uiomove of kern_subr.c; the lock of a
    socket buffer in socketvar.h and uipc_socket2.c).

    A protocol is an instance of [Proto]: its switch entry, the way to the socket in its
    state, its user request routine, and what happens while a process sleeps.  A routine runs
    without interruption from one sleep to the next.  [nam] is a socket address, [None] for a
    null pointer; rights (SCM_RIGHTS) are not passed by the Internet protocols. *)
From S2P Require Import Prelude Mbuf SockBuf Socket.
Import Mbuf SockBuf Socket.

Module SoCall.

Definition PR_ATOMIC : Z := 1.
Definition PR_ADDR : Z := 2.
Definition PR_CONNREQUIRED : Z := 4.
Definition PR_WANTRCVD : Z := 8.
Definition MSG_OOB : Z := 1.
Definition MSG_PEEK : Z := 2.
Definition MSG_DONTROUTE : Z := 4.
Definition MSG_EOR : Z := 8.
Definition MSG_TRUNC : Z := 16.
Definition MSG_WAITALL : Z := 64.
Definition MSG_DONTWAIT : Z := 128.
Definition SS_NBIO : Z := 256.
Definition MT_SONAME : Z := 8.
Definition MINCLSIZE : Z := MHLEN + MLEN.
Definition SOMAXCONN : Z := 5.
Definition EINVAL : Z := 22.
Definition EFAULT : Z := 14.
Definition EPIPE : Z := 32.
Definition EWOULDBLOCK : Z := 35.
Definition EALREADY : Z := 37.
Definition EDESTADDRREQ : Z := 39.
Definition EMSGSIZE : Z := 40.
Definition EOPNOTSUPP : Z := 45.
Definition EISCONN : Z := 56.
Definition ENOTCONN : Z := 57.

(** ** Protocols *)

Inductive request :=
| PRU_BIND (nam : option (Z * Z))
| PRU_LISTEN
| PRU_CONNECT (nam : option (Z * Z))
| PRU_DISCONNECT
| PRU_SHUTDOWN
| PRU_ACCEPT
| PRU_RCVD (flags : Z)
| PRU_SEND (m : chain) (nam : option (Z * Z)) (control : chain)
| PRU_SENDOOB (m : chain) (nam : option (Z * Z)) (control : chain)
| PRU_ABORT
| PRU_DETACH.

(** [p_rcvoob] is PRU_RCVOOB, which fills an mbuf. *)
Class Proto (T : Type) := {
  pr_flags : Z;
  p_so : T -> socket;
  p_setso : socket -> T -> T;
  p_pool : T -> mpool;
  p_setpool : mpool -> T -> T;
  p_pcb : T -> bool;
  pr_usrreq : request -> T -> outcome (Z * T);
  p_rcvoob : bool -> T -> outcome (Z * list Z * T);
  tsleep : T -> Z * T
}.

(** ** User memory *)

(** A uio: the rest of its vectors ([uio_iov] holds the bytes of user memory that they
    describe), the count that is left, the bytes that were copied out, and for each of the
    next copyin and copyout calls whether it fails. *)
Record uio := mkUio { uio_iov : list (list Z); uio_resid : Z; uio_out : list Z; uio_fault : list bool }.
Definition eta_uio (r : uio) : uio := mkUio (uio_iov r) (uio_resid r) (uio_out r) (uio_fault r).
#[global] Instance set_uio_iov : Setter uio_iov := ltac:(mk_setter eta_uio).
#[global] Instance set_uio_resid : Setter uio_resid := ltac:(mk_setter eta_uio).
#[global] Instance set_uio_out : Setter uio_out := ltac:(mk_setter eta_uio).
#[global] Instance set_uio_fault : Setter uio_fault := ltac:(mk_setter eta_uio).

(** [uiomove] of [n] bytes: the error, the uio and the bytes moved.  With UIO_READ the bytes
    come from the kernel memory [cp]; with UIO_WRITE they go there. *)
Fixpoint uiomove_loop (iov : list (list Z)) (rd : bool) (cp : list Z) (n : Z) (u : uio) (acc : list Z) : outcome (Z * uio * list Z) :=
  if negb (0 <? n) || (uio_resid u =? 0) then Ret (0, u <| uio_iov := iov |>, acc)
  else
    match iov with
    | [] => Panic "uiomove: no iovec"
    | v :: iov =>
        if zlen v =? 0 then uiomove_loop iov rd cp n u acc
        else
          let cnt := if zlen v >? n then n else zlen v in
          let '(bad, fault) := match uio_fault u with [] => (false, []) | b :: l => (b, l) end in
          let u := u <| uio_fault := fault |> in
          if bad then Ret (EFAULT, u <| uio_iov := v :: iov |>, acc)
          else
            let x := if rd then ztake cnt cp else ztake cnt v in
            let u := u <| uio_resid := uio_resid u - cnt |> <| uio_out := if rd then uio_out u ++ x else uio_out u |> in
            if cnt =? zlen v then uiomove_loop iov rd (zdrop cnt cp) (n - cnt) u (acc ++ x)
            else Ret (0, u <| uio_iov := zdrop cnt v :: iov |>, acc ++ x)
    end.
Definition uiomove (rd : bool) (cp : list Z) (n : Z) (u : uio) : outcome (Z * uio * list Z) := uiomove_loop (uio_iov u) rd cp n u [].

Section Calls.
Context {T : Type} `{Proto T}.

Definition upd_so (f : socket -> socket) (s : T) : T := p_setso (f (p_so s)) s.

(** Which of the two buffers of a socket. *)
Definition side_get (snd : bool) (so : socket) : sockbuf := if snd then so_snd so else so_rcv so.
Definition side_set (snd : bool) (sb : sockbuf) (so : socket) : socket := if snd then so <| so_snd := sb |> else so <| so_rcv := sb |>.
Definition upd_sb (snd : bool) (f : sockbuf -> sockbuf) (s : T) : T := upd_so (fun so => side_set snd (f (side_get snd so)) so) s.
Definition p_sb (snd : bool) (s : T) : sockbuf := side_get snd (p_so s).

(** ** The lock of a buffer *)

(** [sbwait] *)
Definition sbwait (snd : bool) (s : T) : Z * T := tsleep (upd_sb snd (fun sb => sb <| sb_flags := setb (sb_flags sb) SB_WAIT |>) s).

(** [sb_lock] *)
Fixpoint sb_lock (fuel : nat) (snd : bool) (s : T) : outcome T :=
  match fuel with
  | O => OutOfFuel
  | S fuel =>
      if hasf (sb_flags (p_sb snd s)) SB_LOCK then
        let '(error, s) := tsleep (upd_sb snd (fun sb => sb <| sb_flags := setb (sb_flags sb) SB_WANT |>) s) in
        if negb (error =? 0) then Ret s else sb_lock fuel snd s
      else Ret (upd_sb snd (fun sb => sb <| sb_flags := setb (sb_flags sb) SB_LOCK |>) s)
  end.

(** [sblock]: the comma of the macro applies to all of the conditional, so its value is 0
    whatever happened. *)
Definition sblock (fuel : nat) (snd wait : bool) (s : T) : outcome T :=
  if hasf (sb_flags (p_sb snd s)) SB_LOCK then if wait then sb_lock fuel snd s else Ret s
  else Ret (upd_sb snd (fun sb => sb <| sb_flags := setb (sb_flags sb) SB_LOCK |>) s).

(** [sbunlock], without the wakeup *)
Definition sbunlock (snd : bool) (s : T) : T :=
  upd_sb snd (fun sb => sb <| sb_flags := clrb (clrb (sb_flags sb) SB_LOCK) SB_WANT |>) s.

Definition sblockwait (flags : Z) : bool := negb (hasf flags MSG_DONTWAIT).

(** ** sosend *)

Context (kmem_malloc : mpool -> option Z) (max_hdr : Z).

(** The next mbuf of a packet: the mbuf, its length, and the space that is left. *)
Definition snd_mbuf (first atomic : bool) (resid space : Z) (p : mpool) : mbuf * Z * Z * mpool :=
  let m := if first then mkMbuf sizeof_pkthdr [] MT_DATA M_PKTHDR 0 0 0 0 else mkMbuf 0 [] MT_DATA 0 0 0 0 0 in
  let mlen := if first then MHLEN else MLEN in
  let nopages p :=
    let len := cmin (cmin mlen resid) space in
    (if atomic && first && (len <? mlen) then MH_ALIGN m len else m, len, space - len, p) in
  if (MINCLSIZE <=? resid) && (MCLBYTES <=? space) then
    match MCLALLOC kmem_malloc p with
    | (None, p) => nopages p
    | (Some k, p) =>
        let m := m <| m_off := 0 |> <| m_flags := setb (m_flags m) M_EXT |> <| ext_buf := k |> <| ext_size := MCLBYTES |> in
        if atomic && first then (m <| m_off := max_hdr |>, cmin (MCLBYTES - max_hdr) resid, space - MCLBYTES, p)
        else (m, cmin MCLBYTES resid, space - MCLBYTES, p)
    end
  else nopages p.

Definition add_pktlen (n : Z) (top : chain) : chain := match top with [] => [] | m :: l => m <| m_pktlen := m_pktlen m + n |> :: l end.
Definition mark_eor (flags : Z) (top : chain) : chain :=
  match top with [] => [] | m :: l => (if hasf flags MSG_EOR then m <| m_flags := setb (m_flags m) M_EOR |> else m) :: l end.

(** Data is copied in until it is all there, or the space is used up, or for a protocol that
    is not atomic, once.  The result is the error, the packet, the uio and the space. *)
Fixpoint snd_fill (fuel : nat) (atomic : bool) (flags : Z) (top : chain) (u : uio) (space : Z) (p : mpool)
    : outcome (Z * chain * uio * Z * mpool) :=
  match fuel with
  | O => OutOfFuel
  | S fuel =>
      let '(m, len, space, p) := snd_mbuf (match top with [] => true | _ => false end) atomic (uio_resid u) space p in
      let! (error, u, data) := uiomove false [] len u in
      (* m_len is len, whatever came *)
      let m := m <| m_bytes := data ++ repeat 0 (Z.to_nat (len - zlen data)) |> in
      let top := add_pktlen len (top ++ [m]) in
      if negb (error =? 0) then Ret (error, top, u, space, p)
      else if uio_resid u <=? 0 then Ret (0, mark_eor flags top, u, space, p)
      else if (0 <? space) && atomic then snd_fill fuel atomic flags top u space p
      else Ret (0, top, u, space, p)
  end.

(** The arguments that change: the uio (none when the data is in [sl_top]), the packet, the
    control data and what is left to send. *)
Record sndl := mkSndl { sl_uio : option uio; sl_top : chain; sl_control : option chain; sl_resid : Z }.
Definition sl_clen (l : sndl) : Z := match sl_control l with Some (m :: _) => m_len m | _ => 0 end.

(** [release] and [out]: what was not passed on is freed. *)
Definition snd_out (l : sndl) (error : Z) (s : T) : Z * option uio * T :=
  let p := m_freem (p_pool s) (sl_top l) in
  let p := match sl_control l with Some c => m_freem p c | None => p end in
  (error, sl_uio l, p_setpool p s).
Definition snd_release (l : sndl) (error : Z) (s : T) : Z * option uio * T := snd_out l error (sbunlock true s).

(** One packet is filled and passed to the protocol: the error, what is left and the space. *)
Definition snd_packet (fuel : nat) (atomic dontroute : bool) (nam : option (Z * Z)) (flags : Z) (l : sndl) (space : Z) (s : T)
    : outcome (Z * sndl * Z * T) :=
  let! (error, l, space, s) :=
    match sl_uio l with
    | None => Ret (0, mkSndl None (mark_eor flags (sl_top l)) (sl_control l) 0, space, s)
    | Some u =>
        let! (error, top, u, space, p) := snd_fill fuel atomic flags (sl_top l) u space (p_pool s) in
        Ret (error, mkSndl (Some u) top (sl_control l) (uio_resid u), space, p_setpool p s)
    end in
  if negb (error =? 0) then Ret (error, l, space, s)
  else
    let s := if dontroute then upd_so (fun so => so <| so_options := setb (so_options so) SO_DONTROUTE |>) s else s in
    let control := match sl_control l with Some c => c | None => [] end in
    let! (error, s) := pr_usrreq (if hasf flags MSG_OOB then PRU_SENDOOB (sl_top l) nam control else PRU_SEND (sl_top l) nam control) s in
    let s := if dontroute then upd_so (fun so => so <| so_options := clrb (so_options so) SO_DONTROUTE |>) s else s in
    Ret (error, mkSndl (sl_uio l) [] None (sl_resid l), space, s).

(** The loop while there is space. *)
Fixpoint snd_inner (fuel : nat) (atomic dontroute : bool) (nam : option (Z * Z)) (flags : Z) (l : sndl) (space : Z) (s : T)
    : outcome (Z * sndl * T) :=
  match fuel with
  | O => OutOfFuel
  | S fuel' =>
      let! (error, l, space, s) := snd_packet fuel atomic dontroute nam flags l space s in
      if negb (error =? 0) then Ret (error, l, s)
      else if negb (sl_resid l =? 0) && (0 <? space) then snd_inner fuel' atomic dontroute nam flags l space s
      else Ret (0, l, s)
  end.

(** What is tested before sending: an error, or that the sender must wait, or the space. *)
Inductive snd_test := Snderr (error : Z) | Sndwait | Sndspace (space : Z).
Definition snd_check (atomic : bool) (nam : option (Z * Z)) (flags : Z) (l : sndl) (so : socket) : snd_test :=
  let resid := sl_resid l in
  let clen := sl_clen l in
  if hasf (so_state so) SS_CANTSENDMORE then Snderr EPIPE
  else if negb (so_error so =? 0) then Snderr (so_error so)
  else if negb (hasf (so_state so) SS_ISCONNECTED) && hasf pr_flags PR_CONNREQUIRED && negb (hasf (so_state so) SS_ISCONFIRMING) &&
          negb ((resid =? 0) && negb (clen =? 0)) then Snderr ENOTCONN
  else if negb (hasf (so_state so) SS_ISCONNECTED) && negb (hasf pr_flags PR_CONNREQUIRED) && match nam with None => true | _ => false end
       then Snderr EDESTADDRREQ
  else
    let space := sbspace (so_snd so) in
    let space := if hasf flags MSG_OOB then space + 1024 else space in
    if (atomic && (sb_hiwat (so_snd so) <? u32 resid)) || (sb_hiwat (so_snd so) <? u32 clen) then Snderr EMSGSIZE
    else if (space <? resid + clen) && match sl_uio l with Some _ => true | None => false end &&
            (atomic || (space <? sb_lowat (so_snd so)) || (space <? clen)) then
      if hasf (so_state so) SS_NBIO then Snderr EWOULDBLOCK else Sndwait
    else Sndspace space.

(** The outer loop, with the lock held when [locked]; [goto restart] takes it again. *)
Fixpoint snd_loop (fuel : nat) (locked atomic dontroute : bool) (nam : option (Z * Z)) (flags : Z) (l : sndl) (s : T)
    : outcome (Z * option uio * T) :=
  match fuel with
  | O => OutOfFuel
  | S fuel' =>
      let! s := if locked then Ret s else sblock fuel true (sblockwait flags) s in
      match snd_check atomic nam flags l (p_so s) with
      | Snderr error => Ret (snd_release l error s)
      | Sndwait =>
          let '(error, s) := sbwait true (sbunlock true s) in
          if negb (error =? 0) then Ret (snd_out l error s) else snd_loop fuel' false atomic dontroute nam flags l s
      | Sndspace space =>
          let! (error, l, s) := snd_inner fuel atomic dontroute nam flags l (space - sl_clen l) s in
          if negb (error =? 0) then Ret (snd_release l error s)
          else if negb (sl_resid l =? 0) then snd_loop fuel' true atomic dontroute nam flags l s
          else Ret (snd_release l 0 s)
      end
  end.

(** [sosend]; [top] is the data when there is no uio. *)
Definition sosend (fuel : nat) (nam : option (Z * Z)) (u : option uio) (top : chain) (control : option chain) (flags : Z) (s : T)
    : outcome (Z * option uio * T) :=
  let atomic := hasf pr_flags PR_ATOMIC || match top with [] => false | _ => true end in
  let! resid := match u, top with Some u, _ => Ret (uio_resid u) | None, m :: _ => Ret (m_pktlen m) | None, [] => Panic "sosend: no data" end in
  if resid <? 0 then Ret (EINVAL, u, s)
  else
    let dontroute := hasf flags MSG_DONTROUTE && negb (hasf (so_options (p_so s)) SO_DONTROUTE) && hasf pr_flags PR_ATOMIC in
    snd_loop fuel false atomic dontroute nam flags (mkSndl u top control resid) s.

(** ** soreceive *)

(** PRU_RCVOOB *)
Definition rcv_oob (flags : Z) (u : uio) (s : T) : outcome (Z * uio * T) :=
  let! (error, data, s) := p_rcvoob (hasf flags MSG_PEEK) s in
  if negb (error =? 0) then Ret (error, u, s)
  else
    let! (error, u, _) := uiomove true data (cmin (uio_resid u) (zlen data)) u in
    Ret (error, u, s).

(** Before anything is delivered: wait, return with an error, or go on. *)
Inductive rcv_test := Rcvok | Rcverr (error : Z) (clear : bool) | Rcvwait.

Definition rcv_must_wait (flags resid : Z) (so : socket) : bool :=
  let sb := so_rcv so in
  match sb_mb sb with
  | [] => true
  | _ :: next =>
      negb (hasf flags MSG_DONTWAIT) && (sb_cc sb <? u32 resid) &&
      ((sb_cc sb <? u32 (sb_lowat sb)) || (hasf flags MSG_WAITALL && (u32 resid <=? sb_hiwat sb))) &&
      match next with [] => true | _ => false end && negb (hasf pr_flags PR_ATOMIC)
  end.

Definition rcv_check (flags resid : Z) (so : socket) : rcv_test :=
  if negb (rcv_must_wait flags resid so) then Rcvok
  else
    let m := match sb_mb (so_rcv so) with [] => [] | m :: _ => m end in
    let some := match sb_mb (so_rcv so) with [] => false | _ => true end in
    if negb (so_error so =? 0) then if some then Rcvok else Rcverr (so_error so) (negb (hasf flags MSG_PEEK))
    else if hasf (so_state so) SS_CANTRCVMORE then if some then Rcvok else Rcverr 0 false
    else if existsb (fun n => (m_type n =? MT_OOBDATA) || hasf (m_flags n) M_EOR) m then Rcvok
    else if negb (hasf (so_state so) (setb SS_ISCONNECTED SS_ISCONNECTING)) && hasf pr_flags PR_CONNREQUIRED then Rcverr ENOTCONN false
    else if resid =? 0 then Rcverr 0 false
    else if hasf (so_state so) SS_NBIO || hasf flags MSG_DONTWAIT then Rcverr EWOULDBLOCK false
    else Rcvwait.

(** What a call delivers beside the data. *)
Record rcvl := mkRcvl {
  rl_addr : chain; rl_control : chain; rl_mp : option chain; rl_flags : Z; rl_uio : uio; rl_error : Z; rl_keep : bool
}.
Definition eta_rcvl (r : rcvl) : rcvl := mkRcvl (rl_addr r) (rl_control r) (rl_mp r) (rl_flags r) (rl_uio r) (rl_error r) (rl_keep r).
#[global] Instance set_rl_addr : Setter rl_addr := ltac:(mk_setter eta_rcvl).
#[global] Instance set_rl_control : Setter rl_control := ltac:(mk_setter eta_rcvl).
#[global] Instance set_rl_mp : Setter rl_mp := ltac:(mk_setter eta_rcvl).
#[global] Instance set_rl_flags : Setter rl_flags := ltac:(mk_setter eta_rcvl).
#[global] Instance set_rl_uio : Setter rl_uio := ltac:(mk_setter eta_rcvl).
#[global] Instance set_rl_error : Setter rl_error := ltac:(mk_setter eta_rcvl).
#[global] Instance set_rl_keep : Setter rl_keep := ltac:(mk_setter eta_rcvl).

(** A copy of one mbuf, m_copy(m, 0, m->m_len). *)
Definition copy1 (p : mpool) (m : mbuf) : outcome (chain * mpool) :=
  let! (c, p) := m_copym p [m] 0 (m_len m) in Ret (match c with Some c => c | None => [] end, p).

(** The first mbuf of the record is removed from the buffer, or kept aside when it is wanted. *)
Definition rcv_take (want : bool) (m : mbuf) (s : T) : T :=
  let s := upd_sb false (fun sb => sbfree sb m) s in
  if want then s else p_setpool (m_free (p_pool s) m) s.

(** The address; [orig_resid] becomes 0, which [rl_keep] false says. *)
Definition rcv_addr (wantaddr : bool) (cur : chain) (l : rcvl) (s : T) : outcome (chain * rcvl * T) :=
  match cur with
  | [] => Panic "soreceive: empty record"
  | m :: cur =>
      let l := l <| rl_keep := false |> in
      if hasf (rl_flags l) MSG_PEEK then
        if wantaddr then let! (c, p) := copy1 (p_pool s) m in Ret (cur, l <| rl_addr := c |>, p_setpool p s) else Ret (cur, l, s)
      else Ret (cur, if wantaddr then l <| rl_addr := [m] |> else l, rcv_take wantaddr m s)
  end.

(** The control data. *)
Fixpoint rcv_control (wantctl : bool) (cur : chain) (l : rcvl) (s : T) : outcome (chain * rcvl * T) :=
  match cur with
  | m :: cur' =>
      if negb (m_type m =? MT_CONTROL) then Ret (cur, l, s)
      else
        let l := if wantctl then l <| rl_keep := false |> else l in
        if hasf (rl_flags l) MSG_PEEK then
          if wantctl then
            let! (c, p) := copy1 (p_pool s) m in rcv_control wantctl cur' (l <| rl_control := rl_control l ++ c |>) (p_setpool p s)
          else rcv_control wantctl cur' l s
        else rcv_control wantctl cur' (if wantctl then l <| rl_control := rl_control l ++ [m] |> else l) (rcv_take wantctl m s)
  | [] => Ret (cur, l, s)
  end.

(** Where the delivery of data stands: the mbufs of the record that are left, the records
    after it, the offset in the first mbuf and the bytes delivered (when peeking). *)
Record rcvp := mkRcvp { rp_cur : chain; rp_next : list chain; rp_moff : Z; rp_offset : Z }.

(** [len] bytes of the first mbuf are delivered; [None] when more than one mbuf is asked for. *)
Definition rcv_piece (len : Z) (m : mbuf) (cur : chain) (x : rcvp) (l : rcvl) (s : T) : outcome (rcvp * rcvl * T) :=
  let! (error, u) :=
    match rl_mp l with
    | None => let! (error, u, _) := uiomove true (zdrop (rp_moff x) (m_bytes m)) len (rl_uio l) in Ret (error, u)
    | Some _ => Ret (0, (rl_uio l) <| uio_resid := uio_resid (rl_uio l) - len |>)
    end in
  let l := l <| rl_uio := u |> <| rl_error := error |> in
  let peek := hasf (rl_flags l) MSG_PEEK in
  if len =? m_len m - rp_moff x then
    let l := if hasf (m_flags m) M_EOR then l <| rl_flags := setb (rl_flags l) MSG_EOR |> else l in
    if peek then Ret (mkRcvp cur (rp_next x) 0 (rp_offset x), l, s)
    else
      let s := upd_sb false (fun sb => sbfree sb m) s in
      match rl_mp l with
      | Some c => Ret (mkRcvp cur (rp_next x) (rp_moff x) (rp_offset x), l <| rl_mp := Some (c ++ [m]) |>, s)
      | None => Ret (mkRcvp cur (rp_next x) (rp_moff x) (rp_offset x), l, p_setpool (m_free (p_pool s) m) s)
      end
  else if peek then Ret (mkRcvp (m :: cur) (rp_next x) (rp_moff x + len) (rp_offset x), l, s)
  else
    let! (l, s) :=
      match rl_mp l with
      | Some c => let! (k, p) := m_copym (p_pool s) [m] 0 len in
                  Ret (l <| rl_mp := Some (c ++ match k with Some k => k | None => [] end) |>, p_setpool p s)
      | None => Ret (l, s)
      end in
    let m := m <| m_off := m_off m + len |> <| m_bytes := zdrop len (m_bytes m) |> in
    Ret (mkRcvp (m :: cur) (rp_next x) (rp_moff x) (rp_offset x), l,
         upd_sb false (fun sb => sb <| sb_cc := u32 (sb_cc sb - len) |>) s).

(** The out-of-band mark after [len] bytes; the result says whether to stop. *)
Definition rcv_mark (len : Z) (x : rcvp) (l : rcvl) (s : T) : bool * rcvp * T :=
  if so_oobmark (p_so s) =? 0 then (false, x, s)
  else if hasf (rl_flags l) MSG_PEEK then
    let x := mkRcvp (rp_cur x) (rp_next x) (rp_moff x) (rp_offset x + len) in (rp_offset x =? so_oobmark (p_so s), x, s)
  else
    let s := upd_so (fun so => so <| so_oobmark := u32 (so_oobmark so - len) |>) s in
    if so_oobmark (p_so s) =? 0 then (true, x, upd_so (fun so => so <| so_state := setb (so_state so) SS_RCVATMARK |>) s) else (false, x, s).

(** The sleep of MSG_WAITALL; the buffer is empty when it begins.  The flag of the result says
    that the call returns 0 at once. *)
Fixpoint rcv_waitall (fuel : nat) (x : rcvp) (l : rcvl) (s : T) : outcome (bool * rcvp * rcvl * T) :=
  match fuel with
  | O => OutOfFuel
  | S fuel =>
      match rp_cur x, rp_next x with
      | [], [] =>
          if hasf (rl_flags l) MSG_WAITALL && (0 <? uio_resid (rl_uio l)) && negb (hasf pr_flags PR_ATOMIC) &&
             negb (negb (so_error (p_so s) =? 0) || hasf (so_state (p_so s)) SS_CANTRCVMORE) then
            let s := if hasf (rl_flags l) MSG_PEEK then s else upd_sb false (fun sb => sb <| sb_mb := [] |>) s in
            let '(error, s) := sbwait false s in
            if negb (error =? 0) then Ret (true, x, l, sbunlock false s)
            else
              let x := match sb_mb (so_rcv (p_so s)) with [] => x | m :: next => mkRcvp m next (rp_moff x) (rp_offset x) end in
              rcv_waitall fuel x (l <| rl_error := 0 |>) s
          else Ret (false, x, l, s)
      | _, _ => Ret (false, x, l, s)
      end
  end.

(** The data of the record; [oob] is whether its first mbuf is MT_OOBDATA. *)
Fixpoint rcv_data (fuel : nat) (oob : bool) (x : rcvp) (l : rcvl) (s : T) : outcome (bool * rcvp * rcvl * T) :=
  match fuel with
  | O => OutOfFuel
  | S fuel' =>
      match rp_cur x with
      | [] => Ret (false, x, l, s)
      | m :: cur =>
          if negb (0 <? uio_resid (rl_uio l)) || negb (rl_error l =? 0) || negb (Bool.eqb (m_type m =? MT_OOBDATA) oob) then Ret (false, x, l, s)
          else
            let s := upd_so (fun so => so <| so_state := clrb (so_state so) SS_RCVATMARK |>) s in
            let len := uio_resid (rl_uio l) in
            let mark := so_oobmark (p_so s) in
            let len := if negb (mark =? 0) && (u32 (mark - rp_offset x) <? u32 len) then u32 (mark - rp_offset x) else len in
            let len := if m_len m - rp_moff x <? len then m_len m - rp_moff x else len in
            let! (x, l, s) := rcv_piece len m cur x l s in
            let '(stop, x, s) := rcv_mark len x l s in
            if stop || hasf (rl_flags l) MSG_EOR then Ret (false, x, l, s)
            else
              let! (ret, x, l, s) := rcv_waitall fuel x l s in
              if ret then Ret (true, x, l, s) else rcv_data fuel' oob x l s
      end
  end.

(** Behind the data: the rest of a record of an atomic protocol goes, and the protocol learns
    that there is room. *)
Definition rcv_finish (x : rcvp) (l : rcvl) (s : T) : outcome (rcvl * T) :=
  let peek := hasf (rl_flags l) MSG_PEEK in
  let s := if peek then s
           else upd_sb false (fun sb => sb <| sb_mb := match rp_cur x with [] => rp_next x | m => m :: rp_next x end |>) s in
  let '(l, s) :=
    match rp_cur x with
    | [] => (l, s)
    | _ => if hasf pr_flags PR_ATOMIC then
             let l := l <| rl_flags := setb (rl_flags l) MSG_TRUNC |> in
             if peek then (l, s)
             else let '(p, sb) := sbdroprecord (p_pool s) (so_rcv (p_so s)) in (l, p_setpool p (upd_sb false (fun _ => sb) s))
           else (l, s)
    end in
  if negb peek && hasf pr_flags PR_WANTRCVD && p_pcb s then let! (_, s) := pr_usrreq (PRU_RCVD (rl_flags l)) s in Ret (l, s)
  else Ret (l, s).

(** From the label dontblock: one record.  The flag of the result is as in rcv_waitall. *)
Definition rcv_record (fuel : nat) (wantaddr wantctl : bool) (l : rcvl) (s : T) : outcome (bool * rcvl * T) :=
  match sb_mb (so_rcv (p_so s)) with
  | [] => Panic "soreceive: no record"
  | cur :: next =>
      let! (cur, l, s) := if hasf pr_flags PR_ADDR then rcv_addr wantaddr cur l s else Ret (cur, l, s) in
      let! (cur, l, s) := rcv_control wantctl cur l s in
      let oob := match cur with m :: _ => m_type m =? MT_OOBDATA | [] => false end in
      let l := if oob then l <| rl_flags := setb (rl_flags l) MSG_OOB |> else l in
      let! (ret, x, l, s) := rcv_data fuel oob (mkRcvp cur next 0 0) l s in
      if ret then Ret (true, l, s) else let! (l, s) := rcv_finish x l s in Ret (false, l, s)
  end.

(** From the label restart, where error becomes the value of [sblock]. *)
Fixpoint rcv_loop (fuel : nat) (wantaddr wantctl : bool) (orig_resid : Z) (l : rcvl) (s : T) : outcome (Z * rcvl * T) :=
  match fuel with
  | O => OutOfFuel
  | S fuel' =>
      let! s := sblock fuel false (sblockwait (rl_flags l)) s in
      let l := l <| rl_error := 0 |> in
      match rcv_check (rl_flags l) (uio_resid (rl_uio l)) (p_so s) with
      | Rcverr error clear =>
          let s := if clear then upd_so (fun so => so <| so_error := 0 |>) s else s in Ret (error, l, sbunlock false s)
      | Rcvwait =>
          let '(error, s) := sbwait false (sbunlock false s) in
          if negb (error =? 0) then Ret (error, l, s) else rcv_loop fuel' wantaddr wantctl orig_resid l s
      | Rcvok =>
          let! (ret, l, s) := rcv_record fuel wantaddr wantctl l s in
          if ret then Ret (0, l, s)
          else
            let orig_resid := if rl_keep l then orig_resid else 0 in
            if (orig_resid =? uio_resid (rl_uio l)) && negb (orig_resid =? 0) && negb (hasf (rl_flags l) MSG_EOR) &&
               negb (hasf (so_state (p_so s)) SS_CANTRCVMORE)
            then rcv_loop fuel' wantaddr wantctl orig_resid l (sbunlock false s)
            else Ret (rl_error l, l, sbunlock false s)
      end
  end.

(** [soreceive]; [mp] is whether the mbufs themselves are wanted. *)
Definition soreceive (fuel : nat) (wantaddr mp wantctl : bool) (flags : Z) (u : uio) (s : T) : outcome (Z * rcvl * T) :=
  let flags := clrb flags MSG_EOR in
  let l := mkRcvl [] [] (if mp then Some [] else None) flags u 0 true in
  if hasf flags MSG_OOB then let! (error, u, s) := rcv_oob flags u s in Ret (error, l <| rl_uio := u |>, s)
  else
    let! s := if hasf (so_state (p_so s)) SS_ISCONFIRMING && negb (uio_resid u =? 0) then let! (_, s) := pr_usrreq (PRU_RCVD 0) s in Ret s else Ret s in
    rcv_loop fuel wantaddr wantctl (uio_resid u) l s.

(** ** Connecting and closing *)

Definition sobind (nam : option (Z * Z)) (s : T) : outcome (Z * T) := pr_usrreq (PRU_BIND nam) s.

(** [solisten]; [noq] is whether so_q is empty, and the second result is so_qlimit. *)
Definition solisten (noq : bool) (backlog : Z) (s : T) : outcome (Z * option Z * T) :=
  let! (error, s) := pr_usrreq PRU_LISTEN s in
  if negb (error =? 0) then Ret (error, None, s)
  else
    let s := if noq then upd_so (fun so => so <| so_options := setb (so_options so) SO_ACCEPTCONN |>) s else s in
    Ret (0, Some (cmin (if backlog <? 0 then 0 else backlog) SOMAXCONN), s).

Definition soabort (s : T) : outcome (Z * T) := pr_usrreq PRU_ABORT s.

Definition soaccept (s : T) : outcome (Z * T) :=
  if negb (hasf (so_state (p_so s)) SS_NOFDREF) then Panic "soaccept: !NOFDREF"
  else pr_usrreq PRU_ACCEPT (upd_so (fun so => so <| so_state := clrb (so_state so) SS_NOFDREF |>) s).

Definition sodisconnect (s : T) : outcome (Z * T) :=
  if negb (hasf (so_state (p_so s)) SS_ISCONNECTED) then Ret (ENOTCONN, s)
  else if hasf (so_state (p_so s)) SS_ISDISCONNECTING then Ret (EALREADY, s)
  else pr_usrreq PRU_DISCONNECT s.

Definition soconnect (nam : option (Z * Z)) (s : T) : outcome (Z * T) :=
  if hasf (so_options (p_so s)) SO_ACCEPTCONN then Ret (EOPNOTSUPP, s)
  else
    let! (busy, s) :=
      if hasf (so_state (p_so s)) (setb SS_ISCONNECTED SS_ISCONNECTING) then
        if hasf pr_flags PR_CONNREQUIRED then Ret (true, s)
        else let! (error, s) := sodisconnect s in Ret (negb (error =? 0), s)
      else Ret (false, s) in
    if busy then Ret (EISCONN, s) else pr_usrreq (PRU_CONNECT nam) s.

(** [sorflush] *)
Definition sorflush (fuel : nat) (s : T) : outcome T :=
  let s := upd_sb false (fun sb => sb <| sb_flags := setb (sb_flags sb) 64 |>) s in
  let! s := sblock fuel false true s in
  let s := sbunlock false (upd_so socantrcvmore s) in
  let asb := so_rcv (p_so s) in
  let s := upd_sb false (fun _ => mkSb 0 0 0 0 0 [] 0) s in
  let! (p, _) := sbrelease (p_pool s) asb in
  Ret (p_setpool p s).

(** [soshutdown]: FREAD is 1 and FWRITE is 2. *)
Definition soshutdown (fuel : nat) (how : Z) (s : T) : outcome (Z * T) :=
  let how := how + 1 in
  let! s := if hasf how 1 then sorflush fuel s else Ret s in
  if hasf how 2 then pr_usrreq PRU_SHUTDOWN s else Ret (0, s).

(** [soclose]; [drain] aborts the connections on the queues so_q0 and so_q, and [free] is
    sofree. *)
Fixpoint linger_wait (fuel : nat) (s : T) : outcome (Z * T) :=
  match fuel with
  | O => OutOfFuel
  | S fuel =>
      if hasf (so_state (p_so s)) SS_ISCONNECTED then
        let '(error, s) := tsleep s in if negb (error =? 0) then Ret (error, s) else linger_wait fuel s
      else Ret (0, s)
  end.
Definition soclose (fuel : nat) (drain : T -> outcome T) (free : T -> outcome T) (s : T) : outcome (Z * T) :=
  let! s := if hasf (so_options (p_so s)) SO_ACCEPTCONN then drain s else Ret s in
  let! (error, s) :=
    if negb (p_pcb s) then Ret (0, s)
    else
      let! (error, s) :=
        if hasf (so_state (p_so s)) SS_ISCONNECTED then
          let! (error, s) := if negb (hasf (so_state (p_so s)) SS_ISDISCONNECTING) then sodisconnect s else Ret (0, s) in
          if negb (error =? 0) then Ret (error, s)
          else if hasf (so_options (p_so s)) SO_LINGER then
            if hasf (so_state (p_so s)) SS_ISDISCONNECTING && hasf (so_state (p_so s)) SS_NBIO then Ret (0, s) else linger_wait fuel s
          else Ret (0, s)
        else Ret (0, s) in
      if p_pcb s then let! (error2, s) := pr_usrreq PRU_DETACH s in Ret (if error =? 0 then error2 else error, s) else Ret (error, s) in
  if hasf (so_state (p_so s)) SS_NOFDREF then Panic "soclose: NOFDREF"
  else let! s := free (upd_so (fun so => so <| so_state := setb (so_state so) SS_NOFDREF |>) s) in Ret (error, s).

End Calls.

End SoCall.
