(* ===== verification/SoCallOk.v ===== *)
(** Correctness of the socket layer: sosend passes the user's bytes to the protocol in order
    and without gaps, and soreceive gives the user the bytes at the front of the receive
    buffer. *)
From S2P Require Import Prelude Mbuf Cksum SockBuf Socket SoCall.
Import Mbuf Cksum SockBuf Socket SoCall.

Module SoCallOk.

(** ** User memory *)

Lemma ztake_prefix (a n : Z) (l : list Z) : 0 <= a <= n -> a <= zlen l -> ztake n l = ztake a l ++ ztake (n - a) (zdrop a l).
Proof.
  intros Ha Hl. rewrite <- (ztake_zdrop a l) at 1. assert (E : zlen (ztake a l) = a) by (rewrite zlen_ztake; lia).
  by rewrite ztake_app_ge, E by lia.
Qed.

Definition user (u : uio) : list Z := concat (uio_iov u).
(** A uio whose copies do not fail. *)
Record uio_ok (u : uio) : Prop := { uo_resid : uio_resid u = zlen (user u); uo_fault : uio_fault u = [] }.

Lemma uiomove_loop_ok iov : forall rd cp n u acc, uio_fault u = [] -> uio_resid u = zlen (concat iov) -> 0 <= n <= zlen (concat iov) ->
  (rd = true -> n <= zlen cp) ->
  exists u' x, uiomove_loop iov rd cp n u acc = Ret (0, u', acc ++ x) /\ x = (if rd then ztake n cp else ztake n (concat iov)) /\
    user u' = zdrop n (concat iov) /\ uio_ok u' /\ uio_out u' = uio_out u ++ (if rd then x else []).
Proof.
  induction iov as [|v iov IH]; intros rd cp n u acc Hf Hr Hn Hcp; cbn [uiomove_loop].
  - change (zlen (concat (@nil (list Z)))) with 0 in *. assert (n = 0) as -> by lia. cbn [Z.ltb Z.compare negb orb].
    eexists _, []. rewrite app_nil_r. split; [reflexivity|]. rec_simpl. split_and!; [by destruct rd|done| |by destruct rd; rewrite app_nil_r].
    split; rec_simpl; done.
  - cbn [concat] in *. rewrite zlen_app in *. pose proof (zlen_nonneg v). pose proof (zlen_nonneg (concat iov)).
    destruct (Z.ltb_spec 0 n); cbn [negb orb].
    2: { assert (n = 0) as -> by lia. eexists _, []. rewrite app_nil_r. split; [reflexivity|]. rec_simpl.
         split_and!; [by destruct rd; rewrite ztake_le0|by rewrite zdrop_le0|split; rec_simpl; [by rewrite Hr; unfold user; cbn; rewrite zlen_app|done]|
           by destruct rd; rewrite app_nil_r]. }
    destruct (Z.eqb_spec (uio_resid u) 0); [lia|]. destruct (Z.eqb_spec (zlen v) 0) as [Ev|Ev].
    { rewrite (zlen_0 v Ev). cbn [app]. apply IH; try done; lia. }
    rewrite Hf. destruct (Z.gtb_spec (zlen v) n) as [Hc|Hc].
    + destruct (Z.eqb_spec n (zlen v)); [lia|]. eexists _, _. split; [reflexivity|]. rec_simpl. split_and!.
      * destruct rd; [done|by rewrite ztake_app_le by lia].
      * unfold user. rec_simpl. cbn [concat]. by rewrite zdrop_app_le by lia.
      * split; rec_simpl; [|done]. unfold user. rec_simpl. cbn [concat]. rewrite zlen_app, zlen_zdrop, Hr by lia. lia.
      * destruct rd; [done|by rewrite app_nil_r].
    + rewrite Z.eqb_refl. set (x0 := if rd then ztake (zlen v) cp else ztake (zlen v) v).
      destruct (IH rd (zdrop (zlen v) cp) (n - zlen v) (u <| uio_fault := [] |> <| uio_resid := uio_resid u - zlen v |>
        <| uio_out := if rd then uio_out u ++ x0 else uio_out u |>) (acc ++ x0)) as (u' & x & E & Ex & Eu & Hu & Eo); rec_simpl; try done; try lia.
      { intros ->. specialize (Hcp eq_refl). rewrite zlen_zdrop by lia. lia. }
      exists u', (x0 ++ x). rewrite app_assoc. split; [exact E|]. rewrite zdrop_app_ge by lia. split_and!; [|done|done|].
      * unfold x0. rewrite Ex. destruct rd; [symmetry|by rewrite ztake_app_ge, (ztake_ge (zlen v) v) by lia].
        specialize (Hcp eq_refl). apply ztake_prefix; lia.
      * rewrite Eo. rec_simpl. destruct rd; [by rewrite app_assoc|done].
Qed.

Lemma uiomove_in n u : uio_ok u -> 0 <= n <= uio_resid u ->
  exists u', uiomove false [] n u = Ret (0, u', ztake n (user u)) /\ uio_ok u' /\ user u' = zdrop n (user u) /\ uio_out u' = uio_out u.
Proof.
  intros [Hr Hf] Hn. rewrite Hr in Hn. destruct (uiomove_loop_ok (uio_iov u) false [] n u [] Hf Hr Hn) as (u' & x & E & -> & Eu & Hu & Eo); [done|].
  exists u'. rewrite app_nil_r in Eo. by split_and!.
Qed.

Lemma uiomove_out cp n u : uio_ok u -> 0 <= n <= uio_resid u -> n <= zlen cp ->
  exists u', uiomove true cp n u = Ret (0, u', ztake n cp) /\ uio_ok u' /\ user u' = zdrop n (user u) /\ uio_out u' = uio_out u ++ ztake n cp.
Proof.
  intros [Hr Hf] Hn Hc. rewrite Hr in Hn. destruct (uiomove_loop_ok (uio_iov u) true cp n u [] Hf Hr Hn) as (u' & x & E & -> & Eu & Hu & Eo); [done|].
  exists u'. by split_and!.
Qed.

(** ** Protocols *)

(** The accessors of a protocol's state. *)
Class ProtoLaws (T : Type) `{Proto T} := {
  so_setso so s : p_so (p_setso so s) = so;
  so_setpool p s : p_so (p_setpool p s) = p_so s;
  pool_setso so s : p_pool (p_setso so s) = p_pool s;
  pool_setpool p s : p_pool (p_setpool p s) = p
}.

(** Changes of locks, wait marks and options only. *)
Definition quiet (so so' : socket) : Prop :=
  exists fs fr o, so' = so <| so_snd := (so_snd so) <| sb_flags := fs |> |> <| so_rcv := (so_rcv so) <| sb_flags := fr |> |> <| so_options := o |>.

Lemma quiet_flags (snd : bool) (f : Z) so : quiet so (side_set snd ((side_get snd so) <| sb_flags := f |>) so).
Proof.
  exists (if snd then f else sb_flags (so_snd so)), (if snd then sb_flags (so_rcv so) else f), (so_options so).
  destruct so as [o li st er oo rcv snd0 iq wk]. by destruct rcv, snd0, snd.
Qed.
Lemma quiet_options so o : quiet so (so <| so_options := o |>).
Proof. exists (sb_flags (so_snd so)), (sb_flags (so_rcv so)), o. destruct so as [o' li st er oo rcv snd0 iq wk]. by destruct rcv, snd0. Qed.

Definition no_eor (m : mbuf) : Prop := hasf (m_flags m) M_EOR = false.

(** What sosend needs of a protocol for streams.  [accepts s l s'] says that the protocol took
    the bytes [l] on the way from [s] to [s'], [room] is how much it can take, [sending]
    that the user may send. *)
Section Send.
Context {T : Type} `{ProtoLaws T} (kmem_malloc : mpool -> option Z) (max_hdr : Z).
Context (inv sending : T -> Prop) (room : T -> Z) (accepts : T -> list Z -> T -> Prop).

(** Neither urgent data nor the end of a record. *)
Definition ordinary (flags : Z) : Prop := hasf flags MSG_OOB = false /\ hasf flags MSG_EOR = false.

Definition nbio (s : T) : bool := hasf (so_state (p_so s)) SS_NBIO.

(** A step at which nothing is sent. *)
Record still (s s' : T) : Prop := {
  st_inv : inv s -> inv s';
  st_sending : sending s -> sending s';
  st_room : room s' = room s;
  st_acc : accepts s [] s';
  st_nbio : nbio s' = nbio s
}.

Record stream_proto : Prop := {
  sp_atomic : hasf pr_flags PR_ATOMIC = false;
  sp_refl : forall s, accepts s [] s;
  sp_trans : forall a b c x y, accepts a x b -> accepts b y c -> accepts a (x ++ y) c;
  sp_quiet : forall so s, quiet (p_so s) so -> still s (p_setso so s);
  sp_pool : forall p s, mp_fail p = mp_fail (p_pool s) -> still s (p_setpool p s);
  sp_lowat : forall s, inv s -> 0 < sb_lowat (so_snd (p_so s));
  sp_space : forall s, inv s -> sbspace (so_snd (p_so s)) <= room s < 1073741824;
  sp_check : forall s, inv s -> hasf (so_state (p_so s)) SS_CANTSENDMORE = false -> sending s;
  sp_send : forall m nam s, inv s -> sending s -> Forall m_wf m -> m <> [] -> Forall no_eor m -> Forall is_byte (chain_bytes m) -> chain_len m <= Z.max 0 (room s) ->
    exists e s' l, pr_usrreq (PRU_SEND m nam []) s = Ret (e, s') /\ inv s' /\ sending s' /\ room s - chain_len m <= room s' /\ nbio s' = nbio s /\
      accepts s l s' /\ (l = chain_bytes m \/ (e <> 0 /\ l = []));
  sp_sleep : forall s, inv s -> inv (tsleep s).2 /\ accepts s [] (tsleep s).2
}.
Context (SP : stream_proto).

Lemma still_refl s : still s s.
Proof. split; try done. apply (sp_refl SP). Qed.
Lemma still_trans a b c : still a b -> still b c -> still a c.
Proof. intros [] []. split; [auto|auto|congruence| |congruence]. by apply (sp_trans SP a b c [] []). Qed.

Lemma still_sb snd f s : (forall sb, exists x, f sb = sb <| sb_flags := x |>) -> still s (upd_sb snd f s).
Proof. intros Hf. apply (sp_quiet SP). destruct (Hf (side_get snd (p_so s))) as [x ->]. apply quiet_flags. Qed.
Lemma still_unlock snd s : still s (sbunlock snd s).
Proof. apply still_sb. eauto. Qed.
Lemma still_options o s : still s (upd_so (fun so => so <| so_options := o so |>) s).
Proof. apply (sp_quiet SP), quiet_options. Qed.

(** *** One packet *)

Lemma MCLALLOC_fail p : mp_fail (MCLALLOC kmem_malloc p).2 = mp_fail p.
Proof.
  unfold MCLALLOC, m_clalloc. destruct (mclfree p) as [|k l] eqn:E.
  - destruct (kmem_malloc p) as [k|]; [done|]. by rewrite E.
  - by rewrite E.
Qed.

(** The mbuf that is allocated can hold what is copied into it. *)
Record snd_slot (m : mbuf) (len resid space space' : Z) : Prop := {
  ss_len : 0 <= len <= resid;
  ss_space : len <= Z.max 0 space;
  ss_left : space' <= space - len;
  ss_pos : 0 < resid -> 0 < space -> 0 < len;
  ss_wf : forall d, zlen d = len -> m_wf (m <| m_bytes := d |>);
  ss_eor : no_eor m
}.

Lemma hdr_wf d : zlen d <= MHLEN -> m_wf ((mkMbuf sizeof_pkthdr [] MT_DATA M_PKTHDR 0 0 0 0) <| m_bytes := d |>).
Proof. intros Hd. change (0 <= 8 /\ (8 + zlen d <= 108 /\ (true = true -> 8 <= 8))). unfold MHLEN in Hd. lia. Qed.

Lemma snd_mbuf_ok resid space p m len space' p' : 0 <= resid < 2147483648 -> space < 2147483648 -> (0 < space \/ resid = 0) ->
  snd_mbuf kmem_malloc max_hdr true false resid space p = (m, len, space', p') ->
  snd_slot m len resid space space' /\ mp_fail p' = mp_fail p.
Proof.
  intros Hr Hs Hp. unfold snd_mbuf. cbn [andb].
  assert (Hno : forall q, (mkMbuf sizeof_pkthdr [] MT_DATA M_PKTHDR 0 0 0 0, cmin (cmin MHLEN resid) space, space - cmin (cmin MHLEN resid) space, q) = (m, len, space', p') ->
    snd_slot m len resid space space' /\ p' = q).
  { intros q [= <- <- <- <-]. split; [|done]. assert (E1 : cmin MHLEN resid = Z.min MHLEN resid) by (apply cmin_spec; unfold MHLEN; lia). rewrite E1.
    assert (E2 : cmin (Z.min MHLEN resid) space = if 0 <? space then Z.min (Z.min MHLEN resid) space else 0).
    { destruct (Z.ltb_spec 0 space); [apply cmin_spec; unfold MHLEN; lia|]. destruct Hp as [Hp| ->]; [lia|]. change (Z.min MHLEN 0) with 0. unfold cmin.
      change (u32 0) with 0. pose proof (u32_range space). destruct (Z.ltb_spec 0 (u32 space)); lia. }
    rewrite E2. unfold MHLEN in *. destruct (Z.ltb_spec 0 space).
    - split; try lia; [|done]. intros d Hd. apply hdr_wf. unfold MHLEN. lia.
    - destruct Hp as [Hp| ->]; [lia|]. split; try lia; [|done]. intros d Hd. apply hdr_wf. unfold MHLEN. lia. }
  destruct (Z.leb_spec MINCLSIZE resid); cbn [andb]; [|intros E; destruct (Hno p E) as [Hx ->]; by split].
  destruct (Z.leb_spec MCLBYTES space); [|intros E; destruct (Hno p E) as [Hx ->]; by split].
  pose proof (MCLALLOC_fail p) as Hf. destruct (MCLALLOC kmem_malloc p) as [[k|] p1]; cbn [snd] in Hf; [|intros E; destruct (Hno p1 E) as [Hx ->]; by split].
  intros [= <- <- <- <-]. split; [|done]. assert (E1 : cmin MCLBYTES resid = Z.min MCLBYTES resid) by (apply cmin_spec; unfold MCLBYTES; lia). rewrite E1.
  unfold MINCLSIZE, MHLEN, MLEN, MCLBYTES in *. split; try lia; [|done]. intros d Hd. change (0 <= 0 /\ 0 + zlen d <= 2048). lia.
Qed.

(** What one packet does: [x] leaves the user's memory, [l] arrives at the protocol. *)
Record passed (s : T) (u : uio) (s' : T) (u' : uio) (e : Z) (x l : list Z) : Prop := {
  ps_user : user u = x ++ user u';
  ps_uio : uio_ok u';
  ps_inv : inv s';
  ps_acc : accepts s l s';
  ps_sent : l = x \/ (e <> 0 /\ exists y, x = l ++ y)
}.

Lemma passed_trans s u s1 u1 s2 u2 e x1 x2 l2 :
  passed s u s1 u1 0 x1 x1 -> passed s1 u1 s2 u2 e x2 l2 -> passed s u s2 u2 e (x1 ++ x2) (x1 ++ l2).
Proof.
  intros [A1 A2 A3 A5 A6] [B1 B2 B3 B5 B6]. split; try done.
  - by rewrite A1, B1, app_assoc.
  - by apply (sp_trans SP s s1).
  - destruct B6 as [->|[He [y ->]]]; [by left|right]. split; [done|]. exists y. by rewrite app_assoc.
Qed.

Lemma passed_still s s' u : uio_ok u -> inv s -> still s s' -> passed s u s' u 0 [] [].
Proof. intros Hu Hi [S1 S2 S3 S4 S5]. split; try done; [by apply S1|by left]. Qed.

Lemma passed_after s u s1 u1 s2 e x l : passed s u s1 u1 e x l -> still s1 s2 -> passed s u s2 u1 e x l.
Proof. intros [A1 A2 A3 A5 A6] [S1 S2 S3 S4 S5]. split; try done; [by apply S1|]. rewrite <- (app_nil_r l). by apply (sp_trans SP s s1). Qed.

Lemma repeat_0 n : n <= 0 -> repeat 0 (Z.to_nat n) = [].
Proof. intros Hn. by replace (Z.to_nat n) with 0%nat by lia. Qed.

Lemma nonneg_resid u : uio_ok u -> 0 <= uio_resid u.
Proof. intros [-> _]. apply zlen_nonneg. Qed.

#[local] Abbreviation packet := (snd_packet kmem_malloc max_hdr).

Lemma snd_packet_ok fuel dr nam flags u space s :
  uio_ok u -> Forall is_byte (user u) -> uio_resid u < 2147483648 -> (0 < space \/ uio_resid u = 0) -> space <= room s -> inv s -> sending s ->
  ordinary flags ->
  exists e u' space' s' x l, packet (S fuel) false dr nam flags (mkSndl (Some u) [] None (uio_resid u)) space s =
      Ret (e, mkSndl (Some u') [] None (uio_resid u'), space', s') /\
    passed s u s' u' e x l /\ (0 < uio_resid u -> x <> []) /\ space' <= room s' /\ sending s' /\ nbio s' = nbio s.
Proof.
  intros Hu Hb Hr Hsp Hroom Hi Hsend Hoob. pose proof (nonneg_resid u Hu) as Hr0. unfold snd_packet. cbn [sl_uio sl_top sl_control sl_resid snd_fill].
  pose proof (sp_space SP s Hi) as [_ Hroom'].
  destruct (snd_mbuf kmem_malloc max_hdr true false (uio_resid u) space (p_pool s)) as [[[m len] space'] p'] eqn:Em.
  assert (Hsp2 : space < 2147483648) by lia.
  destruct (snd_mbuf_ok _ _ _ _ _ _ _ (conj Hr0 Hr) Hsp2 Hsp Em) as [[L1 L2 L3 L4 L5 L6] Hf].
  destruct (uiomove_in len u Hu L1) as (u' & -> & Hu' & Eu' & _). cbn [obind negb Z.eqb].
  set (x := ztake len (user u)). assert (Ex : zlen x = len) by (unfold x; rewrite zlen_ztake, <- (uo_resid _ Hu); lia).
  rewrite repeat_0, app_nil_r by lia. specialize (L5 x Ex). cbn [app add_pktlen].
  set (m1 := m <| m_bytes := x |> <| m_pktlen := _ |>).
  set (top := [m1]). assert (Hmark : mark_eor flags top = top) by (unfold mark_eor, top; by rewrite (proj2 Hoob)).
  assert (Efill : (if uio_resid u' <=? 0 then Ret (0, mark_eor flags top, u', space', p')
    else if (0 <? space') && false then snd_fill kmem_malloc max_hdr fuel false flags top u' space' p' else Ret (0, top, u', space', p')) =
    Ret (0, top, u', space', p')) by (rewrite andb_false_r, Hmark; by destruct (uio_resid u' <=? 0)).
  match goal with |- context [if uio_resid u' <=? 0 then ?a else ?b] => replace (if uio_resid u' <=? 0 then a else b) with (@Ret (Z * chain * uio * Z * mpool) (0, top, u', space', p')) by (symmetry; exact Efill) end.
  cbn [obind negb Z.eqb sl_control sl_top sl_uio sl_resid]. rewrite (proj1 Hoob). clear Efill.
  assert (Et : chain_bytes top = x) by (unfold top, chain_bytes; cbn; by rewrite app_nil_r).
  pose proof (sp_pool SP p' s Hf) as [P1 P2 P3 P4 P5]. set (s1 := p_setpool p' s) in *.
  assert (exists s2, (if dr then upd_so (fun so => so <| so_options := setb (so_options so) SO_DONTROUTE |>) s1 else s1) = s2 /\ still s s2) as (s2 & -> & Hst2).
  { eexists. split; [reflexivity|]. destruct dr; [apply (still_trans _ s1); [by split|apply still_options]|by split]. }
  pose proof Hst2 as [Q1 Q2 Q3 Q4 Q5].
  destruct (sp_send SP top nam s2) as (e & s3 & l & -> & I3 & S3 & R3 & N3 & A3 & Hl); [by apply Q1|by apply Q2|by constructor|done|by constructor|
    rewrite Et; by apply Forall_ztake|unfold chain_len; rewrite Et, Q3; lia|]. cbn [obind].
  assert (exists s4, (if dr then upd_so (fun so => so <| so_options := clrb (so_options so) SO_DONTROUTE |>) s3 else s3) = s4 /\
    inv s4 /\ sending s4 /\ room s4 = room s3 /\ accepts s l s4 /\ nbio s4 = nbio s) as (s4 & -> & I4 & S4 & R4 & A4 & N4).
  { pose proof (sp_trans SP _ _ _ _ _ Q4 A3) as A. cbn [app] in A. destruct dr; [|exists s3; split_and!; try done; congruence].
    destruct (still_options (fun so => clrb (so_options so) SO_DONTROUTE) s3) as [U1 U2 U3 U4 U5]. eexists. split_and!; [reflexivity|auto|auto|done| |congruence].
    pose proof (sp_trans SP _ _ _ _ _ A U4) as A'. by rewrite app_nil_r in A'. }
  exists e, u', space', s4, x, l. split_and!; [done| | |unfold chain_len in R3; rewrite Et in R3; lia|done|done].
  - split; try done; [by rewrite Eu'; unfold x; rewrite ztake_zdrop|]. rewrite Et in Hl. destruct Hl as [->|[He ->]]; [by left|right]. split; [done|by exists x].
  - intros Hpos E. rewrite E in Ex. change (zlen (@nil Z)) with 0 in Ex. lia.
Qed.

(** *** The loops *)

Lemma snd_inner_ok dr nam flags : ordinary flags -> forall fuel u space s,
  uio_ok u -> Forall is_byte (user u) -> uio_resid u < 2147483648 -> (0 < space \/ uio_resid u = 0) -> space <= room s -> inv s -> sending s ->
  match snd_inner kmem_malloc max_hdr fuel false dr nam flags (mkSndl (Some u) [] None (uio_resid u)) space s with
  | Ret (e, l, s') => exists u' x y, l = mkSndl (Some u') [] None (uio_resid u') /\ passed s u s' u' e x y /\ (0 < uio_resid u -> x <> []) /\ nbio s' = nbio s
  | OutOfFuel => Z.of_nat fuel <= uio_resid u
  | Panic _ => False
  end.
Proof.
  intros Hoob. induction fuel as [|fuel IH]; intros u space s Hu Hb Hr Hsp Hroom Hi Hsend; cbn [snd_inner]; [by apply nonneg_resid|].
  destruct (snd_packet_ok fuel dr nam flags u space s Hu Hb Hr Hsp Hroom Hi Hsend Hoob) as (e & u1 & space1 & s1 & x & l & -> & Hp & Hx & Hroom1 & Hsend1 & Hnb1).
  cbn [obind]. destruct (Z.eqb_spec e 0) as [->|He]; cbn [negb]; [|by exists u1, x, l]. pose proof Hp as [P1 P2 P3 P5 P6].
  assert (l = x) as -> by (destruct P6 as [?|[? _]]; done). cbn [sl_resid].
  destruct (Z.eqb_spec (uio_resid u1) 0) as [E0|E0]; cbn [negb andb]; [by exists u1, x, x|].
  destruct (Z.ltb_spec 0 space1) as [Hs1|Hs1]; cbn [negb andb]; [|by exists u1, x, x].
  assert (Eu : uio_resid u = zlen x + uio_resid u1) by (rewrite (uo_resid _ Hu), (uo_resid _ P2), P1, zlen_app; lia).
  pose proof (zlen_nonneg x). pose proof (nonneg_resid u1 P2).
  assert (Hb1 : Forall is_byte (user u1)) by (rewrite P1, Forall_app in Hb; by destruct Hb).
  specialize (IH u1 space1 s1 P2 Hb1 ltac:(lia) (or_introl Hs1) Hroom1 P3 Hsend1).
  destruct (snd_inner _ _ _ _ _ _ _ _ _ _) as [[[e' l'] s']| |]; [|done|].
  - destruct IH as (u' & x' & y' & -> & Hp' & _ & Hnb'). exists u', (x ++ x'), (x ++ y'). split; [done|]. split; [by apply (passed_trans s u s1 u1)|].
    split; [|congruence]. intros Hpos. specialize (Hx Hpos). by destruct x.
  - assert (zlen x <> 0) by (intros E; apply zlen_0 in E; specialize (Hx ltac:(lia)); done). lia.
Qed.

Lemma snd_check_space nam flags u s space :
  inv s -> ordinary flags -> snd_check false nam flags (mkSndl (Some u) [] None (uio_resid u)) (p_so s) = Sndspace space ->
  hasf (so_state (p_so s)) SS_CANTSENDMORE = false /\ space = sbspace (so_snd (p_so s)) /\ (0 < space \/ uio_resid u <= 0).
Proof.
  intros Hi Hoob. pose proof (sp_lowat SP s Hi) as Hlow. unfold snd_check, sl_clen. cbn [sl_resid sl_control sl_uio]. rewrite (proj1 Hoob).
  destruct (hasf _ SS_CANTSENDMORE); [done|]. destruct (negb (so_error (p_so s) =? 0)); [done|]. destruct (negb (hasf _ SS_ISCONNECTED) && _ && _ && _); [done|].
  destruct (negb (hasf _ SS_ISCONNECTED) && _ && _); [done|]. destruct ((false && _) || _); [done|]. cbn [andb orb]. destruct (Z.ltb_spec (sbspace (so_snd (p_so s))) (uio_resid u + 0)); cbn [andb].
  - destruct (Z.ltb_spec (sbspace (so_snd (p_so s))) (sb_lowat (so_snd (p_so s)))); cbn [orb]; [by destruct (hasf _ SS_NBIO)|].
    destruct (_ <? 0); cbn [orb]; [by destruct (hasf _ SS_NBIO)|]. intros [= <-]. split_and!; [done|done|left; lia].
  - intros [= <-]. split_and!; [done|done|lia].
Qed.

Lemma snd_check_err atomic nam flags l so e : snd_check atomic nam flags l so = Snderr e -> e <> 0.
Proof.
  unfold snd_check. repeat (case_match; try (intros [= <-]; done)); try done. intros [= <-]. apply Z.eqb_neq. by apply negb_true_iff.
Qed.
Lemma snd_check_wait atomic nam flags l so : snd_check atomic nam flags l so = Sndwait -> hasf (so_state so) SS_NBIO = false.
Proof. unfold snd_check. repeat (case_match; try done). Qed.

(** The result of a call that began with [u] and [s]; it may still be asleep. *)
Definition snd_result (s : T) (u : uio) (r : outcome (Z * option uio * T)) : Prop :=
  match r with
  | Ret (e, Some u', s') => (exists x l, passed s u s' u' e x l) /\ (e = 0 -> user u' = [])
  | Ret (_, None, _) => False
  | OutOfFuel => True
  | Panic _ => False
  end.

Lemma snd_result_trans s u s1 u1 x r : passed s u s1 u1 0 x x -> snd_result s1 u1 r -> snd_result s u r.
Proof.
  intros Hp. destruct r as [[[e [u'|]] s']| |]; cbn [snd_result]; try done.
  intros [(x' & l' & Hp') He]. split; [|done]. exists (x ++ x'), (x ++ l'). by apply (passed_trans s u s1 u1).
Qed.

Lemma snd_out_ok s u e : uio_ok u -> inv s -> e <> 0 \/ user u = [] -> snd_result s u (Ret (snd_out (mkSndl (Some u) [] None (uio_resid u)) e s)).
Proof.
  intros Hu Hi He. unfold snd_out. cbn [sl_uio sl_top sl_control snd_result m_freem fold_left]. split; [|by intros ->; destruct He].
  exists [], []. destruct (passed_still s (p_setpool (p_pool s) s) u Hu Hi (sp_pool SP (p_pool s) s eq_refl)). split; try done. by left.
Qed.

Lemma snd_release_ok s u e : uio_ok u -> inv s -> e <> 0 \/ user u = [] -> snd_result s u (Ret (snd_release (mkSndl (Some u) [] None (uio_resid u)) e s)).
Proof.
  intros Hu Hi He. pose proof (still_unlock true s) as Hst. unfold snd_release. apply (snd_result_trans s u (sbunlock true s) u []); [by apply passed_still|].
  apply snd_out_ok; [done|by apply Hst|done].
Qed.

Lemma sb_lock_ok fuel snd : forall s, inv s -> match sb_lock fuel snd s with Ret s' => inv s' /\ accepts s [] s' | OutOfFuel => True | Panic _ => False end.
Proof.
  induction fuel as [|fuel IH]; intros s Hi; [done|]. cbn [sb_lock]. destruct (hasf _ SB_LOCK).
  - set (s1 := upd_sb snd _ s). assert (Hst : still s s1) by (apply still_sb; eauto). destruct (sp_sleep SP s1) as [I1 A1]; [by apply Hst|].
    destruct (tsleep s1) as [e s2]. cbn [Datatypes.snd] in I1, A1. pose proof (sp_trans SP _ _ _ _ _ (st_acc _ _ Hst) A1) as A. destruct (negb (e =? 0)); [done|].
    specialize (IH s2 I1). destruct (sb_lock fuel snd s2); try done. destruct IH as [I2 A2]. split; [done|]. exact (sp_trans SP _ _ _ _ _ A A2).
  - assert (Hst : still s (upd_sb snd (fun sb => sb <| sb_flags := setb (sb_flags sb) SB_LOCK |>) s)) by (apply still_sb; eauto). split; by apply Hst.
Qed.

(** The lock: at once when it is free, or without waiting. *)
Lemma sblock_ok fuel snd wait s : inv s ->
  match sblock fuel snd wait s with
  | Ret s' => inv s' /\ accepts s [] s' /\ (hasf (sb_flags (p_sb snd s)) SB_LOCK = false -> still s s')
  | OutOfFuel => hasf (sb_flags (p_sb snd s)) SB_LOCK = true
  | Panic _ => False
  end.
Proof.
  intros Hi. unfold sblock. destruct (hasf _ SB_LOCK) eqn:El.
  - destruct wait; [pose proof (sb_lock_ok fuel snd s Hi) as Hlk; destruct (sb_lock fuel snd s); [by destruct Hlk; split_and!|done|done]|].
    split_and!; [done|apply (sp_refl SP)|done].
  - assert (Hst : still s (upd_sb snd (fun sb => sb <| sb_flags := setb (sb_flags sb) SB_LOCK |>) s)) by (apply still_sb; eauto).
    split_and!; [by apply Hst|by apply Hst|done].
Qed.

Lemma passed_quiet s s' u : uio_ok u -> inv s' -> accepts s [] s' -> passed s u s' u 0 [] [].
Proof. intros Hu Hi Ha. split; try done. by left. Qed.

#[local] Abbreviation loop := (snd_loop kmem_malloc max_hdr).

Lemma snd_loop_ok dr nam flags : ordinary flags -> forall fuel locked u s,
  uio_ok u -> Forall is_byte (user u) -> uio_resid u < 2147483648 -> inv s ->
  snd_result s u (loop fuel locked false dr nam flags (mkSndl (Some u) [] None (uio_resid u)) s) /\
  (nbio s = true -> locked = true \/ hasf (sb_flags (p_sb true s)) SB_LOCK = false -> uio_resid u < Z.of_nat fuel ->
   loop fuel locked false dr nam flags (mkSndl (Some u) [] None (uio_resid u)) s <> OutOfFuel).
Proof.
  intros Hoob. induction fuel as [|fuel IH]; intros locked u s Hu Hb Hr Hi; cbn [snd_loop].
  { split; [done|]. intros _ _ Hf. pose proof (nonneg_resid u Hu). lia. }
  assert (Hlock : match (if locked then Ret s else sblock (S fuel) true (sblockwait flags) s) with
    | Ret s1 => inv s1 /\ accepts s [] s1 /\ (locked = true \/ hasf (sb_flags (p_sb true s)) SB_LOCK = false -> nbio s1 = nbio s)
    | OutOfFuel => locked = false /\ hasf (sb_flags (p_sb true s)) SB_LOCK = true | Panic _ => False end).
  { destruct locked; [by split_and!; [|apply (sp_refl SP)|]|]. pose proof (sblock_ok (S fuel) true (sblockwait flags) s Hi) as Hb'.
    destruct (sblock _ _ _ _); [|done|done]. destruct Hb' as (I1 & A1 & S1). split_and!; [done|done|]. intros [?|E]; [done|]. by destruct (S1 E). }
  destruct (if locked then Ret s else _) as [s1|msg|]; cbn [obind]; [|done|split; [done|]; destruct Hlock; intros _ [?|?]; congruence].
  destruct Hlock as (I1 & A1 & N1). pose proof (passed_quiet s s1 u Hu I1 A1) as P1.
  destruct (snd_check _ _ _ _ _) as [e| |space] eqn:Ec.
  - split; [|done]. apply snd_check_err in Ec. apply (snd_result_trans s u s1 u []); [done|]. apply snd_release_ok; auto.
  - apply snd_check_wait in Ec. pose proof (still_unlock true s1) as Hun. unfold sbwait.
    set (s2 := upd_sb true _ (sbunlock true s1)).
    assert (H2 : still (sbunlock true s1) s2) by (apply still_sb; eauto). pose proof (still_trans _ _ _ Hun H2) as H12.
    destruct (sp_sleep SP s2) as [I3 A3]; [by apply H12|]. destruct (tsleep s2) as [e s3]. cbn [snd] in I3, A3.
    pose proof (sp_trans SP _ _ _ _ _ (st_acc _ _ H12) A3) as A13.
    pose proof (passed_trans _ _ _ _ _ _ _ _ _ _ P1 (passed_quiet s1 s3 u Hu I3 A13)) as P3.
    split.
    + apply (snd_result_trans s u s3 u []); [done|]. destruct (Z.eqb_spec e 0); cbn [negb]; [by apply (IH false)|]. apply snd_out_ok; auto.
    + intros Hnb Hl. rewrite <- N1 in Hnb by done. unfold nbio in Hnb. congruence.
  - destruct (snd_check_space nam flags u s1 space I1 Hoob Ec) as (C1 & -> & C2). unfold sl_clen. cbn [sl_control]. rewrite Z.sub_0_r.
    pose proof (sp_space SP s1 I1) as [Hroom _]. pose proof (nonneg_resid u Hu).
    assert (C3 : 0 < sbspace (so_snd (p_so s1)) \/ uio_resid u = 0) by lia.
    pose proof (snd_inner_ok dr nam flags Hoob (S fuel) u (sbspace (so_snd (p_so s1))) s1 Hu Hb Hr C3 Hroom I1 (sp_check SP s1 I1 C1)) as Hin.
    destruct (snd_inner _ _ (S fuel) _ _ _ _ _ _ _) as [[[e l] s2]| |]; cbn [obind]; [|done|split; [done|intros; lia]].
    destruct Hin as (u' & x & y & -> & Hp & Hx & Hn2). pose proof (passed_trans _ _ _ _ _ _ _ _ _ _ P1 Hp) as P2. cbn [app] in P2.
    destruct (Z.eqb_spec e 0) as [->|He]; cbn [negb sl_resid].
    2: { split; [|done]. split; [|done]. exists x, y. apply (passed_after s u s2 u'); [done|].
         apply (still_trans _ (sbunlock true s2)); [apply still_unlock|by apply (sp_pool SP)]. }
    assert (y = x) as -> by (destruct (ps_sent _ _ _ _ _ _ _ Hp) as [?|[? _]]; done). pose proof Hp as [U1 U2 I2 _ _].
    destruct (Z.eqb_spec (uio_resid u') 0) as [E0|E0]; cbn [negb].
    + split; [|done]. apply (snd_result_trans s u s2 u' x); [done|]. apply snd_release_ok; [done|done|right]. apply zlen_0. by rewrite <- (uo_resid _ U2).
    + assert (Eu : uio_resid u = zlen x + uio_resid u') by (rewrite (uo_resid _ Hu), (uo_resid _ U2), U1, zlen_app; lia).
      pose proof (zlen_nonneg x). pose proof (nonneg_resid u' U2). assert (Hb' : Forall is_byte (user u')) by (rewrite U1, Forall_app in Hb; by destruct Hb).
      destruct (IH true u' s2 U2 Hb' ltac:(lia) I2) as [R1 R2]. split; [by apply (snd_result_trans s u s2 u' x)|].
      intros Hnb Hl Hf. apply R2; [rewrite Hn2, N1; done|by left|].
      assert (zlen x <> 0) by (intros E; apply zlen_0 in E; specialize (Hx ltac:(lia)); done). lia.
Qed.

(** sosend on a stream protocol.  A call without faults in user memory and without MSG_OOB and MSG_EOR ends, if it ends at
    all, with the protocol having taken a prefix [l] of the user's bytes, in order and each
    once; only when it returns an error can bytes [y] have been copied in that the protocol
    refused, and when it returns 0 all bytes were taken.  A call on a nonblocking socket that
    is not locked always ends. *)
Lemma sosend_stream fuel nam u flags s :
  ordinary flags -> uio_ok u -> Forall is_byte (user u) -> uio_resid u < 2147483648 -> inv s ->
  match sosend kmem_malloc max_hdr fuel nam (Some u) [] None flags s with
  | Ret (e, Some u', s') => exists l y, user u = l ++ y ++ user u' /\ accepts s l s' /\ inv s' /\ uio_ok u' /\
      (e = 0 -> y = [] /\ user u' = [])
  | Ret (_, None, _) => False
  | Panic _ => False
  | OutOfFuel => nbio s = false \/ hasf (sb_flags (p_sb true s)) SB_LOCK = true \/ Z.of_nat fuel <= uio_resid u
  end.
Proof.
  intros Hoob Hu Hb Hr Hi. unfold sosend. rewrite (sp_atomic SP). cbn [obind orb]. pose proof (nonneg_resid u Hu).
  destruct (Z.ltb_spec (uio_resid u) 0); [lia|]. set (dr := _ && _ && _).
  destruct (snd_loop_ok dr nam flags Hoob fuel false u s Hu Hb Hr Hi) as [R1 R2].
  destruct (loop fuel false false dr nam flags _ s) as [[[e [u'|]] s']| |]; [|done|done|].
  - destruct R1 as [(x & l & [P1 P2 P3 P5 P6]) He]. destruct P6 as [->|[He' [y ->]]].
    + exists x, []. split_and!; try done. auto.
    + exists l, y. rewrite <- app_assoc in P1. split_and!; done.
  - destruct (nbio s); [|by left]. destruct (hasf _ SB_LOCK); [by right; left|]. right; right. destruct (Z.le_gt_cases (Z.of_nat fuel) (uio_resid u)); [done|].
    by destruct (R2 eq_refl (or_intror eq_refl) ltac:(lia)).
Qed.

End Send.

(** ** soreceive *)

(** Ordinary data. *)
Definition plain_data (m : mbuf) : Prop := m_type m <> MT_OOBDATA /\ m_type m <> MT_CONTROL /\ hasf (m_flags m) M_EOR = false.

(** What the out-of-band mark allows. *)
Definition to_mark (mark n : Z) : Z := if mark =? 0 then n else Z.min mark n.

Section Receive.
Context {T : Type} `{ProtoLaws T}.

(** The socket but for the receive buffer, the mark and the bit that says it is reached. *)
Definition rest_of (so : socket) : Z * Z * Z * Z * sockbuf * inq * list wchan :=
  (clrb (so_state so) SS_RCVATMARK, so_options so, so_linger so, so_error so, so_snd so, so_inq so, so_woken so).

(** A receive call for the user's memory that neither peeks nor waits for all. *)
Record plain_call (l : rcvl) : Prop := {
  pc_mp : rl_mp l = None;
  pc_error : rl_error l = 0;
  pc_flags : hasf (rl_flags l) MSG_PEEK = false /\ hasf (rl_flags l) MSG_EOR = false /\ hasf (rl_flags l) MSG_WAITALL = false;
  pc_uio : uio_ok (rl_uio l)
}.

(** [n] bytes of the mbufs [cur] were delivered; the records [next] follow. *)
Record taken (s : T) (cur : chain) (next : list chain) (l : rcvl) (n : Z) (s' : T) (x : rcvp) (l' : rcvl) : Prop := {
  tk_out : uio_out (rl_uio l') = uio_out (rl_uio l) ++ ztake n (chain_bytes cur);
  tk_resid : uio_resid (rl_uio l') = uio_resid (rl_uio l) - n;
  tk_call : plain_call l';
  tk_l : l' = l <| rl_uio := rl_uio l' |>;
  tk_x : rp_next x = next /\ rp_moff x = 0 /\ rp_offset x = 0;
  tk_cur : chain_bytes (rp_cur x) = zdrop n (chain_bytes cur);
  tk_plain : Forall plain_data (rp_cur x);
  tk_holds : holds (so_rcv (p_so s')) (rp_cur x) next;
  tk_limits : sb_limits (so_rcv (p_so s')) = sb_limits (so_rcv (p_so s));
  tk_refs : forall c, mclrefcnt (p_pool s') c - refs c (rp_cur x) = mclrefcnt (p_pool s) c - refs c cur;
  tk_fail : mp_fail (p_pool s') = mp_fail (p_pool s);
  tk_rest : rest_of (p_so s') = rest_of (p_so s)
}.

Lemma chain_split n1 n2 (l : list Z) : 0 <= n1 <= zlen l -> 0 <= n2 -> ztake (n1 + n2) l = ztake n1 l ++ ztake n2 (zdrop n1 l) /\ zdrop (n1 + n2) l = zdrop n2 (zdrop n1 l).
Proof.
  intros H1 H2. split; [|rewrite zdrop_zdrop by lia; f_equal; lia]. rewrite (ztake_prefix n1 (n1 + n2)) by lia. do 2 f_equal. lia.
Qed.

Lemma taken_trans s cur next l n1 s1 x1 l1 n2 s2 x2 l2 :
  0 <= n1 <= chain_len cur -> 0 <= n2 -> taken s cur next l n1 s1 x1 l1 -> taken s1 (rp_cur x1) next l1 n2 s2 x2 l2 ->
  taken s cur next l (n1 + n2) s2 x2 l2.
Proof.
  intros Hn1 Hn2 [A1 A2 A3 A4 A5 A6 A7 A8 A9 A10 A11 A12] [B1 B2 B3 B4 B5 B6 B7 B8 B9 B10 B11 B12].
  destruct (chain_split n1 n2 (chain_bytes cur) Hn1 Hn2) as [E1 E2]. split; try done; try congruence.
  - by rewrite B1, A1, A6, E1, app_assoc.
  - lia.
  - rewrite B4, A4. by destruct l.
Qed.

(** Changes of the mark and the state do not matter. *)
Definition same (s s' : T) : Prop := so_rcv (p_so s') = so_rcv (p_so s) /\ rest_of (p_so s') = rest_of (p_so s) /\ p_pool s' = p_pool s.
Lemma same_setso s so : so_rcv so = so_rcv (p_so s) -> rest_of so = rest_of (p_so s) -> same s (p_setso so s).
Proof. intros Er Es. unfold same. by rewrite so_setso, pool_setso. Qed.
Lemma taken_to s cur next l n s' x l' s2 : taken s cur next l n s' x l' -> same s' s2 -> taken s cur next l n s2 x l'.
Proof. intros [A1 A2 A3 A4 A5 A6 A7 A8 A9 A10 A11 A12] (E1 & E2 & E3). split; rewrite ?E1, ?E2, ?E3; try done; congruence. Qed.
Lemma taken_from s cur next l n s' x l' s0 : same s0 s -> taken s cur next l n s' x l' -> taken s0 cur next l n s' x l'.
Proof. intros (E1 & E2 & E3) [A1 A2 A3 A4 A5 A6 A7 A8 A9 A10 A11 A12]. rewrite ?E1, ?E2, ?E3 in *. split; try done; congruence. Qed.

Context (inv : T -> Prop).
Context (inv_so : forall s so, inv s -> rest_of so = rest_of (p_so s) -> inv (p_setso so s)).
Context (inv_pool : forall s p, inv s -> mp_fail p = mp_fail (p_pool s) -> inv (p_setpool p s)).

Lemma m_free_fail p m : mp_fail (m_free p m) = mp_fail p.
Proof. apply (m_freem_fail p [m]). Qed.

Lemma plain_trim m n : plain_data m -> plain_data (m <| m_off := m_off m + n |> <| m_bytes := zdrop n (m_bytes m) |>).
Proof. done. Qed.

Lemma rcv_piece_ok m cur next l s len :
  holds (so_rcv (p_so s)) (m :: cur) next -> Forall plain_data (m :: cur) -> plain_call l -> 0 <= len <= m_len m -> len <= uio_resid (rl_uio l) -> inv s ->
  exists x' l' s', rcv_piece len m cur (mkRcvp (m :: cur) next 0 0) l s = Ret (x', l', s') /\ inv s' /\ taken s (m :: cur) next l len s' x' l' /\
    so_oobmark (p_so s') = so_oobmark (p_so s) /\ so_state (p_so s') = so_state (p_so s) /\ (length (rp_cur x') <= length (m :: cur))%nat /\
    (len = m_len m -> rp_cur x' = cur).
Proof.
  intros Hh Hp Hcall Hl Hr Hi. pose proof Hcall as [C1 C2 (F1 & F2 & F3) C4]. unfold rcv_piece. cbn [rp_moff rp_next rp_offset]. rewrite C1.
  destruct (uiomove_out (zdrop 0 (m_bytes m)) len (rl_uio l) C4 ltac:(lia)) as (u' & E & Hu' & Eu & Eo); [rewrite zdrop_le0 by lia; apply Hl|].
  rewrite E. cbn [obind]. rec_simpl. rewrite F1, Z.sub_0_r. rewrite zdrop_le0 in Eo by lia. clear E.
  assert (Er : uio_resid u' = uio_resid (rl_uio l) - len).
  { rewrite (uo_resid _ Hu'), (uo_resid _ C4), Eu. rewrite (uo_resid _ C4) in Hr. rewrite zlen_zdrop. lia. }
  pose proof Hp as [Hpm Hp']%Forall_cons_iff. pose proof Hpm as [D1 [D2 D3]]. pose proof (holds_head _ _ _ _ Hh) as Hw.
  set (l1 := l <| rl_uio := u' |> <| rl_error := 0 |>). assert (El1 : l1 = l <| rl_uio := rl_uio l1 |>) by (unfold l1; rewrite <- C2; by destruct l).
  assert (Hc1 : plain_call l1) by (by split). unfold m_len in *.
  destruct (Z.eqb_spec len (zlen (m_bytes m))) as [->|Hne].
  - rewrite D3, (pc_mp _ Hc1). eexists _, _, _. split; [reflexivity|]. unfold upd_sb, upd_so. cbn [side_set side_get].
    split; [apply inv_pool; [by apply inv_so|by rewrite pool_setso, m_free_fail]|].
    split; [|rewrite so_setpool, so_setso; rec_simpl; cbn [rp_cur length]; split_and!; [done|done|lia|done]].
    split; cbn [rp_cur rp_next rp_moff rp_offset]; rewrite ?so_setpool, ?so_setso, ?pool_setpool, ?pool_setso; rec_simpl; try done.
    + change (rl_uio l1) with u'. by rewrite Eo, chain_bytes_cons, ztake_app_le by lia.
    + rewrite chain_bytes_cons, zdrop_app_ge, Z.sub_diag, zdrop_le0 by lia. done.
    + by apply holds_sbfree.
    + intros c. rewrite m_free_refcnt. cbn [refs]. change (refs c (m :: cur)) with (refs1 c m + refs c cur). lia.
    + apply m_free_fail.
  - change (rl_mp (l <| rl_uio := u' |> <| rl_error := 0 |>)) with (rl_mp l1). rewrite ?(pc_mp _ Hc1), ?C1. cbn [obind]. eexists _, _, _. split; [reflexivity|]. unfold upd_sb, upd_so. cbn [side_set side_get].
    split; [by apply inv_so|]. split; [|rewrite so_setso; rec_simpl; cbn [rp_cur length]; split_and!; [done|done|lia|lia]].
    split; cbn [rp_cur rp_next rp_moff rp_offset]; rewrite ?so_setso, ?pool_setso; rec_simpl; try done.
    + change (rl_uio l1) with u'. by rewrite Eo, chain_bytes_cons, ztake_app_le by lia.
    + rewrite !chain_bytes_cons, zdrop_app_le by lia. done.
    + by apply Forall_cons_iff.
    + apply holds_trim; [done|unfold m_len; lia].
Qed.

Lemma taken_refl s cur next l : holds (so_rcv (p_so s)) cur next -> Forall plain_data cur -> plain_call l -> taken s cur next l 0 s (mkRcvp cur next 0 0) l.
Proof.
  intros Hh Hp Hc. split; cbn [rp_cur rp_next rp_moff rp_offset]; try done.
  - by rewrite ztake_le0, app_nil_r by lia.
  - lia.
  - by destruct l.
Qed.

(** A loop that has nothing to do. *)
Lemma rcv_data_done fuel x l s : (0 < fuel)%nat -> uio_resid (rl_uio l) <= 0 -> rcv_data fuel false x l s = Ret (false, x, l, s).
Proof.
  intros Hf Hr. destruct fuel; [lia|]. cbn [rcv_data]. destruct (rp_cur x); [done|]. destruct (Z.ltb_spec 0 (uio_resid (rl_uio l))); [lia|done].
Qed.

(** The out-of-band mark after [n] bytes, and whether the reader is at it. *)
Definition mark_moved (so so' : socket) (n : Z) : Prop :=
  so_oobmark so' = (if so_oobmark so =? 0 then 0 else so_oobmark so - n) /\
  (0 < n -> hasf (so_state so') SS_RCVATMARK = negb (so_oobmark so =? 0) && (so_oobmark so =? n)) /\
  (n = 0 -> hasf (so_state so') SS_RCVATMARK = true -> hasf (so_state so) SS_RCVATMARK = true).

Lemma clrb_clrb w b : clrb (clrb w b) b = clrb w b.
Proof. unfold clrb. apply Z.bits_inj'. intros n _. rewrite !Z.ldiff_spec. by destruct (Z.testbit w n), (Z.testbit b n). Qed.
Lemma clrb_setb w b : clrb (setb w b) b = clrb w b.
Proof. unfold clrb, setb. apply Z.bits_inj'. intros n _. rewrite !Z.ldiff_spec, Z.lor_spec. by destruct (Z.testbit w n), (Z.testbit b n). Qed.
Lemma rest_clr so : rest_of (so <| so_state := clrb (so_state so) SS_RCVATMARK |>) = rest_of so.
Proof. unfold rest_of. rec_simpl. by rewrite clrb_clrb. Qed.
Lemma rest_set so : rest_of (so <| so_state := setb (so_state so) SS_RCVATMARK |>) = rest_of so.
Proof. unfold rest_of. rec_simpl. by rewrite clrb_setb. Qed.

(** The mark after a turn. *)
Lemma rcv_mark_ok len x l s : hasf (rl_flags l) MSG_PEEK = false -> 0 <= so_oobmark (p_so s) < 4294967296 ->
  0 <= len -> (so_oobmark (p_so s) <> 0 -> len <= so_oobmark (p_so s)) -> inv s -> hasf (so_state (p_so s)) SS_RCVATMARK = false ->
  exists s' stop, rcv_mark len x l s = (stop, x, s') /\ stop = negb (so_oobmark (p_so s) =? 0) && (so_oobmark (p_so s) =? len) /\ inv s' /\ same s s' /\
    so_oobmark (p_so s') = (if so_oobmark (p_so s) =? 0 then 0 else so_oobmark (p_so s) - len) /\
    hasf (so_state (p_so s')) SS_RCVATMARK = stop.
Proof.
  intros Hf Hm Hl Hle Hi Ha. unfold rcv_mark. rewrite Hf. destruct (Z.eqb_spec (so_oobmark (p_so s)) 0) as [E|E]; [by eexists _, _|].
  unfold upd_so. rewrite so_setso. rec_simpl. specialize (Hle E). rewrite u32_id by lia. cbn [negb andb].
  set (s1 := p_setso ((p_so s) <| so_oobmark := so_oobmark (p_so s) - len |>) s).
  assert (H1 : same s s1) by by apply same_setso. assert (E1 : p_so s1 = (p_so s) <| so_oobmark := so_oobmark (p_so s) - len |>) by apply so_setso.
  assert (I1 : inv s1) by by apply inv_so.
  destruct (Z.eqb_spec (so_oobmark (p_so s) - len) 0) as [E2|E2], (Z.eqb_spec (so_oobmark (p_so s)) len) as [E3|E3]; try lia.
  - eexists _, _. split; [reflexivity|]. rewrite so_setso. rec_simpl. split_and!; try done.
    + apply inv_so; [done|]. rewrite E1. unfold rest_of. rec_simpl. by rewrite clrb_setb.
    + destruct H1 as (A1 & A2 & A3). unfold same. rewrite so_setso, pool_setso. unfold rest_of. rec_simpl. by rewrite clrb_setb.
    + by rewrite hasf_setb, orb_true_r.
  - eexists _, _. split; [reflexivity|]. rewrite E1. rec_simpl. split_and!; done.
Qed.

(** One turn of the loop. *)
Lemma rcv_step_ok fuel m cur next l s mark len stop :
  holds (so_rcv (p_so s)) (m :: cur) next -> Forall plain_data (m :: cur) -> plain_call l -> inv s ->
  mark = so_oobmark (p_so s) -> 0 <= mark < 4294967296 -> 0 < uio_resid (rl_uio l) < 2147483648 ->
  len = Z.min (to_mark mark (uio_resid (rl_uio l))) (m_len m) -> stop = negb (mark =? 0) && (mark =? len) ->
  exists x' l' s', rcv_data (S fuel) false (mkRcvp (m :: cur) next 0 0) l s = (if stop : bool then Ret (false, x', l', s') else rcv_data fuel false x' l' s') /\
    inv s' /\ taken s (m :: cur) next l len s' x' l' /\ so_oobmark (p_so s') = (if mark =? 0 then 0 else mark - len) /\
    hasf (so_state (p_so s')) SS_RCVATMARK = stop /\ (len = m_len m -> rp_cur x' = cur).
Proof.
  intros Hh Hp Hc Hi Em Hm Hr El Es. pose proof Hp as [[D1 D2] _]%Forall_cons_iff. pose proof (zlen_nonneg (m_bytes m)) as Hz. unfold m_len in *.
  assert (Hlen : 0 <= len <= zlen (m_bytes m) /\ len <= uio_resid (rl_uio l) /\ (mark <> 0 -> len <= mark)).
  { rewrite El. unfold to_mark. destruct (Z.eqb_spec mark 0); lia. }
  cbn [rcv_data rp_cur rp_moff rp_offset]. destruct (Z.ltb_spec 0 (uio_resid (rl_uio l))); [|lia]. rewrite (pc_error _ Hc). cbn [Z.eqb negb orb].
  destruct (Z.eqb_spec (m_type m) MT_OOBDATA); [done|]. cbn [Bool.eqb negb].
  set (s0 := upd_so _ s). assert (E0 : p_so s0 = (p_so s) <| so_state := clrb (so_state (p_so s)) SS_RCVATMARK |>) by apply so_setso.
  assert (Hrest : rest_of (p_so s0) = rest_of (p_so s)).
  { rewrite E0. apply rest_clr. }
  assert (E1 : (let len := uio_resid (rl_uio l) in let mark := so_oobmark (p_so s0) in
     let len := if negb (mark =? 0) && (u32 (mark - 0) <? u32 len) then u32 (mark - 0) else len in
     if m_len m - 0 <? len then m_len m - 0 else len) = len).
  { cbv zeta. rewrite E0. rec_simpl. rewrite <- Em, !Z.sub_0_r, (u32_id (uio_resid _)), (u32_id mark) by lia.
    rewrite El. unfold to_mark, m_len. destruct (Z.eqb_spec mark 0); cbn [negb andb]; [|destruct (Z.ltb_spec mark (uio_resid (rl_uio l)))];
    match goal with |- context [if ?a <? ?b then _ else _] => destruct (Z.ltb_spec a b) end; lia. }
  cbv zeta in E1. cbv zeta. rewrite E1. clear E1.
  assert (H0s : same s s0) by by apply same_setso; [|apply rest_clr].
  destruct (rcv_piece_ok m cur next l s0 len) as (x & l' & s1 & E & I1 & T1 & M1 & S1 & _ & Hcur); try done; try (unfold m_len; lia); [by rewrite E0|by apply inv_so; [|apply rest_clr]|].
  rewrite E. cbn [obind]. rewrite E0 in M1, S1. destruct (tk_call _ _ _ _ _ _ _ _ T1) as [C1 C2 (F1 & F2 & F3) C4]. cbn in M1, S1. rewrite <- Em in M1.
  destruct (rcv_mark_ok len x l' s1) as (s2 & stop' & E2 & E3 & I2 & H12 & M2 & S2); try done; try (rewrite M1; lia);
    [lia|by rewrite S1, hasf_clrb, hasf_0|]. rewrite E2, F2, orb_false_r. rewrite M1, <- Es in E3. rewrite M1 in M2. rewrite E3 in *.
  exists x, l', s2. assert (taken s (m :: cur) next l len s2 x l') by (by eapply taken_from, taken_to).
  split; [|split_and!; done]. destruct stop; [done|]. cbn [rcv_waitall]. rewrite F3. by destruct (rp_cur x), (rp_next x).
Qed.

Lemma mark_now so so' n : 0 <= n -> so_oobmark so' = (if so_oobmark so =? 0 then 0 else so_oobmark so - n) ->
  hasf (so_state so') SS_RCVATMARK = negb (so_oobmark so =? 0) && (so_oobmark so =? n) -> mark_moved so so' n.
Proof. intros Hn E1 E2. split_and!; try done. rewrite E2. intros -> ?. by destruct (so_oobmark so =? 0). Qed.

Lemma mark_trans so so1 so' n1 n2 : 0 <= n1 -> 0 <= n2 -> so_oobmark so1 = (if so_oobmark so =? 0 then 0 else so_oobmark so - n1) ->
  hasf (so_state so1) SS_RCVATMARK = false -> negb (so_oobmark so =? 0) && (so_oobmark so =? n1) = false -> mark_moved so1 so' n2 ->
  mark_moved so so' (n1 + n2).
Proof.
  intros Hn1 Hn2 E1 S1 Es (A1 & A2 & A3). assert (Hat : 0 < n1 + n2 -> hasf (so_state so') SS_RCVATMARK = negb (so_oobmark so =? 0) && (so_oobmark so =? n1 + n2)).
  { intros Hp. destruct (Z.eq_dec n2 0) as [->|Hz].
    - rewrite Z.add_0_r, Es. destruct (hasf (so_state so') SS_RCVATMARK); [|done]. rewrite S1 in A3. by specialize (A3 eq_refl eq_refl).
    - rewrite A2, E1 by lia. destruct (Z.eqb_spec (so_oobmark so) 0); [done|]. cbn [negb andb] in *. apply Z.eqb_neq in Es.
      destruct (Z.eqb_spec (so_oobmark so - n1) 0), (Z.eqb_spec (so_oobmark so - n1) n2), (Z.eqb_spec (so_oobmark so) (n1 + n2)); done || lia. }
  split_and!; [|done|intros ? Ha; assert (n2 = 0) as -> by lia; rewrite S1 in A3; by specialize (A3 eq_refl Ha)].
  rewrite A1, E1. destruct (Z.eqb_spec (so_oobmark so) 0); [done|]. cbn [negb andb] in Es. apply Z.eqb_neq in Es. destruct (Z.eqb_spec (so_oobmark so - n1) 0); lia.
Qed.

Definition rcv_amount (so : socket) (resid : Z) (cur : chain) : Z := Z.min (to_mark (so_oobmark so) resid) (chain_len cur).

(** The loop delivers what is asked for, up to the mark and the end of the record. *)
Lemma rcv_data_ok fuel : forall cur next l s,
  holds (so_rcv (p_so s)) cur next -> Forall plain_data cur -> plain_call l -> inv s -> (length cur < fuel)%nat ->
  0 <= so_oobmark (p_so s) < 4294967296 -> 0 <= uio_resid (rl_uio l) < 2147483648 ->
  exists x' l' s', rcv_data fuel false (mkRcvp cur next 0 0) l s = Ret (false, x', l', s') /\ inv s' /\
    taken s cur next l (rcv_amount (p_so s) (uio_resid (rl_uio l)) cur) s' x' l' /\
    mark_moved (p_so s) (p_so s') (rcv_amount (p_so s) (uio_resid (rl_uio l)) cur).
Proof.
  induction fuel as [|fuel IH]; intros cur next l s Hh Hp Hc Hi Hf Hm Hr; [lia|]. set (n := rcv_amount _ _ _).
  assert (Hdone : n = 0 -> rcv_data (S fuel) false (mkRcvp cur next 0 0) l s = Ret (false, mkRcvp cur next 0 0, l, s) ->
    exists x' l' s', rcv_data (S fuel) false (mkRcvp cur next 0 0) l s = Ret (false, x', l', s') /\ inv s' /\
      taken s cur next l n s' x' l' /\ mark_moved (p_so s) (p_so s') n).
  { intros -> E. eexists _, _, _. split; [exact E|]. split; [done|]. split; [by apply taken_refl|]. split_and!; try done.
    destruct (Z.eqb_spec (so_oobmark (p_so s)) 0); lia. }
  destruct (Z.eq_dec (uio_resid (rl_uio l)) 0) as [Hz|Hz].
  { apply Hdone; [|apply rcv_data_done; [lia|lia]]. unfold n, rcv_amount, to_mark. pose proof (zlen_nonneg (chain_bytes cur)). unfold chain_len. destruct (_ =? 0); lia. }
  destruct cur as [|m cur].
  { apply Hdone; [|done]. unfold n, rcv_amount, to_mark. change (chain_len []) with 0. destruct (_ =? 0); lia. }
  clear Hdone. cbn [length] in Hf.
  destruct (rcv_step_ok fuel m cur next l s _ _ _ Hh Hp Hc Hi eq_refl Hm ltac:(lia) eq_refl eq_refl) as (x & l1 & s1 & E & I1 & T1 & M1 & S1 & Hcur).
  set (len := Z.min _ _) in *. rewrite E. clear E. pose proof (tk_resid _ _ _ _ _ _ _ _ T1) as R1. pose proof (m_len_nonneg m). pose proof (chain_len_nonneg cur).
  assert (Hlen : 0 <= len /\ len <= m_len m /\ len <= uio_resid (rl_uio l) /\ (so_oobmark (p_so s) <> 0 -> len <= so_oobmark (p_so s))).
  { unfold len, to_mark. destruct (Z.eqb_spec (so_oobmark (p_so s)) 0); lia. }
  destruct (negb _ && _) eqn:Estop.
  - assert (n = len) as ->; [|exists x, l1, s1; split_and!; try done; apply mark_now; [lia|done|by rewrite Estop]].
    apply andb_true_iff in Estop as [?%negb_true_iff%Z.eqb_neq ?%Z.eqb_eq]. unfold n, rcv_amount. rewrite chain_len_cons. unfold len, to_mark in *.
    destruct (Z.eqb_spec (so_oobmark (p_so s)) 0); lia.
  - destruct (Z.eq_dec len (m_len m)) as [El|El].
    + destruct (tk_x _ _ _ _ _ _ _ _ T1) as (X1 & X2 & X3). assert (x = mkRcvp cur next 0 0) as -> by (rewrite <- (Hcur El), <- X1, <- X2, <- X3 at 1; by destruct x).
      pose proof (tk_holds _ _ _ _ _ _ _ _ T1) as Hh1. cbn [rp_cur] in Hh1. apply Forall_cons_iff in Hp as [_ Hp].
      destruct (IH cur next l1 s1) as (x2 & l2 & s2 & E & I2 & T2 & M2); try done; [apply T1|lia|rewrite M1; destruct (Z.eqb_spec (so_oobmark (p_so s)) 0); lia|lia|].
      assert (n = len + rcv_amount (p_so s1) (uio_resid (rl_uio l1)) cur) as ->.
      { unfold n, rcv_amount. rewrite R1, M1, chain_len_cons. unfold to_mark in *. destruct (Z.eqb_spec (so_oobmark (p_so s)) 0); cbn [Z.eqb]; [lia|].
        cbn [negb andb] in Estop. apply Z.eqb_neq in Estop. destruct (Z.eqb_spec (so_oobmark (p_so s) - len) 0); lia. }
      assert (0 <= rcv_amount (p_so s1) (uio_resid (rl_uio l1)) cur).
      { unfold rcv_amount, to_mark. rewrite M1. destruct (Z.eqb_spec (so_oobmark (p_so s)) 0); [cbn [Z.eqb]; lia|]. destruct (_ =? 0); lia. }
      exists x2, l2, s2. split_and!; try done; [|eapply mark_trans; [| |exact M1|done..]; lia].
      eapply taken_trans; [|..|exact T1|exact T2]; [rewrite chain_len_cons; lia|lia].
    + assert (len = uio_resid (rl_uio l)) as Hlr.
      { unfold len, to_mark in *. destruct (Z.eqb_spec (so_oobmark (p_so s)) 0); cbn [negb andb] in Estop; [lia|]. apply Z.eqb_neq in Estop. lia. }
      rewrite rcv_data_done by lia. assert (n = len) as ->; [|exists x, l1, s1; split_and!; try done; apply mark_now; [lia|done|by rewrite Estop]].
      unfold n, rcv_amount. rewrite chain_len_cons. fold (rcv_amount (p_so s) (uio_resid (rl_uio l)) cur). unfold len, to_mark in *. destruct (Z.eqb_spec (so_oobmark (p_so s)) 0); lia.
Qed.

(** ** A read from a stream *)

(** What soreceive needs of a protocol for streams: after PRU_RCVD the receive buffer is as
    before. *)
Record kept (so so' : socket) : Prop := {
  kp_rcv : so_rcv so' = so_rcv so;
  kp_mark : so_oobmark so' = so_oobmark so;
  kp_state : so_state so' = so_state so;
  kp_error : so_error so' = so_error so
}.
Record reading_proto : Prop := {
  rd_atomic : hasf pr_flags PR_ATOMIC = false;
  rd_addr : hasf pr_flags PR_ADDR = false;
  rd_error : forall s, inv s -> inv (upd_so (fun so => so <| so_error := 0 |>) s);
  rd_rcvd : forall fl s, inv s -> exists e s', pr_usrreq (PRU_RCVD fl) s = Ret (e, s') /\ inv s' /\ kept (p_so s) (p_so s')
}.
Context (RP : reading_proto).

(** The buffer after the loop. *)
Definition left_in (x : rcvp) (sb : sockbuf) : sockbuf := sb <| sb_mb := match rp_cur x with [] => rp_next x | m => m :: rp_next x end |>.

Lemma rcv_finish_ok x l s : plain_call l -> inv s ->
  exists s', rcv_finish x l s = Ret (l, s') /\ inv s' /\ kept ((p_so s) <| so_rcv := left_in x (so_rcv (p_so s)) |>) (p_so s').
Proof.
  intros [_ _ (F1 & _) _] Hi. unfold rcv_finish. rewrite F1, (rd_atomic RP). cbn [negb andb]. set (s1 := upd_sb false _ s).
  assert (E1 : p_so s1 = (p_so s) <| so_rcv := left_in x (so_rcv (p_so s)) |>) by apply so_setso. assert (I1 : inv s1) by by apply inv_so.
  assert (E : match rp_cur x with [] => (l, s1) | _ => (l, s1) end = (l, s1)) by by destruct (rp_cur x). rewrite E, <- E1.
  destruct (hasf pr_flags PR_WANTRCVD && p_pcb s1).
  - destruct (rd_rcvd RP (rl_flags l) s1 I1) as (e & s' & -> & I' & K). eexists. split; [reflexivity|]. done.
  - eexists. split; [reflexivity|]. done.
Qed.

Lemma holds_left x sb n bytes : holds sb (rp_cur x) (rp_next x) -> 0 <= n <= zlen bytes -> chain_bytes (rp_cur x) = zdrop n bytes ->
  sb_inv (left_in x sb) /\ sb_bytes (left_in x sb) = zdrop n (bytes ++ chain_bytes (concat (rp_next x))).
Proof.
  intros Hh Hn Hb. unfold left_in. rewrite zdrop_app_le, <- Hb by lia. destruct (rp_cur x) as [|m cur] eqn:E.
  - split; [|done]. destruct Hh. split; rec_simpl; try done.
  - split; [by apply holds_inv|]. unfold sb_bytes, sb_chain. rec_simpl. cbn [concat]. by rewrite chain_bytes_app.
Qed.

(** One record: the user gets [n] bytes of it and they leave the buffer. *)
Record record_read (s : T) (l : rcvl) (n : Z) (s' : T) (l' : rcvl) : Prop := {
  rr_out : uio_out (rl_uio l') = uio_out (rl_uio l) ++ ztake n (sb_bytes (so_rcv (p_so s)));
  rr_resid : uio_resid (rl_uio l') = uio_resid (rl_uio l) - n;
  rr_call : plain_call l' /\ l' = l <| rl_uio := rl_uio l' |>;
  rr_bytes : sb_bytes (so_rcv (p_so s')) = zdrop n (sb_bytes (so_rcv (p_so s)));
  rr_inv : sb_inv (so_rcv (p_so s'));
  rr_limits : sb_limits (so_rcv (p_so s')) = sb_limits (so_rcv (p_so s));
  rr_mark : mark_moved (p_so s) (p_so s') n;
  rr_state : clrb (so_state (p_so s')) SS_RCVATMARK = clrb (so_state (p_so s)) SS_RCVATMARK /\ so_error (p_so s') = so_error (p_so s)
}.

Lemma rcv_record_ok fuel wa wc l s cur next :
  sb_mb (so_rcv (p_so s)) = cur :: next -> sb_inv (so_rcv (p_so s)) -> Forall plain_data cur -> plain_call l -> inv s -> (length cur < fuel)%nat ->
  0 <= so_oobmark (p_so s) < 4294967296 -> 0 <= uio_resid (rl_uio l) < 2147483648 ->
  exists l' s', rcv_record fuel wa wc l s = Ret (false, l', s') /\ inv s' /\ record_read s l (rcv_amount (p_so s) (uio_resid (rl_uio l)) cur) s' l'.
Proof.
  intros Emb Hinv Hp Hc Hi Hf Hm Hr. pose proof (inv_holds _ Hinv) as Hh. unfold rcv_record. rewrite Emb in *. rewrite (rd_addr RP). cbn [obind].
  destruct cur as [|m cur]; [by apply inv_rec in Hinv; rewrite Emb in Hinv; apply Forall_cons_iff in Hinv as [? _]|].
  pose proof Hp as [[D1 [D2 D3]] _]%Forall_cons_iff. cbn [rcv_control]. destruct (Z.eqb_spec (m_type m) MT_CONTROL) as [?|_]; [done|]. cbn [negb obind].
  destruct (Z.eqb_spec (m_type m) MT_OOBDATA) as [?|_]; [done|]. set (n := rcv_amount _ _ _).
  assert (Hn : 0 <= n <= zlen (chain_bytes (m :: cur))).
  { pose proof (chain_len_nonneg (m :: cur)). unfold n, rcv_amount, to_mark, chain_len in *. destruct (Z.eqb_spec (so_oobmark (p_so s)) 0); lia. }
  destruct (rcv_data_ok fuel (m :: cur) next l s) as (x & l' & s1 & -> & I1 & T1 & M1); try done. cbn [obind]. fold n in T1, M1. destruct T1 as [A1 A2 A3 A4 (A5 & _) A6 A7 A8 A9 A10 A11 A12].
  destruct (rcv_finish_ok x l' s1 A3 I1) as (s2 & -> & I2 & [K1 K2 K3 K4]). cbn [obind]. exists l', s2. split; [done|]. split; [done|].
  assert (Eb : sb_bytes (so_rcv (p_so s)) = chain_bytes (m :: cur) ++ chain_bytes (concat next)) by (unfold sb_bytes, sb_chain; rewrite Emb; cbn [concat]; apply chain_bytes_app).
  rewrite <- A5 in A8. destruct (holds_left x _ n _ A8 Hn A6) as [Hl1 Hl2]. rewrite A5 in Hl2.
  unfold rest_of in A12. rec_simpl_in K1. rec_simpl_in K2. rec_simpl_in K3. rec_simpl_in K4. split; rewrite ?K1, ?Eb; try done.
  - rewrite A1. by rewrite ztake_app_le by lia.
  - destruct M1 as (B1 & B2 & B3). by unfold mark_moved; rewrite K2, K3.
  - rewrite K3, K4. split; congruence.
Qed.

(** What a call returns that finds no data and does not wait. *)
Definition empty_result (resid : Z) (so : socket) : Z :=
  if negb (so_error so =? 0) then so_error so
  else if hasf (so_state so) SS_CANTRCVMORE then 0
  else if negb (hasf (so_state so) (setb SS_ISCONNECTED SS_ISCONNECTING)) && hasf pr_flags PR_CONNREQUIRED then ENOTCONN
  else if resid =? 0 then 0 else EWOULDBLOCK.

Lemma rcv_check_data flags resid so cur next : sb_mb (so_rcv so) = cur :: next -> sb_inv (so_rcv so) -> 0 < chain_len cur -> zlen (sb_bytes (so_rcv so)) < 4294967296 ->
  hasf flags MSG_WAITALL = false -> hasf flags MSG_DONTWAIT = true \/ u32 (sb_lowat (so_rcv so)) <= 1 -> rcv_check flags resid so = Rcvok.
Proof.
  intros E Hi Hl Hz Hw Hlow. unfold rcv_check, rcv_must_wait. rewrite E, Hw. cbn [andb orb]. rewrite orb_false_r. destruct Hlow as [->|Hlow]; [done|].
  assert (Hcc : 1 <= sb_cc (so_rcv so)).
  { rewrite (inv_cc _ Hi), u32_id by (split; [apply zlen_nonneg|done]). unfold sb_bytes, sb_chain. rewrite E. cbn [concat]. rewrite chain_bytes_app, zlen_app.
    pose proof (zlen_nonneg (chain_bytes (concat next))). unfold chain_len in Hl. lia. }
  destruct (Z.ltb_spec (sb_cc (so_rcv so)) (u32 (sb_lowat (so_rcv so)))); [lia|]. by rewrite andb_false_r.
Qed.

Definition no_wait (flags : Z) (so : socket) : bool :=
  hasf (so_state so) SS_NBIO || hasf flags MSG_DONTWAIT || hasf (so_state so) SS_CANTRCVMORE || negb (so_error so =? 0).

Lemma rcv_check_empty flags resid so : sb_mb (so_rcv so) = [] -> no_wait flags so = true -> hasf flags MSG_PEEK = false ->
  exists clear, rcv_check flags resid so = Rcverr (empty_result resid so) clear /\ clear = negb (so_error so =? 0).
Proof.
  intros E Hn Hp. unfold rcv_check, rcv_must_wait, no_wait, empty_result in *. rewrite E, Hp. cbn [negb existsb].
  destruct (so_error so =? 0); cbn [negb orb] in *; [rewrite orb_false_r in Hn|by eexists]. destruct (hasf (so_state so) SS_CANTRCVMORE); [by eexists|]. rewrite orb_false_r in Hn.
  destruct (_ && _); [by eexists|]. destruct (resid =? 0); [by eexists|]. rewrite Hn. by eexists.
Qed.

(** A receive buffer that a stream is read from: unlocked, with ordinary data in every record. *)
Record stream_buf (flags : Z) (so : socket) : Prop := {
  sbu_inv : sb_inv (so_rcv so);
  sbu_plain : Forall plain_data (sb_chain (so_rcv so));
  sbu_data : Forall (fun r => 0 < chain_len r) (sb_mb (so_rcv so));
  sbu_size : zlen (sb_bytes (so_rcv so)) < 4294967296;
  sbu_lock : hasf (sb_flags (so_rcv so)) SB_LOCK = false;
  sbu_lowat : hasf flags MSG_DONTWAIT = true \/ u32 (sb_lowat (so_rcv so)) <= 1;
  sbu_mark : 0 <= so_oobmark so < 4294967296;
  sbu_state : hasf (so_state so) SS_ISCONFIRMING = false
}.

(** Up to the test of what there is. *)
Definition rcv_locked (fuel : nat) (wantaddr wantctl : bool) (orig_resid : Z) (l : rcvl) (s : T) : outcome (Z * rcvl * T) :=
  match rcv_check (rl_flags l) (uio_resid (rl_uio l)) (p_so s) with
  | Rcverr error clear =>
      let s := if clear then upd_so (fun so => so <| so_error := 0 |>) s else s in Ret (error, l, sbunlock false s)
  | Rcvwait =>
      let '(error, s) := sbwait false (sbunlock false s) in
      if negb (error =? 0) then Ret (error, l, s) else rcv_loop (Nat.pred fuel) wantaddr wantctl orig_resid l s
  | Rcvok =>
      let! (ret, l, s) := rcv_record fuel wantaddr wantctl l s in
      if ret then Ret (0, l, s)
      else
        let orig_resid := if rl_keep l then orig_resid else 0 in
        if (orig_resid =? uio_resid (rl_uio l)) && negb (orig_resid =? 0) && negb (hasf (rl_flags l) MSG_EOR) &&
           negb (hasf (so_state (p_so s)) SS_CANTRCVMORE)
        then rcv_loop (Nat.pred fuel) wantaddr wantctl orig_resid l (sbunlock false s)
        else Ret (rl_error l, l, sbunlock false s)
  end.

Lemma soreceive_start fuel wantaddr wantctl flags u s :
  hasf flags (setb MSG_OOB (setb MSG_PEEK MSG_WAITALL)) = false -> uio_ok u -> inv s -> stream_buf flags (p_so s) -> (0 < fuel)%nat ->
  exists s1 l, soreceive fuel wantaddr false wantctl flags u s = rcv_locked fuel wantaddr wantctl (uio_resid u) l s1 /\
    p_so s1 = (p_so s) <| so_rcv := (so_rcv (p_so s)) <| sb_flags := setb (sb_flags (so_rcv (p_so s))) SB_LOCK |> |> /\ inv s1 /\ plain_call l /\
    l = mkRcvl [] [] None (clrb flags MSG_EOR) u 0 true.
Proof.
  intros Hfl Hu Hi [B1 B2 B3 B4 B5 B6 B7 B8] Hf. change (setb MSG_OOB (setb MSG_PEEK MSG_WAITALL)) with (Z.lor MSG_OOB (Z.lor MSG_PEEK MSG_WAITALL)) in Hfl.
  rewrite !hasf_lor in Hfl. apply orb_false_iff in Hfl as [F1 [F2 F3]%orb_false_iff]. unfold soreceive. rewrite hasf_clrb. change (clrb MSG_OOB MSG_EOR) with MSG_OOB.
  rewrite F1, B8. cbn [andb obind]. destruct fuel as [|fuel]; [lia|]. cbn [rcv_loop]. unfold sblock, p_sb. cbn [side_get]. rewrite B5. cbn [obind].
  eexists _, _. split; [reflexivity|]. split; [apply so_setso|]. split; [by apply inv_so|]. split; [|done].
  split; try done. change (hasf (clrb flags MSG_EOR) MSG_PEEK = false /\ hasf (clrb flags MSG_EOR) MSG_EOR = false /\ hasf (clrb flags MSG_EOR) MSG_WAITALL = false).
  rewrite !hasf_clrb. change (clrb MSG_PEEK MSG_EOR) with MSG_PEEK. change (clrb MSG_WAITALL MSG_EOR) with MSG_WAITALL.
  change (clrb MSG_EOR MSG_EOR) with 0. by rewrite hasf_0.
Qed.

(** soreceive on a stream protocol, for a call that neither peeks nor asks for urgent data
    or for all.  When there is data, the user gets the bytes at the front of the receive
    buffer, as many as were asked for up to the out-of-band mark and the end of the record,
    at least one when any was asked for, and exactly these bytes leave the buffer; the mark
    moves by as many and the socket is at the mark exactly when it was reached.  When there is
    none and the call does not wait, it returns the pending error and clears it, or 0 at end
    of file, or ENOTCONN or EWOULDBLOCK, and the buffer stays empty. *)
Lemma soreceive_stream fuel wantaddr wantctl flags u s :
  hasf flags (setb MSG_OOB (setb MSG_PEEK MSG_WAITALL)) = false -> uio_ok u -> uio_resid u < 2147483648 -> inv s -> stream_buf flags (p_so s) ->
  (length (sb_chain (so_rcv (p_so s))) < fuel)%nat ->
  match sb_mb (so_rcv (p_so s)) with
  | cur :: _ =>
      exists l s', let n := rcv_amount (p_so s) (uio_resid u) cur in
        soreceive fuel wantaddr false wantctl flags u s = Ret (0, l, s') /\ inv s' /\
        uio_out (rl_uio l) = uio_out u ++ ztake n (sb_bytes (so_rcv (p_so s))) /\ sb_bytes (so_rcv (p_so s')) = zdrop n (sb_bytes (so_rcv (p_so s))) /\
        sb_inv (so_rcv (p_so s')) /\ (0 < uio_resid u -> 0 < n) /\ uio_resid (rl_uio l) = uio_resid u - n /\ mark_moved (p_so s) (p_so s') n
  | [] =>
      no_wait flags (p_so s) = true ->
      exists l s', soreceive fuel wantaddr false wantctl flags u s = Ret (empty_result (uio_resid u) (p_so s), l, s') /\ inv s' /\
        rl_uio l = u /\ sb_mb (so_rcv (p_so s')) = [] /\ so_error (p_so s') = 0
  end.
Proof.
  intros Hfl Hu Hr Hi HB Hf. destruct (soreceive_start fuel wantaddr wantctl flags u s) as (s1 & l & Es & E1 & I1 & Hl & El); try done; [lia|]. rewrite Es. clear Es. pose proof HB as [B1 B2 B3 B4 B5 B6 B7 B8].
  assert (HB1 : sb_inv (so_rcv (p_so s1))) by (rewrite E1; destruct B1; by split). pose proof Hl as [_ _ (F1 & F2 & F3) _].
  assert (Hdw : hasf (rl_flags l) MSG_DONTWAIT = hasf flags MSG_DONTWAIT) by (rewrite El; apply hasf_clrb).
  assert (Eu : rl_uio l = u) by by rewrite El. unfold rcv_locked. destruct (sb_mb (so_rcv (p_so s))) as [|cur next] eqn:Emb.
  - intros Hnw. destruct (rcv_check_empty (rl_flags l) (uio_resid (rl_uio l)) (p_so s1)) as (c & -> & Ec); [by rewrite E1|unfold no_wait in *; by rewrite E1, Hdw|done|].
    rewrite Eu. change (empty_result (uio_resid u) (p_so s)) with (empty_result (uio_resid u) ((p_so s) <| so_rcv := (so_rcv (p_so s)) <| sb_flags := setb (sb_flags (so_rcv (p_so s))) SB_LOCK |> |>)).
    rewrite <- E1. eexists _, _. split; [reflexivity|]. set (s2 := if c then _ else _). assert (I2 : inv s2) by (unfold s2; destruct c; [by apply (rd_error RP)|done]).
    split; [by apply inv_so|]. split; [done|]. unfold sbunlock, upd_sb, upd_so. rewrite so_setso. cbn [side_set side_get]. rec_simpl. unfold s2. rewrite Ec.
    destruct (Z.eqb_spec (so_error (p_so s1)) 0) as [Ez|Ez]; cbn [negb]; unfold upd_so; rewrite ?so_setso; rec_simpl; rewrite ?E1; [|done]. split; [done|]. by rewrite <- E1.
  - rewrite (rcv_check_data _ _ _ cur next); try (rewrite E1; done); try done; [|by apply Forall_cons_iff in B3 as [? _]|rewrite Hdw; by rewrite E1].
    assert (Em : so_oobmark (p_so s1) = so_oobmark (p_so s)) by by rewrite E1.
    apply Forall_cons_iff in B3 as [Hcur _]. unfold sb_chain in B2, Hf. rewrite Emb in B2, Hf. cbn [concat] in B2, Hf. apply Forall_app in B2 as [B2 _]. rewrite length_app in Hf.
    destruct (rcv_record_ok fuel wantaddr wantctl l s1 cur next) as (l' & s2 & -> & I2 & [R1 R2 [R3 R3'] R4 R5 R6 R7 R8]); try done;
      [by rewrite E1|lia|by rewrite Em|rewrite Eu, (uo_resid _ Hu); pose proof (zlen_nonneg (user u)); rewrite (uo_resid _ Hu) in Hr; lia|].
    unfold rcv_amount in *. rewrite Em, Eu in *. fold (rcv_amount (p_so s) (uio_resid u) cur) in *. set (n := rcv_amount _ _ _) in *.
    assert (Hpos : 0 < uio_resid u -> 0 < n) by (unfold n, rcv_amount, to_mark; destruct (Z.eqb_spec (so_oobmark (p_so s)) 0); lia).
    cbn [obind]. assert (Ek : rl_keep l' = true) by (rewrite R3', El; done). rewrite Ek, R2.
    match goal with |- context [if ?b then rcv_loop _ _ _ _ _ _ else _] => assert (b = false) as -> end.
    { destruct (Z.eqb_spec (uio_resid u) 0) as [Ez|Ez]; [by rewrite andb_false_r|]. pose proof (nonneg_resid u Hu). destruct (Z.eqb_spec (uio_resid u) (uio_resid u - n)); [lia|done]. }
    rewrite (pc_error _ R3). eexists _, _. split; [reflexivity|]. unfold sbunlock, upd_sb, upd_so. rewrite so_setso. cbn [side_set side_get]. rewrite E1 in R1, R4, R7.
    split_and!; try done; [by apply inv_so|by destruct R5|apply R7..].
Qed.

End Receive.

End SoCallOk.
