(* ===== verification/SoTcp.v ===== *)
(** TCP as a protocol of the socket layer (src/sys/netinet/in_proto.c, the beginning of
    tcp_usrreq in tcp_usrreq.c).

    The state is that of one connection; [gone] says that the socket has lost its pcb.
    [sleep] is what the rest of the kernel does while a process sleeps, and the value that
    tsleep returns. *)
From S2P Require Import Prelude Mbuf SockBuf Socket TcpVar InPcb TcpHdr TcpSubr TcpOutput TcpInput TcpTimer TcpUsrreq SoCall.
Import Mbuf SockBuf Socket TcpVar InPcb TcpHdr TcpSubr TcpOutput TcpInput TcpTimer SoCall.

Module SoTcp.

Definition flip_result (r : outcome (kst * Z)) : outcome (Z * kst) := let! (k, error) := r in Ret (error, k).

(** The data and the control data of a request. *)
Definition req_data (req : request) : chain := match req with PRU_SEND m _ _ | PRU_SENDOOB m _ _ => m | _ => [] end.
Definition req_control (req : request) : chain := match req with PRU_SEND _ _ c | PRU_SENDOOB _ _ c => c | _ => [] end.

(** The requests of the socket layer: TCP takes no control data, and a socket without a pcb
    takes no request. *)
Definition tcp_request (e : TcpUsrreq.uenv) (req : request) (k : kst) : outcome (Z * kst) :=
  if match req_control req with c :: _ => negb (m_len c =? 0) | [] => false end
  then Ret (EINVAL, k <| pool := m_freem (m_freem (pool k) (req_control req)) (req_data req) |>)
  else if gone k then Ret (EINVAL, k <| pool := m_freem (pool k) (req_data req) |>)
  else
    let usrreq r := flip_result (TcpUsrreq.tcp_usrreq e k r) in
    match req with
    | PRU_BIND nam => usrreq (TcpUsrreq.PRU_BIND nam)
    | PRU_LISTEN => usrreq TcpUsrreq.PRU_LISTEN
    | PRU_CONNECT None => Panic "tcp_usrreq: no address"
    | PRU_CONNECT (Some (addr, port)) => usrreq (TcpUsrreq.PRU_CONNECT addr port)
    | PRU_DISCONNECT => usrreq TcpUsrreq.PRU_DISCONNECT
    | PRU_SHUTDOWN => usrreq TcpUsrreq.PRU_SHUTDOWN
    | PRU_ACCEPT => Ret (0, k)
    | PRU_RCVD _ => usrreq TcpUsrreq.PRU_RCVD
    | PRU_SEND m _ _ => usrreq (TcpUsrreq.PRU_SEND m)
    | PRU_SENDOOB m _ _ => usrreq (TcpUsrreq.PRU_SENDOOB m)
    | PRU_ABORT => usrreq TcpUsrreq.PRU_ABORT
    | PRU_DETACH => usrreq TcpUsrreq.PRU_DETACH
    end.

Definition tcp_rcvoob (peek : bool) (k : kst) : outcome (Z * list Z * kst) :=
  if gone k then Ret (EINVAL, [], k)
  else Ret match TcpUsrreq.pru_rcvoob k peek with (k, inl error) => (error, [], k) | (k, inr b) => (0, [b], k) end.

(** The entry of TCP in inetsw. *)
Definition tcp_proto (e : TcpUsrreq.uenv) (sleep : kst -> Z * kst) : Proto kst := {|
  pr_flags := Z.lor PR_CONNREQUIRED PR_WANTRCVD;
  p_so := so;
  p_setso := fun s k => k <| so := s |>;
  p_pool := pool;
  p_setpool := fun p k => k <| pool := p |>;
  p_pcb := fun k => negb (gone k);
  pr_usrreq := tcp_request e;
  p_rcvoob := tcp_rcvoob;
  tsleep := sleep
|}.

End SoTcp.
