(* ===== verification/SoTcpOk.v ===== *)
(** The socket layer over TCP: write(2) on an established connection puts the user's bytes at
    the end of the stream that tcp_output sends, and read(2) takes them from the receive
    buffer. *)
From S2P Require Import Prelude Mbuf Cksum SockBuf Socket TcpSeq TcpVar Sample InPcb TcpHdr TcpSubr TcpOutput TcpOutputOk TcpReass TcpInput TcpInputOk TcpStream TcpTimer TcpFsm TcpUsrreq TcpKernel TcpPath SoCall SoCallOk SoTcp.
Import Mbuf Cksum SockBuf Socket TcpSeq TcpVar InPcb TcpHdr TcpSubr TcpOutput TcpOutputOk TcpReass TcpInput TcpInputOk TcpStream TcpTimer TcpFsm TcpKernel TcpPath SoCall SoCallOk SoTcp.

Module SoTcpOk.

(** ** Appending without ends of records *)

Lemma no_eor_land m : no_eor m -> Z.land (m_flags m) M_EOR = 0.
Proof. unfold no_eor, hasf. by intros ?%negb_false_iff%Z.eqb_eq. Qed.

Lemma sbcompress_no_eor m : forall p sb racc p' sb' racc' eor', Forall no_eor m -> Forall no_eor racc ->
  sbcompress_loop p sb racc m 0 = (p', sb', racc', eor') -> eor' = 0 /\ Forall no_eor racc' /\ sb_mb sb' = sb_mb sb.
Proof.
  induction m as [|m1 m IH]; intros p sb racc p' sb' racc' eor' Hm Hr E; cbn [sbcompress_loop] in E; [by simplify_eq|].
  apply Forall_cons_iff in Hm as [H1 Hm]. rewrite (no_eor_land _ H1), Z.lor_0_l in E.
  destruct (_ && _); [by eapply IH|]. assert (Hc : no_eor (m1 <| m_flags := clrb (m_flags m1) M_EOR |>)) by (unfold no_eor; rec_simpl; by rewrite hasf_clrb, hasf_0).
  destruct racc as [|n racc].
  - apply IH in E; [done|done|by constructor].
  - destruct (_ && _ && _).
    + apply IH in E; [done|done|]. apply Forall_cons_iff in Hr as [Hn Hr]. by constructor.
    + apply IH in E; [done|done|by constructor].
Qed.

Lemma sbappend_no_eor p sb m p' sb' : Forall no_eor m -> Forall no_eor (sb_chain sb) -> (length (sb_mb sb) <= 1)%nat -> sbappend p sb m = (p', sb') ->
  Forall no_eor (sb_chain sb') /\ (length (sb_mb sb') <= 1)%nat.
Proof.
  intros Hm Hc Hl E. unfold sbappend in E. destruct m as [|m0 m]; [by simplify_eq|].
  destruct (split_last (sb_mb sb)) as [recs rec] eqn:Es.
  assert (recs = [] /\ Forall no_eor rec) as [-> Hr].
  { unfold sb_chain in Hc. destruct (sb_mb sb) as [|r [|r2 l]]; [| |cbn in Hl; lia]; injection Es as <- <-; [by split; [|constructor]|].
    cbn [concat] in Hc. by rewrite app_nil_r in Hc. }
  assert (existsb (fun n => hasf (m_flags n) M_EOR) rec = false) as Ex.
  { clear Es E. induction Hr as [|n rec Hn Hr IH]; [done|]. cbn [existsb]. unfold no_eor in Hn. rewrite Hn, IH; try done. }
  rewrite Ex in E. unfold sbcompress in E.
  destruct (sbcompress_loop p sb (rev rec) (m0 :: m) 0) as [[[p1 sb1] racc] eor] eqn:Ec.
  apply sbcompress_no_eor in Ec as (-> & Hra & Emb); [|done|by apply Forall_rev].
  set (r := rev _) in E. assert (Hrev : Forall no_eor r) by (unfold r; apply Forall_rev; by destruct racc). clearbody r.
  destruct r as [|r1 r]; simplify_eq; unfold sb_chain; rec_simpl; cbn [app concat length]; [by split; [constructor|lia]|]. by rewrite app_nil_r.
Qed.

(** ** The invariant *)

(** The stream of the connection is [w]: its end that is not acknowledged is in the send
    buffer, and what was sent is part of it. *)
Definition owns (base : Z) (w : list Z) (k : kst) : Prop :=
  Forall (carries base w) (sent k) /\
  (gone k = true \/ exists una nxt mx, snd_ok k una nxt mx /\ base <= una <= base + zlen w /\ sb_bytes (so_snd (so k)) = zdrop (una - base) w).

Definition tcp_accepts (k : kst) (l : list Z) (k' : kst) : Prop := forall base w, owns base w k -> owns base (w ++ l) k'.

Record tcp_live (k : kst) : Prop := {
  tl_gone : gone k = false;
  tl_sync : synced (t_state (tp k));
  tl_fin : hasf (so_state (so k)) SS_CANTSENDMORE = false -> fin_state (t_state (tp k)) = false;
  tl_eor : Forall no_eor (sb_chain (so_snd (so k)));
  tl_ok : exists una nxt mx, snd_ok k una nxt mx
}.

Record tcp_inv (k : kst) : Prop := {
  ti_lowat : 0 < sb_lowat (so_snd (so k));
  ti_hiwat : 0 <= sb_hiwat (so_snd (so k)) < 1000000000;
  ti_sb : sb_inv (so_snd (so k));
  ti_small : zlen (sb_bytes (so_snd (so k))) < 1000000000;
  ti_live : (gone k = true /\ hasf (so_state (so k)) SS_CANTSENDMORE = true) \/ tcp_live k
}.
Definition tcp_sending (k : kst) : Prop := tcp_live k /\ fin_state (t_state (tp k)) = false.
Definition tcp_room (k : kst) : Z := sb_hiwat (so_snd (so k)) - sb_cc (so_snd (so k)).

Lemma carries_app base w l p : carries base w p -> carries base (w ++ l) p.
Proof.
  intros (j & wnd & mss & ack & tm & Hj & Hm & Hs). exists j, wnd, mss, ack, tm. pose proof (zlen_nonneg l). split_and!; [lia|rewrite zlen_app; lia|done|].
  by rewrite ztake_app_le by lia.
Qed.

(** A segment of the end of the stream is one of the stream. *)
Lemma seg_ok_rebase w d base wnd mss ack tm p : 0 <= d <= zlen w -> seg_ok (zdrop d w) (base + d) wnd mss ack tm p -> seg_ok w base (wnd + d) mss ack tm p.
Proof.
  intros Hd [(s & Q1 & Q2 & Q3 & Q4) S2 S3 S4 S5 S6 S7 S8 S9 S10 S11 S12 S13]. split; try done. rewrite zlen_zdrop in Q2, Q3, Q4. exists s. split_and!; [done|lia|lia| |intros Hf; specialize (Q4 Hf); lia].
  intros Hp. destruct (Q3 Hp) as (D1 & D2 & D3). split_and!; [|lia|lia]. rewrite D1 at 1. unfold zsub. rewrite zdrop_zdrop by lia. do 2 f_equal. lia.
Qed.

(** ** Appending to the send buffer *)

Record appended (k : kst) (m : chain) (k1 : kst) : Prop := {
  ap_bytes : sb_bytes (so_snd (so k1)) = sb_bytes (so_snd (so k)) ++ chain_bytes m;
  ap_sb : sb_inv (so_snd (so k1));
  ap_limits : sb_limits (so_snd (so k1)) = sb_limits (so_snd (so k));
  ap_so : so k1 = (so k) <| so_snd := so_snd (so k1) |>;
  ap_k : k1 = k <| pool := pool k1 |> <| so := so k1 |>;
  ap_eor : Forall no_eor (sb_chain (so_snd (so k1))) /\ (length (sb_mb (so_snd (so k1))) <= 1)%nat
}.

Lemma append_snd_ok k m : sb_inv (so_snd (so k)) -> Forall m_wf m -> Forall no_eor m -> Forall no_eor (sb_chain (so_snd (so k))) ->
  (length (sb_mb (so_snd (so k))) <= 1)%nat -> appended k m (TcpUsrreq.append_snd k m).
Proof.
  intros Hi Hw He Hc Hl. unfold TcpUsrreq.append_snd. destruct (sbappend (pool k) (so_snd (so k)) m) as [p sb] eqn:E.
  pose proof (sbappend_no_eor _ _ _ _ _ He Hc Hl E) as Hn. apply sbappend_ok in E as [Q1 Q2 Q3 Q4]; try done. rewrite app_nil_r in Q2. by split.
Qed.

Lemma appended_snd_ok k m k1 una nxt mx : appended k m k1 -> snd_ok k una nxt mx -> fin_state (t_state (tp k)) = false ->
  Forall is_byte (chain_bytes m) -> cc k + chain_len m < 1000000000 -> snd_ok k1 una nxt mx.
Proof.
  intros [A1 A2 A3 A4 A5 [A6 A7]] Hk Hf Hb Hlen. assert (Ec : cc k1 = cc k + chain_len m) by (unfold cc; by rewrite A1, zlen_app).
  pose proof (chain_len_nonneg m). rewrite A5 in *. destruct Hk. split; unfold tf in *; rec_simpl; try done; rewrite ?Ec; try lia.
  - intros Hs. specialize (sk_nofin0 Hs). lia.
  - by rewrite Hf.
  - rec_simpl_in A1. rewrite A1. by apply Forall_app.
Qed.

(** ** Output *)

(** tcp_output sends parts of the stream, and the socket is as before. *)
Lemma output_owns net k k' e base w una nxt mx :
  snd_ok k una nxt mx -> synced (t_state (tp k)) -> base <= una <= base + zlen w -> sb_bytes (so_snd (so k)) = zdrop (una - base) w ->
  Forall (carries base w) (sent k) -> tcp_output net k = Ret (k', e) -> owns base w k'.
Proof.
  intros Hk Hs Hu Hb Hc E. destruct (tcp_output_ok net k una nxt mx Hk Hs) as (k1 & e1 & nxt' & mx' & ps & E1 & K1 & _ & B1 & S1 & P1). rewrite E1 in E. simplify_eq.
  destruct B1 as (B1 & _). split; [|right; exists una, nxt', mx'; by rewrite B1].
  rewrite S1. apply Forall_app. split; [|done]. destruct (output_idlecheck_ok k una nxt mx Hk) as (_ & (B2 & _ & _ & _ & _ & _ & B7 & B8 & _) & _).
  destruct (sk_tmpl _ _ _ _ Hk) as (tm & Et & _). revert P1. apply Forall_impl. intros p Hp. rewrite <- B8 in Et. specialize (Hp tm Et). rewrite B2, Hb, B7 in Hp.
  pose proof (sk_mss _ _ _ _ Hk). assert (Hd : 0 <= una - base <= zlen w) by lia. set (d := una - base) in *. replace una with (base + d) in Hp by lia.
  apply seg_ok_rebase in Hp; [|done].
  eexists (zlen w), _, _, _, _. split; [split; [apply zlen_nonneg|lia]|]. rewrite (ztake_ge (zlen w) w) by lia. split; [|exact Hp]. lia.
Qed.

Lemma output_live net k : tcp_live k -> exists k' e, tcp_output net k = Ret (k', e) /\ tcp_live k' /\ so k' = so k.
Proof.
  intros [L1 L2 L3 L4 (una & nxt & mx & Hk)]. destruct (tcp_output_ok net k una nxt mx Hk L2) as (k1 & e1 & nxt' & mx' & ps & E1 & K1 & _ & B1 & S1 & P1).
  destruct B1 as (B1 & B2 & B3 & B4 & _). exists k1, e1. split; [done|]. split; [|done]. split; rewrite ?B1, ?B4; try done; [|eauto].
  apply tcp_output_keep in E1 as [_ E1]. congruence.
Qed.

(** ** TCP is a protocol for streams *)

Section Proto.
Context (e : TcpUsrreq.uenv) (sleep : kst -> Z * kst).
#[local] Hint Extern 0 (Proto kst) => exact (tcp_proto e sleep) : typeclass_instances.
#[local] Instance tcp_laws : ProtoLaws kst.
Proof. by split. Qed.

(** The socket may change outside the send buffer, and the pool. *)
Record aside (k k' : kst) : Prop := {
  as_queue : sb_queue (so_snd (so k')) = sb_queue (so_snd (so k));
  as_tp : tp k' = tp k;
  as_glob : glob k' = glob k;
  as_sent : sent k' = sent k;
  as_gone : gone k' = gone k;
  as_state : hasf (so_state (so k')) SS_CANTSENDMORE = hasf (so_state (so k)) SS_CANTSENDMORE
}.

Lemma aside_snd_ok k k' una nxt mx : aside k k' -> snd_ok k una nxt mx -> snd_ok k' una nxt mx.
Proof. intros [E1 E2 E3 _ _ _] Hk. eapply snd_ok_ext; [exact Hk|done|..]; unfold tf; rewrite ?E2, ?E3; try done. apply (sk_wnd _ _ _ _ Hk). Qed.

Lemma aside_owns base w k k' : aside k k' -> owns base w k -> owns base w k'.
Proof.
  intros Ha [H1 H2]. pose proof Ha as [E1 E2 E3 E4 E5 _]. split; [by rewrite E4|]. destruct H2 as [H2|(una & nxt & mx & Hk & Hu & Hb)]; [left; congruence|right].
  destruct (queue_eq _ _ E1) as (_ & _ & Eb). exists una, nxt, mx. rewrite Eb. split_and!; try done; try lia. by eapply aside_snd_ok.
Qed.

Lemma aside_live k k' : aside k k' -> tcp_live k -> tcp_live k'.
Proof.
  intros Ha [L1 L2 L3 L4 (una & nxt & mx & Hk)]. pose proof Ha as [E1 E2 E3 E4 E5 E6]. destruct (queue_eq _ _ E1) as (Em & _ & _). split; rewrite ?E2, ?E5, ?E6; try done.
  - unfold sb_chain in *. by rewrite Em.
  - exists una, nxt, mx. by eapply aside_snd_ok.
Qed.

Lemma aside_inv k k' : aside k k' -> tcp_inv k -> tcp_inv k'.
Proof.
  intros Ha [I1 I2 I3 I3' I4]. pose proof Ha as [E1 _ _ _ E5 E6]. pose proof (sb_inv_queue _ _ (eq_sym E1) I3). destruct (queue_eq _ _ E1) as (_ & _ & Eb). unfold sb_queue in E1. injection E1 as E11 E12 E13 E14 E15 E16.
  split; rewrite ?E12, ?E15, ?E5, ?E6, ?Eb; try done. destruct I4 as [I4|I4]; [by left|right]. by eapply aside_live.
Qed.

Lemma aside_still k k' : aside k k' -> hasf (so_state (so k')) SS_NBIO = hasf (so_state (so k)) SS_NBIO -> still tcp_inv tcp_sending tcp_room tcp_accepts k k'.
Proof.
  intros Ha En. split.
  - by apply aside_inv.
  - intros [HL Hf]. split; [by eapply aside_live|]. by rewrite (as_tp _ _ Ha).
  - pose proof (as_queue _ _ Ha) as E1. unfold sb_queue in E1. injection E1 as E11 E12 E13 E14 E15 E16. unfold tcp_room. congruence.
  - intros base w. rewrite app_nil_r. by apply aside_owns.
  - exact En.
Qed.

(** A request to send. *)
Lemma tcp_send_ok m nam k : tcp_inv k -> tcp_sending k -> Forall m_wf m -> Forall no_eor m -> Forall is_byte (chain_bytes m) -> chain_len m <= Z.max 0 (tcp_room k) ->
  exists err k', tcp_request e (PRU_SEND m nam []) k = Ret (err, k') /\ tcp_inv k' /\ tcp_sending k' /\ tcp_room k - chain_len m <= tcp_room k' /\
    so_state (so k') = so_state (so k) /\ tcp_accepts k (chain_bytes m) k'.
Proof.
  intros [I1 I2 I3 I3' I4] [HL Hf] Hw He Hb Hroom. pose proof HL as [L1 L2 L3 L4 (una & nxt & mx & Hk)]. unfold tcp_request. cbn [req_control]. rewrite L1.
  cbn [TcpUsrreq.tcp_usrreq]. unfold TcpUsrreq.pru_send. pose proof (append_snd_ok k m I3 Hw He L4 (sk_one _ _ _ _ Hk)) as Ha. set (k1 := TcpUsrreq.append_snd k m) in *.
  pose proof (sk_cc _ _ _ _ Hk) as Ecc. assert (Hcc : cc k + chain_len m < 1000000000) by (pose proof (sk_small _ _ _ _ Hk); unfold tcp_room in Hroom; rewrite Ecc in Hroom; lia).
  assert (Hk1 : forall una nxt mx, snd_ok k una nxt mx -> snd_ok k1 una nxt mx) by (intros ??? Hk'; by eapply appended_snd_ok).
  pose proof Ha as [A1 A2 A3 A4 A5 [A6 A7]]. assert (T1 : tp k1 = tp k) by by rewrite A5. assert (T2 : so_state (so k1) = so_state (so k)) by by rewrite A4.
  assert (HL1 : tcp_live k1) by (split; rewrite ?T1, ?T2; try done; [by rewrite A5|eauto]).
  destruct (output_live (TcpUsrreq.ue_net e) k1 HL1) as (k2 & err & E & HL2 & S2). rewrite E. exists err, k2. split; [done|].
  assert (Ec : cc k1 = cc k + chain_len m) by (unfold cc; by rewrite A1, zlen_app). pose proof (sk_cc _ _ _ _ (Hk1 _ _ _ Hk)) as Ecc1.
  unfold sb_limits in A3. injection A3 as A31 A32 A33 A34. split; [split; rewrite ?S2, ?A31, ?A33; try done; [unfold cc in *; lia|by right]|].
  split; [split; [done|]; apply tcp_output_keep in E as [E _]; by rewrite E, T1|].
  split; [unfold tcp_room; rewrite S2, A31, Ecc, Ecc1, Ec; lia|]. split; [by rewrite S2|].
  intros base w [Hs [Hg|(una' & nxt' & mx' & Hk' & Hu & Hw')]]; [congruence|]. pose proof (zlen_nonneg (chain_bytes m)).
  eapply (output_owns _ k1); [by apply Hk1|by rewrite T1|rewrite zlen_app; lia|rewrite A1, Hw'; by rewrite zdrop_app_le by lia| |done].
  replace (sent k1) with (sent k) by (by rewrite A5). revert Hs. apply Forall_impl. intros p. apply carries_app.
Qed.

(** What happens while a process sleeps keeps the stream: the connection goes on or is
    closed. *)
Hypothesis sleep_ok : forall k, tcp_inv k -> tcp_inv (sleep k).2 /\ tcp_accepts k [] (sleep k).2.

Lemma tcp_stream_proto : stream_proto tcp_inv tcp_sending tcp_room tcp_accepts.
Proof.
  split.
  - done.
  - intros k base w. by rewrite app_nil_r.
  - intros a b c x y H1 H2 base w Ho. rewrite app_assoc. by apply H2, H1.
  - intros s k (fs & fr & o & ->). apply aside_still; done.
  - intros p k _. apply aside_still; done.
  - intros k []. done.
  - intros k [I1 I2 I3 I3' I4]. unfold tcp_room, sbspace. change (p_so k) with (so k). pose proof (zlen_nonneg (sb_bytes (so_snd (so k)))) as Hz.
    assert (Ec : sb_cc (so_snd (so k)) = zlen (sb_bytes (so_snd (so k)))) by (rewrite (inv_cc _ I3); apply u32_id; lia). rewrite Ec, (s32_id (sb_hiwat _ - _)) by lia.
    rewrite imin_spec by (split; try lia; apply s32_range). lia.
  - intros k [I1 I2 I3 I3' [[_ I4]|I4]] Hc; change (p_so k) with (so k) in Hc; [by rewrite Hc in I4|]. split; [done|]. by apply I4.
  - intros m nam k Hi Hs Hw _ He Hb Hr. destruct (tcp_send_ok m nam k) as (err & k' & E & I' & S' & R' & N' & A'); try done.
    exists err, k', (chain_bytes m). split_and!; try done; [|by left]. unfold nbio. change (hasf (so_state (so k')) SS_NBIO = hasf (so_state (so k)) SS_NBIO). by rewrite N'.
  - apply sleep_ok.
Qed.


Lemma both_so base w k s : tcp_inv k /\ owns base w k -> rest_of s = rest_of (so k) -> tcp_inv (k <| so := s |>) /\ owns base w (k <| so := s |>).
Proof.
  intros [Hi Ho] E. unfold rest_of in E. injection E as E1 _ _ _ E5 _ _.
  assert (Ha : aside k (k <| so := s |>)); [|split; [by eapply aside_inv|by eapply aside_owns]]. split; rec_simpl; try done; [by rewrite E5|].
  change SS_CANTSENDMORE with (clrb SS_CANTSENDMORE SS_RCVATMARK). by rewrite <- !hasf_clrb, E1.
Qed.
Lemma both_pool base w k p : tcp_inv k /\ owns base w k -> mp_fail p = mp_fail (pool k) -> tcp_inv (k <| pool := p |>) /\ owns base w (k <| pool := p |>).
Proof. intros [Hi Ho] _. assert (Ha : aside k (k <| pool := p |>)) by by split. split; [by eapply aside_inv|by eapply aside_owns]. Qed.

Lemma tcp_reading_proto base w : reading_proto (fun k => tcp_inv k /\ owns base w k).
Proof.
  split; [done|done|..].
  - intros k [Hi Ho]. assert (Ha : aside k (upd_so (fun s => s <| so_error := 0 |>) k)) by by split. split; [by eapply aside_inv|by eapply aside_owns].
  - intros fl k [Hi Ho]. change (pr_usrreq (PRU_RCVD fl) k) with (tcp_request e (PRU_RCVD fl) k). unfold tcp_request. cbn [req_control req_data].
    destruct (gone k) eqn:Hg.
    + eexists _, _. split; [reflexivity|]. assert (Ha : aside k (k <| pool := m_freem (pool k) [] |>)) by by split. split; [|done].
      split; [by eapply aside_inv|by eapply aside_owns].
    + pose proof Hi as [I1 I2 I3 I3' I4]. destruct I4 as [[? _]|HL]; [congruence|]. destruct (output_live (TcpUsrreq.ue_net e) k HL) as (k' & err & E & HL' & S').
      cbn [TcpUsrreq.tcp_usrreq]. rewrite E. cbn [obind flip_result]. eexists _, _. split; [reflexivity|]. change (p_so k') with (so k'). change (p_so k) with (so k). rewrite S'. split; [|done].
      split; [split; rewrite ?S'; try done; by right|]. destruct Ho as [Hs [?|(una & nxt & mx & Hk & Hu & Hb)]]; [congruence|].
      eapply output_owns; [exact Hk|apply HL|done|done|done|exact E].
Qed.

Context (kmem_malloc : mpool -> option Z) (max_hdr : Z).

(** C4: write(2) on a TCP connection.  Let the stream of a synchronised connection be [w]: its
    unacknowledged end is in the send buffer and every packet sent is a segment of it.  A call
    of sosend with ordinary flags (no MSG_OOB and no MSG_EOR), on user memory without faults, and
    with whatever happens during a sleep keeping the connection's invariant and stream, never
    panics; when it returns, the stream has become [w ++ l] for a prefix [l] of the user's
    bytes, with every packet sent before and during the call a correct segment of it.  A call
    that returns 0 has taken all bytes; only an error can leave bytes [y] copied in and not
    taken.  A call on a nonblocking, unlocked socket always ends. *)
Theorem tcp_write fuel nam u flags k base w :
  ordinary flags -> uio_ok u -> Forall is_byte (user u) -> uio_resid u < 2147483648 -> tcp_inv k -> owns base w k ->
  match sosend kmem_malloc max_hdr fuel nam (Some u) [] None flags k with
  | Ret (err, Some u', k') => exists l y, user u = l ++ y ++ user u' /\ owns base (w ++ l) k' /\ tcp_inv k' /\ uio_ok u' /\
      (err = 0 -> y = [] /\ user u' = [])
  | Ret (_, None, _) => False
  | Panic _ => False
  | OutOfFuel => hasf (so_state (so k)) SS_NBIO = false \/ hasf (sb_flags (so_snd (so k))) SB_LOCK = true \/ Z.of_nat fuel <= uio_resid u
  end.
Proof.
  intros Hf Hu Hb Hr Hi Ho. pose proof (sosend_stream kmem_malloc max_hdr _ _ _ _ tcp_stream_proto fuel nam u flags k Hf Hu Hb Hr Hi) as H.
  destruct (sosend _ _ _ _ _ _ _ _ _) as [[[err [u'|]] k']| |]; [|done|done|exact H].
  destruct H as (l & y & H1 & H2 & H3 & H4 & H5). exists l, y. split_and!; try done. by apply H2.
Qed.

(** C3: what is written arrives.  When a write returns 0 and a network that may lose, repeat
    and reorder packets and lay them out over mbufs in any way that keeps the headers together
    brings copies of data packets of the connection, those of the write and earlier ones, to
    tcp_input of the other host, the receive buffer of the peer's established connection
    grows by exactly the bytes of the stream, ending with the bytes of the write, at those
    positions, in order and each once; as soon as the copies cover the stream up to [m], all
    of it has arrived.  The packets have no FIN and no urgent pointer, lie in the window that
    the receiver offered, acknowledge nothing that is new to it, and do not go back in their
    timestamps. *)
Theorem write_arrives fuel nam u u' flags k k' base w :
  ordinary flags -> uio_ok u -> Forall is_byte (user u) -> uio_resid u < 2147483648 -> tcp_inv k -> owns base w k ->
  sosend kmem_malloc max_hdr fuel nam (Some u) [] None flags k = Ret (0, Some u', k') -> zlen (w ++ user u) < 1000000000 ->
  forall E K c n hi runa rnxt rmx ys m,
    ready K c n hi runa rnxt rmx -> base <= n -> n - base < 268435456 ->
    Forall (copies base (w ++ user u) hi runa (c_inp c) (sent k')) ys -> in_time (ts_recent (c_tp c)) ys.*1.*2 ->
    (forall z, n <= z < m -> brought ys z) ->
    exists K' c' n', input_all E K ys.*2 = Ret K' /\ conn_of K' (c_id c) = Some c' /\ c_inp c' = c_inp c /\
      n <= n' /\ m <= Z.max n n' /\ n' <= Z.max n (base + zlen (w ++ user u)) /\
      sb_bytes (so_rcv (c_so c')) = sb_bytes (so_rcv (c_so c)) ++ zsub (n - base) (n' - n) (w ++ user u).
Proof.
  intros Hf Hu Hb Hr Hi Ho E Hz E' K c n hi runa rnxt rmx ys m HR Hn Hn2 Hys Ht Hm.
  pose proof (sosend_stream kmem_malloc max_hdr _ _ _ _ tcp_stream_proto fuel nam u flags k Hf Hu Hb Hr Hi) as H. rewrite E in H.
  destruct H as (l & y & H1 & H2 & _ & _ & H5). destruct (H5 eq_refl) as [-> Hu0]. cbn [app] in H1. rewrite Hu0, app_nil_r in H1. rewrite <- H1 in H2.
  destruct (H2 base w Ho) as [Hc _]. by eapply stream_arrives.
Qed.
(** C5: read(2) on a TCP connection, for a call that neither peeks nor asks for urgent data or
    for all.  When there is data, the user gets the bytes at the front of the receive buffer,
    as many as were asked for up to the out-of-band mark and the end of the record, at least
    one when any was asked for, and exactly these bytes leave the buffer; the mark moves by as
    many, and the socket is at the mark exactly when it was reached.  When there is none and
    the call does not wait, it returns the pending error and clears it, or 0 at end of file,
    or ENOTCONN or EWOULDBLOCK, and the buffer stays empty.  The window updates that the read
    sends are segments of the connection's own stream [w]. *)
Theorem tcp_read fuel wantaddr wantctl flags u k base w :
  hasf flags (setb MSG_OOB (setb MSG_PEEK MSG_WAITALL)) = false -> uio_ok u -> uio_resid u < 2147483648 -> tcp_inv k -> owns base w k ->
  stream_buf flags (so k) -> (length (sb_chain (so_rcv (so k))) < fuel)%nat ->
  match sb_mb (so_rcv (so k)) with
  | cur :: _ =>
      exists l k', let n := rcv_amount (so k) (uio_resid u) cur in
        soreceive fuel wantaddr false wantctl flags u k = Ret (0, l, k') /\ tcp_inv k' /\ owns base w k' /\
        uio_out (rl_uio l) = uio_out u ++ ztake n (sb_bytes (so_rcv (so k))) /\ sb_bytes (so_rcv (so k')) = zdrop n (sb_bytes (so_rcv (so k))) /\
        sb_inv (so_rcv (so k')) /\ (0 < uio_resid u -> 0 < n) /\ uio_resid (rl_uio l) = uio_resid u - n /\ mark_moved (so k) (so k') n
  | [] =>
      no_wait flags (so k) = true ->
      exists l k', soreceive fuel wantaddr false wantctl flags u k = Ret (empty_result (T := kst) (uio_resid u) (so k), l, k') /\ tcp_inv k' /\ owns base w k' /\
        rl_uio l = u /\ sb_mb (so_rcv (so k')) = [] /\ so_error (so k') = 0
  end.
Proof.
  intros Hf Hu Hr Hi Ho HB Hl.
  pose proof (@soreceive_stream kst (tcp_proto e sleep) tcp_laws _ (both_so base w) (both_pool base w) (tcp_reading_proto base w) fuel wantaddr wantctl flags u k Hf Hu Hr (conj Hi Ho) HB Hl) as H.
  change (p_so k) with (so k) in H. destruct (sb_mb (so_rcv (so k))) as [|cur next].
  - intros Hw. destruct (H Hw) as (l & k' & E & [Hi' Ho'] & H1 & H2 & H3). exists l, k'. by split_and!.
  - destruct H as (l & k' & E & [Hi' Ho'] & H1 & H2 & H3 & H4 & H5 & H6). exists l, k'. by split_and!.
Qed.

End Proto.

(** ** A connection *)

Import Sample.

Definition ue1 : TcpUsrreq.uenv := TcpUsrreq.mkUenv net0 (fun i _ => Ret (inr i)) (fun i _ _ => inr i) 0.
(** Every sleep is interrupted. *)
Definition intr (k : kst) : Z * kst := (4, k).
Definition no_clusters (p : mpool) : option Z := None.
Definition uio_of (d : list Z) : uio := mkUio [d] (zlen d) [] [].
#[local] Abbreviation write1 flags d k := (sosend (H := tcp_proto ue1 intr) no_clusters 100 20 None (Some (uio_of d)) [] None flags k).

Lemma uio_of_ok d : uio_ok (uio_of d).
Proof. split; [|done]. unfold user, uio_of. cbn. by rewrite app_nil_r. Qed.
Lemma intr_ok k : tcp_inv k -> tcp_inv (intr k).2 /\ tcp_accepts k [] (intr k).2.
Proof. intros Hi. split; [done|]. intros base w. by rewrite app_nil_r. Qed.

Lemma snd_ok_k0' : snd_ok (k0 []) 1000 1000 1000.
Proof. apply snd_ok_k0; [cbn; lia|by constructor]. Qed.
Lemma inv_of k : snd_ok k 1000 1000 1000 -> so_snd (so k) = sb_of 8192 [] -> gone k = false -> t_state (tp k) = TCPS_ESTABLISHED ->
  tcp_inv k.
Proof.
  intros Hk Es Eg Et. split; rewrite ?Es; [cbn; lia|cbn; lia|apply (sb_of_inv []); cbn; lia|vm_compute; reflexivity|right].
  split; rewrite ?Et, ?Es; [done|vm_compute; congruence|done|by constructor|by exists 1000, 1000, 1000].
Qed.
Lemma owns_of k : snd_ok k 1000 1000 1000 -> so_snd (so k) = sb_of 8192 [] -> sent k = [] -> owns 1000 [] k.
Proof. intros Hk Es E. split; [rewrite E; by constructor|right]. exists 1000, 1000, 1000. rewrite Es. split; [done|]. by split; [vm_compute|]. Qed.
Lemma inv_k0 : tcp_inv (k0 []).
Proof. by apply inv_of; [apply snd_ok_k0'|..]. Qed.
Lemma owns_k0 : owns 1000 [] (k0 []).
Proof. by apply owns_of; [apply snd_ok_k0'|..]. Qed.

Lemma tcp_write_witness :
  exists u' k', write1 0 [7; 8; 9] (k0 []) = Ret (0, Some u', k') /\ user u' = [] /\ owns 1000 [7; 8; 9] k' /\ tcp_inv k'.
Proof.
  assert (Hb : Forall is_byte (user (uio_of [7; 8; 9]))) by (repeat constructor; vm_compute; congruence).
  pose proof (tcp_write ue1 intr intr_ok no_clusters 100 20 None (uio_of [7; 8; 9]) 0 (k0 []) 1000 [] (conj eq_refl eq_refl) (uio_of_ok _) Hb eq_refl inv_k0 owns_k0) as H.
  assert (Hz : match write1 0 [7; 8; 9] (k0 []) with Ret (e, Some _, _) => e = 0 | _ => False end) by (vm_compute; reflexivity).
  set (r := sosend _ _ _ _ _ _ _ _ _) in *. clearbody r. destruct r as [[[err [u'|]] k']| |]; [|destruct Hz..]. subst err. destruct H as (l & y & H1 & H2 & H3 & H4 & H5).
  destruct (H5 eq_refl) as [-> Hu]. rewrite Hu in H1. cbn [app] in *. rewrite app_nil_r in H1. exists u', k'. split_and!; try done. by rewrite <- H1 in H2.
Defined.

Definition written1 : kst := match write1 0 [7; 8; 9] (k0 []) with Ret (_, _, k) => k | _ => k0 [] end.
Definition user1 : uio := match write1 0 [7; 8; 9] (k0 []) with Ret (_, Some u, _) => u | _ => uio_of [] end.
Lemma write1_ret : write1 0 [7; 8; 9] (k0 []) = Ret (0, Some user1, written1).
Proof. vm_compute. reflexivity. Qed.
Lemma sent_written1 : sent written1 = [sent0].
Proof. vm_compute. reflexivity. Qed.

Lemma write_arrives_witness :
  exists K' c' n', input_all kenv0 peer_kernel [arr0; arr0] = Ret K' /\ conn_of K' 1 = Some c' /\ c_inp c' = c_inp peer_conn /\
    1000 <= n' /\ 1003 <= Z.max 1000 n' /\ n' <= Z.max 1000 1003 /\ sb_bytes (so_rcv (c_so c')) = [] ++ zsub 0 (n' - 1000) [7; 8; 9].
Proof.
  assert (Hb : Forall is_byte (user (uio_of [7; 8; 9]))) by (repeat constructor; vm_compute; congruence).
  pose proof (write_arrives ue1 intr intr_ok no_clusters 100 20 None (uio_of [7; 8; 9]) user1 0 (k0 []) written1 1000 [] (conj eq_refl eq_refl) (uio_of_ok _) Hb eq_refl inv_k0 owns_k0 write1_ret eq_refl
    kenv0 peer_kernel peer_conn 1000 9192 5000 5000 5000 [(1000, sent0, arr0); (1000, sent0, arr0)] 1003 ready_peer) as H.
  rewrite sent_written1 in H. apply H; [lia|lia|repeat apply Forall_cons_2; [exact copies0..|apply Forall_nil_2]|exact in_time0|].
  intros z Hz. apply Exists_cons. left. change (zlen (pk_data (1000, sent0, arr0).1.2)) with 3. cbn [fst]. lia.
Defined.

(** The connection with [10; 20; 30] to read. *)
Definition kr0 : kst := (k0 []) <s| so_rcv := sb_of 8192 [10; 20; 30] |>.

Lemma tcp_read_witness :
  exists l k', soreceive (H := tcp_proto ue1 intr) 5 false false false 0 (mkUio [[0; 0]] 2 [] []) kr0 = Ret (0, l, k') /\
    uio_out (rl_uio l) = [10; 20] /\ sb_bytes (so_rcv (so k')) = [30] /\ tcp_inv k'.
Proof.
  assert (Hk : snd_ok kr0 1000 1000 1000) by (eapply (snd_ok_ext (k0 [])); [apply snd_ok_k0'|done..]).
  assert (Hi : tcp_inv kr0) by by apply inv_of. assert (Ho : owns 1000 [] kr0) by by apply owns_of.
  assert (HB : stream_buf 0 (so kr0)).
  { split; [apply (sb_of_inv [10; 20; 30]); cbn; lia|repeat constructor; vm_compute; congruence|repeat constructor|vm_compute; congruence|done|by right|vm_compute; split; congruence|done]. }
  destruct (tcp_read ue1 intr 5 false false 0 (mkUio [[0; 0]] 2 [] []) kr0 1000 [] eq_refl ltac:(by split) eq_refl Hi Ho HB ltac:(cbn; lia)) as (l & k' & H1 & H2 & _ & H4 & H5 & _).
  exists l, k'. by split_and!.
Defined.

(** Ends of records are excluded above with reason, as one run shows: a write with MSG_EOR on
    the sample connection with TCP_NODELAY set leaves a mark in the send buffer, and the next
    write becomes a record of its own there: tcp_output, which looks for the data to send in
    the first record, finds too little and the kernel panics. *)
Theorem eor_panics : tcp_inv (tf_set TF_NODELAY (k0 [])) /\
  exists u' k', write1 MSG_EOR [1; 2; 3] (tf_set TF_NODELAY (k0 [])) = Ret (0, Some u', k') /\
    length (sb_mb (so_snd (so k'))) = 1%nat /\ write1 0 [4; 5; 6] k' = Panic "no enough data".
Proof.
  split; [|eexists _, _; split; [vm_compute; reflexivity|split; vm_compute; reflexivity]].
  by apply inv_of; [eapply (snd_ok_ext (k0 [])); [apply snd_ok_k0'|done..]|..].
Qed.

End SoTcpOk.
