(* ===== verification/Radix.v ===== *)
(** Radix trees for routing lookups (src/sys/net/radix.c, radix.h).

    A tree is a value: an internal node with the bit it tests, its list of masks and its two
    sides, or a leaf with the chain of its duplicates (rn_dupedkey).  Where the code follows
    parent pointers, the model goes up a list of frames, one per node on the way from the leaf
    to the top of the tree.  A leaf is identified by the address of the pair of nodes that the
    caller gave for it, a mask entry by a number.  A key is the list of bytes at its address,
    the first of which is its length; bytes behind the end of the list read as 0. *)
From S2P Require Import Prelude.

Module Radix.

Definition RNF_NORMAL : Z := 1.
Definition RNF_ROOT : Z := 2.
Definition RNF_ACTIVE : Z := 4.

(** ** Nodes *)

Record leaf := mkLeaf {
  lf_id : Z;
  lf_key : list Z;
  lf_mask : option (list Z);
  lf_b : Z;   (* rn_b: -1 - index(netmask) *)
  lf_flags : Z;
  lf_mklist : option Z   (* the mask entry made for the leaf *)
}.
Definition eta_leaf (r : leaf) : leaf := mkLeaf (lf_id r) (lf_key r) (lf_mask r) (lf_b r) (lf_flags r) (lf_mklist r).
#[global] Instance set_lf_id : Setter lf_id := ltac:(mk_setter eta_leaf).
#[global] Instance set_lf_key : Setter lf_key := ltac:(mk_setter eta_leaf).
#[global] Instance set_lf_mask : Setter lf_mask := ltac:(mk_setter eta_leaf).
#[global] Instance set_lf_b : Setter lf_b := ltac:(mk_setter eta_leaf).
#[global] Instance set_lf_flags : Setter lf_flags := ltac:(mk_setter eta_leaf).
#[global] Instance set_lf_mklist : Setter lf_mklist := ltac:(mk_setter eta_leaf).

(** rm_rmu is the leaf of a normal route (with its mask), or the mask. *)
Inductive rmu := rmu_leaf (id : Z) (mask : option (list Z)) | rmu_mask (mask : option (list Z)).
Record rmask := mkRmask { rm_id : Z; rm_b : Z; rm_flags : Z; rm_rmu : rmu; rm_refs : Z }.
Definition eta_rmask (r : rmask) : rmask := mkRmask (rm_id r) (rm_b r) (rm_flags r) (rm_rmu r) (rm_refs r).
#[global] Instance set_rm_refs : Setter rm_refs := ltac:(mk_setter eta_rmask).

Inductive tree :=
| Leaf (chain : list leaf)
| Node (b : Z) (mklist : list rmask) (l r : tree).

(** An internal node on the way up: its bit, its masks, whether the way went to the right, and
    the other side. *)
Record frame := mkFrame { fr_b : Z; fr_mklist : list rmask; fr_right : bool; fr_sib : tree }.
Definition eta_frame (r : frame) : frame := mkFrame (fr_b r) (fr_mklist r) (fr_right r) (fr_sib r).
#[global] Instance set_fr_mklist : Setter fr_mklist := ltac:(mk_setter eta_frame).
#[global] Instance set_fr_sib : Setter fr_sib := ltac:(mk_setter eta_frame).

Definition up1 (f : frame) (t : tree) : tree :=
  if fr_right f then Node (fr_b f) (fr_mklist f) (fr_sib f) t else Node (fr_b f) (fr_mklist f) t (fr_sib f).
Fixpoint plug (fs : list frame) (t : tree) : tree := match fs with [] => t | f :: fs => plug fs (up1 f t) end.

(** Byte [i] of a key, and the test [rn_bmask & v[rn_off]] of bit [b]. *)
Definition byte (v : list Z) (i : Z) : Z := nth (Z.to_nat i) v 0.
Definition test_bit (v : list Z) (b : Z) : bool := hasf (byte v (Z.shiftr b 3)) (Z.shiftr 128 (Z.land b 7)).

(** [rn_search], with the frames of the way down (the last first) *)
Fixpoint rn_search (v : list Z) (t : tree) (fs : list frame) : list leaf * list frame :=
  match t with
  | Leaf c => (c, fs)
  | Node b mk l r =>
      if test_bit v b then rn_search v r (mkFrame b mk true l :: fs) else rn_search v l (mkFrame b mk false r :: fs)
  end.

(** [rn_search_m] *)
Fixpoint rn_search_m (v m : list Z) (t : tree) : list leaf :=
  match t with
  | Leaf c => c
  | Node b _ l r => if test_bit m b && test_bit v b then rn_search_m v m r else rn_search_m v m l
  end.

Definition rn_off (t : tree) : Z := match t with Node b _ _ _ => Z.shiftr b 3 | Leaf _ => 0 end.

(** ** Masks *)

(** The loops of [rn_refines]: [n] and [m] from the second byte, [k] bytes of both, then the
    rest of the longer one. *)
Fixpoint refines_both (k : nat) (m n : list Z) (i : Z) (eq : bool) : option bool :=
  match k with
  | O => Some eq
  | S k =>
      if negb (Z.land (byte n i) (Z.lnot (byte m i)) =? 0) then None
      else refines_both k m n (i + 1) (eq && (byte n i =? byte m i))
  end.
Fixpoint some_byte (k : nat) (n : list Z) (i : Z) : bool :=
  match k with O => false | S k => negb (byte n i =? 0) || some_byte k n (i + 1) end.
Definition rn_refines (m n : list Z) : bool :=
  let nlen := byte n 0 in
  let longer := nlen - byte m 0 in
  let lim := if 0 <? longer then nlen - longer else nlen in
  match refines_both (Z.to_nat (lim - 1)) m n 1 true with
  | None => false
  | Some eq =>
      if some_byte (Z.to_nat (nlen - Z.max 1 lim)) n (Z.max 1 lim) then false
      else if eq && (longer <? 0) && some_byte (Z.to_nat (- longer)) m (Z.max 1 lim) then true
      else negb eq
  end.

Fixpoint lexo_loop (k : nat) (m n : list Z) (i : Z) : bool :=
  match k with O => false | S k => (byte n i <? byte m i) || lexo_loop k m n (i + 1) end.
Definition rn_lexobetter (m n : list Z) : bool :=
  if byte n 0 <? byte m 0 then true
  else if byte m 0 =? byte n 0 then lexo_loop (Z.to_nat (byte m 0)) m n 0 else false.

(** [rn_satsifies_leaf] *)
Fixpoint satisfies_loop (k : nat) (trial key : list Z) (mask : option (list Z)) (i : Z) : bool :=
  match k with
  | O => true
  | S k =>
      let m := match mask with Some m => byte m i | None => 255 end in
      (Z.land (Z.lxor (byte trial i) (byte key i)) m =? 0) && satisfies_loop k trial key mask (i + 1)
  end.
Definition rn_satisfies_leaf (trial : list Z) (x : leaf) (skip : Z) : bool :=
  let length := cmin (byte trial 0) (byte (lf_key x) 0) in
  let length := match lf_mask x with None => length | Some m => cmin length (byte m 0) end in
  satisfies_loop (Z.to_nat (length - skip)) trial (lf_key x) (lf_mask x) skip.

Definition mask_eqb (a b : option (list Z)) : bool := bool_decide (a = b).

(** ** Lookup *)

(** The first byte of [i, i + k) at which two keys differ. *)
Fixpoint differ (k : nat) (v w : list Z) (i : Z) : option Z :=
  match k with
  | O => None
  | S k => if byte v i =? byte w i then differ k v w (i + 1) else Some i
  end.

(** The number of the highest bit set, from the left: [for (b = 7; (test >>= 1) > 0;) b--] *)
Fixpoint first_bit (fuel : nat) (test b : Z) : Z :=
  match fuel with
  | O => b
  | S fuel => let test := Z.shiftr test 1 in if 0 <? test then first_bit fuel test (b - 1) else b
  end.

(** The chain of a leaf that does not match exactly. *)
Fixpoint match_chain (v : list Z) (rn_b matched_off : Z) (c : list leaf) : option leaf :=
  match c with
  | [] => None
  | t :: c =>
      if hasf (lf_flags t) RNF_NORMAL then if rn_b <=? lf_b t then Some t else match_chain v rn_b matched_off c
      else if rn_satisfies_leaf v t matched_off then Some t else match_chain v rn_b matched_off c
  end.

(** The masks of the node at the top of [t].  An entry has RNF_NORMAL exactly when it has a
    leaf. *)
Fixpoint match_masks (v : list Z) (rn_b matched_off : Z) (t : tree) (mk : list rmask) : option Z :=
  match mk with
  | [] => None
  | m :: mk =>
      match rm_rmu m with
      | rmu_leaf id _ => if rn_b <=? rm_b m then Some id else match_masks v rn_b matched_off t mk
      | rmu_mask mask =>
          let off := cmin (rn_off t) matched_off in
          match List.find (fun x => mask_eqb (lf_mask x) mask) (rn_search_m v (match mask with Some m => m | None => [] end) t) with
          | Some x => if rn_satisfies_leaf v x off then Some (lf_id x) else match_masks v rn_b matched_off t mk
          | None => match_masks v rn_b matched_off t mk
          end
      end
  end.

(** Up the tree from [t]. *)
Fixpoint match_up (v : list Z) (rn_b matched_off : Z) (fs : list frame) (t : tree) : option Z :=
  match fs with
  | [] => None
  | f :: fs =>
      match match_masks v rn_b matched_off (up1 f t) (fr_mklist f) with
      | Some id => Some id
      | None => match_up v rn_b matched_off fs (up1 f t)
      end
  end.

(** [rn_match]: the address of a leaf *)
Definition rn_match (v : list Z) (top : tree) : outcome (option Z) :=
  let off := rn_off top in
  let '(c, fs) := rn_search v top [] in
  match c with
  | [] => Panic "rn_match: no leaf"
  | t :: dups =>
      let vlen := match lf_mask t with Some m => byte m 0 | None => byte v 0 end in
      match differ (Z.to_nat (vlen - off)) v (lf_key t) off with
      | None => Ret (Some (lf_id (if hasf (lf_flags t) RNF_ROOT then match dups with d :: _ => d | [] => t end else t)))
      | Some i =>
          let b := first_bit 8 (Z.lxor (byte v i) (byte (lf_key t) i)) 7 + Z.shiftl i 3 in
          let rn_b := -1 - b in
          match match_chain v rn_b i (match lf_mask t with None => dups | Some _ => c end) with
          | Some x => Ret (Some (lf_id x))
          | None => Ret (match_up v rn_b i fs (Leaf c))
          end
      end
  end.

(** ** Insertion *)

(** [b = (cp - v) << 3; while (cmp_res) cmp_res >>= 1, b--] *)
Fixpoint diff_bit (fuel : nat) (cmp_res b : Z) : Z :=
  match fuel with
  | O => b
  | S fuel => if cmp_res =? 0 then b else diff_bit fuel (Z.shiftr cmp_res 1) (b - 1)
  end.

(** The way to the place of a new node that tests [b]. *)
Fixpoint insert_place (v : list Z) (b : Z) (x : tree) (fs : list frame) : tree * list frame :=
  match x with
  | Leaf _ => (x, fs)
  | Node xb mk l r =>
      if b >? xb then
        if test_bit v xb then insert_place v b r (mkFrame xb mk true l :: fs) else insert_place v b l (mkFrame xb mk false r :: fs)
      else (x, fs)
  end.

(** [rn_newpair]'s leaf *)
Definition new_leaf (id : Z) (v : list Z) : leaf := mkLeaf id v None (-1) RNF_ACTIVE None.

(** [rn_insert]: the leaf with the key [v], new or not, and the frames above it.  The step
    down from the top is taken in any case. *)
Definition rn_insert (v : list Z) (id : Z) (top : tree) : outcome (bool * list leaf * list frame) :=
  let head_off := rn_off top in
  let '(c, fs) := rn_search v top [] in
  match c, top with
  | t :: _, Node b0 mk l r =>
      match differ (Z.to_nat (byte v 0 - head_off)) v (lf_key t) head_off with
      | None => Ret (true, c, fs)
      | Some i =>
          let b := diff_bit 9 (Z.lxor (byte v i) (byte (lf_key t) i)) (Z.shiftl (i + 1) 3) in
          let '(x, fs) := if test_bit v b0 then insert_place v b r [mkFrame b0 mk true l] else insert_place v b l [mkFrame b0 mk false r] in
          Ret (false, [new_leaf id v], mkFrame b [] (test_bit v b) x :: fs)
      end
  | _, _ => Panic "rn_insert: no tree"
  end.

(** ** Adding masks *)

(** The globals: max_keylen, addmask_key with last_zeroed, the tree of masks, the results of
    the next allocations ([true] for a failure) and the numbers for mask entries. *)
Record rnst := mkRnst {
  max_keylen : Z;
  addmask_key : list Z;
  last_zeroed : Z;
  rn_masktop : tree;
  rn_fail : list bool;
  rn_nextid : Z
}.
Definition eta_rnst (r : rnst) : rnst := mkRnst (max_keylen r) (addmask_key r) (last_zeroed r) (rn_masktop r) (rn_fail r) (rn_nextid r).
#[global] Instance set_addmask_key : Setter addmask_key := ltac:(mk_setter eta_rnst).
#[global] Instance set_last_zeroed : Setter last_zeroed := ltac:(mk_setter eta_rnst).
#[global] Instance set_rn_masktop : Setter rn_masktop := ltac:(mk_setter eta_rnst).
#[global] Instance set_rn_fail : Setter rn_fail := ltac:(mk_setter eta_rnst).
#[global] Instance set_rn_nextid : Setter rn_nextid := ltac:(mk_setter eta_rnst).

Definition rn_malloc (s : rnst) : bool * rnst :=
  match rn_fail s with [] => (true, s) | b :: l => (negb b, s <| rn_fail := l |>) end.

(** [Bcopy] and [Bzero] into a buffer *)
Definition put_bytes (buf : list Z) (i : Z) (l : list Z) : list Z := ztake i buf ++ l ++ zdrop (i + zlen l) buf.

(** [cp > addmask_key && cp[-1] == 0]: the length without trailing zeroes *)
Fixpoint trim_zeros (k : nat) (buf : list Z) : Z :=
  match k with O => 0 | S k' => if byte buf (Z.of_nat k') =? 0 then trim_zeros k' buf else Z.of_nat k end.

(** The index of a mask and whether it is normal. *)
Fixpoint skip_ones (k : nat) (m : list Z) (i : Z) : Z :=
  match k with O => i | S k => if byte m i =? 255 then skip_ones k m (i + 1) else i end.
Fixpoint lead_ones (fuel : nat) (c j b : Z) : Z :=
  match fuel with O => b | S fuel => if negb (Z.land j c =? 0) then lead_ones fuel c (Z.shiftr j 1) (b + 1) else b end.
Definition normal_chars : list Z := [0; 128; 192; 224; 240; 248; 252; 254; 255].
Definition mask_index (m : list Z) (skip mlen : Z) : Z * bool :=
  let cp := skip_ones (Z.to_nat (mlen - skip)) m skip in
  if cp =? mlen then (Z.shiftl cp 3, true)
  else
    let b := lead_ones 9 (byte m cp) 128 0 in
    (b + Z.shiftl cp 3, (byte m cp =? byte normal_chars b) && (cp =? mlen - 1)).

(** mask_rnhead->rnh_nodes: the leaf of the empty mask *)
Definition mask_zero (top : tree) : option leaf := match rn_search [] top [] with (x :: _, _) => Some x | _ => None end.

(** [rn_addmask]: the leaf in the tree of masks *)
Definition rn_addmask (netmask : list Z) (search : bool) (skip : Z) (s : rnst) : outcome (option leaf * rnst) :=
  let mlen := if byte netmask 0 >? max_keylen s then max_keylen s else byte netmask 0 in
  let skip := if skip =? 0 then 1 else skip in
  if mlen <=? skip then Ret (mask_zero (rn_masktop s), s)
  else
    let buf := if skip >? 1 then put_bytes (addmask_key s) 1 (repeat 255 (Z.to_nat (skip - 1))) else addmask_key s in
    let m0 := mlen in
    let buf := put_bytes buf skip (zsub skip (mlen - skip) netmask) in
    let mlen := trim_zeros (Z.to_nat mlen) buf in
    if mlen <=? skip then
      Ret (mask_zero (rn_masktop s), s <| addmask_key := buf |> <| last_zeroed := if m0 >=? last_zeroed s then mlen else last_zeroed s |>)
    else
      let buf := if m0 <? last_zeroed s then put_bytes buf m0 (repeat 0 (Z.to_nat (last_zeroed s - m0))) else buf in
      let buf := put_bytes buf 0 [mlen] in
      let s := s <| addmask_key := buf |> <| last_zeroed := mlen |> in
      match (rn_search buf (rn_masktop s) []).1 with
      | [] => Panic "rn_addmask: no leaf"
      | x :: _ =>
          let found := match differ (Z.to_nat mlen) buf (lf_key x) 0 with None => true | Some _ => false end in
          if found || search then Ret (if found then Some x else None, s)
          else
            let '(ok, s) := rn_malloc s in
            if negb ok then Ret (None, s)
            else
              let key := ztake mlen buf ++ repeat 0 (Z.to_nat (max_keylen s - mlen)) in
              let! (maskduplicated, c, fs) := rn_insert key 0 (rn_masktop s) in
              match c with
              | [] => Panic "rn_addmask: no leaf"
              | x :: dups =>
                  if maskduplicated : bool then Ret (Some x, s)
                  else
                    let '(b, isnormal) := mask_index key skip mlen in
                    let x := x <| lf_b := -1 - b |> <| lf_flags := if isnormal : bool then setb (lf_flags x) RNF_NORMAL else lf_flags x |> in
                    Ret (Some x, s <| rn_masktop := plug fs (Leaf (x :: dups)) |>)
              end
      end.

(** [rn_lookup]: the leaf with the mask in the chain from the leaf that matches on *)
Fixpoint chain_at (id : Z) (c : list leaf) : list leaf :=
  match c with [] => [] | x :: c' => if lf_id x =? id then c else chain_at id c' end.
Fixpoint chain_from (id : Z) (t : tree) : list leaf :=
  match t with
  | Leaf c => chain_at id c
  | Node _ _ l r => match chain_from id l with [] => chain_from id r | c => c end
  end.
Definition rn_lookup (v : list Z) (netmask : option (list Z)) (top : tree) (s : rnst) : outcome (option Z * rnst) :=
  let look nm s :=
    let! x := rn_match v top in
    match x, nm with
    | Some id, Some m => Ret (option_map lf_id (List.find (fun y => mask_eqb (lf_mask y) (Some m)) (chain_from id top)), s)
    | _, _ => Ret (x, s)
    end in
  match netmask with
  | None => look None s
  | Some n =>
      let! (x, s) := rn_addmask n true (rn_off top) s in
      match x with None => Ret (None, s) | Some x => look (Some (lf_key x)) s end
  end.

(** ** Adding routes *)

(** [rn_new_radix_mask]: the entry, and the leaf that points to it *)
Definition rn_new_radix_mask (nl : leaf) (s : rnst) : option rmask * leaf * rnst :=
  let '(ok, s) := rn_malloc s in
  if negb ok then (None, nl, s)
  else
    let m := mkRmask (rn_nextid s) (lf_b nl) (lf_flags nl)
               (if hasf (lf_flags nl) RNF_NORMAL then rmu_leaf (lf_id nl) (lf_mask nl) else rmu_mask (lf_mask nl)) 0 in
    (Some m, nl <| lf_mklist := Some (rn_nextid s) |>, s <| rn_nextid := rn_nextid s + 1 |>).

(** The place of a mask in the chain of a duplicated key: the leaves before it and after it,
    or nothing if the mask is there. *)
Fixpoint dup_place (netmask : option (list Z)) (b_leaf : Z) (c : list leaf) (front : list leaf) : option (list leaf * list leaf) :=
  match c with
  | [] => Some (front, [])
  | nl :: c' =>
      if mask_eqb (lf_mask nl) netmask then None
      else if match netmask, lf_mask nl with
              | None, _ => true
              | Some n, Some m => (b_leaf <? lf_b nl) || rn_refines n m || rn_lexobetter n m
              | _, None => false
              end
           then Some (front, c) else dup_place netmask b_leaf c' (front ++ [nl])
  end.

(** Promote general routes from below: from a chain of leaves, and from a node. *)
Fixpoint promote_chain (b_leaf : Z) (c : list leaf) (s : rnst) : list leaf * list rmask * rnst :=
  match c with
  | [] => ([], [], s)
  | x :: c =>
      if match lf_mask x with Some _ => true | None => false end && (lf_b x >=? b_leaf) && match lf_mklist x with None => true | Some _ => false end then
        let '(m, x, s) := rn_new_radix_mask x s in
        let '(c, mk, s) := promote_chain b_leaf c s in
        (x :: c, match m with Some m => m :: mk | None => mk end, s)
      else
        let '(c, mk, s) := promote_chain b_leaf c s in (x :: c, mk, s)
  end.
Fixpoint split_masks (b_leaf : Z) (mk : list rmask) : list rmask * list rmask :=
  match mk with
  | [] => ([], [])
  | m :: mk' => if rm_b m >=? b_leaf then ([], mk) else let '(a, b) := split_masks b_leaf mk' in (m :: a, b)
  end.
Definition promote (f : frame) (s : rnst) : frame * rnst :=
  let b_leaf := -1 - fr_b f in
  match fr_sib f with
  | Leaf c => let '(c, mk, s) := promote_chain b_leaf c s in (f <| fr_sib := Leaf c |> <| fr_mklist := mk |>, s)
  | Node b mk l r =>
      match mk with
      | [] => (f, s)
      | _ => let '(keep, rest) := split_masks b_leaf mk in (f <| fr_sib := Node b keep l r |> <| fr_mklist := rest |>, s)
      end
  end.

(** The mask of the route [nl] goes into the list of a node.  When there is no memory the
    list is cut at that place. *)
Definition rm_the_mask (m : rmask) : option (list Z) := match rm_rmu m with rmu_leaf _ mask => mask | rmu_mask mask => mask end.
Fixpoint insert_mask (nl : leaf) (netmask : list Z) (mk : list rmask) (s : rnst) : list rmask * leaf * rnst :=
  let enter :=
    let '(m, nl, s) := rn_new_radix_mask nl s in
    (match m with Some m => m :: mk | None => [] end, nl, s) in
  match mk with
  | [] => enter
  | m :: mk' =>
      let next := let '(mk', nl, s) := insert_mask nl netmask mk' s in (m :: mk', nl, s) in
      if rm_b m <? lf_b nl then next
      else if rm_b m >? lf_b nl then enter
      else if hasf (rm_flags m) RNF_NORMAL && hasf (lf_flags nl) RNF_NORMAL then (mk, nl, s)
      else if mask_eqb (rm_the_mask m) (Some netmask) then (m <| rm_refs := rm_refs m + 1 |> :: mk', nl <| lf_mklist := Some (rm_id m) |>, s)
      else if rn_refines netmask (match rm_the_mask m with Some n => n | None => [] end) ||
              rn_lexobetter netmask (match rm_the_mask m with Some n => n | None => [] end) then enter
      else next
  end.

(** To the highest possible ancestor: [f] is the node, [fs] the nodes above it. *)
Fixpoint lift_mask (b : Z) (nl : leaf) (netmask : list Z) (f : frame) (fs : list frame) (s : rnst) : list frame * leaf * rnst :=
  let here := let '(mk, nl, s) := insert_mask nl netmask (fr_mklist f) s in (f <| fr_mklist := mk |> :: fs, nl, s) in
  match fs with
  | [] => here
  | g :: fs' => if b <=? fr_b g then let '(fs, nl, s) := lift_mask b nl netmask g fs' s in (f :: fs, nl, s) else here
  end.

(** The rest of [rn_addroute]: the leaf [nl] is at place [front] [back] of its chain. *)
Definition add_masks (dup : bool) (netmask : option (list Z)) (b : Z) (front : list leaf) (nl : leaf) (back : list leaf) (fs : list frame) (s : rnst)
    : outcome (tree * rnst) :=
  match fs with
  | [] => Panic "rn_addroute: no parent"
  | f :: fs =>
      let '(f, s) := if dup then (f, s) else promote f s in
      match netmask with
      | Some n =>
          if b >? fr_b f then Ret (plug (f :: fs) (Leaf (front ++ nl :: back)), s)
          else let '(fs, nl, s) := lift_mask b nl n f fs s in Ret (plug fs (Leaf (front ++ nl :: back)), s)
      | None => Ret (plug (f :: fs) (Leaf (front ++ nl :: back)), s)
      end
  end.

(** [rn_addroute]: [None] when the route is there already or memory is short.  [id] is the
    address of treenodes, which the caller has cleared. *)
Definition rn_addroute (v : list Z) (netmask : option (list Z)) (id : Z) (top : tree) (s : rnst) : outcome (option tree * rnst) :=
  let! (ok, x, s) :=
    match netmask with
    | None => Ret (true, None, s)
    | Some n => let! (x, s) := rn_addmask n false (rn_off top) s in Ret (match x with Some _ => true | None => false end, x, s)
    end in
  if negb ok then Ret (None, s)
  else
    let b_leaf := match x with Some x => lf_b x | None => 0 end in
    let b := match x with Some x => -1 - lf_b x | None => 0 end in
    let netmask := match x with Some x => Some (lf_key x) | None => None end in
    let put nl := match x with
                  | Some x => nl <| lf_mask := netmask |> <| lf_b := lf_b x |> <| lf_flags := setb (lf_flags nl) (Z.land (lf_flags x) RNF_NORMAL) |>
                  | None => nl
                  end in
    let! (keyduplicated, c, fs) := rn_insert v id top in
    if keyduplicated : bool then
      match dup_place netmask b_leaf c [] with
      | None => Ret (None, s)
      | Some (front, back) => let! (t, s) := add_masks true netmask b front (put (new_leaf id v)) back fs s in Ret (Some t, s)
      end
    else
      match c with
      | [] => Panic "rn_addroute: no leaf"
      | nl :: back => let! (t, s) := add_masks false netmask b [] (put nl) back fs s in Ret (Some t, s)
      end.

(** [rn_inithead]: the root leaves have the addresses [id0] and [id1]. *)
Definition root_leaf (id : Z) (key : list Z) (off : Z) : leaf := mkLeaf id key None (-1 - off) (setb RNF_ROOT RNF_ACTIVE) None.
Definition rn_inithead (rn_zeros rn_ones : list Z) (off id0 id1 : Z) : tree :=
  Node off [] (Leaf [root_leaf id0 rn_zeros off]) (Leaf [root_leaf id1 rn_ones off]).

(** [rn_init] *)
Definition rn_init (keylen : Z) (fail : list bool) : rnst :=
  let zeros := repeat 0 (Z.to_nat keylen) in
  mkRnst keylen zeros 0 (rn_inithead zeros (repeat 255 (Z.to_nat keylen)) 0 (-1) (-2)) fail 0.

End Radix.
