(* ===== verification/RadixTree.v ===== *)
(** The structure of radix trees: bits of keys, the invariant of a tree, the place where a
    search ends and the place where an insertion puts a new node. *)
From S2P Require Import Prelude Radix.
Import Radix.

Module RadixTree.

(** ** Bits of keys *)

Definition key_ok (k : list Z) : Prop := forall i, 0 <= byte k i < 256.

Lemma test_bit_spec v b : 0 <= b -> test_bit v b = Z.testbit (byte v (b / 8)) (7 - b mod 8).
Proof.
  intros Hb. unfold test_bit. rewrite Z.shiftr_div_pow2 by lia. change (2 ^ 3) with 8. replace (Z.land b 7) with (b mod 8) by (symmetry; apply (Z.land_ones b 3); lia).
  assert (H : 0 <= b mod 8 < 8) by (apply Z.mod_pos_bound; lia). rewrite <- hasf_pow by lia. f_equal. set (j := b mod 8) in *. clearbody j.
  assert (E : forallb (fun j => Z.shiftr 128 j =? 2 ^ (7 - j)) (seqZ 0 8) = true) by reflexivity.
  rewrite List.forallb_forall in E. apply Z.eqb_eq, E. apply list_elem_of_In, elem_of_seqZ. lia.
Qed.

(** Keys agree from bit [lo] to [hi]. *)
Definition agree (lo : Z) (v w : list Z) (hi : Z) : Prop := forall i, lo <= i < hi -> test_bit v i = test_bit w i.

Lemma agree_refl lo v hi : agree lo v v hi.
Proof. done. Qed.
Lemma agree_sym lo v w hi : agree lo v w hi -> agree lo w v hi.
Proof. intros H i Hi. by rewrite H. Qed.
Lemma agree_trans lo v w x hi : agree lo v w hi -> agree lo w x hi -> agree lo v x hi.
Proof. intros H1 H2 i Hi. by rewrite H1, H2. Qed.
Lemma agree_le lo v w hi hi' : hi' <= hi -> agree lo v w hi -> agree lo v w hi'.
Proof. intros Hh H i Hi. apply H. lia. Qed.

Lemma byte_bits x y : 0 <= x < 256 -> 0 <= y < 256 -> (forall j, 0 <= j < 8 -> Z.testbit x j = Z.testbit y j) -> x = y.
Proof.
  intros Hx Hy H. apply Z.bits_inj'. intros n Hn. destruct (Z.lt_ge_cases n 8); [by apply H|].
  rewrite !Z.bits_above_log2; try done; try lia; destruct (Z.eq_dec x 0) as [->|], (Z.eq_dec y 0) as [->|]; cbn; try lia;
    apply Z.log2_lt_pow2; try lia; change 256 with (2 ^ 8) in *; pose proof (Z.pow_le_mono_r 2 8 n); lia.
Qed.

(** Bytes and bits. *)
Lemma agree_bytes a n v w : 0 <= a -> key_ok v -> key_ok w -> (forall j, a <= j < n -> byte v j = byte w j) <-> agree (8 * a) v w (8 * n).
Proof.
  intros Ha Hv Hw. split.
  - intros H i Hi. rewrite !test_bit_spec by lia. rewrite H; [done|]. Z.to_euclidean_division_equations. lia.
  - intros H j Hj. apply byte_bits; [apply Hv|apply Hw|]. intros b Hb. specialize (H (8 * j + (7 - b)) ltac:(lia)). rewrite !test_bit_spec in H by lia.
    replace ((8 * j + (7 - b)) / 8) with j in H by (Z.to_euclidean_division_equations; lia).
    replace (7 - (8 * j + (7 - b)) mod 8) with b in H by (Z.to_euclidean_division_equations; lia). done.
Qed.

Lemma differ_None k : forall v w i, differ k v w i = None -> forall j, i <= j < i + Z.of_nat k -> byte v j = byte w j.
Proof.
  induction k as [|k IH]; intros v w i E j Hj; [lia|]. cbn [differ] in E. destruct (Z.eqb_spec (byte v i) (byte w i)) as [Eb|]; [|done].
  destruct (Z.eq_dec j i) as [->|]; [done|]. apply (IH v w (i + 1) E). lia.
Qed.
Lemma differ_Some k : forall v w i j, differ k v w i = Some j -> i <= j < i + Z.of_nat k /\ byte v j <> byte w j /\ (forall j', i <= j' < j -> byte v j' = byte w j').
Proof.
  induction k as [|k IH]; intros v w i j E; [done|]. cbn [differ] in E. destruct (Z.eqb_spec (byte v i) (byte w i)) as [Eb|Eb].
  - apply IH in E as (H1 & H2 & H3). split_and!; [lia|lia|done|]. intros j' Hj'. destruct (Z.eq_dec j' i) as [->|]; [done|]. apply H3. lia.
  - injection E as <-. split_and!; [lia|lia|done|]. lia.
Qed.

(** The first bit at which two bytes differ. *)
Definition fdiff (v w : list Z) (i : Z) : Z := 8 * i + (7 - Z.log2 (Z.lxor (byte v i) (byte w i))).

Lemma lxor_byte x y : 0 <= x < 256 -> 0 <= y < 256 -> x <> y -> 1 <= Z.lxor x y < 256.
Proof.
  intros Hx Hy Hne. assert (H0 : 0 <= Z.lxor x y) by (apply Z.lxor_nonneg; lia).
  assert (Z.lxor x y <> 0) by (by intros ?%Z.lxor_eq). split; [lia|]. change 256 with (2 ^ 8). apply Z.log2_lt_pow2; [lia|].
  pose proof (Z.log2_lxor x y ltac:(lia) ltac:(lia)). assert (Hl : forall z, 0 <= z < 256 -> Z.log2 z < 8).
  { intros z Hz. destruct (Z.eq_dec z 0) as [->|]; [cbn; lia|]. apply Z.log2_lt_pow2; [lia|]. change (2 ^ 8) with 256. lia. }
  pose proof (Hl x Hx). pose proof (Hl y Hy). lia.
Qed.

Lemma first_bit_spec e : 1 <= e < 256 -> first_bit 8 e 7 = 7 - Z.log2 e.
Proof.
  intros He. assert (E : forallb (fun e => first_bit 8 e 7 =? 7 - Z.log2 e) (seqZ 1 255) = true) by (vm_compute; reflexivity).
  rewrite List.forallb_forall in E. apply Z.eqb_eq, E. apply list_elem_of_In, elem_of_seqZ. lia.
Qed.
Lemma diff_bit_shift fuel : forall e b, diff_bit fuel e b = b + diff_bit fuel e 0.
Proof.
  induction fuel as [|fuel IH]; intros e b; cbn [diff_bit]; [lia|]. destruct (e =? 0); [lia|]. rewrite (IH _ (b - 1)), (IH _ (0 - 1)). lia.
Qed.
Lemma diff_bit_spec e b : 1 <= e < 256 -> diff_bit 9 e b = b - 1 - Z.log2 e.
Proof.
  intros He. rewrite diff_bit_shift. assert (E : forallb (fun e => diff_bit 9 e 0 =? - 1 - Z.log2 e) (seqZ 1 255) = true) by (vm_compute; reflexivity).
  rewrite List.forallb_forall in E. specialize (E e). rewrite Z.eqb_eq in E. rewrite E; [lia|]. apply list_elem_of_In, elem_of_seqZ. lia.
Qed.

Lemma fdiff_spec a v w i : 0 <= a <= i -> key_ok v -> key_ok w -> byte v i <> byte w i -> (forall j, a <= j < i -> byte v j = byte w j) ->
  let d := fdiff v w i in 8 * i <= d < 8 * i + 8 /\ test_bit v d <> test_bit w d /\ agree (8 * a) v w d.
Proof.
  intros Ha Hv Hw Hne Heq d. pose proof (lxor_byte (byte v i) (byte w i) (Hv i) (Hw i) Hne) as He. unfold fdiff in d. set (e := Z.lxor (byte v i) (byte w i)) in *.
  assert (Hl : 0 <= Z.log2 e < 8). { split; [apply Z.log2_nonneg|]. apply Z.log2_lt_pow2; [lia|]. change (2 ^ 8) with 256. lia. }
  assert (Hd : forall l, 0 <= l < 8 -> test_bit v (8 * i + (7 - l)) = Z.testbit (byte v i) l /\ test_bit w (8 * i + (7 - l)) = Z.testbit (byte w i) l).
  { intros l Hlr. rewrite !test_bit_spec by lia. replace ((8 * i + (7 - l)) / 8) with i by (Z.to_euclidean_division_equations; lia).
    replace (7 - (8 * i + (7 - l)) mod 8) with l by (Z.to_euclidean_division_equations; lia). done. }
  split; [unfold d; lia|]. unfold d. clear d. split.
  - destruct (Hd (Z.log2 e) Hl) as [-> ->]. pose proof (Z.bit_log2 e ltac:(lia)) as Hb. unfold e in Hb at 1. rewrite Z.lxor_spec in Hb. by destruct (Z.testbit (byte v i) _), (Z.testbit (byte w i) _).
  - intros k Hk. destruct (Z.lt_ge_cases k (8 * i)) as [Hlt|Hge].
    + apply (proj1 (agree_bytes a i v w ltac:(lia) Hv Hw)); [done|lia].
    + set (l := 7 - (k - 8 * i)). assert (Hl2 : Z.log2 e < l < 8) by lia. replace k with (8 * i + (7 - l)) by lia. destruct (Hd l ltac:(lia)) as [-> ->].
      pose proof (Z.bits_above_log2 e l ltac:(lia) ltac:(lia)) as Hb. unfold e in Hb. rewrite Z.lxor_spec in Hb. by destruct (Z.testbit (byte v i) l), (Z.testbit (byte w i) l).
Qed.

(** ** The invariant of a tree *)

(** The lists of masks are annotations of the nodes, and a leaf remembers its entry; the
    routes below a node are its leaves without that note. *)
Definition clean (x : leaf) : leaf := x <| lf_mklist := None |>.
Fixpoint leaves (t : tree) : list leaf := match t with Leaf c => c | Node _ _ l r => leaves l ++ leaves r end.
Definition routes (t : tree) : list leaf := map clean (leaves t).

Lemma routes_node b mk l r : routes (Node b mk l r) = routes l ++ routes r.
Proof. apply map_app. Qed.

Definition side (b : Z) (s : bool) (R : list leaf) : Prop := forall x, x ∈ R -> test_bit (lf_key x) b = s.
Definition agree_all (lo : Z) (R : list leaf) (b : Z) : Prop := forall x y, x ∈ R -> y ∈ R -> agree lo (lf_key x) (lf_key y) b.

(** The number of the node above a hole, and the routes below a frame whose hole has the
    routes [R]. *)
Definition hole_b (fs : list frame) : Z := match fs with [] => -1 | f :: _ => fr_b f end.
Definition below (f : frame) (R : list leaf) : list leaf := R ++ routes (fr_sib f).

Lemma elem_below x f t : x ∈ routes (up1 f t) <-> x ∈ below f (routes t).
Proof. unfold up1, below. destruct (fr_right f); rewrite routes_node, !elem_of_app; tauto. Qed.
Lemma plug_app fs : forall fs' t, plug (fs ++ fs') t = plug fs' (plug fs t).
Proof. induction fs as [|f fs IH]; intros fs' t; [done|]. cbn [plug app]. apply IH. Qed.

(** The two kinds of trees differ in what a chain of leaves and a list of masks may be. *)
Class Kind := {
  k_lo : Z;   (* the first bit of a key *)
  k_hi : Z;   (* the bit behind the last one *)
  k_chain : Z -> list leaf -> Prop;   (* the chain of a leaf below the bit *)
  k_masks : Z -> Z -> list rmask -> list leaf -> Prop;   (* the masks of a node below a bit *)
  k_range : 0 <= k_lo < k_hi;
  k_chain_ok pb c : k_chain pb c -> c <> [] /\ agree_all k_lo (map clean c) k_hi /\ (forall x, x ∈ c -> key_ok (lf_key x));
  k_masks_set pb b mk R R' : (forall x, x ∈ R <-> x ∈ R') -> k_masks pb b mk R -> k_masks pb b mk R'
}.

Section Tree.
Context `{K : Kind}.

Fixpoint wf (pb : Z) (t : tree) : Prop :=
  match t with
  | Leaf c => k_chain pb c
  | Node b mk l r =>
      (pb < b /\ k_lo <= b < k_hi) /\ (side b false (routes l) /\ side b true (routes r)) /\
      agree_all k_lo (routes l ++ routes r) b /\ k_masks pb b mk (routes l ++ routes r) /\ wf b l /\ wf b r
  end.

(** The same of the frames around a hole with the routes [R] *)
Fixpoint wf_up (fs : list frame) (R : list leaf) : Prop :=
  match fs with
  | [] => True
  | f :: fs' =>
      (hole_b fs' < fr_b f /\ k_lo <= fr_b f < k_hi) /\ (side (fr_b f) (fr_right f) R /\ side (fr_b f) (negb (fr_right f)) (routes (fr_sib f))) /\
      agree_all k_lo (below f R) (fr_b f) /\ wf (fr_b f) (fr_sib f) /\ wf_up fs' (below f R)
  end.
Fixpoint masks_up (fs : list frame) (R : list leaf) : Prop :=
  match fs with
  | [] => True
  | f :: fs' => k_masks (hole_b fs') (fr_b f) (fr_mklist f) (below f R) /\ masks_up fs' (below f R)
  end.

Lemma side_set b s R R' : (forall x, x ∈ R' -> x ∈ R) -> side b s R -> side b s R'.
Proof. intros H Hs x Hx. by apply Hs, H. Qed.
Lemma agree_all_set lo b R R' : (forall x, x ∈ R' -> x ∈ R) -> agree_all lo R b -> agree_all lo R' b.
Proof. intros H Ha x y Hx Hy. apply Ha; by apply H. Qed.
Lemma agree_all_le lo R b b' : b' <= b -> agree_all lo R b -> agree_all lo R b'.
Proof. intros Hb Ha x y Hx Hy. by apply (agree_le _ _ _ b), Ha. Qed.

Lemma below_set f R R' : (forall x, x ∈ R <-> x ∈ R') -> forall x, x ∈ below f R <-> x ∈ below f R'.
Proof. intros H x. unfold below. by rewrite !elem_of_app, H. Qed.

Lemma wf_up_set fs : forall R R', (forall x, x ∈ R <-> x ∈ R') -> wf_up fs R -> wf_up fs R'.
Proof.
  induction fs as [|f fs IH]; intros R R' H; [done|]. cbn [wf_up]. intros (H1 & [H2 H3] & H4 & H6 & H7).
  pose proof (below_set f R R' H) as Hb. split_and!; try done; try tauto.
  - eapply side_set; [|done]. intros x. by rewrite H.
  - eapply agree_all_set; [|done]. intros x. by rewrite Hb.
  - by eapply IH.
Qed.
Lemma masks_up_set fs : forall R R', (forall x, x ∈ R <-> x ∈ R') -> masks_up fs R -> masks_up fs R'.
Proof.
  induction fs as [|f fs IH]; intros R R' H; [done|]. cbn [masks_up]. intros (H1 & H2). pose proof (below_set f R R' H) as Hb.
  split; [by eapply k_masks_set|by eapply IH].
Qed.

Lemma wf_up1 f pb t :
  wf pb (up1 f t) <->
    (pb < fr_b f /\ k_lo <= fr_b f < k_hi) /\ (side (fr_b f) (fr_right f) (routes t) /\ side (fr_b f) (negb (fr_right f)) (routes (fr_sib f))) /\
    agree_all k_lo (below f (routes t)) (fr_b f) /\ k_masks pb (fr_b f) (fr_mklist f) (below f (routes t)) /\ wf (fr_b f) (fr_sib f) /\ wf (fr_b f) t.
Proof.
  unfold up1, below. destruct f as [b mk [] sib]; cbn [fr_right fr_b fr_mklist fr_sib negb wf]; [|tauto].
  assert (Hc : forall A B : list leaf, agree_all k_lo (A ++ B) b -> agree_all k_lo (B ++ A) b).
  { intros A B. apply agree_all_set. intros x. rewrite !elem_of_app. tauto. }
  assert (Hm : forall A B : list leaf, k_masks pb b mk (A ++ B) -> k_masks pb b mk (B ++ A)).
  { intros A B. apply k_masks_set. intros x. rewrite !elem_of_app. tauto. }
  split; intros (H1 & [H2 H3] & H4 & H5 & H6 & H7); split_and!; try done; try tauto; auto.
Qed.

Lemma wf_plug fs : forall t, wf (-1) (plug fs t) <-> wf_up fs (routes t) /\ masks_up fs (routes t) /\ wf (hole_b fs) t.
Proof.
  induction fs as [|f fs IH]; intros t; cbn [plug wf_up masks_up hole_b]; [tauto|]. rewrite IH, wf_up1.
  assert (Hs : wf_up fs (routes (up1 f t)) <-> wf_up fs (below f (routes t))).
  { split; apply wf_up_set; intros x; rewrite elem_below; done. }
  assert (Hm : masks_up fs (routes (up1 f t)) <-> masks_up fs (below f (routes t))).
  { split; apply masks_up_set; intros x; rewrite elem_below; done. }
  rewrite Hs, Hm. tauto.
Qed.

(** The top of a tree *)
Lemma plug_last fs f t : exists l r, plug (fs ++ [f]) t = Node (fr_b f) (fr_mklist f) l r.
Proof. rewrite plug_app. cbn [plug]. unfold up1. destruct (fr_right f); by do 2 eexists. Qed.
Lemma plug_top fs x y b mk l r : fs <> [] -> plug fs x = Node b mk l r -> exists l' r', plug fs y = Node b mk l' r'.
Proof.
  intros Hne E. destruct (exists_last Hne) as (fs0 & f & ->). destruct (plug_last fs0 f x) as (l1 & r1 & E1). rewrite E in E1. injection E1 as -> -> _ _. apply plug_last.
Qed.

Lemma elem_plug fs : forall x t, x ∈ routes (plug fs t) <-> x ∈ routes t \/ exists f, f ∈ fs /\ x ∈ routes (fr_sib f).
Proof.
  induction fs as [|f fs IH]; intros x t; cbn [plug].
  - split; [by left|]. intros [|(f & Hf & _)]; [done|by apply elem_of_nil in Hf].
  - rewrite IH, elem_below. unfold below. rewrite elem_of_app. split.
    + intros [[H|H]|(g & Hg & H)]; [by left|right; exists f; split; [left|done]|right; exists g; split; [by right|done]].
    + intros [H|(g & [->|Hg]%elem_of_cons & H)]; [by left; left|by left; right|right; by exists g].
Qed.

Lemma wf_nonempty t : forall pb, wf pb t -> exists x, x ∈ routes t.
Proof.
  induction t as [c|b mk l IHl r IHr]; intros pb H.
  - apply k_chain_ok in H as (Hne & _). destruct c as [|x c]; [done|]. exists (clean x). left.
  - destruct H as (_ & _ & _ & _ & Hl & _). destruct (IHl _ Hl) as [x Hx]. exists x. rewrite routes_node, elem_of_app. by left.
Qed.

(** ** Searching *)

Definition on_path (v : list Z) (fs : list frame) : Prop := forall f, f ∈ fs -> test_bit v (fr_b f) = fr_right f.

Lemma on_path_cons v f fs : test_bit v (fr_b f) = fr_right f -> on_path v fs -> on_path v (f :: fs).
Proof. intros H Hp g [->|Hg]%elem_of_cons; [done|by apply Hp]. Qed.

Lemma rn_search_ok v t : forall fs0 c fs, rn_search v t fs0 = (c, fs) -> plug fs (Leaf c) = plug fs0 t /\ (on_path v fs0 -> on_path v fs).
Proof.
  induction t as [c'|b mk l IHl r IHr]; intros fs0 c fs; cbn [rn_search]; [by intros [= -> ->]|].
  destruct (test_bit v b) eqn:Eb; intros H; [apply IHr in H as [H1 H2]|apply IHl in H as [H1 H2]]; (split; [done|]); intros Hp; apply H2, on_path_cons; done.
Qed.

Lemma search_top v t c fs : rn_search v t [] = (c, fs) -> wf (-1) t ->
  plug fs (Leaf c) = t /\ on_path v fs /\ wf_up fs (map clean c) /\ masks_up fs (map clean c) /\ k_chain (hole_b fs) c.
Proof.
  intros E Hwf. apply rn_search_ok in E as [H1 H2]. change (plug [] t) with t in H1. split_and!; [done| |by rewrite <- H1 in Hwf; apply wf_plug in Hwf as (? & ? & ?)..].
  apply H2. intros f Hf. by apply elem_of_nil in Hf.
Qed.

Lemma wf_keys t : forall pb x, wf pb t -> x ∈ routes t -> key_ok (lf_key x).
Proof.
  induction t as [c|b mk l IHl r IHr]; intros pb x H Hx.
  - apply k_chain_ok in H as (_ & _ & H). unfold routes in Hx. apply list_elem_of_In, in_map_iff in Hx as (y & <- & Hy). exact (H y (proj2 (list_elem_of_In _ _) Hy)).
  - destruct H as (_ & _ & _ & _ & Hl & Hr). rewrite routes_node in Hx. apply elem_of_app in Hx as [Hx|Hx]; [by eapply IHl|by eapply IHr].
Qed.

(** What the frames say of the routes at the hole and beside the way. *)
Lemma up_agree fs R : wf_up fs R -> agree_all k_lo R (hole_b fs + 1).
Proof.
  pose proof k_range. destruct fs as [|f fs]; cbn [hole_b wf_up]; [by intros _ x y _ _ i Hi; lia|]. intros (H1 & [H2 _] & H4 & _) x y Hx Hy i Hi.
  destruct (Z.eq_dec i (fr_b f)) as [->|]; [by rewrite !H2|]. apply H4; [unfold below; rewrite elem_of_app; by left..|lia].
Qed.
Lemma up_le fs : forall R f, wf_up fs R -> f ∈ fs -> k_lo <= fr_b f <= hole_b fs.
Proof.
  induction fs as [|g fs IH]; intros R f; [by intros _ ?%elem_of_nil|]. cbn [wf_up hole_b]. intros (H1 & _ & _ & _ & H) [->|Hf]%elem_of_cons; [lia|].
  apply (IH _ _ H) in Hf. lia.
Qed.
Lemma up_sib fs : forall R f x r, wf_up fs R -> f ∈ fs -> x ∈ routes (fr_sib f) -> r ∈ R ->
  test_bit (lf_key r) (fr_b f) = fr_right f /\ test_bit (lf_key x) (fr_b f) = negb (fr_right f) /\ agree k_lo (lf_key x) (lf_key r) (fr_b f).
Proof.
  induction fs as [|g fs IH]; intros R f x r; [by intros _ ?%elem_of_nil|]. cbn [wf_up]. intros (H1 & [H2 H3] & H4 & _ & H) [->|Hf]%elem_of_cons Hx Hr.
  - split_and!; [by apply H2|by apply H3|]. apply H4; unfold below; rewrite elem_of_app; auto.
  - apply (IH _ _ _ _ H Hf Hx). unfold below. rewrite elem_of_app. by left.
Qed.

(** Routes that agree with those at the hole may be added there. *)
Definition same_side (f g : frame) : Prop := fr_b f = fr_b g /\ fr_right f = fr_right g /\ fr_sib f = fr_sib g.
Lemma same_hole fs gs : Forall2 same_side fs gs -> hole_b fs = hole_b gs.
Proof. by intros [|f g fs' gs' (H & _) _]. Qed.
Lemma Forall2_same_refl fs : Forall2 same_side fs fs.
Proof. induction fs; by constructor. Qed.
Lemma wf_up_add fs gs : Forall2 same_side fs gs -> forall R R', wf_up fs R -> (forall x, x ∈ R' -> exists r, r ∈ R /\ agree k_lo (lf_key x) (lf_key r) (hole_b fs + 1)) -> wf_up gs R'.
Proof.
  induction 1 as [|f g fs gs (Eb & Er & Es) HF IH]; intros R R'; [done|]. cbn [wf_up hole_b]. rewrite <- Eb, <- Er, <- Es, <- (same_hole _ _ HF).
  intros (H1 & [H2 H3] & H4 & H6 & H7) Hag.
  assert (Hb : forall x, x ∈ below g R' -> exists r, r ∈ below f R /\ agree k_lo (lf_key x) (lf_key r) (fr_b f)).
  { intros x. unfold below. rewrite elem_of_app, <- Es. intros [Hx|Hx].
    - destruct (Hag x Hx) as (r & Hr & Ha). exists r. rewrite elem_of_app. split; [by left|]. by apply (agree_le _ _ _ (fr_b f + 1)); [lia|].
    - exists x. rewrite elem_of_app. split; [by right|apply agree_refl]. }
  split_and!; try done; try lia.
  - intros x Hx. destruct (Hag x Hx) as (r & Hr & Ha). rewrite Ha by lia. by apply H2.
  - intros x y Hx Hy. destruct (Hb x Hx) as (r & Hr & Har). destruct (Hb y Hy) as (r' & Hr' & Har'). eapply agree_trans; [exact Har|].
    eapply agree_trans; [by apply H4|]. by apply agree_sym.
  - eapply IH; [exact H7|]. intros x Hx. destruct (Hb x Hx) as (r & Hr & Har). exists r. split; [done|]. apply (agree_le _ _ _ (fr_b f)); [|done]. lia.
Qed.

(** The bit at the hole is below the end of the keys. *)
Lemma hole_lt fs R : wf_up fs R -> hole_b fs < k_hi.
Proof. pose proof k_range. destruct fs as [|f fs]; cbn [hole_b wf_up]; [lia|]. intros (H1 & _). lia. Qed.

Lemma search_in v t : forall fs0 c fs x, rn_search v t fs0 = (c, fs) -> x ∈ map clean c -> x ∈ routes t.
Proof.
  induction t as [c'|b mk l IHl r IHr]; intros fs0 c fs x; cbn [rn_search]; [by intros [= -> ->]|]. rewrite routes_node, elem_of_app.
  destruct (test_bit v b); intros H Hx; [right; by eapply IHr|left; by eapply IHl].
Qed.

(** ** Inserting *)

Lemma insert_place_ok v d x : forall fs0 x' fs, insert_place v d x fs0 = (x', fs) ->
  plug fs x' = plug fs0 x /\ rn_search v x' fs = rn_search v x fs0 /\ (on_path v fs0 -> on_path v fs) /\ (hole_b fs0 < d -> hole_b fs < d) /\
  (fs0 <> [] -> fs <> []) /\ match x' with Node xb _ _ _ => d <= xb | Leaf _ => True end.
Proof.
  induction x as [c|b mk l IHl r IHr]; intros fs0 x' fs; cbn [insert_place rn_search]; [by intros [= <- <-]|]. destruct (Z.gtb_spec d b) as [Hb|Hb].
  - destruct (test_bit v b) eqn:Eb; intros H; [apply IHr in H as (H1 & H2 & H3 & H4 & H5 & H6)|apply IHl in H as (H1 & H2 & H3 & H4 & H5 & H6)];
      (split_and!; [done|done|by intros Hp; apply H3, on_path_cons|intros _; apply H4; cbn; lia|by intros _; apply H5|done]).
  - intros [= <- <-]. cbn [rn_search]. done.
Qed.

(** The bit [d] of the new node: [v] agrees with the routes at [x] before it and not there. *)
Definition place_ok (v : list Z) (d : Z) (x : tree) (fs : list frame) : Prop :=
  fs <> [] /\ on_path v fs /\ hole_b fs < d < 8 * byte v 0 /\ k_lo <= d /\ side d (negb (test_bit v d)) (routes x) /\ agree_all k_lo (routes x) (d + 1) /\
  (forall y, y ∈ routes x -> agree k_lo v (lf_key y) d) /\ match x with Node b _ _ _ => d < b | Leaf _ => True end.

Lemma insert_bit v w i : key_ok v -> key_ok w -> byte v i <> byte w i -> 0 <= i -> diff_bit 9 (Z.lxor (byte v i) (byte w i)) (Z.shiftl (i + 1) 3) = fdiff v w i.
Proof.
  intros Hv Hw Hne Hi. rewrite diff_bit_spec by (by apply lxor_byte). unfold fdiff. rewrite Z.shiftl_mul_pow2 by lia. change (2 ^ 3) with 8. lia.
Qed.

Lemma place_found v d x fs c fs2 pb t : wf pb x -> rn_search v x fs = (c, fs2) -> t ∈ map clean c -> k_lo <= d < k_hi -> test_bit v d <> test_bit (lf_key t) d ->
  agree k_lo v (lf_key t) d -> match x with Node xb _ _ _ => d <= xb | Leaf _ => True end ->
  side d (negb (test_bit v d)) (routes x) /\ agree_all k_lo (routes x) (d + 1) /\ (forall y, y ∈ routes x -> agree k_lo v (lf_key y) d) /\
  match x with Node b _ _ _ => d < b | Leaf _ => True end.
Proof.
  intros Hwf E Ht Hd Hne Hag Hx. pose proof (search_in _ _ _ _ _ _ E Ht) as Hin.
  assert (H : agree_all k_lo (routes x) (d + 1) /\ match x with Node b _ _ _ => d < b | Leaf _ => True end).
  { destruct x as [c'|b mk l r]; cbn [wf] in Hwf.
    - apply k_chain_ok in Hwf as (_ & H & _). split; [|done]. by apply (agree_all_le _ _ k_hi); [lia|].
    - destruct Hwf as (H1 & [H2 H3] & H4 & _ & _). assert (d <> b).
      { intros ->. apply Hne. cbn [rn_search] in E. destruct (test_bit v b); [rewrite H3|rewrite H2]; try done; by eapply search_in. }
      split; [|lia]. rewrite routes_node. by apply (agree_all_le _ _ b); [lia|]. }
  destruct H as [Ha Hb]. split_and!; [|done| |done].
  - intros y Hy. rewrite (Ha y t Hy Hin) by lia. by destruct (test_bit v d), (test_bit (lf_key t) d).
  - intros y Hy. eapply agree_trans; [exact Hag|]. by apply (agree_le _ _ _ (d + 1)), Ha; [lia|..].
Qed.

(** Where [rn_insert] puts a key. *)
Definition insert_ok (v : list Z) (id : Z) (top : tree) (r : bool * list leaf * list frame) : Prop :=
  let '(dup, c, fs) := r in
  if dup then rn_search v top [] = (c, fs) /\ forall x, x ∈ c -> agree k_lo v (lf_key x) (8 * byte v 0)
  else exists d x fs', c = [new_leaf id v] /\ fs = mkFrame d [] (test_bit v d) x :: fs' /\ plug fs' x = top /\ place_ok v d x fs'.

Lemma rn_insert_ok v id mk l r : let top := Node k_lo mk l r in
  wf (-1) top -> k_lo mod 8 = 0 -> key_ok v -> k_lo <= 8 * byte v 0 <= k_hi -> exists res, rn_insert v id top = Ret res /\ insert_ok v id top res.
Proof.
  intros top Hwf Hm Hv Hlen. pose proof k_range as Hr. unfold rn_insert. destruct (rn_search v top []) as [c fs] eqn:E.
  destruct (search_top _ _ _ _ E Hwf) as (Hplug & Hpath & Hup & _ & Hc). destruct (k_chain_ok _ _ Hc) as (Hne & Hag & Hkey). destruct c as [|t c]; [done|].
  cbv beta iota zeta delta [top]. fold top. assert (Eo : 8 * rn_off top = k_lo).
  { cbn [top rn_off]. rewrite Z.shiftr_div_pow2 by lia. change (2 ^ 3) with 8. Z.to_euclidean_division_equations. lia. }
  set (off := rn_off top) in *. assert (Ht : key_ok (lf_key t)) by (apply Hkey; left). assert (Ht' : clean t ∈ map clean (t :: c)) by left.
  destruct (differ _ v (lf_key t) off) as [i|] eqn:Ed.
  - apply differ_Some in Ed as (Hi & Hneq & Heq). rewrite insert_bit by (try done; lia). destruct (fdiff_spec off v (lf_key t) i ltac:(lia) Hv Ht Hneq Heq) as (Hd1 & Hd2 & Hd3).
    set (d := fdiff v (lf_key t) i) in *. clearbody d. rewrite Eo in Hd3.
    assert (Hst : exists x fs1, (if test_bit v k_lo then insert_place v d r [mkFrame k_lo mk true l] else insert_place v d l [mkFrame k_lo mk false r]) = insert_place v d x fs1 /\
      rn_search v x fs1 = (t :: c, fs) /\ plug fs1 x = top /\ on_path v fs1 /\ fs1 <> [] /\ hole_b fs1 = k_lo /\ test_bit (lf_key t) k_lo = test_bit v k_lo).
    { cbn [top rn_search] in E. destruct Hwf as (_ & [Hs1 Hs2] & _). destruct (test_bit v k_lo) eqn:Eb;
        [exists r, [mkFrame k_lo mk true l]|exists l, [mkFrame k_lo mk false r]]; (split_and!; [done|done|done| |done|done|]);
        [|apply (Hs2 (clean t)); by eapply search_in| |apply (Hs1 (clean t)); by eapply search_in]; by apply on_path_cons; [|intros ? ?%elem_of_nil]. }
    destruct Hst as (x & fs1 & -> & Hs & Hp1 & Hon & Hn1 & Hh1 & Hb). destruct (insert_place v d x fs1) as [x' fs'] eqn:Ei.
    apply insert_place_ok in Ei as (E1 & E2 & E3 & E4 & E5 & E6). assert (Hgt : k_lo < d). { destruct (Z.eq_dec d k_lo) as [->|]; [by rewrite Hb in Hd2|lia]. }
    rewrite Hp1 in E1. eexists. split; [reflexivity|]. exists d, x', fs'. split_and!; try done. rewrite <- E1 in Hwf. apply wf_plug in Hwf as (_ & _ & Hx).
    rewrite Hs in E2. destruct (place_found v d x' fs' (t :: c) fs (hole_b fs') (clean t)) as (P1 & P2 & P3 & P4); try done; [lia|].
    unfold place_ok. split_and!; try done; try lia; [by apply E5|by apply E3].
  - eexists. split; [reflexivity|]. split; [done|]. intros x Hx.
    eapply agree_trans; [|eapply agree_le; [|apply (Hag (clean t) (clean x)); [done|apply list_elem_of_fmap_2; done]]; lia]. rewrite <- Eo.
    apply agree_bytes; [lia|done|done|]. intros j Hj. apply (differ_None _ _ _ _ Ed). lia.
Qed.

(** The frames above a new leaf *)
Lemma place_up v d x x' mk fs gs nl : place_ok v d x fs -> lf_key nl = v -> 8 * byte v 0 <= k_hi -> wf_up fs (routes x) -> wf d x' -> routes x' = routes x ->
  Forall2 same_side fs gs -> wf_up (mkFrame d mk (test_bit v d) x' :: gs) [clean nl].
Proof.
  intros (P1 & P2 & P3 & P4 & P5 & P6 & P7 & P8) Hk Hv Hup Hx Hr HF. cbn [wf_up fr_b fr_right fr_sib]. rewrite Hr, <- (same_hole _ _ HF).
  assert (Hb : forall y, y ∈ below (mkFrame d mk (test_bit v d) x') [clean nl] -> agree k_lo v (lf_key y) d).
  { intros y. unfold below. cbn [fr_sib]. rewrite Hr, elem_of_app, list_elem_of_singleton. intros [->|Hy]; [|by apply P7]. cbn. rewrite Hk. apply agree_refl. }
  split_and!; try done; try lia.
  - intros y ->%list_elem_of_singleton. cbn. by rewrite Hk.
  - intros y z Hy Hz. eapply agree_trans; [apply agree_sym|]; by apply Hb.
  - eapply wf_up_add; [exact HF|exact Hup|]. intros y Hy. apply Hb in Hy.
    destruct (wf_nonempty _ _ Hx) as [r Hr']. rewrite Hr in Hr'. exists r. split; [done|]. apply (agree_le _ _ _ d); [lia|]. eapply agree_trans; [by apply agree_sym|by apply P7].
Qed.

End Tree.

End RadixTree.
