(* ===== verification/RadixMatch.v ===== *)
(** Lookups in the tree of routes: [rn_match] finds the route with the longest mask among the
    routes that cover an address. *)
From Stdlib Require Import Sorting.Sorted.
From S2P Require Import Prelude Radix RadixTree.
Import Radix RadixTree.

Module RadixMatch.

(** ** Routes *)

(** The mask of the first [n] bits in the tree of masks: its length is that of the bytes up
    to the last one that is not zero, and the bytes before the compared part are ones. *)
Definition pbyte (n j : Z) : Z := if 8 * (j + 1) <=? n then 255 else if n <=? 8 * j then 0 else 256 - 2 ^ (8 - (n - 8 * j)).
Definition pmask (KL n : Z) : list Z := (n + 7) / 8 :: map (pbyte n) (seqZ 1 (KL - 1)).
Definition zmask (KL : Z) : list Z := repeat 0 (Z.to_nat KL).

Lemma byte_zmask KL i : byte (zmask KL) i = 0.
Proof. unfold byte, zmask. apply nth_repeat. Qed.
Lemma test_zmask KL b : test_bit (zmask KL) b = false.
Proof. unfold test_bit. by rewrite byte_zmask. Qed.

Definition is_root (x : leaf) : bool := hasf (lf_flags x) RNF_ROOT.
Definition is_normal (x : leaf) : bool := hasf (lf_flags x) RNF_NORMAL.

Section Routes.
(** Keys are compared from byte [off] to byte [klen]; masks have [KL] bytes. *)
Context (off klen KL : Z) (Hrange : 1 <= off < klen /\ klen <= KL < 255).
#[local] Abbreviation lo := (8 * off).
#[local] Abbreviation hi := (8 * klen).

(** The index of a route: the number of leading bits that must match *)
Definition idx (x : leaf) : Z := match lf_mask x with None => hi + 1 | Some _ => -1 - lf_b x end.
Definition masked (x : leaf) : Prop := lf_mask x <> None.

(** The leaves of the tree: the two roots, host routes, routes with the mask of a prefix, and
    the default route. *)
Inductive leaf_kind : leaf -> Prop :=
| leaf_root x bit : lf_mask x = None -> is_normal x = false -> is_root x = true -> (forall i, lo <= i < hi -> test_bit (lf_key x) i = bit) -> leaf_kind x
| leaf_host x : lf_mask x = None -> is_normal x = false -> is_root x = false -> leaf_kind x
| leaf_net x n : lf_mask x = Some (pmask KL n) -> lf_b x = -1 - n -> lo < n <= hi -> is_normal x = true -> is_root x = false -> leaf_kind x
| leaf_default x : lf_mask x = Some (zmask KL) -> lf_b x = -1 -> is_normal x = false -> is_root x = false -> leaf_kind x.

(** A key is zero behind its mask. *)
Definition route_ok (x : leaf) : Prop := key_ok (lf_key x) /\ leaf_kind x /\ (forall i, idx x <= i < hi -> lo <= i -> test_bit (lf_key x) i = false).

Lemma clean_ok x : route_ok (clean x) <-> route_ok x.
Proof.
  unfold route_ok. assert (H : leaf_kind (clean x) <-> leaf_kind x); [|by rewrite H].
  split; intros H; inversion H; [eapply leaf_root|eapply leaf_host|eapply leaf_net|eapply leaf_default| eapply leaf_root|eapply leaf_host|eapply leaf_net|eapply leaf_default]; done.
Qed.

Lemma idx_range x : route_ok x -> (masked x -> 0 <= idx x <= hi) /\ (~ masked x -> idx x = hi + 1) /\ (is_normal x = true -> lo < idx x <= hi).
Proof.
  intros (_ & Hk & _). unfold masked, idx.
  destruct Hk as [x bit E1 E2 E3 E4|x E1 E2 E3|x n E1 E2 E3 E4 E5|x E1 E2 E3 E4]; rewrite E1; split_and!; try done; try (intros; congruence); try lia; intros H; try lia; by destruct H.
Qed.

Lemma pmask_zmask n : lo < n -> pmask KL n <> zmask KL.
Proof.
  intros Hn E. apply (f_equal (fun m => byte m 0)) in E. cbv beta in E. rewrite byte_zmask in E. change (byte (pmask KL n) 0) with ((n + 7) / 8) in E. Z.to_euclidean_division_equations. lia.
Qed.
Lemma masked_cases x : leaf_kind x -> masked x -> is_root x = false /\
  ((is_normal x = true /\ lf_mask x = Some (pmask KL (idx x)) /\ lo < idx x <= hi) \/ (is_normal x = false /\ lf_mask x = Some (zmask KL) /\ idx x = 0)).
Proof.
  unfold masked, idx. intros [y bit E1 E2 E3 E4|y E1 E2 E3|y n E1 E2 E3 E4 E5|y E1 E2 E3 E4]; rewrite E1; try done; intros _; (split; [done|]).
  - left. replace (-1 - lf_b y) with n by lia. done.
  - right. split_and!; [done|done|lia].
Qed.
Lemma default_idx x : leaf_kind x -> lf_mask x = Some (zmask KL) -> idx x = 0 /\ is_root x = false /\ is_normal x = false.
Proof.
  intros Hk E. destruct (masked_cases x Hk) as (H1 & [(H2 & H3 & H4)|(H2 & H3 & H4)]); [by unfold masked; rewrite E| |done].
  rewrite E in H3. injection H3 as H3. by destruct (pmask_zmask (idx x) ltac:(lia)).
Qed.

(** ** The chain of a leaf and the masks of a node *)

Definition rt_chain (pb : Z) (c : list leaf) : Prop :=
  c <> [] /\ agree_all lo (map clean c) hi /\ (forall x, x ∈ c -> route_ok x) /\ StronglySorted (fun x y => idx y < idx x) c /\
  (forall x, head c = Some x -> 0 < idx x) /\ (forall x, x ∈ c -> masked x -> (lf_mklist x = None <-> pb < idx x)).

(** The entry of a route goes to the highest node that tests a bit behind its mask. *)
Definition lifted (pb b : Z) (x : leaf) : Prop := masked x /\ pb < idx x <= b.
Definition entry (m : rmask) (x : leaf) : Prop :=
  rm_b m = lf_b x /\ rm_rmu m = if is_normal x then rmu_leaf (lf_id x) (lf_mask x) else rmu_mask (lf_mask x).
Definition rt_masks (pb b : Z) (mk : list rmask) (R : list leaf) : Prop :=
  StronglySorted (fun m m' => rm_b m < rm_b m') mk /\ (forall m, m ∈ mk -> exists x, x ∈ R /\ lifted pb b x /\ entry m x) /\
  (forall x, x ∈ R -> lifted pb b x -> exists m, m ∈ mk /\ entry m x).

#[local] Program Instance rt_kind : Kind := {| k_lo := lo; k_hi := hi; k_chain := rt_chain; k_masks := rt_masks |}.
Next Obligation. lia. Qed.
Next Obligation. intros pb c (H1 & H2 & H3 & _). split_and!; [done|done|]. intros x Hx. by apply H3. Qed.
Next Obligation.
  intros pb b mk R R' H (H1 & H2 & H3). split_and!; [done| |].
  - intros m Hm. destruct (H2 m Hm) as (x & Hx & H'). exists x. by rewrite <- H.
  - intros x Hx. apply H3. by rewrite H.
Qed.

(** ** The routes that cover an address *)

Definition covers (x : leaf) (v : list Z) : Prop := agree lo (lf_key x) v (Z.min (idx x) hi).

(** What a lookup finds: a route that covers the address with the longest mask; or nothing, or
    a root of the tree, when no route covers it. *)
Definition longest (v : list Z) (R : list leaf) (r : option Z) : Prop :=
  match r with
  | Some id => exists x, x ∈ R /\ lf_id x = id /\
      if is_root x then forall y, y ∈ R -> is_root y = false -> ~ covers y v
      else covers x v /\ forall y, y ∈ R -> is_root y = false -> covers y v -> idx y <= idx x
  | None => forall y, y ∈ R -> is_root y = false -> ~ covers y v
  end.

Lemma entry_idx m x : masked x -> entry m x -> idx x = -1 - rm_b m.
Proof. intros Hm [-> _]. unfold idx. by destruct (lf_mask x) eqn:E. Qed.

(** A covering route is in the chain at the end of the search, or its mask is in the list of
    a node on the way. *)
Definition on_way (fs : list frame) (y : leaf) : Prop :=
  masked y /\ exists fs1 f fs2, fs = fs1 ++ f :: fs2 /\ hole_b fs2 < idx y <= fr_b f /\ exists m, m ∈ fr_mklist f /\ entry m y.

Lemma on_way_cons g fs y : on_way fs y -> on_way (g :: fs) y.
Proof. intros (Hm & fs1 & f & fs2 & -> & H). split; [done|]. by exists (g :: fs1), f, fs2. Qed.

Lemma lifted_way fs : forall R y, masks_up fs R -> y ∈ R -> masked y -> 0 <= idx y <= hole_b fs -> on_way fs y.
Proof.
  induction fs as [|f fs IH]; intros R y; cbn [masks_up hole_b]; [lia|]. intros ((_ & _ & Hall) & Hup) Hy Hm Hi.
  assert (Hb : y ∈ below f R) by (unfold below; rewrite elem_of_app; by left). destruct (Z.lt_ge_cases (hole_b fs) (idx y)).
  - split; [done|]. exists [], f, fs. split_and!; [done|lia|lia|]. apply Hall; [done|]. split; [done|lia].
  - apply on_way_cons, (IH _ _ Hup Hb Hm). lia.
Qed.

Lemma cover_way v fs : forall t y, wf_up fs (routes t) -> masks_up fs (routes t) -> on_path v fs -> (forall x, x ∈ routes (plug fs t) -> route_ok x) ->
  y ∈ routes (plug fs t) -> covers y v -> y ∈ routes t \/ on_way fs y.
Proof.
  induction fs as [|f fs IH]; intros t y; cbn [plug]; [by left|]. cbn [wf_up masks_up]. intros (Hb & [_ Hs] & _ & _ & Hup) ((Hk1 & Hk2 & Hall) & Hmk) Hp Hok Hy Hc.
  assert (Hset : forall x, x ∈ below f (routes t) <-> x ∈ routes (up1 f t)) by (intros x; by rewrite elem_below).
  destruct (IH (up1 f t) y) as [Hin|Hw]; try done; [by eapply wf_up_set|by eapply masks_up_set|intros g Hg; apply Hp; by right| |right; by apply on_way_cons].
  rewrite <- Hset in Hin. pose proof Hin as Hin'. unfold below in Hin. apply elem_of_app in Hin as [Hin|Hin]; [by left|]. right.
  pose proof (Hs y Hin) as Hbit. pose proof (Hp f ltac:(left)) as Hv. destruct (idx_range y (Hok y Hy)) as (Hm1 & Hm2 & _).
  cbn [k_lo k_hi rt_kind] in Hb. assert (Hi : Z.min (idx y) hi <= fr_b f).
  { destruct (Z.lt_ge_cases (fr_b f) (Z.min (idx y) hi)); [|done]. exfalso. rewrite (Hc (fr_b f)) in Hbit by lia. rewrite Hv in Hbit. by destruct (fr_right f). }
  assert (Hm : masked y). { unfold masked. intros E. rewrite Hm2 in Hi; [lia|]. intros Hn. by apply Hn. }
  specialize (Hm1 Hm). destruct (Z.lt_ge_cases (hole_b fs) (idx y)).
  - split; [done|]. exists [], f, fs. split_and!; [done|lia|lia|]. apply Hall; [done|]. split; [done|lia].
  - apply on_way_cons, (lifted_way _ _ _ Hmk Hin' Hm). lia.
Qed.

(** ** The masks of a node *)

(** The default route is at the end of the way to the left. *)
Lemma search_m_default v t : forall pb y, wf pb t -> (forall x, x ∈ routes t -> route_ok x) -> y ∈ routes t -> lf_mask y = Some (zmask KL) ->
  exists x, x ∈ rn_search_m v (zmask KL) t /\ lf_mask x = Some (zmask KL).
Proof.
  induction t as [c|b mk l IHl r IHr]; intros pb y Hwf Hok Hy Hm; cbn [rn_search_m].
  - unfold routes in Hy. apply list_elem_of_In, in_map_iff in Hy as (x & <- & Hx). exists x. split; [by apply list_elem_of_In|done].
  - rewrite test_zmask. cbn [andb]. destruct Hwf as (Hb & [_ Hs] & _ & _ & Hl & _). rewrite routes_node in Hy, Hok. apply elem_of_app in Hy as [Hy|Hy].
    + eapply IHl; try done. intros x Hx. apply Hok, elem_of_app. by left.
    + exfalso. destruct (Hok y) as (_ & Hk & Hz); [apply elem_of_app; by right|]. cbn [k_lo k_hi rt_kind] in Hb. pose proof (Hs y Hy) as Ht.
      destruct (default_idx y Hk Hm) as (Hi & _). rewrite Hz in Ht; [done|lia|lia].
Qed.
Lemma search_m_in v m t : forall x, x ∈ rn_search_m v m t -> clean x ∈ routes t.
Proof.
  induction t as [c|b mk l IHl r IHr]; intros x; cbn [rn_search_m]; [by apply list_elem_of_fmap_2|]. rewrite routes_node, elem_of_app.
  destruct (_ && _); [right; by apply IHr|left; by apply IHl].
Qed.

Lemma satisfies_default v x off' : lf_mask x = Some (zmask KL) -> 0 <= off' -> rn_satisfies_leaf v x off' = true.
Proof.
  intros E Ho. unfold rn_satisfies_leaf. rewrite E, byte_zmask. assert (H : forall a, cmin a 0 = 0).
  { intros a. unfold cmin. change (u32 0) with 0. pose proof (Z.mod_pos_bound a 4294967296 ltac:(lia)). destruct (Z.ltb_spec (u32 a) 0); [|done]. unfold u32 in *. lia. }
  rewrite H. by replace (Z.to_nat (0 - off')) with 0%nat by lia.
Qed.

(** The first entry whose index is at most the first bit that differs *)
Lemma match_masks_ok v d i pb b t mk : 0 <= d -> 0 <= rn_off t -> 0 <= i -> rt_masks pb b mk (routes t) -> wf pb t -> (forall x, x ∈ routes t -> route_ok x) ->
  match match_masks v (-1 - d) i t mk with
  | Some id => exists m x, m ∈ mk /\ x ∈ routes t /\ entry m x /\ lifted pb b x /\ lf_id x = id /\ idx x <= d /\ forall m', m' ∈ mk -> rm_b m' < rm_b m -> rm_b m' < -1 - d
  | None => forall m, m ∈ mk -> rm_b m < -1 - d
  end.
Proof.
  intros Hd Ho Hi (Hsort & Hent & _) Hwf Hok. induction mk as [|m mk IH]; cbn [match_masks]; [by intros m ?%elem_of_nil|].
  apply StronglySorted_inv in Hsort as [Hsort Hlt]. rewrite List.Forall_forall in Hlt.
  destruct (Hent m ltac:(left)) as (x & Hx & [Hmx Hpx] & [Eb Er]). specialize (IH Hsort (fun m0 H => Hent m0 ltac:(by right))).
  pose proof (entry_idx m x Hmx (conj Eb Er)) as Eidx.
  assert (Hnext : rm_b m < -1 - d -> match match_masks v (-1 - d) i t mk with
    | Some id => exists m0 x, m0 ∈ m :: mk /\ x ∈ routes t /\ entry m0 x /\ lifted pb b x /\ lf_id x = id /\ idx x <= d /\ forall m', m' ∈ m :: mk -> rm_b m' < rm_b m0 -> rm_b m' < -1 - d
    | None => forall m0, m0 ∈ m :: mk -> rm_b m0 < -1 - d end).
  { intros Hm. destruct (match_masks _ _ _ _ mk) as [id|].
    - destruct IH as (m0 & x0 & H1 & H2 & H3 & H4 & H5 & H6 & H7). exists m0, x0. split_and!; try done; [by right|]. intros m' [->|Hm']%elem_of_cons; [done|by apply H7].
    - intros m' [->|Hm']%elem_of_cons; [done|by apply IH]. }
  assert (Hhere : forall m', m' ∈ m :: mk -> rm_b m' < rm_b m -> rm_b m' < -1 - d).
  { intros m' [->|Hm']%elem_of_cons Hl; [lia|]. apply list_elem_of_In in Hm'. apply Hlt in Hm'. lia. }
  rewrite Er. destruct (Hok x Hx) as (_ & Hk & _). destruct (masked_cases x Hk Hmx) as (_ & [(En & _)|(En & E & E0)]); rewrite En.
  - destruct (Z.leb_spec (-1 - d) (rm_b m)); [|by apply Hnext]. exists m, x. split_and!; try done; [left|lia].
  - rewrite E.
    destruct (search_m_default v t _ _ Hwf Hok Hx E) as (y & Hy & Ey). destruct (List.find _ _) as [z|] eqn:Ef.
    + apply find_some in Ef as [Hz Ez]. apply bool_decide_eq_true in Ez. rewrite satisfies_default; [|done|].
      2:{ unfold cmin. destruct (_ <? _); [unfold u32|unfold u32]; apply Z.mod_pos_bound; lia. }
      apply list_elem_of_In, search_m_in in Hz. destruct (Hok _ Hz) as (_ & Hkz & _). destruct (default_idx (clean z) Hkz Ez) as (Z1 & _ & Z3).
      assert (Eb' : lf_b x = lf_b z). { clear - Z1 Eidx E0 Eb Ez. unfold idx in Z1. cbn in Z1. rewrite Ez in Z1. lia. }
      exists m, (clean z). split_and!; [left|done| | |done|lia|done].
      * split; [by rewrite Eb|]. rewrite Er, En, Z3, E. cbn. by rewrite Ez.
      * split; [unfold masked; cbn; by rewrite Ez|]. rewrite Z1. lia.
    + exfalso. apply list_elem_of_In in Hy. eapply find_none in Ef; [|exact Hy]. by apply bool_decide_eq_false in Ef.
Qed.

(** Up the tree *)
Lemma on_way_inv f fs y : on_way (f :: fs) y -> (masked y /\ hole_b fs < idx y <= fr_b f /\ exists m, m ∈ fr_mklist f /\ entry m y) \/ on_way fs y.
Proof. intros (Hm & [|g fs1] & h & fs2 & E & H); injection E as -> ->; [by left|right]. split; [done|]. by exists fs1, h, fs2. Qed.
Lemma on_way_le fs R y : wf_up fs R -> on_way fs y -> idx y <= hole_b fs.
Proof.
  intros Hup (_ & fs1 & f & fs2 & -> & H & _). assert (Hf : f ∈ fs1 ++ f :: fs2) by (apply elem_of_app; right; left). pose proof (up_le _ _ _ Hup Hf). lia.
Qed.

Lemma match_up_ok v d i fs : 0 <= d -> 0 <= i -> forall t, wf_up fs (routes t) -> masks_up fs (routes t) -> wf (hole_b fs) t ->
  (forall x, x ∈ routes (plug fs t) -> route_ok x) ->
  match match_up v (-1 - d) i fs t with
  | Some id => exists x, x ∈ routes (plug fs t) /\ masked x /\ lf_id x = id /\ idx x <= d /\ (forall r, r ∈ routes t -> agree lo (lf_key x) (lf_key r) (idx x)) /\
      forall y, on_way fs y -> idx y <= d -> idx y <= idx x
  | None => forall y, on_way fs y -> d < idx y
  end.
Proof.
  intros Hd Hi. induction fs as [|f fs IH]; intros t Hup Hmk Hwf Hok; cbn [match_up].
  { intros y (_ & fs1 & g & fs2 & E & _). by destruct fs1. }
  assert (Hwf1 : wf (hole_b fs) (up1 f t)).
  { cbn [wf_up masks_up hole_b] in *. apply wf_up1. tauto. }
  assert (Hset : forall x, x ∈ below f (routes t) <-> x ∈ routes (up1 f t)) by (intros x; by rewrite elem_below).
  destruct Hup as (Hb & _ & Hag & _ & Hup). destruct Hmk as [Hm Hmk]. eapply wf_up_set in Hup; [|exact Hset]. eapply masks_up_set in Hmk; [|exact Hset].
  assert (Hrt : rt_masks (hole_b fs) (fr_b f) (fr_mklist f) (routes (up1 f t))) by (eapply (k_masks_set (Kind := rt_kind)); [exact Hset|exact Hm]).
  assert (Ho : 0 <= rn_off (up1 f t)). { unfold up1. cbn [k_lo k_hi rt_kind] in Hb. destruct (fr_right f); apply Z.shiftr_nonneg; lia. }
  assert (Hok1 : forall x, x ∈ routes (up1 f t) -> route_ok x) by (intros x Hx; apply Hok; cbn [plug]; apply elem_plug; by left).
  pose proof (match_masks_ok v d i _ _ _ _ Hd Ho Hi Hrt Hwf1 Hok1) as H. destruct (match_masks v (-1 - d) i (up1 f t) (fr_mklist f)) as [id|].
  - destruct H as (m & x & H1 & H2 & H3 & [H4 H4'] & H5 & H6 & H7). exists x. split_and!; try done.
    + cbn [plug]. apply elem_plug. by left.
    + intros r Hr. apply (agree_le _ _ _ (fr_b f)); [lia|]. apply Hag; [by apply Hset|unfold below; apply elem_of_app; by left].
    + intros y [(Hy1 & Hy2 & m' & Hy3 & Hy4)|Hw]%on_way_inv Hy.
      * pose proof (entry_idx _ _ Hy1 Hy4) as E1. pose proof (entry_idx _ _ H4 H3) as E2. specialize (H7 m' Hy3). lia.
      * pose proof (on_way_le _ _ _ Hup Hw). lia.
  - specialize (IH (up1 f t) Hup Hmk Hwf1 Hok). destruct (match_up v (-1 - d) i fs (up1 f t)) as [id|].
    + destruct IH as (x & H1 & H2 & H3 & H4 & H5 & H6). exists x. split_and!; try done.
      * intros r Hr. apply H5, elem_below. unfold below. apply elem_of_app. by left.
      * intros y [(Hy1 & Hy2 & m' & Hy3 & Hy4)|Hw]%on_way_inv Hy; [|by apply H6]. pose proof (entry_idx _ _ Hy1 Hy4) as E1. specialize (H m' Hy3). lia.
    + intros y [(Hy1 & Hy2 & m' & Hy3 & Hy4)|Hw]%on_way_inv; [|by apply IH]. pose proof (entry_idx _ _ Hy1 Hy4) as E1. specialize (H m' Hy3). lia.
Qed.

(** ** The chain at the end of the search *)

Lemma elem_clean y c : y ∈ map clean c -> exists x, x ∈ c /\ y = clean x.
Proof. intros Hy. apply list_elem_of_In, in_map_iff in Hy as (x & <- & Hx). exists x. by rewrite list_elem_of_In. Qed.

Lemma match_chain_ok v d i c : 0 <= i -> (forall x, x ∈ c -> route_ok x /\ masked x) -> StronglySorted (fun x y => idx y < idx x) c -> 0 <= d ->
  match match_chain v (-1 - d) i c with
  | Some x => x ∈ c /\ idx x <= d /\ forall y, y ∈ c -> idx y <= d -> idx y <= idx x
  | None => forall y, y ∈ c -> d < idx y
  end.
Proof.
  intros Hi Hok Hsort Hd. induction c as [|x c IH]; cbn [match_chain]; [by intros y ?%elem_of_nil|].
  apply StronglySorted_inv in Hsort as [Hsort Hlt]. rewrite List.Forall_forall in Hlt. specialize (IH (fun x0 H => Hok x0 ltac:(by right)) Hsort).
  destruct (Hok x ltac:(left)) as [(_ & Hk & _) Hm]. assert (Hhere : idx x <= d -> x ∈ x :: c /\ idx x <= d /\ forall y, y ∈ x :: c -> idx y <= d -> idx y <= idx x).
  { intros H. split_and!; [left|done|]. intros y [->|Hy]%elem_of_cons _; [lia|]. apply list_elem_of_In in Hy. apply Hlt in Hy. lia. }
  assert (Hnext : d < idx x -> match match_chain v (-1 - d) i c with
    | Some x0 => x0 ∈ x :: c /\ idx x0 <= d /\ forall y, y ∈ x :: c -> idx y <= d -> idx y <= idx x0 | None => forall y, y ∈ x :: c -> d < idx y end).
  { intros H. destruct (match_chain v (-1 - d) i c) as [z|].
    - destruct IH as (I1 & I2 & I3). split_and!; [by right|done|]. intros y [->|Hy]%elem_of_cons; [lia|by apply I3].
    - intros y [->|Hy]%elem_of_cons; [done|by apply IH]. }
  assert (Ei : idx x = -1 - lf_b x). { unfold idx. by destruct (lf_mask x) eqn:E. }
  destruct (masked_cases x Hk Hm) as (_ & [(En & _)|(En & E & E0)]); unfold is_normal in En; rewrite En.
  - destruct (Z.leb_spec (-1 - d) (lf_b x)); [apply Hhere; lia|apply Hnext; lia].
  - rewrite satisfies_default by done. apply Hhere. lia.
Qed.

Lemma wf_routes t : forall pb, wf pb t -> forall x, x ∈ routes t -> route_ok x.
Proof.
  induction t as [c|b mk l IHl r IHr]; intros pb H x Hx.
  - destruct H as (_ & _ & H & _). apply elem_clean in Hx as (y & Hy & ->). by apply clean_ok, H.
  - destruct H as (_ & _ & _ & _ & Hl & Hr). rewrite routes_node in Hx. apply elem_of_app in Hx as [Hx|Hx]; [by eapply IHl|by eapply IHr].
Qed.

(** A covering route beside the way has a mask that ends before the node. *)
Lemma sib_bound v fs R f y : wf_up fs R -> on_path v fs -> f ∈ fs -> y ∈ routes (fr_sib f) -> (exists r, r ∈ R) -> route_ok y -> covers y v -> masked y /\ idx y <= fr_b f < hi /\ lo <= fr_b f.
Proof.
  intros Hup Hp Hf Hy [r Hr] Hok Hc. destruct (up_sib _ _ _ _ _ Hup Hf Hy Hr) as (_ & Hbit & _). rewrite <- (Hp f Hf) in Hbit.
  pose proof (up_le _ _ _ Hup Hf) as Hle. pose proof (hole_lt _ _ Hup) as Hlt. cbn [k_lo k_hi rt_kind] in *. destruct (idx_range y Hok) as (Hm1 & Hm2 & _).
  assert (Hi : Z.min (idx y) hi <= fr_b f).
  { destruct (Z.lt_ge_cases (fr_b f) (Z.min (idx y) hi)); [|done]. exfalso. rewrite (Hc (fr_b f)) in Hbit by lia. by destruct (test_bit v (fr_b f)). }
  assert (Hm : masked y). { unfold masked. intros E. rewrite Hm2 in Hi; [lia|]. intros Hn. by apply Hn. }
  split; [done|]. specialize (Hm1 Hm). lia.
Qed.

(** A covering route is at the hole when a key there is zero behind its mask. *)
Lemma cover_here v fs t x y : wf_up fs (routes t) -> on_path v fs -> x ∈ routes t -> route_ok y -> y ∈ routes (plug fs t) -> covers y v ->
  (forall i, idx y <= i < hi -> lo <= i -> test_bit (lf_key x) i = false) -> y ∈ routes t.
Proof.
  intros Hup Hp Hx Hok Hy Hc Hz. apply elem_plug in Hy as [Hy|(f & Hf & Hy)]; [done|]. exfalso.
  destruct (sib_bound _ _ _ _ _ Hup Hp Hf Hy ltac:(by exists x) Hok Hc) as (_ & H1 & H2). destruct (up_sib _ _ _ _ _ Hup Hf Hy Hx) as (B1 & B2 & _).
  destruct Hok as (_ & _ & Hzy). rewrite Hzy in B2 by lia. rewrite Hz in B1 by lia. by destruct (fr_right f).
Qed.

(** Otherwise it covers the address when its mask ends before the first bit that differs from
    a key at the hole. *)
Lemma cover_diff v fs t x y d : wf_up fs (routes t) -> on_path v fs -> x ∈ routes t -> route_ok y -> y ∈ routes (plug fs t) -> covers y v ->
  lo <= d < hi -> test_bit v d <> test_bit (lf_key x) d -> agree_all lo (routes t) hi -> idx y <= d.
Proof.
  intros Hup Hp Hx Hok Hy Hc Hd Hne Hag. destruct (Z.le_gt_cases (idx y) d); [done|]. exfalso. apply Hne. rewrite <- (Hc d) by lia.
  apply elem_plug in Hy as [Hy|(f & Hf & Hy)]; [by apply Hag|]. destruct (sib_bound _ _ _ _ _ Hup Hp Hf Hy ltac:(by exists x) Hok Hc) as (_ & H1 & H2).
  destruct (up_sib _ _ _ _ _ Hup Hf Hy Hx) as (_ & _ & Ha). apply Ha. cbn [k_lo rt_kind]. lia.
Qed.

(** ** [rn_match] *)

Definition not_ones (v : list Z) : Prop := exists i, lo <= i < hi /\ test_bit v i = false.

Section Found.
Context (v : list Z) (fs : list frame) (t : leaf) (c : list leaf).
#[local] Abbreviation top := (plug fs (Leaf (t :: c))).
Hypothesis (Hch : rt_chain (hole_b fs) (t :: c)) (Hup : wf_up fs (map clean (t :: c))) (Hmk : masks_up fs (map clean (t :: c))) (Hpath : on_path v fs).
Hypothesis (Hok : forall x, x ∈ routes top -> route_ok x).

Lemma chain_in x : x ∈ t :: c -> clean x ∈ routes top.
Proof. intros Hx. apply elem_plug. left. by apply list_elem_of_fmap_2. Qed.
Lemma chain_agree x y : x ∈ t :: c -> y ∈ t :: c -> agree lo (lf_key x) (lf_key y) hi.
Proof. intros Hx Hy. destruct Hch as (_ & Ha & _). apply (Ha (clean x) (clean y)); by apply list_elem_of_fmap_2. Qed.
Lemma chain_ok x : x ∈ t :: c -> route_ok x.
Proof. intros Hx. destruct Hch as (_ & _ & H & _). by apply H. Qed.
Lemma chain_masked x : x ∈ c -> masked x.
Proof.
  intros Hx. destruct Hch as (_ & _ & _ & Hs & _). apply StronglySorted_inv in Hs as [_ Hs]. rewrite List.Forall_forall in Hs. apply list_elem_of_In in Hx as Hx'. apply Hs in Hx'.
  destruct (idx_range x (chain_ok x ltac:(by right))) as (_ & H2 & _). destruct (idx_range t (chain_ok t ltac:(left))) as (H1 & H3 & _).
  unfold masked in *. intros E. destruct (lf_mask t) eqn:Et; [specialize (H1 ltac:(done))|specialize (H3 ltac:(tauto))]; specialize (H2 ltac:(tauto)); lia.
Qed.
Lemma chain_idx x : x ∈ c -> idx x < idx t.
Proof. intros Hx. destruct Hch as (_ & _ & _ & Hs & _). apply StronglySorted_inv in Hs as [_ Hs]. rewrite List.Forall_forall in Hs. by apply Hs, list_elem_of_In. Qed.

(** A route with a longer mask than one of the chain is in the chain. *)
Lemma deeper_in_chain x y : x ∈ t :: c -> y ∈ routes top -> covers y v -> idx x < idx y -> exists z, z ∈ t :: c /\ y = clean z.
Proof.
  intros Hx Hy Hc Hi. apply elem_clean. destruct (chain_ok x Hx) as (_ & _ & Hz). eapply (cover_here v fs (Leaf (t :: c)) (clean x)); try done; [by apply list_elem_of_fmap_2|by apply Hok|].
  intros i Hi1 Hi2. apply Hz; [lia|done].
Qed.

Lemma exact_ok : not_ones v -> agree lo v (lf_key t) (Z.min (idx t) hi) ->
  longest v (routes top) (Some (lf_id (if is_root t then match c with d :: _ => d | [] => t end else t))).
Proof.
  intros (b & Hb & Hvb) Hag. destruct (is_root t) eqn:Er.
  - assert (Hk : lf_mask t = None /\ forall i, lo <= i < hi -> test_bit (lf_key t) i = false).
    { destruct (chain_ok t ltac:(left)) as (_ & Hk & _). assert (En : lf_mask t = None). { destruct (lf_mask t) eqn:E; [|done]. destruct (masked_cases t Hk) as [H _]; [by unfold masked; rewrite E|congruence]. }
      unfold idx in Hag. rewrite En in Hag. split; [done|]. inversion Hk as [? bit _ _ _ Hbits| | |]; subst; [|congruence..]. intros i Hi. rewrite Hbits by done. rewrite <- (Hbits b Hb), <- Hag by lia. done. }
    destruct Hk as [En Hz]. assert (Hit : idx t = hi + 1) by (unfold idx; by rewrite En).
    assert (Hreal : forall y, y ∈ routes top -> is_root y = false -> covers y v -> exists z, z ∈ c /\ y = clean z).
    { intros y Hy Hry Hc. destruct (elem_clean y (t :: c)) as (z & [->|Hz']%elem_of_cons & ->); [|change (is_root (clean t)) with (is_root t) in Hry; congruence|by exists z].
      eapply (cover_here v fs (Leaf (t :: c)) (clean t)); try done; [left|by apply Hok|]. intros i Hi1 Hi2. apply Hz. lia. }
    pose proof chain_in as Hin. pose proof chain_agree as Hca. pose proof chain_masked as Hcm. pose proof chain_ok as Hco. destruct c as [|d c'].
    + exists (clean t). split_and!; [apply Hin; left|done|]. change (is_root (clean t)) with (is_root t). rewrite Er. intros y Hy Hry Hc. destruct (Hreal y Hy Hry Hc) as (z & Hz' & _). by apply elem_of_nil in Hz'.
    + assert (Hd : d ∈ t :: d :: c') by (right; left). exists (clean d). split_and!; [by apply Hin|done|]. change (is_root (clean d)) with (is_root d).
      destruct (masked_cases d) as [-> _]; [by apply Hco|apply Hcm; left|]. change (idx (clean d)) with (idx d). split.
      * intros i Hi. transitivity (test_bit (lf_key t) i); [apply (Hca d t); [done|left|]|symmetry; apply Hag]; change (idx (clean d)) with (idx d) in Hi; lia.
      * intros y Hy Hry Hc. destruct (Hreal y Hy Hry Hc) as (z & Hz' & ->). apply elem_of_cons in Hz' as [->|Hz']; [done|].
        destruct Hch as (_ & _ & _ & Hs & _). apply StronglySorted_inv in Hs as [Hs _]. apply StronglySorted_inv in Hs as [_ Hs]. rewrite List.Forall_forall in Hs.
        apply list_elem_of_In, Hs in Hz'. change (idx (clean z)) with (idx z). lia.
  - exists (clean t). split_and!; [apply chain_in; left|done|]. change (is_root (clean t)) with (is_root t). rewrite Er. split; [by apply agree_sym|].
    intros y Hy Hry Hc. change (idx (clean t)) with (idx t). destruct (Z.le_gt_cases (idx y) (idx t)); [done|].
    destruct (deeper_in_chain t y ltac:(left) Hy Hc ltac:(lia)) as (z & [->|Hz]%elem_of_cons & ->); [done|]. apply chain_idx in Hz. change (idx (clean z)) with (idx z) in *. lia.
Qed.

(** The key and the address differ at bit [d] first. *)
Lemma diff_ok d i : lo <= d < hi -> 0 <= i -> agree lo v (lf_key t) d -> test_bit v d <> test_bit (lf_key t) d ->
  longest v (routes top) (match match_chain v (-1 - d) i (match lf_mask t with None => c | Some _ => t :: c end) with
                          | Some x => Some (lf_id x) | None => match_up v (-1 - d) i fs (Leaf (t :: c)) end).
Proof.
  intros Hd Hi Hag Hne. set (cs := match lf_mask t with None => c | Some _ => t :: c end).
  assert (Hcs : (forall x, x ∈ cs -> x ∈ t :: c /\ route_ok x /\ masked x) /\ StronglySorted (fun x y => idx y < idx x) cs /\ forall x, x ∈ t :: c -> idx x <= d -> x ∈ cs).
  { pose proof Hch as (_ & _ & _ & Hs & _). unfold cs. destruct (lf_mask t) as [m|] eqn:E; split_and!; try done.
    - intros x Hx. split_and!; [done|by apply chain_ok|]. apply elem_of_cons in Hx as [->|Hx]; [by unfold masked; rewrite E|by apply chain_masked].
    - intros x Hx. split_and!; [by right|apply chain_ok; by right|by apply chain_masked].
    - by apply StronglySorted_inv in Hs as [Hs _].
    - intros x [->|Hx]%elem_of_cons Hle; [|done]. unfold idx in Hle. rewrite E in Hle. lia. }
  destruct Hcs as (Hcs1 & Hcs2 & Hcs3). clearbody cs.
  assert (Hcov : forall x, (forall i, lo <= i < Z.min (idx x) hi -> test_bit (lf_key x) i = test_bit (lf_key t) i) -> idx x <= d -> covers x v).
  { intros x Hx Hle j Hj. rewrite Hx by lia. symmetry. apply Hag. lia. }
  assert (Hle : forall y, y ∈ routes top -> covers y v -> idx y <= d).
  { intros y Hy Hc. eapply (cover_diff v fs (Leaf (t :: c)) (clean t)); try done; [left|by apply Hok|]. by destruct Hch as (_ & H & _). }
  pose proof (match_chain_ok v d i cs Hi (fun x Hx => proj2 (Hcs1 x Hx)) Hcs2 ltac:(lia)) as Hm. destruct (match_chain v (-1 - d) i cs) as [x|].
  - destruct Hm as (M1 & M2 & M3). destruct (Hcs1 x M1) as (Hx & Hxo & Hxm). exists (clean x). split_and!; [by apply chain_in|done|]. change (is_root (clean x)) with (is_root x).
    destruct (masked_cases x (proj1 (proj2 Hxo)) Hxm) as [-> _]. change (idx (clean x)) with (idx x). split.
    + apply (Hcov x); [|done]. intros j Hj. apply chain_agree; [done|left|lia].
    + intros y Hy Hry Hc. destruct (Z.le_gt_cases (idx y) (idx x)); [done|]. destruct (deeper_in_chain x y Hx Hy Hc ltac:(lia)) as (z & Hz & ->). apply (M3 z); [apply Hcs3; [done|]|]; by apply (Hle (clean z)).
  - assert (Hway : forall y, y ∈ routes top -> covers y v -> on_way fs y).
    { intros y Hy Hc. destruct (cover_way v fs (Leaf (t :: c)) y) as [Hin|Hw]; try done. exfalso. apply elem_clean in Hin as (z & Hz & ->). pose proof (Hle _ Hy Hc) as H. pose proof (Hm z (Hcs3 z Hz H)) as H'. change (idx (clean z)) with (idx z) in H. lia. }
    assert (Hwf : wf (hole_b fs) (Leaf (t :: c))) by exact Hch.
    pose proof (match_up_ok v d i fs ltac:(lia) Hi (Leaf (t :: c)) Hup Hmk Hwf Hok) as H. destruct (match_up v (-1 - d) i fs (Leaf (t :: c))) as [id|].
    + destruct H as (x & U1 & U2 & U3 & U4 & U5 & U6). exists x. split_and!; [done|done|]. destruct (masked_cases x (proj1 (proj2 (Hok x U1))) U2) as [-> _]. split.
      * apply Hcov; [|done]. intros j Hj. apply (U5 (clean t)); [left|lia].
      * intros y Hy _ Hc. apply U6; [by apply Hway|by apply Hle].
    + intros y Hy _ Hc. pose proof (H y (Hway y Hy Hc)). pose proof (Hle y Hy Hc). lia.
Qed.
End Found.

(** The tree of a routing table: its top tests the first bit of the keys, and the root with
    the key 0 is there. *)
Definition rt_ok (top : tree) : Prop :=
  (exists mk l r, top = Node lo mk l r) /\ wf (-1) top /\ exists z, z ∈ routes top /\ is_root z = true /\ forall i, lo <= i < hi -> test_bit (lf_key z) i = false.

Lemma top_off mk l r : rn_off (Node lo mk l r) = off.
Proof. cbn [rn_off]. rewrite Z.shiftr_div_pow2 by lia. change (2 ^ 3) with 8. Z.to_euclidean_division_equations. lia. Qed.

(** The bytes that [rn_match] compares reach to the end of the mask. *)
Lemma mask_len (t : leaf) vlen : route_ok t -> 0 < idx t -> vlen = klen -> let n := match lf_mask t with Some m => byte m 0 | None => vlen end in
  off < n <= klen /\ Z.min (idx t) hi <= 8 * n.
Proof.
  intros (_ & Hk & _) Hpos ->. cbv zeta. destruct (lf_mask t) as [m|] eqn:E; [|unfold idx; rewrite E; lia]. assert (Hm : masked t) by (unfold masked; by rewrite E).
  destruct (masked_cases t Hk Hm) as (_ & [(_ & E2 & H)|(_ & _ & H)]); [|lia]. rewrite E in E2. injection E2 as ->. change (byte (pmask KL (idx t)) 0) with ((idx t + 7) / 8).
  Z.to_euclidean_division_equations. lia.
Qed.

Lemma rn_match_ok v top : rt_ok top -> key_ok v -> byte v 0 = klen -> not_ones v -> exists r, rn_match v top = Ret r /\ longest v (routes top) r.
Proof.
  intros ((mk & l & r & Htop) & Hwf & _) Hv Hlen Hno. unfold rn_match. destruct (rn_search v top []) as [c fs] eqn:E. destruct (search_top _ _ _ _ E Hwf) as (Hplug & Hpath & Hup & Hmk & Hch).
  destruct c as [|t c]; [by destruct Hch|]. assert (Hok : forall x, x ∈ routes (plug fs (Leaf (t :: c))) -> route_ok x) by (intros x; rewrite Hplug; by apply (wf_routes top (-1))).
  assert (Hto : route_ok t) by (apply Hch; left). assert (Hpos : 0 < idx t) by (destruct Hch as (_ & _ & _ & _ & H & _); by apply H).
  pose proof (mask_len t (byte v 0) Hto Hpos Hlen) as Hvl. cbv zeta in Hvl. set (vlen := match lf_mask t with Some m => byte m 0 | None => byte v 0 end) in *.
  assert (Eo : rn_off top = off) by (rewrite Htop; apply top_off). rewrite Eo. destruct (differ _ v (lf_key t) off) as [i|] eqn:Ed.
  - apply differ_Some in Ed as (Hi & Hneq & Heq). rewrite first_bit_spec by (apply lxor_byte; [apply Hv|apply Hto|done]).
    destruct (fdiff_spec off v (lf_key t) i ltac:(lia) Hv (proj1 Hto) Hneq Heq) as (D1 & D2 & D3).
    assert (Ef : 7 - Z.log2 (Z.lxor (byte v i) (byte (lf_key t) i)) + Z.shiftl i 3 = fdiff v (lf_key t) i) by (unfold fdiff; rewrite Z.shiftl_mul_pow2 by lia; lia).
    rewrite Ef. pose proof (diff_ok v fs t c Hch Hup Hmk Hpath Hok (fdiff v (lf_key t) i) i ltac:(lia) ltac:(lia) D3 D2) as H. rewrite Hplug in H.
    destruct (match_chain _ _ _ _); by eexists.
  - eexists. split; [reflexivity|]. pose proof (exact_ok v fs t c Hch Hup Hmk Hpath Hok Hno) as H. rewrite Hplug in H. apply H. apply (agree_le _ _ _ (8 * vlen)); [lia|].
    apply agree_bytes; [lia|done|apply Hto|]. intros j Hj. apply (differ_None _ _ _ _ Ed). lia.
Qed.

End Routes.
End RadixMatch.
