(* ===== verification/RadixMask.v ===== *)
(** The tree of masks: [rn_addmask] finds or enters the mask of a prefix, in the form that the
    routes share. *)
From S2P Require Import Prelude Radix RadixTree RadixMatch.
Import Radix RadixTree RadixMatch.

Module RadixMask.

(** ** Bytes of buffers *)

Lemma byte_app a b i : 0 <= i -> byte (a ++ b) i = if i <? zlen a then byte a i else byte b (i - zlen a).
Proof.
  intros Hi. unfold byte, zlen. destruct (Z.ltb_spec i (Z.of_nat (length a))).
  - apply app_nth1. lia.
  - rewrite app_nth2 by lia. f_equal. lia.
Qed.
Lemma byte_ztake n l i : 0 <= i < n -> byte (ztake n l) i = byte l i.
Proof.
  intros Hi. unfold byte, ztake. rewrite !nth_lookup, lookup_take_lt by lia. done.
Qed.
Lemma byte_zdrop n l i : 0 <= n -> 0 <= i -> byte (zdrop n l) i = byte l (n + i).
Proof. intros Hn Hi. unfold byte, zdrop. rewrite !nth_lookup, lookup_drop. repeat f_equal. lia. Qed.
Lemma byte_repeat x n i : 0 <= i < n -> byte (repeat x (Z.to_nat n)) i = x.
Proof. intros Hi. unfold byte. apply nth_repeat_lt. lia. Qed.
Lemma byte_end l i : zlen l <= i -> byte l i = 0.
Proof. intros Hi. unfold byte. apply nth_overflow. unfold zlen in Hi. lia. Qed.

Lemma zlen_put buf i l : 0 <= i -> i + zlen l <= zlen buf -> zlen (put_bytes buf i l) = zlen buf.
Proof. intros Hi Hl. unfold put_bytes. rewrite !zlen_app, zlen_ztake, zlen_zdrop. pose proof (zlen_nonneg l). lia. Qed.
Lemma byte_put buf i l j : 0 <= i -> i + zlen l <= zlen buf -> 0 <= j ->
  byte (put_bytes buf i l) j = if (i <=? j) && (j <? i + zlen l) then byte l (j - i) else byte buf j.
Proof.
  intros Hi Hl Hj. unfold put_bytes. pose proof (zlen_nonneg l). rewrite byte_app by lia. rewrite zlen_ztake. replace (Z.min (Z.max 0 i) (zlen buf)) with i by lia.
  destruct (Z.ltb_spec j i); [destruct (Z.leb_spec i j); [lia|]; cbn; by apply byte_ztake|]. destruct (Z.leb_spec i j); [|lia]. cbn [andb].
  rewrite byte_app by lia. destruct (Z.ltb_spec (j - i) (zlen l)), (Z.ltb_spec j (i + zlen l)); try lia; try done.
  rewrite byte_zdrop by lia. f_equal. lia.
Qed.

Lemma bytes_eq a b : zlen a = zlen b -> (forall j, 0 <= j < zlen a -> byte a j = byte b j) -> a = b.
Proof.
  intros Hl H. apply (nth_ext _ _ 0 0); [unfold zlen in Hl; lia|]. intros n Hn. specialize (H (Z.of_nat n)). unfold byte, zlen in H. rewrite Nat2Z.id in H. apply H. lia.
Qed.

Lemma trim_zeros_ok k buf : let m := trim_zeros k buf in 0 <= m <= Z.of_nat k /\ (forall j, m <= j < Z.of_nat k -> byte buf j = 0) /\ (0 < m -> byte buf (m - 1) <> 0).
Proof.
  cbv zeta. induction k as [|k IH]; cbn [trim_zeros]; [by split_and!; intros; lia|]. destruct (Z.eqb_spec (byte buf (Z.of_nat k)) 0) as [E|E].
  - destruct IH as (H1 & H2 & H3). split_and!; [lia|lia| |done]. intros j Hj. destruct (Z.eq_dec j (Z.of_nat k)) as [->|]; [done|]. apply H2. lia.
  - split_and!; [lia|lia|intros; lia|]. intros _. by replace (Z.of_nat (S k) - 1) with (Z.of_nat k) by lia.
Qed.

(** ** The bytes of a prefix *)

Lemma pbyte_range n j : 0 <= pbyte n j < 256.
Proof.
  unfold pbyte. destruct (Z.leb_spec (8 * (j + 1)) n); [lia|]. destruct (Z.leb_spec n (8 * j)); [lia|].
  pose proof (Z.pow_le_mono_r 2 1 (8 - (n - 8 * j)) ltac:(lia) ltac:(lia)). pose proof (Z.pow_le_mono_r 2 (8 - (n - 8 * j)) 7 ltac:(lia) ltac:(lia)). lia.
Qed.
Lemma pbyte_part r : 0 < r < 8 -> forall k, 0 <= k < 8 -> Z.testbit (256 - 2 ^ (8 - r)) k = (7 - k <? r).
Proof.
  intros Hr k Hk. assert (E : forallb (fun r => forallb (fun k => Bool.eqb (Z.testbit (256 - 2 ^ (8 - r)) k) (7 - k <? r)) (seqZ 0 8)) (seqZ 1 7) = true) by (vm_compute; reflexivity).
  rewrite List.forallb_forall in E. specialize (E r ltac:(apply list_elem_of_In, elem_of_seqZ; lia)). cbv beta in E. rewrite List.forallb_forall in E.
  apply Bool.eqb_prop, (E k). apply list_elem_of_In, elem_of_seqZ. lia.
Qed.
Lemma pbyte_bits n j k : 0 <= k < 8 -> Z.testbit (pbyte n j) k = (8 * j + (7 - k) <? n).
Proof.
  intros Hk. unfold pbyte. destruct (Z.leb_spec (8 * (j + 1)) n).
  - change 255 with (Z.ones 8). rewrite Z.ones_spec_low by lia. symmetry. apply Z.ltb_lt. lia.
  - destruct (Z.leb_spec n (8 * j)); [rewrite Z.bits_0; symmetry; apply Z.ltb_ge; lia|]. rewrite pbyte_part by lia.
    apply Bool.eq_iff_eq_true. rewrite !Z.ltb_lt. lia.
Qed.

(** A mask with [n] leading ones has the bytes of the prefix. *)
Lemma prefix_byte m n j : key_ok m -> 0 <= j -> (forall i, 8 * j <= i < 8 * j + 8 -> test_bit m i = (i <? n)) -> byte m j = pbyte n j.
Proof.
  intros Hm Hj H. apply byte_bits; [apply Hm|apply pbyte_range|]. intros k Hk. rewrite pbyte_bits by done. rewrite <- H by lia. rewrite test_bit_spec by lia.
  replace ((8 * j + (7 - k)) / 8) with j by (Z.to_euclidean_division_equations; lia). f_equal. Z.to_euclidean_division_equations. lia.
Qed.

Lemma zlen_pmask KL n : 1 <= KL -> zlen (pmask KL n) = KL.
Proof. intros H. unfold pmask. rewrite zlen_cons. unfold zlen. rewrite length_map, length_seqZ. lia. Qed.
Lemma byte_pmask KL n j : 1 <= j < KL -> byte (pmask KL n) j = pbyte n j.
Proof.
  intros Hj. unfold byte, pmask. destruct (Z.to_nat j) as [|k] eqn:E; [lia|]. cbn [nth]. rewrite nth_lookup, list_lookup_fmap.
  rewrite lookup_seqZ_lt by lia. cbn. f_equal. lia.
Qed.
Lemma byte_pmask_0 KL n : byte (pmask KL n) 0 = (n + 7) / 8.
Proof. done. Qed.

Section Masks.
Context (off klen KL : Z) (Hrange : 1 <= off < klen /\ klen <= KL < 255).
#[local] Abbreviation lo := (8 * off).
#[local] Abbreviation hi := (8 * klen).

(** ** The tree of masks *)

Inductive mask_leaf : leaf -> Prop :=
| ml_zero x : lf_key x = zmask KL -> lf_b x = -1 -> is_normal x = false -> mask_leaf x
| ml_ones x : lf_key x = repeat 255 (Z.to_nat KL) -> mask_leaf x
| ml_mask x n : lf_key x = pmask KL n -> lo < n <= hi -> lf_b x = -1 - n -> is_normal x = true -> mask_leaf x.

Definition mask_chain (pb : Z) (c : list leaf) : Prop := exists x, c = [x] /\ mask_leaf x.
Definition no_masks (pb b : Z) (mk : list rmask) (R : list leaf) : Prop := mk = [].

Lemma byte_neg v i : i <= 0 -> byte v i = byte v 0.
Proof. intros Hi. unfold byte. by replace (Z.to_nat i) with (Z.to_nat 0) by lia. Qed.
Lemma pmask_ok n : 0 <= n <= hi -> key_ok (pmask KL n).
Proof.
  intros Hn i. destruct (Z.le_gt_cases KL i); [rewrite byte_end; [lia|]; rewrite zlen_pmask; lia|]. destruct (Z.le_gt_cases 1 i); [rewrite byte_pmask by lia; apply pbyte_range|].
  rewrite byte_neg, byte_pmask_0 by lia. Z.to_euclidean_division_equations. lia.
Qed.
Lemma mask_leaf_ok x : mask_leaf x -> key_ok (lf_key x).
Proof.
  intros [y E _ _|y E|y n E H _ _]; rewrite E; [intros i; rewrite byte_zmask; lia| |apply pmask_ok; lia].
  intros i. unfold byte. destruct (nth_in_or_default (Z.to_nat i) (repeat 255 (Z.to_nat KL)) 0) as [Hin| ->]; [|lia]. apply repeat_spec in Hin. lia.
Qed.
Lemma mask_clean x : mask_leaf (clean x) <-> mask_leaf x.
Proof. split; intros H; inversion H; [by apply ml_zero|by apply ml_ones|by eapply ml_mask|by apply ml_zero|by apply ml_ones|by eapply ml_mask]. Qed.

#[local] Program Instance mask_kind : Kind := {| k_lo := 0; k_hi := 8 * KL; k_chain := mask_chain; k_masks := no_masks |}.
Next Obligation. lia. Qed.
Next Obligation.
  intros pb c (x & -> & Hx). split_and!; [done| |].
  - intros y z ->%list_elem_of_singleton ->%list_elem_of_singleton. apply agree_refl.
  - intros y ->%list_elem_of_singleton. by apply mask_leaf_ok.
Qed.
Next Obligation. done. Qed.

Lemma mask_routes t : forall pb, wf pb t -> forall x, x ∈ routes t -> mask_leaf x.
Proof.
  induction t as [c|b mk l IHl r IHr]; intros pb H x Hx.
  - destruct H as (y & -> & Hy). apply list_elem_of_singleton in Hx as ->. by apply mask_clean.
  - destruct H as (_ & _ & _ & _ & Hl & Hr). rewrite routes_node in Hx. apply elem_of_app in Hx as [Hx|Hx]; [by eapply IHl|by eapply IHr].
Qed.

(** The globals of the masks *)
Record masks_ok (s : rnst) : Prop := {
  mo_keylen : max_keylen s = KL;
  mo_buf : zlen (addmask_key s) = KL;
  mo_bytes : key_ok (addmask_key s);
  mo_zeroed : 0 <= last_zeroed s <= KL /\ forall j, last_zeroed s <= j -> byte (addmask_key s) j = 0;
  mo_top : exists l r, rn_masktop s = Node 0 [] l r;
  mo_tree : wf (-1) (rn_masktop s);
  mo_zero : exists z, z ∈ routes (rn_masktop s) /\ lf_key z = zmask KL;
  mo_fail : rn_fail s = []
}.

Lemma masktop_search v s c fs : masks_ok s -> rn_search v (rn_masktop s) [] = (c, fs) ->
  exists x, c = [x] /\ mask_leaf x /\ plug fs (Leaf [x]) = rn_masktop s /\ on_path v fs /\ wf_up fs [clean x].
Proof.
  intros H E. destruct (search_top _ _ _ _ E (mo_tree s H)) as (H1 & H2 & H3 & _ & (x & -> & Hx)). by exists x.
Qed.

(** The empty mask *)
Lemma mask_zero_ok s : masks_ok s -> exists x, mask_zero (rn_masktop s) = Some x /\ lf_key x = zmask KL /\ lf_b x = -1 /\ is_normal x = false.
Proof.
  intros H. unfold mask_zero. destruct (rn_search [] (rn_masktop s) []) as [c fs] eqn:E. destruct (masktop_search _ _ _ _ H E) as (x & -> & Hx & Hp & Hpath & Hup).
  exists x. split; [done|]. destruct (mo_zero s H) as (z & Hz & Ez). rewrite <- Hp in Hz. apply elem_plug in Hz as [Hz|(f & Hf & Hz)].
  - apply list_elem_of_singleton in Hz as ->. cbn in Ez. destruct Hx as [x E1 E2 E3|x E1|x n E1 E2 _ _]; [done| |].
    + rewrite Ez in E1. apply (f_equal (fun m => byte m 0)) in E1. cbv beta in E1. rewrite byte_zmask, byte_repeat in E1; lia.
    + rewrite Ez in E1. symmetry in E1. by destruct (pmask_zmask off klen KL Hrange n ltac:(lia) E1).
  - exfalso. destruct (up_sib _ _ _ _ (clean x) Hup Hf Hz ltac:(left)) as (_ & B & _). rewrite Ez, test_zmask in B. pose proof (Hpath f Hf) as Hb.
    assert (Hnil : test_bit [] (fr_b f) = false) by (unfold test_bit, byte; by destruct (Z.to_nat _)). rewrite Hnil in Hb. by rewrite <- Hb in B.
Qed.

(** *** The index of a mask *)

Lemma skip_ones_ok n k : forall i, lo < n -> off <= i <= n / 8 -> i + Z.of_nat k = (n + 7) / 8 -> (n + 7) / 8 <= KL -> skip_ones k (pmask KL n) i = n / 8.
Proof.
  induction k as [|k IH]; intros i Hn Hi Hk HK; cbn [skip_ones]; [Z.to_euclidean_division_equations; lia|].
  rewrite byte_pmask by lia. unfold pbyte at 1. destruct (Z.leb_spec (8 * (i + 1)) n).
  - apply IH; [done| |lia|done]. split; [lia|]. apply Z.div_le_lower_bound; lia.
  - assert (i = n / 8) as -> by (Z.to_euclidean_division_equations; lia). destruct (Z.leb_spec n (8 * (n / 8))); [done|].
    destruct (Z.eqb_spec (256 - 2 ^ (8 - (n - 8 * (n / 8)))) 255) as [E|]; [|done]. exfalso.
    pose proof (Z.pow_le_mono_r 2 1 (8 - (n - 8 * (n / 8))) ltac:(lia) ltac:(Z.to_euclidean_division_equations; lia)). lia.
Qed.
Lemma lead_ones_part r : 0 < r < 8 -> lead_ones 9 (256 - 2 ^ (8 - r)) 128 0 = r /\ byte normal_chars r = 256 - 2 ^ (8 - r).
Proof.
  intros Hr. assert (E : forallb (fun r => (lead_ones 9 (256 - 2 ^ (8 - r)) 128 0 =? r) && (byte normal_chars r =? 256 - 2 ^ (8 - r))) (seqZ 1 7) = true) by (vm_compute; reflexivity).
  rewrite List.forallb_forall in E. specialize (E r ltac:(apply list_elem_of_In, elem_of_seqZ; lia)). rewrite andb_true_iff, !Z.eqb_eq in E. done.
Qed.
Lemma mask_index_ok n : lo < n <= hi -> mask_index (pmask KL n) off ((n + 7) / 8) = (n, true).
Proof.
  intros Hn. unfold mask_index. rewrite (skip_ones_ok n _ off) by (rewrite ?Z2Nat.id; Z.to_euclidean_division_equations; lia).
  rewrite !Z.shiftl_mul_pow2 by lia. change (2 ^ 3) with 8. destruct (Z.eqb_spec (n / 8) ((n + 7) / 8)) as [E|E]; [f_equal; Z.to_euclidean_division_equations; lia|].
  rewrite byte_pmask by (Z.to_euclidean_division_equations; lia). unfold pbyte. destruct (Z.leb_spec (8 * (n / 8 + 1)) n); [Z.to_euclidean_division_equations; lia|].
  destruct (Z.leb_spec n (8 * (n / 8))); [Z.to_euclidean_division_equations; lia|]. set (r := n - 8 * (n / 8)) in *.
  destruct (lead_ones_part r ltac:(lia)) as [-> ->]. rewrite Z.eqb_refl. cbn [andb]. f_equal; [lia|]. apply Z.eqb_eq. Z.to_euclidean_division_equations. lia.
Qed.

(** *** The buffer *)

(** A mask of the caller with [n] leading ones: [n] is 0 for the default route. *)
Record mask_arg (N : list Z) (n : Z) : Prop := {
  ma_bytes : key_ok N;
  ma_len : byte N 0 <= zlen N;
  ma_n : n = 0 \/ lo < n <= hi;
  ma_fit : n <= 8 * Z.min (byte N 0) KL;
  ma_bits : forall i, lo <= i < 8 * Z.min (byte N 0) KL -> test_bit N i = (i <? n)
}.

Lemma mask_arg_byte N n j : mask_arg N n -> off <= j < Z.min (byte N 0) KL -> byte N j = pbyte n j.
Proof. intros H Hj. apply prefix_byte; [apply H|lia|]. intros i Hi. apply (ma_bits _ _ H). lia. Qed.

(** The bytes of the mask in the buffer, before the length is put in front *)
Definition fill (buf N : list Z) (m0 : Z) : list Z :=
  put_bytes (if off >? 1 then put_bytes buf 1 (repeat 255 (Z.to_nat (off - 1))) else buf) off (zsub off (m0 - off) N).

Lemma zlen_repeat (x n : Z) : 0 <= n -> zlen (repeat x (Z.to_nat n)) = n.
Proof. intros Hn. unfold zlen. rewrite repeat_length. lia. Qed.

Lemma fill_ok buf N n : mask_arg N n -> zlen buf = KL -> off < Z.min (byte N 0) KL -> let m0 := Z.min (byte N 0) KL in
  zlen (fill buf N m0) = KL /\ forall j, 0 <= j -> byte (fill buf N m0) j = if (1 <=? j) && (j <? off) then 255 else if (off <=? j) && (j <? m0) then pbyte n j else byte buf j.
Proof.
  intros H Hb Hm m0. assert (Hm0 : off < m0 <= KL) by lia. pose proof (ma_len _ _ H) as Hl.
  assert (Hz : zlen (zsub off (m0 - off) N) = m0 - off) by (unfold zsub; rewrite zlen_ztake, zlen_zdrop; lia).
  set (b1 := if off >? 1 then put_bytes buf 1 (repeat 255 (Z.to_nat (off - 1))) else buf). assert (H1 : zlen b1 = KL /\ forall j, 0 <= j -> byte b1 j = if (1 <=? j) && (j <? off) then 255 else byte buf j).
  { unfold b1. destruct (Z.gtb_spec off 1).
    - rewrite zlen_put by (rewrite ?zlen_repeat; lia). split; [done|]. intros j Hj. rewrite byte_put by (rewrite ?zlen_repeat; lia). rewrite zlen_repeat by lia.
      replace (1 + (off - 1)) with off by lia. destruct (Z.leb_spec 1 j), (Z.ltb_spec j off); cbn [andb]; try done. apply byte_repeat. lia.
    - split; [done|]. intros j Hj. destruct (Z.leb_spec 1 j), (Z.ltb_spec j off); cbn [andb]; try done; lia. }
  destruct H1 as [H1 H2]. unfold fill. fold b1. split; [rewrite zlen_put; lia|]. intros j Hj. rewrite byte_put, H2 by lia. rewrite Hz. replace (off + (m0 - off)) with m0 by lia.
  destruct (Z.leb_spec off j), (Z.ltb_spec j m0), (Z.leb_spec 1 j), (Z.ltb_spec j off); cbn [andb]; try done; try lia.
  unfold zsub. rewrite byte_ztake, byte_zdrop by lia. replace (off + (j - off)) with j by lia. apply (mask_arg_byte _ _ _ H). lia.
Qed.

(** The trailing zeroes *)
Lemma pbyte_last n : lo < n -> pbyte n ((n + 7) / 8 - 1) <> 0.
Proof.
  intros Hn. unfold pbyte. destruct (Z.leb_spec (8 * ((n + 7) / 8 - 1 + 1)) n); [done|]. destruct (Z.leb_spec n (8 * ((n + 7) / 8 - 1))); [Z.to_euclidean_division_equations; lia|].
  set (e := 8 - _). assert (He : 0 <= e < 8) by (unfold e; Z.to_euclidean_division_equations; lia). pose proof (Z.pow_lt_mono_r 2 e 8 ltac:(lia) ltac:(lia) ltac:(lia)). lia.
Qed.
Lemma pbyte_zero n j : n <= 8 * j -> pbyte n j = 0.
Proof. intros Hn. unfold pbyte. destruct (Z.leb_spec (8 * (j + 1)) n); [lia|]. by destruct (Z.leb_spec n (8 * j)); [|lia]. Qed.

Lemma trim_zeros_len buf N n : mask_arg N n -> zlen buf = KL -> let m0 := Z.min (byte N 0) KL in off < m0 ->
  let m := trim_zeros (Z.to_nat m0) (fill buf N m0) in 0 <= m <= m0 /\ (forall j, m <= j < m0 -> byte (fill buf N m0) j = 0) /\
  (n = 0 -> m <= off) /\ (0 < n -> m = (n + 7) / 8 /\ off < m).
Proof.
  intros H Hb m0 Hm0 m. destruct (fill_ok buf N n H Hb Hm0) as [_ Hf]. destruct (trim_zeros_ok (Z.to_nat m0) (fill buf N m0)) as (T1 & T2 & T3). fold m in T1, T2, T3.
  rewrite Z2Nat.id in T1, T2 by lia. assert (Hpb : forall j, off <= j < m0 -> byte (fill buf N m0) j = pbyte n j).
  { intros j Hj. rewrite Hf by lia. fold m0. destruct (Z.leb_spec 1 j), (Z.ltb_spec j off), (Z.leb_spec off j), (Z.ltb_spec j m0); cbn [andb]; try done; lia. }
  split_and!; try done; try lia.
  - intros Hn. destruct (Z.le_gt_cases m off); [done|]. exfalso. apply T3; [lia|]. rewrite Hpb by lia. apply pbyte_zero. lia.
  - intros Hn. assert (Hn' : lo < n <= hi) by (destruct (ma_n _ _ H); lia). pose proof (ma_fit _ _ H) as Hfit. fold m0 in Hfit. pose proof (pbyte_last n ltac:(lia)) as Hlast.
    assert (Hk : off < (n + 7) / 8 <= m0) by (Z.to_euclidean_division_equations; lia). cut (m = (n + 7) / 8); [lia|].
    assert (~ m < (n + 7) / 8). { intros Hlt. apply Hlast. rewrite <- Hpb by lia. apply T2. lia. }
    assert (~ (n + 7) / 8 < m). { intros Hlt. apply T3; [lia|]. rewrite Hpb by lia. apply pbyte_zero. Z.to_euclidean_division_equations. lia. }
    lia.
Qed.

(** With the length in front, the buffer is the mask. *)
Lemma buffer_ok s N n : masks_ok s -> mask_arg N n -> 0 < n -> let m0 := Z.min (byte N 0) KL in let buf := fill (addmask_key s) N m0 in off < m0 ->
  put_bytes (if m0 <? last_zeroed s then put_bytes buf m0 (repeat 0 (Z.to_nat (last_zeroed s - m0))) else buf) 0 [(n + 7) / 8] = pmask KL n.
Proof.
  intros H Ha Hn m0 buf Hm. destruct (fill_ok _ N n Ha (mo_buf s H) Hm) as [F1 F2]. fold m0 in F1, F2. fold buf in F1, F2. destruct (mo_zeroed s H) as [Hz1 Hz2].
  assert (Hn' : lo < n <= hi) by (destruct (ma_n _ _ Ha); lia). pose proof (ma_fit _ _ Ha) as Hfit. fold m0 in Hfit.
  set (b1 := if m0 <? last_zeroed s then put_bytes buf m0 (repeat 0 (Z.to_nat (last_zeroed s - m0))) else buf).
  assert (H1 : zlen b1 = KL /\ forall j, 0 <= j -> byte b1 j = if m0 <=? j then 0 else byte buf j).
  { unfold b1. assert (Hhi : forall j, last_zeroed s <= j -> m0 <= j -> byte buf j = 0).
    { intros j Hj Hj'. rewrite F2 by lia. destruct (Z.leb_spec 1 j), (Z.ltb_spec j off), (Z.leb_spec off j), (Z.ltb_spec j m0); cbn [andb]; try lia. by apply Hz2. }
    destruct (Z.ltb_spec m0 (last_zeroed s)).
    - rewrite zlen_put by (rewrite ?zlen_repeat; lia). split; [done|]. intros j Hj. rewrite byte_put by (rewrite ?zlen_repeat; lia). rewrite zlen_repeat by lia.
      replace (m0 + (last_zeroed s - m0)) with (last_zeroed s) by lia. destruct (Z.leb_spec m0 j), (Z.ltb_spec j (last_zeroed s)); cbn [andb]; try done; [apply byte_repeat; lia|by apply Hhi].
    - split; [done|]. intros j Hj. destruct (Z.leb_spec m0 j); [apply Hhi; lia|done]. }
  assert (E1 : zlen [(n + 7) / 8] = 1) by done. clearbody b1. destruct H1 as [B1 B2]. apply bytes_eq; [rewrite zlen_put, zlen_pmask by (rewrite ?E1; lia); lia|]. intros j Hj. rewrite zlen_put in Hj by (rewrite ?E1; lia).
  rewrite byte_put by (rewrite ?E1; lia). change (zlen [(n + 7) / 8]) with 1. destruct (Z.leb_spec 0 j), (Z.ltb_spec j (0 + 1)); try lia; cbn [andb]; [by replace j with 0 by lia|].
  rewrite B2 by lia. rewrite byte_pmask by lia. destruct (Z.leb_spec m0 j); [by rewrite pbyte_zero by lia|]. rewrite F2 by lia.
  destruct (Z.leb_spec 1 j), (Z.ltb_spec j off), (Z.leb_spec off j), (Z.ltb_spec j m0); cbn [andb]; try lia; try done.
  unfold pbyte. destruct (Z.leb_spec (8 * (j + 1)) n); [done|lia].
Qed.

(** *** [rn_addmask] *)

Lemma wf_below t pb pb' : wf pb t -> match t with Node b _ _ _ => pb' < b | Leaf _ => True end -> wf pb' t.
Proof. destruct t as [c|b mk l r]; [done|]. intros ([_ Hb] & H) Hp. split; [lia|done]. Qed.
Lemma no_masks_up fs : forall R R', masks_up fs R -> masks_up fs R'.
Proof. induction fs as [|f fs IH]; intros R R'; [done|]. intros [H1 H2]. split; [exact H1|by eapply IH]. Qed.

(** A leaf with the bytes of the mask is its leaf. *)
Lemma mask_found n x : lo < n <= hi -> mask_leaf x -> (forall j, 0 <= j < (n + 7) / 8 -> byte (pmask KL n) j = byte (lf_key x) j) ->
  lf_key x = pmask KL n /\ lf_b x = -1 - n /\ is_normal x = true.
Proof.
  intros Hn Hx H. assert (Hk : off < (n + 7) / 8 <= KL) by (Z.to_euclidean_division_equations; lia). pose proof (H 0 ltac:(lia)) as H0. rewrite byte_pmask_0 in H0.
  destruct Hx as [x E _ _|x E|x n' E Hn' Eb En]; rewrite E in H0; [rewrite byte_zmask in H0; lia|rewrite byte_repeat in H0; lia|]. rewrite byte_pmask_0 in H0.
  assert (n' = n) as ->; [|done]. set (k := (n + 7) / 8) in *. specialize (H (k - 1) ltac:(lia)). rewrite E, !byte_pmask in H by lia.
  assert (Hr : 8 * (k - 1) < n <= 8 * k /\ 8 * (k - 1) < n' <= 8 * k) by (clear - H0; unfold k in *; Z.to_euclidean_division_equations; lia).
  assert (Hbit : forall i, 8 * (k - 1) <= i < 8 * k -> (i <? n) = (i <? n')).
  { intros i Hi. pose proof (pbyte_bits n (k - 1) (7 - (i - 8 * (k - 1))) ltac:(lia)) as B1. pose proof (pbyte_bits n' (k - 1) (7 - (i - 8 * (k - 1))) ltac:(lia)) as B2.
    rewrite H, B2 in B1. replace (8 * (k - 1) + (7 - (7 - (i - 8 * (k - 1))))) with i in B1 by lia. done. }
  pose proof (Hbit (n - 1) ltac:(lia)) as H1. pose proof (Hbit (n' - 1) ltac:(lia)) as H2. clear - H1 H2.
  destruct (Z.ltb_spec (n - 1) n), (Z.ltb_spec (n - 1) n'), (Z.ltb_spec (n' - 1) n), (Z.ltb_spec (n' - 1) n'); try done; lia.
Qed.

Lemma pmask_key n : lo < n <= hi -> let mlen := (n + 7) / 8 in ztake mlen (pmask KL n) ++ repeat 0 (Z.to_nat (KL - mlen)) = pmask KL n.
Proof.
  intros Hn mlen. assert (Hk : off < mlen <= KL) by (unfold mlen; Z.to_euclidean_division_equations; lia). assert (Hz : zlen (ztake mlen (pmask KL n)) = mlen) by (rewrite zlen_ztake, zlen_pmask; lia).
  apply bytes_eq; rewrite zlen_app, Hz, zlen_repeat by lia; [rewrite zlen_pmask; lia|]. intros j Hj. rewrite byte_app by lia. rewrite Hz. destruct (Z.ltb_spec j mlen); [apply byte_ztake; lia|].
  rewrite byte_repeat, byte_pmask by lia. rewrite pbyte_zero; [done|]. unfold mlen in *. Z.to_euclidean_division_equations. lia.
Qed.

(** Entering a new leaf *)
Lemma mask_entered s n d x fs : masks_ok s -> lo < n <= hi -> plug fs x = rn_masktop s -> place_ok (pmask KL n) d x fs ->
  let y := mkLeaf 0 (pmask KL n) None (-1 - n) 5 None in
  masks_ok (s <| rn_masktop := plug (mkFrame d [] (test_bit (pmask KL n) d) x :: fs) (Leaf [y]) |>).
Proof.
  intros H Hn Hp Hpl y. pose proof Hpl as (Hne & _ & _ & _ & _ & _ & _ & Hx). pose proof (mo_tree s H) as Hwf. rewrite <- Hp in Hwf. apply wf_plug in Hwf as (W1 & W2 & W3).
  destruct s as [s1 s2 s3 s4 s5 s6]. destruct H. cbn in *. split; cbn; try done.
  - destruct mo_top0 as (l & r & E). subst s4. cbn [plug]. by eapply plug_top.
  - change (plug fs (up1 (mkFrame d [] (test_bit (pmask KL n) d) x) (Leaf [y]))) with (plug (mkFrame d [] (test_bit (pmask KL n) d) x :: fs) (Leaf [y])).
    apply wf_plug. split_and!.
    + eapply (place_up (K := mask_kind)); [exact Hpl|done| |exact W1|by eapply wf_below|done|]; [|by apply Forall2_same_refl].
      rewrite byte_pmask_0. cbn [k_hi mask_kind]. Z.to_euclidean_division_equations. lia.
    + split; [done|]. by eapply no_masks_up.
    + exists y. split; [done|]. by eapply ml_mask.
  - destruct mo_zero0 as (z & Hz & Ez). exists z. split; [|done]. subst s4. apply elem_plug. rewrite elem_below. unfold below. rewrite elem_of_app. apply elem_plug in Hz as [Hz|Hz]; [left; by right|by right].
Qed.

Lemma same_state s N m0 lz : masks_ok s -> zlen (fill (addmask_key s) N m0) = KL -> key_ok (fill (addmask_key s) N m0) -> 0 <= lz <= KL ->
  (forall j, lz <= j -> byte (fill (addmask_key s) N m0) j = 0) -> masks_ok (s <| addmask_key := fill (addmask_key s) N m0 |> <| last_zeroed := lz |>).
Proof. intros H H1 H2 H3 H4. destruct s, H. by split. Qed.

(** What [rn_addmask] returns for a prefix of [n] bits *)
Definition mask_result (n : Z) (x : leaf) : Prop :=
  lf_b x = -1 - n /\ lf_key x = (if n =? 0 then zmask KL else pmask KL n) /\ is_normal x = negb (n =? 0).

Lemma fill_bytes s N n : masks_ok s -> mask_arg N n -> off < Z.min (byte N 0) KL -> key_ok (fill (addmask_key s) N (Z.min (byte N 0) KL)).
Proof.
  intros H Ha Hm i. destruct (fill_ok _ N n Ha (mo_buf s H) Hm) as [_ F]. assert (Hi : exists j, 0 <= j /\ byte (fill (addmask_key s) N (Z.min (byte N 0) KL)) i = byte (fill (addmask_key s) N (Z.min (byte N 0) KL)) j).
  { destruct (Z.le_gt_cases 0 i); [by exists i|]. exists 0. split; [lia|]. apply byte_neg. lia. }
  destruct Hi as (j & Hj & ->). rewrite F by done. destruct (_ && _); [lia|]. destruct (_ && _); [apply pbyte_range|apply (mo_bytes s H)].
Qed.

(** A new mask *)
Lemma mask_added s n : masks_ok s -> lo < n <= hi -> let mlen := (n + 7) / 8 in addmask_key s = pmask KL n -> last_zeroed s = mlen ->
  exists x s', match (rn_search (pmask KL n) (rn_masktop s) []).1 with
    | [] => Panic "rn_addmask: no leaf"
    | x :: _ =>
        let found := match differ (Z.to_nat mlen) (pmask KL n) (lf_key x) 0 with None => true | Some _ => false end in
        if found || false then Ret (if found then Some x else None, s)
        else
          let '(ok, s) := rn_malloc s in
          if negb ok then Ret (None, s)
          else
            let key := ztake mlen (pmask KL n) ++ repeat 0 (Z.to_nat (max_keylen s - mlen)) in
            let! (maskduplicated, c, fs) := rn_insert key 0 (rn_masktop s) in
            match c with
            | [] => Panic "rn_addmask: no leaf"
            | x :: dups =>
                if maskduplicated : bool then Ret (Some x, s)
                else
                  let '(b, isnormal) := mask_index key off mlen in
                  let x := x <| lf_b := -1 - b |> <| lf_flags := if isnormal : bool then setb (lf_flags x) RNF_NORMAL else lf_flags x |> in
                  Ret (Some x, s <| rn_masktop := plug fs (Leaf (x :: dups)) |>)
            end
    end = Ret (Some x, s') /\ masks_ok s' /\ mask_result n x.
Proof.
  intros H Hn mlen Ebuf Ez. destruct (rn_search (pmask KL n) (rn_masktop s) []) as [c fs] eqn:E. destruct (masktop_search _ _ _ _ H E) as (x & -> & Hx & _ & _ & _). cbn [fst].
  assert (Hres : forall y, lf_key y = pmask KL n /\ lf_b y = -1 - n /\ is_normal y = true -> mask_result n y).
  { intros y (Y1 & Y2 & Y3). unfold mask_result. destruct (Z.eqb_spec n 0); [lia|]. done. }
  assert (Hk : off < mlen <= KL) by (unfold mlen; Z.to_euclidean_division_equations; lia).
  destruct (differ (Z.to_nat mlen) (pmask KL n) (lf_key x) 0) as [i|] eqn:Ed; cbv zeta; cbn [orb].
  - unfold rn_malloc. rewrite (mo_fail s H), (mo_keylen s H). cbn [negb]. pose proof (pmask_key n Hn) as Epk. cbv zeta in Epk. fold mlen in Epk. rewrite Epk. destruct (mo_top s H) as (l & r & Et).
    destruct (rn_insert_ok (K := mask_kind) (pmask KL n) 0 [] l r) as ([[dup c] fs'] & Ei & Hins);
      [cbn [k_lo mask_kind]; rewrite <- Et; by apply (mo_tree s H)|done|by apply pmask_ok; lia|rewrite byte_pmask_0; cbn [k_lo k_hi mask_kind]; fold mlen; lia|].
    cbn [k_lo mask_kind] in Ei, Hins. rewrite <- Et in Ei, Hins. rewrite Ei. cbn [obind]. destruct dup.
    + exfalso. destruct Hins as [E' Hag]. rewrite E in E'. injection E' as <- _. specialize (Hag x ltac:(left)). rewrite byte_pmask_0 in Hag. cbn [k_lo mask_kind] in Hag.
      apply differ_Some in Ed as (Hi & Hd & _). apply Hd. apply (agree_bytes 0 mlen); [lia|by apply pmask_ok; lia|by apply mask_leaf_ok|done|lia].
    + destruct Hins as (d & t & gs & -> & -> & Hp & Hpl). unfold mlen. rewrite mask_index_ok by done. do 2 eexists. split; [reflexivity|]. split; [by apply (mask_entered s n d t gs)|]. apply Hres. done.
  - exists x, s. split; [done|]. split; [done|]. apply Hres, mask_found; try done. intros j Hj. apply (differ_None _ _ _ _ Ed). lia.
Qed.

Lemma rn_addmask_ok N n s : masks_ok s -> mask_arg N n -> exists x s', rn_addmask N false off s = Ret (Some x, s') /\ masks_ok s' /\ mask_result n x.
Proof.
  intros H Ha. unfold rn_addmask. rewrite (mo_keylen s H). set (m0 := if byte N 0 >? KL then KL else byte N 0).
  assert (Em : m0 = Z.min (byte N 0) KL) by (unfold m0; destruct (Z.gtb_spec (byte N 0) KL); lia). clearbody m0.
  destruct (Z.eqb_spec off 0); [lia|]. destruct (mask_zero_ok s H) as (z & Ez & Z1 & Z2 & Z3). assert (Hzero : n = 0 -> mask_result n z) by (intros ->; done).
  destruct (Z.leb_spec m0 off) as [Hle|Hgt].
  { exists z, s. split; [by rewrite Ez|]. split; [done|]. apply Hzero. destruct (ma_n _ _ Ha); [done|]. pose proof (ma_fit _ _ Ha). lia. }
  change (put_bytes (if off >? 1 then put_bytes (addmask_key s) 1 (repeat 255 (Z.to_nat (off - 1))) else addmask_key s) off (zsub off (m0 - off) N)) with (fill (addmask_key s) N m0).
  subst m0. set (m0 := Z.min (byte N 0) KL) in *. destruct (trim_zeros_len _ N n Ha (mo_buf s H) Hgt) as (T1 & T2 & T3 & T4). fold m0 in T1, T2, T3, T4.
  destruct (fill_ok _ N n Ha (mo_buf s H) Hgt) as [F1 F2]. fold m0 in F1, F2. pose proof (fill_bytes s N n H Ha Hgt) as F3. fold m0 in F3. destruct (mo_zeroed s H) as [Hz1 Hz2].
  assert (Hhi : forall j, last_zeroed s <= j -> m0 <= j -> byte (fill (addmask_key s) N m0) j = 0).
  { intros j Hj Hj'. rewrite F2 by lia. destruct (Z.leb_spec 1 j), (Z.ltb_spec j off), (Z.leb_spec off j), (Z.ltb_spec j m0); cbn [andb]; try lia. by apply Hz2. }
  set (m := trim_zeros (Z.to_nat m0) (fill (addmask_key s) N m0)) in *. destruct (Z.leb_spec m off) as [Hle|Hgt'].
  - exists z. eexists. split; [by rewrite Ez|]. split; [|apply Hzero; destruct (ma_n _ _ Ha); [done|]; lia]. apply same_state; try done.
    + destruct (m0 >=? last_zeroed s); lia.
    + intros j Hj. destruct (Z.geb_spec m0 (last_zeroed s)); [|apply Hhi; lia]. destruct (Z.lt_ge_cases j m0); [apply T2; lia|apply Hhi; lia].
  - assert (Hn : 0 < n). { destruct (ma_n _ _ Ha); [|lia]. lia. } destruct (T4 Hn) as [E4 _]. assert (Hn' : lo < n <= hi) by (destruct (ma_n _ _ Ha); lia).
    rewrite E4. pose proof (buffer_ok s N n H Ha Hn Hgt) as Eb. cbv zeta in Eb. fold m0 in Eb. rewrite Eb. apply (mask_added (s <| addmask_key := pmask KL n |> <| last_zeroed := (n + 7) / 8 |>) n); [|done|done|done].
    clear -Hn' H Hrange. split; rec_simpl; try apply H; [rewrite zlen_pmask; lia|apply pmask_ok; lia|]. split; [Z.to_euclidean_division_equations; lia|].
    intros j Hj. destruct (Z.le_gt_cases KL j); [apply byte_end; rewrite zlen_pmask; lia|]. rewrite byte_pmask by (Z.to_euclidean_division_equations; lia). apply pbyte_zero. Z.to_euclidean_division_equations. lia.
Qed.

End Masks.
End RadixMask.
