(* ===== verification/RadixOk.v ===== *)
(** The tree of routes: [rn_addroute] keeps its invariant and adds exactly the route. *)
From Stdlib Require Import Sorting.Sorted.
From S2P Require Import Prelude Radix RadixTree RadixMatch RadixMask.
Import Radix RadixTree RadixMatch RadixMask.

Module RadixOk.

Section Routes.
Context (off klen KL : Z) (Hrange : 1 <= off < klen /\ klen <= KL < 255).
#[local] Abbreviation lo := (8 * off).
#[local] Abbreviation hi := (8 * klen).
#[local] Abbreviation idx := (idx klen).
#[local] Abbreviation route_ok := (route_ok off klen KL).
#[local] Abbreviation leaf_kind := (leaf_kind off klen KL).
#[local] Abbreviation lifted := (lifted klen).
#[local] Abbreviation rt_masks := (rt_masks klen).
#[local] Abbreviation rt_chain := (rt_chain off klen KL).
#[local] Abbreviation masks_ok := (masks_ok off klen KL Hrange).
#[local] Instance rt_kind : Kind := RadixMatch.rt_kind off klen KL Hrange.

(** ** The order of masks *)

Definition mask_of (n : Z) : list Z := if n =? 0 then zmask KL else pmask KL n.
Definition index_ok (n : Z) : Prop := n = 0 \/ lo < n <= hi.

Lemma mask_of_idx x : leaf_kind x -> masked x -> lf_mask x = Some (mask_of (idx x)) /\ index_ok (idx x).
Proof.
  intros Hk Hm. unfold mask_of, index_ok. destruct (masked_cases off klen KL x Hk Hm) as (_ & [(_ & E & H)|(_ & E & H)]).
  - destruct (Z.eqb_spec (idx x) 0); [lia|]. split; [done|by right].
  - rewrite H. split; [done|by left].
Qed.

Lemma mask_len_of n : byte (mask_of n) 0 = if n =? 0 then 0 else (n + 7) / 8.
Proof. unfold mask_of. destruct (n =? 0); [apply byte_zmask|done]. Qed.
Lemma mask_byte_of n j : index_ok n -> 1 <= j < KL -> byte (mask_of n) j = pbyte n j.
Proof.
  intros Hn Hj. unfold mask_of. destruct (Z.eqb_spec n 0) as [->|]; [rewrite byte_zmask; symmetry; apply pbyte_zero; lia|by apply byte_pmask].
Qed.

Lemma pbyte_mono p q j : p <= q -> pbyte p j <= pbyte q j.
Proof.
  intros H. unfold pbyte. destruct (Z.leb_spec (8 * (j + 1)) p), (Z.leb_spec (8 * (j + 1)) q); try lia.
  - destruct (Z.leb_spec p (8 * j)); [lia|]. pose proof (Z.pow_pos_nonneg 2 (8 - (p - 8 * j))). lia.
  - destruct (Z.leb_spec p (8 * j)), (Z.leb_spec q (8 * j)); try lia.
    + pose proof (Z.pow_le_mono_r 2 (8 - (q - 8 * j)) 8 ltac:(lia) ltac:(lia)). lia.
    + pose proof (Z.pow_le_mono_r 2 (8 - (q - 8 * j)) (8 - (p - 8 * j)) ltac:(lia) ltac:(lia)). lia.
Qed.

Lemma refines_both_some k m n : forall i eq e, refines_both k m n i eq = Some e -> forall j, i <= j < i + Z.of_nat k -> Z.land (byte n j) (Z.lnot (byte m j)) = 0.
Proof.
  induction k as [|k IH]; intros i eq e E j Hj; [lia|]. cbn [refines_both] in E. destruct (Z.eqb_spec (Z.land (byte n i) (Z.lnot (byte m i))) 0) as [Ei|]; [|done]. cbn [negb] in E.
  destruct (Z.eq_dec j i) as [->|]; [done|]. apply (IH _ _ _ E). lia.
Qed.
Lemma some_byte_true k n : forall i j, i <= j < i + Z.of_nat k -> byte n j <> 0 -> some_byte k n i = true.
Proof.
  induction k as [|k IH]; intros i j Hj Hn; [lia|]. cbn [some_byte]. destruct (Z.eqb_spec (byte n i) 0) as [E|]; [|done]. cbn [negb orb].
  apply (IH _ j); [|done]. destruct (Z.eq_dec j i) as [->|]; [done|lia].
Qed.

(** A shorter mask does not refine a longer one, and does not come before it. *)
Lemma refines_shorter p q : index_ok p -> index_ok q -> p < q -> rn_refines (mask_of p) (mask_of q) = false.
Proof.
  intros Hp Hq Hlt. assert (Hq' : lo < q <= hi) by (destruct Hp, Hq; lia). unfold rn_refines. rewrite !mask_len_of. destruct (Z.eqb_spec q 0); [lia|].
  set (nl := (q + 7) / 8). set (ml := if p =? 0 then 0 else (p + 7) / 8).
  assert (Hl : 0 <= ml <= nl /\ off < nl <= klen /\ (ml = nl -> 8 * (nl - 1) < p)).
  { unfold ml, nl. destruct Hp; destruct (Z.eqb_spec p 0); split_and!; intros; Z.to_euclidean_division_equations; lia. }
  cbv zeta. replace (if 0 <? nl - ml then nl - (nl - ml) else nl) with ml by (destruct (Z.ltb_spec 0 (nl - ml)); lia).
  pose proof (pbyte_last off q ltac:(lia)) as Hlast. fold nl in Hlast. rewrite <- (mask_byte_of q (nl - 1)) in Hlast by (by (right) || lia).
  destruct (refines_both _ _ _ _ _) as [e|] eqn:E; [|done]. destruct (Z.eq_dec ml nl) as [Heq|Hne].
  - exfalso. pose proof (refines_both_some _ _ _ _ _ _ E (nl - 1) ltac:(lia)) as H0. rewrite !mask_byte_of in H0 by (done || lia).
    set (k := 7 - (p - 8 * (nl - 1))). assert (Hk : 0 <= k < 8) by (unfold k; unfold nl in *; Z.to_euclidean_division_equations; lia).
    apply (f_equal (fun z => Z.testbit z k)) in H0. rewrite Z.land_spec, Z.lnot_spec, !pbyte_bits, Z.bits_0 in H0 by lia.
    replace (8 * (nl - 1) + (7 - k)) with p in H0 by (unfold k; lia). destruct (Z.ltb_spec p q), (Z.ltb_spec p p); try lia; done.
  - rewrite (some_byte_true _ _ _ (nl - 1)); [done|lia|done].
Qed.
Lemma lexo_loop_false k m n : forall i, (forall j, i <= j < i + Z.of_nat k -> byte m j <= byte n j) -> lexo_loop k m n i = false.
Proof.
  induction k as [|k IH]; intros i H; [done|]. cbn [lexo_loop]. destruct (Z.ltb_spec (byte n i) (byte m i)); [specialize (H i); lia|]. cbn [orb]. apply IH. intros j Hj. apply H. lia.
Qed.
Lemma lexobetter_shorter p q : index_ok p -> index_ok q -> p < q -> rn_lexobetter (mask_of p) (mask_of q) = false.
Proof.
  intros Hp Hq Hlt. assert (Hq' : lo < q <= hi) by (destruct Hp, Hq; lia). unfold rn_lexobetter. rewrite !mask_len_of. destruct (Z.eqb_spec q 0); [lia|].
  assert (Hl : (if p =? 0 then 0 else (p + 7) / 8) <= (q + 7) / 8 /\ 0 < (q + 7) / 8 <= KL) by (destruct (Z.eqb_spec p 0); Z.to_euclidean_division_equations; lia).
  destruct (Z.ltb_spec ((q + 7) / 8) (if p =? 0 then 0 else (p + 7) / 8)); [lia|]. destruct (Z.eqb_spec (if p =? 0 then 0 else (p + 7) / 8) ((q + 7) / 8)) as [E|]; [|done].
  apply lexo_loop_false. intros j Hj. rewrite E in Hj. destruct (Z.eq_dec j 0) as [->|]; [rewrite !mask_len_of; destruct (Z.eqb_spec q 0); lia|].
  rewrite !mask_byte_of by (done || lia). apply pbyte_mono. lia.
Qed.

Lemma mask_of_inj p q : index_ok p -> index_ok q -> mask_of p = mask_of q -> p = q.
Proof.
  intros Hp Hq E. unfold mask_of in E. destruct (Z.eqb_spec p 0) as [->|], (Z.eqb_spec q 0) as [->|]; [done| | |].
  - symmetry in E. destruct Hq; [lia|]. by destruct (pmask_zmask off klen KL Hrange q ltac:(lia) E).
  - destruct Hp; [lia|]. by destruct (pmask_zmask off klen KL Hrange p ltac:(lia) E).
  - destruct Hp, Hq; try lia. destruct (mask_found off klen KL Hrange p (mkLeaf 0 (pmask KL q) None (-1 - q) 5 None)) as (_ & H1 & _); [done|by apply (ml_mask off klen KL _ q)| |cbn in H1; lia].
    intros j Hj. by rewrite E.
Qed.

(** ** The place in a chain *)

Lemma dup_place_ok o n c : (match o with None => n = hi + 1 | Some m => m = mask_of n /\ index_ok n end) -> (forall x, x ∈ c -> route_ok x) ->
  StronglySorted (fun x y => idx y < idx x) c -> forall front,
  match dup_place o (-1 - n) c front with
  | None => exists x, x ∈ c /\ idx x = n
  | Some (a, b) => exists a', a = front ++ a' /\ c = a' ++ b /\ (forall x, x ∈ a' -> n < idx x) /\ (forall x, x ∈ b -> idx x < n)
  end.
Proof.
  intros Ho Hok Hs. induction c as [|x c IH]; intros front; cbn [dup_place].
  { exists []. rewrite app_nil_r. split_and!; try done; by intros y ?%elem_of_nil. }
  apply StronglySorted_inv in Hs as [Hs Hlt]. rewrite List.Forall_forall in Hlt. specialize (IH (fun y H => Hok y ltac:(by right)) Hs (front ++ [x])).
  destruct (idx_range off klen KL Hrange x (Hok x ltac:(left))) as (I1 & I2 & _).
  assert (Hx : if mask_eqb (lf_mask x) o then idx x = n else idx x <> n /\
    (match o, lf_mask x with None, _ => true | Some n', Some m => (-1 - n <? lf_b x) || rn_refines n' m || rn_lexobetter n' m | _, None => false end) = (idx x <? n)).
  { unfold mask_eqb. destruct (lf_mask x) as [m'|] eqn:Em.
    - assert (Hm : masked x) by (unfold masked; by rewrite Em). destruct (mask_of_idx x) as [E1 E2]; [apply Hok; left|done|]. rewrite Em in E1. injection E1 as ->. specialize (I1 Hm). destruct o as [m|].
      + destruct Ho as [-> Hn]. case_bool_decide as Hd; [injection Hd as Hd; by apply mask_of_inj in Hd|]. assert (Hne : idx x <> n) by congruence. split; [done|].
        assert (Eb : lf_b x = -1 - idx x) by (unfold RadixMatch.idx; rewrite Em; lia). rewrite Eb.
        destruct (Z.ltb_spec (-1 - n) (-1 - idx x)), (Z.ltb_spec (idx x) n); try lia; try done. by rewrite refines_shorter, lexobetter_shorter by (done || lia).
      + case_bool_decide; [done|]. split; [lia|]. symmetry. apply Z.ltb_lt. lia.
    - assert (idx x = hi + 1) by (apply I2; unfold masked; rewrite Em; tauto). destruct o as [m|]; case_bool_decide; try done; [|lia].
      destruct Ho as [_ [H'|H']]; (split; [lia|]); symmetry; apply Z.ltb_ge; lia. }
  destruct (mask_eqb (lf_mask x) o); [exists x; split; [left|done]|]. destruct Hx as [Hne ->]. destruct (Z.ltb_spec (idx x) n).
  - exists []. rewrite app_nil_r. split_and!; try done; [by intros y ?%elem_of_nil|]. intros y [->|Hy]%elem_of_cons; [done|]. apply list_elem_of_In, Hlt in Hy. lia.
  - destruct (dup_place _ _ c _) as [[a b]|].
    + destruct IH as (a' & -> & -> & H1 & H2). exists (x :: a'). split_and!; [by rewrite <- app_assoc|done| |done]. intros y [->|Hy]%elem_of_cons; [lia|by apply H1].
    + destruct IH as (y & Hy & E). exists y. split; [by right|done].
Qed.

(** ** Promoting *)

Lemma sorted_map {A B} (f : A -> B) (P : B -> B -> Prop) l : StronglySorted P (map f l) <-> StronglySorted (fun x y => P (f x) (f y)) l.
Proof.
  induction l as [|x l IH]; cbn [map]; [split; intros; constructor|]. split; intros [H1 H2]%StronglySorted_inv; constructor.
  - by apply IH. 
  - by rewrite Forall_map in H2.
  - by apply IH.
  - by apply Forall_map.
Qed.

(** A chain without the notes of its leaves *)
Definition chain_static (c : list leaf) : Prop :=
  c <> [] /\ agree_all lo c hi /\ (forall x, x ∈ c -> route_ok x) /\ StronglySorted (fun x y => idx y < idx x) c /\ (forall x, head c = Some x -> 0 < idx x).
Definition noted (pb : Z) (x : leaf) : Prop := masked x -> (lf_mklist x = None <-> pb < idx x).

Lemma rt_chain_static pb c : rt_chain pb c <-> chain_static (map clean c) /\ forall x, x ∈ c -> noted pb x.
Proof.
  unfold RadixMatch.rt_chain, chain_static, noted. assert (H1 : map clean c <> [] <-> c <> []) by (by destruct c).
  assert (H2 : (forall x, x ∈ map clean c -> route_ok x) <-> (forall x, x ∈ c -> route_ok x)).
  { split; intros H x Hx; [apply clean_ok, H; by apply list_elem_of_fmap_2|]. apply elem_clean in Hx as (y & Hy & ->). by apply clean_ok, H. }
  assert (H3 : StronglySorted (fun x y => idx y < idx x) (map clean c) <-> StronglySorted (fun x y => idx y < idx x) c) by apply sorted_map.
  assert (H4 : (forall x, head (map clean c) = Some x -> 0 < idx x) <-> (forall x, head c = Some x -> 0 < idx x)).
  { destruct c as [|y c]; cbn; [done|]. split; intros H x [= <-]; [by apply (H (clean y))|by apply (H y)]. }
  rewrite H1, H2, H3, H4. tauto.
Qed.

(** *** Promoting from a chain *)

Lemma new_mask_ok nl s : masks_ok s -> exists m i s', rn_new_radix_mask nl s = (Some m, nl <| lf_mklist := Some i |>, s') /\ entry m nl /\ masks_ok s'.
Proof.
  intros H. unfold rn_new_radix_mask, rn_malloc. rewrite (mo_fail _ _ _ _ s H). cbn [negb]. do 3 eexists. split; [reflexivity|]. split; [by split|]. destruct s, H. by split.
Qed.

Lemma promote_chain_ok pb d c : pb < d -> (forall x, x ∈ c -> noted pb x) -> StronglySorted (fun x y => idx y < idx x) c -> forall s, masks_ok s ->
  exists c' mk s', promote_chain (-1 - d) c s = (c', mk, s') /\ masks_ok s' /\ map clean c' = map clean c /\ (forall x, x ∈ c' -> noted d x) /\ rt_masks pb d mk (map clean c).
Proof.
  intros Hd. induction c as [|x c IH]; intros Hn Hs s Hm; cbn [promote_chain].
  { exists [], [], s. split_and!; try done; [by intros x ?%elem_of_nil|]. split_and!; [constructor|by intros x ?%elem_of_nil|by intros x ?%elem_of_nil]. }
  apply StronglySorted_inv in Hs as [Hs Hlt]. rewrite List.Forall_forall in Hlt. specialize (IH (fun y H => Hn y ltac:(by right)) Hs). pose proof (Hn x ltac:(left)) as Hx.
  assert (Hdec : (match lf_mask x with Some _ => true | None => false end && (lf_b x >=? -1 - d) && match lf_mklist x with None => true | Some _ => false end) = true <-> lifted pb d x).
  { unfold RadixMatch.lifted, masked, noted, RadixMatch.idx, masked in *. destruct (lf_mask x) eqn:E; [|split; [done|by intros [? _]]]. specialize (Hx ltac:(done)).
    cbn [andb]. rewrite andb_true_iff, Z.geb_le. destruct Hx as [Hx1 Hx2]. destruct (lf_mklist x); split; intros [H1 H2].
    - done.
    - specialize (Hx2 ltac:(lia)). done.
    - specialize (Hx1 eq_refl). split; [done|lia].
    - split; [lia|done]. }
  destruct (_ && _ && _).
  - destruct (new_mask_ok x s Hm) as (m & i & s1 & -> & He & Hm1). destruct (IH s1 Hm1) as (c' & mk & s2 & -> & H2 & H3 & H4 & H5). destruct Hdec as [Hl _]. specialize (Hl eq_refl).
    do 3 eexists. split; [reflexivity|]. split_and!; [done|cbn; by rewrite H3| |].
    + intros y [->|Hy]%elem_of_cons; [|by apply H4]. intros _. cbn. destruct Hl as [_ Hl]. split; [done|]. change (idx (x <| lf_mklist := Some i |>)) with (idx x). lia.
    + destruct H5 as (S1 & S2 & S3). split_and!.
      * constructor; [done|]. apply List.Forall_forall. intros m' Hm'. apply list_elem_of_In in Hm'. destruct (S2 m' Hm') as (y & Hy & [Hly _] & Hey). apply elem_clean in Hy as (z & Hz & ->).
        pose proof (entry_idx klen _ _ Hly Hey). pose proof (entry_idx klen m x (proj1 Hl) He). apply list_elem_of_In, Hlt in Hz. change (idx (clean z)) with (idx z) in *. lia.
      * intros m' [->|Hm']%elem_of_cons; [exists (clean x); split; [left|done]|]. destruct (S2 m' Hm') as (y & Hy & H'). exists y. split; [by right|done].
      * intros y [->|Hy]%elem_of_cons Hly; [exists m; split; [left|done]|]. destruct (S3 y Hy Hly) as (m' & Hm' & H'). exists m'. split; [by right|done].
  - destruct (IH s Hm) as (c' & mk & s2 & -> & H2 & H3 & H4 & H5). do 3 eexists. split; [reflexivity|]. assert (Hl : ~ lifted pb d x) by (intros H; by apply Hdec in H). split_and!; [done|cbn; by rewrite H3| |].
    + intros y [->|Hy]%elem_of_cons; [|by apply H4]. intros Hmx. specialize (Hx Hmx). rewrite Hx. split; [|lia]. intros H. destruct (Z.lt_ge_cases d (idx x)); [done|]. destruct Hl. split; [done|lia].
    + destruct H5 as (S1 & S2 & S3). split_and!; [done| |].
      * intros m' Hm'. destruct (S2 m' Hm') as (y & Hy & H'). exists y. split; [by right|done].
      * intros y [->|Hy]%elem_of_cons Hly; [by destruct Hl|by apply S3].
Qed.

(** *** Promoting from a node *)

Lemma split_masks_ok d mk : StronglySorted (fun m m' => rm_b m < rm_b m') mk ->
  exists a b, split_masks (-1 - d) mk = (a, b) /\ mk = a ++ b /\ (forall m, m ∈ a -> d < -1 - rm_b m) /\ (forall m, m ∈ b -> -1 - rm_b m <= d).
Proof.
  induction mk as [|m mk IH]; intros Hs; cbn [split_masks]; [by exists [], []; split_and!; try done; intros m ?%elem_of_nil|].
  apply StronglySorted_inv in Hs as [Hs Hlt]. rewrite List.Forall_forall in Hlt. destruct (Z.geb_spec (rm_b m) (-1 - d)).
  - exists [], (m :: mk). split_and!; try done; [by intros m' ?%elem_of_nil|]. intros m' [->|Hm]%elem_of_cons; [lia|]. apply list_elem_of_In, Hlt in Hm. lia.
  - destruct (IH Hs) as (a & b & -> & -> & H1 & H2). exists (m :: a), b. split_and!; try done. intros m' [->|Hm]%elem_of_cons; [lia|by apply H1].
Qed.

Lemma sorted_app_inv {A} (P : A -> A -> Prop) a b : StronglySorted P (a ++ b) -> StronglySorted P a /\ StronglySorted P b.
Proof.
  induction a as [|x a IH]; cbn [app]; [by split; [constructor|]|]. intros [H1 H2]%StronglySorted_inv. apply Forall_app in H2 as [H2 _]. apply IH in H1 as [H1 H3]. split; [by constructor|done].
Qed.

Lemma split_rt_masks pb d xb a b R : pb < d <= xb -> rt_masks pb xb (a ++ b) R -> (forall m, m ∈ a -> d < -1 - rm_b m) -> (forall m, m ∈ b -> -1 - rm_b m <= d) ->
  rt_masks d xb a R /\ rt_masks pb d b R.
Proof.
  intros Hd (S1 & S2 & S3) Ha Hb. apply sorted_app_inv in S1 as [S1a S1b]. split; (split_and!; [done| |]).
  - intros m Hm. destruct (S2 m ltac:(apply elem_of_app; by left)) as (x & Hx & [Hl1 Hl2] & He). exists x. split_and!; [done| |done]. pose proof (entry_idx klen m x Hl1 He). pose proof (Ha m Hm). split; [done|lia].
  - intros x Hx [Hl1 Hl2]. destruct (S3 x Hx) as (m & Hm & He); [split; [done|lia]|]. pose proof (entry_idx klen m x Hl1 He). apply elem_of_app in Hm as [Hm|Hm]; [by exists m|]. pose proof (Hb m Hm). lia.
  - intros m Hm. destruct (S2 m ltac:(apply elem_of_app; by right)) as (x & Hx & [Hl1 Hl2] & He). exists x. split_and!; [done| |done]. pose proof (entry_idx klen m x Hl1 He). pose proof (Hb m Hm). split; [done|lia].
  - intros x Hx [Hl1 Hl2]. destruct (S3 x Hx) as (m & Hm & He); [split; [done|lia]|]. pose proof (entry_idx klen m x Hl1 He). apply elem_of_app in Hm as [Hm|Hm]; [|by exists m]. pose proof (Ha m Hm). lia.
Qed.

Lemma promote_ok d bit x s pb : wf pb x -> pb < d -> match x with Node b _ _ _ => d < b | Leaf _ => True end -> masks_ok s ->
  exists f s', promote (mkFrame d [] bit x) s = (f, s') /\ masks_ok s' /\ fr_b f = d /\ fr_right f = bit /\ routes (fr_sib f) = routes x /\
    wf d (fr_sib f) /\ rt_masks pb d (fr_mklist f) (routes x).
Proof.
  intros Hwf Hd Hx Hs. unfold promote. cbn [fr_b fr_sib]. destruct x as [c|b mk l r].
  - apply rt_chain_static in Hwf as [Hst Hn]. pose proof Hst as (_ & _ & _ & Hsort & _). apply sorted_map in Hsort.
    destruct (promote_chain_ok pb d c Hd Hn Hsort s Hs) as (c' & mk & s' & -> & H1 & H2 & H3 & H4). do 2 eexists. split; [reflexivity|]. cbn [fr_b fr_right fr_sib fr_mklist].
    split_and!; try done. apply rt_chain_static. by rewrite H2.
  - destruct Hwf as ([_ Hb] & Hside & Hag & Hm & Hl & Hr). cbn [k_masks rt_kind RadixMatch.rt_kind] in Hm. assert (Hres : exists a b', split_masks (-1 - d) mk = (a, b') /\ rt_masks d b a (routes l ++ routes r) /\ rt_masks pb d b' (routes l ++ routes r) /\ mk = a ++ b').
    { destruct (split_masks_ok d mk (proj1 Hm)) as (a & b' & -> & -> & H1 & H2). exists a, b'. split; [done|]. destruct (split_rt_masks pb d b a b' _ ltac:(lia) Hm H1 H2). done. }
    destruct Hres as (a & b' & Es & H1 & H2 & Emk). assert (Hne : match mk with [] => (mkFrame d [] bit (Node b mk l r), s) | _ => let '(keep, rest) := split_masks (-1 - d) mk in
      ((mkFrame d [] bit (Node b mk l r)) <| fr_sib := Node b keep l r |> <| fr_mklist := rest |>, s) end = (mkFrame d b' bit (Node b a l r), s)).
    { destruct mk; [by destruct a, b'|by rewrite Es]. }
    rewrite Hne. do 2 eexists. split; [reflexivity|]. cbn [fr_b fr_right fr_sib fr_mklist]. rewrite routes_node. split_and!; try done; rewrite ?routes_node; try done.
Qed.

(** ** The mask of the new route *)

Definition fresh (nl x : leaf) : Prop := route_ok x /\ (idx x = idx nl -> ~ agree lo (lf_key x) (lf_key nl) hi).

Lemma insert_mask_ok nl n mk : (forall m, m ∈ mk -> rm_b m <> lf_b nl) -> StronglySorted (fun m m' => rm_b m < rm_b m') mk -> forall s, masks_ok s ->
  exists mk' m0 i s', insert_mask nl n mk s = (mk', nl <| lf_mklist := Some i |>, s') /\ masks_ok s' /\ entry m0 nl /\ (forall m, m ∈ mk' <-> m = m0 \/ m ∈ mk) /\
    StronglySorted (fun m m' => rm_b m < rm_b m') mk'.
Proof.
  intros Hne Hs. induction mk as [|m mk IH]; intros s Hm; cbn [insert_mask].
  - destruct (new_mask_ok nl s Hm) as (m & i & s' & -> & He & Hm'). do 4 eexists. split; [reflexivity|]. split_and!; [done|exact He| |repeat constructor].
    intros m'. by rewrite elem_of_cons.
  - apply StronglySorted_inv in Hs as [Hs Hlt]. specialize (IH (fun m' H => Hne m' ltac:(by right)) Hs). pose proof (Hne m ltac:(left)) as Hneq. destruct (Z.ltb_spec (rm_b m) (lf_b nl)).
    + destruct (IH s Hm) as (mk' & m0 & i & s' & -> & H1 & H2 & H3 & H4). do 4 eexists. split; [reflexivity|]. split_and!; [done|exact H2| |].
      * intros m'. rewrite !elem_of_cons, H3. tauto.
      * constructor; [done|]. apply List.Forall_forall. intros m' Hm'. apply list_elem_of_In, H3 in Hm' as [->|Hm']; [by rewrite (proj1 H2)|]. rewrite List.Forall_forall in Hlt. by apply Hlt, list_elem_of_In.
    + destruct (Z.gtb_spec (rm_b m) (lf_b nl)); [|lia]. destruct (new_mask_ok nl s Hm) as (m0 & i & s' & -> & He & Hm'). do 4 eexists. split; [reflexivity|]. split_and!; [done|exact He| |].
      * intros m'. rewrite !elem_of_cons. tauto.
      * constructor; [by constructor|]. rewrite (proj1 He). constructor; [lia|]. rewrite List.Forall_forall in Hlt |- *. intros a Ha. apply Hlt in Ha. lia.
Qed.

(** A route whose mask reaches behind the node, or a host route, changes no list. *)
Lemma masks_high fs nl : ~ (masked nl /\ idx nl <= hole_b fs) -> forall R R', wf_up fs R -> masks_up fs R -> (forall x, x ∈ R' <-> x = nl \/ x ∈ R) -> masks_up fs R'.
Proof.
  induction fs as [|f fs IH]; intros Hi R R' Hup; [done|]. cbn [masks_up hole_b wf_up] in *. intros [(S1 & S2 & S3) Hm] Hset.
  assert (Hb : forall x, x ∈ below f R' <-> x = nl \/ x ∈ below f R) by (intros x; unfold below; rewrite !elem_of_app, Hset; tauto).
  split.
  - split_and!; [done| |].
    + intros m Hm'. destruct (S2 m Hm') as (x & Hx & H). exists x. rewrite Hb. split; [by right|done].
    + intros x [->|Hx]%Hb Hl; [|by apply S3]. destruct Hi. destruct Hl. split; [done|lia].
  - apply (IH ltac:(intros [H1 H2]; apply Hi; split; [done|lia]) (below f R)); [tauto|done|done].
Qed.

Lemma fresh_entry nl f R R' x : masked nl -> route_ok nl -> idx nl <= fr_b f -> agree_all lo (below f R') (fr_b f) -> (forall y, y ∈ R' <-> y = clean nl \/ y ∈ R) ->
  x ∈ below f R -> fresh nl x -> idx x <> idx nl.
Proof.
  intros Hm (_ & _ & Hz) Hn Hag Hset Hx [(_ & _ & Hzx) Hf] E. apply (Hf E). intros i Hi. destruct (Z.lt_ge_cases i (idx nl)).
  - apply (Hag x (clean nl)); [| |lia].
    + unfold below in *. rewrite elem_of_app, Hset in *. tauto.
    + unfold below. rewrite elem_of_app, Hset. tauto.
  - rewrite Hz, Hzx by lia. done.
Qed.

(** The node that takes the entry *)
Lemma lift_here nl f fs R R' s m : masked nl -> route_ok nl -> hole_b fs < idx nl <= fr_b f -> wf_up (f :: fs) R -> wf_up (f :: fs) R' -> masks_up (f :: fs) R ->
  (forall x, x ∈ R' <-> x = clean nl \/ x ∈ R) -> (forall x, x ∈ below f R -> fresh nl x) -> masks_ok s ->
  exists mk i s', insert_mask nl m (fr_mklist f) s = (mk, nl <| lf_mklist := Some i |>, s') /\ masks_ok s' /\ masks_up (f <| fr_mklist := mk |> :: fs) R'.
Proof.
  intros Hmn Hnl Hn HupR Hup [(S1 & S2 & S3) Hm] Hset Hf Hs. cbn [wf_up] in Hup, HupR. destruct Hup as (_ & _ & Hag & _ & Hup'). destruct HupR as (_ & _ & _ & _ & HupR').
  assert (Hb : forall x, x ∈ below f R' <-> x = clean nl \/ x ∈ below f R) by (intros x; unfold below; rewrite !elem_of_app, Hset; tauto).
  destruct (insert_mask_ok nl m (fr_mklist f)) with (s := s) as (mk & m0 & i & s' & -> & H1 & H2 & H3 & H4); [|done|done|].
  - intros m' Hm' E. destruct (S2 m' Hm') as (x & Hx & [Hl _] & He). pose proof (entry_idx klen m' x Hl He) as Ex.
    apply (fresh_entry nl f R R' x Hmn Hnl ltac:(lia) Hag Hset Hx (Hf x Hx)). rewrite Ex, E. unfold RadixMatch.idx. by destruct (lf_mask nl) eqn:En.
  - exists mk, i, s'. split; [done|]. split; [done|]. cbn [masks_up fr_mklist fr_b]. split.
    + split_and!; [done| |].
      * intros m' [->|Hm']%H3; [exists (clean nl); rewrite Hb; split_and!; [by left|split; [done|exact Hn]|exact H2]|].
        destruct (S2 m' Hm') as (x & Hx & H'). exists x. split; [apply Hb; by right|done].
      * intros x [->|Hx]%Hb Hl; [exists m0; rewrite H3; split; [by left|exact H2]|]. destruct (S3 x Hx Hl) as (m' & Hm' & H'). exists m'. rewrite H3. split; [by right|done].
    + apply (masks_high fs (clean nl) ltac:(change (idx (clean nl)) with (idx nl); lia) (below f R)); done.
Qed.

Lemma lift_mask_ok nl m : masked nl -> route_ok nl -> forall fs f R R' s, 0 <= idx nl <= fr_b f -> wf_up (f :: fs) R -> wf_up (f :: fs) R' -> masks_up (f :: fs) R ->
  (forall x, x ∈ R' <-> x = clean nl \/ x ∈ R) -> (forall x, x ∈ R -> fresh nl x) -> (forall g x, g ∈ f :: fs -> x ∈ routes (fr_sib g) -> fresh nl x) -> masks_ok s ->
  exists gs i s', lift_mask (idx nl) nl m f fs s = (gs, nl <| lf_mklist := Some i |>, s') /\ masks_ok s' /\ Forall2 same_side (f :: fs) gs /\ masks_up gs R'.
Proof.
  intros Hmk Hnl. induction fs as [|g fs IH]; intros f R R' s Hn HupR Hup Hm Hset HR Hsib Hs.
  all: assert (Hf : forall x, x ∈ below f R -> fresh nl x) by (unfold below; intros x [Hx|Hx]%elem_of_app; [by apply HR|apply (Hsib f); [left|done]]).
  all: cbn [lift_mask].
  - destruct (lift_here nl f [] R R' s m Hmk Hnl ltac:(cbn; lia) HupR Hup Hm Hset Hf Hs) as (mk & i & s' & -> & H1 & H2). do 3 eexists. split; [reflexivity|].
    split_and!; [done| |done]. constructor; [done|apply Forall2_same_refl].
  - destruct (Z.leb_spec (idx nl) (fr_b g)).
    + cbn [wf_up masks_up] in Hup, HupR, Hm. destruct Hup as (_ & _ & Hag & _ & Hup). destruct HupR as (Hbg & _ & _ & _ & HupR). destruct Hm as [(S1 & S2 & S3) Hm].
      assert (Hb : forall x, x ∈ below f R' <-> x = clean nl \/ x ∈ below f R) by (intros x; unfold below; rewrite !elem_of_app, Hset; tauto).
      destruct (IH g (below f R) (below f R') s) as (gs & i & s' & -> & H1 & H2 & H3); try done; [lia|intros h x Hh; apply Hsib; by right|].
      do 3 eexists. split; [reflexivity|]. split_and!; [done|by constructor|]. cbn [masks_up]. split; [|done]. rewrite <- (same_hole _ _ H2). split_and!; [done| |].
      * intros m' Hm'. destruct (S2 m' Hm') as (x & Hx & H'). exists x. split; [apply Hb; by right|done].
      * intros x [->|Hx]%Hb Hl; [|by apply S3]. destruct Hl as [_ Hl]. change (idx (clean nl)) with (idx nl) in Hl. cbn [hole_b] in Hl. lia.
    + destruct (lift_here nl f (g :: fs) R R' s m Hmk Hnl ltac:(cbn [hole_b]; lia) HupR Hup Hm Hset Hf Hs) as (mk & i & s' & -> & H1 & H2). do 3 eexists. split; [reflexivity|].
      split_and!; [done| |done]. constructor; [done|apply Forall2_same_refl].
Qed.

(** ** The tree with the new route *)

Lemma elem_plug_same fs gs t x : Forall2 same_side fs gs -> x ∈ routes (plug gs t) <-> x ∈ routes t \/ exists f, f ∈ fs /\ x ∈ routes (fr_sib f).
Proof.
  intros HF. rewrite elem_plug. assert (H : (exists f, f ∈ gs /\ x ∈ routes (fr_sib f)) <-> (exists f, f ∈ fs /\ x ∈ routes (fr_sib f))); [|by rewrite H].
  induction HF as [|f g fs gs (_ & _ & Es) _ IH]; [done|]. split.
  - intros (h & [->|Hh]%elem_of_cons & Hx); [exists f; split; [left|by rewrite Es]|]. destruct (proj1 IH) as (h' & Hh' & Hx'); [by exists h|]. exists h'. split; [by right|done].
  - intros (h & [->|Hh]%elem_of_cons & Hx); [exists g; split; [left|by rewrite <- Es]|]. destruct (proj2 IH) as (h' & Hh' & Hx'); [by exists h|]. exists h'. split; [by right|done].
Qed.
Lemma plug_same_top fs gs x y b mk l r : Forall2 same_side fs gs -> fs <> [] -> plug fs x = Node b mk l r -> exists mk' l' r', plug gs y = Node b mk' l' r'.
Proof.
  intros HF Hne E. destruct (exists_last Hne) as (fs0 & f & ->). apply Forall2_app_inv_l in HF as (gs0 & gs1 & _ & HF & ->). inversion HF as [|? g ? gs' (Eb & _) HF']; subst. inversion HF'; subst.
  destruct (plug_last fs0 f x) as (l1 & r1 & E1). rewrite E in E1. injection E1 as -> _ _ _. rewrite Eb. destruct (plug_last gs0 g y) as (l2 & r2 & ->). by do 3 eexists.
Qed.

Lemma rt_ok_add fs gs t c nl top mk l r : rt_ok off klen KL Hrange top -> plug fs t = Node lo mk l r -> fs <> [] -> Forall2 same_side fs gs -> wf_up gs (map clean c) -> masks_up gs (map clean c) ->
  rt_chain (hole_b gs) c -> (forall y, y ∈ routes (plug gs (Leaf c)) <-> y = nl \/ y ∈ routes top) -> rt_ok off klen KL Hrange (plug gs (Leaf c)).
Proof.
  intros (_ & _ & (z & Hz & Hz')) Hp Hne HF H1 H2 H3 Hr. split_and!.
  - by eapply plug_same_top.
  - by apply wf_plug.
  - exists z. rewrite Hr. split; [by right|done].
Qed.

(** *** The end of [rn_addroute] *)

Lemma add_finish o n front nl back f fs R R' s : match o with None => ~ masked nl | Some m => masked nl /\ idx nl = n end -> lf_mklist nl = None -> route_ok nl ->
  wf_up (f :: fs) R -> wf_up (f :: fs) R' -> masks_up (f :: fs) R -> (forall x, x ∈ R' <-> x = clean nl \/ x ∈ R) ->
  (forall x, x ∈ R -> fresh nl x) -> (forall g x, g ∈ f :: fs -> x ∈ routes (fr_sib g) -> fresh nl x) -> masks_ok s ->
  exists gs nl' s',
    match o with
    | Some m => if n >? fr_b f then Ret (plug (f :: fs) (Leaf (front ++ nl :: back)), s)
                else let '(fs, nl, s) := lift_mask n nl m f fs s in Ret (plug fs (Leaf (front ++ nl :: back)), s)
    | None => Ret (plug (f :: fs) (Leaf (front ++ nl :: back)), s)
    end = Ret (plug gs (Leaf (front ++ nl' :: back)), s') /\
    masks_ok s' /\ Forall2 same_side (f :: fs) gs /\ masks_up gs R' /\ clean nl' = clean nl /\ noted (fr_b f) nl'.
Proof.
  intros Ho Hnone Hnl HupR Hup Hm Hset HR Hsib Hs.
  assert (Hhigh : ~ (masked nl /\ idx nl <= fr_b f) -> masks_up (f :: fs) R') by (intros H; by apply (masks_high (f :: fs) (clean nl) H R)).
  destruct o as [m|].
  - destruct Ho as [Hmk <-]. destruct (Z.gtb_spec (idx nl) (fr_b f)).
    + exists (f :: fs), nl, s. split_and!; [done|done|apply Forall2_same_refl|apply Hhigh; lia|done|]. intros _. split; [lia|done].
    + destruct (idx_range off klen KL Hrange nl Hnl) as (I1 & _). specialize (I1 Hmk).
      destruct (lift_mask_ok nl m Hmk Hnl fs f R R' s ltac:(lia) HupR Hup Hm Hset HR Hsib Hs) as (gs & i & s' & -> & H1 & H2 & H3).
      do 3 eexists. split; [reflexivity|]. split_and!; [done|done|done|done|]. intros _. cbn. split; [done|]. change (idx (nl <| lf_mklist := Some i |>)) with (idx nl). lia.
  - exists (f :: fs), nl, s. split_and!; [done|done|apply Forall2_same_refl|apply Hhigh; tauto|done|]. intros H'. by destruct Ho.
Qed.

(** *** A new leaf in a chain *)

Lemma sorted_insert {A} (P : A -> A -> Prop) a x b : StronglySorted P (a ++ b) -> Forall (fun y => P y x) a -> Forall (P x) b -> StronglySorted P (a ++ x :: b).
Proof.
  intros Hs Ha Hb. induction a as [|y a IH]; cbn [app] in *; [by constructor|]. apply StronglySorted_inv in Hs as [Hs Hlt]. apply Forall_app in Hlt as [L1 L2].
  inversion Ha; subst. constructor; [by apply IH|]. apply Forall_app. split; [done|by constructor].
Qed.

Lemma chain_insert pb front nl back : rt_chain pb (front ++ back) -> route_ok nl -> (forall x, x ∈ front ++ back -> agree lo (lf_key nl) (lf_key x) hi) ->
  (forall x, x ∈ front -> idx nl < idx x) -> (forall x, x ∈ back -> idx x < idx nl) -> noted pb nl -> rt_chain pb (front ++ nl :: back).
Proof.
  intros (C1 & C2 & C3 & C4 & C5 & C6) Hnl Hag Hf Hb Hn. assert (Hin : forall x, x ∈ front ++ nl :: back <-> x = nl \/ x ∈ front ++ back) by (intros x; rewrite !elem_of_app, elem_of_cons; tauto).
  destruct (front ++ back) as [|r l] eqn:E; [done|]. rewrite <- E in *. assert (Hr : r ∈ front ++ back) by (rewrite E; left).
  split_and!.
  - by destruct front.
  - assert (H : forall x, x ∈ front ++ nl :: back -> agree lo (lf_key nl) (lf_key x) hi) by (intros x [->|Hx]%Hin; [apply agree_refl|by apply Hag]).
    intros x y Hx Hy. apply elem_clean in Hx as (x' & Hx & ->). apply elem_clean in Hy as (y' & Hy & ->). apply (agree_trans _ _ (lf_key nl)); [apply agree_sym; exact (H x' Hx)|exact (H y' Hy)].
  - intros x [->|Hx]%Hin; [done|by apply C3].
  - apply sorted_insert; [done|..]; apply List.Forall_forall; intros x Hx; apply list_elem_of_In in Hx; auto.
  - intros x Hx. destruct front as [|y front]; cbn [app head] in Hx; injection Hx as <-; [|by apply C5]. cbn [app] in *. specialize (Hb r Hr). specialize (C5 r). rewrite E in C5. specialize (C5 eq_refl). lia.
  - intros x [->|Hx]%Hin; [exact Hn|by apply C6].
Qed.

(** ** [rn_addroute] *)

Record route_arg (v : list Z) (netmask : option (list Z)) (n : Z) : Prop := {
  ra_key : key_ok v;
  ra_len : byte v 0 = klen;
  ra_mask : match netmask with None => n = hi + 1 | Some N => mask_arg off klen KL N n end;
  ra_zero : forall i, n <= i < hi -> lo <= i -> test_bit v i = false
}.

(** The leaf for the route *)
Definition route_leaf (id : Z) (v : list Z) (o : option leaf) : leaf :=
  match o with
  | Some x => (new_leaf id v) <| lf_mask := Some (lf_key x) |> <| lf_b := lf_b x |> <| lf_flags := setb RNF_ACTIVE (Z.land (lf_flags x) RNF_NORMAL) |>
  | None => new_leaf id v
  end.

Lemma route_leaf_ok id v netmask n o : route_arg v netmask n -> match netmask, o with None, None => True | Some _, Some x => mask_result KL n x | _, _ => False end ->
  let nl := route_leaf id v o in route_ok nl /\ idx nl = n /\ is_root nl = false /\ match o with None => ~ masked nl | Some m => masked nl end.
Proof.
  intros [R1 R2 R3 R4] Ho. destruct netmask as [N|], o as [x|]; try done; cbv zeta.
  - destruct Ho as (M1 & M2 & M3). assert (Ei : idx (route_leaf id v (Some x)) = n) by (unfold RadixMatch.idx; cbn; lia). assert (Er : is_root (route_leaf id v (Some x)) = false).
    { unfold is_root. cbn [route_leaf lf_flags]. rec_simpl. rewrite hasf_setb. cbn. unfold hasf. rewrite <- Z.land_assoc. change (Z.land RNF_NORMAL RNF_ROOT) with 0. by rewrite Z.land_0_r. }
    assert (En : is_normal (route_leaf id v (Some x)) = is_normal x).
    { unfold is_normal. cbn [route_leaf lf_flags]. rec_simpl. rewrite hasf_setb. cbn. unfold hasf. rewrite <- Z.land_assoc. by change (Z.land RNF_NORMAL RNF_NORMAL) with RNF_NORMAL. }
    split_and!; try done. split_and!; [done| |rewrite Ei; exact R4]. rewrite M3 in En. destruct (ma_n _ _ _ _ _ R3) as [->|Hn].
    + apply leaf_default; [by cbn; rewrite M2|done|done|done].
    + destruct (Z.eqb_spec n 0); [lia|]. apply (leaf_net off klen KL _ n); [by cbn; rewrite M2|done|done|done|done].
  - split_and!; try done; [|by intros H; apply H]. split_and!; [done|by apply leaf_host|]. intros i Hi. apply R4. unfold RadixMatch.idx in Hi. cbn in Hi. lia.
Qed.

(** What [rn_addroute] does with a route *)
Definition added (top : tree) (id : Z) (v : list Z) (n : Z) (res : option tree) : Prop :=
  match res with
  | None => exists y, y ∈ routes top /\ idx y = n /\ agree lo (lf_key y) v hi
  | Some top' => rt_ok off klen KL Hrange top' /\ (forall y, y ∈ routes top -> idx y = n -> ~ agree lo (lf_key y) v hi) /\
      exists nl, lf_id nl = id /\ lf_key nl = v /\ idx nl = n /\ is_root nl = false /\ forall y, y ∈ routes top' <-> y = nl \/ y ∈ routes top
  end.

(** The key is there already. *)
Lemma add_dup v n o (nl : leaf) top s c fs : rt_ok off klen KL Hrange top -> masks_ok s -> key_ok v -> route_ok nl -> idx nl = n -> is_root nl = false -> lf_key nl = v -> lf_mklist nl = None ->
  match o with None => n = hi + 1 /\ ~ masked nl | Some m => (m = mask_of n /\ index_ok n) /\ masked nl end -> rn_search v top [] = (c, fs) -> (forall x, x ∈ c -> agree lo v (lf_key x) hi) ->
  forall id, lf_id nl = id ->
  match dup_place o (-1 - n) c [] with
  | None => added top id v n None
  | Some (front, back) => exists t s', add_masks true o n front nl back fs s = Ret (t, s') /\ masks_ok s' /\ added top id v n (Some t)
  end.
Proof.
  intros Hrt Hs Hv Hnl Hn Hroot Hkey Hnone Ho E Hag id Hid. pose proof Hrt as ((mk & l & r & Etop) & Hwf & _). destruct (search_top _ _ _ _ E Hwf) as (Hp & Hpath & Hup & Hmk & Hch).
  pose proof Hch as (C1 & C2 & C3 & C4 & _ & C6).
  pose proof (dup_place_ok o n c ltac:(destruct o; tauto) C3 C4 []) as Hd. destruct (dup_place o (-1 - n) c []) as [[front back]|].
  2:{ destruct Hd as (x & Hx & Ex). exists (clean x). split_and!; [|exact Ex|apply agree_sym, (Hag x Hx)]. rewrite <- Hp. apply elem_plug. left. by apply list_elem_of_fmap_2. }
  destruct Hd as (a' & Ea & Ec & Hf & Hb). cbn [app] in Ea. subst a' c. set (R := map clean (front ++ back)) in *. set (R' := map clean (front ++ nl :: back)).
  assert (Hset : forall x, x ∈ R' <-> x = clean nl \/ x ∈ R). { intros x. unfold R, R'. rewrite !map_app, !elem_of_app. cbn [map]. rewrite elem_of_cons. tauto. }
  assert (Hr : exists r0, r0 ∈ R). { unfold R. destruct (front ++ back) as [|r0 rest]; [done|]. exists (clean r0). left. }
  assert (HagR : forall x, x ∈ R -> agree lo v (lf_key x) hi). { intros x Hx. apply elem_clean in Hx as (y & Hy & ->). exact (Hag y Hy). }
  assert (Hup' : forall gs, Forall2 same_side fs gs -> wf_up gs R').
  { intros gs HF. eapply wf_up_add; [exact HF|exact Hup|]. intros x [->|Hx]%Hset; [|exists x; split; [done|apply agree_refl]]. destruct Hr as [r0 Hr0]. exists r0. split; [done|].
    pose proof (hole_lt _ _ Hup). apply (agree_le _ _ _ hi); [cbn [k_hi rt_kind RadixMatch.rt_kind] in *; lia|]. cbn. rewrite Hkey. by apply HagR. }
  destruct fs as [|f fs]; [by rewrite Etop in Hp|].
  assert (Hok : forall x, x ∈ routes top -> route_ok x) by (by apply (wf_routes off klen KL Hrange top (-1))).
  assert (HRn : forall x, x ∈ R -> idx x <> n). { intros x Hx. apply elem_clean in Hx as (y & Hy & ->). change (idx (clean y)) with (idx y). apply elem_of_app in Hy as [Hy|Hy]; [specialize (Hf y Hy)|specialize (Hb y Hy)]; lia. }
  assert (HR : forall x, x ∈ R -> fresh nl x). { intros x Hx. split; [apply Hok; rewrite <- Hp; apply elem_plug; by left|]. intros Ex. destruct (HRn x Hx). lia. }
  assert (Hsib : forall g x, g ∈ f :: fs -> x ∈ routes (fr_sib g) -> fresh nl x).
  { intros g x Hg Hx. split; [apply Hok; rewrite <- Hp; apply elem_plug; right; by exists g|]. intros _ Hagx. destruct Hr as [r0 Hr0]. destruct (up_sib _ _ _ _ _ Hup Hg Hx Hr0) as (_ & B & _).
    pose proof (up_le _ _ _ Hup Hg) as Hle. pose proof (hole_lt _ _ Hup). cbn [k_lo k_hi rt_kind RadixMatch.rt_kind] in *. rewrite Hagx, Hkey in B by lia. rewrite (Hpath g Hg) in B. by destruct (fr_right g). }
  assert (Ho' : match o with None => ~ masked nl | Some m => masked nl /\ idx nl = n end) by (destruct o; tauto).
  unfold add_masks. destruct (add_finish o n front nl back f fs R R' s Ho' Hnone Hnl Hup (Hup' _ (Forall2_same_refl _)) Hmk Hset HR Hsib Hs) as (gs & nl' & s' & -> & F1 & F2 & F3 & F4 & F5).
  assert (Ei : forall A (g : leaf -> A), (forall x, g (clean x) = g x) -> g nl' = g nl) by (intros A g Hg; rewrite <- (Hg nl'), F4; apply Hg).
  assert (Enl : map clean (front ++ nl' :: back) = R') by (unfold R'; rewrite !map_app; cbn [map]; by rewrite F4).
  assert (Hch' : rt_chain (hole_b gs) (front ++ nl' :: back)).
  { rewrite <- (same_hole _ _ F2). cbn [hole_b]. apply chain_insert; try done.
    - apply clean_ok. rewrite F4. by apply clean_ok.
    - intros x Hx. rewrite (Ei _ lf_key) by done. rewrite Hkey. by apply Hag.
    - intros x Hx. rewrite (Ei _ idx) by done. rewrite Hn. by apply Hf.
    - intros x Hx. rewrite (Ei _ idx) by done. rewrite Hn. by apply Hb. }
  assert (Hroutes : forall y, y ∈ routes (plug gs (Leaf (front ++ nl' :: back))) <-> y = clean nl \/ y ∈ routes top).
  { intros y. rewrite (elem_plug_same _ _ _ _ F2), <- Hp, elem_plug. change (routes (Leaf (front ++ nl' :: back))) with (map clean (front ++ nl' :: back)). rewrite Enl, Hset. fold R. tauto. }
  do 2 eexists. split; [reflexivity|]. split; [done|]. split_and!.
  - eapply rt_ok_add; [exact Hrt|rewrite <- Etop; exact Hp|done|exact F2|rewrite Enl; by apply Hup'|by rewrite Enl|exact Hch'|exact Hroutes].
  - intros y Hy Ey. rewrite <- Hp in Hy. apply elem_plug in Hy as [Hy|(g & Hg & Hy)]; [by destruct (HRn y Hy)|]. destruct (Hsib g y Hg Hy) as [_ H]. rewrite <- Hkey. apply H. lia.
  - exists (clean nl). split_and!; done.
Qed.

(** The key is new. *)
Lemma add_new v n o (nl : leaf) top s d x fs : rt_ok off klen KL Hrange top -> masks_ok s -> 8 * byte v 0 <= hi -> route_ok nl -> idx nl = n -> is_root nl = false -> lf_key nl = v -> lf_mklist nl = None ->
  match o with None => n = hi + 1 /\ ~ masked nl | Some m => masked nl end -> plug fs x = top -> place_ok v d x fs -> (forall i, n <= i < hi -> lo <= i -> test_bit v i = false) ->
  exists t s', add_masks false o n [] nl [] (mkFrame d [] (test_bit v d) x :: fs) s = Ret (t, s') /\ masks_ok s' /\ added top (lf_id nl) v n (Some t).
Proof.
  intros Hrt Hs Hlen Hnl Hn Hroot Hkey Hnone Ho Hp Hpl Hzero. pose proof Hrt as (_ & Hwf & (z & Hz & _ & Hzz)). rewrite <- Hp in Hwf. apply wf_plug in Hwf as (Hup & Hmk & Hx).
  pose proof Hpl as (P1 & P2 & P3 & P4 & P5 & P6 & P7 & P8). cbn [k_lo rt_kind RadixMatch.rt_kind] in P4.
  destruct (promote_ok d (test_bit v d) x s (hole_b fs) Hx ltac:(lia) P8 Hs) as ([b mk bit sib] & s1 & Epr & Hs1 & Eb & Ebit & Esib & Hwsib & Hmsib). cbn [fr_b fr_right fr_sib fr_mklist] in *. subst b bit.
  set (f := mkFrame d mk (test_bit v d) sib) in *.
  assert (Hup1 : forall gs, Forall2 same_side (f :: fs) gs -> wf_up gs [clean nl]).
  { intros gs HF. eapply wf_up_add; [exact HF| |].
    - apply (place_up v d x sib mk fs fs nl Hpl Hkey Hlen Hup Hwsib Esib). apply Forall2_same_refl.
    - intros y Hy. exists y. split; [done|apply agree_refl]. }
  assert (Hup0 : wf_up (f :: fs) []). { eapply wf_up_add; [apply Forall2_same_refl|apply Hup1, Forall2_same_refl|]. by intros y ?%elem_of_nil. }
  assert (Hmk0 : masks_up (f :: fs) []).
  { cbn [masks_up]. split; [unfold below, f; cbn [fr_b fr_mklist fr_sib app]; rewrite Esib; exact Hmsib|]. unfold below, f. cbn [fr_sib app]. by rewrite Esib. }
  assert (Hok : forall y, y ∈ routes top -> route_ok y) by (apply (wf_routes off klen KL Hrange top (-1)); by destruct Hrt as (_ & ? & _)).
  destruct (wf_nonempty _ _ Hx) as [r0 Hr0].
  assert (Hdiff : forall y, y ∈ routes top -> exists i, lo <= i < hi /\ test_bit (lf_key y) i = negb (test_bit v i)).
  { intros y Hy. rewrite <- Hp in Hy. apply elem_plug in Hy as [Hy|(g & Hg & Hy)]; [exists d; split; [lia|by apply P5]|].
    destruct (up_sib _ _ _ _ _ Hup Hg Hy Hr0) as (_ & B & _). pose proof (up_le _ _ _ Hup Hg) as Hle. pose proof (hole_lt _ _ Hup). cbn [k_lo k_hi rt_kind RadixMatch.rt_kind] in *.
    exists (fr_b g). split; [lia|]. by rewrite (P2 g Hg). }
  assert (Hfresh : forall y, y ∈ routes top -> fresh nl y).
  { intros y Hy. split; [by apply Hok|]. intros _ Hag. destruct (Hdiff y Hy) as (i & Hi & B). rewrite Hag, Hkey in B by done. by destruct (test_bit v i). }
  assert (Hsib : forall g y, g ∈ f :: fs -> y ∈ routes (fr_sib g) -> fresh nl y).
  { intros g y [->|Hg]%elem_of_cons Hy; apply Hfresh; rewrite <- Hp; apply elem_plug; [left; cbn [f fr_sib] in Hy; by rewrite Esib in Hy|right; by exists g]. }
  assert (Hpos : 0 < idx nl).
  { rewrite Hn. destruct (Z.lt_ge_cases 0 n); [done|]. exfalso. destruct (Hdiff z Hz) as (i & Hi & B). rewrite Hzz, Hzero in B by lia. done. }
  unfold add_masks. rewrite Epr. assert (Ho' : match o with None => ~ masked nl | Some m => masked nl /\ idx nl = n end) by (destruct o; tauto).
  destruct (add_finish o n [] nl [] f fs [] [clean nl] s1 Ho' Hnone Hnl Hup0 (Hup1 _ (Forall2_same_refl _)) Hmk0) as (gs & nl' & s' & -> & F1 & F2 & F3 & F4 & F5); try done.
  { intros y. rewrite list_elem_of_singleton. split; [by left|]. by intros [|?%elem_of_nil]. }
  { by intros y ?%elem_of_nil. }
  assert (Ei : forall A (g : leaf -> A), (forall y, g (clean y) = g y) -> g nl' = g nl) by (intros A g Hg; rewrite <- (Hg nl'), F4; apply Hg).
  assert (Hroutes : forall y, y ∈ routes (plug gs (Leaf [nl'])) <-> y = clean nl \/ y ∈ routes top).
  { intros y. rewrite (elem_plug_same _ _ _ _ F2), <- Hp, elem_plug. change (routes (Leaf [nl'])) with [clean nl']. rewrite F4, list_elem_of_singleton. split.
    - intros [H|(g & [->|Hg]%elem_of_cons & Hy)]; [by left|right; left; cbn [f fr_sib] in Hy; by rewrite Esib in Hy|right; right; by exists g].
    - intros [H|[H|(g & Hg & Hy)]]; [by left|right; exists f; split; [left|cbn [f fr_sib]; by rewrite Esib]|right; exists g; split; [by right|done]]. }
  do 2 eexists. split; [reflexivity|]. split; [done|]. split_and!.
  - destruct Hrt as (Htop & Hrt). pose proof Htop as (mk0 & l0 & r1 & Etop). rewrite Etop in Hp. destruct (plug_top fs x (up1 f x) lo mk0 l0 r1 P1 Hp) as (l2 & r2 & E2).
    eapply (rt_ok_add (f :: fs) gs x [nl'] (clean nl) top mk0 l2 r2); try done.
    + cbn [map]. rewrite F4. by apply Hup1.
    + cbn [map]. by rewrite F4.
    + rewrite <- (same_hole _ _ F2). cbn [hole_b]. apply rt_chain_static. cbn [map]. rewrite F4. split; [|by intros y ->%list_elem_of_singleton]. split_and!; [done| | |repeat constructor|by intros y [= <-]].
      * intros y y' ->%list_elem_of_singleton ->%list_elem_of_singleton. apply agree_refl.
      * intros y ->%list_elem_of_singleton. by apply clean_ok.
  - intros y Hy Ey. destruct (Hfresh y Hy) as [_ H]. rewrite <- Hkey. apply H. lia.
  - exists (clean nl). split_and!; done.
Qed.

(** The leaf of the mask, as [rn_addroute] gets it *)
Lemma addroute_mask v netmask n s top : rn_off top = off -> masks_ok s -> route_arg v netmask n ->
  exists o s', match netmask with
    | None => Ret (true, None, s)
    | Some N => let! (x, s) := rn_addmask N false (rn_off top) s in Ret (match x with Some _ => true | None => false end, x, s)
    end = Ret (true, o, s') /\ masks_ok s' /\ match netmask, o with None, None => True | Some _, Some x => mask_result KL n x | _, _ => False end.
Proof.
  intros Eo Hs [_ _ Hm _]. destruct netmask as [N|]; [|by exists None, s]. rewrite Eo. destruct (rn_addmask_ok off klen KL Hrange N n s Hs Hm) as (x & s' & -> & H1 & H2).
  exists (Some x), s'. done.
Qed.

Lemma rn_addroute_ok v netmask n id top s : rt_ok off klen KL Hrange top -> masks_ok s -> route_arg v netmask n ->
  exists res s', rn_addroute v netmask id top s = Ret (res, s') /\ masks_ok s' /\ added top id v n res.
Proof.
  intros Hrt Hs Ha. pose proof Hrt as ((mk & l & r & Etop) & Hwf & _). assert (Eo : rn_off top = off) by (rewrite Etop; by apply (top_off off)).
  destruct (addroute_mask v netmask n s top Eo Hs Ha) as (o & s1 & E1 & Hs1 & Ho). pose proof (route_leaf_ok id v netmask n o Ha Ho) as Hleaf. cbv zeta in Hleaf. destruct Hleaf as (L1 & L2 & L3 & L4).
  unfold rn_addroute. rewrite E1. cbn [obind negb].
  assert (Hins : exists res, rn_insert v id top = Ret res /\ insert_ok v id top res).
  { rewrite Etop. apply (rn_insert_ok (K := rt_kind)); [cbn [k_lo rt_kind RadixMatch.rt_kind]; by rewrite <- Etop| |apply Ha|cbn [k_lo k_hi rt_kind RadixMatch.rt_kind]; rewrite (ra_len _ _ _ Ha); lia].
    cbn [k_lo rt_kind RadixMatch.rt_kind]. rewrite Z.mul_comm. apply Z.mod_mul. lia. }
  destruct Hins as ([[dup c] fs] & -> & Hins). cbn [obind].
  set (o' := match o with Some x => Some (lf_key x) | None => None end).
  assert (Hput : match o with Some x => (new_leaf id v) <| lf_mask := o' |> <| lf_b := lf_b x |> <| lf_flags := setb (lf_flags (new_leaf id v)) (Z.land (lf_flags x) RNF_NORMAL) |> | None => new_leaf id v end = route_leaf id v o) by (by destruct o).
  assert (Hmk : lf_mklist (route_leaf id v o) = None) by (by destruct o). assert (Hkey : lf_key (route_leaf id v o) = v) by (by destruct o). assert (Hid : lf_id (route_leaf id v o) = id) by (by destruct o).
  assert (Hdup : forall c, dup_place o' (match o with Some x => lf_b x | None => 0 end) c [] = dup_place o' (-1 - n) c []).
  { intros c0. destruct netmask, o as [x|]; try done; [by rewrite (proj1 Ho)|by destruct c0]. }
  assert (Hadd : forall dup fr nl bk fs s, add_masks dup o' (match o with Some x => -1 - lf_b x | None => 0 end) fr nl bk fs s = add_masks dup o' n fr nl bk fs s).
  { intros. destruct netmask, o as [x|]; try done; rewrite (proj1 Ho); f_equal; lia. }
  assert (Hhost : match netmask with None => n = hi + 1 | Some _ => index_ok n end).
  { destruct Ha as [_ _ Hm _]. destruct netmask as [N|]; [exact (ma_n _ _ _ _ _ Hm)|done]. }
  destruct dup.
  - destruct Hins as [E Hag]. rewrite (ra_len _ _ _ Ha) in Hag. cbn [k_lo rt_kind RadixMatch.rt_kind] in Hag.
    assert (Ho' : match o' with None => n = hi + 1 /\ ~ masked (route_leaf id v o) | Some m => (m = mask_of n /\ index_ok n) /\ masked (route_leaf id v o) end).
    { destruct netmask as [N|], o as [x|]; try done. destruct Ho as (_ & Hk & _). done. }
    pose proof (add_dup v n o' (route_leaf id v o) top s1 c fs Hrt Hs1 (ra_key _ _ _ Ha) L1 L2 L3 Hkey Hmk Ho' E Hag id Hid) as H.
    rewrite Hdup. destruct (dup_place o' (-1 - n) c []) as [[front back]|]; [|by exists None, s1].
    rewrite Hput, Hadd. destruct H as (t & s' & -> & H1 & H2). by exists (Some t), s'.
  - destruct Hins as (d & x & fs' & -> & -> & Hp & Hpl). rewrite Hput, Hadd.
    destruct (add_new v n o' (route_leaf id v o) top s1 d x fs') as (t & s' & -> & H1 & H2); try done; [rewrite (ra_len _ _ _ Ha); lia|by destruct netmask, o|exact (ra_zero _ _ _ Ha)|].
    exists (Some t), s'. split; [done|]. split; [done|]. by rewrite Hid in H2.
Qed.

(** ** The empty table *)

Lemma test_ones i : 0 <= i < 8 * KL -> test_bit (repeat 255 (Z.to_nat KL)) i = true.
Proof.
  intros Hi. rewrite test_bit_spec, byte_repeat by (Z.to_euclidean_division_equations; lia). change 255 with (Z.ones 8). apply Z.ones_spec_low. Z.to_euclidean_division_equations. lia.
Qed.
Lemma ones_ok : key_ok (repeat 255 (Z.to_nat KL)).
Proof. by apply (mask_leaf_ok off klen KL Hrange (mkLeaf 0 (repeat 255 (Z.to_nat KL)) None 0 0 None)), ml_ones. Qed.
Lemma zeros_ok : key_ok (zmask KL).
Proof. intros i. rewrite byte_zmask. lia. Qed.

Lemma rn_init_ok : masks_ok (rn_init KL []).
Proof.
  split; cbn [rn_init max_keylen addmask_key last_zeroed rn_masktop rn_fail]; try done.
  - apply zlen_repeat. lia.
  - exact zeros_ok.
  - split; [lia|]. intros j _. apply byte_zmask.
  - by do 2 eexists.
  - cbn [rn_inithead wf]. split; [split; [lia|cbn [k_lo k_hi mask_kind]; lia]|]. split; [|split; [|split; [done|split]]].
    + split; intros x ->%list_elem_of_singleton; [apply test_zmask|apply test_ones; lia].
    + intros x y Hx Hy i Hi. cbn [k_lo mask_kind] in Hi. lia.
    + eexists. split; [reflexivity|]. by apply ml_zero.
    + eexists. split; [reflexivity|]. by apply ml_ones.
  - eexists. split; [left|done].
Qed.

Lemma root_chain pb id key bit : key_ok key -> (forall i, lo <= i < hi -> test_bit key i = bit) -> rt_chain pb [root_leaf id key lo].
Proof.
  intros Hk Hb. assert (Hi : idx (root_leaf id key lo) = hi + 1) by done. split_and!; [done| | |repeat constructor|intros x [= <-]; lia|by intros x ->%list_elem_of_singleton].
  - intros x y ->%list_elem_of_singleton ->%list_elem_of_singleton. apply agree_refl.
  - intros x ->%list_elem_of_singleton. split_and!; [done|by eapply leaf_root|lia].
Qed.

Lemma rn_inithead_ok id0 id1 : rt_ok off klen KL Hrange (rn_inithead (zmask KL) (repeat 255 (Z.to_nat KL)) lo id0 id1).
Proof.
  assert (H0 : forall i, lo <= i < hi -> test_bit (zmask KL) i = false) by (intros; apply test_zmask).
  assert (H1 : forall i, lo <= i < hi -> test_bit (repeat 255 (Z.to_nat KL)) i = true) by (intros; apply test_ones; lia). split_and!.
  - by do 3 eexists.
  - cbn [rn_inithead wf]. split; [split; [lia|cbn [k_lo k_hi rt_kind RadixMatch.rt_kind]; lia]|]. split; [|split; [|split; [|split]]].
    + split; intros x ->%list_elem_of_singleton; [apply H0; lia|apply H1; lia].
    + intros x y Hx Hy i Hi. cbn [k_lo rt_kind RadixMatch.rt_kind] in Hi. lia.
    + split_and!; [constructor|by intros m ?%elem_of_nil|]. intros x Hx [Hm _]. apply elem_of_app in Hx as [Hx|Hx]; apply list_elem_of_singleton in Hx; subst x; by destruct Hm.
    + eapply root_chain; [exact zeros_ok|exact H0].
    + eapply root_chain; [exact ones_ok|exact H1].
  - eexists. split; [left|]. split; [done|exact H0].
Qed.

End Routes.

(** ** A table of routes *)

(** A request: the address of the caller's nodes, the destination, the mask and its length *)
Record rt_request := mkRequest { rq_id : Z; rq_dst : list Z; rq_mask : option (list Z); rq_n : Z }.

Fixpoint add_all (l : list rt_request) (top : tree) (s : rnst) : outcome (tree * rnst) :=
  match l with
  | [] => Ret (top, s)
  | q :: l => let! (t, s) := rn_addroute (rq_dst q) (rq_mask q) (rq_id q) top s in add_all l (match t with Some t => t | None => top end) s
  end.

(** The abstract table: a set of prefixes.  A prefix that is there is not entered again. *)
Record prefix := mkPrefix { pf_id : Z; pf_key : list Z; pf_n : Z; pf_root : bool }.
Definition pf_same (off klen : Z) (v w : list Z) : bool := forallb (fun j => byte v j =? byte w j) (seqZ off (klen - off)).
Definition pf_add (off klen : Z) (T : list prefix) (q : rt_request) : list prefix :=
  if existsb (fun p => (pf_n p =? rq_n q) && pf_same off klen (pf_key p) (rq_dst q)) T then T else mkPrefix (rq_id q) (rq_dst q) (rq_n q) false :: T.
Definition pf_covers (off klen : Z) (p : prefix) (v : list Z) : Prop := agree (8 * off) (pf_key p) v (Z.min (pf_n p) (8 * klen)).

(** The answer to a lookup: a prefix that covers the address, and none that covers it is
    longer; or nothing, or a root of the tree, when none covers it. *)
Definition pf_answer (off klen : Z) (v : list Z) (T : list prefix) (r : option Z) : Prop :=
  match r with
  | Some id => exists p, p ∈ T /\ pf_id p = id /\
      if pf_root p then forall q, q ∈ T -> pf_root q = false -> ~ pf_covers off klen q v
      else pf_covers off klen p v /\ forall q, q ∈ T -> pf_root q = false -> pf_covers off klen q v -> pf_n q <= pf_n p
  | None => forall q, q ∈ T -> pf_root q = false -> ~ pf_covers off klen q v
  end.

Section Table.
Context (off klen KL : Z) (Hrange : 1 <= off < klen /\ klen <= KL < 255).
#[local] Abbreviation lo := (8 * off).
#[local] Abbreviation hi := (8 * klen).

Definition prefix_of (x : leaf) : prefix := mkPrefix (lf_id x) (lf_key x) (idx klen x) (is_root x).
Definition request_ok (q : rt_request) : Prop := route_arg off klen KL (rq_dst q) (rq_mask q) (rq_n q).
Definition table_is (top : tree) (T : list prefix) : Prop := forall p, p ∈ T <-> exists x, x ∈ routes top /\ p = prefix_of x.

Lemma pf_same_agree v w : key_ok v -> key_ok w -> pf_same off klen v w = true <-> agree lo v w hi.
Proof.
  intros Hv Hw. unfold pf_same. rewrite List.forallb_forall, <- (agree_bytes off klen) by (done || lia). split.
  - intros H j Hj. apply Z.eqb_eq, H, list_elem_of_In, elem_of_seqZ. lia.
  - intros H j Hj. apply list_elem_of_In, elem_of_seqZ in Hj. apply Z.eqb_eq, H. lia.
Qed.

Lemma table_add top T q res : rt_ok off klen KL Hrange top -> request_ok q -> table_is top T -> added off klen KL Hrange top (rq_id q) (rq_dst q) (rq_n q) res ->
  table_is (match res with Some t => t | None => top end) (pf_add off klen T q).
Proof.
  intros (_ & Hwf & _) Hq HT Hadd. unfold pf_add. assert (Hkey : forall x, x ∈ routes top -> key_ok (lf_key x)) by (intros x; by apply (wf_keys (K := RadixMatch.rt_kind off klen KL Hrange) top (-1))).
  assert (Hex : existsb (fun p => (pf_n p =? rq_n q) && pf_same off klen (pf_key p) (rq_dst q)) T = true <-> exists x, x ∈ routes top /\ idx klen x = rq_n q /\ agree lo (lf_key x) (rq_dst q) hi).
  { rewrite List.existsb_exists. split.
    - intros (p & Hp & [E1%Z.eqb_eq E2]%andb_true_iff). apply list_elem_of_In, HT in Hp as (x & Hx & ->). exists x. split_and!; [done|done|]. apply pf_same_agree; [by apply Hkey|apply Hq|done].
    - intros (x & Hx & E1 & E2). exists (prefix_of x). split; [apply list_elem_of_In, HT; by exists x|]. apply andb_true_iff. split; [by apply Z.eqb_eq|]. apply pf_same_agree; [by apply Hkey|apply Hq|done]. }
  destruct res as [t|]; cbn [added] in Hadd.
  - destruct Hadd as (_ & Hno & nl & N1 & N2 & N3 & N4 & Hr). destruct (existsb _ T); [destruct (proj1 Hex eq_refl) as (x & Hx & E1 & E2); by destruct (Hno x Hx E1)|].
    intros p. rewrite elem_of_cons, (HT p). split.
    + intros [->|(x & Hx & ->)]; [exists nl; split; [apply Hr; by left|]|exists x; split; [apply Hr; by right|done]]. unfold prefix_of. by rewrite N1, N2, N3, N4.
    + intros (x & [->|Hx]%Hr & ->); [left; unfold prefix_of; by rewrite N1, N2, N3, N4|right; by exists x].
  - rewrite (proj2 Hex) by done. done.
Qed.

Lemma add_all_ok l : Forall request_ok l -> forall top s T, rt_ok off klen KL Hrange top -> masks_ok off klen KL Hrange s -> table_is top T ->
  exists top' s', add_all l top s = Ret (top', s') /\ rt_ok off klen KL Hrange top' /\ masks_ok off klen KL Hrange s' /\ table_is top' (fold_left (pf_add off klen) l T).
Proof.
  induction 1 as [|q l Hq _ IH]; intros top s T Hrt Hs HT; cbn [add_all fold_left]; [by exists top, s|].
  destruct (rn_addroute_ok off klen KL Hrange _ _ _ (rq_id q) top s Hrt Hs Hq) as (res & s1 & -> & Hs1 & Hadd). cbn [obind]. apply IH; [|done|by apply table_add].
  destruct res as [t|]; [by destruct Hadd|done].
Qed.

Lemma longest_answer v top T r : table_is top T -> longest off klen v (routes top) r -> pf_answer off klen v T r.
Proof.
  intros HT. destruct r as [id|]; cbn [longest pf_answer].
  - intros (x & Hx & Hid & H). exists (prefix_of x). split; [apply HT; by exists x|]. split; [done|]. cbn [prefix_of pf_root pf_n]. destruct (is_root x).
    + intros q (y & Hy & ->)%HT. by apply H.
    + destruct H as [H1 H2]. split; [exact H1|]. intros q (y & Hy & ->)%HT. by apply H2.
  - intros H q (y & Hy & ->)%HT. by apply H.
Qed.

(** The empty table: the two roots *)
Definition no_routes (id0 id1 : Z) : list prefix := [mkPrefix id0 (repeat 0 (Z.to_nat KL)) (hi + 1) true; mkPrefix id1 (repeat 255 (Z.to_nat KL)) (hi + 1) true].
Lemma no_routes_ok id0 id1 : table_is (rn_inithead (zmask KL) (repeat 255 (Z.to_nat KL)) lo id0 id1) (no_routes id0 id1).
Proof.
  intros p. unfold no_routes. rewrite !elem_of_cons, elem_of_nil. split.
  - intros [->|[->|[]]]; [exists (root_leaf id0 (zmask KL) lo); split; [left|done]|exists (root_leaf id1 (repeat 255 (Z.to_nat KL)) lo); split; [right; left|done]].
  - intros (x & Hx & ->). cbn in Hx. rewrite !elem_of_cons, elem_of_nil in Hx. destruct Hx as [->|[->|[]]]; [by left|right; by left].
Qed.
End Table.
End RadixOk.
