(* ===== verification/Routing.v ===== *)
(** Routing lookups: what [rn_addroute] and [rn_match] do to a table of routes, with a table of
    Internet routes as the example. *)
From S2P Require Import Prelude Radix RadixTree RadixMatch RadixMask RadixOk.
Import Radix RadixTree RadixMatch RadixMask RadixOk.

Module Routing.

(** ** Deciding the conditions on requests *)

Definition bytesb (l : list Z) : bool := forallb (fun x => (0 <=? x) && (x <? 256)) l.
Definition zero_behind (off klen : Z) (v : list Z) (n : Z) : bool := forallb (fun i => (i <? n) || negb (test_bit v i)) (seqZ (8 * off) (8 * klen - 8 * off)).
Definition mask_argb (off klen KL : Z) (N : list Z) (n : Z) : bool :=
  let m0 := Z.min (byte N 0) KL in
  bytesb N && (byte N 0 <=? zlen N) && ((n =? 0) || ((8 * off <? n) && (n <=? 8 * klen))) && (n <=? 8 * m0) &&
  forallb (fun i => Bool.eqb (test_bit N i) (i <? n)) (seqZ (8 * off) (8 * m0 - 8 * off)).
Definition route_argb (off klen KL : Z) (v : list Z) (netmask : option (list Z)) (n : Z) : bool :=
  bytesb v && (byte v 0 =? klen) && (match netmask with None => n =? 8 * klen + 1 | Some N => mask_argb off klen KL N n end) && zero_behind off klen v n.
Definition not_onesb (off klen : Z) (v : list Z) : bool := existsb (fun i => negb (test_bit v i)) (seqZ (8 * off) (8 * klen - 8 * off)).

Lemma bytesb_ok l : bytesb l = true -> key_ok l.
Proof.
  intros H i. unfold byte. destruct (nth_in_or_default (Z.to_nat i) l 0) as [Hin| ->]; [|lia].
  unfold bytesb in H. rewrite List.forallb_forall in H. specialize (H _ Hin). rewrite andb_true_iff, Z.leb_le, Z.ltb_lt in H. done.
Qed.
Lemma zero_behind_ok off klen v n : zero_behind off klen v n = true -> forall i, n <= i < 8 * klen -> 8 * off <= i -> test_bit v i = false.
Proof.
  intros H i Hi Ho. unfold zero_behind in H. rewrite List.forallb_forall in H. specialize (H i ltac:(apply list_elem_of_In, elem_of_seqZ; lia)). cbv beta in H.
  destruct (Z.ltb_spec i n); [lia|]. cbn [orb] in H. by apply negb_true_iff in H.
Qed.
Lemma mask_argb_ok off klen KL N n : mask_argb off klen KL N n = true -> mask_arg off klen KL N n.
Proof.
  unfold mask_argb. rewrite !andb_true_iff, orb_true_iff, andb_true_iff, !Z.leb_le, Z.eqb_eq, Z.ltb_lt, List.forallb_forall. intros ((((H1 & H2) & H3) & H4) & H5).
  split; [by apply bytesb_ok|done|tauto|done|]. intros i Hi. apply Bool.eqb_prop, H5, list_elem_of_In, elem_of_seqZ. lia.
Qed.
Lemma route_argb_ok off klen KL v netmask n : route_argb off klen KL v netmask n = true -> route_arg off klen KL v netmask n.
Proof.
  unfold route_argb. rewrite !andb_true_iff, Z.eqb_eq. intros (((H1 & H2) & H3) & H4). split; [by apply bytesb_ok|done| |by apply zero_behind_ok].
  destruct netmask; [by apply mask_argb_ok|by apply Z.eqb_eq].
Qed.
Lemma not_onesb_ok off klen v : not_onesb off klen v = true -> not_ones off klen v.
Proof.
  unfold not_onesb. rewrite List.existsb_exists. intros (i & Hi & H). apply list_elem_of_In, elem_of_seqZ in Hi. exists i. split; [lia|]. by apply negb_true_iff in H.
Qed.

(** ** The theorems *)

(** C24: A lookup in a tree of routes that satisfies the invariant returns (it does not panic),
    and what it returns is a longest match: a route whose destination agrees with the address in
    the bits of its mask, where no other route that does has a longer mask; it returns nothing,
    or one of the two roots of the tree, only when no route covers the address.  (The address of
    ones in all compared bits is the root's own, and is excepted.) *)
Theorem rn_match_longest off klen KL (Hrange : 1 <= off < klen /\ klen <= KL < 255) v top :
  rt_ok off klen KL Hrange top -> key_ok v -> byte v 0 = klen -> not_ones off klen v ->
  exists r, rn_match v top = Ret r /\ longest off klen v (routes top) r.
Proof. apply rn_match_ok. Qed.

(** Adding a route, with the mask of a prefix or as a host, returns; it refuses the route
    exactly when one with the same destination and mask is there, and otherwise the new tree
    satisfies the invariant and has the old routes and the new one and no others.  In either
    case the tree of masks and its buffer stay as the next call needs them. *)
Theorem rn_addroute_adds off klen KL (Hrange : 1 <= off < klen /\ klen <= KL < 255) v netmask n id top s :
  rt_ok off klen KL Hrange top -> masks_ok off klen KL Hrange s -> route_arg off klen KL v netmask n ->
  exists res s', rn_addroute v netmask id top s = Ret (res, s') /\ masks_ok off klen KL Hrange s' /\ added off klen KL Hrange top id v n res.
Proof. apply rn_addroute_ok. Qed.

(** C23: The routing table refines a set of prefixes: from the tree that [rn_inithead] makes and
    the globals of [rn_init], any sequence of requests with valid arguments runs, and then every
    lookup answers as the set of the prefixes that were entered does, with a longest prefix that
    covers the address. *)
Theorem routing_table off klen KL (Hrange : 1 <= off < klen /\ klen <= KL < 255) l id0 id1 : Forall (request_ok off klen KL) l ->
  exists top s, add_all l (rn_inithead (repeat 0 (Z.to_nat KL)) (repeat 255 (Z.to_nat KL)) (8 * off) id0 id1) (rn_init KL []) = Ret (top, s) /\
    forall v, key_ok v -> byte v 0 = klen -> not_ones off klen v ->
      exists r, rn_match v top = Ret r /\ pf_answer off klen v (fold_left (pf_add off klen) l (no_routes klen KL id0 id1)) r.
Proof.
  intros Hl. destruct (add_all_ok off klen KL Hrange l Hl _ _ _ (rn_inithead_ok off klen KL Hrange id0 id1) (rn_init_ok off klen KL Hrange) (no_routes_ok off klen KL id0 id1)) as (top & s & E & H1 & _ & H2).
  exists top, s. split; [exact E|]. intros v Hv Hlen Hno. destruct (rn_match_ok off klen KL Hrange v top H1 Hv Hlen Hno) as (r & Er & Hr).
  exists r. split; [done|]. by apply (longest_answer _ _ _ top).
Qed.

(** ** Internet routes: the address is in the bytes 4 to 7 of 16. *)

Definition sin (a b c d : Z) : list Z := [16; 2; 0; 0; a; b; c; d; 0; 0; 0; 0; 0; 0; 0; 0].
Lemma inet_range : 1 <= 4 < 16 /\ 16 <= 16 < 255.
Proof. lia. Qed.
Definition inet_routes : list rt_request :=
  [mkRequest 1 (sin 10 0 0 0) (Some [5; 0; 0; 0; 255]) 40; mkRequest 2 (sin 0 0 0 0) (Some [0]) 0; mkRequest 3 (sin 10 1 2 0) (Some [7; 0; 0; 0; 255; 255; 255]) 56;
   mkRequest 4 (sin 10 1 0 0) (Some [6; 0; 0; 0; 255; 255]) 48; mkRequest 5 (sin 10 1 2 3) None 129; mkRequest 6 (sin 192 168 4 0) (Some [7; 0; 0; 0; 255; 255; 252]) 54;
   mkRequest 7 (sin 10 0 0 0) (Some [5; 0; 0; 0; 255]) 40].
#[local] Abbreviation inet_zeros := (repeat 0 (Z.to_nat 16)).
#[local] Abbreviation inet_ones := (repeat 255 (Z.to_nat 16)).
#[local] Abbreviation inet_head := (rn_inithead inet_zeros inet_ones 32 (-3) (-4)).
Definition inet_table : tree := match add_all inet_routes inet_head (rn_init 16 []) with Ret (t, _) => t | _ => Leaf [] end.

Lemma inet_requests : Forall (request_ok 4 16 16) inet_routes.
Proof. repeat (apply List.Forall_cons; [apply route_argb_ok; vm_compute; reflexivity|]). constructor. Qed.
Lemma inet_table_ok : rt_ok 4 16 16 inet_range inet_table.
Proof.
  destruct (add_all_ok 4 16 16 inet_range inet_routes inet_requests _ _ _ (rn_inithead_ok 4 16 16 inet_range (-3) (-4)) (rn_init_ok 4 16 16 inet_range) (no_routes_ok 4 16 16 (-3) (-4))) as (top & s & E & H & _).
  unfold inet_table. change (zmask 16) with inet_zeros in E. change (8 * 4) with 32 in E. by rewrite E.
Qed.
Lemma inet_lookup : rn_match (sin 10 1 2 9) inet_table = Ret (Some 3).
Proof. vm_compute. reflexivity. Qed.

Definition inet_masks : rnst := match add_all inet_routes inet_head (rn_init 16 []) with Ret (_, s) => s | _ => rn_init 16 [] end.

(** The route with the given mask, behind the host route in its chain or not there *)
Example inet_exact : match rn_lookup (sin 10 1 0 0) (Some [6; 0; 0; 0; 255; 255]) inet_table inet_masks with Ret (Some 4, _) => True | _ => False end /\
  match rn_lookup (sin 10 1 2 3) (Some [5; 0; 0; 0; 255]) inet_table inet_masks with Ret (None, _) => True | _ => False end.
Proof. vm_compute. done. Qed.

Lemma rn_match_longest_witness : rn_match (sin 10 1 2 9) inet_table = Ret (Some 3) /\ longest 4 16 (sin 10 1 2 9) (routes inet_table) (Some 3).
Proof.
  split; [exact inet_lookup|].
  destruct (rn_match_longest 4 16 16 inet_range (sin 10 1 2 9) inet_table inet_table_ok (bytesb_ok (sin 10 1 2 9) eq_refl) eq_refl (not_onesb_ok 4 16 (sin 10 1 2 9) eq_refl)) as (r & E & H).
  rewrite inet_lookup in E. injection E as <-. exact H.
Defined.

Lemma rn_addroute_adds_witness : exists res s', rn_addroute (sin 10 0 0 0) (Some [5; 0; 0; 0; 255]) 1 inet_head (rn_init 16 []) = Ret (res, s') /\
  masks_ok 4 16 16 inet_range s' /\ added 4 16 16 inet_range inet_head 1 (sin 10 0 0 0) 40 res.
Proof.
  apply (rn_addroute_adds 4 16 16 inet_range); [apply (rn_inithead_ok 4 16 16 inet_range)|apply (rn_init_ok 4 16 16 inet_range)|apply route_argb_ok; vm_compute; reflexivity].
Defined.

Lemma routing_table_witness : exists top s, add_all inet_routes inet_head (rn_init 16 []) = Ret (top, s) /\
  forall v, key_ok v -> byte v 0 = 16 -> not_ones 4 16 v -> exists r, rn_match v top = Ret r /\ pf_answer 4 16 v (fold_left (pf_add 4 16) inet_routes (no_routes 16 16 (-3) (-4))) r.
Proof. exact (routing_table 4 16 16 inet_range inet_routes (-3) (-4) inet_requests). Defined.

End Routing.
