(* ===== verification/Icmp.v ===== *)
(** ICMP (src/sys/netinet/ip_icmp.c, ip_icmp.h): error messages about packets, and the
    processing and reflection of received messages.

    A packet is its IP header in host order and the chain with the bytes; the header in the
    chain is stale where the record has changed.  The calls of rip_input, of the protocols'
    ctlinput and of rtredirect are lists. *)
From S2P Require Import Prelude Mbuf Cksum TcpVar TcpHdr IpHdr IpOutput IpInput.
Import Mbuf Cksum TcpHdr IpHdr IpOutput IpInput.

Module Icmp.

Definition IPPROTO_ICMP : Z := 1.
Definition IPPROTO_TCP : Z := 6.
Definition IPPROTO_UDP : Z := 17.
Definition ICMP_ECHOREPLY : Z := 0.
Definition ICMP_ECHO : Z := 8.
Definition ICMP_ROUTERADVERT : Z := 9.
Definition ICMP_ROUTERSOLICIT : Z := 10.
Definition ICMP_TSTAMP : Z := 13.
Definition ICMP_TSTAMPREPLY : Z := 14.
Definition ICMP_IREQ : Z := 15.
Definition ICMP_IREQREPLY : Z := 16.
Definition ICMP_MASKREQ : Z := 17.
Definition ICMP_MASKREPLY : Z := 18.
Definition ICMP_MAXTYPE : Z := 18.
Definition ICMP_MINLEN : Z := 8.
Definition ICMP_TSLEN : Z := 20.
Definition ICMP_MASKLEN : Z := 12.
Definition ICMP_ADVLENMIN : Z := 36.
Definition PRC_QUENCH : Z := 4.
Definition PRC_MSGSIZE : Z := 5.
Definition PRC_UNREACH_NET : Z := 8.
Definition PRC_UNREACH_HOST : Z := 9.
Definition PRC_REDIRECT_HOST : Z := 15.
Definition PRC_TIMXCEED_INTRANS : Z := 18.
Definition PRC_PARAMPROB : Z := 20.
Definition IFF_POINTOPOINT : Z := 16.
Definition IPOPT_SECURITY : Z := 130.

Definition ICMP_INFOTYPE (t : Z) : bool :=
  (t =? ICMP_ECHOREPLY) || (t =? ICMP_ECHO) || (t =? ICMP_ROUTERADVERT) || (t =? ICMP_ROUTERSOLICIT) || (t =? ICMP_TSTAMP) ||
  (t =? ICMP_TSTAMPREPLY) || (t =? ICMP_IREQ) || (t =? ICMP_IREQREPLY) || (t =? ICMP_MASKREQ) || (t =? ICMP_MASKREPLY).

(** [ICMP_ADVLEN] of a message *)
Definition ICMP_ADVLEN (b : list Z) : Z := 8 + Z.shiftl (get b 8 mod 16) 2 + 8.

(** What icmp_input reads of an interface address for a mask request. *)
Record mask_ia := mkMaskIa { mi_sockmask : Z; mi_ifp : Z; mi_broadaddr : Z; mi_dstaddr : Z }.

Record icenv := mkIcenv {
  ce_in : inenv;
  icmpmaskrepl : bool;
  mask_ifaof : Z -> Z -> option mask_ia   (* ifaof_ifpforaddr *)
}.

(** A call of pr_ctlinput, of one protocol or of all (pfctlinput): the command, the foreign
    address and the returned header. *)
Record ctl_call := mkCtl { cl_proto : option Z; cl_cmd : Z; cl_faddr : Z; cl_ip : list Z }.
Record redirect := mkRedirect { rd_dst : Z; rd_gateway : Z; rd_src : Z }.

Record icst := mkIc {
  ic_ip : ipist;
  ic_raw : list (ip * chain);       (* rip_input, last first *)
  ic_ctl : list ctl_call;           (* last first *)
  ic_redirect : list redirect       (* rtredirect, last first *)
}.
Definition eta_ic (r : icst) : icst := mkIc (ic_ip r) (ic_raw r) (ic_ctl r) (ic_redirect r).
#[global] Instance set_ic_ip : Setter ic_ip := ltac:(mk_setter eta_ic).
#[global] Instance set_ic_raw : Setter ic_raw := ltac:(mk_setter eta_ic).
#[global] Instance set_ic_ctl : Setter ic_ctl := ltac:(mk_setter eta_ic).
#[global] Instance set_ic_redirect : Setter ic_redirect := ltac:(mk_setter eta_ic).

(** The first mbuf after a change of its bytes *)
Definition edit (f : list Z -> outcome (list Z)) (m : chain) : outcome chain :=
  match m with
  | m1 :: ms => let! b := f (m_bytes m1) in Ret (m1 <| m_bytes := b |> :: ms)
  | [] => Panic "icmp: null mbuf"
  end.
(** [m_data += hlen] *)
Definition skip_ip (hlen : Z) (m : chain) : chain :=
  match m with m1 :: ms => m1 <| m_off := m_off m1 + hlen |> <| m_bytes := zdrop hlen (m_bytes m1) |> :: ms | [] => [] end.

(** ** Sending *)

(** [icmp_send]; the IP options are in an mbuf: the first hop and the options. *)
Definition icmp_send (e : inenv) (s : ipist) (h : ip) (m : chain) (opts : option mbuf) : outcome ipist :=
  let hlen := hlen_of h in
  let! m := edit (poke (hlen + 2) [0; 0]) m in
  let ck := in_cksum (skip_ip hlen m) (ip_len h - hlen) in
  let! m := edit (poke (hlen + 2) (le16 ck)) m in
  let opt := match opts with Some o => Some (mkIpoption (rd32 (m_bytes o) 0) (zdrop 4 (m_bytes o))) | None => None end in
  let! (_, o, _) := ip_output (ie_out e) (ii_out s) h m opt None 0 None in
  Ret (s <| ii_out := o |>).

(** The options of a reply: the loop over the options [cp] of the packet. *)
Fixpoint reply_opts (fuel : nat) (cp : list Z) (cnt : Z) : outcome (list Z) :=
  match fuel with
  | O => OutOfFuel
  | S fuel =>
      if cnt >? 0 then
        let opt := get cp 0 in
        if opt =? IPOPT_EOL then Ret []
        else
          let len := if opt =? IPOPT_NOP then 1 else get cp 1 in
          if (len <=? 0) || (len >? cnt) then Ret []
          else
            let! l := reply_opts fuel (zdrop len cp) (cnt - len) in
            Ret (if (opt =? IPOPT_RR) || (opt =? IPOPT_TS) || (opt =? IPOPT_SECURITY) then ztake len cp ++ l else l)
      else Ret []
  end.

(** The mbuf of the options, or none when there is no memory *)
Definition reflect_opts (s : ipist) (h : ip) (after : list Z) (optlen : Z) : outcome (ipist * option mbuf) :=
  let '(p, r) := ip_srcroute (ii_pool s) (ii_src s) in
  let '(r, p) := match r with
                 | Some o => (Some o, p)
                 | None => match m_gethdr p MT_HEADER with
                           | (Some o, p) => (Some (o <| m_bytes := [0; 0; 0; 0] |>), p)
                           | (None, p) => (None, p)
                           end
                 end in
  let s := with_pool p s in
  match r with
  | None => Ret (s, None)
  | Some o =>
      let! l := reply_opts (S (Z.to_nat optlen)) (ip_opts h ++ after) optlen in
      let b := m_bytes o ++ l in
      let pad := if negb (zlen b mod 4 =? 0) then repeat IPOPT_EOL (Z.to_nat (4 - zlen b mod 4)) else [] in
      Ret (s, Some (o <| m_bytes := b ++ pad |>))
  end.

(** The source of a reply to a packet for [t] *)
Definition reflect_src (e : inenv) (t rcvif : Z) : outcome Z :=
  match List.find (fun ia => (t =? ia_addr ia) || (hasf (if_flags (ie_out e) (ia_ifp ia)) IFF_BROADCAST && (t =? ia_broadaddr ia))) (ie_ifaddr e) with
  | Some ia => Ret (ia_addr ia)
  | None =>
      match ifaof_ifpforaddr e t rcvif with
      | Some a => Ret a
      | None => match ie_ifaddr e with ia :: _ => Ret (ia_addr ia) | [] => Panic "icmp_reflect: no address" end
      end
  end.

(** [icmp_reflect] *)
Definition icmp_reflect (e : inenv) (s : ipist) (h : ip) (m : chain) : outcome ipist :=
  if negb (in_canforward (ip_src h)) && negb (Z.land (ip_src h) 4278190080 =? Z.shiftl 127 24)
  then Ret (with_pool (m_freem (ii_pool s) m) s)
  else
    match m with
    | [] => Panic "icmp_reflect: null mbuf"
    | m1 :: ms =>
        let optlen := hlen_of h - sizeof_ip in
        let t := ip_dst h in
        let h := h <| ip_dst := ip_src h |> in
        let! a := reflect_src e t (m_rcvif m1) in
        let h := h <| ip_src := a |> in
        let clear m1 := m1 <| m_flags := clrb (m_flags m1) (Z.lor M_BCAST M_MCAST) |> in
        if optlen >? 0 then
          let! (s, opts) := reflect_opts s h (zdrop (hlen_of h) (m_bytes m1)) optlen in
          let h := h <| ip_len := s16 (ip_len h - optlen) |> <| ip_hl := 5 |> <| ip_opts := [] |> in
          let m1 := m1 <| m_bytes := ztake sizeof_ip (m_bytes m1) ++ zdrop (sizeof_ip + optlen) (m_bytes m1) |> in
          let m1 := if hasf (m_flags m1) M_PKTHDR then m1 <| m_pktlen := m_pktlen m1 - optlen |> else m1 in
          let! s := icmp_send e s h (clear m1 :: ms) opts in
          Ret (match opts with Some o => with_pool (m_free (ii_pool s) o) s | None => s end)
        else icmp_send e s h (clear m1 :: ms) None
    end.

(** ** Errors *)

(** The word behind the checksum, and the code *)
Definition error_word (e : inenv) (type code dest : Z) (destifp : option Z) : list Z * Z :=
  if type =? ICMP_REDIRECT then (be32 dest, code)
  else if type =? ICMP_PARAMPROB then ([u8 code; 0; 0; 0], 0)
  else match destifp with
       | Some ifp => if (type =? ICMP_UNREACH) && (code =? ICMP_UNREACH_NEEDFRAG) then ([0; 0] ++ be16 (u16 (if_mtu (ie_out e) ifp)), code) else ([0; 0; 0; 0], code)
       | None => ([0; 0; 0; 0], code)
       end.

(** Should the packet be answered with an error? *)
Definition error_refused (h : ip) (n1 : mbuf) (type : Z) : bool :=
  negb (clrb (ip_off h) (Z.lor IP_MF IP_DF) =? 0) ||
  ((ip_p h =? IPPROTO_ICMP) && negb (type =? ICMP_REDIRECT) && (m_len n1 >=? hlen_of h + ICMP_MINLEN) &&
   negb (ICMP_INFOTYPE (peek (m_bytes n1) (hlen_of h)))) ||
  hasf (m_flags n1) (Z.lor M_BCAST M_MCAST).

(** The returned part of the packet: its header with ip_len restored, and eight bytes.  They
    are read behind the header in the first mbuf. *)
Definition quote (h : ip) (n1 : mbuf) (icmplen : Z) : outcome (list Z) :=
  let b := host_ip h ++ zdrop (zlen (host_ip h)) (m_bytes n1) in
  if zlen b <? icmplen then Panic "icmp_error: read behind the mbuf"
  else poke 2 (be16 (u16 (ip_len h + hlen_of h))) (ztake icmplen b).

(** The message with its header, in a new mbuf *)
Definition error_packet (e : inenv) (h : ip) (n1 m : mbuf) (type code dest : Z) (destifp : option Z) : outcome (ip * mbuf) :=
  let icmplen := hlen_of h + cmin 8 (ip_len h) in
  let m := MH_ALIGN m (icmplen + ICMP_MINLEN) in
  if u32 type >? ICMP_MAXTYPE then Panic "icmp_error"
  else
    let '(word, code) := error_word e type code dest destifp in
    let! q := quote h n1 icmplen in
    if m_off m - sizeof_ip <? sizeof_pkthdr then Panic "icmp len"
    else
      let len := icmplen + ICMP_MINLEN + sizeof_ip in
      let nip := h <| ip_len := s16 len |> <| ip_hl := 5 |> <| ip_p := IPPROTO_ICMP |> <| ip_tos := 0 |> <| ip_opts := [] |> in
      Ret (nip, m <| m_off := m_off m - sizeof_ip |> <| m_bytes := host_ip nip ++ [type; u8 code; 0; 0] ++ word ++ q |>
                  <| m_pktlen := len |> <| m_rcvif := m_rcvif n1 |>).

(** [icmp_error] *)
Definition icmp_error (e : inenv) (s : ipist) (h : ip) (n : chain) (type code dest : Z) (destifp : option Z) : outcome ipist :=
  match n with
  | [] => Panic "icmp_error: null mbuf"
  | n1 :: _ =>
      let free s := with_pool (m_freem (ii_pool s) n) s in
      if error_refused h n1 type then Ret (free s)
      else
        match m_gethdr (ii_pool s) MT_HEADER with
        | (None, p) => Ret (free (with_pool p s))
        | (Some m, p) =>
            let! (nip, m) := error_packet e h n1 m type code dest destifp in
            let! s := icmp_reflect e (with_pool p s) nip [m] in
            Ret (free s)
        end
  end.

(** ** Input *)

(** The command for an unreachable destination *)
Definition unreach_cmd (code : Z) : option Z :=
  if (code <=? 3) || (code =? 5) then Some (code + PRC_UNREACH_NET)
  else if code =? 4 then Some PRC_MSGSIZE
  else if (code =? 6) || (code =? 9) || (code =? 11) then Some PRC_UNREACH_NET
  else if (code =? 7) || (code =? 8) || (code =? 10) || (code =? 12) then Some PRC_UNREACH_HOST
  else None.

(** The protocols of inetsw with a ctlinput *)
Definition pr_ctlinput (p : Z) : bool := (p =? IPPROTO_UDP) || (p =? IPPROTO_TCP).

Definition ic_free (s : icst) (m : chain) : icst := s <| ic_ip := with_pool (m_freem (ii_pool (ic_ip s)) m) (ic_ip s) |>.
Definition rip_input (s : icst) (h : ip) (m : chain) : icst := s <| ic_raw := (h, m) :: ic_raw s |>.

(** Is the returned header missing? *)
Definition bad_advice (icmplen : Z) (b : list Z) : bool :=
  (icmplen <? ICMP_ADVLENMIN) || (icmplen <? ICMP_ADVLEN b) || (get b 8 mod 16 <? 5).

(** The label deliver: tell the protocol of the returned header, with its ip_len in host
    order. *)
Definition icmp_deliver (s : icst) (h : ip) (m : chain) (b : list Z) (hlen icmplen cmd : Z) : outcome icst :=
  if bad_advice icmplen b then Ret (ic_free s m)
  else
    let! m := edit (poke (hlen + 10) [get b 11; get b 10]) m in
    let b := zdrop hlen (match m with m1 :: _ => m_bytes m1 | [] => [] end) in
    let s := if pr_ctlinput (get b 17) then s <| ic_ctl := mkCtl (Some (get b 17)) cmd (rd32 b 24) (zdrop 8 b) :: ic_ctl s |> else s in
    Ret (rip_input s h m).

(** The label reflect *)
Definition do_reflect (e : icenv) (s : icst) (h : ip) (m : chain) (hlen : Z) : outcome icst :=
  let! i := icmp_reflect (ce_in e) (ic_ip s) (h <| ip_len := s16 (ip_len h + hlen) |>) m in
  Ret (s <| ic_ip := i |>).

Definition icmp_maskreq (e : icenv) (s : icst) (h : ip) (m : chain) (rcvif hlen icmplen : Z) : outcome icst :=
  let raw := Ret (rip_input s h m) in
  if negb (icmpmaskrepl e) || (icmplen <? ICMP_MASKLEN) then raw
  else
    let dst := if (ip_dst h =? 4294967295) || (ip_dst h =? 0) then ip_src h else ip_dst h in
    match mask_ifaof e dst rcvif with
    | None => raw
    | Some ia =>
        let! m := edit (fun b => let! b := poke hlen [ICMP_MASKREPLY] b in poke (hlen + 8) (be32 (mi_sockmask ia)) b) m in
        let fl := if_flags (ie_out (ce_in e)) (mi_ifp ia) in
        let h := if ip_src h =? 0 then
                   if hasf fl IFF_BROADCAST then h <| ip_src := mi_broadaddr ia |>
                   else if hasf fl IFF_POINTOPOINT then h <| ip_src := mi_dstaddr ia |> else h
                 else h in
        do_reflect e s h m hlen
    end.

Definition icmp_redirect (s : icst) (h : ip) (m : chain) (b : list Z) (icmplen code : Z) : icst :=
  if (code >? 3) || bad_advice icmplen b then rip_input s h m
  else
    let dst := rd32 b 24 in
    rip_input (s <| ic_redirect := mkRedirect dst (rd32 b 4) (ip_src h) :: ic_redirect s |> <| ic_ctl := mkCtl None PRC_REDIRECT_HOST dst [] :: ic_ctl s |>) h m.

(** The switch over the type; [b] are the bytes of the message in the first mbuf. *)
Definition icmp_switch (e : icenv) (s : icst) (h : ip) (m : chain) (b : list Z) (rcvif hlen icmplen : Z) : outcome icst :=
  let type := get b 0 in
  let code := get b 1 in
  let raw := Ret (rip_input s h m) in
  let advice r := match r with Some cmd => icmp_deliver s h m b hlen icmplen cmd | None => raw end in
  if type =? ICMP_UNREACH then advice (unreach_cmd code)
  else if type =? ICMP_TIMXCEED then advice (if code >? 1 then None else Some (code + PRC_TIMXCEED_INTRANS))
  else if type =? ICMP_PARAMPROB then advice (if code >? 1 then None else Some PRC_PARAMPROB)
  else if type =? ICMP_SOURCEQUENCH then advice (if negb (code =? 0) then None else Some PRC_QUENCH)
  else if type =? ICMP_ECHO then
    let! m := edit (poke hlen [ICMP_ECHOREPLY]) m in do_reflect e s h m hlen
  else if type =? ICMP_TSTAMP then
    if icmplen <? ICMP_TSLEN then raw
    else
      let t := be32 (iptime (ce_in e)) in
      let! m := edit (fun b => let! b := poke hlen [ICMP_TSTAMPREPLY] b in poke (hlen + 12) (t ++ t) b) m in
      do_reflect e s h m hlen
  else if type =? ICMP_MASKREQ then icmp_maskreq e s h m rcvif hlen icmplen
  else if type =? ICMP_REDIRECT then Ret (icmp_redirect s h m b icmplen code)
  else raw.

(** [icmp_input]; ip_len is the length of the message. *)
Definition icmp_input (e : icenv) (s : icst) (h : ip) (m : chain) (hlen : Z) : outcome icst :=
  let icmplen := ip_len h in
  if icmplen <? ICMP_MINLEN then Ret (ic_free s m)
  else
    let! (r, p) := pull_ip (ce_in e) (ii_pool (ic_ip s)) m (hlen + cmin icmplen ICMP_ADVLENMIN) in
    let s := s <| ic_ip := with_pool p (ic_ip s) |> in
    match r with
    | None => Ret s
    | Some [] => Panic "icmp_input: null mbuf"
    | Some ((m1 :: _) as m) =>
        if negb (in_cksum (skip_ip hlen m) icmplen =? 0) then Ret (ic_free s m)
        else icmp_switch e s h m (zdrop hlen (m_bytes m1)) (m_rcvif m1) hlen icmplen
    end.

End Icmp.
