(* ===== verification/IcmpOk.v ===== *)
(** Correctness of ICMP: an echo request is answered with its data, and an error message
    returns the header of the packet it is about. *)
From S2P Require Import Prelude Mbuf Cksum TcpVar TcpHdr InPcb IpHdr IpReass IpOutput IpInput IpFragOk IpInputOk IpForwardOk Udp UdpOk Icmp.
Import Mbuf Cksum TcpHdr IpHdr IpReass IpOutput IpInput IpFragOk IpInputOk IpForwardOk UdpOk Icmp.

Module IcmpOk.

Lemma wf_len h n : ip_wf h -> -32768 <= n < 32768 -> ip_wf (h <| ip_len := n |>).
Proof. intros [] Hn. by split. Qed.

(** ** Editing the first mbuf *)

Lemma app_prefix (l1 l2 p q : list Z) : l1 ++ l2 = p ++ q -> zlen p <= zlen l1 -> exists c, l1 = p ++ c /\ q = c ++ l2.
Proof.
  intros E Hl. exists (zdrop (zlen p) l1). pose proof (ztake_zdrop (zlen p) l1) as S. rewrite <- S, <- app_assoc in E.
  pose proof (zlen_nonneg p). apply app_inj_1 in E as [E1 E2]; [rewrite <- E1 at 1; done|]. unfold zlen, ztake in *. rewrite length_take. lia.
Qed.

Lemma poke_split a x b v : zlen x = zlen v -> poke (zlen a) v (a ++ x ++ b) = Ret (a ++ v ++ b).
Proof.
  intros Hx. unfold poke. pose proof (zlen_nonneg a). pose proof (zlen_nonneg b). rewrite !zlen_app. destruct (Z.ltb_spec (zlen a) 0); [lia|].
  destruct (Z.ltb_spec (zlen a + (zlen x + zlen b)) (zlen a + zlen v)); [lia|]. cbn [orb]. rewrite ztake_app_le, ztake_ge by lia. do 3 f_equal.
  replace (zlen a + zlen v) with (zlen (a ++ x)) by (rewrite zlen_app; lia). rewrite app_assoc, zdrop_app_ge by lia. by rewrite zdrop_le0 by lia.
Qed.

(** What an edit keeps of an mbuf *)
Record edited (m m' : mbuf) : Prop := {
  ed_len : m_len m' = m_len m;
  ed_off : m_off m' = m_off m;
  ed_flags : m_flags m' = m_flags m;
  ed_pktlen : m_pktlen m' = m_pktlen m;
  ed_rcvif : m_rcvif m' = m_rcvif m;
  ed_size : ext_size m' = ext_size m
}.
Lemma edited_trans a b c : edited a b -> edited b c -> edited a c.
Proof. intros [] []. split; congruence. Qed.

Lemma edit_poke m1 ms a x b v : chain_bytes (m1 :: ms) = a ++ x ++ b -> zlen x = zlen v -> zlen a + zlen x <= m_len m1 ->
  exists m1', edit (poke (zlen a) v) (m1 :: ms) = Ret (m1' :: ms) /\ chain_bytes (m1' :: ms) = a ++ v ++ b /\ edited m1 m1'.
Proof.
  intros E Hx Hl. rewrite chain_bytes_cons, app_assoc in E. apply app_prefix in E as (c & E & ->); [|rewrite zlen_app; done].
  unfold edit. rewrite E, <- app_assoc, poke_split by done. cbn [obind]. eexists. split; [reflexivity|]. rewrite chain_bytes_cons. rec_simpl.
  split; [by rewrite <- !app_assoc|]. split; try done. unfold m_len. rec_simpl. rewrite E, !zlen_app. lia.
Qed.

Lemma skip_ip_bytes hlen m1 ms : hlen <= m_len m1 -> chain_bytes (skip_ip hlen (m1 :: ms)) = zdrop hlen (chain_bytes (m1 :: ms)).
Proof. intros Hl. unfold skip_ip. rewrite !chain_bytes_cons. rec_simpl. by rewrite zdrop_app_le. Qed.

(** ** Sending *)

(** The header that ip_output makes of a header without options *)
Definition filled (id : Z) (h : ip) : ip := h <| ip_v := IPVERSION |> <| ip_off := Z.land (ip_off h) IP_DF |> <| ip_id := id |> <| ip_hl := 5 |>.

(** The way to the destination of a packet *)
Record sendable (e : ipenv) (s : ipost) (h : ip) (rt : iprt) : Prop := {
  sn_route : rtalloc e (ip_dst h) = Some rt;
  sn_uni : InPcb.in_multicast (ip_dst h) = false;
  sn_bcast : in_broadcast e (next_hop rt (ip_dst h)) (rt_ifp rt) = false;
  sn_mtu : 28 <= if_mtu e (rt_ifp rt);
  sn_src : ip_src h <> 0;
  sn_pool : mp_fail (io_pool s) = [];
  sn_err : io_err s = [];
  sn_id : 0 <= io_id s < 65536
}.

(** The frames of a packet, as they are handed to the interface *)
Definition sent (e : ipenv) (rt : iprt) (hd : ip) (data : list Z) (s s' : ipost) : Prop :=
  exists cs, io_out s' = rev (map (fun c => (rt_ifp rt, next_hop rt (ip_dst hd), c)) cs) ++ io_out s /\
    frames hd data (if_mtu e (rt_ifp rt)) 0 (zlen data) (chain_bytes <$> cs) /\ (20 + zlen data <= if_mtu e (rt_ifp rt) -> length cs = 1%nat).

Lemma filled_wf h id : ip_wf h -> hlen_of h = 20 -> 0 <= id < 65536 -> ip_wf (filled id h).
Proof.
  intros Hw Hh Hid. pose proof (no_opts h Hw Hh) as Eo. assert (Ho : Z.land (ip_off h) IP_DF = 0 \/ Z.land (ip_off h) IP_DF = IP_DF).
  { unfold IP_DF. change 16384 with (2 ^ 14). destruct (Z.testbit (ip_off h) 14) eqn:Et; [right|left]; apply Z.bits_inj'; intros n Hn; rewrite Z.land_spec, Z.pow2_bits_eqb by lia;
      destruct (Z.eqb_spec 14 n) as [<-|]; rewrite ?Et, ?andb_false_r, ?Z.bits_0; done. }
  destruct Hw. split; unfold hlen_of, filled in *; rec_simpl; try done; [destruct Ho as [-> | ->]; unfold IP_DF; lia|by rewrite Eo].
Qed.

(** ip_output up to the queueing of a packet without options *)
Lemma ip_output_ucast e s h m1 ms ro fl imo rt : sendable e s h rt ->
  hasf fl (Z.lor IP_FORWARDING IP_RAWOUTPUT) = false -> hasf fl IP_ROUTETOIF = false ->
  (forall c r, ro = Some c -> ro_rt c = Some r -> ro_dst c = ip_dst h -> hasf (rt_flags r) RTF_UP = true -> r = rt) ->
  let s1 := s <| io_pool := io_pool s |> <| io_id := u16 (io_id s + 1) |> in
  ip_output e s h (m1 :: ms) None ro fl imo =
    let! (err, s') := sendit e s1 (rt_ifp rt) (next_hop rt (ip_dst h)) (filled (io_id s) h) (m1 <| m_flags := clrb (m_flags m1) M_BCAST |> :: ms) 20 in
    Ret (err, s', mkRoute (Some rt) (ip_dst h)).
Proof.
  intros [Hrt Hmc Hbc Hmtu Hsrc Hp He Hid] Hfl Hfr Hca. cbv zeta. unfold ip_output.
  assert (Efill : fill_hdr (s <| io_pool := io_pool s |>) fl h sizeof_ip = (s <| io_pool := io_pool s |> <| io_id := u16 (io_id s + 1) |>, filled (io_id s) h, 20)).
  { unfold fill_hdr. by rewrite Hfl. }
  rewrite Efill. set (h' := filled (io_id s) h). change (ip_dst h) with (ip_dst h') in *. change (ip_src h) with (ip_src h') in Hsrc.
  rewrite (ip_route_ok e (match ro with Some r => r | None => mkRoute None 0 end) fl h' rt); [|done|done|destruct ro as [c|]; [intros r; by apply Hca|done]]. rewrite Hmc. unfold output_ucast. rewrite Hbc.
  unfold TcpVar.INADDR_ANY. by rewrite (proj2 (Z.eqb_neq _ _) Hsrc).
Qed.

(** A packet without a source goes out as one from the interface of the route. *)
Lemma ip_output_src e s h m ro fl imo rt :
  rtalloc e (ip_dst h) = Some rt -> InPcb.in_multicast (ip_dst h) = false -> ip_src h = 0 -> rt_ifa rt <> 0 ->
  hasf fl (Z.lor IP_FORWARDING IP_RAWOUTPUT) = false -> hasf fl IP_ROUTETOIF = false ->
  (forall c r, ro = Some c -> ro_rt c = Some r -> ro_dst c = ip_dst h -> hasf (rt_flags r) RTF_UP = true -> r = rt) ->
  ip_output e s h m None ro fl imo = ip_output e s (h <| ip_src := rt_ifa rt |>) m None ro fl imo.
Proof.
  intros Hrt Hmc Hs Ha Hfl Hfr Hca. unfold ip_output, fill_hdr. rewrite Hfl. cbn [negb].
  assert (Hr : forall h', ip_dst h' = ip_dst h -> ip_route e (match ro with Some r => r | None => mkRoute None 0 end) fl h' =
    (mkRoute (Some rt) (ip_dst h'), inr (rt_ifp rt, rt_ifa rt, next_hop rt (ip_dst h'), h'))).
  { intros h' E. apply ip_route_ok; [done|by rewrite E|]. rewrite E. destruct ro as [c|]; [intros r; by apply Hca|done]. }
  rewrite !Hr by done. change (ip_dst (h <| ip_src := rt_ifa rt |>)) with (ip_dst h). rec_simpl. rewrite Hmc. unfold output_ucast. rec_simpl. rewrite Hs. unfold TcpVar.INADDR_ANY.
  by rewrite Z.eqb_refl, (proj2 (Z.eqb_neq _ _) Ha).
Qed.

Lemma ip_output_plain e s h m1 ms hb data ro fl imo rt : sendable e s h rt ->
  hasf fl (Z.lor IP_FORWARDING IP_RAWOUTPUT) = false -> hasf fl IP_ROUTETOIF = false ->
  (forall c r, ro = Some c -> ro_rt c = Some r -> ro_dst c = ip_dst h -> hasf (rt_flags r) RTF_UP = true -> r = rt) ->
  ip_wf (filled (io_id s) h) -> Z.land (ip_off h) IP_DF = 0 ->
  chain_bytes (m1 :: ms) = hb ++ data -> zlen hb = 20 -> 20 <= m_len m1 -> Forall is_byte (hb ++ data) -> ip_len h = 20 + zlen data -> 0 < zlen data < 32740 ->
  exists s', ip_output e s h (m1 :: ms) None ro fl imo = Ret (0, s', mkRoute (Some rt) (ip_dst h)) /\ sent e rt (filled (io_id s) h) data s s'.
Proof.
  intros Hs Hfl Hfr Hca Hw' Hdf Hcb Hz Hm1 Hb Hl Hd. rewrite (ip_output_ucast e s h m1 ms ro fl imo rt Hs Hfl Hfr Hca). cbv zeta. pose proof Hs as [Hrt Hmc Hbc Hmtu Hsrc Hp He Hid].
  set (s1 := s <| io_pool := _ |> <| io_id := _ |>). set (m1' := m1 <| m_flags := _ |>). set (h' := filled (io_id s) h) in *.
  assert (Hs1 : io_err s1 = [] /\ io_out s1 = io_out s /\ mp_fail (io_pool s1) = []) by (by split_and!). destruct Hs1 as (E1 & E2 & E3).
  assert (Hh' : hlen_of h' = 20) by done. change (ip_dst h) with (ip_dst h').
  assert (Hpk : packet_ok h' data h' (m1' :: ms) 0 (zlen data) []).
  { split.
    - split; try done; [change (ip_off h') with (Z.land (ip_off h) IP_DF); rewrite Hdf; cbn; by rewrite Z.ltb_irrefl|split_and!; try done; lia].
    - rewrite Hh'. change (chain_bytes (m1' :: ms)) with (chain_bytes (m1 :: ms)). rewrite Hcb, zdrop_app_ge by lia. unfold zsub. rewrite Hz. by rewrite !zdrop_le0, ztake_ge by lia.
    - unfold chain_len. change (chain_bytes (m1' :: ms)) with (chain_bytes (m1 :: ms)). rewrite Hcb, zlen_app, Hh'. lia.
    - change (chain_bytes (m1' :: ms)) with (chain_bytes (m1 :: ms)). by rewrite Hcb.
    - exists m1', ms. split; [done|]. rewrite Hh'. exact Hm1.
    - by rewrite Hh'.
    - lia. }
  change 20 with (hlen_of h') at 1. destruct (Z.le_gt_cases (20 + zlen data) (if_mtu e (rt_ifp rt))) as [Hle|Hgt].
  - destruct (sendit_one e s1 (rt_ifp rt) (next_hop rt (ip_dst h')) _ _ h' (m1' :: ms) Hpk E1) as (s' & c & -> & Ho & Hf); [change (ip_len h') with (ip_len h); lia|].
    cbn [obind]. eexists. split; [reflexivity|]. exists [c]. rewrite Ho, E2. by split_and!.
  - destruct (sendit_frames e s1 (rt_ifp rt) (next_hop rt (ip_dst h')) _ _ h' (m1' :: ms) 0 _ [] Hpk E1) as (err & s' & -> & H0 & Hor); [change (ip_len h') with (ip_len h); lia|by rewrite Hh'|].
    specialize (H0 E3) as ->. destruct Hor as [[? _]|(_ & cs & Ho & Hf)]; [done|]. cbn [obind]. eexists. split; [reflexivity|]. exists cs. rewrite Ho, E2.
    split_and!; [done|done|lia].
Qed.

(** One that fits is a packet on the wire, also with the don't fragment bit. *)
Lemma ip_output_wire e s h m1 ms hb data rt : sendable e s h rt -> ip_wf h -> hlen_of h = 20 ->
  chain_bytes (m1 :: ms) = hb ++ data -> zlen hb = 20 -> 20 <= m_len m1 -> Forall is_byte (hb ++ data) -> ip_len h = 20 + zlen data -> ip_len h <= if_mtu e (rt_ifp rt) ->
  exists s' ro f, ip_output e s h (m1 :: ms) None None 0 None = Ret (0, s', ro) /\ io_out s' = (rt_ifp rt, next_hop rt (ip_dst h), f) :: io_out s /\
    wire_packet (summed (filled (io_id s) h)) data (chain_bytes f).
Proof.
  intros Hs Hw Hh Hcb Hz Hm1 Hb Hl Hmtu. rewrite (ip_output_ucast e s h m1 ms None 0 None rt Hs) by done. cbv zeta. pose proof Hs as [Hrt Hmc Hbc _ Hsrc Hp He Hid].
  pose proof (filled_wf h (io_id s) Hw Hh Hid) as Hw'. pose proof (zlen_nonneg data). pose proof (iw_len _ Hw).
  set (s1 := s <| io_pool := _ |> <| io_id := _ |>). set (m1' := m1 <| m_flags := _ |>). set (h' := filled (io_id s) h) in *.
  assert (Hcb' : chain_bytes (m1' :: ms) = hb ++ data) by done.
  unfold sendit. change (ip_len h') with (ip_len h). rewrite u16_id by lia. rewrite (proj2 (Z.leb_le _ _) Hmtu). unfold if_output. change (io_err s1) with (io_err s). rewrite He. cbn [obind].
  do 3 eexists. split; [reflexivity|]. split; [reflexivity|]. destruct (stamp_hdr_ok h' m1' ms Hw' Hm1) as (E & Hs' & Hc & _); [by rewrite Hcb'|]. change 20 with (hlen_of h').
  rewrite E, Hcb'. apply Forall_app in Hb as [_ Hd]. split; try done. rewrite zdrop_app_ge by (change (hlen_of h') with 20; lia). change (hlen_of h') with 20. by rewrite Hz, zdrop_le0.
Qed.

Lemma two_bytes t c : is_byte t -> is_byte c -> Forall is_byte [t; c].
Proof. intros Ht Hc. by apply Forall_cons_2, Forall_singleton. Qed.

(** The message of a type, a code and the rest behind the checksum *)
Definition icmp_msg (t c : Z) (rest : list Z) : list Z :=
  let ck := cksum_ref ([t; c] ++ [0; 0] ++ rest) in [t; c] ++ [ck mod 256; ck / 256] ++ rest.

Lemma icmp_msg_len t c rest : zlen (icmp_msg t c rest) = 4 + zlen rest.
Proof. unfold icmp_msg. cbv zeta. rewrite !zlen_app. change (zlen [t; c]) with 2. unfold zlen. simpl. lia. Qed.
Lemma icmp_msg_bytes t c rest : is_byte t -> is_byte c -> Forall is_byte rest -> Forall is_byte (icmp_msg t c rest).
Proof.
  intros Ht Hc Hr. unfold icmp_msg. cbv zeta. pose proof (cksum_ref_range ([t; c] ++ [0; 0] ++ rest)). rewrite !Forall_app. split_and!; [by apply two_bytes| |done].
  apply two_bytes; unfold is_byte; Z.to_euclidean_division_equations; lia.
Qed.
Lemma icmp_msg_cksum t c rest : is_byte t -> is_byte c -> Forall is_byte rest -> cksum_ref (icmp_msg t c rest) = 0.
Proof. intros Ht Hc Hr. apply (cksum_ref_verifies [t; c] rest); [by apply two_bytes|done|done]. Qed.

(** icmp_send stores the checksum and calls ip_output. *)
Lemma icmp_send_cksum e s h m1 ms hb t c x y rest :
  hlen_of h = 20 -> chain_bytes (m1 :: ms) = hb ++ [t; c] ++ [x; y] ++ rest -> zlen hb = 20 -> 24 <= m_len m1 -> is_byte t -> is_byte c -> Forall is_byte rest ->
  ip_len h = 24 + zlen rest -> zlen rest < 32736 ->
  exists m2, chain_bytes (m2 :: ms) = hb ++ icmp_msg t c rest /\ m_len m2 = m_len m1 /\
    icmp_send e s h (m1 :: ms) None = let! (_, o, _) := ip_output (ie_out e) (ii_out s) h (m2 :: ms) None None 0 None in Ret (s <| ii_out := o |>).
Proof.
  intros Hh Hcb Hz Hm Ht Hc Hr Hl Hn. pose proof (zlen_nonneg rest). unfold icmp_send. rewrite Hh. change (20 + 2) with 22.
  assert (Hp : zlen (hb ++ [t; c]) = 22) by (rewrite zlen_app; unfold zlen at 2; simpl; lia). rewrite app_assoc in Hcb. pose proof (two_bytes t c Ht Hc) as Htc.
  destruct (edit_poke m1 ms (hb ++ [t; c]) [x; y] rest [0; 0] Hcb) as (m2 & E & Hcb2 & [Hl2 _ _ _ _ _]); [done|rewrite Hp; unfold zlen; simpl; lia|].
  rewrite Hp in E. rewrite E. cbn [obind].
  assert (Hck : in_cksum (skip_ip 20 (m2 :: ms)) (ip_len h - 20) = cksum_ref ([t; c] ++ [0; 0] ++ rest)).
  { assert (Es : chain_bytes (skip_ip 20 (m2 :: ms)) = [t; c] ++ [0; 0] ++ rest).
    { rewrite skip_ip_bytes by lia. rewrite Hcb2, <- !app_assoc, zdrop_app_ge by lia. rewrite Hz. by rewrite zdrop_le0 by lia. }
    rewrite in_cksum_spec; [rewrite Es|rewrite Es, !Forall_app; split_and!; try done; by apply two_bytes|lia]. rewrite ztake_ge; [done|]. rewrite !zlen_app. unfold zlen in *. simpl. lia. }
  rewrite Hck. set (ck := cksum_ref _). pose proof (cksum_ref_range ([t; c] ++ [0; 0] ++ rest)) as Hrg. fold ck in Hrg.
  destruct (edit_poke m2 ms (hb ++ [t; c]) [0; 0] rest (le16 ck) Hcb2) as (m3 & E3 & Hcb3 & [Hl3 _ _ _ _ _]); [done|rewrite Hp; unfold zlen; simpl; lia|].
  rewrite Hp in E3. rewrite E3. cbn [obind]. rewrite <- app_assoc in Hcb3. exists m3. split_and!; [|congruence|done].
  rewrite Hcb3. unfold icmp_msg, le16. fold ck. cbv zeta. rewrite (Z.mod_small (ck / 256)); [done|]. Z.to_euclidean_division_equations; lia.
Qed.

Lemma icmp_send_ok e s h m1 ms hb t c x y rest rt :
  sendable (ie_out e) (ii_out s) h rt -> ip_wf h -> hlen_of h = 20 -> Z.land (ip_off h) IP_DF = 0 -> chain_bytes (m1 :: ms) = hb ++ [t; c] ++ [x; y] ++ rest ->
  zlen hb = 20 -> 24 <= m_len m1 -> Forall is_byte hb -> is_byte t -> is_byte c -> Forall is_byte rest -> ip_len h = 24 + zlen rest -> zlen rest < 32736 ->
  exists o, icmp_send e s h (m1 :: ms) None = Ret (s <| ii_out := o |>) /\ sent (ie_out e) rt (filled (io_id (ii_out s)) h) (icmp_msg t c rest) (ii_out s) o.
Proof.
  intros Hs Hw Hh Hdf Hcb Hz Hm Hhb Ht Hc Hr Hl Hn. pose proof (zlen_nonneg rest). pose proof (icmp_msg_len t c rest) as Hml.
  destruct (icmp_send_cksum e s h m1 ms hb t c x y rest) as (m3 & Hcb3 & Hl3 & ->); try done.
  destruct (ip_output_plain (ie_out e) (ii_out s) h m3 ms hb (icmp_msg t c rest) None 0 None rt Hs) as (o & -> & Ho); try done; try lia.
  { apply filled_wf; [done..|apply (sn_id _ _ _ _ Hs)]. }
  { apply Forall_app. split; [done|by apply icmp_msg_bytes]. }
  cbn [obind]. by exists o.
Qed.

(** ** Reflection *)

(** The source of a packet that may be answered *)
Definition answerable (src : Z) : Prop := in_canforward src = true \/ Z.land src 4278190080 = Z.shiftl 127 24.

(** The header of an answer from [a] *)
Definition turned (a : Z) (h : ip) : ip := h <| ip_dst := ip_src h |> <| ip_src := a |>.

(** What this host needs to answer a packet for [t] from interface [rcvif] *)
Record can_answer (e : inenv) (s : ipist) (h : ip) (rcvif a : Z) (rt : iprt) : Prop := {
  ca_src : answerable (ip_src h);
  ca_addr : reflect_src e (ip_dst h) rcvif = Ret a;
  ca_range : 0 < a < 4294967296;
  ca_send : sendable (ie_out e) (ii_out s) (turned a h) rt
}.

Lemma sendable_same e s h h' rt p : sendable e s h rt -> ip_dst h' = ip_dst h -> ip_src h' = ip_src h -> mp_fail p = [] -> sendable e (s <| io_pool := p |>) h' rt.
Proof. intros [] Hd Hs Hp. by split; rewrite ?Hd, ?Hs. Qed.

Lemma turned_wf a h : ip_wf h -> 0 < a < 4294967296 -> ip_wf (turned a h).
Proof. intros [] Ha. split; unfold hlen_of, turned in *; rec_simpl; try done; lia. Qed.

(** A packet without options is turned around. *)
Lemma icmp_reflect_send e s h m1 ms a rt : can_answer e s h (m_rcvif m1) a rt -> hlen_of h = 20 ->
  icmp_reflect e s h (m1 :: ms) = icmp_send e s (turned a h) (m1 <| m_flags := clrb (m_flags m1) (Z.lor M_BCAST M_MCAST) |> :: ms) None.
Proof.
  intros [Hsrc Ha Har Hs] Hh. unfold icmp_reflect.
  assert (Eg : negb (in_canforward (ip_src h)) && negb (Z.land (ip_src h) 4278190080 =? Z.shiftl 127 24) = false).
  { destruct Hsrc as [-> | ->]; [done|]. by rewrite Z.eqb_refl, andb_false_r. }
  by rewrite Eg, Ha, Hh.
Qed.

Lemma icmp_reflect_ok e s h m1 ms hb t c x y rest a rt :
  can_answer e s h (m_rcvif m1) a rt -> ip_wf h -> hlen_of h = 20 -> Z.land (ip_off h) IP_DF = 0 -> chain_bytes (m1 :: ms) = hb ++ [t; c] ++ [x; y] ++ rest ->
  zlen hb = 20 -> 24 <= m_len m1 -> Forall is_byte hb -> is_byte t -> is_byte c -> Forall is_byte rest -> ip_len h = 24 + zlen rest -> zlen rest < 32736 ->
  exists o, icmp_reflect e s h (m1 :: ms) = Ret (s <| ii_out := o |>) /\ sent (ie_out e) rt (filled (io_id (ii_out s)) (turned a h)) (icmp_msg t c rest) (ii_out s) o.
Proof.
  intros Hca Hw Hh Hdf Hcb Hz Hm Hhb Ht Hc Hr Hl Hn. rewrite (icmp_reflect_send e s h m1 ms a rt Hca Hh). destruct Hca as [Hsrc Ha Har Hs].
  apply (icmp_send_ok e s (turned a h) (m1 <| m_flags := clrb (m_flags m1) (Z.lor M_BCAST M_MCAST) |>) ms hb t c x y rest rt); try done. by apply turned_wf.
Qed.

(** A message that fits goes out as one packet. *)
Lemma icmp_reflect_wire e s h m1 ms hb t c x y rest a rt :
  can_answer e s h (m_rcvif m1) a rt -> ip_wf h -> hlen_of h = 20 -> chain_bytes (m1 :: ms) = hb ++ [t; c] ++ [x; y] ++ rest -> zlen hb = 20 -> 24 <= m_len m1 ->
  Forall is_byte hb -> is_byte t -> is_byte c -> Forall is_byte rest -> ip_len h = 24 + zlen rest -> zlen rest < 32736 -> ip_len h <= if_mtu (ie_out e) (rt_ifp rt) ->
  exists o f, icmp_reflect e s h (m1 :: ms) = Ret (s <| ii_out := o |>) /\ io_out o = (rt_ifp rt, next_hop rt (ip_src h), f) :: io_out (ii_out s) /\
    wire_packet (summed (filled (io_id (ii_out s)) (turned a h))) (icmp_msg t c rest) (chain_bytes f).
Proof.
  intros Hca Hw Hh Hcb Hz Hm Hhb Ht Hc Hr Hl Hn Hmtu. pose proof (zlen_nonneg rest). pose proof (icmp_msg_len t c rest) as Hml.
  rewrite (icmp_reflect_send e s h m1 ms a rt Hca Hh). destruct Hca as [Hsrc Ha Har Hs]. set (m1' := m1 <| m_flags := _ |>).
  destruct (icmp_send_cksum e s (turned a h) m1' ms hb t c x y rest) as (m3 & Hcb3 & Hl3 & ->); try done. change (m_len m1') with (m_len m1) in Hl3.
  destruct (ip_output_wire (ie_out e) (ii_out s) (turned a h) m3 ms hb (icmp_msg t c rest) rt Hs) as (o & ro & f & -> & Ho & Hwp); try done.
  - by apply turned_wf.
  - lia.
  - apply Forall_app. split; [done|by apply icmp_msg_bytes].
  - change (ip_len (turned a h)) with (ip_len h). lia.
  - cbn [obind]. by exists o, f.
Qed.

(** ** Input *)

(** A message that passes the checks reaches the switch, with its first bytes in the first
    mbuf. *)
Lemma icmp_input_ok e st h m msg :
  whole h msg m -> ip_wf h -> hlen_of h = 20 -> ip_len h = zlen msg -> ICMP_MINLEN <= zlen msg -> Forall is_byte (host_ip h) -> Forall is_byte msg -> cksum_ref msg = 0 ->
  mp_fail (ii_pool (ic_ip st)) = [] -> 0 <= ie_max_protohdr (ce_in e) < 2147483648 ->
  exists m1 ms p c d, icmp_input e st h m 20 = icmp_switch e (st <| ic_ip := with_pool p (ic_ip st) |>) h (m1 :: ms) c (m_rcvif m1) 20 (zlen msg) /\
    mp_fail p = [] /\ chain_bytes (m1 :: ms) = host_ip h ++ msg /\ m_bytes m1 = host_ip h ++ c /\ msg = c ++ d /\ Z.min (zlen msg) ICMP_ADVLENMIN <= zlen c /\
    (exists n1 ns, m = n1 :: ns /\ m_rcvif m1 = m_rcvif n1) /\ hasf (m_flags m1) M_PKTHDR = true /\ m_pktlen m1 = 20 + zlen msg.
Proof.
  intros (Hcb & Hwf & n1 & ns & -> & Hn1 & Hpk & Hpl) Hw Hh Hl Hmin Hbh Hb Hck Hp Hmp. pose proof (iw_len _ Hw) as Hlen. rewrite Hl in Hlen. rewrite Hh in Hn1.
  unfold icmp_input. rewrite Hl. destruct (Z.ltb_spec (zlen msg) ICMP_MINLEN); [lia|].
  assert (Hcm : cmin (zlen msg) ICMP_ADVLENMIN = Z.min (zlen msg) ICMP_ADVLENMIN) by (unfold cmin; unfold ICMP_ADVLENMIN, ICMP_MINLEN in *; rewrite !u32_id by lia; destruct (Z.ltb_spec (zlen msg) 36); lia).
  rewrite Hcm. set (i := Z.min _ _) in *. assert (Hi : 8 <= i <= 36) by (unfold i, ICMP_ADVLENMIN, ICMP_MINLEN in *; lia). assert (Hi' : i <= zlen msg) by (unfold i; lia).
  assert (Hz : zlen (host_ip h) = 20) by (by apply host_ip_20).
  assert (Hpull : exists m1 ms p, pull_ip (ce_in e) (ii_pool (ic_ip st)) (n1 :: ns) (20 + i) = Ret (Some (m1 :: ms), p) /\ mp_fail p = [] /\
    chain_bytes (m1 :: ms) = host_ip h ++ msg /\ 20 + i <= m_len m1 /\ m_rcvif m1 = m_rcvif n1 /\ hasf (m_flags m1) M_PKTHDR = true /\ m_pktlen m1 = 20 + zlen msg).
  { assert (Hpl2 : m_pktlen n1 = 20 + zlen msg) by (rewrite Hpl; unfold chain_len; rewrite Hcb, zlen_app; lia). unfold pull_ip. destruct (Z.ltb_spec (m_len n1) (20 + i)) as [Hlt|Hge].
    - destruct (m_pullup_pkt (ii_pool (ic_ip st)) (ie_max_protohdr (ce_in e)) n1 ns (20 + i)) as (m' & n' & p' & E & A1 & A2 & A3 & _ & _ & A6 & A7 & A8); try done.
      { by right. } { unfold MHLEN. lia. } { unfold chain_len. rewrite Hcb, zlen_app. lia. }
      exists m', n', p'. split_and!; try done; [by rewrite A2|congruence].
    - by exists n1, ns, (ii_pool (ic_ip st)). }
  destruct Hpull as (m1 & ms & p & -> & Hf & Hcb1 & Hm1 & Hrc & Hpk1 & Hpl1). cbn [obind].
  assert (Hsum : in_cksum (skip_ip 20 (m1 :: ms)) (zlen msg) = 0).
  { rewrite <- Hck. assert (Es : chain_bytes (skip_ip 20 (m1 :: ms)) = msg). { rewrite skip_ip_bytes by lia. rewrite Hcb1, zdrop_app_ge by lia. rewrite Hz. by apply zdrop_le0. }
    rewrite in_cksum_spec; [by rewrite Es, ztake_ge|by rewrite Es|lia]. }
  rewrite Hsum. pose proof Hcb1 as Hx. rewrite chain_bytes_cons in Hx. destruct (app_prefix _ _ _ _ Hx) as (c & Ec & Ed); [unfold m_len in Hm1; lia|].
  exists m1, ms, p, c, (chain_bytes ms). rewrite Ec, zdrop_app_ge by lia. rewrite Hz. rewrite zdrop_le0 by lia. split_and!; try done.
  - unfold m_len in Hm1. rewrite Ec, zlen_app in Hm1. lia.
  - by exists n1, ns.
Qed.

(** An echo request is answered. *)
Lemma icmp_echo_ok e st h m code x y rest a rt :
  let msg := [ICMP_ECHO; code] ++ [x; y] ++ rest in
  whole h msg m -> ip_wf h -> hlen_of h = 20 -> ip_len h = zlen msg -> ip_off h = 0 -> 4 <= zlen rest < 32736 -> Forall is_byte (host_ip h) -> Forall is_byte msg -> cksum_ref msg = 0 ->
  mp_fail (ii_pool (ic_ip st)) = [] -> 0 <= ie_max_protohdr (ce_in e) < 2147483648 -> (forall i, can_answer (ce_in e) (ic_ip st) h i a rt) ->
  exists o, icmp_input e st h m 20 = Ret (st <| ic_ip := (ic_ip st) <| ii_out := o |> |>) /\
    sent (ie_out (ce_in e)) rt (filled (io_id (ii_out (ic_ip st))) (turned a (h <| ip_len := 20 + zlen msg |>))) (icmp_msg ICMP_ECHOREPLY code rest) (ii_out (ic_ip st)) o.
Proof.
  cbv zeta. set (msg := [ICMP_ECHO; code] ++ [x; y] ++ rest). intros Hwh Hw Hh Hl Ho Hr Hbh Hb Hck Hp Hmp Hca.
  assert (Hzm : zlen msg = 4 + zlen rest) by (unfold msg, zlen; simpl; lia).
  destruct (icmp_input_ok e st h m msg Hwh Hw Hh Hl) as (m1 & ms & p & c & d & -> & Hf & Hcb & Ec & Ed & Hc & _); try done; [unfold ICMP_MINLEN; lia|].
  assert (Hz : zlen (host_ip h) = 20) by (by apply host_ip_20).
  unfold msg in Ed. rewrite app_assoc in Ed. symmetry in Ed. destruct (app_prefix _ _ _ _ Ed) as (c' & -> & Hrest). { unfold ICMP_ADVLENMIN in Hc. change (zlen ([ICMP_ECHO; code] ++ [x; y])) with 4. lia. }
  assert (Hm1 : 24 <= m_len m1). { unfold m_len. rewrite Ec, !zlen_app. change (zlen [ICMP_ECHO; code]) with 2. change (zlen [x; y]) with 2. pose proof (zlen_nonneg c'). lia. }
  unfold icmp_switch. change (get (([ICMP_ECHO; code] ++ [x; y]) ++ c') 0) with 8. cbv zeta. change (8 =? ICMP_UNREACH) with false.
  change (8 =? ICMP_TIMXCEED) with false. change (8 =? ICMP_PARAMPROB) with false. change (8 =? ICMP_SOURCEQUENCH) with false. change (8 =? ICMP_ECHO) with true. cbv iota.
  assert (Hcb' : chain_bytes (m1 :: ms) = host_ip h ++ [8] ++ code :: [x; y] ++ rest) by (rewrite Hcb; done).
  destruct (edit_poke m1 ms (host_ip h) [8] _ [ICMP_ECHOREPLY] Hcb') as (m2 & E & Hcb2 & [Hl2 _ _ _ _ _]); [done|rewrite Hz; change (zlen [8]) with 1; lia|].
  rewrite Hz in E. rewrite E. cbn [obind]. unfold do_reflect. rewrite Hl. rewrite (s16_id (zlen msg + 20)) by lia.
  change (ic_ip (st <| ic_ip := with_pool p (ic_ip st) |>)) with (with_pool p (ic_ip st)). set (h' := h <| ip_len := zlen msg + 20 |>).
  set (s1 := with_pool p (ic_ip st)).
  assert (Hca' : can_answer (ce_in e) s1 h' (m_rcvif m2) a rt). { destruct (Hca (m_rcvif m2)) as [C1 C2 C3 C4]. split; try done. exact (sendable_same _ _ _ (turned a h') rt p C4 eq_refl eq_refl Hf). }
  assert (Hb' : is_byte code /\ Forall is_byte rest) by (unfold msg in Hb; rewrite !Forall_app, Forall_cons_iff in Hb; destruct Hb as ((_ & Hb1) & _ & Hb2); split; [exact (Forall_inv Hb1)|done]).
  destruct (icmp_reflect_ok (ce_in e) s1 h' m2 ms (host_ip h) ICMP_ECHOREPLY code x y rest a rt) as (o & -> & Hs); try done.
  - apply wf_len; [done|lia].
  - change (ip_off h') with (ip_off h). by rewrite Ho.
  - lia.
  - apply Hb'.
  - apply Hb'.
  - change (ip_len h') with (zlen msg + 20). lia.
  - lia.
  - cbn [obind]. exists o. split; [by destruct st as [[] ? ? ?]|]. unfold h' in Hs. by rewrite Z.add_comm in Hs.
Qed.

(** A reply is handed to the raw sockets. *)
Lemma icmp_reply_up e st h m code rest :
  let msg := icmp_msg ICMP_ECHOREPLY code rest in
  whole h msg m -> ip_wf h -> hlen_of h = 20 -> ip_len h = zlen msg -> 4 <= zlen rest < 32736 -> Forall is_byte (host_ip h) -> is_byte code -> Forall is_byte rest ->
  mp_fail (ii_pool (ic_ip st)) = [] -> 0 <= ie_max_protohdr (ce_in e) < 2147483648 ->
  exists p m1 ms, icmp_input e st h m 20 = Ret (rip_input (st <| ic_ip := with_pool p (ic_ip st) |>) h (m1 :: ms)) /\ mp_fail p = [] /\
    chain_bytes (m1 :: ms) = host_ip h ++ msg /\ hasf (m_flags m1) M_PKTHDR = true /\ m_pktlen m1 = 20 + zlen msg.
Proof.
  cbv zeta. intros Hwh Hw Hh Hl Hr Hbh Hc Hb Hp Hmp. pose proof (icmp_msg_len ICMP_ECHOREPLY code rest) as Hz.
  assert (H0 : is_byte ICMP_ECHOREPLY) by done.
  destruct (icmp_input_ok e st h m _ Hwh Hw Hh Hl) as (m1 & ms & p & c & d & -> & Hf & Hcb & _ & Ed & Hcl & _ & Hk & Hpl); try done;
    [unfold ICMP_MINLEN; lia|by apply icmp_msg_bytes|by apply icmp_msg_cksum|].
  exists p, m1, ms. split; [|done]. unfold icmp_msg in Ed. cbv zeta in Ed. symmetry in Ed. destruct (app_prefix _ _ _ _ Ed) as (c' & -> & _).
  { unfold ICMP_ADVLENMIN in Hcl. change (zlen [ICMP_ECHOREPLY; code]) with 2. lia. }
  reflexivity.
Qed.

Lemma host_ip_bytes h : ip_wf h -> Forall is_byte (host_ip h).
Proof.
  intros []. unfold host_ip, ip_front, ip_rest, be32, le16. rewrite !Forall_app.
  split_and!; try done; repeat constructor; try lia; apply Z.mod_pos_bound; lia.
Qed.

(** ** A ping and its answer *)

Lemma frames_one hd data mtu b : frames hd data mtu 0 (zlen data) [b] -> exists h, frame_of hd data h 0 (zlen data) b /\ zlen b <= mtu.
Proof. intros (h & l & Hf & Hm & Hl). exists h. cbn [frames] in Hl. by assert (l = zlen data) as -> by lia. Qed.

(** The header that the request's host answers with *)
Definition answer_hdr (id a n : Z) (h : ip) : ip := filled id (turned a (h <| ip_sum := 0 |> <| ip_len := n |> <| ip_off := 0 |>)).

Lemma can_answer_same e s s' h h' i a rt : can_answer e s h i a rt -> ip_src h' = ip_src h -> ip_dst h' = ip_dst h -> ii_out s' = ii_out s -> can_answer e s' h' i a rt.
Proof. intros [C1 C2 C3 [] ] Es Ed Eo. split; [by rewrite Es|by rewrite Ed|done|]. split; rewrite ?Eo; try done; by change (ip_dst (turned a h')) with (ip_src h'); rewrite Es. Qed.

(** The host that answers, and the one that has asked *)
Record answerer (e : icenv) (st : icst) (hd : ip) (msg : list Z) (a : Z) (rt : iprt) : Prop := {
  an_recv : receiver_ok (ce_in e) hd msg;
  an_pool : mp_fail (ii_pool (ic_ip st)) = [];
  an_answer : forall i, can_answer (ce_in e) (ic_ip st) hd i a rt;
  an_mtu : 20 + zlen msg <= if_mtu (ie_out (ce_in e)) (rt_ifp rt)
}.
Record asker (e : icenv) (st : icst) (src : Z) : Prop := {
  as_ours : forall i, ip_ours (ce_in e) src i = Ours;
  as_addr : ie_ifaddr (ce_in e) <> [];
  as_mph : 0 <= ie_max_protohdr (ce_in e) < 2147483648;
  as_pool : mp_fail (ii_pool (ic_ip st)) = []
}.

Lemma up_hdr_wf hd msg h b : frame_of hd msg h 0 (zlen msg) b -> hlen_of hd = 20 -> zlen msg < 32768 ->
  let h1 := h <| ip_sum := 0 |> <| ip_len := zlen msg |> in ip_wf h1 /\ hlen_of h1 = 20 /\ ip_off h1 = 0 /\ ip_src h1 = ip_src hd /\ ip_dst h1 = ip_dst hd /\ ip_p h1 = ip_p hd /\ ip_ttl h1 = ip_ttl hd.
Proof.
  intros [[Hw _ _ Ho _ (_ & Es & Ed & Ep) Hhl Hb] _ _] Hh Hn. specialize (Hb eq_refl). pose proof (hlen_eq h). pose proof (iw_hl _ Hw).
  pose proof (zlen_nonneg msg). cbv zeta. split_and!; try done.
  - destruct Hw. split; unfold hlen_of in *; rec_simpl; try done; lia.
  - change (hlen_of (h <| ip_sum := 0 |> <| ip_len := zlen msg |>)) with (hlen_of h). lia.
  - rec_simpl. rewrite Ho, Z.ltb_irrefl. done.
  - change (ip_ttl (base h) = ip_ttl (base hd)). by rewrite Hb.
Qed.

(** A frame with the reply to an echo request with header [hd] *)
Definition reply_frame (hd : ip) (a code : Z) (rest b : list Z) : Prop :=
  exists hdr h, frame_of hdr (icmp_msg ICMP_ECHOREPLY code rest) h 0 (4 + zlen rest) b /\ ip_wf hdr /\ hlen_of hdr = 20 /\
    ip_src hdr = a /\ ip_dst hdr = ip_src hd /\ ip_p hdr = ip_p hd /\ ip_ttl hdr = ip_ttl hd.

Lemma echo_bytes code x y rest : Forall is_byte ([ICMP_ECHO; code] ++ [x; y] ++ rest) -> is_byte code /\ Forall is_byte rest.
Proof. rewrite !Forall_app, Forall_cons_iff. intros ((_ & Hb1) & _ & Hb2). split; [exact (Forall_inv Hb1)|done]. Qed.

(** The host that is asked sends the reply. *)
Lemma echo_answered e s hd code x y rest h b c a rt :
  let msg := [ICMP_ECHO; code] ++ [x; y] ++ rest in
  answerer e s hd msg a rt -> frame_of hd msg h 0 (zlen msg) b -> received 20 b c -> cksum_ref msg = 0 -> 4 <= zlen rest < 32736 ->
  exists i h1 m o f, ip_input1 (ce_in e) (ic_ip s) c = Ret i /\ ii_up i = (h1, m, 20) :: ii_up (ic_ip s) /\ ip_p h1 = ip_p hd /\
    icmp_input e (s <| ic_ip := i |>) h1 m 20 = Ret (s <| ic_ip := i <| ii_out := o |> |>) /\
    io_out o = (rt_ifp rt, next_hop rt (ip_src hd), f) :: io_out (ii_out (ic_ip s)) /\ reply_frame hd a code rest (chain_bytes f).
Proof.
  intros msg [Hrv Hp Hca Hmtu] Hf Hc Hck Hr. pose proof Hrv as [Kw Khl Kl Kb Ko Ka Km].
  assert (Hzm : zlen msg = 4 + zlen rest) by (unfold msg, zlen; simpl; lia).
  destruct (up_hdr_wf _ _ _ _ Hf Khl ltac:(lia)) as (W1 & W2 & W3 & W4 & W5 & W6 & W7).
  destruct (input_whole (ce_in e) (ic_ip s) hd msg h b c Hrv Hf Hc) as (i & m & Ei & Eu & Hwh & Eo). set (h1 := h <| ip_sum := 0 |> <| ip_len := zlen msg |>) in *.
  destruct (icmp_echo_ok e (s <| ic_ip := i |>) h1 m code x y rest a rt) as (o & Ein & cs & Eout & Hfr & Hone); try done.
  { by apply host_ip_bytes. } { unfold ii_pool. rec_simpl. by rewrite Eo. }
  { intros j. apply (can_answer_same _ (ic_ip s) _ hd); done. }
  fold msg in Ein, Hfr. change (ic_ip (s <| ic_ip := i |>)) with i in *. rewrite Eo in Hfr, Eout.
  set (hdr := filled _ _) in *. pose proof (icmp_msg_len ICMP_ECHOREPLY code rest) as Hz. set (ans := icmp_msg ICMP_ECHOREPLY code rest) in *.
  specialize (Hone ltac:(lia)). destruct cs as [|f [|]]; [discriminate Hone| |discriminate Hone]. cbn [fmap list_fmap map rev app] in Hfr, Eout.
  exists i, h1, m, o, f. split; [done|]. split; [done|]. split; [done|]. split; [done|]. split; [by rewrite Eout; change (ip_dst hdr) with (ip_src h1); rewrite W4|].
  destruct (frames_one _ _ _ _ Hfr) as (h2 & Hf2 & _). exists hdr, h2. rewrite Hz in Hf2. split_and!; try done.
  apply filled_wf; [apply turned_wf; [apply wf_len; [done|fold msg; lia]|exact (ca_range _ _ _ _ _ _ (Hca 0))]|done|]. exact (sn_id _ _ _ _ (ca_send _ _ _ _ _ _ (Hca 0))).
Qed.

(** The host that has asked hands it to the raw sockets. *)
Lemma reply_taken e s hd a code rest b c :
  asker e s (ip_src hd) -> reply_frame hd a code rest b -> received 20 b c -> is_byte code -> Forall is_byte rest -> 4 <= zlen rest < 32736 ->
  exists i h m p m1 ms, ip_input1 (ce_in e) (ic_ip s) c = Ret i /\ ii_up i = (h, m, 20) :: ii_up (ic_ip s) /\
    icmp_input e (s <| ic_ip := i |>) h m 20 = Ret (rip_input (s <| ic_ip := with_pool p i |>) h (m1 :: ms)) /\ mp_fail p = [] /\
    ip_src h = a /\ ip_dst h = ip_src hd /\ ip_p h = ip_p hd /\ ip_ttl h = ip_ttl hd /\ ip_len h = 4 + zlen rest /\ zlen (host_ip h) = 20 /\
    chain_bytes (m1 :: ms) = host_ip h ++ icmp_msg ICMP_ECHOREPLY code rest /\ hasf (m_flags m1) M_PKTHDR = true /\ m_pktlen m1 = 24 + zlen rest.
Proof.
  intros [Ho Had Hmph HpA] (hdr & h2 & Hf & Wh & Wl & Es & Ed & Ep & Et) Hc Hcode Hrest Hr.
  pose proof (icmp_msg_len ICMP_ECHOREPLY code rest) as Hz. set (ans := icmp_msg ICMP_ECHOREPLY code rest) in *. rewrite <- Hz in Hf.
  assert (Hrv : receiver_ok (ce_in e) hdr ans) by (split; try done; [lia|by apply icmp_msg_bytes|intros i; by rewrite Ed]).
  destruct (up_hdr_wf _ _ _ _ Hf Wl ltac:(lia)) as (V1 & V2 & V3 & V4 & V5 & V6 & V7).
  destruct (input_whole (ce_in e) (ic_ip s) hdr ans h2 _ c Hrv Hf Hc) as (i & m & Ei & Eu & Hwh & Eo). set (h := h2 <| ip_sum := 0 |> <| ip_len := zlen ans |>) in *.
  destruct (icmp_reply_up e (s <| ic_ip := i |>) h m code rest) as (p & m1 & ms & E4 & Hp4 & Hm4 & Hk4 & Hl4); try done.
  { by apply host_ip_bytes. } { unfold ii_pool. rec_simpl. by rewrite Eo. }
  exists i, h, m, p, m1, ms. split_and!; try done; try congruence; [by apply host_ip_20|fold ans in Hl4; lia].
Qed.

(** 10.0.0.1 pings 10.0.0.2. *)
Definition host (addr : Z) : icenv :=
  mkIcenv (mkInenv (mkIpenv (fun _ => Some (mkIprt 1 1 addr 0)) (fun _ => None) (fun _ => None) (fun _ => 1500) (fun _ => 2) (fun _ _ => false)
      (fun _ _ => false) (fun _ => None) 0 16 0)
    [mkIa addr 1 167772415 0 167772160 167772160 4294967040] (fun a => if a =? addr then Some a else None) (fun _ _ => None) (fun _ => None) (fun _ => 0) 0 false false 40)
    false (fun _ _ => None).
Definition ic0 : icst := mkIc inst0 [] [] [].
Definition ping_rest : list Z := [0; 7; 0; 1] ++ seqZ 1 40.
Definition ping_sum : Z := cksum_ref ([ICMP_ECHO; 0] ++ [0; 0] ++ ping_rest).
Definition ping_msg : list Z := [ICMP_ECHO; 0] ++ [ping_sum mod 256; ping_sum / 256] ++ ping_rest.
Definition ping_hd : ip := mkIp 4 5 0 68 1 0 255 IPPROTO_ICMP 0 167772161 167772162 [].
Lemma ping_bytes : Forall is_byte ping_msg.
Proof. apply (bool_decide_unpack (Forall (fun x => 0 <= x < 256) ping_msg)). vm_compute. exact I. Qed.

Lemma ping_answerer : answerer (host 167772162) ic0 ping_hd ping_msg 167772162 (mkIprt 1 1 167772162 0).
Proof.
  split; try done.
  - split; [split; vm_compute; intuition congruence || constructor|done..| |done|done|done]. apply ping_bytes.
  - intros i. split; [by left|done|done|]. split; done.
Qed.

End IcmpOk.
