(* ===== verification/IcmpErrOk.v ===== *)
(** Correctness of icmp_error: what an error message about a packet holds, and the answer
    of a gateway to a packet whose time to live has run out. *)
From S2P Require Import Prelude Mbuf Cksum TcpVar TcpHdr InPcb IpHdr IpReass IpOutput IpInput IpFragOk IpInputOk IpForwardOk Udp UdpOk Icmp IcmpOk.
Import Mbuf Cksum TcpHdr IpHdr IpReass IpOutput IpInput IpFragOk IpInputOk IpForwardOk UdpOk Icmp IcmpOk.

Module IcmpErrOk.

(** The packet an error is about *)
Record offender (h : ip) (n1 : mbuf) : Prop := {
  of_wf : ip_wf h;
  of_len : 0 <= ip_len h /\ ip_len h + hlen_of h < 32768;
  of_first : hlen_of h + Z.min 8 (ip_len h) <= m_len n1;
  of_bytes : Forall is_byte (m_bytes n1)
}.

(** The part of it that is returned *)
Definition returned (h : ip) (n1 : mbuf) : list Z :=
  [ip_v h * 16 + ip_hl h; ip_tos h] ++ be16 (ip_len h + hlen_of h) ++ le16 (ip_id h) ++ le16 (ip_off h) ++ [ip_ttl h; ip_p h] ++ le16 (ip_sum h) ++ ip_rest h ++
    zsub (hlen_of h) (Z.min 8 (ip_len h)) (m_bytes n1).

Lemma cmin_8 n : 0 <= n < 32768 -> cmin 8 n = Z.min 8 n.
Proof. intros Hn. unfold cmin. rewrite !u32_id by lia. destruct (Z.ltb_spec 8 n); lia. Qed.

Lemma be16_wrap v : be16 (u16 v) = be16 v.
Proof. unfold be16, u16. f_equal; [|f_equal]; Z.to_euclidean_division_equations; lia. Qed.

Lemma quote_ok h n1 : offender h n1 -> quote h n1 (hlen_of h + Z.min 8 (ip_len h)) = Ret (returned h n1).
Proof.
  intros [Hw Hl Hf Hb]. pose proof (hlen_eq h). pose proof (iw_hl _ Hw). unfold quote. rewrite (host_ip_hlen _ Hw).
  assert (Hz : zlen (host_ip h ++ zdrop (hlen_of h) (m_bytes n1)) = m_len n1) by (unfold m_len in *; rewrite zlen_app, zlen_zdrop, (host_ip_hlen _ Hw); lia).
  rewrite Hz. destruct (Z.ltb_spec (m_len n1) (hlen_of h + Z.min 8 (ip_len h))); [lia|].
  rewrite ztake_app_ge by (rewrite (host_ip_hlen _ Hw); lia). rewrite (host_ip_hlen _ Hw). replace (hlen_of h + Z.min 8 (ip_len h) - hlen_of h) with (Z.min 8 (ip_len h)) by lia.
  fold (zsub (hlen_of h) (Z.min 8 (ip_len h)) (m_bytes n1)). unfold host_ip, ip_front. rewrite <- !app_assoc.
  rewrite (poke_split [_; _] (le16 (ip_len h))) by done. by rewrite be16_wrap.
Qed.

Lemma returned_len h n1 : offender h n1 -> zlen (returned h n1) = hlen_of h + Z.min 8 (ip_len h).
Proof.
  intros [Hw Hl Hf Hb]. pose proof (iw_opts _ Hw) as Ho. pose proof (hlen_eq h). pose proof (iw_hl _ Hw). unfold returned, ip_rest. rewrite !zlen_app, zlen_zsub, Ho by (unfold m_len in Hf; lia).
  unfold sizeof_ip, zlen. simpl. lia.
Qed.

Lemma returned_bytes h n1 : offender h n1 -> Forall is_byte (returned h n1).
Proof.
  intros [Hw Hl Hf Hb]. destruct Hw. unfold returned, ip_rest, be16, be32, le16. rewrite !Forall_app.
  split_and!; try done; try (repeat constructor; try lia; apply Z.mod_pos_bound; lia). by apply Forall_take, Forall_drop.
Qed.

Lemma error_word_ok e type code dest ifp : 0 <= code < 256 -> zlen (error_word e type code dest ifp).1 = 4 /\ Forall is_byte (error_word e type code dest ifp).1 /\
  is_byte (error_word e type code dest ifp).2.
Proof.
  intros Hc. assert (H0 : Forall is_byte [0; 0; 0; 0]) by (by repeat constructor). assert (Hm : forall v, is_byte (v mod 256)) by (intros v; apply Z.mod_pos_bound; lia).
  unfold error_word, be16, be32. repeat case_match; cbn [fst snd app]; split_and!; try done; repeat (apply Forall_cons_2; [done || apply Hm|]); apply Forall_nil_2.
Qed.

(** The header of the message *)
Definition error_hdr (h : ip) (n : Z) : ip := h <| ip_len := n |> <| ip_hl := 5 |> <| ip_p := IPPROTO_ICMP |> <| ip_tos := 0 |> <| ip_opts := [] |>.

Lemma error_hdr_wf h n : ip_wf h -> -32768 <= n < 32768 -> ip_wf (error_hdr h n).
Proof. intros [] Hn. by split. Qed.

Lemma error_packet_ok e h n1 m type code dest ifp :
  offender h n1 -> m_off m = sizeof_pkthdr -> 0 <= type <= ICMP_MAXTYPE -> 0 <= code < 256 ->
  let '(word, c) := error_word e type code dest ifp in
  exists m', error_packet e h n1 m type code dest ifp = Ret (error_hdr h (zlen (returned h n1) + 28), m') /\
    m_bytes m' = host_ip (error_hdr h (zlen (returned h n1) + 28)) ++ [type; c] ++ [0; 0] ++ word ++ returned h n1 /\ m_rcvif m' = m_rcvif n1.
Proof.
  intros Ho Hoff Ht Hc. pose proof Ho as [Hw Hl _ _]. pose proof (hlen_eq h). pose proof (iw_hl _ Hw). pose proof (returned_len h n1 Ho) as Hz.
  destruct (error_word e type code dest ifp) as [word c] eqn:Ew. pose proof (error_word_ok e type code dest ifp Hc) as (_ & _ & Hcb). rewrite Ew in Hcb. cbn [snd] in Hcb.
  unfold error_packet. rewrite cmin_8 by lia. unfold ICMP_MAXTYPE in *. rewrite u32_id by lia. destruct (Z.gtb_spec type 18); [lia|]. rewrite Ew, (quote_ok h n1 Ho). cbn [obind].
  unfold MH_ALIGN. rec_simpl. rewrite Hoff. unfold ICMP_MINLEN, MHLEN, sizeof_ip. set (l := hlen_of h + Z.min 8 (ip_len h)) in *.
  assert (Hcl : 20 <= clrb (100 - (l + 8)) 3).
  { unfold clrb. change 3 with (Z.ones 2). rewrite Z.ldiff_ones_r, Z.shiftl_mul_pow2, Z.shiftr_div_pow2 by lia. change (2 ^ 2) with 4. Z.to_euclidean_division_equations; lia. }
  destruct (Z.ltb_spec (sizeof_pkthdr + clrb (100 - (l + 8)) 3 - 20) sizeof_pkthdr); [lia|]. rewrite s16_id by lia. replace (l + 8 + 20) with (zlen (returned h n1) + 28) by lia.
  unfold is_byte in Hcb. rewrite (u8_id c) by lia. eexists. split; [reflexivity|]. by rec_simpl.
Qed.

Lemma m_gethdr_nofail p t : mp_fail p = [] -> m_gethdr p t = (Some (mkMbuf sizeof_pkthdr [] t M_PKTHDR 0 0 0 0), p).
Proof. unfold m_gethdr, pool_alloc. by intros ->. Qed.

Lemma offender_size h n1 : offender h n1 -> 20 <= zlen (returned h n1) <= 68.
Proof. intros Ho. rewrite (returned_len h n1 Ho). destruct Ho as [Hw Hl _ _]. pose proof (hlen_eq h). pose proof (iw_hl _ Hw). lia. Qed.

(** The message that goes out *)
Definition error_sent (e : inenv) (h : ip) (n1 : mbuf) (type code dest : Z) (ifp : option Z) (a : Z) (rt : iprt) (s o : ipost) : Prop :=
  let '(word, c) := error_word e type code dest ifp in
  exists f, io_out o = (rt_ifp rt, next_hop rt (ip_src h), f) :: io_out s /\
    wire_packet (summed (filled (io_id s) (turned a (error_hdr h (zlen (returned h n1) + 28))))) (icmp_msg type c (word ++ returned h n1)) (chain_bytes f).

Lemma icmp_error_ok e s h n1 ns type code dest ifp a rt :
  offender h n1 -> error_refused h n1 type = false -> 0 <= type <= ICMP_MAXTYPE -> 0 <= code < 256 -> mp_fail (ii_pool s) = [] ->
  can_answer e s h (m_rcvif n1) a rt -> 96 <= if_mtu (ie_out e) (rt_ifp rt) ->
  exists o, icmp_error e s h (n1 :: ns) type code dest ifp = Ret (s <| ii_out := o |>) /\ error_sent e h n1 type code dest ifp a rt (ii_out s) o.
Proof.
  intros Ho Hr Ht Hc Hp Hca Hmtu. unfold icmp_error, error_sent. rewrite Hr, (m_gethdr_nofail _ _ Hp). pose proof (offender_size h n1 Ho) as Hz.
  set (m0 := mkMbuf _ _ _ _ _ _ _ _). pose proof (error_packet_ok e h n1 m0 type code dest ifp Ho eq_refl Ht Hc) as Hpk.
  pose proof (error_word_ok e type code dest ifp Hc) as (Hw4 & Hwb & Hcb). destruct (error_word e type code dest ifp) as [word c]. cbn [fst snd] in *.
  destruct Hpk as (m' & -> & Em & Erc). cbn [obind]. set (nh := error_hdr h _) in *. pose proof (of_wf _ _ Ho) as Hw.
  assert (Hwn : ip_wf nh) by (apply error_hdr_wf; [done|lia]).
  assert (Hrest : zlen (word ++ returned h n1) = 4 + zlen (returned h n1)) by (rewrite zlen_app; lia).
  assert (Hz20 : zlen (host_ip nh) = 20) by (by apply host_ip_20).
  destruct (icmp_reflect_wire e (with_pool (ii_pool s) s) nh m' [] (host_ip nh) type c 0 0 (word ++ returned h n1) a rt) as (o & f & -> & Eo & Hwp); try done.
  - rewrite Erc. apply (can_answer_same e s _ h); try done. by destruct s as [[] ? ? ? ? ?].
  - by rewrite chain_bytes_one.
  - unfold m_len. rewrite Em, !zlen_app, Hz20. change (zlen [type; c]) with 2. change (zlen [0; 0]) with 2. pose proof (zlen_nonneg word). lia.
  - by apply host_ip_bytes.
  - unfold is_byte, ICMP_MAXTYPE in *. lia.
  - apply Forall_app. split; [done|by apply returned_bytes].
  - change (ip_len nh) with (zlen (returned h n1) + 28). lia.
  - lia.
  - change (ip_len nh) with (zlen (returned h n1) + 28). lia.
  - cbn [obind]. eexists. split; [by destruct s as [[] ? ? ? ? ?]|]. exists f. split; [exact Eo|done].
Qed.

(** *** When nothing is sent, in terms of the packet *)

(** The informational types of RFC 792, 950, 1256: an ICMP message of any other type reports an error. *)
Definition informational : list Z := [0; 8; 9; 10; 13; 14; 15; 16; 17; 18].

(** A later fragment (or one with the reserved bit), an ICMP message of an error type
    with its eight bytes in the first mbuf, unless the answer is a redirect, and a packet
    that came as a link-level broadcast or multicast. *)
Definition unanswered (h : ip) (n1 : mbuf) (type : Z) : Prop :=
  ip_off h mod 8192 <> 0 \/ ip_off h < 0 \/
  (ip_p h = 1 /\ type <> 5 /\ hlen_of h + 8 <= m_len n1 /\ peek (m_bytes n1) (hlen_of h) ∉ informational) \/
  Z.testbit (m_flags n1) 8 = true \/ Z.testbit (m_flags n1) 9 = true.

(** The word behind the checksum and the code: the gateway of a redirect, the position of a
    bad parameter, the MTU of the interface that a packet does not fit, or zeros. *)
Definition error_fields (e : inenv) (type code dest : Z) (ifp : option Z) (word : list Z) (c : Z) : Prop :=
  (type = 5 /\ word = be32 dest /\ c = code) \/
  (type = 12 /\ word = [code; 0; 0; 0] /\ c = 0) \/
  (exists i, ifp = Some i /\ type = 3 /\ code = 4 /\ word = [0; 0] ++ be16 (u16 (if_mtu (ie_out e) i)) /\ c = code) \/
  (type <> 5 /\ type <> 12 /\ (type = 3 -> code = 4 -> ifp = None) /\ word = [0; 0; 0; 0] /\ c = code).

Lemma error_word_fields e type code dest ifp : 0 <= code < 256 ->
  error_fields e type code dest ifp (error_word e type code dest ifp).1 (error_word e type code dest ifp).2.
Proof.
  intros Hc. unfold error_fields, error_word, ICMP_REDIRECT, ICMP_PARAMPROB, ICMP_UNREACH, ICMP_UNREACH_NEEDFRAG.
  destruct (Z.eqb_spec type 5) as [->|H5]; [by left|]. destruct (Z.eqb_spec type 12) as [->|H12]; [right; left; cbn [fst snd]; by rewrite u8_id by lia|].
  right; right. destruct ifp as [i|]; [|right; by split_and!].
  destruct (Z.eqb_spec type 3) as [->|H3]; [|right; by split_and!]. destruct (Z.eqb_spec code 4) as [->|H4]; [|right; by split_and!].
  left. by exists i.
Qed.

Lemma later_fragment x : -32768 <= x < 32768 -> negb (clrb x (Z.lor IP_MF IP_DF) =? 0) = true <-> x mod 8192 <> 0 \/ x < 0.
Proof.
  intros Hx. change (Z.lor IP_MF IP_DF) with 24576. unfold clrb. rewrite negb_true_iff, Z.eqb_neq.
  assert (H : Z.ldiff x 24576 = 0 <-> x mod 8192 = 0 /\ 0 <= x); [|lia]. split.
  - intros E. pose proof (Z.lor_ldiff_and x 24576) as El. rewrite E, Z.lor_0_l in El. split.
    + change 8192 with (2 ^ 13). rewrite <- Z.land_ones, <- El, <- Z.land_assoc by lia. apply Z.land_0_r.
    + rewrite <- El. apply Z.land_nonneg. lia.
  - intros [E H0]. assert (x = 0 \/ x = 8192 \/ x = 16384 \/ x = 24576) as [->|[->|[->| ->]]] by (Z.to_euclidean_division_equations; lia); done.
Qed.
Lemma infotype_spec t : ICMP_INFOTYPE t = false <-> t ∉ informational.
Proof.
  unfold ICMP_INFOTYPE, informational, ICMP_ECHOREPLY, ICMP_ECHO, ICMP_ROUTERADVERT, ICMP_ROUTERSOLICIT, ICMP_TSTAMP, ICMP_TSTAMPREPLY, ICMP_IREQ,
    ICMP_IREQREPLY, ICMP_MASKREQ, ICMP_MASKREPLY. rewrite !not_elem_of_cons, !orb_false_iff, !Z.eqb_neq. pose proof (not_elem_of_nil t). intuition.
Qed.
Lemma cast_spec w : hasf w (Z.lor M_BCAST M_MCAST) = true <-> Z.testbit w 8 = true \/ Z.testbit w 9 = true.
Proof.
  rewrite hasf_lor, orb_true_iff. change M_BCAST with (2 ^ 8). change M_MCAST with (2 ^ 9). by rewrite !hasf_pow by lia.
Qed.

Lemma error_refused_spec h n1 type : ip_wf h -> error_refused h n1 type = true <-> unanswered h n1 type.
Proof.
  intros Hw. unfold error_refused, unanswered. rewrite !orb_true_iff, !andb_true_iff, (later_fragment _ (iw_off _ Hw)), cast_spec, (negb_true_iff (ICMP_INFOTYPE _)), infotype_spec,
    negb_true_iff, Z.eqb_neq, Z.eqb_eq, Z.geb_le. unfold IPPROTO_ICMP, ICMP_REDIRECT, ICMP_MINLEN. intuition.
Qed.

Lemma icmp_error_refused e s h n1 ns type code dest ifp : ip_wf h -> unanswered h n1 type ->
  icmp_error e s h (n1 :: ns) type code dest ifp = Ret (with_pool (m_freem (ii_pool s) (n1 :: ns)) s).
Proof. intros Hw Hu. unfold icmp_error. by rewrite (proj2 (error_refused_spec h n1 type Hw) Hu). Qed.

(** A message of an error type is not the cause of another error. *)
Lemma error_about_error h k1 ks hb t c rest type :
  chain_bytes (k1 :: ks) = hb ++ icmp_msg t c rest -> zlen hb = hlen_of h -> hlen_of h + 8 <= m_len k1 -> ip_p h = 1 ->
  t ∉ informational -> type <> 5 -> unanswered h k1 type.
Proof.
  intros Hcb Hz Hl Hp Ht Hty. rewrite chain_bytes_cons in Hcb. destruct (app_prefix _ _ _ _ Hcb) as (d & Ed & Er); [unfold m_len in Hl; lia|].
  destruct d as [|t' d]; [unfold m_len in Hl; rewrite Ed, app_nil_r in Hl; lia|]. unfold icmp_msg in Er. cbv zeta in Er. injection Er as <- _.
  right; right; left. split_and!; try done.
  assert (Ek : peek (m_bytes k1) (hlen_of h) = t).
  { unfold peek, get. rewrite <- Hz, Ed. rewrite app_nth2; unfold zlen; rewrite Nat2Z.id; [|lia]. by rewrite Nat.sub_diag. }
  by rewrite Ek.
Qed.

(** C18: errors are reported and not answered.  For a packet whose header and first eight
    bytes are in its first mbuf, with free mbufs and a route back, icmp_error always succeeds.
    It hands nothing to an interface about a later fragment (an offset that is not 0, or the
    reserved bit), about an ICMP message of a type that is not informational (unless the answer
    is a redirect), and about a link-level broadcast or multicast.  In every other case it hands the
    interface exactly one frame, from the address that answers to the sender of the packet: a
    valid IP header with the time to live of the packet, and a message of the type and code
    with a checksum that verifies, which has the gateway, the pointer or the MTU in its
    second word and returns the header and the first eight bytes.  When the type is an error,
    no host that gets the message, in any layout that has eight of its bytes in the first mbuf,
    sends an error about it. *)
Theorem icmp_error_correct e s h n1 ns type code dest ifp a rt :
  offender h n1 -> 0 <= type <= ICMP_MAXTYPE -> 0 <= code < 256 -> mp_fail (ii_pool s) = [] ->
  can_answer e s h (m_rcvif n1) a rt -> 96 <= if_mtu (ie_out e) (rt_ifp rt) ->
  exists o, icmp_error e s h (n1 :: ns) type code dest ifp = Ret (s <| ii_out := o |>) /\
    (unanswered h n1 type -> io_out o = io_out (ii_out s)) /\
    (~ unanswered h n1 type -> exists word c f, error_fields e type code dest ifp word c /\
       io_out o = (rt_ifp rt, next_hop rt (ip_src h), f) :: io_out (ii_out s) /\
       wire_packet (summed (filled (io_id (ii_out s)) (turned a (error_hdr h (zlen (returned h n1) + 28)))))
         (icmp_msg type c (word ++ returned h n1)) (chain_bytes f)) /\
    (type ∉ informational -> forall e' s' h' k1 ks hb c rest type' code' dest' ifp', ip_wf h' ->
      chain_bytes (k1 :: ks) = hb ++ icmp_msg type c rest -> zlen hb = hlen_of h' -> hlen_of h' + 8 <= m_len k1 -> ip_p h' = 1 -> type' <> 5 ->
      exists s'', icmp_error e' s' h' (k1 :: ks) type' code' dest' ifp' = Ret s'' /\ io_out (ii_out s'') = io_out (ii_out s')).
Proof.
  intros Ho Ht Hc Hp Hca Hmtu. pose proof (of_wf _ _ Ho) as Hw.
  assert (Habout : type ∉ informational -> forall e' s' h' k1 ks hb c rest type' code' dest' ifp', ip_wf h' ->
      chain_bytes (k1 :: ks) = hb ++ icmp_msg type c rest -> zlen hb = hlen_of h' -> hlen_of h' + 8 <= m_len k1 -> ip_p h' = 1 -> type' <> 5 ->
      exists s'', icmp_error e' s' h' (k1 :: ks) type' code' dest' ifp' = Ret s'' /\ io_out (ii_out s'') = io_out (ii_out s')).
  { intros Hi e' s' h' k1 ks hb c rest type' code' dest' ifp' Hw' ? ? ? ? ?. eexists. split; [apply icmp_error_refused; [done|by apply (error_about_error h' k1 ks hb type c rest)]|done]. }
  destruct (error_refused h n1 type) eqn:Er.
  - apply error_refused_spec in Er; [|done]. exists ((ii_out s) <| io_pool := m_freem (ii_pool s) (n1 :: ns) |>).
    split; [by rewrite icmp_error_refused|]. by split_and!.
  - destruct (icmp_error_ok e s h n1 ns type code dest ifp a rt Ho Er Ht Hc Hp Hca Hmtu) as (o & E & Hs). exists o. split; [done|].
    split; [intros Hu; apply error_refused_spec in Hu; [congruence|done]|]. split; [|done]. intros _. unfold error_sent in Hs.
    pose proof (error_word_fields e type code dest ifp Hc) as Hf. destruct (error_word _ _ _ _ _) as [word c]. destruct Hs as (f & Hf1 & Hf2). by exists word, c, f.
Qed.

(** ** A packet whose time to live has run out *)

Lemma le16_swap v : 0 <= v < 65536 -> le16 (swap16 v) = be16 v.
Proof. intros Hv. unfold le16, swap16, be16. f_equal; [|f_equal]; Z.to_euclidean_division_equations; lia. Qed.

(** What is returned of a packet without options: its length is 20 too large, the bytes of
    the fragment offset are swapped, and the checksum is 0. *)
Definition returned_wire (h : ip) (data : list Z) : list Z :=
  [ip_v h * 16 + ip_hl h; ip_tos h] ++ be16 (ip_len h + 20) ++ be16 (ip_id h) ++ le16 (ip_off h) ++ [ip_ttl h; ip_p h; 0; 0] ++ be32 (ip_src h) ++ be32 (ip_dst h) ++ ztake 8 data.

Lemma returned_wire_ok h data m1 ms : ip_wf h -> hlen_of h = 20 -> ip_len h = 20 + zlen data -> chain_bytes (m1 :: ms) = encode_ip h ++ data -> 20 + Z.min 8 (zlen data) <= m_len m1 ->
  returned (net_id (h <| ip_sum := 0 |>)) m1 = returned_wire h data.
Proof.
  intros Hw Hh Hl Hcb Hm. pose proof (zlen_nonneg data). rewrite chain_bytes_cons in Hcb.
  assert (Hz : zlen (encode_ip h) = 20) by (by rewrite encode_ip_hlen).
  destruct (app_prefix _ _ _ _ Hcb) as (d & Ed & Er); [unfold m_len in Hm; lia|]. unfold returned, returned_wire.
  change (hlen_of (net_id (h <| ip_sum := 0 |>))) with (hlen_of h). change (ip_id (net_id (h <| ip_sum := 0 |>))) with (swap16 (ip_id h)). change (ip_rest (net_id (h <| ip_sum := 0 |>))) with (ip_rest h).
  rewrite Hh, (le16_swap _ (iw_id _ Hw)). unfold ip_rest. rewrite (no_opts h Hw Hh), app_nil_r. rec_simpl.
  assert (Ed2 : zsub 20 (Z.min 8 (ip_len h)) (m_bytes m1) = ztake 8 data).
  { unfold zsub. rewrite Ed, zdrop_app_ge by lia. rewrite Hz, zdrop_le0 by lia. unfold m_len in Hm. rewrite Ed, zlen_app in Hm.
    pose proof (zlen_nonneg (chain_bytes ms)). assert (Hdl : zlen data = zlen d + zlen (chain_bytes ms)) by (by rewrite Er, zlen_app).
    destruct (Z.le_gt_cases 8 (zlen data)); [rewrite Er, ztake_app_le by lia; f_equal; lia|].
    assert (chain_bytes ms = []) as Ee by (apply zlen_0; lia). rewrite Er, Ee, app_nil_r. rewrite Ee, app_nil_r in Er. by rewrite !ztake_ge by lia. }
  change (ip_len (net_id (h <| ip_sum := 0 |>))) with (ip_len h). rewrite Ed2. by rewrite <- app_assoc.
Qed.

(** A probe: a packet from a host that can be answered, which is not an ICMP message, a later fragment
    or a broadcast, has eight bytes of data and has run out of time. *)
Record probe (h : ip) (data : list Z) (c : chain) : Prop := {
  pr_hl : hlen_of h = 20;
  pr_ttl : ip_ttl h <= 1;
  pr_data : 8 <= zlen data <= 32000;
  pr_first : clrb (ip_off h) (Z.lor IP_MF IP_DF) = 0;
  pr_proto : ip_p h <> IPPROTO_ICMP;
  pr_cast : forall m1 ms, c = m1 :: ms -> hasf (m_flags m1) (Z.lor M_BCAST M_MCAST) = false
}.

Lemma probe_bcast h data c : probe h data c -> not_bcast c.
Proof.
  intros Hp m1 ms Ec. pose proof (pr_cast _ _ _ Hp m1 ms Ec) as Hf. unfold hasf in *. apply negb_false_iff, Z.eqb_eq in Hf. apply negb_false_iff, Z.eqb_eq.
  rewrite Z.land_lor_distr_r in Hf. by apply Z.lor_eq_0_iff in Hf as [Hf _].
Qed.

(** C17: traceroute sees the gateway.  Let a probe arrive at a gateway in any layout of mbufs
    that has 28 bytes in the first.  ipintr sends nothing and raises one error, and
    icmp_error makes of it exactly one frame, to the sender of the probe: time exceeded,
    code 0, from the address of the gateway, with a checksum that verifies, the header of
    the probe with its identification, protocol, addresses and eight bytes of data, by which
    the sender knows its probe.  The message goes out with the time to live that the probe has
    left, and the returned header has a length 20 too large, a swapped fragment offset and
    no checksum. *)
Theorem traceroute_hop e s h data b c a rt rtb :
  gateway e s h rt -> wire_packet h data b -> received 28 b c -> probe h data c ->
  mp_fail (ii_pool s) = [] -> (forall i, can_answer e s h i a rtb) -> 96 <= if_mtu (ie_out e) (rt_ifp rtb) ->
  let h0 := net_id (h <| ip_sum := 0 |>) in
  exists s1 m s2 hd f, ip_input1 e s c = Ret s1 /\ io_out (ii_out s1) = io_out (ii_out s) /\
    ii_icmp s1 = mkIcmp h0 m ICMP_TIMXCEED 0 0 None :: ii_icmp s /\ icmp_error e s1 h0 m ICMP_TIMXCEED 0 0 None = Ret s2 /\
    io_out (ii_out s2) = (rt_ifp rtb, next_hop rtb (ip_src h), f) :: io_out (ii_out s) /\
    wire_packet hd (icmp_msg ICMP_TIMXCEED 0 ([0; 0; 0; 0] ++ returned_wire h data)) (chain_bytes f) /\
    ip_src hd = a /\ ip_dst hd = ip_src h /\ ip_p hd = IPPROTO_ICMP /\ ip_ttl hd = ip_ttl h.
Proof.
  intros Hg Hwp Hc Hpr Hp Hca Hmtu h0. pose proof Hpr as [Hh Httl Hd Hoff Hpi Hcast]. pose proof Hwp as [Hw Hv Hl Hdb Hb _].
  assert (Hzb : zlen b = 20 + zlen data) by (rewrite Hb, zlen_app, (encode_ip_hlen _ Hw); lia).
  destruct (forward_expired 28 e s h data b c rt Hg Hwp Hh ltac:(lia) Hc (probe_bcast _ _ _ Hpr) Httl)
    as (s1 & m1 & ms & E & _ & _ & Eo & Ei & Hcb & Hm1 & m0 & t & Ec & Er & Ef). fold h0 in Ei.
  assert (Hw0 : ip_wf h0) by (destruct Hw; split; unfold h0, net_id, swap16, hlen_of in *; rec_simpl; try done; Z.to_euclidean_division_equations; lia).
  assert (Eh0 : hlen_of h0 = 20 /\ ip_len h0 = 20 + zlen data) by (split; [done|change (ip_len h0) with (ip_len h); lia]). destruct Eh0 as [Eh0 El0].
  assert (Hof : offender h0 m1).
  { split; [done|lia|lia|]. assert (Hall : Forall is_byte (chain_bytes (m1 :: ms))) by (rewrite Hcb, Hb; apply Forall_app; split; [by apply encode_ip_bytes|done]).
    rewrite chain_bytes_cons in Hall. by apply Forall_app in Hall as [? _]. }
  assert (Href : error_refused h0 m1 ICMP_TIMXCEED = false).
  { unfold error_refused. change (ip_off h0) with (ip_off h). change (ip_p h0) with (ip_p h). by rewrite Hoff, Ef, (Hcast m0 t Ec), (proj2 (Z.eqb_neq _ _) Hpi). }
  assert (Hp1 : mp_fail (ii_pool s1) = []) by (unfold ii_pool; by rewrite Eo).
  destruct (icmp_error_ok e s1 h0 m1 ms ICMP_TIMXCEED 0 0 None a rtb Hof Href) as (o & Ee & Hs); try done; [by apply (can_answer_same e s _ h)|].
  unfold error_sent in Hs. change (error_word e ICMP_TIMXCEED 0 0 None) with ([0; 0; 0; 0], 0) in Hs. destruct Hs as (f & Hf & Hwf).
  assert (Erw : returned h0 m1 = returned_wire h data) by (apply (returned_wire_ok h data m1 ms); [done|done|lia|by rewrite Hcb|lia]). rewrite Erw in Hwf.
  eexists s1, (m1 :: ms), (s1 <| ii_out := o |>), _, f. split; [exact E|]. split; [by rewrite Eo|]. split; [exact Ei|]. split; [exact Ee|].
  split; [change (io_out (ii_out (s1 <| ii_out := o |>))) with (io_out o); by rewrite Hf, Eo|].
  split; [exact Hwf|]. by split_and!.
Qed.

(** 10.0.0.1 probes 11.0.2.1 through 10.0.0.2. *)
Definition rt10b : iprt := mkIprt 1 1 167772162 0.
Definition hop_env : inenv :=
  mkInenv
    (mkIpenv (fun d => if Z.shiftr d 24 =? 11 then Some rt11 else Some rt10b) (fun _ => None) (fun _ => None) (fun _ => 1500) (fun _ => 2)
       (fun _ _ => false) (fun _ _ => false) (fun _ => None) 0 16 0)
    [mkIa 167772162 1 184549375 0 167772160 167772160 4278190080] (fun _ => None) (fun _ _ => None) (fun _ => None) (fun _ => 184549376)
    0 true true 40.
Definition hop_hdr : ip := summed (mkIp 4 5 0 32 9 0 1 17 0 167772161 184549633 []).
Definition hop_data : list Z := [4; 0; 130; 155; 0; 12; 0; 0; 1; 2; 3; 4].
Definition hop_in : chain := [mkMbuf 16 (encode_ip hop_hdr ++ hop_data) MT_DATA M_PKTHDR 32 1 0 0].

Lemma hop_wire : wire_packet hop_hdr hop_data (encode_ip hop_hdr ++ hop_data).
Proof.
  split; try reflexivity.
  - split; vm_compute; intuition congruence || constructor.
  - repeat constructor; vm_compute; congruence.
Qed.

Lemma hop_answer i : can_answer hop_env inst0 hop_hdr i 167772162 rt10b.
Proof. split; [by left|done|done|]. by split. Qed.

Lemma traceroute_hop_witness :
  exists s1 m s2 f, ip_input1 hop_env inst0 hop_in = Ret s1 /\ icmp_error hop_env s1 (net_id (hop_hdr <| ip_sum := 0 |>)) m ICMP_TIMXCEED 0 0 None = Ret s2 /\
    io_out (ii_out s2) = [(1, 167772161, f)].
Proof.
  destruct (traceroute_hop hop_env inst0 hop_hdr hop_data (encode_ip hop_hdr ++ hop_data) hop_in 167772162 rt11 rt10b) as (s1 & m & s2 & hd & f & A1 & _ & _ & A2 & A3 & _).
  - split; try done; try (by left); vm_compute; congruence.
  - apply hop_wire.
  - split.
    + exists []. split; [reflexivity|constructor].
    + repeat constructor; vm_compute; intuition congruence.
    + vm_compute. reflexivity.
    + eexists _, _. split; [reflexivity|]. split_and!; vm_compute; congruence.
  - split; try (vm_compute; intuition congruence). intros m1 ms [= <- <-]. reflexivity.
  - reflexivity.
  - apply hop_answer.
  - vm_compute. congruence.
  - exists s1, m, s2, f. split; [exact A1|]. split; [exact A2|exact A3].
Defined.

Definition bad_mbuf : mbuf := mkMbuf 16 (encode_ip hop_hdr ++ hop_data) MT_DATA M_PKTHDR 32 1 0 0.

Lemma icmp_error_correct_witness :
  exists o f, icmp_error hop_env inst0 hop_hdr [bad_mbuf] ICMP_UNREACH 3 0 None = Ret (inst0 <| ii_out := o |>) /\ io_out o = [(1, 167772161, f)].
Proof.
  destruct (icmp_error_correct hop_env inst0 hop_hdr bad_mbuf [] ICMP_UNREACH 3 0 None 167772162 rt10b) as (o & E & _ & H & _).
  - split; [exact (wp_wf _ _ _ hop_wire)|vm_compute; intuition congruence|vm_compute; congruence|].
    apply (bool_decide_unpack (Forall (fun x => 0 <= x < 256) _)). vm_compute. exact I.
  - vm_compute. intuition congruence.
  - lia.
  - reflexivity.
  - apply hop_answer.
  - vm_compute. congruence.
  - destruct H as (word & c & f & _ & Hf & _).
    + unfold unanswered. vm_compute. intuition congruence.
    + exists o, f. split; [exact E|exact Hf].
Defined.

End IcmpErrOk.
