(* ===== verification/Raw.v ===== *)
(** Raw IP sockets (src/sys/netinet/raw_ip.c).

    A raw control block is a control block of the list rawinpcb, which is kept in an [ust] as
    that of UDP is, with the protocol of its header prototype ([inp_ip.ip_p]) beside it. *)
From S2P Require Import Prelude Mbuf Cksum SockBuf Socket TcpVar InPcb TcpHdr IpHdr TcpSubr IpReass IpOutput IpInput Udp.
Import Mbuf Cksum SockBuf Socket TcpVar InPcb TcpHdr IpHdr IpReass IpOutput IpInput Udp.

Module Raw.

Definition SS_PRIV : Z := 128.
Definition INP_HDRINCL : Z := 8.
Definition MAXTTL : Z := 255.
Definition EAFNOSUPPORT : Z := 47.
Definition AF_INET : Z := 2.
Definition AF_IMPLINK : Z := 3.
Definition IPPROTO_IP : Z := 0.
Definition IP_HDRINCL : Z := 2.
Definition DVMRP_INIT : Z := 100.

#[global] Instance set_u_flags : Setter u_flags := ltac:(mk_setter eta_udpcb).

Record rst := mkRst {
  rs_u : ust;              (* rawinpcb, the sockets and IP *)
  rs_proto : Z -> Z        (* inp_ip.ip_p of a control block *)
}.
Definition eta_rst (r : rst) : rst := mkRst (rs_u r) (rs_proto r).
#[global] Instance set_rs_u : Setter rs_u := ltac:(mk_setter eta_rst).
#[global] Instance set_rs_proto : Setter rs_proto := ltac:(mk_setter eta_rst).

(** ** Input *)

(** Does a control block take a packet? *)
Definition raw_match (proto : Z -> Z) (h : ip) (u : udpcb) : bool :=
  ((proto (u_id u) =? 0) || (proto (u_id u) =? ip_p h)) &&
  ((inp_laddr (u_inp u) =? 0) || (inp_laddr (u_inp u) =? ip_dst h)) &&
  ((inp_faddr (u_inp u) =? 0) || (inp_faddr (u_inp u) =? ip_src h)).

(** A copy for the socket that matched last *)
Definition raw_copy (p : mpool) (pcbs : list udpcb) (asa : list Z) (m : chain) (last : option Z) : outcome (mpool * list udpcb) :=
  match last with
  | None => Ret (p, pcbs)
  | Some id =>
      let! (n, p) := m_copym p m 0 M_COPYALL in
      match n with
      | None => Ret (p, pcbs)
      | Some n =>
          let! (ok, p, pcbs) := deliver_to p pcbs id asa n [] in
          Ret (if ok : bool then p else m_freem p n, pcbs)
      end
  end.

Fixpoint rip_loop (proto : Z -> Z) (l : list udpcb) (p : mpool) (pcbs : list udpcb) (h : ip) (asa : list Z) (m : chain) (last : option Z)
    : outcome (mpool * list udpcb * option Z) :=
  match l with
  | [] => Ret (p, pcbs, last)
  | u :: l =>
      if negb (raw_match proto h u) then rip_loop proto l p pcbs h asa m last
      else
        let! (p, pcbs) := raw_copy p pcbs asa m last in
        rip_loop proto l p pcbs h asa m (Some (u_id u))
  end.

(** [rip_input]: the last socket that matches gets the packet, the others copies. *)
Definition rip_input (s : rst) (h : ip) (m : chain) : outcome rst :=
  let asa := sockaddr_in (ip_src h) 0 in
  let us := rs_u s in
  let! (p, pcbs, last) := rip_loop (rs_proto s) (us_pcbs us) (us_pool us) (us_pcbs us) h asa m None in
  let us := set_pool p us <| us_pcbs := pcbs |> in
  match last with
  | None => Ret (s <| rs_u := us_free m us |>)
  | Some id =>
      let! (ok, p, pcbs) := deliver_to (us_pool us) (us_pcbs us) id asa m [] in
      let us := set_pool p us <| us_pcbs := pcbs |> in
      Ret (s <| rs_u := if ok : bool then us else us_free m us |>)
  end.

(** ** Output *)

(** The header that a user has put in front of the data: its length and offset are in host
    order. *)
Definition host_decode (l : list Z) : ip :=
  let rd i := get l i + 256 * get l (S i) in
  (decode_ip l) <| ip_len := s16 (rd 2%nat) |> <| ip_off := s16 (rd 6%nat) |>.

(** [rip_output]; the result is the error. *)
Definition rip_output (e : inenv) (s : rst) (u : udpcb) (m : chain) (dst : Z) : outcome (Z * rst) :=
  let flags := Z.lor (Z.land (so_options (u_so u)) SO_DONTROUTE) IP_ALLOWBROADCAST in
  let us := rs_u s in
  match m with
  | [] => Panic "rip_output: null mbuf"
  | m1 :: ms =>
      let! (us, h, m, opts, flags) :=
        (if negb (hasf (u_flags u) INP_HDRINCL) then
           match M_PREPEND (us_pool us) m1 ms (repeat 0 (Z.to_nat sizeof_ip)) with
           | (None, _) => Panic "rip_output: null mbuf"
           | (Some m, p) =>
               let len := match m with m1 :: _ => m_pktlen m1 | [] => 0 end in
               Ret (set_pool p us, mkIp 0 0 0 (s16 len) 0 0 MAXTTL (rs_proto s (u_id u)) 0 (inp_laddr (u_inp u)) dst [], m, u_opt u, flags)
           end
         else if m_len m1 <? sizeof_ip then Panic "rip_output: header outside the mbuf"
         else
           let h := host_decode (m_bytes m1) in
           let o := ii_out (us_ip us) in
           let '(h, o) := if ip_id h =? 0 then (h <| ip_id := io_id o |>, o <| io_id := u16 (io_id o + 1) |>) else (h, o) in
           Ret (us <| us_ip := (us_ip us) <| ii_out := o |> |>, h, m, None, Z.lor flags IP_RAWOUTPUT)) in
      let! (error, o, ro) := ip_output (ie_out e) (ii_out (us_ip us)) h m opts (Some (u_ro u)) flags (u_mopt u) in
      Ret (error, s <| rs_u := put_u (u <| u_ro := ro |>) (us <| us_ip := (us_ip us) <| ii_out := o |> |>) |>)
  end.

(** ** Options *)

(** The result of [rip_ctloutput]: an error with the value read, or the call is passed to
    ip_ctloutput. *)
Inductive ctlres := Ctl_done (error : Z) (value : option Z) (s : rst) | Ctl_ip.

Definition rip_ctloutput (set : bool) (s : rst) (u : udpcb) (level optname : Z) (m : option mbuf) : ctlres :=
  let free := match m with Some m => if set then s <| rs_u := us_free [m] (rs_u s) |> else s | None => s end in
  let flag (f : Z -> Z) s := s <| rs_u := put_u (u <| u_flags := f (u_flags u) |>) (rs_u s) |> in
  if negb (level =? IPPROTO_IP) then Ctl_done EINVAL None free
  else if optname =? IP_HDRINCL then
    if set then
      match m with
      | Some m1 => if m_len m1 <? 4 then Ctl_done EINVAL None free
                   else if existsb (fun b => negb (b =? 0)) (ztake 4 (m_bytes m1)) then Ctl_done 0 None (flag (fun f => setb f INP_HDRINCL) free)
                   else Ctl_done 0 None (flag (fun f => clrb f INP_HDRINCL) free)
      | None => Ctl_done EINVAL None s
      end
    else Ctl_done 0 (Some (Z.land (u_flags u) INP_HDRINCL)) s
  else if optname >=? DVMRP_INIT then Ctl_done EOPNOTSUPP None free
  else Ctl_ip.

(** ** Requests *)

(** A socket address: the length of its mbuf, the family and the address *)
Record rawaddr := mkRawaddr { ra_len : Z; ra_family : Z; ra_addr : Z }.

Inductive rawreq :=
| PRU_ATTACH (so : socket) (proto : Z) (inpok : bool)    (* inpok: MALLOC of the control block succeeds *)
| PRU_DISCONNECT
| PRU_ABORT
| PRU_DETACH
| PRU_BIND (nam : rawaddr)
| PRU_CONNECT (nam : rawaddr)
| PRU_CONNECT2
| PRU_SHUTDOWN
| PRU_SEND (m : chain) (nam : option rawaddr)
| PRU_SENSE
| PRU_SENDOOB (m : chain)
| PRU_RCVOOB
| PRU_RCVD
| PRU_LISTEN
| PRU_ACCEPT.

Definition rip_attach (e : udpenv) (s : rst) (so : socket) (proto : Z) (inpok : bool) : outcome (Z * rst) :=
  if negb (hasf (so_state so) SS_PRIV) then Ret (EACCES, s)
  else
    let us := rs_u s in
    let! (p, so, error) := soreserve (ud_sb_max e) (us_pool us) so (udp_sendspace e) (udp_recvspace e) in
    let us := set_pool p us in
    if negb (error =? 0) then Ret (error, s <| rs_u := us |>)
    else if negb inpok then Ret (ENOBUFS, s <| rs_u := us |>)
    else
      let id := us_next us in
      let u := mkUdpcb id (mkInp 0 0 0 0 None [] 0 0) so 0 None (mkRoute None 0) None in
      Ret (0, s <| rs_u := us <| us_next := id + 1 |> <| us_pcbs := u :: us_pcbs us |> |>
                <| rs_proto := fun i => if i =? id then u8 proto else rs_proto s i |>).

Definition rip_detach (s : rst) (u : udpcb) : outcome (Z * rst) :=
  let! us := in_pcbdetach (rs_u s) u in Ret (0, s <| rs_u := us |>).

Definition rip_abort (s : rst) (u : udpcb) : outcome (Z * rst) :=
  let u := u <| u_so := soisdisconnected (u_so u) |> in
  rip_detach (s <| rs_u := put_u u (rs_u s) |>) u.

(** [rip_usrreq] for the control block [o] of the socket, the requests that only copy an
    address out left out; the buffer space of raw sockets is in the environment.  A socket without
    control block can only be attached here.  The result is the error. *)
Definition rip_usrreq (e : udpenv) (s : rst) (o : option udpcb) (req : rawreq) : outcome (Z * rst) :=
  let ifnet := ifaces (ud_if e) in
  match o, req with
  | None, PRU_ATTACH so proto inpok => rip_attach e s so proto inpok
  | Some _, PRU_ATTACH _ _ _ => Panic "rip_attach"
  | None, _ => Panic "rip_usrreq: null inpcb"
  | Some _, PRU_SENSE => Ret (0, s)
  | Some _, PRU_SENDOOB m => Ret (EOPNOTSUPP, s <| rs_u := us_free m (rs_u s) |>)
  | Some _, (PRU_CONNECT2 | PRU_RCVOOB | PRU_RCVD | PRU_LISTEN | PRU_ACCEPT) => Ret (EOPNOTSUPP, s)
  | Some u, PRU_DISCONNECT => if negb (hasf (so_state (u_so u)) SS_ISCONNECTED) then Ret (ENOTCONN, s) else rip_abort s u
  | Some u, PRU_ABORT => rip_abort s u
  | Some u, PRU_DETACH => rip_detach s u
  | Some u, PRU_BIND nam =>
      if negb (ra_len nam =? 16) then Ret (EINVAL, s)
      else if negb ifnet || (negb (ra_family nam =? AF_INET) && negb (ra_family nam =? AF_IMPLINK)) ||
              (negb (ra_addr nam =? 0) && negb (InPcb.ifa_ifwithaddr (ud_if e) (ra_addr nam))) then Ret (EADDRNOTAVAIL, s)
      else Ret (0, s <| rs_u := put_u (u <| u_inp := (u_inp u) <| inp_laddr := ra_addr nam |> |>) (rs_u s) |>)
  | Some u, PRU_CONNECT nam =>
      if negb (ra_len nam =? 16) then Ret (EINVAL, s)
      else if negb ifnet then Ret (EADDRNOTAVAIL, s)
      else if negb (ra_family nam =? AF_INET) && negb (ra_family nam =? AF_IMPLINK) then Ret (EAFNOSUPPORT, s)
      else Ret (0, s <| rs_u := put_u (u <| u_inp := (u_inp u) <| inp_faddr := ra_addr nam |> |> <| u_so := soisconnected (u_so u) |>) (rs_u s) |>)
  | Some u, PRU_SHUTDOWN => Ret (0, s <| rs_u := put_u (u <| u_so := socantsendmore (u_so u) |>) (rs_u s) |>)
  | Some u, PRU_SEND m nam =>
      let bad error := Ret (error, s <| rs_u := us_free m (rs_u s) |>) in
      if hasf (so_state (u_so u)) SS_ISCONNECTED then
        match nam with
        | Some _ => bad EISCONN
        | None => rip_output (ud_in e) s u m (inp_faddr (u_inp u))
        end
      else
        match nam with
        | None => bad ENOTCONN
        | Some a => rip_output (ud_in e) s u m (ra_addr a)
        end
  end.

End Raw.
