(* ===== verification/RawOk.v ===== *)
(** Correctness of raw IP: a packet reaches every socket that takes it, and a process that
    pings another host reads the reply. *)
From S2P Require Import Prelude Mbuf Cksum SockBuf Socket TcpVar Sample InPcb TcpHdr IpHdr IpReass IpOutput IpInput IpFragOk IpInputOk IpForwardOk Udp UdpOk Raw Icmp IcmpOk.
Import Mbuf Cksum SockBuf Socket TcpVar InPcb TcpHdr IpHdr IpReass IpOutput IpInput IpFragOk IpInputOk IpForwardOk Udp UdpOk Raw.
Import Icmp IcmpOk.
#[local] Abbreviation rip_input := Raw.rip_input.

Module RawOk.

(** ** Copies *)

Lemma m_copym_loop_top p ms off0 off len h top c p' : m_copym_loop p ms off0 off len h top = Ret (Some c, p') -> exists r, c = rev top ++ r.
Proof.
  revert p off len h top. induction ms as [|m ms IH]; intros p off len h top; simpl.
  - destruct (_ >? _); [destruct (_ =? _)|]; intros E; simplify_eq; exists []; by rewrite app_nil_r.
  - destruct (_ >? _); [|intros E; simplify_eq; exists []; by rewrite app_nil_r]. destruct (m_get p (m_type m)) as [[n|] q]; [|done].
    intros [r ->]%IH. simpl. rewrite <- app_assoc. by eexists.
Qed.

Lemma m_copym_head p m1 ms len c q : mp_fail p = [] -> 0 < len -> m_copym_loop p (m1 :: ms) 0 0 len true [] = Ret (Some c, q) ->
  exists ns, c = m_copy1 (mkMbuf 0 [] (m_type m1) 0 0 0 0 0) m1 0 0 len true :: ns.
Proof.
  intros Hp Hl E. cbn [m_copym_loop] in E. destruct (Z.gtb_spec len 0); [|lia]. rewrite (m_get_nofail _ _ Hp) in E. apply m_copym_loop_top in E as [ns ->]. by exists ns.
Qed.

Lemma m_copy1_hdr t m len : hasf (m_flags m) M_PKTHDR = true ->
  let n := m_copy1 (mkMbuf 0 [] t 0 0 0 0 0) m 0 0 len true in
  hasf (m_flags n) M_PKTHDR = true /\ m_pktlen n = if len =? M_COPYALL then m_pktlen m else len.
Proof.
  intros Hk n. assert (Hf : hasf (Z.land (m_flags m) M_COPYFLAGS) M_PKTHDR = true).
  { unfold hasf in *. rewrite <- Z.land_assoc. by change (Z.land M_COPYFLAGS M_PKTHDR) with M_PKTHDR. }
  assert (He : m_pktlen n = if len =? M_COPYALL then m_pktlen m else len).
  { unfold n, m_copy1, M_COPY_PKTHDR. destruct (hasf (m_flags m) M_EXT); rec_simpl; destruct (len =? M_COPYALL); lia. }
  split; [|done]. unfold n, m_copy1, M_COPY_PKTHDR. destruct (hasf (m_flags m) M_EXT); rec_simpl; [|done].
  unfold hasf, setb in *. rewrite Z.land_lor_distr_l. apply negb_true_iff, Z.eqb_neq in Hf. apply negb_true_iff, Z.eqb_neq. intros H0. apply Z.lor_eq_0_iff in H0. tauto.
Qed.

(** A copy from the start of a packet *)
Lemma m_copym_pkt p m1 ms len : mp_fail p = [] -> hasf (m_flags m1) M_PKTHDR = true -> 0 < chain_len (m1 :: ms) < M_COPYALL -> len = M_COPYALL ->
  exists n1 ns p', m_copym p (m1 :: ms) 0 len = Ret (Some (n1 :: ns), p') /\ mp_fail p' = [] /\ chain_bytes (n1 :: ns) = chain_bytes (m1 :: ms) /\
    hasf (m_flags n1) M_PKTHDR = true /\ m_pktlen n1 = m_pktlen m1.
Proof.
  intros Hp Hk Hl Hlen. assert (Hl0 : 0 < len) by (rewrite Hlen; unfold M_COPYALL; lia).
  destruct (m_copym_loop_spec p (m1 :: ms) 0 0 len true []) as (r & q & El & Hne & Hr); [split; [done|pose proof (m_len_nonneg m1); lia]|lia|lia|by left|].
  specialize (Hne Hp). destruct r as [c|]; [|done]. destruct Hr as [Hb _]. pose proof (m_copym_loop_nofail _ _ _ _ _ _ _ _ _ Hp El) as Hq.
  destruct (m_copym_head _ _ _ _ _ _ Hp Hl0 El) as [ns ->]. destruct (m_copy1_hdr (m_type m1) m1 len Hk) as [Hk1 Hl1]. rewrite (proj2 (Z.eqb_eq _ _) Hlen) in Hl1.
  set (n1 := m_copy1 _ _ _ _ _ _) in *. exists n1, ns, q. split_and!; try done.
  - unfold m_copym. destruct (Z.ltb_spec len 0); [lia|]. cbn [orb Z.ltb Z.compare Z.eqb obind m_skip]. rewrite Hk. cbn [m_skip Z.gtb Z.compare obind]. by rewrite El.
  - rewrite Hb. simpl. unfold zsub. rewrite zdrop_le0 by done. apply ztake_ge. fold (chain_len (m1 :: ms)). lia.
Qed.

(** ** Delivery *)

Section Delivery.
Context (proto : Z -> Z) (h : ip) (data : list Z) (L : list udpcb).

#[local] Abbreviation asa := (sockaddr_in (ip_src h) 0).

(** A control block whose socket got the packet *)
Definition got (u v : udpcb) : Prop :=
  exists sb a m, v = u <| u_so := sorwakeup ((u_so u) <| so_rcv := sb |>) |> /\
    sb_mb sb = sb_mb (so_rcv (u_so u)) ++ [a :: m] /\ m_bytes a = asa /\ chain_bytes m = data.

Definition served (D : list Z) (u v : udpcb) : Prop := if bool_decide (u_id u ∈ D) then got u v else v = u.

Lemma served_id D u v : served D u v -> u_id v = u_id u.
Proof. unfold served. case_bool_decide; [|by intros ->]. by intros (sb & a & m & -> & _). Qed.

Lemma served_ids D pcbs l : Forall2 (served D) l pcbs -> u_id <$> pcbs = u_id <$> l.
Proof. induction 1 as [|u v l l' H _ IH]; [done|]. rewrite !fmap_cons, IH. by rewrite (served_id D u v). Qed.

(** The list after a delivery to one socket *)
Lemma served_find D l pcbs u : NoDup (u_id <$> l) -> Forall2 (served D) l pcbs -> u ∈ l -> u_id u ∉ D -> find_u (u_id u) pcbs = Some u.
Proof.
  intros Hnd H. revert Hnd. induction H as [|u0 v l l' Hv H IH]; intros Hnd Hu Hd; [by apply not_elem_of_nil in Hu|].
  rewrite fmap_cons in Hnd. inversion Hnd as [|? ? Hni Hnd']; subst. unfold find_u. cbn [List.find]. rewrite (served_id D u0 v Hv). apply elem_of_cons in Hu as [-> |Hu].
  - rewrite Z.eqb_refl. unfold served in Hv. rewrite bool_decide_eq_false_2 in Hv by done. by rewrite Hv.
  - destruct (Z.eqb_spec (u_id u0) (u_id u)) as [E|_]; [|by apply IH]. destruct Hni. rewrite E. by apply list_elem_of_fmap_2.
Qed.

Lemma served_upd D l pcbs u f : NoDup (u_id <$> l) -> Forall2 (served D) l pcbs -> u_id u ∉ D -> (u ∈ l -> got u (f u)) ->
  (forall w, w ∈ l -> u_id w = u_id u -> w = u) -> Forall2 (served (u_id u :: D)) l (upd_u (u_id u) f pcbs).
Proof.
  intros Hnd H. revert Hnd. induction H as [|u0 v l l' Hv H IH]; intros Hnd Hd Hg Hu; [constructor|]. rewrite fmap_cons in Hnd. inversion Hnd as [|? ? Hni Hnd']; subst.
  cbn [upd_u map]. rewrite (served_id D u0 v Hv). constructor.
  - unfold served in *. destruct (Z.eqb_spec (u_id u0) (u_id u)) as [E|E].
    + rewrite bool_decide_eq_true_2 by (rewrite E; by left). assert (Eu : u0 = u) by (apply Hu; [by left|done]). rewrite Eu in *. rewrite bool_decide_eq_false_2 in Hv by done. rewrite Hv. apply Hg. by left.
    + destruct (decide (u_id u0 ∈ D)); [rewrite bool_decide_eq_true_2 in * by (done || by right); done|].
      rewrite bool_decide_eq_false_2 in Hv by done. rewrite bool_decide_eq_false_2; [done|]. rewrite elem_of_cons. tauto.
  - apply IH; [done|done| |]; [intros Hin; apply Hg; by right|intros w Hw; apply Hu; by right].
Qed.

Lemma deliver_one D p pcbs u m1 ms :
  NoDup (u_id <$> L) -> Forall2 (served D) L pcbs -> u ∈ L -> u_id u ∉ D -> mp_fail p = [] -> hasf (m_flags m1) M_PKTHDR = true -> chain_bytes (m1 :: ms) = data ->
  16 + m_pktlen m1 <= sbspace (so_rcv (u_so u)) ->
  exists pcbs', deliver_to p pcbs (u_id u) asa (m1 :: ms) [] = Ret (true, p, pcbs') /\ Forall2 (served (u_id u :: D)) L pcbs'.
Proof.
  intros Hnd H Hu Hd Hp Hk Hb Hs. unfold deliver_to. rewrite (served_find D L pcbs u Hnd H Hu Hd).
  destruct (sbappendaddr_ok p (so_rcv (u_so u)) asa m1 ms [] Hp Hk) as (sb & a & -> & Ha & Hm); [vm_compute; congruence| |].
  { change (zlen asa) with 16. rewrite chain_len_nil. lia. }
  cbn [obind]. eexists. split; [reflexivity|]. apply served_upd; try done.
  - intros _. by exists sb, a, (m1 :: ms).
  - intros w Hw E. rewrite list_elem_of_lookup in Hu, Hw. destruct Hu as [i Hi], Hw as [j Hj].
    assert (i = j) as <-; [|congruence]. apply (NoDup_lookup (u_id <$> L) i j (u_id u) Hnd); rewrite list_lookup_fmap; [by rewrite Hi|by rewrite Hj, <- E].
Qed.

(** The scan: what is done when the scan has passed the front of the list. *)
Record scanned (front : list udpcb) (D : list Z) (last : option Z) : Prop := {
  sn_match : forall u, u ∈ front -> raw_match proto h u = true <-> u_id u ∈ D \/ last = Some (u_id u);
  sn_from : forall i, i ∈ D \/ last = Some i -> exists u, u ∈ front /\ u_id u = i /\ raw_match proto h u = true;
  sn_last : forall i, last = Some i -> i ∉ D
}.

Context (m1 : mbuf) (ms : chain).
Hypothesis Hids : NoDup (u_id <$> L).
Hypothesis Hpkt : hasf (m_flags m1) M_PKTHDR = true.
Hypothesis Hlen : 0 < chain_len (m1 :: ms) < M_COPYALL.
Hypothesis Hdata : chain_bytes (m1 :: ms) = data.
Hypothesis Hroom : forall u, u ∈ L -> raw_match proto h u = true -> 16 + m_pktlen m1 <= sbspace (so_rcv (u_so u)).

Lemma ids_inj u w : u ∈ L -> w ∈ L -> u_id u = u_id w -> u = w.
Proof.
  intros [i Hi]%list_elem_of_lookup [j Hj]%list_elem_of_lookup E.
  assert (i = j) as <-; [|congruence]. apply (NoDup_lookup (u_id <$> L) i j (u_id u) Hids); rewrite list_lookup_fmap; [by rewrite Hi|by rewrite Hj, E].
Qed.

Lemma raw_copy_ok D p pcbs last front : (forall u, u ∈ front -> u ∈ L) -> scanned front D last -> Forall2 (served D) L pcbs -> mp_fail p = [] ->
  exists p' pcbs' D', raw_copy p pcbs asa (m1 :: ms) last = Ret (p', pcbs') /\ mp_fail p' = [] /\ Forall2 (served D') L pcbs' /\ scanned front D' None.
Proof.
  intros Hf [S1 S2 S3] H Hp. destruct last as [id|]; [|exists p, pcbs, D; by split_and!]. destruct (S2 id) as (u & Hu & <- & Hm); [by right|].
  unfold raw_copy. destruct (m_copym_pkt p m1 ms M_COPYALL Hp Hpkt Hlen eq_refl) as (n1 & ns & p' & -> & Hp' & Hb & Hk & Hpl). cbn [obind].
  destruct (deliver_one D p' pcbs u n1 ns Hids H (Hf u Hu)) as (pcbs' & -> & H'); try done; [by apply S3|by rewrite Hb|rewrite Hpl; by apply Hroom, Hm; apply Hf|].
  cbn [obind]. exists p', pcbs', (u_id u :: D). split_and!; try done. split.
  - intros w Hw. rewrite S1, elem_of_cons by done. split; [intros [?|[= E]]; [by left; right|left; left; congruence]|intros [[E|?]|?]; [right; congruence|by left|done]].
  - intros i [Hi|?]; [|done]. apply elem_of_cons in Hi as [-> |Hi]; [by exists u|]. apply S2. by left.
  - done.
Qed.

Lemma rip_loop_ok l : forall front D p pcbs last, L = front ++ l -> scanned front D last -> Forall2 (served D) L pcbs -> mp_fail p = [] ->
  exists p' pcbs' last' D', rip_loop proto l p pcbs h asa (m1 :: ms) last = Ret (p', pcbs', last') /\ mp_fail p' = [] /\ Forall2 (served D') L pcbs' /\ scanned L D' last'.
Proof.
  induction l as [|u l IH]; intros front D p pcbs last HL HS H Hp; cbn [rip_loop].
  { rewrite app_nil_r in HL. subst front. exists p, pcbs, last, D. by split_and!. }
  assert (Hf : forall w, w ∈ front -> w ∈ L) by (intros w Hw; rewrite HL; apply elem_of_app; by left).
  assert (HuL : u ∈ L) by (rewrite HL; apply elem_of_app; right; by left).
  assert (HL' : L = (front ++ [u]) ++ l) by (by rewrite <- app_assoc).
  assert (Hnew : forall D, scanned front D None -> u_id u ∉ D).
  { intros D' [_ S2 _] Hi. destruct (S2 (u_id u)) as (w & Hw & E & _); [by left|]. assert (w = u) as -> by (apply ids_inj; [by apply Hf|done|done]).
    pose proof Hids as Hn. rewrite HL, fmap_app in Hn. apply list.NoDup_app in Hn as (_ & Hn & _). apply (Hn (u_id u)); [by apply list_elem_of_fmap_2|]. rewrite fmap_cons. by left. }
  destruct (raw_match proto h u) eqn:Em; cbn [negb].
  - destruct (raw_copy_ok D p pcbs last front Hf HS H Hp) as (p1 & pcbs1 & D1 & -> & Hp1 & H1 & HS1). cbn [obind].
    apply (IH (front ++ [u]) D1); try done. pose proof (Hnew D1 HS1) as Hn. destruct HS1 as [S1 S2 S3]. split.
    + intros w Hw. apply elem_of_app in Hw as [Hw|Hw%list_elem_of_singleton]; [|subst w; rewrite Em; split; [by right|done]]. rewrite S1 by done. split; [intros [?|?]; [by left|done]|].
      intros [?|[= E]]; [by left|]. assert (w = u) as -> by (apply ids_inj; [by apply Hf|done|by rewrite E]). rewrite <- S1 by done. done.
    + intros i [Hi|[= <-]]; [destruct (S2 i) as (w & Hw & E & Ew); [by left|]; exists w; split_and!; [apply elem_of_app; by left|done|done]|].
      exists u. split_and!; [apply elem_of_app; right; by left|done|done].
    + by intros i [= <-].
  - apply (IH (front ++ [u]) D); try done. destruct HS as [S1 S2 S3]. split.
    + intros w Hw. apply elem_of_app in Hw as [Hw|Hw%list_elem_of_singleton]; [by apply S1|]. subst w. rewrite Em. split; [done|].
      intros Hc. destruct (S2 _ Hc) as (w & Hw & E & Ew). assert (w = u) as -> by (apply ids_inj; [by apply Hf|done|done]). congruence.
    + intros i Hi. destruct (S2 i Hi) as (w & Hw & E & Ew). exists w. split_and!; [apply elem_of_app; by left|done|done].
    + done.
Qed.

End Delivery.

(** rip_input queues the packet on every socket that takes it. *)
Lemma rip_input_ok s h m1 ms :
  NoDup (u_id <$> us_pcbs (rs_u s)) -> mp_fail (us_pool (rs_u s)) = [] -> hasf (m_flags m1) M_PKTHDR = true -> 0 < chain_len (m1 :: ms) < M_COPYALL ->
  (forall u, u ∈ us_pcbs (rs_u s) -> raw_match (rs_proto s) h u = true -> 16 + m_pktlen m1 <= sbspace (so_rcv (u_so u))) ->
  exists s', rip_input s h (m1 :: ms) = Ret s' /\
    Forall2 (fun u v => if raw_match (rs_proto s) h u then got h (chain_bytes (m1 :: ms)) u v else v = u) (us_pcbs (rs_u s)) (us_pcbs (rs_u s')) /\
    rs_proto s' = rs_proto s /\ io_out (ii_out (us_ip (rs_u s'))) = io_out (ii_out (us_ip (rs_u s))).
Proof.
  intros Hn Hp Hk Hl Hr. unfold rip_input. set (L := us_pcbs (rs_u s)) in *.
  assert (H0 : Forall2 (served h (chain_bytes (m1 :: ms)) []) L L).
  { apply Forall_Forall2_diag, List.Forall_forall. intros u _. unfold served. by rewrite bool_decide_eq_false_2 by apply not_elem_of_nil. }
  assert (S0 : scanned (rs_proto s) h [] [] None) by (split; [intros u Hu; by apply not_elem_of_nil in Hu|intros i [Hi|?]; [by apply not_elem_of_nil in Hi|done]|done]).
  destruct (rip_loop_ok (rs_proto s) h (chain_bytes (m1 :: ms)) L m1 ms Hn Hk Hl eq_refl Hr L [] [] (us_pool (rs_u s)) L None eq_refl S0 H0 Hp)
    as (p' & pcbs' & last' & D' & -> & Hp' & H' & [S1 S2 S3]). cbn [obind].
  assert (Hfin : forall D pcbs, (forall u, u ∈ L -> raw_match (rs_proto s) h u = true <-> u_id u ∈ D) -> Forall2 (served h (chain_bytes (m1 :: ms)) D) L pcbs ->
    Forall2 (fun u v => if raw_match (rs_proto s) h u then got h (chain_bytes (m1 :: ms)) u v else v = u) L pcbs).
  { intros D pcbs HD HF. apply Forall2_same_length_lookup in HF as [Hlen HF]. apply Forall2_same_length_lookup. split; [done|]. intros i u v Hu Hv.
    specialize (HF i u v Hu Hv). unfold served in HF. specialize (HD u ltac:(by eapply list_elem_of_lookup_2)).
    destruct (raw_match (rs_proto s) h u); [by rewrite bool_decide_eq_true_2 in HF by (by apply HD)|].
    rewrite bool_decide_eq_false_2 in HF; [done|]. intros Hc. by apply HD in Hc. }
  destruct last' as [id|].
  - destruct (S2 id) as (u & Hu & <- & Hm); [by right|].
    destruct (deliver_one h (chain_bytes (m1 :: ms)) L D' p' pcbs' u m1 ms Hn H' Hu) as (pcbs2 & E2 & H2); try done; [by apply S3|by apply Hr|].
    change (us_pool (set_pool p' (rs_u s) <| us_pcbs := pcbs' |>)) with p'. change (us_pcbs (set_pool p' (rs_u s) <| us_pcbs := pcbs' |>)) with pcbs'.
    rewrite E2. cbn [obind]. eexists. split; [reflexivity|]. split; [|by split]. apply (Hfin (u_id u :: D')); [|exact H2].
    intros w Hw. rewrite S1, elem_of_cons by done. split; [intros [?|[= E]]; [by right|left; congruence]|intros [E|?]; [right; congruence|by left]].
  - eexists. split; [reflexivity|]. split; [|by split]. apply (Hfin D'); [|exact H']. intros w Hw. rewrite S1 by done. split; [intros [?|?]; [done|done]|by left].
Qed.

(** ** Output *)

Lemma M_PREPEND_len p m1 ms junk m2 ms2 p' : hasf (m_flags m1) M_PKTHDR = true -> M_PREPEND p m1 ms junk = (Some (m2 :: ms2), p') -> m_pktlen m2 = m_pktlen m1 + zlen junk.
Proof.
  intros Hk. unfold M_PREPEND. assert (Hc : hasf (Z.land (m_flags m1) M_COPYFLAGS) M_PKTHDR = true).
  { unfold hasf in *. rewrite <- Z.land_assoc. by change (Z.land M_COPYFLAGS M_PKTHDR) with M_PKTHDR. }
  destruct (_ >=? zlen junk).
  - cbn [fmap option_fmap option_map set_pktlen]. rec_simpl. rewrite Hk. by intros [= <- _ _].
  - unfold m_prepend. destruct (m_get p (m_type m1)) as [[mn|] q]; [|done]. rewrite Hk. cbn [fmap option_fmap option_map set_pktlen].
    destruct (zlen junk <? MHLEN); unfold M_COPY_PKTHDR, MH_ALIGN; rec_simpl; rewrite Hc; by intros [= <- _ _].
Qed.

(** A socket without options of its own that sends [msg] to [dst], from [src] *)
Record raw_sender (e : inenv) (s : rst) (u : udpcb) (m : chain) (msg : list Z) (dst src : Z) (rt : iprt) : Prop := {
  rw_pool : mp_fail (us_pool (rs_u s)) = [];
  rw_plain : hasf (u_flags u) INP_HDRINCL = false /\ u_opt u = None /\ hasf (so_options (u_so u)) SO_DONTROUTE = false;
  rw_chain : exists m1 ms, m = m1 :: ms /\ chain_bytes m = msg /\ hasf (m_flags m1) M_PKTHDR = true /\ m_pktlen m1 = zlen msg;
  rw_bytes : Forall is_byte msg;
  rw_src : src = (if inp_laddr (u_inp u) =? 0 then rt_ifa rt else inp_laddr (u_inp u)) /\ 0 < src < 4294967296;
  rw_dst : 0 <= dst < 4294967296;
  rw_proto : 0 <= rs_proto s (u_id u) < 256;
  rw_route : rtalloc (ie_out e) dst = Some rt;
  rw_cache : forall r, ro_rt (u_ro u) = Some r -> ro_dst (u_ro u) = dst -> hasf (rt_flags r) RTF_UP = true -> r = rt;
  rw_uni : InPcb.in_multicast dst = false;
  rw_hop : in_broadcast (ie_out e) (next_hop rt dst) (rt_ifp rt) = false;
  rw_mtu : 28 <= if_mtu (ie_out e) (rt_ifp rt) /\ 20 + zlen msg <= if_mtu (ie_out e) (rt_ifp rt);
  rw_err : io_err (ii_out (us_ip (rs_u s))) = [];
  rw_id : 0 <= io_id (ii_out (us_ip (rs_u s))) < 65536
}.

Definition raw_hdr (id src dst proto n : Z) : ip := mkIp IPVERSION 5 0 (20 + n) id 0 MAXTTL proto 0 src dst [].

Lemma raw_flags o : hasf o SO_DONTROUTE = false ->
  let fl := Z.lor (Z.land o SO_DONTROUTE) IP_ALLOWBROADCAST in
  hasf fl (Z.lor IP_FORWARDING IP_RAWOUTPUT) = false /\ hasf fl IP_ROUTETOIF = false.
Proof. unfold hasf. intros H%negb_false_iff%Z.eqb_eq. rewrite H. by split. Qed.

(** rip_output hands the interface one packet with the data. *)
Lemma rip_output_ok e s u m msg dst src rt :
  raw_sender e s u m msg dst src rt -> 0 < zlen msg < 32740 ->
  let hd := raw_hdr (io_id (ii_out (us_ip (rs_u s)))) src dst (rs_proto s (u_id u)) (zlen msg) in
  ip_wf hd /\ exists s' f h, rip_output e s u m dst = Ret (0, s') /\
    io_out (ii_out (us_ip (rs_u s'))) = (rt_ifp rt, next_hop rt dst, f) :: io_out (ii_out (us_ip (rs_u s))) /\ frame_of hd msg h 0 (zlen msg) (chain_bytes f).
Proof.
  intros [Hp (Hi & Hopt & Hdr) (m1 & ms & -> & Hcb & Hk & Hpl) Hb [Hsrc Hsr] Hdst Hpr Hrt Hca Hmc Hbc [Hm28 Hmtu] Herr Hid] Hn hd. pose proof (raw_flags _ Hdr) as [Hfl Hfr].
  assert (Hw : ip_wf hd) by (split; unfold hlen_of, hd, raw_hdr; cbn; try done; lia).
  split; [exact Hw|]. unfold rip_output. rewrite Hi, Hopt. cbn [negb].
  destruct (M_PREPEND_ok (us_pool (rs_u s)) m1 ms (repeat 0 (Z.to_nat sizeof_ip)) Hp) as (m2 & ms2 & p' & E & Hp' & Hcb2 & Hm2). rewrite E.
  pose proof (M_PREPEND_len _ _ _ _ _ _ _ Hk E) as Hl2. change (zlen (repeat 0 (Z.to_nat sizeof_ip))) with 20 in *. cbn [obind]. rewrite Hl2, Hpl, s16_id by lia.
  set (fl := Z.lor _ IP_ALLOWBROADCAST) in *. set (h0 := mkIp 0 0 0 _ 0 0 _ _ _ _ _ _). set (us := set_pool p' (rs_u s)). change (ii_out (us_ip us)) with ((ii_out (us_ip (rs_u s))) <| io_pool := p' |>).
  set (o := (ii_out (us_ip (rs_u s))) <| io_pool := p' |>).
  assert (Hcr : forall c r, Some (u_ro u) = Some c -> ro_rt c = Some r -> ro_dst c = dst -> hasf (rt_flags r) RTF_UP = true -> r = rt) by (intros c r [= <-]; apply Hca).
  set (h1 := h0 <| ip_src := src |>).
  assert (Eo : ip_output (ie_out e) o h0 (m2 :: ms2) None (Some (u_ro u)) fl (u_mopt u) = ip_output (ie_out e) o h1 (m2 :: ms2) None (Some (u_ro u)) fl (u_mopt u)).
  { destruct (Z.eqb_spec (inp_laddr (u_inp u)) 0) as [E0|E0].
    - rewrite (ip_output_src (ie_out e) o h0 _ (Some (u_ro u)) fl (u_mopt u) rt) by (done || lia). unfold h1. by rewrite <- Hsrc.
    - f_equal. unfold h1, h0. by rewrite Hsrc. }
  rewrite Eo. destruct (ip_output_plain (ie_out e) o h1 m2 ms2 (repeat 0 20) msg (Some (u_ro u)) fl (u_mopt u) rt) as (o' & -> & cs & Eout & Hfr' & Hone); try done; try lia.
  { split; try done. change (src <> 0). lia. }
  { change (filled (io_id o) h1) with (hd <| ip_len := zlen msg + 20 |>). apply wf_len; [done|lia]. }
  { by rewrite Hcb2, Hcb. }
  { apply Forall_app. split; [by repeat constructor|done]. }
  { change (zlen msg + 20 = 20 + zlen msg). lia. }
  cbn [obind]. specialize (Hone ltac:(lia)). destruct cs as [|f [|]]; [discriminate Hone| |discriminate Hone].
  destruct (frames_one _ _ _ _ Hfr') as (h & Hf & _). do 2 eexists. exists h. split; [reflexivity|]. split; [exact Eout|].
  change (filled (io_id o) h1) with (hd <| ip_len := zlen msg + 20 |>) in Hf. replace (zlen msg + 20) with (20 + zlen msg) in Hf by lia. exact Hf.
Qed.

(** ** A ping between processes *)

(** The host that reads the reply: its sockets that take a reply from [a] to [src] have room for it. *)
Record reader (e : icenv) (s : rst) (src a n : Z) : Prop := {
  rd_asker : asker e (mkIc (us_ip (rs_u s)) [] [] []) src;
  rd_ids : NoDup (u_id <$> us_pcbs (rs_u s));
  rd_room : forall h v, ip_p h = IPPROTO_ICMP -> ip_src h = a -> ip_dst h = src -> v ∈ us_pcbs (rs_u s) -> raw_match (rs_proto s) h v = true ->
    40 + n <= sbspace (so_rcv (u_so v))
}.

(** C16: ping works between processes.  A process writes an echo request with a valid checksum to
    a raw socket.  rip_output succeeds and hands the interface one frame.  When that frame
    arrives, in any layout of mbufs, at a host that can answer, its ipintr and icmp_input send
    exactly one frame to the address the request came from.  When that one arrives back, in any
    layout and whatever has happened meanwhile on a host with room in its sockets, ipintr,
    icmp_input and rip_input queue one record on every raw socket that takes ICMP from the host
    asked, the one of the process among them, and on no other: its address, and an IP packet with an
    echo reply that has the identifier, the sequence number and the data of the request and a
    checksum that verifies. *)
Theorem ping_process eA sA u m code x y rest dst src rt :
  let msg := [ICMP_ECHO; code] ++ [x; y] ++ rest in
  raw_sender (ce_in eA) sA u m msg dst src rt -> rs_proto sA (u_id u) = IPPROTO_ICMP -> cksum_ref msg = 0 -> 4 <= zlen rest < 32730 ->
  let hd := raw_hdr (io_id (ii_out (us_ip (rs_u sA)))) src dst IPPROTO_ICMP (zlen msg) in
  exists sA' f, rip_output (ce_in eA) sA u m dst = Ret (0, sA') /\
    io_out (ii_out (us_ip (rs_u sA'))) = (rt_ifp rt, next_hop rt dst, f) :: io_out (ii_out (us_ip (rs_u sA))) /\
    forall eB sB c a rtB, answerer eB sB hd msg a rtB -> received 20 (chain_bytes f) c ->
      exists iB h1 m1 oB g, ip_input1 (ce_in eB) (ic_ip sB) c = Ret iB /\ ii_up iB = (h1, m1, 20) :: ii_up (ic_ip sB) /\ ip_p h1 = IPPROTO_ICMP /\
        icmp_input eB (sB <| ic_ip := iB |>) h1 m1 20 = Ret (sB <| ic_ip := iB <| ii_out := oB |> |>) /\
        io_out oB = (rt_ifp rtB, next_hop rtB src, g) :: io_out (ii_out (ic_ip sB)) /\
        forall sA2 d, reader eA sA2 src a (zlen rest) -> received 20 (chain_bytes g) d ->
          exists iA h2 m2 st m3 sA3, ip_input1 (ce_in eA) (us_ip (rs_u sA2)) d = Ret iA /\ ii_up iA = (h2, m2, 20) :: ii_up (us_ip (rs_u sA2)) /\
            icmp_input eA (mkIc iA [] [] []) h2 m2 20 = Ret st /\ ic_raw st = [(h2, m3)] /\
            rip_input (sA2 <| rs_u := (rs_u sA2) <| us_ip := ic_ip st |> |>) h2 m3 = Ret sA3 /\
            ip_src h2 = a /\ ip_dst h2 = src /\ ip_p h2 = IPPROTO_ICMP /\ cksum_ref (icmp_msg ICMP_ECHOREPLY code rest) = 0 /\
            Forall2 (fun v w => if raw_match (rs_proto sA2) h2 v then got h2 (host_ip h2 ++ icmp_msg ICMP_ECHOREPLY code rest) v w else w = v)
              (us_pcbs (rs_u sA2)) (us_pcbs (rs_u sA3)).
Proof.
  intros msg Hs Hproto Hck Hr hd. assert (Hzm : zlen msg = 4 + zlen rest) by (unfold msg, zlen; simpl; lia).
  destruct (echo_bytes code x y rest (rw_bytes _ _ _ _ _ _ _ _ Hs)) as [Hcode Hrest].
  destruct (rip_output_ok _ _ _ _ _ _ _ _ Hs ltac:(lia)) as (Hw & sA' & f & h & E & Eo & Hf). rewrite Hproto in Hf. fold hd in Hf. exists sA', f. split; [done|]. split; [done|].
  intros eB sB c a rtB HB Hc. destruct (echo_answered eB sB hd code x y rest h _ c a rtB HB Hf Hc Hck ltac:(lia)) as (iB & h1 & m1 & oB & g & B1 & B2 & B3 & B4 & B5 & B6).
  exists iB, h1, m1, oB, g. split_and!; try done. intros sA2 d [Ha Hids Hroom] Hd.
  destruct (reply_taken eA (mkIc (us_ip (rs_u sA2)) [] [] []) hd a code rest _ d Ha B6 Hd Hcode Hrest ltac:(lia))
    as (iA & h2 & m2 & p & n1 & ns & A1 & A2 & A3 & A4 & A5 & A6 & A7 & A8 & A9 & A10 & A11 & A12 & A13).
  set (s2 := sA2 <| rs_u := (rs_u sA2) <| us_ip := with_pool p iA |> |>). pose proof (icmp_msg_len ICMP_ECHOREPLY code rest) as Hz.
  destruct (rip_input_ok s2 h2 n1 ns Hids A4 A12) as (sA3 & R1 & R2 & _).
  { unfold chain_len. rewrite A11, zlen_app, A10. unfold M_COPYALL. lia. }
  { intros v Hv Hm. rewrite A13. specialize (Hroom h2 v A7 A5 A6 Hv Hm). lia. }
  exists iA, h2, m2. do 2 eexists. exists sA3. split; [exact A1|]. split; [exact A2|]. split; [exact A3|]. split; [reflexivity|]. split; [exact R1|].
  split; [done|]. split; [done|]. split; [done|]. split; [by apply icmp_msg_cksum|]. by rewrite A11 in R2.
Qed.

(** ** 10.0.0.1 pings 10.0.0.2 from an unbound socket, with a second raw socket for UDP *)

Definition ping_so : socket := Sample.so0 [].
Definition ping_u : udpcb := mkUdpcb 1 (mkInp 0 0 0 0 None [] 0 0) ping_so 0 None (mkRoute None 0) None.
Definition udp_u : udpcb := mkUdpcb 2 (mkInp 0 0 0 0 None [] 0 0) ping_so 0 None (mkRoute None 0) None.
Definition ping_st : rst := mkRst (mkUst [udp_u; ping_u] 0 0 3 [] inst0) (fun i => if i =? 1 then IPPROTO_ICMP else 17).
Definition ping_out : chain := [mkMbuf 28 ping_msg MT_DATA M_PKTHDR 48 0 0 0].

Lemma ping_sender : raw_sender (ce_in (host 167772161)) ping_st ping_u ping_out ping_msg 167772162 167772161 (mkIprt 1 1 167772161 0).
Proof.
  split; try done; try apply ping_bytes.
  - eexists _, _. split; [reflexivity|]. by split.
Qed.

Lemma ping_reader : reader (host 167772161) ping_st 167772161 167772162 44.
Proof.
  split.
  - by split.
  - apply (bool_decide_unpack (NoDup [2; 1])). vm_compute. exact I.
  - intros h v _ _ _ Hv _. change (v ∈ [udp_u; ping_u]) in Hv. rewrite !elem_of_cons in Hv. destruct Hv as [-> |[-> |Hv]]; [vm_compute; congruence..|by apply not_elem_of_nil in Hv].
Qed.

Lemma ping_process_witness :
  exists sA' f, rip_output (ce_in (host 167772161)) ping_st ping_u ping_out 167772162 = Ret (0, sA') /\
    forall c, received 20 (chain_bytes f) c -> exists iB h1 m1 oB g, ip_input1 (ce_in (host 167772162)) inst0 c = Ret iB /\
      icmp_input (host 167772162) (ic0 <| ic_ip := iB |>) h1 m1 20 = Ret (ic0 <| ic_ip := iB <| ii_out := oB |> |>) /\ io_out oB = [(1, 167772161, g)] /\
      forall d, received 20 (chain_bytes g) d -> exists iA h2 m3 sA3 v, rip_input (ping_st <| rs_u := (rs_u ping_st) <| us_ip := iA |> |>) h2 m3 = Ret sA3 /\
        us_pcbs (rs_u sA3) = [udp_u; v] /\ got h2 (host_ip h2 ++ icmp_msg ICMP_ECHOREPLY 0 ping_rest) ping_u v.
Proof.
  destruct (ping_process (host 167772161) ping_st ping_u ping_out 0 (ping_sum mod 256) (ping_sum / 256) ping_rest 167772162 167772161 (mkIprt 1 1 167772161 0))
    as (sA' & f & E & _ & H).
  - apply ping_sender.
  - reflexivity.
  - reflexivity.
  - vm_compute. intuition congruence.
  - exists sA', f. split; [exact E|]. intros c Hc. destruct (H (host 167772162) ic0 c 167772162 (mkIprt 1 1 167772162 0) ping_answerer Hc) as (iB & h1 & m1 & oB & g & B1 & _ & _ & B2 & B3 & H').
    exists iB, h1, m1, oB, g. split; [exact B1|]. split; [exact B2|]. split; [exact B3|]. intros d Hd.
    destruct (H' ping_st d ping_reader Hd) as (iA & h2 & m2 & st & m3 & sA3 & _ & _ & _ & _ & R & _ & _ & Ep & _ & HF).
    change (us_pcbs (rs_u ping_st)) with [udp_u; ping_u] in HF. inversion HF as [|? w ? l F1 HF']; subst. inversion HF' as [|? v ? l' F2 HF'']; subst. inversion HF''; subst.
    unfold raw_match in F1, F2. rewrite Ep in F1, F2. exists (ic_ip st), h2, m3, sA3, v. split; [exact R|]. split; [|exact F2]. assert (w = udp_u) as -> by exact F1. congruence.
Defined.

End RawOk.
