(* ===== verification/Ether.v ===== *)
(** Internet packets on Ethernet (src/sys/netinet/if_ether.c; ether_output, ether_input of
    src/sys/net/if_ethersubr.c; rtalloc1 and rtrequest of src/sys/net/route.c as far as ARP
    uses them).

    Route entries are records in a store; an ARP entry is the [re_la] of its route, and
    [et_las] is the list llinfo_arp.  The radix tree is seen through what a lookup answers: the
    entry of the host, or else the matching network with the longest mask.  [et_now] is the
    clock in seconds.  An Ethernet address is a list of six bytes. *)
From stdpp Require Import gmap.
From S2P Require Import Prelude Mbuf SockBuf Socket TcpVar TcpHdr IpHdr IpOutput IpInput Udp Slip.
Import Mbuf TcpHdr Udp.
#[local] Abbreviation ifqueue := Slip.ifqueue.

Module Ether.

Definition ETHERTYPE_IP : Z := 2048.
Definition ETHERTYPE_ARP : Z := 2054.
Definition ETHERTYPE_TRAIL : Z := 4096.
Definition ARPHRD_ETHER : Z := 1.
Definition ARPOP_REQUEST : Z := 1.
Definition ARPOP_REPLY : Z := 2.
Definition arpt_prune : Z := 300.
Definition arpt_keep : Z := 1200.
Definition arpt_down : Z := 20.
Definition arp_maxtries : Z := 5.
Definition SIN_PROXY : Z := 1.
Definition RTF_UP : Z := 1.
Definition RTF_GATEWAY : Z := 2.
Definition RTF_HOST : Z := 4.
Definition RTF_REJECT : Z := 8.
Definition RTF_CLONING : Z := 256.
Definition RTF_LLINFO : Z := 1024.
Definition RTF_ANNOUNCE : Z := 16384.
Definition IFT_ETHER : Z := 6.
Definition IFF_UP : Z := 1.
Definition IFF_RUNNING : Z := 64.
Definition IFF_SIMPLEX : Z := 2048.
Definition ENETDOWN : Z := 50.
Definition ENOBUFS : Z := 55.
Definition EHOSTDOWN : Z := 64.
Definition EHOSTUNREACH : Z := 65.
Definition EAFNOSUPPORT : Z := 47.
Definition etherbroadcastaddr : list Z := [255; 255; 255; 255; 255; 255].

(** The low 23 bits of an IP multicast address in an Ethernet multicast address *)
Definition ETHER_MAP_IP_MULTICAST (a : Z) : list Z := [1; 0; 94; Z.land (a / 65536 mod 256) 127; a / 256 mod 256; a mod 256].

(** A gateway: a link-level address with sdl_alen and the bytes behind the name, or an internet
    address *)
Inductive gate := G_link (alen : Z) (ll : list Z) | G_inet (addr : Z).

Record llinfo_arp := mkLlinfo { la_hold : option chain; la_asked : Z }.
Definition eta_la (r : llinfo_arp) : llinfo_arp := mkLlinfo (la_hold r) (la_asked r).
#[global] Instance set_la_hold : Setter la_hold := ltac:(mk_setter eta_la).
#[global] Instance set_la_asked : Setter la_asked := ltac:(mk_setter eta_la).

(** An interface address: the address and the interface *)
Definition ifaddr : Type := Z * Z.

Record rtentry := mkRtentry {
  re_dst : Z;
  re_other : Z;                 (* sin_other of the key *)
  re_mask : option Z;           (* none: a host *)
  re_flags : Z;
  re_gate : gate;
  re_gwroute : option Z;
  re_ifp : Z;
  re_ifa : ifaddr;
  re_expire : Z;
  re_refcnt : Z;
  re_la : option llinfo_arp
}.
Definition eta_re (r : rtentry) : rtentry :=
  mkRtentry (re_dst r) (re_other r) (re_mask r) (re_flags r) (re_gate r) (re_gwroute r) (re_ifp r) (re_ifa r) (re_expire r) (re_refcnt r) (re_la r).
#[global] Instance set_re_flags : Setter re_flags := ltac:(mk_setter eta_re).
#[global] Instance set_re_gate : Setter re_gate := ltac:(mk_setter eta_re).
#[global] Instance set_re_gwroute : Setter re_gwroute := ltac:(mk_setter eta_re).
#[global] Instance set_re_ifp : Setter re_ifp := ltac:(mk_setter eta_re).
#[global] Instance set_re_expire : Setter re_expire := ltac:(mk_setter eta_re).
#[global] Instance set_re_refcnt : Setter re_refcnt := ltac:(mk_setter eta_re).
#[global] Instance set_re_la : Setter re_la := ltac:(mk_setter eta_re).

(** An Ethernet interface *)
Record arpcom := mkArpcom { ac_ifp : Z; ac_enaddr : list Z; ac_ipaddr : Z; ac_flags : Z }.

Record etenv := mkEtenv {
  et_now : Z;
  et_ac : Z -> arpcom;
  et_ifaddr : list ifaddr;      (* in_ifaddr *)
  et_loif : Z;
  useloopback : bool
}.

Record ets := mkEts {
  et_rt : gmap Z rtentry;
  et_las : list Z;              (* llinfo_arp *)
  et_next : Z;                  (* the next identity of an entry *)
  et_pool : mpool;              (* of the mbufs; its script serves R_Malloc too *)
  et_snd : Z -> ifqueue;        (* if_snd of an interface *)
  et_loop : list (Z * Z * chain);   (* looutput: interface, destination, packet; last first *)
  et_arpq : ifqueue;            (* arpintrq *)
  et_ipq : ifqueue              (* ipintrq *)
}.
Definition eta_ets (r : ets) : ets := mkEts (et_rt r) (et_las r) (et_next r) (et_pool r) (et_snd r) (et_loop r) (et_arpq r) (et_ipq r).
#[global] Instance set_et_rt : Setter et_rt := ltac:(mk_setter eta_ets).
#[global] Instance set_et_las : Setter et_las := ltac:(mk_setter eta_ets).
#[global] Instance set_et_next : Setter et_next := ltac:(mk_setter eta_ets).
#[global] Instance set_et_pool : Setter et_pool := ltac:(mk_setter eta_ets).
#[global] Instance set_et_snd : Setter et_snd := ltac:(mk_setter eta_ets).
#[global] Instance set_et_loop : Setter et_loop := ltac:(mk_setter eta_ets).
#[global] Instance set_et_arpq : Setter et_arpq := ltac:(mk_setter eta_ets).
#[global] Instance set_et_ipq : Setter et_ipq := ltac:(mk_setter eta_ets).

Definition upd_rt (id : Z) (f : rtentry -> rtentry) (s : ets) : ets := s <| et_rt := alter f id (et_rt s) |>.
Definition et_free (m : chain) (s : ets) : ets := s <| et_pool := m_freem (et_pool s) m |>.
Definition R_Malloc (s : ets) : bool * ets := let '(ok, p) := pool_alloc (et_pool s) in (ok, s <| et_pool := p |>).

(** ** Sending a frame *)

(** The end of ether_output: the header, and the queue of the interface. *)
Definition ether_frame (s : ets) (ac : arpcom) (m : chain) (edst : list Z) (type : Z) : outcome (Z * ets) :=
  match m with
  | [] => Panic "ether_output: null mbuf"
  | m1 :: ms =>
      match M_PREPEND (et_pool s) m1 ms (edst ++ ac_enaddr ac ++ be16 (u16 type)) with
      | (None, p) => Ret (ENOBUFS, s <| et_pool := p |>)
      | (Some m, p) =>
          let s := s <| et_pool := p |> in
          let q := et_snd s (ac_ifp ac) in
          let set q := s <| et_snd := fun i => if i =? ac_ifp ac then q else et_snd s i |> in
          if Slip.IF_QFULL q then Ret (ENOBUFS, et_free m (set (Slip.IF_DROP q)))
          else Ret (0, set (Slip.IF_ENQUEUE q m))
      end
  end.

Definition if_down (ac : arpcom) : bool := negb (Z.land (ac_flags ac) (Z.lor IFF_UP IFF_RUNNING) =? Z.lor IFF_UP IFF_RUNNING).

(** ether_output to an address of the family AF_UNSPEC, which holds an Ethernet header *)
Definition ether_unspec (s : ets) (ac : arpcom) (m : chain) (dhost : list Z) (type : Z) : outcome (Z * ets) :=
  if if_down ac then Ret (ENETDOWN, et_free m s) else ether_frame s ac m dhost type.

(** [arprequest]: who has [tip]? *)
Definition arprequest (s : ets) (ac : arpcom) (sip tip : Z) (enaddr : list Z) : outcome ets :=
  match m_gethdr (et_pool s) MT_DATA with
  | (None, p) => Ret (s <| et_pool := p |>)
  | (Some m, p) =>
      let ea := be16 ARPHRD_ETHER ++ be16 ETHERTYPE_IP ++ [6; 4] ++ be16 ARPOP_REQUEST ++ enaddr ++ be32 sip ++ repeat 0 6 ++ be32 tip in
      let m := (MH_ALIGN (m <| m_pktlen := 28 |>) 28) <| m_bytes := ea |> in
      let! (_, s) := ether_unspec (s <| et_pool := p |>) ac [m] etherbroadcastaddr ETHERTYPE_ARP in Ret s
  end.
Definition arpwhohas (s : ets) (ac : arpcom) (addr : Z) : outcome ets := arprequest s ac (ac_ipaddr ac) addr (ac_enaddr ac).

(** ** Routes *)

Definition re_matches (r : rtentry) (dst other : Z) : bool :=
  hasf (re_flags r) RTF_UP &&
  match re_mask r with None => (re_dst r =? dst) && (re_other r =? other) | Some m => Z.land dst m =? re_dst r end.
Definition re_rank (r : rtentry) : Z := match re_mask r with None => 4294967296 | Some m => m end.

(** The answer of the radix tree: of the entries that match, the one with the longest mask *)
Fixpoint best (l : list (Z * rtentry)) (dst other : Z) : option (Z * rtentry) :=
  match l with
  | [] => None
  | (i, r) :: l =>
      let b := best l dst other in
      if re_matches r dst other then
        match b with Some (_, r') => if re_rank r' >=? re_rank r then b else Some (i, r) | None => Some (i, r) end
      else b
  end.
Definition rnh_matchaddr (s : ets) (dst other : Z) : option (Z * rtentry) := best (map_to_list (et_rt s)) dst other.

(** [arp_rtrequest] for RTM_RESOLVE, and from there on for RTM_ADD *)
Definition arp_resolve (e : etenv) (s : ets) (id : Z) : ets :=
  match et_rt s !! id with
  | None => s
  | Some r =>
      match re_gate r, re_la r with
      | G_link alen ll, None =>
          let '(ok, s) := R_Malloc s in
          if negb ok then s
          else
            let s := upd_rt id (fun r => r <| re_la := Some (mkLlinfo None 0) |> <| re_flags := setb (re_flags r) RTF_LLINFO |>) s in
            let s := s <| et_las := id :: et_las s |> in
            if re_dst r =? (re_ifa r).1 then
              let s := upd_rt id (fun r => r <| re_expire := 0 |> <| re_gate := G_link 6 (ac_enaddr (et_ac e (re_ifp r))) |>) s in
              if useloopback e then upd_rt id (fun r => r <| re_ifp := et_loif e |>) s else s
            else s
      | _, _ => s
      end
  end.

(** [arp_rtrequest] for RTM_DELETE *)
Definition arp_delete (s : ets) (id : Z) : ets :=
  match et_rt s !! id with
  | Some r =>
      match re_la r with
      | None => s
      | Some la =>
          let s := s <| et_las := List.filter (fun i => negb (i =? id)) (et_las s) |> in
          let s := upd_rt id (fun r => r <| re_la := None |> <| re_flags := clrb (re_flags r) RTF_LLINFO |>) s in
          match la_hold la with Some m => et_free m s | None => s end
      end
  | None => s
  end.

Inductive rtm := RTM_ADD | RTM_RESOLVE | RTM_DELETE.

(** [arp_rtrequest].  Giving a route to an interface a link-level gateway takes memory; without
    it sdl_type is written into the Internet address that stands there. *)
Definition arp_rtrequest (e : etenv) (s : ets) (req : rtm) (id : Z) : outcome ets :=
  match et_rt s !! id with
  | None => Panic "arp_rtrequest: null rtentry"
  | Some r =>
      if hasf (re_flags r) RTF_GATEWAY then Ret s
      else
        match req with
        | RTM_ADD =>
            let fl := if negb (hasf (re_flags r) RTF_HOST) && negb (match re_mask r with Some m => m =? 4294967295 | None => false end)
                      then setb (re_flags r) RTF_CLONING else re_flags r in
            if hasf fl RTF_CLONING then
              let '(gate, s) := match re_gate r with
                                | G_link _ _ => (G_link 0 (repeat 0 6), s)
                                | G_inet a => let '(ok, s) := R_Malloc s in (if ok : bool then G_link 0 (repeat 0 6) else G_inet (IFT_ETHER * 16777216 + a mod 16777216), s)
                                end in
              Ret (upd_rt id (fun r => r <| re_flags := fl |> <| re_gate := gate |> <| re_expire := et_now e |>) s)
            else
              let s := upd_rt id (fun r => r <| re_flags := fl |>) s in
              let! s := (if hasf fl RTF_ANNOUNCE then
                           match re_gate r with
                           | G_link _ ll => arprequest s (et_ac e (re_ifp r)) (re_dst r) (re_dst r) (ztake 6 ll)
                           | G_inet _ => Panic "arp_rtrequest: link address of an internet address"
                           end
                         else Ret s) in
              Ret (arp_resolve e s id)
        | RTM_RESOLVE => Ret (arp_resolve e s id)
        | RTM_DELETE => Ret (arp_delete s id)
        end
  end.

(** [rtrequest] RTM_RESOLVE: the clone of a route to an interface (no RTF_GATEWAY, no
    rt_genmask) for a host; [None] is an error.  The tree does not take a second entry of a host. *)
Definition rt_clone (e : etenv) (s : ets) (parent : rtentry) (dst other : Z) : outcome (option Z * ets) :=
  let '(ok, s) := R_Malloc s in
  if negb ok then Ret (None, s)
  else
    let '(ok, s) := R_Malloc s in
    if negb ok then Ret (None, s)
    else if match re_mask parent with None => true | Some _ => false end then Ret (None, s)
    else
      let id := et_next s in
      let r := mkRtentry dst other None (setb (clrb (re_flags parent) RTF_CLONING) (Z.lor RTF_HOST RTF_UP)) (re_gate parent) None (re_ifa parent).2 (re_ifa parent)
                 (re_expire parent) 0 None in
      let! s := arp_rtrequest e (s <| et_rt := <[id := r]> (et_rt s) |> <| et_next := id + 1 |>) RTM_RESOLVE id in
      Ret (Some id, upd_rt id (fun r => r <| re_refcnt := re_refcnt r + 1 |>) s).

(** [rtalloc1] of a socket address with [sin_other] *)
Definition rtalloc1 (e : etenv) (s : ets) (dst other : Z) (report : bool) : outcome (option Z * ets) :=
  match rnh_matchaddr s dst other with
  | None => Ret (None, s)
  | Some (id, r) =>
      let ref s := upd_rt id (fun r => r <| re_refcnt := re_refcnt r + 1 |>) s in
      if report && hasf (re_flags r) RTF_CLONING then
        let! (o, s) := rt_clone e s r dst other in
        Ret match o with Some i => (Some i, s) | None => (Some id, ref s) end
      else Ret (Some id, ref s)
  end.

Definition unref (id : Z) (s : ets) : ets := upd_rt id (fun r => r <| re_refcnt := re_refcnt r - 1 |>) s.

(** [rtfree]: an entry that is not in the tree any more goes with its last reference. *)
Definition rtfree (s : ets) (id : Z) : ets :=
  let s := unref id s in
  match et_rt s !! id with
  | Some r => if (re_refcnt r =? 0) && negb (hasf (re_flags r) RTF_UP) then s <| et_rt := delete id (et_rt s) |> else s
  | None => s
  end.

(** [rtrequest] RTM_DELETE of an entry *)
Definition rt_delete (e : etenv) (s : ets) (id : Z) : outcome ets :=
  match et_rt s !! id with
  | None => Ret s
  | Some r =>
      let s := upd_rt id (fun r => r <| re_flags := clrb (re_flags r) RTF_UP |> <| re_gwroute := None |>) s in
      let s := match re_gwroute r with Some g => rtfree s g | None => s end in
      let! s := arp_rtrequest e s RTM_DELETE id in
      Ret match et_rt s !! id with
          | Some r => if re_refcnt r <=? 0 then rtfree (upd_rt id (fun r => r <| re_refcnt := re_refcnt r + 1 |>) s) id else s
          | None => s
          end
  end.

(** ** ARP *)

(** [arplookup] *)
Definition arplookup (e : etenv) (s : ets) (addr : Z) (create : bool) (proxy : Z) : outcome (option Z * ets) :=
  let! (o, s) := rtalloc1 e s addr (if proxy =? 0 then 0 else SIN_PROXY) create in
  match o with
  | None => Ret (None, s)
  | Some id =>
      let s := unref id s in
      Ret (match et_rt s !! id with
           | Some r => if hasf (re_flags r) RTF_GATEWAY || negb (hasf (re_flags r) RTF_LLINFO) || match re_gate r with G_link _ _ => false | G_inet _ => true end
                       then None else match re_la r with Some _ => Some id | None => None end
           | None => None
           end, s)
  end.

(** The end of [arpresolve]: hold the packet and ask. *)
Definition arp_hold (e : etenv) (s : ets) (ac : arpcom) (id : Z) (r : rtentry) (la : llinfo_arp) (m : chain) (dst : Z) : outcome ets :=
  let s := match la_hold la with Some h => et_free h s | None => s end in
  let set f s := upd_rt id (fun r => f (r <| re_la := match re_la r with Some la => Some (la <| la_hold := Some m |>) | None => None end |>)) s in
  let ask n r := r <| re_la := match re_la r with Some la => Some (la <| la_asked := n |>) | None => None end |> in
  if re_expire r =? 0 then Ret (set (fun r => r) s)
  else
    let unreject r := r <| re_flags := clrb (re_flags r) RTF_REJECT |> in
    if (la_asked la =? 0) || negb (re_expire r =? et_now e) then
      if la_asked la <? arp_maxtries then
        arpwhohas (set (fun r => ask (la_asked la + 1) (unreject r <| re_expire := et_now e |>)) s) ac dst
      else Ret (set (fun r => ask 0 (r <| re_flags := setb (re_flags r) RTF_REJECT |> <| re_expire := et_now e + arpt_down |>)) s)
    else Ret (set unreject s).

(** [arpresolve]: the Ethernet address, or [None] when the packet has been taken. *)
Definition arpresolve (e : etenv) (s : ets) (ac : arpcom) (rt : option Z) (m : chain) (dst : Z) : outcome (option (list Z) * ets) :=
  let m1 := match m with m1 :: _ => m1 | [] => mkMbuf 0 [] 0 0 0 0 0 0 end in
  if hasf (m_flags m1) M_BCAST then Ret (Some etherbroadcastaddr, s)
  else if hasf (m_flags m1) M_MCAST then Ret (Some (ETHER_MAP_IP_MULTICAST dst), s)
  else
    let! (rt, s) := (match rt with Some _ => Ret (rt, s) | None => arplookup e s dst true 0 end) in
    match rt with
    | None => Ret (None, et_free m s)
    | Some id =>
        match et_rt s !! id with
        | None => Panic "arpresolve: dangling rtentry"
        | Some r =>
            match re_la r with
            | None => Ret (None, et_free m s)
            | Some la =>
                let hold := let! s := arp_hold e s ac id r la m dst in Ret (None, s) in
                if (re_expire r =? 0) || (re_expire r >? et_now e) then
                  match re_gate r with
                  | G_link alen ll => if negb (alen =? 0) then Ret (Some (ztake alen ll), s) else hold
                  | G_inet _ => hold
                  end
                else hold
            end
        end
    end.

(** ** Output *)

(** A destination: an internet address, an Ethernet header, or another family without a
    routing table *)
Inductive esa := E_inet (addr : Z) | E_unspec (dhost : list Z) (type : Z) | E_other.
Definition rtalloc_dst (e : etenv) (s : ets) (dst : esa) : outcome (option Z * ets) :=
  match dst with E_inet a => rtalloc1 e s a 0 true | _ => Ret (None, s) end.

(** The route of a packet: the entry to use, or an error. *)
Definition ether_route (e : etenv) (s : ets) (dst : esa) (rt0 : option Z) : outcome ((Z + option Z) * ets) :=
  match rt0 with
  | None => Ret (inr None, s)
  | Some id0 =>
      let look s (id : Z) := match et_rt s !! id with Some r => Ret r | None => Panic "ether_output: dangling rtentry" end in
      let! r := look s id0 in
      let! (o, s) := (if negb (hasf (re_flags r) RTF_UP) then
                        let! (o, s) := rtalloc_dst e s dst in
                        Ret match o with Some i => (Some i, unref i s) | None => (None, s) end
                      else Ret (Some id0, s)) in
      match o with
      | None => Ret (inl EHOSTUNREACH, s)
      | Some id0 =>
          let! r0 := look s id0 in
          let lookup s :=
            match re_gate r0 with
            | G_inet a =>
                let! (o, s) := rtalloc1 e s a 0 true in
                Ret (o, upd_rt id0 (fun r => r <| re_gwroute := o |>) s)
            | G_link _ _ => Ret (None, upd_rt id0 (fun r => r <| re_gwroute := None |>) s)
            end in
          let! (o, s) :=
            (if hasf (re_flags r0) RTF_GATEWAY then
               match re_gwroute r0 with
               | None => lookup s
               | Some g => let! rg := look s g in if hasf (re_flags rg) RTF_UP then Ret (Some g, s) else lookup (rtfree s g)
               end
             else Ret (Some id0, s)) in
          match o with
          | None => Ret (inl EHOSTUNREACH, s)
          | Some id =>
              let! r := look s id in
              if hasf (re_flags r) RTF_REJECT && ((re_expire r =? 0) || (et_now e <? re_expire r))
              then Ret (inl (if id =? id0 then EHOSTDOWN else EHOSTUNREACH), s)
              else Ret (inr (Some id), s)
          end
      end
  end.

(** [ether_output] *)
Definition ether_output (e : etenv) (s : ets) (ac : arpcom) (m : chain) (dst : esa) (rt0 : option Z) : outcome (Z * ets) :=
  if if_down ac then Ret (ENETDOWN, et_free m s)
  else
    let! (r, s) := ether_route e s dst rt0 in
    match r with
    | inl error => Ret (error, et_free m s)
    | inr rt =>
        match dst with
        | E_inet a =>
            let! (edst, s) := arpresolve e s ac rt m a in
            match edst with
            | None => Ret (0, s)
            | Some edst =>
                let m1 := match m with m1 :: _ => m1 | [] => mkMbuf 0 [] 0 0 0 0 0 0 end in
                let! s := (if hasf (m_flags m1) M_BCAST && hasf (ac_flags ac) IFF_SIMPLEX then
                             let! (c, p) := m_copym (et_pool s) m 0 M_COPYALL in
                             let s := s <| et_pool := p |> in
                             Ret match c with Some c => s <| et_loop := (ac_ifp ac, a, c) :: et_loop s |> | None => s end
                           else Ret s) in
                ether_frame s ac m edst ETHERTYPE_IP
            end
        | E_unspec dhost type => ether_frame s ac m dhost type
        | E_other => Ret (EAFNOSUPPORT, et_free m s)
        end
    end.

(** ** Input *)

(** [ether_input] of the packet [m] behind an Ethernet header *)
Definition ether_input (s : ets) (ac : arpcom) (dhost : list Z) (type : Z) (m : chain) : ets :=
  if negb (hasf (ac_flags ac) IFF_UP) then et_free m s
  else
    let fl := if bool_decide (dhost = etherbroadcastaddr) then M_BCAST else if hasf (get dhost 0) 1 then M_MCAST else 0 in
    let m := match m with m1 :: ms => m1 <| m_flags := setb (m_flags m1) fl |> :: ms | [] => [] end in
    let enq q set := if Slip.IF_QFULL q then et_free m (set (Slip.IF_DROP q)) else set (Slip.IF_ENQUEUE q m) in
    if type =? ETHERTYPE_IP then enq (et_ipq s) (fun q => s <| et_ipq := q |>)
    else if type =? ETHERTYPE_ARP then enq (et_arpq s) (fun q => s <| et_arpq := q |>)
    else et_free m s.

(** The loop over in_ifaddr: an address of the interface that the packet names, and the last one
    that was seen *)
Fixpoint find_ia (l : list ifaddr) (ifp isaddr itaddr : Z) (maybe : option Z) : option Z * option Z :=
  match l with
  | [] => (None, maybe)
  | (a, i) :: l =>
      if i =? ifp then
        if (itaddr =? a) || (isaddr =? a) then (Some a, Some a) else find_ia l ifp isaddr itaddr (Some a)
      else find_ia l ifp isaddr itaddr maybe
  end.

(** What the sender of an ARP packet says about itself is entered, and a held packet goes out. *)
Definition arp_learn (e : etenv) (s : ets) (ac : arpcom) (id : Z) (sha : list Z) : outcome ets :=
  match et_rt s !! id with
  | None => Panic "in_arpinput: dangling rtentry"
  | Some r =>
      let s := upd_rt id (fun r =>
                 let r := r <| re_gate := G_link 6 sha |> <| re_flags := clrb (re_flags r) RTF_REJECT |>
                            <| re_la := match re_la r with Some la => Some (la <| la_asked := 0 |>) | None => None end |> in
                 if re_expire r =? 0 then r else r <| re_expire := et_now e + arpt_keep |>) s in
      match match re_la r with Some la => la_hold la | None => None end with
      | None => Ret s
      | Some h =>
          let! (_, s) := ether_output e s ac h (E_inet (re_dst r)) (Some id) in
          Ret (upd_rt id (fun r => r <| re_la := match re_la r with Some la => Some (la <| la_hold := None |>) | None => None end |>) s)
      end
  end.

(** The label reply: answer for [itaddr] in the mbuf of the request. *)
Definition arp_reply (e : etenv) (s : ets) (ac : arpcom) (m1 : mbuf) (ms : chain) (op itaddr myaddr : Z) : outcome ets :=
  let b := m_bytes m1 in
  let out s := Ret (et_free (m1 :: ms) s) in
  if negb (op =? ARPOP_REQUEST) then out s
  else
    let! (o, s) :=
      (if itaddr =? myaddr then Ret (Some (ac_enaddr ac), s)
       else
         let! (o, s) := arplookup e s itaddr false SIN_PROXY in
         match o with
         | None => Ret (None, s)
         | Some id => match et_rt s !! id with
                      | Some r => Ret (match re_gate r with G_link _ ll => Some (ztake 6 ll) | G_inet _ => None end, s)
                      | None => Panic "in_arpinput: dangling rtentry"
                      end
         end) in
    match o with
    | None => out s
    | Some sha =>
        let b' := ztake 2 b ++ be16 ETHERTYPE_IP ++ zsub 4 2 b ++ be16 ARPOP_REPLY ++ sha ++ be32 itaddr ++ zsub 8 6 b ++ zsub 14 4 b ++ zdrop 28 b in
        let! (_, s) := ether_unspec s ac (m1 <| m_bytes := b' |> :: ms) (zsub 8 6 b) ETHERTYPE_ARP in Ret s
    end.

(** [in_arpinput] *)
Definition in_arpinput (e : etenv) (s : ets) (m : chain) : outcome ets :=
  match m with
  | [] => Panic "in_arpinput: null mbuf"
  | m1 :: ms =>
      let b := m_bytes m1 in
      let ac := et_ac e (m_rcvif m1) in
      let out := Ret (et_free m s) in
      if m_len m1 <? 28 then Panic "in_arpinput: read behind the mbuf"
      else
        let op := rd16 b 6 in
        let sha := zsub 8 6 b in
        let isaddr := rd32 b 14 in
        let itaddr := rd32 b 24 in
        let '(ia, maybe) := find_ia (et_ifaddr e) (ac_ifp ac) isaddr itaddr None in
        match maybe with
        | None => out
        | Some last =>
            let myaddr := match ia with Some a => a | None => last end in
            if bool_decide (sha = ac_enaddr ac) then out
            else if bool_decide (sha = etherbroadcastaddr) then out
            else if isaddr =? myaddr then arp_reply e s ac m1 ms op myaddr myaddr
            else
              let! (o, s) := arplookup e s isaddr (itaddr =? myaddr) 0 in
              let! s := (match o with Some id => arp_learn e s ac id sha | None => Ret s end) in
              arp_reply e s ac m1 ms op itaddr myaddr
        end
  end.

(** One turn of the loop of [arpintr] *)
Definition arpintr1 (e : etenv) (s : ets) (m : chain) : outcome ets :=
  match m with
  | [] => Panic "arpintr"
  | m1 :: _ =>
      if negb (hasf (m_flags m1) M_PKTHDR) then Panic "arpintr"
      else
        let b := m_bytes m1 in
        if (m_len m1 >=? 8) && (rd16 b 0 =? ARPHRD_ETHER) && (m_len m1 >=? 8 + 2 * get b 4 + 2 * get b 5) &&
           ((rd16 b 2 =? ETHERTYPE_IP) || (rd16 b 2 =? ETHERTYPE_TRAIL))
        then in_arpinput e s m
        else Ret (et_free m s)
  end.
Fixpoint arpintr_loop (e : etenv) (q : list chain) (s : ets) : outcome ets :=
  match q with
  | [] => Ret s
  | m :: q => let! s := arpintr1 e (s <| et_arpq := (Slip.IF_DEQUEUE (et_arpq s)).2 |>) m in arpintr_loop e q s
  end.

(** [arpintr] empties its queue; nothing is put into it meanwhile. *)
Definition arpintr (e : etenv) (s : ets) : outcome ets := arpintr_loop e (Slip.ifq_q (et_arpq s)) s.

(** ** The timer *)

(** [arptfree] *)
Definition arptfree (e : etenv) (s : ets) (id : Z) : outcome ets :=
  match et_rt s !! id with
  | None => Panic "arptfree"
  | Some r =>
      match re_gate r with
      | G_link _ ll =>
          if re_refcnt r >? 0
          then Ret (upd_rt id (fun r => r <| re_gate := G_link 0 ll |> <| re_flags := clrb (re_flags r) RTF_REJECT |>
                      <| re_la := match re_la r with Some la => Some (la <| la_asked := 0 |>) | None => None end |>) s)
          else rt_delete e s id
      | G_inet _ => rt_delete e s id
      end
  end.

Fixpoint arptimer_loop (e : etenv) (l : list Z) (s : ets) : outcome ets :=
  match l with
  | [] => Ret s
  | id :: l =>
      match et_rt s !! id with
      | None => Panic "arptimer: dangling rtentry"
      | Some r =>
          let! s := (if negb (re_expire r =? 0) && (re_expire r <=? et_now e) then arptfree e s id else Ret s) in
          arptimer_loop e l s
      end
  end.

(** [arptimer] *)
Definition arptimer (e : etenv) (s : ets) : outcome ets := arptimer_loop e (et_las s) s.

End Ether.
