(* ===== verification/EtherInv.v ===== *)
(** The invariant of the routes that ARP works on: every reference is counted, every pointer
    leads to an entry, llinfo_arp lists the entries with ARP data, each once, and the table has
    one entry per host.  No sequence of packets, lookups and timeouts reaches a panic. *)
From stdpp Require Import gmap.
From S2P Require Import Prelude Mbuf SockBuf Socket TcpVar TcpHdr IpHdr IpOutput IpInput Udp Slip Ether.
Import Mbuf TcpHdr Udp Ether.

Module EtherInv.

(** ** Counting references *)

(** The gateway route of an entry; that of entry [x] is about to be overwritten. *)
Definition gw (x : option Z) (i : Z) (r : rtentry) : option Z := if decide (x = Some i) then None else re_gwroute r.
Definition cnt (x : option Z) (g i : Z) (r : rtentry) : Z := if decide (gw x i r = Some g) then 1 else 0.
Definition refs (x : option Z) (g : Z) (t : gmap Z rtentry) : Z := map_fold (fun i r n => cnt x g i r + n) 0 t.

Lemma refs_fresh x g t i r : t !! i = None -> refs x g (<[i := r]> t) = cnt x g i r + refs x g t.
Proof. intros H. unfold refs. rewrite (map_fold_insert_L (fun i r n => cnt x g i r + n)); [done| |done]. intros. lia. Qed.
Lemma refs_lookup x g t i r : t !! i = Some r -> refs x g t = cnt x g i r + refs x g (delete i t).
Proof. intros H. unfold refs. rewrite (map_fold_delete_L (fun i r n => cnt x g i r + n) _ i r); [done| |done]. intros. lia. Qed.
Lemma refs_insert x g t i r r' : t !! i = Some r -> refs x g (<[i := r']> t) = refs x g t - cnt x g i r + cnt x g i r'.
Proof.
  intros H. rewrite (refs_lookup _ _ _ _ _ H), <- insert_delete_eq, refs_fresh by apply lookup_delete_eq. lia.
Qed.
Lemma cnt_nonneg x g i r : 0 <= cnt x g i r.
Proof. unfold cnt. by case_decide. Qed.
Lemma refs_nonneg x g t : 0 <= refs x g t.
Proof.
  induction t as [|i r t Hi IH] using map_ind; [done|]. rewrite refs_fresh by done. pose proof (cnt_nonneg x g i r). lia.
Qed.
Lemma refs_pos x g t i r : t !! i = Some r -> gw x i r = Some g -> 0 < refs x g t.
Proof.
  intros H Hg. rewrite (refs_lookup _ _ _ _ _ H). pose proof (refs_nonneg x g (delete i t)).
  unfold cnt. rewrite decide_True by done. lia.
Qed.
Lemma refs_zero x g t : (forall i r, t !! i = Some r -> gw x i r <> Some g) -> refs x g t = 0.
Proof.
  induction t as [|i r t Hi IH] using map_ind; [done|]. intros H. rewrite refs_fresh, IH; [|intros j q Hj|done].
  - unfold cnt. rewrite decide_False; [done|]. apply (H i). apply lookup_insert_eq.
  - apply (H j). rewrite lookup_insert_ne; [done|]. intros ->. by rewrite Hi in Hj.
Qed.

(** ** The invariant *)

Definition is_link (g : gate) : Prop := match g with G_link _ _ => True | G_inet _ => False end.

Record re_ok (las : list Z) (i : Z) (r : rtentry) : Prop := {
  ro_gw : re_gwroute r <> None -> hasf (re_flags r) RTF_GATEWAY = true;
  ro_la : forall la, re_la r = Some la ->
          hasf (re_flags r) RTF_GATEWAY = false /\ hasf (re_flags r) RTF_UP = true /\ hasf (re_flags r) RTF_LLINFO = true /\
          is_link (re_gate r) /\ 0 <= la_asked la <= arp_maxtries /\ la_hold la <> Some [] /\ i ∈ las;
  ro_las : i ∈ las -> re_la r <> None;
  ro_down : hasf (re_flags r) RTF_UP = false -> re_gwroute r = None;
  ro_clone : hasf (re_flags r) RTF_CLONING = true -> hasf (re_flags r) RTF_GATEWAY = false;
  ro_mask : forall m, re_mask r = Some m -> 0 <= m < 4294967296
}.

(** [ext i] is the number of references to entry [i] from outside the table. *)
Record wf (x : option Z) (ext : Z -> Z) (s : ets) : Prop := {
  wf_re : forall i r, et_rt s !! i = Some r -> re_ok (et_las s) i r;
  wf_nodup : NoDup (et_las s);
  wf_las : forall i, i ∈ et_las s -> is_Some (et_rt s !! i);
  wf_cnt : forall i r, et_rt s !! i = Some r -> re_refcnt r = ext i + refs x i (et_rt s);
  wf_ext : forall i, 0 <= ext i /\ (0 < ext i -> is_Some (et_rt s !! i));
  wf_gw : forall j r g, et_rt s !! j = Some r -> gw x j r = Some g -> is_Some (et_rt s !! g);
  wf_live : forall i r, et_rt s !! i = Some r -> hasf (re_flags r) RTF_UP = true \/ 0 < re_refcnt r;
  wf_key : forall i j r q, et_rt s !! i = Some r -> et_rt s !! j = Some q ->
           hasf (re_flags r) RTF_UP = true -> hasf (re_flags q) RTF_UP = true ->
           re_mask r = None -> re_mask q = None -> re_dst r = re_dst q -> re_other r = re_other q -> i = j;
  wf_next : forall i, is_Some (et_rt s !! i) -> i < et_next s
}.

(** The invariant is about the entries only. *)
Lemma wf_same x ext s s' : et_rt s' = et_rt s -> et_las s' = et_las s -> et_next s' = et_next s -> wf x ext s -> wf x ext s'.
Proof. intros H1 H2 H3 []. by split; rewrite ?H1, ?H2, ?H3. Qed.

(** ** Lookups *)

Lemma best_spec l dst other i r :
  best l dst other = Some (i, r) -> (i, r) ∈ l /\ re_matches r dst other = true /\
    forall j q, (j, q) ∈ l -> re_matches q dst other = true -> re_rank q <= re_rank r.
Proof.
  revert i r. induction l as [|[j q] l IH]; [done|]. intros i r. simpl.
  destruct (best l dst other) as [[i' r']|] eqn:Eb.
  - destruct (IH _ _ eq_refl) as (Hin & Hm & Hmax). destruct (re_matches q dst other) eqn:Eq.
    + destruct (Z.geb_spec (re_rank r') (re_rank q)) as [Hr|Hr]; intros [= <- <-].
      * split; [by right|]. split; [done|]. intros k p [[= -> ->]|Hk]%elem_of_cons; [done|by eapply Hmax].
      * split; [by left|]. split; [done|]. intros k p [[= -> ->]|Hk]%elem_of_cons Hp; [done|]. specialize (Hmax _ _ Hk Hp). lia.
    + intros [= <- <-]. split; [by right|]. split; [done|]. intros k p [[= -> ->]|Hk]%elem_of_cons Hp; [congruence|by eapply Hmax].
  - assert (Hno : forall k p, (k, p) ∈ l -> re_matches p dst other = true -> False).
    { intros k p Hk Hp. clear IH. induction l as [|[k' p'] l IH]; [by apply elem_of_nil in Hk|]. simpl in Eb.
      destruct (re_matches p' dst other) eqn:Ep; [destruct (best l dst other) as [[]|]; [destruct (_ >=? _)|]; discriminate|].
      apply elem_of_cons in Hk as [[= -> ->]|Hk]; [congruence|]. by apply IH. }
    destruct (re_matches q dst other) eqn:Eq; intros [= <- <-]. split; [by left|]. split; [done|].
    intros k p [[= -> ->]|Hk]%elem_of_cons Hp; [done|]. exfalso. eauto.
Qed.
Lemma best_some l dst other i r : (i, r) ∈ l -> re_matches r dst other = true -> is_Some (best l dst other).
Proof.
  induction l as [|[j q] l IH]; [by intros ?%elem_of_nil|]. intros [[= -> ->]|H]%elem_of_cons Hm; simpl.
  - rewrite Hm. destruct (best l dst other) as [[]|]; [case_match|]; eauto.
  - destruct (IH H Hm) as [b Eb]. rewrite Eb. destruct b. destruct (re_matches q dst other); [case_match|]; eauto.
Qed.

Lemma match_spec s dst other i r :
  rnh_matchaddr s dst other = Some (i, r) -> et_rt s !! i = Some r /\ re_matches r dst other = true /\
    forall j q, et_rt s !! j = Some q -> re_matches q dst other = true -> re_rank q <= re_rank r.
Proof.
  intros H%best_spec. rewrite elem_of_map_to_list in H. destruct H as (H1 & H2 & H3). split_and!; try done.
  intros j q Hj. apply (H3 j). by apply elem_of_map_to_list.
Qed.
Lemma matches_up r dst other : re_matches r dst other = true -> hasf (re_flags r) RTF_UP = true.
Proof. unfold re_matches. by intros [? _]%andb_true_iff. Qed.

(** The entry of a host is found. *)
Lemma match_host x ext s i r :
  wf x ext s -> et_rt s !! i = Some r -> re_mask r = None -> hasf (re_flags r) RTF_UP = true ->
  rnh_matchaddr s (re_dst r) (re_other r) = Some (i, r).
Proof.
  intros W Hi Hm Hu.
  assert (Hma : re_matches r (re_dst r) (re_other r) = true) by (unfold re_matches; by rewrite Hu, Hm, !Z.eqb_refl).
  destruct (best_some (map_to_list (et_rt s)) (re_dst r) (re_other r) i r) as [[j q] Eb]; [by apply elem_of_map_to_list|done|].
  fold (rnh_matchaddr s (re_dst r) (re_other r)) in Eb. rewrite Eb. apply match_spec in Eb as (Hj & Hq & Hmax).
  specialize (Hmax _ _ Hi Hma). unfold re_rank in Hmax. rewrite Hm in Hmax. destruct (re_mask q) as [m|] eqn:Em.
  { pose proof (ro_mask _ _ _ (wf_re _ _ _ W _ _ Hj) _ Em). lia. }
  pose proof (matches_up _ _ _ Hq) as Hqu. unfold re_matches in Hq. rewrite Hqu, Em in Hq. cbn [andb] in Hq.
  apply andb_true_iff in Hq as [Hd%Z.eqb_eq Ho%Z.eqb_eq].
  assert (j = i) as -> by by apply (wf_key _ _ _ W j i q r). by simplify_eq.
Qed.

(** ** Changes of an entry *)

Lemma upd_rt_some i f s r : et_rt s !! i = Some r -> upd_rt i f s = s <| et_rt := <[i := f r]> (et_rt s) |>.
Proof.
  intros H. unfold upd_rt. f_equal. apply map_eq. intros j. destruct (decide (i = j)) as [<-|Hj].
  - by rewrite lookup_alter_eq, H, lookup_insert_eq.
  - by rewrite lookup_alter_ne, lookup_insert_ne by done.
Qed.
Lemma upd_rt_none i f s : et_rt s !! i = None -> upd_rt i f s = s.
Proof.
  intros H. unfold upd_rt. replace (alter f i (et_rt s)) with (et_rt s); [by destruct s|].
  apply map_eq. intros j. destruct (decide (i = j)) as [<-|Hj]; [by rewrite lookup_alter_eq, H|by rewrite lookup_alter_ne].
Qed.
Lemma upd_rt_lookup i j f s : et_rt (upd_rt i f s) !! j = if decide (i = j) then f <$> et_rt s !! j else et_rt s !! j.
Proof. unfold upd_rt. case_decide as H; [subst; apply lookup_alter_eq|by apply lookup_alter_ne]. Qed.

(** What the table knows an entry by *)
Definition like (r r' : rtentry) : Prop :=
  re_dst r' = re_dst r /\ re_other r' = re_other r /\ re_mask r' = re_mask r /\ re_gwroute r' = re_gwroute r /\
  hasf (re_flags r') RTF_UP = hasf (re_flags r) RTF_UP.

Lemma like_refl r : like r r.
Proof. done. Qed.
#[local] Hint Resolve like_refl : core.

Lemma like_lookup (t : gmap Z rtentry) i r r' j q : t !! i = Some r -> like r r' -> <[i := r']> t !! j = Some q -> exists q0, t !! j = Some q0 /\ like q0 q.
Proof.
  intros Hi Hl. destruct (decide (i = j)) as [<-|Hj]; [rewrite lookup_insert_eq; intros [= <-]; eauto|rewrite lookup_insert_ne by done; eauto].
Qed.
Lemma refs_like x g t i r r' : t !! i = Some r -> like r r' -> refs x g (<[i := r']> t) = refs x g t.
Proof.
  intros Hi (_ & _ & _ & Hg & _). rewrite (refs_insert _ _ _ _ _ _ Hi). unfold cnt, gw. rewrite Hg. lia.
Qed.

(** The entry [i] changes, its reference count by [d], and llinfo_arp at most at [i]. *)
Lemma wf_set x ext s i r r' las d :
  wf x ext s -> et_rt s !! i = Some r -> like r r' -> re_refcnt r' = re_refcnt r + d -> 0 <= ext i + d ->
  hasf (re_flags r) RTF_UP = true \/ 0 < re_refcnt r' ->
  NoDup las -> (forall j, j <> i -> j ∈ las <-> j ∈ et_las s) -> re_ok las i r' ->
  wf x (bump ext i d) (s <| et_rt := <[i := r']> (et_rt s) |> <| et_las := las |>).
Proof.
  intros W Hi Hl Hr He Hlive Hnd Hlas Hok.
  assert (Hp : forall j, is_Some (et_rt s !! j) -> is_Some (<[i := r']> (et_rt s) !! j)).
  { intros j Hj. destruct (decide (i = j)) as [<-|Hj']; [rewrite lookup_insert_eq; eauto|by rewrite lookup_insert_ne]. }
  split; rec_simpl.
  - intros j q. destruct (decide (i = j)) as [<-|Hj]; [rewrite lookup_insert_eq; by intros [= <-]|rewrite lookup_insert_ne by done].
    intros Hq. destruct (wf_re _ _ _ W _ _ Hq) as [G1 G2 G3 G4 G5 G6]. split; try done.
    + intros la Hla. rewrite Hlas by done. auto.
    + rewrite Hlas by done. auto.
  - done.
  - intros j Hj. apply Hp. destruct (decide (j = i)) as [->|Hj']; [eauto|]. apply (wf_las _ _ _ W). by apply Hlas.
  - intros j q. rewrite (refs_like _ _ _ _ _ _ Hi Hl). unfold bump.
    destruct (decide (i = j)) as [<-|Hj]; [rewrite lookup_insert_eq; intros [= <-]|rewrite lookup_insert_ne by done; intros Hq].
    + rewrite Z.eqb_refl, Hr, (wf_cnt _ _ _ W _ _ Hi). lia.
    + rewrite (proj2 (Z.eqb_neq j i)) by done. by apply (wf_cnt _ _ _ W).
  - intros j. unfold bump. destruct (wf_ext _ _ _ W j) as [E1 E2]. destruct (Z.eqb_spec j i) as [->|Hj]; [split; [done|]; eauto|]. eauto.
  - intros j q g Hq Hg. destruct (like_lookup _ _ _ _ _ _ Hi Hl Hq) as (q0 & Hq0 & _ & _ & _ & Hg0 & _).
    apply Hp, (wf_gw _ _ _ W j q0); [done|]. unfold gw in *. by rewrite <- Hg0.
  - intros j q. destruct (decide (i = j)) as [<-|Hj]; [rewrite lookup_insert_eq; intros [= <-]|rewrite lookup_insert_ne by done; apply (wf_live _ _ _ W)].
    destruct Hl as (_ & _ & _ & _ & ->). done.
  - intros j k q p Hq Hp' U1 U2 M1 M2 D O.
    destruct (like_lookup _ _ _ _ _ _ Hi Hl Hq) as (q0 & Hq0 & ? & ? & ? & _ & ?).
    destruct (like_lookup _ _ _ _ _ _ Hi Hl Hp') as (p0 & Hp0 & ? & ? & ? & _ & ?).
    apply (wf_key _ _ _ W j k q0 p0); congruence.
  - intros j Hj. apply (wf_next _ _ _ W). destruct (decide (i = j)) as [<-|Hj']; [eauto|by rewrite lookup_insert_ne in Hj].
Qed.

Lemma bump_0 f c : forall j, bump f c 0 j = f j.
Proof. intros j. unfold bump. case_match; lia. Qed.

(** Counts that agree are the same. *)
Lemma wf_ext_eq x ext ext' s : (forall i, ext' i = ext i) -> wf x ext s -> wf x ext' s.
Proof. intros He []. split; try done; intros i; rewrite ?He; auto. Qed.

(** A change of the fields that only ARP uses *)
Lemma wf_upd x ext s i f :
  wf x ext s ->
  (forall r, et_rt s !! i = Some r -> re_ok (et_las s) i r -> like r (f r) /\ re_refcnt (f r) = re_refcnt r /\ re_ok (et_las s) i (f r)) ->
  wf x ext (upd_rt i f s).
Proof.
  intros W H. destruct (et_rt s !! i) as [r|] eqn:Hi; [|by rewrite upd_rt_none].
  rewrite (upd_rt_some _ _ _ _ Hi). destruct (H r eq_refl (wf_re _ _ _ W _ _ Hi)) as (Hl & Hc & Hok).
  apply (wf_ext_eq x (bump ext i 0)); [intros; by rewrite bump_0|].
  eapply wf_same; [..|apply (wf_set x ext s i r (f r) (et_las s) 0 W Hi Hl)]; try done; [lia| |..].
  - destruct (wf_ext _ _ _ W i). lia.
  - rewrite Hc. by apply (wf_live _ _ _ W _ _ Hi).
  - apply (wf_nodup _ _ _ W).
Qed.

(** An entry goes with its last references. *)
Lemma wf_del x ext s i r las :
  wf x ext s -> et_rt s !! i = Some r -> re_refcnt r = ext i -> re_gwroute r = None ->
  NoDup las -> i ∉ las -> (forall j, j <> i -> j ∈ las <-> j ∈ et_las s) ->
  wf x (bump ext i (- ext i)) (s <| et_rt := delete i (et_rt s) |> <| et_las := las |>).
Proof.
  intros W Hi Hr Hg Hnd Hni Hlas.
  assert (Hc0 : forall g, cnt x g i r = 0) by (intros g; unfold cnt, gw; rewrite decide_False; [done|]; case_decide; congruence).
  assert (Hz : refs x i (et_rt s) = 0) by (pose proof (wf_cnt _ _ _ W _ _ Hi); lia).
  assert (Hb : forall j, j <> i -> bump ext i (- ext i) j = ext j) by (intros j Hj; unfold bump; by rewrite (proj2 (Z.eqb_neq j i))).
  assert (Hp : forall j, j <> i -> is_Some (et_rt s !! j) -> is_Some (delete i (et_rt s) !! j)) by (intros j Hj; by rewrite lookup_delete_ne).
  split; rec_simpl.
  - intros j q [Hj Hq]%lookup_delete_Some. destruct (wf_re _ _ _ W _ _ Hq) as [G1 G2 G3 G4 G5 G6]. split; try done.
    + intros la Hla. rewrite Hlas by done. auto.
    + rewrite Hlas by done. auto.
  - done.
  - intros j Hj. assert (j <> i) by (by intros ->). apply Hp; [done|]. apply (wf_las _ _ _ W). by apply Hlas.
  - intros j q [Hj Hq]%lookup_delete_Some. rewrite Hb, (wf_cnt _ _ _ W _ _ Hq), (refs_lookup x j _ _ _ Hi), Hc0 by done. lia.
  - intros j. destruct (wf_ext _ _ _ W j) as [E1 E2]. destruct (decide (j = i)) as [->|Hj]; [unfold bump; rewrite Z.eqb_refl; lia|].
    rewrite Hb by done. auto.
  - intros j q g [Hj Hq]%lookup_delete_Some Hg'. apply Hp; [|by apply (wf_gw _ _ _ W j q)].
    intros ->. pose proof (refs_pos _ _ _ _ _ Hq Hg'). lia.
  - intros j q [Hj Hq]%lookup_delete_Some. by apply (wf_live _ _ _ W j).
  - intros j k q p [_ Hq]%lookup_delete_Some [_ Hp']%lookup_delete_Some. by apply (wf_key _ _ _ W).
  - intros j [q [_ Hq]%lookup_delete_Some]. apply (wf_next _ _ _ W). eauto.
Qed.

(** A new entry, which nobody refers to *)
Lemma wf_new x ext s r :
  wf x ext s -> re_refcnt r = 0 -> re_gwroute r = None -> re_la r = None -> re_mask r = None ->
  hasf (re_flags r) RTF_UP = true -> hasf (re_flags r) RTF_GATEWAY = false ->
  (forall j q, et_rt s !! j = Some q -> re_matches q (re_dst r) (re_other r) = true -> re_mask q <> None) ->
  wf x ext (s <| et_rt := <[et_next s := r]> (et_rt s) |> <| et_next := et_next s + 1 |>).
Proof.
  intros W Hr Hg Hla Hm Hu Hgw Hk. set (n := et_next s).
  assert (Hn : et_rt s !! n = None).
  { destruct (et_rt s !! n) eqn:E; [|done]. pose proof (wf_next _ _ _ W n ltac:(eauto)). lia. }
  assert (Hc0 : forall g, cnt x g n r = 0) by (intros g; unfold cnt, gw; rewrite decide_False; [done|]; case_decide; congruence).
  assert (Hp : forall j, is_Some (et_rt s !! j) -> is_Some (<[n := r]> (et_rt s) !! j)).
  { intros j [q Hq]. rewrite lookup_insert_ne; [eauto|]. intros <-. congruence. }
  assert (Hno : n ∉ et_las s) by (intros [q Hq]%(wf_las _ _ _ W); congruence).
  assert (Hsame : forall q, et_rt s !! n <> Some q) by (intros q; by rewrite Hn).
  assert (Hkey : forall j q, et_rt s !! j = Some q -> hasf (re_flags q) RTF_UP = true -> re_mask q = None -> re_dst q = re_dst r -> re_other q = re_other r -> False).
  { intros j q Hq U M D O. apply (Hk j q Hq); [|done]. unfold re_matches. by rewrite U, M, D, O, !Z.eqb_refl. }
  split; rec_simpl.
  - intros j q. destruct (decide (n = j)) as [<-|Hj]; [rewrite lookup_insert_eq; intros [= <-]|rewrite lookup_insert_ne by done; apply (wf_re _ _ _ W)].
    by split; rewrite ?Hg, ?Hla, ?Hm.
  - apply (wf_nodup _ _ _ W).
  - intros j Hj. by apply Hp, (wf_las _ _ _ W).
  - intros j q. rewrite refs_fresh, Hc0 by done.
    destruct (decide (n = j)) as [<-|Hj]; [rewrite lookup_insert_eq; intros [= <-]|rewrite lookup_insert_ne by done; apply (wf_cnt _ _ _ W)].
    rewrite Hr, refs_zero; [destruct (wf_ext _ _ _ W n) as [E1 E2]; destruct (Z.eq_dec (ext n) 0); [lia|]; destruct E2; [lia|congruence]|].
    intros j q Hq Hg'. destruct (wf_gw _ _ _ W _ _ _ Hq Hg'). congruence.
  - intros j. destruct (wf_ext _ _ _ W j). eauto.
  - intros j q g. destruct (decide (n = j)) as [<-|Hj]; [rewrite lookup_insert_eq; intros [= <-]; unfold gw; case_decide; congruence|].
    rewrite lookup_insert_ne by done. intros Hq Hg'. by apply Hp, (wf_gw _ _ _ W j q).
  - intros j q. destruct (decide (n = j)) as [<-|Hj]; [rewrite lookup_insert_eq; intros [= <-]; by left|rewrite lookup_insert_ne by done; apply (wf_live _ _ _ W)].
  - intros j k q p. destruct (decide (n = j)) as [<-|Hj]; [rewrite lookup_insert_eq; intros [= <-]|rewrite lookup_insert_ne by done];
      (destruct (decide (n = k)) as [<-|Hk']; [rewrite lookup_insert_eq; intros Hp'|rewrite lookup_insert_ne by done]); try done.
    + intros Hp' U1 U2 M1 M2 D O. exfalso. by eapply (Hkey k p).
    + intros [= <-] U1 U2 M1 M2 D O. exfalso. by eapply (Hkey j q).
    + by apply (wf_key _ _ _ W).
  - intros j [q Hq]. destruct (decide (n = j)) as [<-|Hj]; [lia|]. rewrite lookup_insert_ne in Hq by done.
    pose proof (wf_next _ _ _ W j ltac:(eauto)). lia.
Qed.

(** ** The routines on routes *)

(** Entries stay, those in the tree stay there, and arpintrq is untouched. *)
Definition keep (s s' : ets) : Prop :=
  (forall j r, et_rt s !! j = Some r -> exists r', et_rt s' !! j = Some r' /\
     (hasf (re_flags r) RTF_UP = true -> hasf (re_flags r') RTF_UP = true) /\ (re_la r <> None -> re_la r' <> None) /\
     (hasf (re_flags r) RTF_GATEWAY = true -> hasf (re_flags r') RTF_GATEWAY = true)) /\
  et_arpq s' = et_arpq s.
#[local] Instance keep_pre : PreOrder keep.
Proof.
  split; [intros s; split; eauto 10|]. intros s1 s2 s3 [H1 Q1] [H2 Q2]. split; [|congruence].
  intros j r (r1 & Hr1 & U1 & L1 & G1)%H1. destruct (H2 _ _ Hr1) as (r2 & Hr2 & U2 & L2 & G2). exists r2. auto 10.
Qed.
Lemma keep_present s s' i : keep s s' -> is_Some (et_rt s !! i) -> is_Some (et_rt s' !! i).
Proof. intros [K _] [r Hr]. destruct (K _ _ Hr) as (r' & Hr' & _). eauto. Qed.

(** Nothing of the routes changes. *)
Definition quiet (s s' : ets) : Prop := et_rt s' = et_rt s /\ et_las s' = et_las s /\ et_next s' = et_next s /\ et_arpq s' = et_arpq s.
Lemma quiet_keep s s' : quiet s s' -> keep s s'.
Proof. intros (E & _ & _ & Q). split; [rewrite E; eauto 10|done]. Qed.
Lemma quiet_wf x ext s s' : quiet s s' -> wf x ext s -> wf x ext s'.
Proof. intros (E & L & N & _). by apply wf_same. Qed.
#[local] Instance quiet_pre : PreOrder quiet.
Proof. split; [done|]. intros s1 s2 s3 (?&?&?&?) (?&?&?&?). repeat split; congruence. Qed.

Lemma upd_keep s i f :
  (forall r, et_rt s !! i = Some r -> (hasf (re_flags r) RTF_UP = true -> hasf (re_flags (f r)) RTF_UP = true) /\ (re_la r <> None -> re_la (f r) <> None) /\
     (hasf (re_flags r) RTF_GATEWAY = true -> hasf (re_flags (f r)) RTF_GATEWAY = true)) ->
  keep s (upd_rt i f s).
Proof.
  intros H. split; [|done]. intros j r Hr. rewrite upd_rt_lookup. case_decide as Hj; [subst j|eauto].
  rewrite Hr. eexists. split; [reflexivity|]. by apply H.
Qed.

(** What ARP may change in an entry *)
Lemma re_ok_upd las i r r' :
  re_ok las i r -> like r r' -> hasf (re_flags r') RTF_GATEWAY = hasf (re_flags r) RTF_GATEWAY ->
  hasf (re_flags r') RTF_CLONING = hasf (re_flags r) RTF_CLONING ->
  (re_la r' = None -> re_la r = None) ->
  (forall la', re_la r' = Some la' -> exists la, re_la r = Some la /\ hasf (re_flags r') RTF_LLINFO = hasf (re_flags r) RTF_LLINFO /\
     (is_link (re_gate r) -> is_link (re_gate r')) /\
     (0 <= la_asked la <= arp_maxtries -> 0 <= la_asked la' <= arp_maxtries) /\ (la_hold la <> Some [] -> la_hold la' <> Some [])) ->
  re_ok las i r'.
Proof.
  intros [G1 G2 G3 G4 G5 G6] (_ & _ & Hm & Hg & Hu) Hgw Hcl Hn Hla. split.
  - by rewrite Hg, Hgw.
  - intros la' H. destruct (Hla _ H) as (la & E & HL & Hgate & Hask & Hhold). destruct (G2 _ E) as (?&?&?&?&?&?&?). rewrite Hgw, HL, Hu. auto 10.
  - intros Hi Hc. apply G3; auto.
  - by rewrite Hg, Hu.
  - by rewrite Hcl, Hgw.
  - by rewrite Hm.
Qed.

(** Solves the side conditions on the flags of a changed entry. *)
Ltac flag_eq := unfold like; rec_simpl; repeat split; try done; by flags_simpl.

Lemma R_Malloc_quiet s : quiet s (R_Malloc s).2.
Proof. unfold R_Malloc. by destruct (pool_alloc _). Qed.

Lemma free_quiet m s : quiet s (et_free m s).
Proof. done. Qed.

Lemma arp_resolve_ok x ext e s id :
  wf x ext s -> (forall r, et_rt s !! id = Some r -> hasf (re_flags r) RTF_UP = true /\ hasf (re_flags r) RTF_GATEWAY = false) ->
  wf x ext (arp_resolve e s id) /\ keep s (arp_resolve e s id).
Proof.
  intros W Hf. unfold arp_resolve. destruct (et_rt s !! id) as [r|] eqn:Hi; [|done].
  destruct (re_gate r) as [alen ll|] eqn:Eg; [|done]. destruct (re_la r) eqn:Ela; [done|].
  destruct (Hf _ eq_refl) as [Hu Hgw]. pose proof (R_Malloc_quiet s) as Hq. destruct (R_Malloc s) as [ok s1]. cbn [snd] in Hq.
  pose proof (quiet_wf x ext _ _ Hq W) as W1. destruct ok; cbn [negb]; [|split; [done|by apply quiet_keep]].
  pose proof Hq as (Et & El & _). set (r1 := r <| re_la := Some (mkLlinfo None 0) |> <| re_flags := setb (re_flags r) RTF_LLINFO |>).
  set (s2 := _ <| et_las := id :: et_las (upd_rt id _ s1) |>).
  assert (Hi1 : et_rt s1 !! id = Some r) by by rewrite Et.
  assert (Hs2 : s2 = s1 <| et_rt := <[id := r1]> (et_rt s1) |> <| et_las := id :: et_las s1 |>) by (unfold s2; by rewrite (upd_rt_some _ _ _ _ Hi1)).
  pose proof (wf_re _ _ _ W1 _ _ Hi1) as [G1 G2 G3 G4 G5 G6].
  assert (Hno : id ∉ et_las s1) by (intros H; by apply G3 in H).
  assert (W2 : wf x ext s2).
  { rewrite Hs2. apply (wf_ext_eq x (bump ext id 0)); [intros; by rewrite bump_0|]. apply (wf_set x ext s1 id r); try done.
    - unfold like, r1. rec_simpl. split_and!; try done. by flags_simpl.
    - unfold r1. rec_simpl. lia.
    - destruct (wf_ext _ _ _ W1 id). lia.
    - by left.
    - constructor; [done|apply (wf_nodup _ _ _ W1)].
    - intros j Hj. rewrite elem_of_cons. tauto.
    - split; unfold r1; rec_simpl; try done.
      + intros H. rewrite G1 in Hgw by done. done.
      + intros la [= <-]. rewrite Eg. split_and!; try done; [by flags_simpl|by flags_simpl; rewrite Hu|by flags_simpl|by left].
      + intros H. flags_simpl. rewrite hasf_setb in H. apply orb_false_iff in H as [H _]. auto.
      + intros _. by flags_simpl. }
  assert (Hi2 : et_rt s2 !! id = Some r1) by (rewrite Hs2; rec_simpl; apply lookup_insert_eq).
  assert (K2 : keep s s2).
  { etrans; [by apply quiet_keep|]. rewrite Hs2. split; [|done]. intros j q Hj. rec_simpl. destruct (decide (id = j)) as [<-|Hj'].
    - rewrite lookup_insert_eq. eexists. split; [reflexivity|]. rewrite Hi1 in Hj. injection Hj as <-. unfold r1. rec_simpl. split_and!; [|done|]; intros H; flags_simpl; by rewrite H.
    - rewrite lookup_insert_ne by done. eauto. }
  assert (Hupd : forall f s', (forall r, like r (f r) /\ re_refcnt (f r) = re_refcnt r /\ re_flags (f r) = re_flags r /\ re_la (f r) = re_la r /\ (is_link (re_gate r) -> is_link (re_gate (f r)))) ->
           wf x ext s' -> keep s s' -> wf x ext (upd_rt id f s') /\ keep s (upd_rt id f s')).
  { intros f s' H W' K'. split.
    - apply wf_upd; [done|]. intros q Hq' Hok. destruct (H q) as (H1 & H2 & H3 & H4 & H5). split_and!; try done.
      apply (re_ok_upd _ _ q); try done; [by rewrite H3|by rewrite H3|by rewrite H4|]. intros la'. rewrite H4, H3. eauto 10.
    - etrans; [done|]. apply upd_keep. intros q _. destruct (H q) as (_ & _ & -> & -> & _). done. }
  destruct (re_dst r =? _); [|done].
  assert (Wk : wf x ext (upd_rt id (fun r => r <| re_expire := 0 |> <| re_gate := G_link 6 (ac_enaddr (et_ac e (re_ifp r))) |>) s2) /\
               keep s (upd_rt id (fun r => r <| re_expire := 0 |> <| re_gate := G_link 6 (ac_enaddr (et_ac e (re_ifp r))) |>) s2)).
  { by apply Hupd. }
  destruct Wk as [W3 K3]. destruct (useloopback e); [|done]. by apply Hupd.
Qed.

(** A reference taken or given back *)
Lemma wf_ref x ext s i r d :
  wf x ext s -> et_rt s !! i = Some r -> 0 <= ext i + d -> hasf (re_flags r) RTF_UP = true \/ 0 < re_refcnt r + d ->
  wf x (bump ext i d) (upd_rt i (fun r => r <| re_refcnt := re_refcnt r + d |>) s).
Proof.
  intros W Hi Hd Hu. rewrite (upd_rt_some _ _ _ _ Hi). pose proof (wf_re _ _ _ W _ _ Hi) as [].
  eapply wf_same; [..|apply (wf_set x ext s i r (r <| re_refcnt := re_refcnt r + d |>) (et_las s) d W Hi)]; try done.
  apply (wf_nodup _ _ _ W).
Qed.
Lemma ref_keep s i d : keep s (upd_rt i (fun r => r <| re_refcnt := re_refcnt r + d |>) s).
Proof. by apply upd_keep. Qed.

Lemma bump_bump ext i d d' : d' = - d -> forall j, ext j = bump (bump ext i d) i d' j.
Proof. intros -> j. unfold bump. case_match; lia. Qed.

Lemma unref_ok x ext s i r :
  wf x (bump ext i 1) s -> et_rt s !! i = Some r -> hasf (re_flags r) RTF_UP = true -> 0 <= ext i -> wf x ext (unref i s) /\ keep s (unref i s).
Proof.
  intros W Hi Hu He. split; [|by apply (ref_keep s i (-1))].
  apply (wf_ext_eq x (bump (bump ext i 1) i (-1))); [by apply bump_bump|]. apply (wf_ref _ _ _ _ _ (-1) W Hi); [|by left].
  unfold bump. rewrite Z.eqb_refl. lia.
Qed.

(** An entry that a lookup returned, with a reference for the caller *)
Definition given (x : option Z) (ext : Z -> Z) (o : option Z) (s : ets) : Prop :=
  match o with
  | Some i => wf x (bump ext i 1) s /\ exists r, et_rt s !! i = Some r /\ hasf (re_flags r) RTF_UP = true
  | None => wf x ext s
  end.

Lemma take_ref x ext s i r :
  wf x ext s -> et_rt s !! i = Some r -> hasf (re_flags r) RTF_UP = true ->
  given x ext (Some i) (upd_rt i (fun r => r <| re_refcnt := re_refcnt r + 1 |>) s).
Proof.
  intros W Hi Hu. split; [apply (wf_ref _ _ _ _ r); try done; [destruct (wf_ext _ _ _ W i); lia|by left]|].
  rewrite upd_rt_lookup, decide_True, Hi by done. eauto.
Qed.

Lemma rt_clone_ok x ext e s pid parent dst other :
  wf x ext s -> rnh_matchaddr s dst other = Some (pid, parent) -> hasf (re_flags parent) RTF_CLONING = true ->
  exists o s', rt_clone e s parent dst other = Ret (o, s') /\ given x ext o s' /\ keep s s'.
Proof.
  intros W (Hp & Hm & Hmax)%match_spec Hcl. pose proof (ro_clone _ _ _ (wf_re _ _ _ W _ _ Hp) Hcl) as Hgw. unfold rt_clone.
  pose proof (R_Malloc_quiet s) as Q1. destruct (R_Malloc s) as [[] s1]; cbn [snd negb] in *; [|eexists _, _; split; [reflexivity|]; split; [by eapply quiet_wf|by apply quiet_keep]].
  pose proof (R_Malloc_quiet s1) as Q2. destruct (R_Malloc s1) as [ok s2]; cbn [snd] in *. assert (Q : quiet s s2) by by etrans.
  pose proof (quiet_wf _ _ _ _ Q W) as W2. pose proof (quiet_keep _ _ Q) as K2. clear Q1 Q2.
  destruct ok; cbn [negb]; [|eexists _, _; by split]. destruct (re_mask parent) as [m|] eqn:Em; [|eexists _, _; by split].
  set (fl := setb _ _). set (r := mkRtentry _ _ _ fl _ _ _ _ _ _ _). set (n := et_next s2).
  assert (Hfu : hasf fl RTF_UP = true) by (unfold fl; by flags_simpl).
  assert (Hfg : hasf fl RTF_GATEWAY = false) by (unfold fl; flags_simpl; done).
  destruct Q as (Et & _). assert (W3 : wf x ext (s2 <| et_rt := <[n := r]> (et_rt s2) |> <| et_next := n + 1 |>)).
  { apply wf_new; try done. intros j q Hq Hma Hmq. rewrite Et in Hq. specialize (Hmax _ _ Hq Hma).
    pose proof (ro_mask _ _ _ (wf_re _ _ _ W _ _ Hp) _ Em). unfold re_rank in Hmax. rewrite Em, Hmq in Hmax. lia. }
  set (s3 := s2 <| et_rt := _ |> <| et_next := _ |>) in *.
  assert (K3 : keep s s3).
  { etrans; [done|]. split; [|done]. intros j q Hq. unfold s3. rec_simpl. rewrite lookup_insert_ne; [eauto|].
    intros <-. pose proof (wf_next _ _ _ W2 n ltac:(eauto)). unfold n in *. lia. }
  assert (Hn : et_rt s3 !! n = Some r) by apply lookup_insert_eq.
  unfold arp_rtrequest. rewrite Hn. change (re_flags r) with fl. rewrite Hfg. cbn [obind].
  assert (Hg : forall q, et_rt s3 !! n = Some q -> hasf (re_flags q) RTF_UP = true /\ hasf (re_flags q) RTF_GATEWAY = false).
  { intros q. rewrite Hn. intros [= <-]. done. }
  destruct (arp_resolve_ok x ext e s3 n W3 Hg) as [W4 K4].
  destruct (proj1 K4 _ _ Hn) as (r4 & Hr4 & Hu4 & _). eexists _, _. split; [reflexivity|]. split; [by eapply take_ref; auto|].
  etrans; [done|]. etrans; [done|]. apply ref_keep.
Qed.

Lemma rtalloc1_ok x ext e s dst other report :
  wf x ext s -> exists o s', rtalloc1 e s dst other report = Ret (o, s') /\ given x ext o s' /\ keep s s'.
Proof.
  intros W. unfold rtalloc1. destruct (rnh_matchaddr s dst other) as [[id r]|] eqn:Em; [|eexists _, _; by split].
  pose proof (match_spec _ _ _ _ _ Em) as (Hi & Hma & _). pose proof (matches_up _ _ _ Hma) as Hu.
  destruct (report && _) eqn:Er; [|eexists _, _; split; [reflexivity|]; split; [by eapply take_ref|apply ref_keep]].
  apply andb_true_iff in Er as [_ Er]. destruct (rt_clone_ok x ext e _ _ _ _ _ W Em Er) as (o & s' & -> & Hg & K). cbn [obind].
  destruct o as [i|]; [eexists _, _; by split|]. destruct (proj1 K _ _ Hi) as (r' & Hr' & Hu' & _).
  eexists _, _. split; [reflexivity|]. split; [by eapply take_ref; auto|]. etrans; [done|]. apply ref_keep.
Qed.

(** Entries of the tree stay. *)
Definition keep_up (s s' : ets) : Prop :=
  (forall j r, et_rt s !! j = Some r -> hasf (re_flags r) RTF_UP = true -> exists r', et_rt s' !! j = Some r' /\
     hasf (re_flags r') RTF_UP = true /\ (hasf (re_flags r) RTF_GATEWAY = true -> hasf (re_flags r') RTF_GATEWAY = true)) /\
  et_arpq s' = et_arpq s.
Lemma keep_keep_up s s' : keep s s' -> keep_up s s'.
Proof. intros [K Q]. split; [|done]. intros j r Hr Hu. destruct (K _ _ Hr) as (r' & ? & ? & _ & ?). eauto. Qed.
#[local] Instance keep_up_pre : PreOrder keep_up.
Proof.
  split; [intros s; split; eauto|]. intros s1 s2 s3 [H1 Q1] [H2 Q2]. split; [|congruence].
  intros j r Hr Hu. destruct (H1 _ _ Hr Hu) as (r1 & Hr1 & U1 & G1). destruct (H2 _ _ Hr1 U1) as (r2 & Hr2 & U2 & G2). exists r2. auto.
Qed.

Lemma rtfree_ok x ext s i : wf x (bump ext i 1) s -> 0 <= ext i -> wf x ext (rtfree s i) /\ keep_up s (rtfree s i).
Proof.
  intros W He. assert (Hb : bump ext i 1 i = ext i + 1) by (unfold bump; by rewrite Z.eqb_refl).
  destruct (wf_ext _ _ _ W i) as [_ [r Hi]]; [lia|]. unfold rtfree. cbv zeta.
  assert (Hli : et_rt (unref i s) !! i = Some (r <| re_refcnt := re_refcnt r - 1 |>)) by (unfold unref; by rewrite upd_rt_lookup, decide_True, Hi).
  rewrite Hli. rec_simpl. pose proof (wf_cnt _ _ _ W _ _ Hi) as Hc. pose proof (refs_nonneg x i (et_rt s)).
  assert (Hw : hasf (re_flags r) RTF_UP = true \/ 0 < re_refcnt r + -1 -> wf x ext (unref i s) /\ keep s (unref i s)).
  { intros Hl. split; [|by apply (ref_keep s i (-1))]. apply (wf_ext_eq x (bump (bump ext i 1) i (-1))); [by apply bump_bump|].
    apply (wf_ref _ _ _ _ _ (-1) W Hi); [lia|done]. }
  destruct (hasf (re_flags r) RTF_UP) eqn:Hu.
  { rewrite andb_false_r. destruct Hw as [W' K']; [by left|]. split; [done|]. by apply keep_keep_up. }
  destruct (Z.eqb_spec (re_refcnt r - 1) 0) as [Hz|Hz]; [|destruct Hw as [W' K']; [right; lia|split; [done|by apply keep_keep_up]]]. cbn [negb andb].
  pose proof (wf_re _ _ _ W _ _ Hi) as [_ G2 G3 G4 _ _].
  assert (Hd : delete i (et_rt (unref i s)) = delete i (et_rt s)).
  { apply map_eq. intros j. destruct (decide (i = j)) as [<-|Hj]; [by rewrite !lookup_delete_eq|].
    rewrite !lookup_delete_ne by done. unfold unref. rewrite upd_rt_lookup, decide_False by done. done. }
  split.
  - apply (wf_ext_eq x (bump (bump ext i 1) i (- bump ext i 1 i))); [rewrite Hb; intros j; unfold bump; case_match; lia|].
    eapply wf_same; [..|apply (wf_del x _ s i r (et_las s) W Hi)]; rec_simpl; try done.
    + lia.
    + auto.
    + apply (wf_nodup _ _ _ W).
    + intros Hin%G3. destruct (re_la r) as [la|] eqn:El; [|done]. destruct (G2 _ eq_refl) as (_ & ? & _). congruence.
  - split; [|done]. intros j q Hq Hqu. rec_simpl. rewrite Hd, lookup_delete_ne; [eauto|]. intros <-. congruence.
Qed.

(** ** ARP *)

Lemma arplookup_ok x ext e s addr create proxy :
  wf x ext s -> exists o s', arplookup e s addr create proxy = Ret (o, s') /\ wf x ext s' /\ keep s s' /\
    forall i, o = Some i -> exists r, et_rt s' !! i = Some r /\ re_la r <> None.
Proof.
  intros W. unfold arplookup. destruct (rtalloc1_ok x ext e s addr (if proxy =? 0 then 0 else SIN_PROXY) create W) as (o & s1 & -> & Hg & K). cbn [obind].
  destruct o as [i|]; [|eexists _, _; by split]. destruct Hg as (W1 & r & Hi & Hu).
  destruct (unref_ok _ _ _ _ _ W1 Hi Hu) as [W2 K2]; [destruct (wf_ext _ _ _ W i); lia|].
  eexists _, _. split; [reflexivity|]. split; [done|]. split; [by etrans|]. intros j.
  destruct (et_rt (unref i s1) !! i) as [q|] eqn:Eq; [|done]. destruct (_ || _); [done|]. destruct (re_la q) eqn:El; intros [= <-].
  exists q. by rewrite El.
Qed.

Lemma ether_frame_ok s ac m edst type : m <> [] -> exists err s', ether_frame s ac m edst type = Ret (err, s') /\ quiet s s'.
Proof.
  intros Hm. unfold ether_frame. destruct m as [|m1 ms]; [done|]. destruct (M_PREPEND _ _ _ _) as [[m|] p]; [|eexists _, _; by split].
  destruct (Slip.IF_QFULL _); eexists _, _; by split.
Qed.
Lemma ether_unspec_ok s ac m dhost type : m <> [] -> exists err s', ether_unspec s ac m dhost type = Ret (err, s') /\ quiet s s'.
Proof. intros Hm. unfold ether_unspec. destruct (if_down ac); [eexists _, _; by split|]. by apply ether_frame_ok. Qed.
Lemma arprequest_ok s ac sip tip enaddr : exists s', arprequest s ac sip tip enaddr = Ret s' /\ quiet s s'.
Proof.
  unfold arprequest. destruct (m_gethdr (et_pool s) MT_DATA) as [[m|] p]; [|eexists; by split].
  match goal with |- context [ether_unspec ?s ?ac ?m ?d ?t] => destruct (ether_unspec_ok s ac m d t) as (err & s' & -> & Q); [done|] end.
  cbn [obind]. eexists. by split.
Qed.

(** ARP changes an entry: its address, its flag RTF_REJECT, its clock, its ARP data. *)
Record arp_change (r r' : rtentry) : Prop := {
  ch_like : like r r';
  ch_refcnt : re_refcnt r' = re_refcnt r;
  ch_flags : forall b, b = RTF_GATEWAY \/ b = RTF_CLONING \/ b = RTF_LLINFO -> hasf (re_flags r') b = hasf (re_flags r) b;
  ch_gate : is_link (re_gate r) -> is_link (re_gate r');
  ch_la : match re_la r with
          | None => re_la r' = None
          | Some la => exists la', re_la r' = Some la' /\ (0 <= la_asked la <= arp_maxtries -> 0 <= la_asked la' <= arp_maxtries) /\
                       (la_hold la <> Some [] -> la_hold la' <> Some [])
          end
}.
Lemma wf_arp x ext s i f :
  wf x ext s -> (forall r, et_rt s !! i = Some r -> arp_change r (f r)) -> wf x ext (upd_rt i f s) /\ keep s (upd_rt i f s).
Proof.
  intros W H. split.
  - apply wf_upd; [done|]. intros r Hr Hok. destruct (H r Hr) as [A1 A2 A3 A4 A5]. split_and!; try done.
    apply (re_ok_upd _ _ r); try done; [by apply A3; auto|by apply A3; auto| |]; destruct (re_la r) as [la|]; try done.
    + by destruct A5 as (la' & -> & _).
    + destruct A5 as (la' & -> & A5 & A6). intros ? [= <-]. exists la. rewrite A3 by auto. auto.
    + by rewrite A5.
  - apply upd_keep. intros r Hr. destruct (H r Hr) as [(_ & _ & _ & _ & A1) A2 A3 A4 A5]. rewrite A1, A3 by auto. split_and!; [done| |done].
    destruct (re_la r) as [la|]; [|done]. by destruct A5 as (la' & -> & _).
Qed.

(** Solves [arp_change] for an explicit update. *)
Ltac arp_changes :=
  split; rec_simpl;
  [ unfold like; rec_simpl; split_and!; try done; by flags_simpl
  | done
  | let b := fresh in intros b [-> | [-> | ->]]; flags_simpl; done
  | try done
  | ].

Lemma arp_hold_ok x ext e s ac id r la m dst :
  wf x ext s -> et_rt s !! id = Some r -> re_la r = Some la -> m <> [] ->
  exists s', arp_hold e s ac id r la m dst = Ret s' /\ wf x ext s' /\ keep s s'.
Proof.
  intros W Hi Hla Hm. unfold arp_hold. set (s1 := match la_hold la with Some h => et_free h s | None => s end).
  assert (Q : quiet s s1) by (unfold s1; by destruct (la_hold la)). pose proof (quiet_wf _ _ _ _ Q W) as W1.
  pose proof (quiet_keep _ _ Q) as K1. assert (Hi1 : et_rt s1 !! id = Some r) by (by rewrite (proj1 Q)). cbv zeta.
  destruct (ro_la _ _ _ (wf_re _ _ _ W _ _ Hi) _ Hla) as (_ & _ & _ & _ & Hask & _). unfold arp_maxtries in *.
  assert (Hu : forall f, arp_change r (f r) -> wf x ext (upd_rt id f s1) /\ keep s (upd_rt id f s1)).
  { intros f Hf. destruct (wf_arp x ext s1 id f W1) as [W2 K2]; [intros q; rewrite Hi1; by intros [= <-]|]. split; [done|]. by etrans. }
  assert (Hs : Some m <> Some []) by congruence.
  destruct (re_expire r =? 0).
  { eexists. split; [reflexivity|]. apply Hu. arp_changes. rewrite Hla. eexists. split; [reflexivity|]. done. }
  destruct ((la_asked la =? 0) || _).
  - destruct (Z.ltb_spec (la_asked la) 5).
    + match goal with |- context [arpwhohas (upd_rt id ?f s1) _ _] => destruct (Hu f) as [W2 K2] end.
      { arp_changes. rewrite Hla. eexists. split; [reflexivity|]. rec_simpl. split; [unfold arp_maxtries; lia|done]. }
      unfold arpwhohas. match goal with |- context [arprequest ?s2 ?a ?b ?c ?d] => destruct (arprequest_ok s2 a b c d) as (s' & -> & Q') end.
      eexists. split; [reflexivity|]. split; [by eapply quiet_wf|]. etrans; [done|]. by apply quiet_keep.
    + eexists. split; [reflexivity|]. apply Hu. arp_changes. rewrite Hla. eexists. split; [reflexivity|]. rec_simpl. split; [unfold arp_maxtries; lia|done].
  - eexists. split; [reflexivity|]. apply Hu. arp_changes. rewrite Hla. eexists. split; [reflexivity|]. done.
Qed.

Lemma arpresolve_ok x ext e s ac rt m dst :
  wf x ext s -> m <> [] -> (forall i, rt = Some i -> is_Some (et_rt s !! i)) ->
  exists o s', arpresolve e s ac rt m dst = Ret (o, s') /\ wf x ext s' /\ keep s s'.
Proof.
  intros W Hm Hrt. unfold arpresolve. destruct (hasf _ M_BCAST); [eexists _, _; by split|]. destruct (hasf _ M_MCAST); [eexists _, _; by split|].
  assert (exists o s1, (match rt with Some _ => Ret (rt, s) | None => arplookup e s dst true 0 end) = Ret (o, s1) /\ wf x ext s1 /\ keep s s1 /\
            forall i, o = Some i -> is_Some (et_rt s1 !! i)) as (o & s1 & -> & W1 & K1 & Ho).
  { destruct rt as [i|]; [eexists _, _; split; [reflexivity|]; split; [done|]; split; [reflexivity|exact Hrt]|].
    destruct (arplookup_ok x ext e s dst true 0 W) as (o & s1 & E & W1 & K1 & Ho). eexists _, _. split; [exact E|]. split; [done|]. split; [done|].
    intros i Hi. destruct (Ho i Hi) as (r & Hr & _). eauto. }
  cbn [obind].
  assert (exists o s', @Ret (option (list Z) * ets) (None, et_free m s1) = Ret (o, s') /\ wf x ext s' /\ keep s s').
  { eexists _, _. split; [reflexivity|]. split; [by eapply quiet_wf; [apply free_quiet|]|exact K1]. }
  destruct o as [id|]; [|done]. destruct (Ho id eq_refl) as [r Hi]. rewrite Hi. destruct (re_la r) as [la|] eqn:Ela; [|done].
  destruct (arp_hold_ok x ext e s1 ac id r la m dst W1 Hi Ela Hm) as (s2 & -> & W2 & K2). cbn [obind].
  assert (exists o s', @Ret (option (list Z) * ets) (None, s2) = Ret (o, s') /\ wf x ext s' /\ keep s s') by (eexists _, _; split; [reflexivity|]; split; [done|by etrans]).
  destruct (_ || _); [|done]. destruct (re_gate r) as [alen ll|]; [|done]. destruct (negb _); [|done]. eexists _, _. by split.
Qed.

(** ** Output *)

(** Hiding the gateway route of an entry, whose reference becomes one from outside *)
Lemma refs_hide g i t r : t !! i = Some r -> refs (Some i) g t = refs None g t - cnt None g i r.
Proof.
  intros Hi. rewrite (refs_lookup _ _ _ _ _ Hi), (refs_lookup None g _ _ _ Hi).
  assert (H : cnt (Some i) g i r = 0) by (unfold cnt, gw; by rewrite (decide_True (P := Some i = Some i))).
  enough (refs (Some i) g (delete i t) = refs None g (delete i t)) by lia.
  assert (Hd : delete i t !! i = None) by apply lookup_delete_eq. revert Hd. generalize (delete i t). clear.
  intros t. induction t as [|j q t Hj IH] using map_ind; [done|]. intros Hi. destruct (decide (i = j)) as [<-|Hij]; [by rewrite lookup_insert_eq in Hi|].
  rewrite lookup_insert_ne in Hi by done. rewrite !refs_fresh, IH by done. f_equal. unfold cnt, gw. rewrite (decide_False (P := Some i = Some j)) by congruence.
  done.
Qed.

Definition bump_o (f : Z -> Z) (o : option Z) (d : Z) : Z -> Z := match o with Some c => bump f c d | None => f end.

Lemma cnt_gw i r g : cnt None g i r = if decide (re_gwroute r = Some g) then 1 else 0.
Proof. unfold cnt, gw. by rewrite (decide_False (P := None = Some i)). Qed.

Lemma wf_hide ext s i r : wf None ext s -> et_rt s !! i = Some r -> wf (Some i) (bump_o ext (re_gwroute r) 1) s.
Proof.
  intros W Hi.
  assert (Hg : forall g, bump_o ext (re_gwroute r) 1 g = ext g + cnt None g i r).
  { intros g. rewrite cnt_gw. destruct (re_gwroute r) as [h|]; cbn [bump_o]; [|rewrite decide_False; [lia|done]].
    unfold bump. case_decide as H; [injection H as ->; by rewrite Z.eqb_refl|]. rewrite (proj2 (Z.eqb_neq g h)) by congruence. lia. }
  destruct W as [W1 W2 W3 W4 W5 W6 W7 W8 W9]. split; try done.
  - intros j q Hj. rewrite Hg, (refs_hide _ _ _ _ Hi), (W4 _ _ Hj). lia.
  - intros j. rewrite Hg. pose proof (cnt_nonneg None j i r). destruct (W5 j) as [E1 E2]. split; [lia|]. intros H'.
    destruct (decide (re_gwroute r = Some j)) as [E|E]; [apply (W6 i r); [done|]; unfold gw; by rewrite decide_False|].
    rewrite cnt_gw, decide_False in H' by done. apply E2. lia.
  - intros j q g Hj. unfold gw. case_decide; [done|]. intros Hq. apply (W6 j q); [done|]. unfold gw. by rewrite decide_False.
Qed.

(** Setting it again *)
Lemma wf_show ext s i r o :
  wf (Some i) (bump_o ext o 1) s -> et_rt s !! i = Some r -> (forall g, 0 <= ext g) -> (o <> None -> hasf (re_flags r) RTF_GATEWAY = true) ->
  hasf (re_flags r) RTF_UP = true -> wf None ext (upd_rt i (fun r => r <| re_gwroute := o |>) s).
Proof.
  intros W Hi He Hgw Hu. rewrite (upd_rt_some _ _ _ _ Hi). set (r' := r <| re_gwroute := o |>).
  assert (Hr : forall g, refs None g (<[i := r']> (et_rt s)) = refs (Some i) g (et_rt s) + cnt None g i r').
  { intros g. rewrite (refs_insert _ _ _ _ _ _ Hi), (refs_hide _ _ _ _ Hi). lia. }
  assert (Hg : forall g, bump_o ext o 1 g = ext g + cnt None g i r').
  { intros g. rewrite cnt_gw. unfold r'. rec_simpl. destruct o as [h|]; cbn [bump_o]; [|rewrite decide_False; [lia|done]].
    unfold bump. case_decide as H; [injection H as ->; by rewrite Z.eqb_refl|]. rewrite (proj2 (Z.eqb_neq g h)) by congruence. lia. }
  assert (Hp : forall j, is_Some (et_rt s !! j) -> is_Some (<[i := r']> (et_rt s) !! j)).
  { intros j Hj. destruct (decide (i = j)) as [<-|Hj']; [rewrite lookup_insert_eq; eauto|by rewrite lookup_insert_ne]. }
  assert (Hl : forall j q, <[i := r']> (et_rt s) !! j = Some q -> exists q0, et_rt s !! j = Some q0 /\ re_refcnt q = re_refcnt q0 /\ re_flags q = re_flags q0 /\
            re_mask q = re_mask q0 /\ re_dst q = re_dst q0 /\ re_other q = re_other q0 /\ (j <> i -> q = q0)).
  { intros j q. destruct (decide (i = j)) as [<-|Hj]; [rewrite lookup_insert_eq; intros [= <-]; exists r; by split_and!|].
    rewrite lookup_insert_ne by done. intros H. by exists q. }
  destruct W as [W1 W2 W3 W4 W5 W6 W7 W8 W9]. split; rec_simpl; try done.
  - intros j q. destruct (decide (i = j)) as [<-|Hj]; [rewrite lookup_insert_eq; intros [= <-]|rewrite lookup_insert_ne by done; auto].
    destruct (W1 _ _ Hi) as [G1 G2 G3 G4 G5 G6]. split; unfold r'; rec_simpl; try done. congruence.
  - intros j Hj. auto.
  - intros j q (q0 & Hq0 & -> & _)%Hl. rewrite (W4 _ _ Hq0), Hg, Hr. lia.
  - intros j. split; [done|]. intros H. apply Hp, W5. rewrite Hg. pose proof (cnt_nonneg None j i r'). lia.
  - intros j q g. unfold gw at 1. rewrite decide_False by done. destruct (decide (i = j)) as [<-|Hj].
    + rewrite lookup_insert_eq. intros [= <-]. unfold r'. rec_simpl. intros ->. apply Hp, W5. rewrite Hg, cnt_gw. unfold r'. rec_simpl.
      rewrite decide_True by done. pose proof (He g). lia.
    + rewrite lookup_insert_ne by done. intros Hq Hqg. apply Hp, (W6 j q); [done|]. unfold gw. by rewrite decide_False by congruence.
  - intros j q (q0 & Hq0 & -> & -> & _)%Hl. eauto.
  - intros j k q p (q0 & Hq0 & _ & -> & -> & -> & -> & _)%Hl (p0 & Hp0 & _ & -> & -> & -> & -> & _)%Hl. eauto.
  - intros j [q (q0 & Hq0 & _)%Hl]. eauto.
Qed.

Lemma given_bump x ext o s : given x ext o s -> wf x (bump_o ext o 1) s.
Proof. destruct o; [by intros [? _]|done]. Qed.
Lemma given_present x ext o s i : given x ext o s -> o = Some i -> is_Some (et_rt s !! i).
Proof. intros H ->. destruct H as (_ & r & ? & _). eauto. Qed.

(** The label lookup: the gateway route is found anew. *)
Lemma lookup_ok ext e s id r a :
  wf (Some id) ext s -> et_rt s !! id = Some r -> hasf (re_flags r) RTF_UP = true -> hasf (re_flags r) RTF_GATEWAY = true ->
  exists o s', rtalloc1 e s a 0 true = Ret (o, s') /\ keep s s' /\
    let s2 := upd_rt id (fun r => r <| re_gwroute := o |>) s' in
    wf None ext s2 /\ keep s s2 /\ (forall i, o = Some i -> is_Some (et_rt s2 !! i)).
Proof.
  intros W Hi Hu Hgw. destruct (rtalloc1_ok (Some id) ext e s a 0 true W) as (o & s' & -> & Hg & K).
  eexists _, _. split; [reflexivity|]. split; [done|]. cbv zeta.
  destruct (proj1 K _ _ Hi) as (r' & Hr' & Hu' & _ & Hgw').
  split; [|split].
  - apply (wf_show _ _ _ r'); [by apply given_bump|done| |auto|auto]. intros g. by destruct (wf_ext _ _ _ W g).
  - etrans; [done|]. by apply upd_keep.
  - intros i Ho. pose proof (given_present _ _ _ _ _ Hg Ho) as [q Hq]. rewrite upd_rt_lookup. case_decide; rewrite Hq; eauto.
Qed.

(** The entry that ether_output uses: that of the caller, or when it is not in the tree any more
    the one that is found now. *)
Lemma route_first ext e s dst id0 r :
  wf None ext s -> et_rt s !! id0 = Some r ->
  exists o s1, (if negb (hasf (re_flags r) RTF_UP) then
                  let! (o, s) := rtalloc_dst e s dst in
                  Ret match o with Some i => (Some i, unref i s) | None => (None, s) end
                else Ret (Some id0, s)) = Ret (o, s1) /\
    wf None ext s1 /\ keep s s1 /\ forall i, o = Some i -> exists q, et_rt s1 !! i = Some q /\ hasf (re_flags q) RTF_UP = true.
Proof.
  intros W Hi. destruct (hasf (re_flags r) RTF_UP) eqn:Hu; cbn [negb].
  - eexists _, _. split; [reflexivity|]. split; [done|]. split; [reflexivity|]. intros i [= <-]. eauto.
  - assert (exists o s1, rtalloc_dst e s dst = Ret (o, s1) /\ given None ext o s1 /\ keep s s1) as (o & s1 & -> & Hg & K).
    { destruct dst; [by apply rtalloc1_ok|eexists _, _; by split..]. }
    cbn [obind]. destruct o as [i|]; [|eexists _, _; by split]. destruct Hg as (W1 & q & Hq & Hqu).
    destruct (unref_ok _ _ _ _ _ W1 Hq Hqu) as [W2 K2]; [by destruct (wf_ext _ _ _ W i)|].
    eexists _, _. split; [reflexivity|]. split; [done|]. split; [by etrans|]. intros j [= <-]. destruct (proj1 K2 _ _ Hq) as (q' & ? & ? & _). eauto.
Qed.

(** The label lookup of ether_output for entry [id], whose gateway is [g] *)
Definition relook (e : etenv) (g : gate) (id : Z) (s : ets) : outcome (option Z * ets) :=
  match g with
  | G_inet a => let! (o, s) := rtalloc1 e s a 0 true in Ret (o, upd_rt id (fun r => r <| re_gwroute := o |>) s)
  | G_link _ _ => Ret (None, upd_rt id (fun r => r <| re_gwroute := None |>) s)
  end.

Lemma relook_ok ext e g id s :
  wf (Some id) ext s -> (exists q, et_rt s !! id = Some q /\ hasf (re_flags q) RTF_UP = true /\ hasf (re_flags q) RTF_GATEWAY = true) ->
  exists o s2, relook e g id s = Ret (o, s2) /\ wf None ext s2 /\ et_arpq s2 = et_arpq s /\ forall i, o = Some i -> is_Some (et_rt s2 !! i).
Proof.
  intros W (q & Hq & Hqu & Hqg). unfold relook. destruct g as [alen ll|a].
  - eexists _, _. split; [reflexivity|]. split; [|done]. apply (wf_show _ _ _ q); try done. intros h. by destruct (wf_ext _ _ _ W h).
  - destruct (lookup_ok ext e s id q a W Hq Hqu Hqg) as (o & s2 & -> & _ & W2 & K2 & Ho2). cbn [obind]. eexists _, _. split; [reflexivity|].
    split; [done|]. split; [|done]. apply (proj2 K2).
Qed.

(** The entry of the next hop *)
Lemma route_second ext e s id r :
  wf None ext s -> et_rt s !! id = Some r -> hasf (re_flags r) RTF_UP = true ->
  exists o s2,
    (if hasf (re_flags r) RTF_GATEWAY then
       match re_gwroute r with
       | None => relook e (re_gate r) id s
       | Some g => let! rg := (match et_rt s !! g with Some r => Ret r | None => Panic "ether_output: dangling rtentry" end) in
                   if hasf (re_flags rg) RTF_UP then Ret (Some g, s) else relook e (re_gate r) id (rtfree s g)
       end
     else Ret (Some id, s)) = Ret (o, s2) /\
    wf None ext s2 /\ et_arpq s2 = et_arpq s /\ forall i, o = Some i -> is_Some (et_rt s2 !! i).
Proof.
  intros W Hi Hu. destruct (hasf (re_flags r) RTF_GATEWAY) eqn:Hgw; [|eexists _, _; split; [reflexivity|]; split_and!; try done; intros i [= <-]; eauto].
  pose proof (wf_hide _ _ _ _ W Hi) as Wh. destruct (re_gwroute r) as [g|] eqn:Eg; cbn [bump_o] in Wh; [|apply relook_ok; eauto].
  destruct (wf_gw _ _ _ W id r g Hi) as [rg Hrg]; [unfold gw; by rewrite decide_False|]. rewrite Hrg. cbn [obind].
  destruct (hasf (re_flags rg) RTF_UP) eqn:Hgu; [eexists _, _; split; [reflexivity|]; split_and!; try done; intros i [= <-]; eauto|].
  destruct (rtfree_ok _ _ _ _ Wh) as [W3 K3]; [by destruct (wf_ext _ _ _ W g)|].
  rewrite <- (proj2 K3). apply relook_ok; [done|]. destruct (proj1 K3 _ _ Hi Hu) as (q & ? & ? & ?). eauto.
Qed.

Lemma ether_route_ok ext e s dst rt0 :
  wf None ext s -> (forall i, rt0 = Some i -> is_Some (et_rt s !! i)) ->
  exists r s', ether_route e s dst rt0 = Ret (r, s') /\ wf None ext s' /\ et_arpq s' = et_arpq s /\
    (forall i, r = inr (Some i) -> is_Some (et_rt s' !! i)).
Proof.
  intros W Hrt. unfold ether_route. destruct rt0 as [id0|]; [|by eexists _, _]. destruct (Hrt _ eq_refl) as [r Hi]. cbv zeta. rewrite Hi. cbn [obind].
  destruct (route_first ext e s dst id0 r W Hi) as (o & s1 & -> & W1 & K1 & Ho). cbn [obind].
  pose proof (proj2 K1) as Q1. destruct o as [id|]; [|eexists _, _; by split_and!].
  destruct (Ho _ eq_refl) as (r0 & Hr0 & Hu0). rewrite Hr0. cbn [obind].
  destruct (route_second ext e s1 id r0 W1 Hr0 Hu0) as (o & s2 & E & W2 & Q2 & Ho2). unfold relook in E. rewrite E. cbn [obind].
  destruct o as [i|]; [|eexists _, _; split; [reflexivity|]; split_and!; congruence].
  destruct (Ho2 i eq_refl) as [q Hq]. rewrite Hq. cbn [obind]. destruct (_ && _); eexists _, _; (split; [reflexivity|]); split_and!; try congruence.
  intros j [= <-]. eauto.
Qed.

Lemma m_copym_all p m : m <> [] -> exists c p', m_copym p m 0 M_COPYALL = Ret (c, p').
Proof.
  intros Hm. unfold m_copym. change ((0 <? 0) || (M_COPYALL <? 0)) with false. cbn iota. change (0 =? 0) with true. cbn iota.
  destruct m as [|m1 ms]; [done|]. cbn [obind m_skip]. change (0 >? 0) with false. cbn [obind].
  assert (H : forall ms p off hd top, exists c p', m_copym_loop p ms 0 off M_COPYALL hd top = Ret (c, p')).
  { clear. induction ms as [|m ms IH]; intros p off hd top; cbn [m_copym_loop]; change (M_COPYALL >? 0) with true; change (M_COPYALL =? M_COPYALL) with true; cbn iota; [eauto|].
    destruct (m_get p (m_type m)) as [[n|] q]; [|eauto]. apply IH. }
  destruct (H (m1 :: ms) p 0 (hasf (m_flags m1) M_PKTHDR) []) as (c & p' & ->). cbn [obind]. eauto.
Qed.

Lemma ether_output_ok ext e s ac m dst rt0 :
  wf None ext s -> m <> [] -> (forall i, rt0 = Some i -> is_Some (et_rt s !! i)) ->
  exists err s', ether_output e s ac m dst rt0 = Ret (err, s') /\ wf None ext s' /\ et_arpq s' = et_arpq s.
Proof.
  intros W Hm Hrt. unfold ether_output.
  assert (Hq : forall s1, wf None ext s1 -> et_arpq s1 = et_arpq s -> forall err s2, quiet s1 s2 ->
            exists err' s', @Ret (Z * ets) (err, s2) = Ret (err', s') /\ wf None ext s' /\ et_arpq s' = et_arpq s).
  { intros s1 W1 Q1 err s2 Q. eexists _, _. split; [reflexivity|]. split; [by eapply quiet_wf|]. destruct Q as (_ & _ & _ & Q). congruence. }
  destruct (if_down ac); [by apply (Hq s)|].
  destruct (ether_route_ok ext e s dst rt0 W Hrt) as (r & s1 & -> & W1 & Q1 & Hr). cbn [obind].
  destruct r as [err|rt]; [by apply (Hq s1)|]. destruct dst as [a|dhost type|]; [|destruct (ether_frame_ok s1 ac m dhost type Hm) as (err & s2 & -> & Q); by apply (Hq s1)|by apply (Hq s1)].
  destruct (arpresolve_ok None ext e s1 ac rt m a W1 Hm) as (o & s2 & -> & W2 & K2); [intros i ->; by apply Hr|]. cbn [obind].
  assert (Q2 : et_arpq s2 = et_arpq s) by (rewrite (proj2 K2); done).
  destruct o as [edst|]; [|by apply (Hq s2)].
  match goal with |- context [obind (if ?b then ?x else ?y) _] => set (copy := if b then x else y) end.
  assert (exists s3, copy = Ret s3 /\ quiet s2 s3) as (s3 & -> & Q3).
  { unfold copy. destruct (_ && _); [|by eexists]. destruct (m_copym_all (et_pool s2) m Hm) as (c & p & ->). cbn [obind]. destruct c; eexists; by split. }
  cbn [obind]. destruct (ether_frame_ok s3 ac m edst ETHERTYPE_IP Hm) as (err & s4 & -> & Q4). apply (Hq s2); [done..|]. by etrans.
Qed.

(** ** Input *)

Lemma arp_learn_ok ext e s ac id sha r :
  wf None ext s -> et_rt s !! id = Some r -> exists s', arp_learn e s ac id sha = Ret s' /\ wf None ext s' /\ et_arpq s' = et_arpq s.
Proof.
  intros W Hi. unfold arp_learn. rewrite Hi.
  match goal with |- context [upd_rt id ?f s] => destruct (wf_arp None ext s id f W) as [W1 K1] end.
  { intros q _. assert (H : arp_change q (q <| re_gate := G_link 6 sha |> <| re_flags := clrb (re_flags q) RTF_REJECT |>
      <| re_la := match re_la q with Some la => Some (la <| la_asked := 0 |>) | None => None end |>)).
    { arp_changes. destruct (re_la q); [|done]. eexists. split; [reflexivity|]. done. }
    destruct (re_expire _ =? 0); [done|]. destruct H. by split. }
  set (s1 := upd_rt id _ s) in *. cbv zeta. pose proof (proj2 K1) as Q1.
  destruct (match re_la r with Some la => la_hold la | None => None end) as [h|] eqn:Eh; [|eexists; by split].
  assert (Hh : h <> []).
  { destruct (re_la r) as [la|] eqn:Ela; [|done]. destruct (ro_la _ _ _ (wf_re _ _ _ W _ _ Hi) _ Ela) as (_ & _ & _ & _ & _ & Hh & _). intros ->. by apply Hh. }
  destruct (ether_output_ok ext e s1 ac h (E_inet (re_dst r)) (Some id) W1 Hh) as (err & s2 & -> & W2 & Q2); [intros i [= <-]; eapply keep_present; eauto|].
  cbn [obind]. eexists. split; [reflexivity|]. rewrite <- Q1, <- Q2. split; [|done]. apply wf_arp; [done|]. intros q _. arp_changes.
  destruct (re_la q); [|done]. eexists. split; [reflexivity|]. done.
Qed.

Lemma arp_reply_ok ext e s ac m1 ms op itaddr myaddr :
  wf None ext s -> exists s', arp_reply e s ac m1 ms op itaddr myaddr = Ret s' /\ wf None ext s' /\ et_arpq s' = et_arpq s.
Proof.
  intros W. unfold arp_reply. cbv zeta.
  assert (Hq : forall s1, wf None ext s1 -> et_arpq s1 = et_arpq s -> forall s2, quiet s1 s2 -> exists s', @Ret ets s2 = Ret s' /\ wf None ext s' /\ et_arpq s' = et_arpq s).
  { intros s1 W1 Q1 s2 Q. eexists. split; [reflexivity|]. split; [by eapply quiet_wf|]. destruct Q as (_ & _ & _ & Q). congruence. }
  destruct (negb _); [by apply (Hq s)|].
  match goal with |- context [obind (if ?b then ?x else ?y) _] => set (who := if b then x else y) end.
  assert (exists o s1, who = Ret (o, s1) /\ wf None ext s1 /\ et_arpq s1 = et_arpq s) as (o & s1 & -> & W1 & Q1).
  { unfold who. destruct (_ =? _); [by eexists _, _|].
    destruct (arplookup_ok None ext e s itaddr false SIN_PROXY W) as (o & s1 & -> & W1 & K1 & Ho). cbn [obind].
    destruct o as [i|]; [|eexists _, _; split; [reflexivity|]; split; [done|apply (proj2 K1)]]. destruct (Ho i eq_refl) as (r & -> & _).
    eexists _, _. split; [reflexivity|]. split; [done|apply (proj2 K1)]. }
  cbn [obind]. destruct o as [sha|]; [|by apply (Hq s1)].
  match goal with |- context [ether_unspec ?s ?ac ?m ?d ?t] => destruct (ether_unspec_ok s ac m d t) as (err & s2 & -> & Q); [done|] end.
  cbn [obind]. by apply (Hq s1).
Qed.

Lemma in_arpinput_ok ext e s m1 ms :
  wf None ext s -> 28 <= m_len m1 -> exists s', in_arpinput e s (m1 :: ms) = Ret s' /\ wf None ext s' /\ et_arpq s' = et_arpq s.
Proof.
  intros W Hl. unfold in_arpinput. rewrite (proj2 (Z.ltb_ge _ _)) by lia. cbv zeta.
  assert (exists s', @Ret ets (et_free (m1 :: ms) s) = Ret s' /\ wf None ext s' /\ et_arpq s' = et_arpq s).
  { eexists. split; [reflexivity|]. split; [|done]. by eapply quiet_wf; [apply free_quiet|]. }
  destruct (find_ia _ _ _ _ _) as [ia [last|]]; [|done].
  case_bool_decide; [done|]. case_bool_decide; [done|]. destruct (_ =? _); [by apply arp_reply_ok|].
  set (myaddr := match ia with Some a => a | None => last end). set (isaddr := rd32 _ 14).
  destruct (arplookup_ok None ext e s isaddr (rd32 (m_bytes m1) 24 =? myaddr) 0 W) as (o & s1 & -> & W1 & K1 & Ho). cbn [obind].
  assert (exists s2, match o with Some id => arp_learn e s1 (et_ac e (m_rcvif m1)) id (zsub 8 6 (m_bytes m1)) | None => Ret s1 end = Ret s2 /\
            wf None ext s2 /\ et_arpq s2 = et_arpq s) as (s2 & -> & W2 & Q2).
  { rewrite <- (proj2 K1). destruct o as [i|]; [|by eexists]. destruct (Ho i eq_refl) as (r & Hr & _). by eapply arp_learn_ok. }
  cbn [obind]. rewrite <- Q2. by apply arp_reply_ok.
Qed.

(** A packet whose ARP header is all there when its own lengths say so.  arpintr checks the
    length that the packet itself gives, in_arpinput reads 28 bytes. *)
Definition pkt_ok (m : chain) : Prop :=
  match m with
  | [] => False
  | m1 :: _ => hasf (m_flags m1) M_PKTHDR = true /\ (m_len m1 < 8 + 2 * get (m_bytes m1) 4 + 2 * get (m_bytes m1) 5 \/ 28 <= m_len m1)
  end.

Lemma arpintr1_ok ext e s m :
  wf None ext s -> pkt_ok m -> exists s', arpintr1 e s m = Ret s' /\ wf None ext s' /\ et_arpq s' = et_arpq s.
Proof.
  intros W Hm. unfold arpintr1. destruct m as [|m1 ms]; [done|]. destruct Hm as [Hk Hl]. rewrite Hk. cbn [negb]. cbv zeta.
  destruct (_ && _) eqn:E; [|eexists; split; [reflexivity|]; split; [by eapply quiet_wf; [apply free_quiet|]|done]].
  apply andb_true_iff in E as [E _]. apply andb_true_iff in E as [_ E]. apply in_arpinput_ok; [done|]. lia.
Qed.

Lemma arpintr_loop_ok ext e q s :
  wf None ext s -> Slip.ifq_q (et_arpq s) = q -> Forall pkt_ok q ->
  exists s', arpintr_loop e q s = Ret s' /\ wf None ext s' /\ Slip.ifq_q (et_arpq s') = [].
Proof.
  revert s. induction q as [|m q IH]; intros s W Hq Hf; cbn [arpintr_loop]; [by exists s|]. apply Forall_cons_iff in Hf as [Hm Hf].
  set (s1 := s <| et_arpq := _ |>).
  destruct (arpintr1_ok ext e s1 m) as (s2 & -> & W2 & Q2); [by apply (wf_same _ _ s)|done|]. cbn [obind].
  apply IH; [done| |done]. rewrite Q2. unfold s1. rec_simpl. unfold Slip.IF_DEQUEUE. rewrite Hq. done.
Qed.

(** ** The timer *)

Lemma delete_upd i f s : delete i (et_rt (upd_rt i f s)) = delete i (et_rt s).
Proof.
  apply map_eq. intros j. destruct (decide (i = j)) as [<-|Hj]; [by rewrite !lookup_delete_eq|].
  by rewrite !lookup_delete_ne, upd_rt_lookup, decide_False by done.
Qed.

(** Without references an ARP entry is deleted at once. *)
Lemma rt_delete_arp e s id r la :
  et_rt s !! id = Some r -> re_la r = Some la -> hasf (re_flags r) RTF_GATEWAY = false -> re_gwroute r = None -> re_refcnt r = 0 ->
  exists s', rt_delete e s id = Ret s' /\ et_rt s' = delete id (et_rt s) /\ et_las s' = List.filter (fun i => negb (i =? id)) (et_las s) /\
    et_next s' = et_next s /\ et_arpq s' = et_arpq s.
Proof.
  intros Hi Hla Hgw Hg Hc. unfold rt_delete. rewrite Hi, Hg.
  set (s1 := upd_rt id _ s). set (r1 := r <| re_flags := clrb (re_flags r) RTF_UP |> <| re_gwroute := None |>).
  assert (H1 : et_rt s1 !! id = Some r1) by (unfold s1; by rewrite upd_rt_lookup, decide_True, Hi).
  assert (Hgw1 : hasf (re_flags r1) RTF_GATEWAY = false) by (unfold r1; rec_simpl; by flags_simpl).
  unfold arp_rtrequest. rewrite H1, Hgw1. cbn [obind]. unfold arp_delete. rewrite H1. change (re_la r1) with (re_la r). rewrite Hla.
  set (s2 := s1 <| et_las := _ |>). cbv zeta. set (s3 := upd_rt id _ s2).
  set (s4 := match la_hold la with Some m => et_free m s3 | None => s3 end).
  assert (Q : quiet s3 s4) by (unfold s4; by destruct (la_hold la)). destruct Q as (Q1 & Q2 & Q3 & Q4).
  set (r3 := r1 <| re_la := None |> <| re_flags := clrb (re_flags r1) RTF_LLINFO |>).
  assert (H3 : et_rt s4 !! id = Some r3) by (rewrite Q1; unfold s3; rewrite upd_rt_lookup, decide_True by done; change (et_rt s2) with (et_rt s1); by rewrite H1).
  rewrite H3. change (re_refcnt r3) with (re_refcnt r). rewrite Hc. change (0 <=? 0) with true. cbn iota.
  eexists. split; [reflexivity|]. unfold rtfree. cbv zeta. set (s5 := unref id _).
  assert (H5 : et_rt s5 !! id = Some (r3 <| re_refcnt := 0 |>)).
  { unfold s5, unref. rewrite !upd_rt_lookup, !decide_True, H3 by done. cbn [fmap option_fmap option_map]. f_equal.
    change (re_refcnt r3) with (re_refcnt r). rewrite Hc. done. }
  assert (Hu3 : hasf (re_flags r3) RTF_UP = false) by (unfold r3, r1; rec_simpl; by flags_simpl).
  rewrite H5. rec_simpl. change (0 =? 0) with true. rewrite Hu3.
  cbn [negb andb]. unfold s5, unref. rec_simpl. rewrite !delete_upd, Q1. unfold s3. rewrite delete_upd. change (et_rt s2) with (et_rt s1).
  unfold s1. rewrite delete_upd. split_and!; [done| | |]; [change (et_las (upd_rt id _ (upd_rt id _ s4))) with (et_las s4)|
    change (et_next (upd_rt id _ (upd_rt id _ s4))) with (et_next s4)|change (et_arpq (upd_rt id _ (upd_rt id _ s4))) with (et_arpq s4)];
    rewrite ?Q2, ?Q3, ?Q4; done.
Qed.

Lemma arptfree_ok ext e s id :
  wf None ext s -> id ∈ et_las s ->
  exists s', arptfree e s id = Ret s' /\ wf None ext s' /\ et_arpq s' = et_arpq s /\ forall j, j <> id -> j ∈ et_las s -> j ∈ et_las s'.
Proof.
  intros W Hin. destruct (wf_las _ _ _ W _ Hin) as [r Hi]. pose proof (wf_re _ _ _ W _ _ Hi) as [G1 G2 G3 G4 _ _].
  unfold arptfree. rewrite Hi. destruct (re_la r) as [la|] eqn:Ela; [|by destruct (G3 Hin)].
  destruct (G2 la eq_refl) as (Hgw & Hu & _ & Hlink & _). destruct (re_gate r) as [alen ll|]; [|done].
  destruct (Z.gtb_spec (re_refcnt r) 0) as [Hc|Hc].
  - eexists. split; [reflexivity|]. split; [|split; [done|auto]]. apply wf_arp; [done|]. intros q _. arp_changes.
    destruct (re_la q); [|done]. eexists. split; [reflexivity|]. done.
  - assert (Hg : re_gwroute r = None) by (destruct (re_gwroute r); [|done]; rewrite G1 in Hgw; done).
    pose proof (wf_cnt _ _ _ W _ _ Hi) as Hr. pose proof (refs_nonneg None id (et_rt s)). destruct (wf_ext _ _ _ W id) as [He _].
    destruct (rt_delete_arp e s id r la Hi Ela Hgw Hg) as (s' & -> & E1 & E2 & E3 & E4); [lia|]. exists s'. split; [done|].
    assert (Hmem : forall j, j <> id -> j ∈ List.filter (fun i => negb (i =? id)) (et_las s) <-> j ∈ et_las s).
    { intros j Hj. rewrite !list_elem_of_In, List.filter_In. split; [tauto|]. intros Hj'. split; [done|]. by rewrite (proj2 (Z.eqb_neq j id)). }
    split; [|split; [done|]]; [|intros j Hj; rewrite E2; by apply Hmem].
    apply (wf_ext_eq None (bump ext id (- ext id))); [intros j; unfold bump; case_match; lia|].
    eapply wf_same; [..|apply (wf_del None ext s id r (List.filter (fun i => negb (i =? id)) (et_las s)) W Hi)]; rec_simpl; try done; [lia| |].
    + apply NoDup_ListNoDup, List.NoDup_filter, NoDup_ListNoDup, (wf_nodup _ _ _ W).
    + rewrite list_elem_of_In, List.filter_In, Z.eqb_refl. by intros [_ ?].
Qed.

Lemma arptimer_loop_ok ext e l s :
  wf None ext s -> NoDup l -> (forall j, j ∈ l -> j ∈ et_las s) ->
  exists s', arptimer_loop e l s = Ret s' /\ wf None ext s' /\ et_arpq s' = et_arpq s.
Proof.
  revert s. induction l as [|id l IH]; intros s W Hnd Hl; cbn [arptimer_loop]; [by exists s|]. inversion Hnd as [|? ? Hno Hnd']. subst.
  assert (Hin : id ∈ et_las s) by (apply Hl; by left). destruct (wf_las _ _ _ W _ Hin) as [r Hr]. rewrite Hr.
  destruct (_ && _); cbn [obind].
  - destruct (arptfree_ok ext e s id W Hin) as (s1 & -> & W1 & Q1 & Hl1). cbn [obind]. rewrite <- Q1. apply IH; [done..|].
    intros j Hj. apply Hl1; [|apply Hl; by right]. intros ->. contradiction.
  - apply IH; [done..|]. intros j Hj. apply Hl. by right.
Qed.

(** ** A machine at work *)

(** What the rest of the kernel does with the routes and the interface: it finds and gives back
    routes, sends packets with a route or without, receives frames, and runs the software
    interrupt and the timer.  The environment, with the time, goes with each call. *)
Inductive aop :=
| A_alloc (e : etenv) (dst other : Z)
| A_free (id : Z)
| A_output (e : etenv) (ac : arpcom) (m : chain) (dst : esa) (rt0 : option Z)
| A_input (ac : arpcom) (dhost : list Z) (type : Z) (m : chain)
| A_intr (e : etenv)
| A_timer (e : etenv).

(** [held i] references to entry [i] are out. *)
Definition exec (op : aop) (held : Z -> Z) (s : ets) : outcome ((Z -> Z) * ets) :=
  match op with
  | A_alloc e dst other => let! (o, s) := rtalloc1 e s dst other true in Ret (bump_o held o 1, s)
  | A_free id => Ret (bump held id (-1), rtfree s id)
  | A_output e ac m dst rt0 => let! (_, s) := ether_output e s ac m dst rt0 in Ret (held, s)
  | A_input ac dhost type m => Ret (held, ether_input s ac dhost type m)
  | A_intr e => let! s := arpintr e s in Ret (held, s)
  | A_timer e => let! s := arptimer e s in Ret (held, s)
  end.

(** Only references that are held are used and given back. *)
Definition legal (op : aop) (held : Z -> Z) : Prop :=
  match op with
  | A_free id => 0 < held id
  | A_output _ _ m _ rt0 => m <> [] /\ match rt0 with Some i => 0 < held i | None => True end
  | A_input _ _ type m => type = ETHERTYPE_ARP -> pkt_ok m
  | _ => True
  end.

(** A table of configured routes, before any packet *)
Record initial (held : Z -> Z) (s : ets) : Prop := {
  in_held : forall i, held i = 0;
  in_las : et_las s = [];
  in_arpq : Slip.ifq_q (et_arpq s) = [];
  in_rt : forall i r, et_rt s !! i = Some r ->
          re_la r = None /\ re_gwroute r = None /\ re_refcnt r = 0 /\ hasf (re_flags r) RTF_UP = true /\
          (hasf (re_flags r) RTF_CLONING = true -> hasf (re_flags r) RTF_GATEWAY = false) /\
          (forall m, re_mask r = Some m -> 0 <= m < 4294967296) /\ i < et_next s;
  in_key : forall i j r q, et_rt s !! i = Some r -> et_rt s !! j = Some q -> re_mask r = None -> re_mask q = None ->
           re_dst r = re_dst q -> re_other r = re_other q -> i = j
}.

Inductive reach : (Z -> Z) -> ets -> Prop :=
| reach_init held s : initial held s -> reach held s
| reach_step held s op held' s' : reach held s -> legal op held -> exec op held s = Ret (held', s') -> reach held' s'.

Definition inv (held : Z -> Z) (s : ets) : Prop := wf None held s /\ Forall pkt_ok (Slip.ifq_q (et_arpq s)).

Lemma initial_inv held s : initial held s -> inv held s.
Proof.
  intros [Hh Hl Hq Hr Hk]. split; [|by rewrite Hq]. split; rewrite ?Hl.
  - intros i r Hi. destruct (Hr _ _ Hi) as (L & G & C & U & K & M & N). split; rewrite ?L, ?G, ?U; try done. by intros ?%elem_of_nil.
  - constructor.
  - by intros i ?%elem_of_nil.
  - intros i r Hi. destruct (Hr _ _ Hi) as (L & G & C & U & K & M & N). rewrite C, Hh, refs_zero; [done|].
    intros j q Hj. destruct (Hr _ _ Hj) as (_ & G' & _). unfold gw. by rewrite decide_False, G'.
  - intros i. rewrite Hh. split; [done|lia].
  - intros j r g Hj. destruct (Hr _ _ Hj) as (_ & G & _). unfold gw. by rewrite decide_False, G.
  - intros i r Hi. destruct (Hr _ _ Hi) as (_ & _ & _ & U & _). by left.
  - eauto.
  - intros i [r Hi]. by destruct (Hr _ _ Hi) as (_ & _ & _ & _ & _ & _ & N).
Qed.

Lemma ether_input_inv held s ac dhost type m : (type = ETHERTYPE_ARP -> pkt_ok m) -> inv held s -> inv held (ether_input s ac dhost type m).
Proof.
  intros Hm [W F]. unfold ether_input.
  assert (Hf : forall c s', quiet s s' -> inv held (et_free c s')).
  { intros c s' Q. split; [eapply quiet_wf; [|done]; by etrans; [|apply free_quiet]|]. destruct Q as (_ & _ & _ & Q). change (et_arpq (et_free c s')) with (et_arpq s'). by rewrite Q. }
  destruct (negb _); [by apply Hf|]. cbv zeta. set (fl := if bool_decide _ then M_BCAST else _).
  destruct (type =? ETHERTYPE_IP); [destruct (Slip.IF_QFULL _); [by apply Hf|split; [by apply (wf_same _ _ s)|done]]|].
  destruct (Z.eqb_spec type ETHERTYPE_ARP) as [Ht|Ht]; [|by apply Hf]. specialize (Hm Ht). destruct m as [|m1 ms]; [done|].
  set (m' := _ :: ms). assert (Hm' : pkt_ok m') by (destruct Hm as [Hk Hl]; split; [rec_simpl; by rewrite hasf_setb, Hk|done]).
  destruct (Slip.IF_QFULL _).
  - split; [eapply wf_same; [..|exact W]; done|]. done.
  - split; [by apply (wf_same _ _ s)|]. rec_simpl. unfold Slip.IF_ENQUEUE. rec_simpl. apply Forall_app. split; [done|]. by constructor.
Qed.

Lemma exec_inv op held s : inv held s -> legal op held -> exists held' s', exec op held s = Ret (held', s') /\ inv held' s'.
Proof.
  intros [W F] Hl. destruct op as [e dst other|id|e ac m dst rt0|ac dhost type m|e|e]; cbn [exec legal] in *.
  - destruct (rtalloc1_ok None held e s dst other true W) as (o & s' & -> & Hg & K). cbn [obind]. eexists _, _. split; [reflexivity|].
    split; [by apply given_bump|by rewrite (proj2 K)].
  - eexists _, _. split; [reflexivity|]. destruct (rtfree_ok None (bump held id (-1)) s id) as [W' K].
    + apply (wf_ext_eq None held); [|done]. intros i. symmetry. by apply bump_bump.
    + unfold bump. rewrite Z.eqb_refl. lia.
    + split; [done|by rewrite (proj2 K)].
  - destruct Hl as [Hm Hrt]. destruct (ether_output_ok held e s ac m dst rt0 W Hm) as (err & s' & -> & W' & Q).
    { intros i ->. by apply (wf_ext _ _ _ W). }
    cbn [obind]. eexists _, _. split; [reflexivity|]. split; [done|by rewrite Q].
  - eexists _, _. split; [reflexivity|]. by apply ether_input_inv.
  - destruct (arpintr_loop_ok held e _ s W eq_refl F) as (s' & E & W' & Q). unfold arpintr. rewrite E. cbn [obind].
    eexists _, _. split; [reflexivity|]. split; [done|by rewrite Q].
  - destruct (arptimer_loop_ok held e (et_las s) s W (wf_nodup _ _ _ W)) as (s' & E & W' & Q); [done|]. unfold arptimer. rewrite E. cbn [obind].
    eexists _, _. split; [reflexivity|]. split; [done|by rewrite Q].
Qed.

(** C14: A machine that starts with configured routes and then finds and gives back routes,
    sends packets, receives frames and runs the ARP interrupt and timer in any order, at any
    times, keeps the invariant of its routes (reference counts are the numbers of references, no
    entry is freed while one is left, llinfo_arp lists exactly the entries with ARP data, an
    entry of a host is unique), and its next operation returns: no freed entry is used and no
    panic is reached.  The conditions are in [legal]: only references that are held are used or
    given back, packets to send are not empty, and a received ARP frame either has all 28 bytes
    of an Ethernet ARP packet in its first mbuf or is shorter than its own address lengths say, so
    that arpintr drops it.  (Without it in_arpinput reads behind a frame with short address
    lengths.) *)
Theorem arp_safe held s :
  reach held s -> wf None held s /\ forall op, legal op held -> exists held' s', exec op held s = Ret (held', s').
Proof.
  intros H. assert (I : inv held s).
  { induction H as [held s Hi|held s op held' s' H IH Hl E]; [by apply initial_inv|].
    destruct (exec_inv op held s IH Hl) as (h1 & s1 & E1 & I1). rewrite E in E1. by injection E1 as -> ->. }
  split; [apply I|]. intros op Hl. destruct (exec_inv op held s I Hl) as (h1 & s1 & E1 & _). eauto.
Qed.

(** Two hosts on an Ethernet, 10.0.0.1 and 10.0.0.2, each with the route to its interface *)
Definition net10 : Z := 167772160.
Definition ea (a : Z) : list Z := [2; 0; 0; 0; 0; a].
Definition ac1 (a : Z) : arpcom := mkArpcom 1 (ea a) (net10 + a) 65.
Definition env1 (now a : Z) : etenv := mkEtenv now (fun _ => ac1 a) [(net10 + a, 1)] 9 true.
Definition if_route (a : Z) : rtentry :=
  mkRtentry net10 0 (Some 4294967040) (Z.lor RTF_UP RTF_CLONING) (G_link 0 (repeat 0 6)) None 1 (net10 + a, 1) 1 0 None.
Definition host (a : Z) : ets :=
  let q := Slip.mkIfq [] 50 0 in mkEts {[1 := if_route a]} [] 2 (mkPool (fun _ => 0) [] []) (fun _ => q) [] q q.
Definition pkt (n : Z) : chain := [mkMbuf 40 (repeat n 28) MT_DATA M_PKTHDR 28 1 0 0].

Lemma host_initial a : initial (fun _ => 0) (host a).
Proof.
  split; [done..| |]; change (et_rt (host a)) with ({[1 := if_route a]} : gmap Z rtentry).
  - intros i r [<- <-]%lookup_singleton_Some. split_and!; try done. by intros m [= <-].
  - by intros i j r q [<- <-]%lookup_singleton_Some.
Qed.

Lemma arp_safe_witness :
  exists held s, reach held s /\ held 2 = 1 /\ wf None held s /\
    exists held' s', exec (A_output (env1 100 1) (ac1 1) (pkt 7) (E_inet (net10 + 2)) (Some 2)) held s = Ret (held', s').
Proof.
  destruct (exec (A_alloc (env1 100 1) (net10 + 2) 0) (fun _ => 0) (host 1)) as [[held s]| |] eqn:E; [|discriminate..].
  exists held, s. assert (R : reach held s) by (by eapply reach_step; [apply reach_init, (host_initial 1)| |exact E]).
  assert (H : held 2 = 1) by (vm_compute in E; injection E as <- _; reflexivity).
  split; [exact R|]. split; [exact H|]. split; [apply (arp_safe held s R)|]. apply (arp_safe held s R). split; [done|]. rewrite H. done.
Defined.

End EtherInv.
