(* ===== verification/EtherOk.v ===== *)
(** What ARP and the Ethernet output routine do: a packet for a neighbour whose address is not
    known is held while a request is broadcast, the neighbour answers, the held packet leaves;
    and a neighbour that does not answer is given up for a while. *)
From stdpp Require Import gmap.
From S2P Require Import Prelude Mbuf SockBuf Socket TcpVar TcpHdr IpHdr IpOutput IpInput Udp UdpOk Slip Ether EtherInv.
Import Mbuf TcpHdr Udp UdpOk Ether EtherInv.

Module EtherOk.

(** ** Frames *)

Definition eframe (dst src : list Z) (type : Z) (data : list Z) : list Z := dst ++ src ++ be16 type ++ data.

(** An ARP packet for Internet addresses *)
Definition arp_msg (op : Z) (sha : list Z) (spa : Z) (tha : list Z) (tpa : Z) : list Z :=
  be16 ARPHRD_ETHER ++ be16 ETHERTYPE_IP ++ [6; 4] ++ be16 op ++ sha ++ be32 spa ++ tha ++ be32 tpa.

(** The interface [ac] has got the frame [f] to send; the other queues are as before. *)
Record sends (ac : arpcom) (f : list Z) (s s' : ets) : Prop := {
  sd_snd : exists q, chain_bytes q = f /\ forall i, et_snd s' i = if i =? ac_ifp ac then Slip.IF_ENQUEUE (et_snd s i) q else et_snd s i;
  sd_pool : mp_fail (et_pool s') = [];
  sd_other : et_ipq s' = et_ipq s /\ et_loop s' = et_loop s /\ et_arpq s' = et_arpq s
}.

(** The interface can send [n] frames: it is up, mbufs are to be had, its queue has room. *)
Record ready (n : Z) (s : ets) (ac : arpcom) : Prop := {
  rd_up : if_down ac = false;
  rd_pool : mp_fail (et_pool s) = [];
  rd_room : zlen (Slip.ifq_q (et_snd s (ac_ifp ac))) + n <= Slip.ifq_maxlen (et_snd s (ac_ifp ac))
}.

Lemma sends_ready n ac f s s' : ready n s ac -> sends ac f s s' -> ready (n - 1) s' ac.
Proof.
  intros [R1 R2 R3] [(q & _ & Hq) S3 S4]. split; try done. rewrite Hq, Z.eqb_refl. unfold Slip.IF_ENQUEUE. rec_simpl. rewrite zlen_app. unfold zlen at 2. cbn. lia.
Qed.

Lemma ether_frame_sends n s ac m edst type :
  ready n s ac -> 0 < n -> m <> [] ->
  exists s', ether_frame s ac m edst type = Ret (0, s') /\ quiet s s' /\ sends ac (eframe edst (ac_enaddr ac) (u16 type) (chain_bytes m)) s s'.
Proof.
  intros [R1 R2 R3] Hn Hm. unfold ether_frame. destruct m as [|m1 ms]; [done|].
  destruct (M_PREPEND_ok (et_pool s) m1 ms (edst ++ ac_enaddr ac ++ be16 (u16 type)) R2) as (m2 & ms2 & p & -> & Hp & Hcb & _).
  cbv zeta. change (et_snd (s <| et_pool := p |>)) with (et_snd s).
  assert (Hf : Slip.IF_QFULL (et_snd s (ac_ifp ac)) = false) by (unfold Slip.IF_QFULL; destruct (Z.geb_spec (zlen (Slip.ifq_q (et_snd s (ac_ifp ac)))) (Slip.ifq_maxlen (et_snd s (ac_ifp ac)))); [lia|done]).
  rewrite Hf. eexists. split; [reflexivity|]. split; [done|]. split; [|done..]. exists (m2 :: ms2). split; [by rewrite Hcb, <- !app_assoc|].
  intros i. rec_simpl. by destruct (Z.eqb_spec i (ac_ifp ac)) as [->|].
Qed.

Lemma arprequest_sends n s ac sip tip enaddr :
  ready n s ac -> 0 < n ->
  exists s', arprequest s ac sip tip enaddr = Ret s' /\
    quiet s s' /\ sends ac (eframe etherbroadcastaddr (ac_enaddr ac) ETHERTYPE_ARP (arp_msg ARPOP_REQUEST enaddr sip (repeat 0 6) tip)) s s'.
Proof.
  intros R Hn. pose proof R as [R1 R2 R3]. unfold arprequest, m_gethdr, pool_alloc. rewrite R2. unfold ether_unspec. rewrite R1. cbv zeta.
  match goal with |- context [ether_frame ?s1 ac ?m _ _] => destruct (ether_frame_sends n s1 ac m etherbroadcastaddr ETHERTYPE_ARP) as (s' & -> & Q & S) end;
    [by split|done|done|]. cbn [obind]. eexists. split; [reflexivity|].
  split; [done|]. destruct S as [(q & Hq & S2) S3 S4]. split; [|done..]. exists q. split; [|done]. rewrite Hq, chain_bytes_one. done.
Qed.

(** ** Neighbours *)

(** [r] is the entry of neighbour [b]: its gateway is [g], it expires at [x], and so on. *)
Record nbr (b : Z) (g : gate) (x : Z) (rej : bool) (la : llinfo_arp) (r : rtentry) : Prop := {
  nb_dst : re_dst r = b;
  nb_other : re_other r = 0;
  nb_mask : re_mask r = None;
  nb_up : hasf (re_flags r) RTF_UP = true;
  nb_gw : hasf (re_flags r) RTF_GATEWAY = false;
  nb_ll : hasf (re_flags r) RTF_LLINFO = true;
  nb_cl : hasf (re_flags r) RTF_CLONING = false;
  nb_rej : hasf (re_flags r) RTF_REJECT = rej;
  nb_gate : re_gate r = g;
  nb_expire : re_expire r = x;
  nb_la : re_la r = Some la
}.
Definition nb (s : ets) (id b : Z) (g : gate) (x : Z) (rej : bool) (la : llinfo_arp) : Prop :=
  exists r, et_rt s !! id = Some r /\ nbr b g x rej la r.

Lemma nb_quiet s s' id b g x rej la : quiet s s' -> nb s id b g x rej la -> nb s' id b g x rej la.
Proof. intros (E & _) (r & Hr & N). exists r. by rewrite E. Qed.

(** A change of the entry *)
Lemma nb_upd s id b g x rej la f g' x' rej' la' :
  nb s id b g x rej la -> (forall r, nbr b g x rej la r -> nbr b g' x' rej' la' (f r)) -> nb (upd_rt id f s) id b g' x' rej' la'.
Proof. intros (r & Hr & N) Hf. exists (f r). rewrite upd_rt_lookup, decide_True, Hr by done. auto. Qed.

(** Taking a reference and giving it back *)
Lemma ref_unref s id : unref id (upd_rt id (fun r => r <| re_refcnt := re_refcnt r + 1 |>) s) = s.
Proof.
  assert (E : et_rt (unref id (upd_rt id (fun r => r <| re_refcnt := re_refcnt r + 1 |>) s)) = et_rt s).
  { apply map_eq. intros j. unfold unref. rewrite !upd_rt_lookup. case_decide; [|done]. destruct (et_rt s !! j) as [[]|]; [|done].
    cbn [fmap option_fmap option_map]. f_equal. unfold setf, set_re_refcnt. cbn. f_equal. lia. }
  destruct s. unfold unref, upd_rt in *. cbn in *. unfold setf, set_et_rt in *. cbn in *. by rewrite E.
Qed.

Lemma lookup_nb y ext e s id b g x rej la create :
  wf y ext s -> nb s id b g x rej la -> is_link g -> arplookup e s b create 0 = Ret (Some id, s).
Proof.
  intros W (r & Hr & []) Hg. unfold arplookup. change (if 0 =? 0 then 0 else SIN_PROXY) with 0. unfold rtalloc1.
  pose proof (match_host _ _ _ _ _ W Hr nb_mask0 nb_up0) as Hm. rewrite nb_dst0, nb_other0 in Hm. rewrite Hm, nb_cl0, andb_false_r. cbn [obind].
  rewrite ref_unref, Hr, nb_gw0, nb_ll0, nb_gate0, nb_la0. by destruct g.
Qed.

(** The route of a packet for a neighbour is its entry, unless it is rejected for now. *)
Lemma route_nb e s dst id b g x rej la :
  nb s id b g x rej la -> (rej = true -> x <> 0 /\ x <= et_now e) -> ether_route e s dst (Some id) = Ret (inr (Some id), s).
Proof.
  intros (r & Hr & []) Hx. unfold ether_route. cbv zeta. rewrite Hr. cbn [obind]. rewrite nb_up0. cbn [negb obind]. rewrite Hr. cbn [obind].
  rewrite nb_gw0. cbn [obind]. rewrite Hr. cbn [obind]. rewrite nb_rej0, nb_expire0. destruct rej; [|done]. destruct Hx as [H1 H2]; [done|].
  rewrite (proj2 (Z.eqb_neq x 0)), (proj2 (Z.ltb_ge _ _)) by done. done.
Qed.
Lemma route_rej e s dst id b g x la :
  nb s id b g x true la -> et_now e < x -> ether_route e s dst (Some id) = Ret (inl EHOSTDOWN, s).
Proof.
  intros (r & Hr & []) Hx. unfold ether_route. cbv zeta. rewrite Hr. cbn [obind]. rewrite nb_up0. cbn [negb obind]. rewrite Hr. cbn [obind].
  rewrite nb_gw0. cbn [obind]. rewrite Hr. cbn [obind]. rewrite nb_rej0, nb_expire0, (proj2 (Z.ltb_lt _ _)), orb_true_r, Z.eqb_refl by done. done.
Qed.

(** A packet for one host *)
Definition plain (m : chain) : Prop :=
  match m with m1 :: _ => hasf (m_flags m1) M_BCAST = false /\ hasf (m_flags m1) M_MCAST = false | [] => False end.
Lemma plain_ne m : plain m -> m <> [].
Proof. by destruct m. Qed.

(** To a neighbour whose address is known a packet goes at once. *)
Lemma output_known n e s ac m id b a6 x rej la :
  ready n s ac -> 0 < n -> plain m -> nb s id b (G_link 6 a6) x rej la -> zlen a6 = 6 ->
  (x = 0 \/ et_now e < x) -> rej = false ->
  exists s', ether_output e s ac m (E_inet b) (Some id) = Ret (0, s') /\ quiet s s' /\ sends ac (eframe a6 (ac_enaddr ac) ETHERTYPE_IP (chain_bytes m)) s s'.
Proof.
  intros R Hn Hm N Ha Hx ->. unfold ether_output. rewrite (rd_up _ _ _ R), (route_nb e s _ id _ _ _ _ _ N) by done. cbn [obind].
  destruct m as [|m1 ms]; [done|]. destruct Hm as [Hb Hmc]. unfold arpresolve. rewrite Hb, Hmc. cbn [obind].
  destruct N as (r & Hr & []). rewrite Hr, nb_la0, nb_gate0, nb_expire0.
  assert (Ho : (x =? 0) || (x >? et_now e) = true) by (destruct Hx as [->|Hx]; [done|]; rewrite (Z.gtb_ltb x), (proj2 (Z.ltb_lt _ _)) by done; apply orb_true_r).
  rewrite Ho. cbn [negb Z.eqb]. change (negb (6 =? 0)) with true. cbn iota. cbn [obind andb]. rewrite ztake_ge by lia.
  by apply (ether_frame_sends n).
Qed.

(** ** Asking *)

Definition who_has (ac : arpcom) (b : Z) : list Z :=
  eframe etherbroadcastaddr (ac_enaddr ac) ETHERTYPE_ARP (arp_msg ARPOP_REQUEST (ac_enaddr ac) (ac_ipaddr ac) (repeat 0 6) b).

(** The queues and the room for mbufs are the same. *)
Definition calm (s s' : ets) : Prop :=
  et_snd s' = et_snd s /\ et_ipq s' = et_ipq s /\ et_loop s' = et_loop s /\ et_arpq s' = et_arpq s /\ mp_fail (et_pool s') = mp_fail (et_pool s).
Lemma calm_ready n s s' ac : calm s s' -> ready n s ac -> ready n s' ac.
Proof. intros (E1 & _ & _ & _ & E5) [R1 R2 R3]. split; [done|by rewrite E5|by rewrite E1]. Qed.
Lemma calm_sends ac f s s1 s' : calm s s1 -> sends ac f s1 s' -> sends ac f s s'.
Proof.
  intros (E1 & E2 & E3 & E4 & _) [S1 S2 (S3 & S4 & S5)]. split; [by rewrite E1 in S1|done|]. by rewrite S3, S4, S5.
Qed.

(** The state after the held packet has been replaced *)
Lemma drop_hold s la : let s1 := match la_hold la with Some h => et_free h s | None => s end in quiet s s1 /\ calm s s1.
Proof.
  cbv zeta. destruct (la_hold la); [|done]. split; [apply free_quiet|]. unfold calm, et_free. rec_simpl. by rewrite m_freem_fail.
Qed.

(** How a packet for a neighbour whose address is not known reaches the end of arpresolve. *)
Lemma output_unknown e s ac m id b ll x rej la :
  if_down ac = false -> plain m -> nb s id b (G_link 0 ll) x rej la -> (rej = true -> x <> 0 /\ x <= et_now e) ->
  exists r, et_rt s !! id = Some r /\ nbr b (G_link 0 ll) x rej la r /\
    ether_output e s ac m (E_inet b) (Some id) = (let! s := arp_hold e s ac id r la m b in Ret (0, s)).
Proof.
  intros R Hm N Hx. pose proof N as (r & Hr & Hnbr). exists r. split; [done|]. split; [done|].
  unfold ether_output. rewrite R, (route_nb e s _ id _ _ _ _ _ N Hx). cbn [obind].
  destruct m as [|m1 ms]; [done|]. destruct Hm as [Hb Hmc]. unfold arpresolve. rewrite Hb, Hmc. cbn [obind]. rewrite Hr, (nb_la _ _ _ _ _ _ Hnbr), (nb_gate _ _ _ _ _ _ Hnbr).
  change (negb (0 =? 0)) with false. cbv zeta. cbn iota. destruct (_ || _); by destruct (arp_hold _ _ _ _ _ _ _ _).
Qed.

(** The neighbour is asked for, and the packet held. *)
Lemma ask_step n e s ac m id b ll x rej la :
  ready n s ac -> 0 < n -> plain m -> nb s id b (G_link 0 ll) x rej la -> (rej = true -> x <= et_now e) -> x <> 0 -> 0 <= la_asked la < arp_maxtries ->
  la_asked la = 0 \/ x <> et_now e ->
  exists s', ether_output e s ac m (E_inet b) (Some id) = Ret (0, s') /\
    nb s' id b (G_link 0 ll) (et_now e) false (mkLlinfo (Some m) (la_asked la + 1)) /\ sends ac (who_has ac b) s s'.
Proof.
  intros R Hn Hm N Hrej Hx Ha Hask. destruct (output_unknown e s ac m id b ll x rej la (rd_up _ _ _ R) Hm N) as (r & Hr & Hnbr & ->); [auto|].
  unfold arp_hold. destruct (drop_hold s la) as [Q C]. set (s1 := match la_hold la with Some h => et_free h s | None => s end) in *. cbv zeta.
  pose proof (nb_quiet _ _ _ _ _ _ _ _ Q N) as N1. rewrite (nb_expire _ _ _ _ _ _ Hnbr), (proj2 (Z.eqb_neq x 0)) by done.
  assert (Ho : (la_asked la =? 0) || negb (x =? et_now e) = true).
  { destruct Hask as [->|Hask]; [done|]. rewrite (proj2 (Z.eqb_neq x (et_now e))) by done. apply orb_true_r. }
  rewrite Ho, (proj2 (Z.ltb_lt _ _)) by lia.
  match goal with |- context [arpwhohas (upd_rt id ?f s1) _ _] => set (s2 := upd_rt id f s1) end.
  assert (N2 : nb s2 id b (G_link 0 ll) (et_now e) false (mkLlinfo (Some m) (la_asked la + 1))).
  { eapply nb_upd; [exact N1|]. intros q []. split; rec_simpl; try done; try by flags_simpl. rewrite nb_la0. done. }
  assert (R2 : ready n s2 ac) by by apply (calm_ready n s).
  destruct (arprequest_sends n s2 ac (ac_ipaddr ac) b (ac_enaddr ac) R2 Hn) as (s3 & E & Q3 & S3). unfold arpwhohas. rewrite E. cbn [obind].
  eexists. split; [reflexivity|]. split; [by eapply nb_quiet|]. by apply (calm_sends _ _ _ s2).
Qed.

(** After five requests the neighbour is given up. *)
Lemma give_step e s ac m id b ll x la :
  if_down ac = false -> plain m -> nb s id b (G_link 0 ll) x false la -> x <> 0 -> la_asked la = arp_maxtries -> x <> et_now e ->
  exists s', ether_output e s ac m (E_inet b) (Some id) = Ret (0, s') /\
    nb s' id b (G_link 0 ll) (et_now e + arpt_down) true (mkLlinfo (Some m) 0) /\ calm s s'.
Proof.
  intros R Hm N Hx Ha Hne. destruct (output_unknown e s ac m id b ll x false la R Hm N) as (r & Hr & Hnbr & ->); [done|].
  unfold arp_hold. destruct (drop_hold s la) as [Q C]. set (s1 := match la_hold la with Some h => et_free h s | None => s end) in *. cbv zeta.
  pose proof (nb_quiet _ _ _ _ _ _ _ _ Q N) as N1. rewrite (nb_expire _ _ _ _ _ _ Hnbr), (proj2 (Z.eqb_neq x 0)), (proj2 (Z.eqb_neq x (et_now e))), Ha by done.
  change (arp_maxtries <? arp_maxtries) with false. cbn [negb]. rewrite orb_true_r. cbn [obind].
  eexists. split; [reflexivity|]. split; [|exact C]. eapply nb_upd; [exact N1|].
  intros q []. split; rec_simpl; try done; try by flags_simpl. by rewrite nb_la0.
Qed.

(** Packets for neighbour [b] at the times of their environments; the results of ether_output *)
Fixpoint output_all (ac : arpcom) (b id : Z) (l : list (etenv * chain)) (s : ets) : outcome (list Z * ets) :=
  match l with
  | [] => Ret ([], s)
  | (e, m) :: l =>
      let! (err, s) := ether_output e s ac m (E_inet b) (Some id) in
      let! (errs, s) := output_all ac b id l s in Ret (err :: errs, s)
  end.

(** Times that rise from [t], and the last of them *)
Fixpoint rising (t : Z) (l : list (etenv * chain)) : Prop :=
  match l with [] => True | (e, _) :: l => t < et_now e /\ rising (et_now e) l end.
Fixpoint last_time (t : Z) (l : list (etenv * chain)) : Z :=
  match l with [] => t | (e, _) :: l => last_time (et_now e) l end.

(** The frames of [qs] have been put on the queue of [ac]. *)
Definition queued (ac : arpcom) (s s' : ets) (qs : list chain) : Prop :=
  Slip.ifq_q (et_snd s' (ac_ifp ac)) = Slip.ifq_q (et_snd s (ac_ifp ac)) ++ qs.

Lemma sends_queued ac f s s' : sends ac f s s' -> exists q, chain_bytes q = f /\ queued ac s s' [q].
Proof.
  intros [(q & Hq & H) _ _]. exists q. split; [done|]. unfold queued. rewrite H, Z.eqb_refl. done.
Qed.

(** Up to five packets, each asks. *)
Lemma asks ac b id ll l : forall n s t x la,
  ready n s ac -> Z.of_nat (length l) <= n -> nb s id b (G_link 0 ll) x false la -> 0 <= t -> x <> 0 -> la_asked la = 0 \/ x = t -> rising t l ->
  Forall (fun em => plain em.2) l -> 0 <= la_asked la -> la_asked la + Z.of_nat (length l) <= arp_maxtries ->
  exists s' qs x' la', output_all ac b id l s = Ret (repeat 0 (length l), s') /\ ready (n - Z.of_nat (length l)) s' ac /\
    nb s' id b (G_link 0 ll) x' false la' /\ x' <> 0 /\ (l <> [] -> x' = last_time t l) /\ la_asked la' = la_asked la + Z.of_nat (length l) /\
    queued ac s s' qs /\ length qs = length l /\ Forall (fun q => chain_bytes q = who_has ac b) qs.
Proof.
  induction l as [|[e m] l IH]; intros n s t x la R Hn N Ht Hx Hax Hris Hf Ha Hmax.
  - exists s, [], x, la. cbn [output_all length repeat]. rewrite Z.sub_0_r, Z.add_0_r. split_and!; try done. unfold queued. by rewrite app_nil_r.
  - cbn [length rising] in *. destruct Hris as [Hte Hris]. apply Forall_cons_iff in Hf as [Hm Hf]. cbn [snd] in Hm.
    destruct (ask_step n e s ac m id b ll x false la R) as (s1 & E1 & N1 & S1); [lia|done..|lia|lia|].
    destruct (IH (n - 1) s1 (et_now e) (et_now e) (mkLlinfo (Some m) (la_asked la + 1))) as (s2 & qs & x' & la' & E2 & R2 & N2 & Hx2 & Hl2 & A2 & Q2 & L2 & F2);
      [by eapply sends_ready|lia|done|lia|lia|by right|done|done|cbn [la_asked]; lia|cbn [la_asked]; lia|].
    destruct (sends_queued _ _ _ _ S1) as (q & Hq & Q1).
    exists s2, (q :: qs), x', la'. cbn [output_all]. rewrite E1. cbn [obind]. rewrite E2. cbn [obind repeat]. cbn [la_asked] in A2. split_and!; try done.
    + replace (n - Z.of_nat (S (length l))) with (n - 1 - Z.of_nat (length l)) by lia. done.
    + intros _. cbn [last_time]. destruct l as [|[e' m'] l]; [|by apply Hl2]. cbn in E2. injection E2 as <-.
      destruct N1 as (r1 & Hr1 & []), N2 as (r2 & Hr2 & []). cbn [last_time]. congruence.
    + lia.
    + unfold queued in *. by rewrite Q2, Q1, <- app_assoc.
    + cbn [length]. by rewrite L2.
    + by constructor.
Qed.

Lemma output_all_app ac b id l k s errs s1 :
  output_all ac b id l s = Ret (errs, s1) -> output_all ac b id (l ++ k) s = (let! (errs', s) := output_all ac b id k s1 in Ret (errs ++ errs', s)).
Proof.
  revert s errs. induction l as [|[e m] l IH]; intros s errs; cbn [output_all app].
  - intros [= <- <-]. by destruct (output_all ac b id k s) as [[]| |].
  - destruct (ether_output _ _ _ _ _ _) as [[err s2]| |]; [|done..]. cbn [obind]. destruct (output_all ac b id l s2) as [[errs2 s3]| |] eqn:E; [|done..].
    cbn [obind]. intros [= <- <-]. rewrite (IH _ _ E). by destruct (output_all ac b id k s3) as [[]| |].
Qed.

(** C15: Six packets for a neighbour that does not answer, each a second or more after the last:
    the first five are held one in place of the other and each broadcasts a request; the sixth is
    held without one and the neighbour is given up: for the next 20 seconds ether_output answers
    EHOSTDOWN and frees the packet, and the first packet after them asks again. *)
Theorem arp_gives_up ac b id ll s t x la l e m :
  ready 6 s ac -> nb s id b (G_link 0 ll) x false la -> la_asked la = 0 -> x <> 0 -> 0 <= t ->
  length l = 5%nat -> rising t l -> Forall (fun em => plain em.2) l -> last_time t l < et_now e -> plain m ->
  exists s' qs, output_all ac b id (l ++ [(e, m)]) s = Ret (repeat 0 6, s') /\
    queued ac s s' qs /\ length qs = 5%nat /\ Forall (fun q => chain_bytes q = who_has ac b) qs /\
    (exists r, et_rt s' !! id = Some r /\ re_la r = Some (mkLlinfo (Some m) 0)) /\
    (forall e' m', et_now e' < et_now e + arpt_down -> ether_output e' s' ac m' (E_inet b) (Some id) = Ret (EHOSTDOWN, et_free m' s')) /\
    (forall e' m', et_now e + arpt_down <= et_now e' -> plain m' ->
       exists s'', ether_output e' s' ac m' (E_inet b) (Some id) = Ret (0, s'') /\ sends ac (who_has ac b) s' s'').
Proof.
  intros R N Ha Hx Ht Hl Hris Hf He Hm.
  destruct (asks ac b id ll l 6 s t x la) as (s1 & qs & x1 & la1 & E1 & R1 & N1 & Hx1 & Hl1 & A1 & Q1 & L1 & F1);
    [done|lia|done..|by left|done|done|lia|unfold arp_maxtries; lia|].
  assert (Hne : x1 <> et_now e) by (rewrite Hl1; [lia|by intros ->]).
  destruct (give_step e s1 ac m id b ll x1 la1 (rd_up _ _ _ R1) Hm N1 Hx1) as (s2 & E2 & N2 & C2); [unfold arp_maxtries; lia|done|].
  assert (Ht' : 0 < et_now e + arpt_down).
  { assert (Hlast : forall l t, 0 <= t -> rising t l -> 0 <= last_time t l).
    { clear. induction l as [|[e m] l IH]; intros t Ht; cbn; [done|]. intros [H1 H2]. apply IH; [lia|done]. }
    specialize (Hlast l t Ht Hris). unfold arpt_down. lia. }
  exists s2, qs. rewrite (output_all_app _ _ _ _ _ _ _ _ E1). cbn [output_all]. rewrite E2. cbn [obind]. rewrite Hl. split_and!; try done.
  - unfold queued in *. by rewrite (proj1 C2).
  - by rewrite L1.
  - destruct N2 as (r & Hr & []). eauto.
  - intros e' m' He'. unfold ether_output. rewrite (rd_up _ _ _ R1). by rewrite (route_rej e' s2 _ id _ _ _ _ N2 He').
  - intros e' m' He' Hm'. pose proof (calm_ready _ _ _ _ C2 R1) as R2. rewrite Hl in R2.
    destruct (ask_step (6 - Z.of_nat 5) e' s2 ac m' id b ll _ true _ R2 ltac:(lia) Hm' N2) as (s3 & E3 & _ & S3); [done|lia|done|by left|eauto].
Qed.

(** ** Finding the neighbour *)

(** The route of [dst] is one to the interface [ac], whose address is [a]. *)
Record net_route (s : ets) (ac : arpcom) (a dst : Z) (ll : list Z) (x : Z) (pid : Z) (p : rtentry) : Prop := {
  nr_match : rnh_matchaddr s dst 0 = Some (pid, p);
  nr_clone : hasf (re_flags p) RTF_CLONING = true;
  nr_gw : hasf (re_flags p) RTF_GATEWAY = false;
  nr_rej : hasf (re_flags p) RTF_REJECT = false;
  nr_mask : re_mask p <> None;
  nr_gate : re_gate p = G_link 0 ll;
  nr_ifa : re_ifa p = (a, ac_ifp ac);
  nr_expire : re_expire p = x;
  nr_dst : dst <> a
}.

Lemma R_Malloc_ok s : mp_fail (et_pool s) = [] -> R_Malloc s = (true, s).
Proof. intros H. unfold R_Malloc, pool_alloc. rewrite H. by destruct s. Qed.

(** The first packet for a neighbour makes an entry for it. *)
Lemma clone_nb e s ac a dst ll x pid p :
  net_route s ac a dst ll x pid p -> mp_fail (et_pool s) = [] ->
  exists s', rtalloc1 e s dst 0 true = Ret (Some (et_next s), s') /\ nb s' (et_next s) dst (G_link 0 ll) x false (mkLlinfo None 0) /\ calm s s'.
Proof.
  intros [] Hp. unfold rtalloc1. rewrite nr_match0, nr_clone0. cbn [andb]. unfold rt_clone. rewrite !(R_Malloc_ok s Hp). cbn [negb].
  destruct (re_mask p) as [mask|] eqn:Em; [|done]. rewrite nr_gate0, nr_ifa0, nr_expire0.
  set (fl := setb _ _). set (r := mkRtentry _ _ _ fl _ _ _ _ _ _ _). set (n := et_next s). set (s1 := s <| et_rt := _ |> <| et_next := _ |>).
  assert (H1 : et_rt s1 !! n = Some r) by apply lookup_insert_eq.
  assert (Hfg : hasf fl RTF_GATEWAY = false) by (unfold fl; flags_simpl; done).
  unfold arp_rtrequest. rewrite H1. change (re_flags r) with fl. rewrite Hfg. cbn [obind]. unfold arp_resolve. rewrite H1.
  change (re_gate r) with (G_link 0 ll). change (re_la r) with (@None llinfo_arp). cbv zeta. rewrite (R_Malloc_ok s1) by done. cbn [negb].
  change (re_dst r =? (re_ifa r).1) with (dst =? a). rewrite (proj2 (Z.eqb_neq dst a)) by done. cbn [obind].
  eexists. split; [reflexivity|]. split; [|done].
  match goal with |- nb (upd_rt n ?f ?s2) _ _ _ _ _ _ => assert (N : nb s2 n dst (G_link 0 ll) x false (mkLlinfo None 0)) end.
  { eexists. split; [rec_simpl; rewrite upd_rt_lookup, decide_True, H1 by done; reflexivity|]. split; rec_simpl; try done; unfold r; cbn [re_flags]; unfold fl; by flags_simpl. }
  eapply nb_upd; [exact N|]. intros q []. split; by rec_simpl.
Qed.

Lemma lookup_new e s ac a dst ll x pid p :
  net_route s ac a dst ll x pid p -> mp_fail (et_pool s) = [] ->
  exists s', arplookup e s dst true 0 = Ret (Some (et_next s), s') /\ nb s' (et_next s) dst (G_link 0 ll) x false (mkLlinfo None 0) /\ calm s s'.
Proof.
  intros Hr Hp. destruct (clone_nb e s ac a dst ll x pid p Hr Hp) as (s1 & E & N & C). unfold arplookup. change (if 0 =? 0 then 0 else SIN_PROXY) with 0.
  rewrite E. cbn [obind]. set (id := et_next s) in *.
  assert (N2 : nb (unref id s1) id dst (G_link 0 ll) x false (mkLlinfo None 0)) by (eapply nb_upd; [exact N|]; intros q []; by split).
  destruct N2 as (r & Hr2 & Hn). eexists. split; [|split; [by exists r|exact C]]. rewrite Hr2. destruct Hn. by rewrite nb_gw0, nb_ll0, nb_gate0, nb_la0.
Qed.

(** ** ARP packets received *)

Definition is_addr (a : Z) : Prop := 0 <= a < 4294967296.

(** What in_arpinput reads in a packet *)
Record reads (op : Z) (sha : list Z) (spa tpa : Z) (tail b : list Z) : Prop := {
  rs_hrd : rd16 b 0 = ARPHRD_ETHER;
  rs_pro : rd16 b 2 = ETHERTYPE_IP;
  rs_len : get b 4 = 6 /\ get b 5 = 4;
  rs_op : rd16 b 6 = op;
  rs_sha : zsub 8 6 b = sha;
  rs_spa : rd32 b 14 = spa;
  rs_tpa : rd32 b 24 = tpa;
  rs_copy : ztake 2 b = be16 ARPHRD_ETHER /\ zsub 4 2 b = [6; 4] /\ zsub 14 4 b = be32 spa /\ zdrop 28 b = tail
}.

Lemma six l : zlen l = 6 -> exists a b c d e f : Z, l = [a; b; c; d; e; f].
Proof.
  unfold zlen. intros H. destruct l as [|a [|b [|c [|d [|e [|f [|g l]]]]]]]; cbn in H; try lia. eauto 10.
Qed.

Lemma arp_msg_reads op sha spa tha tpa tail :
  0 <= op < 65536 -> zlen sha = 6 -> zlen tha = 6 -> is_addr spa -> is_addr tpa -> reads op sha spa tpa tail (arp_msg op sha spa tha tpa ++ tail).
Proof.
  intros Ho Hs Ht H1 H2. destruct (six _ Hs) as (s1 & s2 & s3 & s4 & s5 & s6 & ->). destruct (six _ Ht) as (t1 & t2 & t3 & t4 & t5 & t6 & ->).
  split; try done; [by apply rd16_be|by apply rd32_be|by apply rd32_be].
Qed.

Lemma arp_msg_len op sha spa tha tpa : zlen sha = 6 -> zlen tha = 6 -> zlen (arp_msg op sha spa tha tpa) = 28.
Proof. intros Hs Ht. unfold arp_msg. rewrite !zlen_app, Hs, Ht. done. Qed.

(** A packet from the driver: the data of a frame and padding, 28 bytes of it in the first mbuf *)
Record taken (ac : arpcom) (data : list Z) (c : chain) : Prop := {
  tk_bytes : exists pad, chain_bytes c = data ++ pad;
  tk_head : exists m1 ms, c = m1 :: ms /\ 28 <= m_len m1 /\ hasf (m_flags m1) M_PKTHDR = true /\ m_rcvif m1 = ac_ifp ac
}.

Lemma taken_head ac data m1 ms : taken ac data (m1 :: ms) -> zlen data = 28 -> exists pad, m_bytes m1 = data ++ pad.
Proof.
  intros [[pad Hb] (m1' & ms' & [= <- <-] & Hl & _)] Hd. exists (zdrop 28 (m_bytes m1)). rewrite <- (ztake_zdrop 28 (m_bytes m1)) at 1. f_equal.
  rewrite chain_bytes_cons in Hb. apply (f_equal (ztake 28)) in Hb. rewrite !ztake_app_le in Hb by (unfold m_len in Hl; lia).
  rewrite Hb. apply ztake_ge. lia.
Qed.

(** ** A station on the Ethernet *)

Record station (e : etenv) (ac : arpcom) (a : Z) : Prop := {
  st_en : zlen (ac_enaddr ac) = 6;
  st_bc : ac_enaddr ac <> etherbroadcastaddr;
  st_ip : ac_ipaddr ac = a;
  st_addr : is_addr a;
  st_ifa : (a, ac_ifp ac) ∈ et_ifaddr e;
  st_ac : et_ac e (ac_ifp ac) = ac;
  st_up : hasf (ac_flags ac) IFF_UP = true
}.

(** [b] is not an address of the interface. *)
Definition foreign (e : etenv) (ac : arpcom) (b : Z) : Prop := forall x, (x, ac_ifp ac) ∈ et_ifaddr e -> x <> b.

Lemma find_ia_own l ifp a b maybe : (a, ifp) ∈ l -> (forall x, (x, ifp) ∈ l -> x <> b) -> find_ia l ifp b a maybe = (Some a, Some a).
Proof.
  revert maybe. induction l as [|[y i] l IH]; intros maybe; [by intros ?%elem_of_nil|]. intros Hin Hf. cbn [find_ia].
  destruct (Z.eqb_spec i ifp) as [->|Hi].
  - destruct (Z.eqb_spec a y) as [->|Ha]; [done|]. rewrite (proj2 (Z.eqb_neq b y)) by (intros ->; by apply (Hf y); [left|]). cbn [orb].
    apply IH; [|intros x Hx; apply Hf; by right]. apply elem_of_cons in Hin as [[= ->]|Hin]; done.
  - apply IH; [|intros x Hx; apply Hf; by right]. apply elem_of_cons in Hin as [[= -> ->]|Hin]; done.
Qed.

(** A packet from [spa] to this station, read *)
Lemma arpinput_for_us e s ac a m1 ms op sha spa tail :
  station e ac a -> foreign e ac spa -> m_rcvif m1 = ac_ifp ac -> 28 <= m_len m1 -> reads op sha spa a tail (m_bytes m1) ->
  sha <> ac_enaddr ac -> sha <> etherbroadcastaddr -> spa <> a ->
  in_arpinput e s (m1 :: ms) =
    (let! (o, s) := arplookup e s spa true 0 in
     let! s := match o with Some id => arp_learn e s ac id sha | None => Ret s end in
     arp_reply e s ac m1 ms op a a).
Proof.
  intros [] Hf Hif Hl [] H1 H2 H3. unfold in_arpinput. rewrite (proj2 (Z.ltb_ge _ _)) by lia. rewrite Hif, st_ac0, rs_op0, rs_sha0, rs_spa0, rs_tpa0. cbv zeta.
  rewrite (find_ia_own _ _ a spa) by done. rewrite !bool_decide_eq_false_2 by done. rewrite (proj2 (Z.eqb_neq spa a)) by done. by rewrite Z.eqb_refl.
Qed.

(** The sender's address is entered, for 20 minutes. *)
Lemma learn_free e s ac id b g x rej k sha :
  nb s id b g x rej (mkLlinfo None k) -> x <> 0 ->
  exists s', arp_learn e s ac id sha = Ret s' /\ nb s' id b (G_link 6 sha) (et_now e + arpt_keep) false (mkLlinfo None 0) /\ calm s s'.
Proof.
  intros N Hx. pose proof N as (r & Hr & Hn). unfold arp_learn. rewrite Hr, (nb_la _ _ _ _ _ _ Hn). cbv zeta. cbn [la_hold].
  eexists. split; [reflexivity|]. split; [|done]. eapply nb_upd; [exact N|]. intros q []. cbv zeta.
  change (re_expire _ =? 0) with (re_expire q =? 0). rewrite nb_expire0, (proj2 (Z.eqb_neq x 0)) by done.
  split; rec_simpl; try done; try by flags_simpl. by rewrite nb_la0.
Qed.

(** A packet that was held for it goes out. *)
Lemma learn_held n e s ac id b g x rej h k sha :
  ready n s ac -> 0 < n -> plain h -> zlen sha = 6 -> nb s id b g x rej (mkLlinfo (Some h) k) -> x <> 0 ->
  exists s', arp_learn e s ac id sha = Ret s' /\ nb s' id b (G_link 6 sha) (et_now e + arpt_keep) false (mkLlinfo None 0) /\
    sends ac (eframe sha (ac_enaddr ac) ETHERTYPE_IP (chain_bytes h)) s s'.
Proof.
  intros R Hn Hh Hs N Hx. pose proof N as (r & Hr & Hnb). unfold arp_learn. rewrite Hr, (nb_la _ _ _ _ _ _ Hnb), (nb_dst _ _ _ _ _ _ Hnb). cbv zeta. cbn [la_hold].
  set (s1 := upd_rt id _ s).
  assert (N1 : nb s1 id b (G_link 6 sha) (et_now e + arpt_keep) false (mkLlinfo (Some h) 0)).
  { eapply nb_upd; [exact N|]. intros q []. change (re_expire _ =? 0) with (re_expire q =? 0). rewrite nb_expire0, (proj2 (Z.eqb_neq x 0)) by done.
    split; rec_simpl; try done; try by flags_simpl. by rewrite nb_la0. }
  assert (R1 : ready n s1 ac) by by apply (calm_ready n s).
  destruct (output_known n e s1 ac h id b sha _ false _ R1 Hn Hh N1 Hs) as (s2 & -> & Q2 & S2); [right; unfold arpt_keep; lia|done|]. cbn [obind].
  eexists. split; [reflexivity|]. split; [|apply (calm_sends _ _ _ s1); [done|destruct S2; by split]]. eapply nb_upd; [by eapply nb_quiet|].
  intros q []. split; rec_simpl; try done. by rewrite nb_la0.
Qed.

(** A request for our address is answered in its mbuf. *)
Lemma reply_sent n e s ac a m1 ms sha spa tail :
  ready n s ac -> 0 < n -> is_addr a -> reads ARPOP_REQUEST sha spa a tail (m_bytes m1) ->
  exists s' pad, arp_reply e s ac m1 ms ARPOP_REQUEST a a = Ret s' /\ quiet s s' /\
    sends ac (eframe sha (ac_enaddr ac) ETHERTYPE_ARP (arp_msg ARPOP_REPLY (ac_enaddr ac) a sha spa ++ pad)) s s'.
Proof.
  intros R Hn Ha [Hh Hp [Hl1 Hl2] Ho Hs Hsp Ht (C1 & C2 & C3 & C4)]. unfold arp_reply. cbv zeta. rewrite !Z.eqb_refl. cbn [negb obind].
  unfold ether_unspec. rewrite (rd_up _ _ _ R), Hs, C1, C2, C3, C4.
  match goal with |- context [ether_frame s ac ?m _ _] => destruct (ether_frame_sends n s ac m sha ETHERTYPE_ARP R Hn) as (s' & -> & Q & S) end; [done|].
  cbn [obind]. exists s', (tail ++ chain_bytes ms). split; [done|]. split; [done|].
  rewrite chain_bytes_cons in S. rec_simpl_in S. change (u16 ETHERTYPE_ARP) with ETHERTYPE_ARP in S. unfold arp_msg. rewrite <- !app_assoc in *. exact S.
Qed.

(** ** From frame to frame *)

(** The driver hands up the data [c] of the frame [f], and the ARP interrupt follows. *)
Definition arp_in (e : etenv) (s : ets) (ac : arpcom) (f : list Z) (c : chain) : outcome ets :=
  arpintr e (ether_input s ac (ztake 6 f) (rd16 f 12) c).

Definition arp_idle (s : ets) : Prop := Slip.ifq_q (et_arpq s) = [] /\ 0 < Slip.ifq_maxlen (et_arpq s).

Lemma frame_type dst src type data : zlen dst = 6 -> zlen src = 6 -> 0 <= type < 65536 ->
  ztake 6 (eframe dst src type data) = dst /\ rd16 (eframe dst src type data) 12 = type /\ zdrop 14 (eframe dst src type data) = data.
Proof.
  intros Hd Hs Ht. destruct (six _ Hd) as (d1 & d2 & d3 & d4 & d5 & d6 & ->). destruct (six _ Hs) as (s1 & s2 & s3 & s4 & s5 & s6 & ->).
  split; [done|]. split; [by apply rd16_be|done].
Qed.

(** Receiving is in_arpinput, on the packet with the flags that ether_input sets. *)
Lemma arp_in_input e s ac dst src op sha spa tha tpa pad c :
  hasf (ac_flags ac) IFF_UP = true -> arp_idle s -> zlen dst = 6 -> zlen src = 6 -> zlen sha = 6 -> zlen tha = 6 -> 0 <= op < 65536 -> is_addr spa -> is_addr tpa ->
  let data := arp_msg op sha spa tha tpa ++ pad in
  taken ac data c ->
  exists m1 ms tail, arp_in e s ac (eframe dst src ETHERTYPE_ARP data) c = in_arpinput e s (m1 :: ms) /\
    reads op sha spa tpa tail (m_bytes m1) /\ 28 <= m_len m1 /\ m_rcvif m1 = ac_ifp ac.
Proof.
  intros Hu [Hq0 Hq1] Hd Hs Hsha Htha Ho H1 H2 data Hc. destruct (frame_type dst src ETHERTYPE_ARP data Hd Hs) as (F1 & F2 & _); [done|].
  unfold arp_in. rewrite F1, F2. unfold ether_input. rewrite Hu. cbn [negb]. cbv zeta. change (ETHERTYPE_ARP =? ETHERTYPE_IP) with false. change (ETHERTYPE_ARP =? ETHERTYPE_ARP) with true. cbn iota.
  assert (Hf : Slip.IF_QFULL (et_arpq s) = false) by (unfold Slip.IF_QFULL; rewrite Hq0; destruct (Z.geb_spec (zlen (@nil chain)) (Slip.ifq_maxlen (et_arpq s))) as [H|]; [change (zlen (@nil chain)) with 0 in H; lia|done]).
  rewrite Hf. destruct Hc as [[pad' Hb] (m1 & ms & -> & Hl & Hk & Hif)]. set (fl := if bool_decide _ then M_BCAST else _).
  set (m1' := m1 <| m_flags := setb (m_flags m1) fl |>).
  assert (Hr : exists tail, reads op sha spa tpa tail (m_bytes m1')).
  { assert (T : taken ac (arp_msg op sha spa tha tpa) (m1 :: ms)) by (split; [exists (pad ++ pad'); by rewrite Hb; unfold data; rewrite app_assoc|by exists m1, ms]).
    destruct (taken_head _ _ _ _ T) as [tail Ht]; [by apply arp_msg_len|]. exists tail. change (m_bytes m1') with (m_bytes m1). rewrite Ht. by apply arp_msg_reads. }
  destruct Hr as [tail Hr]. exists m1', ms, tail. split; [|split; [exact Hr|by split]].
  unfold arpintr. rec_simpl. unfold Slip.IF_ENQUEUE. rec_simpl. rewrite Hq0. cbn [app arpintr_loop].
  unfold Slip.IF_DEQUEUE. cbn [Slip.ifq_q]. rec_simpl.
  set (s1 := _ <| et_arpq := _ |>). assert (Hs1 : s1 = s).
  { unfold s1. destruct s as [? ? ? ? ? ? q ?]. cbn in Hq0. unfold setf, set_et_arpq. cbn. f_equal. destruct q as [qq ? ?]. cbn in Hq0. by rewrite Hq0. }
  rewrite Hs1. unfold arpintr1. assert (Hk' : hasf (m_flags m1') M_PKTHDR = true) by (unfold m1'; rec_simpl; by rewrite hasf_setb, Hk).
  rewrite Hk'. cbn [negb]. destruct Hr as [R1 R2 [R3 R4] _ _ _ _ _]. rewrite R1, R2, R3, R4.
  assert (Hl' : 28 <= m_len m1') by done. rewrite !Z.geb_leb, !(proj2 (Z.leb_le _ _)) by lia. change (_ && _ && _ && _) with true. cbn iota.
  by destruct (in_arpinput _ _ _).
Qed.

(** The neighbour answers a request, and enters who asked. *)
Lemma answers n e s ac b src a ll x pid p c :
  station e ac b -> foreign e ac a -> ready n s ac -> 0 < n -> arp_idle s -> net_route s ac b a ll x pid p -> x <> 0 ->
  zlen src = 6 -> src <> ac_enaddr ac -> src <> etherbroadcastaddr -> is_addr a ->
  let msg := arp_msg ARPOP_REQUEST src a (repeat 0 6) b in
  taken ac msg c ->
  exists s' pad, arp_in e s ac (eframe etherbroadcastaddr src ETHERTYPE_ARP msg) c = Ret s' /\
    nb s' (et_next s) a (G_link 6 src) (et_now e + arpt_keep) false (mkLlinfo None 0) /\
    sends ac (eframe src (ac_enaddr ac) ETHERTYPE_ARP (arp_msg ARPOP_REPLY (ac_enaddr ac) b src a ++ pad)) s s'.
Proof.
  intros St Hf R Hn Hi Hr Hx Hs H1 H2 Ha msg Hc.
  destruct (arp_in_input e s ac etherbroadcastaddr src ARPOP_REQUEST src a (repeat 0 6) b [] c) as (m1 & ms & tail & E & Hrd & Hl & Hif);
    [apply St|done..|apply St|by rewrite app_nil_r|]. rewrite app_nil_r in E. unfold msg. rewrite E.
  rewrite (arpinput_for_us e s ac b m1 ms ARPOP_REQUEST src a tail) by (done || apply Hr).
  destruct (lookup_new e s ac b a ll x pid p Hr (rd_pool _ _ _ R)) as (s1 & E1 & N1 & C1). rewrite E1. cbn [obind].
  destruct (learn_free e s1 ac _ _ _ _ _ _ src N1 Hx) as (s2 & -> & N2 & C2). cbn [obind].
  pose proof (calm_ready _ _ _ _ C2 (calm_ready _ _ _ _ C1 R)) as R2.
  destruct (reply_sent n e s2 ac b m1 ms src a tail R2 Hn) as (s3 & pad & -> & Q3 & S3); [apply St|done|].
  exists s3, pad. split; [done|]. split; [by eapply nb_quiet|]. by apply (calm_sends _ _ _ s1), (calm_sends _ _ _ s2).
Qed.

(** The answer sends the packet that was held. *)
Lemma resolved n ext e s ac a src b id g x rej h k pad c :
  station e ac a -> foreign e ac b -> ready n s ac -> 0 < n -> arp_idle s -> wf None ext s ->
  nb s id b g x rej (mkLlinfo (Some h) k) -> is_link g -> x <> 0 -> plain h ->
  zlen src = 6 -> src <> ac_enaddr ac -> src <> etherbroadcastaddr -> is_addr b -> b <> a ->
  let data := arp_msg ARPOP_REPLY src b (ac_enaddr ac) a ++ pad in
  taken ac data c ->
  exists s', arp_in e s ac (eframe (ac_enaddr ac) src ETHERTYPE_ARP data) c = Ret s' /\
    nb s' id b (G_link 6 src) (et_now e + arpt_keep) false (mkLlinfo None 0) /\
    sends ac (eframe src (ac_enaddr ac) ETHERTYPE_IP (chain_bytes h)) s s'.
Proof.
  intros St Hf R Hn Hi W N Hg Hx Hh Hs H1 H2 Hb Hba data Hc.
  destruct (arp_in_input e s ac (ac_enaddr ac) src ARPOP_REPLY src b (ac_enaddr ac) a pad c) as (m1 & ms & tail & E & Hrd & Hl & Hif); try done; try apply St.
  unfold data. rewrite E, (arpinput_for_us e s ac a m1 ms ARPOP_REPLY src b tail) by done.
  rewrite (lookup_nb None ext e s id b g x rej _ true W N Hg). cbn [obind].
  destruct (learn_held n e s ac id b g x rej h k src R Hn Hh Hs N Hx) as (s2 & -> & N2 & S2). cbn [obind].
  unfold arp_reply. change (negb (ARPOP_REPLY =? ARPOP_REQUEST)) with true. cbv zeta. cbn iota. eexists. split; [reflexivity|].
  split; [by eapply nb_quiet; [apply free_quiet|]|]. destruct S2 as [S1 S3 S4]. split; [done| |done]. unfold et_free. rec_simpl. by rewrite m_freem_fail.
Qed.

(** An IP frame gets to the queue of the IP interrupt. *)
Lemma ip_in s ac src data c :
  hasf (ac_flags ac) IFF_UP = true -> zlen (ac_enaddr ac) = 6 -> zlen src = 6 -> Slip.IF_QFULL (et_ipq s) = false -> taken ac data c ->
  let f := eframe (ac_enaddr ac) src ETHERTYPE_IP data in
  exists c' pad, et_ipq (ether_input s ac (ztake 6 f) (rd16 f 12) c) = Slip.IF_ENQUEUE (et_ipq s) c' /\ chain_bytes c' = data ++ pad.
Proof.
  intros Hu H1 H2 Hq [[pad Hb] (m1 & ms & -> & _)] f. destruct (frame_type (ac_enaddr ac) src ETHERTYPE_IP data H1 H2) as (F1 & F2 & _); [done|].
  unfold f. rewrite F1, F2. unfold ether_input. rewrite Hu. cbn [negb]. cbv zeta. change (ETHERTYPE_IP =? ETHERTYPE_IP) with true. cbn iota. rewrite Hq.
  eexists _, pad. split; [reflexivity|]. rewrite <- Hb, !chain_bytes_cons. done.
Qed.

(** Packets to a neighbour whose entry is good until [x] *)
Lemma output_direct n s ac id b a6 x la :
  ready n s ac -> 0 < n -> nb s id b (G_link 6 a6) x false la -> zlen a6 = 6 ->
  forall e m, et_now e < x -> plain m ->
  exists s', ether_output e s ac m (E_inet b) (Some id) = Ret (0, s') /\ sends ac (eframe a6 (ac_enaddr ac) ETHERTYPE_IP (chain_bytes m)) s s'.
Proof.
  intros R Hn N Ha e m Hx Hm. destruct (output_known n e s ac m id b a6 x false la R Hn Hm N Ha) as (s' & E & _ & S); [by right|done|eauto].
Qed.

(** C13: A packet of station [a] for station [b] of the same Ethernet, whose address is not known.
    rtalloc makes an entry for [b] from the route to the interface; ether_output broadcasts one
    request and holds the packet; [b], given the request by its driver, enters [a] and sends one
    answer to it alone; [a], given the answer, sends the packet that it held to the Ethernet
    address of [b], where its bytes get to the IP queue; from then on, for 20 minutes, packets go
    at once, in both directions. *)
Theorem arp_end_to_end hA eA eA' eB acA acB a b sA sB llA llB xA xB pA pB rA rB m :
  station eA acA a -> station eA' acA a -> station eB acB b -> foreign eA' acA b -> foreign eB acB a -> ac_enaddr acA <> ac_enaddr acB ->
  wf None hA sA -> ready 3 sA acA -> arp_idle sA -> net_route sA acA a b llA xA pA rA -> xA <> 0 -> 0 < et_now eA ->
  ready 2 sB acB -> arp_idle sB -> net_route sB acB b a llB xB pB rB -> xB <> 0 -> plain m ->
  let f1 := who_has acA b in
  let f3 := eframe (ac_enaddr acB) (ac_enaddr acA) ETHERTYPE_IP (chain_bytes m) in
  exists sA1 sA2,
    rtalloc1 eA sA b 0 true = Ret (Some (et_next sA), sA1) /\
    ether_output eA sA1 acA m (E_inet b) (Some (et_next sA)) = Ret (0, sA2) /\ sends acA f1 sA sA2 /\
    forall c1, taken acB (zdrop 14 f1) c1 ->
    exists sB1 pad, let f2 := eframe (ac_enaddr acA) (ac_enaddr acB) ETHERTYPE_ARP (arp_msg ARPOP_REPLY (ac_enaddr acB) b (ac_enaddr acA) a ++ pad) in
      arp_in eB sB acB f1 c1 = Ret sB1 /\ sends acB f2 sB sB1 /\
      (forall e m', et_now e < et_now eB + arpt_keep -> plain m' ->
         exists s, ether_output e sB1 acB m' (E_inet a) (Some (et_next sB)) = Ret (0, s) /\
           sends acB (eframe (ac_enaddr acA) (ac_enaddr acB) ETHERTYPE_IP (chain_bytes m')) sB1 s) /\
      forall c2, taken acA (zdrop 14 f2) c2 ->
      exists sA3, arp_in eA' sA2 acA f2 c2 = Ret sA3 /\ sends acA f3 sA2 sA3 /\
        (forall c3, taken acB (zdrop 14 f3) c3 -> Slip.IF_QFULL (et_ipq sB1) = false ->
           exists c pad, et_ipq (ether_input sB1 acB (ztake 6 f3) (rd16 f3 12) c3) = Slip.IF_ENQUEUE (et_ipq sB1) c /\ chain_bytes c = chain_bytes m ++ pad) /\
        (forall e m', et_now e < et_now eA' + arpt_keep -> plain m' ->
           exists s, ether_output e sA3 acA m' (E_inet b) (Some (et_next sA)) = Ret (0, s) /\
             sends acA (eframe (ac_enaddr acB) (ac_enaddr acA) ETHERTYPE_IP (chain_bytes m')) sA3 s).
Proof.
  intros TA TA' TB FA FB Hne WA RA IA NA HxA HnA RB IB NB HxB Hm f1 f3. set (id := et_next sA).
  destruct (frame_type etherbroadcastaddr (ac_enaddr acA) ETHERTYPE_ARP (arp_msg ARPOP_REQUEST (ac_enaddr acA) (ac_ipaddr acA) (repeat 0 6) b))
    as (_ & _ & D1); [done|apply TA|done|]. fold (who_has acA b) in D1. fold f1 in D1. rewrite (st_ip _ _ _ TA) in D1.
  destruct (clone_nb eA sA acA a b llA xA pA rA NA (rd_pool _ _ _ RA)) as (sA1 & E1 & N1 & C1).
  pose proof (calm_ready _ _ _ _ C1 RA) as RA1.
  destruct (ask_step 3 eA sA1 acA m id b llA xA false (mkLlinfo None 0) RA1) as (sA2 & E2 & N2 & S2); [done|done|done|done|done|done|by left|].
  assert (WA2 : wf None (bump hA id 1) sA2).
  { destruct (rtalloc1_ok None hA eA sA b 0 true WA) as (o & s' & E' & Hg & _). rewrite E1 in E'. injection E' as <- <-. destruct Hg as (W1 & r1 & Hr1 & _).
    destruct (ether_output_ok _ eA sA1 acA m (E_inet b) (Some id) W1 (plain_ne _ Hm)) as (err & s' & E' & W2 & _); [intros i [= <-]; eauto|].
    rewrite E2 in E'. by injection E' as _ <-. }
  exists sA1, sA2. pose proof (calm_sends _ _ _ _ _ C1 S2) as SA2. split; [done|]. split; [done|]. split; [done|]. intros c1. rewrite D1. intros T1.
  destruct (answers 2 eB sB acB b (ac_enaddr acA) a llB xB pB rB c1) as (sB1 & pad & E3 & N3 & S3); try done; try apply TA.
  exists sB1, pad. split; [unfold f1, who_has; rewrite (st_ip _ _ _ TA); exact E3|]. split; [done|]. split.
  { eapply (output_direct 1); [exact (sends_ready _ _ _ _ _ RB S3)|done|exact N3|apply TA]. }
  destruct (frame_type (ac_enaddr acA) (ac_enaddr acB) ETHERTYPE_ARP (arp_msg ARPOP_REPLY (ac_enaddr acB) b (ac_enaddr acA) a ++ pad)) as (_ & _ & D2); [apply TA|apply TB|done|].
  intros c2. rewrite D2. intros T2. pose proof (sends_ready _ _ _ _ _ RA SA2) as RA2.
  assert (IA2 : arp_idle sA2) by (unfold arp_idle; destruct SA2 as [_ _ (_ & _ & ->)]; exact IA).
  destruct (resolved 2 (bump hA id 1) eA' sA2 acA a (ac_enaddr acB) b id (G_link 0 llA) (et_now eA) false m 1 pad c2 TA' FA RA2) with (4 := N2) as (sA3 & E4 & N4 & S4);
    try done; [lia|apply TB|apply TB|apply TB|apply NA|].
  exists sA3. split; [done|]. split; [done|].
  destruct (frame_type (ac_enaddr acB) (ac_enaddr acA) ETHERTYPE_IP (chain_bytes m)) as (_ & _ & D3); [apply TB|apply TA|done|].
  split; [intros c3; fold f3 in D3; rewrite D3; intros T3 Hq; apply ip_in; try done; try apply TB; apply TA|].
  eapply (output_direct 1); [exact (sends_ready _ _ _ _ _ RA2 S4)|done|exact N4|apply TB].
Qed.

(** ** The two hosts of EtherInv *)

Lemma wit_station now a : 0 <= a < 256 -> station (env1 now a) (ac1 a) (net10 + a).
Proof.
  intros Ha. split; try done; [unfold is_addr, net10; lia|by left].
Qed.
Lemma wit_foreign now a b : a <> b -> foreign (env1 now a) (ac1 a) (net10 + b).
Proof. intros Hab x [[= ->]|[]%elem_of_nil]%elem_of_cons. lia. Qed.
Lemma wit_ready n a : n <= 50 -> ready n (host a) (ac1 a).
Proof. intros Hn. split; try done. Qed.
Lemma wit_route12 : net_route (host 1) (ac1 1) (net10 + 1) (net10 + 2) (repeat 0 6) 1 1 (if_route 1).
Proof. by split. Qed.
Lemma wit_route21 : net_route (host 2) (ac1 2) (net10 + 2) (net10 + 1) (repeat 0 6) 1 1 (if_route 2).
Proof. by split. Qed.

Lemma arp_end_to_end_witness :
  exists sA1 sA2 sB1,
    rtalloc1 (env1 100 1) (host 1) (net10 + 2) 0 true = Ret (Some 2, sA1) /\
    ether_output (env1 100 1) sA1 (ac1 1) (pkt 7) (E_inet (net10 + 2)) (Some 2) = Ret (0, sA2) /\
    arp_in (env1 100 2) (host 2) (ac1 2) (who_has (ac1 1) (net10 + 2)) [mkMbuf 0 (zdrop 14 (who_has (ac1 1) (net10 + 2))) MT_DATA M_PKTHDR 28 1 0 0] = Ret sB1.
Proof.
  destruct (arp_end_to_end (fun _ => 0) (env1 100 1) (env1 101 1) (env1 100 2) (ac1 1) (ac1 2) (net10 + 1) (net10 + 2) (host 1) (host 2)
    (repeat 0 6) (repeat 0 6) 1 1 1 1 (if_route 1) (if_route 2) (pkt 7)) as (sA1 & sA2 & E1 & E2 & _ & H);
    [by apply wit_station..|by apply wit_foreign|by apply wit_foreign|done|apply initial_inv, (host_initial 1)|by apply wit_ready|done|exact wit_route12|done|done
    |by apply wit_ready|done|exact wit_route21|done|done|].
  destruct (H [mkMbuf 0 (zdrop 14 (who_has (ac1 1) (net10 + 2))) MT_DATA M_PKTHDR 28 1 0 0]) as (sB1 & pad & E3 & _).
  { split; [exists []; rewrite app_nil_r; apply chain_bytes_one|by eexists _, _]. }
  exists sA1, sA2, sB1. split; [exact E1|]. split; [exact E2|exact E3].
Defined.

Definition wit_tries : list (etenv * chain) := map (fun t => (env1 (100 + t) 1, pkt t)) [1; 2; 3; 4; 5].

Lemma arp_gives_up_witness :
  exists s s' qs, output_all (ac1 1) (net10 + 2) 2 (wit_tries ++ [(env1 106 1, pkt 6)]) s = Ret (repeat 0 6, s') /\ length qs = 5%nat /\
    Forall (fun q => chain_bytes q = who_has (ac1 1) (net10 + 2)) qs /\
    ether_output (env1 120 1) s' (ac1 1) (pkt 7) (E_inet (net10 + 2)) (Some 2) = Ret (EHOSTDOWN, et_free (pkt 7) s').
Proof.
  destruct (clone_nb (env1 100 1) (host 1) (ac1 1) (net10 + 1) (net10 + 2) (repeat 0 6) 1 1 (if_route 1) wit_route12) as (s & _ & N & C); [done|].
  destruct (arp_gives_up (ac1 1) (net10 + 2) 2 (repeat 0 6) s 100 1 (mkLlinfo None 0) wit_tries (env1 106 1) (pkt 6)) as (s' & qs & E & _ & L & F & _ & H & _);
    [by apply (calm_ready _ _ _ _ C), wit_ready|exact N|done|done|done|done|by cbn|by repeat constructor|done|done|].
  exists s, s', qs. split; [exact E|]. split; [exact L|]. split; [exact F|]. by apply H.
Defined.

End EtherOk.
