(* ===== verification/Scenario.v ===== *)
(** Two hosts: a whole connection run through the model.

    The components are put together as the system calls and the network put them
    together: host A connects to a listening port of host B, sends data, both sides
    shut down.  Packets that one host hands to ip_output are delivered to tcp_input
    of the other, the fast timer runs between deliveries.  The run is evaluated, so
    it checks that the definitions are executable and agree with each other. *)
From S2P Require Import Prelude TcpSeq Mbuf Cksum SockBuf Socket TcpVar Sample InPcb TcpHdr TcpSubr TcpReass TcpOutput TcpInput TcpTimer TcpUsrreq TcpKernel.
Import TcpSeq Mbuf Cksum SockBuf Socket TcpVar Sample InPcb TcpHdr TcpSubr TcpReass TcpOutput TcpInput TcpTimer
  TcpUsrreq TcpKernel.

Module Scenario.

(** The two hosts. *)
Definition fresh_so (o : Z) : socket :=
  mkSocket o 0 0 0 0 (mkSb 0 8192 0 16384 1 [] 0) (mkSb 0 8192 0 16384 2048 [] 0) Q_none [].
Definition client : conn := mkConn 1 (tcp_newtcpcb g0) (mkInp 0 0 10 1024 None [] 64 0) (fresh_so 0) 0 0.
Definition listener : conn :=
  mkConn 1 ((tcp_newtcpcb g0) <| t_state := TCPS_LISTEN |>) (mkInp 0 0 0 80 None [] 64 0) (fresh_so SO_ACCEPTCONN) 0 5.
Definition host_a : kernel := mkKernel [client] g0 p0 [] [] 0 2 [].
Definition host_b : kernel := mkKernel [listener] (g0 <| tcp_iss := 77777 |>) p0 [] [] 0 2 [].

Definition ce0 : connenv := mkConnenv (Some 10) None (fun _ => Some 10).
Definition ue0 (K : kernel) : uenv :=
  mkUenv net0 (fun i _ => Ret (inr i)) (fun i a p => pcbconnect c_inp ce0 (k_conns K) i a p) 4000.
Definition ke0 : kenv := mkKenv net0 ce0 4000 [] 40 true true.

(** A system call on socket [id]. *)
Definition usr (K : kernel) (id : Z) (r : pru) : outcome kernel :=
  match conn_of K id with
  | Some c => let! (k, e) := tcp_usrreq (ue0 K) (load K c) r in Ret (store K id k)
  | None => Panic "no such socket"
  end.

(** accept: the descriptor refers to the sockets of the listener. *)
Definition accept (K : kernel) : kernel :=
  K <| k_conns := map (fun c => c <| c_so := (c_so c) <| so_state := clrb (so_state (c_so c)) SS_NOFDREF |> |>) (k_conns K) |>.

(** The packets a host has handed to ip_output, in order. *)
Definition take_out (K : kernel) : list packet * kernel := (rev (k_sent K), K <| k_sent := [] |>).
Fixpoint deliver (K : kernel) (ps : list packet) : outcome kernel :=
  match ps with
  | [] => Ret K
  | p :: ps => let! K := tcp_input ke0 K (pk_m p) (pk_iplen p - sizeof_ip) in deliver K ps
  end.

(** [n] rounds of exchange, each followed by the fast timer of both hosts. *)
Fixpoint pump (n : nat) (A B : kernel) : outcome (kernel * kernel) :=
  match n with
  | O => Ret (A, B)
  | S n =>
      let '(o1, A) := take_out A in
      let '(o2, B) := take_out B in
      let! B := deliver B o1 in
      let! A := deliver A o2 in
      let! A := tcp_fasttimo net0 A in
      let! B := tcp_fasttimo net0 B in
      pump n A B
  end.

(** 6003 bytes in 61 mbufs: more than four segments. *)
Definition message : chain :=
  dmb [104; 105; 106] :: map (fun i => dmb (repeat (Z.of_nat i) 100)) (seq 0 60).

Definition opened : outcome (kernel * kernel) :=
  let! A := usr host_a 1 (PRU_CONNECT 20 80) in
  let! (A, B) := pump 4 A host_b in
  Ret (A, accept B).
Definition transferred : outcome (kernel * kernel) :=
  let! (A, B) := opened in
  let! A := usr A 1 (PRU_SEND message) in
  pump 16 A B.
Definition closed : outcome (kernel * kernel) :=
  let! (A, B) := transferred in
  let! A := usr A 1 PRU_SHUTDOWN in
  let! (A, B) := pump 8 A B in
  let! B := usr B 2 PRU_SHUTDOWN in
  pump 6 A B.

Definition states (K : kernel) : list tcp_state := map (fun c => t_state (c_tp c)) (k_conns K).
Definition rcv_bytes (K : kernel) (id : Z) : option (list Z) := (fun c => sb_bytes (so_rcv (c_so c))) <$> conn_of K id.
Definition snd_left (K : kernel) (id : Z) : option Z := (fun c => sb_cc (so_snd (c_so c))) <$> conn_of K id.

Definition check (r : outcome (kernel * kernel)) (f : kernel -> kernel -> bool) : bool :=
  match r with Ret (A, B) => f A B | _ => false end.

(** One connection from start to end through the composed model, by evaluation: after connect
    and four exchanges both ends are ESTABLISHED (the three-way handshake, with the listener
    still listening); after a send of 6003 bytes and the exchanges of segments and
    acknowledgements the receiver's buffer holds exactly the bytes sent and the sender's
    buffer is empty; after both sides shut down the active closer is in TIME_WAIT and the
    other side's connection is gone, with no panic on the way. *)
Theorem connection_scenario :
  check opened (fun A B =>
    bool_decide (states A = [TCPS_ESTABLISHED] /\ states B = [TCPS_ESTABLISHED; TCPS_LISTEN])) = true /\
  check transferred (fun A B =>
    bool_decide (rcv_bytes B 2 = Some (chain_bytes message) /\ snd_left A 1 = Some 0)) = true /\
  check closed (fun A B =>
    bool_decide (states A = [TCPS_TIME_WAIT] /\ states B = [TCPS_LISTEN])) = true.
Proof. split_and!; vm_compute; reflexivity. Qed.

End Scenario.
